(* ===== verification/_CoqProject ===== *)
-Q . S2P
Prelude.v
CStr.v
MxmlCodec.v
MxmlWriter.v
MxmlTree.v
Telnet.v
SelHeap.v
Selector.v
Utils.v
MxmlParse.v
MxmlSafe.v
MxmlFind.v
MxmlEdit.v
MxmlParents.v
MxmlEntity.v
MxmlInclude.v
DevCfg.v
ReadConfig.v
PortData.v
PortFlow.v
PortText.v
PortScript.v
PortSetup.v
PortAccept.v
PortConfig.v
PortTable.v
PortStream.v
PortLive.v
ComPort.v
CtlData.v
PortAdmin.v
Controller.v
CtlEdit.v
CtlOut.v
CtlLife.v
VmeBus.v
Vf48.v
Vf48Param.v
Vf48Event.v
Vf48Read.v
Vt48.v
Vt48Props.v
VmeRings.v
EventBuild.v
EventProps.v
EventRead.v
MidasEvent.v
MidasBanks.v
MidasSwap.v
MidasFile.v
MidasStream.v
Digitizer.v
Waveforms.v
DataContainer.v
EventLoop.v
PtfConverter.v
FileLoop.v
OneFile.v
PtfScan.v
PtfRun.v
PtfScript.v
MpmtConverter.v
MpmtRun.v
