(* ===== verification/Prelude.v ===== *)
(** * The C programs of ptf-online-converter: a verification library

    The repository holds what the online system of a photomultiplier test
    facility runs: [ser2net] (a daemon that connects serial lines to TCP
    ports, under [src/ser2net/]), [mxml] (the XML library of the
    experiment's configuration, [src/mxml/]), the VME drivers ([src/vme/]),
    and beside them C++ programs that convert the files of the data acquisition
    ([src/midas2root/], on the library [src/rootana/]) and vendored libraries.  This
    library models the code that is the repository's own and proves what it
    promises, from the serial line to the rows of the scan's tree; where the code does not
    keep a promise, that is a theorem or an example too.

    ** How the code is modelled

    A function is a function into [res]: [Ok] of what it returns, or
    [Crash] with the reason when it leaves the defined behaviour of the
    language ([OutOfBounds], [NullDeref], [Uninit], a failed [assert], signed
    overflow, [DivideByZero], an exception that nothing catches: [Uncaught]) or ends the process ([Exited]).  Code with state is in the monad
    [ST S] over a record of the state ([_ ← m; k] of stdpp's notation).
    Structures are records updated by [set_]/[with_] functions; memory that is shared
    or freed (ports, control connections, timers) is a [gmap] from pointers to
    records, so that an access after [free] is a [Crash NullDeref].  Arrays whose bounds
    matter are lists of their full length with checked access.  Machine words are
    [Z] with their wrap-around written out; flags are bits of a [Z];
    characters are [ascii] in [mxml] and the configuration, and numbers below
    256 in the data paths.  A [double] is its 64 bits.  A loop is structural recursion where its bound is
    visible; otherwise it has fuel, and [Crash NoFuel] is one more outcome that the
    theorems exclude.

    Code outside the repository is an interface: a [Class] of operations on an
    abstract state, with a second class of laws that say what is relied on.
    [Kernel], [Tty], [Net], [Libc], [Modem], [Memory], [CtlMemory] (system
    calls, the terminal driver, sockets, time, modem lines, [malloc]),
    [Resolver] ([gethostbyname]) and [Mvme], [Frontends], [Fifo], [TdcModule],
    [Rings], [RingLaws], [RingFrame] (the MIDAS library, its ring buffers and DMA, and the modules
    behind it), [MidasIO] and [MidasIOLaws] (the system and [zlib], below files of events) and [Root]
    and [RootLaws] (ROOT's files and trees) are such.  Interfaces inside the program
    are classes too, and the file that implements one provides the instance:
    [TelnetOutput]/[TelnetClient] of [telnet.c] (instances in [PortFlow],
    [ComPort] and [Controller]), [ComPort] of the transfer (instance
    [rfc2217_port]), [ConfigNames] of [devcfg.c] (instance [rc_names]) and
    [Ports] of [readconfig.c] (it promises nothing; instance [dx_ports]), [XmlFiles], the files of the XML library (instance [library_files]), and [Analyzer], the virtual methods of
    the event loop (instances [ptf] and [mpmt]).  [PortScript] has a system that
    answers from a script, [Vf48Param] a simulated module, [MidasStream] a disk and [OneFile] a
    simulated ROOT: the witnesses run on them.

    ** The files

    Shared: [Prelude] (outcomes, the state monad, arrays), [CStr]
    ([<string.h>], and [strlcpy], [strlcat] of [mxml/strlcpy.c]).

    XML, [mxml/mxml.c]: [MxmlCodec] ([mxml_encode], [mxml_decode]),
    [MxmlWriter] (the writer, a state machine over [MXML_WRITER]), [MxmlTree]
    (nodes, attributes, [mxml_write_subtree], [mxml_clone_tree]), [MxmlParse]
    ([mxml_parse_buffer]), [MxmlSafe] (its behaviour on every input),
    [MxmlFind] (paths: [mxml_find_nodes] and what is built on it), [MxmlEdit]
    (the removal of nodes, and the type that edits keep), [MxmlParents] (adding and
    deleting a node in memory, with the arrays and the parent pointers), [MxmlEntity]
    ([mxml_parse_entity], [mxml_parse_file]) and [MxmlInclude] (its properties, and a system with
    files).

    ser2net: [Telnet] ([telnet.c]), [SelHeap] and [Selector] ([selector.c]:
    the timer heap; descriptors and the main loop), [Utils] ([utils.c]), [DevCfg]
    ([devcfg.c]), [ReadConfig] ([readconfig.c]).  The ports of [dataxfer.c]
    are in [PortData] (state and interfaces to the system), [PortFlow] (the
    transfer handlers, the idle timer, [shutdown_port]), [PortText] (banner and
    trace names), [PortSetup] (a connection request, the lock files, the accept
    socket; [usbFindSerial.c]), [PortConfig] ([portconfig],
    [clear_old_port_config]), [ComPort] (RFC 2217) and [PortAdmin] (the
    commands on ports).  [controller.c] is [CtlData] and [Controller].
    Properties that need more room are in files of their own: [PortStream]
    and [PortLive] (the transfer), [PortAccept] (connection requests),
    [PortTable] (the configuration), [CtlEdit], [CtlOut] and [CtlLife] (the
    control port).

    VME: [VmeBus] (the interface), [Vf48] and [Vf48Event] ([vf48.c]) with
    [Vf48Param] and [Vf48Read] for their properties, [Vt48] ([vt48.c] and
    [sis3820.c]) with [Vt48Props].  The event builders [vf48_multi.c] and
    [vt48_multi.c] are [VmeRings] (units, rings and segments) and [EventBuild] (the operations), with
    [EventProps] and [EventRead].

    MIDAS files and their conversion: [MidasEvent] ([TMidasEvent.cxx]: banks, byte order) with
    [MidasBanks] and [MidasSwap] for its properties, [MidasFile] ([TMidasFile.cxx])
    with [MidasStream]; [Digitizer] (the decoders of the modules' banks) with
    [Waveforms]; [DataContainer] and [EventLoop] ([TDataContainer],
    [TRootanaEventLoop]) with [FileLoop] (what the loop does on a file, for every program);
    [PtfConverter] ([midas2root_ptf.cxx]: the handler of events
    and [main]) with [PtfScan] (the abstract scan, and that handling an event is one step of it),
    [PtfRun] (from the bytes of a file to the rows) and [PtfScript] (a run in several files,
    [run_convert_to_root.sh]); [MpmtConverter] ([midas2root_mpmt.cxx]) with [MpmtRun].  The witnesses
    of the converters run on the system of [OneFile].

    Every operation has the name of its C function; parts of one have names of
    their own and say in a comment which loop or branch they are.

    ** What is shown

    - Streams.  What the device sends reaches the connection, doubled 255s
      included, in order, once, whatever the pieces ([dev_to_tcp_stream]); the
      other direction for raw ports ([tcp_to_dev_stream]); a connection that
      takes what it is offered empties the buffer ([dev_to_tcp_drains]); the
      output of a control connection is a queue ([control_stream]).
    - Telnet.  Cutting the input anywhere does not change what is parsed or
      answered ([process_telnet_data_segmented]); the parser stays within its
      buffers for clients that keep an invariant, or a suboption ends in its input for an
      option without a handler ([process_telnet_data_safe]),
      and the ports are such clients ([telnet_port_input]); options that are
      queued are read back ([telnet_option_roundtrip]).
    - RFC 2217.  A request changes exactly the setting it names
      ([com_port_request_sets]).
    - Sessions.  A connection request opens a session from which the transfer
      theorems start ([accept_session]), never two on a port or a device
      ([accept_exclusive]); a port that is shut down writes the last lines of its
      traces, closes what it has open once and is unconnected
      ([shutdown_port_closes]); reading a device fails in two cases and no other
      ([dev_read_bounds]).
    - Configuration.  The words of a line act on the meaning of the line
      settings ([devconfig_refines]) and are printed back
      ([show_devcfg_devconfig]); reading the file changes the table of ports as
      the abstract table says ([portconfig_refines], [clear_old_refines]);
      [readconfig] handles the pieces of the lines of every file within its buffers,
      whatever [portconfig] does, and stops at the first line that fails: a BANNER line without
      a text, or a port line for which [portconfig] fails ([readconfig_safe]).
    - Timers and descriptors.  The heap with its pointers refines a multiset
      with a least element ([sel_start_timer_refines],
      [sel_stop_timer_refines]); the timer phase runs the earliest timer while it is
      due at the last reading of the clock, and waits the time to the next
      ([timer_phase_complete]); [maxfd] is exact ([selector_maxfd]).
    - Control port.  The line editor does what typing one key after the other does
      ([read_types_line]); monitors and ports name each other
      ([monitor_links]); at most four connections ([connection_limit]).
    - XML.  Writing a tree to a file and reading the file gives the tree back
      ([mxml_file_roundtrip], on [mxml_written_parses]); references to the files of a document are replaced
      by their texts, files in files included ([mxml_entities]); the parser ends, and stays in its buffers, for every
      input with two exceptions that are shown ([mxml_parse_total]); a path finds
      the nodes it means ([find_nodes_select]) and never anything but nodes of
      the tree ([find_nodes_sound]); edits keep the names and attributes of a tree
      well formed ([edit_typed]); in memory a node that is added is stored where it belongs, and the parents are right
      but below a last child that moved ([add_node_linked]), which costs a later deletion
      its place ([deleted_node_stays]); the writer makes the text and the open
      elements that its calls mean, in a buffer that grows ([writer_refines]).
    - VME.  Parameters of a VF48 are stored where they belong, cut to the limits of the header, and read back
      ([parameter_roundtrip]), by modules that take the group in bits 15 to 12 of the id, where the driver puts it; in
      the frame the header notes everything goes to group 0 ([group_in_noted_frame]); reading an event does what a specification of the
      stream of words says ([event_read_refines], and [vt48_event_read] for the
      VT48); a setup of the VT48 leaves the registers of its mode, and no other changed
      ([vt48_setup_registers]).
    - Event builders.  Reading the modules ends and adds whole segments to the
      rings ([vf48_read_segments], of [EventRead]); the banks made of them hold every word of a
      stream ([vf48_stream_banks]) or exactly one event ([vf48_event_banks]); an event that does not
      end its segment costs two words ([vf48_event_loses_words]), and for the VT48 the
      next call ([vt48_event_then_abort]).
    - MIDAS files.  Events that are written are read back, in order, whatever the
      pieces the system delivers and up to the event the file was cut in
      ([midas_file_roundtrip]); the first bank of a name is found with its type and data
      ([find_bank_first]), the list of banks has their names ([bank_list_names]), and events
      of a machine of the other byte order become those of this one ([swap_foreign]).
    - Modules.  The decoders give the waveforms that the modules packed
      ([v1730_decode], [v1720_zle_decode], [brb_decode]).
    - Scans.  The converter is, event for event, an abstract machine with the points and the
      readings of a measurement ([handle_event]), and so a run of the program on a file makes
      one row of every measurement that ends in it ([ptf_rows]); the rows of a run in
      several files, converted one by one, are those of the whole run when no file ends inside a
      measurement ([ptf_script]).  The converter of the mPMT data makes one row of every event
      of the BRB, with the last waveform of each channel and the last temperatures ([mpmt_rows]).
    - Failures, each at a concrete input or for a class of inputs: closing a writer closes half of the
      open levels, a clone has attributes that were never written, a name of
      256 characters overruns the parser, an option without a handler ends the
      process, doubling overruns the port's buffer, [exit] on the control port
      goes on with a freed connection, a port that is off breaks the reading of
      the configuration, two events in a block make the buffered reader read
      uninitialised memory, listing 32-bit banks reads behind the event ([bank32_overread]),
      the converter's tree is not initialised, a measurement that is cut by the end of a file is lost, and others; the examples at the ends of the files
      hold the smaller ones.

    ** Fuel and bounds

    The parsers take the length of their text as fuel and the theorems show that
    it is enough ([mxml_parse_total]); the heap operations take the number of
    nodes; the editor of the control port the bytes of the read; freeing a port
    the length of its chain of new configurations; the entities of a document the depth of files
    in files, which has no bound when a file includes itself ([file_includes_itself]).  A write that is repeated
    after an interrupt takes the number of interrupts the system still has in store ([interrupts]).
    [vf48_EventReadPio], [vf48_EventReadSync], [vt48_EventRead] and [vt48_Setup] loop as
    long as the module says, so their fuel is an argument; for the VT48 the theorems
    say how much is enough.  Timeouts of the VME code are the
    ones of the source.  The reading loop of a file takes one more than its events, the loops
    over banks and samples the length of the event.  The loops over the segments of a ring take the number of segments; the
    loops that align a transfer have the three rounds they need.  The timer of a port is taken to fire when the selector
    says so; time itself is the argument of the loop.

    ** What is not modelled

    [ser2net.c] (options, becoming a daemon, signals) and [setup_sighup]:
    system calls without a logic of their own.  [print_tree] and [check_tree] of
    [selector.c] and [mxml_debug_tree]: debugging output.  Of [mxml.c],
    a tree is a value and a node is named by its path, so the parent pointers and the memory
    of freed nodes are not there but in [MxmlParents], which has no [mxml_add_tree_at] and no cloning.
    [RingLaws] lets the words of a segment be read behind the read pointer as plain memory, and promises the
    one behind the last, which the ring of the MIDAS library has only where it does not wrap.  Messages to the log
    and to the terminal are left out of the ser2net and VME models.  [malloc]
    fails only where the interfaces [Memory] and [CtlMemory] let it.
    Of the event builders, the bank format of MIDAS ([bk_create]) and the code without
    [HAVE_GEFVME].  Of the event loop: data that are taken now ([HAVE_MIDAS]), windows and statistics; of a converter the
    histograms that are never filled, the names of its branches and the settings in a second tree
    ([INCLUDE_MVODB_H]).  The other C++ programs (the displays of [rootana], [roody], the VME
    tests) are drawing and glue on the
    ROOT framework; [phidget] and [caen_usb_dt5730] are vendored libraries.
    [roody/src/mxml.c] is the file that is modelled, with another revision
    tag. *)

From stdpp Require Export prelude gmap strings list numbers.
From Stdlib Require Export ZArith Lia.

#[global] Open Scope Z_scope.

(** ** Outcomes of C code

    A C function either returns or leaves the defined behaviour of the
    language (or the process).  The second case is a value of the model, so that "never
    happens" is a theorem and "happens here" is one too. *)
Inductive crash : Type :=
  | OutOfBounds      (** a store or load outside its object *)
  | NullDeref        (** a load through a null pointer *)
  | Uninit           (** a load of memory never written *)
  | AssertFail       (** an [assert] that does not hold *)
  | IntOverflow      (** signed overflow *)
  | DivideByZero     (** an integer division by zero *)
  | Uncaught         (** a C++ exception that nothing catches *)
  | Exited           (** not a fault: [exit] was called *)
  | NoFuel.          (** a loop of the model used up its fuel *)

#[global] Instance crash_eq_dec : EqDecision crash.
Proof. solve_decision. Defined.

Inductive res (A : Type) : Type :=
  | Ok (a : A)
  | Crash (c : crash).
Arguments Ok {A} a.
Arguments Crash {A} c.

#[global] Instance res_ret : MRet res := fun A a => Ok a.
#[global] Instance res_bind : MBind res := fun A B k m =>
  match m with Ok a => k a | Crash c => Crash c end.
#[global] Instance res_fmap : FMap res := fun A B f m =>
  match m with Ok a => Ok (f a) | Crash c => Crash c end.

Definition is_Ok {A} (r : res A) : bool :=
  match r with Ok _ => true | Crash _ => false end.

Definition check (b : bool) (c : crash) : res unit :=
  if b then Ok tt else Crash c.

Lemma res_bind_Ok {A B} (k : A -> res B) a : (Ok a ≫= k) = k a.
Proof. reflexivity. Qed.

Lemma res_bind_inv {A B} (m : res A) (k : A -> res B) b :
  (m ≫= k) = Ok b -> exists a, m = Ok a /\ k a = Ok b.
Proof. destruct m; simpl; [eauto | discriminate]. Qed.

Lemma check_inv b c u : check b c = Ok u -> b = true.
Proof. destruct b; simpl; congruence. Qed.

Lemma check_true b c : b = true -> check b c = Ok tt.
Proof. by intros ->. Qed.

Lemma check_leb a b c : a <= b -> check (a <=? b) c = Ok tt.
Proof. intros. by apply check_true, Z.leb_le. Qed.

Lemma check_bind {B} a b c (k : unit -> res B) : a <= b -> (check (a <=? b) c ≫= k) = k tt.
Proof. intros. by rewrite check_leb by done. Qed.

(** Loads and stores through a pointer to element [d] of an object. *)
Definition load {A} (m : list A) (d : nat) : res A :=
  match m !! d with Some a => Ok a | None => Crash OutOfBounds end.

Definition store {A} (m : list A) (d : nat) (c : A) : res (list A) :=
  if bool_decide (d < length m)%nat then Ok (<[d:=c]> m) else Crash OutOfBounds.

(** ** Code with a state

    [ST S A] is a piece of code over the state [S]: it leaves defined
    behaviour, or returns an [A] and the new state. *)
Definition ST (S A : Type) : Type := S -> res (A * S).
#[global] Instance ST_ret S : MRet (ST S) := fun A a s => Ok (a, s).
#[global] Instance ST_bind S : MBind (ST S) := fun A B k m s =>
  match m s with Ok (a, s') => k a s' | Crash c => Crash c end.

Definition get {S} : ST S S := fun s => Ok (s, s).
Definition modify {S} (f : S -> S) : ST S unit := fun s => Ok (tt, f s).
Definition lift_res {S A} (r : res A) : ST S A := fun s =>
  match r with Ok a => Ok (a, s) | Crash c => Crash c end.

Lemma ST_bind_eq {S A B} (m : ST S A) (k : A -> ST S B) s :
  (m ≫= k) s = match m s with Ok (a, s') => k a s' | Crash c => Crash c end.
Proof. reflexivity. Qed.

Lemma ST_bind_Ok {S A B} (m : ST S A) (k : A -> ST S B) s a s' :
  m s = Ok (a, s') -> (m ≫= k) s = k a s'.
Proof. intros H. by rewrite ST_bind_eq, H. Qed.

Lemma ST_bind_inv {S A B} (m : ST S A) (k : A -> ST S B) s r :
  (m ≫= k) s = Ok r -> exists a s', m s = Ok (a, s') /\ k a s' = Ok r.
Proof. rewrite ST_bind_eq. destruct (m s) as [[a s']|]; [eauto|discriminate]. Qed.

Lemma ST_bind_assoc {S A B C} (m : ST S A) (k : A -> ST S B) (h : B -> ST S C) s :
  ((m ≫= k) ≫= h) s = (m ≫= (fun a => k a ≫= h)) s.
Proof. rewrite !ST_bind_eq. by destruct (m s) as [[a s']|]. Qed.

(** ** Automation *)
Create HintDb ptf discriminated.

(** [res_simp] opens every successful computation among the hypotheses. *)
Ltac res_simp :=
  repeat match goal with
  | H : (_ ≫= _) = Ok _ |- _ =>
      let a := fresh "a" in let H1 := fresh "Hm" in
      apply res_bind_inv in H as (a & H1 & H)
  | H : check _ _ = Ok _ |- _ => apply check_inv in H
  | H : Ok _ = Ok _ |- _ => injection H as H; subst
  | H : Crash _ = Ok _ |- _ => discriminate H
  | p : _ * _ |- _ => destruct p
  end; simpl in *.

(** [bsolve] turns boolean guards of the code into propositions and calls
    [lia]. *)
Ltac bprop :=
  repeat match goal with
  | H : _ && _ = true |- _ => apply andb_true_iff in H as [? ?]
  | H : _ || _ = false |- _ => apply orb_false_iff in H as [? ?]
  | H : negb _ = true |- _ => apply negb_true_iff in H
  | H : negb _ = false |- _ => apply negb_false_iff in H
  | H : bool_decide _ = true |- _ => apply bool_decide_eq_true in H
  | H : bool_decide _ = false |- _ => apply bool_decide_eq_false in H
  | H : (_ =? _) = true |- _ => apply Z.eqb_eq in H
  | H : (_ =? _) = false |- _ => apply Z.eqb_neq in H
  | H : (_ <? _) = true |- _ => apply Z.ltb_lt in H
  | H : (_ <? _) = false |- _ => apply Z.ltb_ge in H
  | H : (_ <=? _) = true |- _ => apply Z.leb_le in H
  | H : (_ <=? _) = false |- _ => apply Z.leb_gt in H
  end.
Ltac bsolve := bprop; try lia.

(** ** Lists *)
Section lists.
Context {A : Type}.
Implicit Types l k : list A.

Lemma take_app_exact l k : take (List.length l) (l ++ k) = l.
Proof. rewrite take_app_length. reflexivity. Qed.

Lemma drop_app_exact l k : drop (List.length l) (l ++ k) = k.
Proof. rewrite drop_app_length. reflexivity. Qed.

Lemma length_tail l : length (tail l) = (length l - 1)%nat.
Proof. destruct l; simpl; lia. Qed.

Lemma load_app l a k : load (l ++ a :: k) (length l) = Ok a.
Proof. unfold load. by rewrite list_lookup_middle. Qed.

Lemma tail_drop n l : tail (drop n l) = drop (S n) l.
Proof. revert l. induction n as [|n IH]; intros [|a l]; simpl; rewrite ?drop_0; done. Qed.
End lists.

Lemma store_Ok {A} (m : list A) d c : (d < length m)%nat -> store m d c = Ok (<[d:=c]> m : list A).
Proof. intros. unfold store. by rewrite bool_decide_eq_true_2. Qed.

Lemma insert_app_at {A} (u v : list A) a c : <[length u := c]> (u ++ a :: v) = u ++ c :: v.
Proof. induction u as [|b u IH]; simpl; [done | by f_equal]. Qed.
