(* ===== verification/CStr.v ===== *)
(** * C strings

    The part of [<string.h>] and [<ctype.h>] (C locale) the modelled files
    call, on NUL-free lists of characters, and the two bounded copies that
    [mxml/strlcpy.c] defines itself.  Those two are modelled as the source
    writes them, byte by byte in a destination of fixed size, and shown to
    compute [strlcpy_val] and [strlcat_val], the functions on string values
    that the other files use. *)

From Stdlib Require Export Ascii String.
From stdpp Require Export strings list.
#[global] Open Scope Z_scope.
From S2P Require Import Prelude.

Abbreviation cstr := (list ascii).

Definition str (s : string) : cstr := list_ascii_of_string s.
Arguments str s%_string.

Definition NUL : ascii := "000"%char.
Definition NL : ascii := "010"%char.
Definition DQUOTE : ascii := "034"%char.
Definition SQUOTE : ascii := "039"%char.

Notation "c =c d" := (Ascii.eqb c d) (at level 70, only parsing).

Definition slen (s : cstr) : Z := Z.of_nat (length s).

Definition code (c : ascii) : Z := Z.of_N (N_of_ascii c).

(** ** Character classes *)
Definition isspace (c : ascii) : bool :=
  (code c =? 32) || ((9 <=? code c) && (code c <=? 13)).
Definition isdigit (c : ascii) : bool := (48 <=? code c) && (code c <=? 57).
Definition isupper (c : ascii) : bool := (65 <=? code c) && (code c <=? 90).
Definition isxdigit (c : ascii) : bool :=
  isdigit c || ((65 <=? code c) && (code c <=? 70)) || ((97 <=? code c) && (code c <=? 102)).
Definition isprint (c : ascii) : bool := (32 <=? code c) && (code c <=? 126).

(** ** Searching *)

(** [strncmp(p, lit, strlen(lit)) == 0] *)
Fixpoint starts (lit p : cstr) : bool :=
  match lit, p with
  | [], _ => true
  | a :: lit', b :: p' => (a =c b) && starts lit' p'
  | _ :: _, [] => false
  end.

(** [strcmp(a, b) == 0] *)
Definition streq (a b : cstr) : bool := bool_decide (a = b).

(** [strchr(p, c)]: the text before the first [c] and the text from it on. *)
Fixpoint strchr (p : cstr) (c : ascii) : option (cstr * cstr) :=
  match p with
  | [] => None
  | d :: p' =>
      if d =c c then Some ([], p)
      else match strchr p' c with
           | Some (u, v) => Some (d :: u, v)
           | None => None
           end
  end.

(** [strstr(p, lit)], likewise. *)
Fixpoint strstr (p lit : cstr) : option (cstr * cstr) :=
  if starts lit p then Some ([], p)
  else match p with
       | [] => None
       | d :: p' => match strstr p' lit with
                    | Some (u, v) => Some (d :: u, v)
                    | None => None
                    end
       end.

(** [strrchr(p, c)]: the text before the last [c] and the text from it on. *)
Fixpoint strrchr (p : cstr) (c : ascii) : option (cstr * cstr) :=
  match p with
  | [] => None
  | d :: p' =>
      match strrchr p' c with
      | Some (u, v) => Some (d :: u, v)
      | None => if d =c c then Some ([], p) else None
      end
  end.

(** [while ( *p && f( *p)) p++], the skipped part and the rest. *)
Fixpoint skip_while (f : ascii -> bool) (p : cstr) : cstr * cstr :=
  match p with
  | [] => ([], [])
  | c :: p' => if f c then let '(u, v) := skip_while f p' in (c :: u, v) else ([], p)
  end.

(** [atoi] on a text that starts with a digit (no sign, no blanks). *)
Fixpoint digits_val (acc : Z) (p : cstr) : Z :=
  match p with
  | [] => acc
  | c :: p' => if isdigit c then digits_val (acc * 10 + (code c - 48)) p' else acc
  end.
Definition atoi (p : cstr) : Z := digits_val 0 p.

(** [strtok_r(s, delim, &save)]: skip delimiters, return the token and the
    text after the delimiter that ended it. *)
Definition strtok (delim : ascii -> bool) (s : cstr) : option (cstr * cstr) :=
  let '(_, s1) := skip_while delim s in
  match s1 with
  | [] => None
  | _ => let '(tok, s2) := skip_while (fun c => negb (delim c)) s1 in
         Some (tok, tail s2)
  end.

(** The tokens of [pos = strtok_r(s, delim, &save); while (pos) { ...; pos =
    strtok_r(NULL, delim, &save); }], in order. *)
Fixpoint tokens_fuel (fuel : nat) (delim : ascii -> bool) (s : cstr) : list cstr :=
  match fuel with
  | O => []
  | S f => match strtok delim s with
           | None => []
           | Some (tok, rest) => tok :: tokens_fuel f delim rest
           end
  end.
Definition tokens (delim : ascii -> bool) (s : cstr) : list cstr := tokens_fuel (length s) delim s.

(** ** Destination buffers *)

(** The C string that starts at the beginning of an object. *)
Definition cstr_of (m : list ascii) : cstr := fst (skip_while (fun c => negb (c =c NUL)) m).

(** [do { if (( *d++ = *s++) == 0) break; } while (--n != 0)]; the result is
    the memory, [d], [n] and the number of source characters consumed. *)
Fixpoint strlcpy_loop (n : nat) (m : list ascii) (d : nat) (s : cstr) (k : nat)
    : res (list ascii * nat * nat * nat) :=
  match n with
  | O => Ok (m, d, O, k)
  | S n' =>
      match s with
      | [] => m' ← store m d NUL; Ok (m', S d, S n', S k)
      | c :: s' =>
          m' ← store m d c;
          match n' with
          | O => Ok (m', S d, O, S k)
          | S _ => strlcpy_loop n' m' (S d) s' (S k)
          end
      end
  end.

Definition strlcpy (dst : list ascii) (src : cstr) (size : nat) : res (list ascii * nat) :=
  r ← (match size with
       | S (S n) => strlcpy_loop (S n) dst 0 src 0
       | _ => Ok (dst, O, O, O)
       end);
  let '(m, d, n, k) := r in
  match n with
  | O => m' ← (match size with O => Ok m | S _ => store m d NUL end);
         (* while ( *s++) ; s is now one past the terminator *)
         Ok (m', (k + length (drop k src) + 1 - 1)%nat)
  | S _ => Ok (m, (k - 1)%nat)
  end.

(** [while (n-- != 0 && *d != 0) d++] *)
Fixpoint strlcat_find (n : nat) (m : list ascii) (d : nat) : res nat :=
  match n with
  | O => Ok d
  | S n' => match m !! d with
            | None => Crash OutOfBounds
            | Some c => if c =c NUL then Ok d else strlcat_find n' m (S d)
            end
  end.

(** [while ( *s != 0) { if (n != 1) { *d++ = *s; n--; } s++; }] *)
Fixpoint strlcat_loop (s : cstr) (n : nat) (m : list ascii) (d : nat) : res (list ascii * nat) :=
  match s with
  | [] => Ok (m, d)
  | c :: s' =>
      if bool_decide (n = 1)%nat then strlcat_loop s' n m d
      else m' ← store m d c; strlcat_loop s' (n - 1) m' (S d)
  end.

Definition strlcat (dst : list ascii) (src : cstr) (size : nat) : res (list ascii * nat) :=
  dlen ← strlcat_find size dst 0;
  let n := (size - dlen)%nat in
  match n with
  | O => Ok (dst, (dlen + length src)%nat)
  | S _ =>
      r ← strlcat_loop src n dst dlen;
      let '(m, d) := r in
      m' ← store m d NUL;
      Ok (m', (dlen + length src)%nat)
  end.

(** The values the two functions leave in a destination of [size] bytes. *)
Definition strlcpy_val (size : Z) (src : cstr) : cstr := take (Z.to_nat (size - 1)) src.
Definition strlcat_val (size : Z) (dst src : cstr) : cstr :=
  if slen dst <? size then dst ++ take (Z.to_nat (size - 1 - slen dst)) src else dst.

(** ** Lemmas *)

Lemma streq_true a b : streq a b = true <-> a = b.
Proof. apply bool_decide_eq_true. Qed.

Lemma starts_spec lit p : starts lit p = true <-> exists v, p = lit ++ v.
Proof.
  revert p. induction lit as [|a lit IH]; intros p; simpl.
  - naive_solver.
  - destruct p as [|b p]; [naive_solver|]. rewrite andb_true_iff, Ascii.eqb_eq, IH. naive_solver.
Qed.

Lemma starts_app lit v : starts lit (lit ++ v) = true.
Proof. apply starts_spec. eauto. Qed.

Lemma skip_while_app f p : fst (skip_while f p) ++ snd (skip_while f p) = p.
Proof.
  induction p as [|c p IH]; simpl; [done|].
  destruct (f c); [|done]. destruct (skip_while f p). simpl in *. by rewrite IH.
Qed.

Lemma skip_while_fst f p : Forall (fun c => f c = true) (fst (skip_while f p)).
Proof.
  induction p as [|c p IH]; simpl; [constructor|].
  destruct (f c) eqn:E; [|constructor]. destruct (skip_while f p). by constructor.
Qed.

(** [skip_while] stops exactly at the first character that fails the test. *)
Lemma skip_while_stop f u c v :
  Forall (fun c => f c = true) u -> f c = false -> skip_while f (u ++ c :: v) = (u, c :: v).
Proof. intros Hu Hc. induction Hu as [|d u Hd Hu IH]; simpl; [by rewrite Hc | by rewrite Hd, IH]. Qed.

Lemma skip_while_all f u : Forall (fun c => f c = true) u -> skip_while f u = (u, []).
Proof. intros Hu. induction Hu as [|d u Hd Hu IH]; simpl; [done | by rewrite Hd, IH]. Qed.

Lemma strchr_spec p c u v : strchr p c = Some (u, v) -> p = u ++ v /\ c ∉ u /\ head v = Some c.
Proof.
  revert u v. induction p as [|d p IH]; intros u v; simpl; [discriminate|].
  destruct (Ascii.eqb_spec d c) as [->|Hne].
  - intros [= <- <-]. split_and!; [done | apply not_elem_of_nil | done].
  - destruct (strchr p c) as [[u' v']|]; [|discriminate]. intros [= <- <-].
    destruct (IH _ _ eq_refl) as (-> & Hu & Hv). set_solver.
Qed.

Lemma strchr_None p c : strchr p c = None <-> c ∉ p.
Proof.
  induction p as [|d p IH]; simpl; [split; [intros _; apply not_elem_of_nil|done]|].
  destruct (Ascii.eqb_spec d c) as [->|Hne]; [set_solver|].
  destruct (strchr p c) as [[u' v']|]; set_solver.
Qed.

Lemma strchr_app u c v : c ∉ u -> strchr (u ++ c :: v) c = Some (u, c :: v).
Proof.
  induction u as [|d u IH]; intros H; simpl; [by rewrite Ascii.eqb_refl|].
  destruct (Ascii.eqb_spec d c) as [->|Hne]; [set_solver|]. rewrite IH; [done|set_solver].
Qed.

Lemma slen_app s t : slen (s ++ t) = slen s + slen t.
Proof. unfold slen. rewrite length_app. lia. Qed.

(** One step of either loop stores right after what was stored so far. *)
Lemma store_next (done mem : list ascii) c :
  mem <> [] -> store (done ++ mem) (length done) c = Ok ((done ++ [c]) ++ tail mem).
Proof.
  intros Hm. destruct mem as [|a mem]; [done|].
  rewrite store_Ok by (rewrite length_app; simpl; lia).
  rewrite insert_app_at, <- app_assoc. done.
Qed.

Lemma strlcpy_loop_spec s : forall n done mem k,
  (n < length mem)%nat ->
  strlcpy_loop (S n) (done ++ mem) (length done) s k =
    if bool_decide (length s <= n)%nat
    then Ok (done ++ s ++ NUL :: drop (S (length s)) mem, length done + S (length s),
             S n - length s, k + S (length s))%nat
    else Ok (done ++ take (S n) s ++ drop (S n) mem, length done + S n, 0, k + S n)%nat.
Proof.
  induction s as [|c s IH]; intros n done mem k Hn.
  - cbn [strlcpy_loop]. destruct mem as [|a mem]; [simpl in *; lia|].
    rewrite store_next by done. rewrite bool_decide_eq_true_2 by (simpl; lia).
    cbn [mbind res_bind tail]. rewrite <- app_assoc. cbn. rewrite drop_0.
    repeat (f_equal; try lia).
  - cbn [strlcpy_loop]. destruct mem as [|a mem]; [simpl in *; lia|].
    rewrite store_next by done. cbn [mbind res_bind tail].
    destruct n as [|n].
    + rewrite bool_decide_eq_false_2 by (simpl; lia). cbn [take drop firstn skipn].
      rewrite <- app_assoc. simpl. repeat (f_equal; try lia).
    + replace (S (length done)) with (length (done ++ [c])) by (rewrite length_app; simpl; lia).
      rewrite (IH n (done ++ [c]) mem (S k)) by (simpl in *; lia).
      destruct (bool_decide_reflect (length s <= n)%nat) as [H|H].
      * rewrite bool_decide_eq_true_2 by (simpl; lia).
        rewrite !length_app, <- !app_assoc. cbn [length drop skipn app]. repeat (f_equal; try lia).
      * rewrite bool_decide_eq_false_2 by (simpl; lia).
        rewrite !length_app, <- !app_assoc. cbn [length drop skipn app take firstn]. repeat (f_equal; try lia).
Qed.

(** [strlcpy] stores at most [size] bytes, leaves the longest prefix of the
    source that fits and its terminator, and returns [strlen(src)]. *)
Lemma strlcpy_mem dst src (size : nat) :
  (0 < size <= length dst)%nat ->
  strlcpy dst src size =
    Ok (strlcpy_val (Z.of_nat size) src ++ NUL :: drop (S (length (strlcpy_val (Z.of_nat size) src))) dst,
        length src).
Proof.
  intros [Hpos Hle]. unfold strlcpy, strlcpy_val.
  replace (Z.to_nat (Z.of_nat size - 1)) with (size - 1)%nat by lia.
  destruct size as [|[|n]]; [lia| |].
  - cbn [mbind res_bind]. destruct dst as [|a dst]; [simpl in *; lia|].
    rewrite store_Ok by (simpl; lia). cbn. rewrite drop_0. repeat (f_equal; try lia).
  - pose proof (strlcpy_loop_spec src n [] dst 0 ltac:(lia)) as H. cbn [app length] in H. rewrite H. clear H.
    case_bool_decide as Hs; cbn [mbind res_bind].
    + replace (S n - length src)%nat with (S (n - length src))%nat by lia.
      rewrite take_ge by lia. repeat (f_equal; try lia).
    + assert (Hn : length (take (S n) src) = S n) by (rewrite length_take; lia).
      pose proof (store_next (take (S n) src) (drop (S n) dst) NUL) as H. rewrite Hn in H.
      rewrite Nat.add_0_l, H by (intros E; apply (f_equal length) in E; rewrite length_drop in E; simpl in *; lia).
      cbn [mbind res_bind]. rewrite length_drop, <- app_assoc. cbn [app].
      replace (S (S n) - 1)%nat with (S n) by lia. rewrite Hn, tail_drop.
      repeat (f_equal; try lia).
Qed.

Lemma strlcat_find_spec v : forall n done rest,
  NUL ∉ v ->
  strlcat_find n (done ++ v ++ NUL :: rest) (length done) = Ok (length done + Nat.min n (length v))%nat.
Proof.
  induction v as [|c v IH]; intros n done rest Hv; destruct n as [|n]; cbn [strlcat_find app];
    try (f_equal; simpl; lia).
  - rewrite list_lookup_middle by done. rewrite Ascii.eqb_refl. f_equal. simpl. lia.
  - apply not_elem_of_cons in Hv as [Hc Hv].
    rewrite list_lookup_middle by done. destruct (Ascii.eqb_spec c NUL); [congruence|].
    specialize (IH n (done ++ [c]) rest Hv). rewrite <- app_assoc in IH. cbn [app] in IH.
    rewrite length_app in IH. cbn [length] in IH. rewrite Nat.add_1_r in IH. rewrite IH. f_equal. simpl. lia.
Qed.

Lemma strlcat_loop_spec s : forall n done mem,
  (0 < n <= length mem)%nat ->
  strlcat_loop s n (done ++ mem) (length done) =
    Ok (done ++ take (n - 1) s ++ drop (length (take (n - 1) s)) mem,
        (length done + length (take (n - 1) s))%nat).
Proof.
  induction s as [|c s IH]; intros n done mem Hn; cbn [strlcat_loop].
  - rewrite take_nil. cbn. rewrite drop_0. repeat (f_equal; try lia).
  - case_bool_decide as Hn1.
    + subst n. rewrite IH by lia. done.
    + destruct mem as [|a mem]; [simpl in *; lia|].
      rewrite store_next by done. cbn [mbind res_bind tail].
      replace (S (length done)) with (length (done ++ [c])) by (rewrite length_app; simpl; lia).
      rewrite IH by (simpl in *; lia). rewrite length_app, <- app_assoc.
      replace (n - 1)%nat with (S (n - 1 - 1)) by lia. cbn.
      rewrite Nat.sub_0_r. do 2 f_equal. lia.
Qed.

(** [strlcat] on a destination that holds a terminated string: nothing is
    stored when the string already fills [size] bytes, and otherwise the
    longest prefix of the source that fits is appended. *)
Lemma strlcat_mem v rest src (size : nat) :
  NUL ∉ v -> (size <= length (v ++ NUL :: rest))%nat ->
  exists tl, strlcat (v ++ NUL :: rest) src size =
    Ok (strlcat_val (Z.of_nat size) v src ++ NUL :: tl, (Nat.min size (length v) + length src)%nat).
Proof.
  intros Hv Hle. unfold strlcat, strlcat_val, slen.
  pose proof (strlcat_find_spec v size [] rest Hv) as H. cbn [app length] in H. rewrite H. clear H.
  cbn [mbind res_bind]. rewrite Nat.add_0_l.
  destruct (Z.ltb_spec (Z.of_nat (length v)) (Z.of_nat size)) as [Hlt|Hge].
  - rewrite Nat.min_r by lia. destruct (size - length v)%nat as [|k] eqn:Ek; [lia|].
    rewrite length_app in Hle. simpl in Hle.
    rewrite strlcat_loop_spec by (simpl; lia). cbn [mbind res_bind].
    replace (Z.to_nat (Z.of_nat size - 1 - Z.of_nat (length v))) with k by lia.
    replace (S k - 1)%nat with k by lia.
    rewrite app_assoc, <- (length_app v (take k src)), store_next.
    + cbn [mbind res_bind]. rewrite <- app_assoc. cbn [app]. eexists. done.
    + intros E. apply (f_equal length) in E. rewrite length_drop, length_take in E. simpl in E. lia.
  - rewrite Nat.min_l by lia. replace (size - size)%nat with O by lia. exists rest. done.
Qed.

Lemma strlcpy_val_short size s : slen s < size -> strlcpy_val size s = s.
Proof. unfold slen, strlcpy_val. intros. apply take_ge. lia. Qed.

Lemma strlcpy_val_len size s : 0 < size -> slen (strlcpy_val size s) < size.
Proof. unfold slen, strlcpy_val. rewrite length_take. lia. Qed.

Lemma strlcat_val_short size d s : slen d + slen s < size -> strlcat_val size d s = d ++ s.
Proof.
  unfold slen, strlcat_val. intros. destruct (Z.ltb_spec (slen d) size) as [|Hge]; unfold slen in *; [|lia].
  f_equal. apply take_ge. lia.
Qed.

Lemma strlcat_val_len size d s : slen d < size -> slen (strlcat_val size d s) < size.
Proof.
  intros H. unfold strlcat_val. rewrite (proj2 (Z.ltb_lt _ _) H).
  unfold slen in *. rewrite length_app, length_take. lia.
Qed.

#[export] Hint Rewrite strlcpy_val_short strlcat_val_short using lia : ptf.

Lemma cstr_of_app v rest : NUL ∉ v -> cstr_of (v ++ NUL :: rest) = v.
Proof.
  intros Hv. unfold cstr_of. rewrite skip_while_stop; [reflexivity | | reflexivity].
  apply Forall_forall. intros c Hc. apply negb_true_iff, Ascii.eqb_neq. intros ->. by apply Hv, list_elem_of_In.
Qed.

Lemma not_elem_take {A} (a : A) n l : a ∉ l -> a ∉ take n l.
Proof. intros H Hin. apply H. rewrite <- (take_drop n l). set_solver. Qed.

(** The token at the start of a text, ended by a delimiter or by the end. *)
Lemma strtok_first delim u v :
  u <> [] -> Forall (fun c => delim c = false) u ->
  match v with [] => True | c :: _ => delim c = true end ->
  strtok delim (u ++ v) = Some (u, tail v).
Proof.
  intros Hne Hu Hv. destruct u as [|c u]; [done|]. unfold strtok. cbn [app skip_while].
  inversion Hu as [|? ? Hc Hu']; subst. rewrite Hc.
  assert (Hw : skip_while (fun c0 : ascii => negb (delim c0)) ((c :: u) ++ v) = (c :: u, v)).
  { assert (HF : Forall (fun c0 => negb (delim c0) = true) (c :: u)).
    { eapply List.Forall_impl; [|exact Hu]. intros x Hx. cbn in *. by rewrite Hx. }
    destruct v as [|d v]; [rewrite app_nil_r; by apply skip_while_all|].
    apply skip_while_stop; [done | by rewrite Hv]. }
  cbn [app] in Hw. by rewrite Hw.
Qed.

(** Each token takes at least one character: the length of the text is fuel
    enough, and [tokens] is the loop. *)
Lemma strtok_shorter delim s tok rest :
  strtok delim s = Some (tok, rest) -> (length rest < length s)%nat /\ tok <> [].
Proof.
  unfold strtok. pose proof (skip_while_app delim s) as H1. revert H1.
  destruct (skip_while delim s) as [u s1] eqn:E1. cbn [fst snd]. intros H1.
  destruct s1 as [|c s1]; [discriminate|].
  assert (Hc : delim c = false).
  { clear H1. revert u E1. induction s as [|d s IH]; intros u; cbn [skip_while]; [discriminate|].
    destruct (delim d) eqn:Ed; [|intros [= <- <- <-]; done].
    destruct (skip_while delim s) as [u' v']. intros [= <- ->]. by eapply IH. }
  cbn [skip_while]. rewrite Hc. cbn [negb].
  pose proof (skip_while_app (fun c0 => negb (delim c0)) s1) as H2. revert H2.
  destruct (skip_while (fun c0 => negb (delim c0)) s1) as [tok' s2]. cbn [fst snd].
  intros <- [= <- <-]. split; [|done]. rewrite <- H1, !length_app. cbn [length].
  rewrite length_app, length_tail. lia.
Qed.

Lemma tokens_fuel_ge delim : forall n m s,
  (length s <= n)%nat -> (length s <= m)%nat -> tokens_fuel n delim s = tokens_fuel m delim s.
Proof.
  induction n as [|n IH]; intros [|m] s Hn Hm; cbn [tokens_fuel]; [done | | |].
  - destruct s; [done | simpl in *; lia].
  - destruct s; [done | simpl in *; lia].
  - destruct (strtok delim s) as [[tok rest]|] eqn:E; [|done]. apply strtok_shorter in E as [E _].
    f_equal. apply IH; lia.
Qed.

Lemma tokens_eq delim s :
  tokens delim s = match strtok delim s with
                   | None => []
                   | Some (tok, rest) => tok :: tokens delim rest
                   end.
Proof.
  unfold tokens. destruct s as [|c s]; [done|]. cbn [length tokens_fuel].
  destruct (strtok delim (c :: s)) as [[tok rest]|] eqn:E; [|done]. apply strtok_shorter in E as [E _].
  f_equal. apply tokens_fuel_ge; simpl in *; lia.
Qed.

Lemma tokens_first delim u v :
  u <> [] -> Forall (fun c => delim c = false) u ->
  match v with [] => True | c :: _ => delim c = true end ->
  tokens delim (u ++ v) = u :: tokens delim (tail v).
Proof. intros. by rewrite tokens_eq, strtok_first. Qed.

(** ** Properties *)

(** [strlcpy] into an array of at least [size] bytes never leaves it: the
    array then holds the longest prefix of the source that fits with its
    terminator, no byte from [size] on is touched, and the answer is
    [strlen(src)], so a truncation is the answer being [size] or more. *)
Theorem strlcpy_correct dst src (size : nat) :
  (0 < size <= length dst)%nat -> NUL ∉ src ->
  exists m, strlcpy dst src size = Ok (m, length src) /\
    cstr_of m = strlcpy_val (Z.of_nat size) src /\
    length m = length dst /\ drop size m = drop size dst /\
    (cstr_of m = src <-> (length src < size)%nat).
Proof.
  intros Hs Hn. eexists. split; [by apply strlcpy_mem|].
  assert (Hv : NUL ∉ strlcpy_val (Z.of_nat size) src) by (by apply not_elem_take).
  assert (Hl : (length (strlcpy_val (Z.of_nat size) src) < size)%nat).
  { unfold strlcpy_val. rewrite length_take. lia. }
  rewrite cstr_of_app by done. split; [done|]. split; [|split].
  - rewrite length_app. cbn [length]. rewrite length_drop. lia.
  - rewrite drop_app_ge by lia. destruct (size - _)%nat as [|k] eqn:E; [lia|].
    cbn [drop skipn]. rewrite drop_drop. f_equal. lia.
  - split; [intros <-; unfold strlcpy_val; rewrite length_take; lia|].
    intros. apply strlcpy_val_short. unfold slen. lia.
Qed.

Lemma strlcpy_correct_witness :
  exists m, strlcpy (replicate 6 "x"%char) (str "abcdef") 4 = Ok (m, 6%nat) /\
    cstr_of m = str "abc" /\ length m = 6%nat /\ drop 4 m = str "xx" /\
    (cstr_of m = str "abcdef" <-> (6 < 4)%nat).
Proof.
  apply (strlcpy_correct (replicate 6 "x"%char) (str "abcdef") 4); [cbn; lia|].
  apply (bool_decide_unpack _). reflexivity.
Defined.

(** [strlcat] into an array of at least [size] bytes that holds a string
    never leaves it: what is appended is the longest prefix of the source that
    fits, and a string that already fills [size] bytes is left alone. *)
Theorem strlcat_correct v rest src (size : nat) :
  NUL ∉ v -> NUL ∉ src -> (size <= length (v ++ NUL :: rest))%nat ->
  exists m, strlcat (v ++ NUL :: rest) src size = Ok (m, (Nat.min size (length v) + length src)%nat) /\
    cstr_of m = strlcat_val (Z.of_nat size) v src /\
    (length v < size -> length (cstr_of m) < size)%nat /\
    (cstr_of m = v ++ src <-> (src = [] \/ length v + length src < size)%nat).
Proof.
  intros Hv Hs Hle. destruct (strlcat_mem v rest src size Hv Hle) as [tl E]. eexists. split; [exact E|].
  assert (Hn : NUL ∉ strlcat_val (Z.of_nat size) v src).
  { unfold strlcat_val. destruct (_ <? _); [|done]. apply not_elem_of_app. split; [done|].
    by apply not_elem_take. }
  rewrite cstr_of_app by done. split; [done|]. split.
  - intros. pose proof (strlcat_val_len (Z.of_nat size) v src). unfold slen in *. lia.
  - unfold strlcat_val, slen. destruct (Z.ltb_spec (Z.of_nat (length v)) (Z.of_nat size)).
    + split.
      * intros Ht%app_inv_head. apply (f_equal length) in Ht. rewrite length_take in Ht. right. lia.
      * intros [->|Hl]; [by rewrite take_nil|]. f_equal. apply take_ge. lia.
    + split; [|intros [->|]; [by rewrite app_nil_r | lia]].
      intros Ht. left. apply (f_equal length) in Ht. rewrite length_app in Ht.
      destruct src; [done | simpl in Ht; lia].
Qed.

Lemma strlcat_correct_witness :
  exists m, strlcat (str "ab" ++ NUL :: str "xxxx") (str "cdef") 5 = Ok (m, 6%nat) /\
    cstr_of m = str "abcd" /\ (2 < 5 -> length (cstr_of m) < 5)%nat /\
    (cstr_of m = str "ab" ++ str "cdef" <-> (str "cdef" = [] \/ 2 + 4 < 5)%nat).
Proof.
  apply (strlcat_correct (str "ab") (str "xxxx") (str "cdef") 5);
    [apply (bool_decide_unpack _); reflexivity .. | cbn; lia].
Defined.
