(* ===== verification/MxmlCodec.v ===== *)
(** * Character references: [mxml_encode] and [mxml_decode]

    [mxml/mxml.c] escapes the characters that are special in XML with
    [mxml_encode] before it writes a name or a value, and undoes it with
    [mxml_decode] after it has read one.  The encoder works in a static
    buffer of its own, whose size and allocation are modelled with it. *)

From S2P Require Import Prelude CStr.

(** ** The encoder *)

(** The static variables of [mxml_encode]: the allocation behind
    [_encode_buffer] ([None] for a null pointer) and [buffer_size]. *)
Record enc_static := EncStatic { enc_cap : option Z; enc_bsize : Z }.

Definition enc_static_init : enc_static := EncStatic None 1000.

(** The bytes one source character contributes, terminator excluded. *)
Definition mxml_encode_char (translate : bool) (c : ascii) : cstr :=
  if translate then
    if c =c "<" then str "&lt;"
    else if c =c ">" then str "&gt;"
    else if c =c "&" then str "&amp;"
    else if c =c DQUOTE then str "&quot;"
    else if c =c SQUOTE then str "&apos;"
    else [c]
  else
    if c =c "<" then str "&lt;"
    else if c =c "&" then str "&amp;"
    else [c].

(** [(size_t)(size - 10)] *)
Definition encode_limit (size : Z) : Z := (size - 10) mod 2 ^ 64.

(** The loop over the source; [out] is the text between [_encode_buffer] and
    [pd].  [strcpy(pd, "&lt;")] stores the reference and a terminator, the
    default case one byte, and [*pd = 0] after the loop a terminator: each is
    in the allocation or the model crashes. *)
Fixpoint encode_loop (cap limit : Z) (translate : bool) (src out : cstr) : res cstr :=
  match src with
  | [] => _ ← check (slen out + 1 <=? cap) OutOfBounds; Ok out
  | c :: src' =>
      if slen out <? limit then
        let e := mxml_encode_char translate c in
        let need := if slen e =? 1 then 1 else slen e + 1 in
        _ ← check (slen out + need <=? cap) OutOfBounds;
        encode_loop cap limit translate src' (out ++ e)
      else _ ← check (slen out + 1 <=? cap) OutOfBounds; Ok out
  end.

(** [mxml_encode(src, size, translate)]: the new statics and the new value of
    [src], an array of [size] characters. *)
Definition mxml_encode (st : enc_static) (src : cstr) (size : Z) (translate : bool)
    : res (enc_static * cstr) :=
  _ ← check (negb (size =? 0)) AssertFail;
  let cap1 := match enc_cap st with None => enc_bsize st | Some c => c end in
  let '(cap2, bsize2) :=
    if enc_bsize st <? size then (size * 2, size) else (cap1, enc_bsize st) in
  out ← encode_loop cap2 (encode_limit size) translate src [];
  Ok (EncStatic (Some cap2) bsize2, strlcpy_val size out).

(** ** The decoder *)

(** The references [mxml_decode] knows, in the order of its tests: the text,
    the character, and how far it is. *)
Definition decode_table : list (cstr * ascii) :=
  [ (str "&lt;", "<"%char); (str "&gt;", ">"%char); (str "&amp;", "&"%char);
    (str "&quot;", DQUOTE); (str "&apos;", SQUOTE) ].

Fixpoint decode_match (tbl : list (cstr * ascii)) (p : cstr) : option (ascii * nat) :=
  match tbl with
  | [] => None
  | (e, c) :: tbl' => if starts e p then Some (c, length e) else decode_match tbl' p
  end.

(** [while ((p = strchr(p, '&')) != NULL) { ... }]: [pre] is the text before
    [p].  A known reference is replaced by its character and the tail moved
    down; otherwise [p] only advances.  Every round consumes a character, so
    the length of the text is fuel enough. *)
Fixpoint decode_loop (fuel : nat) (pre p : cstr) : cstr :=
  match fuel with
  | O => pre ++ p
  | S fuel' =>
      match strchr p "&" with
      | None => pre ++ p
      | Some (u, q) =>
          match decode_match decode_table q with
          | Some (c, n) => decode_loop fuel' (pre ++ u ++ [c]) (drop n q)
          | None => decode_loop fuel' (pre ++ u ++ ["&"%char]) (tail q)
          end
      end
  end.

Definition mxml_decode (s : cstr) : cstr := decode_loop (S (length s)) [] s.

(** ** The decoder, equation by equation *)

Section decode.
Implicit Types p u : cstr.

Lemma decode_loop_S fuel pre p :
  decode_loop (S fuel) pre p =
    match strchr p "&" with
    | None => pre ++ p
    | Some (u, q) =>
        match decode_match decode_table q with
        | Some (c, n) => decode_loop fuel (pre ++ u ++ [c]) (drop n q)
        | None => decode_loop fuel (pre ++ u ++ ["&"%char]) (tail q)
        end
    end.
Proof. done. Qed.

Lemma decode_loop_pre fuel : forall pre p, decode_loop fuel pre p = pre ++ decode_loop fuel [] p.
Proof.
  induction fuel as [|fuel IH]; intros pre p; rewrite ?decode_loop_S; [done|].
  destruct (strchr p "&") as [[u q]|]; [|done].
  destruct (decode_match decode_table q) as [[c n]|]; rewrite IH, (IH ([] ++ _)); cbn [app];
    by rewrite <- !app_assoc.
Qed.

Lemma decode_match_len tbl p c n :
  Forall (fun ec => ec.1 <> []) tbl ->
  decode_match tbl p = Some (c, n) -> (0 < n <= length p)%nat.
Proof.
  induction 1 as [|[e d] tbl He Htbl IH]; cbn [decode_match]; [done|].
  destruct (starts e p) eqn:E; [|done]. intros [= <- <-].
  apply starts_spec in E as [v ->]. rewrite length_app. destruct e; [done|]. simpl. lia.
Qed.

Lemma decode_match_table p c n : decode_match decode_table p = Some (c, n) -> (0 < n <= length p)%nat.
Proof. apply decode_match_len. repeat constructor; done. Qed.

Lemma strchr_tail_len p c u q : strchr p c = Some (u, q) -> (0 < length q)%nat /\ (length q <= length p)%nat.
Proof.
  intros H. apply strchr_spec in H as (-> & _ & Hq). rewrite length_app.
  destruct q; [done | simpl; lia].
Qed.

(** More fuel than characters changes nothing. *)
Lemma decode_loop_fuel f1 : forall f2 p,
  (length p < f1)%nat -> (length p < f2)%nat -> decode_loop f1 [] p = decode_loop f2 [] p.
Proof.
  induction f1 as [|f1 IH]; intros f2 p H1 H2; [lia|].
  destruct f2 as [|f2]; [lia|]. cbn [decode_loop].
  destruct (strchr p "&") as [[u q]|] eqn:E; [|done].
  apply strchr_tail_len in E as [Hq1 Hq2].
  destruct (decode_match decode_table q) as [[c n]|] eqn:Em;
    rewrite decode_loop_pre, (decode_loop_pre f2); f_equal; apply IH.
  1,2: apply decode_match_table in Em; rewrite length_drop; lia.
  1,2: rewrite length_tail; lia.
Qed.

Lemma decode_fuel fuel p : (length p < fuel)%nat -> decode_loop fuel [] p = mxml_decode p.
Proof. intros. apply decode_loop_fuel; lia. Qed.

Lemma mxml_decode_nil : mxml_decode [] = [].
Proof. done. Qed.

Lemma mxml_decode_plain u p : "&"%char ∉ u -> mxml_decode (u ++ p) = u ++ mxml_decode p.
Proof.
  intros Hu. unfold mxml_decode at 1. cbn [decode_loop].
  assert (Hs : strchr (u ++ p) "&" = match strchr p "&" with Some (v, q) => Some (u ++ v, q) | None => None end).
  { induction u as [|c u IH]; simpl; [by destruct (strchr p "&") as [[]|]|].
    apply not_elem_of_cons in Hu as [Hc Hu].
    destruct (Ascii.eqb_spec c "&"); [congruence|]. rewrite IH by done.
    by destruct (strchr p "&") as [[]|]. }
  rewrite Hs. unfold mxml_decode. cbn [decode_loop app].
  destruct (strchr p "&") as [[v q]|] eqn:E; [|done].
  apply strchr_tail_len in E as [Hq1 Hq2].
  destruct (decode_match decode_table q) as [[c n]|] eqn:Em;
    rewrite decode_loop_pre, (decode_loop_pre (length p)), <- !app_assoc; do 2 f_equal; f_equal;
    apply decode_loop_fuel; rewrite ?length_app; try lia.
  1,2: apply decode_match_table in Em; rewrite length_drop; lia.
  1,2: rewrite length_tail; lia.
Qed.

Lemma mxml_decode_ref e c p :
  decode_match decode_table (e ++ p) = Some (c, length e) -> head e = Some "&"%char ->
  mxml_decode (e ++ p) = c :: mxml_decode p.
Proof.
  intros Hm He. destruct e as [|d e]; [done|]. injection He as ->.
  unfold mxml_decode at 1. rewrite decode_loop_S.
  change (strchr (("&"%char :: e) ++ p) "&") with (Some ([] : cstr, ("&"%char :: e) ++ p)).
  cbv beta iota. rewrite Hm, decode_loop_pre, drop_app_exact. cbn [app].
  f_equal. apply decode_fuel. simpl. rewrite length_app. lia.
Qed.
End decode.

(** One encoded character decodes to itself, in either mode. *)
Lemma decode_encode_char tr c p :
  mxml_decode (mxml_encode_char tr c ++ p) = c :: mxml_decode p.
Proof.
  assert (Hp : c <> "&"%char -> mxml_decode ([c] ++ p) = c :: mxml_decode p).
  { intros Hc. apply mxml_decode_plain. set_solver. }
  unfold mxml_encode_char.
  repeat match goal with
  | |- context [if tr then _ else _] => destruct tr
  | |- context [if Ascii.eqb ?a ?b then _ else _] => destruct (Ascii.eqb_spec a b); [subst|]
  end; try (apply mxml_decode_ref; reflexivity); by apply Hp.
Qed.

Lemma decode_encode_text tr s : mxml_decode (flat_map (mxml_encode_char tr) s) = s.
Proof. induction s as [|c s IH]; [done|]. cbn [flat_map]. by rewrite decode_encode_char, IH. Qed.

(** ** The encoder *)

Lemma encode_char_len tr c : 1 <= slen (mxml_encode_char tr c) <= 6.
Proof.
  unfold mxml_encode_char.
  repeat match goal with |- context [if ?b then _ else _] => destruct b end; cbv; split; discriminate.
Qed.

Lemma slen_nonneg s : 0 <= slen s.
Proof. unfold slen. lia. Qed.
#[export] Hint Resolve slen_nonneg : ptf.

(** The loop translates a prefix of the source: all of it unless it ran into
    the limit, which it then reached by less than one reference. *)
Lemma encode_loop_spec cap limit tr src : forall out,
  slen out <= limit + 5 -> limit + 7 <= cap ->
  exists k,
    encode_loop cap limit tr src out = Ok (out ++ flat_map (mxml_encode_char tr) (take k src)) /\
    (k <= length src)%nat /\
    slen (out ++ flat_map (mxml_encode_char tr) (take k src)) <= limit + 5 /\
    ((k < length src)%nat -> limit <= slen (out ++ flat_map (mxml_encode_char tr) (take k src))).
Proof.
  induction src as [|c src IH]; intros out Hout Hcap; cbn [encode_loop].
  - exists 0%nat. rewrite (proj2 (Z.leb_le _ _)) by lia. simpl. rewrite app_nil_r. split_and!; try done; lia.
  - destruct (Z.ltb_spec (slen out) limit) as [Hlt|Hge].
    + pose proof (encode_char_len tr c) as Hc.
      assert (Hn : (slen out + (if slen (mxml_encode_char tr c) =? 1 then 1 else slen (mxml_encode_char tr c) + 1) <=? cap) = true)
        by (apply Z.leb_le; destruct (Z.eqb_spec (slen (mxml_encode_char tr c)) 1); lia).
      rewrite Hn. cbn [check mbind res_bind].
      destruct (IH (out ++ mxml_encode_char tr c)) as (k & Hk & Hle & Hlen & Hlim);
        [rewrite slen_app; lia | lia |].
      exists (S k). cbn [take firstn flat_map length]. rewrite Hk, <- !app_assoc in *.
      split_and!; [done | lia | done | intros; apply Hlim; lia].
    + exists 0%nat. rewrite (proj2 (Z.leb_le _ _)) by lia. simpl. rewrite app_nil_r. split_and!; try done; lia.
Qed.

(** The invariant of the encoder's statics. *)
Definition enc_static_ok (st : enc_static) : Prop :=
  1000 <= enc_bsize st /\ match enc_cap st with Some c => enc_bsize st <= c | None => True end.

Lemma encode_limit_small size : 10 <= size < 2 ^ 31 -> encode_limit size = size - 10.
Proof. intros. unfold encode_limit. apply Z.mod_small. lia. Qed.

Lemma mxml_encode_spec st src size tr :
  enc_static_ok st -> 10 <= size < 2 ^ 31 ->
  exists st' k,
    mxml_encode st src size tr = Ok (st', flat_map (mxml_encode_char tr) (take k src)) /\
    enc_static_ok st' /\ (k <= length src)%nat /\
    slen (flat_map (mxml_encode_char tr) (take k src)) <= size - 5 /\
    ((k < length src)%nat -> size - 10 <= slen (flat_map (mxml_encode_char tr) (take k src))).
Proof.
  intros [Hb Hc] Hsz. unfold mxml_encode.
  rewrite (proj2 (Z.eqb_neq size 0)) by lia. cbn [negb check mbind res_bind].
  rewrite encode_limit_small by done.
  set (cap1 := match enc_cap st with None => _ | Some c => c end).
  assert (Hcap1 : enc_bsize st <= cap1) by (unfold cap1; destruct (enc_cap st); lia).
  destruct (Z.ltb_spec (enc_bsize st) size) as [Hlt|Hge].
  - destruct (encode_loop_spec (size * 2) (size - 10) tr src []) as (k & Hk & Hle & Hlen & Hlim);
      [unfold slen; simpl; lia | lia |].
    rewrite Hk. cbn [app mbind res_bind] in *. rewrite strlcpy_val_short by lia.
    exists (EncStatic (Some (size * 2)) size), k. unfold enc_static_ok; simpl; split_and!; try done; lia.
  - destruct (encode_loop_spec cap1 (size - 10) tr src []) as (k & Hk & Hle & Hlen & Hlim);
      [unfold slen; simpl; lia | lia |].
    rewrite Hk. cbn [app mbind res_bind] in *. rewrite strlcpy_val_short by lia.
    exists (EncStatic (Some cap1) (enc_bsize st)), k. unfold enc_static_ok; simpl; split_and!; try done; lia.
Qed.

Lemma flat_map_encode_len tr s : slen s <= slen (flat_map (mxml_encode_char tr) s) <= 6 * slen s.
Proof.
  induction s as [|c s IH]; [by unfold slen|]. cbn [flat_map]. rewrite slen_app.
  pose proof (encode_char_len tr c). change (slen (c :: s)) with (Z.of_nat (S (length s))).
  unfold slen in *. lia.
Qed.

(** A text whose translation leaves the room of one reference is not cut. *)
Lemma mxml_encode_full st src size tr :
  enc_static_ok st -> 10 <= size < 2 ^ 31 ->
  slen (flat_map (mxml_encode_char tr) src) < size - 9 ->
  exists st', mxml_encode st src size tr = Ok (st', flat_map (mxml_encode_char tr) src) /\ enc_static_ok st'.
Proof.
  intros Hst Hsz Hlen. destruct (mxml_encode_spec st src size tr Hst Hsz) as (st' & k & Hk & Hst' & Hle & _ & Hlim).
  exists st'. split; [|done]. rewrite Hk. do 2 f_equal.
  destruct (decide (k = length src)) as [->|Hne]; [by rewrite take_ge by lia|].
  assert (Hlt : (k < length src)%nat) by lia. specialize (Hlim Hlt).
  assert (Hdrop : (0 < length (drop k src))%nat) by (rewrite length_drop; lia).
  pose proof (flat_map_encode_len tr (drop k src)) as Hd.
  rewrite <- (take_drop k src), flat_map_app, slen_app in Hlen. unfold slen in *. lia.
Qed.

(** ** Property *)

(** For every size of at least 10 the encoder stays inside its buffer and
    keeps its invariant, and what it stores decodes to the source, or to a
    prefix of it when the translated text reaches the last nine bytes. *)
Theorem mxml_encode_decode st src size tr :
  enc_static_ok st -> 10 <= size < 2 ^ 31 ->
  exists st' v k, mxml_encode st src size tr = Ok (st', v) /\ enc_static_ok st' /\ slen v < size /\
    mxml_decode v = take k src /\
    (slen (flat_map (mxml_encode_char tr) src) < size - 9 -> mxml_decode v = src).
Proof.
  intros Hst Hsz. destruct (mxml_encode_spec st src size tr Hst Hsz) as (st' & k & Hk & Hst' & _ & Hle & _).
  exists st', (flat_map (mxml_encode_char tr) (take k src)), k. split_and!; [done | done | lia | |].
  - apply decode_encode_text.
  - intros Hf. destruct (mxml_encode_full st src size tr Hst Hsz Hf) as (st2 & E & _).
    rewrite Hk in E. injection E as _ ->. apply decode_encode_text.
Qed.

Lemma mxml_encode_decode_witness :
  exists st' v k, mxml_encode enc_static_init (str "a<b & c") 1000 true = Ok (st', v) /\
    enc_static_ok st' /\ slen v < 1000 /\ mxml_decode v = take k (str "a<b & c") /\
    (slen (flat_map (mxml_encode_char true) (str "a<b & c")) < 1000 - 9 -> mxml_decode v = str "a<b & c").
Proof. apply mxml_encode_decode; [split; [cbn; lia | exact I] | lia]. Defined.
