(* ===== verification/MxmlWriter.v ===== *)
(** * The XML writer of [mxml/mxml.c]

    An [MXML_WRITER] is a state machine: elements are started, given
    attributes or a value, and ended; the writer keeps the stack of open
    elements and whether the start tag of the innermost one is still open.
    Output goes to a growing memory buffer or to a file descriptor. *)

From S2P Require Import Prelude CStr MxmlCodec.

(** ** State *)

Definition INT_MAX : Z := 2 ^ 31 - 1.

(** [MXML_WRITER].  [text] is what was written: the first [buffer_len] bytes
    of [buffer], or the bytes handed to the descriptor [fh].  Only the first
    [level] entries of [stack] are live: [mxml_end_element] frees a name and
    leaves the dead pointer in the array. *)
Record MXML_WRITER := MkWriter {
  fh : Z;
  has_buffer : bool;           (** [buffer != NULL] *)
  text : cstr;
  buffer_size : Z;
  buffer_len : Z;
  level : nat;
  element_is_open : bool;
  data_was_written : bool;
  stack : list cstr;
  translate : Z
}.

(** The static variables of the file the writer uses. *)
Record mxml_static := MkStatic {
  mxml_suppress_date_flag : Z;
  enc : enc_static;            (** of [mxml_encode] *)
  data_cap : Z;                (** allocation behind [_data_enc] *)
  data_size : Z                (** [data_size] of [mxml_write_value] *)
}.

Definition mxml_static_init : mxml_static := MkStatic 0 enc_static_init 0 0.

Definition set_text (w : MXML_WRITER) (t : cstr) (size len : Z) : MXML_WRITER :=
  MkWriter (fh w) (has_buffer w) t size len (level w) (element_is_open w)
    (data_was_written w) (stack w) (translate w).
Definition set_open (w : MXML_WRITER) (b : bool) : MXML_WRITER :=
  MkWriter (fh w) (has_buffer w) (text w) (buffer_size w) (buffer_len w) (level w) b
    (data_was_written w) (stack w) (translate w).
Definition set_data (w : MXML_WRITER) (b : bool) : MXML_WRITER :=
  MkWriter (fh w) (has_buffer w) (text w) (buffer_size w) (buffer_len w) (level w)
    (element_is_open w) b (stack w) (translate w).
Definition set_stack (w : MXML_WRITER) (l : nat) (s : list cstr) : MXML_WRITER :=
  MkWriter (fh w) (has_buffer w) (text w) (buffer_size w) (buffer_len w) l
    (element_is_open w) (data_was_written w) s (translate w).
Definition set_trans (w : MXML_WRITER) (t : Z) : MXML_WRITER :=
  MkWriter (fh w) (has_buffer w) (text w) (buffer_size w) (buffer_len w) (level w)
    (element_is_open w) (data_was_written w) (stack w) t.
Definition set_enc (g : mxml_static) (e : enc_static) : mxml_static :=
  MkStatic (mxml_suppress_date_flag g) e (data_cap g) (data_size g).
Definition set_data_enc (g : mxml_static) (cap size : Z) : mxml_static :=
  MkStatic (mxml_suppress_date_flag g) (enc g) cap size.

(** ** A state monad over the outcomes *)
Definition wstate : Type := mxml_static * MXML_WRITER.
Definition W (A : Type) : Type := wstate -> res (A * wstate).

#[global] Instance W_ret : MRet W := fun A a s => Ok (a, s).
#[global] Instance W_bind : MBind W := fun A B k m s =>
  match m s with Ok (a, s') => k a s' | Crash c => Crash c end.

Definition getw : W MXML_WRITER := fun s => Ok (s.2, s).
Definition modw (f : MXML_WRITER -> MXML_WRITER) : W unit := fun s => Ok (tt, (s.1, f s.2)).
Definition getg : W mxml_static := fun s => Ok (s.1, s).
Definition modg (f : mxml_static -> mxml_static) : W unit := fun s => Ok (tt, (f s.1, s.2)).
Definition lift {A} (r : res A) : W A := fun s =>
  match r with Ok a => Ok (a, s) | Crash c => Crash c end.

(** [mxml_encode(arr, size, writer->translate)] on an array of the caller. *)
Definition encode_in (s : cstr) (size : Z) : W cstr :=
  g ← getg; w ← getw;
  r ← lift (mxml_encode (enc g) s size (negb (translate w =? 0)));
  _ ← modg (fun g => set_enc g r.1);
  mret r.2.

Definition XML_INDENT : cstr := str "  ".
Definition LT_ : cstr := str "<".
Definition LT_SLASH : cstr := str "</".
Definition GT_NL : cstr := [">"%char; NL].
Definition SLASH_GT_NL : cstr := str "/>" ++ [NL].

(** [for (i=0 ; i<level ; i++) strlcat(line, XML_INDENT, sizeof(line))] *)
Definition indent_line (n : nat) : cstr := Nat.iter n (fun l => strlcat_val 1000 l XML_INDENT) [].

(** The constant first line, and the date line of [mxml_open_*] for the text
    [ctime] gave, cut to 24 characters. *)
Definition XML_HEADER : cstr :=
  str "<?xml version=" ++ [DQUOTE] ++ str "1.0" ++ [DQUOTE] ++ str " encoding="
  ++ [DQUOTE] ++ str "ISO-8859-1" ++ [DQUOTE] ++ str "?>" ++ [NL].
Definition date_line (now : cstr) : cstr :=
  str "<!-- created by MXML on " ++ take 24 now ++ str " -->" ++ [NL].

(** The lines of [mxml_write_value] that allocate [_data_enc] and copy the
    value there; the result is [data_size]. *)
Definition copy_data_enc (data : cstr) : W Z :=
  g ← getg;
  _ ← (if data_size g =? 0 then modg (fun g => set_data_enc g 1000 1000)
       else
         _ ← lift (check (slen data * 2 + 1000 <=? INT_MAX) IntOverflow);
         if data_size g <? slen data * 2 + 1000
         then modg (fun g => set_data_enc g (1000 + slen data * 2) (1000 + slen data * 2))
         else mret tt);
  g ← getg;
  (* strcpy(_data_enc, data) *)
  _ ← lift (check (slen data + 1 <=? data_cap g) OutOfBounds);
  mret (data_size g).

Section Writer.
(** [write(fh, line, len)] of the operating system: the number of bytes it
    takes after the given history, or -1. *)
Context (os_write : Z -> cstr -> cstr -> Z).

Definition mxml_write_line (line : cstr) : W Z := fun '(g, w) =>
  let len := slen line in
  if has_buffer w then
    _ ← check (buffer_len w + len <=? INT_MAX) IntOverflow;
    let size := if buffer_size w <=? buffer_len w + len then buffer_size w + 10000 else buffer_size w in
    _ ← check (size <=? INT_MAX) IntOverflow;
    (* strcpy(writer->buffer + writer->buffer_len, line) *)
    _ ← check (buffer_len w + len + 1 <=? size) OutOfBounds;
    Ok (len, (g, set_text w (take (Z.to_nat (buffer_len w)) (text w) ++ line) size (buffer_len w + len)))
  else
    let n := os_write (fh w) (text w) line in
    Ok (n, (g, set_text w (text w ++ take (Z.to_nat n) line) (buffer_size w) (buffer_len w))).

(** [return mxml_write_line(writer, line) == (int)strlen(line)] *)
Definition write_line_ok (line : cstr) : W bool :=
  n ← mxml_write_line line; mret (n =? slen line).

Definition mxml_open_header (now : cstr) : W unit :=
  _ ← mxml_write_line XML_HEADER;
  g ← getg;
  _ ← (if mxml_suppress_date_flag g =? 0 then mxml_write_line (date_line now) else mret 0);
  _ ← modw (fun w => set_stack w O (stack w));
  modw (fun w => set_open w false).

(** [mxml_open_buffer()] *)
Definition mxml_open_buffer (g : mxml_static) (now : cstr) : res wstate :=
  r ← mxml_open_header now (g, MkWriter 0 true [] 10000 0 O false false [] 1);
  Ok r.2.

(** [mxml_open_file(file_name)]; [fd] is what [open] returned. *)
Definition mxml_open_file (g : mxml_static) (fd : Z) (now : cstr) : res (option wstate) :=
  if fd =? -1 then Ok None
  else r ← mxml_open_header now (g, MkWriter fd false [] 0 0 O false false [] 1);
       Ok (Some r.2).

Definition mxml_suppress_date (g : mxml_static) (suppress : Z) : mxml_static :=
  MkStatic suppress (enc g) (data_cap g) (data_size g).

Definition mxml_set_translate (flag : Z) : W Z :=
  w ← getw;
  _ ← modw (fun w => set_trans w flag);
  mret (translate w).

(** Finish an open start tag before anything else is written. *)
Definition close_open_tag : W unit :=
  w ← getw;
  if element_is_open w then
    _ ← mxml_write_line GT_NL;
    modw (fun w => set_open w false)
  else mret tt.

Definition mxml_start_element1 (name : cstr) (indent : bool) : W bool :=
  _ ← close_open_tag;
  w ← getw;
  let line0 := if indent then indent_line (level w) else [] in
  let line1 := strlcat_val 1000 line0 LT_ in
  name_enc ← encode_in (strlcpy_val 1000 name) 1000;
  let line := strlcat_val 1000 line1 name_enc in
  (* put element on stack *)
  _ ← modw (fun w => set_stack w (S (level w)) (take (level w) (stack w) ++ [name_enc]));
  _ ← modw (fun w => set_open w true);
  _ ← modw (fun w => set_data w false);
  write_line_ok line.

Definition mxml_start_element (name : cstr) : W bool := mxml_start_element1 name true.
Definition mxml_start_element_noindent (name : cstr) : W bool := mxml_start_element1 name false.

Definition mxml_end_element : W bool :=
  w ← getw;
  match level w with
  | O => mret false
  | S l =>
      _ ← modw (fun w => set_stack w (level w - 1) (stack w));
      if element_is_open w then
        _ ← modw (fun w => set_open w false);
        write_line_ok SLASH_GT_NL
      else
        let line0 := if data_was_written w then [] else indent_line l in
        let line1 := strlcat_val 1000 line0 LT_SLASH in
        top ← lift (match stack w !! l with Some s => Ok s | None => Crash OutOfBounds end);
        let line2 := strlcat_val 1000 line1 top in
        let line := strlcat_val 1000 line2 GT_NL in
        _ ← modw (fun w => set_data w false);
        write_line_ok line
  end.

(** [char name_enc[4096], val_enc[4096], line[8192]] *)
Definition mxml_write_attribute (name value : cstr) : W bool :=
  w ← getw;
  if negb (element_is_open w) then mret false
  else
    _ ← lift (check (slen name + 1 <=? 4096) OutOfBounds);
    name_enc ← encode_in name 4096;
    _ ← lift (check (slen value + 1 <=? 4096) OutOfBounds);
    val_enc ← encode_in value 4096;
    let line := str " " ++ name_enc ++ str "=" ++ [DQUOTE] ++ val_enc ++ [DQUOTE] in
    _ ← lift (check (slen line + 1 <=? 8192) OutOfBounds);
    write_line_ok line.

Definition mxml_write_value (data : cstr) : W bool :=
  w ← getw;
  if negb (element_is_open w) then mret false
  else
    n ← mxml_write_line (str ">");
    if negb (n =? 1) then mret false
    else
      _ ← modw (fun w => set_open w false);
      _ ← modw (fun w => set_data w true);
      size ← copy_data_enc data;
      data_enc ← encode_in data size;
      write_line_ok data_enc.

Definition mxml_write_empty_line : W bool :=
  _ ← close_open_tag;
  n ← mxml_write_line [NL];
  if negb (n =? 1) then mret false else mret true.

Definition mxml_write_comment (string : cstr) : W bool :=
  _ ← close_open_tag;
  w ← getw;
  let line0 := indent_line (level w) in
  let line1 := strlcat_val 1000 line0 (str "<!-- ") in
  let line2 := strlcat_val 1000 line1 string in
  let line := strlcat_val 1000 line2 (str " -->" ++ [NL]) in
  write_line_ok line.

Definition mxml_write_element (name value : cstr) : W Z :=
  i ← mxml_start_element name;
  j ← mxml_write_value value;
  k ← mxml_end_element;
  mret (Z.b2z i + Z.b2z j + Z.b2z k).

(** [for (i = 0 ; i<writer->level ; i++) mxml_end_element(writer)]: the
    bound is read again before every round. *)
Fixpoint close_levels (fuel i : nat) : W unit :=
  match fuel with
  | O => mret tt
  | S fuel' =>
      w ← getw;
      if bool_decide (i < level w)%nat then
        _ ← mxml_end_element; close_levels fuel' (S i)
      else mret tt
  end.

(** The common part of [mxml_close_buffer] and [mxml_close_file]: false if
    the pending [">\n"] could not be written. *)
Definition close_writer : W bool :=
  w ← getw;
  let finish : W bool :=
    w ← getw;
    _ ← close_levels (S (level w)) 0;
    mret true in
  if element_is_open w then
    _ ← modw (fun w => set_open w false);
    n ← mxml_write_line GT_NL;
    if negb (n =? 2) then mret false else finish
  else finish.

(** [mxml_close_buffer]: the buffer, or [None] for a null pointer. *)
Definition mxml_close_buffer (s : wstate) : res (option cstr) :=
  '(b, (_, w)) ← close_writer s;
  Ok (if b : bool then Some (text w) else None).

(** [mxml_close_file]: the returned status and what the file holds. *)
Definition mxml_close_file (s : wstate) : res (Z * cstr) :=
  '(b, (_, w)) ← close_writer s;
  Ok (Z.b2z b, text w).
End Writer.

(** ** The writer seen from outside

    A [wview] is what a client of the writer can observe.  [evals m b v v']
    says that from every well-formed writer that looks like [v] the operation
    [m] runs without leaving defined behaviour, returns [b], and ends in a
    well-formed writer that looks like [v'].  The operations on views below
    are the reference the writer is shown to implement. *)

Record wview := View {
  v_text : cstr;
  v_open : bool;
  v_data : bool;
  v_stack : list cstr;
  v_trans : bool
}.

Definition view_of (w : MXML_WRITER) : wview :=
  View (text w) (element_is_open w) (data_was_written w) (take (level w) (stack w))
    (negb (translate w =? 0)).

Definition static_ok (g : mxml_static) : Prop :=
  enc_static_ok (enc g) /\
  (data_size g = 0 \/ (1000 <= data_size g <= INT_MAX /\ data_cap g = data_size g)).

(** The representation invariant: the stack has [level] live entries, and in
    buffer mode the text and its terminator are inside the buffer, which is
    never more than one growth step too large. *)
Definition writer_ok (w : MXML_WRITER) : Prop :=
  (level w <= length (stack w))%nat /\
  (has_buffer w = true ->
     buffer_len w = slen (text w) /\ buffer_len w < buffer_size w <= buffer_len w + 10000).

Definition wstate_ok (s : wstate) : Prop := static_ok s.1 /\ writer_ok s.2.

(** What the buffer can hold without [int] overflow in its size. *)
Definition in_memory (t : cstr) : Prop := slen t + 10000 <= INT_MAX.

Definition evals {A} (m : W A) (b : A) (v v' : wview) : Prop :=
  forall s, wstate_ok s -> view_of s.2 = v ->
  exists s', m s = Ok (b, s') /\ wstate_ok s' /\ view_of s'.2 = v'.

Definition vtext (v : wview) (t : cstr) : wview :=
  View (v_text v ++ t) (v_open v) (v_data v) (v_stack v) (v_trans v).

Definition indent_ref (n : nat) : cstr := concat (replicate n XML_INDENT).

Definition v_close_tag (v : wview) : wview :=
  if v_open v then View (v_text v ++ GT_NL) false (v_data v) (v_stack v) (v_trans v) else v.

Definition v_start (name : cstr) (indent : bool) (v : wview) : wview :=
  let e := flat_map (mxml_encode_char (v_trans v)) name in
  let v1 := v_close_tag v in
  View (v_text v1 ++ (if indent then indent_ref (length (v_stack v)) else []) ++ LT_ ++ e)
    true false (v_stack v ++ [e]) (v_trans v).

Definition v_end (top : cstr) (below : list cstr) (v : wview) : wview :=
  if v_open v then View (v_text v ++ SLASH_GT_NL) false (v_data v) below (v_trans v)
  else View (v_text v ++ (if v_data v then [] else indent_ref (length below)) ++ LT_SLASH ++ top ++ GT_NL)
         false false below (v_trans v).

Definition v_attribute (name value : cstr) (v : wview) : wview :=
  let e := flat_map (mxml_encode_char (v_trans v)) in
  vtext v (str " " ++ e name ++ str "=" ++ [DQUOTE] ++ e value ++ [DQUOTE]).

Definition v_value (data : cstr) (v : wview) : wview :=
  View (v_text v ++ str ">" ++ flat_map (mxml_encode_char (v_trans v)) data)
    false true (v_stack v) (v_trans v).

(** ** Simulation *)

Lemma take_slen s : take (Z.to_nat (slen s)) s = s.
Proof. unfold slen. by rewrite Nat2Z.id, take_ge by lia. Qed.

Lemma slen_cons c s : slen (c :: s) = 1 + slen s.
Proof. unfold slen. simpl. lia. Qed.

Lemma evals_bind {A B} (m : W A) (k : A -> W B) a b v1 v2 v3 :
  evals m a v1 v2 -> evals (k a) b v2 v3 -> evals (m ≫= k) b v1 v3.
Proof.
  intros Hm Hk s Hs Hv. destruct (Hm s Hs Hv) as (s1 & H1 & Hs1 & Hv1).
  destruct (Hk s1 Hs1 Hv1) as (s2 & H2 & Hs2 & Hv2).
  exists s2. split; [|done]. unfold mbind, W_bind. by rewrite H1.
Qed.

Lemma evals_ret {A} (a : A) v : evals (mret a) a v v.
Proof. intros s Hs Hv. by exists s. Qed.

Lemma evals_lift {A} (r : res A) a v : r = Ok a -> evals (lift r) a v v.
Proof. intros -> s Hs Hv. by exists s. Qed.

Lemma evals_check b c v : b = true -> evals (lift (check b c)) tt v v.
Proof. intros -> s Hs Hv. by exists s. Qed.

Lemma evals_getw {B} (k : MXML_WRITER -> W B) b v v' :
  (forall w, writer_ok w -> view_of w = v -> evals (k w) b v v') -> evals (w ← getw; k w) b v v'.
Proof. intros Hk s Hs Hv. destruct (Hk s.2 (proj2 Hs) Hv s Hs Hv) as (s' & H). by exists s'. Qed.

Lemma evals_getg {B} (k : mxml_static -> W B) b v v' :
  (forall g, static_ok g -> evals (k g) b v v') -> evals (g ← getg; k g) b v v'.
Proof. intros Hk s Hs Hv. destruct (Hk s.1 (proj1 Hs) s Hs Hv) as (s' & H). by exists s'. Qed.

Lemma evals_modw f v v' :
  (forall w, writer_ok w -> view_of w = v -> writer_ok (f w) /\ view_of (f w) = v') ->
  evals (modw f) tt v v'.
Proof.
  intros Hf s Hs Hv. destruct (Hf s.2 (proj2 Hs) Hv) as [H1 H2].
  exists (s.1, f s.2). split; [done|]. split; [split; [apply Hs | done] | done].
Qed.

Lemma evals_encode s size v :
  10 <= size < 2 ^ 31 -> slen (flat_map (mxml_encode_char (v_trans v)) s) < size - 9 ->
  evals (encode_in s size) (flat_map (mxml_encode_char (v_trans v)) s) v v.
Proof.
  intros Hsz Hlen [g w] [[Hg Hd] Hw] Hv. unfold encode_in, mbind, W_bind, getg, getw, lift, modg. simpl in *.
  destruct (mxml_encode_full (enc g) s size (negb (translate w =? 0)) Hg Hsz) as (e & He & Hok).
  { rewrite <- Hv in Hlen. done. }
  rewrite He. cbn. exists (set_enc g e, w). rewrite <- Hv. done.
Qed.

Lemma indent_line_ref n : Z.of_nat n * 2 < 1000 -> indent_line n = indent_ref n.
Proof.
  intros Hn. assert (H : indent_line n = indent_ref n /\ slen (indent_ref n) = Z.of_nat n * 2); [|apply H].
  induction n as [|n IH]; [done|]. destruct IH as [IH1 IH2]; [lia|].
  assert (Hr : indent_ref (S n) = indent_ref n ++ XML_INDENT).
  { unfold indent_ref. rewrite replicate_S_end, concat_app. cbn [concat]. by rewrite app_nil_r. }
  unfold indent_line in *. rewrite Nat.iter_succ, IH1.
  assert (slen XML_INDENT = 2) by done.
  rewrite strlcat_val_short by lia. rewrite Hr, slen_app. split; [done|lia].
Qed.

Lemma indent_ref_len n : slen (indent_ref n) = Z.of_nat n * 2.
Proof.
  unfold indent_ref. induction n as [|n IH]; [done|]. cbn [replicate concat]. rewrite slen_app, IH.
  assert (slen XML_INDENT = 2) by done. lia.
Qed.

(** The copy of a value is inside [_data_enc] once something was written
    before, or when the value has fewer than 1000 characters. *)
Lemma copy_data_enc_ok data s :
  wstate_ok s -> slen data * 2 + 1000 <= INT_MAX -> data_size s.1 <> 0 \/ slen data < 1000 ->
  exists n s', copy_data_enc data s = Ok (n, s') /\ wstate_ok s' /\ view_of s'.2 = view_of s.2 /\
    1000 <= n <= INT_MAX /\ (data_size s.1 <> 0 -> slen data * 2 + 1000 <= n).
Proof.
  destruct s as [g w]. intros [[Hg Hd] Hw] Hi Hfit. cbn in *. pose proof (slen_nonneg data).
  assert (H1000 : 1000 <= INT_MAX) by (unfold INT_MAX; lia).
  unfold copy_data_enc, mbind, W_bind, getg, modg, lift, mret, W_ret. cbn.
  destruct (Z.eqb_spec (data_size g) 0) as [H0|H0].
  - cbn. rewrite check_leb by lia. eexists _, _. split; [done|].
    split_and!; [split; [split; [done|right; cbn; lia] | done] | done | lia | lia | lia].
  - rewrite check_leb by lia. destruct Hd as [|[Hd1 Hd2]]; [done|].
    destruct (Z.ltb_spec (data_size g) (slen data * 2 + 1000)); cbn; rewrite check_leb by lia;
      eexists _, _; (split; [done|]);
      (split_and!; [split; [split; [done|right; cbn; lia] | done] | done | cbn; lia | cbn; lia | cbn; lia]).
Qed.

Section Simulation.
Context (os_write : Z -> cstr -> cstr -> Z).
(** The descriptor takes what it is given. *)
Hypothesis os_write_all : forall h t l, os_write h t l = slen l.

Lemma write_line_state line g w :
  writer_ok w -> slen line < 10000 -> in_memory (text w ++ line) ->
  exists w', mxml_write_line os_write line (g, w) = Ok (slen line, (g, w')) /\
    writer_ok w' /\ level w' = level w /\ view_of w' = vtext (view_of w) line.
Proof.
  intros [Hl Hb] Hlen Hmem. unfold in_memory in Hmem.
  rewrite slen_app in Hmem. pose proof (slen_nonneg line) as Hnn. pose proof (slen_nonneg (text w)) as Hnt.
  unfold mxml_write_line. destruct (has_buffer w) eqn:Eb.
  - destruct (Hb eq_refl) as [Hbl Hbs]. rewrite check_bind by lia.
    assert (Hsz : buffer_len w + slen line <
        (if buffer_size w <=? buffer_len w + slen line then buffer_size w + 10000 else buffer_size w)
        <= buffer_len w + slen line + 10000) by (destruct (Z.leb_spec (buffer_size w) (buffer_len w + slen line)); lia).
    set (size := if _ <=? _ then _ else _) in *.
    rewrite check_bind by lia.
    rewrite check_bind by lia.
    eexists. split; [done|]. split_and!; [|done|unfold view_of, vtext; simpl; f_equal].
    + split; [done|]. intros _. simpl. rewrite slen_app.
      rewrite Hbl, take_slen in *. lia.
    + by rewrite Hbl, take_slen.
  - rewrite os_write_all. eexists. split; [done|].
    split_and!; [split; [done|simpl; congruence]|done|].
    unfold view_of, vtext. simpl. f_equal. by rewrite take_slen.
Qed.

Lemma evals_write_line line v :
  slen line < 10000 -> in_memory (v_text v ++ line) ->
  evals (mxml_write_line os_write line) (slen line) v (vtext v line).
Proof.
  intros Hlen Hmem [g w] [Hg Hw] Hv. simpl in Hg, Hw, Hv. subst v.
  destruct (write_line_state line g w Hw Hlen Hmem) as (w' & H1 & H2 & _ & H4).
  exists (g, w'). done.
Qed.

Lemma evals_write_line_ok line v v' :
  v' = vtext v line -> slen line < 10000 -> in_memory (v_text v ++ line) ->
  evals (write_line_ok os_write line) true v v'.
Proof.
  intros -> H1 H2. unfold write_line_ok.
  eapply evals_bind; [by apply evals_write_line|]. rewrite Z.eqb_refl. apply evals_ret.
Qed.

(** [text] and [indent] of a line are in the caller's [line[1000]]. *)
Definition tag_fits (n : nat) (e : cstr) : Prop := Z.of_nat n * 2 + slen e < 991.

Lemma in_memory_le s t : in_memory (s ++ t) -> in_memory s.
Proof. unfold in_memory. rewrite slen_app. pose proof (slen_nonneg t). lia. Qed.

Lemma evals_close_tag v :
  in_memory (v_text (v_close_tag v)) -> evals (close_open_tag os_write) tt v (v_close_tag v).
Proof.
  intros Hm. unfold close_open_tag. apply evals_getw. intros w Hw Hv.
  assert (Ho : element_is_open w = v_open v) by (by subst v).
  unfold v_close_tag in *. rewrite Ho. destruct (v_open v); [|apply evals_ret].
  eapply evals_bind; [apply evals_write_line; [done|exact Hm]|].
  apply evals_modw. intros w' [H1 H2] Hv'. split; [by split|].
  unfold view_of in *. simpl. injection Hv' as -> _ -> -> ->. done.
Qed.

Lemma level_view w v : writer_ok w -> view_of w = v -> level w = length (v_stack v).
Proof. intros [Hl _] <-. cbn. rewrite length_take. lia. Qed.

Lemma evals_set_stack f g t o d sk tr sk' :
  (forall w, length (take (level w) (stack w)) = level w -> take (level w) (stack w) = sk ->
     (f w <= length (g w))%nat /\ take (f w) (g w) = sk') ->
  evals (modw (fun w => set_stack w (f w) (g w))) tt (View t o d sk tr) (View t o d sk' tr).
Proof.
  intros Hfg. apply evals_modw. intros w [Hl Hb] Hv. injection Hv as E1 E2 E3 E4 E5.
  destruct (Hfg w) as [H1 H2]; [rewrite length_take; lia | done |].
  split; [split; [exact H1 | exact Hb]|]. unfold view_of. simpl. by rewrite E1, E2, E3, E5, H2.
Qed.

Lemma evals_set_open b t o d sk tr :
  evals (modw (fun w => set_open w b)) tt (View t o d sk tr) (View t b d sk tr).
Proof. apply evals_modw. intros w Hw Hv. split; [exact Hw|]. by injection Hv as <- <- <- <- <-. Qed.

Lemma evals_set_data b t o d sk tr :
  evals (modw (fun w => set_data w b)) tt (View t o d sk tr) (View t o b sk tr).
Proof. apply evals_modw. intros w Hw Hv. split; [exact Hw|]. by injection Hv as <- <- <- <- <-. Qed.

Ltac vcbn := cbn [v_text v_open v_data v_stack v_trans] in *.

Lemma evals_start name indent v :
  tag_fits (length (v_stack v)) (flat_map (mxml_encode_char (v_trans v)) name) ->
  in_memory (v_text (v_start name indent v)) ->
  evals (mxml_start_element1 os_write name indent) true v (v_start name indent v).
Proof.
  intros Hfit Hm. unfold mxml_start_element1. unfold tag_fits in Hfit.
  set (e := flat_map (mxml_encode_char (v_trans v)) name) in *.
  pose proof (flat_map_encode_len (v_trans v) name) as [Hne _]. fold e in Hne.
  eapply evals_bind; [apply evals_close_tag; eapply in_memory_le; exact Hm|].
  assert (Hs : v_stack (v_close_tag v) = v_stack v) by (unfold v_close_tag; by destruct (v_open v)).
  assert (Ht : v_trans (v_close_tag v) = v_trans v) by (unfold v_close_tag; by destruct (v_open v)).
  unfold v_start in *. fold e in Hm |- *.
  destruct (v_close_tag v) as [t o d sk tr]. vcbn. subst sk tr.
  apply evals_getw. intros w Hw Hv. pose proof (level_view _ _ Hw Hv) as Hlev. vcbn.
  assert (HLT : slen LT_ = 1) by done. pose proof (slen_nonneg e).
  assert (H0 : (if indent then indent_line (level w) else []) =
               (if indent then indent_ref (length (v_stack v)) else [])).
  { rewrite Hlev. destruct indent; [apply indent_line_ref; lia|done]. }
  rewrite H0. set (ind := if indent then _ else _) in *.
  assert (Hind : slen ind <= Z.of_nat (length (v_stack v)) * 2).
  { unfold ind. destruct indent; [by rewrite indent_ref_len | change (slen []) with 0; lia]. }
  assert (Hl1 : slen (ind ++ LT_) = slen ind + 1) by (rewrite slen_app; lia).
  rewrite strlcpy_val_short by lia.
  eapply evals_bind; [apply evals_encode; [lia | change (slen e < 1000 - 9); lia]|].
  vcbn. fold e. rewrite (strlcat_val_short 1000 ind LT_), strlcat_val_short by lia.
  eapply evals_bind; [apply evals_set_stack with (sk' := v_stack v ++ [e])|].
  { intros w' Hl <-. rewrite length_app, Hl. cbn [length]. split; [lia|].
    apply take_ge. rewrite length_app, Hl. simpl. lia. }
  eapply evals_bind; [apply evals_set_open|].
  eapply evals_bind; [apply evals_set_data|].
  apply evals_write_line_ok.
  - unfold vtext. vcbn. by rewrite <- !app_assoc.
  - rewrite slen_app, Hl1. lia.
  - vcbn. by rewrite <- !app_assoc.
Qed.

Lemma evals_end top below v :
  v_stack v = below ++ [top] -> tag_fits (length below) top ->
  in_memory (v_text (v_end top below v)) ->
  evals (mxml_end_element os_write) true v (v_end top below v).
Proof.
  destruct v as [t o d sk tr]. vcbn. intros -> Hfit Hm. unfold tag_fits in Hfit.
  apply evals_getw. intros w Hw Hv. pose proof (level_view _ _ Hw Hv) as Hlev.
  vcbn. rewrite length_app, Nat.add_1_r in Hlev. rewrite Hlev.
  injection Hv as _ Ho Hd Hst _. rewrite Ho, Hd.
  assert (Htop : stack w !! length below = Some top).
  { rewrite <- (lookup_take_lt (stack w) (level w)) by lia. rewrite Hst. by apply list_lookup_middle. }
  rewrite Htop. unfold v_end in *. vcbn.
  eapply evals_bind; [apply evals_set_stack with (sk' := below)|].
  { intros w' Hl Hsk. pose proof (f_equal length Hsk) as E.
    rewrite Hl, length_app, Nat.add_1_r in E. rewrite length_take in Hl.
    replace (level w' - 1)%nat with (length below) by lia. split; [lia|].
    rewrite E in Hsk. transitivity (take (length below) (below ++ [top])); [|apply take_app_exact].
    rewrite <- Hsk, take_take. f_equal. lia. }
  destruct o.
  - eapply evals_bind; [apply evals_set_open|]. by apply evals_write_line_ok.
  - assert (HLT : slen LT_SLASH = 2) by done. assert (HGT : slen GT_NL = 2) by done.
    pose proof (slen_nonneg top).
    assert (H0 : (if d then [] else indent_line (length below)) =
                 (if d then [] else indent_ref (length below))).
    { destruct d; [done | apply indent_line_ref; lia]. }
    rewrite H0. set (ind := if d then _ else _) in *.
    assert (Hind : slen ind <= Z.of_nat (length below) * 2).
    { unfold ind. destruct d; [change (slen []) with 0; lia | by rewrite indent_ref_len]. }
    rewrite (strlcat_val_short 1000 ind LT_SLASH) by lia.
    assert (Hl1 : slen (ind ++ LT_SLASH) = slen ind + 2) by (rewrite slen_app; lia).
    assert (Hl2 : slen ((ind ++ LT_SLASH) ++ top) = slen ind + 2 + slen top) by (rewrite slen_app; lia).
    cbn [lift]. eapply evals_bind with (a := top) (v2 := View t false d below tr); [by intros s Hs Hv'; exists s|].
    rewrite (strlcat_val_short 1000 (ind ++ LT_SLASH) top), strlcat_val_short by lia.
    eapply evals_bind; [apply evals_set_data|].
    apply evals_write_line_ok.
    + unfold vtext. vcbn. by rewrite <- !app_assoc.
    + rewrite slen_app. lia.
    + vcbn. by rewrite <- !app_assoc.
Qed.

Lemma evals_attribute name value v :
  let e := flat_map (mxml_encode_char (v_trans v)) in
  v_open v = true -> slen (e name) < 4087 -> slen (e value) < 4087 ->
  in_memory (v_text (v_attribute name value v)) ->
  evals (mxml_write_attribute os_write name value) true v (v_attribute name value v).
Proof.
  intros e Ho Hn Hv Hm. apply evals_getw. intros w _ Hw.
  assert (element_is_open w = true) as -> by (by rewrite <- Ho, <- Hw). cbn [negb].
  pose proof (flat_map_encode_len (v_trans v) name) as [Hn1 _].
  pose proof (flat_map_encode_len (v_trans v) value) as [Hv1 _]. fold e in Hn1, Hv1.
  assert (Hline : slen (str " " ++ e name ++ str "=" ++ [DQUOTE] ++ e value ++ [DQUOTE])
                  = slen (e name) + slen (e value) + 4).
  { rewrite !slen_app. change (slen (str " ")) with 1. change (slen (str "=")) with 1.
    change (slen [DQUOTE]) with 1. lia. }
  eapply evals_bind; [apply evals_check, Z.leb_le; lia|].
  eapply evals_bind; [apply evals_encode; [lia | fold e; lia]|].
  eapply evals_bind; [apply evals_check, Z.leb_le; lia|].
  eapply evals_bind; [apply evals_encode; [lia | fold e; lia]|]. fold e.
  eapply evals_bind; [apply evals_check, Z.leb_le; lia|].
  apply evals_write_line_ok; [done | lia | exact Hm].
Qed.

Lemma evals_value data v :
  v_open v = true -> slen (flat_map (mxml_encode_char (v_trans v)) data) < 991 ->
  in_memory (v_text (v_value data v)) ->
  evals (mxml_write_value os_write data) true v (v_value data v).
Proof.
  destruct v as [t o d sk tr]. unfold v_value. vcbn. intros -> Hlen Hm.
  set (e := flat_map (mxml_encode_char tr) data) in *.
  pose proof (flat_map_encode_len tr data) as [Hd _]. fold e in Hd.
  apply evals_getw. intros w _ Hw. injection Hw as _ -> _ _ _. cbn [negb].
  eapply evals_bind; [apply evals_write_line; [done|]|].
  { vcbn. rewrite app_assoc in Hm. by eapply in_memory_le. }
  change (slen (str ">") =? 1) with true. cbn [negb]. unfold vtext. vcbn.
  eapply evals_bind; [apply evals_set_open|].
  eapply evals_bind; [apply evals_set_data|].
  intros s Hs Hv. assert (HI : INT_MAX = 2147483647) by done.
  pose proof (flat_map_encode_len tr data) as [Hd' _].
  destruct (copy_data_enc_ok data s Hs) as (n & s1 & Hc & Hs1 & Hv1 & Hn & _); [lia | lia |].
  unfold mbind at 1, W_bind at 1. rewrite Hc. rewrite Hv in Hv1.
  eapply evals_bind; [apply evals_encode | | exact Hs1 | exact Hv1].
  - lia.
  - change (slen e < n - 9). lia.
  - vcbn. fold e. apply evals_write_line_ok; unfold vtext; vcbn.
    + by rewrite <- app_assoc.
    + lia.
    + by rewrite <- app_assoc.
Qed.

(** ** Opening and closing *)

Definition header_text (g : mxml_static) (now : cstr) : cstr :=
  XML_HEADER ++ (if mxml_suppress_date_flag g =? 0 then date_line now else []).

Lemma header_len g now : slen (header_text g now) < 200.
Proof.
  unfold header_text, date_line. rewrite slen_app.
  assert (slen XML_HEADER < 60) by done.
  destruct (_ =? 0); [|change (slen []) with 0; lia].
  rewrite !slen_app. assert (slen (take 24 now) <= 24) by (unfold slen; rewrite length_take; lia).
  change (slen (str "<!-- created by MXML on ")) with 24. change (slen (str " -->")) with 4.
  change (slen [NL]) with 1. lia.
Qed.

Lemma open_header_ok now g w :
  writer_ok w -> text w = [] -> stack w = [] ->
  exists w', mxml_open_header os_write now (g, w) = Ok (tt, (g, w')) /\ writer_ok w' /\
    view_of w' = View (header_text g now) false (data_was_written w) [] (negb (translate w =? 0)).
Proof.
  intros Hok Ht Hst. pose proof (header_len g now) as Hlen.
  assert (Hm : in_memory (header_text g now)) by (unfold in_memory, INT_MAX; lia).
  unfold header_text in *. rewrite slen_app in Hlen.
  assert (Hx : slen XML_HEADER = 44) by done.
  pose proof (slen_nonneg (if mxml_suppress_date_flag g =? 0 then date_line now else [])).
  unfold mxml_open_header, mbind, W_bind, getg, modw.
  destruct (write_line_state XML_HEADER g w Hok) as (w1 & E1 & Hok1 & _ & Hv1);
    [lia | rewrite Ht; eapply in_memory_le, Hm |].
  rewrite E1. cbn [fst snd].
  assert (Ht1 : text w1 = XML_HEADER) by (change (text w1) with (v_text (view_of w1)); by rewrite Hv1; cbn; rewrite Ht).
  assert (Hfin : forall w2, writer_ok w2 -> view_of w2 = vtext (view_of w1)
      (if mxml_suppress_date_flag g =? 0 then date_line now else []) ->
    exists w', Ok (tt, (g, set_open (set_stack w2 0 (stack w2)) false)) = Ok (tt, (g, w')) /\ writer_ok w' /\
      view_of w' = View (XML_HEADER ++ (if mxml_suppress_date_flag g =? 0 then date_line now else []))
        false (data_was_written w) [] (negb (translate w =? 0))).
  { intros w2 [Hl2 Hb2] Hv2. eexists. split; [done|]. split; [split; [cbn; lia | exact Hb2]|].
    rewrite Hv1 in Hv2. unfold view_of, vtext in *. cbn in Hv2 |- *.
    injection Hv2 as E2 _ E3 _ E4. by rewrite E2, E3, E4, Ht. }
  destruct (mxml_suppress_date_flag g =? 0).
  - destruct (write_line_state (date_line now) g w1 Hok1) as (w2 & E2 & Hok2 & _ & Hv2);
      [lia | by rewrite Ht1 |].
    rewrite E2. cbn [fst snd]. by apply Hfin.
  - cbn. apply Hfin; [done|]. unfold vtext. rewrite app_nil_r. by destruct (view_of w1).
Qed.

(** [k] elements ended one after the other. *)
Fixpoint v_end_n (k : nat) (v : wview) : wview :=
  match k with
  | O => v
  | S k' =>
      match last (v_stack v) with
      | None => v
      | Some top => v_end_n k' (v_end top (take (length (v_stack v) - 1) (v_stack v)) v)
      end
  end.

Lemma v_end_stack top below v : v_stack (v_end top below v) = below.
Proof. unfold v_end. by destruct (v_open v). Qed.

Lemma v_end_n_text k : forall v, exists t, v_text (v_end_n k v) = v_text v ++ t.
Proof.
  induction k as [|k IH]; intros v; cbn [v_end_n]; [exists []; by rewrite app_nil_r|].
  destruct (last (v_stack v)) as [top|]; [|exists []; by rewrite app_nil_r].
  destruct (IH (v_end top (take (length (v_stack v) - 1) (v_stack v)) v)) as [t ->].
  unfold v_end. destruct (v_open v); cbn [v_text]; eexists; by rewrite <- app_assoc.
Qed.

(** The closing loop counts up while the level counts down: it ends the
    upper half of the open elements. *)
Lemma evals_close_levels fuel : forall i v,
  (length (v_stack v) < fuel + i)%nat ->
  (forall j top, v_stack v !! j = Some top -> tag_fits j top) ->
  in_memory (v_text (v_end_n (Nat.div2 (S (length (v_stack v)) - i)) v)) ->
  evals (close_levels os_write fuel i) tt v (v_end_n (Nat.div2 (S (length (v_stack v)) - i)) v).
Proof.
  induction fuel as [|fuel IH]; intros i v Hf Hfit Hm; cbn [close_levels].
  - replace (S (length (v_stack v)) - i)%nat with O by lia. apply evals_ret.
  - apply evals_getw. intros w Hw Hv. rewrite (level_view _ _ Hw Hv). clear w Hw Hv.
    case_bool_decide as Hi.
    + replace (S (length (v_stack v)) - i)%nat with (S (S (length (v_stack v) - 1 - i))) in * by lia.
      cbn [Nat.div2 v_end_n] in *.
      destruct (last (v_stack v)) as [top|] eqn:El; [|by apply last_None in El; rewrite El in Hi; simpl in Hi; lia].
      pose proof El as El'. apply last_Some in El' as [below Hst].
      assert (Hb : take (length (v_stack v) - 1) (v_stack v) = below).
      { rewrite Hst, length_app. replace (length below + length [top] - 1)%nat with (length below) by (simpl; lia).
        apply take_app_exact. }
      rewrite Hb in *.
      assert (Hlen : (length (v_stack v) = S (length below))%nat) by (rewrite Hst, length_app; simpl; lia).
      replace (length (v_stack v) - 1 - i)%nat with (S (length below) - S i)%nat in * by lia.
      eapply evals_bind.
      * apply evals_end; [exact Hst | apply Hfit; rewrite Hst; by apply list_lookup_middle |].
        destruct (v_end_n_text (Nat.div2 (S (length below) - S i)) (v_end top below v)) as [t Ht].
        rewrite Ht in Hm. eapply in_memory_le, Hm.
      * pose proof (v_end_stack top below v) as Hs.
        specialize (IH (S i) (v_end top below v)). rewrite Hs in IH. apply IH; [lia | | exact Hm].
        intros j x Hj. apply Hfit. rewrite Hst. by apply lookup_app_l_Some.
    + replace (Nat.div2 (S (length (v_stack v)) - i)) with O; [apply evals_ret|].
      destruct (S (length (v_stack v)) - i)%nat as [|[|n]] eqn:E; [done..|lia].
Qed.

Lemma evals_close_writer v :
  (forall j top, v_stack v !! j = Some top -> tag_fits j top) ->
  in_memory (v_text (v_end_n (Nat.div2 (S (length (v_stack v)))) (v_close_tag v))) ->
  evals (close_writer os_write) true v (v_end_n (Nat.div2 (S (length (v_stack v)))) (v_close_tag v)).
Proof.
  intros Hfit Hm. unfold close_writer. apply evals_getw. intros w Hw Hv.
  assert (Ho : element_is_open w = v_open v) by (by subst v).
  assert (Hst : v_stack (v_close_tag v) = v_stack v) by (unfold v_close_tag; by destruct (v_open v)).
  assert (Hfinish : evals (w ← getw; _ ← close_levels os_write (S (level w)) 0; mret true) true
            (v_close_tag v) (v_end_n (Nat.div2 (S (length (v_stack v)))) (v_close_tag v))).
  { apply evals_getw. intros w' Hw' Hv'. rewrite (level_view _ _ Hw' Hv'), Hst.
    eapply evals_bind; [|apply evals_ret].
    pose proof (evals_close_levels (S (length (v_stack v))) 0 (v_close_tag v)) as H.
    rewrite Hst, Nat.sub_0_r in H. apply H; [lia | exact Hfit | exact Hm]. }
  unfold v_close_tag in *. rewrite Ho. destruct (v_open v); [|exact Hfinish].
  destruct v as [t o d sk tr]. vcbn.
  eapply evals_bind; [apply evals_set_open|].
  eapply evals_bind; [apply evals_write_line; [done|]|].
  - destruct (v_end_n_text (Nat.div2 (S (length sk))) (View (t ++ GT_NL) false d sk tr)) as [x Hx].
    rewrite Hx in Hm. eapply in_memory_le, Hm.
  - change (slen GT_NL =? 2) with true. exact Hfinish.
Qed.
End Simulation.

Lemma v_end_n_stack k : forall v,
  (k <= length (v_stack v))%nat ->
  v_stack (v_end_n k v) = take (length (v_stack v) - k) (v_stack v).
Proof.
  induction k as [|k IH]; intros v Hk; cbn [v_end_n]; [by rewrite Nat.sub_0_r, take_ge by lia|].
  destruct (last (v_stack v)) as [top|] eqn:El; [|apply last_None in El; rewrite El in Hk; simpl in Hk; lia].
  rewrite IH; rewrite v_end_stack, length_take; [|lia].
  rewrite take_take. f_equal. lia.
Qed.

(** ** Every operation keeps the invariant, whatever it writes *)

Definition keeps {A} (m : W A) (P : A -> Prop) : Prop :=
  forall s b s', wstate_ok s -> m s = Ok (b, s') -> wstate_ok s' /\ P b.

Definition anything {A} (_ : A) : Prop := True.

Section Keeps.
Context (os_write : Z -> cstr -> cstr -> Z).

Lemma keeps_bind {A B} (m : W A) (k : A -> W B) P Q :
  keeps m P -> (forall a, P a -> keeps (k a) Q) -> keeps (m ≫= k) Q.
Proof.
  intros Hm Hk s b s' Hs H. unfold mbind, W_bind in H.
  destruct (m s) as [[a s1]|] eqn:E; [|done]. destruct (Hm s a s1 Hs E) as [Hs1 Ha].
  by eapply (Hk a Ha s1 b s').
Qed.

Lemma keeps_ret {A} (a : A) : keeps (mret a) anything.
Proof. intros s b s' Hs [= <- <-]. done. Qed.

Lemma keeps_lift {A} (r : res A) : keeps (lift r) anything.
Proof. intros s b s' Hs H. unfold lift in H. destruct r; [|done]. injection H as <- <-. done. Qed.

Lemma keeps_getw : keeps getw writer_ok.
Proof. intros s b s' Hs [= <- <-]. split; [done|apply Hs]. Qed.

Lemma keeps_getg : keeps getg static_ok.
Proof. intros s b s' Hs [= <- <-]. split; [done|apply Hs]. Qed.

Lemma keeps_modw f : (forall w, writer_ok w -> writer_ok (f w)) -> keeps (modw f) anything.
Proof. intros Hf s b s' [Hg Hw] [= <- <-]. split; [split; [done|by apply Hf]|done]. Qed.

Lemma keeps_if {A} (c : bool) (m1 m2 : W A) P : keeps m1 P -> keeps m2 P -> keeps (if c then m1 else m2) P.
Proof. by destruct c. Qed.

Lemma keeps_write_line line : keeps (mxml_write_line os_write line) anything.
Proof.
  intros [g w] b s' [Hg [Hl Hb]] H. unfold mxml_write_line in H. cbn [fst snd] in *.
  pose proof (slen_nonneg line).
  destruct (has_buffer w) eqn:E.
  - destruct (Hb eq_refl) as [Hbl Hbs].
    apply res_bind_inv in H as (u1 & H1 & H). apply res_bind_inv in H as (u2 & H2 & H).
    apply res_bind_inv in H as (u3 & H3 & H). apply check_inv, Z.leb_le in H3. injection H as <- <-.
    split; [|done]. split; [done|]. split; [done|]. intros _. cbn [snd set_text buffer_len text buffer_size].
    rewrite slen_app, Hbl, take_slen in *.
    destruct (Z.leb_spec (buffer_size w) (slen (text w) + slen line)); lia.
  - injection H as <- <-. split; [|done]. split; [done|]. split; [done|]. cbn. congruence.
Qed.

Lemma keeps_encode s size : 10 <= size < 2 ^ 31 -> keeps (encode_in s size) anything.
Proof.
  intros Hsz [g w] b s' [[Hg Hd] Hw] H. unfold encode_in, mbind, W_bind, getg, getw, lift, modg in H. cbn in *.
  destruct (mxml_encode_spec (enc g) s size (negb (translate w =? 0)) Hg Hsz) as (e & k & He & Hok & _).
  rewrite He in H. injection H as <- <-. done.
Qed.

Lemma keeps_copy_data data : keeps (copy_data_enc data) (fun n => 1000 <= n <= INT_MAX).
Proof.
  intros [g w] b s' [[Hg Hd] Hw] H. cbn in Hg, Hd, Hw. pose proof (slen_nonneg data) as Hnn.
  assert (HI : INT_MAX = 2147483647) by done.
  unfold copy_data_enc, mbind, W_bind, getg, modg, lift, mret, W_ret in H. cbn in H.
  destruct (Z.eqb_spec (data_size g) 0) as [H0|H0].
  - cbn in H. destruct (check (slen data + 1 <=? 1000) OutOfBounds); [|done]. injection H as <- <-.
    split; [split; [split; [done|right; cbn; lia] | done] | cbn; lia].
  - destruct Hd as [|[Hd1 Hd2]]; [done|].
    destruct (check (slen data * 2 + 1000 <=? INT_MAX) IntOverflow) eqn:E1; [|done].
    apply check_inv, Z.leb_le in E1.
    destruct (Z.ltb_spec (data_size g) (slen data * 2 + 1000)); cbn in H;
      destruct (check (slen data + 1 <=? _) OutOfBounds); try done; injection H as <- <-;
      (split; [split; [split; [done|right; cbn; lia] | done] | cbn; lia]).
Qed.
End Keeps.

(** One step through a sequence of writer actions. *)
Ltac keeps_step :=
  match goal with
  | |- keeps (_ ≫= _) _ => eapply keeps_bind; [|let a := fresh "a" in let H := fresh "H" in intros a H; cbv beta]
  | |- keeps (if _ then _ else _) _ => apply keeps_if
  | |- keeps (mret _) _ => apply keeps_ret
  | |- keeps (lift _) _ => apply keeps_lift
  | |- keeps getw _ => apply keeps_getw
  | |- keeps getg _ => apply keeps_getg
  | |- keeps (mxml_write_line _ _) _ => apply keeps_write_line
  | |- keeps (encode_in _ _) _ => apply keeps_encode; unfold INT_MAX in *; lia
  | |- keeps (copy_data_enc _) _ => apply keeps_copy_data
  | |- keeps (modw _) _ =>
      apply keeps_modw; let w := fresh "w" in let Hl := fresh "Hl" in let Hb := fresh "Hb" in
      intros w [Hl Hb]; split; [cbn; rewrite ?length_app, ?length_take; cbn; try lia | exact Hb]
  end.

(** The operations a client can call between opening and closing. *)
Inductive wop :=
  | OStart (name : cstr) (indent : bool)
  | OEnd
  | OAttribute (name value : cstr)
  | OValue (data : cstr)
  | OEmptyLine
  | OComment (string : cstr)
  | OElement (name value : cstr)
  | OTranslate (flag : Z).

Definition run_wop (os_write : Z -> cstr -> cstr -> Z) (o : wop) : W unit :=
  match o with
  | OStart name indent => _ ← mxml_start_element1 os_write name indent; mret tt
  | OEnd => _ ← mxml_end_element os_write; mret tt
  | OAttribute name value => _ ← mxml_write_attribute os_write name value; mret tt
  | OValue data => _ ← mxml_write_value os_write data; mret tt
  | OEmptyLine => _ ← mxml_write_empty_line os_write; mret tt
  | OComment string => _ ← mxml_write_comment os_write string; mret tt
  | OElement name value => _ ← mxml_write_element os_write name value; mret tt
  | OTranslate flag => _ ← mxml_set_translate flag; mret tt
  end.

Fixpoint run_wops (os_write : Z -> cstr -> cstr -> Z) (l : list wop) : W unit :=
  match l with
  | [] => mret tt
  | o :: l' => _ ← run_wop os_write o; run_wops os_write l'
  end.

Section Invariant.
Context (os_write : Z -> cstr -> cstr -> Z).

Lemma keeps_write_line_ok line : keeps (write_line_ok os_write line) anything.
Proof. unfold write_line_ok. repeat keeps_step. Qed.

Lemma keeps_close_tag : keeps (close_open_tag os_write) anything.
Proof. unfold close_open_tag. repeat keeps_step. Qed.

Lemma keeps_start name indent : keeps (mxml_start_element1 os_write name indent) anything.
Proof. unfold mxml_start_element1. repeat first [keeps_step | apply keeps_close_tag | apply keeps_write_line_ok]. Qed.

Lemma keeps_end : keeps (mxml_end_element os_write) anything.
Proof.
  unfold mxml_end_element. keeps_step; [apply keeps_getw|].
  destruct (level a) as [|l]; [apply keeps_ret|].
  repeat first [keeps_step | apply keeps_write_line_ok].
Qed.

Lemma keeps_attribute name value : keeps (mxml_write_attribute os_write name value) anything.
Proof. unfold mxml_write_attribute. repeat first [keeps_step | apply keeps_write_line_ok]. Qed.

Lemma keeps_value data : keeps (mxml_write_value os_write data) anything.
Proof.
  unfold mxml_write_value.
  repeat first [keeps_step | apply keeps_write_line_ok].
Qed.

Lemma keeps_wop o : keeps (run_wop os_write o) anything.
Proof.
  destruct o; unfold run_wop, mxml_write_empty_line, mxml_write_comment, mxml_write_element,
    mxml_start_element, mxml_set_translate;
  repeat first [ keeps_step | apply keeps_start | apply keeps_end | apply keeps_attribute
               | apply keeps_value | apply keeps_close_tag | apply keeps_write_line_ok ].
Qed.

Lemma keeps_wops l : keeps (run_wops os_write l) anything.
Proof.
  induction l as [|o l IH]; cbn [run_wops]; [apply keeps_ret|].
  keeps_step; [apply keeps_wop | exact IH].
Qed.
End Invariant.

(** ** Properties *)

(** A descriptor that takes everything, for the concrete instances. *)
Definition os_all (h : Z) (t l : cstr) : Z := slen l.

(** Whatever a call writes, a writer that was well formed is so when the call returns. *)
Lemma writer_invariant os_write l s s' : wstate_ok s -> run_wops os_write l s = Ok (tt, s') -> wstate_ok s'.
Proof. intros Hs Hr. by destruct (keeps_wops os_write l _ _ _ Hs Hr). Qed.

(** Within the sizes of the line buffers, [mxml_write_element] appends
    exactly the line [<name>value</name>], escaped and indented for its depth,
    after finishing a pending start tag, and reports 3 successes. *)
Theorem mxml_write_element_text os_write name value v :
  (forall h t l, os_write h t l = slen l) ->
  let e := flat_map (mxml_encode_char (v_trans v)) in
  let out := v_text (v_close_tag v) ++ indent_ref (length (v_stack v)) ++ str "<" ++ e name ++ str ">"
             ++ e value ++ str "</" ++ e name ++ [">"%char; NL] in
  tag_fits (length (v_stack v)) (e name) -> slen (e value) < 991 -> in_memory out ->
  evals (mxml_write_element os_write name value) 3 v
    (View out false false (v_stack v) (v_trans v)).
Proof.
  intros Hos e out Hfit Hval Hm. unfold mxml_write_element, mxml_start_element.
  set (t1 := v_text (v_close_tag v) ++ indent_ref (length (v_stack v)) ++ LT_ ++ e name).
  set (t2 := t1 ++ str ">" ++ e value).
  assert (Hout : out = t2 ++ LT_SLASH ++ e name ++ GT_NL).
  { unfold out, t2, t1, LT_, LT_SLASH, GT_NL. by rewrite <- !app_assoc. }
  rewrite Hout in Hm |- *.
  eapply evals_bind; [apply (evals_start os_write Hos); [exact Hfit|]|].
  { apply (in_memory_le t1 (str ">" ++ e value)). eapply in_memory_le, Hm. }
  change (v_start name true v) with (View t1 true false (v_stack v ++ [e name]) (v_trans v)).
  eapply evals_bind; [apply (evals_value os_write Hos); [done | exact Hval |]|].
  { eapply in_memory_le, Hm. }
  change (v_value value _) with (View t2 false true (v_stack v ++ [e name]) (v_trans v)).
  eapply evals_bind; [apply (evals_end os_write Hos (e name) (v_stack v)); [done | exact Hfit | exact Hm]|].
  apply evals_ret.
Qed.

Lemma mxml_write_element_text_witness :
  evals (mxml_write_element os_all (str "n") (str "a<b")) 3 (View [] false false [str "r"] true)
    (View (str "  <n>a&lt;b</n>" ++ [NL]) false false [str "r"] true).
Proof.
  apply (mxml_write_element_text os_all (str "n") (str "a<b") (View [] false false [str "r"] true));
    [reflexivity | reflexivity | reflexivity | vm_compute; discriminate].
Defined.

(** ** A document *)

(** What the calls do to a view; a call that is refused does nothing. *)
Definition v_line (t : cstr) (v : wview) : wview := vtext (v_close_tag v) t.
Definition v_end_top (v : wview) : wview :=
  match last (v_stack v) with Some top => v_end top (take (length (v_stack v) - 1) (v_stack v)) v | None => v end.
Definition v_wop (o : wop) (v : wview) : wview :=
  match o with
  | OStart name indent => v_start name indent v
  | OEnd => v_end_top v
  | OAttribute name value => if v_open v then v_attribute name value v else v
  | OValue data => if v_open v then v_value data v else v
  | OEmptyLine => v_line [NL] v
  | OComment string => v_line (indent_ref (length (v_stack v)) ++ str "<!-- " ++ string ++ str " -->" ++ [NL]) v
  | OElement name value => v_end_top (v_value value (v_start name true v))
  | OTranslate flag => View (v_text v) (v_open v) (v_data v) (v_stack v) (negb (flag =? 0))
  end.

(** The sizes of the line buffers: of the indented tag, of an attribute, of a value and of a
    comment; and the text fits into an [int]. *)
Definition wop_fits (o : wop) (v : wview) : Prop :=
  let e := flat_map (mxml_encode_char (v_trans v)) in
  in_memory (v_text (v_wop o v)) /\
  match o with
  | OStart name _ => tag_fits (length (v_stack v)) (e name)
  | OEnd => forall top, last (v_stack v) = Some top -> tag_fits (length (v_stack v) - 1) top
  | OAttribute name value => slen (e name) < 4087 /\ slen (e value) < 4087
  | OValue data => slen (e data) < 991
  | OComment string => Z.of_nat (length (v_stack v)) * 2 + slen string < 990
  | OElement name value => tag_fits (length (v_stack v)) (e name) /\ slen (e value) < 991
  | OEmptyLine | OTranslate _ => True
  end.

Fixpoint wops_fit (l : list wop) (v : wview) : Prop :=
  match l with [] => True | o :: l' => wop_fits o v /\ wops_fit l' (v_wop o v) end.

Section Document.
Context (os_write : Z -> cstr -> cstr -> Z) (os_write_all : forall h t l, os_write h t l = slen l).

Lemma evals_view {A} (m : W A) b v v1 v2 : evals m b v v1 -> v1 = v2 -> evals m b v v2.
Proof. by intros ? <-. Qed.

Lemma evals_run {A} (m : W A) b v v' : evals m b v v' -> evals (_ ← m; mret tt) tt v v'.
Proof. intros H. eapply evals_bind; [exact H | apply evals_ret]. Qed.

Lemma close_tag_stack v : v_stack (v_close_tag v) = v_stack v.
Proof. unfold v_close_tag. by destruct (v_open v). Qed.

Lemma evals_end_any v : (forall top, last (v_stack v) = Some top -> tag_fits (length (v_stack v) - 1) top) -> in_memory (v_text (v_end_top v)) ->
  exists b, evals (mxml_end_element os_write) b v (v_end_top v).
Proof.
  intros Hfit Hm. unfold v_end_top in *. destruct (last (v_stack v)) as [top|] eqn:El.
  - apply last_Some in El as [below Hst]. rewrite Hst, length_app in Hm, Hfit |- *. cbn [length] in Hm, Hfit |- *.
    replace (length below + 1 - 1)%nat with (length below) in * by lia. rewrite take_app_length in Hm |- *.
    exists true. apply evals_end; [done | done | by apply Hfit | done].
  - exists false. apply last_None in El. apply evals_getw. intros w Hw Hv. by rewrite (level_view _ _ Hw Hv), El; apply evals_ret.
Qed.

Lemma evals_empty_line v : in_memory (v_text (v_line [NL] v)) -> evals (mxml_write_empty_line os_write) true v (v_line [NL] v).
Proof.
  intros Hm. unfold mxml_write_empty_line. eapply evals_bind; [apply evals_close_tag; [done | exact (in_memory_le _ _ Hm)]|].
  eapply evals_bind; [by apply evals_write_line|]. change (slen [NL] =? 1) with true. apply evals_ret.
Qed.

Lemma evals_comment string v : Z.of_nat (length (v_stack v)) * 2 + slen string < 990 -> in_memory (v_text (v_wop (OComment string) v)) ->
  evals (mxml_write_comment os_write string) true v (v_wop (OComment string) v).
Proof.
  intros Hlen Hm. cbn [v_wop] in *. unfold mxml_write_comment. pose proof (slen_nonneg string).
  eapply evals_bind; [apply evals_close_tag; [done | exact (in_memory_le _ _ Hm)]|]. apply evals_getw. intros w Hw Hv.
  rewrite (level_view _ _ Hw Hv), close_tag_stack, indent_line_ref by lia. set (ind := indent_ref (length (v_stack v))) in *.
  assert (Hi : slen ind = Z.of_nat (length (v_stack v)) * 2) by apply indent_ref_len.
  assert (H1 : slen (ind ++ str "<!-- ") = slen ind + 5) by (by rewrite slen_app).
  assert (H2 : slen ((ind ++ str "<!-- ") ++ string) = slen ind + 5 + slen string) by (rewrite slen_app; lia).
  assert (H3 : slen (str " -->" ++ [NL]) = 5) by done. assert (H4 : slen (str "<!-- ") = 5) by done.
  rewrite (strlcat_val_short 1000 ind), (strlcat_val_short 1000 (ind ++ str "<!-- ")), strlcat_val_short by lia.
  rewrite <- !app_assoc. apply evals_write_line_ok; [done | done | | exact Hm].
  rewrite !app_assoc, <- (app_assoc _ (str " -->")), slen_app. lia.
Qed.

Lemma evals_wop o v : wop_fits o v -> evals (run_wop os_write o) tt v (v_wop o v).
Proof.
  intros [Hm Hfit]. destruct o as [name indent| |name value|data| |string|name value|flag]; cbn [run_wop v_wop] in *.
  - eapply evals_run. by apply evals_start.
  - destruct (evals_end_any v Hfit Hm) as [b E]. by eapply evals_run.
  - destruct (v_open v) eqn:Ho; [eapply evals_run; by apply evals_attribute; [| | apply Hfit | apply Hfit |]|].
    eapply evals_run. apply evals_getw. intros w _ Hw. assert (element_is_open w = false) as -> by (by rewrite <- Ho, <- Hw). apply evals_ret.
  - destruct (v_open v) eqn:Ho; [eapply evals_run; by apply evals_value|].
    eapply evals_run. apply evals_getw. intros w _ Hw. assert (element_is_open w = false) as -> by (by rewrite <- Ho, <- Hw). apply evals_ret.
  - eapply evals_run. by apply evals_empty_line.
  - eapply evals_run. by apply evals_comment.
  - destruct Hfit as [Hn Hv]. eapply evals_run. eapply evals_view; [apply mxml_write_element_text; [done | exact Hn | exact Hv |]|].
    all: unfold v_end_top, v_value, v_start in *; cbn [v_stack v_text v_trans] in *; rewrite last_snoc, length_app, Nat.add_sub, take_app_length in *;
      unfold v_end in *; cbn [v_open v_data v_text v_stack v_trans] in *; rewrite <- !app_assoc in *; done.
  - intros [g w] [Hg [Hl Hb]] Hv. exists (g, set_trans w flag). split; [done|]. split; [split; [exact Hg | split; [exact Hl | exact Hb]]|]. by rewrite <- Hv.
Qed.

Lemma evals_wops l : forall v, wops_fit l v -> evals (run_wops os_write l) tt v (fold_left (fun v o => v_wop o v) l v).
Proof.
  induction l as [|o l IH]; intros v Hfit; [apply evals_ret|]. destruct Hfit as [Ho Hl]. cbn [run_wops fold_left].
  eapply evals_bind; [by apply evals_wop | by apply IH].
Qed.
End Document.

(** C25: A document written by any calls between opening and closing (elements
    started and ended in any order, attributes, values, comments, switching the translation), none of which
    has more than the line buffers hold: no call leaves defined behaviour, the writer stays well formed (the stack holds
    [level] names, and the text with its terminator lies inside the allocated buffer, which grew as needed), and
    the text, the open elements and the flags are those of the calls made one after the other on the view. *)
Theorem writer_refines os_write g now l :
  (forall h t l, os_write h t l = slen l) -> static_ok g ->
  let v0 := View (header_text g now) false false [] true in
  wops_fit l v0 ->
  (exists s s', mxml_open_buffer os_write g now = Ok s /\ run_wops os_write l s = Ok (tt, s') /\ wstate_ok s' /\
     view_of s'.2 = fold_left (fun v o => v_wop o v) l v0) /\
  (forall fd, fd <> -1 -> exists s s', mxml_open_file os_write g fd now = Ok (Some s) /\ run_wops os_write l s = Ok (tt, s') /\ wstate_ok s' /\
     view_of s'.2 = fold_left (fun v o => v_wop o v) l v0).
Proof.
  intros Hos Hg v0 Hfit. pose proof (evals_wops os_write Hos l v0 Hfit) as Hl. split.
  - destruct (open_header_ok os_write Hos now g (MkWriter 0 true [] 10000 0 O false false [] 1)) as (w & E & Hw & Hv); [split; cbn; [lia|]; intros _; change (slen []) with 0; lia | done | done |].
    destruct (Hl (g, w)) as (s' & E' & Hs' & Hv'); [by split | exact Hv |]. exists (g, w), s'. unfold mxml_open_buffer. by rewrite E.
  - intros fd Hfd. destruct (open_header_ok os_write Hos now g (MkWriter fd false [] 0 0 O false false [] 1)) as (w & E & Hw & Hv); [split; cbn; [lia | done] | done | done |].
    destruct (Hl (g, w)) as (s' & E' & Hs' & Hv'); [by split | exact Hv |]. exists (g, w), s'. unfold mxml_open_file. rewrite (proj2 (Z.eqb_neq _ _)) by done. by rewrite E.
Qed.

Definition sample_ops : list wop :=
  [OStart (str "a") true; OAttribute (str "k") (str "<v>"); OValue (str "x&y"); OEnd; OEnd; OComment (str "done"); OElement (str "b") (str "1"); OValue (str "late")].

(** What it makes; the second end and the late value are refused. *)
Definition sample_document : cstr :=
  header_text mxml_static_init (str "now") ++ str "<a k=" ++ [DQUOTE] ++ str "&lt;v&gt;" ++ [DQUOTE] ++ str ">x&amp;y</a>" ++ [NL] ++
  str "<!-- done -->" ++ [NL] ++ str "<b>1</b>" ++ [NL].

Lemma writer_refines_witness :
  let v := View sample_document false false [] true in
  (exists s s', mxml_open_buffer os_all mxml_static_init (str "now") = Ok s /\ run_wops os_all sample_ops s = Ok (tt, s') /\ wstate_ok s' /\ view_of s'.2 = v) /\
  (forall fd, fd <> -1 -> exists s s', mxml_open_file os_all mxml_static_init fd (str "now") = Ok (Some s) /\ run_wops os_all sample_ops s = Ok (tt, s') /\ wstate_ok s' /\
     view_of s'.2 = v).
Proof.
  refine (writer_refines os_all mxml_static_init (str "now") sample_ops _ _ _).
  - reflexivity.
  - split; [split; [cbn; lia | exact I] | left; reflexivity].
  - repeat first [ split | exact I | (apply (bool_decide_unpack _); vm_compute; exact I) | (vm_compute; discriminate) | (intros top E; vm_compute in E; first [discriminate E | injection E as <-; reflexivity]) ].
Defined.

(** Closing a writer with [n] open elements ends only the upper half of
    them: the loop counts up to a level that counts down, so [n / 2] elements
    stay open and the document is left without their end tags. *)
Theorem close_writer_leaves_half os_write v :
  (forall h t l, os_write h t l = slen l) ->
  (forall j top, v_stack v !! j = Some top -> tag_fits j top) ->
  in_memory (v_text (v_end_n (Nat.div2 (S (length (v_stack v)))) (v_close_tag v))) ->
  exists v', evals (close_writer os_write) true v v' /\
    v_stack v' = take (Nat.div2 (length (v_stack v))) (v_stack v).
Proof.
  intros Hos Hfit Hm. eexists. split; [by apply evals_close_writer|].
  assert (Hst : v_stack (v_close_tag v) = v_stack v) by (unfold v_close_tag; by destruct (v_open v)).
  pose proof (Nat.div2_odd (length (v_stack v))) as H1.
  pose proof (Nat.div2_odd (S (length (v_stack v)))) as H2. rewrite Nat.odd_succ, <- Nat.negb_odd in H2.
  rewrite v_end_n_stack; rewrite Hst; [f_equal|]; destruct (Nat.odd (length (v_stack v))); simpl in *; lia.
Qed.

Lemma close_writer_leaves_half_witness :
  exists v', evals (close_writer os_all) true (View [] false false [str "a"; str "b"; str "c"; str "d"] true) v' /\
    v_stack v' = [str "a"; str "b"].
Proof.
  apply (close_writer_leaves_half os_all (View [] false false [str "a"; str "b"; str "c"; str "d"] true));
    [reflexivity | | vm_compute; discriminate].
  intros j top H. do 4 (destruct j as [|j]; [injection H as <-; reflexivity|]). discriminate H.
Defined.

(** In buffer mode one line overruns the buffer exactly when it is
    longer than the free room plus the fixed growth step of 10000 bytes. *)
Theorem mxml_write_line_overflow os_write line g w :
  has_buffer w = true ->
  buffer_len w + slen line <= INT_MAX -> buffer_size w + 10000 <= INT_MAX ->
  (mxml_write_line os_write line (g, w) = Crash OutOfBounds <->
   buffer_size w + 10000 <= buffer_len w + slen line).
Proof.
  intros Hb H1 H2. unfold mxml_write_line. rewrite Hb, check_bind by lia.
  destruct (Z.leb_spec (buffer_size w) (buffer_len w + slen line)); rewrite check_bind by lia;
    unfold check; (destruct (Z.leb_spec (buffer_len w + slen line + 1)
      (if buffer_size w <=? buffer_len w + slen line then buffer_size w + 10000 else buffer_size w)));
    repeat match goal with |- context [?a <=? ?b] => destruct (Z.leb_spec a b) end;
    cbn; split; intros; try done; try lia.
Qed.

Lemma mxml_write_line_overflow_witness :
  let w := MkWriter 0 true [] 10000 0 O false false [] 1 in
  let line := replicate 20000 "x"%char in
  has_buffer w = true /\ mxml_write_line os_all line (mxml_static_init, w) = Crash OutOfBounds.
Proof.
  cbv zeta. split; [reflexivity|].
  apply (mxml_write_line_overflow os_all (replicate 20000 "x"%char) mxml_static_init
    (MkWriter 0 true [] 10000 0 O false false [] 1));
    [reflexivity | vm_compute; discriminate | vm_compute; discriminate | vm_compute; discriminate].
Defined.

(** The first value ever written must have fewer than 1000 characters:
    the encoding buffer starts at 1000 bytes whatever the value, and
    [strcpy] into it overruns. *)
Theorem mxml_write_value_first_call os_write data g w :
  (forall h t l, os_write h t l = slen l) ->
  writer_ok w -> element_is_open w = true -> data_size g = 0 ->
  in_memory (text w ++ str ">") -> 1000 <= slen data ->
  mxml_write_value os_write data (g, w) = Crash OutOfBounds.
Proof.
  intros Hos Hw Ho Hd Hm Hlen. unfold mxml_write_value, mbind, W_bind, getw, modw. cbn [fst snd].
  rewrite Ho. cbn [negb].
  destruct (write_line_state os_write Hos (str ">") g w Hw) as (w' & E & _); [done | exact Hm |].
  rewrite E. change (slen (str ">") =? 1) with true. cbn [negb fst snd].
  unfold copy_data_enc, mbind, W_bind, getg, modg, lift. cbn [fst snd]. rewrite Hd. cbn.
  unfold check. destruct (Z.leb_spec (slen data + 1) 1000); [lia|done].
Qed.

Lemma mxml_write_value_first_call_witness :
  mxml_write_value os_all (replicate 1000 "x"%char)
    (mxml_static_init, MkWriter 3 false (str "<a") 0 0 1 true false [str "a"] 1) = Crash OutOfBounds.
Proof.
  apply (mxml_write_value_first_call os_all (replicate 1000 "x"%char) mxml_static_init
    (MkWriter 3 false (str "<a") 0 0 1 true false [str "a"] 1));
    [reflexivity | split; [cbn; lia | discriminate] | reflexivity | reflexivity
    | vm_compute; discriminate | vm_compute; discriminate].
Defined.
