(* ===== verification/MxmlTree.v ===== *)
(** * XML trees of [mxml/mxml.c]: nodes, attributes, values

    A node with its subtree is a value of the inductive type [node]; a
    pointer into a tree is a path of child indices; the [parent] fields are in
    [MxmlParents.v].  The attribute arrays are modelled as the memory they are:
    two arrays of cells, and a count that may disagree with their size. *)

From S2P Require Import Prelude CStr MxmlCodec MxmlWriter.

(** ** Data *)

Definition MXML_NAME_LENGTH : Z := 64.

Definition ELEMENT_NODE : Z := 1.
Definition TEXT_NODE : Z := 2.
Definition PROCESSING_INSTRUCTION_NODE : Z := 3.
Definition COMMENT_NODE : Z := 4.
Definition DOCUMENT_NODE : Z := 5.

(** [n_attributes], and the arrays [attribute_name] (cells of 64 bytes) and
    [attribute_value]; a cell that was allocated but never written is [None]. *)
Record attrs := Attrs {
  n_attributes : nat;
  attribute_name : list (option cstr);
  attribute_value : list (option cstr)
}.

Definition no_attrs : attrs := Attrs 0 [] [].

Inductive node :=
  Node (name : cstr) (node_type : Z) (value : option cstr) (at_ : attrs)
       (line_number_start line_number_end : Z) (child : list node).

Definition nname (n : node) : cstr := let '(Node x _ _ _ _ _ _) := n in x.
Definition ntype (n : node) : Z := let '(Node _ x _ _ _ _ _) := n in x.
Definition nvalue (n : node) : option cstr := let '(Node _ _ x _ _ _ _) := n in x.
Definition nattrs (n : node) : attrs := let '(Node _ _ _ x _ _ _) := n in x.
Definition line_start (n : node) : Z := let '(Node _ _ _ _ x _ _) := n in x.
Definition line_end (n : node) : Z := let '(Node _ _ _ _ _ x _) := n in x.
Definition child (n : node) : list node := let '(Node _ _ _ _ _ _ x) := n in x.

Definition set_name (n : node) (x : cstr) : node :=
  Node x (ntype n) (nvalue n) (nattrs n) (line_start n) (line_end n) (child n).
Definition set_value (n : node) (x : option cstr) : node :=
  Node (nname n) (ntype n) x (nattrs n) (line_start n) (line_end n) (child n).
Definition set_attrs (n : node) (x : attrs) : node :=
  Node (nname n) (ntype n) (nvalue n) x (line_start n) (line_end n) (child n).
Definition set_lines (n : node) (a b : Z) : node :=
  Node (nname n) (ntype n) (nvalue n) (nattrs n) a b (child n).
Definition set_child (n : node) (x : list node) : node :=
  Node (nname n) (ntype n) (nvalue n) (nattrs n) (line_start n) (line_end n) x.

(** Induction with a hypothesis for every child. *)
Section node_induction.
Context (P : node -> Prop)
  (IH : forall x t v a ls le cs, Forall P cs -> P (Node x t v a ls le cs)).
Fixpoint node_ind' (n : node) : P n :=
  match n with
  | Node x t v a ls le cs =>
      IH x t v a ls le cs
        ((fix go l := match l return Forall P l with
                      | [] => List.Forall_nil _
                      | c :: l' => List.Forall_cons _ _ _ (node_ind' c) (go l')
                      end) cs)
  end.
End node_induction.

(** ** Cells *)

(** Read a cell of an attribute array. *)
Definition cell (l : list (option cstr)) (i : nat) : res cstr :=
  match l !! i with
  | None => Crash OutOfBounds
  | Some None => Crash Uninit
  | Some (Some s) => Ok s
  end.

(** [realloc] to [n] cells: the old contents as far as they fit. *)
Definition realloc_cells (l : list (option cstr)) (n : nat) : list (option cstr) :=
  take n l ++ replicate (n - length l) None.

(** ** Nodes *)

Definition mxml_create_root_node : node := Node (str "root") DOCUMENT_NODE None no_attrs 0 0 [].

(** The node [mxml_add_special_node_at] initialises. *)
Definition new_node (node_type : Z) (node_name : cstr) (value : option cstr) : node :=
  Node (strlcpy_val MXML_NAME_LENGTH node_name) node_type
    (match value with Some (c :: v) => Some (c :: v) | _ => None end) no_attrs 0 0 [].

(** Children [idx..] move one place down and the new node takes place
    [idx]; past the end of the array the store is out of bounds.  A value has no
    [parent]: that field is in [MxmlParents.v], where the function of the same
    name on memory is proved to store this tree. *)
Definition insert_child (parent : node) (c : node) (idx : nat) : res node :=
  _ ← check (Nat.leb idx (length (child parent))) OutOfBounds;
  Ok (set_child parent (take idx (child parent) ++ c :: drop idx (child parent))).

Definition mxml_add_special_node_at (parent : node) (node_type : Z) (node_name : cstr)
    (value : option cstr) (idx : nat) : res node :=
  insert_child parent (new_node node_type node_name value) idx.

Definition mxml_add_special_node (parent : node) (node_type : Z) (node_name : cstr)
    (value : option cstr) : res node :=
  mxml_add_special_node_at parent node_type node_name value (length (child parent)).

Definition mxml_add_node (parent : node) (node_name : cstr) (value : option cstr) : res node :=
  mxml_add_special_node_at parent ELEMENT_NODE node_name value (length (child parent)).

Definition mxml_add_node_at (parent : node) (node_name : cstr) (value : option cstr) (idx : nat) : res node :=
  mxml_add_special_node_at parent ELEMENT_NODE node_name value idx.

Definition mxml_add_tree_at (parent tree : node) (idx : nat) : res node :=
  insert_child parent tree idx.

Definition mxml_add_tree (parent tree : node) : res node :=
  mxml_add_tree_at parent tree (length (child parent)).

Definition mxml_get_number_of_children (pnode : node) : Z := Z.of_nat (length (child pnode)).

(** A negative index passes the guard and reads before the array. *)
Definition mxml_subnode (pnode : node) (idx : Z) : res (option node) :=
  if idx <? mxml_get_number_of_children pnode then
    if idx <? 0 then Crash OutOfBounds else Ok (child pnode !! Z.to_nat idx)
  else Ok None.

(** ** Attributes *)

Definition mxml_add_attribute (a : attrs) (attrib_name attrib_value : cstr) : res attrs :=
  let n := n_attributes a in
  let names := if Nat.eqb n 0 then [None] else realloc_cells (attribute_name a) (S n) in
  let values := if Nat.eqb n 0 then [None] else realloc_cells (attribute_value a) (S n) in
  names' ← store names n (Some (strlcpy_val MXML_NAME_LENGTH attrib_name));
  values' ← store values n (Some attrib_value);
  Ok (Attrs (S n) names' values').

(** [for (i=0 ; i<n_attributes ; i++) if (strcmp(name[i], name) == 0) break]:
    the index where the loop stops. *)
Fixpoint find_attr (names : list (option cstr)) (name : cstr) (n i : nat) : res nat :=
  match n with
  | O => Ok i
  | S n' =>
      s ← cell names i;
      if streq s name then Ok i else find_attr names name n' (S i)
  end.

Definition mxml_get_attribute (a : attrs) (name : cstr) : res (option cstr) :=
  i ← find_attr (attribute_name a) name (n_attributes a) 0;
  if Nat.eqb i (n_attributes a) then Ok None
  else v ← cell (attribute_value a) i; Ok (Some v).

Definition mxml_replace_attribute_name (a : attrs) (old_name new_name : cstr) : res (bool * attrs) :=
  i ← find_attr (attribute_name a) old_name (n_attributes a) 0;
  if Nat.eqb i (n_attributes a) then Ok (false, a)
  else names ← store (attribute_name a) i (Some (strlcpy_val MXML_NAME_LENGTH new_name));
       Ok (true, Attrs (n_attributes a) names (attribute_value a)).

Definition mxml_replace_attribute_value (a : attrs) (attrib_name attrib_value : cstr)
    : res (bool * attrs) :=
  i ← find_attr (attribute_name a) attrib_name (n_attributes a) 0;
  if Nat.eqb i (n_attributes a) then Ok (false, a)
  else
    _ ← cell (attribute_value a) i;   (* the pointer handed to realloc *)
    values ← store (attribute_value a) i (Some attrib_value);
    Ok (true, Attrs (n_attributes a) (attribute_name a) values).

(** The loop of [mxml_delete_attribute] that moves the cells behind [j] down. *)
Fixpoint shift_cells (names values : list (option cstr)) (k j : nat)
    : res (list (option cstr) * list (option cstr)) :=
  match k with
  | O => Ok (names, values)
  | S k' =>
      s ← cell names (S j);
      names' ← store names j (Some s);
      v ← cell values (S j);
      values' ← store values j (Some v);
      shift_cells names' values' k' (S j)
  end.

(** [n_attributes] is not decremented. *)
Definition mxml_delete_attribute (a : attrs) (attrib_name : cstr) : res (bool * attrs) :=
  let n := n_attributes a in
  i ← find_attr (attribute_name a) attrib_name n 0;
  if Nat.eqb i n then Ok (false, a)
  else
    _ ← cell (attribute_value a) i;   (* the pointer handed to free *)
    '(names, values) ← shift_cells (attribute_name a) (attribute_value a) (n - 1 - i) i;
    Ok (true, Attrs n (realloc_cells names (n - 1)) (realloc_cells values (n - 1))).

(** ** Names and values *)

Definition mxml_replace_node_name (pnode : node) (name : cstr) : node :=
  set_name pnode (strlcpy_val MXML_NAME_LENGTH name).

(** [strlen(value)] is evaluated whenever the node has a value already. *)
Definition mxml_replace_node_value (pnode : node) (value : option cstr) : res node :=
  match nvalue pnode, value with
  | Some _, None => Crash NullDeref
  | _, Some v => Ok (set_value pnode (Some v))
  | None, None => Ok (set_value pnode None)
  end.

(** The first child of that name. *)
Fixpoint find_child (l : list node) (name : cstr) (i : nat) : option nat :=
  match l with
  | [] => None
  | c :: l' => if streq (nname c) name then Some i else find_child l' name (S i)
  end.

Definition mxml_replace_subvalue (pnode : node) (name : cstr) (value : option cstr) : res (bool * node) :=
  match find_child (child pnode) name 0 with
  | None => Ok (false, pnode)
  | Some i =>
      match child pnode !! i with
      | None => Crash OutOfBounds
      | Some c => c' ← mxml_replace_node_value c value;
                  Ok (true, set_child pnode (<[i:=c']> (child pnode)))
      end
  end.

(** ** Whole trees *)

(** The first node, in document order, that starts on a line: its path. *)
Fixpoint mxml_get_node_at_line (tree : node) (line_number : Z) : option (list nat) :=
  if line_start tree =? line_number then Some []
  else
    (fix go (l : list node) (i : nat) : option (list nat) :=
       match l with
       | [] => None
       | c :: l' => match mxml_get_node_at_line c line_number with
                    | Some p => Some (i :: p)
                    | None => go l' (S i)
                    end
       end) (child tree) 0%nat.

Fixpoint subtree (t : node) (p : list nat) : option node :=
  match p with
  | [] => Some t
  | i :: p' => match child t !! i with Some c => subtree c p' | None => None end
  end.

(** The attribute loop of [mxml_clone_tree]. *)
Fixpoint clone_attrs (src : attrs) (k i : nat) (dst : attrs) : res attrs :=
  match k with
  | O => Ok dst
  | S k' =>
      s ← cell (attribute_name src) i;
      v ← cell (attribute_value src) i;
      dst' ← mxml_add_attribute dst s v;
      clone_attrs src k' (S i) dst'
  end.

(** [memcpy] copies [n_attributes] too; the arrays are then reset but the
    count is not. *)
Fixpoint mxml_clone_tree (tree : node) : res node :=
  let clone := set_child (set_attrs (set_value tree None) (Attrs (n_attributes (nattrs tree)) [] [])) [] in
  clone ← mxml_replace_node_value clone (nvalue tree);
  a ← clone_attrs (nattrs tree) (n_attributes (nattrs tree)) 0 (nattrs clone);
  let clone := set_attrs clone a in
  (fix go (l : list node) (acc : node) : res node :=
     match l with
     | [] => Ok acc
     | c :: l' => c' ← mxml_clone_tree c; acc' ← mxml_add_tree acc c'; go l' acc'
     end) (child tree) clone.

(** ** Writing a tree *)
Section Write.
Context (os_write : Z -> cstr -> cstr -> Z).

Fixpoint write_attributes (a : attrs) (k i : nat) : W bool :=
  match k with
  | O => mret true
  | S k' =>
      s ← lift (cell (attribute_name a) i);
      v ← lift (cell (attribute_value a) i);
      b ← mxml_write_attribute os_write s v;
      if negb b then mret false else write_attributes a k' (S i)
  end.

Fixpoint mxml_write_subtree (tree : node) (indent : bool) : W bool :=
  _ ← mxml_start_element1 os_write (nname tree) indent;
  b ← write_attributes (nattrs tree) (n_attributes (nattrs tree)) 0;
  if negb b then mret false
  else
    b ← (match nvalue tree with None => mret true | Some v => mxml_write_value os_write v end);
    if negb b then mret false
    else
      b ← (fix go (l : list node) (i : nat) : W bool :=
             match l with
             | [] => mret true
             | c :: l' =>
                 b ← mxml_write_subtree c
                       (match nvalue tree with None => true | Some _ => Nat.ltb 0 i end);
                 if negb b then mret false else go l' (S i)
             end) (child tree) 0%nat;
      if negb b then mret false else mxml_end_element os_write.

Fixpoint write_elements (l : list node) : W bool :=
  match l with
  | [] => mret true
  | c :: l' =>
      if ntype c =? ELEMENT_NODE then
        b ← mxml_write_subtree c true;
        if negb b then mret false else write_elements l'
      else write_elements l'
  end.

(** [mxml_write_tree(file_name, tree)]: the status and the file's text.
    [fd] is the result of [open], [now] the text of [ctime]. *)
Definition mxml_write_tree (g : mxml_static) (fd : Z) (now : cstr) (tree : node) : res (Z * cstr) :=
  o ← mxml_open_file os_write g fd now;
  match o with
  | None => Ok (0, [])
  | Some s =>
      '(b, s') ← write_elements (child tree) s;
      if (b : bool) then mxml_close_file os_write s' else Ok (0, text s'.2)
  end.
End Write.

(** ** Attribute arrays that represent a list *)

Definition attr_rep (l : list (cstr * cstr)) : attrs :=
  Attrs (length l) (Some ∘ fst <$> l) (Some ∘ snd <$> l).

(** The first value bound to a name. *)
Fixpoint assoc (l : list (cstr * cstr)) (name : cstr) : option cstr :=
  match l with
  | [] => None
  | (n, v) :: l' => if streq n name then Some v else assoc l' name
  end.

(** The position of the first binding of a name. *)
Fixpoint assoc_pos (l : list (cstr * cstr)) (name : cstr) : option nat :=
  match l with
  | [] => None
  | (n, _) :: l' => if streq n name then Some O else S <$> assoc_pos l' name
  end.

Lemma cell_rep (f : cstr * cstr -> cstr) l i :
  cell (Some ∘ f <$> l) i = match l !! i with Some p => Ok (f p) | None => Crash OutOfBounds end.
Proof. unfold cell. rewrite list_lookup_fmap. by destruct (l !! i). Qed.

Lemma find_attr_rep l name : forall l1,
  find_attr (Some ∘ fst <$> l1 ++ l) name (length l) (length l1) =
    Ok (length l1 + match assoc_pos l name with Some k => k | None => length l end)%nat.
Proof.
  induction l as [|[n v] l IH]; intros l1; cbn [find_attr assoc_pos length]; [by rewrite Nat.add_0_r|].
  rewrite cell_rep, list_lookup_middle by done. cbn [fst mbind res_bind].
  destruct (streq n name); [by rewrite Nat.add_0_r|].
  specialize (IH (l1 ++ [(n, v)])). rewrite <- app_assoc, length_app in IH. cbn [app length] in IH.
  rewrite Nat.add_1_r in IH. rewrite IH. f_equal. destruct (assoc_pos l name); simpl; lia.
Qed.

Lemma find_attr_0 l name :
  find_attr (Some ∘ fst <$> l) name (length l) 0 =
    Ok (match assoc_pos l name with Some k => k | None => length l end).
Proof. apply (find_attr_rep l name []). Qed.

Lemma assoc_pos_lt l name k : assoc_pos l name = Some k -> (k < length l)%nat.
Proof.
  revert k. induction l as [|[n v] l IH]; intros k; simpl; [done|].
  destruct (streq n name); [intros [= <-]; lia|].
  destruct (assoc_pos l name) as [j|]; [|done]. intros [= <-]. specialize (IH j eq_refl). lia.
Qed.

Lemma assoc_pos_lookup l name :
  match assoc_pos l name with
  | Some k => exists n v, l !! k = Some (n, v) /\ n = name /\ assoc l name = Some v
  | None => assoc l name = None
  end.
Proof.
  induction l as [|[n v] l IH]; simpl; [done|].
  destruct (streq n name) eqn:E; [apply streq_true in E; eauto|].
  destruct (assoc_pos l name) as [k|]; simpl; [|done].
  destruct IH as (n' & v' & H1 & H2 & H3). eauto.
Qed.

Lemma get_attribute_rep l name : mxml_get_attribute (attr_rep l) name = Ok (assoc l name).
Proof.
  unfold mxml_get_attribute, attr_rep. cbn [attribute_name n_attributes attribute_value].
  rewrite find_attr_0. cbn [mbind res_bind]. pose proof (assoc_pos_lookup l name) as H.
  destruct (assoc_pos l name) as [k|] eqn:E.
  - apply assoc_pos_lt in E. destruct (Nat.eqb_spec k (length l)) as [|_]; [lia|].
    destruct H as (n & v & H1 & _ & H3). by rewrite cell_rep, H1, H3.
  - by rewrite Nat.eqb_refl, H.
Qed.

Lemma store_end {A} (l : list A) a c : store (l ++ [a]) (length l) c = Ok (l ++ [c]).
Proof. rewrite store_Ok by (rewrite length_app; simpl; lia). by rewrite insert_app_at. Qed.

Lemma realloc_grow (l : list (option cstr)) : realloc_cells l (S (length l)) = l ++ [None].
Proof. unfold realloc_cells. rewrite take_ge by lia. by replace (S (length l) - length l)%nat with 1%nat by lia. Qed.

Lemma add_attribute_rep l name value :
  mxml_add_attribute (attr_rep l) name value = Ok (attr_rep (l ++ [(strlcpy_val MXML_NAME_LENGTH name, value)])).
Proof.
  unfold mxml_add_attribute, attr_rep. cbn [attribute_name n_attributes attribute_value].
  assert (Hcells : forall (f : cstr * cstr -> cstr),
    (if Nat.eqb (length l) 0 then [None] else realloc_cells (Some ∘ f <$> l) (S (length l)))
      = (Some ∘ f <$> l) ++ [None]).
  { intros f. destruct l as [|p l]; [done|].
    change (Nat.eqb (length (p :: l)) 0) with false.
    rewrite <- (length_fmap (Some ∘ f) (p :: l)) at 1. apply realloc_grow. }
  rewrite !Hcells.
  replace (length l) with (length (Some ∘ (fst : cstr * cstr -> cstr) <$> l)) at 1 by apply length_fmap.
  rewrite store_end. cbn [mbind res_bind].
  replace (length l) with (length (Some ∘ (snd : cstr * cstr -> cstr) <$> l)) at 1 by apply length_fmap.
  rewrite store_end. cbn [mbind res_bind].
  rewrite length_app, !fmap_app. cbn. by rewrite Nat.add_1_r.
Qed.

(** ** The reference printer

    What a tree is supposed to look like on paper: the text of a node, from
    its start tag to the line end after its end tag, at nesting depth [n]. *)

Definition attr_list (a : attrs) : list (cstr * cstr) :=
  zip (omap id (attribute_name a)) (omap id (attribute_value a)).

Definition render_attr (e : cstr -> cstr) (p : cstr * cstr) : cstr :=
  str " " ++ e p.1 ++ str "=" ++ [DQUOTE] ++ e p.2 ++ [DQUOTE].

Section Render.
Context (tr : bool).   (** the writer's [translate] flag *)
Let e : cstr -> cstr := flat_map (mxml_encode_char tr).

Fixpoint render (n : nat) (indent : bool) (t : node) : cstr :=
  (if indent then indent_ref n else []) ++ LT_ ++ e (nname t)
  ++ flat_map (render_attr e) (attr_list (nattrs t))
  ++ match nvalue t, child t with
     | None, [] => SLASH_GT_NL
     | v, cs =>
         (match v with None => GT_NL | Some v => str ">" ++ e v end)
         ++ (fix go (l : list node) (i : nat) : cstr :=
               match l with
               | [] => []
               | c :: l' =>
                   render (S n) (match v with None => true | Some _ => Nat.ltb 0 i end) c ++ go l' (S i)
               end) cs 0%nat
         ++ (match cs with [] => [] | _ => indent_ref n end)
         ++ LT_SLASH ++ e (nname t) ++ GT_NL
     end.

(** The children of a node, as [render] prints them. *)
Fixpoint render_list (n : nat) (has_value : bool) (l : list node) (i : nat) : cstr :=
  match l with
  | [] => []
  | c :: l' => render n (if has_value then Nat.ltb 0 i else true) c ++ render_list n has_value l' (S i)
  end.

(** A tree whose texts fit the fixed buffers of the writer. *)
Inductive writable : nat -> node -> Prop :=
  | writable_node n name ty v l a b cs :
      tag_fits n (e name) ->
      Forall (fun p => slen (e p.1) < 4087 /\ slen (e p.2) < 4087) l ->
      (match v with None => True | Some v => slen (e v) < 991 end) ->
      Forall (writable (S n)) cs ->
      writable n (Node name ty v (attr_rep l) a b cs).
End Render.

Lemma attr_list_rep l : attr_list (attr_rep l) = l.
Proof.
  unfold attr_list, attr_rep. cbn [attribute_name attribute_value].
  induction l as [|[n v] l IH]; [done|]. cbn. by f_equal.
Qed.

(** The text of a node behind its attributes. *)
Definition content (tr : bool) (n : nat) (top : cstr) (val : option cstr) (cs : list node) : cstr :=
  match val, cs with
  | None, [] => SLASH_GT_NL
  | v, cs =>
      (match v with None => GT_NL | Some v => str ">" ++ flat_map (mxml_encode_char tr) v end)
      ++ render_list tr (S n) (match v with None => false | Some _ => true end) cs 0
      ++ (match cs with [] => [] | _ => indent_ref n end)
      ++ LT_SLASH ++ top ++ GT_NL
  end.

Lemma render_unfold tr n indent t :
  render tr n indent t =
    (if indent then indent_ref n else []) ++ LT_ ++ flat_map (mxml_encode_char tr) (nname t)
    ++ flat_map (render_attr (flat_map (mxml_encode_char tr))) (attr_list (nattrs t))
    ++ content tr n (flat_map (mxml_encode_char tr) (nname t)) (nvalue t) (child t).
Proof.
  destruct t as [x ty v a ls le cs]. cbn [render nname nattrs nvalue child]. do 4 f_equal.
  assert (Hgo : forall (v : option cstr) l i,
    (fix go (l : list node) (i : nat) : cstr :=
       match l with
       | [] => []
       | c :: l' => render tr (S n) (match v with None => true | Some _ => Nat.ltb 0 i end) c ++ go l' (S i)
       end) l i = render_list tr (S n) (match v with None => false | Some _ => true end) l i).
  { intros v' l. induction l as [|c l IH]; intros i; [done|]. cbn [render_list].
    rewrite IH. by destruct v'. }
  destruct v as [v|]; [|destruct cs]; [by rewrite (Hgo (Some v)) | done | by rewrite (Hgo None)].
Qed.

Section WriteSpec.
Context (os_write : Z -> cstr -> cstr -> Z).
Hypothesis os_write_all : forall h t l, os_write h t l = slen l.

Lemma evals_write_attributes l l1 : forall v,
  let e := flat_map (mxml_encode_char (v_trans v)) in
  v_open v = true ->
  Forall (fun p => slen (e p.1) < 4087 /\ slen (e p.2) < 4087) l ->
  in_memory (v_text v ++ flat_map (render_attr e) l) ->
  evals (write_attributes os_write (attr_rep (l1 ++ l)) (length l) (length l1)) true v
    (vtext v (flat_map (render_attr e) l)).
Proof.
  revert l1. induction l as [|[n x] l IH]; intros l1 v e Ho Hf Hm; cbn [write_attributes length].
  - cbn [flat_map]. unfold vtext. rewrite app_nil_r. destruct v. apply evals_ret.
  - apply Forall_cons in Hf as [[Hn Hx] Hf]. cbn [flat_map] in Hm |- *. cbn [fst snd] in *.
    rewrite app_assoc in Hm.
    eapply evals_bind with (a := n) (v2 := v).
    { apply evals_lift. cbn [attr_rep attribute_name]. by rewrite cell_rep, list_lookup_middle. }
    eapply evals_bind with (a := x) (v2 := v).
    { apply evals_lift. cbn [attr_rep attribute_value]. by rewrite cell_rep, list_lookup_middle. }
    eapply evals_bind; [apply evals_attribute; [exact os_write_all | exact Ho | exact Hn | exact Hx | eapply in_memory_le; exact Hm]|]. cbn [negb].
    specialize (IH (l1 ++ [(n, x)]) (v_attribute n x v) Ho Hf Hm).
    rewrite length_app, <- app_assoc, Nat.add_1_r in IH. cbn [app] in IH.
    unfold v_attribute, vtext in *. cbn [v_text v_open v_data v_stack v_trans] in *.
    rewrite <- (app_assoc (v_text v)) in IH. exact IH.
Qed.

(** The loop over the children, given what each child does. *)
Fixpoint write_children (hv : bool) (l : list node) (i : nat) : W bool :=
  match l with
  | [] => mret true
  | c :: l' =>
      b ← mxml_write_subtree os_write c (if hv then Nat.ltb 0 i else true);
      if negb b then mret false else write_children hv l' (S i)
  end.

Lemma write_subtree_unfold t indent :
  mxml_write_subtree os_write t indent =
    (_ ← mxml_start_element1 os_write (nname t) indent;
     b ← write_attributes os_write (nattrs t) (n_attributes (nattrs t)) 0;
     if negb b then mret false
     else
       b ← (match nvalue t with None => mret true | Some v => mxml_write_value os_write v end);
       if negb b then mret false
       else
         b ← write_children (match nvalue t with None => false | Some _ => true end) (child t) 0;
         if negb b then mret false else mxml_end_element os_write).
Proof.
  destruct t as [x ty v a ls le cs]. cbn [mxml_write_subtree nname nattrs nvalue child].
  assert (Hgo : forall l i,
    (fix go (l : list node) (i : nat) : W bool :=
       match l with
       | [] => mret true
       | c :: l' =>
           b ← mxml_write_subtree os_write c
                 (match v with None => true | Some _ => Nat.ltb 0 i end);
           if negb b then mret false else go l' (S i)
       end) l i = write_children (match v with None => false | Some _ => true end) l i).
  { intros l. induction l as [|c l IH]; intros i; [done|]. cbn [write_children].
    rewrite <- IH. by destruct v. }
  by rewrite <- Hgo.
Qed.

(** What writing a subtree does to a writer. *)
Definition v_subtree (t : node) (indent : bool) (v : wview) : wview :=
  View (v_text (v_close_tag v) ++ render (v_trans v) (length (v_stack v)) indent t)
    false false (v_stack v) (v_trans v).

Definition subtree_ok (t : node) : Prop := forall indent v,
  writable (v_trans v) (length (v_stack v)) t ->
  in_memory (v_text (v_subtree t indent v)) ->
  evals (mxml_write_subtree os_write t indent) true v (v_subtree t indent v).

Lemma evals_write_children hv cs : forall i t sk tr,
  Forall subtree_ok cs ->
  Forall (writable tr (length sk)) cs ->
  in_memory (t ++ render_list tr (length sk) hv cs i) ->
  evals (write_children hv cs i) true (View t false false sk tr)
    (View (t ++ render_list tr (length sk) hv cs i) false false sk tr).
Proof.
  induction cs as [|c cs IH]; intros i t sk tr Hok Hw Hm; cbn [write_children render_list] in *.
  - rewrite app_nil_r. apply evals_ret.
  - apply Forall_cons in Hok as [Hc Hok]. apply Forall_cons in Hw as [Hwc Hw].
    rewrite app_assoc in Hm |- *.
    eapply evals_bind.
    { apply (Hc _ (View t false false sk tr)); [exact Hwc|]. eapply in_memory_le, Hm. }
    cbn [negb]. by apply IH.
Qed.

(** The children of a node whose start tag is written: the first one
    finishes the tag. *)
Lemma evals_first_child hv c cs v :
  Forall subtree_ok (c :: cs) -> Forall (writable (v_trans v) (length (v_stack v))) (c :: cs) ->
  in_memory (v_text (v_close_tag v) ++ render_list (v_trans v) (length (v_stack v)) hv (c :: cs) 0) ->
  evals (write_children hv (c :: cs) 0) true v
    (View (v_text (v_close_tag v) ++ render_list (v_trans v) (length (v_stack v)) hv (c :: cs) 0)
       false false (v_stack v) (v_trans v)).
Proof.
  intros Hok Hw Hm. cbn [write_children render_list] in *.
  apply Forall_cons in Hok as [Hc Hok]. apply Forall_cons in Hw as [Hwc Hw].
  rewrite app_assoc in Hm |- *.
  eapply evals_bind; [apply Hc; [exact Hwc | eapply in_memory_le; exact Hm]|].
  cbn [negb]. unfold v_subtree. by apply evals_write_children.
Qed.

(** Ending the innermost element, whose name was written as [top]. *)
Definition end_text (o d : bool) (n : nat) (top : cstr) : cstr :=
  if o then SLASH_GT_NL else (if d then [] else indent_ref n) ++ LT_SLASH ++ top ++ GT_NL.

Lemma evals_end_tag t o d sk top tr :
  tag_fits (length sk) top -> (o = true -> d = false) ->
  in_memory (t ++ end_text o d (length sk) top) ->
  evals (mxml_end_element os_write) true (View t o d (sk ++ [top]) tr)
    (View (t ++ end_text o d (length sk) top) false false sk tr).
Proof.
  intros Hfit Hod Hm.
  assert (Hve : v_end top sk (View t o d (sk ++ [top]) tr) =
    View (t ++ end_text o d (length sk) top) false false sk tr).
  { unfold v_end, end_text. cbn [v_open v_data v_text v_stack v_trans].
    destruct o; [by rewrite Hod | done]. }
  rewrite <- Hve. apply evals_end; [exact os_write_all | done | exact Hfit |]. by rewrite Hve.
Qed.

(** From the attributes to the end tag: value, children, end. *)
Lemma evals_content t val cs sk top tr :
  tag_fits (length sk) top ->
  (match val with None => True | Some v => slen (flat_map (mxml_encode_char tr) v) < 991 end) ->
  Forall subtree_ok cs -> Forall (writable tr (S (length sk))) cs ->
  let body := content tr (length sk) top val cs in
  in_memory (t ++ body) ->
  evals
    (b ← (match val with None => mret true | Some v => mxml_write_value os_write v end);
     if negb b then mret false
     else
       b ← write_children (match val with None => false | Some _ => true end) cs 0;
       if negb b then mret false else mxml_end_element os_write)
    true (View t true false (sk ++ [top]) tr) (View (t ++ body) false false sk tr).
Proof.
  intros Hfit Hval Hok Hw body Hm.
  assert (Hsk : length (sk ++ [top]) = S (length sk)) by (rewrite length_app; simpl; lia).
  rewrite <- Hsk in Hw.
  (* the state after the value *)
  set (t1 := match val with None => t | Some v => t ++ str ">" ++ flat_map (mxml_encode_char tr) v end).
  set (has := match val with None => false | Some _ => true end) in *.
  eapply evals_bind with (v2 := View t1 (negb has) has (sk ++ [top]) tr).
  { unfold t1, has. destruct val as [v|]; [|apply evals_ret].
    apply (evals_value os_write os_write_all v (View t true false (sk ++ [top]) tr)); [done | done |].
    cbn [v_value v_text v_trans].
    unfold body, content in Hm. rewrite app_assoc in Hm. eapply in_memory_le, Hm. }
  cbn [negb]. destruct cs as [|c cs].
  - (* no children *)
    eapply evals_bind; [apply evals_ret|]. cbn [negb].
    assert (Hb : t ++ body = t1 ++ end_text (negb has) has (length sk) top).
    { unfold body, content, t1, has, end_text. destruct val as [v|]; [|done]. cbn [render_list negb app].
      by rewrite <- !app_assoc. }
    rewrite Hb in Hm |- *. apply evals_end_tag; [done | by destruct has | exact Hm].
  - set (v1 := View t1 (negb has) has (sk ++ [top]) tr).
    set (t2 := v_text (v_close_tag v1) ++ render_list tr (length (sk ++ [top])) has (c :: cs) 0).
    assert (Hb : t ++ body = t2 ++ end_text false false (length sk) top).
    { unfold body, content, t2, v1, t1, has, end_text. rewrite Hsk.
      destruct val as [v|]; unfold v_close_tag; cbn [negb v_open v_text]; by rewrite <- !app_assoc. }
    rewrite Hb in Hm |- *.
    eapply evals_bind; [apply (evals_first_child has c cs v1 Hok Hw); eapply in_memory_le, Hm|].
    cbn [negb]. by apply evals_end_tag.
Qed.

(** [mxml_write_subtree] appends the reference text of the tree. *)
Lemma evals_subtree t : subtree_ok t.
Proof.
  induction t as [x ty val a ls le cs IH] using node_ind'. intros indent v Hw Hm.
  inversion Hw as [? ? ? ? l ? ? ? Hfit Hattr Hval Hcs]; subst. clear Hw.
  rewrite write_subtree_unfold. unfold v_subtree in *. rewrite render_unfold in Hm |- *.
  cbn [nname nattrs nvalue child v_text] in *. rewrite attr_list_rep in Hm |- *.
  set (e := flat_map (mxml_encode_char (v_trans v))) in *.
  set (body := content _ _ _ _ _) in *.
  set (t1 := v_text (v_close_tag v) ++ (if indent then indent_ref (length (v_stack v)) else []) ++ LT_ ++ e x).
  set (t2 := t1 ++ flat_map (render_attr e) l).
  assert (Htext : v_text (v_close_tag v) ++ (if indent then indent_ref (length (v_stack v)) else [])
      ++ LT_ ++ e x ++ flat_map (render_attr e) l ++ body = t2 ++ body)
    by (unfold t2, t1; by rewrite <- !app_assoc).
  rewrite Htext in Hm |- *. pose proof (in_memory_le _ _ Hm) as Hm2.
  eapply evals_bind; [apply evals_start; [exact os_write_all | exact Hfit | eapply in_memory_le, Hm2]|].
  change (v_start x indent v) with (View t1 true false (v_stack v ++ [e x]) (v_trans v)).
  eapply evals_bind.
  { apply (evals_write_attributes l [] (View t1 true false (v_stack v ++ [e x]) (v_trans v)));
      [done | exact Hattr | exact Hm2]. }
  cbn [negb]. unfold vtext. cbn [v_text v_open v_data v_stack v_trans]. fold e t2.
  exact (evals_content t2 val cs (v_stack v) (e x) (v_trans v) Hfit Hval IH Hcs Hm).
Qed.
End WriteSpec.

(** ** Lookups by line *)

(** Every node of a tree whose line number is [ln], by path. *)
Definition on_line (t : node) (ln : Z) (p : list nat) : Prop :=
  exists n, subtree t p = Some n /\ line_start n = ln.

Fixpoint at_line_list (l : list node) (i : nat) (ln : Z) : option (list nat) :=
  match l with
  | [] => None
  | c :: l' => match mxml_get_node_at_line c ln with
               | Some p => Some (i :: p)
               | None => at_line_list l' (S i) ln
               end
  end.

Lemma at_line_unfold t ln :
  mxml_get_node_at_line t ln =
    if line_start t =? ln then Some [] else at_line_list (child t) 0 ln.
Proof.
  destruct t as [x ty v a ls le cs]. cbn [mxml_get_node_at_line line_start child].
  destruct (ls =? ln); [done|]. generalize 0%nat. induction cs as [|c cs IH]; intros i; [done|].
  cbn [at_line_list]. destruct (mxml_get_node_at_line c ln); [done|apply IH].
Qed.

Lemma at_line_list_spec ln cs :
  Forall (fun c => match mxml_get_node_at_line c ln with
                   | Some p => on_line c ln p
                   | None => forall p, ~ on_line c ln p
                   end) cs ->
  forall i,
  match at_line_list cs i ln with
  | Some p => exists j q c, p = (i + j)%nat :: q /\ cs !! j = Some c /\ on_line c ln q
  | None => forall j c q, cs !! j = Some c -> ~ on_line c ln q
  end.
Proof.
  induction 1 as [|c cs Hc Hcs IH]; intros i; cbn [at_line_list]; [by intros j c q Hj; rewrite lookup_nil in Hj|].
  destruct (mxml_get_node_at_line c ln) as [p|].
  - exists 0%nat, p, c. by rewrite Nat.add_0_r.
  - specialize (IH (S i)). destruct (at_line_list cs (S i) ln) as [p|].
    + destruct IH as (j & q & d & -> & Hj & Hq). exists (S j), q, d. split; [f_equal; lia|done].
    + intros [|j] d q Hj; simpl in Hj; [injection Hj as <-; apply Hc | by eapply IH].
Qed.

Lemma at_line_correct t ln :
  match mxml_get_node_at_line t ln with
  | Some p => on_line t ln p
  | None => forall p, ~ on_line t ln p
  end.
Proof.
  induction t as [x ty v a ls le cs IH] using node_ind'. rewrite at_line_unfold. cbn [line_start child].
  destruct (Z.eqb_spec ls ln) as [->|Hne]; [by eexists; split|].
  pose proof (at_line_list_spec ln cs IH 0) as H. destruct (at_line_list cs 0 ln) as [p|].
  - destruct H as (j & q & c & -> & Hj & n & Hn & Hl). exists n. cbn. by rewrite Hj.
  - intros [|i q] (n & Hn & Hl); cbn in Hn; [injection Hn as <-; by cbn in Hl|].
    destruct (cs !! i) as [c|] eqn:Ei; [|done]. apply (H i c q Ei). by exists n.
Qed.

(** ** Copies *)

(** No node of the tree has attributes. *)
Inductive attr_free : node -> Prop :=
  | attr_free_node x ty v a b cs : Forall attr_free cs -> attr_free (Node x ty v no_attrs a b cs).

Fixpoint clone_children (l : list node) (acc : node) : res node :=
  match l with
  | [] => Ok acc
  | c :: l' => c' ← mxml_clone_tree c; acc' ← mxml_add_tree acc c'; clone_children l' acc'
  end.

Lemma clone_unfold t :
  mxml_clone_tree t =
    (clone ← mxml_replace_node_value
       (set_child (set_attrs (set_value t None) (Attrs (n_attributes (nattrs t)) [] [])) []) (nvalue t);
     a ← clone_attrs (nattrs t) (n_attributes (nattrs t)) 0 (nattrs clone);
     clone_children (child t) (set_attrs clone a)).
Proof. destruct t as [x ty v a ls le cs]. reflexivity. Qed.

Lemma add_tree_app p c : mxml_add_tree p c = Ok (set_child p (child p ++ [c])).
Proof.
  unfold mxml_add_tree, mxml_add_tree_at, insert_child. rewrite Nat.leb_refl. cbn [check mbind res_bind].
  by rewrite take_ge, drop_ge by lia.
Qed.

Lemma clone_children_id l : Forall (fun c => mxml_clone_tree c = Ok c) l ->
  forall acc, clone_children l acc = Ok (set_child acc (child acc ++ l)).
Proof.
  induction 1 as [|c l Hc Hl IH]; intros acc; cbn [clone_children].
  - rewrite app_nil_r. by destruct acc.
  - rewrite Hc. cbn [mbind res_bind]. rewrite add_tree_app. cbn [mbind res_bind]. rewrite IH.
    cbn [child set_child]. by rewrite <- app_assoc.
Qed.

Lemma clone_id t : attr_free t -> mxml_clone_tree t = Ok t.
Proof.
  induction t as [x ty v a ls le cs IH] using node_ind'. intros Hf.
  inversion Hf as [? ? ? ? ? ? Hcs]; subst. rewrite clone_unfold.
  assert (Hc : Forall (fun c => mxml_clone_tree c = Ok c) cs).
  { rewrite Forall_forall in *. intros c Hin. by apply IH, Hcs. }
  destruct v as [v|]; cbn; by rewrite clone_children_id.
Qed.

(** The cells a copy of [n] attributes ends up with: the [n] bindings come
    after [n] cells that are never written. *)
Lemma store_realloc n (done : list (option cstr)) c :
  (length done = n)%nat -> store (realloc_cells done (S n)) n c = Ok (done ++ [c]).
Proof. intros <-. rewrite realloc_grow. apply store_end. Qed.

Lemma realloc_nil n : realloc_cells [] (S n) = replicate n None ++ [None].
Proof. unfold realloc_cells. rewrite take_nil. cbn [length app]. by rewrite Nat.sub_0_r, replicate_S_end. Qed.

Lemma clone_attrs_cells (name value : list (option cstr)) l : forall i k (ns vs : list (option cstr)),
  (0 < k)%nat -> length ns = k -> length vs = k ->
  (forall j p, l !! j = Some p ->
     name !! (i + j)%nat = Some (Some p.1) /\ value !! (i + j)%nat = Some (Some p.2)) ->
  forall n,
  clone_attrs (Attrs n name value) (length l) i (Attrs k ns vs) =
  Ok (Attrs (k + length l)
        (ns ++ ((fun p => Some (strlcpy_val MXML_NAME_LENGTH p.1)) <$> l))
        (vs ++ ((fun p => Some p.2) <$> l))).
Proof.
  induction l as [|[a v] l IH]; intros i k ns vs Hk Hns Hvs Hsrc n; cbn [clone_attrs length].
  - by rewrite Nat.add_0_r, !app_nil_r.
  - destruct (Hsrc 0%nat (a, v) eq_refl) as [Ha Hv]. rewrite Nat.add_0_r in Ha, Hv.
    unfold cell. cbn [attribute_name attribute_value]. rewrite Ha, Hv.
    cbn [mbind res_bind fst snd]. unfold mxml_add_attribute. cbn [n_attributes attribute_name attribute_value].
    destruct (Nat.eqb_spec k 0) as [|_]; [lia|].
    rewrite !store_realloc by done. cbn [mbind res_bind].
    rewrite (IH (S i) (S k)); rewrite ?length_app; cbn [length]; try lia.
    + cbn [fmap list_fmap fst snd]. rewrite <- !app_assoc. cbn [app]. by rewrite Nat.add_succ_r.
    + intros j p Hj. rewrite Nat.add_succ_comm. by apply Hsrc.
Qed.

Lemma attr_rep_src (l : list (cstr * cstr)) (j : nat) p : l !! j = Some p ->
  (Some ∘ (fst : cstr * cstr -> cstr) <$> l) !! j = Some (Some p.1) /\
  (Some ∘ (snd : cstr * cstr -> cstr) <$> l) !! j = Some (Some p.2).
Proof. intros H. by rewrite !list_lookup_fmap, H. Qed.

Lemma store_fresh n (c : option cstr) :
  store (realloc_cells [] (S n)) n c = Ok (replicate n None ++ [c]).
Proof. rewrite realloc_nil. pose proof (store_end (replicate n None) None c) as H. by rewrite length_replicate in H. Qed.

Lemma clone_attrs_garbage p l :
  clone_attrs (attr_rep (p :: l)) (length (p :: l)) 0 (Attrs (length (p :: l)) [] []) =
  Ok (Attrs (length (p :: l) + length (p :: l))
        (replicate (length (p :: l)) None ++ ((fun p => Some (strlcpy_val MXML_NAME_LENGTH p.1)) <$> p :: l))
        (replicate (length (p :: l)) None ++ ((fun p => Some p.2) <$> p :: l))).
Proof.
  set (n := length (p :: l)). unfold n at 1. cbn [length clone_attrs].
  destruct (attr_rep_src (p :: l) 0 p eq_refl) as [H1 H2].
  unfold cell, attr_rep. cbn [attribute_name attribute_value]. rewrite H1, H2. cbn [mbind res_bind].
  unfold mxml_add_attribute. cbn [n_attributes attribute_name attribute_value].
  destruct (Nat.eqb_spec n 0) as [E|_]; [done|].
  rewrite !store_fresh. cbn [mbind res_bind].
  rewrite clone_attrs_cells; rewrite ?length_app, ?length_replicate; cbn [length]; try lia.
  - rewrite <- !app_assoc. cbn [app fmap list_fmap]. do 2 f_equal. unfold n. simpl. lia.
  - intros j q Hj. exact (attr_rep_src (p :: l) (S j) q Hj).
Qed.

(** ** Properties *)

Lemma assoc_insert l name value other k v :
  assoc_pos l name = Some k -> l !! k = Some (name, v) ->
  assoc (<[k:=(name, value)]> l) other = if streq name other then Some value else assoc l other.
Proof.
  revert k. induction l as [|[n' v'] l IH]; intros k E Hk; [done|].
  simpl in E. destruct (streq n' name) eqn:En.
  - injection E as <-. injection Hk as -> ->. simpl. by destruct (streq name other).
  - destruct (assoc_pos l name) as [j|]; [|done]. injection E as <-. simpl.
    rewrite (IH j eq_refl Hk). destruct (streq n' other) eqn:Eo, (streq name other) eqn:Eno; try done.
    apply streq_true in Eo as ->. apply streq_true in Eno as ->.
    by rewrite (proj2 (streq_true other other) eq_refl) in En.
Qed.

Lemma assoc_delete l k name : assoc l name = None -> assoc (delete k l) name = None.
Proof.
  revert k. induction l as [|[n v] l IH]; intros k; [done|]. simpl.
  destruct (streq n name) eqn:E; [done|]. intros H. destruct k; simpl; [done|]. rewrite E. by apply IH.
Qed.

(** The scan of an array one cell too short for the count. *)
Lemma find_attr_past l name : assoc l name = None ->
  find_attr (Some ∘ fst <$> l) name (S (length l)) 0 = Crash OutOfBounds.
Proof.
  intros H. change l with ([] ++ l) at 1. change O with (length (@nil (cstr * cstr))) at 1.
  generalize (@nil (cstr * cstr)) as l1. revert H.
  induction l as [|[n v] l IH]; intros H l1.
  - cbn [length find_attr]. rewrite cell_rep, app_nil_r, (proj2 (lookup_ge_None _ _)) by lia. done.
  - cbn [length]. remember (S (length l)) as m eqn:Em. cbn [find_attr]. subst m.
    rewrite cell_rep, list_lookup_middle by done. simpl in H.
    cbn [fst mbind res_bind]. destruct (streq n name); [done|].
    specialize (IH H (l1 ++ [(n, v)])). rewrite <- app_assoc, length_app in IH. cbn [app length] in IH.
    by rewrite Nat.add_1_r in IH.
Qed.

Lemma store_middle {A} (l1 l2 : list A) a b : store (l1 ++ a :: l2) (length l1) b = Ok (l1 ++ b :: l2).
Proof. rewrite store_Ok by (rewrite length_app; simpl; lia). by rewrite insert_app_at. Qed.

Lemma shift_cells_rep l2 : forall l1 p,
  exists q,
  shift_cells (Some ∘ fst <$> l1 ++ p :: l2) (Some ∘ snd <$> l1 ++ p :: l2) (length l2) (length l1) =
    Ok (Some ∘ fst <$> (l1 ++ l2) ++ [q], Some ∘ snd <$> (l1 ++ l2) ++ [q]).
Proof.
  induction l2 as [|p' l2 IH]; intros l1 p; cbn [length shift_cells]; [exists p; by rewrite app_nil_r|].
  assert (Hs : forall f : cstr * cstr -> cstr, store (Some ∘ f <$> l1 ++ p :: p' :: l2) (length l1) (Some (f p')) =
               Ok (Some ∘ f <$> (l1 ++ [p']) ++ p' :: l2)).
  { intros f. rewrite !fmap_app, !fmap_cons. cbn [fmap list_fmap].
    rewrite <- (length_fmap (Some ∘ f) l1) at 1. by rewrite store_middle, <- app_assoc. }
  assert (Hl : (l1 ++ p :: p' :: l2) !! S (length l1) = Some p').
  { by rewrite lookup_app_r, Nat.sub_succ_l, Nat.sub_diag by lia. }
  rewrite !cell_rep, Hl. cbn [mbind res_bind]. rewrite (Hs fst). cbn [mbind res_bind].
  rewrite (Hs snd). cbn [mbind res_bind].
  destruct (IH (l1 ++ [p']) p') as [q Hq]. rewrite length_app in Hq. cbn [length] in Hq.
  rewrite Nat.add_1_r in Hq. exists q. rewrite Hq. by rewrite <- !app_assoc.
Qed.

Lemma realloc_shrink (f : cstr * cstr -> option cstr) l q :
  realloc_cells ((f <$> l) ++ [q]) (length l) = f <$> l.
Proof.
  rewrite <- (length_fmap f l). generalize (f <$> l) as m. intros m. unfold realloc_cells. rewrite take_app_exact by done.
  rewrite length_app, (proj2 (Nat.sub_0_le _ _)) by lia. apply app_nil_r.
Qed.

Lemma delete_attribute_rep l name k v :
  assoc_pos l name = Some k -> l !! k = Some (name, v) ->
  mxml_delete_attribute (attr_rep l) name =
    Ok (true, Attrs (length l) (attribute_name (attr_rep (delete k l))) (attribute_value (attr_rep (delete k l)))).
Proof.
  intros E Hk. unfold mxml_delete_attribute. cbn [attr_rep attribute_name attribute_value n_attributes].
  rewrite find_attr_0, E. cbn [mbind res_bind]. pose proof (assoc_pos_lt _ _ _ E) as Hlt.
  destruct (Nat.eqb_spec k (length l)) as [|_]; [lia|]. rewrite cell_rep, Hk. cbn [mbind res_bind].
  rewrite <- (take_drop_middle l k (name, v) Hk) at 1 2 3.
  assert (Hd : delete k l = take k l ++ drop (S k) l) by apply delete_take_drop.
  destruct (shift_cells_rep (drop (S k) l) (take k l) (name, v)) as [q Hq].
  rewrite length_take, Nat.min_l in Hq by lia. rewrite length_app, length_cons, length_take, Nat.min_l by lia.
  replace (k + S (length (drop (S k) l)) - 1 - k)%nat with (length (drop (S k) l)) by lia.
  rewrite Hq. cbn [mbind res_bind]. rewrite <- Hd, !fmap_app. cbn [fmap list_fmap].
  assert (Hn : (length l - 1)%nat = length (delete k l)) by (rewrite length_delete by done; lia).
  rewrite Hn. by rewrite !realloc_shrink.
Qed.

(** [mxml_write_tree] is correct: for a tree whose texts fit the line
    buffers, on a descriptor that takes everything, it succeeds and the file
    holds the header and then the reference text of every element child of
    the root, in order. *)
Lemma mxml_write_tree_text os_write g fd now tree :
  (forall h t l, os_write h t l = slen l) ->
  static_ok g -> fd <> -1 ->
  let elements := List.filter (fun c => ntype c =? ELEMENT_NODE) (child tree) in
  let out := header_text g now ++ flat_map (render true 0 true) elements in
  Forall (writable true 0) elements -> in_memory out ->
  mxml_write_tree os_write g fd now tree = Ok (1, out).
Proof.
  intros Hos Hg Hfd elements out Hw Hm. unfold mxml_write_tree, mxml_open_file.
  destruct (Z.eqb_spec fd (-1)) as [|_]; [done|].
  set (w0 := MkWriter fd false [] 0 0 O false false [] 1).
  destruct (open_header_ok os_write Hos now g w0) as (w1 & E1 & Hok1 & Hv1); [split; cbn; [lia|done] | done | done |].
  rewrite E1. cbn [mbind res_bind snd]. change (negb (translate w0 =? 0)) with true in Hv1.
  change (data_was_written w0) with false in Hv1.
  assert (Hel : forall l t,
    in_memory (t ++ flat_map (render true 0 true) (List.filter (fun c => ntype c =? ELEMENT_NODE) l)) ->
    Forall (writable true 0) (List.filter (fun c => ntype c =? ELEMENT_NODE) l) ->
    evals (write_elements os_write l) true (View t false false [] true)
      (View (t ++ flat_map (render true 0 true) (List.filter (fun c => ntype c =? ELEMENT_NODE) l)) false false [] true)).
  { induction l as [|c l IH]; intros t Hmt Hwt; cbn [write_elements List.filter flat_map] in *;
      [rewrite app_nil_r; apply evals_ret|].
    destruct (ntype c =? ELEMENT_NODE); [|by apply IH]. cbn [flat_map] in *.
    apply Forall_cons in Hwt as [Hc Hwt]. rewrite app_assoc in Hmt |- *.
    eapply evals_bind; [apply (evals_subtree os_write Hos c true (View t false false [] true) Hc);
                        eapply in_memory_le, Hmt|].
    cbn [negb]. by apply IH. }
  destruct (Hel (child tree) (header_text g now) Hm Hw (g, w1)) as ([g2 w2] & E2 & Hok2 & Hv2); [by split | done |].
  rewrite E2. cbn [mbind res_bind]. unfold mxml_close_file.
  destruct (evals_close_writer os_write Hos (View out false false [] true)) with (s := (g2, w2))
    as ([g3 w3] & E3 & _ & Hv3); [by intros j top Hj | exact Hm | exact Hok2 | exact Hv2 |].
  rewrite E3. cbn [mbind res_bind snd]. cbn in Hv3. injection Hv3 as -> _ _ _ _. done.
Qed.

(** A small document, for the concrete instances. *)
Definition sample_tree : node :=
  Node (str "root") DOCUMENT_NODE None no_attrs 0 0
    [ Node (str "a") ELEMENT_NODE None (attr_rep [(str "k", str "1<2")]) 1 3
        [ Node (str "b") ELEMENT_NODE (Some (str "x & y")) (attr_rep []) 2 2 [];
          Node (str "c") ELEMENT_NODE None (attr_rep []) 3 3 [] ] ].

Example write_sample_tree :
  mxml_write_tree os_all (MkStatic 1 enc_static_init 0 0) 5 (str "now") sample_tree =
    Ok (1, XML_HEADER ++ str "<a k=" ++ [DQUOTE] ++ str "1&lt;2" ++ [DQUOTE; ">"%char; NL]
           ++ str "  <b>x &amp; y</b>" ++ [NL] ++ str "  <c/>" ++ [NL] ++ str "</a>" ++ [NL]).
Proof.
  refine (mxml_write_tree_text os_all (MkStatic 1 enc_static_init 0 0) 5 (str "now") sample_tree _ _ _ _ _).
  - reflexivity.
  - split; [split; [cbn; lia | exact I] | left; reflexivity].
  - discriminate.
  - repeat first [ constructor | reflexivity ].
  - vm_compute. discriminate.
Qed.

(** Adding an attribute whose name is shorter than 64 characters and
    then looking a name up gives the first binding of that name; adding
    never changes what an earlier binding answers. *)
Theorem add_get_attribute l name value other :
  slen name < MXML_NAME_LENGTH ->
  exists a, mxml_add_attribute (attr_rep l) name value = Ok a /\
    mxml_get_attribute a other =
      Ok (match assoc l other with
          | Some v => Some v
          | None => if streq name other then Some value else None
          end).
Proof.
  intros Hn. eexists. split; [apply add_attribute_rep|].
  rewrite strlcpy_val_short by done. rewrite get_attribute_rep. f_equal.
  induction l as [|[n v] l IH]; cbn [app assoc]; [done|]. by destruct (streq n other).
Qed.

Lemma add_get_attribute_witness :
  exists a, mxml_add_attribute (attr_rep [(str "id", str "7")]) (str "unit") (str "mV") = Ok a /\
    mxml_get_attribute a (str "unit") = Ok (Some (str "mV")).
Proof. exact (add_get_attribute [(str "id", str "7")] (str "unit") (str "mV") (str "unit") eq_refl). Defined.

(** Replacing the value of an attribute changes the answer for that
    name and for no other, and reports whether the name was there. *)
Theorem replace_get_attribute l name value other :
  match assoc l name with
  | None => mxml_replace_attribute_value (attr_rep l) name value = Ok (false, attr_rep l)
  | Some _ =>
      exists a, mxml_replace_attribute_value (attr_rep l) name value = Ok (true, a) /\
        mxml_get_attribute a other =
          Ok (if streq name other then Some value else assoc l other)
  end.
Proof.
  unfold mxml_replace_attribute_value. cbn [attr_rep attribute_name attribute_value n_attributes].
  rewrite find_attr_0. cbn [mbind res_bind]. pose proof (assoc_pos_lookup l name) as H.
  destruct (assoc_pos l name) as [k|] eqn:E; [|by rewrite H, Nat.eqb_refl].
  destruct H as (n & v & Hk & -> & ->). pose proof (assoc_pos_lt _ _ _ E) as Hlt.
  destruct (Nat.eqb_spec k (length l)) as [|_]; [lia|].
  rewrite cell_rep, Hk. cbn [mbind res_bind]. rewrite store_Ok by (by rewrite length_fmap).
  cbn [mbind res_bind]. eexists. split; [done|].
  assert (Hrep : Attrs (length l) (Some ∘ fst <$> l) (<[k:=Some value]> (Some ∘ snd <$> l)) =
                 attr_rep (<[k:=(name, value)]> l)).
  { unfold attr_rep. rewrite length_insert, !list_fmap_insert. f_equal.
    symmetry. apply list_insert_id. by rewrite list_lookup_fmap, Hk. }
  rewrite Hrep, get_attribute_rep. f_equal. by eapply assoc_insert.
Qed.

(** Deleting an attribute takes its cells out of the arrays, but the
    count still includes it: looking up a name that is not there afterwards
    reads past the end of the array. *)
Theorem delete_attribute_dangling l name other :
  assoc l name <> None -> assoc l other = None ->
  exists k v a, l !! k = Some (name, v) /\
    mxml_delete_attribute (attr_rep l) name = Ok (true, a) /\
    a = Attrs (length l) (attribute_name (attr_rep (delete k l))) (attribute_value (attr_rep (delete k l))) /\
    mxml_get_attribute a other = Crash OutOfBounds.
Proof.
  intros Hn Ho. pose proof (assoc_pos_lookup l name) as H.
  destruct (assoc_pos l name) as [k|] eqn:E; [|done]. destruct H as (n & v & Hk & -> & _).
  exists k, v. eexists. split; [done|]. split; [by eapply delete_attribute_rep|]. split; [done|].
  assert (Hl : length l = S (length (delete k l))).
  { rewrite length_delete by done. pose proof (lookup_lt_Some _ _ _ Hk). lia. }
  unfold mxml_get_attribute. cbn [attribute_name n_attributes attr_rep].
  rewrite Hl, find_attr_past by (by apply assoc_delete). done.
Qed.

Lemma delete_attribute_dangling_witness :
  exists k v a, [(str "id", str "7"); (str "unit", str "mV")] !! k = Some (str "id", v) /\
    mxml_delete_attribute (attr_rep [(str "id", str "7"); (str "unit", str "mV")]) (str "id") = Ok (true, a) /\
    a = Attrs 2 (attribute_name (attr_rep (delete k [(str "id", str "7"); (str "unit", str "mV")])))
          (attribute_value (attr_rep (delete k [(str "id", str "7"); (str "unit", str "mV")]))) /\
    mxml_get_attribute a (str "x") = Crash OutOfBounds.
Proof. apply delete_attribute_dangling; [discriminate | reflexivity]. Defined.

(** A copy of a tree without attributes is the tree. *)
Theorem clone_tree_attr_free t : attr_free t -> mxml_clone_tree t = Ok t.
Proof. apply clone_id. Qed.

Lemma clone_tree_attr_free_witness :
  mxml_clone_tree (Node (str "a") 1 (Some (str "v")) no_attrs 1 1 [Node (str "b") 1 None no_attrs 1 1 []]) =
    Ok (Node (str "a") 1 (Some (str "v")) no_attrs 1 1 [Node (str "b") 1 None no_attrs 1 1 []]).
Proof. apply clone_tree_attr_free. repeat constructor. Defined.

(** A copy of a node with attributes counts each of them twice, and
    the first half of its arrays is never written: any lookup of an attribute
    in the copy reads uninitialised memory. *)
Theorem clone_attributes_uninitialised x ty v p l a b name :
  exists c, mxml_clone_tree (Node x ty v (attr_rep (p :: l)) a b []) = Ok c /\
    n_attributes (nattrs c) = (2 * length (p :: l))%nat /\
    mxml_get_attribute (nattrs c) name = Crash Uninit.
Proof.
  rewrite clone_unfold. cbn [nattrs nvalue child set_child set_attrs set_value nname ntype line_start line_end].
  change (n_attributes (attr_rep (p :: l))) with (length (p :: l)).
  match goal with |- context [mxml_replace_node_value ?n v] =>
    assert (Hv : mxml_replace_node_value n v = Ok (Node x ty v (Attrs (length (p :: l)) [] []) a b []))
      by by destruct v
  end.
  rewrite Hv. cbn [mbind res_bind nattrs]. rewrite clone_attrs_garbage. cbn [mbind res_bind clone_children].
  eexists. split; [done|]. split; [cbn; lia|]. reflexivity.
Qed.

(** [mxml_get_node_at_line] finds a node that starts on the line, and
    answers null only when no node of the tree does. *)
Theorem get_node_at_line_correct t ln :
  match mxml_get_node_at_line t ln with
  | Some p => on_line t ln p
  | None => forall p, ~ on_line t ln p
  end.
Proof. apply at_line_correct. Qed.

(** A node added at index [idx] is the one [mxml_subnode] answers for
    [idx]; the children before it keep their index and those from [idx] on
    move one place down; the number of children grows by one. *)
Theorem add_special_node_at_subnode parent node_type name value idx j :
  (idx <= length (child parent))%nat ->
  exists p', mxml_add_special_node_at parent node_type name value idx = Ok p' /\
    mxml_get_number_of_children p' = mxml_get_number_of_children parent + 1 /\
    mxml_subnode p' (Z.of_nat j) =
      Ok (if decide (j < idx)%nat then child parent !! j
          else if decide (j = idx) then Some (new_node node_type name value)
          else child parent !! (j - 1)%nat).
Proof.
  intros Hidx. unfold mxml_add_special_node_at, insert_child.
  rewrite (proj2 (Nat.leb_le _ _)) by done. cbn [check mbind res_bind].
  eexists. split; [done|]. unfold mxml_subnode, mxml_get_number_of_children.
  cbn [child set_child]. rewrite length_app, length_take. cbn [length]. rewrite length_drop.
  split; [lia|]. destruct (Z.ltb_spec (Z.of_nat j) 0) as [|_]; [lia|]. rewrite Nat2Z.id.
  assert (Hl : (take idx (child parent) ++ new_node node_type name value :: drop idx (child parent)) !! j =
    if decide (j < idx)%nat then child parent !! j
    else if decide (j = idx) then Some (new_node node_type name value)
    else child parent !! (j - 1)%nat).
  { destruct (decide (j < idx)%nat).
    - rewrite lookup_app_l by (rewrite length_take; lia). apply lookup_take_lt. lia.
    - rewrite lookup_app_r by (rewrite length_take; lia). rewrite length_take, Nat.min_l by lia.
      destruct (decide (j = idx)) as [->|]; [by rewrite Nat.sub_diag|].
      rewrite lookup_cons_ne_0 by lia. rewrite lookup_drop. f_equal. lia. }
  destruct (Z.ltb_spec (Z.of_nat j)
      (Z.of_nat (Nat.min idx (length (child parent)) + S (length (child parent) - idx)))); [by f_equal|].
  f_equal. rewrite <- Hl. symmetry. apply lookup_ge_None.
  rewrite length_app, length_take. cbn [length]. rewrite length_drop. lia.
Qed.

Lemma add_special_node_at_subnode_witness :
  exists p', mxml_add_special_node_at sample_tree ELEMENT_NODE (str "z") None 0 = Ok p' /\
    mxml_get_number_of_children p' = 2 /\
    mxml_subnode p' 0 = Ok (Some (new_node ELEMENT_NODE (str "z") None)).
Proof.
  apply (add_special_node_at_subnode sample_tree ELEMENT_NODE (str "z") None 0 0).
  cbn. lia.
Defined.
