(* ===== verification/Telnet.v ===== *)
(** * Telnet option negotiation: [ser2net/telnet.c]

    [process_telnet_data] takes the telnet commands out of the bytes a client
    sent, in the receive buffer itself, and answers them; [telnet_cmd_send]
    and [telnet_send_option] queue what is sent back.  The commands may be
    cut anywhere by the network, so the parser keeps its position in
    [telnet_data].  The callbacks of a client are an interface
    ([TelnetOutput], [TelnetClient]) the handlers are proved against. *)

From S2P Require Import Prelude.

(** ** Data *)

Definition TN_BREAK : Z := 243.
Definition TN_WILL : Z := 251.
Definition TN_WONT : Z := 252.
Definition TN_DO : Z := 253.
Definition TN_DONT : Z := 254.
Definition TN_IAC : Z := 255.
Definition TN_OPT_BINARY_TRANSMISSION : Z := 0.
Definition TN_OPT_ECHO : Z := 1.
Definition TN_OPT_SUPPRESS_GO_AHEAD : Z := 3.
Definition TN_OPT_COM_PORT : Z := 44.

Definition MAX_TELNET_CMD_SIZE : nat := 31.
Definition MAX_TELNET_CMD_XMIT_BUF : nat := 256.

(** [struct telnet_cmd]; a function pointer is a value of [Fn], or [None]
    when it is null. *)
Record telnet_cmd (Fn : Type) := TelnetCmd {
  opt : Z;
  i_will : bool; i_do : bool;
  sent_will : bool; sent_do : bool;
  rem_will : bool; rem_do : bool;
  option_handler : option Fn;
  will_handler : option Fn
}.
Arguments TelnetCmd {Fn}.
Arguments opt {Fn}.
Arguments i_will {Fn}.
Arguments i_do {Fn}.
Arguments sent_will {Fn}.
Arguments sent_do {Fn}.
Arguments rem_will {Fn}.
Arguments rem_do {Fn}.
Arguments option_handler {Fn}.
Arguments will_handler {Fn}.

(** [struct telnet_data_s].  [out_telnet_cmd] holds the first
    [out_telnet_cmd_size] bytes of the array of 256, so the size is its
    length. *)
Record telnet_data := TelnetData {
  telnet_cmd_buf : list Z;
  telnet_cmd_pos : nat;
  suboption_iac : bool;
  out_telnet_cmd : list Z;
  td_error : bool
}.

Definition out_telnet_cmd_size (td : telnet_data) : nat := length (out_telnet_cmd td).

(** What the code reaches through its arguments: the [telnet_data], the
    array [td->cmds] points to (which its owner may share between several
    [telnet_data]) and what is behind [cb_data]. *)
Record tstate (Fn World : Type) := TState {
  td : telnet_data;
  cmds : list (telnet_cmd Fn);
  world : World
}.
Arguments TState {Fn World}.
Arguments td {Fn World}.
Arguments cmds {Fn World}.
Arguments world {Fn World}.

Notation TN Fn World := (ST (tstate Fn World)).

Definition set_pos (n : nat) (d : telnet_data) : telnet_data :=
  TelnetData (telnet_cmd_buf d) n (suboption_iac d) (out_telnet_cmd d) (td_error d).
Definition set_buf (b : list Z) (d : telnet_data) : telnet_data :=
  TelnetData b (telnet_cmd_pos d) (suboption_iac d) (out_telnet_cmd d) (td_error d).
Definition set_iac (b : bool) (d : telnet_data) : telnet_data :=
  TelnetData (telnet_cmd_buf d) (telnet_cmd_pos d) b (out_telnet_cmd d) (td_error d).
Definition set_out (o : list Z) (d : telnet_data) : telnet_data :=
  TelnetData (telnet_cmd_buf d) (telnet_cmd_pos d) (suboption_iac d) o (td_error d).
Definition set_error (b : bool) (d : telnet_data) : telnet_data :=
  TelnetData (telnet_cmd_buf d) (telnet_cmd_pos d) (suboption_iac d) (out_telnet_cmd d) b.

Definition set_sent_will {Fn} (b : bool) (c : telnet_cmd Fn) : telnet_cmd Fn :=
  TelnetCmd (opt c) (i_will c) (i_do c) b (sent_do c) (rem_will c) (rem_do c) (option_handler c) (will_handler c).
Definition set_sent_do {Fn} (b : bool) (c : telnet_cmd Fn) : telnet_cmd Fn :=
  TelnetCmd (opt c) (i_will c) (i_do c) (sent_will c) b (rem_will c) (rem_do c) (option_handler c) (will_handler c).
Definition set_rem_will {Fn} (b : bool) (c : telnet_cmd Fn) : telnet_cmd Fn :=
  TelnetCmd (opt c) (i_will c) (i_do c) (sent_will c) (sent_do c) b (rem_do c) (option_handler c) (will_handler c).
Definition set_rem_do {Fn} (b : bool) (c : telnet_cmd Fn) : telnet_cmd Fn :=
  TelnetCmd (opt c) (i_will c) (i_do c) (sent_will c) (sent_do c) (rem_will c) b (option_handler c) (will_handler c).

(** ** The interface to a client *)

(** [output_ready]: called whenever bytes were queued. *)
Class TelnetOutput (Fn World : Type) := {
  output_ready : TN Fn World unit
}.

(** The other callbacks: one-byte commands, and the handlers the table of
    options names. *)
Class TelnetClient (Fn World : Type) := {
  cmd_handler : Z -> TN Fn World unit;
  call_option : Fn -> list Z -> TN Fn World unit;
  call_will : Fn -> TN Fn World bool
}.

Section Telnet.
Context {Fn World : Type} `{TelnetOutput Fn World}.

Definition mod_td (f : telnet_data -> telnet_data) : TN Fn World unit :=
  modify (fun s => TState (f (td s)) (cmds s) (world s)).
Definition mod_cmd (k : nat) (f : telnet_cmd Fn -> telnet_cmd Fn) : TN Fn World unit :=
  modify (fun s => TState (td s) (alter f k (cmds s)) (world s)).
Definition get_td : TN Fn World telnet_data := fun s => Ok (td s, s).

(** The index of the entry for [option] in an array that ends with an entry
    for 255; [None] for the null pointer. *)
Fixpoint find_cmd (array : list (telnet_cmd Fn)) (option : Z) (i : nat) : res (Datatypes.option nat) :=
  match array with
  | [] => Crash OutOfBounds
  | c :: array' =>
      if opt c =? 255 then Ok None
      else if opt c =? option then Ok (Some i)
      else find_cmd array' option (S i)
  end.

(** ** Output *)

Definition telnet_cmd_send (cmd : list Z) : TN Fn World unit :=
  d ← get_td;
  if bool_decide (MAX_TELNET_CMD_XMIT_BUF - out_telnet_cmd_size d < length cmd)%nat
  then mod_td (set_error true)
  else
    _ ← mod_td (set_out (out_telnet_cmd d ++ cmd));
    output_ready.

Definition send_i (type option : Z) : TN Fn World unit := telnet_cmd_send [TN_IAC; type; option].

(** The bytes an option takes with its 255s doubled. *)
Definition double_iac (data : list Z) : list Z :=
  flat_map (fun b => if b =? 255 then [b; b] else [b]) data.

(** The count runs over the option first; then markers and bytes are stored. *)
Definition telnet_send_option (option : list Z) : TN Fn World unit :=
  d ← get_td;
  let real_len := (length option + length (List.filter (fun b => Z.eqb b 255) option) + 4)%nat in
  if bool_decide (MAX_TELNET_CMD_XMIT_BUF - out_telnet_cmd_size d < real_len)%nat
  then mod_td (set_error true)
  else
    _ ← mod_td (set_out (out_telnet_cmd d ++ [255; 250] ++ double_iac option ++ [255; 240]));
    output_ready.

(** [memcpy] of the initial sequence, without a check of its length. *)
Definition telnet_init (init_seq : list Z) : TN Fn World unit :=
  _ ← mod_td (fun d => set_out [] (set_error false (set_pos 0 d)));
  _ ← lift_res (check (Z.of_nat (length init_seq) <=? Z.of_nat MAX_TELNET_CMD_XMIT_BUF) OutOfBounds);
  _ ← mod_td (set_out init_seq);
  output_ready.

(** ** Input *)
Context `{TelnetClient Fn World}.

(** The entry of the table for an option, with its index. *)
Definition lookup_cmd (option : Z) : TN Fn World (Datatypes.option (nat * telnet_cmd Fn)) :=
  s ← get;
  k ← lift_res (find_cmd (cmds s) option 0);
  mret (match k with
        | Some i => match cmds s !! i with Some c => Some (i, c) | None => None end
        | None => None
        end).

(** IAC WILL *)
Definition handle_will (option : Z) : TN Fn World unit :=
  cmd ← lookup_cmd option;
  match cmd with
  | None => send_i TN_DONT option
  | Some (k, cmd) =>
      _ ← (if negb (sent_do cmd) then
             if negb (i_will cmd) then send_i TN_DONT option
             else
               rv ← match will_handler cmd with None => mret true | Some f => call_will f end;
               if rv : bool then send_i TN_DO option else send_i TN_DONT option
           else mod_cmd k (set_sent_do false));
      mod_cmd k (set_rem_will true)
  end.

(** IAC WONT *)
Definition handle_wont (option : Z) : TN Fn World unit :=
  cmd ← lookup_cmd option;
  match cmd with
  | None => send_i TN_DONT option
  | Some (k, cmd) =>
      _ ← (if negb (sent_do cmd) then send_i TN_DONT option else mod_cmd k (set_sent_do false));
      mod_cmd k (set_rem_will false)
  end.

(** IAC DO *)
Definition handle_do (option : Z) : TN Fn World unit :=
  cmd ← lookup_cmd option;
  match cmd with
  | None => send_i TN_WONT option
  | Some (k, cmd) =>
      _ ← (if negb (sent_will cmd) then
             if negb (i_do cmd) then send_i TN_WONT option else send_i TN_WILL option
           else mod_cmd k (set_sent_will false));
      mod_cmd k (set_rem_do true)
  end.

(** IAC DONT *)
Definition handle_dont (option : Z) : TN Fn World unit :=
  cmd ← lookup_cmd option;
  match cmd with
  | None => send_i TN_WONT option
  | Some (k, cmd) =>
      _ ← (if negb (sent_will cmd) then send_i TN_WONT option else mod_cmd k (set_sent_will false));
      mod_cmd k (set_rem_do false)
  end.

(** A suboption: the handler is called without a test for null. *)
Definition handle_suboption (option : Z) (data : list Z) : TN Fn World unit :=
  cmd ← lookup_cmd option;
  match cmd with
  | None => mret tt
  | Some (_, cmd) =>
      match option_handler cmd with
      | None => lift_res (Crash NullDeref)
      | Some f => call_option f data
      end
  end.

Definition handle_telnet_cmd : TN Fn World unit :=
  d ← get_td;
  let size := telnet_cmd_pos d in
  let cmd_str := telnet_cmd_buf d in
  if bool_decide (size < 2)%nat then mret tt
  else
    c ← lift_res (load cmd_str 1);
    if c <? 250 then cmd_handler c
    else
      option ← lift_res (load cmd_str 2);
      if c =? 250 then handle_suboption option (drop 2 (take size cmd_str))
      else if c =? 251 then handle_will option
      else if c =? 252 then handle_wont option
      else if c =? 253 then handle_do option
      else if c =? 254 then handle_dont option
      else mret tt.

(** [td->telnet_cmd[td->telnet_cmd_pos] = b; td->telnet_cmd_pos++] *)
Definition push (b : Z) : TN Fn World unit :=
  d ← get_td;
  buf ← lift_res (store (telnet_cmd_buf d) (telnet_cmd_pos d) b);
  mod_td (fun d => set_pos (S (telnet_cmd_pos d)) (set_buf buf d)).

(** A byte inside a command, already taken out of the data. *)
Definition telnet_byte (tn_byte : Z) : TN Fn World unit :=
  d ← get_td;
  if Nat.eqb (telnet_cmd_pos d) 1 then
    _ ← push tn_byte;
    if tn_byte <? 250 then _ ← handle_telnet_cmd; mod_td (set_pos 0) else mret tt
  else if Nat.eqb (telnet_cmd_pos d) 2 then
    _ ← push tn_byte;
    d' ← get_td;
    c ← lift_res (load (telnet_cmd_buf d') 1);
    if negb (c =? 250) then _ ← handle_telnet_cmd; mod_td (set_pos 0) else mret tt
  else if suboption_iac d then
    _ ← (if tn_byte =? 240 then
           _ ← mod_td (fun d => set_pos (telnet_cmd_pos d - 1) d);
           _ ← handle_telnet_cmd;
           mod_td (set_pos 0)
         else if tn_byte =? 255 then mret tt
         else mod_td (fun d => set_pos (telnet_cmd_pos d - 1) d));
    mod_td (set_iac false)
  else
    _ ← (if bool_decide (MAX_TELNET_CMD_SIZE < telnet_cmd_pos d)%nat
         then mod_td (set_pos MAX_TELNET_CMD_SIZE) else mret tt);
    _ ← push tn_byte;
    if tn_byte =? 255 then mod_td (set_iac true) else mret tt.

(** [for (i=pos; i<len-1; i++) data[i] = data[i+1]], [n] rounds of it. *)
Fixpoint delete_loop (data : list Z) (n i : nat) : res (list Z) :=
  match n with
  | O => Ok data
  | S n' => b ← load data (S i); data' ← store data i b; delete_loop data' n' (S i)
  end.

(** The data after the removal; the new length is [len - 1]. *)
Definition delete_char (data : list Z) (pos len : nat) : res (list Z) :=
  delete_loop data (len - 1 - pos) pos.

(** The loop of [process_telnet_data]: [n] is [len - i], which every round
    makes smaller; the answer is the data and the leftover length. *)
Fixpoint process_loop (n i : nat) (data : list Z) : TN Fn World (list Z * nat) :=
  match n with
  | O => mret (data, i)
  | S n' =>
      let len := (i + S n')%nat in
      tn_byte ← lift_res (load data i);
      d ← get_td;
      if negb (Nat.eqb (telnet_cmd_pos d) 0) then
        if Nat.eqb (telnet_cmd_pos d) 1 && (tn_byte =? 255) then
          _ ← mod_td (set_pos 0);
          process_loop n' (S i) data
        else
          data' ← lift_res (delete_char data i len);
          _ ← telnet_byte tn_byte;
          process_loop n' i data'
      else if tn_byte =? 255 then
        buf ← lift_res (store (telnet_cmd_buf d) 0 255);
        _ ← mod_td (set_buf buf);
        data' ← lift_res (delete_char data i len);
        _ ← mod_td (fun d => set_iac false (set_pos 1 d));
        process_loop n' i data'
      else process_loop n' (S i) data
  end.

Definition process_telnet_data (data : list Z) (len : nat) : TN Fn World (list Z * nat) :=
  process_loop len 0 data.
End Telnet.

(** ** The parser as a filter of a byte stream *)

Section Filter.
Context {Fn World : Type} `{TelnetOutput Fn World} `{TelnetClient Fn World}.
Implicit Types (s : tstate Fn World) (a b data rest pre tl out : list Z).

(** What one byte does: the command state advances, and the byte is data or
    it is not. *)
Definition tn_step (c : Z) : TN Fn World (list Z) :=
  d ← get_td;
  if negb (Nat.eqb (telnet_cmd_pos d) 0) then
    if Nat.eqb (telnet_cmd_pos d) 1 && (c =? 255) then _ ← mod_td (set_pos 0); mret [c]
    else _ ← telnet_byte c; mret []
  else if c =? 255 then
    buf ← lift_res (store (telnet_cmd_buf d) 0 255);
    _ ← mod_td (set_buf buf);
    _ ← mod_td (fun d => set_iac false (set_pos 1 d));
    mret []
  else mret [c].

Fixpoint tn_filter (data : list Z) : TN Fn World (list Z) :=
  match data with
  | [] => mret []
  | c :: data' => x ← tn_step c; y ← tn_filter data'; mret (x ++ y)
  end.

Lemma tn_filter_cons c data s :
  tn_filter (c :: data) s =
    match tn_step c s with
    | Ok (x, s1) => match tn_filter data s1 with Ok (y, s2) => Ok (x ++ y, s2) | Crash e => Crash e end
    | Crash e => Crash e
    end.
Proof. reflexivity. Qed.

Lemma tn_filter_app a b s :
  tn_filter (a ++ b) s =
    match tn_filter a s with
    | Ok (x, s1) => match tn_filter b s1 with Ok (y, s2) => Ok (x ++ y, s2) | Crash e => Crash e end
    | Crash e => Crash e
    end.
Proof.
  revert s. induction a as [|c a IH]; intros s; cbn [app].
  - cbn [tn_filter mret ST_ret]. by destruct (tn_filter b s) as [[y s2]|].
  - rewrite !tn_filter_cons. destruct (tn_step c s) as [[x s1]|]; [|done]. rewrite IH.
    destruct (tn_filter a s1) as [[y s2]|]; [|done].
    destruct (tn_filter b s2) as [[z s3]|]; [|done]. by rewrite app_assoc.
Qed.

Lemma delete_loop_spec rest : forall pre c tl,
  exists x, delete_loop (pre ++ c :: rest ++ tl) (length rest) (length pre) = Ok (pre ++ rest ++ x :: tl).
Proof.
  induction rest as [|d rest IH]; intros pre c tl; cbn [length delete_loop app]; [by exists c|].
  assert (Hl : load (pre ++ c :: d :: rest ++ tl) (S (length pre)) = Ok d).
  { change (pre ++ c :: d :: rest ++ tl) with (pre ++ [c] ++ d :: rest ++ tl). rewrite app_assoc.
    replace (S (length pre)) with (length (pre ++ [c])) by (rewrite length_app; simpl; lia). apply load_app. }
  rewrite Hl. cbn [mbind res_bind]. rewrite store_Ok by (rewrite length_app; simpl; lia).
  cbn [mbind res_bind]. rewrite insert_app_at.
  destruct (IH (pre ++ [d]) d tl) as [x Hx]. exists x.
  rewrite length_app, Nat.add_1_r, <- !app_assoc in Hx. exact Hx.
Qed.

Lemma delete_char_spec pre c rest tl :
  exists x, delete_char (pre ++ c :: rest ++ tl) (length pre) (length pre + S (length rest)) =
    Ok (pre ++ rest ++ x :: tl).
Proof.
  unfold delete_char. replace (length pre + S (length rest) - 1 - length pre)%nat with (length rest) by lia.
  apply delete_loop_spec.
Qed.

(** The loop over the array computes the filter: the data that stays is moved
    to the front, and nothing behind [len] is touched. *)
Lemma process_loop_filter rest : forall pre tl s,
  match tn_filter rest s with
  | Crash e => process_loop (length rest) (length pre) (pre ++ rest ++ tl) s = Crash e
  | Ok (out, s') => exists junk,
      process_loop (length rest) (length pre) (pre ++ rest ++ tl) s =
        Ok ((pre ++ out ++ junk ++ tl, length pre + length out)%nat, s') /\
      (length out + length junk = length rest)%nat
  end.
Proof.
  induction rest as [|c rest IH]; intros pre tl s.
  { cbn [tn_filter length process_loop]. exists []. split; [|done].
    cbn. by rewrite Nat.add_0_r. }
  rewrite tn_filter_cons. cbn [length process_loop app]. rewrite load_app.
  destruct (delete_char_spec pre c rest tl) as [x Hx].
  assert (Hkeep : forall s1, match (match tn_filter rest s1 with Ok (y, s2) => Ok ([c] ++ y, s2) | Crash e => Crash e end) with
    | Crash e => process_loop (length rest) (S (length pre)) (pre ++ c :: rest ++ tl) s1 = Crash e
    | Ok (out, s') => exists junk, process_loop (length rest) (S (length pre)) (pre ++ c :: rest ++ tl) s1 =
        Ok ((pre ++ out ++ junk ++ tl, length pre + length out)%nat, s') /\ (length out + length junk = S (length rest))%nat
    end).
  { intros s1. specialize (IH (pre ++ [c]) tl s1). rewrite length_app, Nat.add_1_r, <- app_assoc in IH.
    cbn [app] in IH. destruct (tn_filter rest s1) as [[y s2]|]; [|done].
    destruct IH as (junk & E & Hl). exists junk. rewrite E, <- app_assoc. cbn [app length].
    split; [|lia]. do 3 f_equal. lia. }
  assert (Hdrop : forall s1, match (match tn_filter rest s1 with Ok (y, s2) => Ok ([] ++ y, s2) | Crash e => Crash e end) with
    | Crash e => process_loop (length rest) (length pre) (pre ++ rest ++ x :: tl) s1 = Crash e
    | Ok (out, s') => exists junk, process_loop (length rest) (length pre) (pre ++ rest ++ x :: tl) s1 =
        Ok ((pre ++ out ++ junk ++ tl, length pre + length out)%nat, s') /\ (length out + length junk = S (length rest))%nat
    end).
  { intros s1. specialize (IH pre (x :: tl) s1). destruct (tn_filter rest s1) as [[y s2]|]; [|done].
    destruct IH as (junk & E & Hl). exists (junk ++ [x]). rewrite E. cbn [app].
    rewrite <- (app_assoc junk), length_app. cbn [app length]. split; [done|lia]. }
  clear IH. unfold tn_step. rewrite !ST_bind_eq. cbn [lift_res get_td]. rewrite !ST_bind_eq. cbn [get_td].
  destruct (negb (Nat.eqb (telnet_cmd_pos (td s)) 0)).
  - destruct (Nat.eqb (telnet_cmd_pos (td s)) 1 && (c =? 255)); [apply Hkeep|].
    rewrite !ST_bind_eq. rewrite Hx. cbn [lift_res]. rewrite !ST_bind_eq.
    destruct (telnet_byte c s) as [[u s1]|]; [|done]. apply Hdrop.
  - destruct (c =? 255); [|apply Hkeep]. rewrite !ST_bind_eq.
    destruct (store (telnet_cmd_buf (td s)) 0 255) as [buf|]; [|done]. cbn [lift_res].
    rewrite !ST_bind_eq. cbn [mod_td modify]. rewrite !ST_bind_eq, Hx. cbn [lift_res]. apply Hdrop.
Qed.

Lemma process_telnet_data_filter data tl s :
  match tn_filter data s with
  | Crash e => process_telnet_data (data ++ tl) (length data) s = Crash e
  | Ok (out, s') => exists junk,
      process_telnet_data (data ++ tl) (length data) s = Ok ((out ++ junk ++ tl, length out), s') /\
      (length out + length junk = length data)%nat
  end.
Proof. exact (process_loop_filter data [] tl s). Qed.

Lemma process_telnet_data_inv data tl s d n s' :
  process_telnet_data (data ++ tl) (length data) s = Ok ((d, n), s') ->
  exists out junk, tn_filter data s = Ok (out, s') /\ d = out ++ junk ++ tl /\ n = length out /\
    (length out + length junk = length data)%nat.
Proof.
  intros E. pose proof (process_telnet_data_filter data tl s) as Hf.
  destruct (tn_filter data s) as [[out s1]|]; [|congruence].
  destruct Hf as (junk & Hf & Hl). rewrite E in Hf. injection Hf as -> -> ->. eauto 6.
Qed.

(** ** Doubled IACs *)

Lemma tn_filter_data data : forall s buf,
  telnet_cmd_pos (td s) = 0%nat -> length (telnet_cmd_buf (td s)) = S buf ->
  exists s', tn_filter (double_iac data) s = Ok (data, s') /\
    world s' = world s /\ cmds s' = cmds s /\ out_telnet_cmd (td s') = out_telnet_cmd (td s) /\
    td_error (td s') = td_error (td s) /\ telnet_cmd_pos (td s') = 0%nat /\
    length (telnet_cmd_buf (td s')) = S buf.
Proof.
  induction data as [|c data IH]; intros s buf Hp Hb; [by exists s|].
  cbn [double_iac flat_map]. destruct (c =? 255) eqn:Hc.
  - cbn [app]. rewrite tn_filter_cons. unfold tn_step at 1. rewrite ST_bind_eq. cbn [get_td].
    rewrite Hp, Hc. cbn [negb Nat.eqb]. rewrite store_Ok by lia.
    unfold mod_td, modify. rewrite !ST_bind_eq. cbn [lift_res]. rewrite !ST_bind_eq. cbn [mret ST_ret].
    set (s1 := TState _ _ _). rewrite tn_filter_cons. unfold tn_step at 1. rewrite ST_bind_eq. cbn [get_td].
    change (telnet_cmd_pos (td s1)) with 1%nat. cbn [negb Nat.eqb]. rewrite Hc. cbn [andb].
    unfold mod_td, modify. rewrite ST_bind_eq. set (s2 := TState _ _ _). cbn [mret ST_ret].
    destruct (IH s2 buf) as (s' & E & Hs'); [done | by cbn; rewrite length_insert |].
    fold (double_iac data). rewrite E. exists s'. split; [done|]. exact Hs'.
  - cbn [app]. rewrite tn_filter_cons. unfold tn_step at 1. rewrite ST_bind_eq. cbn [get_td].
    rewrite Hp, Hc. cbn [negb Nat.eqb mret ST_ret].
    destruct (IH s buf Hp Hb) as (s' & E & Hs'). fold (double_iac data). rewrite E. by exists s'.
Qed.
End Filter.

(** ** Suboptions *)

(** The command buffer after the bytes [pl] of a command: it keeps the first
    31 of them, and the position stops at 32. *)
Definition stored (pl : list Z) (buf : list Z) (pos : nat) : Prop :=
  length buf = 32%nat /\ pos = Nat.min (length pl) 32 /\ take (Nat.min pos 31) buf = take 31 pl.

Lemma stored_push pl buf pos c :
  stored pl buf pos -> stored (pl ++ [c]) (<[Nat.min pos 31 := c]> buf) (S (Nat.min pos 31)).
Proof.
  intros (Hb & -> & Ht). unfold stored. rewrite length_insert, length_app. cbn [length].
  split; [done|]. split; [lia|].
  destruct (decide (length pl < 31)%nat).
  - rewrite !Nat.min_l in * by lia. rewrite take_insert_ge in Ht || idtac.
    rewrite (take_S_r _ _ c) by (apply list_lookup_insert_eq; lia).
    rewrite take_insert_ge by lia. rewrite Ht, !take_ge; rewrite ?length_app; cbn [length]; done || lia.
  - replace (Nat.min (Nat.min (length pl) 32) 31) with 31%nat in * by lia.
    replace (Nat.min (S 31) 31) with 31%nat by lia.
    rewrite take_insert_ge by lia. rewrite Ht, take_app_le by lia. done.
Qed.

Lemma stored_load pl buf pos k c :
  stored pl buf pos -> (k < 31)%nat -> pl !! k = Some c -> load buf k = Ok c.
Proof.
  intros (Hb & -> & Ht) Hk Hc. pose proof (lookup_lt_Some _ _ _ Hc).
  assert (E : take (Nat.min (Nat.min (length pl) 32) 31) buf !! k = Some c).
  { rewrite Ht, lookup_take_lt by lia. done. }
  unfold load. rewrite lookup_take_lt in E by lia. by rewrite E.
Qed.

Section Suboption.
Context {Fn World : Type} `{TelnetOutput Fn World} `{TelnetClient Fn World}.
Context (out : list Z) (err : bool) (cm : list (telnet_cmd Fn)) (w : World).

Definition in_command (buf : list Z) (pos : nat) (iac : bool) : tstate Fn World :=
  TState (TelnetData buf pos iac out err) cm w.

(** A byte of a suboption that is not the second of a pair. *)
Lemma suboption_byte pl buf pos c :
  stored pl buf pos -> (3 <= pos)%nat ->
  tn_step c (in_command buf pos false) =
    Ok ([], in_command (<[Nat.min pos 31 := c]> buf) (S (Nat.min pos 31)) (c =? 255)).
Proof.
  intros (Hb & Hp & _) H3. unfold tn_step. rewrite ST_bind_eq. cbn [get_td in_command td telnet_cmd_pos].
  destruct (Nat.eqb_spec pos 0) as [|_]; [lia|]. cbn [negb].
  destruct (Nat.eqb_spec pos 1) as [|_]; [lia|]. cbn [andb]. rewrite ST_bind_eq.
  unfold telnet_byte. rewrite ST_bind_eq. cbn [get_td in_command td telnet_cmd_pos suboption_iac].
  destruct (Nat.eqb_spec pos 1) as [|_]; [lia|]. destruct (Nat.eqb_spec pos 2) as [|_]; [lia|].
  assert (Hc : (if bool_decide (MAX_TELNET_CMD_SIZE < pos)%nat
                then mod_td (set_pos MAX_TELNET_CMD_SIZE) else mret tt) (in_command buf pos false) =
               Ok (tt, in_command buf (Nat.min pos 31) false)).
  { case_bool_decide as Hm; unfold MAX_TELNET_CMD_SIZE in Hm.
    - by rewrite Nat.min_r by lia.
    - by rewrite Nat.min_l by lia. }
  rewrite (ST_bind_Ok _ _ _ _ _ Hc). unfold push. rewrite !ST_bind_eq.
  cbn [get_td in_command td telnet_cmd_pos telnet_cmd_buf].
  rewrite ST_bind_eq, store_Ok by lia. cbn [lift_res mod_td modify td cmds world].
  destruct (c =? 255); done.
Qed.

Lemma suboption_payload data : forall pl buf pos,
  stored pl buf pos -> (3 <= pos)%nat ->
  exists buf' pos', tn_filter (double_iac data) (in_command buf pos false) = Ok ([], in_command buf' pos' false) /\
    stored (pl ++ data) buf' pos' /\ (3 <= pos')%nat.
Proof.
  induction data as [|c data IH]; intros pl buf pos Hs H3; [exists buf, pos; by rewrite app_nil_r|].
  pose proof (stored_push pl buf pos c Hs) as Hs'.
  destruct (IH _ _ _ Hs' ltac:(lia)) as (buf' & pos' & E & Hd). rewrite <- app_assoc in Hd.
  exists buf', pos'. split; [|done]. cbn [double_iac flat_map]. fold (double_iac data).
  destruct (c =? 255) eqn:Hc; cbn [app]; rewrite tn_filter_cons, (suboption_byte pl) by done; rewrite Hc.
  - rewrite tn_filter_cons. unfold tn_step at 1. rewrite ST_bind_eq. cbn [get_td in_command td telnet_cmd_pos].
    destruct (Nat.eqb_spec (S (Nat.min pos 31)) 0) as [|_]; [lia|]. cbn [negb].
    destruct (Nat.eqb_spec (S (Nat.min pos 31)) 1) as [|_]; [lia|]. cbn [andb]. rewrite ST_bind_eq.
    unfold telnet_byte. rewrite ST_bind_eq. cbn [get_td in_command td telnet_cmd_pos suboption_iac].
    destruct (Nat.eqb_spec (S (Nat.min pos 31)) 1) as [|_]; [lia|].
    destruct (Nat.eqb_spec (S (Nat.min pos 31)) 2) as [|_]; [lia|]. rewrite Hc.
    apply Z.eqb_eq in Hc as ->. change (255 =? 240) with false. rewrite ST_bind_eq.
    cbn [mret ST_ret mod_td modify].
    match goal with |- context [tn_filter _ ?s] =>
      change s with (in_command (<[Nat.min pos 31 := 255]> buf) (S (Nat.min pos 31)) false) end.
    by rewrite E.
  - by rewrite E.
Qed.

(** The three bytes that open a suboption. *)
Lemma suboption_open buf iac o :
  length buf = 32%nat -> o <> 255 ->
  exists buf', tn_filter [255; 250; o] (in_command buf 0 iac) = Ok ([], in_command buf' 3 false) /\
    stored [255; 250; o] buf' 3.
Proof.
  intros Hb Ho. destruct buf as [|b0 [|b1 [|b2 buf]]]; try (simpl in Hb; lia).
  exists (255 :: 250 :: o :: buf). split; [|by split].
  reflexivity.
Qed.

(** IAC SE: the closing IAC is dropped from the buffer, and the handler of the
    option runs on what is left of the command. *)
Lemma suboption_close pl buf pos o :
  stored pl buf pos -> (3 <= pos)%nat -> pl !! 1%nat = Some 250 -> pl !! 2%nat = Some o ->
  exists buf',
    tn_filter [255; 240] (in_command buf pos false) =
      match handle_suboption o (drop 2 (take 31 pl)) (in_command buf' (Nat.min (length pl) 31) true) with
      | Ok (_, s) => Ok ([], TState (set_iac false (set_pos 0 (td s))) (cmds s) (world s))
      | Crash e => Crash e
      end.
Proof.
  intros Hs H3 H1 H2. pose proof (stored_push pl buf pos 255 Hs) as Hs'.
  exists (<[Nat.min pos 31 := 255]> buf). set (buf' := <[Nat.min pos 31 := 255]> buf) in *.
  rewrite tn_filter_cons, (suboption_byte pl) by done. change (255 =? 255) with true. fold buf'.
  set (q := S (Nat.min pos 31)) in *. assert (Hq : (4 <= q)%nat) by (unfold q; lia).
  rewrite tn_filter_cons. unfold tn_step. rewrite ST_bind_eq. cbn [get_td in_command td telnet_cmd_pos].
  destruct (Nat.eqb_spec q 0) as [|_]; [lia|]. cbn [negb].
  destruct (Nat.eqb_spec q 1) as [|_]; [lia|]. cbn [andb]. rewrite ST_bind_eq.
  unfold telnet_byte. rewrite ST_bind_eq. cbn [get_td in_command td telnet_cmd_pos suboption_iac].
  destruct (Nat.eqb_spec q 1) as [|_]; [lia|]. destruct (Nat.eqb_spec q 2) as [|_]; [lia|].
  change (240 =? 240) with true. cbn iota. rewrite !ST_bind_eq. cbn [mod_td modify].
  rewrite ST_bind_eq. cbn [get_td in_command td telnet_cmd_pos].
  match goal with |- context [handle_telnet_cmd ?s] => change s with (in_command buf' (q - 1) true) end.
  destruct Hs as (Hb & Hp & Ht). assert (Hq1 : (q - 1 = Nat.min (length pl) 31)%nat) by (unfold q; lia).
  rewrite Hq1. unfold handle_telnet_cmd. rewrite ST_bind_eq. cbn [get_td in_command td telnet_cmd_pos telnet_cmd_buf].
  rewrite bool_decide_eq_false_2 by lia.
  assert (Hlk : forall k c, pl !! k = Some c -> (k < 31)%nat -> load buf' k = Ok c).
  { intros k c Hk Hlt. eapply (stored_load (pl ++ [255])); [exact Hs' | done |].
    rewrite lookup_app_l by (by eapply lookup_lt_Some). done. }
  rewrite !ST_bind_eq, (Hlk 1%nat 250) by (done || lia). cbn [lift_res]. change (250 <? 250) with false. cbn iota.
  rewrite !ST_bind_eq, (Hlk 2%nat o) by (done || lia). cbn [lift_res]. change (250 =? 250) with true. cbn iota.
  assert (E : drop 2 (take (Nat.min (length pl) 31) buf') = drop 2 (take 31 pl)).
  { f_equal. destruct Hs' as (_ & _ & Ht'). fold q in Ht'.
    assert (E : take (Nat.min (length pl) 31) (take (Nat.min q 31) buf') =
                take (Nat.min (length pl) 31) (take 31 (pl ++ [255]))) by (by f_equal).
    rewrite !take_take in E. replace (Nat.min (Nat.min (length pl) 31) (Nat.min q 31)) with
      (Nat.min (length pl) 31) in E by (unfold q; lia). rewrite E.
    rewrite (Nat.min_l (Nat.min (length pl) 31) 31) by lia. rewrite take_app_le by lia.
    destruct (decide (length pl <= 31)%nat); [by rewrite Nat.min_l, !take_ge by lia | by rewrite Nat.min_r by lia]. }
  rewrite E. fold (in_command buf' (Nat.min (length pl) 31) true).
  destruct (handle_suboption o (drop 2 (take 31 pl)) (in_command buf' (Nat.min (length pl) 31) true)) as [[[] s1]|];
    reflexivity.
Qed.

Lemma suboption_delivered buf iac o p :
  length buf = 32%nat -> o <> 255 ->
  exists buf',
    tn_filter ([255; 250] ++ double_iac (o :: p) ++ [255; 240]) (in_command buf 0 iac) =
      match handle_suboption o (take 29 (o :: p)) (in_command buf' (Nat.min (3 + length p) 31) true) with
      | Ok (_, s) => Ok ([], TState (set_iac false (set_pos 0 (td s))) (cmds s) (world s))
      | Crash e => Crash e
      end.
Proof.
  intros Hb Ho. destruct (suboption_open buf iac o Hb Ho) as (b1 & E1 & S1).
  destruct (suboption_payload p _ _ _ S1 ltac:(lia)) as (b2 & q2 & E2 & S2 & H2).
  destruct (suboption_close _ _ _ o S2 H2 eq_refl eq_refl) as (b3 & E3). exists b3.
  assert (Hd : double_iac (o :: p) = o :: double_iac p).
  { cbn [double_iac flat_map]. by rewrite (proj2 (Z.eqb_neq o 255) Ho). }
  rewrite Hd. change ([255; 250] ++ (o :: double_iac p) ++ [255; 240])
    with ([255; 250; o] ++ double_iac p ++ [255; 240]).
  rewrite tn_filter_app, E1, tn_filter_app, E2, E3. cbn [app length].
  change (drop 2 (take 31 (255 :: 250 :: o :: p))) with (take 29 (o :: p)).
  by destruct (handle_suboption _ _ _) as [[? s]|].
Qed.
End Suboption.

(** ** Negotiation *)

(** The reply to IAC [c] for an option with table entry [cmd], for an option
    without a [will_handler]; [None] when nothing is sent. *)
Definition reply {Fn} (c : Z) (cmd : option (telnet_cmd Fn)) : option Z :=
  match cmd with
  | None => Some (if (c =? TN_WILL) || (c =? TN_WONT) then TN_DONT else TN_WONT)
  | Some m =>
      if c =? TN_WILL then if sent_do m then None else Some (if i_will m then TN_DO else TN_DONT)
      else if c =? TN_WONT then if sent_do m then None else Some TN_DONT
      else if c =? TN_DO then if sent_will m then None else Some (if i_do m then TN_WILL else TN_WONT)
      else if sent_will m then None else Some TN_WONT
  end.

(** How IAC [c] changes the entry: it answers what was sent, and records the
    other end's state. *)
Definition learn {Fn} (c : Z) (m : telnet_cmd Fn) : telnet_cmd Fn :=
  if c =? TN_WILL then set_rem_will true (set_sent_do false m)
  else if c =? TN_WONT then set_rem_will false (set_sent_do false m)
  else if c =? TN_DO then set_rem_do true (set_sent_will false m)
  else set_rem_do false (set_sent_will false m).

(** The entry of a table for an option. *)
Definition entry {Fn} (array : list (telnet_cmd Fn)) (o : Z) : option (nat * telnet_cmd Fn) :=
  match find_cmd array o 0 with
  | Ok (Some k) => match array !! k with Some m => Some (k, m) | None => None end
  | _ => None
  end.

Definition terminated {Fn} (array : list (telnet_cmd Fn)) : Prop := Exists (fun m => opt m = 255) array.

Lemma find_cmd_spec {Fn} (array : list (telnet_cmd Fn)) o : forall i, terminated array ->
  find_cmd array o i = Ok None \/
  exists k m, find_cmd array o i = Ok (Some (i + k)%nat) /\ array !! k = Some m /\ opt m = o /\ o <> 255.
Proof.
  induction array as [|m array IH]; intros i Ht; [by inversion Ht|]. cbn [find_cmd].
  destruct (Z.eqb_spec (opt m) 255) as [|H255]; [by left|].
  destruct (Z.eqb_spec (opt m) o) as [Ho|Ho].
  - right. exists 0%nat, m. rewrite Nat.add_0_r. split_and!; [done | done | done | congruence].
  - inversion Ht as [? ? Hm|? ? Ht']; subst; [done|]. destruct (IH (S i) Ht') as [E|(k & m' & E & Hk)]; [by left|].
    right. exists (S k), m'. rewrite E. split; [do 2 f_equal; lia|done].
Qed.

Section Negotiation.
Context {Fn World : Type} `{TelnetOutput Fn World} `{TelnetClient Fn World}.
Implicit Types s : tstate Fn World.

Lemma lookup_cmd_entry o s : terminated (cmds s) -> lookup_cmd o s = Ok (entry (cmds s) o, s).
Proof.
  intros Ht. unfold lookup_cmd, entry. rewrite !ST_bind_eq. cbn [get]. rewrite ST_bind_eq.
  destruct (find_cmd_spec (cmds s) o 0 Ht) as [E|(k & m & E & _)]; by rewrite E.
Qed.

Lemma entry_opt (array : list (telnet_cmd Fn)) o k m : terminated array ->
  entry array o = Some (k, m) -> array !! k = Some m /\ opt m = o /\ o <> 255.
Proof.
  intros Ht. unfold entry. destruct (find_cmd_spec array o 0 Ht) as [E|(k' & m' & E & Hk & Hm)]; rewrite E; [done|].
  rewrite Nat.add_0_l, Hk. intros [= -> ->]. done.
Qed.

(** The three bytes of an option command reach [handle_telnet_cmd] whole. *)
Lemma tn_filter_command c o s :
  telnet_cmd_pos (td s) = 0%nat -> length (telnet_cmd_buf (td s)) = 32%nat -> 251 <= c <= 254 ->
  exists buf, length buf = 32%nat /\
    tn_filter [255; c; o] s =
      match (if c =? 251 then handle_will o else if c =? 252 then handle_wont o
             else if c =? 253 then handle_do o else handle_dont o)
            (TState (TelnetData buf 3 false (out_telnet_cmd (td s)) (td_error (td s))) (cmds s) (world s)) with
      | Ok (_, s') => Ok ([], TState (set_pos 0 (td s')) (cmds s') (world s'))
      | Crash e => Crash e
      end.
Proof.
  intros Hp Hb Hc. destruct s as [[buf pos iac out err] cm w]. cbn [td telnet_cmd_pos telnet_cmd_buf] in *. subst pos.
  destruct buf as [|b0 [|b1 [|b2 buf]]]; try (simpl in Hb; lia).
  exists (255 :: c :: o :: buf). split; [done|].
  rewrite tn_filter_cons.
  change (tn_step 255 _) with (Ok ([] : list Z, TState (TelnetData (255 :: b1 :: b2 :: buf) 1 false out err) cm w)).
  cbn iota. rewrite tn_filter_cons.
  assert (E2 : tn_step c (TState (TelnetData (255 :: b1 :: b2 :: buf) 1 false out err) cm w) =
               Ok ([], TState (TelnetData (255 :: c :: b2 :: buf) 2 false out err) cm w)).
  { unfold tn_step. rewrite ST_bind_eq. cbn [get_td td telnet_cmd_pos negb Nat.eqb andb].
    rewrite (proj2 (Z.eqb_neq c 255)) by lia. cbn [andb]. rewrite ST_bind_eq. unfold telnet_byte. rewrite ST_bind_eq.
    cbn [get_td td telnet_cmd_pos Nat.eqb]. rewrite ST_bind_eq, (proj2 (Z.ltb_ge c 250)) by lia. reflexivity. }
  rewrite E2, tn_filter_cons.
  assert (E3 : tn_step o (TState (TelnetData (255 :: c :: b2 :: buf) 2 false out err) cm w) =
    match handle_telnet_cmd (TState (TelnetData (255 :: c :: o :: buf) 3 false out err) cm w) with
    | Ok (_, s') => Ok ([], TState (set_pos 0 (td s')) (cmds s') (world s'))
    | Crash e => Crash e
    end).
  { unfold tn_step. rewrite ST_bind_eq. cbn [get_td td telnet_cmd_pos negb Nat.eqb andb].
    rewrite ST_bind_eq. unfold telnet_byte. rewrite ST_bind_eq.
    cbn [get_td td telnet_cmd_pos Nat.eqb]. rewrite ST_bind_eq.
    change (push o _) with (Ok (tt, TState (TelnetData (255 :: c :: o :: buf) 3 false out err) cm w)).
    cbn iota. rewrite ST_bind_eq. cbn [get_td td telnet_cmd_buf]. rewrite ST_bind_eq.
    cbn [load lift_res lookup list_lookup]. change (load _ 1) with (Ok c). cbn [lift_res].
    rewrite (proj2 (Z.eqb_neq c 250)) by lia. cbn [negb]. rewrite ST_bind_eq.
    by destruct (handle_telnet_cmd _) as [[[] s']|]. }
  rewrite E3. unfold handle_telnet_cmd. rewrite ST_bind_eq. cbn [get_td td telnet_cmd_pos telnet_cmd_buf].
  rewrite bool_decide_eq_false_2 by lia. rewrite ST_bind_eq. change (load _ 1) with (Ok c). cbn [lift_res].
  rewrite (proj2 (Z.ltb_ge c 250)) by lia. rewrite ST_bind_eq. change (load _ 2) with (Ok o). cbn [lift_res].
  rewrite (proj2 (Z.eqb_neq c 250)) by lia.
  cbn [td cmds world out_telnet_cmd td_error].
  destruct (c =? 251) eqn:E1; [by destruct (handle_will _ _) as [[[] ?]|]|].
  destruct (c =? 252) eqn:E4; [by destruct (handle_wont _ _) as [[[] ?]|]|].
  destruct (c =? 253) eqn:E5; [by destruct (handle_do _ _) as [[[] ?]|]|].
  rewrite (proj2 (Z.eqb_eq c 254)) by lia. by destruct (handle_dont _ _) as [[[] ?]|].
Qed.
End Negotiation.

Lemma alter_lookup {A} (f : A -> A) (l : list A) k m : l !! k = Some m -> alter f k l = <[k := f m]> l.
Proof. revert k. induction l as [|a l IH]; intros [|k] E; [done..| |]; simpl in *; [by injection E as ->|]. f_equal. by apply IH. Qed.

Lemma alter_twice {A} (f g : A -> A) (l : list A) k : alter f k (alter g k l) = alter (f ∘ g) k l.
Proof. revert k. induction l as [|a l IH]; intros [|k]; simpl; f_equal; done || apply IH. Qed.

Section NegotiationReply.
Context {Fn World : Type} `{TelnetOutput Fn World} `{TelnetClient Fn World}.
Implicit Types s : tstate Fn World.

(** The queue only tells its owner that it has something. *)
Hypothesis output_quiet : forall s, exists w, output_ready s = Ok (tt, TState (td s) (cmds s) w).

Lemma send_i_quiet r o s :
  (length (out_telnet_cmd (td s)) + 3 <= 256)%nat ->
  exists w, send_i r o s = Ok (tt, TState (set_out (out_telnet_cmd (td s) ++ [255; r; o]) (td s)) (cmds s) w).
Proof.
  intros Hroom. unfold send_i, telnet_cmd_send. rewrite ST_bind_eq. cbn [get_td].
  unfold out_telnet_cmd_size, MAX_TELNET_CMD_XMIT_BUF. rewrite bool_decide_eq_false_2 by (simpl; lia).
  rewrite ST_bind_eq. cbn [mod_td modify]. destruct (output_quiet (TState (set_out (out_telnet_cmd (td s) ++ [TN_IAC; r; o]) (td s)) (cmds s) (world s)))
    as [w E]. exists w. exact E.
Qed.

(** The effect of IAC [c] on the state in which its handler starts. *)
Definition negotiated (c o : Z) s (w : World) : tstate Fn World :=
  TState (set_out (out_telnet_cmd (td s) ++
                     match reply c (snd <$> entry (cmds s) o) with Some r => [255; r; o] | None => [] end) (td s))
         (match entry (cmds s) o with Some (k, _) => alter (learn c) k (cmds s) | None => cmds s end) w.

Lemma set_out_id d : set_out (out_telnet_cmd d ++ []) d = d.
Proof. rewrite app_nil_r. by destruct d. Qed.

Lemma send_learn r o s k f :
  (length (out_telnet_cmd (td s)) + 3 <= 256)%nat ->
  exists w, (_ ← send_i r o; mod_cmd k f) s =
    Ok (tt, TState (set_out (out_telnet_cmd (td s) ++ [255; r; o]) (td s)) (alter f k (cmds s)) w).
Proof.
  intros Hroom. destruct (send_i_quiet r o s Hroom) as [w E]. exists w. by rewrite (ST_bind_Ok _ _ _ _ _ E).
Qed.

Lemma mod_cmd_twice k g f s :
  (_ ← mod_cmd k g; mod_cmd k f) s =
    Ok (tt, TState (set_out (out_telnet_cmd (td s) ++ []) (td s)) (alter (f ∘ g) k (cmds s)) (world s)).
Proof. rewrite set_out_id. unfold mod_cmd. rewrite ST_bind_eq. unfold modify. cbn [td cmds world].
 by rewrite alter_twice. Qed.

(** An entry without a command of ours to answer: clearing the flag is no
    change. *)
Lemma learn_unsent (f g : telnet_cmd Fn -> telnet_cmd Fn) k m (l : list (telnet_cmd Fn)) :
  l !! k = Some m -> g m = m -> alter (f ∘ g) k l = alter f k l.
Proof. intros Hk Hg. rewrite !(alter_lookup _ _ _ _ Hk). cbn. by rewrite Hg. Qed.

Lemma unsent_do m : sent_do m = false -> set_sent_do false m = m :> telnet_cmd Fn.
Proof. destruct m; cbn; by intros ->. Qed.

Lemma unsent_will m : sent_will m = false -> set_sent_will false m = m :> telnet_cmd Fn.
Proof. destruct m; cbn; by intros ->. Qed.

Lemma handlers_negotiate c o s :
  (length (out_telnet_cmd (td s)) + 3 <= 256)%nat -> terminated (cmds s) -> 251 <= c <= 254 ->
  (forall k m, entry (cmds s) o = Some (k, m) -> will_handler m = None) ->
  exists w, (if c =? 251 then handle_will o else if c =? 252 then handle_wont o
             else if c =? 253 then handle_do o else handle_dont o) s = Ok (tt, negotiated c o s w).
Proof.
  intros Hroom Ht Hc Hw. pose proof (lookup_cmd_entry o s Ht) as Hl. unfold negotiated.
  assert (c = 251 \/ c = 252 \/ c = 253 \/ c = 254) as [-> | [-> | [-> | ->]]] by lia; cbn [Z.eqb Pos.eqb];
    unfold handle_will, handle_wont, handle_do, handle_dont; rewrite (ST_bind_Ok _ _ _ _ _ Hl);
    destruct (entry (cmds s) o) as [[k m]|] eqn:E; try exact (send_i_quiet _ o s Hroom);
    destruct (entry_opt _ _ _ _ Ht E) as (Hk & _ & _); specialize (Hw k m eq_refl);
    cbn [reply fmap option_fmap option_map snd];
    unfold TN_WILL, TN_WONT, TN_DO; cbn [Z.eqb Pos.eqb].
  - change (learn 251) with (set_rem_will (Fn:=Fn) true ∘ set_sent_do false).
    destruct (sent_do m) eqn:Hs; cbn [negb]; [eexists; apply mod_cmd_twice|].
    rewrite (learn_unsent _ _ k m _ Hk (unsent_do m Hs)), Hw.
    destruct (i_will m); cbn [negb]; apply (send_learn _ o s k _ Hroom).
  - change (learn 252) with (set_rem_will (Fn:=Fn) false ∘ set_sent_do false).
    destruct (sent_do m) eqn:Hs; cbn [negb]; [eexists; apply mod_cmd_twice|].
    rewrite (learn_unsent _ _ k m _ Hk (unsent_do m Hs)). apply (send_learn _ o s k _ Hroom).
  - change (learn 253) with (set_rem_do (Fn:=Fn) true ∘ set_sent_will false).
    destruct (sent_will m) eqn:Hs; cbn [negb]; [eexists; apply mod_cmd_twice|].
    rewrite (learn_unsent _ _ k m _ Hk (unsent_will m Hs)).
    destruct (i_do m); cbn [negb]; apply (send_learn _ o s k _ Hroom).
  - change (learn 254) with (set_rem_do (Fn:=Fn) false ∘ set_sent_will false).
    destruct (sent_will m) eqn:Hs; cbn [negb]; [eexists; apply mod_cmd_twice|].
    rewrite (learn_unsent _ _ k m _ Hk (unsent_will m Hs)). apply (send_learn _ o s k _ Hroom).
Qed.
End NegotiationReply.

(** ** Safety *)

(** What every call of the module keeps of its data: the sizes of the
    buffers. *)
Definition td_ok (d : telnet_data) : Prop :=
  length (telnet_cmd_buf d) = 32%nat /\ (telnet_cmd_pos d <= 32)%nat /\ (length (out_telnet_cmd d) <= 256)%nat.

(** What a client expects to be called with: what is behind [cb_data], and
    which functions the table may name. *)
Class ClientInv (Fn World : Type) := {
  world_ok : World -> Prop;
  option_ok : Fn -> Prop;
  will_ok : Fn -> Prop
}.

Definition callable {Fn World} `{ClientInv Fn World} (m : telnet_cmd Fn) : Prop :=
  (forall f, option_handler m = Some f -> option_ok f) /\ (forall f, will_handler m = Some f -> will_ok f).

(** An option of the table without a handler. *)
Definition null_handler {Fn} (array : list (telnet_cmd Fn)) : Prop :=
  Exists (fun m => opt m <> 255 /\ option_handler m = None) array.

Record tn_ok {Fn World} `{ClientInv Fn World} (s : tstate Fn World) : Prop := TnOk {
  ok_td : td_ok (td s);
  ok_cmds : terminated (cmds s);
  ok_calls : Forall callable (cmds s);
  ok_world : world_ok (world s)
}.

(** What a run that started in [s] may end in: a good state, or, when [P] holds, the call of a
    handler that was null in the table of [s]. *)
Definition fine {Fn World A} `{ClientInv Fn World} (P : Prop) (r : res (A * tstate Fn World)) (s : tstate Fn World) : Prop :=
  match r with
  | Ok (_, s') => tn_ok s' /\ (null_handler (cmds s') -> null_handler (cmds s))
  | Crash c => c = NullDeref /\ P /\ null_handler (cmds s)
  end.

Definition safe {Fn World A} `{ClientInv Fn World} (m : TN Fn World A) : Prop := forall s, tn_ok s -> fine False (m s) s.

(** The promises of a client. *)
Class SafeOutput (Fn World : Type) `{TelnetOutput Fn World} `{ClientInv Fn World} : Prop := {
  output_ready_safe : safe (output_ready (Fn:=Fn) (World:=World))
}.

Class SafeClient (Fn World : Type) `{TelnetOutput Fn World} `{TelnetClient Fn World} `{ClientInv Fn World} : Prop := {
  client_output :: SafeOutput Fn World;
  cmd_handler_safe c : safe (cmd_handler (Fn:=Fn) (World:=World) c);
  call_option_safe f data : option_ok f -> safe (call_option (Fn:=Fn) (World:=World) f data);
  call_will_safe f : will_ok f -> safe (call_will (Fn:=Fn) (World:=World) f)
}.

Section Safety.
Context {Fn World : Type} `{TelnetOutput Fn World} `{ClientInv Fn World} `{!SafeOutput Fn World}.
Implicit Types s : tstate Fn World.

Lemma fine_Ok {A} P (a : A) s s' : tn_ok s' -> cmds s' = cmds s -> fine P (Ok (a, s')) s.
Proof. intros Hs E. split; [done|]. by rewrite E. Qed.

Lemma safe_ret {A} (a : A) : safe (mret a : TN Fn World A).
Proof. intros s Hs. by apply fine_Ok. Qed.

Lemma fine_trans {A} (P Q : Prop) (r : res (A * tstate Fn World)) s s1 :
  fine P r s1 -> (null_handler (cmds s1) -> null_handler (cmds s)) -> (P -> Q) -> fine Q r s.
Proof. destruct r as [[a s']|c]; cbn; [intros [H1' H2'] Hn _; split; auto | intros (H1' & H2' & H3') Hn HPQ; auto]. Qed.

Lemma fine_mono {A} (P Q : Prop) (r : res (A * tstate Fn World)) s : fine P r s -> (P -> Q) -> fine Q r s.
Proof. intros Hf. by apply (fine_trans P Q r s s). Qed.

(** What cannot fail is fine whatever the excuse. *)
Lemma safe_fine {A} P (m : TN Fn World A) s : safe m -> tn_ok s -> fine P (m s) s.
Proof. intros Hm Hs. by apply (fine_mono False); [apply Hm|]. Qed.

Lemma fine_bind {A B} P (m : TN Fn World A) (k : A -> TN Fn World B) s :
  fine P (m s) s -> (forall a s', m s = Ok (a, s') -> tn_ok s' -> fine P (k a s') s') -> fine P ((m ≫= k) s) s.
Proof.
  rewrite ST_bind_eq. destruct (m s) as [[a s1]|c]; [|done]. intros [Hs1 Hn] Hk.
  eapply fine_trans; [by apply Hk | done | done].
Qed.

Lemma safe_bind {A B} (m : TN Fn World A) (k : A -> TN Fn World B) :
  safe m -> (forall a, safe (k a)) -> safe (m ≫= k).
Proof. intros Hm Hk s Hs. apply fine_bind; [by apply Hm|]. intros a s' _. apply Hk. Qed.

(** A read of the state may use what holds of it. *)
Lemma safe_get_td {B} (k : telnet_data -> TN Fn World B) :
  (forall s, tn_ok s -> fine False (k (td s) s) s) -> safe (d ← get_td; k d).
Proof. intros Hk s Hs. rewrite ST_bind_eq. by apply Hk. Qed.

Lemma safe_mod_td (f : telnet_data -> telnet_data) :
  (forall d, td_ok d -> td_ok (f d)) -> safe (mod_td f : TN Fn World unit).
Proof. intros Hf s [Ht Hc Ho Hw]. apply fine_Ok; [|done]. by constructor; [apply Hf| | |]. Qed.

Lemma fine_mod_td P (f : telnet_data -> telnet_data) s :
  tn_ok s -> td_ok (f (td s)) -> fine P (mod_td f s) s.
Proof. intros [Ht Hc Ho Hw] Hf. apply fine_Ok; [by constructor | done]. Qed.

Lemma Forall_alter_same {A} (P : A -> Prop) f (l : list A) k :
  (forall a, P a -> P (f a)) -> Forall P l -> Forall P (alter f k l).
Proof. intros Hf HP. revert k. induction HP; intros [|k]; constructor; auto. Qed.

Lemma Exists_alter_same {A} (P : A -> Prop) f (l : list A) k :
  (forall a, P a -> P (f a)) -> Exists P l -> Exists P (alter f k l).
Proof.
  intros Hf HP. revert k. induction HP as [a l Ha|a l HP IH]; intros [|k]; simpl;
    solve [apply Exists_cons_hd; auto | apply Exists_cons_tl; done || apply IH].
Qed.

Lemma Exists_alter_inv {A} (P : A -> Prop) f (l : list A) : forall k,
  (forall a, P (f a) -> P a) -> Exists P (alter f k l) -> Exists P l.
Proof.
  induction l as [|a l IH]; intros k Hf; [done|]. destruct k as [|k]; cbn.
  - inversion 1; subst; [apply Exists_cons_hd; auto | by apply Exists_cons_tl].
  - inversion 1; subst; [by apply Exists_cons_hd | apply Exists_cons_tl; eauto].
Qed.

Lemma safe_mod_cmd k (f : telnet_cmd Fn -> telnet_cmd Fn) :
  (forall m, opt (f m) = opt m /\ option_handler (f m) = option_handler m /\ will_handler (f m) = will_handler m) ->
  safe (mod_cmd k f : TN Fn World unit).
Proof.
  intros Hf s [Ht Hc Ho Hw]. split.
  - constructor; [done | | |done]; cbn.
    + apply Exists_alter_same; [|done]. intros m Hm. by rewrite (proj1 (Hf m)).
    + apply Forall_alter_same; [|done]. intros m Hm. destruct (Hf m) as (_ & E1 & E2). unfold callable. by rewrite E1, E2.
  - cbn. apply Exists_alter_inv. intros m. destruct (Hf m) as (E0 & E1 & _). by rewrite E0, E1.
Qed.

Lemma safe_telnet_cmd_send cmd : safe (telnet_cmd_send cmd : TN Fn World unit).
Proof.
  apply safe_get_td. intros s Hs. unfold out_telnet_cmd_size, MAX_TELNET_CMD_XMIT_BUF.
  destruct (ok_td s Hs) as (Hb & Hp & Ho).
  case_bool_decide; [by apply fine_mod_td|]. apply fine_bind; [apply fine_mod_td; [done|]|].
  - split_and!; [done | done | cbn; rewrite length_app; lia].
  - intros _ s1 _. apply output_ready_safe.
Qed.

Lemma length_double_iac data :
  length (double_iac data) = (length data + length (List.filter (fun b => Z.eqb b 255) data))%nat.
Proof.
  induction data as [|c data IH]; [done|]. cbn [double_iac flat_map List.filter].
  fold (double_iac data). rewrite length_app, IH. destruct (c =? 255); simpl; lia.
Qed.

Lemma safe_telnet_send_option option : safe (telnet_send_option option : TN Fn World unit).
Proof.
  apply safe_get_td. intros s Hs. unfold out_telnet_cmd_size, MAX_TELNET_CMD_XMIT_BUF.
  destruct (ok_td s Hs) as (Hb & Hp & Ho). cbv zeta.
  case_bool_decide; [by apply fine_mod_td|]. apply fine_bind; [apply fine_mod_td; [done|]|].
  - split_and!; [done | done | cbn]. rewrite length_app. simpl. rewrite length_app, length_double_iac. simpl. lia.
  - intros _ s1 _. apply output_ready_safe.
Qed.

Context `{TelnetClient Fn World} `{!SafeClient Fn World}.

Lemma fine_lookup {B} P o (k : option (nat * telnet_cmd Fn) -> TN Fn World B) s : tn_ok s ->
  (forall i m, entry (cmds s) o = Some (i, m) -> callable m -> (option_handler m = None -> null_handler (cmds s)) -> fine P (k (Some (i, m)) s) s) ->
  fine P (k None s) s -> fine P ((cmd ← lookup_cmd o; k cmd) s) s.
Proof.
  intros Hs Hsome Hnone. pose proof (ok_cmds s Hs) as Ht.
  rewrite (ST_bind_Ok _ _ _ _ _ (lookup_cmd_entry o s Ht)).
  destruct (entry (cmds s) o) as [[i m]|] eqn:E; [|done].
  destruct (entry_opt _ _ _ _ Ht E) as (Hk & Ho & H255). apply Hsome; [done | |].
  - exact (Forall_lookup_1 _ _ _ _ (ok_calls s Hs) Hk).
  - intros Hn. apply Exists_exists. exists m. split; [by apply list_elem_of_In, (list_elem_of_lookup_2 _ i)|]. split; [congruence | done].
Qed.

Lemma safe_lookup {B} o (k : option (nat * telnet_cmd Fn) -> TN Fn World B) :
  (forall i m s, tn_ok s -> callable m -> fine False (k (Some (i, m)) s) s) -> safe (k None) -> safe (cmd ← lookup_cmd o; k cmd).
Proof. intros Hsome Hnone s Hs. apply fine_lookup; [done | intros i m _ Hm _; by apply Hsome | by apply Hnone]. Qed.

Create HintDb safe discriminated.
#[local] Hint Resolve safe_ret safe_telnet_cmd_send output_ready_safe cmd_handler_safe
  call_option_safe call_will_safe : safe.

Ltac safe_step :=
  match goal with
  | |- safe (_ ≫= _) => apply safe_bind; [|intros ?]
  | |- safe (mod_cmd _ _) => apply safe_mod_cmd; by intros []
  | |- safe (if ?b then _ else _) => destruct b
  | |- safe (match ?o with Some _ => _ | None => _ end) => destruct o eqn:?
  | |- safe _ => solve [eauto with safe | unfold send_i; eauto with safe]
  end.

Lemma safe_will o : safe (handle_will o).
Proof.
  apply safe_lookup; [|repeat safe_step]. intros i m s Hs [_ Hw]. apply (fun H : safe _ => H s Hs). repeat safe_step.
Qed.

Lemma safe_others o : safe (handle_wont o) /\ safe (handle_do o) /\ safe (handle_dont o : TN Fn World unit).
Proof.
  split_and!; (apply safe_lookup; [|repeat safe_step]; intros i m s Hs _; apply (fun H : safe _ => H s Hs);
    repeat safe_step).
Qed.

Lemma fine_suboption o data s : tn_ok s -> fine (exists i m, entry (cmds s) o = Some (i, m) /\ option_handler m = None) (handle_suboption o data s) s.
Proof.
  intros Hs. apply fine_lookup; [done | | by apply safe_fine; [apply safe_ret|]]. intros i m Em [Ho _] Hn.
  destruct (option_handler m) as [f|] eqn:Ef; [by apply safe_fine; [apply call_option_safe, Ho|] |]. split; [done|]. split; [by exists i, m | by apply Hn].
Qed.

Lemma load_lt {A} (l : list A) k : (k < length l)%nat -> exists a, load l k = Ok a.
Proof. intros Hk. destruct (lookup_lt_is_Some_2 l k Hk) as [a E]. exists a. unfold load. by rewrite E. Qed.

(** The command in the buffer is a suboption, for an option of the table without a handler. *)
Definition null_command (s : tstate Fn World) : Prop :=
  exists o i m, telnet_cmd_buf (td s) !! 1%nat = Some 250 /\ telnet_cmd_buf (td s) !! 2%nat = Some o /\ entry (cmds s) o = Some (i, m) /\ option_handler m = None.

Lemma fine_handle_telnet_cmd s : tn_ok s -> fine (null_command s) (handle_telnet_cmd s) s.
Proof.
  intros Hs. unfold handle_telnet_cmd. rewrite ST_bind_eq. cbn [get_td]. cbv zeta. case_bool_decide; [by apply fine_Ok|].
  destruct (ok_td s Hs) as (Hb & _).
  destruct (load_lt (telnet_cmd_buf (td s)) 1) as [c Ec]; [lia|].
  destruct (load_lt (telnet_cmd_buf (td s)) 2) as [o Eo]; [lia|].
  destruct (safe_others o) as (H1' & H2' & H3'). pose proof (safe_will o) as H4'.
  pose proof (fine_suboption o (drop 2 (take (telnet_cmd_pos (td s)) (telnet_cmd_buf (td s)))) s Hs) as H5'.
  rewrite ST_bind_eq, Ec. cbn [lift_res]. destruct (c <? 250); [by apply safe_fine; [apply cmd_handler_safe|]|].
  rewrite ST_bind_eq, Eo. cbn [lift_res]. destruct (Z.eqb_spec c 250) as [->|_].
  - apply (fine_mono _ _ _ _ H5'). intros (i & m & Em & Hm). exists o, i, m. unfold load in Ec, Eo.
    destruct (telnet_cmd_buf (td s) !! 1%nat); [|done]. destruct (telnet_cmd_buf (td s) !! 2%nat); [|done]. split_and!; congruence.
  - apply safe_fine; [|done]. repeat case_match; auto. by apply safe_ret.
Qed.

Lemma push_at c s :
  tn_ok s -> (telnet_cmd_pos (td s) <= 31)%nat ->
  exists s', push c s = Ok (tt, s') /\ tn_ok s' /\ telnet_cmd_pos (td s') = S (telnet_cmd_pos (td s)) /\ cmds s' = cmds s.
Proof.
  intros Hs Hp. destruct (ok_td s Hs) as (Hb & _ & Ho). unfold push. rewrite ST_bind_eq. cbn [get_td].
  rewrite ST_bind_eq, store_Ok by lia. cbn [lift_res mod_td modify]. eexists. split; [done|]. split; [|done].
  destruct Hs as [_ Hc Hh Hw]. constructor; [|done..]. split_and!; cbn; [by rewrite length_insert | lia | done].
Qed.

Lemma safe_set_pos n : (n <= 32)%nat -> safe (mod_td (set_pos n) : TN Fn World unit).
Proof. intros Hn. apply safe_mod_td. intros d (Hb & _ & Ho). by split_and!. Qed.

Lemma safe_pos_pred : safe (mod_td (fun d => set_pos (telnet_cmd_pos d - 1) d) : TN Fn World unit).
Proof. apply safe_mod_td. intros d (Hb & Hp & Ho). split_and!; cbn; [done | lia | done]. Qed.

Lemma safe_set_iac b : safe (mod_td (set_iac b) : TN Fn World unit).
Proof. apply safe_mod_td. intros d (Hb & Hp & Ho). by split_and!. Qed.

Lemma fine_command s : tn_ok s -> fine (null_command s) ((_ ← handle_telnet_cmd; mod_td (set_pos 0)) s) s.
Proof. intros Hs. apply fine_bind; [by apply fine_handle_telnet_cmd|]. intros _ s' _ Hs'. apply safe_fine; [apply safe_set_pos; lia | done]. Qed.

(** A command that is not a suboption cannot fail. *)
Lemma fine_other_command s : tn_ok s -> telnet_cmd_buf (td s) !! 1%nat <> Some 250 -> fine False ((_ ← handle_telnet_cmd; mod_td (set_pos 0)) s) s.
Proof. intros Hs Hb. apply (fine_mono _ _ _ _ (fine_command s Hs)). by intros (o & i & m & E & _). Qed.

(** A step whose result is known, and that keeps the table. *)
Lemma fine_step {A B} P (m : TN Fn World A) (k : A -> TN Fn World B) s a s1 :
  m s = Ok (a, s1) -> cmds s1 = cmds s -> fine P (k a s1) s1 -> fine P ((m ≫= k) s) s.
Proof. intros E Ec Hk. rewrite (ST_bind_Ok _ _ _ _ _ E). eapply fine_trans; [done | by rewrite Ec | done]. Qed.

(** The byte ends a suboption for an option without a handler. *)
Definition null_suboption_ends (c : Z) (s : tstate Fn World) : Prop :=
  c = 240 /\ suboption_iac (td s) = true /\ (2 < telnet_cmd_pos (td s))%nat /\ null_command s.

Lemma push_buf c s s' : push c s = Ok (tt, s') -> telnet_cmd_buf (td s') = <[telnet_cmd_pos (td s) := c]> (telnet_cmd_buf (td s)).
Proof.
  unfold push. rewrite ST_bind_eq. cbn [get_td]. rewrite ST_bind_eq. unfold store. case_bool_decide; [|done]. cbn [lift_res mod_td modify]. by intros [= <-].
Qed.

Lemma fine_telnet_byte c s : tn_ok s -> telnet_cmd_pos (td s) <> 0%nat -> fine (null_suboption_ends c s) (telnet_byte c s) s.
Proof.
  intros Hs H0'. unfold telnet_byte. rewrite ST_bind_eq. cbn [get_td]. destruct (ok_td s Hs) as (Hb & Hp & Ho).
  destruct (Nat.eqb_spec (telnet_cmd_pos (td s)) 1) as [H1'|H1']; [|destruct (Nat.eqb_spec (telnet_cmd_pos (td s)) 2) as [H2'|H2']].
  - destruct (push_at c s Hs ltac:(lia)) as (s1 & E & Hs1 & _ & Ec1). apply (fine_step _ _ _ _ _ _ E Ec1).
    destruct (Z.ltb_spec c 250); [|by apply safe_fine; [apply safe_ret|]]. apply (fine_mono False); [|done]. apply fine_other_command; [done|].
    rewrite (push_buf _ _ _ E), H1', list_lookup_insert_eq by lia. intros [=]. lia.
  - destruct (push_at c s Hs ltac:(lia)) as (s1 & E & Hs1 & _ & Ec1). apply (fine_step _ _ _ _ _ _ E Ec1).
    rewrite ST_bind_eq. cbn [get_td]. destruct (ok_td s1 Hs1) as (Hb1 & _).
    destruct (load_lt (telnet_cmd_buf (td s1)) 1) as [c1 Ec]; [lia|]. rewrite ST_bind_eq, Ec. cbn [lift_res].
    destruct (Z.eqb_spec c1 250) as [->|Hc1]; cbn [negb]; [by apply safe_fine; [apply safe_ret|]|]. apply (fine_mono False); [|done]. apply fine_other_command; [done|].
    unfold load in Ec. destruct (telnet_cmd_buf (td s1) !! 1%nat); [|done]. congruence.
  - destruct (suboption_iac (td s)) eqn:Hiac.
    + apply fine_bind; [|intros _ s' _ Hs'; by apply safe_fine; [apply safe_set_iac|]].
      destruct (Z.eqb_spec c 240) as [->|_]; [|apply safe_fine; [|done]; destruct (c =? 255); [apply safe_ret | apply safe_pos_pred]].
      set (s1 := TState (set_pos (telnet_cmd_pos (td s) - 1) (td s)) (cmds s) (world s)).
      assert (Hs1 : tn_ok s1) by (destruct Hs as [_ Hc Hh Hw]; constructor; [split_and!; cbn; [done | lia | done] | done..]).
      apply (fine_step _ _ _ s tt s1); [done | done|].
      apply (fine_mono _ _ _ _ (fine_command s1 Hs1)). intros Hn. split_and!; [done | done | lia | exact Hn].
    + assert (Hcl : exists s1, (if bool_decide (MAX_TELNET_CMD_SIZE < telnet_cmd_pos (td s))%nat
                      then mod_td (set_pos MAX_TELNET_CMD_SIZE) else mret tt) s = Ok (tt, s1) /\
                    tn_ok s1 /\ (telnet_cmd_pos (td s1) <= 31)%nat /\ cmds s1 = cmds s).
      { unfold MAX_TELNET_CMD_SIZE. case_bool_decide; [|exists s; split_and!; [done | done | lia | done]].
        eexists. split; [done|]. split; [|done]. destruct Hs as [_ Hc Hh Hw]. constructor; [|done..].
        split_and!; cbn; [done | lia | done]. }
      destruct Hcl as (s1 & E & Hs1 & Hp1 & Ec1). apply (fine_step _ _ _ _ _ _ E Ec1).
      destruct (push_at c s1 Hs1 Hp1) as (s2 & E2 & Hs2 & _ & Ec2). apply (fine_step _ _ _ _ _ _ E2 Ec2).
      apply safe_fine; [|done]. destruct (c =? 255); [by apply safe_set_iac | by apply safe_ret].
Qed.

Lemma fine_tn_step c s : tn_ok s -> fine (null_suboption_ends c s) (tn_step c s) s.
Proof.
  intros Hs. unfold tn_step. rewrite ST_bind_eq. cbn [get_td]. destruct (ok_td s Hs) as (Hb & Hp & Ho).
  destruct (Nat.eqb_spec (telnet_cmd_pos (td s)) 0) as [H0'|H0']; cbn [negb].
  - destruct (c =? 255); [|by apply fine_Ok]. rewrite ST_bind_eq, store_Ok by lia. cbn [lift_res].
    apply fine_bind; [apply fine_mod_td; [done|]|].
    { split_and!; cbn; [by rewrite length_insert | done | done]. }
    intros _ s1 _ Hs1. apply safe_fine; [|done]. apply safe_bind; [|intros _; apply safe_ret].
    apply safe_mod_td. intros d (Hb' & _ & Ho'). split_and!; cbn; [done | lia | done].
  - destruct (Nat.eqb (telnet_cmd_pos (td s)) 1 && (c =? 255)).
    + apply safe_fine; [|done]. apply safe_bind; [apply safe_set_pos; lia | intros _; apply safe_ret].
    + apply fine_bind; [by apply fine_telnet_byte | intros _ s' _ Hs'; by apply safe_fine; [apply safe_ret|]].
Qed.

(** Somewhere in the data a suboption ends for an option that has no handler, and what is before it
    is parsed. *)
Definition null_suboption (data : list Z) (s : tstate Fn World) : Prop :=
  exists data1 data2 x s1, data = data1 ++ 240 :: data2 /\ tn_filter data1 s = Ok (x, s1) /\ null_suboption_ends 240 s1.

Lemma fine_tn_filter data : forall s, tn_ok s -> fine (null_suboption data s) (tn_filter data s) s.
Proof.
  induction data as [|c data IH]; intros s Hs; [by apply fine_Ok|]. cbn [tn_filter].
  apply fine_bind.
  - apply (fine_mono _ _ _ _ (fine_tn_step c s Hs)). intros Hn. pose proof Hn as (-> & _). by exists [], data, [], s.
  - intros x s1 E1 Hs1. apply fine_bind; [|intros y s2 _ Hs2; by apply safe_fine; [apply safe_ret|]].
    apply (fine_mono _ _ _ _ (IH s1 Hs1)). intros (d1 & d2 & y & s2 & -> & E2 & Hn). exists (c :: d1), d2, (x ++ y), s2. split; [done|].
    split; [|done]. rewrite tn_filter_cons, E1. by rewrite E2.
Qed.

(** The parser itself, for the users of this file. *)
Lemma process_telnet_data_fine data tl s :
  tn_ok s ->
  match process_telnet_data (data ++ tl) (length data) s with
  | Ok ((d, n), s') => tn_ok s' /\ (null_handler (cmds s') -> null_handler (cmds s)) /\
      (n <= length data)%nat /\ length d = length (data ++ tl) /\ drop (length data) d = tl
  | Crash c => c = NullDeref /\ null_suboption data s /\ null_handler (cmds s)
  end.
Proof.
  intros Hs. pose proof (fine_tn_filter data s Hs) as Hf. pose proof (process_telnet_data_filter data tl s) as Hp.
  destruct (tn_filter data s) as [[out s']|c]; [|by rewrite Hp].
  destruct Hp as (junk & -> & Hl). destruct Hf as [Hs' Hn].
  split; [done|]. split; [done|]. split; [lia|].
  split; [rewrite !length_app; lia|]. rewrite app_assoc, <- Hl, <- length_app. apply drop_app_exact.
Qed.
End Safety.

(** ** A client for the concrete instances: it keeps a list of its calls *)

Inductive call :=
  | COutput
  | CCommand (c : Z)
  | COption (data : list Z)
  | CWill.

Definition record_call (c : call) : TN unit (list call) unit :=
  modify (fun s => TState (td s) (cmds s) (world s ++ [c])).

#[export] Instance recorder_output : TelnetOutput unit (list call) := { output_ready := record_call COutput }.
#[export] Instance recorder : TelnetClient unit (list call) := {
  cmd_handler c := record_call (CCommand c);
  call_option _ data := record_call (COption data);
  call_will _ := (_ ← record_call CWill; mret true)
}.

#[export] Instance recorder_inv : ClientInv unit (list call) := {
  world_ok _ := True; option_ok _ := True; will_ok _ := True
}.

Lemma record_call_safe c : safe (record_call c).
Proof. intros s [Ht Hc Ho Hw]. apply fine_Ok; [by constructor | done]. Qed.

#[export] Instance recorder_safe : SafeClient unit (list call).
Proof.
  split; [split|..]; intros; try apply record_call_safe.
Qed.

(** A table with one option that has handlers and one that has none. *)
Definition demo_cmds : list (telnet_cmd unit) :=
  [ TelnetCmd 44 true false false false false false (Some tt) (Some tt);
    TelnetCmd 3 false true true false false false None None;
    TelnetCmd 255 false false false false false false None None ].

Definition demo_state (cm : list (telnet_cmd unit)) : tstate unit (list call) :=
  TState (TelnetData (replicate 32 0) 0 false [] false) cm [].

(** ** Properties *)

Section Claims.
Context {Fn World : Type} `{TelnetOutput Fn World} `{TelnetClient Fn World}.

(** C12: The parser does not depend on how the network cuts the stream: the
    bytes [a ++ b] in one read leave the same data, the same state and the
    same calls as [a] in one read and [b] in the next, wherever the cut
    falls. *)
Theorem process_telnet_data_segmented a b ta tb s da la s1 db lb s2 :
  process_telnet_data (a ++ ta) (length a) s = Ok ((da, la), s1) ->
  process_telnet_data (b ++ tb) (length b) s1 = Ok ((db, lb), s2) ->
  exists d, process_telnet_data (a ++ b) (length (a ++ b)) s = Ok ((d, la + lb)%nat, s2) /\
    take (la + lb) d = take la da ++ take lb db.
Proof.
  intros (outa & ja & Ea & -> & -> & _)%process_telnet_data_inv (outb & jb & Eb & -> & -> & _)%process_telnet_data_inv.
  pose proof (process_telnet_data_filter (a ++ b) [] s) as Hf. rewrite tn_filter_app, Ea, Eb, app_nil_r in Hf.
  destruct Hf as (junk & Hf & _). rewrite (length_app outa outb) in Hf.
  eexists. split; [exact Hf|]. by rewrite <- length_app, !take_app_exact.
Qed.

(** A stream in which every 255 was doubled comes out as it was: all its
    bytes are data, none is taken for a command, and nothing is sent. *)
Theorem doubled_iac_transparent data tl s :
  telnet_cmd_pos (td s) = 0%nat -> length (telnet_cmd_buf (td s)) = 32%nat ->
  exists d s', process_telnet_data (double_iac data ++ tl) (length (double_iac data)) s = Ok ((d, length data), s') /\
    take (length data) d = data /\ world s' = world s /\ cmds s' = cmds s /\
    out_telnet_cmd (td s') = out_telnet_cmd (td s) /\ td_error (td s') = td_error (td s) /\
    telnet_cmd_pos (td s') = 0%nat.
Proof.
  intros Hp Hb. destruct (tn_filter_data data s 31 Hp Hb) as (s' & E & Hw & Hc & Ho & He & Hp' & _).
  pose proof (process_telnet_data_filter (double_iac data) tl s) as Hf. rewrite E in Hf.
  destruct Hf as (junk & Hf & _). eexists _, s'. split; [exact Hf|].
  by rewrite take_app_exact.
Qed.

(** C38: An option sent with [telnet_send_option] and received by
    [process_telnet_data] reaches the handler the receiver's table names for
    it, with its bytes as they were given to the sender: all of them up to 29,
    the size of the receiver's command buffer, and the first 29 of a longer
    option.  The handler finds the receiver's state as it was, in the middle of
    a command, and afterwards the receiver expects data again. *)
Theorem telnet_option_roundtrip o p sender receiver k m f :
  o <> 255 -> (5 + length p + length (List.filter (fun b => Z.eqb b 255) p) <= 256)%nat ->
  out_telnet_cmd (td sender) = [] ->
  (forall s : tstate Fn World, exists w, output_ready s = Ok (tt, TState (td s) (cmds s) w)) ->
  telnet_cmd_pos (td receiver) = 0%nat -> length (telnet_cmd_buf (td receiver)) = 32%nat ->
  terminated (cmds receiver) -> entry (cmds receiver) o = Some (k, m) -> option_handler m = Some f ->
  exists sender' r1,
    telnet_send_option (o :: p) sender = Ok (tt, sender') /\
    td r1 = TelnetData (telnet_cmd_buf (td r1)) (Nat.min (3 + length p) 31) true
              (out_telnet_cmd (td receiver)) (td_error (td receiver)) /\
    cmds r1 = cmds receiver /\ world r1 = world receiver /\
    match call_option f (take 29 (o :: p)) r1 with
    | Ok (_, r2) => exists d,
        process_telnet_data (out_telnet_cmd (td sender')) (length (out_telnet_cmd (td sender'))) receiver =
          Ok ((d, 0%nat), TState (set_iac false (set_pos 0 (td r2))) (cmds r2) (world r2))
    | Crash e =>
        process_telnet_data (out_telnet_cmd (td sender')) (length (out_telnet_cmd (td sender'))) receiver = Crash e
    end.
Proof.
  intros Ho Hfit Hout Hquiet Hp Hb Ht He Hf.
  set (bytes := [255; 250] ++ double_iac (o :: p) ++ [255; 240]).
  assert (Hsend : exists w, telnet_send_option (o :: p) sender =
                    Ok (tt, TState (set_out bytes (td sender)) (cmds sender) w)).
  { unfold telnet_send_option. rewrite ST_bind_eq. cbn [get_td]. unfold out_telnet_cmd_size, MAX_TELNET_CMD_XMIT_BUF.
    rewrite Hout. cbn [length List.filter]. rewrite (proj2 (Z.eqb_neq o 255) Ho).
    rewrite bool_decide_eq_false_2 by lia. rewrite ST_bind_eq. cbn [mod_td modify].
    destruct (Hquiet (TState (set_out bytes (td sender)) (cmds sender) (world sender))) as [w E].
    exists w. exact E. }
  destruct Hsend as [w Hsend]. eexists. destruct receiver as [[buf pos iac out err] cm rw].
  cbn [td cmds world telnet_cmd_pos telnet_cmd_buf out_telnet_cmd td_error] in *. subst pos.
  destruct (suboption_delivered out err cm rw buf iac o p Hb Ho) as [buf' E].
  exists (in_command out err cm rw buf' (Nat.min (3 + length p) 31) true).
  split; [exact Hsend|]. split; [done|]. split; [done|]. split; [done|].
  cbn [td out_telnet_cmd set_out]. pose proof (process_telnet_data_filter bytes [] (in_command out err cm rw buf 0 iac)) as Hpf.
  rewrite (app_nil_r bytes) in Hpf. unfold bytes at 1 in Hpf. rewrite E in Hpf.
  unfold handle_suboption in Hpf. rewrite (ST_bind_Ok _ _ _ _ _ (lookup_cmd_entry o (in_command out err cm rw buf' (Nat.min (3 + length p) 31) true) Ht)) in Hpf.
  cbn [cmds in_command] in Hpf. rewrite He, Hf in Hpf.
  destruct (call_option f (take 29 (o :: p)) _) as [[u r2]|e]; [|exact Hpf].
  destruct Hpf as (junk & Hpf & _). eexists. exact Hpf.
Qed.

(** The parser calls the handler of a suboption without testing it for
    null: any client can bring the server down with a suboption for an option
    whose table entry has no handler. *)
Theorem suboption_null_handler o p tl s k m :
  o <> 255 -> telnet_cmd_pos (td s) = 0%nat -> length (telnet_cmd_buf (td s)) = 32%nat ->
  terminated (cmds s) -> entry (cmds s) o = Some (k, m) -> option_handler m = None ->
  let bytes := [255; 250] ++ double_iac (o :: p) ++ [255; 240] in
  process_telnet_data (bytes ++ tl) (length bytes) s = Crash NullDeref.
Proof.
  intros Ho Hp Hb Ht He Hf bytes. destruct s as [[buf pos iac out err] cm w].
  cbn [td cmds telnet_cmd_pos telnet_cmd_buf] in *. subst pos.
  destruct (suboption_delivered out err cm w buf iac o p Hb Ho) as [buf' E].
  pose proof (process_telnet_data_filter bytes tl (in_command out err cm w buf 0 iac)) as Hpf.
  unfold bytes at 1 in Hpf. rewrite E in Hpf. unfold handle_suboption in Hpf.
  rewrite (ST_bind_Ok _ _ _ _ _ (lookup_cmd_entry o (in_command out err cm w buf' (Nat.min (3 + length p) 31) true) Ht)) in Hpf.
  cbn [cmds in_command] in Hpf. rewrite He, Hf in Hpf. exact Hpf.
Qed.

(** IAC WILL, WONT, DO or DONT for an option, received between data, adds
    exactly the reply of the table [reply] to the output (nothing when it
    answers a request of this end), changes exactly the entry of the option as
    [learn] says, and leaves the parser expecting data. *)
Theorem negotiation_reply c o tl s :
  (forall s : tstate Fn World, exists w, output_ready s = Ok (tt, TState (td s) (cmds s) w)) ->
  TN_WILL <= c <= TN_DONT -> terminated (cmds s) ->
  telnet_cmd_pos (td s) = 0%nat -> length (telnet_cmd_buf (td s)) = 32%nat ->
  (length (out_telnet_cmd (td s)) + 3 <= MAX_TELNET_CMD_XMIT_BUF)%nat ->
  (forall k m, entry (cmds s) o = Some (k, m) -> will_handler m = None) ->
  exists d s', process_telnet_data ([TN_IAC; c; o] ++ tl) 3 s = Ok ((d, 0%nat), s') /\
    out_telnet_cmd (td s') = out_telnet_cmd (td s) ++
      match reply c (snd <$> entry (cmds s) o) with Some r => [TN_IAC; r; o] | None => [] end /\
    cmds s' = match entry (cmds s) o with Some (k, _) => alter (learn c) k (cmds s) | None => cmds s end /\
    telnet_cmd_pos (td s') = 0%nat /\ td_error (td s') = td_error (td s).
Proof.
  intros Hq Hc Ht Hp Hb Hroom Hw. unfold TN_WILL, TN_DONT, MAX_TELNET_CMD_XMIT_BUF in *.
  destruct (tn_filter_command c o s Hp Hb Hc) as (buf & _ & E).
  set (s1 := TState (TelnetData buf 3 false (out_telnet_cmd (td s)) (td_error (td s))) (cmds s) (world s)) in *.
  destruct (handlers_negotiate Hq c o s1 Hroom Ht Hc Hw) as [w E1]. rewrite E1 in E.
  pose proof (process_telnet_data_filter [255; c; o] tl s) as Hf. rewrite E in Hf.
  destruct Hf as (junk & Hf & _). eexists _, _. split; [exact Hf|]. done.
Qed.
End Claims.

(** C14: With a client whose callbacks keep the module's invariant, no input
    makes the parser leave its buffers: it returns, keeps the invariant and
    the data behind its own, and leaves no more data than it was given; the
    one way to fail is that a suboption ends in the data, for an option of the table whose handler
    is null. *)
Theorem process_telnet_data_safe {Fn World : Type} `{SafeClient Fn World} (data tl : list Z) (s : tstate Fn World) :
  tn_ok s ->
  (exists d n s', process_telnet_data (data ++ tl) (length data) s = Ok ((d, n), s') /\
    tn_ok s' /\ (n <= length data)%nat /\ length d = length (data ++ tl) /\ drop (length data) d = tl) \/
  (process_telnet_data (data ++ tl) (length data) s = Crash NullDeref /\ null_suboption data s /\ null_handler (cmds s)).
Proof.
  intros Hs. pose proof (process_telnet_data_fine data tl s Hs) as Hf.
  destruct (process_telnet_data (data ++ tl) (length data) s) as [[[d n] s']|c].
  - left. exists d, n, s'. by destruct Hf as (? & _ & ?).
  - right. by destruct Hf as (-> & ? & ?).
Qed.

Lemma process_telnet_data_segmented_witness :
  exists d, process_telnet_data ([65; 255; 253] ++ [3; 66]) 5 (demo_state demo_cmds) =
    Ok ((d, 1 + 1)%nat, TState (TelnetData ([255; 253; 3] ++ replicate 29 0) 0 false [] false)
         (alter (learn 253) 1%nat demo_cmds) []) /\
    take (1 + 1) d = take 1 [65; 253; 253] ++ take 1 [66; 66].
Proof.
  apply (process_telnet_data_segmented [65; 255; 253] [3; 66] [] [] (demo_state demo_cmds) [65; 253; 253] 1
    (TState (TelnetData ([255; 253] ++ replicate 30 0) 2 false [] false) demo_cmds []) [66; 66] 1);
    reflexivity.
Defined.

Lemma doubled_iac_transparent_witness :
  exists d s', process_telnet_data (double_iac [1; 255; 2] ++ []) 4 (demo_state demo_cmds) = Ok ((d, 3%nat), s') /\
    take 3 d = [1; 255; 2] /\ world s' = [] /\ cmds s' = demo_cmds /\ out_telnet_cmd (td s') = [] /\
    td_error (td s') = false /\ telnet_cmd_pos (td s') = 0%nat.
Proof. apply (doubled_iac_transparent [1; 255; 2] [] (demo_state demo_cmds)); reflexivity. Defined.

Lemma telnet_option_roundtrip_witness :
  exists sender' r1,
    telnet_send_option [44; 11; 255] (demo_state demo_cmds) = Ok (tt, sender') /\
    td r1 = TelnetData (telnet_cmd_buf (td r1)) 5 true [] false /\
    cmds r1 = demo_cmds /\ world r1 = [] /\
    match call_option tt [44; 11; 255] r1 with
    | Ok (_, r2) => exists d,
        process_telnet_data (out_telnet_cmd (td sender')) (length (out_telnet_cmd (td sender'))) (demo_state demo_cmds) =
          Ok ((d, 0%nat), TState (set_iac false (set_pos 0 (td r2))) (cmds r2) (world r2))
    | Crash e =>
        process_telnet_data (out_telnet_cmd (td sender')) (length (out_telnet_cmd (td sender'))) (demo_state demo_cmds) = Crash e
    end.
Proof.
  apply (telnet_option_roundtrip 44 [11; 255] (demo_state demo_cmds) (demo_state demo_cmds) 0
           (TelnetCmd 44 true false false false false false (Some tt) (Some tt)) tt);
    try reflexivity; [discriminate | cbn; lia | intros s; eexists; reflexivity |].
  do 2 apply Exists_cons_tl. apply Exists_cons_hd. reflexivity.
Defined.

Lemma suboption_null_handler_witness :
  process_telnet_data [255; 250; 3; 0; 255; 240] 6 (demo_state demo_cmds) = Crash NullDeref.
Proof.
  apply (suboption_null_handler 3 [0] [] (demo_state demo_cmds) 1
           (TelnetCmd 3 false true true false false false None None));
    try reflexivity; [discriminate|].
  do 2 apply Exists_cons_tl. apply Exists_cons_hd. reflexivity.
Defined.

Lemma negotiation_reply_witness :
  exists d s', process_telnet_data ([TN_IAC; TN_WILL; 3] ++ []) 3 (demo_state demo_cmds) = Ok ((d, 0%nat), s') /\
    out_telnet_cmd (td s') = [] ++ [TN_IAC; TN_DONT; 3] /\
    cmds s' = alter (learn TN_WILL) 1%nat demo_cmds /\ telnet_cmd_pos (td s') = 0%nat /\ td_error (td s') = false.
Proof.
  apply (negotiation_reply TN_WILL 3 [] (demo_state demo_cmds)); try reflexivity.
  - intros s; eexists; reflexivity.
  - split; discriminate.
  - do 2 apply Exists_cons_tl. apply Exists_cons_hd. reflexivity.
  - apply Nat.leb_le. reflexivity.
  - intros k m E. injection E as _ <-. reflexivity.
Defined.

Lemma process_telnet_data_safe_witness :
  (exists d n s', process_telnet_data ([255; 250; 44; 1; 255; 240; 7] ++ []) 7 (demo_state demo_cmds) = Ok ((d, n), s') /\
    tn_ok s' /\ (n <= 7)%nat /\ length d = 7%nat /\ drop 7 d = []) \/
  (process_telnet_data ([255; 250; 44; 1; 255; 240; 7] ++ []) 7 (demo_state demo_cmds) = Crash NullDeref /\
    null_suboption [255; 250; 44; 1; 255; 240; 7] (demo_state demo_cmds) /\ null_handler demo_cmds).
Proof.
  apply (process_telnet_data_safe [255; 250; 44; 1; 255; 240; 7] [] (demo_state demo_cmds)).
  split; [split_and!; cbn; lia | do 2 apply Exists_cons_tl; apply Exists_cons_hd; reflexivity | | exact I].
  repeat constructor.
Defined.
