(* ===== verification/SelHeap.v ===== *)
(** * The timer heap of the selector: [ser2net/selector.c], first part

    Timers are kept in a binary heap of nodes linked by [left], [right] and
    [up] pointers; [timer_last] is the last node in level order.  The
    operations are modelled on a store of nodes with their pointer writes in
    the order of the code.  They are proved against a list: the nodes in
    level order, where the children of the node at [j] are at [2j+1] and
    [2j+2]. *)

From S2P Require Import Prelude.

(** ** Times *)

Record timeval := TV { tv_sec : Z; tv_usec : Z }.

#[export] Instance timeval_eq_dec : EqDecision timeval.
Proof. solve_decision. Defined.

Definition cmp_timeval (tv1 tv2 : timeval) : Z :=
  if tv_sec tv1 <? tv_sec tv2 then -1
  else if tv_sec tv2 <? tv_sec tv1 then 1
  else if tv_usec tv1 <? tv_usec tv2 then -1
  else if tv_usec tv2 <? tv_usec tv1 then 1
  else 0.

(** The loop that borrows seconds; [fuel] bounds its rounds. *)
Fixpoint borrow (fuel : nat) (sec usec : Z) : res timeval :=
  if usec <? 0 then
    match fuel with
    | O => Crash NoFuel
    | S fuel' => borrow fuel' (sec - 1) (usec + 1000000)
    end
  else Ok (TV sec usec).

Definition diff_timeval (left right : timeval) : res timeval :=
  if (tv_sec left <? tv_sec right)
     || ((tv_sec left =? tv_sec right) && (tv_usec left <? tv_usec right))
  then Ok (TV 0 0)
  else borrow (Z.to_nat (tv_usec right - tv_usec left)) (tv_sec left - tv_sec right) (tv_usec left - tv_usec right).

(** ** Nodes *)

(** The address of a timer; the addresses of a handler and of its data are
    numbers. *)
Definition ptr : Type := positive.
Definition addr : Type := nat.

Record sel_timer := SelTimer {
  handler : addr;
  user_data : addr;
  timeout : timeval;
  in_heap : bool;
  left : option ptr;
  right : option ptr;
  up : option ptr
}.

(** The timers in memory, and the two pointers of [selector_s]. *)
Record heap := Heap {
  timers : gmap ptr sel_timer;
  timer_top : option ptr;
  timer_last : option ptr
}.

Notation HM := (ST heap).

Definition with_timeout (v : timeval) (t : sel_timer) : sel_timer :=
  SelTimer (handler t) (user_data t) v (in_heap t) (left t) (right t) (up t).
Definition with_in_heap (v : bool) (t : sel_timer) : sel_timer :=
  SelTimer (handler t) (user_data t) (timeout t) v (left t) (right t) (up t).
Definition with_left (v : option ptr) (t : sel_timer) : sel_timer :=
  SelTimer (handler t) (user_data t) (timeout t) (in_heap t) v (right t) (up t).
Definition with_right (v : option ptr) (t : sel_timer) : sel_timer :=
  SelTimer (handler t) (user_data t) (timeout t) (in_heap t) (left t) v (up t).
Definition with_up (v : option ptr) (t : sel_timer) : sel_timer :=
  SelTimer (handler t) (user_data t) (timeout t) (in_heap t) (left t) (right t) v.

(** [p->f], a store to a field of [*p], and the check every dereference of a
    pointer that may be null needs. *)
Definition fld {A} (f : sel_timer -> A) (p : ptr) : HM A := fun h =>
  match timers h !! p with Some t => Ok (f t, h) | None => Crash OutOfBounds end.
Definition set_fld (p : ptr) (w : sel_timer -> sel_timer) : HM unit := fun h =>
  match timers h !! p with
  | Some t => Ok (tt, Heap (<[p := w t]> (timers h)) (timer_top h) (timer_last h))
  | None => Crash OutOfBounds
  end.
Definition deref (o : option ptr) : HM ptr :=
  match o with Some p => mret p | None => lift_res (Crash NullDeref) end.

Definition get_last : HM (option ptr) := fun h => Ok (timer_last h, h).
Definition get_top : HM (option ptr) := fun h => Ok (timer_top h, h).
Definition set_top (v : option ptr) : HM unit := modify (fun h => Heap (timers h) v (timer_last h)).
Definition set_last (v : option ptr) : HM unit := modify (fun h => Heap (timers h) (timer_top h) v).

(** [if (o) o->up = v;] *)
Definition set_up_opt (o : option ptr) (v : option ptr) : HM unit :=
  match o with Some p => set_fld p (with_up v) | None => mret tt end.

(** [curr->up && (curr->up->f == curr)] *)
Definition is_child (f : sel_timer -> option ptr) (curr : ptr) : HM bool :=
  u ← fld up curr;
  match u with
  | None => mret false
  | Some u => c ← fld f u; mret (bool_decide (c = Some curr))
  end.

(** The decrement of an [unsigned int]. *)
Definition dec_uint (u : Z) : Z := (u - 1) mod 2 ^ 32.

(** ** Neighbours in level order *)

(** [while (curr->up && (curr->up->f == curr)) { upcount++; curr = curr->up; }] *)
Fixpoint climb (f : sel_timer -> option ptr) (fuel : nat) (curr : ptr) (upcount : Z) : HM (ptr * Z) :=
  b ← is_child f curr;
  if b : bool then
    match fuel with
    | O => lift_res (Crash NoFuel)
    | S fuel' => u ← fld up curr; u ← deref u; climb f fuel' u (upcount + 1)
    end
  else mret (curr, upcount).

(** [while (upcount) { curr = curr->f; upcount--; }] *)
Fixpoint descend (f : sel_timer -> option ptr) (upcount : nat) (curr : option ptr) : HM (option ptr) :=
  match upcount with
  | O => mret curr
  | S n => c ← deref curr; c' ← fld f c; descend f n c'
  end.

(** Fuel for a walk from a node to the root: the number of timers. *)
Definition walk_fuel : HM nat := fun h => Ok (size (timers h), h).

(** [find_next_pos]: the parent, and whether [next] is its [right] field. *)
Definition find_next_pos (curr : ptr) : HM (ptr * bool) :=
  b ← is_child left curr;
  if b : bool then u ← fld up curr; u ← deref u; mret (u, true)
  else
    n ← walk_fuel;
    '(curr, upcount) ← climb right n curr 0;
    u ← fld up curr;
    '(start, upcount) ← (match u with
      | Some u => c ← fld right u; mret (c, dec_uint upcount)
      | None => mret (Some curr, upcount)
      end);
    c ← descend left (Z.to_nat upcount) start;
    c ← deref c;
    mret (c, false).

Definition find_prev_elem (curr : ptr) : HM (option ptr) :=
  b ← is_child right curr;
  if b : bool then u ← fld up curr; u ← deref u; fld left u
  else
    n ← walk_fuel;
    '(curr, upcount) ← climb left n curr 0;
    u ← fld up curr;
    '(start, upcount) ← (match u with
      | Some u => c ← fld left u; mret (c, upcount)
      | None => mret (Some curr, dec_uint upcount)
      end);
    descend right (Z.to_nat upcount) start.

(** ** Restoring the order *)

(** Put [v] where [p] hangs: [p->up]'s link to [p], or the top. *)
Definition relink (p : ptr) (v : option ptr) : HM unit :=
  u ← fld up p;
  match u with
  | Some u =>
      l ← fld left u;
      if bool_decide (l = Some p) then set_fld u (with_left v) else set_fld u (with_right v)
  | None => set_top v
  end.

(** One round of [send_up]: [elem] changes places with its parent. *)
Definition swap_up (elem parent : ptr) : HM unit :=
  tmp1 ← fld left elem;
  tmp2 ← fld right elem;
  pl ← fld left parent;
  _ ← (if bool_decide (pl = Some elem) then
         _ ← set_fld elem (with_left (Some parent));
         r ← fld right parent;
         _ ← set_fld elem (with_right r);
         set_up_opt r (Some elem)
       else
         _ ← set_fld elem (with_right (Some parent));
         l ← fld left parent;
         _ ← set_fld elem (with_left l);
         set_up_opt l (Some elem));
  pu ← fld up parent;
  _ ← set_fld elem (with_up pu);
  _ ← relink parent (Some elem);
  _ ← set_fld parent (with_up (Some elem));
  _ ← set_fld parent (with_left tmp1);
  _ ← set_up_opt tmp1 (Some parent);
  _ ← set_fld parent (with_right tmp2);
  _ ← set_up_opt tmp2 (Some parent);
  last ← get_last;
  if bool_decide (last = Some elem) then set_last (Some parent) else mret tt.

Fixpoint send_up (fuel : nat) (elem : ptr) : HM unit :=
  parent ← fld up elem;
  match parent with
  | None => mret tt
  | Some parent =>
      te ← fld timeout elem;
      tp ← fld timeout parent;
      if cmp_timeval te tp <? 0 then
        match fuel with
        | O => lift_res (Crash NoFuel)
        | S fuel' => _ ← swap_up elem parent; send_up fuel' elem
        end
      else mret tt
  end.

(** One round of [send_down]: [elem] changes places with its right, or its
    left, child. *)
Definition swap_down_right (elem right_ : ptr) : HM unit :=
  tmp1 ← fld left right_;
  tmp2 ← fld right right_;
  _ ← relink elem (Some right_);
  eu ← fld up elem;
  _ ← set_fld right_ (with_up eu);
  _ ← set_fld elem (with_up (Some right_));
  el ← fld left elem;
  _ ← set_fld right_ (with_left el);
  _ ← set_fld right_ (with_right (Some elem));
  _ ← set_fld elem (with_left tmp1);
  _ ← set_fld elem (with_right tmp2);
  _ ← set_up_opt el (Some right_);
  _ ← set_up_opt tmp1 (Some elem);
  _ ← set_up_opt tmp2 (Some elem);
  last ← get_last;
  if bool_decide (last = Some right_) then set_last (Some elem) else mret tt.

Definition swap_down_left (elem left_ : ptr) : HM unit :=
  tmp1 ← fld left left_;
  tmp2 ← fld right left_;
  _ ← relink elem (Some left_);
  eu ← fld up elem;
  _ ← set_fld left_ (with_up eu);
  _ ← set_fld elem (with_up (Some left_));
  _ ← set_fld left_ (with_left (Some elem));
  er ← fld right elem;
  _ ← set_fld left_ (with_right er);
  _ ← set_fld elem (with_left tmp1);
  _ ← set_fld elem (with_right tmp2);
  _ ← set_up_opt er (Some left_);
  _ ← set_up_opt tmp1 (Some elem);
  _ ← set_up_opt tmp2 (Some elem);
  last ← get_last;
  if bool_decide (last = Some left_) then set_last (Some elem) else mret tt.

Fixpoint send_down (fuel : nat) (elem : ptr) : HM unit :=
  l ← fld left elem;
  match l with
  | None => mret tt
  | Some l =>
      r ← fld right elem;
      tl ← fld timeout l;
      te ← fld timeout elem;
      right_smaller ← (match r with
                       | Some r => tr ← fld timeout r;
                                   mret (if 0 <? cmp_timeval tl tr then Some (r, tr) else None)
                       | None => mret None
                       end);
      let '(child, tc, go) := match right_smaller with
                              | Some (r, tr) => (r, tr, swap_down_right elem r)
                              | None => (l, tl, swap_down_left elem l)
                              end in
      if 0 <? cmp_timeval te tc then
        match fuel with
        | O => lift_res (Crash NoFuel)
        | S fuel' => _ ← go; send_down fuel' elem
        end
      else mret tt
  end.

(** ** Operations *)

Definition add_to_heap (elem : ptr) : HM unit :=
  _ ← set_fld elem (with_left None);
  _ ← set_fld elem (with_right None);
  _ ← set_fld elem (with_up None);
  top ← get_top;
  match top with
  | None => _ ← set_top (Some elem); set_last (Some elem)
  | Some _ =>
      last ← get_last;
      last ← deref last;
      '(parent, is_right) ← find_next_pos last;
      _ ← set_fld parent (if is_right : bool then with_right (Some elem) else with_left (Some elem));
      _ ← set_fld elem (with_up (Some parent));
      _ ← set_last (Some elem);
      te ← fld timeout elem;
      tp ← fld timeout parent;
      if cmp_timeval te tp <? 0 then n ← walk_fuel; send_up n elem else mret tt
  end.

(** The former last element takes the place of [elem]. *)
Definition replace_elem (elem to_insert : ptr) : HM unit :=
  _ ← relink elem (Some to_insert);
  eu ← fld up elem;
  _ ← set_fld to_insert (with_up eu);
  el ← fld left elem;
  _ ← set_up_opt el (Some to_insert);
  er ← fld right elem;
  _ ← set_up_opt er (Some to_insert);
  el ← fld left elem;
  _ ← set_fld to_insert (with_left el);
  er ← fld right elem;
  _ ← set_fld to_insert (with_right er);
  last ← get_last;
  if bool_decide (last = Some elem) then set_last (Some to_insert) else mret tt.

(** The choice between [send_up] and [send_down]. *)
Definition settle (elem : ptr) : HM unit :=
  n ← walk_fuel;
  u ← fld up elem;
  go_up ← (match u with
           | None => mret false
           | Some u => te ← fld timeout elem; tu ← fld timeout u; mret (cmp_timeval te tu <? 0)
           end);
  if go_up : bool then send_up n elem else send_down n elem.

Definition remove_from_heap (elem : ptr) : HM unit :=
  last ← get_last;
  to_insert ← deref last;
  u ← fld up to_insert;
  match u with
  | None => _ ← set_top None; set_last None
  | Some u =>
      prev ← find_prev_elem to_insert;
      _ ← set_last prev;
      l ← fld left u;
      _ ← (if bool_decide (l = Some to_insert) then set_fld u (with_left None)
           else set_fld u (with_right None));
      if bool_decide (elem = to_insert) then mret tt
      else
        _ ← replace_elem elem to_insert;
        settle to_insert
  end.

(** ** Timers *)

Definition EBUSY : Z := 16.
Definition ETIMEDOUT : Z := 110.
Definition ENOMEM : Z := 12.

(** [malloc] answers a null pointer, or an address with memory of unknown
    contents. *)
Definition sel_alloc_timer (mem : option (ptr * sel_timer)) (hd ud : addr) : HM (Z * option ptr) := fun h =>
  match mem with
  | None => Ok ((ENOMEM, None), h)
  | Some (p, junk) =>
      Ok ((0, Some p), Heap (<[p := SelTimer hd ud (timeout junk) false (left junk) (right junk) (up junk)]> (timers h))
                            (timer_top h) (timer_last h))
  end.

Definition sel_start_timer (timer : ptr) (time : timeval) : HM Z :=
  b ← fld in_heap timer;
  if b : bool then mret EBUSY
  else
    _ ← set_fld timer (with_timeout time);
    _ ← add_to_heap timer;
    _ ← set_fld timer (with_in_heap true);
    mret 0.

Definition sel_stop_timer (timer : ptr) : HM Z :=
  b ← fld in_heap timer;
  if negb b then mret ETIMEDOUT
  else
    _ ← remove_from_heap timer;
    _ ← set_fld timer (with_in_heap false);
    mret 0.

Definition free_timer (timer : ptr) : HM unit :=
  modify (fun h => Heap (delete timer (timers h)) (timer_top h) (timer_last h)).

Definition sel_free_timer (timer : ptr) : HM Z :=
  b ← fld in_heap timer;
  _ ← (if b : bool then sel_stop_timer timer else mret 0);
  _ ← free_timer timer;
  mret 0.

(** ** The heap as a list in level order *)

Definition par (l : list ptr) (j : nat) : option ptr :=
  match j with O => None | S k => l !! Nat.div2 k end.

(** A field of a node. *)
Definition fv {A} (f : sel_timer -> A) (m : gmap ptr sel_timer) (q : ptr) : option A := f <$> m !! q.

Definition linked (m : gmap ptr sel_timer) (l : list ptr) : Prop :=
  forall j q, l !! j = Some q ->
    fv left m q = Some (l !! (2 * j + 1)%nat) /\ fv right m q = Some (l !! (2 * j + 2)%nat) /\
    fv up m q = Some (par l j).

Record rep (h : heap) (l : list ptr) : Prop := {
  rep_nodup : NoDup l;
  rep_top : timer_top h = l !! 0%nat;
  rep_last : timer_last h = l !! (length l - 1)%nat;
  rep_linked : linked (timers h) l
}.

(** What an operation on the nodes [l] leaves alone: everything but the links,
    and the links of other nodes. *)
Record same_timers (l : list ptr) (m m' : gmap ptr sel_timer) : Prop := {
  same_handler q : fv handler m' q = fv handler m q;
  same_data q : fv user_data m' q = fv user_data m q;
  same_timeout q : fv timeout m' q = fv timeout m q;
  same_in_heap q : fv in_heap m' q = fv in_heap m q;
  same_others q : q ∉ l -> m' !! q = m !! q
}.

(** ** Evaluation of the node operations *)

Definition alter_opt (w : sel_timer -> sel_timer) (o : option ptr) (m : gmap ptr sel_timer) : gmap ptr sel_timer :=
  match o with Some p => alter w p m | None => m end.

Lemma fld_eval {A} (f : sel_timer -> A) q h v : fv f (timers h) q = Some v -> fld f q h = Ok (v, h).
Proof. unfold fv, fld. intros E. destruct (timers h !! q); [by injection E as ->|done]. Qed.

Lemma set_fld_eval p w m t la : is_Some (m !! p) -> set_fld p w (Heap m t la) = Ok (tt, Heap (alter w p m) t la).
Proof.
  intros [n E]. unfold set_fld. cbn [timers timer_top timer_last]. rewrite E. do 3 f_equal.
  apply map_eq. intros q. destruct (decide (p = q)) as [<-|Hne].
  - by rewrite lookup_insert_eq, lookup_alter_eq, E.
  - by rewrite lookup_insert_ne, lookup_alter_ne.
Qed.

Lemma set_up_opt_eval o v m t la :
  (forall p, o = Some p -> is_Some (m !! p)) ->
  set_up_opt o v (Heap m t la) = Ok (tt, Heap (alter_opt (with_up v) o m) t la).
Proof. destruct o as [p|]; [|done]. intros Ho. apply set_fld_eval, Ho. done. Qed.

Lemma alter_opt_is_Some w o m q : is_Some (alter_opt w o m !! q) <-> is_Some (m !! q).
Proof. destruct o; simpl; [apply lookup_alter_is_Some|done]. Qed.

Lemma relink_eval x v u (b : bool) m t la :
  fv up m x = Some u ->
  (forall y, u = Some y -> exists c, fv left m y = Some c /\ bool_decide (c = Some x) = b) ->
  relink x v (Heap m t la) =
    Ok (tt, Heap (alter_opt (if b then with_left v else with_right v) u m) (match u with None => v | Some _ => t end) la).
Proof.
  intros Hu Hb. unfold relink. rewrite (ST_bind_Ok _ _ _ _ _ (fld_eval _ _ (Heap m t la) _ Hu)).
  destruct u as [u|]; [|done]. destruct (Hb u eq_refl) as (c & Hc & Hcb).
  rewrite (ST_bind_Ok _ _ _ _ _ (fld_eval _ _ (Heap m t la) _ Hc)), Hcb. cbn [alter_opt].
  assert (is_Some (m !! u)) by (unfold fv in Hc; destruct (m !! u); [eauto|done]).
  destruct b; by apply set_fld_eval.
Qed.

(** Reading a field after a store. *)
Section fields.
Implicit Types (m : gmap ptr sel_timer) (p q : ptr).

Lemma fv_other {A} (f : sel_timer -> A) w o m q :
  (forall t, f (w t) = f t) -> fv f (alter_opt w o m) q = fv f m q.
Proof.
  intros Hf. destruct o as [p|]; [|done]. unfold fv. simpl. destruct (decide (p = q)) as [<-|Hne].
  - rewrite lookup_alter_eq. destruct (m !! p); simpl; [by rewrite Hf|done].
  - by rewrite lookup_alter_ne.
Qed.

Lemma fv_ne {A} (f : sel_timer -> A) w o m q : o <> Some q -> fv f (alter_opt w o m) q = fv f m q.
Proof.
  intros Ho. destruct o as [p|]; [|done]. unfold fv. simpl. rewrite lookup_alter_ne by congruence. done.
Qed.

Lemma fv_eq {A} (f : sel_timer -> A) w o m q v :
  o = Some q -> (forall t, f (w t) = v) -> is_Some (m !! q) -> fv f (alter_opt w o m) q = Some v.
Proof. intros -> Hf [t Ht]. unfold fv. simpl. rewrite lookup_alter_eq, Ht. simpl. by rewrite Hf. Qed.

Lemma lookup_ne w o m q : o <> Some q -> alter_opt w o m !! q = m !! q.
Proof. intros Ho. destruct o as [p|]; [|done]. simpl. apply lookup_alter_ne. congruence. Qed.
End fields.

Lemma same_refl l m : same_timers l m m.
Proof. by constructor. Qed.

Lemma same_trans l m1 m2 m3 : same_timers l m1 m2 -> same_timers l m2 m3 -> same_timers l m1 m3.
Proof.
  intros [H1 H2 H3 H4 H5] [K1 K2 K3 K4 K5]. constructor; intros q; [by rewrite K1, H1 | by rewrite K2, H2
    | by rewrite K3, H3 | by rewrite K4, H4 |]. intros Hq. by rewrite K5, H5.
Qed.

Definition link_only (w : sel_timer -> sel_timer) : Prop :=
  forall t, handler (w t) = handler t /\ user_data (w t) = user_data t /\ timeout (w t) = timeout t /\ in_heap (w t) = in_heap t.

Lemma same_alter l m m' w o :
  link_only w -> (forall q, o = Some q -> q ∈ l) -> same_timers l m m' -> same_timers l m (alter_opt w o m').
Proof.
  intros Hw Ho [H1 H2 H3 H4 H5]. constructor; intros q.
  - rewrite fv_other; [done|]. intros t. apply Hw.
  - rewrite fv_other; [done|]. intros t. apply Hw.
  - rewrite fv_other; [done|]. intros t. apply Hw.
  - rewrite fv_other; [done|]. intros t. apply Hw.
  - intros Hq. rewrite lookup_ne; [by apply H5|]. intros E. by apply Hq, Ho.
Qed.

Lemma linked_is_Some m l j q : linked m l -> l !! j = Some q -> is_Some (m !! q).
Proof. intros Hl Hj. destruct (Hl j q Hj) as (E & _). unfold fv in E. destruct (m !! q); [eauto|done]. Qed.

(** A parent's index, without division. *)
Lemma parent_index i : (0 < i)%nat -> exists p b, i = (2 * p + (if b : bool then 1 else 2))%nat /\ Nat.div2 (i - 1) = p.
Proof.
  intros Hi. destruct (Nat.Even_or_Odd (i - 1)) as [[p E]|[p E]]; exists p.
  - exists true. split; [lia|]. rewrite E. apply Nat.div2_double.
  - exists false. split; [lia|]. rewrite E, Nat.add_1_r. apply Nat.div2_succ_double.
Qed.

Lemma par_child l p : par l (2 * p + 1) = l !! p /\ par l (2 * p + 2) = l !! p.
Proof.
  replace (2 * p + 1)%nat with (S (2 * p)) by lia. replace (2 * p + 2)%nat with (S (S (2 * p))) by lia.
  unfold par. by rewrite Nat.div2_double, Nat.div2_succ_double.
Qed.

(** ** Two neighbours change places *)

(** The child position of [p] on the left or on the right. *)
Definition child_at (p : nat) (b : bool) : nat := (2 * p + if b then 1 else 2)%nat.

Definition swap (l : list ptr) (i p : nat) (e q : ptr) : list ptr := <[i := q]> (<[p := e]> l).

Lemma par_child_at l p b : par l (child_at p b) = l !! p.
Proof. unfold child_at. destruct (par_child l p) as [H1 H2]. by destruct b. Qed.

Lemma index_cases k : k = 0%nat \/ exists g c, k = child_at g c.
Proof.
  destruct k as [|k]; [by left|]. destruct (parent_index (S k) ltac:(lia)) as (g & c & E & _).
  right. by exists g, c.
Qed.

Lemma child_at_inj g c g' c' : child_at g c = child_at g' c' -> g = g' /\ c = c'.
Proof. unfold child_at. destruct c, c'; intros; split; done || lia. Qed.

Lemma child_at_gt g c : (g < child_at g c)%nat.
Proof. unfold child_at. destruct c; lia. Qed.
Section swapped.
Context (m m' : gmap ptr sel_timer) (l : list ptr) (p : nat) (b : bool) (e q : ptr).
Let i := child_at p b.

(** The links after [e] at [i] and its parent [q] at [p] changed places, for
    every node whose links change. *)
Record swapped : Prop := {
  sw_e : fv left m' e = Some (if b then Some q else l !! (2 * p + 1)%nat) /\
         fv right m' e = Some (if b then l !! (2 * p + 2)%nat else Some q) /\ fv up m' e = Some (par l p);
  sw_q : fv left m' q = Some (l !! (2 * i + 1)%nat) /\ fv right m' q = Some (l !! (2 * i + 2)%nat) /\
         fv up m' q = Some (Some e);
  sw_sibling x : l !! child_at p (negb b) = Some x ->
         fv left m' x = fv left m x /\ fv right m' x = fv right m x /\ fv up m' x = Some (Some e);
  sw_child c x : l !! child_at i c = Some x ->
         fv left m' x = fv left m x /\ fv right m' x = fv right m x /\ fv up m' x = Some (Some q);
  sw_grand g c x : p = child_at g c -> l !! g = Some x ->
         fv left m' x = (if c then Some (Some e) else fv left m x) /\
         fv right m' x = (if c then fv right m x else Some (Some e)) /\ fv up m' x = fv up m x;
  sw_rest k x : l !! k = Some x -> k <> i -> k <> p -> k <> child_at p (negb b) ->
         k <> child_at i true -> k <> child_at i false -> (forall c, p <> child_at k c) -> m' !! x = m !! x
}.

Context (Hl : linked m l) (Hn : NoDup l) (He : l !! i = Some e) (Hq : l !! p = Some q).

Lemma swap_lookup k : swap l i p e q !! k = if decide (k = i) then Some q else if decide (k = p) then Some e else l !! k.
Proof.
  pose proof (lookup_lt_Some _ _ _ He). pose proof (lookup_lt_Some _ _ _ Hq). unfold swap.
  destruct (decide (k = i)) as [->|]; [apply list_lookup_insert_eq; by rewrite length_insert|].
  rewrite list_lookup_insert_ne by done. destruct (decide (k = p)) as [->|]; [by apply list_lookup_insert_eq|].
  by rewrite list_lookup_insert_ne.
Qed.

Lemma swap_par g c : par (swap l i p e q) (child_at g c) =
  if decide (g = i) then Some q else if decide (g = p) then Some e else l !! g.
Proof. rewrite par_child_at. apply swap_lookup. Qed.

End swapped.

Ltac idx :=
  unfold child_at in *; cbn [negb] in *;
  repeat match goal with
  | c : bool |- _ => destruct c; cbn [negb] in *
  end; (lia || congruence).

Lemma swapped_linked m m' l p b e q :
  linked m l -> NoDup l -> l !! child_at p b = Some e -> l !! p = Some q ->
  swapped m m' l p b e q -> linked m' (swap l (child_at p b) p e q).
Proof.
  intros Hl Hn He Hq Hs k x Hk. set (i := child_at p b) in *.
  assert (Hlk : forall j, swap l i p e q !! j = if decide (j = i) then Some q else if decide (j = p) then Some e else l !! j)
    by (intros; by apply swap_lookup).
  assert (Hip : i <> p) by (unfold i, child_at; destruct b; lia).
  assert (Hsp : forall g c, par (swap l i p e q) (child_at g c) =
    if decide (g = i) then Some q else if decide (g = p) then Some e else l !! g)
    by (intros; by apply swap_par).
  assert (Hpar : forall j y, l !! j = Some y -> j <> i -> j <> p -> j <> child_at p (negb b) ->
    j <> child_at i true -> j <> child_at i false -> par (swap l i p e q) j = par l j).
  { intros j y Hj Hji Hjp H1 H2 H3. destruct (index_cases j) as [->|(g & c & ->)]; [done|].
    rewrite !par_child_at, Hlk. destruct (decide (g = i)) as [->|]; [by destruct c|].
    destruct (decide (g = p)) as [->|]; [|done]. exfalso. destruct c, b; done. }
  rewrite !Hlk in *. clear Hlk.
  destruct (decide (k = i)) as [->|Hki].
  { injection Hk as <-. destruct (sw_q _ _ _ _ _ _ _ Hs) as (E1 & E2 & E3). fold i in E1, E2. rewrite E1, E2, E3.
    change (par (swap l i p e q) i) with (par (swap l i p e q) (child_at p b)). rewrite Hsp.
    destruct (decide (2 * i + 1 = i)%nat); [lia|]. destruct (decide (2 * i + 2 = i)%nat); [lia|].
    destruct (decide (2 * i + 1 = p)%nat); [unfold i in *; idx|].
    destruct (decide (2 * i + 2 = p)%nat); [unfold i in *; idx|].
    destruct (decide (p = i)); [congruence|]. by destruct (decide (p = p)). }
  destruct (decide (k = p)) as [->|Hkp].
  { injection Hk as <-. destruct (sw_e _ _ _ _ _ _ _ Hs) as (E1 & E2 & E3). rewrite E1, E2, E3.
    destruct (decide (2 * p + 1 = p)%nat); [lia|]. destruct (decide (2 * p + 2 = p)%nat); [lia|].
    split; [|split].
    - unfold i, child_at. destruct b; destruct (decide _); done || lia.
    - unfold i, child_at. destruct b; destruct (decide _); done || lia.
    - f_equal. destruct (index_cases p) as [->|(g & c & ->)]; [done|]. rewrite Hsp, par_child_at.
      pose proof (child_at_gt g c). pose proof (child_at_gt (child_at g c) b).
      destruct (decide (g = i)); [unfold i in *; lia|]. destruct (decide (g = child_at g c)); [lia|done]. }
  destruct (Hl k x Hk) as (E1 & E2 & E3).
  destruct (decide (k = child_at p (negb b))) as [->|Hsib].
  { destruct (sw_sibling _ _ _ _ _ _ _ Hs x Hk) as (S1 & S2 & S3). rewrite S1, S2, S3, E1, E2.
    rewrite Hsp. destruct (decide (p = i)); [congruence|]. destruct (decide (p = p)); [|done].
    repeat (destruct (decide _); [unfold i in *; idx|]). done. }
  destruct (decide (k = child_at i true)) as [->|Hc1].
  { destruct (sw_child _ _ _ _ _ _ _ Hs true x Hk) as (S1 & S2 & S3). rewrite S1, S2, S3, E1, E2.
    rewrite Hsp. destruct (decide (i = i)); [|done].
    repeat (destruct (decide _); [unfold i in *; idx|]). done. }
  destruct (decide (k = child_at i false)) as [->|Hc2].
  { destruct (sw_child _ _ _ _ _ _ _ Hs false x Hk) as (S1 & S2 & S3). rewrite S1, S2, S3, E1, E2.
    rewrite Hsp. destruct (decide (i = i)); [|done].
    repeat (destruct (decide _); [unfold i in *; idx|]). done. }
  rewrite (Hpar k x Hk) by done.
  destruct (decide (2 * k + 1 = i)%nat) as [Ei|_]; [unfold i in *; idx|].
  destruct (decide (2 * k + 2 = i)%nat) as [Ei|_]; [unfold i in *; idx|].
  destruct (decide (p = child_at k true)) as [Eg|Hg1].
  { destruct (sw_grand _ _ _ _ _ _ _ Hs k true x Eg Hk) as (S1 & S2 & S3). rewrite S1, S2, S3, E2, E3.
    destruct (decide (2 * k + 1 = p)%nat); [|unfold child_at in Eg; lia].
    destruct (decide (2 * k + 2 = p)%nat); [unfold child_at in Eg; lia|done]. }
  destruct (decide (p = child_at k false)) as [Eg|Hg2].
  { destruct (sw_grand _ _ _ _ _ _ _ Hs k false x Eg Hk) as (S1 & S2 & S3). rewrite S1, S2, S3, E1, E3.
    destruct (decide (2 * k + 1 = p)%nat); [unfold child_at in Eg; lia|].
    destruct (decide (2 * k + 2 = p)%nat); [done|unfold child_at in Eg; lia]. }
  destruct (decide (2 * k + 1 = p)%nat); [unfold child_at in Hg1; lia|].
  destruct (decide (2 * k + 2 = p)%nat); [unfold child_at in Hg2; lia|].
  unfold fv in *. rewrite (sw_rest _ _ _ _ _ _ _ Hs k x Hk) by (done || by intros []). done.
Qed.

(** ** Running the code of a swap *)

Lemma ne_idx (l : list ptr) j k x : NoDup l -> l !! k = Some x -> j <> k -> l !! j <> Some x.
Proof. intros Hn Hk Hjk Hj. apply Hjk. by apply (NoDup_lookup l j k x). Qed.

Lemma par_ne (l : list ptr) j k x : NoDup l -> l !! k = Some x -> (forall c, j <> child_at k c) -> par l j <> Some x.
Proof.
  intros Hn Hk Hjk. destruct (index_cases j) as [->|(g & c & ->)]; [done|]. rewrite par_child_at.
  apply (ne_idx l g k x Hn Hk). intros ->. by apply (Hjk c).
Qed.

Lemma par_elem l k x : par l k = Some x -> x ∈ l.
Proof. destruct (index_cases k) as [->|(g & c & ->)]; [done|]. rewrite par_child_at. apply list_elem_of_lookup_2. Qed.

Ltac ptr_ne :=
  match goal with
  | Hn : NoDup ?l, Hx : ?l !! ?k = Some ?x |- ?l !! ?j <> Some ?x => apply (ne_idx l j k x Hn Hx); idx
  | Hn : NoDup ?l, Ha : ?l !! ?j = Some ?a, Hx : ?l !! ?k = Some ?x |- Some ?a <> Some ?x =>
      rewrite <- Ha; apply (ne_idx l j k x Hn Hx); idx
  | Hz : ?z ∉ ?l, Hx : ?l !! ?k = Some ?x |- Some ?z <> Some ?x => intros [= ->]; by apply Hz, (list_elem_of_lookup_2 _ k)
  | Hz : ?z ∉ ?l, Hx : ?l !! ?k = Some ?x |- Some ?x <> Some ?z => intros [= ->]; by apply Hz, (list_elem_of_lookup_2 _ k)
  | Hz : ?z ∉ ?l |- ?l !! ?k <> Some ?z => intros ?; by apply Hz, (list_elem_of_lookup_2 _ k)
  | Hz : ?z ∉ ?l |- par ?l ?k <> Some ?z => intros ?; apply Hz; by apply (par_elem l k)
  | Hn : NoDup ?l, Hx : ?l !! ?k = Some ?x |- par ?l ?j <> Some ?x => apply (par_ne l j k x Hn Hx); first [assumption | intros []; idx]
  end.

(** The value of a field after a chain of stores. *)
Ltac fvs :=
  repeat first
    [ rewrite fv_other by (intros; reflexivity)
    | rewrite fv_ne by ptr_ne ];
  first [eassumption | apply fv_eq; [eassumption || reflexivity | intros; reflexivity | rewrite ?alter_opt_is_Some; eassumption]].

Lemma set_eval p w m t la :
  is_Some (m !! p) -> set_fld p w (Heap m t la) = Ok (tt, Heap (alter_opt w (Some p) m) t la).
Proof. apply set_fld_eval. Qed.

Ltac is_node := intros; subst; rewrite ?alter_opt_is_Some; eauto.

Ltac hstep :=
  lazymatch goal with
  | |- exists m', ((?m ≫= ?k) ≫= ?h) ?s = _ /\ _ => rewrite (ST_bind_assoc m k h s); cbv beta; hstep
  | |- exists m', (fld ?f ?x ≫= _) (Heap ?m ?t ?la) = _ /\ _ =>
      erewrite (ST_bind_Ok _ _ _ _ _ (fld_eval f x (Heap m t la) _ ltac:(cbn [timers]; fvs)))
  | |- exists m', (set_fld ?p ?w ≫= _) (Heap ?m ?t ?la) = _ /\ _ =>
      rewrite (ST_bind_Ok _ _ _ _ _ (set_eval p w m t la ltac:(is_node)))
  | |- exists m', (set_up_opt ?o ?v ≫= _) (Heap ?m ?t ?la) = _ /\ _ =>
      rewrite (ST_bind_Ok _ _ _ _ _ (set_up_opt_eval o v m t la ltac:(is_node)))
  end; cbv beta.

Lemma linked_at m l j q : linked m l -> l !! j = Some q ->
  fv left m q = Some (l !! child_at j true) /\ fv right m q = Some (l !! child_at j false) /\ fv up m q = Some (par l j).
Proof. intros Hl Hj. exact (Hl j q Hj). Qed.

Lemma bind_if {S A B} (c : bool) (m1 m2 : ST S A) (k : A -> ST S B) s :
  ((if c then m1 else m2) ≫= k) s = if c then (m1 ≫= k) s else (m2 ≫= k) s.
Proof. by destruct c. Qed.

Lemma odd_child_at g c : Nat.odd (child_at g c) = c.
Proof. unfold child_at. rewrite Nat.odd_add, Nat.odd_mul. by destruct c. Qed.

(** The link that leads to the node at [k] from above. *)
Lemma relink_at l k x v m1 t la :
  NoDup l -> l !! k = Some x -> fv up m1 x = Some (par l k) ->
  (forall g c y, k = child_at g c -> l !! g = Some y -> fv left m1 y = Some (l !! child_at g true)) ->
  relink x v (Heap m1 t la) =
    Ok (tt, Heap (alter_opt (if Nat.odd k then with_left v else with_right v) (par l k) m1)
                 (match k with O => v | S _ => t end) la).
Proof.
  intros Hn Hk Hu Hg. rewrite (relink_eval x v (par l k) (Nat.odd k) _ _ _ Hu).
  - destruct (index_cases k) as [->|(g & c & Eg)]; [done|].
    assert (Hy : is_Some (l !! g)) by (apply lookup_lt_is_Some; apply lookup_lt_Some in Hk; pose proof (child_at_gt g c); lia).
    destruct Hy as [y Hy]. pose proof (par_child_at l g c) as Hp. rewrite <- Eg, Hy in Hp. rewrite Hp.
    destruct k; [unfold child_at in Eg; destruct c; lia|done].
  - intros y Hy. destruct (index_cases k) as [->|(g & c & Eg)]; [done|].
    rewrite Eg, par_child_at in Hy. exists (l !! child_at g true). split; [by apply (Hg g c)|].
    subst k. rewrite odd_child_at. destruct c.
    + by apply bool_decide_eq_true_2.
    + apply bool_decide_eq_false_2. apply (ne_idx _ _ _ _ Hn Hk). unfold child_at. lia.
Qed.

Lemma left_link (l : list ptr) p (b : bool) e : NoDup l -> l !! child_at p b = Some e ->
  bool_decide (l !! child_at p true = Some e) = b.
Proof.
  intros Hn He. destruct b.
  - by apply bool_decide_eq_true_2.
  - apply bool_decide_eq_false_2, (ne_idx _ _ _ _ Hn He). unfold child_at. lia.
Qed.

(** Runs [relink] of the node at [k]. *)
Ltac hrelink l k x v Hl Hn Hx :=
  lazymatch goal with
  | |- exists m', (relink _ _ ≫= _) (Heap ?m ?t ?la) = _ /\ _ =>
      rewrite (ST_bind_Ok _ _ _ _ _ (relink_at l k x v m t la Hn Hx
        ltac:(fvs) ltac:(intros g c y Eg Hy; destruct (linked_at _ _ _ _ Hl Hy) as (? & ? & ?); fvs)))
  end; cbv beta; destruct (Nat.odd k) eqn:Hodd.

(** One field of one node after all stores. *)
Ltac field :=
  repeat first
    [ rewrite fv_other by (intros; reflexivity)
    | rewrite fv_ne by ptr_ne
    | rewrite lookup_ne by ptr_ne ];
  first [reflexivity | eassumption
        | apply fv_eq; [eassumption || reflexivity | intros; reflexivity | rewrite ?alter_opt_is_Some; eauto]].

(** The nodes after all stores have the links of the swapped list. *)
Ltac swapped_by l Hodd :=
  constructor;
  [ split_and!; field | split_and!; field
  | intros x Hx; cbn [negb] in Hx; split_and!; field
  | intros c x Hx; destruct c; split_and!; field
  | intros g c x Eg Hx;
    let Hpx := fresh in assert (Hpx := par_child_at l g c); rewrite <- Eg, Hx in Hpx;
    rewrite Eg, odd_child_at in Hodd; subst c; split_and!; field
  | intros; field ].

Ltac same_by :=
  repeat (apply same_alter;
    [ by intros []
    | let x := fresh in let E := fresh in intros x E; first [by eapply par_elem | by eapply list_elem_of_lookup_2
        | injection E as <-; eapply list_elem_of_lookup_2; eassumption]
    | ]); apply same_refl.

(** Ends a run: the last link, and the node store. *)
Ltac hfinish l Hodd :=
  lazymatch goal with |- exists m', _ (Heap ?m _ _) = _ /\ _ => exists m end;
  split; [rewrite ST_bind_eq; cbn [get_last timer_last]; case_bool_decide; reflexivity|];
  split; [swapped_by l Hodd | same_by].

Lemma swap_up_run m l p b e q t la :
  linked m l -> NoDup l -> l !! child_at p b = Some e -> l !! p = Some q ->
  exists m', swap_up e q (Heap m t la) =
    Ok (tt, Heap m' (match p with O => Some e | S _ => t end) (if bool_decide (la = Some e) then Some q else la)) /\
    (swapped m m' l p b e q /\ same_timers l m m').
Proof.
  intros Hl Hn He Hq.
  destruct (linked_at _ _ _ _ Hl He) as (El & Er & Eu). destruct (linked_at _ _ _ _ Hl Hq) as (Ql & Qr & Qu).
  assert (Hin : forall k x, l !! k = Some x -> is_Some (m !! x)) by (intros k x; by apply linked_is_Some).
  pose proof (Hin _ _ He) as Ie. pose proof (Hin _ _ Hq) as Iq.
  unfold swap_up. hstep. hstep. hstep. rewrite (left_link _ _ _ _ Hn He), bind_if.
  destruct b; do 6 hstep; hrelink l p q (Some e) Hl Hn Hq; do 5 hstep; hfinish l Hodd.
Qed.

Lemma swap_down_run m l p b e q t la :
  linked m l -> NoDup l -> l !! child_at p b = Some e -> l !! p = Some q ->
  exists m', (if b then swap_down_left q e else swap_down_right q e) (Heap m t la) =
    Ok (tt, Heap m' (match p with O => Some e | S _ => t end) (if bool_decide (la = Some e) then Some q else la)) /\
    (swapped m m' l p b e q /\ same_timers l m m').
Proof.
  intros Hl Hn He Hq.
  destruct (linked_at _ _ _ _ Hl He) as (El & Er & Eu). destruct (linked_at _ _ _ _ Hl Hq) as (Ql & Qr & Qu).
  assert (Hin : forall k x, l !! k = Some x -> is_Some (m !! x)) by (intros k x; by apply linked_is_Some).
  pose proof (Hin _ _ He) as Ie. pose proof (Hin _ _ Hq) as Iq.
  destruct b; unfold swap_down_left, swap_down_right; do 2 hstep; hrelink l p q (Some e) Hl Hn Hq;
    do 11 hstep; hfinish l Hodd.
Qed.

Lemma swap_perm l i p e q : l !! i = Some e -> l !! p = Some q -> swap l i p e q ≡ₚ l.
Proof. intros Hi Hp. by apply Permutation_insert_swap. Qed.

(** The list after a swap represents the heap after the run. *)
Lemma rep_swap m l p b e q t la m' :
  rep (Heap m t la) l -> l !! child_at p b = Some e -> l !! p = Some q -> swapped m m' l p b e q ->
  rep (Heap m' (match p with O => Some e | S _ => t end) (if bool_decide (la = Some e) then Some q else la))
      (swap l (child_at p b) p e q).
Proof.
  intros [Hn Ht Hla Hl] He Hq Hs. cbn [timer_top timer_last timers] in *.
  pose proof (child_at_gt p b). constructor; cbn [timer_top timer_last timers].
  - by rewrite swap_perm.
  - rewrite (swap_lookup l p b e q He Hq). destruct (decide (0 = child_at p b)%nat); [lia|].
    destruct p; [done|]. done.
  - unfold swap. rewrite !length_insert. fold (swap l (child_at p b) p e q).
    rewrite (swap_lookup l p b e q He Hq), Hla. pose proof (lookup_lt_Some _ _ _ He).
    destruct (decide (length l - 1 = child_at p b)%nat) as [E|E].
    + rewrite E, He, bool_decide_eq_true_2 by done. done.
    + destruct (decide (length l - 1 = p)%nat); [lia|]. rewrite bool_decide_eq_false_2; [done|].
      by apply (ne_idx l _ _ _ Hn He).
  - by apply (swapped_linked m).
Qed.

(** ** The order of the heap *)

Definition tle (a b : timeval) : Prop := cmp_timeval a b <= 0.

Lemma cmp_timeval_spec a b :
  (cmp_timeval a b = -1 /\ (tv_sec a < tv_sec b \/ tv_sec a = tv_sec b /\ tv_usec a < tv_usec b)) \/
  (cmp_timeval a b = 0 /\ tv_sec a = tv_sec b /\ tv_usec a = tv_usec b) \/
  (cmp_timeval a b = 1 /\ (tv_sec b < tv_sec a \/ tv_sec a = tv_sec b /\ tv_usec b < tv_usec a)).
Proof.
  unfold cmp_timeval. repeat match goal with |- context [?x <? ?y] => destruct (Z.ltb_spec x y) end; lia.
Qed.

Ltac cmp_cases :=
  unfold tle in *;
  repeat match goal with
  | H : context [cmp_timeval ?a ?b] |- _ => lazymatch goal with
      | K : cmp_timeval a b = _ |- _ => rewrite K in H
      | _ => destruct (cmp_timeval_spec a b) as [[? ?]|[[? ?]|[? ?]]] end
  | |- context [cmp_timeval ?a ?b] => lazymatch goal with
      | K : cmp_timeval a b = _ |- _ => rewrite K
      | _ => destruct (cmp_timeval_spec a b) as [[? ?]|[[? ?]|[? ?]]] end
  end.

Lemma tle_refl a : tle a a.
Proof. unfold tle. destruct (cmp_timeval_spec a a) as [[? ?]|[[? ?]|[? ?]]]; lia. Qed.

Lemma tle_trans a b c : tle a b -> tle b c -> tle a c.
Proof.
  unfold tle. intros H1 H2.
  destruct (cmp_timeval_spec a b) as [[? ?]|[[? ?]|[? ?]]], (cmp_timeval_spec b c) as [[? ?]|[[? ?]|[? ?]]],
    (cmp_timeval_spec a c) as [[? ?]|[[? ?]|[? ?]]]; lia.
Qed.

Lemma cmp_lt_tle a b : cmp_timeval a b < 0 -> tle a b.
Proof. unfold tle. lia. Qed.

Lemma cmp_ge_tle a b : 0 <= cmp_timeval a b -> tle b a.
Proof.
  unfold tle. intros H1.
  destruct (cmp_timeval_spec a b) as [[? ?]|[[? ?]|[? ?]]], (cmp_timeval_spec b a) as [[? ?]|[[? ?]|[? ?]]]; lia.
Qed.

Definition tm (m : gmap ptr sel_timer) (q : ptr) : timeval := default (TV 0 0) (fv timeout m q).

Definition ordered_at (m : gmap ptr sel_timer) (l : list ptr) (k : nat) : Prop :=
  forall x y, l !! k = Some x -> par l k = Some y -> tle (tm m y) (tm m x).
Definition heap_ordered (m : gmap ptr sel_timer) (l : list ptr) : Prop := forall k, ordered_at m l k.

(** The children of the node at [i] are not before its parent. *)
Definition bridged (m : gmap ptr sel_timer) (l : list ptr) (i : nat) : Prop :=
  forall c x y, l !! child_at i c = Some x -> par l i = Some y -> tle (tm m y) (tm m x).

(** The order holds but for the node at [i] and its parent; but for the node
    at [i] and its children. *)
Definition up_inv m l i : Prop := (forall k, k <> i -> ordered_at m l k) /\ bridged m l i.
Definition down_inv m l i : Prop := (forall k, (forall c, k <> child_at i c) -> ordered_at m l k) /\ bridged m l i.

Section order.
Context (m : gmap ptr sel_timer) (l : list ptr) (p : nat) (b : bool) (e q : ptr).
Context (He : l !! child_at p b = Some e) (Hq : l !! p = Some q).
Let l' := swap l (child_at p b) p e q.

Lemma swap_par0 : par l' p = par l p.
Proof.
  destruct (index_cases p) as [->|(g & c & Eg)]; [done|].
  assert (Hp : par l' (child_at g c) = par l (child_at g c)).
  { unfold l'. rewrite (swap_par l p b e q He Hq), par_child_at.
    pose proof (child_at_gt p b). pose proof (child_at_gt g c).
    destruct (decide (g = child_at p b)); [lia|]. destruct (decide (g = p)); [lia|done]. }
  by rewrite <- Eg in Hp.
Qed.

(** The nodes away from the swap keep their neighbours. *)
Lemma swap_ordered_away g c : g <> p -> g <> child_at p b -> child_at g c <> p ->
  ordered_at m l (child_at g c) -> ordered_at m l' (child_at g c).
Proof.
  intros Hgp Hgi Hk Ho x y Hx Hy. unfold l' in *. rewrite (swap_par l p b e q He Hq) in Hy.
  rewrite (swap_lookup l p b e q He Hq) in Hx.
  destruct (decide (g = child_at p b)); [done|]. destruct (decide (g = p)); [done|].
  destruct (decide (child_at g c = child_at p b)) as [E|]; [by apply child_at_inj in E as [-> _]|].
  destruct (decide (child_at g c = p)); [done|]. apply Ho; [done|]. by rewrite par_child_at.
Qed.

Lemma swap_sibling : l' !! child_at p (negb b) = l !! child_at p (negb b).
Proof.
  unfold l'. rewrite (swap_lookup l p b e q He Hq). pose proof (child_at_gt p (negb b)).
  destruct (decide (child_at p (negb b) = child_at p b)) as [E|]; [apply child_at_inj in E as [_ E]; by destruct b|].
  destruct (decide (child_at p (negb b) = p)); [lia|done].
Qed.

Lemma up_inv_swap : cmp_timeval (tm m e) (tm m q) < 0 -> up_inv m l (child_at p b) -> up_inv m l' p.
Proof.
  intros Hlt%cmp_lt_tle [Ho Hb]. pose proof (child_at_gt p b) as Hgt.
  assert (Hsib : forall s, l !! child_at p (negb b) = Some s -> tle (tm m q) (tm m s)).
  { intros s Hs. apply (Ho (child_at p (negb b))); [|done|by rewrite par_child_at].
    intros E. apply child_at_inj in E as [_ E]. by destruct b. }
  split.
  - intros k Hk. destruct (index_cases k) as [->|(g & c & ->)]; [by intros ?|].
    destruct (decide (g = p)) as [->|Hgp]; [|destruct (decide (g = child_at p b)) as [->|Hgi]].
    + intros x y Hx Hy. rewrite par_child_at in Hy. unfold l' in Hy.
      rewrite (swap_lookup l p b e q He Hq) in Hy. destruct (decide (p = child_at p b)); [lia|].
      destruct (decide (p = p)); [|done]. injection Hy as <-.
      destruct (decide (c = b)) as [->|Hcb].
      * unfold l' in Hx. rewrite (swap_lookup l p b e q He Hq) in Hx.
        destruct (decide (child_at p b = child_at p b)); [|done]. by injection Hx as <-.
      * assert (c = negb b) as -> by (destruct b, c; done). rewrite swap_sibling in Hx.
        eapply tle_trans; [exact Hlt|]. by apply Hsib.
    + intros x y Hx Hy. unfold l' in *. rewrite (swap_par l p b e q He Hq) in Hy.
      rewrite (swap_lookup l p b e q He Hq) in Hx. pose proof (child_at_gt (child_at p b) c).
      destruct (decide (child_at p b = child_at p b)); [|done]. injection Hy as <-.
      destruct (decide (child_at (child_at p b) c = child_at p b)); [lia|].
      destruct (decide (child_at (child_at p b) c = p)); [lia|].
      apply (Hb c); [done|]. by rewrite par_child_at.
    + apply swap_ordered_away; try done. apply Ho. intros E. apply child_at_inj in E as [-> _]. done.
  - intros c x y Hx Hy. rewrite swap_par0 in Hy. unfold l' in Hx.
    assert (Hpq : tle (tm m y) (tm m q)) by (apply (Ho p); [lia | done | done]).
    destruct (decide (c = b)) as [->|Hcb].
    + rewrite (swap_lookup l p b e q He Hq) in Hx.
      destruct (decide (child_at p b = child_at p b)); [|done]. by injection Hx as <-.
    + assert (c = negb b) as -> by (destruct b, c; done). fold l' in Hx. rewrite swap_sibling in Hx.
      eapply tle_trans; [exact Hpq|]. by apply Hsib.
Qed.

Lemma down_inv_swap : 0 < cmp_timeval (tm m q) (tm m e) ->
  (forall s, l !! child_at p (negb b) = Some s -> tle (tm m e) (tm m s)) ->
  down_inv m l p -> down_inv m l' (child_at p b).
Proof.
  intros Hgt Hsib [Ho Hb]. pose proof (child_at_gt p b) as Hlt.
  assert (Heq : tle (tm m e) (tm m q)) by (apply cmp_ge_tle; lia).
  split.
  - intros k Hk. destruct (index_cases k) as [->|(g & c & Ek)]; [by intros ?|].
    destruct (decide (g = child_at p b)) as [->|Hgi]; [by destruct (Hk c)|].
    destruct (decide (g = p)) as [->|Hgp]; [|destruct (decide (k = p)) as [->|Hkp]].
    + subst k. intros x y Hx Hy. rewrite par_child_at in Hy. unfold l' in Hy.
      rewrite (swap_lookup l p b e q He Hq) in Hy. destruct (decide (p = child_at p b)); [lia|].
      destruct (decide (p = p)); [|done]. injection Hy as <-.
      destruct (decide (c = b)) as [->|Hcb].
      * unfold l' in Hx. rewrite (swap_lookup l p b e q He Hq) in Hx.
        destruct (decide (child_at p b = child_at p b)); [|done]. by injection Hx as <-.
      * assert (c = negb b) as -> by (destruct b, c; done). rewrite swap_sibling in Hx. by apply Hsib.
    + intros x y Hx Hy. rewrite swap_par0 in Hy. unfold l' in Hx.
      rewrite (swap_lookup l p b e q He Hq) in Hx. destruct (decide (p = child_at p b)); [lia|].
      destruct (decide (p = p)); [|done]. injection Hx as <-. by apply (Hb b).
    + subst k. apply swap_ordered_away; try done. apply Ho. intros c' E. by apply child_at_inj in E as [-> _].
  - intros c x y Hx Hy. rewrite par_child_at in Hy. unfold l' in *.
    rewrite (swap_lookup l p b e q He Hq) in Hx, Hy. pose proof (child_at_gt (child_at p b) c).
    destruct (decide (p = child_at p b)); [lia|]. destruct (decide (p = p)); [|done]. injection Hy as <-.
    destruct (decide (child_at (child_at p b) c = child_at p b)); [lia|].
    destruct (decide (child_at (child_at p b) c = p)); [lia|].
    apply (Ho (child_at (child_at p b) c)); [|done|by rewrite par_child_at].
    intros c' E. apply child_at_inj in E as [E _]. lia.
Qed.
End order.

(** ** The loops restore the order *)

Lemma tm_same l m m' q : same_timers l m m' -> tm m' q = tm m q.
Proof. intros Hs. unfold tm. by rewrite (same_timeout _ _ _ Hs). Qed.

Lemma ordered_same l m m' k l0 : same_timers l m m' -> ordered_at m l0 k -> ordered_at m' l0 k.
Proof. intros Hs Ho x y Hx Hy. rewrite !(tm_same _ _ _ _ Hs). by apply Ho. Qed.

Lemma bridged_same l m m' k l0 : same_timers l m m' -> bridged m l0 k -> bridged m' l0 k.
Proof. intros Hs Ho c x y Hx Hy. rewrite !(tm_same _ _ _ _ Hs). by apply (Ho c). Qed.

Lemma up_inv_same l m m' k l0 : same_timers l m m' -> up_inv m l0 k -> up_inv m' l0 k.
Proof. intros Hs [Ho Hb]. split; [intros j Hj; eapply ordered_same; eauto | eapply bridged_same; eauto]. Qed.

Lemma down_inv_same l m m' k l0 : same_timers l m m' -> down_inv m l0 k -> down_inv m' l0 k.
Proof. intros Hs [Ho Hb]. split; [intros j Hj; eapply ordered_same; eauto | eapply bridged_same; eauto]. Qed.

Lemma same_perm l l' m m' : l ≡ₚ l' -> same_timers l m m' -> same_timers l' m m'.
Proof. intros Hp [H1 H2 H3 H4 H5]. constructor; [done..|]. intros q Hq. apply H5. by rewrite Hp. Qed.

(** A heap with the same nodes, in order, and nothing else changed. *)
Record settled (h h' : heap) (l l' : list ptr) : Prop := {
  settled_rep : rep h' l';
  settled_perm : l' ≡ₚ l;
  settled_same : same_timers l (timers h) (timers h');
  settled_ordered : heap_ordered (timers h') l'
}.

Lemma settled_trans h1 h2 h3 l1 l2 l3 :
  l2 ≡ₚ l1 -> same_timers l1 (timers h1) (timers h2) -> settled h2 h3 l2 l3 -> settled h1 h3 l1 l3.
Proof.
  intros Hp Hs [H1 H2 H3 H4]. constructor; [done | by rewrite H2 | | done].
  eapply same_trans; [exact Hs|]. by eapply same_perm.
Qed.

Lemma fld_timeout_eval h l k q : rep h l -> l !! k = Some q -> fld timeout q h = Ok (tm (timers h) q, h).
Proof.
  intros Hr Hk. apply fld_eval. destruct (linked_is_Some _ _ _ _ (rep_linked _ _ Hr) Hk) as [t Ht].
  unfold tm, fv. by rewrite Ht.
Qed.

Lemma fld_links h l k q : rep h l -> l !! k = Some q ->
  fld left q h = Ok (l !! child_at k true, h) /\ fld right q h = Ok (l !! child_at k false, h) /\
  fld up q h = Ok (par l k, h).
Proof.
  intros Hr Hk. destruct (linked_at _ _ _ _ (rep_linked _ _ Hr) Hk) as (H1 & H2 & H3).
  split_and!; by apply fld_eval.
Qed.

Lemma up_inv_done m l i : up_inv m l i -> ordered_at m l i -> heap_ordered m l.
Proof. intros [Ho _] Hi k. destruct (decide (k = i)) as [->|]; [done | by apply Ho]. Qed.

Lemma send_up_settles fuel : forall h l i e,
  rep h l -> l !! i = Some e -> (i <= fuel)%nat -> up_inv (timers h) l i ->
  exists h' l', send_up fuel e h = Ok (tt, h') /\ settled h h' l l'.
Proof.
  induction fuel as [|fuel IH]; intros h l i e Hr Hi Hf Hinv;
    destruct (fld_links _ _ _ _ Hr Hi) as (_ & _ & Hup); cbn [send_up];
    rewrite (ST_bind_Ok _ _ _ _ _ Hup).
  - assert (i = 0%nat) as -> by lia. exists h, l. split; [done|]. constructor; [done | done | apply same_refl |].
    apply (up_inv_done _ _ _ Hinv). by intros ?.
  - destruct (index_cases i) as [->|(p & b & ->)].
    { exists h, l. split; [done|]. constructor; [done | done | apply same_refl |].
      apply (up_inv_done _ _ _ Hinv). by intros ?. }
    rewrite par_child_at. pose proof (child_at_gt p b).
    destruct (lookup_lt_is_Some_2 l p) as [q Hq]; [apply lookup_lt_Some in Hi; lia|]. rewrite Hq.
    rewrite (ST_bind_Ok _ _ _ _ _ (fld_timeout_eval _ _ _ _ Hr Hi)).
    rewrite (ST_bind_Ok _ _ _ _ _ (fld_timeout_eval _ _ _ _ Hr Hq)).
    destruct (Z.ltb_spec (cmp_timeval (tm (timers h) e) (tm (timers h) q)) 0) as [Hlt|Hge].
    + destruct h as [m t la]. cbn [timers] in *.
      destruct (swap_up_run m l p b e q t la (rep_linked _ _ Hr) (rep_nodup _ _ Hr) Hi Hq) as (m' & E & Hsw & Hsame).
      rewrite (ST_bind_Ok _ _ _ _ _ E).
      destruct (IH _ _ p e (rep_swap _ _ _ _ _ _ _ _ _ Hr Hi Hq Hsw)) as (h' & l' & E' & Hset).
      * rewrite (swap_lookup l p b e q Hi Hq). destruct (decide (p = child_at p b)); [lia|]. by destruct (decide (p = p)).
      * lia.
      * cbn [timers]. eapply up_inv_same; [exact Hsame|]. by apply up_inv_swap.
      * exists h', l'. split; [exact E'|]. eapply settled_trans; [| |exact Hset]; [by apply swap_perm | exact Hsame].
    + exists h, l. split; [done|]. constructor; [done | done | apply same_refl |].
      apply (up_inv_done _ _ _ Hinv). intros x y Hx Hy. rewrite par_child_at in Hy.
      rewrite Hi in Hx. rewrite Hq in Hy. injection Hx as <-. injection Hy as <-. by apply cmp_ge_tle.
Qed.

Lemma down_inv_done m l i : down_inv m l i -> (forall c, ordered_at m l (child_at i c)) -> heap_ordered m l.
Proof.
  intros [Ho _] Hi k. destruct (index_cases k) as [->|(g & c & ->)]; [by intros ?|].
  destruct (decide (g = i)) as [->|]; [done|]. apply Ho. intros c' E. by apply child_at_inj in E as [-> _].
Qed.

Lemma ordered_child m l p c e q : l !! p = Some q -> l !! child_at p c = Some e -> tle (tm m q) (tm m e) ->
  ordered_at m l (child_at p c).
Proof. intros Hq He Hle x y Hx Hy. rewrite par_child_at in Hy. simplify_eq. done. Qed.

Lemma no_right_child (l : list ptr) p : l !! child_at p true = None -> l !! child_at p false = None.
Proof. rewrite !lookup_ge_None. unfold child_at. lia. Qed.

Lemma send_down_settles fuel : forall h l p q,
  rep h l -> l !! p = Some q -> (length l <= p + fuel)%nat -> down_inv (timers h) l p ->
  exists h' l', send_down fuel q h = Ok (tt, h') /\ settled h h' l l'.
Proof.
  induction fuel as [|fuel IH]; intros h l p q Hr Hp Hf Hinv.
  { apply lookup_lt_Some in Hp. lia. }
  destruct (fld_links _ _ _ _ Hr Hp) as (Hle & Hri & _). cbn [send_down]. rewrite (ST_bind_Ok _ _ _ _ _ Hle).
  destruct (l !! child_at p true) as [x|] eqn:Hx.
  2:{ exists h, l. split; [done|]. constructor; [done | done | apply same_refl |].
      apply (down_inv_done _ _ _ Hinv). intros [] y z Hy Hz; [congruence|].
      by rewrite (no_right_child _ _ Hx) in Hy. }
  rewrite (ST_bind_Ok _ _ _ _ _ Hri), (ST_bind_Ok _ _ _ _ _ (fld_timeout_eval _ _ _ _ Hr Hx)).
  rewrite (ST_bind_Ok _ _ _ _ _ (fld_timeout_eval _ _ _ _ Hr Hp)).
  (* the choice of the child at [child_at p b] *)
  assert (Hchoice : exists b e, l !! child_at p b = Some e /\
    (forall s, l !! child_at p (negb b) = Some s -> tle (tm (timers h) e) (tm (timers h) s)) /\
    (match l !! child_at p false with
     | Some r => tr ← fld timeout r; mret (if 0 <? cmp_timeval (tm (timers h) x) tr then Some (r, tr) else None)
     | None => mret None
     end) h = Ok (if b then None else Some (e, tm (timers h) e), h) /\ (b = true -> e = x)).
  { destruct (l !! child_at p false) as [r|] eqn:Hr'.
    - rewrite (ST_bind_Ok _ _ _ _ _ (fld_timeout_eval _ _ _ _ Hr Hr')).
      destruct (Z.ltb_spec 0 (cmp_timeval (tm (timers h) x) (tm (timers h) r))) as [Hc|Hc].
      + exists false, r. split_and!; [done | | done | done]. cbn [negb]. intros s Hs. rewrite Hx in Hs.
        injection Hs as <-. apply cmp_ge_tle. lia.
      + exists true, x. split_and!; [done | | done | done]. cbn [negb]. intros s Hs. rewrite Hr' in Hs.
        injection Hs as <-. exact Hc.
    - exists true, x. split_and!; [done | | done | done]. cbn [negb]. intros s Hs. congruence. }
  destruct Hchoice as (b & e & He & Hsib & Ech & Hbx). rewrite (ST_bind_Ok _ _ _ _ _ Ech).
  set (go := if b then swap_down_left q e else swap_down_right q e).
  assert (Hgo : (let '(child, tc, go) := match (if b then None else Some (e, tm (timers h) e)) with
      | Some (r, tr) => (r, tr, swap_down_right q r)
      | None => (x, tm (timers h) x, swap_down_left q x) end in
      if 0 <? cmp_timeval (tm (timers h) q) tc then _ ← go; send_down fuel q else mret tt) h =
      (if 0 <? cmp_timeval (tm (timers h) q) (tm (timers h) e) then _ ← go; send_down fuel q else mret tt) h).
  { unfold go. destruct b; [by rewrite Hbx|done]. }
  rewrite Hgo. clear Hgo. subst go.
  destruct (Z.ltb_spec 0 (cmp_timeval (tm (timers h) q) (tm (timers h) e))) as [Hgt|Hle'].
  - destruct h as [m t la]. cbn [timers] in *.
    destruct (swap_down_run m l p b e q t la (rep_linked _ _ Hr) (rep_nodup _ _ Hr) He Hp) as (m' & E & Hsw & Hsame).
    rewrite (ST_bind_Ok _ _ _ _ _ E). pose proof (child_at_gt p b).
    destruct (IH _ _ (child_at p b) q (rep_swap _ _ _ _ _ _ _ _ _ Hr He Hp Hsw)) as (h' & l' & E' & Hset).
    + rewrite (swap_lookup l p b e q He Hp). by destruct (decide (child_at p b = child_at p b)).
    + unfold swap. rewrite !length_insert. lia.
    + cbn [timers]. eapply down_inv_same; [exact Hsame|]. by apply down_inv_swap.
    + exists h', l'. split; [exact E'|]. eapply settled_trans; [| |exact Hset]; [by apply swap_perm | exact Hsame].
  - exists h, l. split; [done|]. constructor; [done | done | apply same_refl |].
    apply (down_inv_done _ _ _ Hinv). intros c. destruct (decide (c = b)) as [->|Hcb].
    + by eapply ordered_child.
    + assert (c = negb b) as -> by (destruct b, c; done). intros s y Hs Hy.
      rewrite par_child_at, Hp in Hy. injection Hy as <-.
      eapply tle_trans; [exact Hle' | by apply Hsib].
Qed.

(** ** Walks in level order *)

Lemma is_child_eval h l i x : rep h l -> l !! i = Some x ->
  is_child left x h = Ok (Nat.odd i, h) /\
  is_child right x h = Ok (negb (Nat.odd i) && negb (Nat.eqb i 0), h).
Proof.
  intros Hr Hi. destruct (fld_links _ _ _ _ Hr Hi) as (_ & _ & Hu). pose proof (rep_nodup _ _ Hr) as Hn.
  unfold is_child. rewrite !(ST_bind_Ok _ _ _ _ _ Hu).
  destruct (index_cases i) as [->|(g & c & ->)]; [done|]. rewrite par_child_at, odd_child_at.
  pose proof (child_at_gt g c). destruct (Nat.eqb_spec (child_at g c) 0); [lia|].
  destruct (lookup_lt_is_Some_2 l g) as [y Hy]; [apply lookup_lt_Some in Hi; lia|]. rewrite Hy.
  destruct (fld_links _ _ _ _ Hr Hy) as (Hle & Hri & _).
  rewrite (ST_bind_Ok _ _ _ _ _ Hle), (ST_bind_Ok _ _ _ _ _ Hri). unfold mret, ST_ret.
  rewrite (left_link _ _ _ _ Hn Hi), andb_true_r. split; [done|]. do 2 f_equal.
  destruct c; cbn [negb].
  - apply bool_decide_eq_false_2, (ne_idx _ _ _ _ Hn Hi). unfold child_at. lia.
  - by apply bool_decide_eq_true_2.
Qed.

Lemma climb_right h l : rep h l -> forall fuel i x u, l !! i = Some x -> (i <= fuel)%nat ->
  exists j k y, climb right fuel x u h = Ok ((y, u + Z.of_nat k), h) /\ l !! j = Some y /\
    (i + 2 = 2 ^ k * (j + 2))%nat /\ (j = 0%nat \/ exists g, j = child_at g true).
Proof.
  intros Hr. induction fuel as [|fuel IH]; intros i x u Hi Hf; cbn [climb];
    destruct (is_child_eval _ _ _ _ Hr Hi) as [_ E]; rewrite (ST_bind_Ok _ _ _ _ _ E).
  - assert (i = 0%nat) as -> by lia. exists 0%nat, 0%nat, x. cbn. rewrite Z.add_0_r. eauto.
  - destruct (index_cases i) as [->|(g & [] & ->)].
    + exists 0%nat, 0%nat, x. cbn. rewrite Z.add_0_r. eauto.
    + rewrite odd_child_at. exists (child_at g true), 0%nat, x. cbn [negb andb]. rewrite Z.add_0_r.
      split_and!; [done | done | cbn [Nat.pow]; lia | eauto].
    + rewrite odd_child_at. pose proof (child_at_gt g false).
      destruct (Nat.eqb_spec (child_at g false) 0); [lia|]. cbn [negb andb].
      destruct (fld_links _ _ _ _ Hr Hi) as (_ & _ & Hu). rewrite (ST_bind_Ok _ _ _ _ _ Hu), par_child_at.
      destruct (lookup_lt_is_Some_2 l g) as [y Hy]; [apply lookup_lt_Some in Hi; lia|]. rewrite Hy.
      change (deref (Some y)) with (mret y : HM ptr). rewrite ST_bind_eq. cbn [mret ST_ret].
      destruct (IH g y (u + 1) Hy ltac:(lia)) as (j & k & z & E1 & Hj & Hk & Hstop).
      exists j, (S k), z. rewrite E1. split_and!; [do 3 f_equal; lia | done | | done].
      unfold child_at. cbn [Nat.pow]. lia.
Qed.

Lemma climb_left h l : rep h l -> forall fuel i x u, l !! i = Some x -> (i <= fuel)%nat ->
  exists j k y, climb left fuel x u h = Ok ((y, u + Z.of_nat k), h) /\ l !! j = Some y /\
    (i + 1 = 2 ^ k * (j + 1))%nat /\ (j = 0%nat \/ exists g, j = child_at g false).
Proof.
  intros Hr. induction fuel as [|fuel IH]; intros i x u Hi Hf; cbn [climb];
    destruct (is_child_eval _ _ _ _ Hr Hi) as [E _]; rewrite (ST_bind_Ok _ _ _ _ _ E).
  - assert (i = 0%nat) as -> by lia. exists 0%nat, 0%nat, x. cbn. rewrite Z.add_0_r. eauto.
  - destruct (index_cases i) as [->|(g & [] & ->)].
    + exists 0%nat, 0%nat, x. cbn. rewrite Z.add_0_r. eauto.
    + rewrite odd_child_at. pose proof (child_at_gt g true).
      destruct (fld_links _ _ _ _ Hr Hi) as (_ & _ & Hu). rewrite (ST_bind_Ok _ _ _ _ _ Hu), par_child_at.
      destruct (lookup_lt_is_Some_2 l g) as [y Hy]; [apply lookup_lt_Some in Hi; lia|]. rewrite Hy.
      change (deref (Some y)) with (mret y : HM ptr). rewrite ST_bind_eq. cbn [mret ST_ret].
      destruct (IH g y (u + 1) Hy ltac:(lia)) as (j & k & z & E1 & Hj & Hk & Hstop).
      exists j, (S k), z. rewrite E1. split_and!; [do 3 f_equal; lia | done | | done].
      unfold child_at. cbn [Nat.pow]. lia.
    + rewrite odd_child_at. exists (child_at g false), 0%nat, x. rewrite Z.add_0_r.
      split_and!; [done | done | cbn [Nat.pow]; lia | eauto].
Qed.

Lemma descend_spec h l (b : bool) : rep h l -> forall k j x,
  l !! j = Some x -> (2 ^ k * (j + if b then 1 else 2) - (if b then 1 else 2) < length l)%nat ->
  exists y, descend (if b then left else right) k (Some x) h = Ok (Some y, h) /\
    l !! (2 ^ k * (j + if b then 1 else 2) - (if b then 1 else 2))%nat = Some y.
Proof.
  intros Hr. induction k as [|k IH]; intros j x Hj Hlt; cbn [descend].
  - exists x. split; [done|]. rewrite <- Hj. f_equal. cbn [Nat.pow]. destruct b; lia.
  - change (deref (Some x)) with (mret x : HM ptr). rewrite ST_bind_eq. cbn [mret ST_ret].
    destruct (fld_links _ _ _ _ Hr Hj) as (Hle & Hri & _).
    assert (Hidx : (2 ^ k * (child_at j b + if b then 1 else 2) = 2 ^ S k * (j + if b then 1 else 2))%nat).
    { unfold child_at. cbn [Nat.pow]. destruct b; lia. }
    assert (Hc : (child_at j b < length l)%nat).
    { assert (1 <= 2 ^ k)%nat by (apply Nat.neq_0_lt_0, Nat.pow_nonzero; lia).
      rewrite <- Hidx in Hlt. destruct b; nia. }
    destruct (lookup_lt_is_Some_2 l (child_at j b) Hc) as [y Hy].
    assert (Hf : fld (if b then left else right) x h = Ok (Some y, h)) by (rewrite <- Hy; destruct b; done).
    rewrite (ST_bind_Ok _ _ _ _ _ Hf).
    destruct (IH _ _ Hy) as (z & E & Hz); [by rewrite Hidx|]. exists z. by rewrite Hidx in Hz.
Qed.

Lemma size_nodes h l : rep h l -> (length l <= size (timers h))%nat.
Proof.
  intros Hr. rewrite <- (size_list_to_set (C := gset ptr)) by apply (rep_nodup _ _ Hr).
  rewrite <- size_dom. apply subseteq_size. intros x Hx%elem_of_list_to_set.
  apply list_elem_of_lookup in Hx as [i Hi]. apply elem_of_dom. by apply (linked_is_Some _ l i), Hi; apply rep_linked.
Qed.

(** [find_next_pos] of the last node gives the parent and the side of the
    first free position. *)
Lemma find_next_pos_spec h l z :
  rep h l -> l !! (length l - 1)%nat = Some z -> Z.of_nat (length l) < 2 ^ 32 ->
  exists p b y, find_next_pos z h = Ok ((y, negb b), h) /\ l !! p = Some y /\ length l = child_at p b.
Proof.
  intros Hr Hz Hsz. unfold find_next_pos. set (i := (length l - 1)%nat) in *.
  pose proof (lookup_lt_Some _ _ _ Hz) as Hi.
  destruct (is_child_eval _ _ _ _ Hr Hz) as [E _]. rewrite (ST_bind_Ok _ _ _ _ _ E).
  destruct (Nat.odd i) eqn:Hodd.
  - destruct (index_cases i) as [->|(g & c & Eg)]; [done|]. rewrite Eg, odd_child_at in Hodd. subst c.
    destruct (fld_links _ _ _ _ Hr Hz) as (_ & _ & Hu). rewrite (ST_bind_Ok _ _ _ _ _ Hu), Eg, par_child_at.
    destruct (lookup_lt_is_Some_2 l g) as [y Hy]; [pose proof (child_at_gt g true); lia|].
    exists g, false, y. rewrite Hy. split; [done|]. split; [done|]. unfold child_at in *. lia.
  - rewrite ST_bind_eq. cbn [walk_fuel].
    pose proof (size_nodes _ _ Hr).
    destruct (climb_right h l Hr (size (timers h)) i z 0 Hz ltac:(lia)) as (j & k & y & E1 & Hj & Hk & Hstop).
    rewrite (ST_bind_Ok _ _ _ _ _ E1). destruct (fld_links _ _ _ _ Hr Hj) as (_ & _ & Hu).
    rewrite (ST_bind_Ok _ _ _ _ _ Hu). pose proof (lookup_lt_Some _ _ _ Hj) as Hjl.
    assert (Hpow : (1 <= 2 ^ k)%nat) by (apply Nat.neq_0_lt_0, Nat.pow_nonzero; lia).
    destruct Hstop as [->|[g ->]].
    + rewrite ST_bind_eq. cbn [par mret ST_ret]. rewrite Z.add_0_l, Nat2Z.id.
      destruct (descend_spec h l true Hr k 0 y Hj) as (w & E2 & Hw); [nia|].
      rewrite (ST_bind_Ok _ _ _ _ _ E2). exists (2 ^ k * (0 + 1) - 1)%nat, true, w.
      split; [done|]. split; [done|]. unfold child_at. lia.
    + rewrite par_child_at. destruct (lookup_lt_is_Some_2 l g) as [w Hw]; [pose proof (child_at_gt g true); lia|].
      rewrite Hw. destruct (fld_links _ _ _ _ Hr Hw) as (_ & Hri & _).
      destruct k as [|k].
      { exfalso. assert (i = child_at g true) as Ei by (cbn [Nat.pow] in Hk; lia). by rewrite Ei, odd_child_at in Hodd. }
      assert (Hnext : (child_at g false < length l)%nat).
      { assert (1 <= 2 ^ k)%nat by (apply Nat.neq_0_lt_0, Nat.pow_nonzero; lia).
        cbn [Nat.pow] in Hk. unfold child_at in *. nia. }
      destruct (lookup_lt_is_Some_2 l _ Hnext) as [v Hv]. rewrite ST_bind_eq, (ST_bind_Ok _ _ _ _ _ Hri), Hv.
      cbn [mret ST_ret]. assert (Hdec : Z.to_nat (dec_uint (0 + Z.of_nat (S k))) = k).
      { assert (k < 2 ^ k)%nat by (apply Nat.pow_gt_lin_r; lia).
        unfold dec_uint. rewrite Z.mod_small; [lia|]. cbn [Nat.pow] in Hk. nia. }
      rewrite Hdec. destruct (descend_spec h l true Hr k _ v Hv) as (x & E2 & Hx).
      { cbn [Nat.pow] in Hk. unfold child_at in *. nia. }
      rewrite (ST_bind_Ok _ _ _ _ _ E2). exists (2 ^ k * (child_at g false + 1) - 1)%nat, true, x.
      split; [done|]. split; [done|]. cbn [Nat.pow] in Hk. unfold child_at in *. nia.
Qed.

(** [find_prev_elem] of the last of several nodes gives the node before it. *)
Lemma find_prev_elem_spec h l z :
  rep h l -> l !! (length l - 1)%nat = Some z -> (2 <= length l)%nat -> Z.of_nat (length l) < 2 ^ 32 ->
  find_prev_elem z h = Ok (l !! (length l - 2)%nat, h).
Proof.
  intros Hr Hz Hlen Hsz. unfold find_prev_elem. set (i := (length l - 1)%nat) in *.
  replace (length l - 2)%nat with (i - 1)%nat by (unfold i; lia).
  pose proof (lookup_lt_Some _ _ _ Hz) as Hi.
  destruct (is_child_eval _ _ _ _ Hr Hz) as [_ E]. rewrite (ST_bind_Ok _ _ _ _ _ E).
  destruct (Nat.eqb_spec i 0) as [|_]; [unfold i in *; lia|]. rewrite andb_true_r.
  destruct (index_cases i) as [E0|(g0 & c0 & Eg)]; [unfold i in *; lia|].
  destruct (Nat.odd i) eqn:Hodd; cbn [negb].
  - rewrite ST_bind_eq. cbn [walk_fuel].
    pose proof (size_nodes _ _ Hr).
    destruct (climb_left h l Hr (size (timers h)) i z 0 Hz ltac:(lia)) as (j & k & y & E1 & Hj & Hk & Hstop).
    rewrite (ST_bind_Ok _ _ _ _ _ E1). destruct (fld_links _ _ _ _ Hr Hj) as (_ & _ & Hu).
    rewrite (ST_bind_Ok _ _ _ _ _ Hu). pose proof (lookup_lt_Some _ _ _ Hj) as Hjl.
    assert (Hpow : (1 <= 2 ^ k)%nat) by (apply Nat.neq_0_lt_0, Nat.pow_nonzero; lia).
    destruct Hstop as [->|[g ->]].
    + rewrite ST_bind_eq. cbn [par mret ST_ret]. destruct k as [|k]; [cbn [Nat.pow] in Hk; lia|].
      assert (Hdec : Z.to_nat (dec_uint (0 + Z.of_nat (S k))) = k).
      { assert (k < 2 ^ k)%nat by (apply Nat.pow_gt_lin_r; lia).
        unfold dec_uint. rewrite Z.mod_small; [lia|]. cbn [Nat.pow] in Hk. nia. }
      rewrite Hdec. destruct (descend_spec h l false Hr k 0 y Hj) as (w & E2 & Hw); [cbn [Nat.pow] in Hk; nia|].
      etransitivity; [exact E2|]. rewrite <- Hw. do 3 f_equal. cbn [Nat.pow] in Hk. nia.
    + rewrite par_child_at. destruct (lookup_lt_is_Some_2 l g) as [w Hw]; [pose proof (child_at_gt g false); lia|].
      rewrite Hw. destruct (fld_links _ _ _ _ Hr Hw) as (Hle & _ & _).
      assert (Hprev : (child_at g true < length l)%nat) by (unfold child_at in *; lia).
      destruct (lookup_lt_is_Some_2 l _ Hprev) as [v Hv]. rewrite ST_bind_eq, (ST_bind_Ok _ _ _ _ _ Hle), Hv.
      cbn [mret ST_ret]. rewrite Z.add_0_l, Nat2Z.id.
      assert (Hidx : (2 ^ k * (child_at g true + 2) - 2 = i - 1)%nat) by (unfold child_at in *; nia).
      destruct (descend_spec h l false Hr k _ v Hv) as (x & E2 & Hx); [rewrite Hidx; lia|].
      etransitivity; [exact E2|]. by rewrite Hidx in Hx; rewrite Hx.
  - destruct (fld_links _ _ _ _ Hr Hz) as (_ & _ & Hu). rewrite (ST_bind_Ok _ _ _ _ _ Hu), Eg, par_child_at.
    rewrite Eg, odd_child_at in Hodd. subst c0.
    destruct (lookup_lt_is_Some_2 l g0) as [y Hy]; [pose proof (child_at_gt g0 false); lia|].
    rewrite Hy. destruct (fld_links _ _ _ _ Hr Hy) as (Hle & _ & _).
    etransitivity; [exact Hle|]. do 3 f_equal. unfold child_at in *. lia.
Qed.

(** ** The two ends of the list *)

(** A list grown by a node linked to its parent. *)
Lemma linked_snoc m l p b y z m' :
  linked m l -> NoDup l -> z ∉ l -> l !! p = Some y -> length l = child_at p b ->
  (forall k x, l !! k = Some x -> k <> p -> m' !! x = m !! x) ->
  fv left m' y = (if b then Some (Some z) else fv left m y) ->
  fv right m' y = (if b then fv right m y else Some (Some z)) ->
  fv up m' y = fv up m y ->
  fv left m' z = Some None -> fv right m' z = Some None -> fv up m' z = Some (Some y) ->
  linked m' (l ++ [z]).
Proof.
  intros Hl Hn Hz Hy Hlen Hoth Hyl Hyr Hyu Hzl Hzr Hzu k x Hk.
  pose proof (child_at_gt p b) as Hgt.
  assert (Happ : forall j, j <> length l -> (l ++ [z]) !! j = l !! j).
  { intros j Hj. destruct (decide (j < length l)%nat); [by rewrite lookup_app_l|].
    rewrite !(proj2 (lookup_ge_None _ _)); [done | lia | rewrite length_app; simpl; lia]. }
  assert (Hpar : forall j, (j < length l)%nat -> par (l ++ [z]) j = par l j).
  { intros j Hj. destruct (index_cases j) as [->|(g & c & ->)]; [done|]. rewrite !par_child_at.
    pose proof (child_at_gt g c). apply Happ. lia. }
  destruct (decide (k = length l)) as [->|Hne].
  - rewrite lookup_app_r, Nat.sub_diag in Hk by lia. injection Hk as <-. rewrite Hzl, Hzr, Hzu.
    rewrite !Happ by lia. rewrite !(proj2 (lookup_ge_None _ _)) by lia. split_and!; [done | done |].
    rewrite Hlen, par_child_at, Happ by lia. by rewrite Hy.
  - rewrite Happ in Hk by done. pose proof (lookup_lt_Some _ _ _ Hk). rewrite Hpar by done.
    destruct (Hl k x Hk) as (E1 & E2 & E3).
    destruct (decide (k = p)) as [->|Hkp].
    + assert (x = y) as -> by congruence. rewrite Hyl, Hyr, Hyu, E1, E2, E3. destruct b; unfold child_at in Hlen.
      * rewrite <- Hlen, lookup_app_r, Nat.sub_diag by lia. split_and!; [done | | done].
        rewrite Happ by lia. done.
      * split_and!; [rewrite Happ by lia; done | | done].
        rewrite <- Hlen, lookup_app_r, Nat.sub_diag by lia. done.
    + unfold fv in *. rewrite (Hoth k x Hk Hkp), E1, E2, E3.
      split_and!; [| | done]; rewrite Happ; try done; intros E; rewrite Hlen in E; unfold child_at in E; destruct b; lia.
Qed.

(** A list that lost its last node, unlinked from its parent. *)
Lemma linked_unsnoc m l z p b y m' :
  linked m (l ++ [z]) -> NoDup (l ++ [z]) -> l !! p = Some y -> length l = child_at p b ->
  (forall k x, l !! k = Some x -> k <> p -> m' !! x = m !! x) ->
  fv left m' y = (if b then Some None else fv left m y) ->
  fv right m' y = (if b then fv right m y else Some None) ->
  fv up m' y = fv up m y ->
  linked m' l.
Proof.
  intros Hl Hn Hy Hlen Hoth Hyl Hyr Hyu k x Hk. pose proof (lookup_lt_Some _ _ _ Hk).
  assert (Happ : forall j, j <> length l -> (l ++ [z]) !! j = l !! j).
  { intros j Hj. destruct (decide (j < length l)%nat); [by rewrite lookup_app_l|].
    rewrite !(proj2 (lookup_ge_None _ _)); [done | lia | rewrite length_app; simpl; lia]. }
  assert (Hpar : forall j, (j < length l)%nat -> par (l ++ [z]) j = par l j).
  { intros j Hj. destruct (index_cases j) as [->|(g & c & ->)]; [done|]. rewrite !par_child_at.
    pose proof (child_at_gt g c). apply Happ. lia. }
  destruct (Hl k x ltac:(by rewrite Happ by lia)) as (E1 & E2 & E3). rewrite Hpar in E3 by done.
  destruct (decide (k = p)) as [->|Hkp].
  - assert (x = y) as -> by congruence. rewrite Hyl, Hyr, Hyu, E1, E2, E3. unfold child_at in Hlen. destruct b.
    + split_and!; [| rewrite Happ by lia; done | done]. f_equal. symmetry. apply lookup_ge_None. lia.
    + split_and!; [rewrite Happ by lia; done | | done]. f_equal. symmetry. apply lookup_ge_None. lia.
  - unfold fv in *. rewrite (Hoth k x Hk Hkp), E1, E2, E3.
    split_and!; [| | done]; rewrite Happ; try done; intros E; rewrite Hlen in E; unfold child_at in E; destruct b; lia.
Qed.

(** What an operation may do to timers: those of [l] and [z] keep all but
    their links, the others keep everything. *)
Definition others_same (l : list ptr) (h h' : heap) : Prop := same_timers l (timers h) (timers h').

Lemma not_in_ne (l : list ptr) k x z : z ∉ l -> l !! k = Some x -> z <> x.
Proof. intros Hz Hk ->. by apply Hz, (list_elem_of_lookup_2 _ k). Qed.

Lemma same_weaken (l l' : list ptr) m m' : l ⊆ l' -> same_timers l m m' -> same_timers l' m m'.
Proof. intros Hs [H1 H2 H3 H4 H5]. constructor; [done..|]. intros q Hq. apply H5. by intros ?%Hs. Qed.

Lemma linked_frame m m' l : linked m l -> (forall k x, l !! k = Some x -> m' !! x = m !! x) -> linked m' l.
Proof. intros Hl Hm k x Hk. unfold fv. rewrite (Hm k x Hk). by apply Hl. Qed.

Lemma ordered_snoc m l z : heap_ordered m l -> up_inv m (l ++ [z]) (length l).
Proof.
  intros Ho.
  assert (Happ : forall j, j <> length l -> (l ++ [z]) !! j = l !! j).
  { intros j Hj. destruct (decide (j < length l)%nat); [by rewrite lookup_app_l|].
    rewrite !(proj2 (lookup_ge_None _ _)); [done | lia | rewrite length_app; simpl; lia]. }
  split.
  - intros k Hk x y Hx Hy. rewrite Happ in Hx by done. pose proof (lookup_lt_Some _ _ _ Hx).
    apply (Ho k); [done|]. destruct (index_cases k) as [->|(g & c & ->)]; [done|].
    rewrite !par_child_at in *. pose proof (child_at_gt g c). by rewrite Happ in Hy by lia.
  - intros c x y Hx. pose proof (child_at_gt (length l) c). apply lookup_lt_Some in Hx.
    rewrite length_app in Hx. simpl in Hx. lia.
Qed.

(** ** The operations on the list *)

(** A heap of [l], in order. *)
Definition is_heap (h : heap) (l : list ptr) : Prop := rep h l /\ heap_ordered (timers h) l.

Lemma add_last h l p b y z :
  rep h l -> z ∉ l -> is_Some (timers h !! z) -> l !! p = Some y -> length l = child_at p b ->
  fv left (timers h) z = Some None -> fv right (timers h) z = Some None ->
  exists h', (_ ← set_fld y (if negb b then with_right (Some z) else with_left (Some z));
              _ ← set_fld z (with_up (Some y)); set_last (Some z)) h = Ok (tt, h') /\
    rep h' (l ++ [z]) /\ same_timers (l ++ [z]) (timers h) (timers h').
Proof.
  intros Hr Hz Iz Hy Hlen Hzl Hzr. destruct h as [m t la]. pose proof (rep_linked _ _ Hr) as Hl.
  pose proof (rep_nodup _ _ Hr) as Hn. cbn [timers] in *. pose proof (linked_is_Some _ _ _ _ Hl Hy) as Iy.
  assert (Hyz : y <> z) by (intros ->; by apply Hz, (list_elem_of_lookup_2 _ p)).
  rewrite (ST_bind_Ok _ _ _ _ _ (set_eval y _ m t la Iy)).
  rewrite (ST_bind_Ok _ _ _ _ _ (set_eval z _ _ t la (proj2 (alter_opt_is_Some _ (Some y) m z) Iz))).
  eexists. split; [done|]. cbn [timers].
  assert (Hzw : forall w o, is_Some (alter_opt w o m !! z)) by (intros; by rewrite alter_opt_is_Some).
  assert (Hin : forall k x, l !! k = Some x -> Some z <> Some x) by (intros k x Hk [= ->]; by apply Hz, (list_elem_of_lookup_2 _ k)).
  assert (Hne : Some z <> Some y) by congruence. assert (Hne' : Some y <> Some z) by congruence.
  split.
  - constructor; cbn [timers timer_top timer_last].
    + rewrite (comm (++) l [z]). simpl. by constructor.
    + rewrite lookup_app_l by (rewrite Hlen; pose proof (child_at_gt p b); lia). apply (rep_top _ _ Hr).
    + rewrite length_app, lookup_app_r by (simpl; lia). simpl. by replace (length l + 1 - 1 - length l)%nat with 0%nat by lia.
    + apply (linked_snoc m l p b y z); try done.
      * intros k x Hk Hkp. rewrite !lookup_ne; [done | | by apply (Hin k)].
        intros [= ->]. apply Hkp. by apply (NoDup_lookup l k p x).
      * rewrite fv_ne by done. destruct b; [by apply fv_eq|]. by apply fv_other.
      * rewrite fv_ne by done. destruct b; [by apply fv_other|]. by apply fv_eq.
      * rewrite fv_ne by done. apply fv_other. by destruct b.
      * rewrite fv_other by done. by rewrite fv_ne by done.
      * rewrite fv_other by done. by rewrite fv_ne by done.
      * by apply fv_eq.
  - apply same_alter; [by intros [] | intros ? [= <-]; set_solver |].
    apply same_alter; [by destruct b; intros [] | | apply same_refl].
    intros ? [= <-]. apply elem_of_app. left. by eapply list_elem_of_lookup_2.
Qed.

(** [add_to_heap] puts a timer that is in no heap into the heap. *)
Lemma add_to_heap_spec h l z :
  is_heap h l -> z ∉ l -> is_Some (timers h !! z) -> Z.of_nat (length l) < 2 ^ 32 ->
  exists h' l', add_to_heap z h = Ok (tt, h') /\ is_heap h' l' /\ l' ≡ₚ z :: l /\ others_same (z :: l) h h'.
Proof.
  intros [Hr Ho] Hz Iz Hsz. destruct h as [m t la]. cbn [timers] in *. unfold add_to_heap.
  assert (Iz' : forall w m0, is_Some (m0 !! z) -> is_Some (alter_opt w (Some z) m0 !! z)) by (intros; by rewrite alter_opt_is_Some).
  rewrite (ST_bind_Ok _ _ _ _ _ (set_eval z _ m t la Iz)).
  rewrite (ST_bind_Ok _ _ _ _ _ (set_eval z _ _ t la (Iz' _ _ Iz))).
  rewrite (ST_bind_Ok _ _ _ _ _ (set_eval z _ _ t la (Iz' _ _ (Iz' _ _ Iz)))).
  set (m1 := alter_opt _ _ _). rewrite ST_bind_eq. cbn [get_top timer_top].
  assert (Iz1 : is_Some (m1 !! z)) by (unfold m1; by rewrite !alter_opt_is_Some).
  assert (Hm1 : forall k x, l !! k = Some x -> m1 !! x = m !! x).
  { intros k x Hk. unfold m1. pose proof (not_in_ne l k x z Hz Hk). by rewrite !lookup_ne by congruence. }
  assert (Hs1 : same_timers (z :: l) m m1).
  { unfold m1. repeat (apply same_alter; [by intros [] | intros ? [= <-]; set_solver |]). apply same_refl. }
  assert (Hr1 : rep (Heap m1 t la) l).
  { destruct Hr as [Hn Ht Hla Hl]. constructor; try done. by apply (linked_frame m). }
  assert (Ho1 : heap_ordered m1 l) by (intros k; by eapply ordered_same, Ho).
  destruct t as [t|].
  - pose proof (rep_top _ _ Hr) as Ht. cbn [timer_top] in Ht.
    destruct (lookup_lt_is_Some_2 l (length l - 1)) as [last_ Hlast]; [apply eq_sym, lookup_lt_Some in Ht; lia|].
    pose proof (rep_last _ _ Hr) as Hla. cbn [timer_last] in Hla. rewrite Hlast in Hla. subst la.
    rewrite ST_bind_eq. cbn [get_last timer_last]. rewrite ST_bind_eq. cbn [deref mret ST_ret].
    destruct (find_next_pos_spec _ _ _ Hr1 Hlast Hsz) as (p & b & y & E & Hy & Hlen).
    rewrite (ST_bind_Ok _ _ _ _ _ E).
    destruct (add_last (Heap m1 (Some t) (Some last_)) l p b y z Hr1 Hz Iz1 Hy Hlen) as (h2 & E2 & Hr2 & Hs2).
    { unfold m1. cbn [timers]. rewrite !(fv_other left) by done. by apply fv_eq. }
    { unfold m1. cbn [timers]. rewrite (fv_other right) by done. apply fv_eq; [done | done |].
      by rewrite !alter_opt_is_Some. }
    assert (E3 : forall (k : HM unit), (_ ← set_fld y (if negb b then with_right (Some z) else with_left (Some z));
              _ ← set_fld z (with_up (Some y)); _ ← set_last (Some z); k) (Heap m1 (Some t) (Some last_)) = k h2).
    { intros k. rewrite ST_bind_eq in E2 |- *. destruct (set_fld y _ _) as [[[] h3]|]; [|done].
      rewrite ST_bind_eq in E2 |- *. destruct (set_fld z _ _) as [[[] h4]|]; [|done].
      rewrite (ST_bind_Ok _ _ _ _ _ E2). done. }
    rewrite E3. clear E E2 E3. cbn [timers] in Hs2.
    assert (Hnew : (l ++ [z]) !! length l = Some z) by (by rewrite lookup_app_r, Nat.sub_diag by lia).
    assert (Hyn : (l ++ [z]) !! p = Some y) by (by apply lookup_app_l_Some).
    rewrite (ST_bind_Ok _ _ _ _ _ (fld_timeout_eval _ _ _ _ Hr2 Hnew)).
    rewrite (ST_bind_Ok _ _ _ _ _ (fld_timeout_eval _ _ _ _ Hr2 Hyn)).
    assert (Hup : up_inv (timers h2) (l ++ [z]) (length l)) by (eapply up_inv_same, ordered_snoc; eauto).
    destruct (Z.ltb_spec (cmp_timeval (tm (timers h2) z) (tm (timers h2) y)) 0) as [Hlt|Hge].
    + rewrite ST_bind_eq. cbn [walk_fuel].
      pose proof (size_nodes _ _ Hr2) as Hsize. rewrite length_app in Hsize. simpl in Hsize.
      destruct (send_up_settles (size (timers h2)) h2 (l ++ [z]) (length l) z Hr2 Hnew ltac:(lia) Hup) as (h' & l' & E & Hset).
      exists h', l'. split; [exact E|]. destruct Hset as [Hr' Hp' Hs' Ho']. split; [done|].
      split; [by rewrite Hp', (comm (++))|].
      assert (Hperm : l ++ [z] ≡ₚ z :: l) by (by rewrite (comm (++))).
      eapply same_trans; [exact Hs1|]. eapply same_trans; eapply same_perm; eauto.
    + exists h2, (l ++ [z]). split; [done|].
      assert (Hperm : l ++ [z] ≡ₚ z :: l) by (by rewrite (comm (++))).
      split; [|split; [done|]].
      * split; [done|]. apply (up_inv_done _ _ _ Hup). intros x w Hx Hw. rewrite Hlen, par_child_at in Hw.
        rewrite Hnew in Hx. rewrite Hyn in Hw. injection Hx as <-. injection Hw as <-. by apply cmp_ge_tle.
      * eapply same_trans; [exact Hs1|]. by eapply same_perm.
  - pose proof (rep_top _ _ Hr) as Ht. cbn [timer_top] in Ht.
    assert (l = []) as -> by (destruct l; done).
    eexists _, [z]. split; [done|]. split; [|split; [done|exact Hs1]]. split.
    + constructor; cbn [timers timer_top timer_last]; [repeat constructor; set_solver | done | done |].
      intros [|k] x Hx; [|done]. injection Hx as <-. unfold m1. split_and!.
      * rewrite !(fv_other left) by done. by apply fv_eq.
      * rewrite (fv_other right) by done. apply fv_eq; [done | done |]. by rewrite !alter_opt_is_Some.
      * apply fv_eq; [done | done |]. by rewrite !alter_opt_is_Some.
    + intros [|k] x y Hx Hy; [done|]. done.
Qed.

(** A node takes the place of another. *)
Lemma linked_replace m m' l j x z :
  linked m l -> NoDup l -> l !! j = Some x -> z ∉ l ->
  fv left m' z = Some (l !! child_at j true) -> fv right m' z = Some (l !! child_at j false) ->
  fv up m' z = Some (par l j) ->
  (forall c w, l !! child_at j c = Some w ->
     fv left m' w = fv left m w /\ fv right m' w = fv right m w /\ fv up m' w = Some (Some z)) ->
  (forall g c w, j = child_at g c -> l !! g = Some w ->
     fv left m' w = (if c then Some (Some z) else fv left m w) /\
     fv right m' w = (if c then fv right m w else Some (Some z)) /\ fv up m' w = fv up m w) ->
  (forall k w, l !! k = Some w -> k <> j -> k <> child_at j true -> k <> child_at j false ->
     (forall c, j <> child_at k c) -> m' !! w = m !! w) ->
  linked m' (<[j := z]> l).
Proof.
  intros Hl Hn Hj Hz Zl Zr Zu Hch Hgp Hrest k w Hk. pose proof (lookup_lt_Some _ _ _ Hj) as Hlt.
  assert (Hlk : forall i, <[j := z]> l !! i = if decide (i = j) then Some z else l !! i).
  { intros i. destruct (decide (i = j)) as [->|]; [by apply list_lookup_insert_eq | by rewrite list_lookup_insert_ne]. }
  assert (Hpar : forall g c, par (<[j := z]> l) (child_at g c) = if decide (g = j) then Some z else l !! g)
    by (intros; rewrite par_child_at; apply Hlk).
  rewrite !Hlk in *. clear Hlk. destruct (decide (k = j)) as [->|Hkj].
  { injection Hk as <-. rewrite Zl, Zr, Zu. destruct (decide (2 * j + 1 = j)%nat); [lia|].
    destruct (decide (2 * j + 2 = j)%nat); [lia|]. split_and!; [done | done |]. f_equal.
    destruct (index_cases j) as [->|(g & c & Eg)]; [done|]. pose proof (child_at_gt g c).
    assert (Hpj : par (<[j := z]> l) (child_at g c) = par l (child_at g c)).
    { rewrite Hpar, par_child_at. destruct (decide (g = j)); [lia|done]. }
    by rewrite <- Eg in Hpj. }
  destruct (Hl k w Hk) as (E1 & E2 & E3).
  assert (Hp0 : (forall c, k <> child_at j c) -> par (<[j := z]> l) k = par l k).
  { intros Hc. destruct (index_cases k) as [->|(g & c & ->)]; [done|]. rewrite Hpar, par_child_at.
    destruct (decide (g = j)) as [->|]; [by destruct (Hc c)|done]. }
  assert (Hside : forall c, j <> child_at k c -> (2 * k + (if c then 1 else 2) = j)%nat -> False)
    by (intros c Hc E; by apply Hc).
  destruct (decide (k = child_at j true)) as [->|H1]; [|destruct (decide (k = child_at j false)) as [->|H2]].
  - destruct (Hch true w Hk) as (S1 & S2 & S3). rewrite S1, S2, S3, E1, E2, Hpar. destruct (decide (j = j)); [|done].
    repeat (destruct (decide _); [unfold child_at in *; lia|]). done.
  - destruct (Hch false w Hk) as (S1 & S2 & S3). rewrite S1, S2, S3, E1, E2, Hpar. destruct (decide (j = j)); [|done].
    repeat (destruct (decide _); [unfold child_at in *; lia|]). done.
  - rewrite Hp0 by (intros []; done).
    destruct (decide (j = child_at k true)) as [Eg|Hg1]; [|destruct (decide (j = child_at k false)) as [Eg|Hg2]].
    + destruct (Hgp k true w Eg Hk) as (S1 & S2 & S3). rewrite S1, S2, S3, E2, E3. unfold child_at in Eg.
      destruct (decide (2 * k + 1 = j)%nat); [|lia]. destruct (decide (2 * k + 2 = j)%nat); [lia|done].
    + destruct (Hgp k false w Eg Hk) as (S1 & S2 & S3). rewrite S1, S2, S3, E1, E3. unfold child_at in Eg.
      destruct (decide (2 * k + 1 = j)%nat); [lia|]. destruct (decide (2 * k + 2 = j)%nat); [done|lia].
    + destruct (decide (2 * k + 1 = j)%nat) as [E|_]; [by destruct (Hside true Hg1 E)|].
      destruct (decide (2 * k + 2 = j)%nat) as [E|_]; [by destruct (Hside false Hg2 E)|].
      unfold fv in *. by rewrite (Hrest k w Hk Hkj H1 H2) by (intros []; done).
Qed.

Ltac replaced_by Hrep l Hodd :=
  eapply Hrep; try eassumption;
  [ field | field | field
  | intros c w Hw; destruct c; split_and!; field
  | intros g c w Eg Hw;
    let Hpx := fresh in assert (Hpx := par_child_at l g c); rewrite <- Eg, Hw in Hpx;
    rewrite Eg, odd_child_at in Hodd; subst c; split_and!; field
  | intros; field ].

Lemma replace_run m l j x z t la :
  linked m l -> NoDup l -> l !! j = Some x -> z ∉ l -> is_Some (m !! z) ->
  exists m', replace_elem x z (Heap m t la) =
    Ok (tt, Heap m' (match j with O => Some z | S _ => t end) (if bool_decide (la = Some x) then Some z else la)) /\
    linked m' (<[j := z]> l) /\ same_timers (z :: l) m m'.
Proof.
  intros Hl Hn Hj Hz Iz.
  destruct (linked_at _ _ _ _ Hl Hj) as (El & Er & Eu).
  assert (Hin : forall k x, l !! k = Some x -> is_Some (m !! x)) by (intros k y; by apply linked_is_Some).
  unfold replace_elem. hrelink l j x (Some z) Hl Hn Hj; do 10 hstep;
    (lazymatch goal with |- exists m', _ (Heap ?m _ _) = _ /\ _ => exists m end);
    (split; [rewrite ST_bind_eq; cbn [get_last timer_last]; case_bool_decide; reflexivity|]);
    (split; [replaced_by (linked_replace m) l Hodd|]).
  all: repeat (apply same_alter; [by intros [] | intros w Hw | ]); try apply same_refl.
  all: first [ injection Hw as <-; by left | right; by eapply par_elem | right; by eapply list_elem_of_lookup_2 ].
Qed.

Lemma insert_par l j z g c : (j < length l)%nat ->
  par (<[j := z]> l) (child_at g c) = if decide (g = j) then Some z else l !! g.
Proof.
  intros Hj. rewrite par_child_at. destruct (decide (g = j)) as [->|]; [by apply list_lookup_insert_eq | by rewrite list_lookup_insert_ne].
Qed.

(** What is left of the order when [z] takes the place of the node at [j]. *)
Lemma replaced_order m l j z : heap_ordered m l -> (j < length l)%nat ->
  (forall k, k <> j -> (forall c, k <> child_at j c) -> ordered_at m (<[j := z]> l) k) /\ bridged m (<[j := z]> l) j.
Proof.
  intros Ho Hj. split.
  - intros k Hk Hc x y Hx Hy. rewrite list_lookup_insert_ne in Hx by done.
    apply (Ho k); [done|]. destruct (index_cases k) as [->|(g & c & ->)]; [done|].
    rewrite insert_par in Hy by done. destruct (decide (g = j)) as [->|]; [by destruct (Hc c)|]. by rewrite par_child_at.
  - intros c x y Hx Hy. pose proof (child_at_gt j c) as Hgt. rewrite list_lookup_insert_ne in Hx by lia.
    destruct (lookup_lt_is_Some_2 l j Hj) as [w Hw].
    assert (H1 : tle (tm m w) (tm m x)) by (apply (Ho (child_at j c)); [done | by rewrite par_child_at]).
    destruct (index_cases j) as [->|(g & c' & E)]; [done|].
    assert (Hy' : par l j = Some y).
    { rewrite E in Hy |- *. rewrite insert_par in Hy by (by rewrite <- E).
      pose proof (child_at_gt g c'). destruct (decide (g = child_at g c')); [lia|]. by rewrite par_child_at. }
    eapply tle_trans; [|exact H1]. by apply (Ho j).
Qed.

Lemma settle_spec h l j z :
  rep h l -> l !! j = Some z ->
  (forall k, k <> j -> (forall c, k <> child_at j c) -> ordered_at (timers h) l k) -> bridged (timers h) l j ->
  exists h' l', settle z h = Ok (tt, h') /\ settled h h' l l'.
Proof.
  intros Hr Hj Ho Hb. unfold settle. rewrite ST_bind_eq. cbn [walk_fuel].
  destruct (fld_links _ _ _ _ Hr Hj) as (_ & _ & Hu). rewrite (ST_bind_Ok _ _ _ _ _ Hu).
  pose proof (size_nodes _ _ Hr) as Hsize. pose proof (lookup_lt_Some _ _ _ Hj) as Hlt.
  assert (Hdown : ordered_at (timers h) l j -> exists h' l', send_down (size (timers h)) z h = Ok (tt, h') /\ settled h h' l l').
  { intros Hoj. apply (send_down_settles _ h l j z); [done | done | lia |]. split; [|done].
    intros k Hk. destruct (decide (k = j)) as [->|Hkj]; [done | by apply Ho]. }
  destruct (index_cases j) as [->|(g & c & E)].
  { rewrite ST_bind_eq. cbn [par mret ST_ret]. apply Hdown. by intros ?. }
  assert (Hp : par l j = l !! g) by (rewrite E; apply par_child_at). rewrite Hp. pose proof (child_at_gt g c).
  destruct (lookup_lt_is_Some_2 l g) as [y Hy]; [lia|]. rewrite Hy in Hp |- *.
  rewrite ST_bind_assoc, (ST_bind_Ok _ _ _ _ _ (fld_timeout_eval _ _ _ _ Hr Hj)).
  rewrite ST_bind_assoc, (ST_bind_Ok _ _ _ _ _ (fld_timeout_eval _ _ _ _ Hr Hy)).
  rewrite ST_bind_eq. cbn [mret ST_ret].
  destruct (Z.ltb_spec (cmp_timeval (tm (timers h) z) (tm (timers h) y)) 0) as [Hc|Hc].
  - apply (send_up_settles _ h l j z); [done | done | lia |]. split; [|done].
    intros k Hk. destruct (decide (exists c, k = child_at j c)) as [[c0 ->]|Hn].
    + intros x w Hx Hw. rewrite par_child_at, Hj in Hw. injection Hw as <-.
      eapply tle_trans; [apply cmp_lt_tle, Hc|]. by apply (Hb c0).
    + apply Ho; [done|]. intros c0 ->. apply Hn. by exists c0.
  - apply Hdown. intros x w Hx Hw. rewrite Hp in Hw. rewrite Hj in Hx. injection Hx as <-. injection Hw as <-.
    by apply cmp_ge_tle.
Qed.

(** The last node leaves: its parent's link is cleared. *)
Lemma unlink_last m t la l z p b y prev :
  rep (Heap m t la) (l ++ [z]) -> l !! p = Some y -> length l = child_at p b -> prev = l !! (length l - 1)%nat ->
  exists m', (_ ← set_last prev; l0 ← fld left y;
     (if bool_decide (l0 = Some z) then set_fld y (with_left None) else set_fld y (with_right None))) (Heap m t la) =
    Ok (tt, Heap m' t prev) /\ rep (Heap m' t prev) l /\ same_timers l m m' /\ is_Some (m' !! z).
Proof.
  intros Hr Hy Hlen ->. pose proof (rep_linked _ _ Hr) as Hl. pose proof (rep_nodup _ _ Hr) as Hn. cbn [timers] in Hl.
  assert (Hyn : (l ++ [z]) !! p = Some y) by (by apply lookup_app_l_Some).
  assert (Hzn : (l ++ [z]) !! child_at p b = Some z) by (rewrite <- Hlen, lookup_app_r, Nat.sub_diag by lia; done).
  destruct (linked_at _ _ _ _ Hl Hyn) as (Yl & Yr & Yu).
  pose proof (linked_is_Some _ _ _ _ Hl Hyn) as Iy. pose proof (linked_is_Some _ _ _ _ Hl Hzn) as Iz.
  rewrite ST_bind_eq. cbn [set_last modify timers timer_top].
  rewrite (ST_bind_Ok _ _ _ _ _ (fld_eval left y (Heap m t _) _ Yl)), (left_link _ _ _ _ Hn Hzn).
  assert (E : (if b then set_fld y (with_left None) else set_fld y (with_right None)) (Heap m t (l !! (length l - 1)%nat)) =
    Ok (tt, Heap (alter_opt (if b then with_left None else with_right None) (Some y) m) t (l !! (length l - 1)%nat)))
    by (destruct b; by apply set_eval).
  rewrite E. eexists. split; [done|]. split; [|split].
  - pose proof (rep_top _ _ Hr) as Ht. cbn [timer_top] in Ht. pose proof (child_at_gt p b).
    rewrite lookup_app_l in Ht by lia. constructor; cbn [timers timer_top timer_last]; [| done | done |].
    + rewrite (comm (++) l [z]) in Hn. simpl in Hn. by inversion Hn.
    + apply (linked_unsnoc m l z p b y); try done.
      * intros k x Hk Hkp. apply lookup_ne. intros [= ->]. apply Hkp.
        apply (NoDup_lookup (l ++ [z]) k p x Hn); [by apply lookup_app_l_Some | done].
      * destruct b; [by apply fv_eq | by apply fv_other].
      * destruct b; [by apply fv_other | by apply fv_eq].
      * apply fv_other. by destruct b.
  - apply same_alter; [destruct b; by intros [] | intros ? [= <-]; by eapply list_elem_of_lookup_2 | apply same_refl].
  - by rewrite alter_opt_is_Some.
Qed.

Lemma ordered_front m l z : heap_ordered m (l ++ [z]) -> heap_ordered m l.
Proof.
  intros Ho k x y Hx Hy. apply (Ho k); [by apply lookup_app_l_Some|].
  destruct (index_cases k) as [->|(g & c & ->)]; [done|]. rewrite par_child_at in *. by apply lookup_app_l_Some.
Qed.

(** [remove_from_heap] takes a timer of the heap out of it. *)
Lemma remove_from_heap_spec h l x :
  is_heap h l -> x ∈ l -> Z.of_nat (length l) < 2 ^ 32 ->
  exists h' l', remove_from_heap x h = Ok (tt, h') /\ is_heap h' l' /\ l ≡ₚ x :: l' /\ others_same l h h'.
Proof.
  intros [Hr Ho] Hx Hsz. destruct l as [|z l1 _] using rev_ind; [by apply not_elem_of_nil in Hx|].
  destruct h as [m t la]. cbn [timers] in *. pose proof (rep_nodup _ _ Hr) as Hn.
  rewrite length_app in Hsz. simpl in Hsz.
  pose proof (rep_last _ _ Hr) as Hla. cbn [timer_last] in Hla. rewrite length_app in Hla. simpl in Hla.
  replace (length l1 + 1 - 1)%nat with (length l1) in Hla by lia.
  assert (Hz : (l1 ++ [z]) !! length l1 = Some z) by (by rewrite lookup_app_r, Nat.sub_diag by lia).
  rewrite Hz in Hla. subst la. unfold remove_from_heap. rewrite ST_bind_eq. cbn [get_last timer_last].
  rewrite ST_bind_eq. cbn [deref mret ST_ret].
  destruct (fld_links _ _ _ _ Hr Hz) as (_ & _ & Hu). rewrite (ST_bind_Ok _ _ _ _ _ Hu).
  assert (Hzl1 : z ∉ l1) by (rewrite (comm (++) l1 [z]) in Hn; simpl in Hn; by inversion Hn).
  destruct (index_cases (length l1)) as [E0|(p & b & Elen)].
  { destruct l1; [|done]. cbn [par length]. eexists _, []. split; [done|].
    apply list_elem_of_singleton in Hx as ->. split; [|split; [done | apply same_refl]].
    split; [|by intros k y ?]. constructor; cbn [timers timer_top timer_last]; [constructor | done | done | by intros k y ?]. }
  rewrite Elen, par_child_at. pose proof (child_at_gt p b) as Hgt.
  destruct (lookup_lt_is_Some_2 l1 p) as [y Hy]; [lia|]. rewrite (lookup_app_l_Some _ _ _ _ Hy).
  assert (Hlz : (l1 ++ [z]) !! (length (l1 ++ [z]) - 1)%nat = Some z).
  { rewrite length_app. simpl. by replace (length l1 + 1 - 1)%nat with (length l1) by lia. }
  assert (Eprev : find_prev_elem z (Heap m t (Some z)) = Ok (l1 !! (length l1 - 1)%nat, Heap m t (Some z))).
  { rewrite (find_prev_elem_spec _ _ _ Hr Hlz); rewrite ?length_app; simpl; [| lia | lia].
    replace (length l1 + 1 - 2)%nat with (length l1 - 1)%nat by lia. by rewrite lookup_app_l by lia. }
  rewrite (ST_bind_Ok _ _ _ _ _ Eprev).
  destruct (unlink_last m t (Some z) l1 z p b y _ Hr Hy Elen eq_refl) as (m1 & E1 & Hr1 & Hs1 & Iz).
  set (k := if bool_decide (x = z) then mret tt else _ ← replace_elem x z; settle z : HM unit).
  assert (Ek : forall k' : HM unit, (_ ← set_last (l1 !! (length l1 - 1)%nat); l0 ← fld left y;
     _ ← (if bool_decide (l0 = Some z) then set_fld y (with_left None) else set_fld y (with_right None)); k') (Heap m t (Some z)) =
     k' (Heap m1 t (l1 !! (length l1 - 1)%nat))).
  { intros k'. rewrite ST_bind_eq in E1 |- *. destruct (set_last _ _) as [[[] h3]|]; [|done].
    rewrite ST_bind_eq in E1 |- *. destruct (fld left y _) as [[l0 h4]|]; [|done].
    by rewrite (ST_bind_Ok _ _ _ _ _ E1). }
  rewrite Ek. clear Ek E1. subst k.
  assert (Ho1 : heap_ordered m1 l1) by (intros k; eapply ordered_same, ordered_front; eauto).
  assert (Hperm : l1 ++ [z] ≡ₚ z :: l1) by (by rewrite (comm (++))).
  assert (Hsub : l1 ⊆ l1 ++ [z]) by set_solver.
  case_bool_decide as Hxz.
  { subst x. eexists _, l1. split; [done|]. split; [done|]. split; [done|]. by eapply same_weaken. }
  assert (Hx1 : x ∈ l1) by set_solver. apply list_elem_of_lookup in Hx1 as [j Hj].
  destruct (replace_run m1 l1 j x z t (l1 !! (length l1 - 1)%nat) (rep_linked _ _ Hr1) (rep_nodup _ _ Hr1) Hj Hzl1 Iz)
    as (m2 & E2 & Hl2 & Hs2). rewrite (ST_bind_Ok _ _ _ _ _ E2). pose proof (lookup_lt_Some _ _ _ Hj) as Hjl.
  set (h2 := Heap m2 _ _).
  assert (Hpd : <[j := z]> l1 ≡ₚ z :: delete j l1).
  { rewrite insert_take_drop by done. rewrite delete_take_drop. by rewrite <- Permutation_middle. }
  assert (Hpx : l1 ≡ₚ x :: delete j l1) by (by apply delete_Permutation).
  assert (Hr2 : rep h2 (<[j := z]> l1)).
  { constructor; cbn [timers timer_top timer_last h2]; [| | |done].
    - rewrite Hpd. pose proof (rep_nodup _ _ Hr1) as Hn1. rewrite Hpx in Hn1. inversion Hn1; subst.
      constructor; [|done]. intros Hin. apply Hzl1. rewrite Hpx. by right.
    - pose proof (rep_top _ _ Hr1) as Ht1. cbn [timer_top] in Ht1. destruct j; [by rewrite list_lookup_insert_eq|].
      by rewrite list_lookup_insert_ne.
    - rewrite length_insert. destruct (decide (length l1 - 1 = j)%nat) as [->|Hne].
      + rewrite Hj, bool_decide_eq_true_2 by done. symmetry. by apply list_lookup_insert_eq.
      + rewrite list_lookup_insert_ne by done. rewrite bool_decide_eq_false_2; [done|].
        apply (ne_idx _ _ _ _ (rep_nodup _ _ Hr1) Hj). done. }
  destruct (replaced_order m1 l1 j z Ho1 Hjl) as [Ho2 Hb2].
  destruct (settle_spec h2 (<[j := z]> l1) j z Hr2) as (h' & l' & E3 & [Hr' Hp' Hs' Ho']).
  - by apply list_lookup_insert_eq.
  - intros k H1 H2. eapply ordered_same; [exact Hs2 | by apply Ho2].
  - by eapply bridged_same.
  - exists h', l'. split; [exact E3|]. split; [done|]. split.
    + etransitivity; [exact Hperm|]. rewrite Hp', Hpd.
      etransitivity; [apply Permutation_skip, Hpx | apply Permutation_swap].
    + eapply same_trans; [eapply same_weaken; [exact Hsub | exact Hs1]|].
      eapply same_trans; [eapply same_perm; [symmetry; exact Hperm | exact Hs2]|].
      eapply same_weaken; [|exact Hs']. intros w. rewrite Hpd, Hperm.
      intros [->|Hd]%elem_of_cons; [by left|]. right. rewrite Hpx. by right.
Qed.

(** ** What the timers promise

    Seen from outside, the timers are a map from the armed timers to their
    times. *)

Definition armed (h : heap) : gmap ptr timeval :=
  omap (fun t => if in_heap t then Some (timeout t) else None) (timers h).

Record sched_at (h : heap) (l : list ptr) : Prop := {
  sched_heap : is_heap h l;
  sched_flags q b : fv in_heap (timers h) q = Some b -> (b = true <-> q ∈ l);
  sched_size : Z.of_nat (size (timers h)) < 2 ^ 32
}.
Definition sched_ok (h : heap) : Prop := exists l, sched_at h l.

Lemma armed_fv h q :
  armed h !! q = match fv in_heap (timers h) q with Some true => fv timeout (timers h) q | _ => None end.
Proof. unfold armed, fv. rewrite lookup_omap. destruct (timers h !! q) as [t|]; [|done]. simpl. by destruct (in_heap t). Qed.

Lemma sched_length h l : sched_at h l -> Z.of_nat (length l) < 2 ^ 32.
Proof. intros [[Hr _] _ Hsz]. pose proof (size_nodes _ _ Hr). lia. Qed.

Lemma same_dom l m m' : same_timers l m m' -> dom m' = dom m.
Proof.
  intros Hs. apply set_eq. intros q. rewrite !elem_of_dom. pose proof (same_handler _ _ _ Hs q) as E. unfold fv in E.
  destruct (m' !! q), (m !! q); simpl in *; try done; split; intros [? ?]; eauto; done.
Qed.

Lemma same_size l m m' : same_timers l m m' -> size m' = size m.
Proof. intros Hs. by rewrite <- !size_dom, (same_dom l m m' Hs). Qed.

Lemma fv_insert {A} (f : sel_timer -> A) m p t q :
  fv f (<[p := t]> m) q = if decide (p = q) then Some (f t) else fv f m q.
Proof.
  unfold fv. destruct (decide (p = q)) as [->|]; [by rewrite lookup_insert_eq | by rewrite lookup_insert_ne].
Qed.

(** A store to a field that is not a link, of a timer that may be in the heap. *)
Lemma rep_data m t la l p w :
  (forall x, left (w x) = left x /\ right (w x) = right x /\ up (w x) = up x) ->
  rep (Heap m t la) l -> rep (Heap (alter_opt w (Some p) m) t la) l.
Proof.
  intros Hw [Hn Ht Hla Hl]. constructor; [done..|]. cbn [timers] in *. intros k x Hk.
  rewrite !fv_other; [by apply Hl | | |]; intros y; apply Hw.
Qed.

Lemma ordered_data m l p w :
  (forall x, timeout (w x) = timeout x) -> heap_ordered m l -> heap_ordered (alter_opt w (Some p) m) l.
Proof. intros Hw Ho k x y Hx Hy. unfold tm. rewrite !fv_other by done. by apply (Ho k). Qed.

Lemma fv_is_Some {A} (f : sel_timer -> A) m q : is_Some (m !! q) -> exists v, fv f m q = Some v.
Proof. intros [t Ht]. exists (f t). unfold fv. by rewrite Ht. Qed.

Lemma not_armed h l p : sched_at h l -> is_Some (timers h !! p) -> armed h !! p = None ->
  fv in_heap (timers h) p = Some false /\ p ∉ l.
Proof.
  intros Hs Ip Hp. destruct (fv_is_Some in_heap _ _ Ip) as [b Hb], (fv_is_Some timeout _ _ Ip) as [v Hv].
  rewrite armed_fv, Hb, Hv in Hp. destruct b; [done|]. split; [done|]. intros Hin.
  by apply (sched_flags _ _ Hs p false Hb) in Hin.
Qed.

Lemma is_armed h l p v : sched_at h l -> armed h !! p = Some v ->
  fv in_heap (timers h) p = Some true /\ fv timeout (timers h) p = Some v /\ p ∈ l.
Proof.
  intros Hs Hp. rewrite armed_fv in Hp. destruct (fv in_heap (timers h) p) as [[]|] eqn:Hb; try done.
  split_and!; [done | done |]. by apply (sched_flags _ _ Hs p true Hb).
Qed.

Lemma alter_opt_size w o (m : gmap ptr sel_timer) : size (alter_opt w o m) = size m.
Proof.
  rewrite <- !size_dom. f_equal. apply set_eq. intros q. by rewrite !elem_of_dom, alter_opt_is_Some.
Qed.

Lemma alter_opt_dom w o (m : gmap ptr sel_timer) : dom (alter_opt w o m) = dom m.
Proof. apply set_eq. intros q. by rewrite !elem_of_dom, alter_opt_is_Some. Qed.

Lemma start_timer_full h l p v :
  sched_at h l -> is_Some (timers h !! p) -> armed h !! p = None ->
  exists h' l', sel_start_timer p v h = Ok (0, h') /\ sched_at h' l' /\ armed h' = <[p := v]> (armed h) /\
    dom (timers h') = dom (timers h).
Proof.
  intros Hs Ip Hna. destruct (not_armed _ _ _ Hs Ip Hna) as [Hb Hpl]. destruct h as [m t la]. cbn [timers] in *.
  unfold sel_start_timer. rewrite (ST_bind_Ok _ _ _ _ _ (fld_eval in_heap p (Heap m t la) _ Hb)).
  rewrite (ST_bind_Ok _ _ _ _ _ (set_eval p _ m t la Ip)). set (m1 := alter_opt _ _ _).
  assert (Ip1 : is_Some (m1 !! p)) by (unfold m1; by rewrite alter_opt_is_Some).
  assert (Hh1 : is_heap (Heap m1 t la) l).
  { destruct (sched_heap _ _ Hs) as [Hr Ho]. split; [by apply rep_data|]. intros k x y Hx Hy. cbn [timers] in *.
    assert (Hne : forall z j, l !! j = Some z -> Some p <> Some z)
      by (intros z j Hj [= ->]; by apply Hpl, (list_elem_of_lookup_2 _ j)).
    assert (Hy' : y ∈ l) by (by apply (par_elem l k)). apply list_elem_of_lookup in Hy' as [j Hj].
    unfold tm, m1. rewrite !fv_ne by (by eapply Hne). by apply (Ho k). }
  destruct (add_to_heap_spec (Heap m1 t la) l p Hh1 Hpl Ip1 (sched_length _ _ Hs)) as (h2 & l2 & E & Hh2 & Hp2 & Hs2).
  rewrite (ST_bind_Ok _ _ _ _ _ E). destruct h2 as [m2 t2 la2]. unfold others_same in Hs2. cbn [timers] in *.
  assert (Ip2 : is_Some (m2 !! p)).
  { apply elem_of_dom. rewrite (same_dom _ _ _ Hs2). by apply elem_of_dom. }
  rewrite (ST_bind_Ok _ _ _ _ _ (set_eval p _ m2 t2 la2 Ip2)). eexists _, l2. split; [done|].
  assert (Hih : forall q, fv in_heap (alter_opt (with_in_heap true) (Some p) m2) q =
                          if decide (p = q) then Some true else fv in_heap m q).
  { intros q. destruct (decide (p = q)) as [<-|Hne]; [by apply fv_eq|].
    rewrite fv_ne by congruence. rewrite (same_in_heap _ _ _ Hs2). unfold m1. by rewrite fv_other. }
  split; [constructor; cbn [timers]|].
  - destruct Hh2 as [Hr2 Ho2]. split; [by apply rep_data | by apply ordered_data].
  - intros q b Hq. rewrite Hih in Hq. rewrite Hp2. destruct (decide (p = q)) as [<-|Hne].
    + injection Hq as <-. split; [intros _; by left|done].
    + rewrite (sched_flags _ _ Hs q b Hq). rewrite elem_of_cons. split; [by right|]. intros [->|]; done.
  - rewrite alter_opt_size, (same_size _ _ _ Hs2). unfold m1. rewrite alter_opt_size. apply (sched_size _ _ Hs).
  - split; [| cbn [timers]; rewrite alter_opt_dom, (same_dom _ _ _ Hs2); apply alter_opt_dom].
    apply map_eq. intros q. rewrite armed_fv. cbn [timers]. rewrite Hih.
    rewrite fv_other by done. rewrite (same_timeout _ _ _ Hs2). unfold m1.
    destruct (decide (p = q)) as [<-|Hne].
    * rewrite lookup_insert_eq. by apply fv_eq.
    * rewrite lookup_insert_ne, armed_fv by done. cbn [timers]. by rewrite fv_ne by congruence.
Qed.

Lemma start_timer_spec h l p v :
  sched_at h l -> is_Some (timers h !! p) -> armed h !! p = None ->
  exists h' l', sel_start_timer p v h = Ok (0, h') /\ sched_at h' l' /\ armed h' = <[p := v]> (armed h).
Proof.
  intros Hs Ip Ha. destruct (start_timer_full h l p v Hs Ip Ha) as (h' & l' & E & Hs' & Ha' & _). eauto.
Qed.

Lemma remove_armed_full h l p v :
  sched_at h l -> armed h !! p = Some v ->
  exists h' l', (_ ← remove_from_heap p; set_fld p (with_in_heap false)) h = Ok (tt, h') /\
    sched_at h' l' /\ armed h' = delete p (armed h) /\
    dom (timers h') = dom (timers h).
Proof.
  intros Hs Ha. destruct (is_armed _ _ _ _ Hs Ha) as (Hb & Hv & Hpl).
  destruct (remove_from_heap_spec h l p (sched_heap _ _ Hs) Hpl (sched_length _ _ Hs)) as (h2 & l2 & E & Hh2 & Hp2 & Hs2).
  rewrite (ST_bind_Ok _ _ _ _ _ E). destruct h2 as [m2 t2 la2]. unfold others_same in Hs2. cbn [timers] in *.
  assert (Ip2 : is_Some (m2 !! p)).
  { apply elem_of_dom. rewrite (same_dom _ _ _ Hs2). apply elem_of_dom. unfold fv in Hb. destruct (timers h !! p); [eauto|done]. }
  rewrite (set_eval p _ m2 t2 la2 Ip2). eexists _, l2. split; [done|].
  assert (Hih : forall q, fv in_heap (alter_opt (with_in_heap false) (Some p) m2) q =
                          if decide (p = q) then Some false else fv in_heap (timers h) q).
  { intros q. destruct (decide (p = q)) as [<-|Hne]; [by apply fv_eq|].
    rewrite fv_ne by congruence. apply (same_in_heap _ _ _ Hs2). }
  assert (Hn : p ∉ l2 /\ forall q, q ∈ l <-> q = p \/ q ∈ l2).
  { pose proof (rep_nodup _ _ (proj1 (sched_heap _ _ Hs))) as Hn. rewrite Hp2 in Hn. inversion Hn; subst.
    split; [done|]. intros q. by rewrite Hp2, elem_of_cons. }
  destruct Hn as [Hn Hin]. split; [constructor; cbn [timers]|].
  - destruct Hh2 as [Hr2 Ho2]. split; [by apply rep_data | by apply ordered_data].
  - intros q b Hq. rewrite Hih in Hq. destruct (decide (p = q)) as [<-|Hne]; [by injection Hq as <-|].
    rewrite (sched_flags _ _ Hs q b Hq), Hin. split; [intros [->|]; done | by right].
  - rewrite alter_opt_size, (same_size _ _ _ Hs2). apply (sched_size _ _ Hs).
  - split; [| cbn [timers]; by rewrite alter_opt_dom, (same_dom _ _ _ Hs2)].
    apply map_eq. intros q. rewrite armed_fv. cbn [timers]. rewrite Hih.
    rewrite fv_other by done. rewrite (same_timeout _ _ _ Hs2).
    destruct (decide (p = q)) as [<-|Hne]; [by rewrite lookup_delete_eq | by rewrite lookup_delete_ne, armed_fv].
Qed.

Lemma remove_armed h l p v :
  sched_at h l -> armed h !! p = Some v ->
  exists h' l', (_ ← remove_from_heap p; set_fld p (with_in_heap false)) h = Ok (tt, h') /\
    sched_at h' l' /\ armed h' = delete p (armed h).
Proof.
  intros Hs Ha. destruct (remove_armed_full h l p v Hs Ha) as (h' & l' & E & Hs' & Ha' & _). eauto.
Qed.

(** The top of a heap is before every other node. *)
Lemma top_least m l : heap_ordered m l -> forall fuel i x y, (i <= fuel)%nat ->
  l !! 0%nat = Some x -> l !! i = Some y -> tle (tm m x) (tm m y).
Proof.
  intros Ho. induction fuel as [|fuel IH]; intros i x y Hf Hx Hy.
  - assert (i = 0%nat) as -> by lia. assert (x = y) as -> by congruence. apply tle_refl.
  - destruct (index_cases i) as [->|(g & c & ->)]; [assert (x = y) as -> by congruence; apply tle_refl|].
    pose proof (child_at_gt g c). destruct (lookup_lt_is_Some_2 l g) as [w Hw]; [apply lookup_lt_Some in Hy; lia|].
    eapply tle_trans; [apply (IH g x w); [lia | done | done]|].
    apply (Ho (child_at g c)); [done | by rewrite par_child_at].
Qed.

(** ** Properties *)

(** C18: Starting an allocated timer: a timer that is armed is refused with
    [EBUSY] and nothing changes; any other is armed with its time, the armed
    timers gain exactly it, and the heap keeps its shape, its order and its
    flags.  Every loop of the heap ends within its fuel and no pointer is
    null. *)
Theorem sel_start_timer_refines h p v :
  sched_ok h -> is_Some (timers h !! p) ->
  exists r h', sel_start_timer p v h = Ok (r, h') /\ sched_ok h' /\
    match armed h !! p with
    | Some _ => r = EBUSY /\ h' = h
    | None => r = 0 /\ armed h' = <[p := v]> (armed h)
    end.
Proof.
  intros [l Hs] Ip. destruct (armed h !! p) as [w|] eqn:Ha.
  - destruct (is_armed _ _ _ _ Hs Ha) as (Hb & _ & _). exists EBUSY, h. unfold sel_start_timer.
    rewrite (ST_bind_Ok _ _ _ _ _ (fld_eval in_heap p h _ Hb)). split; [done|]. split; [by exists l|done].
  - destruct (start_timer_spec h l p v Hs Ip Ha) as (h' & l' & E & Hs' & Ha'). exists 0, h'.
    split; [done|]. split; [by exists l'|done].
Qed.

Lemma stop_timer_spec h p :
  sched_ok h -> is_Some (timers h !! p) ->
  exists r h', sel_stop_timer p h = Ok (r, h') /\ sched_ok h' /\
    match armed h !! p with
    | None => r = ETIMEDOUT /\ h' = h
    | Some _ => r = 0 /\ armed h' = delete p (armed h)
    end.
Proof.
  intros [l Hs] Ip. unfold sel_stop_timer. destruct (armed h !! p) as [w|] eqn:Ha.
  - destruct (is_armed _ _ _ _ Hs Ha) as (Hb & _ & _).
    rewrite (ST_bind_Ok _ _ _ _ _ (fld_eval in_heap p h _ Hb)). cbn [negb].
    destruct (remove_armed h l p w Hs Ha) as (h' & l' & E & Hs' & Ha'). exists 0, h'.
    split; [|split; [by exists l'|done]]. apply ST_bind_inv in E as ([] & h1 & E1 & E2).
    rewrite (ST_bind_Ok _ _ _ _ _ E1). by rewrite (ST_bind_Ok _ _ _ _ _ E2).
  - destruct (not_armed _ _ _ Hs Ip Ha) as (Hb & _). exists ETIMEDOUT, h.
    rewrite (ST_bind_Ok _ _ _ _ _ (fld_eval in_heap p h _ Hb)). split; [done|]. split; [by exists l|done].
Qed.

(** Starting and stopping keep the timers that exist; freeing one removes it,
    a new one is not armed. *)
Lemma start_timer_dom h p v : sched_ok h -> is_Some (timers h !! p) ->
  exists r h', sel_start_timer p v h = Ok (r, h') /\ sched_ok h' /\ dom (timers h') = dom (timers h).
Proof.
  intros [l Hs] Ip. destruct (armed h !! p) as [w|] eqn:Ha.
  - destruct (is_armed _ _ _ _ Hs Ha) as (Hb & _ & _). exists EBUSY, h. unfold sel_start_timer.
    rewrite (ST_bind_Ok _ _ _ _ _ (fld_eval in_heap p h _ Hb)). split; [done|]. split; [by exists l|done].
  - destruct (start_timer_full h l p v Hs Ip Ha) as (h' & l' & E & Hs' & _ & Hd). exists 0, h'.
    split; [done|]. split; [by exists l'|done].
Qed.

Lemma stop_timer_dom h p : sched_ok h -> is_Some (timers h !! p) ->
  exists r h', sel_stop_timer p h = Ok (r, h') /\ sched_ok h' /\ armed h' = delete p (armed h) /\
    dom (timers h') = dom (timers h).
Proof.
  intros [l Hs] Ip. unfold sel_stop_timer. destruct (armed h !! p) as [w|] eqn:Ha.
  - destruct (is_armed _ _ _ _ Hs Ha) as (Hb & _ & _).
    rewrite (ST_bind_Ok _ _ _ _ _ (fld_eval in_heap p h _ Hb)). cbn [negb].
    destruct (remove_armed_full h l p w Hs Ha) as (h' & l' & E & Hs' & Ha' & Hd). exists 0, h'.
    split; [|split; [by exists l'|done]]. apply ST_bind_inv in E as ([] & h1 & E1 & E2).
    rewrite (ST_bind_Ok _ _ _ _ _ E1). by rewrite (ST_bind_Ok _ _ _ _ _ E2).
  - destruct (not_armed _ _ _ Hs Ip Ha) as (Hb & _). exists ETIMEDOUT, h.
    rewrite (ST_bind_Ok _ _ _ _ _ (fld_eval in_heap p h _ Hb)). split; [done|]. split; [by exists l|].
    split; [by rewrite delete_id | done].
Qed.

(** The timers outside the list of the heap do not matter to it. *)
Lemma rep_frame m m' t la l : (forall q, q ∈ l -> m' !! q = m !! q) -> rep (Heap m t la) l -> rep (Heap m' t la) l.
Proof.
  intros He [Hn Ht Hla Hl]. constructor; [done..|]. cbn [timers] in *. eapply linked_frame; [exact Hl|].
  intros k x Hk. apply He. by eapply list_elem_of_lookup_2.
Qed.
Lemma ordered_frame m m' l : (forall q, q ∈ l -> m' !! q = m !! q) -> heap_ordered m l -> heap_ordered m' l.
Proof.
  intros He Ho k x y Hx Hy. unfold tm, fv. rewrite !He; [by apply (Ho k) | |].
  - by eapply list_elem_of_lookup_2.
  - by eapply par_elem.
Qed.

Lemma free_timer_spec h p : sched_ok h -> is_Some (timers h !! p) ->
  exists r h', sel_free_timer p h = Ok (r, h') /\ sched_ok h' /\ dom (timers h') = dom (timers h) ∖ {[p]}.
Proof.
  intros Hs Ip. destruct (fv_is_Some in_heap _ _ Ip) as [b Hb]. unfold sel_free_timer.
  rewrite (ST_bind_Ok _ _ _ _ _ (fld_eval in_heap p h _ Hb)).
  assert (Hstop : exists r h1, (if b then sel_stop_timer p else mret 0) h = Ok (r, h1) /\ sched_ok h1 /\
    armed h1 !! p = None /\ dom (timers h1) = dom (timers h)).
  { destruct b.
    - destruct (stop_timer_dom h p Hs Ip) as (r & h1 & E & Hs1 & Ha & Hd). exists r, h1.
      split_and!; [done..| by rewrite Ha, lookup_delete_eq | done].
    - exists 0, h. split_and!; try done. by rewrite armed_fv, Hb. }
  destruct Hstop as (r & h1 & E & [l Hs1] & Ha & Hd). rewrite (ST_bind_Ok _ _ _ _ _ E), (ST_bind_Ok _ _ _ _ _ eq_refl).
  assert (Ip1 : is_Some (timers h1 !! p)) by (apply elem_of_dom; rewrite Hd; by apply elem_of_dom).
  destruct (not_armed _ _ _ Hs1 Ip1 Ha) as [Hf Hl]. eexists _, _. split; [done|]. cbn [timers].
  split; [|by rewrite dom_delete_L, Hd]. exists l. destruct h1 as [m t la]. cbn [timers] in *.
  assert (He : forall q, q ∈ l -> delete p m !! q = m !! q) by (intros q Hq; apply lookup_delete_ne; congruence).
  constructor; cbn [timers].
  - destruct (sched_heap _ _ Hs1) as [Hr Ho]. split; [by eapply rep_frame | by eapply ordered_frame].
  - intros q c. unfold fv. destruct (decide (p = q)) as [<-|Hne]; [by rewrite lookup_delete_eq|].
    rewrite lookup_delete_ne by done. apply (sched_flags _ _ Hs1 q c).
  - pose proof (sched_size _ _ Hs1) as Hsz. cbn [timers] in Hsz. destruct Ip1 as [x Hx].
    assert (Hd1 : size (delete p m) = pred (size m)) by (apply map_size_delete_Some; eauto). lia.
Qed.

Lemma alloc_timer_spec h junk hd ud : sched_ok h -> Z.of_nat (size (timers h)) + 1 < 2 ^ 32 ->
  exists h', sel_alloc_timer (Some (fresh (dom (timers h)), junk)) hd ud h = Ok ((0, Some (fresh (dom (timers h)))), h') /\
    sched_ok h' /\ dom (timers h') = {[fresh (dom (timers h))]} ∪ dom (timers h).
Proof.
  intros [l Hs] Hsz. set (p := fresh (dom (timers h))). assert (Hp : p ∉ dom (timers h)) by apply is_fresh.
  eexists. split; [reflexivity|]. cbn [timers]. split; [|by rewrite dom_insert_L]. exists l.
  destruct h as [m t la]. cbn [timers] in *. apply not_elem_of_dom in Hp. destruct (sched_heap _ _ Hs) as [Hr Ho].
  assert (Hl : p ∉ l).
  { intros Hin. apply list_elem_of_lookup in Hin as [j Hj]. destruct (linked_is_Some _ _ _ _ (rep_linked _ _ Hr) Hj) as [x Hx].
    cbn in Hx. congruence. }
  assert (He : forall (x : sel_timer) q, q ∈ l -> <[p := x]> m !! q = m !! q)
    by (intros x q Hq; apply lookup_insert_ne; congruence).
  constructor; cbn [timers].
  - split; [eapply rep_frame; [exact (He _) | exact Hr] | eapply ordered_frame; [exact (He _) | exact Ho]].
  - intros q c Hq. rewrite fv_insert in Hq. destruct (decide (p = q)) as [<-|Hne].
    + injection Hq as <-. by split.
    + by apply (sched_flags _ _ Hs q c).
  - rewrite map_size_insert_None by done. lia.
Qed.

(** C19: Stopping an allocated timer: one that is not armed is refused with
    [ETIMEDOUT] and nothing changes; an armed one is disarmed, wherever it is
    in the heap, and the other armed timers and their times stay. *)
Theorem sel_stop_timer_refines h p :
  sched_ok h -> is_Some (timers h !! p) ->
  exists r h', sel_stop_timer p h = Ok (r, h') /\ sched_ok h' /\
    match armed h !! p with
    | None => r = ETIMEDOUT /\ h' = h
    | Some _ => r = 0 /\ armed h' = delete p (armed h)
    end.
Proof. apply stop_timer_spec. Qed.

(** [timer_top] is null exactly when no timer is armed, and otherwise an
    armed timer none of the others is due before. *)
Theorem timer_top_earliest h :
  sched_ok h ->
  match timer_top h with
  | None => armed h = ∅
  | Some q => exists v, armed h !! q = Some v /\ forall q' v', armed h !! q' = Some v' -> tle v v'
  end.
Proof.
  intros [l Hs]. destruct (sched_heap _ _ Hs) as [Hr Ho]. rewrite (rep_top _ _ Hr).
  destruct (l !! 0%nat) as [q|] eqn:Hq.
  - destruct (fv_is_Some in_heap (timers h) q) as [b Hb]; [by eapply linked_is_Some, Hq; apply rep_linked|].
    assert (b = true) as -> by (apply (sched_flags _ _ Hs q b Hb); by eapply list_elem_of_lookup_2).
    destruct (fv_is_Some timeout (timers h) q) as [v Hv]; [by eapply linked_is_Some, Hq; apply rep_linked|].
    exists v. rewrite armed_fv, Hb. split; [done|]. intros q' v' Ha.
    destruct (is_armed _ _ _ _ Hs Ha) as (_ & Hv' & Hin). apply list_elem_of_lookup in Hin as [i Hi].
    pose proof (top_least _ _ Ho i i q q' ltac:(lia) Hq Hi) as Ht. unfold tm in Ht. by rewrite Hv, Hv' in Ht.
  - assert (l = []) as -> by (by destruct l). apply map_eq. intros q. rewrite lookup_empty.
    destruct (armed h !! q) as [v|] eqn:Ha; [|done]. destruct (is_armed _ _ _ _ Hs Ha) as (_ & _ & Hin).
    by apply not_elem_of_nil in Hin.
Qed.

(** A heap with one armed timer and one that is not. *)
Definition demo_heap : heap :=
  Heap {[ 1%positive := SelTimer 0%nat 0%nat (TV 5 0) true None None None;
          2%positive := SelTimer 0%nat 0%nat (TV 0 0) false None None None ]} (Some 1%positive) (Some 1%positive).

Lemma demo_heap_ok : sched_ok demo_heap.
Proof.
  exists [1%positive]. constructor; [split; [constructor|]| |reflexivity].
  - repeat constructor; set_solver.
  - reflexivity.
  - reflexivity.
  - intros [|j] q Hj; [|discriminate]. injection Hj as <-. split_and!; reflexivity.
  - intros [|j] x y Hx Hy; discriminate.
  - intros q b Hq. unfold fv, demo_heap in Hq. cbn [timers] in Hq.
    destruct (decide (q = 1%positive)) as [->|H1]; [vm_compute in Hq; injection Hq as <-; set_solver|].
    destruct (decide (q = 2%positive)) as [->|H2]; [vm_compute in Hq; injection Hq as <-; set_solver|].
    rewrite lookup_insert_ne, lookup_singleton_ne in Hq by congruence. discriminate.
Qed.

Lemma sel_start_timer_refines_witness :
  exists r h', sel_start_timer 2%positive (TV 3 0) demo_heap = Ok (r, h') /\ sched_ok h' /\
    r = 0 /\ armed h' = <[2%positive := TV 3 0]> (armed demo_heap).
Proof. exact (sel_start_timer_refines demo_heap 2%positive (TV 3 0) demo_heap_ok (mk_is_Some _ _ eq_refl)). Defined.

Lemma sel_stop_timer_refines_witness :
  exists r h', sel_stop_timer 1%positive demo_heap = Ok (r, h') /\ sched_ok h' /\
    r = 0 /\ armed h' = delete 1%positive (armed demo_heap).
Proof. exact (sel_stop_timer_refines demo_heap 1%positive demo_heap_ok (mk_is_Some _ _ eq_refl)). Defined.

Lemma timer_top_earliest_witness :
  exists v, armed demo_heap !! 1%positive = Some v /\ forall q' v', armed demo_heap !! q' = Some v' -> tle v v'.
Proof. exact (timer_top_earliest demo_heap demo_heap_ok). Defined.
