(* ===== verification/Selector.v ===== *)
(** * The selector: [ser2net/selector.c], second part

    The table of file descriptors with its three sets, and the main loop that
    waits in [select], runs the timers that are due and calls the handlers of
    the descriptors that are ready.  The system calls and the handlers are
    parameters of the loop. *)

From S2P Require Import Prelude SelHeap.

Definition FD_SETSIZE : Z := 1024.
Definition SEL_FD_HANDLER_ENABLED : Z := 0.
Definition SEL_FD_HANDLER_DISABLED : Z := 1.

(** ** State *)

Record fd_control := FdControl {
  in_use : bool;
  fd_data : option addr;
  handle_read : option addr;
  handle_write : option addr;
  handle_except : option addr
}.

(** [selector_s], with the two static variables of the file.  [maxfd] is
    [None] while the memory behind it was never written. *)
Record selector := Selector {
  fds : list fd_control;
  read_set : gset Z;
  write_set : gset Z;
  except_set : gset Z;
  maxfd : option Z;
  theap : heap;
  user_sighup_handler : option addr;
  got_sighup : bool
}.

Definition init_fd : fd_control := FdControl false None None None None.

Definition with_fds (f : list fd_control) (s : selector) : selector :=
  Selector f (read_set s) (write_set s) (except_set s) (maxfd s) (theap s) (user_sighup_handler s) (got_sighup s).
Definition with_read (r : gset Z) (s : selector) : selector :=
  Selector (fds s) r (write_set s) (except_set s) (maxfd s) (theap s) (user_sighup_handler s) (got_sighup s).
Definition with_write (r : gset Z) (s : selector) : selector :=
  Selector (fds s) (read_set s) r (except_set s) (maxfd s) (theap s) (user_sighup_handler s) (got_sighup s).
Definition with_except (r : gset Z) (s : selector) : selector :=
  Selector (fds s) (read_set s) (write_set s) r (maxfd s) (theap s) (user_sighup_handler s) (got_sighup s).
Definition with_maxfd (m : Z) (s : selector) : selector :=
  Selector (fds s) (read_set s) (write_set s) (except_set s) (Some m) (theap s) (user_sighup_handler s) (got_sighup s).
Definition with_heap (h : heap) (s : selector) : selector :=
  Selector (fds s) (read_set s) (write_set s) (except_set s) (maxfd s) h (user_sighup_handler s) (got_sighup s).
Definition with_sighup (b : bool) (s : selector) : selector :=
  Selector (fds s) (read_set s) (write_set s) (except_set s) (maxfd s) (theap s) (user_sighup_handler s) b.
Definition with_sighup_handler (f : option addr) (s : selector) : selector :=
  Selector (fds s) (read_set s) (write_set s) (except_set s) (maxfd s) (theap s) f (got_sighup s).

(** [malloc] answered: [maxfd] is not among what is initialised. *)
Definition sel_alloc_selector : selector :=
  Selector (replicate (Z.to_nat FD_SETSIZE) init_fd) ∅ ∅ ∅ None (Heap ∅ None None) None false.

(** ** File descriptors *)

Definition fd_index (fd : Z) : res nat :=
  _ ← check ((0 <=? fd) && (fd <? FD_SETSIZE)) OutOfBounds; Ok (Z.to_nat fd).

Definition read_maxfd (s : selector) : res Z :=
  match maxfd s with Some m => Ok m | None => Crash Uninit end.

Definition sel_set_fd_handlers (s : selector) (fd : Z) (data : option addr)
    (read_handler write_handler except_handler : option addr) : res selector :=
  i ← fd_index fd;
  f ← store (fds s) i (FdControl true data read_handler write_handler except_handler);
  m ← read_maxfd s;
  let s := with_fds f s in
  Ok (if m <? fd then with_maxfd fd s else s).

(** [while ((sel->maxfd >= 0) && (! sel->fds[sel->maxfd].in_use)) sel->maxfd--;]
    with [sel->maxfd + 1] for [n]. *)
Fixpoint lower_maxfd (f : list fd_control) (n : nat) : res Z :=
  match n with
  | O => Ok (-1)
  | S k => c ← load f k; if in_use c then Ok (Z.of_nat k) else lower_maxfd f k
  end.

Definition sel_clear_fd_handlers (s : selector) (fd : Z) : res selector :=
  i ← fd_index fd;
  f ← store (fds s) i init_fd;
  m ← read_maxfd s;
  let s := with_fds f (with_read (read_set s ∖ {[fd]}) (with_write (write_set s ∖ {[fd]})
             (with_except (except_set s ∖ {[fd]}) s))) in
  if fd =? m then
    m' ← lower_maxfd f (Z.to_nat (m + 1));
    Ok (with_maxfd m' s)
  else Ok s.

Definition set_member (set : gset Z) (fd state : Z) : res (gset Z) :=
  if state =? SEL_FD_HANDLER_ENABLED then _ ← fd_index fd; Ok ({[fd]} ∪ set)
  else if state =? SEL_FD_HANDLER_DISABLED then _ ← fd_index fd; Ok (set ∖ {[fd]})
  else Ok set.

Definition sel_set_fd_read_handler (s : selector) (fd state : Z) : res selector :=
  r ← set_member (read_set s) fd state; Ok (with_read r s).
Definition sel_set_fd_write_handler (s : selector) (fd state : Z) : res selector :=
  r ← set_member (write_set s) fd state; Ok (with_write r s).
Definition sel_set_fd_except_handler (s : selector) (fd state : Z) : res selector :=
  r ← set_member (except_set s) fd state; Ok (with_except r s).

Definition set_sighup_handler (f : option addr) (s : selector) : selector := with_sighup_handler f s.
Definition sighup_handler (s : selector) : selector := with_sighup true s.

(** ** The main loop *)

(** What [select] answers. *)
Inductive select_result :=
  | SelectTimeout
  | SelectReady (r w e : gset Z)
  | SelectEINTR
  | SelectError.

Section Loop.
Context {World : Type}.

Notation S := (ST (selector * World)).

(** The clock, the system call, and the calls through function pointers. *)
Context (gettimeofday : S timeval)
        (select : Z -> gset Z -> gset Z -> gset Z -> option timeval -> S select_result)
        (call_timer : addr -> ptr -> addr -> S unit)
        (call_fd : addr -> Z -> option addr -> S unit)
        (call_sighup : addr -> S unit).

Definition on_heap {A} (m : ST heap A) : S A := fun '(s, w) =>
  match m (theap s) with Ok (a, h) => Ok (a, (with_heap h s, w)) | Crash c => Crash c end.
Definition on_sel (f : selector -> res selector) : S unit := fun '(s, w) =>
  match f s with Ok s' => Ok (tt, (s', w)) | Crash c => Crash c end.
Definition get_sel : S selector := fun '(s, w) => Ok (s, (s, w)).

(** [while (cmp_timeval(&now, &timer->timeout) >= 0)]: the answer is the time
    to wait, or [None] for no timers.  [fuel] bounds the timers run. *)
Fixpoint run_timers (fuel : nat) (timer : ptr) (now : timeval) : S (option timeval) :=
  t ← on_heap (fld timeout timer);
  if 0 <=? cmp_timeval now t then
    match fuel with
    | O => lift_res (Crash NoFuel)
    | Datatypes.S fuel' =>
        _ ← on_heap (_ ← remove_from_heap timer; set_fld timer (with_in_heap false));
        hd ← on_heap (fld handler timer);
        ud ← on_heap (fld user_data timer);
        _ ← call_timer hd timer ud;
        top ← on_heap get_top;
        now ← gettimeofday;
        match top with
        | None => mret None
        | Some timer => run_timers fuel' timer now
        end
    end
  else
    top ← on_heap get_top;
    top ← on_heap (deref top);
    tt ← on_heap (fld timeout top);
    d ← lift_res (diff_timeval tt now);
    mret (Some d).

Definition timer_phase (fuel : nat) : S (option timeval) :=
  top ← on_heap get_top;
  match top with
  | None => mret None
  | Some timer => now ← gettimeofday; run_timers fuel timer now
  end.

(** The three tests for descriptor [i]; a missing handler only disables. *)
Definition dispatch_one (set : gset Z) (hd : fd_control -> option addr)
    (disable : selector -> Z -> Z -> res selector) (i : Z) : S unit :=
  if bool_decide (i ∈ set) then
    s ← get_sel;
    c ← lift_res (k ← fd_index i; load (fds s) k);
    match hd c with
    | None => on_sel (fun s => disable s i SEL_FD_HANDLER_DISABLED)
    | Some f => call_fd f i (fd_data c)
    end
  else mret tt.

(** [for (i=0; i<=sel->maxfd; i++)]; the bound is read again every round, and
    [fuel] is the number of descriptors from [i] on. *)
Fixpoint dispatch (fuel : nat) (i : Z) (r w e : gset Z) : S unit :=
  s ← get_sel;
  m ← lift_res (read_maxfd s);
  if i <=? m then
    match fuel with
    | O => lift_res (Crash NoFuel)
    | Datatypes.S fuel' =>
        _ ← dispatch_one r handle_read sel_set_fd_read_handler i;
        _ ← dispatch_one w handle_write sel_set_fd_write_handler i;
        _ ← dispatch_one e handle_except sel_set_fd_except_handler i;
        dispatch fuel' (i + 1) r w e
    end
  else mret tt.

(** One round of [for (;;)]; [true] to go on, [false] for [exit(1)]. *)
Definition select_round (fuel : nat) : S bool :=
  to_time ← timer_phase fuel;
  s ← get_sel;
  m ← lift_res (read_maxfd s);
  err ← select (m + 1) (read_set s) (write_set s) (except_set s) to_time;
  go ← (match err with
        | SelectTimeout | SelectEINTR => mret true
        | SelectError => mret false
        | SelectReady r w e => _ ← dispatch (Z.to_nat FD_SETSIZE) 0 r w e; mret true
        end);
  if negb go then mret false
  else
    s ← get_sel;
    _ ← (if got_sighup s then
           _ ← on_sel (fun s => Ok (with_sighup false s));
           match user_sighup_handler s with Some f => call_sighup f | None => mret tt end
         else mret tt);
    mret true.

Fixpoint sel_select_loop (rounds fuel : nat) : S bool :=
  match rounds with
  | O => mret true
  | Datatypes.S n => go ← select_round fuel; if go : bool then sel_select_loop n fuel else mret false
  end.
End Loop.

(** ** The largest descriptor *)

(** [maxfd] is the largest descriptor in use, or -1. *)
Record fds_ok (s : selector) : Prop := {
  fds_length : length (fds s) = Z.to_nat FD_SETSIZE;
  fds_maxfd : exists m, maxfd s = Some m /\ -1 <= m < FD_SETSIZE /\
    (forall k c, fds s !! k = Some c -> in_use c = true -> Z.of_nat k <= m) /\
    (0 <= m -> exists c, fds s !! Z.to_nat m = Some c /\ in_use c = true)
}.

Lemma fd_index_ok fd : 0 <= fd < FD_SETSIZE -> fd_index fd = Ok (Z.to_nat fd).
Proof.
  intros [H0 H1]. unfold fd_index. rewrite (proj2 (Z.leb_le 0 fd)), (proj2 (Z.ltb_lt fd FD_SETSIZE)) by done. done.
Qed.

(** The loop finds the largest descriptor below [n] that is in use. *)
Lemma lower_maxfd_largest f n :
  (n <= length f)%nat ->
  exists m, lower_maxfd f n = Ok m /\ -1 <= m /\ m <= Z.of_nat n - 1 /\
    (forall k c, (k < n)%nat -> f !! k = Some c -> in_use c = true -> Z.of_nat k <= m) /\
    (0 <= m -> exists c, f !! Z.to_nat m = Some c /\ in_use c = true).
Proof.
  induction n as [|n IH]; intros Hn; cbn [lower_maxfd].
  - exists (-1). split_and!; [done | lia | lia | lia | lia].
  - destruct (lookup_lt_is_Some_2 f n) as [c Hc]; [lia|]. unfold load. rewrite Hc. cbn [mbind res_bind].
    destruct (in_use c) eqn:Hu.
    + exists (Z.of_nat n). split_and!; [done | lia | lia | intros; lia |]. intros _. rewrite Nat2Z.id. eauto.
    + destruct IH as (m & E & H1 & H2 & H3 & H4); [lia|]. exists m. split_and!; [done | lia | lia | | done].
      intros k d Hk Hd Hdu. destruct (decide (k = n)) as [->|]; [congruence|]. apply (H3 k d); [lia | done | done].
Qed.

Lemma set_handlers_spec s fd data r w e :
  fds_ok s -> 0 <= fd < FD_SETSIZE ->
  exists s', sel_set_fd_handlers s fd data r w e = Ok s' /\ fds_ok s' /\
    fds s' = <[Z.to_nat fd := FdControl true data r w e]> (fds s) /\
    read_set s' = read_set s /\ write_set s' = write_set s /\ except_set s' = except_set s /\ theap s' = theap s.
Proof.
  intros [Hlen (m & Hm & Hr & Hall & Hmax)] Hfd. unfold sel_set_fd_handlers.
  rewrite fd_index_ok by done. cbn [mbind res_bind].
  assert (Hi : (Z.to_nat fd < length (fds s))%nat) by (rewrite Hlen; lia).
  rewrite store_Ok by done. cbn [mbind res_bind]. unfold read_maxfd. rewrite Hm. cbn [mbind res_bind].
  eexists. split; [done|]. split; [|destruct (m <? fd); done].
  assert (Hlk : forall k c, (<[Z.to_nat fd := FdControl true data r w e]> (fds s) : list fd_control) !! k = Some c ->
    k = Z.to_nat fd \/ fds s !! k = Some c).
  { intros k c. destruct (decide (k = Z.to_nat fd)) as [->|]; [by left|]. rewrite list_lookup_insert_ne by done. by right. }
  destruct (Z.ltb_spec m fd).
  - constructor; cbn [with_maxfd with_fds fds maxfd]; [by rewrite length_insert|]. exists fd. split_and!; [done | lia | lia | |].
    + intros k c Hk Hc. destruct (Hlk k c Hk) as [->|Hk']; [lia|]. specialize (Hall k c Hk' Hc). lia.
    + intros _. exists (FdControl true data r w e). by rewrite list_lookup_insert_eq.
  - constructor; cbn [with_maxfd with_fds fds maxfd]; [by rewrite length_insert|]. exists m. split_and!; [done | lia | lia | |].
    + intros k c Hk Hc. destruct (Hlk k c Hk) as [->|Hk']; [lia|]. by apply (Hall k c).
    + intros H0. destruct (decide (Z.to_nat m = Z.to_nat fd)) as [->|Hne].
      * exists (FdControl true data r w e). by rewrite list_lookup_insert_eq.
      * rewrite list_lookup_insert_ne by done. by apply Hmax.
Qed.

Lemma clear_handlers_spec s fd :
  fds_ok s -> 0 <= fd < FD_SETSIZE ->
  exists s', sel_clear_fd_handlers s fd = Ok s' /\ fds_ok s' /\
    fds s' = <[Z.to_nat fd := init_fd]> (fds s) /\
    read_set s' = read_set s ∖ {[fd]} /\ write_set s' = write_set s ∖ {[fd]} /\
    except_set s' = except_set s ∖ {[fd]} /\ theap s' = theap s.
Proof.
  intros [Hlen (m & Hm & Hr & Hall & Hmax)] Hfd. unfold sel_clear_fd_handlers.
  rewrite fd_index_ok by done. cbn [mbind res_bind].
  assert (Hi : (Z.to_nat fd < length (fds s))%nat) by (rewrite Hlen; lia).
  rewrite store_Ok by done. cbn [mbind res_bind]. unfold read_maxfd. rewrite Hm. cbn [mbind res_bind].
  set (f := <[Z.to_nat fd := init_fd]> (fds s) : list fd_control).
  assert (Hlk : forall k c, f !! k = Some c -> in_use c = true -> fds s !! k = Some c /\ k <> Z.to_nat fd).
  { intros k c. unfold f. destruct (decide (k = Z.to_nat fd)) as [->|].
    - rewrite list_lookup_insert_eq by done. by intros [= <-].
    - by rewrite list_lookup_insert_ne by done. }
  destruct (Z.eqb_spec fd m) as [->|Hne].
  - destruct (lower_maxfd_largest f (Z.to_nat (m + 1))) as (m' & E & H1 & H2 & H3 & H4).
    { unfold f. rewrite length_insert, Hlen. lia. }
    rewrite E. cbn [mbind res_bind]. eexists. split; [done|]. split; [|done].
    constructor; cbn [with_maxfd with_fds fds maxfd]; [unfold f; by rewrite length_insert|].
    exists m'. split_and!; [done | lia | unfold FD_SETSIZE in *; lia | | done].
    intros k c Hk Hc. destruct (Hlk k c Hk Hc) as [Hk' _]. specialize (Hall k c Hk' Hc).
    apply (H3 k c); [lia | done | done].
  - eexists. split; [done|]. split; [|done].
    constructor; cbn [with_maxfd with_fds with_read with_write with_except fds maxfd]; [unfold f; by rewrite length_insert|].
    exists m. split_and!; [done | lia | lia | |].
    + intros k c Hk Hc. destruct (Hlk k c Hk Hc) as [Hk' _]. by apply (Hall k c).
    + intros H0. destruct (Hmax H0) as (c & Hc & Hu). exists c. split; [|done].
      unfold f. rewrite list_lookup_insert_ne; [done|]. lia.
Qed.

(** ** Running the timers *)

Definition micro (t : timeval) : Z := tv_sec t * 1000000 + tv_usec t.

Lemma borrow_spec fuel : forall sec usec, - usec <= Z.of_nat fuel ->
  exists d, borrow fuel sec usec = Ok d /\ micro d = sec * 1000000 + usec /\ 0 <= tv_usec d /\
    (usec < 1000000 -> tv_usec d < 1000000).
Proof.
  induction fuel as [|fuel IH]; intros sec usec Hf; cbn [borrow]; destruct (Z.ltb_spec usec 0); try lia;
    try (exists (TV sec usec); split_and!; [done | done | cbn; lia | cbn; lia]).
  destruct (IH (sec - 1) (usec + 1000000)) as (d & E & H1 & H2 & H3); [lia|].
  exists d. split_and!; [done | lia | done | lia].
Qed.

(** [diff_timeval] is the difference, or zero when it would be negative. *)
Lemma diff_timeval_spec a b :
  exists d, diff_timeval a b = Ok d /\ 0 <= tv_usec d /\
    micro d = (if cmp_timeval a b <? 0 then 0 else micro a - micro b).
Proof.
  unfold diff_timeval. destruct (cmp_timeval_spec a b) as [[E [?|[? ?]]]|[[E [? ?]]|[E [?|[? ?]]]]]; rewrite E; cbn [Z.ltb Z.compare].
  all: repeat match goal with
    | |- context [?x <? ?y] => first [rewrite (proj2 (Z.ltb_lt x y)) by lia | rewrite (proj2 (Z.ltb_ge x y)) by lia]
    | |- context [?x =? ?y] => first [rewrite (proj2 (Z.eqb_eq x y)) by lia | rewrite (proj2 (Z.eqb_neq x y)) by lia]
    end; cbn [orb andb].
  all: try (exists (TV 0 0); split_and!; [done | cbn; lia | done]).
  all: destruct (borrow_spec (Z.to_nat (tv_usec b - tv_usec a)) (tv_sec a - tv_sec b) (tv_usec a - tv_usec b))
         as (d & E1 & H1 & H2 & _); [lia|]; exists d; split_and!; [done | done | unfold micro in *; lia].
Qed.

(** The armed timers that are due at [T]. *)
Definition due (T : timeval) (h : heap) : nat :=
  size (filter (fun kv => cmp_timeval kv.2 T <= 0) (armed h)).

Lemma due_delete T h q v h' : armed h !! q = Some v -> tle v T -> armed h' = delete q (armed h) ->
  due T h = Datatypes.S (due T h').
Proof.
  intros Hq Hv Ha. unfold due. rewrite Ha, map_filter_delete.
  rewrite map_size_delete_Some.
  - destruct (size _) eqn:E; [|done]. exfalso. apply map_size_empty_iff in E.
    assert (Hl : filter (fun kv : ptr * timeval => cmp_timeval kv.2 T <= 0) (armed h) !! q = Some v)
      by (by apply map_lookup_filter_Some). rewrite E in Hl. by rewrite lookup_empty in Hl.
  - exists v. by apply map_lookup_filter_Some.
Qed.

Lemma due_le T h h' :
  (forall q v, armed h' !! q = Some v -> armed h !! q = Some v \/ cmp_timeval T v < 0) -> (due T h' <= due T h)%nat.
Proof.
  intros Hall. unfold due. rewrite <- !size_dom. apply subseteq_size. intros q. rewrite !elem_of_dom.
  intros [v Hv]. apply map_lookup_filter_Some in Hv as [Hv Hle]. cbn in Hle. exists v. apply map_lookup_filter_Some.
  split; [|done]. destruct (Hall q v Hv) as [|Hlt]; [done|].
  destruct (cmp_timeval_spec v T) as [[? ?]|[[? ?]|[? ?]]], (cmp_timeval_spec T v) as [[? ?]|[[? ?]|[? ?]]]; lia.
Qed.

Section Run.
Context {World : Type} (gettimeofday : ST (selector * World) timeval)
        (call_timer : addr -> ptr -> addr -> ST (selector * World) unit) (T : timeval).

Hypothesis clock_before : forall s w, exists now w', gettimeofday (s, w) = Ok (now, (s, w')) /\ tle now T.
Hypothesis handlers_later : forall f p u s w, sched_ok (theap s) ->
  exists s' w', call_timer f p u (s, w) = Ok (tt, (s', w')) /\ sched_ok (theap s') /\
    forall q v, armed (theap s') !! q = Some v -> armed (theap s) !! q = Some v \/ cmp_timeval T v < 0.

(** The earliest timer that is armed. *)
Definition earliest (h : heap) (q : ptr) (v : timeval) : Prop :=
  armed h !! q = Some v /\ forall q' v', armed h !! q' = Some v' -> tle v v'.

(** The phase as a machine on the map of armed timers, from a reading of the clock on: the
    earliest timer is still to come, and the wait is the time to it; or it is due, is taken out, its
    handler is called with its data, and the clock is read again. *)
Inductive phase_from : timeval -> selector * World -> option timeval -> selector * World -> Prop :=
  | phase_waits now s w q v d : earliest (theap s) q v -> cmp_timeval now v < 0 ->
      micro d = micro v - micro now -> 0 <= tv_usec d -> phase_from now (s, w) (Some d) (s, w)
  | phase_runs now s w q v h1 t s2 w2 now' w3 r sw : earliest (theap s) q v -> 0 <= cmp_timeval now v ->
      armed h1 = delete q (armed (theap s)) -> sched_ok h1 -> timers (theap s) !! q = Some t ->
      call_timer (handler t) q (user_data t) (with_heap h1 s, w) = Ok (tt, (s2, w2)) ->
      gettimeofday (s2, w2) = Ok (now', (s2, w3)) -> phase_next now' (s2, w3) r sw -> phase_from now (s, w) r sw
with phase_next : timeval -> selector * World -> option timeval -> selector * World -> Prop :=
  | phase_empty now s w : armed (theap s) = ∅ -> phase_next now (s, w) None (s, w)
  | phase_goes_on now s w r sw : phase_from now (s, w) r sw -> phase_next now (s, w) r sw.

Lemma top_of_sched h timer : sched_ok h -> timer_top h = Some timer ->
  exists t v, timers h !! timer = Some t /\ timeout t = v /\ armed h !! timer = Some v /\
    forall q' v', armed h !! q' = Some v' -> tle v v'.
Proof.
  intros [l Hs] Ht. destruct (sched_heap _ _ Hs) as [Hr Ho]. rewrite (rep_top _ _ Hr) in Ht.
  destruct (linked_is_Some _ _ _ _ (rep_linked _ _ Hr) Ht) as [t Et]. exists t, (timeout t).
  assert (Hb : fv in_heap (timers h) timer = Some (in_heap t)) by (unfold fv; by rewrite Et).
  assert (Hi : in_heap t = true) by (apply (sched_flags _ _ Hs timer _ Hb); by eapply list_elem_of_lookup_2).
  split_and!; [done | done | rewrite armed_fv, Hb, Hi; unfold fv; by rewrite Et |].
  intros q' v' Ha. destruct (is_armed _ _ _ _ Hs Ha) as (_ & Hv' & Hin). apply list_elem_of_lookup in Hin as [i Hi'].
  pose proof (top_least _ _ Ho i i timer q' ltac:(lia) Ht Hi') as Hle. unfold tm, fv in *.
  rewrite Et in Hle. cbn in Hle. by rewrite Hv' in Hle.
Qed.

Lemma top_none h : sched_ok h -> timer_top h = None -> armed h = ∅.
Proof.
  intros [l Hs] Ht. destruct (sched_heap _ _ Hs) as [Hr _]. rewrite (rep_top _ _ Hr) in Ht.
  assert (l = []) as -> by (by destruct l). apply map_eq. intros q. rewrite lookup_empty.
  destruct (armed h !! q) as [v|] eqn:Ha; [|done]. destruct (is_armed _ _ _ _ Hs Ha) as (_ & _ & Hin).
  by apply not_elem_of_nil in Hin.
Qed.

Lemma on_heap_Ok {A} (m : ST heap A) s (w : World) a h :
  m (theap s) = Ok (a, h) -> on_heap m (s, w) = Ok (a, (with_heap h s, w)).
Proof. intros E. unfold on_heap. by rewrite E. Qed.

Lemma with_heap_same s : with_heap (theap s) s = s.
Proof. by destruct s. Qed.

Lemma on_heap_read {A} (f : sel_timer -> A) p s (w : World) t :
  timers (theap s) !! p = Some t -> on_heap (fld f p) (s, w) = Ok (f t, (s, w)).
Proof. intros E. erewrite on_heap_Ok; [|unfold fld; by rewrite E]. by rewrite with_heap_same. Qed.

Lemma on_heap_top s (w : World) : on_heap get_top (s, w) = Ok (timer_top (theap s), (s, w)).
Proof. erewrite on_heap_Ok; [|done]. by rewrite with_heap_same. Qed.

(** Taking a timer out leaves the handlers and their data. *)
Lemma remove_armed_data h l p v h' : sched_at h l -> armed h !! p = Some v -> (_ ← remove_from_heap p; set_fld p (with_in_heap false)) h = Ok (tt, h') ->
  forall q, fv handler (timers h') q = fv handler (timers h) q /\ fv user_data (timers h') q = fv user_data (timers h) q.
Proof.
  intros Hs Ha E q. destruct (is_armed _ _ _ _ Hs Ha) as (Hb & Hv & Hpl).
  destruct (remove_from_heap_spec h l p (sched_heap _ _ Hs) Hpl (sched_length _ _ Hs)) as (h2 & l2 & E2 & _ & _ & Hs2).
  rewrite (ST_bind_Ok _ _ _ _ _ E2) in E. destruct h2 as [m2 t2 la2]. unfold others_same in Hs2. cbn [timers] in *.
  assert (Ip2 : is_Some (m2 !! p)).
  { apply elem_of_dom. rewrite (same_dom _ _ _ Hs2). apply elem_of_dom. unfold fv in Hb. destruct (timers h !! p); [eauto|done]. }
  pose proof (set_eval p (with_in_heap false) m2 t2 la2 Ip2) as Eset. assert (h' = Heap (alter_opt (with_in_heap false) (Some p) m2) t2 la2) as -> by congruence. cbn [timers]. rewrite !fv_other by done. split; [apply (same_handler _ _ _ Hs2) | apply (same_data _ _ _ Hs2)].
Qed.

(** One round: the timer that is due is taken out and its handler called. *)
Lemma run_round fuel timer now s w t v : sched_ok (theap s) -> timers (theap s) !! timer = Some t -> timeout t = v -> armed (theap s) !! timer = Some v -> 0 <= cmp_timeval now v ->
  exists h1 s2 w2 now' w3, sched_ok h1 /\ armed h1 = delete timer (armed (theap s)) /\
    call_timer (handler t) timer (user_data t) (with_heap h1 s, w) = Ok (tt, (s2, w2)) /\ sched_ok (theap s2) /\
    (forall q v', armed (theap s2) !! q = Some v' -> armed h1 !! q = Some v' \/ cmp_timeval T v' < 0) /\
    gettimeofday (s2, w2) = Ok (now', (s2, w3)) /\ tle now' T /\
    run_timers gettimeofday call_timer (S fuel) timer now (s, w) =
      match timer_top (theap s2) with None => Ok (None, (s2, w3)) | Some timer => run_timers gettimeofday call_timer fuel timer now' (s2, w3) end.
Proof.
  intros [l Hs] Et Ev Ha Hdue. destruct (remove_armed _ _ _ _ Hs Ha) as (h1 & l1 & E1 & Hs1 & Ha1). set (s1 := with_heap h1 s).
  destruct (remove_armed_data _ _ _ _ _ Hs Ha E1 timer) as [Hh Hu]. unfold fv in Hh, Hu. rewrite Et in Hh, Hu.
  destruct (timers h1 !! timer) as [t1|] eqn:Ht1; [|done]. injection Hh as Hh. injection Hu as Hu.
  destruct (handlers_later (handler t) timer (user_data t) s1 w) as (s2 & w2 & E2 & Hs2 & Ha2); [by exists l1|].
  destruct (clock_before s2 w2) as (now' & w3 & E3 & Hnow').
  exists h1, s2, w2, now', w3. split_and!; [by exists l1 | done | done | done | done | done | done |].
  cbn [run_timers]. rewrite (ST_bind_Ok _ _ _ _ _ (on_heap_read timeout timer s w t Et)), Ev, (proj2 (Z.leb_le _ _)) by done.
  rewrite (ST_bind_Ok _ _ _ _ _ (on_heap_Ok _ s w _ _ E1)). fold s1.
  rewrite (ST_bind_Ok _ _ _ _ _ (on_heap_read handler timer s1 w t1 Ht1)), (ST_bind_Ok _ _ _ _ _ (on_heap_read user_data timer s1 w t1 Ht1)), Hh, Hu.
  rewrite (ST_bind_Ok _ _ _ _ _ E2), (ST_bind_Ok _ _ _ _ _ (on_heap_top s2 w2)), (ST_bind_Ok _ _ _ _ _ E3). by destruct (timer_top (theap s2)).
Qed.

(** The last round: the time to wait. *)
Lemma wait_round fuel timer now s w t v : timers (theap s) !! timer = Some t -> timeout t = v -> timer_top (theap s) = Some timer -> cmp_timeval now v < 0 ->
  exists d, run_timers gettimeofday call_timer fuel timer now (s, w) = Ok (Some d, (s, w)) /\ micro d = micro v - micro now /\ 0 <= tv_usec d.
Proof.
  intros Et Ev Ht Hlater. destruct (diff_timeval_spec v now) as (d & Ed & H0 & Hd). exists d.
  assert (Hge : cmp_timeval v now <? 0 = false).
  { apply Z.ltb_ge. destruct (cmp_timeval_spec v now) as [[? ?]|[[? ?]|[? ?]]], (cmp_timeval_spec now v) as [[? ?]|[[? ?]|[? ?]]]; lia. }
  rewrite Hge in Hd. split; [|done]. destruct fuel; cbn [run_timers]; rewrite (ST_bind_Ok _ _ _ _ _ (on_heap_read timeout timer s w t Et)), Ev, (proj2 (Z.leb_gt _ _)) by done;
    rewrite (ST_bind_Ok _ _ _ _ _ (on_heap_top s w)), Ht, (ST_bind_Ok _ _ _ _ _ (on_heap_Ok (deref (Some timer)) s w timer (theap s) eq_refl)), with_heap_same,
      (ST_bind_Ok _ _ _ _ _ (on_heap_read timeout timer s w t Et)), Ev, ST_bind_eq, Ed; done.
Qed.

Lemma run_timers_spec fuel : forall timer now s w,
  sched_ok (theap s) -> timer_top (theap s) = Some timer -> tle now T -> (due T (theap s) <= fuel)%nat ->
  exists r s' w', run_timers gettimeofday call_timer fuel timer now (s, w) = Ok (r, (s', w')) /\
    sched_ok (theap s') /\ phase_from now (s, w) r (s', w').
Proof.
  induction fuel as [|fuel IH]; intros timer now s w Hs Ht Hnow Hf; destruct (top_of_sched _ _ Hs Ht) as (t & v & Et & Ev & Ha & Hmin);
    destruct (Z.leb_spec 0 (cmp_timeval now v)) as [Hdue|Hlater].
  - exfalso. assert (Hle : tle v T) by (eapply tle_trans; [by apply cmp_ge_tle | done]).
    assert (Hin : filter (fun kv : ptr * timeval => cmp_timeval kv.2 T <= 0) (armed (theap s)) !! timer = Some v) by (by apply map_lookup_filter_Some).
    unfold due in Hf. assert (size (filter (fun kv : ptr * timeval => cmp_timeval kv.2 T <= 0) (armed (theap s))) = 0%nat) as H0 by lia.
    apply map_size_empty_iff in H0. rewrite H0 in Hin. by rewrite lookup_empty in Hin.
  - destruct (wait_round 0 timer now s w t v Et Ev Ht Hlater) as (d & E & Hd & H0). exists (Some d), s, w. split; [done|]. split; [done|]. by apply (phase_waits now s w timer v d).
  - assert (Hle : tle v T) by (eapply tle_trans; [by apply cmp_ge_tle | done]).
    destruct (run_round fuel timer now s w t v Hs Et Ev Ha Hdue) as (h1 & s2 & w2 & now' & w3 & Hs1 & Ha1 & E2 & Hs2 & Ha2 & E3 & Hnow' & ->).
    assert (Hdec : (due T (theap s2) <= fuel)%nat).
    { pose proof (due_delete T (theap s) timer v h1 Ha Hle Ha1). pose proof (due_le T h1 (theap s2) Ha2). lia. }
    destruct (timer_top (theap s2)) as [timer'|] eqn:Htop.
    + destruct (IH timer' now' s2 w3 Hs2 Htop Hnow' Hdec) as (r & s' & w' & E & Hs' & Hp). exists r, s', w'. split; [done|]. split; [done|].
      apply (phase_runs now s w timer v h1 t s2 w2 now' w3); try done. by apply phase_goes_on.
    + exists None, s2, w3. split; [done|]. split; [done|]. apply (phase_runs now s w timer v h1 t s2 w2 now' w3); try done. apply phase_empty. by apply top_none.
  - destruct (wait_round (S fuel) timer now s w t v Et Ev Ht Hlater) as (d & E & Hd & H0). exists (Some d), s, w. split; [done|]. split; [done|]. by apply (phase_waits now s w timer v d).
Qed.
End Run.

(** ** Properties *)

(** Setting handlers and clearing them keep [maxfd] the largest descriptor
    in use (-1 when there is none), for every descriptor below [FD_SETSIZE];
    setting changes the entry of its descriptor only, and clearing also takes
    the descriptor out of the three sets, so no later event reaches it. *)
Theorem selector_maxfd s fd data r w e :
  fds_ok s -> 0 <= fd < FD_SETSIZE ->
  (exists s', sel_set_fd_handlers s fd data r w e = Ok s' /\ fds_ok s' /\
    fds s' = <[Z.to_nat fd := FdControl true data r w e]> (fds s) /\
    read_set s' = read_set s /\ write_set s' = write_set s /\ except_set s' = except_set s) /\
  (exists s', sel_clear_fd_handlers s fd = Ok s' /\ fds_ok s' /\
    fds s' = <[Z.to_nat fd := init_fd]> (fds s) /\
    fd ∉ read_set s' ∪ write_set s' ∪ except_set s').
Proof.
  intros Hs Hfd. split.
  - destruct (set_handlers_spec s fd data r w e Hs Hfd) as (s' & E & H1 & H2 & H3 & H4 & H5 & _). eauto 10.
  - destruct (clear_handlers_spec s fd Hs Hfd) as (s' & E & H1 & H2 & H3 & H4 & H5 & _).
    exists s'. split_and!; [done | done | done |]. rewrite H3, H4, H5. set_solver.
Qed.

(** C20: The timer phase of the main loop is the machine [phase_from], started with a reading of
    the clock: while the earliest armed timer is due it is taken out, and its handler called with its data, before the clock is read
    again; when it is still to come, [select] waits exactly the time from that last reading to it; without
    a timer there is no limit to the wait.  With fuel for the timers due at [T] the phase ends, whenever the clock stays below [T] and
    the handlers arm timers only beyond [T] (as a handler that starts its timer again a second later does). *)
Theorem timer_phase_complete {World} (gettimeofday : ST (selector * World) timeval)
    (call_timer : addr -> ptr -> addr -> ST (selector * World) unit) T fuel s w :
  (forall s w, exists now w', gettimeofday (s, w) = Ok (now, (s, w')) /\ tle now T) ->
  (forall f p u s w, sched_ok (theap s) ->
    exists s' w', call_timer f p u (s, w) = Ok (tt, (s', w')) /\ sched_ok (theap s') /\
      forall q v, armed (theap s') !! q = Some v -> armed (theap s) !! q = Some v \/ cmp_timeval T v < 0) ->
  sched_ok (theap s) -> (due T (theap s) <= fuel)%nat ->
  exists r s' w', timer_phase gettimeofday call_timer fuel (s, w) = Ok (r, (s', w')) /\ sched_ok (theap s') /\
    ((armed (theap s) = ∅ /\ r = None /\ s' = s /\ w' = w) \/
     (armed (theap s) <> ∅ /\ exists now w1, gettimeofday (s, w) = Ok (now, (s, w1)) /\ phase_from gettimeofday call_timer now (s, w1) r (s', w'))).
Proof.
  intros Hc Hh Hs Hf. unfold timer_phase. rewrite (ST_bind_Ok _ _ _ _ _ (on_heap_top s w)).
  destruct (timer_top (theap s)) as [timer|] eqn:Ht.
  - destruct (Hc s w) as (now & w1 & E & Hnow). rewrite (ST_bind_Ok _ _ _ _ _ E).
    destruct (run_timers_spec gettimeofday call_timer T Hc Hh fuel timer now s w1 Hs Ht Hnow Hf) as (r & s' & w' & Er & Hs' & Hp).
    exists r, s', w'. split; [done|]. split; [done|]. right. split; [|by exists now, w1]. destruct (top_of_sched _ _ Hs Ht) as (? & ? & _ & _ & Ha & _). intros E0. by rewrite E0 in Ha.
  - exists None, s, w. split; [done|]. split; [done|]. left. split; [by apply top_none | done].
Qed.

(** [sel_alloc_selector] leaves [maxfd] unset: the first call that compares
    a descriptor with it reads memory that was never written. *)
Theorem alloc_selector_maxfd_uninit fd data r w e :
  0 <= fd < FD_SETSIZE -> sel_set_fd_handlers sel_alloc_selector fd data r w e = Crash Uninit.
Proof.
  intros Hfd. unfold sel_set_fd_handlers. rewrite fd_index_ok by done. cbn [mbind res_bind].
  rewrite store_Ok; [done|]. cbn [fds sel_alloc_selector]. rewrite length_replicate. lia.
Qed.

Definition demo_selector (h : heap) : selector :=
  Selector (replicate (Z.to_nat FD_SETSIZE) init_fd) ∅ ∅ ∅ (Some (-1)) h None false.

Lemma selector_maxfd_witness :
  (exists s', sel_set_fd_handlers (demo_selector demo_heap) 5 None (Some 1%nat) None None = Ok s' /\ fds_ok s' /\
    fds s' = <[5%nat := FdControl true None (Some 1%nat) None None]> (fds (demo_selector demo_heap)) /\
    read_set s' = ∅ /\ write_set s' = ∅ /\ except_set s' = ∅) /\
  (exists s', sel_clear_fd_handlers (demo_selector demo_heap) 5 = Ok s' /\ fds_ok s' /\
    fds s' = <[5%nat := init_fd]> (fds (demo_selector demo_heap)) /\
    5 ∉ read_set s' ∪ write_set s' ∪ except_set s').
Proof.
  apply (selector_maxfd (demo_selector demo_heap) 5 None (Some 1%nat) None None); [|unfold FD_SETSIZE; lia].
  constructor; [reflexivity|]. exists (-1). split_and!; [reflexivity | lia | unfold FD_SETSIZE; lia | | lia].
  intros k c Hk Hc. apply lookup_replicate in Hk as [-> _]. discriminate.
Defined.

Lemma timer_phase_complete_witness :
  exists r s' w', timer_phase (World := unit) (fun sw => Ok (TV 7 0, sw)) (fun _ _ _ sw => Ok (tt, sw)) 1
      (demo_selector demo_heap, tt) = Ok (r, (s', w')) /\ sched_ok (theap s') /\
    ((armed demo_heap = ∅ /\ r = None /\ s' = demo_selector demo_heap /\ w' = tt) \/
     (armed demo_heap <> ∅ /\ exists now w1, Ok (TV 7 0, (demo_selector demo_heap, tt)) = Ok (now, (demo_selector demo_heap, w1)) /\
        phase_from (fun sw => Ok (TV 7 0, sw)) (fun _ _ _ sw => Ok (tt, sw)) now (demo_selector demo_heap, w1) r (s', w'))).
Proof.
  refine (timer_phase_complete (World := unit) (fun sw => Ok (TV 7 0, sw)) (fun _ _ _ sw => Ok (tt, sw)) (TV 7 0) 1 (demo_selector demo_heap) tt _ _ _ _).
  - intros s w. exists (TV 7 0), w. split; [reflexivity | vm_compute; discriminate].
  - intros f p u s w Hs. exists s, w. split; [reflexivity|]. split; [exact Hs|]. intros q v Hq. left. exact Hq.
  - exact demo_heap_ok.
  - vm_compute. reflexivity.
Defined.

Lemma alloc_selector_maxfd_uninit_witness :
  sel_set_fd_handlers sel_alloc_selector 3 None None None None = Crash Uninit.
Proof. apply alloc_selector_maxfd_uninit. unfold FD_SETSIZE. lia. Defined.
