(* ===== verification/Utils.v ===== *)
(** * Numbers and addresses of the configuration: [ser2net/utils.c]

    [scan_int] reads the decimal numbers of the configuration in a 32-bit
    [int]; [scan_tcp_port] reads ["[x.x.x.x,]port"], cutting its argument at
    the comma as [strtok_r] does.  The resolver ([inet_addr],
    [gethostbyname]) is an interface. *)

From S2P Require Import Prelude CStr.

Definition INT_MAX : Z := 2147483647.

(** A signed 32-bit result: the value, or overflow. *)
Definition int32 (z : Z) : res Z := _ ← check ((- INT_MAX - 1 <=? z) && (z <=? INT_MAX)) IntOverflow; Ok z.

(** ** scan_int *)

Fixpoint scan_loop (p : cstr) (rv : Z) : res Z :=
  match p with
  | [] => Ok rv
  | c :: p' =>
      if isdigit c then
        r10 ← int32 (rv * 10);
        r ← int32 (r10 + (code c - 48));
        scan_loop p' r
      else Ok (-1)
  end.

Definition scan_int (p : cstr) : res Z :=
  match p with [] => Ok (-1) | _ => scan_loop p 0 end.

(** ** scan_tcp_port *)

Definition INADDR_ANY : Z := 0.
Definition INADDR_NONE : Z := 4294967295.
Definition AF_INET : Z := 2.

(** [struct sockaddr_in]; the port and the address are in network order. *)
Record sockaddr_in := SockAddr { sin_family : Z; sin_port : Z; sin_addr : Z }.

(** [htons] on a little-endian machine, with the conversion of its argument
    to [uint16_t]. *)
Definition htons (p : Z) : Z := (p mod 65536) / 256 + (p mod 256) * 256.

(** The resolver: [inet_addr] answers [INADDR_NONE] for a text that is not a
    dotted address; [gethostbyname] answers a family and its first address
    (4 bytes long when the family is [AF_INET]). *)
Class Resolver := {
  inet_addr : cstr -> Z;
  gethostbyname : cstr -> option (Z * Z)
}.

(** What the text at the first argument of [strtok_r] becomes: the byte after
    the token is overwritten with the terminator. *)
Definition strtok_left (delim : ascii -> bool) (s : cstr) : cstr :=
  let '(u, s1) := skip_while delim s in u ++ fst (skip_while (fun c => negb (delim c)) s1).

(** [strtok_r(NULL, "", &save)]: the rest of the text, if any. *)
Definition strtok_rest (s : cstr) : option cstr := match s with [] => None | _ => Some s end.

Section scan_tcp_port.
Context `{Resolver}.

(** Resolve the [ip] part. *)
Definition scan_ip (ip : cstr) : option Z :=
  if inet_addr ip =? INADDR_NONE then
    match gethostbyname ip with
    | None => None
    | Some (h_addrtype, h_addr) => if h_addrtype =? AF_INET then Some h_addr else None
    end
  else Some (inet_addr ip).

(** The answer (0 or -1), [*addr] (partly written when the answer is -1) and
    the text left at [s]. *)
Definition scan_tcp_port (s : cstr) (addr : sockaddr_in) : res (Z * sockaddr_in * cstr) :=
  let comma c := c =c ","%char in
  let left := strtok_left comma s in
  match strtok comma s with
  | None => Crash NullDeref                     (* port = ip = NULL; scan_int(NULL) *)
  | Some (ip, save) =>
      match strtok_rest save with
      | None =>
          let addr := SockAddr (sin_family addr) (sin_port addr) INADDR_ANY in
          port_num ← scan_int ip;
          if port_num =? -1 then Ok (-1, addr, left)
          else Ok (0, SockAddr AF_INET (htons port_num) (sin_addr addr), left)
      | Some port =>
          match scan_ip ip with
          | None => Ok (-1, SockAddr (sin_family addr) (sin_port addr) INADDR_NONE, left)
          | Some a =>
              let addr := SockAddr (sin_family addr) (sin_port addr) a in
              port_num ← scan_int port;
              if port_num =? -1 then Ok (-1, addr, left)
              else Ok (0, SockAddr AF_INET (htons port_num) (sin_addr addr), left)
          end
      end
  end.
End scan_tcp_port.

(** ** Decimal numbers *)

(** The decimal text of a number, as [printf("%d")] writes it. *)
Fixpoint dec_digits (fuel : nat) (n : Z) (acc : cstr) : cstr :=
  match fuel with
  | O => acc
  | S f =>
      let acc := ascii_of_N (Z.to_N (48 + n mod 10)) :: acc in
      if n / 10 =? 0 then acc else dec_digits f (n / 10) acc
  end.
Definition decimal (n : Z) : cstr := dec_digits 20 n [].

(** The value of a text of digits, without any width. *)
Definition dec_value (acc : Z) (p : cstr) : Z := fold_left (fun v c => v * 10 + (code c - 48)) p acc.

Lemma isdigit_code c : isdigit c = true -> 0 <= code c - 48 <= 9.
Proof. unfold isdigit. intros. bsolve. Qed.

Lemma dec_value_ge p acc : Forall (fun c => isdigit c = true) p -> 0 <= acc -> acc <= dec_value acc p.
Proof.
  intros Hp. revert acc. unfold dec_value. induction Hp as [|c p Hc Hp IH]; intros acc Ha; simpl; [lia|].
  apply isdigit_code in Hc. specialize (IH (acc * 10 + (code c - 48)) ltac:(lia)). lia.
Qed.

Lemma int32_Ok z : 0 <= z <= INT_MAX -> int32 z = Ok z.
Proof.
  intros Hz. unfold int32. rewrite check_true; [done|].
  rewrite (proj2 (Z.leb_le _ _)), (proj2 (Z.leb_le _ _)); [done | lia..].
Qed.

Lemma int32_inv z r : int32 z = Ok r -> r = z /\ - INT_MAX - 1 <= z <= INT_MAX.
Proof.
  unfold int32. intros H. res_simp. bprop. done.
Qed.

Lemma int32_over z : INT_MAX < z -> int32 z = Crash IntOverflow.
Proof. intros. unfold int32. rewrite (proj2 (Z.leb_gt z INT_MAX)) by lia. by rewrite andb_false_r. Qed.

Lemma scan_loop_digits p : forall rv,
  Forall (fun c => isdigit c = true) p -> 0 <= rv ->
  scan_loop p rv = if (dec_value rv p <=? INT_MAX) || bool_decide (p = []) then Ok (dec_value rv p)
                   else Crash IntOverflow.
Proof.
  induction p as [|c p IH]; intros rv Hp Hrv; [by rewrite orb_true_r|].
  inversion Hp as [|? ? Hc Hp']; subst. cbn [scan_loop]. rewrite Hc. pose proof (isdigit_code c Hc).
  pose proof (dec_value_ge p (rv * 10 + (code c - 48)) Hp' ltac:(lia)) as Hge.
  rewrite (bool_decide_eq_false_2 (c :: p = [])) by done. rewrite orb_false_r.
  change (dec_value rv (c :: p)) with (dec_value (rv * 10 + (code c - 48)) p).
  destruct (Z.leb_spec (dec_value (rv * 10 + (code c - 48)) p) INT_MAX) as [Hle|Hgt].
  - rewrite !int32_Ok by lia. cbn [mbind res_bind]. rewrite int32_Ok by lia. cbn [mbind res_bind].
    rewrite IH by (done || lia). by rewrite (proj2 (Z.leb_le _ _) Hle).
  - destruct (int32 (rv * 10)) as [r|k] eqn:E; cbn [mbind res_bind].
    + apply int32_inv in E as [-> E]. destruct (Z.leb_spec (rv * 10 + (code c - 48)) INT_MAX).
      * rewrite int32_Ok by lia. cbn [mbind res_bind]. rewrite IH by (done || lia).
        rewrite (proj2 (Z.leb_gt _ _) Hgt). case_bool_decide; [|done]. subst p. cbn in Hgt. lia.
      * by rewrite int32_over by lia.
    + destruct (Z.leb_spec (rv * 10) INT_MAX); [rewrite int32_Ok in E by lia; discriminate|].
      by rewrite int32_over in E by lia.
Qed.

(** A text with a character that is not a digit is refused, unless the digits
    before it already overflow. *)
Lemma scan_loop_bad u c p : forall rv,
  Forall (fun c => isdigit c = true) u -> isdigit c = false -> 0 <= rv ->
  scan_loop (u ++ c :: p) rv = if (dec_value rv u <=? INT_MAX) || bool_decide (u = []) then Ok (-1)
                               else Crash IntOverflow.
Proof.
  intros rv Hu Hc Hrv. pose proof (scan_loop_digits u rv Hu Hrv) as H. revert rv Hrv H.
  induction Hu as [|d u Hd Hu IH]; intros rv Hrv H; cbn [scan_loop app].
  { by rewrite Hc, orb_true_r. }
  cbn [scan_loop] in H. rewrite Hd in *. pose proof (isdigit_code d Hd).
  rewrite (bool_decide_eq_false_2 (d :: u = [])) in * by done. rewrite orb_false_r in *.
  change (dec_value rv (d :: u)) with (dec_value (rv * 10 + (code d - 48)) u) in *.
  pose proof (dec_value_ge u (rv * 10 + (code d - 48)) Hu ltac:(lia)) as Hge.
  destruct (Z.leb_spec (rv * 10 + (code d - 48)) INT_MAX).
  - rewrite !int32_Ok in * by lia. cbn [mbind res_bind] in *. rewrite int32_Ok in * by lia.
    cbn [mbind res_bind] in *. rewrite IH by (done || lia || by apply scan_loop_digits; [|lia]).
    destruct (bool_decide_reflect (u = [])) as [->|_]; [|by rewrite orb_false_r].
    rewrite orb_true_r. cbn. by rewrite (proj2 (Z.leb_le _ _)) by lia.
  - rewrite (proj2 (Z.leb_gt (dec_value _ _) INT_MAX)) by lia.
    destruct (Z.leb_spec (rv * 10) INT_MAX).
    + rewrite (int32_Ok (rv * 10)) by lia. cbn [mbind res_bind]. by rewrite int32_over by lia.
    + by rewrite int32_over by lia.
Qed.

Lemma dec_digits_spec fuel : forall n acc,
  0 <= n < 10 ^ Z.of_nat fuel -> (0 < fuel)%nat ->
  exists ds, dec_digits fuel n acc = ds ++ acc /\ Forall (fun c => isdigit c = true) ds /\
    ds <> [] /\ dec_value 0 ds = n.
Proof.
  induction fuel as [|f IH]; intros n acc Hn Hf; [lia|]. cbn [dec_digits].
  set (c := ascii_of_N (Z.to_N (48 + n mod 10))).
  pose proof (Z.mod_pos_bound n 10 ltac:(lia)) as Hm.
  assert (Hcode : code c = 48 + n mod 10).
  { unfold code, c. rewrite N_ascii_embedding by lia. lia. }
  assert (Hd : isdigit c = true).
  { unfold isdigit. rewrite (proj2 (Z.leb_le _ _)), (proj2 (Z.leb_le _ _)); [done | lia..]. }
  destruct (Z.eqb_spec (n / 10) 0) as [E|E].
  - exists [c]. split_and!; [done | by repeat constructor | done |]. cbn. rewrite Hcode.
    pose proof (Z.div_mod n 10). lia.
  - assert (Hlt : 0 <= n / 10 < 10 ^ Z.of_nat f).
    { rewrite Nat2Z.inj_succ, Z.pow_succ_r in Hn by lia. split; [apply Z.div_pos; lia|].
      apply Z.div_lt_upper_bound; lia. }
    assert (0 < f)%nat by (destruct f; [cbn in Hlt; lia | lia]).
    destruct (IH (n / 10) (c :: acc) Hlt) as (ds & Eq & Hds & Hne & Hv); [done|].
    exists (ds ++ [c]). split_and!.
    + by rewrite Eq, <- app_assoc.
    + apply Forall_app. split; [done | by repeat constructor].
    + by destruct ds.
    + unfold dec_value in *. rewrite fold_left_app, Hv. cbn. rewrite Hcode.
      pose proof (Z.div_mod n 10). lia.
Qed.

Lemma decimal_spec n : 0 <= n <= INT_MAX ->
  Forall (fun c => isdigit c = true) (decimal n) /\ decimal n <> [] /\ dec_value 0 (decimal n) = n.
Proof.
  intros Hn. destruct (dec_digits_spec 20 n []) as (ds & E & H1 & H2 & H3).
  - split; [lia|]. apply Z.le_lt_trans with (m := INT_MAX); [lia | reflexivity].
  - lia.
  - unfold decimal. by rewrite E, app_nil_r.
Qed.

Lemma decimal_slen n : slen (decimal n) <= 20.
Proof.
  assert (H : forall fuel n acc, (length (dec_digits fuel n acc) <= fuel + length acc)%nat).
  { induction fuel as [|fuel IH]; intros m acc; cbn [dec_digits]; [lia|]. destruct (m / 10 =? 0); [cbn; lia|].
    etrans; [apply IH | cbn; lia]. }
  specialize (H 20%nat n []). unfold decimal, slen. cbn [length] in H. lia.
Qed.

Lemma scan_int_decimal n : 0 <= n <= INT_MAX -> scan_int (decimal n) = Ok n.
Proof.
  intros Hn. destruct (decimal_spec n Hn) as (Hd & Hne & Hv). unfold scan_int.
  destruct (decimal n) as [|c p] eqn:E; [done|]. rewrite scan_loop_digits by (done || lia).
  rewrite Hv, (proj2 (Z.leb_le _ _)) by lia. done.
Qed.

(** A text splits into its leading digits and what follows. *)
Lemma digits_split (p : cstr) :
  Forall (fun c => isdigit c = true) p \/
  exists u c v, p = u ++ c :: v /\ Forall (fun c => isdigit c = true) u /\ isdigit c = false.
Proof.
  induction p as [|c p IH]; [by left|]. destruct (isdigit c) eqn:E.
  - destruct IH as [IH|(u & d & v & -> & Hu & Hd)]; [left; by constructor|].
    right. exists (c :: u), d, v. split_and!; [done | by constructor | done].
  - right. exists [], c, p. split_and!; [done | constructor | done].
Qed.

(** ** Properties *)

(** [scan_int] reads back every decimal an [int] can hold; a result other
    than -1 is the value of a non-empty text of digits and is not negative; a
    text that is empty or has another character is answered with -1 or, when
    digits before it already exceed an [int], overflows, as every text of
    digits above [INT_MAX] does. *)
Theorem scan_int_correct :
  (forall n, 0 <= n <= INT_MAX -> scan_int (decimal n) = Ok n) /\
  (forall p v, scan_int p = Ok v -> v <> -1 ->
     p <> [] /\ Forall (fun c => isdigit c = true) p /\ v = dec_value 0 p /\ 0 <= v <= INT_MAX) /\
  (forall p, ~ (p <> [] /\ Forall (fun c => isdigit c = true) p) ->
     scan_int p = Ok (-1) \/ scan_int p = Crash IntOverflow) /\
  (forall p, Forall (fun c => isdigit c = true) p -> INT_MAX < dec_value 0 p ->
     scan_int p = Crash IntOverflow).
Proof.
  assert (Hspec : forall p, Forall (fun c => isdigit c = true) p -> p <> [] ->
    scan_int p = if dec_value 0 p <=? INT_MAX then Ok (dec_value 0 p) else Crash IntOverflow).
  { intros p Hp Hne. destruct p; [done|]. unfold scan_int. rewrite scan_loop_digits by (done || lia).
    by rewrite bool_decide_eq_false_2, orb_false_r. }
  assert (Hbad : forall u c v, Forall (fun c => isdigit c = true) u -> isdigit c = false ->
    scan_int (u ++ c :: v) = Ok (-1) \/ scan_int (u ++ c :: v) = Crash IntOverflow).
  { intros u c v Hu Hc. replace (scan_int (u ++ c :: v)) with (scan_loop (u ++ c :: v) 0) by (by destruct u).
    rewrite scan_loop_bad by (done || lia). destruct (_ || _); auto. }
  split_and!.
  - apply scan_int_decimal.
  - intros p v H Hv. destruct (digits_split p) as [Hd|(u & c & w & -> & Hu & Hc)].
    + destruct (decide (p = [])) as [->|Hne]; [injection H as <-; done|].
      rewrite Hspec in H by done. destruct (Z.leb_spec (dec_value 0 p) INT_MAX); [|done].
      injection H as <-. pose proof (dec_value_ge p 0 Hd ltac:(lia)). split_and!; done || lia.
    + destruct (Hbad u c w Hu Hc) as [E|E]; rewrite E in H; [injection H as <-; done | done].
  - intros p Hp. destruct (digits_split p) as [Hd|(u & c & w & -> & Hu & Hc)].
    + destruct p as [|c p]; [by left|]. destruct Hp. split; [done | exact Hd].
    + by apply Hbad.
  - intros p Hd Hlt. rewrite Hspec; [by rewrite (proj2 (Z.leb_gt _ _)) by lia | done |].
    intros ->. by vm_compute in Hlt.
Qed.

Lemma not_comma_digit c : isdigit c = true -> (c =c ","%char) = false.
Proof. intros H. destruct (Ascii.eqb_spec c ","%char) as [->|]; [discriminate|done]. Qed.

Lemma strtok_left_first delim u v :
  u <> [] -> Forall (fun c => delim c = false) u ->
  match v with [] => True | c :: _ => delim c = true end ->
  strtok_left delim (u ++ v) = u.
Proof.
  intros Hne Hu Hv. pose proof (strtok_first delim u v Hne Hu Hv) as H. unfold strtok, strtok_left in *.
  destruct u as [|c u]; [done|]. inversion Hu as [|? ? Hc Hu']; subst.
  cbn [app skip_while] in *. rewrite Hc in *.
  destruct (skip_while (fun c0 : ascii => negb (delim c0)) (c :: u ++ v)) as [tok s2].
  injection H as -> _. done.
Qed.

(** [scan_tcp_port] on ["n"] listens on any address, on ["host,n"] on the
    address the resolver gives, with port [n] in network order; a host the
    resolver refuses is an error; and afterwards the text of the caller ends
    where the comma was.  There is no test that [n] is a port: [htons] keeps
    its low 16 bits. *)
Theorem scan_tcp_port_correct `{Resolver} (host : cstr) (n : Z) (addr : sockaddr_in) :
  0 <= n <= INT_MAX -> host <> [] -> ","%char ∉ host ->
  scan_tcp_port (decimal n) addr =
    Ok (0, SockAddr AF_INET (htons n) INADDR_ANY, decimal n) /\
  scan_tcp_port (host ++ ","%char :: decimal n) addr =
    Ok (match scan_ip host with
        | Some a => (0, SockAddr AF_INET (htons n) a)
        | None => (-1, SockAddr (sin_family addr) (sin_port addr) INADDR_NONE)
        end, host) /\
  htons n = htons (n mod 65536).
Proof.
  intros Hn Hne Hh. destruct (decimal_spec n Hn) as (Hd & Hdn & _).
  assert (Hdc : Forall (fun c => (c =c ","%char) = false) (decimal n)).
  { eapply Forall_impl; [exact Hd|]. apply not_comma_digit. }
  assert (Hhc : Forall (fun c => (c =c ","%char) = false) host).
  { apply Forall_forall. intros c Hc. apply Ascii.eqb_neq. intros ->. by apply Hh, list_elem_of_In. }
  split_and!.
  - pose proof (strtok_first _ (decimal n) [] Hdn Hdc I) as H1.
    pose proof (strtok_left_first _ (decimal n) [] Hdn Hdc I) as H2. rewrite app_nil_r in H1, H2.
    unfold scan_tcp_port. rewrite H1, H2. cbn [tail strtok_rest].
    rewrite scan_int_decimal by done. cbn [mbind res_bind].
    rewrite (proj2 (Z.eqb_neq n (-1))) by lia. done.
  - unfold scan_tcp_port. rewrite strtok_first, strtok_left_first by done. cbn [tail].
    destruct (decimal n) as [|c p] eqn:E; [done|]. cbn [strtok_rest]. rewrite <- E.
    destruct (scan_ip host); [|done]. rewrite scan_int_decimal by done. cbn [mbind res_bind].
    rewrite (proj2 (Z.eqb_neq n (-1))) by lia. done.
  - unfold htons. rewrite Z.mod_mod by lia. f_equal. f_equal.
    change 65536 with (256 * 256). rewrite Z.rem_mul_r by lia.
    rewrite (Z.mul_comm 256 (_ mod 256)), Z.mod_add by lia. by rewrite Z.mod_mod by lia.
Qed.

Definition demo_resolver : Resolver := {|
  inet_addr p := if streq p (str "127.0.0.1") then 16777343 else INADDR_NONE;
  gethostbyname p := if streq p (str "localhost") then Some (AF_INET, 16777343) else None
|}.

Lemma scan_tcp_port_correct_witness :
  @scan_tcp_port demo_resolver (str "2000") (SockAddr 0 0 0) = Ok (0, SockAddr 2 53255 0, str "2000") /\
  @scan_tcp_port demo_resolver (str "localhost,2000") (SockAddr 0 0 0)
    = Ok (0, SockAddr 2 53255 16777343, str "localhost") /\
  htons 2000 = htons (2000 mod 65536).
Proof.
  apply (@scan_tcp_port_correct demo_resolver (str "localhost") 2000 (SockAddr 0 0 0));
    [unfold INT_MAX; lia | discriminate | apply (bool_decide_unpack _); reflexivity].
Defined.
