(* ===== verification/MxmlParse.v ===== *)
(** * The XML parser: [mxml_parse_buffer] of [mxml/mxml.c]

    The parser walks over the text with the pointer [p] and keeps the line
    number, the tree, and [ptree], the innermost open node.  A pointer into
    the text is the text from it on; a pointer into the tree is a path, as in
    [MxmlTree], and [None] is the null pointer that is left when the root
    itself was closed.  Every round of the main loop handles one tag. *)

From S2P Require Import Prelude CStr MxmlCodec MxmlWriter MxmlTree Utils.

(** ** State and outcome *)

(** The local variables that live across the rounds. *)
Record pst := Pst {
  pp : cstr;
  line_number : Z;
  proot : node;
  ptree : option (list nat)
}.

Definition set_pp (p : cstr) (s : pst) : pst := Pst p (line_number s) (proot s) (ptree s).
Definition set_line (l : Z) (s : pst) : pst := Pst (pp s) l (proot s) (ptree s).
Definition set_root (t : node) (s : pst) : pst := Pst (pp s) (line_number s) t (ptree s).
Definition set_ptree (t : option (list nat)) (s : pst) : pst := Pst (pp s) (line_number s) (proot s) t.

(** A piece of the parser goes on, or returns through [read_error] with a
    line and a message. *)
Inductive outcome (A : Type) :=
  | Go (a : A) (s : pst)
  | ReadError (line : Z) (msg : cstr).
Arguments Go {A}.
Arguments ReadError {A}.

Definition P (A : Type) : Type := pst -> res (outcome A).
#[global] Instance P_ret : MRet P := fun A a s => Ok (Go a s).
#[global] Instance P_bind : MBind P := fun A B k m s =>
  match m s with
  | Ok (Go a s') => k a s'
  | Ok (ReadError l msg) => Ok (ReadError l msg)
  | Crash c => Crash c
  end.

Definition gets {A} (f : pst -> A) : P A := fun s => Ok (Go (f s) s).
Definition mods (f : pst -> pst) : P unit := fun s => Ok (Go tt (f s)).
Definition plift {A} (r : res A) : P A := fun s =>
  match r with Ok a => Ok (Go a s) | Crash c => Crash c end.
Definition fail_with {A} (msg : cstr) : P A := fun s => Ok (ReadError (line_number s) msg).

(** ** Scanning *)

(** [*p] *)
Definition deref (p : cstr) : ascii := match p with c :: _ => c | [] => NUL end.

(** [line_number++] at a line end. *)
Definition count_line (c : ascii) (line : Z) : Z := if c =c NL then line + 1 else line.

(** [while ( *p && f( *p)) { if ( *p == '\n') line_number++; p++; }] *)
Fixpoint skip_lines (f : ascii -> bool) (line : Z) (p : cstr) : Z * cstr :=
  match p with
  | [] => (line, [])
  | c :: p' => if f c then skip_lines f (count_line c line) p' else (line, p)
  end.

(** [while (strncmp(p, lit, n) != 0) { ...; p++; }]: past the end of the text
    unless [lit] is there. *)
Fixpoint until (lit : cstr) (line : Z) (p : cstr) : res (Z * cstr) :=
  if starts lit p then Ok (line, p)
  else match p with
       | [] => Crash OutOfBounds
       | c :: p' => until lit (count_line c line) p'
       end.

(** The loop over [!DOCTYPE]: to the [>] that closes it, or to the end. *)
Fixpoint doctype_loop (j line : Z) (p : cstr) : Z * cstr :=
  match p with
  | [] => (line, [])
  | c :: p' =>
      if negb (c =c ">") || (0 <? j) then
        if c =c NL then doctype_loop j (line + 1) p'
        else if c =c "<" then doctype_loop (j + 1) line p'
        else if c =c ">" then doctype_loop (j - 1) line p'
        else doctype_loop j line p'
      else (line, p)
  end.

(** The text from [a] to [b], a later pointer into the same text; an earlier
    one would make a huge [size_t]. *)
Definition segment (a b : cstr) : res cstr :=
  if (length b <=? length a)%nat then Ok (take (length a - length b) a) else Crash OutOfBounds.

(** [memcpy] of a segment into an array of [size], cut to fit. *)
Definition cut (size : nat) (v : cstr) : cstr := take (size - 1) v.

Definition skip_p (f : ascii -> bool) : P unit := fun s =>
  let '(l, p) := skip_lines f (line_number s) (pp s) in Ok (Go tt (Pst p l (proot s) (ptree s))).

Definition advance (n : nat) : P unit := mods (fun s => set_pp (drop n (pp s)) s).

Definition EOF_MSG : cstr := str "Unexpected end of file".

(** [if (! *p) return read_error(...)] *)
Definition check_eof : P unit :=
  p ← gets pp;
  match p with [] => fail_with EOF_MSG | _ => mret tt end.

Definition skip_blanks : P unit := _ ← skip_p isspace; check_eof.

(** ** The tree under construction *)

(** Write through a pointer to a node. *)
Fixpoint alter_at (path : list nat) (f : node -> res node) (t : node) : res node :=
  match path with
  | [] => f t
  | i :: path' =>
      match child t !! i with
      | None => Crash OutOfBounds
      | Some c => c' ← alter_at path' f c; Ok (set_child t (<[i := c']> (child t)))
      end
  end.

Definition on_node (path : list nat) (f : node -> res node) : P unit := fun s =>
  match alter_at path f (proot s) with
  | Ok t => Ok (Go tt (set_root t s))
  | Crash c => Crash c
  end.

(** [mxml_add_special_node(ptree, ...)] and the pointer it returns;
    [ptree->n_children] is read to call it. *)
Definition add_child (node_type : Z) (node_name : cstr) : P (list nat) :=
  pt ← gets ptree;
  match pt with
  | None => plift (Crash NullDeref)
  | Some path =>
      root ← gets proot;
      match subtree root path with
      | None => plift (Crash OutOfBounds)
      | Some n =>
          _ ← on_node path (fun n => mxml_add_special_node n node_type node_name None);
          mret (path ++ [length (child n)])
      end
  end.

Definition set_line_start (l : Z) (n : node) : res node := Ok (set_lines n l (line_end n)).
Definition set_line_end (l : Z) (n : node) : res node := Ok (set_lines n (line_start n) l).
Definition put_value (v : cstr) (n : node) : res node := Ok (set_value n (Some v)).

(** ** The branches of a round *)

Definition DASHES : cstr := str "-->".

(** [<!-- ... -->], from the [!] on. *)
Definition parse_comment : P unit :=
  line ← gets line_number;
  pnew ← add_child COMMENT_NODE (str "Comment");
  _ ← on_node pnew (set_line_start line);
  p ← gets pp;
  let pv := snd (skip_while (fun c => c =c " ") (drop 3 p)) in
  _ ← advance 3;
  p ← gets pp;
  match strstr p DASHES with
  | None => fail_with (str "Unterminated comment")
  | Some _ =>
      '(line, p) ← plift (until DASHES line p);
      _ ← mods (set_line line);
      v ← plift (segment pv p);
      _ ← on_node pnew (put_value (mxml_decode v));
      _ ← on_node pnew (set_line_end line);
      mods (set_pp (drop 3 p))
  end.

(** [<? ... ?>], from the first [?] on. *)
Definition parse_pi : P unit :=
  line ← gets line_number;
  pnew ← add_child PROCESSING_INSTRUCTION_NODE (str "PI");
  _ ← on_node pnew (set_line_start line);
  p ← gets pp;
  let pv := drop 1 p in
  _ ← advance 1;
  p ← gets pp;
  match strstr p (str "?>") with
  | None => fail_with (str "Unterminated ?...? element")
  | Some _ =>
      '(line, p) ← plift (until (str "?>") line p);
      _ ← mods (set_line line);
      v ← plift (segment pv p);
      _ ← on_node pnew (put_value (mxml_decode v));
      _ ← on_node pnew (set_line_end line);
      mods (set_pp (drop 2 p))
  end.

Definition parse_doctype : P unit :=
  _ ← advance 8;
  p ← gets pp;
  match strchr p ">" with
  | None => fail_with (str "Unterminated !DOCTYPE element")
  | Some _ =>
      line ← gets line_number;
      let '(line, p) := doctype_loop 0 line p in
      _ ← mods (fun s => set_pp p (set_line line s));
      _ ← check_eof;
      advance 1
  end.

(** A character of a node name, in the text. *)
Definition name_char (c : ascii) : bool :=
  negb (isspace c) && negb (c =c "/") && negb (c =c ">") && negb (c =c "<").

Definition quoted (name : cstr) : cstr := DQUOTE :: name ++ [DQUOTE].

(** The name is copied to [node_name[256]] without a bound. *)
Definition parse_name : P cstr :=
  p ← gets pp;
  let '(name, rest) := skip_while name_char p in
  _ ← plift (check (length name <? 256)%nat OutOfBounds);
  _ ← mods (set_pp rest);
  _ ← check_eof;
  if deref rest =c "<" then fail_with (str "Unexpected '<' inside element " ++ quoted name)
  else mret (mxml_decode name).

(** A closing tag, behind its name. *)
Definition parse_end_element (node_name : cstr) : P unit :=
  pt ← gets ptree;
  match pt with
  | None => fail_with (str "Found unexpected </" ++ node_name ++ str ">")
  | Some path =>
      root ← gets proot;
      match subtree root path with
      | None => plift (Crash OutOfBounds)
      | Some n =>
          if streq (nname n) node_name then
            line ← gets line_number;
            _ ← on_node path (set_line_end line);
            mods (set_ptree (match path with [] => None | _ => Some (removelast path) end))
          else fail_with (str "Found </" ++ node_name ++ str ">, expected </" ++ nname n ++ str ">")
      end
  end.

(** A character of an attribute name, in the text. *)
Definition attrib_char (c : ascii) : bool :=
  negb (isspace c) && negb (c =c "=") && negb (c =c "<") && negb (c =c ">").

Definition is_quote (c : ascii) : bool := (c =c DQUOTE) || (c =c SQUOTE).

(** One attribute: its name, [=], and its value between quotes. *)
Definition parse_attribute (pnew : list nat) (node_name : cstr) : P unit :=
  p ← gets pp;
  let '(name, pv) := skip_while attrib_char p in
  _ ← (match pv with [] => fail_with EOF_MSG | _ => mret tt end);
  if (deref pv =c "<") || (deref pv =c ">")
  then fail_with (str "Unexpected '" ++ [deref pv] ++ str "' inside element " ++ quoted node_name)
  else
    let attrib_name := mxml_decode (cut 256 name) in
    _ ← mods (set_pp pv);
    _ ← skip_blanks;
    p ← gets pp;
    if negb (deref p =c "=") then fail_with (str "Expect " ++ quoted (str "=") ++ str " here")
    else
      _ ← advance 1;
      _ ← skip_blanks;
      p ← gets pp;
      let quote := deref p in
      if negb (is_quote quote) then fail_with (str "Expect " ++ [DQUOTE] ++ str " or ' here")
      else
        _ ← advance 1;
        p ← gets pp;
        let '(value, pv) := skip_while (fun c => negb (c =c quote)) p in
        _ ← (match pv with [] => fail_with EOF_MSG | _ => mret tt end);
        let attrib_value := mxml_decode (cut 1000 value) in
        _ ← on_node pnew (fun n => a ← mxml_add_attribute (nattrs n) attrib_name attrib_value; Ok (set_attrs n a));
        _ ← mods (set_pp (drop 1 pv));
        skip_blanks.

(** [while ( *p != '>' && *p != '/')]; every attribute takes characters of the
    text, whose length is fuel enough. *)
Fixpoint parse_attributes (fuel : nat) (pnew : list nat) (node_name : cstr) : P unit :=
  p ← gets pp;
  if (deref p =c ">") || (deref p =c "/") then mret tt
  else
    match fuel with
    | O => plift (Crash NoFuel)
    | S fuel' => _ ← parse_attribute pnew node_name; parse_attributes fuel' pnew node_name
    end.

(** [if ( *p == '/')]: the rest of an empty element. *)
Definition parse_empty : P unit :=
  p ← gets pp;
  if deref p =c "/" then
    _ ← advance 1;
    _ ← skip_blanks;
    p ← gets pp;
    if negb (deref p =c ">") then fail_with (str "Expected " ++ quoted (str ">") ++ str " after " ++ quoted (str "/"))
    else advance 1
  else mret tt.

(** [if ( *p == '>')]: a sub-element, or the value. *)
Definition parse_content (pnew : list nat) : P unit :=
  p ← gets pp;
  if deref p =c ">" then
    _ ← advance 1;
    p ← gets pp;
    line ← gets line_number;
    let '(line, pv) := skip_lines isspace line p in
    _ ← mods (set_line line);
    match pv with
    | [] => fail_with EOF_MSG
    | c :: pv1 =>
        if (c =c "<") && negb (deref pv1 =c "/") then
          _ ← mods (set_ptree (Some pnew));
          mods (set_pp pv)
        else
          let '(line, pv) := skip_lines (fun c => negb (c =c "<")) line pv in
          _ ← mods (set_line line);
          match pv with
          | [] => fail_with EOF_MSG
          | _ =>
              v ← plift (segment p pv);
              _ ← on_node pnew (put_value (mxml_decode v));
              _ ← mods (set_pp pv);
              mods (set_ptree (Some pnew))
          end
    end
  else mret tt.

(** An opening tag, behind its name. *)
Definition parse_start_element (node_name : cstr) : P unit :=
  pt ← gets ptree;
  match pt with
  | None => fail_with (str "Unexpected second top level node")
  | Some _ =>
      pnew ← add_child ELEMENT_NODE node_name;
      line ← gets line_number;
      _ ← on_node pnew (set_line_start line);
      _ ← on_node pnew (set_line_end line);
      _ ← skip_blanks;
      p ← gets pp;
      _ ← parse_attributes (length p) pnew node_name;
      _ ← parse_empty;
      parse_content pnew
  end.

(** [if ( *p == '<')], behind the [<]. *)
Definition parse_tag : P unit :=
  _ ← advance 1;
  _ ← skip_blanks;
  p ← gets pp;
  if starts (str "!--") p then parse_comment
  else if deref p =c "?" then parse_pi
  else if starts (str "!DOCTYPE") p then parse_doctype
  else if deref p =c "/" then
    _ ← advance 1;
    _ ← skip_blanks;
    name ← parse_name;
    parse_end_element name
  else
    name ← parse_name;
    parse_start_element name.

(** One round of the main loop. *)
Definition parse_round : P unit :=
  p ← gets pp;
  _ ← (if deref p =c "<" then parse_tag else mret tt);
  skip_p (fun c => negb (c =c "<")).

(** [do { ... } while ( *p)] *)
Fixpoint parse_loop (fuel : nat) : P unit :=
  match fuel with
  | O => plift (Crash NoFuel)
  | S fuel' =>
      _ ← parse_round;
      p ← gets pp;
      match p with [] => mret tt | _ => parse_loop fuel' end
  end.

(** ** read_error and mxml_parse_buffer *)

(** The message is made in [str[1000]]; the answer is the text left in
    [error], an array of the given size, when the caller gave one. *)
Definition read_error (file_name : option cstr) (line : Z) (error_size : option Z) (msg : cstr)
    : res (option cstr) :=
  let head :=
    match file_name with
    | Some (c :: f) => str "XML read error in file " ++ quoted (c :: f) ++ str ", line " ++ decimal line ++ str ": "
    | _ => str "XML read error, line " ++ decimal line ++ str ": "
    end in
  _ ← check (slen head <? 1000) OutOfBounds;
  _ ← check (slen msg <? 1000) OutOfBounds;
  Ok ((fun size => strlcat_val size (strlcpy_val size head) msg) <$> error_size).

(** The tree, or [NULL] with [*error_line] and the text of [error]. *)
Inductive parsed :=
  | Parsed (t : node)
  | NotParsed (error_line : Z) (error : option cstr).

Definition mxml_parse_buffer (buf : cstr) (error_size : option Z) : res parsed :=
  o ← parse_loop (S (length buf)) (Pst buf 1 mxml_create_root_node (Some []));
  match o with
  | Go _ s => Ok (Parsed (proot s))
  | ReadError line msg => e ← read_error None line error_size msg; Ok (NotParsed line e)
  end.

(** ** Stepping through the parser *)

Lemma P_bind_Go {A B} (m : P A) (k : A -> P B) s a s' : m s = Ok (Go a s') -> (m ≫= k) s = k a s'.
Proof. intros E. unfold mbind, P_bind. by rewrite E. Qed.

Lemma P_bind_assoc {A B C} (m : P A) (k : A -> P B) (h : B -> P C) s :
  ((m ≫= k) ≫= h) s = (m ≫= (fun a => k a ≫= h)) s.
Proof. unfold mbind, P_bind. by destruct (m s) as [[a s'|l e]|c]. Qed.

Lemma P_bind_gets {A B} (f : pst -> A) (k : A -> P B) s : (gets f ≫= k) s = k (f s) s.
Proof. done. Qed.
Lemma P_bind_mods {B} (f : pst -> pst) (k : unit -> P B) s : (mods f ≫= k) s = k tt (f s).
Proof. done. Qed.
Lemma P_bind_ret {A B} (a : A) (k : A -> P B) s : (mret a ≫= k) s = k a s.
Proof. done. Qed.
Lemma P_bind_advance {B} n (k : unit -> P B) s : (advance n ≫= k) s = k tt (set_pp (drop n (pp s)) s).
Proof. done. Qed.
Lemma P_bind_lift {A B} (a : A) (k : A -> P B) s : (plift (Ok a) ≫= k) s = k a s.
Proof. done. Qed.

Lemma P_bind_advance1 {B} (k : unit -> P B) c p l t pt :
  (advance 1 ≫= k) (Pst (c :: p) l t pt) = k tt (Pst p l t pt).
Proof. done. Qed.

(** The parser runs forward through assignments, and through a step whose
    result is known. *)
Ltac p_run :=
  repeat (first
    [ rewrite P_bind_assoc | rewrite P_bind_gets | rewrite P_bind_mods | rewrite P_bind_ret
    | rewrite P_bind_advance1 | rewrite P_bind_advance | rewrite P_bind_lift | rewrite drop_0 ];
    cbn [pp line_number proot ptree set_pp set_line set_root set_ptree drop]).
Ltac p_step E := rewrite (P_bind_Go _ _ _ _ _ E); p_run.

(** [v] ends, or its first character is outside [f]. *)
Definition stops (f : ascii -> bool) (v : cstr) : Prop :=
  match v with [] => True | c :: _ => f c = false end.

Lemma skip_lines_app f u v : forall line,
  Forall (fun c => f c = true) u -> stops f v -> exists line', skip_lines f line (u ++ v) = (line', v).
Proof.
  induction u as [|c u IH]; intros line Hu Hv; cbn [app].
  - destruct v as [|c v]; cbn [skip_lines]; [eauto|]. cbn in Hv. rewrite Hv. eauto.
  - apply Forall_cons in Hu as [Hc Hu]. cbn [skip_lines]. rewrite Hc. by apply IH.
Qed.

Lemma skip_lines_stop f line v : stops f v -> skip_lines f line v = (line, v).
Proof. destruct v as [|c v]; cbn; [done|]. by intros ->. Qed.

Lemma skip_while_app_stop f u v : Forall (fun c => f c = true) u -> stops f v -> skip_while f (u ++ v) = (u, v).
Proof.
  intros Hu Hv. destruct v as [|c v]; [rewrite app_nil_r; by apply skip_while_all|].
  by apply skip_while_stop.
Qed.

(** Blanks in front of something else are skipped, and the end is not met. *)
Lemma skip_blanks_app u c v line t pt :
  Forall (fun c => isspace c = true) u -> isspace c = false ->
  exists line', skip_blanks (Pst (u ++ c :: v) line t pt) = Ok (Go tt (Pst (c :: v) line' t pt)).
Proof.
  intros Hu Hc. destruct (skip_lines_app isspace u (c :: v) line Hu Hc) as [line' E]. exists line'.
  unfold skip_blanks, skip_p, mbind, P_bind. cbn [pp line_number]. by rewrite E.
Qed.

Lemma skip_blanks_stop c v line t pt :
  isspace c = false -> skip_blanks (Pst (c :: v) line t pt) = Ok (Go tt (Pst (c :: v) line t pt)).
Proof. intros Hc. unfold skip_blanks, skip_p, mbind, P_bind. cbn [pp line_number skip_lines]. by rewrite Hc. Qed.

(** *** The tree *)

(** The tree with the node at [path] replaced. *)
Fixpoint plug (path : list nat) (n t : node) : node :=
  match path with
  | [] => n
  | i :: path' =>
      match child t !! i with
      | None => t
      | Some c => set_child t (<[i := plug path' n c]> (child t))
      end
  end.

Definition append (n c : node) : node := set_child n (child n ++ [c]).

Lemma child_set_child n l : child (set_child n l) = l.
Proof. by destruct n. Qed.
Lemma set_child_twice n l l' : set_child (set_child n l) l' = set_child n l'.
Proof. by destruct n. Qed.
Lemma set_child_same n : set_child n (child n) = n.
Proof. by destruct n. Qed.

Lemma subtree_app t p q : subtree t (p ++ q) = (n ← subtree t p; subtree n q).
Proof.
  revert t. induction p as [|i p IH]; intros t; [done|]. cbn [subtree app].
  destruct (child t !! i) as [c|]; [apply IH | done].
Qed.

Lemma alter_at_plug p f t n n' :
  subtree t p = Some n -> f n = Ok n' -> alter_at p f t = Ok (plug p n' t).
Proof.
  revert t. induction p as [|i p IH]; intros t; cbn [subtree alter_at plug]; [by intros [= ->]|].
  destruct (child t !! i) as [c|]; [|done]. intros Hs Hf. by rewrite (IH c Hs Hf).
Qed.

Lemma subtree_plug p t n m : subtree t p = Some m -> subtree (plug p n t) p = Some n.
Proof.
  revert t. induction p as [|i p IH]; intros t; cbn [subtree plug]; [done|].
  destruct (child t !! i) as [c|] eqn:E; [|done]. intros Hs. rewrite child_set_child.
  rewrite list_lookup_insert_eq by (by eapply lookup_lt_Some). by apply IH.
Qed.

Lemma plug_plug p t n n' : plug p n' (plug p n t) = plug p n' t.
Proof.
  revert t. induction p as [|i p IH]; intros t; cbn [plug]; [done|].
  destruct (child t !! i) as [c|] eqn:E; [|by rewrite E].
  rewrite child_set_child, list_lookup_insert_eq by (by eapply lookup_lt_Some).
  by rewrite set_child_twice, list_insert_insert_eq, IH.
Qed.

Lemma plug_same p t n : subtree t p = Some n -> plug p n t = t.
Proof.
  revert t. induction p as [|i p IH]; intros t; cbn [subtree plug]; [by intros [= ->]|].
  destruct (child t !! i) as [c|] eqn:E; [|done]. intros Hs. rewrite (IH c Hs), list_insert_id by done.
  apply set_child_same.
Qed.

Lemma plug_app p q t n c : subtree t p = Some n -> plug (p ++ q) c t = plug p (plug q c n) t.
Proof.
  revert t. induction p as [|i p IH]; intros t; cbn [subtree plug app]; [by intros [= ->]|].
  destruct (child t !! i) as [d|] eqn:E; [|done]. intros Hs. by rewrite (IH d Hs).
Qed.

Lemma plug_new n c c' : plug [length (child n)] c' (append n c) = append n c'.
Proof.
  cbn [plug]. unfold append. rewrite child_set_child, list_lookup_middle by done.
  by rewrite set_child_twice, insert_app_at.
Qed.

Lemma subtree_new n c : subtree (append n c) [length (child n)] = Some c.
Proof. cbn [subtree]. unfold append. by rewrite child_set_child, list_lookup_middle. Qed.

(** [Under s path n c]: the node at [path] has the children of [n] and behind
    them [c], the node under construction; [t] is the tree around it. *)
Definition under (path : list nat) (n c t : node) : node := plug path (append n c) t.

Lemma under_subtree path n c t m :
  subtree t path = Some m -> subtree (under path n c t) (path ++ [length (child n)]) = Some c.
Proof.
  intros Hs. rewrite subtree_app. unfold under. rewrite (subtree_plug _ _ _ _ Hs). cbn [mbind option_bind].
  apply subtree_new.
Qed.

Lemma under_plug path n c c' t m :
  subtree t path = Some m -> plug (path ++ [length (child n)]) c' (under path n c t) = under path n c' t.
Proof.
  intros Hs. unfold under. rewrite (plug_app _ _ _ _ _ (subtree_plug _ _ _ _ Hs)), plug_new. apply plug_plug.
Qed.

Lemma on_node_under path n c c' t m f p line pt :
  subtree t path = Some m -> f c = Ok c' ->
  on_node (path ++ [length (child n)]) f (Pst p line (under path n c t) pt)
    = Ok (Go tt (Pst p line (under path n c' t) pt)).
Proof.
  intros Hs Hf. unfold on_node. cbn [proot].
  rewrite (alter_at_plug _ _ _ c c' (under_subtree _ _ _ _ _ Hs) Hf). cbn [set_root pp line_number ptree].
  by rewrite (under_plug _ _ _ _ _ _ Hs).
Qed.

Lemma add_child_under node_type name path n t p line :
  subtree t path = Some n ->
  add_child node_type name (Pst p line t (Some path))
    = Ok (Go (path ++ [length (child n)])
        (Pst p line (under path n (new_node node_type name None) t) (Some path))).
Proof.
  intros Hs. unfold add_child. p_run. rewrite Hs.
  assert (E : on_node path (fun n => mxml_add_special_node n node_type name None) (Pst p line t (Some path))
    = Ok (Go tt (Pst p line (under path n (new_node node_type name None) t) (Some path)))).
  { unfold on_node. cbn [proot].
    rewrite (alter_at_plug _ _ _ n (append n (new_node node_type name None)) Hs); [done|].
    unfold mxml_add_special_node, mxml_add_special_node_at, insert_child.
    rewrite Nat.leb_refl. cbn [check mbind res_bind]. unfold append.
    by rewrite take_ge, drop_ge by lia. }
  by p_step E.
Qed.

(** *** Encoded text *)

Definition enc (s : cstr) : cstr := flat_map (mxml_encode_char true) s.

Lemma decode_enc s : mxml_decode (enc s) = s.
Proof. apply decode_encode_text. Qed.

(** Characters that encoding leaves alone, or that occur in references. *)
Lemma enc_char_Forall (f : ascii -> bool) c :
  Forall (fun c => f c = true) (str "&ltgampquos;") -> f c = true \/ c ∈ [DQUOTE; SQUOTE; "<"; ">"; "&"]%char ->
  Forall (fun c => f c = true) (mxml_encode_char true c).
Proof.
  intros Hr Hc. unfold mxml_encode_char. repeat (apply Forall_cons in Hr as [? Hr]).
  repeat match goal with
  | |- context [if ?a =c ?b then _ else _] => destruct (Ascii.eqb_spec a b); [subst; repeat constructor; assumption|]
  end.
  constructor; [|constructor]. destruct Hc as [Hc|Hc]; [done|]. set_solver.
Qed.

Lemma enc_Forall (f : ascii -> bool) s :
  Forall (fun c => f c = true) (str "&ltgampquos;") ->
  Forall (fun c => f c = true \/ c ∈ [DQUOTE; SQUOTE; "<"; ">"; "&"]%char) s -> Forall (fun c => f c = true) (enc s).
Proof.
  intros Hr Hs. unfold enc. induction Hs as [|c s Hc Hs IH]; [constructor|]. cbn [flat_map].
  apply Forall_app. split; [by apply enc_char_Forall | done].
Qed.

(** The head of encoded text: the character, or an ampersand for it. *)
Lemma enc_head c s : exists d v, enc (c :: s) = d :: v /\
  (d = c \/ d = "&"%char) /\ d ∉ [DQUOTE; SQUOTE; "<"; ">"]%char.
Proof.
  unfold enc. cbn [flat_map]. unfold mxml_encode_char.
  repeat match goal with
  | |- context [if ?a =c ?b then _ else _] =>
      destruct (Ascii.eqb_spec a b); [subst; eexists _, _; split; [reflexivity|]; split; [by right | set_solver]|]
  end.
  eexists _, _. split; [reflexivity|]. split; [by left | set_solver].
Qed.

(** ** What the parser reads back

    The names, attributes and values that [mxml_write_subtree] writes in a
    form the parser understands: a name without blanks and slashes that does
    not start like a comment or an instruction and fits [node_name] when
    encoded, attribute texts that fit their buffers, and, in front of
    children, a value that is not blank. *)
Definition name_ok (name : cstr) : bool :=
  match name with [] => false | c :: _ => negb (c =c "!") && negb (c =c "?") end
  && forallb (fun c => negb (isspace c) && negb (c =c "/")) name
  && (slen name <? MXML_NAME_LENGTH) && (length (enc name) <? 256)%nat.

Definition attr_ok (p : cstr * cstr) : bool :=
  negb (deref p.1 =c "/") && forallb (fun c => negb (isspace c) && negb (c =c "=")) p.1
  && (slen p.1 <? MXML_NAME_LENGTH) && (length (enc p.1) <? 256)%nat && (length (enc p.2) <? 1000)%nat.

Definition content_ok (v : option cstr) (cs : list node) : bool :=
  match v, cs with Some v, _ :: _ => negb (forallb isspace v) | _, _ => true end.

Inductive parseable : node -> Prop :=
  | parseable_node name v l a b cs :
      name_ok name = true -> Forall (fun p => attr_ok p = true) l -> content_ok v cs = true ->
      Forall parseable cs -> parseable (Node name ELEMENT_NODE v (attr_rep l) a b cs).

Lemma ceqb_ne (a b : ascii) : a <> b -> (a =c b) = false.
Proof. apply Ascii.eqb_neq. Qed.

Lemma forallb_Forall {A} (f : A -> bool) l : forallb f l = true <-> Forall (fun x => f x = true) l.
Proof. rewrite forallb_forall, List.Forall_forall. done. Qed.

(** A name in the text: what it is made of and how it begins. *)
Lemma name_ok_spec name :
  name_ok name = true ->
  Forall (fun c => name_char c = true) (enc name) /\ slen name < MXML_NAME_LENGTH /\
  (length (enc name) < 256)%nat /\
  exists d v, enc name = d :: v /\ isspace d = false /\ d ∉ ["!"; "?"; "/"; "<"; ">"]%char.
Proof.
  unfold name_ok. intros H. bprop. apply forallb_Forall in H2. apply Nat.ltb_lt in H0.
  split; [|split; [done|split; [done|]]].
  - apply enc_Forall; [repeat constructor|]. eapply List.Forall_impl; [|exact H2]. intros c Hc. cbn beta in Hc. bprop.
    destruct (decide (c ∈ [">"; "<"]%char)); [right; set_solver|]. left. unfold name_char.
    rewrite H3, H4, (ceqb_ne c ">"), (ceqb_ne c "<") by set_solver. done.
  - destruct name as [|c r]; [done|]. bprop. destruct (enc_head c r) as (d & v & E & Hd & Hn). exists d, v.
    split; [done|]. apply Forall_cons in H2 as [Hc _]. bprop.
    destruct Hd as [->| ->]; [|split; [done | set_solver]]. split; [done|].
    destruct (Ascii.eqb_spec c "!"), (Ascii.eqb_spec c "?"), (Ascii.eqb_spec c "/"); try done. set_solver.
Qed.

Lemma parse_name_enc name d r line t pt :
  name_ok name = true -> name_char d = false -> d <> "<"%char ->
  parse_name (Pst (enc name ++ d :: r) line t pt) = Ok (Go name (Pst (d :: r) line t pt)).
Proof.
  intros Hn Hd Hlt. apply name_ok_spec in Hn as (Hall & _ & Hlen & _). unfold parse_name. p_run.
  rewrite (skip_while_app_stop name_char _ (d :: r) Hall Hd). rewrite (proj2 (Nat.ltb_lt _ _) Hlen).
  cbn [check]. p_run. unfold check_eof. p_run. cbn [deref].
  destruct (Ascii.eqb_spec d "<"); [done|]. by rewrite decode_enc.
Qed.

Lemma attr_ok_spec p :
  attr_ok p = true ->
  Forall (fun c => attrib_char c = true) (enc p.1) /\ (length (enc p.1) < 256)%nat /\ (length (enc p.2) < 1000)%nat /\
  slen p.1 < MXML_NAME_LENGTH /\
  forall w, exists d v, enc p.1 ++ "="%char :: w = d :: v /\ isspace d = false /\ d <> ">"%char /\ d <> "/"%char.
Proof.
  unfold attr_ok. intros H. bprop. apply forallb_Forall in H3. apply Nat.ltb_lt in H0. apply Nat.ltb_lt in H1.
  split; [|split; [done|split; [done|split; [done|]]]].
  - apply enc_Forall; [repeat constructor|]. eapply List.Forall_impl; [|exact H3]. intros c Hc. cbn beta in Hc. bprop.
    destruct (decide (c ∈ [">"; "<"]%char)); [right; set_solver|]. left. unfold attrib_char.
    rewrite H4, H5, (ceqb_ne c ">"), (ceqb_ne c "<") by set_solver. done.
  - intros w. destruct (p.1) as [|c r]; [by exists "="%char, w|].
    destruct (enc_head c r) as (d & v & E & Hd & Hn). exists d, (v ++ "="%char :: w). rewrite E.
    split; [done|]. apply Forall_cons in H3 as [Hc _]. bprop. cbn [deref] in H.
    destruct Hd as [->| ->]; [|done]. split; [done|]. destruct (Ascii.eqb_spec c "/"); [done|]. split; [set_solver|done].
Qed.

Lemma enc_no_quote s : Forall (fun c => negb (c =c DQUOTE) = true) (enc s).
Proof.
  apply enc_Forall; [repeat constructor|]. apply Forall_forall. intros c _.
  destruct (Ascii.eqb_spec c DQUOTE); [subst; right; set_solver | by left].
Qed.

Lemma cut_short n v : (length v < n)%nat -> cut n v = v.
Proof. intros. unfold cut. apply take_ge. lia. Qed.

Lemma parse_attribute_step p l path n c m t line name u d v pt :
  attr_ok p = true -> subtree t path = Some m -> nattrs c = attr_rep l ->
  Forall (fun c => isspace c = true) u -> isspace d = false ->
  exists line', parse_attribute (path ++ [length (child n)]) name
    (Pst (enc p.1 ++ "="%char :: DQUOTE :: enc p.2 ++ DQUOTE :: u ++ d :: v) line (under path n c t) pt)
  = Ok (Go tt (Pst (d :: v) line' (under path n (set_attrs c (attr_rep (l ++ [p]))) t) pt)).
Proof.
  intros Hp Hs Hc Hu Hd. apply attr_ok_spec in Hp as (Hn & Hl1 & Hl2 & Hl3 & _).
  destruct (skip_blanks_app u d v line (under path n (set_attrs c (attr_rep (l ++ [p]))) t) pt Hu Hd) as [line' E].
  exists line'. unfold parse_attribute. p_run.
  rewrite (skip_while_app_stop attrib_char _ ("="%char :: _) Hn eq_refl). p_run. cbn [deref].
  change (("="%char =c "<") || ("="%char =c ">")) with false. cbv iota. p_run.
  p_step (skip_blanks_stop "="%char (DQUOTE :: enc p.2 ++ DQUOTE :: u ++ d :: v) line (under path n c t) pt eq_refl).
  change (negb (deref ("="%char :: DQUOTE :: enc p.2 ++ DQUOTE :: u ++ d :: v) =c "=")) with false. cbv iota. p_run.
  p_step (skip_blanks_stop DQUOTE (enc p.2 ++ DQUOTE :: u ++ d :: v) line (under path n c t) pt eq_refl).
  change (negb (is_quote (deref (DQUOTE :: enc p.2 ++ DQUOTE :: u ++ d :: v)))) with false. cbv iota. p_run.
  change (deref (DQUOTE :: enc p.2 ++ DQUOTE :: u ++ d :: v)) with DQUOTE.
  rewrite (skip_while_app_stop (fun c => negb (c =c DQUOTE)) _ (DQUOTE :: _) (enc_no_quote p.2) eq_refl). p_run.
  rewrite !cut_short, !decode_enc by done.
  assert (Ea : on_node (path ++ [length (child n)])
      (fun n => a ← mxml_add_attribute (nattrs n) p.1 p.2; Ok (set_attrs n a))
      (Pst (enc p.2 ++ DQUOTE :: u ++ d :: v) line (under path n c t) pt)
    = Ok (Go tt (Pst (enc p.2 ++ DQUOTE :: u ++ d :: v) line
          (under path n (set_attrs c (attr_rep (l ++ [p]))) t) pt))).
  { apply (on_node_under _ _ _ _ _ m); [done|]. rewrite Hc, add_attribute_rep, strlcpy_val_short by done.
    by destruct p. }
  p_step Ea. exact E.
Qed.

(** The text of attributes, without the blank in front of the first. *)
Fixpoint attrs_text (l : list (cstr * cstr)) (close : cstr) : cstr :=
  match l with
  | [] => close
  | p :: l' => enc p.1 ++ "="%char :: DQUOTE :: enc p.2 ++ DQUOTE :: (match l' with [] => [] | _ => str " " end) ++ attrs_text l' close
  end.

Lemma render_attrs_text l d v :
  flat_map (render_attr enc) l ++ d :: v = (match l with [] => [] | _ => str " " end) ++ attrs_text l (d :: v).
Proof.
  induction l as [|p l IH]; [done|]. cbn [flat_map attrs_text]. rewrite <- app_assoc, IH. unfold render_attr.
  cbn [str list_ascii_of_string app]. rewrite <- !app_assoc. cbn [app]. by rewrite <- !app_assoc.
Qed.

Lemma attrs_text_head l d v :
  Forall (fun p => attr_ok p = true) l -> isspace d = false -> exists e w, attrs_text l (d :: v) = e :: w /\ isspace e = false.
Proof.
  intros Hl Hd. destruct l as [|p l]; [by exists d, v|]. apply Forall_cons in Hl as [Hp _].
  apply attr_ok_spec in Hp as (_ & _ & _ & _ & Hh). cbn [attrs_text].
  destruct (Hh (DQUOTE :: enc p.2 ++ DQUOTE :: (match l with [] => [] | _ => str " " end) ++ attrs_text l (d :: v)))
    as (e & w & -> & He & _). by exists e, w.
Qed.

Lemma parse_attributes_step l : forall l0 fuel path n c m t line name d v pt,
  Forall (fun p => attr_ok p = true) l -> subtree t path = Some m -> nattrs c = attr_rep l0 ->
  d = ">"%char \/ d = "/"%char -> (length l <= fuel)%nat ->
  exists line', parse_attributes fuel (path ++ [length (child n)]) name
    (Pst (attrs_text l (d :: v)) line (under path n c t) pt)
  = Ok (Go tt (Pst (d :: v) line' (under path n (set_attrs c (attr_rep (l0 ++ l))) t) pt)).
Proof.
  induction l as [|p l IH]; intros l0 fuel path n c m t line name d v pt Hl Hs Hc Hd Hf.
  - exists line. rewrite app_nil_r, <- Hc. replace (set_attrs c (nattrs c)) with c by by destruct c.
    destruct fuel; cbn [parse_attributes attrs_text]; p_run; cbn [deref]; by destruct Hd as [->| ->].
  - destruct fuel as [|fuel]; [cbn in Hf; lia|]. apply Forall_cons in Hl as [Hp Hl].
    destruct (attr_ok_spec p Hp) as (_ & _ & _ & _ & Hh).
    set (sp := match l with [] => [] | _ => str " " end).
    assert (Hsp : Forall (fun c => isspace c = true) sp) by (subst sp; destruct l; repeat constructor).
    assert (Hdn : isspace d = false) by by destruct Hd as [->| ->].
    destruct (attrs_text_head l d v Hl Hdn) as (e & w & Ee & He).
    destruct (parse_attribute_step p l0 path n c m t line name sp e w pt Hp Hs Hc Hsp He) as [line1 E1].
    rewrite <- Ee in E1.
    destruct (IH (l0 ++ [p]) fuel path n (set_attrs c (attr_rep (l0 ++ [p]))) m t line1 name d v pt)
      as [line2 E2]; [done | done | by destruct c | done | cbn in Hf; lia |].
    exists line2. cbn [parse_attributes attrs_text]. p_run.
    destruct (Hh (DQUOTE :: enc p.2 ++ DQUOTE :: sp ++ attrs_text l (d :: v))) as (a & z & Ea & _ & Ha1 & Ha2).
    fold sp. set (w0 := enc p.1 ++ _) in *. assert (Hw : deref w0 = a) by by rewrite Ea. rewrite Hw.
    destruct (Ascii.eqb_spec a ">"); [done|]. destruct (Ascii.eqb_spec a "/"); [done|]. cbn [orb].
    p_step E1. rewrite E2, <- app_assoc. by destruct c.
Qed.

(** *** Tags *)

(** The node an opening tag makes. *)
Definition opened (name : cstr) (l : list (cstr * cstr)) (line : Z) : node :=
  Node name ELEMENT_NODE None (attr_rep l) line line [].

Lemma parse_tag_start name l path n t d v line :
  name_ok name = true -> Forall (fun p => attr_ok p = true) l -> subtree t path = Some n ->
  d = ">"%char \/ d = "/"%char ->
  exists line', parse_tag (Pst ("<"%char :: enc name ++ flat_map (render_attr enc) l ++ d :: v) line t (Some path))
    = (_ ← parse_empty; parse_content (path ++ [length (child n)]))
        (Pst (d :: v) line' (under path n (opened name l line) t) (Some path)).
Proof.
  intros Hn Hl Hs Hd. pose proof (name_ok_spec name Hn) as (_ & Hlen & _ & d0 & v0 & E & Hsp & Hd0).
  assert (Hdn : isspace d = false) by by destruct Hd as [->| ->].
  destruct (attrs_text_head l d v Hl Hdn) as (e & w & Ee & He).
  set (sp := match l with [] => [] | _ => str " " end : cstr).
  assert (Hblank : Forall (fun c => isspace c = true) sp) by (subst sp; destruct l; repeat constructor).
  set (rest := flat_map (render_attr enc) l ++ d :: v).
  assert (Hrest : rest = sp ++ e :: w) by (unfold rest; rewrite render_attrs_text, Ee; done).
  assert (Hr : exists a b, rest = a :: b /\ name_char a = false /\ a <> "<"%char).
  { unfold rest. destruct l as [|p l]; [exists d, v | eexists " "%char, _; by cbn].
    split; [done|]. by destruct Hd as [->| ->]. }
  destruct Hr as (a & b & Eab & Ha & Hlt).
  assert (H3 : starts (str "!--") (enc name ++ rest) = false
    /\ deref (enc name ++ rest) =c "?" = false /\ starts (str "!DOCTYPE") (enc name ++ rest) = false
    /\ deref (enc name ++ rest) =c "/" = false).
  { rewrite E. cbn [app deref starts str list_ascii_of_string].
    rewrite (ceqb_ne "!" d0), (ceqb_ne d0 "?"), (ceqb_ne d0 "/") by set_solver. done. }
  destruct H3 as (T1 & T2 & T3 & T4).
  set (c0 := set_lines (new_node ELEMENT_NODE name None) line line).
  destruct (skip_blanks_app sp e w line (under path n c0 t) (Some path) Hblank He) as [line1 E1].
  destruct (parse_attributes_step l [] (length (e :: w)) path n c0 n t line1 name d v (Some path)) as [line2 E2];
    [done | done | done | done | |].
  { rewrite <- Ee. clear. induction l as [|p l IH]; cbn [length attrs_text]; [lia|].
    rewrite !length_app. cbn [length]. rewrite !length_app. cbn [length]. rewrite !length_app. lia. }
  exists line2. unfold parse_tag. p_run.
  assert (E0 : skip_blanks (Pst (enc name ++ rest) line t (Some path)) = Ok (Go tt (Pst (enc name ++ rest) line t (Some path)))).
  { rewrite E. cbn [app]. by apply skip_blanks_stop. }
  p_step E0. rewrite T1, T2, T3, T4.
  assert (En : parse_name (Pst (enc name ++ rest) line t (Some path)) = Ok (Go name (Pst rest line t (Some path))))
    by (rewrite Eab; by apply parse_name_enc).
  p_step En. unfold parse_start_element. p_run.
  p_step (add_child_under ELEMENT_NODE name path n t rest line Hs).
  p_step (on_node_under path n (new_node ELEMENT_NODE name None) (set_lines (new_node ELEMENT_NODE name None) line 0) t n
    (set_line_start line) rest line (Some path) Hs eq_refl).
  p_step (on_node_under path n (set_lines (new_node ELEMENT_NODE name None) line 0) c0 t n
    (set_line_end line) rest line (Some path) Hs eq_refl).
  rewrite Hrest. p_step E1. rewrite Ee in E2. p_step E2.
  replace (set_attrs c0 (attr_rep ([] ++ l))) with (opened name l line); [done|].
  unfold c0, new_node, opened. cbn. by rewrite strlcpy_val_short.
Qed.

Lemma parse_empty_slash v line t pt :
  parse_empty (Pst ("/"%char :: ">"%char :: v) line t pt) = Ok (Go tt (Pst v line t pt)).
Proof.
  unfold parse_empty. p_run. cbn [deref]. change ("/"%char =c "/") with true. cbv iota. p_run.
  by p_step (skip_blanks_stop ">"%char v line t pt eq_refl).
Qed.

Lemma parse_empty_open v line t pt :
  parse_empty (Pst (">"%char :: v) line t pt) = Ok (Go tt (Pst (">"%char :: v) line t pt)).
Proof. done. Qed.

Lemma parse_content_none pnew c v line t pt :
  c <> ">"%char -> parse_content pnew (Pst (c :: v) line t pt) = Ok (Go tt (Pst (c :: v) line t pt)).
Proof. intros Hc. unfold parse_content. p_run. cbn [deref]. by destruct (Ascii.eqb_spec c ">"). Qed.

Lemma parse_content_children pnew u e z line t pt :
  Forall (fun c => isspace c = true) u -> e <> "/"%char ->
  exists line', parse_content pnew (Pst (">"%char :: u ++ "<"%char :: e :: z) line t pt)
    = Ok (Go tt (Pst ("<"%char :: e :: z) line' t (Some pnew))).
Proof.
  intros Hu He. destruct (skip_lines_app isspace u ("<"%char :: e :: z) line Hu eq_refl) as [line' E].
  exists line'. unfold parse_content. p_run. cbn [deref]. change (">"%char =c ">") with true. cbv iota. p_run.
  rewrite E. p_run. change ("<"%char =c "<") with true. cbn [deref andb].
  by destruct (Ascii.eqb_spec e "/").
Qed.

Lemma segment_app x w : segment (x ++ w) w = Ok x.
Proof.
  unfold segment. rewrite length_app. destruct (Nat.leb_spec (length w) (length x + length w)); [|lia].
  f_equal. replace (length x + length w - length w)%nat with (length x) by lia. apply take_app_exact.
Qed.

Lemma enc_no_tag s : Forall (fun c => negb (c =c "<") = true) (enc s).
Proof.
  apply enc_Forall; [repeat constructor|]. apply Forall_forall. intros c _.
  destruct (Ascii.eqb_spec c "<"); [subst; right; set_solver | by left].
Qed.

Lemma skip_line_prefix f x line :
  exists u y line', x = u ++ y /\ stops f y /\ Forall (fun c => f c = true) u /\
    forall w, stops f w \/ y <> [] -> skip_lines f line (x ++ w) = (line', y ++ w).
Proof.
  revert line. induction x as [|c x IH]; intros line.
  - exists [], [], line. split; [done|]. split; [done|]. split; [constructor|].
    intros w [Hw|]; [|done]. by apply skip_lines_stop.
  - cbn [app skip_lines]. destruct (f c) eqn:Ef.
    + destruct (IH (count_line c line)) as (u & y & l' & -> & Hy & Hu & H). exists (c :: u), y, l'.
      split; [done|]. split; [done|]. split; [by constructor|]. done.
    + exists [], (c :: x), line. done.
Qed.

Lemma parse_content_value x z path n c m line t pt :
  Forall (fun c => negb (c =c "<") = true) x -> z <> [] -> deref z = "/"%char \/ forallb isspace x = false ->
  subtree t path = Some m ->
  exists line', parse_content (path ++ [length (child n)]) (Pst (">"%char :: x ++ "<"%char :: z) line (under path n c t) pt)
    = Ok (Go tt (Pst ("<"%char :: z) line' (under path n (set_value c (Some (mxml_decode x))) t)
        (Some (path ++ [length (child n)])))).
Proof.
  intros Hx Hz Hor Hs. unfold parse_content. p_run. cbn [deref]. change (">"%char =c ">") with true.
  cbv iota. p_run.
  destruct (skip_line_prefix isspace x line) as (u & y & l1 & -> & Hy & Hu & E).
  rewrite E by by left. p_run. apply Forall_app in Hx as [Hxu Hxy].
  destruct (skip_lines_app (fun c => negb (c =c "<")) y ("<"%char :: z) l1 Hxy eq_refl) as [l2 E2].
  exists l2.
  assert (Ev : on_node (path ++ [length (child n)]) (put_value (mxml_decode (u ++ y)))
      (Pst ((u ++ y) ++ "<"%char :: z) l2 (under path n c t) pt)
    = Ok (Go tt (Pst ((u ++ y) ++ "<"%char :: z) l2
        (under path n (set_value c (Some (mxml_decode (u ++ y)))) t) pt))).
  { by apply (on_node_under _ _ _ _ _ m). }
  assert (Hgo : (y ++ "<"%char :: z = [] -> False) /\
     match y ++ "<"%char :: z with [] => True | a :: b => (a =c "<") && negb (deref b =c "/") = false end).
  { split; [by destruct y|]. destruct y as [|a y]; cbn [app].
    - destruct Hor as [->|Hb]; [done|]. rewrite app_nil_r in Hb. apply forallb_Forall in Hu. congruence.
    - apply Forall_cons in Hxy as [Ha _]. by destruct (Ascii.eqb_spec a "<"). }
  destruct (y ++ "<"%char :: z) as [|a b] eqn:Eyz; [by destruct Hgo|]. destruct Hgo as [_ ->].
  rewrite E2. p_run. rewrite segment_app. p_run. by p_step Ev.
Qed.

Lemma parse_tag_end name path k c t v line :
  name_ok name = true -> subtree t (path ++ [k]) = Some c -> nname c = name ->
  parse_tag (Pst (LT_SLASH ++ enc name ++ GT_NL ++ v) line t (Some (path ++ [k])))
    = Ok (Go tt (Pst (GT_NL ++ v) line (plug (path ++ [k]) (set_lines c (line_start c) line) t) (Some path))).
Proof.
  intros Hn Hs Hc. pose proof (name_ok_spec name Hn) as (_ & _ & _ & d0 & v0 & E & Hsp & Hd0).
  change (LT_SLASH ++ enc name ++ GT_NL ++ v) with ("<"%char :: "/"%char :: enc name ++ GT_NL ++ v).
  unfold parse_tag. p_run.
  p_step (skip_blanks_stop "/"%char (enc name ++ GT_NL ++ v) line t (Some (path ++ [k])) eq_refl).
  change (starts (str "!--") ("/"%char :: enc name ++ GT_NL ++ v)) with false.
  change (starts (str "!DOCTYPE") ("/"%char :: enc name ++ GT_NL ++ v)) with false. cbn [deref].
  change ("/"%char =c "?") with false. change ("/"%char =c "/") with true. cbv iota. p_run.
  assert (E0 : skip_blanks (Pst (enc name ++ GT_NL ++ v) line t (Some (path ++ [k])))
    = Ok (Go tt (Pst (enc name ++ GT_NL ++ v) line t (Some (path ++ [k]))))).
  { rewrite E. cbn [app]. by apply skip_blanks_stop. }
  p_step E0.
  p_step (parse_name_enc name ">"%char (NL :: v) line t (Some (path ++ [k])) Hn eq_refl ltac:(done)).
  unfold parse_end_element. p_run. rewrite Hs, Hc. rewrite (proj2 (streq_true name name) eq_refl). p_run.
  assert (Ee : on_node (path ++ [k]) (set_line_end line) (Pst (">"%char :: NL :: v) line t (Some (path ++ [k])))
    = Ok (Go tt (Pst (">"%char :: NL :: v) line (plug (path ++ [k]) (set_lines c (line_start c) line) t) (Some (path ++ [k]))))).
  { unfold on_node. cbn [proot]. by rewrite (alter_at_plug _ (set_line_end line) _ c _ Hs eq_refl). }
  p_step Ee. unfold mods, set_ptree. cbn [pp line_number proot ptree].
  destruct (path ++ [k]) eqn:Ep; [by destruct path|]. rewrite <- Ep, removelast_last. done.
Qed.

(** *** Rounds *)

Definition not_tag (c : ascii) : bool := negb (c =c "<").

(** The text from the next tag on, where a round ends. *)
Definition next_tag (p : cstr) : cstr := snd (skip_lines not_tag 0 p).

Lemma skip_to_tag p : forall line, exists line', skip_lines not_tag line p = (line', next_tag p).
Proof.
  unfold next_tag. generalize 0. induction p as [|c p IH]; intros l0 line; cbn [skip_lines]; [by exists line|].
  destruct (not_tag c); [apply IH | by exists line].
Qed.

Lemma next_tag_app u v : Forall (fun c => not_tag c = true) u -> next_tag (u ++ v) = next_tag v.
Proof.
  intros Hu. destruct (skip_to_tag v 0) as [l E]. unfold next_tag.
  generalize 0 at 1. induction Hu as [|c u Hc Hu IH]; intros l0; cbn [app skip_lines].
  - destruct (skip_to_tag v l0) as [l1 E1]. by rewrite E1, E.
  - rewrite Hc. apply IH.
Qed.

Lemma next_tag_le p : (length (next_tag p) <= length p)%nat.
Proof.
  unfold next_tag. generalize 0. induction p as [|c p IH]; intros l; cbn [skip_lines]; [done|].
  destruct (not_tag c); cbn [length]; [specialize (IH (count_line c l)); lia | done].
Qed.

(** The main loop at the end of a round. *)
Definition go_on (fuel : nat) (s : pst) : res (outcome unit) :=
  match pp s with [] => Ok (Go tt s) | _ => parse_loop fuel s end.

(** The loop gets from one state to another, in at most as many rounds as it
    takes characters. *)
Definition reaches (s s' : pst) : Prop :=
  exists k, (k + length (pp s') <= length (pp s))%nat /\ forall fuel, go_on (k + fuel) s = go_on fuel s'.

Lemma reaches_refl s : reaches s s.
Proof. by exists O. Qed.

Lemma reaches_trans s s1 s2 : reaches s s1 -> reaches s1 s2 -> reaches s s2.
Proof.
  intros (k1 & L1 & H1) (k2 & L2 & H2). exists (k1 + k2)%nat. split; [lia|]. intros fuel.
  by rewrite <- Nat.add_assoc, H1, H2.
Qed.

Lemma reaches_round p line t pt q l2 t2 pt2 :
  parse_tag (Pst ("<"%char :: p) line t pt) = Ok (Go tt (Pst q l2 t2 pt2)) -> (length q <= length p)%nat ->
  exists line', reaches (Pst ("<"%char :: p) line t pt) (Pst (next_tag q) line' t2 pt2).
Proof.
  intros E Hq. destruct (skip_to_tag q l2) as [line' Es]. exists line', 1%nat. cbn [pp].
  split; [pose proof (next_tag_le q); cbn [length]; lia|]. intros fuel. unfold go_on at 1. cbn [pp plus parse_loop].
  assert (Er : parse_round (Pst ("<"%char :: p) line t pt) = Ok (Go tt (Pst (next_tag q) line' t2 pt2))).
  { unfold parse_round. p_run. cbn [deref]. change ("<"%char =c "<") with true. cbv iota. p_step E.
    unfold skip_p. cbn [pp line_number]. change (fun c : ascii => negb (c =c "<")) with not_tag. by rewrite Es. }
  p_step Er. unfold go_on. cbn [pp]. by destruct (next_tag q).
Qed.

(** Equality of trees up to line numbers. *)
Fixpoint strip (n : node) : node :=
  Node (nname n) (ntype n) (nvalue n) (nattrs n) 0 0
    ((fix go (l : list node) : list node := match l with [] => [] | c :: l' => strip c :: go l' end) (child n)).

Lemma strip_unfold n : strip n = Node (nname n) (ntype n) (nvalue n) (nattrs n) 0 0 (map strip (child n)).
Proof. by destruct n. Qed.

(** The text of a node from its [<] on. *)
Definition tag_text (d : nat) (c : node) : cstr :=
  "<"%char :: enc (nname c) ++ flat_map (render_attr enc) (attr_list (nattrs c)) ++ content true d (enc (nname c)) (nvalue c) (child c).

Lemma blanks_indent d : Forall (fun c => isspace c = true) (indent_ref d).
Proof. unfold indent_ref. induction d as [|d IH]; cbn; [constructor|]. by do 2 (constructor; [done|]). Qed.

Lemma blank_not_tag u : Forall (fun c => isspace c = true) u -> Forall (fun c => not_tag c = true) u.
Proof. apply List.Forall_impl. intros c Hc. unfold not_tag. by rewrite (ceqb_ne c "<") by by intros ->. Qed.

Lemma render_tag_text d indent c :
  exists u, Forall (fun c => isspace c = true) u /\ render true d indent c = u ++ tag_text d c.
Proof.
  rewrite render_unfold. exists (if indent then indent_ref d else []).
  split; [destruct indent; [apply blanks_indent | constructor]|]. done.
Qed.

Definition extend (n : node) (cs : list node) : node := set_child n (child n ++ cs).

Lemma extend_append n c cs : extend (append n c) cs = extend n (c :: cs).
Proof. unfold extend, append. rewrite child_set_child, set_child_twice, <- app_assoc. done. Qed.

Lemma extend_nil n : extend n [] = n.
Proof. unfold extend. rewrite app_nil_r. apply set_child_same. Qed.

(** Reading one node: behind the last open node there is one more child. *)
Definition reads (c : node) : Prop := forall d path n t line rest,
  subtree t path = Some n ->
  exists line' c', strip c' = strip c /\
    reaches (Pst (tag_text d c ++ rest) line t (Some path))
      (Pst (next_tag rest) line' (plug path (append n c') t) (Some path)).

Lemma next_tag_node d u c rest :
  Forall (fun c => isspace c = true) u -> next_tag (u ++ tag_text d c ++ rest) = tag_text d c ++ rest.
Proof. intros Hu. by rewrite next_tag_app by by apply blank_not_tag. Qed.

Lemma reads_list cs : Forall reads cs -> forall d hv i path n t line tail,
  subtree t path = Some n ->
  exists line' cs', map strip cs' = map strip cs /\
    reaches (Pst (next_tag (render_list true d hv cs i ++ tail)) line t (Some path))
      (Pst (next_tag tail) line' (plug path (extend n cs') t) (Some path)).
Proof.
  induction 1 as [|c cs Hc Hcs IH]; intros d hv i path n t line tail Hs.
  - exists line, []. rewrite extend_nil, plug_same by done. split; [done | apply reaches_refl].
  - cbn [render_list]. destruct (render_tag_text d (if hv then Nat.ltb 0 i else true) c) as (u & Hu & ->).
    rewrite <- !app_assoc, next_tag_node by done.
    destruct (Hc d path n t line (render_list true d hv cs (S i) ++ tail) Hs) as (l1 & c' & Ec & R1).
    destruct (IH d hv (S i) path (append n c') (plug path (append n c') t) l1 tail) as (l2 & cs' & Ecs & R2).
    { by eapply subtree_plug. }
    exists l2, (c' :: cs'). rewrite plug_plug, extend_append in R2.
    split; [cbn; by rewrite Ec, Ecs | by eapply reaches_trans].
Qed.

Lemma set_lines_strip c a b : strip (set_lines c a b) = strip c.
Proof. by destruct c. Qed.

(** A closing tag, to the next tag behind it. *)
Lemma reaches_end u name path n c t m line rest :
  name_ok name = true -> subtree t path = Some m -> nname c = name ->
  Forall (fun c => isspace c = true) u ->
  exists line' c', strip c' = strip c /\
    reaches (Pst (next_tag (u ++ LT_SLASH ++ enc name ++ GT_NL ++ rest)) line (under path n c t)
        (Some (path ++ [length (child n)])))
      (Pst (next_tag rest) line' (plug path (append n c') t) (Some path)).
Proof.
  intros Hn Hs Hc Hu. rewrite next_tag_app by by apply blank_not_tag.
  pose proof (parse_tag_end name path (length (child n)) c (under path n c t) rest line Hn
    (under_subtree _ _ _ _ _ Hs) Hc) as E.
  rewrite (under_plug _ _ _ _ _ _ Hs) in E.
  destruct (reaches_round ("/"%char :: enc name ++ GT_NL ++ rest) line (under path n c t)
    (Some (path ++ [length (child n)])) _ _ _ _ E) as [line' R].
  { cbn [length]. rewrite !length_app. cbn. lia. }
  exists line', (set_lines c (line_start c) line). split; [apply set_lines_strip|].
  rewrite next_tag_app in R by (repeat constructor). exact R.
Qed.

Lemma enc_blank v : forallb isspace v = false -> forallb isspace (enc v) = false.
Proof.
  intros H. apply not_true_iff_false. intros He. apply not_true_iff_false in H. apply H. clear H.
  apply forallb_Forall. apply forallb_Forall in He. unfold enc in He.
  induction v as [|c v IH]; [constructor|]. cbn [flat_map] in He. apply Forall_app in He as [Hc Hv].
  constructor; [|by apply IH]. clear -Hc. unfold mxml_encode_char in Hc.
  repeat match type of Hc with
  | context [if ?a =c ?b then _ else _] => destruct (a =c b); [apply Forall_cons in Hc as [Hc _]; discriminate Hc|]
  end. by apply Forall_cons in Hc as [Hc _].
Qed.

(** The tail of an element behind its children. *)
Definition closing (d : nat) (name : cstr) (cs : list node) (rest : cstr) : cstr :=
  (match cs with [] => [] | _ => indent_ref d end) ++ LT_SLASH ++ enc name ++ GT_NL ++ rest.

Lemma tag_text_open d c rest :
  (nvalue c = None -> child c <> []) ->
  tag_text d c ++ rest = "<"%char :: enc (nname c) ++ flat_map (render_attr enc) (attr_list (nattrs c)) ++ ">"%char
    :: (match nvalue c with None => [NL] | Some v => enc v end)
    ++ render_list true (S d) (match nvalue c with None => false | Some _ => true end) (child c) 0
    ++ closing d (nname c) (child c) rest.
Proof.
  intros Hne. destruct c as [name ty v a x y cs]. cbn [nname nvalue nattrs child] in *.
  unfold tag_text, closing. cbn [nname nvalue nattrs child app]. unfold content.
  destruct v as [v|]; [|destruct cs as [|c cs]; [by destruct Hne|]];
    unfold enc, GT_NL; cbn [str list_ascii_of_string app]; rewrite <- !app_assoc; cbn [app]; by rewrite <- ?app_assoc.
Qed.

Lemma first_child d hv c cs R :
  parseable c -> exists u e z, Forall (fun c => isspace c = true) u /\ e <> "/"%char /\ (hv = true -> u = []) /\
    render_list true d hv (c :: cs) 0 ++ R = u ++ "<"%char :: e :: z.
Proof.
  intros Hc. inversion Hc as [name v l a b cs' Hn _ _ _]; subst.
  apply name_ok_spec in Hn as (_ & _ & _ & d0 & v0 & E & _ & Hd0).
  cbn [render_list]. rewrite render_unfold.
  exists (if (if hv then false else true) then indent_ref d else []), d0.
  eexists. split; [destruct hv; [constructor | apply blanks_indent]|]. split; [set_solver|].
  split; [by intros ->|]. change (Nat.ltb 0 0) with false. rewrite <- !app_assoc. f_equal.
  unfold LT_. cbn [str list_ascii_of_string app nname]. fold (enc name). rewrite E. reflexivity.
Qed.

Lemma closing_tag d name cs rest : exists u w, Forall (fun c => isspace c = true) u /\
  closing d name cs rest = u ++ LT_SLASH ++ w /\ (cs = [] -> u = []).
Proof.
  exists (match cs with [] => [] | _ => indent_ref d end), (enc name ++ GT_NL ++ rest).
  split; [destruct cs; [constructor | apply blanks_indent]|]. split; [done | by intros ->].
Qed.

(** The opening tag of an element with content, to its first child or its
    closing tag. *)
Lemma parse_content_open d hv v cs name rest path n c m line t pt :
  content_ok v cs = true -> Forall parseable cs -> (v = None -> cs <> []) -> subtree t path = Some m ->
  nvalue c = None -> hv = (match v with None => false | Some _ => true end) ->
  exists line' q, parse_content (path ++ [length (child n)])
      (Pst (">"%char :: (match v with None => [NL] | Some v => enc v end)
              ++ render_list true (S d) hv cs 0 ++ closing d name cs rest) line (under path n c t) pt)
    = Ok (Go tt (Pst q line' (under path n (set_value c v) t) (Some (path ++ [length (child n)])))) /\
    next_tag q = next_tag (render_list true (S d) hv cs 0 ++ closing d name cs rest) /\
    (length q <= length (render_list true (S d) hv cs 0 ++ closing d name cs rest))%nat.
Proof.
  intros Hok Hcs Hne Hs Hv ->. destruct cs as [|c1 cs].
  - destruct v as [v|]; [|by destruct Hne]. cbn [render_list app].
    destruct (closing_tag d name [] rest) as (u & w & _ & E & Hu0). rewrite (Hu0 eq_refl) in E. rewrite E. cbn [app].
    change (LT_SLASH ++ w) with ("<"%char :: "/"%char :: w).
    destruct (parse_content_value (enc v) ("/"%char :: w) path n c m line t pt) as [line' E'];
      [apply enc_no_tag | done | by left | done |].
    rewrite decode_enc in E'. eexists _, _. split; [exact E'|]. done.
  - apply Forall_cons in Hcs as [Hc1 _]. set (hv := match v with None => false | Some _ => true end).
    destruct (first_child (S d) hv c1 cs (closing d name (c1 :: cs) rest) Hc1) as (u & e & z & Hu & He & Huv & ->).
    assert (Hnext : next_tag ("<"%char :: e :: z) = next_tag (u ++ "<"%char :: e :: z))
      by (by rewrite next_tag_app by by apply blank_not_tag).
    destruct v as [v|].
    + rewrite (Huv eq_refl) in *. cbn [app] in *. cbn [content_ok] in Hok. apply negb_true_iff in Hok.
      destruct (parse_content_value (enc v) (e :: z) path n c m line t pt) as [line' E'];
        [apply enc_no_tag | done | right; by apply enc_blank | done |].
      rewrite decode_enc in E'. eexists _, _. split; [exact E'|]. done.
    + destruct (parse_content_children (path ++ [length (child n)]) (NL :: u) e z line (under path n c t) pt)
        as [line' E']; [by constructor | done |].
      replace (set_value c None) with c by (destruct c; cbn in *; by subst).
      eexists _, _. split; [exact E'|]. split; [done|]. rewrite length_app. lia.
Qed.

Lemma strip_node name ty v a l e cs : strip (Node name ty v a l e cs) = Node name ty v a 0 0 (map strip cs).
Proof. apply strip_unfold. Qed.

Lemma parseable_reads c : parseable c -> reads c.
Proof.
  revert c. refine (node_ind' _ _). intros name ty v a ls le cs IH Hp d path n t line rest Hs.
  inversion Hp as [name' v' l a' b' cs' Hn Hl Hok Hcs]; subst.
  assert (Hr : Forall reads cs).
  { apply List.Forall_forall. intros x Hx. rewrite List.Forall_forall in IH, Hcs. by apply IH, Hcs. }
  destruct (decide (v = None /\ cs = [])) as [[-> ->]|Hne].
  - (* <name attributes/> *)
    unfold tag_text, content. cbn [nname nattrs nvalue child]. rewrite attr_list_rep.
    change SLASH_GT_NL with ("/"%char :: ">"%char :: [NL]).
    cbn [app]. rewrite <- !app_assoc. cbn [app].
    destruct (parse_tag_start name l path n t "/"%char (">"%char :: NL :: rest) line Hn Hl Hs) as [l1 E]; [by right|].
    rewrite (P_bind_Go _ _ _ _ _ (parse_empty_slash (NL :: rest) l1 _ _)), parse_content_none in E by done.
    destruct (reaches_round _ _ _ _ _ _ _ _ E) as [l2 R]; [rewrite !length_app; cbn; lia|].
    exists l2, (opened name l line). split; [by rewrite !strip_unfold|].
    change (NL :: rest) with ([NL] ++ rest) in R. rewrite next_tag_app in R by (repeat constructor). exact R.
  - assert (Hne' : v = None -> cs <> []) by (intros -> ->; by apply Hne).
    rewrite tag_text_open by done. cbn [nname nattrs nvalue child]. rewrite attr_list_rep.
    set (hv := match v with None => false | Some _ => true end). set (tail := closing d name cs rest).
    destruct (parse_tag_start name l path n t ">"%char ((match v with None => [NL] | Some v => enc v end)
      ++ render_list true (S d) hv cs 0 ++ tail) line Hn Hl Hs) as [l1 E]; [by left|].
    rewrite (P_bind_Go _ _ _ _ _ (parse_empty_open _ l1 _ _)) in E.
    destruct (parse_content_open d hv v cs name rest path n (opened name l line) n l1 t (Some path) Hok Hcs Hne' Hs eq_refl eq_refl)
      as (l2 & q & Eq & Hq & Hlen).
    fold tail in Eq, Hq, Hlen. rewrite Eq in E.
    destruct (reaches_round _ _ _ _ _ _ _ _ E) as [l3 R1]; [rewrite !length_app; cbn [length]; rewrite !length_app in *; lia|].
    rewrite Hq in R1. set (c0 := set_value (opened name l line) v) in *.
    destruct (reads_list cs Hr (S d) hv 0%nat (path ++ [length (child n)]) c0 (under path n c0 t) l3 tail) as (l4 & cs' & Ecs & R2).
    { by eapply under_subtree. }
    rewrite (under_plug _ _ _ _ _ _ Hs) in R2.
    destruct (reaches_end (match cs with [] => [] | _ => indent_ref d end) name path n (extend c0 cs') t n l4 rest Hn Hs)
      as (l5 & c' & Ec & R3); [by destruct v | by destruct cs; [constructor | apply blanks_indent] |].
    exists l5, c'. split; [rewrite Ec, !strip_unfold; cbn; by rewrite Ecs|].
    eapply reaches_trans; [exact R1|]. eapply reaches_trans; [exact R2|]. exact R3.
Qed.

(** *** Comments and instructions *)

Lemma starts_head a lit c p : c <> a -> starts (a :: lit) (c :: p) = false.
Proof. intros Hc. cbn [starts]. by rewrite (ceqb_ne a c) by congruence. Qed.

Lemma until_app a lit x rest : Forall (fun c => c <> a) x ->
  forall line, exists line', until (a :: lit) line (x ++ (a :: lit) ++ rest) = Ok (line', (a :: lit) ++ rest).
Proof.
  induction 1 as [|c x Hc Hx IH]; intros line; cbn [app until].
  - exists line. pose proof (starts_app (a :: lit) rest) as E. cbn [app] in E. by rewrite E.
  - rewrite starts_head by done. apply IH.
Qed.

Lemma strstr_found a lit x rest : Forall (fun c => c <> a) x ->
  exists u v, strstr (x ++ (a :: lit) ++ rest) (a :: lit) = Some (u, v).
Proof.
  induction 1 as [|c x Hc Hx (u & v & IH)]; cbn [app strstr].
  - pose proof (starts_app (a :: lit) rest) as E. cbn [app] in E. rewrite E. eauto.
  - rewrite starts_head by done. change (a :: lit ++ rest) with ((a :: lit) ++ rest). rewrite IH. eauto.
Qed.

(** A node of another type than an element. *)
Definition special (ty : Z) (name value : cstr) (a b : Z) : node := Node name ty (Some value) no_attrs a b [].

Lemma on_node_special path n t m ty name v line l2 p q pt :
  subtree t path = Some m -> slen name < MXML_NAME_LENGTH ->
  (_ ← on_node (path ++ [length (child n)]) (put_value v);
   _ ← on_node (path ++ [length (child n)]) (set_line_end l2); mods (set_pp q))
    (Pst p l2 (under path n (set_lines (new_node ty name None) line 0) t) pt)
  = Ok (Go tt (Pst q l2 (under path n (special ty name v line l2) t) pt)).
Proof.
  intros Hs Hn. set (c0 := set_lines (new_node ty name None) line 0).
  p_step (on_node_under path n c0 (set_value c0 (Some v)) t m (put_value v) p l2 pt Hs eq_refl).
  p_step (on_node_under path n (set_value c0 (Some v)) (set_lines (set_value c0 (Some v)) line l2) t m (set_line_end l2) p l2 pt Hs eq_refl).
  unfold mods, set_pp. cbn [pp line_number proot ptree]. do 4 f_equal. unfold c0, new_node, special. cbn.
  by rewrite strlcpy_val_short.
Qed.

Lemma parse_comment_step sp x rest path n t line :
  Forall (fun c => c =c " " = true) sp -> Forall (fun c => c <> "-"%char) x -> stops (fun c => c =c " ") x ->
  subtree t path = Some n ->
  exists a b, parse_tag (Pst (str "<!--" ++ sp ++ x ++ DASHES ++ rest) line t (Some path))
    = Ok (Go tt (Pst rest b (under path n (special COMMENT_NODE (str "Comment") (mxml_decode x) a b) t) (Some path))).
Proof.
  intros Hsp Hx Hst Hs. set (text := sp ++ x ++ DASHES ++ rest).
  assert (Hall : Forall (fun c => c <> "-"%char) (sp ++ x)).
  { apply Forall_app. split; [|done]. eapply List.Forall_impl; [|exact Hsp]. intros c Hc ->. discriminate Hc. }
  destruct (until_app "-"%char (str "->") (sp ++ x) rest Hall line) as [l2 Eu].
  destruct (strstr_found "-"%char (str "->") (sp ++ x) rest Hall) as (u & v & Es).
  change ("-"%char :: str "->") with DASHES in Eu, Es. rewrite <- app_assoc in Eu, Es. fold text in Eu, Es.
  exists line, l2. change (str "<!--" ++ text) with ("<"%char :: "!"%char :: "-"%char :: "-"%char :: text).
  unfold parse_tag. p_run.
  p_step (skip_blanks_stop "!"%char ("-"%char :: "-"%char :: text) line t (Some path) eq_refl).
  change (starts (str "!--") ("!"%char :: "-"%char :: "-"%char :: text)) with true. cbv iota.
  unfold parse_comment. p_run.
  p_step (add_child_under COMMENT_NODE (str "Comment") path n t ("!"%char :: "-"%char :: "-"%char :: text) line Hs).
  set (c0 := new_node COMMENT_NODE (str "Comment") None).
  p_step (on_node_under path n c0 (set_lines c0 line 0) t n (set_line_start line)
    ("!"%char :: "-"%char :: "-"%char :: text) line (Some path) Hs eq_refl).
  rewrite Es. rewrite Eu. p_run.
  assert (Epv : snd (skip_while (fun c => c =c " ") text) = x ++ DASHES ++ rest).
  { unfold text. rewrite skip_while_app_stop; [done | done |]. by destruct x. }
  rewrite Epv, segment_app. p_run. exact (on_node_special path n t n COMMENT_NODE (str "Comment") _ line l2 _ rest _ Hs eq_refl).
Qed.

Lemma parse_pi_step x rest path n t line :
  Forall (fun c => c <> "?"%char) x -> subtree t path = Some n ->
  exists a b, parse_tag (Pst (str "<?" ++ x ++ str "?>" ++ rest) line t (Some path))
    = Ok (Go tt (Pst rest b (under path n (special PROCESSING_INSTRUCTION_NODE (str "PI") (mxml_decode x) a b) t) (Some path))).
Proof.
  intros Hx Hs. set (text := x ++ str "?>" ++ rest).
  destruct (until_app "?"%char [">"%char] x rest Hx line) as [l2 Eu].
  destruct (strstr_found "?"%char [">"%char] x rest Hx) as (u & v & Es).
  change ("?"%char :: [">"%char]) with (str "?>") in Eu, Es. fold text in Eu, Es.
  exists line, l2. change (str "<?" ++ text) with ("<"%char :: "?"%char :: text).
  unfold parse_tag. p_run. p_step (skip_blanks_stop "?"%char text line t (Some path) eq_refl).
  change (starts (str "!--") ("?"%char :: text)) with false. cbn [deref].
  change ("?"%char =c "?") with true. cbv iota. unfold parse_pi. p_run.
  p_step (add_child_under PROCESSING_INSTRUCTION_NODE (str "PI") path n t ("?"%char :: text) line Hs).
  set (c0 := new_node PROCESSING_INSTRUCTION_NODE (str "PI") None).
  p_step (on_node_under path n c0 (set_lines c0 line 0) t n (set_line_start line)
    ("?"%char :: text) line (Some path) Hs eq_refl).
  rewrite Es, Eu. p_run.
  unfold text. rewrite segment_app. p_run.
  exact (on_node_special path n t n PROCESSING_INSTRUCTION_NODE (str "PI") _ line l2 _ rest _ Hs eq_refl).
Qed.

(** *** What [mxml_write_tree] writes *)

(** The nodes the header becomes, without their lines. *)
Definition pi_value : cstr :=
  str "xml version=" ++ quoted (str "1.0") ++ str " encoding=" ++ quoted (str "ISO-8859-1").
Definition date_value (now : cstr) : cstr := str "created by MXML on " ++ take 24 now ++ str " ".

Definition header_nodes (g : mxml_static) (now : cstr) : list node :=
  special PROCESSING_INSTRUCTION_NODE (str "PI") pi_value 0 0
  :: (if mxml_suppress_date_flag g =? 0
      then [special COMMENT_NODE (str "Comment") (mxml_decode (date_value now)) 0 0] else []).

Lemma reaches_header g now rest t line :
  Forall (fun c => c <> "-"%char) now -> subtree t [] = Some t ->
  exists line' ns, map strip ns = header_nodes g now /\
    reaches (Pst (header_text g now ++ rest) line t (Some [])) (Pst (next_tag rest) line' (extend t ns) (Some [])).
Proof.
  intros Hnow _.
  set (date := if mxml_suppress_date_flag g =? 0 then date_line now else []).
  assert (Hh : header_text g now ++ rest = str "<?" ++ pi_value ++ str "?>" ++ NL :: date ++ rest)
    by (unfold header_text; rewrite <- app_assoc; reflexivity).
  destruct (parse_pi_step pi_value (NL :: date ++ rest) [] t t line) as (a & b & E1); [repeat constructor; done | done |].
  destruct (reaches_round _ _ _ _ _ _ _ _ E1) as [l1 R1]; [cbn; lia|].
  set (n1 := special PROCESSING_INSTRUCTION_NODE (str "PI") (mxml_decode pi_value) a b) in *.
  change (NL :: date ++ rest) with ([NL] ++ date ++ rest) in R1. rewrite next_tag_app in R1 by (repeat constructor).
  unfold header_nodes. rewrite Hh. unfold date in *. destruct (mxml_suppress_date_flag g =? 0).
  - unfold date_line in *. rewrite <- !app_assoc in R1 |- *.
    set (x := date_value now).
    assert (Ex : str "<!-- created by MXML on " ++ take 24 now ++ str " -->" ++ [NL] ++ rest
      = str "<!--" ++ str " " ++ x ++ DASHES ++ [NL] ++ rest) by (unfold x, date_value; rewrite <- !app_assoc; reflexivity).
    destruct (parse_comment_step (str " ") x ([NL] ++ rest) [] (append t n1) (append t n1) l1) as (a2 & b2 & E2).
    { repeat constructor. }
    { unfold x, date_value. apply Forall_app. split; [repeat constructor; done|]. apply Forall_app.
      split; [by apply Forall_take | repeat constructor; done]. }
    { done. }
    { done. }
    rewrite <- Ex in E2. destruct (reaches_round _ _ _ _ _ _ _ _ E2) as [l2 R2].
    { cbn. rewrite !length_app. cbn. lia. }
    rewrite next_tag_app in R2 by (repeat constructor).
    exists l2, [n1; special COMMENT_NODE (str "Comment") (mxml_decode x) a2 b2]. split; [reflexivity|].
    eapply reaches_trans; [exact R1|]. rewrite <- (extend_append t n1). exact R2.
  - exists l1, [n1]. split; [reflexivity|]. exact R1.
Qed.

Lemma render_elements l : forall i, flat_map (render true 0 true) l = render_list true 0 false l i.
Proof. induction l as [|c l IH]; intros i; [done|]. cbn [flat_map render_list]. by rewrite (IH (S i)). Qed.

(** Writing a tree and parsing the file gives the tree back: the parser
    accepts what [mxml_write_tree] writes, and up to line numbers the root it
    returns has the nodes of the header and then exactly the element children
    of the tree, with their names, attributes, values and children.  The
    texts must fit the buffers of the two sides, and a value in front of
    children must not be blank. *)
Lemma mxml_written_parses os_write g fd now tree error_size :
  (forall h t l, os_write h t l = slen l) -> static_ok g -> fd <> -1 -> Forall (fun c => c <> "-"%char) now ->
  let elements := List.filter (fun c => ntype c =? ELEMENT_NODE) (child tree) in
  let out := header_text g now ++ flat_map (render true 0 true) elements in
  Forall (writable true 0) elements -> Forall parseable elements -> in_memory out ->
  exists root, mxml_write_tree os_write g fd now tree = Ok (1, out) /\
    mxml_parse_buffer out error_size = Ok (Parsed root) /\
    map strip (child root) = header_nodes g now ++ map strip elements.
Proof.
  intros Hos Hg Hfd Hnow elements out Hw Hp Hm. set (t0 := mxml_create_root_node).
  destruct (reaches_header g now (flat_map (render true 0 true) elements) t0 1 Hnow eq_refl) as (l1 & ns & Ens & R1).
  rewrite (render_elements _ 0), <- (app_nil_r (render_list true 0 false elements 0)) in R1.
  destruct (reads_list elements (List.Forall_impl _ (fun c => parseable_reads c) Hp) 0%nat false 0%nat [] (extend t0 ns)
    (extend t0 ns) l1 [] eq_refl) as (l2 & cs & Ecs & R2).
  destruct (reaches_trans _ _ _ R1 R2) as (k & Hk & Hrun). cbn [pp plug] in Hk, Hrun.
  exists (extend (extend t0 ns) cs). split; [by apply mxml_write_tree_text|]. split.
  - unfold mxml_parse_buffer.
    assert (Eout : out = header_text g now ++ render_list true 0 false elements 0 ++ [])
      by (unfold out; by rewrite app_nil_r, (render_elements _ 0)).
    specialize (Hrun (S (length out) - k)%nat). rewrite <- Eout in Hrun, Hk.
    replace (k + (S (length out) - k))%nat with (S (length out)) in Hrun by lia.
    unfold go_on at 1 in Hrun. cbn [pp] in Hrun.
    assert (Hne : out <> []) by done.
    fold t0. destruct out as [|c out'] eqn:Eo; [done|]. rewrite Hrun. reflexivity.
  - unfold extend. rewrite child_set_child, map_app, Ecs. unfold elements. f_equal.
    rewrite child_set_child. exact Ens.
Qed.

Lemma sample_written :
  exists root, mxml_write_tree os_all (MkStatic 0 enc_static_init 0 0) 5 (str "now") sample_tree =
      Ok (1, header_text (MkStatic 0 enc_static_init 0 0) (str "now") ++ flat_map (render true 0 true) (child sample_tree)) /\
    mxml_parse_buffer (header_text (MkStatic 0 enc_static_init 0 0) (str "now")
      ++ flat_map (render true 0 true) (child sample_tree)) None = Ok (Parsed root) /\
    map strip (child root) = header_nodes (MkStatic 0 enc_static_init 0 0) (str "now") ++ map strip (child sample_tree).
Proof.
  refine (mxml_written_parses os_all (MkStatic 0 enc_static_init 0 0) 5 (str "now") sample_tree None _ _ _ _ _ _ _).
  - reflexivity.
  - split; [split; [cbn; lia | exact I] | left; reflexivity].
  - discriminate.
  - repeat constructor; discriminate.
  - repeat first [ constructor | reflexivity ].
  - repeat first [ constructor | reflexivity ].
  - vm_compute. discriminate.
Defined.

(** ** Texts that do not come back

    An element that is never closed is accepted; a name of 64 characters can
    be opened but not closed, because the node keeps 63 of them; and a
    comment inside an element is written back as an element. *)
Example parse_unclosed :
  mxml_parse_buffer (str "<a><b/>") None =
    Ok (Parsed (append mxml_create_root_node (append (opened (str "a") [] 1) (opened (str "b") [] 1)))).
Proof. reflexivity. Qed.

Example parse_name_64 :
  let name := replicate 64 "n"%char in
  mxml_parse_buffer (str "<" ++ name ++ str "></" ++ name ++ str ">") (Some 1000) =
    Ok (NotParsed 1 (Some (str "XML read error, line 1: Found </" ++ name ++ str ">, expected </"
      ++ replicate 63 "n"%char ++ str ">"))).
Proof. vm_compute. reflexivity. Qed.

Example comment_becomes_element :
  match mxml_parse_buffer (str "<a><!--c--></a>") None with
  | Ok (Parsed root) => mxml_write_tree os_all (MkStatic 1 enc_static_init 0 0) 5 [] root
  | _ => Crash NullDeref
  end = Ok (1, XML_HEADER ++ str "<a>" ++ [NL] ++ str "  <Comment>c</Comment>" ++ [NL] ++ str "</a>" ++ [NL]).
Proof. vm_compute. reflexivity. Qed.
