(* ===== verification/MxmlSafe.v ===== *)
(** * Every input of the XML parser

    What [mxml_parse_buffer] does on an arbitrary text: it ends, and it stays
    inside its buffers and its tree unless a name is too long for
    [node_name] or the name of the root node occurs, the two ways in which
    the code can fail.  Every piece of the parser is checked against the
    judgement [runs]. *)

From S2P Require Import Prelude CStr MxmlCodec MxmlWriter MxmlTree Utils MxmlParse.

(** ** The two excuses *)

(** A run of characters of a name that does not fit [node_name[256]]. *)
Definition long_name (buf : cstr) : Prop :=
  exists u w v, buf = u ++ w ++ v /\ (256 <= length w)%nat /\ Forall (fun c => name_char c = true) w.

(** The name of the root node, which a closing tag could name. *)
Definition root_named (buf : cstr) : Prop := exists u v, buf = u ++ str "root" ++ v.

Definition excuse (buf : cstr) (c : crash) : Prop :=
  c = OutOfBounds /\ long_name buf \/ c = NullDeref /\ root_named buf.

(** ** Trees as the parser builds them: names fit their arrays, and attribute
    arrays hold what their count says *)
Inductive names_fit : node -> Prop :=
  | names_fit_node name ty v l x y cs :
      slen name < MXML_NAME_LENGTH -> Forall names_fit cs -> names_fit (Node name ty v (attr_rep l) x y cs).

Lemma names_fit_inv n :
  names_fit n <-> slen (nname n) < MXML_NAME_LENGTH /\ Forall names_fit (child n) /\ exists l, nattrs n = attr_rep l.
Proof.
  destruct n as [name ty v a x y cs]. cbn. split; [inversion 1; eauto | intros (? & ? & l & ->); by constructor].
Qed.

Lemma names_fit_subtree p : forall t n, names_fit t -> subtree t p = Some n -> names_fit n.
Proof.
  induction p as [|i p IH]; intros t n Ht; cbn [subtree]; [by intros [= <-]|].
  destruct (child t !! i) as [c|] eqn:E; [|done]. apply IH. apply names_fit_inv in Ht as (_ & Ht & _).
  rewrite List.Forall_forall in Ht. by apply Ht, list_elem_of_In, (list_elem_of_lookup_2 _ i).
Qed.

(** The pointers into a tree stay valid. *)
Definition grows (t t' : node) : Prop := forall p, is_Some (subtree t p) -> is_Some (subtree t' p).

Lemma grows_refl t : grows t t.
Proof. by intros p. Qed.
Lemma grows_trans t1 t2 t3 : grows t1 t2 -> grows t2 t3 -> grows t1 t3.
Proof. intros H1 H2 p H. by apply H2, H1. Qed.

(** What the parser writes through a pointer: a new child behind the others,
    or something that is neither name nor child. *)
Definition mild (f : node -> res node) : Prop := forall n, names_fit n ->
  exists n', f n = Ok n' /\ names_fit n' /\ nname n' = nname n /\ exists l, child n' = child n ++ l.

Lemma grows_children n n' l : child n' = child n ++ l -> grows n n'.
Proof.
  intros E [|i p]; cbn [subtree]; [done|]. rewrite E. intros H.
  destruct (child n !! i) as [c|] eqn:Ei; [|by destruct H]. by rewrite (lookup_app_l_Some _ _ _ _ Ei).
Qed.

Lemma alter_at_mild path f : mild f -> forall t, names_fit t -> is_Some (subtree t path) ->
  exists t', alter_at path f t = Ok t' /\ names_fit t' /\ nname t' = nname t /\ grows t t'.
Proof.
  intros Hf. induction path as [|i path IH]; intros t Ht; cbn [subtree alter_at].
  - intros _. destruct (Hf t Ht) as (n' & E & Hn & Hname & l & Hl). exists n'.
    split; [done|split; [done|split; [done|by eapply grows_children]]].
  - destruct (child t !! i) as [c|] eqn:Ei; [|by intros [? [=]]]. intros Hs.
    pose proof Ht as Ht2. apply names_fit_inv in Ht2 as (Hlen & Hcs & l & Hl).
    assert (Hc : names_fit c).
    { rewrite List.Forall_forall in Hcs. by apply Hcs, list_elem_of_In, (list_elem_of_lookup_2 _ i). }
    destruct (IH c Hc Hs) as (c' & E & Hc' & _ & Hg). exists (set_child t (<[i:=c']> (child t))).
    rewrite E. split; [done|]. split; [|split; [by destruct t|]].
    + apply names_fit_inv. split; [by destruct t|]. rewrite child_set_child.
      split; [by apply Forall_insert|]. exists l. by destruct t.
    + intros [|j p]; cbn [subtree]; [done|]. rewrite child_set_child.
      destruct (decide (i = j)) as [<-|Hij].
      * rewrite list_lookup_insert_eq by (by eapply lookup_lt_Some). rewrite Ei. apply Hg.
      * by rewrite list_lookup_insert_ne.
Qed.

(** A write that keeps the name and the children. *)
Lemma mild_field (f : node -> node) :
  (forall n, nname (f n) = nname n /\ child (f n) = child n /\ forall l, nattrs n = attr_rep l -> exists l', nattrs (f n) = attr_rep l') ->
  mild (fun n => Ok (f n)).
Proof.
  intros Hf n Hn. destruct (Hf n) as (H1 & H2 & H3). exists (f n). apply names_fit_inv in Hn as (Hlen & Hcs & l & Hl).
  split; [done|]. split; [apply names_fit_inv; rewrite H1, H2; eauto|]. split; [done|]. exists []. by rewrite app_nil_r.
Qed.

Lemma mild_set_line_start l : mild (set_line_start l).
Proof. apply (mild_field (fun n => set_lines n l (line_end n))). intros []; cbn; eauto. Qed.
Lemma mild_set_line_end l : mild (set_line_end l).
Proof. apply (mild_field (fun n => set_lines n (line_start n) l)). intros []; cbn; eauto. Qed.
Lemma mild_put_value v : mild (put_value v).
Proof. apply (mild_field (fun n => set_value n (Some v))). intros []; cbn; eauto. Qed.

Lemma mild_add_attribute a v : mild (fun n => x ← mxml_add_attribute (nattrs n) a v; Ok (set_attrs n x)).
Proof.
  intros n Hn. apply names_fit_inv in Hn as (Hlen & Hcs & l & Hl). rewrite Hl, add_attribute_rep. cbn [mbind res_bind].
  eexists. split; [reflexivity|]. split; [apply names_fit_inv; destruct n; cbn in *; eauto|].
  split; [by destruct n|]. exists []. rewrite app_nil_r. by destruct n.
Qed.

Lemma mild_add_child ty name : mild (fun n => mxml_add_special_node n ty name None).
Proof.
  intros n Hn. apply names_fit_inv in Hn as (Hlen & Hcs & l & Hl).
  unfold mxml_add_special_node, mxml_add_special_node_at, insert_child. rewrite Nat.leb_refl. cbn [check mbind res_bind].
  rewrite take_ge, drop_ge by lia. set (c := new_node ty name None).
  eexists. split; [reflexivity|]. split; [|split; [by destruct n|exists [c]; apply child_set_child]].
  apply names_fit_inv. rewrite child_set_child. split; [by destruct n|]. split; [|exists l; by destruct n].
  apply Forall_app. split; [done|]. constructor; [|constructor]. apply (names_fit_node _ ty None []); [|constructor].
  by apply strlcpy_val_len.
Qed.

(** ** The decoder again *)

Lemma decode_loop_length fuel : forall pre p, (length (decode_loop fuel pre p) <= length pre + length p)%nat.
Proof.
  induction fuel as [|fuel IH]; intros pre p; [cbn; rewrite length_app; lia|]. rewrite decode_loop_S.
  destruct (strchr p "&") as [[u q]|] eqn:E; [|rewrite length_app; lia].
  apply strchr_spec in E as (-> & _ & Hq). rewrite length_app.
  destruct (decode_match decode_table q) as [[c n]|] eqn:Em.
  - apply decode_match_table in Em. specialize (IH (pre ++ u ++ [c]) (drop n q)).
    rewrite !length_app, length_drop in IH. cbn in IH. lia.
  - specialize (IH (pre ++ u ++ ["&"%char]) (tail q)). rewrite !length_app, length_tail in IH. cbn in IH.
    destruct q; [done|]. cbn in *. lia.
Qed.

Lemma decode_slen s : slen (mxml_decode s) <= slen s.
Proof. pose proof (decode_loop_length (S (length s)) [] s). unfold mxml_decode, slen. cbn in *. lia. Qed.

Definition specials : cstr := ["<"; ">"; "&"; DQUOTE; SQUOTE]%char.

Lemma decode_match_special p c n : decode_match decode_table p = Some (c, n) -> c ∈ specials.
Proof.
  unfold decode_table. cbn [decode_match]. unfold specials.
  repeat match goal with |- context [if ?b then _ else _] => destruct b end; intros [= <- <-]; set_solver.
Qed.

(** A text without special characters is the decoding of itself only. *)
Lemma decode_plain_inv s : Forall (fun c => c ∉ specials) (mxml_decode s) -> mxml_decode s = s.
Proof.
  intros Hs. destruct (strchr s "&") as [[u q]|] eqn:E.
  - exfalso. unfold mxml_decode in Hs. rewrite decode_loop_S, E in Hs.
    assert (Hc : exists c r, c ∈ specials /\ decode_loop (S (length s)) [] s = (u ++ [c]) ++ r).
    { rewrite decode_loop_S, E. destruct (decode_match decode_table q) as [[c n]|] eqn:Em.
      - exists c. rewrite decode_loop_pre. eexists. split; [by eapply decode_match_special|]. cbn [app]. reflexivity.
      - exists "&"%char. rewrite decode_loop_pre. eexists. split; [unfold specials; set_solver|]. cbn [app]. reflexivity. }
    destruct Hc as (c & r & Hc & Er). rewrite decode_loop_S, E in Er. rewrite Er in Hs.
    apply Forall_app in Hs as [Hs _]. apply Forall_app in Hs as [_ Hs]. by apply Forall_cons in Hs as [Hs _].
  - apply strchr_None in E. pose proof (mxml_decode_plain s [] E) as H. rewrite !app_nil_r in H. exact H.
Qed.

(** ** The judgement *)
Section safe.
Context (buf : cstr).

Record inv (s : pst) : Prop := Inv {
  inv_text : pp s `suffix_of` buf;
  inv_fit : names_fit (proot s);
  inv_root : nname (proot s) = str "root";
  inv_ptree : match ptree s with Some path => is_Some (subtree (proot s) path) | None => root_named buf end
}.

(** From [s] on, [m] keeps the invariant, goes forward in the text and keeps
    pointers valid, and its answer satisfies [R]; or it reports an error that
    fits the message buffer; or it fails with an excuse. *)
Definition runs {A} (m : P A) (s : pst) (R : A -> pst -> Prop) : Prop :=
  match m s with
  | Ok (Go a s') => inv s' /\ pp s' `suffix_of` pp s /\ grows (proot s) (proot s') /\ R a s'
  | Ok (ReadError _ msg) => slen msg < 1000
  | Crash c => excuse buf c
  end.

Definition any {A} : A -> pst -> Prop := fun _ _ => True.

Lemma runs_bind {A B} (m : P A) (k : A -> P B) s R R' :
  runs m s R ->
  (forall a s', inv s' -> pp s' `suffix_of` pp s -> grows (proot s) (proot s') -> R a s' -> runs (k a) s' R') ->
  runs (m ≫= k) s R'.
Proof.
  unfold runs. intros Hm Hk. unfold mbind, P_bind. destruct (m s) as [[a s'|l msg]|c]; [|done|done].
  destruct Hm as (Hi & Hsuf & Hg & HR). specialize (Hk a s' Hi Hsuf Hg HR).
  destruct (k a s') as [[b s2|l msg]|c]; [|done|done]. destruct Hk as (Hi2 & Hs2 & Hg2 & HR2).
  split; [done|]. split; [by etrans|]. split; [by eapply grows_trans | done].
Qed.

Lemma runs_ret {A} (a : A) s (R : A -> pst -> Prop) : inv s -> R a s -> runs (mret a) s R.
Proof. intros Hi HR. split; [done|]. split; [done|]. split; [apply grows_refl | done]. Qed.

Lemma runs_weaken {A} (m : P A) s (R R' : A -> pst -> Prop) :
  runs m s R -> (forall a s', inv s' -> pp s' `suffix_of` pp s -> R a s' -> R' a s') -> runs m s R'.
Proof.
  unfold runs. intros Hm HR. destruct (m s) as [[a s'|l msg]|c]; [|done|done].
  destruct Hm as (Hi & Hs & Hg & Ha). repeat split; try apply Hi; try done. by apply HR.
Qed.

Lemma runs_gets {A} (f : pst -> A) s : inv s -> runs (gets f) s (fun a s' => a = f s /\ s' = s).
Proof. intros Hi. split; [done|]. split; [done|]. split; [apply grows_refl | done]. Qed.

Lemma runs_fail {A} msg s (R : A -> pst -> Prop) : slen msg < 1000 -> runs (fail_with msg) s R.
Proof. done. Qed.

(** Steps that only read, or only move the pointer and the line. *)
Lemma bind_gets {A B} (f : pst -> A) (k : A -> P B) s R : runs (k (f s)) s R -> runs (gets f ≫= k) s R.
Proof. done. Qed.

Lemma bind_mods {B} (f : pst -> pst) (k : unit -> P B) s R :
  inv (f s) -> pp (f s) `suffix_of` pp s -> grows (proot s) (proot (f s)) ->
  (inv (f s) -> runs (k tt) (f s) R) -> runs (mods f ≫= k) s R.
Proof.
  intros Hi Hs Hg Hk. eapply runs_bind with (R := fun _ s' => s' = f s); [by split; [|split; [|split]]|].
  intros [] s' _ _ _ ->. by apply Hk.
Qed.

Lemma runs_mods (f : pst -> pst) s (R : unit -> pst -> Prop) :
  inv (f s) -> pp (f s) `suffix_of` pp s -> grows (proot s) (proot (f s)) -> R tt (f s) -> runs (mods f) s R.
Proof. by intros; split; [|split; [|split]]. Qed.

Lemma P_bind_lift_runs {A B} (a : A) (k : A -> P B) s R : runs (plift (Ok a) ≫= k) s R = runs (k a) s R.
Proof. done. Qed.

Lemma inv_move s p l : inv s -> p `suffix_of` pp s -> inv (Pst p l (proot s) (ptree s)).
Proof. intros [H1 H2 H3 H4] Hp. split; cbn; [by etrans | done..]. Qed.

Lemma suffix_drop (p : cstr) n : drop n p `suffix_of` p.
Proof. exists (take n p). by rewrite take_drop. Qed.

Lemma suffix_cons (c : ascii) (p : cstr) : p `suffix_of` c :: p.
Proof. by exists [c]. Qed.

Lemma skip_lines_suffix f p : forall line, snd (skip_lines f line p) `suffix_of` p.
Proof.
  induction p as [|c p IH]; intros line; cbn [skip_lines]; [done|].
  destruct (f c); [|done]. etrans; [apply IH | apply suffix_cons].
Qed.

Lemma runs_skip_p f s : inv s -> runs (skip_p f) s (fun _ s' =>
  ptree s' = ptree s /\ proot s' = proot s /\ pp s' = snd (skip_lines f (line_number s) (pp s))).
Proof.
  intros Hi. unfold runs, skip_p. pose proof (skip_lines_suffix f (pp s) (line_number s)) as Hs.
  destruct (skip_lines f (line_number s) (pp s)) as [l p]. cbn [snd] in Hs.
  split; [by apply inv_move|]. split; [done|]. split; [apply grows_refl | done].
Qed.

Lemma runs_check_eof s : inv s -> runs check_eof s (fun _ s' => s' = s /\ pp s <> []).
Proof.
  intros Hi. unfold check_eof. apply bind_gets. destruct (pp s) as [|c p] eqn:E; [done|].
  by apply runs_ret.
Qed.

Lemma runs_skip_blanks s : inv s -> runs skip_blanks s (fun _ s' => ptree s' = ptree s /\ proot s' = proot s /\ pp s' <> []).
Proof.
  intros Hi. unfold skip_blanks. eapply runs_bind; [by apply runs_skip_p|]. intros [] s1 H1 _ _ (E1 & E2 & _).
  eapply runs_weaken; [by apply runs_check_eof|]. intros [] s' _ _ [-> Hne]. done.
Qed.

Lemma runs_advance n s : inv s -> runs (advance n) s (fun _ s' => s' = set_pp (drop n (pp s)) s).
Proof. intros Hi. pose proof (suffix_drop (pp s) n). apply runs_mods; [by apply inv_move | done | apply grows_refl | done]. Qed.

Lemma runs_on_node path f s : inv s -> is_Some (subtree (proot s) path) -> mild f ->
  runs (on_node path f) s (fun _ s' => ptree s' = ptree s /\ pp s' = pp s).
Proof.
  intros [H1 H2 H3 H4] Hs Hf. destruct (alter_at_mild path f Hf (proot s) H2 Hs) as (t' & E & Hfit & Hname & Hg).
  unfold runs, on_node. rewrite E. split; [|split; [done|split; [done|done]]].
  split; cbn; [done | done | by rewrite Hname |]. destruct (ptree s); [by apply Hg | done].
Qed.

Lemma runs_add_child ty name s : inv s ->
  runs (add_child ty name) s (fun pnew s' => ptree s' = ptree s /\ pp s' = pp s /\ ptree s <> None /\
    is_Some (subtree (proot s') pnew)).
Proof.
  intros Hi. unfold add_child. apply bind_gets. pose proof (inv_ptree _ Hi) as Hp.
  destruct (ptree s) as [path|] eqn:Ep; [|by right].
  apply bind_gets. destruct (subtree (proot s) path) as [n|] eqn:En; [|by destruct Hp].
  destruct s as [p line t pt]. cbn [ptree proot pp] in *. subst pt.
  pose proof (add_child_under ty name path n t p line En) as E.
  unfold add_child in E. rewrite P_bind_gets in E. cbn [ptree] in E. rewrite P_bind_gets in E. cbn [proot] in E. rewrite En in E.
  assert (Hon := runs_on_node path (fun n => mxml_add_special_node n ty name None) (Pst p line t (Some path)) Hi
    (ex_intro _ n En) (mild_add_child ty name)).
  unfold runs in Hon |- *. rewrite E. unfold mbind, P_bind in E.
  destruct (on_node path (fun n => mxml_add_special_node n ty name None) (Pst p line t (Some path))) as [[[] s'|l msg]|c]; [|done|done].
  unfold mret, P_ret in E. injection E as ->. destruct Hon as (Hi' & Hs' & Hg' & _).
  split; [done|]. split; [done|]. split; [done|]. split; [done|]. split; [done|]. split; [done|].
  eexists. exact (under_subtree _ _ _ _ _ En).
Qed.

(** ** The pieces *)

Lemma suffix_len (p q : cstr) : p `suffix_of` q -> (length p <= length q)%nat.
Proof. apply suffix_length. Qed.

Lemma skip_while_suffix f p u v : skip_while f p = (u, v) -> p = u ++ v /\ v `suffix_of` p /\ Forall (fun c => f c = true) u.
Proof.
  intros E. pose proof (skip_while_app f p) as H1. pose proof (skip_while_fst f p) as H2. rewrite E in H1, H2.
  cbn in *. split; [done|]. split; [by exists u | done].
Qed.

Lemma segment_suffix (a b : cstr) : b `suffix_of` a -> exists v, a = v ++ b /\ segment a b = Ok v.
Proof. intros [v ->]. exists v. split; [done | apply segment_app]. Qed.

Lemma until_found lit p line u v : strstr p lit = Some (u, v) ->
  exists line' q, until lit line p = Ok (line', q) /\ q `suffix_of` p.
Proof.
  revert u v line. induction p as [|c p IH]; intros u v line; cbn [strstr until].
  - destruct (starts lit []); [by eauto | done].
  - destruct (starts lit (c :: p)); [by eauto|]. destruct (strstr p lit) as [[u1 v1]|]; [|done]. intros _.
    destruct (IH u1 v1 (count_line c line) eq_refl) as (l & q & E & Hq). exists l, q. split; [done|].
    etrans; [exact Hq | apply suffix_cons].
Qed.

Lemma doctype_loop_suffix p : forall j line, snd (doctype_loop j line p) `suffix_of` p.
Proof.
  induction p as [|c p IH]; intros j line; cbn [doctype_loop]; [done|].
  repeat match goal with |- context [if ?b then _ else _] => destruct b end;
    try (etrans; [apply IH | apply suffix_cons]); done.
Qed.

(** A name that the parser has read: it fits, and if it is the name of the
    root node then that occurs in the text. *)
Definition read_name (name : cstr) : Prop := slen name < 256 /\ (name = str "root" -> root_named buf).

Lemma runs_parse_name s : inv s ->
  runs parse_name s (fun name s' => ptree s' = ptree s /\ proot s' = proot s /\ read_name name).
Proof.
  intros Hi. pose proof (inv_text _ Hi) as [u0 Hu0]. unfold parse_name. apply bind_gets.
  destruct (skip_while name_char (pp s)) as [name rest] eqn:E. apply skip_while_suffix in E as (Ep & Hsuf & Hall).
  destruct (Nat.ltb_spec (length name) 256) as [Hlt|Hge]; cbn [check]; cycle 1.
  { left. split; [done|]. exists u0, name, rest. by rewrite Hu0, Ep. }
  assert (Hname : read_name (mxml_decode name)).
  { split; [pose proof (decode_slen name); unfold slen in *; lia|]. intros Er.
    assert (Hn : mxml_decode name = name).
    { apply decode_plain_inv. rewrite Er. unfold specials. repeat constructor; set_solver. }
    rewrite Hn in Er. exists u0, rest. by rewrite Hu0, Ep, Er. }
  change (runs (mods (set_pp rest) ≫= fun _ => check_eof ≫= fun _ =>
    if deref rest =c "<" then fail_with (str "Unexpected '<' inside element " ++ quoted name)
    else mret (mxml_decode name)) s (fun name s' => ptree s' = ptree s /\ proot s' = proot s /\ read_name name)).
  apply bind_mods; [by apply inv_move | done | apply grows_refl |]. intros Hi1.
  eapply runs_bind; [by apply runs_check_eof|]. intros [] s1 _ _ _ [-> _].
  destruct (deref rest =c "<"); [|by apply runs_ret].
  apply runs_fail. unfold quoted, slen. rewrite length_app. cbn. rewrite length_app. cbn. lia.
Qed.

Ltac msg_fits := apply runs_fail; unfold quoted, slen in *; repeat (rewrite ?length_app; cbn [length str list_ascii_of_string app]); cbn in *; lia.

Lemma removelast_valid t path : is_Some (subtree t path) -> is_Some (subtree t (removelast path)).
Proof.
  intros Hs. destruct (decide (path = [])) as [->|Hne]; [done|].
  rewrite (app_removelast_last 0%nat Hne), subtree_app in Hs.
  destruct (subtree t (removelast path)); [done|]. by destruct Hs.
Qed.

Lemma runs_parse_end_element name s : inv s -> read_name name -> runs (parse_end_element name) s any.
Proof.
  intros Hi [Hlen Hroot]. unfold parse_end_element. apply bind_gets. pose proof (inv_ptree _ Hi) as Hp.
  destruct (ptree s) as [path|] eqn:Ept; [|msg_fits].
  apply bind_gets. destruct (subtree (proot s) path) as [n|] eqn:En; [|by destruct Hp].
  destruct (streq (nname n) name) eqn:Es; cycle 1.
  { pose proof (names_fit_subtree _ _ _ (inv_fit _ Hi) En) as Hn. apply names_fit_inv in Hn as (Hn & _).
    unfold MXML_NAME_LENGTH in Hn. msg_fits. }
  apply streq_true in Es. apply bind_gets.
  eapply runs_bind; [apply runs_on_node; [done | by rewrite En | apply mild_set_line_end]|].
  intros [] s1 Hi1 _ _ [Ept1 _]. pose proof (inv_ptree _ Hi1) as Hp1. rewrite Ept1, Ept in Hp1.
  destruct Hi1 as [H1 H2 H3 H4]. apply runs_mods; [|done|apply grows_refl|done].
  split; [done | done | done |]. cbn [ptree set_ptree proot]. destruct path as [|k path].
  - cbn [subtree] in En. injection En as <-. rewrite (inv_root _ Hi) in Es. by apply Hroot.
  - by apply removelast_valid.
Qed.

Lemma runs_match_eof {A} (pv : cstr) (k : unit -> P A) s R :
  inv s -> (pv <> [] -> runs (k tt) s R) ->
  runs ((match pv with [] => fail_with EOF_MSG | _ => mret tt end) ≫= k) s R.
Proof. intros Hi Hk. destruct pv; [done|]. by apply Hk. Qed.

Lemma runs_parse_attribute pnew name s : inv s -> slen name < 256 -> is_Some (subtree (proot s) pnew) ->
  runs (parse_attribute pnew name) s (fun _ s' => (length (pp s') < length (pp s))%nat /\ pp s' <> []).
Proof.
  intros Hi Hname Hs. unfold parse_attribute. apply bind_gets.
  destruct (skip_while attrib_char (pp s)) as [aname pv] eqn:E. apply skip_while_suffix in E as (_ & Hpv & _).
  apply runs_match_eof; [done|]. intros Hne.
  destruct ((deref pv =c "<") || (deref pv =c ">")); [msg_fits|].
  apply bind_mods; [by apply inv_move | done | apply grows_refl |]. intros Hi1.
  eapply runs_bind; [by apply runs_skip_blanks|]. intros [] s2 Hi2 Hs2 Hg2 (Ept2 & Er2 & Hne2). apply bind_gets.
  destruct (negb (deref (pp s2) =c "=")); [msg_fits|].
  eapply runs_bind; [by apply runs_advance|]. intros [] s3 Hi3 Hs3 Hg3 ->.
  eapply runs_bind; [by apply runs_skip_blanks|]. intros [] s4 Hi4 Hs4 Hg4 (Ept4 & Er4 & Hne4). apply bind_gets.
  destruct (negb (is_quote (deref (pp s4)))); [msg_fits|].
  eapply runs_bind; [by apply runs_advance|]. intros [] s5 Hi5 Hs5 Hg5 ->. apply bind_gets.
  destruct (skip_while (fun c => negb (c =c deref (pp s4))) (pp (set_pp (drop 1 (pp s4)) s4))) as [value pv2] eqn:E2.
  apply skip_while_suffix in E2 as (_ & Hpv2 & _). apply runs_match_eof; [done|]. intros _.
  eapply runs_bind.
  { apply runs_on_node; [done | | apply mild_add_attribute]. cbn [proot set_pp] in *. rewrite Er4. cbn [proot set_pp]. by rewrite Er2. }
  intros [] s6 Hi6 Hs6 Hg6 (_ & Epp6).
  apply bind_mods; [apply inv_move; [done|] | | apply grows_refl |].
  1,2: cbn [pp set_pp]; rewrite Epp6; etrans; [apply suffix_drop | done].
  intros Hi7. eapply runs_weaken; [by apply runs_skip_blanks|]. intros [] s8 _ Hs8 (_ & _ & Hne8). split; [|done].
  apply suffix_len in Hs8, Hpv2, Hs4, Hs2, Hpv. cbn [pp set_pp] in *. rewrite !length_drop in *.
  destruct (pp s2) as [|c p2]; [done|]. cbn [length] in *. lia.
Qed.

Lemma runs_parse_attributes pnew name : slen name < 256 -> forall fuel s,
  inv s -> is_Some (subtree (proot s) pnew) -> pp s <> [] -> (length (pp s) <= fuel)%nat ->
  runs (parse_attributes fuel pnew name) s any.
Proof.
  intros Hname. induction fuel as [|fuel IH]; intros s Hi Hs Hne Hf; cbn [parse_attributes]; apply bind_gets.
  - destruct (pp s); [done|]. cbn in Hf. lia.
  - destruct ((deref (pp s) =c ">") || (deref (pp s) =c "/")); [by apply runs_ret|].
    eapply runs_bind; [by apply runs_parse_attribute|]. intros [] s1 Hi1 _ Hg1 [Hlt Hne1].
    apply IH; [done | by apply Hg1 | done | lia].
Qed.

Lemma runs_parse_empty s : inv s -> runs parse_empty s any.
Proof.
  intros Hi. unfold parse_empty. apply bind_gets. destruct (deref (pp s) =c "/"); [|by apply runs_ret].
  eapply runs_bind; [by apply runs_advance|]. intros [] s1 Hi1 _ _ ->.
  eapply runs_bind; [by apply runs_skip_blanks|]. intros [] s2 Hi2 _ _ _. apply bind_gets.
  destruct (negb (deref (pp s2) =c ">")); [msg_fits|]. eapply runs_weaken; [by apply runs_advance | done].
Qed.

Lemma inv_ptree_to s pnew : inv s -> is_Some (subtree (proot s) pnew) -> inv (set_ptree (Some pnew) s).
Proof. intros [H1 H2 H3 H4] Hs. by split. Qed.

Lemma runs_parse_content pnew s : inv s -> is_Some (subtree (proot s) pnew) -> runs (parse_content pnew) s any.
Proof.
  intros Hi Hs. unfold parse_content. apply bind_gets. destruct (deref (pp s) =c ">"); [|by apply runs_ret].
  eapply runs_bind; [by apply runs_advance|]. intros [] s1 Hi1 _ _ ->. apply bind_gets, bind_gets.
  set (s1 := set_pp _ s) in *. assert (Hs1 : is_Some (subtree (proot s1) pnew)) by done.
  pose proof (skip_lines_suffix isspace (pp s1) (line_number s1)) as Hpv.
  destruct (skip_lines isspace (line_number s1) (pp s1)) as [line pv]. cbn [snd] in Hpv.
  apply bind_mods; [by apply inv_move | done | apply grows_refl |]. intros Hi2.
  destruct pv as [|c pv1]; [done|]. destruct ((c =c "<") && negb (deref pv1 =c "/")).
  - apply bind_mods; [by apply inv_ptree_to | done | apply grows_refl |]. intros Hi3.
    by apply runs_mods; [apply inv_move | | apply grows_refl |].
  - set (s2 := set_line line s1) in *.
    pose proof (skip_lines_suffix (fun c => negb (c =c "<")) (c :: pv1) line) as Hpv2.
    destruct (skip_lines _ line (c :: pv1)) as [line2 pv2]. cbn [snd] in Hpv2.
    apply bind_mods; [by apply inv_move | done | apply grows_refl |]. intros Hi3.
    destruct pv2 as [|c2 pv3]; [done|]. assert (Hsuf : c2 :: pv3 `suffix_of` pp s1) by by etrans.
    destruct (segment_suffix _ _ Hsuf) as (v & _ & ->).
    change (runs (on_node pnew (put_value (mxml_decode v)) ≫= fun _ => mods (set_pp (c2 :: pv3)) ≫= fun _ =>
      mods (set_ptree (Some pnew))) (set_line line2 s2) any).
    eapply runs_bind; [by apply runs_on_node; [| | apply mild_put_value]|]. intros [] s4 Hi4 _ Hg4 (_ & Ep4).
    apply bind_mods; [by apply inv_move; [|rewrite Ep4] | by rewrite Ep4 | apply grows_refl |]. intros Hi5.
    apply runs_mods; [|done|apply grows_refl|done]. apply inv_ptree_to; [done | by apply Hg4].
Qed.

(** The common end of a comment and of an instruction. *)
Lemma runs_until lit pv q line n pnew s u v :
  inv s -> is_Some (subtree (proot s) pnew) -> strstr (pp s) lit = Some (u, v) ->
  (forall l p, until lit line (pp s) = Ok (l, p) -> p `suffix_of` pv) -> q = pp s ->
  runs ('(line, p) ← plift (until lit line q);
        _ ← mods (set_line line);
        v ← plift (segment pv p);
        _ ← on_node pnew (put_value (mxml_decode v));
        _ ← on_node pnew (set_line_end line);
        mods (set_pp (drop n p))) s any.
Proof.
  intros Hi Hs Estr Hpv ->. destruct (until_found _ _ line _ _ Estr) as (l2 & p & Eu & Hp). specialize (Hpv l2 p Eu).
  destruct (segment_suffix _ _ Hpv) as (x & _ & Eseg).
  rewrite Eu, P_bind_lift_runs. apply bind_mods; [by apply inv_move | done | apply grows_refl |]. intros Hi1.
  rewrite Eseg, P_bind_lift_runs.
  eapply runs_bind; [by apply runs_on_node; [| | apply mild_put_value]|]. intros [] s2 Hi2 Hs2 Hg2 [_ Ep2].
  eapply runs_bind; [apply runs_on_node; [done | by apply Hg2 | apply mild_set_line_end]|]. intros [] s3 Hi3 Hs3 Hg3 [_ Ep3].
  apply runs_mods; [apply inv_move; [done|] | | apply grows_refl | done].
  all: cbn [pp set_pp set_line]; rewrite Ep3, Ep2; etrans; [apply suffix_drop | done].
Qed.

Lemma until_suffix lit p : forall line l q, until lit line p = Ok (l, q) -> q `suffix_of` p.
Proof.
  induction p as [|c p IH]; intros line l q; cbn [until].
  - destruct (starts lit []); [by intros [= _ <-] | done].
  - destruct (starts lit (c :: p)); [by intros [= _ <-]|]. intros E. etrans; [by eapply IH | apply suffix_cons].
Qed.

Lemma until_skip a lit x w : Forall (fun c => c <> a) x ->
  forall line l q, until (a :: lit) line (x ++ w) = Ok (l, q) -> q `suffix_of` w.
Proof.
  induction 1 as [|c x Hc Hx IH]; intros line l q; cbn [app]; [apply until_suffix|].
  cbn [until]. rewrite starts_head by done. apply IH.
Qed.

Lemma runs_parse_comment s : inv s -> runs parse_comment s any.
Proof.
  intros Hi. unfold parse_comment. apply bind_gets.
  eapply runs_bind; [by apply runs_add_child|]. intros pnew s1 Hi1 _ _ (_ & _ & _ & Hs1).
  eapply runs_bind; [by apply runs_on_node; [| | apply mild_set_line_start]|]. intros [] s2 Hi2 _ Hg2 (_ & Ep2).
  apply bind_gets. eapply runs_bind; [by apply runs_advance|]. intros [] s3 Hi3 _ _ ->. apply bind_gets.
  destruct (strstr _ DASHES) as [[u v]|] eqn:E; [|msg_fits].
  eapply runs_until; [done | by apply Hg2 | exact E | | done]. intros l q Eu.
  destruct (skip_while (fun c => c =c " ") (drop 3 (pp s2))) as [sp w] eqn:Esp.
  apply skip_while_suffix in Esp as (Hsp & _ & Hall). cbn [snd set_pp pp] in *. rewrite Hsp in Eu.
  eapply (until_skip "-"%char (str "->")); [|exact Eu].
  eapply List.Forall_impl; [|exact Hall]. intros c Hc ->. discriminate Hc.
Qed.

Lemma runs_parse_pi s : inv s -> runs parse_pi s any.
Proof.
  intros Hi. unfold parse_pi. apply bind_gets.
  eapply runs_bind; [by apply runs_add_child|]. intros pnew s1 Hi1 _ _ (_ & _ & _ & Hs1).
  eapply runs_bind; [by apply runs_on_node; [| | apply mild_set_line_start]|]. intros [] s2 Hi2 _ Hg2 (_ & Ep2).
  apply bind_gets. eapply runs_bind; [by apply runs_advance|]. intros [] s3 Hi3 _ _ ->. apply bind_gets.
  destruct (strstr _ (str "?>")) as [[u v]|] eqn:E; [|msg_fits].
  eapply runs_until; [done | by apply Hg2 | exact E | | done]. intros l q. apply until_suffix.
Qed.

Lemma runs_parse_doctype s : inv s -> runs parse_doctype s any.
Proof.
  intros Hi. unfold parse_doctype. eapply runs_bind; [by apply runs_advance|]. intros [] s1 Hi1 _ _ ->.
  apply bind_gets. destruct (strchr _ ">"); [|msg_fits]. apply bind_gets. set (s1 := set_pp _ s) in *.
  pose proof (doctype_loop_suffix (pp s1) 0 (line_number s1)) as Hp.
  destruct (doctype_loop 0 (line_number s1) (pp s1)) as [l q]. cbn [snd] in Hp.
  apply bind_mods; [by apply (inv_move _ q l Hi1) | done | apply grows_refl |]. intros Hi2.
  eapply runs_bind; [by apply runs_check_eof|]. intros [] s3 Hi3 _ _ _. eapply runs_weaken; [by apply runs_advance | done].
Qed.

Lemma runs_parse_start_element name s : inv s -> read_name name -> runs (parse_start_element name) s any.
Proof.
  intros Hi [Hname _]. unfold parse_start_element. apply bind_gets. destruct (ptree s); [|msg_fits].
  eapply runs_bind; [by apply runs_add_child|]. intros pnew s1 Hi1 _ _ (_ & _ & _ & Hs1). apply bind_gets.
  eapply runs_bind; [by apply runs_on_node; [| | apply mild_set_line_start]|]. intros [] s2 Hi2 _ Hg2 _.
  eapply runs_bind; [apply runs_on_node; [done | by apply Hg2 | apply mild_set_line_end]|]. intros [] s3 Hi3 _ Hg3 _.
  eapply runs_bind; [by apply runs_skip_blanks|]. intros [] s4 Hi4 _ Hg4 (_ & _ & Hne). apply bind_gets.
  eapply runs_bind; [apply runs_parse_attributes; [done | done | by apply Hg4, Hg3, Hg2 | done | done]|].
  intros [] s5 Hi5 _ Hg5 _. eapply runs_bind; [by apply runs_parse_empty|]. intros [] s6 Hi6 _ Hg6 _.
  apply runs_parse_content; [done | by apply Hg6, Hg5, Hg4, Hg3, Hg2].
Qed.

(** A tag takes its [<] at least. *)
Lemma runs_parse_tag s : inv s -> pp s <> [] -> runs parse_tag s (fun _ s' => (length (pp s') < length (pp s))%nat).
Proof.
  intros Hi Hne. unfold parse_tag. eapply runs_bind; [by apply runs_advance|]. intros [] s1 Hi1 _ _ ->.
  assert (Hlt : (length (pp (set_pp (drop 1 (pp s)) s)) < length (pp s))%nat).
  { cbn [pp set_pp]. rewrite length_drop. destruct (pp s); [done|]. cbn. lia. }
  set (s1 := set_pp _ s) in *.
  eapply runs_bind; [by apply runs_skip_blanks|]. intros [] s2 Hi2 Hs2 _ _. apply bind_gets. apply suffix_len in Hs2.
  apply runs_weaken with (R := any); [|intros [] s' _ Hs' _; apply suffix_len in Hs'; lia].
  repeat match goal with |- runs (if ?b then _ else _) _ _ => destruct b end.
  - by apply runs_parse_comment.
  - by apply runs_parse_pi.
  - by apply runs_parse_doctype.
  - eapply runs_bind; [by apply runs_advance|]. intros [] s3 Hi3 _ _ ->.
    eapply runs_bind; [by apply runs_skip_blanks|]. intros [] s4 Hi4 _ _ _.
    eapply runs_bind; [by apply runs_parse_name|]. intros name s5 Hi5 _ _ (_ & _ & Hn). by apply runs_parse_end_element.
  - eapply runs_bind; [by apply runs_parse_name|]. intros name s5 Hi5 _ _ (_ & _ & Hn). by apply runs_parse_start_element.
Qed.

Lemma runs_parse_round s : inv s ->
  runs parse_round s (fun _ s' => pp s' = [] \/ (length (pp s') < length (pp s))%nat).
Proof.
  intros Hi. unfold parse_round. apply bind_gets. destruct (deref (pp s) =c "<") eqn:E.
  - assert (Hne : pp s <> []) by (intros Hp; rewrite Hp in E; discriminate E).
    eapply runs_bind; [by apply runs_parse_tag|]. intros [] s1 Hi1 _ _ Hlt.
    eapply runs_weaken; [by apply runs_skip_p|]. intros [] s2 _ Hs2 _. apply suffix_len in Hs2. right. lia.
  - change (runs (skip_p (fun c => negb (c =c "<"))) s (fun _ s' => pp s' = [] \/ (length (pp s') < length (pp s))%nat)).
    eapply runs_weaken; [by apply runs_skip_p|]. intros [] s2 _ _ (_ & _ & ->).
    destruct (pp s) as [|c p]; [by left|]. cbn [deref skip_lines] in *. rewrite E. cbn [negb].
    pose proof (skip_lines_suffix (fun c => negb (c =c "<")) p (count_line c (line_number s))) as Hs.
    apply suffix_len in Hs. cbn [length]. right. lia.
Qed.

Lemma runs_parse_loop fuel : forall s, inv s -> (length (pp s) < fuel)%nat -> runs (parse_loop fuel) s any.
Proof.
  induction fuel as [|fuel IH]; intros s Hi Hf; [lia|]. cbn [parse_loop].
  eapply runs_bind; [by apply runs_parse_round|]. intros [] s1 Hi1 Hs1 _ Hlt. apply bind_gets.
  destruct (pp s1) as [|c p] eqn:Ep; [by apply runs_ret|]. apply IH; [done|]. rewrite Ep.
  destruct Hlt; [done | lia].
Qed.
End safe.

(** C37: the parser ends on every text.  It returns a tree or an error message,
    and leaves its buffers only if a name of 256 characters or more is in the
    text, and follows a null pointer only if the name of the root node is in
    the text. *)
Theorem mxml_parse_total buf error_size :
  match mxml_parse_buffer buf error_size with
  | Ok (Parsed t) => names_fit t /\ nname t = str "root"
  | Ok (NotParsed line e) => error_size = None <-> e = None
  | Crash c => excuse buf c
  end.
Proof.
  unfold mxml_parse_buffer. set (s0 := Pst buf 1 mxml_create_root_node (Some [])).
  assert (Hi : inv buf s0).
  { split; cbn; [done | | done | done]. apply (names_fit_node _ _ None []); [done | constructor]. }
  pose proof (runs_parse_loop buf (S (length buf)) s0 Hi ltac:(cbn; lia)) as R. unfold runs in R.
  destruct (parse_loop (S (length buf)) s0) as [[[] s'|line msg]|c]; [| |exact R].
  - destruct R as (Hi' & _). split; [apply Hi' | apply Hi'].
  - cbn [mbind res_bind]. unfold read_error. pose proof (decimal_slen line) as Hd.
    set (head := str "XML read error, line " ++ decimal line ++ str ": ").
    assert (Hh : slen head < 1000).
    { unfold head. rewrite !slen_app. change (slen (str "XML read error, line ")) with 21.
      change (slen (str ": ")) with 2. lia. }
    rewrite (proj2 (Z.ltb_lt _ _) Hh), (proj2 (Z.ltb_lt _ _) R). cbn. by destruct error_size.
Qed.

(** Both excuses are real. *)
Example parse_long_name : mxml_parse_buffer ("<"%char :: replicate 256 "a"%char ++ str ">") None = Crash OutOfBounds.
Proof. reflexivity. Qed.

Example parse_after_root : mxml_parse_buffer (str "<a/></root><!-- x -->") None = Crash NullDeref.
Proof. reflexivity. Qed.
