(* ===== verification/MxmlFind.v ===== *)
(** * Paths into an XML tree: [mxml_find_nodes] of [mxml/mxml.c]

    A path selects the nodes below a tree by name, by position and by
    conditions on attributes or subnodes.  A pointer to a node is its path of
    child indices, as in [MxmlTree.v]; the list [*nodelist] with [*found] is a
    list of such pointers. *)

From Stdlib Require Import Sorted.
From S2P Require Import Prelude CStr MxmlCodec MxmlWriter MxmlTree MxmlParse MxmlSafe.

(** ** Conditions *)

Definition MXML_MAX_CONDITION : nat := 10.
Definition MAX_NAME : Z := 256.

Record cond := Cond { cond_type : bool; cond_name : cstr; cond_value : cstr }.

(** [while (s[0] && isspace(s[strlen(s)-1])) s[strlen(s)-1] = 0] *)
Fixpoint trim_end (s : cstr) : cstr :=
  match s with
  | [] => []
  | c :: s' => match trim_end s' with [] => if isspace c then [] else [c] | t => c :: t end
  end.

(** [if (s[0] && s[strlen(s)-1] == q) s[strlen(s)-1] = 0] *)
Definition cut_last (q : ascii) (s : cstr) : cstr :=
  match last s with Some c => if c =c q then removelast s else s | None => s end.

Definition condition_value (p3 : cstr) : cstr :=
  match p3 with
  | q :: p => if (q =c DQUOTE) || (q =c SQUOTE) then cut_last q (trim_end (strlcpy_val MAX_NAME p))
              else trim_end (strlcpy_val MAX_NAME p3)
  | [] => []
  end.

(** [[<@attrib>/<subnode>=<value>]] without its brackets; without an equals sign
    it is no condition. *)
Definition add_condition (condition : cstr) (conds : list cond) : list cond :=
  match strchr condition "=" with
  | None => conds
  | Some (name, p3) =>
      let attr := match condition with c :: _ => c =c "@" | [] => false end in
      let name := trim_end (if attr then tail name else name) in
      conds ++ [Cond attr name (condition_value (snd (skip_while isspace (tail p3))))]
  end.

(** [while ( *p2 == '[')]: what follows, the index and the conditions; [None] is
    [return 0].  A bracket with an index takes no place in the arrays, but
    the place is written to. *)
Fixpoint brackets (fuel : nat) (p2 : cstr) (idx : Z) (conds : list cond) : res (option (cstr * Z * list cond)) :=
  match p2 with
  | c :: p =>
      if c =c "[" then
        _ ← check (Nat.ltb (length conds) MXML_MAX_CONDITION) OutOfBounds;
        match fuel with
        | O => Crash NoFuel
        | S fuel' =>
            if match p with d :: _ => isdigit d | [] => false end then
              _ ← check (atoi p <=? 2 ^ 31 - 1) IntOverflow;
              match strchr p "]" with
              | None => Ok None
              | Some (_, r) => brackets fuel' (tail r) (atoi p) conds
              end
            else
              let p := snd (skip_while isspace p) in
              match strchr (strlcpy_val MAX_NAME p) "]", strchr p "]" with
              | Some (condition, _), Some (_, r) => brackets fuel' (tail r) idx (add_condition condition conds)
              | _, _ => Ok None
              end
        end
      else Ok (Some (p2, idx, conds))
  | [] => Ok (Some ([], idx, conds))
  end.

(** ** Which children a component of the path selects *)

(** The subnodes of a child that satisfy a condition; [strcmp] reads the value
    of a subnode that may have none. *)
Fixpoint count_subnodes (l : list node) (k : cond) : res nat :=
  match l with
  | [] => Ok O
  | c :: l' =>
      n ← (if streq (nname c) (cond_name k) then
             match nvalue c with
             | None => Crash NullDeref
             | Some v => Ok (if streq v (cond_value k) then 1%nat else O)
             end
           else Ok O);
      m ← count_subnodes l' k;
      Ok (n + m)%nat
  end.

(** [cond_satisfied] *)
Fixpoint count_satisfied (conds : list cond) (node_name : cstr) (c : node) : res nat :=
  match conds with
  | [] => Ok O
  | k :: conds' =>
      n ← (if cond_type k then
             if streq (nname c) node_name then
               v ← mxml_get_attribute (nattrs c) (cond_name k);
               Ok (match v with Some v => if streq v (cond_value k) then 1%nat else O | None => O end)
             else Ok O
           else count_subnodes (child c) k);
      m ← count_satisfied conds' node_name c;
      Ok (n + m)%nat
  end.

(** Whether a child is taken, and how many were counted up to it. *)
Definition counted (idx count : Z) : bool * Z := ((idx =? 0) || (count + 1 =? idx), count + 1).
Definition child_hit (node_name : cstr) (idx : Z) (conds : list cond) (c : node) (count : Z) : res (bool * Z) :=
  match conds with
  | [] => Ok (if streq (nname c) node_name then if idx =? 0 then (true, count) else counted idx count else (false, count))
  | _ =>
      n ← count_satisfied conds node_name c;
      Ok (if Nat.eqb n (length conds) then counted idx count else (false, count))
  end.

(** ** The search *)

(** The loop over the children from [i] on: [hit] says which are taken and [f]
    is what is done with one. *)
Section visit.
Context (hit : node -> Z -> res (bool * Z)) (f : nat -> node -> list (list nat) -> res (bool * list (list nat))).
Fixpoint visit (l : list node) (i : nat) (count : Z) (found : list (list nat)) : res (bool * list (list nat)) :=
  match l with
  | [] => Ok (true, found)
  | c :: l' =>
      '(taken, count) ← hit c count;
      if taken : bool then
        '(ok, found) ← f i c found;
        if ok : bool then visit l' (S i) count found else Ok (false, found)
      else visit l' (S i) count found
  end.
End visit.

(** The loop over the components is left after its first round, which has looked
    at all the children; longer paths go through [mxml_add_resultnode]. *)
Fixpoint mxml_find_nodes1 (tree : node) (here : list nat) (xml_path : cstr) (found : list (list nat))
    : res (bool * list (list nat)) :=
  let p1 := match xml_path with c :: p => if c =c "/" then p else xml_path | [] => [] end in
  let '(node_name, p2) := skip_while (fun c => negb (c =c "/") && negb (c =c "[")) p1 in
  if MAX_NAME <=? slen node_name then Ok (false, found)
  else
    b ← brackets (length p2) p2 0 [];
    match b with
    | None => Ok (false, found)
    | Some (p2, idx, conds) =>
        visit (child_hit node_name idx conds)
          (fun i c found => match p2 with
                            | [] => Ok (true, found ++ [here ++ [i]])
                            | _ :: p => mxml_find_nodes1 c (here ++ [i]) p found
                            end)
          (child tree) 0 0 found
    end.

(** The answer and [*nodelist]. *)
Definition mxml_find_nodes (tree : node) (xml_path : cstr) : res (Z * list (list nat)) :=
  '(ok, found) ← mxml_find_nodes1 tree [] xml_path [];
  Ok (if ok : bool then Z.of_nat (length found) else -1, found).

Definition mxml_find_node (tree : node) (xml_path : cstr) : res (option (list nat)) :=
  '(n, found) ← mxml_find_nodes tree xml_path;
  Ok (if 0 <? n then head found else None).

(** ** File names: [mxml_basename] and [mxml_dirname]

    Both change the path in place; [strcpy] to the local array of
    [FILENAME_MAX] bytes is checked. *)

Definition FILENAME_MAX : Z := 4096.

(** The scan that keeps the place behind the last slash. *)
Fixpoint after_slashes (p name : cstr) : cstr :=
  match p with
  | [] => name
  | c :: p' => after_slashes p' (if c =c "/" then p' else name)
  end.
Definition mxml_basename (path : option cstr) : res (option cstr) :=
  match path with
  | None => Ok None
  | Some p => _ ← check (slen p <? FILENAME_MAX) OutOfBounds; Ok (Some (after_slashes p p))
  end.

Definition mxml_dirname (path : option cstr) : option cstr :=
  match path with
  | None | Some [] => path
  | Some p =>
      match strrchr p "/" with
      | None => Some (str ".")
      | Some ([], _) => Some (str "/")
      | Some (dir, _) => Some dir
      end
  end.

(** ** The meaning of a path *)

(** A component takes the children of its name: all of them, the one at a
    position that is written as decimal digits, or those with an attribute of a
    value. *)
Inductive selection := All | Nth (digits : cstr) | Having (attr value : cstr).
Record component := Component { comp_name : cstr; comp_sel : selection }.

Definition sel_text (s : selection) : cstr :=
  match s with
  | All => []
  | Nth d => "["%char :: d ++ ["]"%char]
  | Having a v => "["%char :: "@"%char :: a ++ "="%char :: v ++ ["]"%char]
  end.
Definition path_text (p : list component) : cstr := concat (map (fun c => "/"%char :: comp_name c ++ sel_text (comp_sel c)) p).

(** The children of a name with their positions. *)
Definition named (name : cstr) (l : list node) (i : nat) : list (nat * node) :=
  filter (fun x => nname x.2 = name) (zip (seq i (length l)) l).
Definition has_attr (a v : cstr) (c : node) : Prop := mxml_get_attribute (nattrs c) a = Ok (Some v).
#[export] Instance has_attr_dec a v c : Decision (has_attr a v c).
Proof.
  unfold has_attr. destruct (mxml_get_attribute (nattrs c) a) as [[w|]|].
  - destruct (decide (w = v)) as [-> | Hne]; [by left | right; congruence].
  - by right.
  - by right.
Defined.

Definition select (s : selection) (l : list (nat * node)) : list (nat * node) :=
  match s with
  | All => l
  | Nth d => match l !! Z.to_nat (atoi d - 1) with Some x => [x] | None => [] end
  | Having a v => filter (fun x => has_attr a v x.2) l
  end.

Fixpoint select_path (p : list component) (t : node) : list (list nat) :=
  match p with
  | [] => [[]]
  | c :: p' => flat_map (fun '(i, x) => map (cons i) (select_path p' x)) (select (comp_sel c) (named (comp_name c) (child t) 0))
  end.

(** The components the text of which means what it says: names that fit and
    have no separator, positions that count, attributes and values without the
    characters that delimit them. *)
Definition plain_value (v : cstr) : bool :=
  bool_decide (trim_end v = v) &&
  match v with c :: _ => negb (isspace c) && negb (c =c DQUOTE) && negb (c =c SQUOTE) | [] => true end.
Definition sel_ok (s : selection) : Prop :=
  match s with
  | All => True
  | Nth d => d <> [] /\ Forall (fun c => isdigit c = true) d /\ 1 <= atoi d <= 2 ^ 31 - 1
  | Having a v => trim_end a = a /\ "="%char ∉ a /\ "]"%char ∉ a /\ "]"%char ∉ v /\ plain_value v = true /\ slen a + slen v + 3 < MAX_NAME
  end.
Definition comp_ok (c : component) : Prop :=
  comp_name c <> [] /\ slen (comp_name c) < MAX_NAME /\ "/"%char ∉ comp_name c /\ "["%char ∉ comp_name c /\ sel_ok (comp_sel c).

(** ** Reading a component *)

Lemma digits_val_app acc d c r : Forall (fun x => isdigit x = true) d -> isdigit c = false ->
  digits_val acc (d ++ c :: r) = digits_val acc d.
Proof.
  intros Hd Hc. revert acc. induction d as [|x d IH]; intros acc; cbn [app digits_val]; [by rewrite Hc|].
  apply Forall_cons in Hd as [Hx Hd]. rewrite Hx. by apply IH.
Qed.

Definition sel_parsed (s : selection) : Z * list cond :=
  match s with
  | All => (0, [])
  | Nth d => (atoi d, [])
  | Having a v => (0, [Cond true a v])
  end.

(** What follows a component. *)
Definition path_rest (r : cstr) : Prop := match r with [] => True | c :: _ => c = "/"%char end.

Lemma brackets_rest fuel r idx conds : path_rest r -> brackets fuel r idx conds = Ok (Some (r, idx, conds)).
Proof. destruct r as [|c r]; intros Hr; [by destruct fuel|]. cbn in Hr. subst c. by destruct fuel. Qed.

Lemma brackets_nth fuel d r : d <> [] -> Forall (fun c => isdigit c = true) d -> atoi d <= 2 ^ 31 - 1 -> path_rest r ->
  brackets (S fuel) ("["%char :: d ++ "]"%char :: r) 0 [] = Ok (Some (r, atoi d, [])).
Proof.
  intros Hne Hd Hmax Hr. cbn [brackets]. change ("["%char =c "[") with true. cbv iota.
  assert (Hat : atoi (d ++ "]"%char :: r) = atoi d) by (unfold atoi; by apply digits_val_app).
  assert (Hin : "]"%char ∉ d) by (intros Hin; rewrite Forall_forall in Hd; by specialize (Hd _ Hin)).
  destruct d as [|c d]; [done|]. pose proof Hd as Hd'. apply Forall_cons in Hd' as [Hc _]. cbn [app].
  change (c :: d ++ "]"%char :: r) with ((c :: d) ++ "]"%char :: r).
  cbn [check Nat.ltb Nat.leb length MXML_MAX_CONDITION mbind res_bind]. cbn [app]. rewrite Hc.
  change (c :: d ++ "]"%char :: r) with ((c :: d) ++ "]"%char :: r). rewrite Hat, strchr_app by done.
  rewrite (proj2 (Z.leb_le _ _)) by done. cbn [check mbind res_bind tail]. by apply brackets_rest.
Qed.

Lemma plain_condition v : plain_value v = true -> slen v < MAX_NAME -> condition_value (snd (skip_while isspace v)) = v.
Proof.
  unfold plain_value. intros [Ht Hh]%andb_true_iff Hl. apply bool_decide_eq_true in Ht. destruct v as [|c v]; [done|].
  apply andb_true_iff in Hh as [Hh H3]. apply andb_true_iff in Hh as [H1 H2]. apply negb_true_iff in H1, H2, H3.
  cbn [skip_while]. rewrite H1. cbn [snd condition_value]. rewrite H2, H3. cbn [orb]. by rewrite strlcpy_val_short.
Qed.

Lemma brackets_having fuel a v r : sel_ok (Having a v) -> path_rest r ->
  brackets (S fuel) ("["%char :: "@"%char :: a ++ "="%char :: v ++ "]"%char :: r) 0 [] = Ok (Some (r, 0, [Cond true a v])).
Proof.
  intros (Hta & Hea & Hba & Hbv & Hv & Hlen) Hr. unfold slen, MAX_NAME in Hlen. cbn [brackets]. change ("["%char =c "[") with true. cbv iota.
  cbn [check Nat.ltb Nat.leb length MXML_MAX_CONDITION mbind res_bind]. change (isdigit "@"%char) with false. cbv iota.
  cbn [skip_while snd]. change (isspace "@"%char) with false. cbv iota. cbn [snd].
  set (body := "@"%char :: a ++ "="%char :: v).
  replace ("@"%char :: a ++ "="%char :: v ++ "]"%char :: r) with (body ++ "]"%char :: r) by (unfold body; cbn; by rewrite <- app_assoc).
  assert (Hin : "]"%char ∉ body).
  { unfold body. rewrite elem_of_cons, elem_of_app, elem_of_cons. by intros [?|[?|[?|?]]]. }
  assert (Hlb : (length body <= 254)%nat) by (unfold body; rewrite length_cons, length_app, length_cons; lia).
  destruct (strchr (strlcpy_val MAX_NAME (body ++ "]"%char :: r)) "]") as [[u w]|] eqn:E.
  2:{ exfalso. apply strchr_None in E. apply E. unfold strlcpy_val, MAX_NAME. change (Z.to_nat (256 - 1)) with 255%nat.
      rewrite take_app_ge by lia. apply elem_of_app. right. replace (255 - length body)%nat with (S (254 - length body)) by lia. cbn. by left. }
  assert (u = body) as ->.
  { unfold strlcpy_val, MAX_NAME in E. change (Z.to_nat (256 - 1)) with 255%nat in E. rewrite take_app_ge in E by lia.
    replace (255 - length body)%nat with (S (254 - length body)) in E by lia. cbn [firstn take] in E. rewrite strchr_app in E by done. congruence. }
  rewrite strchr_app by done. cbn [tail]. rewrite brackets_rest by done. do 3 f_equal. unfold add_condition.
  assert (Ec : strchr body "=" = Some ("@"%char :: a, "="%char :: v)).
  { unfold body. change ("@"%char :: a ++ "="%char :: v) with (("@"%char :: a) ++ "="%char :: v). apply strchr_app.
    rewrite elem_of_cons. by intros [?|?]. }
  rewrite Ec. cbn [app tail]. unfold body. change ("@"%char =c "@") with true. cbv iota. rewrite Hta. do 2 f_equal.
  apply plain_condition; [done|]. unfold slen, MAX_NAME. lia.
Qed.

Lemma brackets_sel s r fuel : sel_ok s -> path_rest r -> (length (sel_text s ++ r) <= fuel)%nat ->
  brackets fuel (sel_text s ++ r) 0 [] = Ok (Some (r, (sel_parsed s).1, (sel_parsed s).2)).
Proof.
  intros Hs Hr Hf. destruct s as [|d|a v]; [by apply brackets_rest| |]; (destruct fuel as [|fuel]; [cbn in Hf; lia|]); cbn [sel_text app] in *.
  - destruct Hs as (Hne & Hd & Hr2). rewrite <- app_assoc. apply brackets_nth; [done | done | lia | done].
  - rewrite <- app_assoc. cbn [app]. rewrite <- app_assoc. by apply brackets_having.
Qed.

(** ** The loop over the children *)

(** What [visit] takes when [hit] is pure. *)
Fixpoint picked (h : node -> Z -> bool * Z) (l : list node) (i : nat) (count : Z) : list (nat * node) :=
  match l with
  | [] => []
  | c :: l' => let '(b, n) := h c count in (if b then [(i, c)] else []) ++ picked h l' (S i) n
  end.

Lemma visit_picked hit f h (g : nat -> node -> list (list nat)) l :
  (forall c n, c ∈ l -> hit c n = Ok (h c n)) -> (forall i c found, c ∈ l -> f i c found = Ok (true, found ++ g i c)) ->
  forall i count found, visit hit f l i count found = Ok (true, found ++ flat_map (fun '(i, c) => g i c) (picked h l i count)).
Proof.
  intros Hh Hf. induction l as [|c l IH]; intros i count found; cbn [visit picked flat_map]; [by rewrite app_nil_r|].
  rewrite Hh by (by left). cbn [mbind res_bind]. destruct (h c count) as [[|] n]; cbn [app flat_map].
  - rewrite Hf by (by left). cbn [mbind res_bind]. rewrite IH; [by rewrite <- app_assoc | | ]; intros; [apply Hh | apply Hf]; by right.
  - apply IH; intros; [apply Hh | apply Hf]; by right.
Qed.

Lemma named_cons name c l i : named name (c :: l) i = (if decide (nname c = name) then [(i, c)] else []) ++ named name l (S i).
Proof. unfold named. cbn [length seq zip zip_with]. rewrite filter_cons. cbn [snd]. by destruct (decide _). Qed.

Lemma streq_decide a b : streq a b = if decide (a = b) then true else false.
Proof. unfold streq. by rewrite bool_decide_decide. Qed.

(** The pure form of [child_hit] for a component. *)
Definition hit_of (name : cstr) (s : selection) (c : node) (count : Z) : bool * Z :=
  match s with
  | Having a v => if decide (nname c = name /\ has_attr a v c) then (true, count + 1) else (false, count)
  | _ => if decide (nname c = name) then if (sel_parsed s).1 =? 0 then (true, count) else counted (sel_parsed s).1 count else (false, count)
  end.

Lemma child_hit_sel name s c count : (exists l, nattrs c = attr_rep l) ->
  child_hit name (sel_parsed s).1 (sel_parsed s).2 c count = Ok (hit_of name s c count).
Proof.
  intros (at_ & Ha). destruct s as [|d|a v]; cbn [sel_parsed fst snd child_hit hit_of]; [by rewrite streq_decide; destruct (decide _)..|].
  cbn [count_satisfied cond_type cond_name cond_value]. rewrite streq_decide.
  assert (Hg : mxml_get_attribute (nattrs c) a = Ok (assoc at_ a)) by (rewrite Ha; apply get_attribute_rep).
  destruct (decide (nname c = name)) as [Hn|Hn]; cbn [mbind res_bind].
  - rewrite Hg. cbn [mbind res_bind]. destruct (decide (nname c = name /\ has_attr a v c)) as [[_ Hv]|Hv]; unfold has_attr in Hv; rewrite Hg in Hv.
    + injection Hv as ->. unfold streq. by rewrite bool_decide_true.
    + destruct (assoc at_ a) as [w|]; [|done]. unfold streq. rewrite bool_decide_false; [done|]. intros ->. by apply Hv.
  - rewrite decide_False by (by intros [? _]). done.
Qed.

Lemma picked_all name l i count : picked (hit_of name All) l i count = named name l i.
Proof.
  revert i count. induction l as [|c l IH]; intros i count; [done|]. rewrite named_cons. cbn [picked hit_of sel_parsed fst].
  change (0 =? 0) with true. destruct (decide (nname c = name)); cbn [app]; by rewrite IH.
Qed.

Lemma picked_having name a v l i count : picked (hit_of name (Having a v)) l i count = filter (fun x => has_attr a v x.2) (named name l i).
Proof.
  revert i count. induction l as [|c l IH]; intros i count; [done|]. rewrite named_cons. cbn [picked hit_of].
  destruct (decide (nname c = name)) as [Hn|Hn].
  - cbn [app]. rewrite filter_cons. cbn [snd]. destruct (decide (has_attr a v c)) as [Hv|Hv].
    + rewrite decide_True by done. cbn [app]. by rewrite IH.
    + rewrite decide_False by (by intros [_ ?]). cbn [app]. by rewrite IH.
  - rewrite decide_False by (by intros [? _]). cbn [app]. by rewrite IH.
Qed.

Lemma picked_nth name d l i count : 1 <= atoi d -> 0 <= count -> picked (hit_of name (Nth d)) l i count =
  if count <? atoi d then match named name l i !! Z.to_nat (atoi d - 1 - count) with Some x => [x] | None => [] end else [].
Proof.
  intros Hd. revert i count. induction l as [|c l IH]; intros i count Hc; [by destruct (_ <? _)|]. rewrite named_cons. cbn [picked hit_of sel_parsed fst].
  destruct (decide (nname c = name)); [|cbn [app]; by apply IH].
  rewrite (proj2 (Z.eqb_neq (atoi d) 0)) by lia. unfold counted. rewrite (proj2 (Z.eqb_neq (atoi d) 0)) by lia. cbn [orb].
  rewrite IH by lia. destruct (Z.eqb_spec (count + 1) (atoi d)) as [E|E].
  - rewrite (proj2 (Z.ltb_ge (count + 1) _)), (proj2 (Z.ltb_lt count _)) by lia. replace (atoi d - 1 - count) with 0 by lia. done.
  - cbn [app]. destruct (Z.ltb_spec count (atoi d)).
    + rewrite (proj2 (Z.ltb_lt (count + 1) _)) by lia. replace (Z.to_nat (atoi d - 1 - count)) with (S (Z.to_nat (atoi d - 1 - (count + 1)))) by lia. done.
    + by rewrite (proj2 (Z.ltb_ge (count + 1) _)) by lia.
Qed.

Lemma picked_select name s l : sel_ok s -> picked (hit_of name s) l 0 0 = select s (named name l 0).
Proof.
  destruct s as [|d|a v]; intros Hs; cbn [select]; [apply picked_all | | apply picked_having].
  destruct Hs as (_ & _ & Hd). rewrite picked_nth by lia. rewrite (proj2 (Z.ltb_lt 0 _)) by lia. by rewrite Z.sub_0_r.
Qed.

(** ** One component of a path *)

Lemma find_component c r t here found : comp_ok c -> names_fit t -> path_rest r -> forall p,
  p = comp_name c ++ sel_text (comp_sel c) ++ r \/ p = "/"%char :: comp_name c ++ sel_text (comp_sel c) ++ r ->
  mxml_find_nodes1 t here p found =
  visit (child_hit (comp_name c) (sel_parsed (comp_sel c)).1 (sel_parsed (comp_sel c)).2)
    (fun i c found => match r with [] => Ok (true, found ++ [here ++ [i]]) | _ :: p => mxml_find_nodes1 c (here ++ [i]) p found end)
    (child t) 0 0 found.
Proof.
  intros (Hne & Hlen & Hsl & Hbr & Hsel) Ht Hr p Hp. destruct t as [nm ty va at_ la lb cs]. cbn [mxml_find_nodes1].
  set (name := comp_name c) in *. set (s := comp_sel c) in *.
  assert (Hp1 : (match p with c :: q => if c =c "/" then q else p | [] => [] end) = name ++ sel_text s ++ r).
  { destruct Hp as [-> | ->]; [|done]. destruct name as [|x name]; [done|]. cbn [app]. destruct (Ascii.eqb_spec x "/"%char) as [-> |]; [|done].
    exfalso. apply Hsl. by left. }
  rewrite Hp1. assert (Hstop : skip_while (fun c => negb (c =c "/") && negb (c =c "[")) (name ++ sel_text s ++ r) = (name, sel_text s ++ r)).
  { apply skip_while_app_stop.
    - apply Forall_forall. intros x Hx. apply andb_true_iff. split; apply negb_true_iff, Ascii.eqb_neq; intros ->; [by apply Hsl | by apply Hbr].
    - destruct s as [|d|a v]; [|done|done]. destruct r as [|x r]; [done|]. cbn in Hr. by subst x. }
  rewrite Hstop, (proj2 (Z.leb_gt _ _)) by done. rewrite brackets_sel by done. reflexivity.
Qed.

Lemma names_fit_child t c : names_fit t -> c ∈ child t -> names_fit c.
Proof. intros (_ & Hcs & _)%names_fit_inv Hc. rewrite Forall_forall in Hcs. by apply Hcs. Qed.

Lemma path_text_cons c p : path_text (c :: p) = "/"%char :: comp_name c ++ sel_text (comp_sel c) ++ path_text p.
Proof. unfold path_text. cbn [map concat app]. by rewrite <- app_assoc. Qed.

Lemma path_rest_text p : path_rest (path_text p).
Proof. destruct p as [|c p]; [done|]. by rewrite path_text_cons. Qed.

Lemma map_flat_map {A B C} (f : B -> C) (g : A -> list B) l : map f (flat_map g l) = flat_map (fun x => map f (g x)) l.
Proof. induction l as [|x l IH]; [done|]. cbn [flat_map]. by rewrite map_app, IH. Qed.

Lemma find_nodes1_select p : Forall comp_ok p -> forall c t here found q, comp_ok c -> names_fit t ->
  q = comp_name c ++ sel_text (comp_sel c) ++ path_text p \/ q = path_text (c :: p) ->
  mxml_find_nodes1 t here q found = Ok (true, found ++ map (app here) (select_path (c :: p) t)).
Proof.
  induction 1 as [|c2 p Hc2 Hp IH]; intros c t here found q Hc Ht Hq; rewrite (path_text_cons c) in Hq.
  - rewrite (find_component c [] t here found Hc Ht I q Hq).
    rewrite (visit_picked _ _ (hit_of (comp_name c) (comp_sel c)) (fun i _ => [here ++ [i]])).
    + destruct Hc as (_ & _ & _ & _ & Hs). rewrite picked_select by done. cbn [select_path]. rewrite map_flat_map. do 3 f_equal.
      apply flat_map_ext. by intros [i x].
    + intros x n Hx. apply child_hit_sel. by apply (names_fit_child t) in Hx as (_ & _ & Hx)%names_fit_inv.
    + done.
  - rewrite (find_component c (path_text (c2 :: p)) t here found Hc Ht (path_rest_text _) q Hq). rewrite path_text_cons.
    rewrite (visit_picked _ _ (hit_of (comp_name c) (comp_sel c)) (fun i x => map (app (here ++ [i])) (select_path (c2 :: p) x))).
    + destruct Hc as (_ & _ & _ & _ & Hs). rewrite picked_select by done.
      change (select_path (c :: c2 :: p) t) with (flat_map (fun '(i, x) => map (cons i) (select_path (c2 :: p) x)) (select (comp_sel c) (named (comp_name c) (child t) 0))).
      rewrite map_flat_map. do 3 f_equal. apply flat_map_ext. intros [i x]. rewrite map_map. apply map_ext. intros r. by rewrite <- app_assoc.
    + intros x n Hx. apply child_hit_sel. by apply (names_fit_child t) in Hx as (_ & _ & Hx)%names_fit_inv.
    + intros i x f Hx. apply IH; [done | by apply (names_fit_child t) | by left].
Qed.

(** ** Every path on every tree *)

(** The order of the nodes in the document. *)
Inductive before : list nat -> list nat -> Prop :=
  | before_here i j p q : (i < j)%nat -> before (i :: p) (j :: q)
  | before_below i p q : before p q -> before (i :: p) (i :: q).

Lemma before_app h p q : before p q -> before (h ++ p) (h ++ q).
Proof. intros Hb. induction h; [done | by constructor]. Qed.

(** The faults a path can lead to, on a tree whose attributes are in order. *)
Definition path_fault (c : crash) : Prop := c = OutOfBounds \/ c = IntOverflow \/ c = NullDeref.

Lemma brackets_fault fuel p2 idx conds : (length p2 <= fuel)%nat ->
  match brackets fuel p2 idx conds with Ok _ => True | Crash c => path_fault c end.
Proof.
  revert p2 idx conds. induction fuel as [|fuel IH]; intros [|c p2] idx conds Hf; cbn [brackets]; try done; cbn in Hf; [lia|].
  destruct (c =c "["); [|done]. unfold check at 1. destruct (Nat.ltb _ _); cbn [mbind res_bind]; [|by left].
  assert (Hshort : forall q u v, q `suffix_of` p2 -> strchr q "]" = Some (u, v) -> (length (tail v) <= fuel)%nat).
  { intros q u v Hq E. apply suffix_length in Hq. apply strchr_spec in E as (-> & _ & _). rewrite length_app in Hq.
    destruct v; cbn [tail length] in *; lia. }
  destruct (match p2 with d :: _ => isdigit d | [] => false end).
  - unfold check. destruct (_ <=? _); cbn [mbind res_bind]; [|by right; left]. destruct (strchr p2 "]") as [[u v]|] eqn:E; [|done].
    apply IH. by apply (Hshort p2 u v).
  - destruct (strchr (strlcpy_val _ _) "]") as [[u v]|]; [|done]. destruct (strchr (snd _) "]") as [[u' v']|] eqn:E; [|done].
    apply IH. apply (Hshort _ u' v') in E; [done|]. destruct (skip_while isspace p2) as [x y] eqn:Es. by apply skip_while_suffix in Es as (_ & Es & _).
Qed.

(** A computation that only has those faults. *)
Definition faults {A} (m : res A) (Q : A -> Prop) : Prop := match m with Ok a => Q a | Crash c => path_fault c end.

Lemma faults_bind {A B} (m : res A) (k : A -> res B) Q R : faults m Q -> (forall a, Q a -> faults (k a) R) -> faults (m ≫= k) R.
Proof. destruct m as [a|c]; cbn; intros Hm Hk; [by apply Hk | done]. Qed.

Lemma faults_subnodes l k : faults (count_subnodes l k) (fun _ => True).
Proof.
  induction l as [|c l IH]; [done|]. cbn [count_subnodes]. apply (faults_bind _ _ (fun _ => True)).
  - destruct (streq _ _); [|done]. destruct (nvalue c); [done | by right; right].
  - intros n _. by apply (faults_bind _ _ (fun _ => True)).
Qed.

Lemma faults_hit name idx conds c count : (exists l, nattrs c = attr_rep l) -> faults (child_hit name idx conds c count) (fun _ => True).
Proof.
  intros (at_ & Ha). unfold child_hit. destruct conds as [|k conds]; [done|]. set (ks := k :: conds). apply (faults_bind _ _ (fun _ => True)); [|done].
  clearbody ks. clear k conds. induction ks as [|k ks IH]; [done|]. cbn [count_satisfied]. apply (faults_bind _ _ (fun _ => True)).
  - destruct (cond_type k); [|apply faults_subnodes]. destruct (streq _ _); [|done]. by rewrite Ha, get_attribute_rep.
  - intros n _. by apply (faults_bind _ _ (fun _ => True)).
Qed.

(** What is added to the list: nodes below [here], in order. *)
Definition adds (here : list nat) (found : list (list nat)) (below : list nat -> Prop) (r : bool * list (list nat)) : Prop :=
  exists new, r.2 = found ++ map (app here) new /\ Forall below new /\ StronglySorted before new.

Lemma adds_nothing here found below ok : adds here found below (ok, found).
Proof. exists []. cbn. rewrite app_nil_r. split_and!; [done | constructor | constructor]. Qed.

Lemma sorted_map_cons i new : StronglySorted before new -> StronglySorted before (map (cons i) new).
Proof.
  induction 1 as [|p new Hs IH Hp]; cbn [map]; constructor; [done|]. rewrite Forall_map. eapply Forall_impl; [exact Hp|].
  intros q Hq. by constructor.
Qed.

Lemma sorted_app new1 new2 : StronglySorted before new1 -> StronglySorted before new2 ->
  Forall (fun p => Forall (before p) new2) new1 -> StronglySorted before (new1 ++ new2).
Proof.
  induction 1 as [|p new1 Hs IH Hp]; intros H2 H12; cbn [app]; [done|]. apply Forall_cons in H12 as [Hx H12].
  constructor; [by apply IH|]. by apply Forall_app.
Qed.

(** Below child [j] or a later one of [l], which starts at [i]. *)
Definition below_from (l : list node) (i : nat) (p : list nat) : Prop :=
  exists j q c, p = (i + j)%nat :: q /\ l !! j = Some c /\ is_Some (subtree c q).

Lemma visit_adds hit f here l :
  (forall c n, c ∈ l -> faults (hit c n) (fun _ => True)) ->
  (forall i c found, c ∈ l -> faults (f i c found) (adds (here ++ [i]) found (fun q => is_Some (subtree c q)))) ->
  forall i count found, faults (visit hit f l i count found) (adds here found (below_from l i)).
Proof.
  intros Hh Hf. induction l as [|c l IH]; intros i count found; cbn [visit]; [apply adds_nothing|].
  assert (IH' : forall i count found, faults (visit hit f l i count found) (adds here found (below_from l i))).
  { apply IH; intros; [apply Hh | apply Hf]; by right. }
  assert (Hshift : forall p, below_from l (S i) p -> below_from (c :: l) i p).
  { intros p (j & q & x & -> & Hj & Hx). exists (S j), q, x. split_and!; [f_equal; lia | done | done]. }
  assert (Hskip : forall count found, faults (visit hit f l (S i) count found) (adds here found (below_from (c :: l) i))).
  { intros n fd. specialize (IH' (S i) n fd). destruct (visit hit f l (S i) n fd) as [r|]; [|done]. destruct IH' as (new & E & Hb & Hs).
    exists new. split_and!; [done | | done]. eapply Forall_impl; [exact Hb | exact Hshift]. }
  apply (faults_bind _ _ (fun _ => True)); [apply Hh; by left|]. intros [[|] n] _; [|apply Hskip].
  apply (faults_bind _ _ _ _ (Hf i c found ltac:(by left))). intros [ok fd] (new & E & Hb & Hs). cbn [snd] in E. subst fd.
  assert (Emap : map (app (here ++ [i])) new = map (app here) (map (cons i) new)).
  { rewrite map_map. apply map_ext. intros q. by rewrite <- app_assoc. }
  assert (Hb' : Forall (below_from (c :: l) i) (map (cons i) new)).
  { rewrite Forall_map. eapply Forall_impl; [exact Hb|]. intros q Hq. exists 0%nat, q, c. split_and!; [f_equal; lia | done | done]. }
  destruct ok.
  - specialize (IH' (S i) n (found ++ map (app (here ++ [i])) new)). destruct (visit hit f l (S i) n _) as [[ok fd]|]; [|done].
    destruct IH' as (new2 & E2 & Hb2 & Hs2). cbn [snd] in E2. exists (map (cons i) new ++ new2). rewrite map_app, Emap in *. cbn [snd].
    split_and!; [by rewrite E2, app_assoc | | ].
    + apply Forall_app. split; [done|]. eapply Forall_impl; [exact Hb2 | exact Hshift].
    + apply sorted_app; [by apply sorted_map_cons | done |]. rewrite Forall_map. apply Forall_forall. intros q _. eapply Forall_impl; [exact Hb2|].
      intros p (j & q' & x & -> & _ & _). constructor. lia.
  - exists (map (cons i) new). cbn [snd]. rewrite Emap. split_and!; [done | done | by apply sorted_map_cons].
Qed.

Lemma find_nodes1_adds t : names_fit t -> forall here q found,
  faults (mxml_find_nodes1 t here q found) (adds here found (fun p => is_Some (subtree t p))).
Proof.
  induction t as [nm ty va at_ la lb cs IH] using node_ind'. intros Ht here q found. cbn [mxml_find_nodes1].
  destruct (skip_while _ _) as [name p2]. destruct (_ <=? _); [apply adds_nothing|].
  apply (faults_bind _ _ (fun _ => True)); [apply (brackets_fault _ p2 0 []); lia|]. intros [[[r idx] conds]|] _; [|apply adds_nothing].
  pose proof (visit_adds (child_hit name idx conds) (fun i c found => match r with [] => Ok (true, found ++ [here ++ [i]])
    | _ :: p => mxml_find_nodes1 c (here ++ [i]) p found end) here cs) as Hv.
  assert (Hfit : forall c, c ∈ cs -> names_fit c) by (intros c Hc; by apply (names_fit_child _ c Ht)).
  specialize (Hv (fun c n Hc => faults_hit name idx conds c n (proj2 (proj2 (proj1 (names_fit_inv c) (Hfit c Hc)))))).
  assert (Hf : forall i c fd, c ∈ cs -> faults (match r with [] => Ok (true, fd ++ [here ++ [i]])
    | _ :: p => mxml_find_nodes1 c (here ++ [i]) p fd end) (adds (here ++ [i]) fd (fun p => is_Some (subtree c p)))).
  { intros i c fd Hc. destruct r as [|x r].
    - exists [[]]. cbn [snd map]. rewrite app_nil_r. split_and!; [done | by repeat constructor | by repeat constructor].
    - rewrite Forall_forall in IH. by apply IH; [|apply Hfit]. }
  specialize (Hv Hf 0%nat 0 found). cbn [child]. destruct (visit _ _ cs 0 0 found) as [r'|]; [|done]. destruct Hv as (new & E & Hb & Hs).
  exists new. split_and!; [done | | done]. eapply Forall_impl; [exact Hb|]. intros p (j & q' & c & -> & Hj & Hc). cbn [subtree child Nat.add].
  by rewrite Hj.
Qed.

(** ** File names *)

Lemma after_slashes_plain p name : "/"%char ∉ p -> after_slashes p name = name.
Proof.
  revert name. induction p as [|c p IH]; intros name Hp; [done|]. apply not_elem_of_cons in Hp as [Hc Hp]. cbn [after_slashes].
  destruct (Ascii.eqb_spec c "/"%char) as [-> |]; [done | by apply IH].
Qed.
Lemma after_slashes_last d p name : "/"%char ∉ p -> after_slashes (d ++ "/"%char :: p) name = p.
Proof.
  intros Hp. revert name. induction d as [|c d IH]; intros name; cbn [app after_slashes]; [by apply after_slashes_plain | by apply IH].
Qed.
Lemma strrchr_plain p c : c ∉ p -> strrchr p c = None.
Proof.
  induction p as [|d p IH]; intros Hp; [done|]. apply not_elem_of_cons in Hp as [Hc Hp]. cbn [strrchr]. rewrite IH by done.
  destruct (Ascii.eqb_spec d c); [congruence | done].
Qed.
Lemma strrchr_last d c p : c ∉ p -> strrchr (d ++ c :: p) c = Some (d, c :: p).
Proof.
  intros Hp. induction d as [|x d IH]; cbn [app strrchr]; [by rewrite strrchr_plain, Ascii.eqb_refl by done | by rewrite IH].
Qed.

(** A path is its directory and its name; a name without a slash is in ".". *)
Lemma directory_and_name d p : "/"%char ∉ p -> slen (d ++ "/"%char :: p) < FILENAME_MAX ->
  mxml_basename (Some (d ++ "/"%char :: p)) = Ok (Some p) /\
  mxml_dirname (Some (d ++ "/"%char :: p)) = Some (match d with [] => str "/" | _ => d end).
Proof.
  intros Hp Hl. unfold mxml_basename, mxml_dirname. rewrite (proj2 (Z.ltb_lt _ _)) by done. cbn [check mbind res_bind].
  rewrite after_slashes_last, strrchr_last by done. by destruct d.
Qed.
Lemma name_alone p : "/"%char ∉ p -> slen p < FILENAME_MAX -> p <> [] ->
  mxml_basename (Some p) = Ok (Some p) /\ mxml_dirname (Some p) = Some (str ".").
Proof.
  intros Hp Hl Hne. unfold mxml_basename, mxml_dirname. rewrite (proj2 (Z.ltb_lt _ _)) by done. cbn [check mbind res_bind].
  rewrite after_slashes_plain, strrchr_plain by done. by destruct p.
Qed.

(** ** The claims *)

(** C23: A path whose components are well written finds exactly the nodes that it
    means, in the order of the document: for every component the children of its
    name, and of those all, or the one at its position, or the ones with its
    attribute; the answer is their number. *)
Theorem find_nodes_select p t : names_fit t -> p <> [] -> Forall comp_ok p ->
  mxml_find_nodes t (path_text p) = Ok (Z.of_nat (length (select_path p t)), select_path p t).
Proof.
  intros Ht Hne Hp. destruct p as [|c p]; [done|]. apply Forall_cons in Hp as [Hc Hp]. unfold mxml_find_nodes.
  rewrite (find_nodes1_select p Hp c t [] [] _ Hc Ht (or_intror eq_refl)). cbn [mbind res_bind app].
  assert (E : forall l : list (list nat), map (app []) l = l) by (intros l; apply map_id). by rewrite E.
Qed.

(** Whatever the path, what is found are nodes of the tree, each once and in
    the order of the document, and the answer is their number or -1; the search
    ends, and can only fail with more than ten conditions, a position that is no
    [int], or a condition on a subnode that has no value. *)
Theorem find_nodes_sound t q : names_fit t ->
  match mxml_find_nodes t q with
  | Ok (n, found) => (n = -1 \/ n = Z.of_nat (length found)) /\ Forall (fun p => is_Some (subtree t p)) found /\ StronglySorted before found
  | Crash c => path_fault c
  end.
Proof.
  intros Ht. unfold mxml_find_nodes. pose proof (find_nodes1_adds t Ht [] q []) as Hf.
  destruct (mxml_find_nodes1 t [] q []) as [[ok found]|c]; [|exact Hf]. destruct Hf as (new & E & Hb & Hs). cbn in E. rewrite map_id in E. subst found.
  cbn [mbind res_bind]. split_and!; [destruct ok; [by right | by left] | done | done].
Qed.

Lemma visit_ext hit1 hit2 f l i count found : (forall c n, hit1 c n = hit2 c n) -> visit hit1 f l i count found = visit hit2 f l i count found.
Proof.
  intros Hh. revert i count found. induction l as [|c l IH]; intros i count found; cbn [visit]; [done|]. rewrite Hh.
  destruct (hit2 c count) as [[[|] n]|]; cbn [mbind res_bind]; [|by rewrite IH | done].
  destruct (f i c found) as [[[|] fd]|]; cbn [mbind res_bind]; [by rewrite IH | done | done].
Qed.

(** A condition on a subnode is not a condition on the node: when all the
    conditions of a component are on subnodes, the name in front of them is not
    looked at, and any other name finds the same nodes. *)
Theorem subnode_condition_ignores_name t n1 n2 b p2 idx conds :
  Forall (fun n => n <> [] /\ slen n < MAX_NAME /\ "/"%char ∉ n /\ "["%char ∉ n) [n1; n2] -> head b = Some "["%char ->
  brackets (length b) b 0 [] = Ok (Some (p2, idx, conds)) -> conds <> [] -> Forall (fun k => cond_type k = false) conds ->
  mxml_find_nodes t ("/"%char :: n1 ++ b) = mxml_find_nodes t ("/"%char :: n2 ++ b).
Proof.
  intros Hn Hb Hp Hne Hc. apply Forall_cons in Hn as [Hn1 Hn]. apply Forall_cons in Hn as [Hn2 _].
  destruct b as [|x b]; [done|]. injection Hb as ->.
  assert (E : forall n, n <> [] /\ slen n < MAX_NAME /\ "/"%char ∉ n /\ "["%char ∉ n ->
    mxml_find_nodes1 t [] ("/"%char :: n ++ "["%char :: b) [] =
    visit (child_hit n1 idx conds) (fun i c found => match p2 with [] => Ok (true, found ++ [[i]]) | _ :: p => mxml_find_nodes1 c [i] p found end) (child t) 0 0 []).
  { intros n (_ & Hl & Hs & Hbr). destruct t as [nm ty va at_ la lb cs]. cbn [mxml_find_nodes1]. change ("/"%char =c "/") with true. cbv iota.
    rewrite skip_while_app_stop.
    - rewrite (proj2 (Z.leb_gt _ _)) by done. rewrite Hp. cbn [mbind res_bind app child]. apply visit_ext. intros c k. unfold child_hit.
      destruct conds as [|k0 conds]; [done|]. f_equal. clear Hp Hne. induction Hc as [|k1 ks Hk _ IH]; [done|]. cbn [count_satisfied]. by rewrite Hk, IH.
    - apply Forall_forall. intros y Hy. apply andb_true_iff. split; apply negb_true_iff, Ascii.eqb_neq; intros ->; [by apply Hs | by apply Hbr].
    - done. }
  unfold mxml_find_nodes. by rewrite (E n1), (E n2).
Qed.

(** ** Witnesses and examples *)

(** Components on literals: every condition is decidable. *)
Ltac by_computation := repeat match goal with |- Forall _ (_ :: _) => apply Forall_cons; split | |- Forall _ [] => apply Forall_nil_2 end;
  unfold comp_ok, sel_ok; cbn [comp_name comp_sel]; split_and!; first [exact I | refine (bool_decide_unpack _ _); vm_compute; exact I].

(** A crate with two modules and a note. *)
Definition found_tree : node :=
  Node (str "root") DOCUMENT_NODE None no_attrs 0 0
    [Node (str "crate") ELEMENT_NODE None no_attrs 0 0
      [Node (str "module") ELEMENT_NODE None (attr_rep [(str "slot", str "3")]) 0 0 [Node (str "type") ELEMENT_NODE (Some (str "adc")) no_attrs 0 0 []];
       Node (str "note") ELEMENT_NODE None no_attrs 0 0 [Node (str "type") ELEMENT_NODE (Some (str "adc")) no_attrs 0 0 []];
       Node (str "module") ELEMENT_NODE None (attr_rep [(str "slot", str "5")]) 0 0
         [Node (str "type") ELEMENT_NODE (Some (str "tdc")) no_attrs 0 0 []; Node (str "type") ELEMENT_NODE None no_attrs 0 0 []]]].

Lemma found_tree_fit : names_fit found_tree.
Proof. repeat first [apply (names_fit_node _ _ _ []); [done|] | apply names_fit_node; [done|] | constructor]. Qed.

Lemma find_nodes_select_witness :
  mxml_find_nodes found_tree (str "/crate/module[@slot=5]/type[1]") = Ok (1, [[0; 2; 0]%nat]) /\
  mxml_find_nodes found_tree (str "/crate[1]/module/type") = Ok (3, [[0; 0; 0]; [0; 2; 0]; [0; 2; 1]]%nat).
Proof.
  split.
  - set (p := [Component (str "crate") All; Component (str "module") (Having (str "slot") (str "5")); Component (str "type") (Nth (str "1"))]).
    assert (Ep : str "/crate/module[@slot=5]/type[1]" = path_text p) by (vm_compute; reflexivity).
    rewrite Ep, (find_nodes_select p found_tree found_tree_fit); [vm_compute; reflexivity | done |].
    unfold p. by_computation.
  - set (p := [Component (str "crate") (Nth (str "1")); Component (str "module") All; Component (str "type") All]).
    assert (Ep : str "/crate[1]/module/type" = path_text p) by (vm_compute; reflexivity).
    rewrite Ep, (find_nodes_select p found_tree found_tree_fit); [vm_compute; reflexivity | done |].
    unfold p. by_computation.
Defined.

Lemma find_nodes_sound_witness : mxml_find_nodes found_tree (str "crate/module[2][@slot=4") = Ok (-1, []) /\ (-1 = -1 \/ -1 = 0).
Proof.
  assert (E : mxml_find_nodes found_tree (str "crate/module[2][@slot=4") = Ok (-1, [])) by (vm_compute; reflexivity).
  pose proof (find_nodes_sound found_tree (str "crate/module[2][@slot=4") found_tree_fit) as Hs. rewrite E in Hs. split; [exact E | exact (proj1 Hs)].
Defined.

Lemma subnode_condition_ignores_name_witness :
  mxml_find_nodes (set_child found_tree (take 2 (default [] (child <$> subtree found_tree [0%nat])))) (str "/nothing[type=adc]") = Ok (2, [[0]; [1]]%nat).
Proof.
  rewrite (subnode_condition_ignores_name _ (str "nothing") (str "module") (str "[type=adc]") [] 0 [Cond false (str "type") (str "adc")]);
    [vm_compute; reflexivity | | reflexivity | vm_compute; reflexivity | done | by repeat constructor].
  by_computation.
Defined.

(** An eleventh bracket writes behind the arrays, even an index; a subnode without a
    value is compared through a null pointer; and two subnodes that both satisfy
    the one condition are one too many. *)
Example eleven_conditions :
  mxml_find_nodes found_tree (str "crate" ++ concat (replicate 10 (str "[a=1]")) ++ str "[1]") = Crash OutOfBounds.
Proof. vm_compute. reflexivity. Qed.
Example subnode_without_value : mxml_find_nodes found_tree (str "crate/module[type=tdc]") = Crash NullDeref.
Proof. vm_compute. reflexivity. Qed.
Example satisfied_twice :
  let twice := Node (str "m") ELEMENT_NODE None no_attrs 0 0 (replicate 2 (Node (str "t") ELEMENT_NODE (Some (str "1")) no_attrs 0 0 [])) in
  mxml_find_nodes (Node (str "root") DOCUMENT_NODE None no_attrs 0 0 [twice]) (str "m[t=1]") = Ok (0, []).
Proof. vm_compute. reflexivity. Qed.
