(* ===== verification/MxmlEdit.v ===== *)
(** * Editing an XML tree: [mxml_delete_node] and the type of trees

    The operations of [MxmlTree.v] on a node anywhere in a tree, and the
    removal of a node.  A tree whose names fit and whose attribute arrays hold
    what their count says ([names_fit], which is what the parser returns) stays
    one under the edits, and they never read memory that was not written.
    Deleting an attribute and cloning are not among them: they leave the type
    ([MxmlTree.delete_attribute_dangling],
    [MxmlTree.clone_attributes_uninitialised]).

    A tree is a value here and a node is named by its path: the [parent]
    fields, through which the code finds the place of a node that it deletes,
    and which it does not keep right, are in [MxmlParents.v]. *)

From S2P Require Import Prelude CStr MxmlCodec MxmlWriter MxmlTree MxmlParse MxmlSafe.

(** ** Removing nodes *)

(** The attribute values handed to [free]. *)
Fixpoint free_values (values : list (option cstr)) (k i : nat) : res unit :=
  match k with
  | O => Ok tt
  | S k' => _ ← cell values i; free_values values k' (S i)
  end.

(** A tree is a value here; what is left of [mxml_free_tree] is what it reads. *)
Fixpoint mxml_free_tree (tree : node) : res unit :=
  _ ← (fix go (l : list node) : res unit :=
         match l with [] => Ok tt | c :: l' => _ ← mxml_free_tree c; go l' end) (child tree);
  free_values (attribute_value (nattrs tree)) (n_attributes (nattrs tree)) 0.

(** The child at [i] is freed and the ones behind it move up; [MxmlParents.v] has
    the same on memory, where [i] is found through [pnode->parent]. *)
Definition delete_child (i : nat) (parent : node) : res node :=
  match child parent !! i with
  | None => Crash OutOfBounds
  | Some c => _ ← mxml_free_tree c; Ok (set_child parent (delete i (child parent)))
  end.

(** The node at a path; [None] when it was the root and the tree is gone. *)
Definition mxml_delete_node (tree : node) (pnode : list nat) : res (option node) :=
  match last pnode with
  | None => _ ← mxml_free_tree tree; Ok None
  | Some i => t ← alter_at (removelast pnode) (delete_child i) tree; Ok (Some t)
  end.

(** ** Edits *)

Inductive edit :=
  | AddNode (node_type : Z) (node_name : cstr) (value : option cstr) (idx : nat)
  | AddTree (tree : node) (idx : nat)
  | AddAttribute (attrib_name attrib_value : cstr)
  | ReplaceAttributeName (old_name new_name : cstr)
  | ReplaceAttributeValue (attrib_name attrib_value : cstr)
  | ReplaceName (name : cstr)
  | ReplaceValue (value : option cstr)
  | ReplaceSubvalue (name : cstr) (value : option cstr)
  | DeleteChild (i : nat).

Definition apply_edit (e : edit) (n : node) : res node :=
  match e with
  | AddNode ty name value idx => mxml_add_special_node_at n ty name value idx
  | AddTree tree idx => mxml_add_tree_at n tree idx
  | AddAttribute a v => x ← mxml_add_attribute (nattrs n) a v; Ok (set_attrs n x)
  | ReplaceAttributeName a b => '(_, x) ← mxml_replace_attribute_name (nattrs n) a b; Ok (set_attrs n x)
  | ReplaceAttributeValue a v => '(_, x) ← mxml_replace_attribute_value (nattrs n) a v; Ok (set_attrs n x)
  | ReplaceName name => Ok (mxml_replace_node_name n name)
  | ReplaceValue value => mxml_replace_node_value n value
  | ReplaceSubvalue name value => '(_, x) ← mxml_replace_subvalue n name value; Ok x
  | DeleteChild i => delete_child i n
  end.

(** When an edit of a node is in place: positions that exist, a tree of the type,
    and no null pointer for a value that is there. *)
Definition in_place (e : edit) (n : node) : Prop :=
  match e with
  | AddNode _ _ _ idx => (idx <= length (child n))%nat
  | AddTree tree idx => (idx <= length (child n))%nat /\ names_fit tree
  | ReplaceValue None => nvalue n = None
  | ReplaceSubvalue _ None => Forall (fun c => nvalue c = None) (child n)
  | DeleteChild i => (i < length (child n))%nat
  | _ => True
  end.

(** ** A node of the type *)

Lemma free_values_rep l : forall l1, free_values (Some ∘ snd <$> l1 ++ l : list (option cstr)) (length l) (length (l1 : list (cstr * cstr))) = Ok tt.
Proof.
  induction l as [|[a v] l IH]; intros l1; [done|]. cbn [free_values length]. rewrite cell_rep, list_lookup_middle by done.
  cbn [mbind res_bind]. specialize (IH (l1 ++ [(a, v)])). rewrite <- app_assoc, length_app, Nat.add_comm in IH. exact IH.
Qed.

Lemma free_tree_fit t : names_fit t -> mxml_free_tree t = Ok tt.
Proof.
  induction t as [nm ty va at_ la lb cs IH] using node_ind'. intros (_ & Hcs & l & Hl)%names_fit_inv. cbn [nattrs child] in *. subst at_.
  cbn [mxml_free_tree child nattrs attr_rep attribute_value n_attributes].
  assert (Hgo : (fix go (l : list node) : res unit := match l with [] => Ok tt | c :: l' => _ ← mxml_free_tree c; go l' end) cs = Ok tt).
  { induction cs as [|c cs IHcs]; [done|]. apply Forall_cons in IH as [Hc IH]. apply Forall_cons in Hcs as [Hc2 Hcs]. rewrite Hc by done. by apply IHcs. }
  rewrite Hgo. exact (free_values_rep l []).
Qed.

(** The three fields a node of the type is made of. *)
Lemma fit_child n cs : names_fit n -> Forall names_fit cs -> names_fit (set_child n cs).
Proof. intros (Hl & _ & l & Ha)%names_fit_inv Hcs. apply names_fit_inv. destruct n; cbn in *. split_and!; [done | done | by exists l]. Qed.
Lemma fit_attrs n l : names_fit n -> names_fit (set_attrs n (attr_rep l)).
Proof. intros (Hl & Hcs & _)%names_fit_inv. apply names_fit_inv. destruct n; cbn in *. split_and!; [done | done | by exists l]. Qed.
Lemma fit_value n v : names_fit n -> names_fit (set_value n v).
Proof. intros (Hl & Hcs & l & Ha)%names_fit_inv. apply names_fit_inv. destruct n; cbn in *. split_and!; [done | done | by exists l]. Qed.

Lemma fit_new_node ty name v : names_fit (new_node ty name v).
Proof. apply (names_fit_node _ ty _ []); [by apply strlcpy_val_len | constructor]. Qed.

Lemma fit_insert n c idx : names_fit n -> names_fit c -> (idx <= length (child n))%nat ->
  exists n', insert_child n c idx = Ok n' /\ names_fit n'.
Proof.
  intros Hn Hc Hi. unfold insert_child. rewrite (proj2 (Nat.leb_le _ _)) by done. eexists. split; [reflexivity|]. apply fit_child; [done|].
  pose proof Hn as (_ & Hcs & _)%names_fit_inv. apply Forall_app. split; [by apply Forall_take|]. constructor; [done | by apply Forall_drop].
Qed.

Lemma replace_value_Ok n v : (v = None -> nvalue n = None) -> mxml_replace_node_value n v = Ok (set_value n v).
Proof. intros Hv. unfold mxml_replace_node_value. destruct v as [v|]; [by destruct (nvalue n)|]. by rewrite Hv. Qed.

(** Writing one cell of an array. *)
Lemma insert_rep k p (l : list (cstr * cstr)) : (k < length l)%nat ->
  attr_rep (<[k:=p]> l) = Attrs (length l) (<[k:=Some p.1]> (Some ∘ fst <$> l)) (<[k:=Some p.2]> (Some ∘ snd <$> l)).
Proof. intros Hk. unfold attr_rep. by rewrite length_insert, !list_fmap_insert. Qed.

Lemma fit_replace_attribute (l : list (cstr * cstr)) name v (by_name : bool) :
  exists b l', (if by_name then mxml_replace_attribute_name (attr_rep l) name v else mxml_replace_attribute_value (attr_rep l) name v)
    = Ok (b, attr_rep l').
Proof.
  unfold mxml_replace_attribute_name, mxml_replace_attribute_value. cbn [attr_rep attribute_name attribute_value n_attributes].
  rewrite find_attr_0. cbn [mbind res_bind]. pose proof (assoc_pos_lookup l name) as H. destruct (assoc_pos l name) as [k|] eqn:E.
  - destruct H as (n & w & Hk & -> & _). pose proof (assoc_pos_lt _ _ _ E) as Hlt. destruct (Nat.eqb_spec k (length l)) as [|_]; [lia|].
    exists true. destruct by_name.
    + exists (<[k:=(strlcpy_val MXML_NAME_LENGTH v, w)]> l). rewrite store_Ok by (by rewrite length_fmap). cbn [mbind res_bind].
      rewrite insert_rep by done. do 4 f_equal. symmetry. apply list_insert_id. by rewrite list_lookup_fmap, Hk.
    + exists (<[k:=(name, v)]> l). rewrite cell_rep, Hk. cbn [mbind res_bind]. rewrite store_Ok by (by rewrite length_fmap). cbn [mbind res_bind].
      rewrite insert_rep by done. do 3 f_equal. symmetry. apply list_insert_id. by rewrite list_lookup_fmap, Hk.
  - exists false, l. rewrite Nat.eqb_refl. by destruct by_name.
Qed.

Lemma find_child_lookup l name i0 i : find_child l name i0 = Some i -> exists c, l !! (i - i0)%nat = Some c /\ (i0 <= i)%nat.
Proof.
  revert i0. induction l as [|c l IH]; intros i0; cbn [find_child]; [done|]. destruct (streq _ _).
  - intros [= <-]. exists c. by rewrite Nat.sub_diag.
  - intros E. apply IH in E as (c' & Hc & Hi). exists c'. split; [|lia]. by replace (i - i0)%nat with (S (i - S i0)) by lia.
Qed.

Lemma apply_edit_typed e n : names_fit n -> in_place e n -> exists n', apply_edit e n = Ok n' /\ names_fit n'.
Proof.
  intros Hn He. pose proof Hn as (_ & Hcs & l & Hl)%names_fit_inv. destruct e as [ty nm v i|t i|a v|a b|a v|nm|v|nm v|i]; cbn [apply_edit in_place] in *.
  - apply fit_insert; [done | apply fit_new_node | done].
  - destruct He as [Hi Ht]. by apply fit_insert.
  - rewrite Hl, add_attribute_rep. eexists. split; [reflexivity | by apply fit_attrs].
  - destruct (fit_replace_attribute l a b true) as (r & l' & E). rewrite Hl, E. eexists. split; [reflexivity | by apply fit_attrs].
  - destruct (fit_replace_attribute l a v false) as (r & l' & E). rewrite Hl, E. eexists. split; [reflexivity | by apply fit_attrs].
  - eexists. split; [reflexivity|]. apply names_fit_inv. unfold mxml_replace_node_name. destruct n; cbn in *.
    split_and!; [by apply strlcpy_val_len | done | by exists l].
  - rewrite replace_value_Ok by (by intros ->). eexists. split; [reflexivity | by apply fit_value].
  - unfold mxml_replace_subvalue. destruct (find_child _ _ _) as [i|] eqn:E; [|by exists n]. apply find_child_lookup in E as (c & Hc & _).
    rewrite Nat.sub_0_r in Hc. rewrite Hc. rewrite replace_value_Ok.
    + eexists. split; [reflexivity|]. apply fit_child; [done|]. apply Forall_insert; [done|]. apply fit_value. by apply (Forall_lookup_1 _ _ _ _ Hcs Hc).
    + intros ->. by apply (Forall_lookup_1 _ _ _ _ He Hc).
  - unfold delete_child. destruct (lookup_lt_is_Some_2 _ _ He) as (c & Hc). rewrite Hc.
    rewrite free_tree_fit by (by apply (Forall_lookup_1 _ _ _ _ Hcs Hc)). eexists. split; [reflexivity|]. apply fit_child; [done|]. by apply Forall_delete.
Qed.

Lemma alter_at_typed path f t n : names_fit t -> subtree t path = Some n ->
  (exists n', f n = Ok n' /\ names_fit n') -> exists t' n', alter_at path f t = Ok t' /\ names_fit t' /\ f n = Ok n' /\ subtree t' path = Some n'.
Proof.
  intros Ht. revert t Ht. induction path as [|i path IH]; intros t Ht; cbn [subtree alter_at].
  - intros [= ->] (n' & E & Hn'). by exists n', n'.
  - destruct (child t !! i) as [c|] eqn:Ei; [|done]. intros Hs Hf. pose proof Ht as (_ & Hcs & _)%names_fit_inv.
    destruct (IH c) as (c' & n' & E & Hc' & En & Hs'); [by apply (Forall_lookup_1 _ _ _ _ Hcs Ei) | done | done |]. rewrite E.
    exists (set_child t (<[i:=c']> (child t))), n'. cbn [mbind res_bind]. split_and!; [done | | done |].
    + apply fit_child; [done | by apply Forall_insert].
    + rewrite child_set_child, list_lookup_insert_eq; [done | by apply lookup_lt_Some in Ei].
Qed.

(** ** Anywhere in a tree *)

(** On a tree of the type the parser returns, an edit of any of its nodes that
    is in place succeeds, changes that node as it says, and leaves a tree of
    the type. *)
Lemma edit_typed t path n e : names_fit t -> subtree t path = Some n -> in_place e n ->
  exists t' n', alter_at path (apply_edit e) t = Ok t' /\ names_fit t' /\ apply_edit e n = Ok n' /\ subtree t' path = Some n'.
Proof. intros Ht Hs He. apply alter_at_typed; [done | done |]. apply apply_edit_typed; [|done]. by apply (names_fit_subtree path t). Qed.

(** A node is deleted from its parent, and the root with the whole tree. *)
Lemma delete_node_typed t path i n : names_fit t -> subtree t path = Some n -> (i < length (child n))%nat ->
  exists t', mxml_delete_node t (path ++ [i]) = Ok (Some t') /\ names_fit t' /\ (child <$> subtree t' path) = Some (delete i (child n)).
Proof.
  intros Ht Hs Hi. unfold mxml_delete_node. rewrite last_snoc, removelast_last.
  pose proof (names_fit_subtree path t n Ht Hs) as Hn. destruct (alter_at_typed path (delete_child i) t n Ht Hs) as (t' & n' & E & Ht' & En & Hs').
  { by apply (apply_edit_typed (DeleteChild i)). }
  rewrite E. exists t'. split; [done|]. split; [done|]. rewrite Hs'. cbn. f_equal. unfold delete_child in En.
  destruct (child n !! i) as [c|]; [|done]. destruct (mxml_free_tree c) as [[]|]; [|done]. injection En as <-. apply child_set_child.
Qed.

Example demo_edit : exists t' n',
  alter_at [0%nat] (apply_edit (AddAttribute (str "id") (str "7"))) (Node (str "root") DOCUMENT_NODE None no_attrs 0 0 [new_node ELEMENT_NODE (str "a") None])
    = Ok t' /\ names_fit t' /\
  apply_edit (AddAttribute (str "id") (str "7")) (new_node ELEMENT_NODE (str "a") None) = Ok n' /\ subtree t' [0%nat] = Some n'.
Proof.
  apply (edit_typed _ [0%nat] (new_node ELEMENT_NODE (str "a") None)); [|reflexivity|exact I].
  apply (names_fit_node _ _ _ []); [reflexivity|]. constructor; [apply fit_new_node | constructor].
Defined.
