(* ===== verification/MxmlParents.v ===== *)
(** * Trees in memory: arrays of nodes and parent pointers

    The functions of [mxml/mxml.c] that give a node another place in memory,
    on a store of arrays.  The children of a node are the cells of one array;
    a node is found from below through its [parent] field, which names a cell.
    [MxmlTree.v] and [MxmlEdit.v] see trees as values and have no parents;
    here [mxml_add_special_node_at] is proved to store the tree that the
    function of the same name of [MxmlTree.v] returns, and to leave every
    parent field right but those below the last node it moved. *)

From S2P Require Import Prelude CStr MxmlCodec MxmlWriter MxmlTree MxmlParse MxmlSafe MxmlEdit.

(** ** Memory *)

(** The address of an array, and of a cell of it. *)
Abbreviation addr := positive.
Definition ptr : Type := addr * nat.

(** [struct mxml_struct]; the attribute arrays are those of [MxmlTree.v]. *)
Record mxml_struct := Struct {
  s_name : cstr;
  s_node_type : Z;
  s_value : option cstr;
  s_attrs : attrs;
  s_line_number_start : Z;
  s_line_number_end : Z;
  s_parent : option ptr;
  s_n_children : nat;
  s_child : option addr
}.

Definition with_parent (v : option ptr) (c : mxml_struct) : mxml_struct :=
  Struct (s_name c) (s_node_type c) (s_value c) (s_attrs c) (s_line_number_start c) (s_line_number_end c) v (s_n_children c) (s_child c).
Definition with_child (v : option addr) (c : mxml_struct) : mxml_struct :=
  Struct (s_name c) (s_node_type c) (s_value c) (s_attrs c) (s_line_number_start c) (s_line_number_end c) (s_parent c) (s_n_children c) v.
Definition with_n_children (v : nat) (c : mxml_struct) : mxml_struct :=
  Struct (s_name c) (s_node_type c) (s_value c) (s_attrs c) (s_line_number_start c) (s_line_number_end c) (s_parent c) v (s_child c).
Definition with_value (v : option cstr) (c : mxml_struct) : mxml_struct :=
  Struct (s_name c) (s_node_type c) v (s_attrs c) (s_line_number_start c) (s_line_number_end c) (s_parent c) (s_n_children c) (s_child c).

(** The allocated arrays; a cell that was never written is [None]. *)
Abbreviation memory := (gmap addr (list (option mxml_struct))).

Definition slot (h : memory) (p : ptr) : option (option mxml_struct) := l ← h !! p.1; l !! p.2.

Definition rd (h : memory) (p : ptr) : res mxml_struct :=
  match slot h p with
  | None => Crash OutOfBounds
  | Some None => Crash Uninit
  | Some (Some c) => Ok c
  end.

(** A store to a whole cell, initialised or not. *)
Definition put (h : memory) (p : ptr) (x : option mxml_struct) : res memory :=
  match h !! p.1 with
  | None => Crash OutOfBounds
  | Some l => l' ← store l p.2 x; Ok (<[p.1 := l']> h)
  end.

(** A store to fields of a cell. *)
Definition upd (h : memory) (p : ptr) (f : mxml_struct -> mxml_struct) : res memory :=
  c ← rd h p; put h p (Some (f c)).

Definition memcpy (h : memory) (dst src : ptr) : res memory :=
  match slot h src with None => Crash OutOfBounds | Some x => put h dst x end.

Definition free (h : memory) (b : addr) : res memory :=
  match h !! b with None => Crash OutOfBounds | Some _ => Ok (delete b h) end.

(** [realloc] to [n] cells, at the address [a] the allocator chose. *)
Definition realloc (a : addr) (h : memory) (b : option addr) (n : nat) : res memory :=
  match b with
  | None => Ok (<[a := replicate n None]> h)
  | Some b =>
      match h !! b with
      | None => Crash OutOfBounds
      | Some l => Ok (<[a := take n l ++ replicate (n - length l) None]> (delete b h))
      end
  end.

(** ** Adding a node *)

(** [for (i=n ; i > idx ; i--) memcpy(&child[i], &child[i-1])], [k] rounds from [i]. *)
Fixpoint move_down (h : memory) (b : addr) (i k : nat) : res memory :=
  match k with
  | O => Ok h
  | S k' => h ← memcpy h (b, i) (b, i - 1)%nat; move_down h b (i - 1) k'
  end.

(** [for ( ; j<n ; j++) pchild->child[j].parent = pchild], [k] rounds from [j]. *)
Fixpoint adopt (h : memory) (b : addr) (j k : nat) (pchild : ptr) : res memory :=
  match k with
  | O => Ok h
  | S k' => h ← upd h (b, j) (with_parent (Some pchild)); adopt h b (S j) k' pchild
  end.

(** The loop that corrects the parents of the children's children, [k] rounds from [i]. *)
Fixpoint correct (h : memory) (a : addr) (i k : nat) : res memory :=
  match k with
  | O => Ok h
  | S k' =>
      c ← rd h (a, i);
      h ← (if Nat.eqb (s_n_children c) 0 then Ok h
           else match s_child c with
                | None => Crash NullDeref
                | Some b => adopt h b 0 (s_n_children c) (a, i)
                end);
      correct h a (S i) k'
  end.

(** [mxml_add_special_node_at]; [a] is the address [mxml_malloc] or [mxml_realloc] answers. *)
Definition mem_add_special_node_at (a : addr) (h : memory) (parent : ptr) (node_type : Z) (node_name : cstr)
    (value : option cstr) (idx : nat) : res (memory * ptr) :=
  c ← rd h parent;
  let n := s_n_children c in
  h ← (if Nat.eqb n 0 then Ok (<[a := [None]]> h) else realloc a h (s_child c) (S n));
  h ← upd h parent (with_child (Some a));
  h ← (if Nat.ltb idx n then move_down h a n (n - idx) else Ok h);
  h ← correct h a 0 n;
  h ← put h (a, idx) (Some (Struct (strlcpy_val MXML_NAME_LENGTH node_name) node_type None no_attrs 0 0 (Some parent) 0 None));
  h ← upd h parent (with_n_children (S n));
  h ← (match value with
       | Some (c :: v) => upd h (a, idx) (with_value (Some (c :: v)))
       | _ => Ok h
       end);
  Ok (h, (a, idx)).

(** ** Deleting a node *)

(** [mxml_free_tree]; [fuel] bounds the depth. *)
Fixpoint mem_free_tree (fuel : nat) (h : memory) (tree : ptr) : res memory :=
  match fuel with
  | O => Crash NoFuel
  | S fuel' =>
      c ← rd h tree;
      h ← (if Nat.eqb (s_n_children c) 0 then Ok h
           else match s_child c with
                | None => Crash NullDeref
                | Some b =>
                    h ← (fix go (i k : nat) (h : memory) : res memory :=
                           match k with
                           | O => Ok h
                           | S k' => h ← mem_free_tree fuel' h (b, i); go (S i) k' h
                           end) O (s_n_children c) h;
                    free h b
                end);
      _ ← free_values (attribute_value (s_attrs c)) (n_attributes (s_attrs c)) 0;
      match s_parent c with None => free h tree.1 | Some _ => Ok h end
  end.

(** [for (j=i ; j<n-1 ; j++) memcpy(&child[j], &child[j+1])], [k] rounds from [j]. *)
Fixpoint move_up (h : memory) (b : addr) (j k : nat) : res memory :=
  match k with
  | O => Ok h
  | S k' => h ← memcpy h (b, j) (b, S j); move_up h b (S j) k'
  end.

(** Where [for (i=0 ; i<parent->n_children ; i++) if (&parent->child[i] == pnode) break] stops. *)
Definition place (c : mxml_struct) (pnode : ptr) : nat :=
  if decide (s_child c = Some pnode.1) then Nat.min pnode.2 (s_n_children c) else s_n_children c.

(** [mxml_delete_node]: the place is looked for in the node its [parent] field
    names.  A node that is not there is freed and stays where it is. *)
Definition mem_delete_node (fuel : nat) (a : addr) (h : memory) (pnode : ptr) : res memory :=
  c ← rd h pnode;
  match s_parent c with
  | None => mem_free_tree fuel h pnode
  | Some parent =>
      pc ← rd h parent;
      let n := s_n_children pc in
      let i := place pc pnode in
      h ← mem_free_tree fuel h pnode;
      if Nat.ltb i n then
        match s_child pc with
        | None => Crash NullDeref
        | Some b =>
            h ← move_up h b i (n - 1 - i);
            h ← upd h parent (with_n_children (n - 1));
            if Nat.eqb (n - 1) 0 then free h b
            else h ← realloc a h (Some b) (n - 1); upd h parent (with_child (Some a))
        end
      else Ok h
  end.

(** ** What the memory holds *)

Definition step (c : mxml_struct) (i : nat) : option ptr :=
  if Nat.ltb i (s_n_children c) then (fun b => (b, i)) <$> s_child c else None.

Definition cell_at (h : memory) (p : ptr) : option mxml_struct := mjoin (slot h p).

(** The cell at a path from the root [r], following the [child] fields. *)
Definition locate (h : memory) (r : ptr) (q : list nat) : option ptr :=
  foldl (fun o i => p ← o; c ← cell_at h p; step c i) (Some r) q.

Definition node_of (h : memory) (r : ptr) (q : list nat) : option mxml_struct := locate h r q ≫= cell_at h.
Definition up_of (h : memory) (r : ptr) (q : list nat) : option ptr := node_of h r q ≫= s_parent.

(** What a node says of itself, and how many children it has. *)
Definition shape : Type := cstr * Z * option cstr * attrs * Z * Z * nat.
Definition shape_of (n : node) : shape := (nname n, ntype n, nvalue n, nattrs n, line_start n, line_end n, length (child n)).
Definition shape_at (c : mxml_struct) : shape :=
  (s_name c, s_node_type c, s_value c, s_attrs c, s_line_number_start c, s_line_number_end c, s_n_children c).

Definition size_of (h : memory) (b : addr) : option nat := length <$> h !! b.

(** The memory below [r] is the tree [t]: the nodes at every path, an array of
    the right size for the children of each, and no array shared. *)
Record stored (h : memory) (r : ptr) (t : node) : Prop := {
  st_shape q : shape_at <$> node_of h r q = shape_of <$> subtree t q;
  st_size q c : node_of h r q = Some c -> (0 < s_n_children c)%nat ->
    exists b, s_child c = Some b /\ size_of h b = Some (s_n_children c) /\ b <> r.1;
  st_own q1 q2 c1 c2 : node_of h r q1 = Some c1 -> node_of h r q2 = Some c2 ->
    (0 < s_n_children c1)%nat -> (0 < s_n_children c2)%nat -> s_child c1 = s_child c2 -> q1 = q2
}.

(** Every node below the root names the node that holds it. *)
Definition parents_right (h : memory) (r : ptr) (t : node) : Prop :=
  forall q i, is_Some (subtree t (q ++ [i])) -> up_of h r (q ++ [i]) = locate h r q.

(** ** Reads after writes *)

Definition named (up : ptr) (x : option mxml_struct) : option mxml_struct := with_parent (Some up) <$> x.

(** Case analysis on comparisons of addresses. *)
Ltac ptr_cases := repeat case_decide;
  repeat match goal with
  | H : (?a, ?i) <> (?b, ?j) |- _ => destruct (decide (a = b)); [destruct (decide (i = j)); [congruence|]|]; clear H
  end; destruct_and?; simplify_eq/=; try done; try lia.

Lemma rd_cell h p c : cell_at h p = Some c -> rd h p = Ok c.
Proof. unfold cell_at, rd. by destruct (slot h p) as [[|]|]; cbn; [intros [= ->]| |]. Qed.

Lemma size_slot h p : is_Some (slot h p) <-> exists k, size_of h p.1 = Some k /\ (p.2 < k)%nat.
Proof.
  unfold slot, size_of. destruct (h !! p.1) as [l|]; cbn; [|split; [by intros [? [=]] | by intros (? & ? & ?)]].
  rewrite lookup_lt_is_Some. split; [intros H; by exists (length l) | by intros (k & [= <-] & H)].
Qed.

Lemma put_spec h p x : is_Some (slot h p) -> exists h', put h p x = Ok h' /\
  (forall p', slot h' p' = if decide (p' = p) then Some x else slot h p') /\ (forall b, size_of h' b = size_of h b).
Proof.
  unfold put, slot, size_of. destruct (h !! p.1) as [l|] eqn:El; cbn; [|by intros [? [=]]]. intros Hl%lookup_lt_is_Some.
  rewrite store_Ok by done. cbn. eexists. split; [reflexivity|]. split.
  - intros p'. case_decide as Hp; [subst p'|].
    + rewrite lookup_insert_eq. cbn. by apply list_lookup_insert_eq.
    + destruct (decide (p.1 = p'.1)) as [E|E]; [|by rewrite lookup_insert_ne].
      rewrite E, lookup_insert_eq, <- E, El. cbn. apply list_lookup_insert_ne. intros E2. apply Hp. destruct p, p'; cbn in *; congruence.
  - intros b. destruct (decide (p.1 = b)) as [<-|E]; [|by rewrite lookup_insert_ne]. rewrite lookup_insert_eq, El. cbn. by rewrite length_insert.
Qed.

Lemma upd_spec h p f c : cell_at h p = Some c -> exists h', upd h p f = Ok h' /\
  (forall p', slot h' p' = if decide (p' = p) then Some (Some (f c)) else slot h p') /\ (forall b, size_of h' b = size_of h b).
Proof.
  intros Hc. unfold upd. rewrite (rd_cell _ _ _ Hc). cbn. apply put_spec. unfold cell_at in Hc. by destruct (slot h p); [eexists | done].
Qed.

Lemma memcpy_spec h dst src x : slot h src = Some x -> is_Some (slot h dst) -> exists h', memcpy h dst src = Ok h' /\
  (forall p', slot h' p' = if decide (p' = dst) then Some x else slot h p') /\ (forall b, size_of h' b = size_of h b).
Proof. intros Hx Hd. unfold memcpy. rewrite Hx. by apply put_spec. Qed.

Lemma move_down_spec b k : forall h i, (k <= i)%nat -> is_Some (slot h (b, i)) -> exists h', move_down h b i k = Ok h' /\
  (forall p, slot h' p = if decide (p.1 = b /\ (i - k < p.2 <= i)%nat) then slot h (b, p.2 - 1)%nat else slot h p) /\
  (forall x, size_of h' x = size_of h x).
Proof.
  induction k as [|k IH]; intros h i Hk Hi; cbn [move_down].
  { exists h. split; [done|]. split; [|done]. intros p. case_decide; [lia | done]. }
  assert (Hj : is_Some (slot h (b, i - 1)%nat)).
  { apply size_slot in Hi as (n & Hn & Hi). apply size_slot. exists n. cbn in *. split; [done | lia]. }
  destruct Hj as (x & Hx). destruct (memcpy_spec h (b, i) (b, i - 1)%nat x Hx Hi) as (h1 & -> & Hs & Hz). cbn.
  destruct (IH h1 (i - 1)%nat) as (h2 & -> & Hs2 & Hz2); [lia | rewrite Hs; case_decide; [by eexists | by eexists] |].
  exists h2. split; [done|]. split; [|intros y; by rewrite Hz2]. intros p. rewrite Hs2, !Hs. destruct p as [pb pj]; cbn.
  ptr_cases. all: assert (pj = i) as -> by lia. all: done.
Qed.

Lemma adopt_spec b up k : forall h j, (forall m, (j <= m < j + k)%nat -> is_Some (cell_at h (b, m))) -> exists h', adopt h b j k up = Ok h' /\
  (forall p, slot h' p = if decide (p.1 = b /\ (j <= p.2 < j + k)%nat) then named up <$> slot h p else slot h p) /\
  (forall x, size_of h' x = size_of h x).
Proof.
  induction k as [|k IH]; intros h j Hm; cbn [adopt].
  { exists h. split; [done|]. split; [|done]. intros p. case_decide; [lia | done]. }
  destruct (Hm j) as (c & Hc); [lia|]. destruct (upd_spec h (b, j) (with_parent (Some up)) c Hc) as (h1 & -> & Hs & Hz). cbn.
  destruct (IH h1 (S j)) as (h2 & -> & Hs2 & Hz2).
  { intros m H. unfold cell_at. rewrite Hs. case_decide; [by eexists | apply Hm; lia]. }
  exists h2. split; [done|]. split; [|intros y; by rewrite Hz2]. intros [pb pj]. rewrite Hs2, Hs. cbn.
  assert (Hsl : slot h (b, j) = Some (Some c)) by (unfold cell_at in Hc; destruct (slot h (b, j)) as [[|]|]; by simplify_eq/=).
  ptr_cases. all: by rewrite Hsl.
Qed.

(** The cell [p] is a child of the node in cell [m] of the array [a]. *)
Definition below (h : memory) (a : addr) (m : nat) (p : ptr) : Prop :=
  exists c, cell_at h (a, m) = Some c /\ s_child c = Some p.1 /\ (p.2 < s_n_children c)%nat.

(** A node whose children are all in memory, and not in the array [a]. *)
Definition has_children (h : memory) (a : addr) (c : mxml_struct) : Prop :=
  forall j, (j < s_n_children c)%nat -> exists b, s_child c = Some b /\ b <> a /\ is_Some (cell_at h (b, j)).

Lemma named_named up1 up2 (x : option (option mxml_struct)) : named up2 <$> (named up1 <$> x) = named up2 <$> x.
Proof. by destruct x as [[[]|]|]. Qed.

Lemma named_Some up (x : option (option mxml_struct)) : is_Some (mjoin (named up <$> x)) <-> is_Some (mjoin x).
Proof. by destruct x as [[c|]|]; cbn; [split; by eexists | |]. Qed.

(** One node's children. *)
Lemma adopt_children h a m c : cell_at h (a, m) = Some c -> has_children h a c -> exists h',
  (if Nat.eqb (s_n_children c) 0 then Ok h
   else match s_child c with None => Crash NullDeref | Some b => adopt h b 0 (s_n_children c) (a, m) end) = Ok h' /\
  (forall p, below h a m p -> slot h' p = named (a, m) <$> slot h p) /\
  (forall p, ~ below h a m p -> slot h' p = slot h p) /\ (forall j, slot h' (a, j) = slot h (a, j)) /\
  (forall x, size_of h' x = size_of h x).
Proof.
  intros Hc Hk. destruct (Nat.eqb_spec (s_n_children c) 0) as [Hz|Hz].
  { exists h. split_and!; try done. intros p (c' & Hc' & _ & Hlt). rewrite Hc in Hc'. simplify_eq. lia. }
  destruct (Hk 0%nat) as (b & Hb & Hne & _); [lia|]. rewrite Hb.
  destruct (adopt_spec b (a, m) (s_n_children c) h 0) as (h' & -> & Hs & Hsz).
  { intros j Hj. destruct (Hk j) as (b' & Hb' & _ & Hs); [lia|]. by simplify_eq. }
  exists h'. split_and!; [done | | | |done].
  - intros p (c' & Hc' & Hp & Hlt). rewrite Hc in Hc'. simplify_eq. rewrite Hs, decide_True; [done|]. split; [done | lia].
  - intros p Hp. rewrite Hs, decide_False; [done|]. intros [Hp1 Hp2]. apply Hp. exists c. split_and!; [done | congruence | lia].
  - intros j. rewrite Hs, decide_False; [done|]. intros [E _]. by apply Hne.
Qed.

Lemma correct_spec a k : forall h i, (forall m, (i <= m < i + k)%nat -> exists c, cell_at h (a, m) = Some c /\ has_children h a c) ->
  exists h', correct h a i k = Ok h' /\
  (forall m p, (i <= m < i + k)%nat -> below h a m p -> (forall m', (m < m' < i + k)%nat -> ~ below h a m' p) ->
    slot h' p = named (a, m) <$> slot h p) /\
  (forall p, (forall m, (i <= m < i + k)%nat -> ~ below h a m p) -> slot h' p = slot h p) /\
  (forall x, size_of h' x = size_of h x).
Proof.
  induction k as [|k IH]; intros h i Hk; cbn [correct].
  { exists h. split_and!; try done. intros; lia. }
  destruct (Hk i) as (c & Hc & Hch); [lia|]. rewrite (rd_cell _ _ _ Hc). cbn [mbind res_bind].
  destruct (adopt_children h a i c Hc Hch) as (h1 & -> & H1 & H2 & Ha & Hz). cbn [mbind res_bind].
  assert (Hcell : forall j, cell_at h1 (a, j) = cell_at h (a, j)) by (intros j; unfold cell_at; by rewrite Ha).
  assert (Hbel : forall m p, below h1 a m p <-> below h a m p) by (intros m p; unfold below; by rewrite Hcell).
  assert (Hdec : forall p, Decision (below h a i p)).
  { intros p. destruct (decide (s_child c = Some p.1 /\ (p.2 < s_n_children c)%nat)) as [[E1 E2]|E]; [left; by exists c | right].
    intros (c' & Hc' & E1 & E2). rewrite Hc in Hc'. simplify_eq. by apply E. }
  destruct (IH h1 (S i)) as (h2 & -> & R1 & R2 & Hz2).
  { intros m Hm. destruct (Hk m) as (c' & Hc' & Hch'); [lia|]. exists c'. rewrite Hcell. split; [done|]. intros j Hj.
    destruct (Hch' j Hj) as (b & Hb & Hne & Hs). exists b. split_and!; [done..|]. unfold cell_at in *.
    destruct (Hdec (b, j)); [rewrite H1 by done; by apply named_Some | by rewrite H2]. }
  exists h2. split_and!; [done | | | intros y; by rewrite Hz2].
  - intros m p Hm Hb Hlast. destruct (decide (m = i)) as [->|Hmi].
    + rewrite R2; [by apply H1|]. intros m' Hm'. rewrite Hbel. apply Hlast. lia.
    + rewrite (R1 m p); [| lia | by apply Hbel | intros m' Hm'; rewrite Hbel; apply Hlast; lia].
      destruct (Hdec p); [by rewrite H1, named_named | by rewrite H2].
  - intros p Hp. rewrite R2; [apply H2, Hp; lia|]. intros m Hm. rewrite Hbel. apply Hp. lia.
Qed.

Lemma step_Some c j p : step c j = Some p <-> (j < s_n_children c)%nat /\ s_child c = Some p.1 /\ p.2 = j.
Proof.
  unfold step. destruct p as [b k]. destruct (Nat.ltb_spec j (s_n_children c)); [|split; [done | lia]].
  destruct (s_child c); cbn; [|by split; [|intros (_ & [=] & _)]]. split; [by intros [= -> ->] | by intros (_ & [= ->] & <-)].
Qed.

(** ** The whole function on memory *)
Section AddNode.
Context (h : memory) (parent : ptr) (c : mxml_struct) (a : addr) (idx : nat).
Context (Hc : cell_at h parent = Some c) (Hidx : (idx <= s_n_children c)%nat) (Hap : a <> parent.1).

(** [p] is a child of the child at [j]. *)
Definition grandchild (j : nat) (p : ptr) : Prop :=
  exists pj cj, step c j = Some pj /\ cell_at h pj = Some cj /\ step cj p.2 = Some p.

(** The children's array is in memory, with theirs elsewhere, and no two share. *)
Context (Hsize : forall j b, step c j = Some (b, j) -> size_of h b = Some (s_n_children c) /\ b <> parent.1).
Context (Hkids : forall j, (j < s_n_children c)%nat -> exists pj cj, step c j = Some pj /\ cell_at h pj = Some cj /\
  forall i, (i < s_n_children cj)%nat -> exists p, step cj i = Some p /\ is_Some (cell_at h p) /\ p.1 <> a /\ p.1 <> parent.1 /\ s_child c <> Some p.1).
Context (Hapart : forall j1 j2 p, grandchild j1 p -> grandchild j2 p -> j1 = j2).

(** The array was the children's. *)
Definition replaced (x : addr) : Prop := (0 < s_n_children c)%nat /\ s_child c = Some x.

#[local] Instance replaced_dec x : Decision (replaced x).
Proof. unfold replaced. apply _. Defined.

Lemma grow_spec : exists h1,
  (if Nat.eqb (s_n_children c) 0 then Ok (<[a := [None]]> h) else realloc a h (s_child c) (S (s_n_children c))) = Ok h1 /\
  (forall p, slot h1 p = if decide (p.1 = a) then (if decide (p.2 = s_n_children c) then Some None else step c p.2 ≫= slot h)
                         else if decide (replaced p.1) then None else slot h p) /\
  (forall x, size_of h1 x = if decide (x = a) then Some (S (s_n_children c)) else if decide (replaced x) then None else size_of h x).
Proof.
  destruct (Nat.eqb_spec (s_n_children c) 0) as [Hz|Hz].
  - eexists. split; [reflexivity|]. assert (Hr : forall x, ~ replaced x) by (intros x []; lia). split.
    + intros [pb pj]; cbn. rewrite (decide_False (P := replaced pb)) by apply Hr. unfold slot; cbn. unfold step. rewrite Hz.
      case_decide as E; [subst pb; rewrite lookup_insert_eq; by destruct pj | by rewrite lookup_insert_ne].
    + intros x. rewrite (decide_False (P := replaced x)) by apply Hr. unfold size_of.
      case_decide as E; [subst x; by rewrite lookup_insert_eq, Hz | by rewrite lookup_insert_ne].
  - destruct (Hkids 0%nat) as (p0 & _ & E0 & _); [lia|]. unfold step in E0. rewrite (proj2 (Nat.ltb_lt _ _)) in E0 by lia.
    destruct (s_child c) as [b|] eqn:Eb; [|done]. cbn in E0. simplify_eq.
    destruct (Hsize 0%nat b) as [Hb _]; [unfold step; rewrite Eb, (proj2 (Nat.ltb_lt _ _)) by lia; done|].
    unfold realloc. unfold size_of in Hb. destruct (h !! b) as [l|] eqn:El; [|done]. cbn in Hb. injection Hb as Hb.
    rewrite take_ge by lia. replace (S (s_n_children c) - length l)%nat with 1%nat by lia. cbn [replicate].
    eexists. split; [reflexivity|]. assert (Hr : forall x, replaced x <-> x = b).
    { intros x. unfold replaced. rewrite Eb. split; [intros [_ [= ->]]; done | intros ->; split; [lia | done]]. }
    split.
    + intros [pb pj]; unfold slot; cbn. case_decide as E; [subst pb; rewrite lookup_insert_eq; cbn|].
      * unfold step. case_decide as E2; [subst pj; by rewrite <- Hb, list_lookup_middle|].
        destruct (Nat.ltb_spec pj (s_n_children c)); cbn; [rewrite Eb; cbn; rewrite El; cbn; by rewrite lookup_app_l by lia|].
        rewrite lookup_ge_None_2; [done | rewrite length_app; cbn; lia].
      * rewrite lookup_insert_ne by done. case_decide as E2; rewrite Hr in E2; [subst pb; by rewrite lookup_delete_eq | by rewrite lookup_delete_ne].
    + intros x. unfold size_of. case_decide as E; [subst x; rewrite lookup_insert_eq; cbn; rewrite length_app; cbn; f_equal; lia|].
      rewrite lookup_insert_ne by done. case_decide as E2; rewrite Hr in E2; [subst x; by rewrite lookup_delete_eq | by rewrite lookup_delete_ne].
Qed.

Lemma parent_not_replaced : ~ replaced parent.1.
Proof.
  intros [Hn E]. destruct (Hsize 0%nat parent.1) as [_ []]; [|done]. unfold step. by rewrite E, (proj2 (Nat.ltb_lt _ _)).
Qed.

(** The children in the new array, before the parents are corrected. *)
Definition shifted (j : nat) : option (option mxml_struct) :=
  if decide (idx < j <= s_n_children c)%nat then step c (j - 1) ≫= slot h
  else if decide (j = s_n_children c) then Some None else step c j ≫= slot h.

Lemma shifted_old j : (j <= s_n_children c)%nat -> j <> idx ->
  shifted j = step c (if decide (idx < j)%nat then j - 1 else j)%nat ≫= slot h.
Proof. intros Hj Hne. unfold shifted. repeat case_decide; try done; lia. Qed.

Lemma shifted_Some j : (j < s_n_children c)%nat -> exists pj cj, step c (if decide (idx < j)%nat then j - 1 else j)%nat = Some pj /\
  cell_at h pj = Some cj /\ shifted j = Some (Some cj).
Proof.
  intros Hj. destruct (Hkids (if decide (idx < j)%nat then j - 1 else j)%nat) as (pj & cj & Hs & Hcj & _); [case_decide; lia|].
  exists pj, cj. split_and!; [done..|]. unfold cell_at in Hcj. unfold shifted.
  repeat case_decide; try lia; rewrite Hs; cbn; destruct (slot h pj) as [[|]|]; by simplify_eq/=.
Qed.

Lemma moved_spec : exists h1 h2 h3,
  (if Nat.eqb (s_n_children c) 0 then Ok (<[a := [None]]> h) else realloc a h (s_child c) (S (s_n_children c))) = Ok h1 /\
  upd h1 parent (with_child (Some a)) = Ok h2 /\
  (if Nat.ltb idx (s_n_children c) then move_down h2 a (s_n_children c) (s_n_children c - idx) else Ok h2) = Ok h3 /\
  (forall j, slot h3 (a, j) = shifted j) /\ slot h3 parent = Some (Some (with_child (Some a) c)) /\
  (forall p, p.1 <> a -> p <> parent -> slot h3 p = if decide (replaced p.1) then None else slot h p) /\
  (forall x, size_of h3 x = if decide (x = a) then Some (S (s_n_children c)) else if decide (replaced x) then None else size_of h x).
Proof.
  destruct grow_spec as (h1 & E1 & S1 & Z1).
  assert (Hp1 : slot h1 parent = slot h parent) by (rewrite S1; repeat case_decide; [congruence.. | by destruct parent_not_replaced | done]).
  destruct (upd_spec h1 parent (with_child (Some a)) c) as (h2 & E2 & S2 & Z2); [by unfold cell_at; rewrite Hp1|].
  assert (Ha2 : forall j, slot h2 (a, j) = if decide (j = s_n_children c) then Some None else step c j ≫= slot h).
  { intros j. rewrite S2, decide_False by (intros <-; done). rewrite S1. cbn. by rewrite decide_True. }
  exists h1, h2. destruct (Nat.ltb_spec idx (s_n_children c)) as [Hlt|Hge].
  - destruct (move_down_spec a (s_n_children c - idx) h2 (s_n_children c)) as (h3 & E3 & S3 & Z3); [lia | rewrite Ha2, decide_True; [by eexists | done] |].
    exists h3. split_and!; [done.. | | | |].
    + intros j. rewrite S3. cbn. unfold shifted. rewrite !Ha2. repeat case_decide; destruct_and?; try done; try lia.
    + rewrite S3, decide_False by (intros [E _]; by apply Hap). rewrite S2. by rewrite decide_True.
    + intros p Hpa Hpp. rewrite S3, decide_False by (by intros [E _]). rewrite S2, decide_False by done. rewrite S1. by rewrite decide_False.
    + intros x. by rewrite Z3, Z2, Z1.
  - exists h2. split_and!; [done.. | | | |].
    + intros j. rewrite Ha2. unfold shifted. repeat case_decide; try done; lia.
    + rewrite S2. by rewrite decide_True.
    + intros p Hpa Hpp. rewrite S2, decide_False by done. rewrite S1. by rewrite decide_False.
    + intros x. by rewrite Z2, Z1.
Qed.

(** Where the child at [j] was when the loops reach it. *)
Definition old_place (m : nat) : nat := if decide (idx < m)%nat then (m - 1)%nat else m.
Definition new_place (j : nat) : nat := if decide (idx <= j)%nat then S j else j.

Lemma grandchild_elsewhere j p : grandchild j p -> (j < s_n_children c)%nat /\ p.1 <> a /\ p <> parent /\ ~ replaced p.1 /\ is_Some (cell_at h p).
Proof.
  intros (pj & cj & Hs & Hcj & Hp). pose proof Hs as (Hj & _)%step_Some. pose proof Hp as (Hp2 & _)%step_Some.
  destruct (Hkids j Hj) as (pj' & cj' & Hs' & Hcj' & Hi). rewrite Hs in Hs'. injection Hs' as <-. rewrite Hcj in Hcj'. injection Hcj' as <-.
  destruct (Hi p.2 Hp2) as (p' & Hp' & Hsome & H1 & H2 & H3). rewrite Hp in Hp'. injection Hp' as <-.
  split_and!; try done; [by intros -> | by intros [_ E]].
Qed.

Lemma below_grandchild h3 m p : (forall j, slot h3 (a, j) = shifted j) -> (m < s_n_children c)%nat ->
  below h3 a m p <-> grandchild (old_place m) p.
Proof.
  intros Hs Hm. destruct (shifted_Some m Hm) as (pj & cj & H1 & H2 & H3). unfold below, grandchild, cell_at. rewrite Hs, H3. cbn.
  split.
  - intros (c' & [= <-] & E1 & E2). exists pj, cj. split_and!; [done..|]. by apply step_Some.
  - intros (pj' & cj' & E1 & E2 & E3). unfold old_place in E1. rewrite H1 in E1. injection E1 as <-.
    unfold cell_at in H2. rewrite H2 in E2. injection E2 as <-. exists cj. apply step_Some in E3 as (? & ? & _). done.
Qed.

(** The parent the correction gives the children of the old child at [j]; the
    last child is not reached again once it has moved. *)
Definition given (j : nat) : option ptr :=
  if decide (j < idx)%nat then Some (a, j)
  else if decide (S j < s_n_children c)%nat then Some (a, S j)
  else if decide (j = idx) then Some (a, j)
  else None.

Lemma corrected_spec h3 : (forall j, slot h3 (a, j) = shifted j) -> slot h3 parent = Some (Some (with_child (Some a) c)) ->
  (forall p, p.1 <> a -> p <> parent -> slot h3 p = if decide (replaced p.1) then None else slot h p) ->
  exists h4, correct h3 a 0 (s_n_children c) = Ok h4 /\
    (forall j p, grandchild j p -> slot h4 p = match given j with Some up => named up <$> slot h p | None => slot h p end) /\
    (forall p, (forall j, ~ grandchild j p) -> slot h4 p = slot h3 p) /\ (forall x, size_of h4 x = size_of h3 x).
Proof.
  intros Ha Hp Ho. assert (Hgc : forall j p, grandchild j p -> slot h3 p = slot h p).
  { intros j p (_ & H1 & H2 & H3 & _)%grandchild_elsewhere. rewrite Ho by done. by rewrite decide_False. }
  destruct (correct_spec a (s_n_children c) h3 0) as (h4 & E & R1 & R2 & Z).
  { intros m Hm. destruct (shifted_Some m) as (pj & cj & H1 & H2 & H3); [lia|]. exists cj. unfold cell_at at 1. rewrite Ha, H3. split; [done|].
    intros i Hi. destruct (Hkids (old_place m)) as (pj' & cj' & E1 & E2 & Hk); [unfold old_place; case_decide; lia|].
    unfold old_place in E1. rewrite H1 in E1. injection E1 as <-. rewrite H2 in E2. injection E2 as <-. destruct (Hk i Hi) as (p & Hpi & Hsome & Hpa & _).
    pose proof Hpi as (_ & Hch & Hp2)%step_Some. assert (Hg : grandchild (old_place m) p).
    { exists pj, cj. split_and!; [done..|]. by rewrite Hp2. }
    exists p.1. split_and!; [done..|]. rewrite <- Hp2, <- surjective_pairing. unfold cell_at. by rewrite (Hgc _ _ Hg). }
  exists h4. split_and!; [done | | |done].
  - intros j p Hg. pose proof (grandchild_elsewhere j p Hg) as (Hj & _). unfold given.
    assert (Hb : forall m, (m < s_n_children c)%nat -> below h3 a m p <-> old_place m = j).
    { intros m Hm. rewrite (below_grandchild h3 m p Ha Hm). split; [by intros Hg2; apply (Hapart _ _ p) | by intros ->]. }
    rewrite <- (Hgc j p Hg). repeat case_decide.
    + apply (R1 j); [lia | apply Hb; [lia|] | intros m' Hm'; rewrite Hb by lia]; unfold old_place; case_decide; lia.
    + apply (R1 (S j)); [lia | apply Hb; [lia|] | intros m' Hm'; rewrite Hb by lia]; unfold old_place; case_decide; lia.
    + apply (R1 j); [lia | apply Hb; [lia|] | intros m' Hm'; rewrite Hb by lia]; unfold old_place; case_decide; lia.
    + apply R2. intros m Hm. rewrite Hb by lia. unfold old_place. case_decide; lia.
  - intros p Hn. apply R2. intros m Hm. rewrite (below_grandchild h3 m p Ha) by lia. apply Hn.
Qed.

(** The node that was added. *)
Definition added (node_type : Z) (node_name : cstr) (value : option cstr) : mxml_struct :=
  Struct (strlcpy_val MXML_NAME_LENGTH node_name) node_type (match value with Some (x :: v) => Some (x :: v) | _ => None end)
    no_attrs 0 0 (Some parent) 0 None.

Lemma new_place_old j : (j < s_n_children c)%nat ->
  (new_place j <= s_n_children c)%nat /\ new_place j <> idx /\ (if decide (idx < new_place j)%nat then (new_place j - 1)%nat else new_place j) = j.
Proof. unfold new_place. intros Hj. repeat case_decide; split_and!; lia. Qed.

Lemma add_spec ty name v : exists h', mem_add_special_node_at a h parent ty name v idx = Ok (h', (a, idx)) /\
  cell_at h' (a, idx) = Some (added ty name v) /\
  (forall j, (j < s_n_children c)%nat -> slot h' (a, new_place j) = step c j ≫= slot h) /\
  cell_at h' parent = Some (with_n_children (S (s_n_children c)) (with_child (Some a) c)) /\
  (forall j p, grandchild j p -> slot h' p = match given j with Some up => named up <$> slot h p | None => slot h p end) /\
  (forall p, p.1 <> a -> p <> parent -> (forall j, ~ grandchild j p) -> slot h' p = if decide (replaced p.1) then None else slot h p) /\
  (forall x, size_of h' x = if decide (x = a) then Some (S (s_n_children c)) else if decide (replaced x) then None else size_of h x).
Proof.
  destruct moved_spec as (h1 & h2 & h3 & E1 & E2 & E3 & Ha & Hp & Ho & Hz).
  destruct (corrected_spec h3 Ha Hp Ho) as (h4 & E4 & G4 & F4 & Z4).
  assert (Ha4 : forall j, slot h4 (a, j) = shifted j).
  { intros j. rewrite F4, Ha; [done|]. intros k (_ & Hk & _)%grandchild_elsewhere. by apply Hk. }
  assert (Hp4 : slot h4 parent = Some (Some (with_child (Some a) c))).
  { rewrite F4, Hp; [done|]. by intros k (_ & _ & Hk & _)%grandchild_elsewhere. }
  set (fresh := Struct (strlcpy_val MXML_NAME_LENGTH name) ty None no_attrs 0 0 (Some parent) 0 None).
  destruct (put_spec h4 (a, idx) (Some fresh)) as (h5 & E5 & S5 & Z5).
  { rewrite Ha4. unfold shifted. rewrite decide_False by lia. case_decide; [by eexists|].
    destruct (Hkids idx) as (pj & cj & -> & Hcj & _); [lia|]. cbn. unfold cell_at in Hcj. by destruct (slot h pj). }
  destruct (upd_spec h5 parent (with_n_children (S (s_n_children c))) (with_child (Some a) c)) as (h6 & E6 & S6 & Z6).
  { unfold cell_at. rewrite S5, decide_False by (by intros ->). by rewrite Hp4. }
  assert (Hx6 : slot h6 (a, idx) = Some (Some fresh)) by (rewrite S6, decide_False by (intros <-; done); by rewrite S5, decide_True).
  assert (E7 : exists h7, (match v with Some (x :: v) => upd h6 (a, idx) (with_value (Some (x :: v))) | _ => Ok h6 end) = Ok h7 /\
    (forall p, slot h7 p = if decide (p = (a, idx)) then Some (Some (added ty name v)) else slot h6 p) /\ (forall x, size_of h7 x = size_of h6 x)).
  { destruct v as [[|x v]|].
    1, 3: exists h6; split_and!; try done; intros p; case_decide; by subst.
    destruct (upd_spec h6 (a, idx) (with_value (Some (x :: v))) fresh) as (h7 & E7 & S7 & Z7); [unfold cell_at; by rewrite Hx6|]. by exists h7. }
  destruct E7 as (h7 & E7 & S7 & Z7). exists h7. unfold mem_add_special_node_at. rewrite (rd_cell _ _ _ Hc). cbn [mbind res_bind].
  rewrite E1. cbn [mbind res_bind]. rewrite E2. cbn [mbind res_bind]. rewrite E3. cbn [mbind res_bind]. rewrite E4. cbn [mbind res_bind].
  fold fresh. rewrite E5. cbn [mbind res_bind]. rewrite E6. cbn [mbind res_bind]. rewrite E7. cbn [mbind res_bind].
  assert (S56 : forall p, p <> (a, idx) -> p <> parent -> slot h7 p = slot h4 p).
  { intros p H1 H2. by rewrite S7, decide_False, S6, decide_False, S5, decide_False. }
  split_and!; [done | | | | | |].
  - unfold cell_at. by rewrite S7, decide_True.
  - intros j Hj. destruct (new_place_old j Hj) as (H1 & H2 & H3). rewrite S56 by (first [intros [=]; done | intros <-; done]).
    rewrite Ha4, shifted_old by done. by rewrite H3.
  - unfold cell_at. rewrite S7, decide_False by (by intros ->). by rewrite S6, decide_True.
  - intros j p Hg. pose proof (grandchild_elsewhere j p Hg) as (_ & H1 & H2 & _). rewrite S56 by (first [by intros -> | done]). by apply G4.
  - intros p H1 H2 H3. rewrite S56 by (first [by intros -> | done]). rewrite F4 by done. by apply Ho.
  - intros x. by rewrite Z7, Z6, Z5, Z4, Hz.
Qed.
End AddNode.

(** ** Paths before and after *)

(** The path of an old node in the new tree. *)
Fixpoint relocate (path : list nat) (idx : nat) (q : list nat) : list nat :=
  match path, q with
  | [], j :: q' => new_place idx j :: q'
  | i :: path', j :: q' => if decide (i = j) then j :: relocate path' idx q' else q
  | _, [] => []
  end.

Lemma relocate_path path idx : relocate path idx path = path.
Proof. induction path as [|i path IH]; [done|]. cbn. by rewrite decide_True, IH. Qed.

Lemma relocate_child path idx j : relocate path idx (path ++ [j]) = path ++ [new_place idx j].
Proof. induction path as [|i path IH]; [done|]. cbn. by rewrite decide_True, IH. Qed.

Lemma relocate_snoc path idx q i : q <> path -> relocate path idx (q ++ [i]) = relocate path idx q ++ [i].
Proof.
  revert q. induction path as [|k path IH]; intros [|j q] Hq; cbn; try done.
  - case_decide; [|done]. by destruct path.
  - case_decide; [|done]. subst k. rewrite IH; [done | congruence].
Qed.

Lemma relocate_is_child path idx q m : relocate path idx q = path ++ [m] -> exists j, q = path ++ [j].
Proof.
  revert q. induction path as [|i path IH]; intros [|j q]; cbn; try done.
  - intros [= _ ->]. by exists j.
  - case_decide as Hij; [|intros [= -> _]; done]. intros [= _ E]. destruct (IH q E) as (k & ->). subst j. by exists k.
Qed.

Lemma new_place_onto idx k : k <> idx -> exists j, k = new_place idx j.
Proof. unfold new_place. intros Hk. exists (if decide (idx < k)%nat then (k - 1)%nat else k). repeat case_decide; lia. Qed.

(** A tree with the new node put in: the old nodes are at their relocated
    paths, and there is no other. *)
Section Inserted.
Context (n c : node) (idx : nat) (Hidx : (idx <= length (child n))%nat) (Hc : child c = []).

Definition inserted : node := set_child n (take idx (child n) ++ c :: drop idx (child n)).

Lemma inserted_old j : child inserted !! new_place idx j = child n !! j.
Proof.
  unfold inserted. rewrite child_set_child. unfold new_place. case_decide as Hj.
  - rewrite lookup_app_r by (rewrite length_take; lia). rewrite length_take_le by done.
    rewrite lookup_cons_ne_0 by lia. rewrite lookup_drop. f_equal. lia.
  - rewrite lookup_app_l by (rewrite length_take; lia). by rewrite lookup_take_lt by lia.
Qed.

Lemma inserted_new : child inserted !! idx = Some c.
Proof. unfold inserted. rewrite child_set_child. apply list_lookup_middle. by rewrite length_take_le. Qed.

Lemma inserted_length : length (child inserted) = S (length (child n)).
Proof. unfold inserted. rewrite child_set_child, length_app. cbn. rewrite length_take, length_drop. lia. Qed.

Lemma shape_inserted : shape_of inserted = (nname n, ntype n, nvalue n, nattrs n, line_start n, line_end n, S (length (child n))).
Proof. unfold shape_of. by rewrite inserted_length. Qed.

Lemma shape_relocate path t q : subtree t path = Some n -> q <> path ->
  shape_of <$> subtree (plug path inserted t) (relocate path idx q) = shape_of <$> subtree t q.
Proof.
  revert t q. induction path as [|i path IH]; intros t [|j q] Hs Hq; cbn [relocate plug subtree] in *; try done.
  - injection Hs as ->. by rewrite inserted_old.
  - destruct (child t !! i) as [d|]; [|done]. cbn [fmap option_fmap option_map]. f_equal. unfold shape_of. rewrite child_set_child, length_insert. by destruct t.
  - destruct (child t !! i) as [d|] eqn:E; [|done]. case_decide as Hij.
    + subst j. cbn [subtree]. rewrite child_set_child, list_lookup_insert_eq by (by eapply lookup_lt_Some). rewrite E. apply IH; congruence.
    + cbn [subtree]. rewrite child_set_child, list_lookup_insert_ne by done. done.
Qed.

Lemma subtree_covered path t q' : subtree t path = Some n -> is_Some (subtree (plug path inserted t) q') ->
  q' = path ++ [idx] \/ exists q, q' = relocate path idx q /\ is_Some (subtree t q).
Proof.
  revert t q'. induction path as [|i path IH]; intros t [|k q'] Hs H; cbn [relocate plug subtree app] in *.
  - right. exists []. split; [done | by eexists].
  - injection Hs as ->. destruct (decide (k = idx)) as [->|Hk].
    + rewrite inserted_new in H. destruct q' as [|x q']; [by left|]. cbn in H. rewrite Hc in H. by destruct H as (? & [=]).
    + destruct (new_place_onto idx k Hk) as (j & ->). rewrite inserted_old in H. right. by exists (j :: q').
  - right. exists []. split; [done | by eexists].
  - destruct (child t !! i) as [d|] eqn:E; [|done]. rewrite child_set_child in H. destruct (decide (i = k)) as [<-|Hik].
    + rewrite list_lookup_insert_eq in H by (by eapply lookup_lt_Some). destruct (IH d q' Hs H) as [-> | (q & -> & Hq)]; [by left|].
      right. exists (i :: q). cbn. rewrite decide_True by done. by rewrite E.
    + rewrite list_lookup_insert_ne in H by done. right. exists (k :: q'). cbn. by rewrite decide_False.
Qed.
End Inserted.

(** ** Paths in memory *)

Lemma locate_snoc h r q i : locate h r (q ++ [i]) = c ← node_of h r q; step c i.
Proof. unfold locate, node_of. rewrite foldl_snoc. fold (locate h r q). by destruct (locate h r q) as [p|]. Qed.

Lemma node_of_locate h r q p : locate h r q = Some p -> node_of h r q = cell_at h p.
Proof. intros E. unfold node_of. by rewrite E. Qed.

Section Stored.
Context (h : memory) (r : ptr) (t : node) (Hst : stored h r t).

Lemma stored_node q n : subtree t q = Some n -> exists p c, locate h r q = Some p /\ cell_at h p = Some c /\ shape_at c = shape_of n.
Proof.
  intros Hs. pose proof (st_shape _ _ _ Hst q) as E. rewrite Hs in E. unfold node_of in E. destruct (locate h r q) as [p|]; [|done].
  cbn in E. destruct (cell_at h p) as [c|] eqn:Ec; [|done]. exists p, c. split_and!; [done..|]. by apply (inj Some).
Qed.

Lemma stored_valid q c : node_of h r q = Some c -> exists n, subtree t q = Some n /\ shape_at c = shape_of n.
Proof.
  intros Hc. pose proof (st_shape _ _ _ Hst q) as E. rewrite Hc in E. destruct (subtree t q) as [n|]; [|done]. exists n. split; [done|]. by apply (inj Some).
Qed.

(** Every child a cell counts is there. *)
Lemma stored_child q c i : node_of h r q = Some c -> (i < s_n_children c)%nat ->
  exists p ci, step c i = Some p /\ locate h r (q ++ [i]) = Some p /\ cell_at h p = Some ci.
Proof.
  intros Hc Hi. destruct (stored_valid q c Hc) as (n & Hn & E).
  destruct (lookup_lt_is_Some_2 (child n) i) as (d & Hd); [unfold shape_at, shape_of in E; injection E; intros; lia|].
  destruct (stored_node (q ++ [i]) d) as (p & ci & Hp & Hci & _); [rewrite subtree_app, Hn; cbn; by rewrite Hd|].
  exists p, ci. split_and!; [|done..]. rewrite locate_snoc, Hc in Hp. done.
Qed.

Lemma locate_inj q1 : forall q2 p, locate h r q1 = Some p -> locate h r q2 = Some p -> q1 = q2.
Proof.
  assert (Hroot : forall q i p, locate h r (q ++ [i]) = Some p -> p.1 <> r.1).
  { intros q i p. rewrite locate_snoc. destruct (node_of h r q) as [c|] eqn:Ec; [|done]. cbn. intros (Hi & Hch & _)%step_Some.
    destruct (st_size _ _ _ Hst q c Ec) as (b & Hb & _ & Hne); [lia|]. congruence. }
  induction q1 as [|i q1 IH] using rev_ind; intros q2 p H1 H2; destruct q2 as [|j q2 _] using rev_ind; [done | | |].
  - injection H1 as <-. by destruct (Hroot _ _ _ H2).
  - injection H2 as <-. by destruct (Hroot _ _ _ H1).
  - rewrite locate_snoc in H1, H2. destruct (node_of h r q1) as [c1|] eqn:E1; [|done]. destruct (node_of h r q2) as [c2|] eqn:E2; [|done].
    cbn in H1, H2. apply step_Some in H1 as (Hi & Hc1 & <-), H2 as (Hj & Hc2 & <-). f_equal.
    apply (st_own _ _ _ Hst q1 q2 c1 c2); [done | done | lia | lia | congruence].
Qed.

(** A cell of a children's array is one of the children. *)
Lemma stored_cell q c b j : node_of h r q = Some c -> (0 < s_n_children c)%nat -> s_child c = Some b -> is_Some (slot h (b, j)) ->
  locate h r (q ++ [j]) = Some (b, j).
Proof.
  intros Hc Hn Hb (k & Hk & Hj)%size_slot. destruct (st_size _ _ _ Hst q c Hc Hn) as (b' & Hb' & Hz & _). cbn in *. simplify_eq.
  rewrite locate_snoc, Hc. cbn. by apply step_Some.
Qed.
End Stored.

(** ** The tree after the addition *)
Section AddStored.
Context (h : memory) (r : ptr) (t : node) (Hst : stored h r t).
Context (path : list nat) (n : node) (parent : ptr) (a : addr) (idx : nat).
Context (Hn : subtree t path = Some n) (Hparent : locate h r path = Some parent) (Hidx : (idx <= length (child n))%nat).
Context (Hfresh : h !! a = None \/ child n <> [] /\ (s_child <$> node_of h r path) = Some (Some a)).

Lemma add_parent : exists c, node_of h r path = Some c /\ cell_at h parent = Some c /\ shape_at c = shape_of n /\ s_n_children c = length (child n).
Proof.
  destruct (stored_node h r t Hst path n Hn) as (p & c & Hp & Hc & E). rewrite Hparent in Hp. injection Hp as <-. exists c.
  split_and!; [by rewrite (node_of_locate _ _ _ _ Hparent) | done | done | by injection E].
Qed.

Context (c : mxml_struct) (Hnode : node_of h r path = Some c) (Hc : cell_at h parent = Some c) (Hcn : s_n_children c = length (child n)).

Lemma fresh_cases b j : is_Some (slot h (b, j)) -> b = a -> (0 < s_n_children c)%nat /\ s_child c = Some a.
Proof.
  intros (x & Hx) ->. destruct Hfresh as [Hf|[Hne E]].
  - unfold slot in Hx. cbn in Hx. by rewrite Hf in Hx.
  - rewrite Hnode in E. injection E as E. split; [|done]. rewrite Hcn. by destruct (child n); [|cbn; lia].
Qed.

Lemma cell_slot p x : cell_at h p = Some x -> is_Some (slot h p).
Proof. unfold cell_at. by destruct (slot h p). Qed.

Lemma add_apart : a <> parent.1.
Proof.
  intros E. destruct parent as [pb pj] eqn:Ep. cbn in E. subst pb.
  destruct (fresh_cases a pj) as [Hp Hch]; [by eapply cell_slot | done |].
  pose proof (stored_cell h r t Hst path c a pj Hnode Hp Hch (cell_slot _ _ Hc)) as H2.
  pose proof (locate_inj h r t Hst _ _ _ Hparent H2) as H3. apply (f_equal length) in H3. rewrite length_app in H3. cbn in H3. lia.
Qed.

(** A node and the cell it is in. *)
Lemma child_array q1 q2 c1 p2 : node_of h r q1 = Some c1 -> (0 < s_n_children c1)%nat -> s_child c1 = Some p2.1 ->
  locate h r q2 = Some p2 -> is_Some (cell_at h p2) -> exists j, q2 = q1 ++ [j].
Proof.
  intros H1 Hp Hch H2 (x & Hx). destruct p2 as [b j]. exists j.
  apply (locate_inj h r t Hst _ _ _ H2). by apply (stored_cell h r t Hst q1 c1); [.. | by eapply cell_slot].
Qed.

Lemma grandchild_path j p : grandchild h c j p <-> exists i, locate h r ((path ++ [j]) ++ [i]) = Some p.
Proof.
  split.
  - intros (pj & cj & Hs & Hcj & Hp). exists p.2. rewrite locate_snoc. unfold node_of. rewrite locate_snoc, Hnode. cbn. rewrite Hs. cbn. by rewrite Hcj.
  - intros (i & Hi). rewrite locate_snoc in Hi. unfold node_of in Hi. rewrite locate_snoc, Hnode in Hi. cbn in Hi.
    destruct (step c j) as [pj|] eqn:Ej; [|done]. cbn in Hi. destruct (cell_at h pj) as [cj|] eqn:Ec; [|done]. cbn in Hi.
    exists pj, cj. split_and!; [done..|]. by pose proof Hi as (_ & _ & ->)%step_Some.
Qed.

Lemma locate_cell q p : locate h r q = Some p -> q <> [] -> is_Some (cell_at h p).
Proof.
  destruct q as [|i q _] using rev_ind; [done|]. intros Hp _. rewrite locate_snoc in Hp. destruct (node_of h r q) as [cq|] eqn:Eq; [|done].
  cbn in Hp. pose proof Hp as (Hi & _)%step_Some. destruct (stored_child h r t Hst q cq i Eq Hi) as (p' & ci & Hs & _ & Hci). rewrite Hp in Hs.
  injection Hs as <-. by exists ci.
Qed.

Lemma path_ne (u v : list nat) : v <> [] -> u <> u ++ v.
Proof. intros Hv E. apply (f_equal length) in E. rewrite length_app in E. destruct v; [done | cbn in E; lia]. Qed.

Lemma add_result ty name v : exists h', mem_add_special_node_at a h parent ty name v idx = Ok (h', (a, idx)) /\
  cell_at h' (a, idx) = Some (added parent ty name v) /\
  (forall j, (j < s_n_children c)%nat -> slot h' (a, new_place idx j) = step c j ≫= slot h) /\
  cell_at h' parent = Some (with_n_children (S (s_n_children c)) (with_child (Some a) c)) /\
  (forall j p, grandchild h c j p -> slot h' p = match given c a idx j with Some up => named up <$> slot h p | None => slot h p end) /\
  (forall p, p.1 <> a -> p <> parent -> (forall j, ~ grandchild h c j p) -> slot h' p = if decide (replaced c p.1) then None else slot h p) /\
  (forall x, size_of h' x = if decide (x = a) then Some (S (s_n_children c)) else if decide (replaced c x) then None else size_of h x).
Proof.
  apply add_spec; [done | lia | apply add_apart | | |].
  - intros j b (Hj & Hb & _)%step_Some. cbn in Hb. destruct (st_size _ _ _ Hst path c Hnode) as (b' & Hb' & Hz & _); [lia|]. simplify_eq. split; [done|].
    intros ->. assert (H0 : (0 < s_n_children c)%nat) by lia.
    destruct (child_array path path c parent Hnode H0 Hb Hparent) as (i & E); [by eexists|]. by apply (path_ne path [i]).
  - intros j Hj. destruct (stored_child h r t Hst path c j Hnode Hj) as (pj & cj & Hs & Hl & Hcj). exists pj, cj. split_and!; [done..|].
    intros i Hi. assert (Hnj : node_of h r (path ++ [j]) = Some cj) by (by rewrite (node_of_locate _ _ _ _ Hl)).
    destruct (stored_child h r t Hst (path ++ [j]) cj i Hnj Hi) as (p & ci & Hsi & Hli & Hci). exists p. pose proof Hsi as (_ & Hchj & _)%step_Some.
    assert (H0 : (0 < s_n_children cj)%nat) by lia. assert (H1 : (0 < s_n_children c)%nat) by lia.
    assert (Hnot : s_child c <> Some p.1).
    { intros E. pose proof (st_own _ _ _ Hst path (path ++ [j]) c cj Hnode Hnj H1 H0) as E2. apply (path_ne path [j]); [done|]. apply E2. congruence. }
    split_and!; [done | by eexists | | |done].
    + intros E. destruct p as [pb pi]. cbn in E. destruct (fresh_cases pb pi) as [_ H]; [by eapply cell_slot | done |]. cbn in *. congruence.
    + intros E. destruct (child_array (path ++ [j]) path cj parent) as (i' & E2); [done | done | congruence | done | by eexists |].
      rewrite <- app_assoc in E2. by apply (path_ne path ([j] ++ [i'])) in E2.
  - intros j1 j2 p (i1 & H1)%grandchild_path (i2 & H2)%grandchild_path. pose proof (locate_inj h r t Hst _ _ _ H1 H2) as E.
    apply app_inj_tail in E as [E _]. by apply app_inj_tail in E as [_ E].
Qed.

(** From here on the addition is done. *)
Context (new : mxml_struct) (h' : memory) (Hnew : cell_at h' (a, idx) = Some new) (Hnew0 : s_n_children new = O).
Context (Hold : forall j, (j < s_n_children c)%nat -> slot h' (a, new_place idx j) = step c j ≫= slot h).
Context (Hpar : cell_at h' parent = Some (with_n_children (S (s_n_children c)) (with_child (Some a) c))).
Context (Hgrand : forall j p, grandchild h c j p -> slot h' p = match given c a idx j with Some up => named up <$> slot h p | None => slot h p end).
Context (Hrest : forall p, p.1 <> a -> p <> parent -> (forall j, ~ grandchild h c j p) -> slot h' p = if decide (replaced c p.1) then None else slot h p).
Context (Hsizes : forall x, size_of h' x = if decide (x = a) then Some (S (s_n_children c)) else if decide (replaced c x) then None else size_of h x).

(** Where the node at [q] is afterwards, and what its cell holds. *)
Record moved (q : list nat) (p : ptr) (cq : mxml_struct) (p' : ptr) (cq' : mxml_struct) : Prop := {
  mv_cell : cell_at h' p' = Some cq';
  mv_parent : q = path -> p' = parent /\ cq' = with_n_children (S (s_n_children c)) (with_child (Some a) c);
  mv_child j : q = path ++ [j] -> p' = (a, new_place idx j);
  mv_place : (forall j, q <> path ++ [j]) -> p' = p;
  mv_fields : q <> path -> shape_at cq' = shape_at cq /\ s_child cq' = s_child cq;
  mv_given j i : q = (path ++ [j]) ++ [i] -> s_parent cq' = match given c a idx j with Some up => Some up | None => s_parent cq end;
  mv_up : (forall j i, q <> (path ++ [j]) ++ [i]) -> s_parent cq' = s_parent cq
}.

(** Two paths of different lengths are not the same. *)
Ltac by_length := repeat intro; exfalso;
  repeat match goal with E : _ = _ :> list nat |- _ => apply (f_equal length) in E; rewrite ?length_app in E; cbn in E; try lia; clear E end.

Lemma path_cases q : q = path \/ (exists j, q = path ++ [j]) \/ (exists j i, q = (path ++ [j]) ++ [i]) \/
  (q <> path /\ (forall j, q <> path ++ [j]) /\ (forall j i, q <> (path ++ [j]) ++ [i])).
Proof.
  destruct (decide (q = path)); [by left|]. destruct q as [|i q _] using rev_ind.
  { right; right; right. split_and!; [done | by_length | by_length]. }
  destruct (decide (q = path)) as [->|Hq]; [right; left; by exists i|]. destruct q as [|j q _] using rev_ind.
  - right; right; right. split_and!; [done | |].
    + intros j E. by apply (app_inj_tail [] path) in E as [<- _].
    + intros j k E. apply (app_inj_tail [] (path ++ [j])) in E as [E _]. by apply app_cons_not_nil in E.
  - destruct (decide (q = path)) as [->|Hq2]; [right; right; left; by exists j, i|]. right; right; right. split_and!; [done | |].
    + intros k E. by apply app_inj_tail in E as [E _].
    + intros k m E. apply app_inj_tail in E as [E _]. by apply app_inj_tail in E as [E _].
Qed.

Lemma moved_cell q p cq : locate h r q = Some p -> cell_at h p = Some cq -> exists p' cq', moved q p cq p' cq'.
Proof.
  intros Hp Hcq. destruct (path_cases q) as [-> | [(j & ->) | [(j & i & ->) | (H1 & H2 & H3)]]].
  - rewrite Hparent in Hp. injection Hp as <-. rewrite Hc in Hcq. injection Hcq as <-. eexists _, _.
    split; [exact Hpar | done | | done | done | | done]; by_length.
  - pose proof Hp as Hs. rewrite locate_snoc, Hnode in Hs. cbn in Hs. pose proof Hs as (Hj & _)%step_Some. exists (a, new_place idx j), cq.
    split; [unfold cell_at; rewrite Hold, Hs by done; exact Hcq | | by intros k [_ [= ->]]%app_inj_tail | by intros H; destruct (H j) | done | | done]; by_length.
  - assert (Hg : grandchild h c j p) by (apply grandchild_path; by exists i).
    exists p, (match given c a idx j with Some up => with_parent (Some up) cq | None => cq end).
    split; [| | |done | by destruct (given c a idx j) | | by intros H; destruct (H j i)].
    + unfold cell_at in *. rewrite (Hgrand j p Hg). destruct (slot h p) as [[x|]|]; simplify_eq/=. by destruct (given c a idx j).
    + by_length.
    + by_length.
    + intros k m [[_ [= ->]]%app_inj_tail _]%app_inj_tail. by destruct (given c a idx k).
  - assert (Hpp : p <> parent) by (intros ->; by apply H1, (locate_inj h r t Hst _ _ _ Hp)).
    assert (Hgc : forall j, ~ grandchild h c j p) by (intros j (i & Hi)%grandchild_path; by apply (H3 j i), (locate_inj h r t Hst _ _ _ Hp)).
    assert (Hrep : ~ replaced c p.1).
    { intros [Hn0 E]. destruct (child_array path q c p Hnode Hn0 E Hp) as (j & Hj); [by eexists|]. by apply (H2 j). }
    exists p, cq. split; try done; [| intros j E; by destruct (H2 j) | intros j i E; by destruct (H3 j i)].
    unfold cell_at. rewrite Hrest, decide_False; [done.. | |done|done].
    intros E. destruct p as [pb pi]. cbn in *. destruct (fresh_cases pb pi) as [Hn0 E2]; [by eapply cell_slot | done |]. apply Hrep. by subst.
Qed.

Lemma root_cell : exists cr, cell_at h r = Some cr.
Proof. destruct (stored_node h r t Hst [] t) as (p & cr & Hp & Hcr & _); [done|]. injection Hp as <-. by exists cr. Qed.

(** The path of an old node leads to it. *)
Lemma locate_moved q : forall p cq p' cq', locate h r q = Some p -> moved q p cq p' cq' -> locate h' r (relocate path idx q) = Some p'.
Proof.
  induction q as [|i q IH] using rev_ind; intros p cq p' cq' Hp M.
  - injection Hp as <-. replace p' with r; [by destruct path|]. symmetry. apply (mv_place _ _ _ _ _ M). intros j. apply app_cons_not_nil.
  - rewrite locate_snoc in Hp. destruct (node_of h r q) as [cp|] eqn:Ecp; [|done]. cbn in Hp. unfold node_of in Ecp.
    destruct (locate h r q) as [pp|] eqn:Epp; [|done]. cbn in Ecp. destruct (moved_cell q pp cp Epp Ecp) as (pp' & cp' & Mp).
    pose proof Hp as (Hi & Hch & Hpi)%step_Some.
    pose proof (IH _ _ _ _ eq_refl Mp) as E. assert (Hnp : node_of h' r (relocate path idx q) = Some cp').
    { rewrite (node_of_locate _ _ _ _ E). exact (mv_cell _ _ _ _ _ Mp). }
    destruct (decide (q = path)) as [->|Hq].
    + rewrite relocate_path in Hnp. rewrite relocate_child, locate_snoc, Hnp. cbn. destruct (mv_parent _ _ _ _ _ Mp) as [_ ->]; [done|].
      rewrite (mv_child _ _ _ _ _ M i) by done. apply step_Some. rewrite Hparent in Epp. injection Epp as <-. rewrite Hc in Ecp. injection Ecp as <-.
      split_and!; [|done..]. assert (new_place idx i <= s_n_children c)%nat by (unfold new_place; destruct (decide (idx <= i)%nat); lia).
      cbn [s_n_children with_n_children]. lia.
    + rewrite relocate_snoc, locate_snoc, Hnp by done. cbn. destruct (mv_fields _ _ _ _ _ Mp) as [Hsh Hch']; [done|].
      rewrite (mv_place _ _ _ _ _ M) by (intros j [E2 _]%app_inj_tail; done). apply step_Some. rewrite Hch'.
      split_and!; [|done..]. injection Hsh; intros; lia.
Qed.

Lemma locate_new : locate h' r (path ++ [idx]) = Some (a, idx).
Proof.
  destruct (moved_cell path parent c Hparent Hc) as (p' & c' & M). pose proof (locate_moved path _ _ _ _ Hparent M) as E. rewrite relocate_path in E.
  rewrite locate_snoc, (node_of_locate _ _ _ _ E), (mv_cell _ _ _ _ _ M). cbn. destruct (mv_parent _ _ _ _ _ M) as [_ ->]; [done|].
  apply step_Some. cbn [s_n_children with_n_children]. split_and!; [lia | done..].
Qed.

Lemma node_moved q cq : node_of h r q = Some cq -> exists p p' cq', locate h r q = Some p /\ moved q p cq p' cq' /\
  locate h' r (relocate path idx q) = Some p' /\ node_of h' r (relocate path idx q) = Some cq'.
Proof.
  unfold node_of. destruct (locate h r q) as [p|] eqn:Ep; [|done]. cbn. intros Hcq. destruct (moved_cell q p cq Ep Hcq) as (p' & cq' & M).
  pose proof (locate_moved q p cq p' cq' Ep M) as E. exists p, p', cq'. split_and!; [done..|]. rewrite E. exact (mv_cell _ _ _ _ _ M).
Qed.

Lemma node_new : node_of h' r (path ++ [idx]) = Some new.
Proof. by rewrite (node_of_locate _ _ _ _ locate_new). Qed.

(** Every path in the new memory is one of these. *)
Lemma covered q' : is_Some (locate h' r q') -> q' = path ++ [idx] \/ exists q cq, q' = relocate path idx q /\ node_of h r q = Some cq.
Proof.
  induction q' as [|k q' IH] using rev_ind; intros (p' & Hp').
  { right. destruct root_cell as (cr & Hcr). exists [], cr. split; [by destruct path | done]. }
  rewrite locate_snoc in Hp'. destruct (node_of h' r q') as [c'|] eqn:Ec'; [|done]. cbn in Hp'. apply step_Some in Hp' as (Hk & _).
  destruct IH as [-> | (q & cq & -> & Hq)]; [unfold node_of in Ec'; by destruct (locate h' r q') | |].
  { rewrite node_new in Ec'. injection Ec' as <-. lia. }
  destruct (node_moved q cq Hq) as (p & p1 & cq' & Hp & M & _ & Hn'). rewrite Hn' in Ec'. injection Ec' as <-.
  destruct (decide (q = path)) as [->|Hqp].
  - destruct (mv_parent _ _ _ _ _ M) as [_ ->]; [done|]. cbn in Hk. rewrite relocate_path. destruct (decide (k = idx)) as [->|Hki]; [by left|]. right.
    destruct (new_place_onto idx k Hki) as (j & ->). destruct (stored_child h r t Hst path c j Hnode) as (pj & cj & _ & Hl & Hcj).
    { unfold new_place in Hk. destruct (decide (idx <= j)%nat); lia. }
    exists (path ++ [j]), cj. split; [by rewrite relocate_child | by rewrite (node_of_locate _ _ _ _ Hl)].
  - destruct (mv_fields _ _ _ _ _ M) as [Hsh _]; [done|]. destruct (stored_child h r t Hst q cq k Hq) as (pk & ck & _ & Hl & Hck).
    { injection Hsh; intros; lia. }
    right. exists (q ++ [k]), ck. split; [by rewrite relocate_snoc | by rewrite (node_of_locate _ _ _ _ Hl)].
Qed.

Context (d : node) (Hd : child d = []) (Hdn : shape_at new = shape_of d).

Lemma shape_after q cq : node_of h r q = Some cq ->
  shape_at <$> node_of h' r (relocate path idx q) = shape_of <$> subtree (plug path (inserted n d idx) t) (relocate path idx q).
Proof.
  intros Hq. destruct (node_moved q cq Hq) as (p & p' & cq' & Hp & M & _ & ->). destruct (stored_valid h r t Hst q cq Hq) as (m & Hm & E).
  destruct (decide (q = path)) as [->|Hqp].
  - rewrite relocate_path, (subtree_plug _ _ _ _ Hn). cbn [fmap option_fmap option_map]. f_equal. destruct (mv_parent _ _ _ _ _ M) as [_ ->]; [done|].
    rewrite Hn in Hm. injection Hm as <-. rewrite Hnode in Hq. injection Hq as <-. rewrite (shape_inserted n d idx Hidx).
    injection E; intros. unfold shape_at. cbn. congruence.
  - rewrite (shape_relocate n d idx Hidx path t q Hn Hqp), Hm. cbn. f_equal. destruct (mv_fields _ _ _ _ _ M) as [Hsh _]; [done|]. congruence.
Qed.

(** A node with children is an old one. *)
Lemma old_node q' c' : node_of h' r q' = Some c' -> (0 < s_n_children c')%nat ->
  exists q cq p p', q' = relocate path idx q /\ node_of h r q = Some cq /\ moved q p cq p' c'.
Proof.
  intros Hq' Hp. destruct (covered q') as [-> | (q & cq & -> & Hq)]; [unfold node_of in Hq'; by destruct (locate h' r q') | |].
  - rewrite node_new in Hq'. injection Hq' as <-. lia.
  - destruct (node_moved q cq Hq) as (p & p' & cq' & _ & M & _ & E). rewrite E in Hq'. injection Hq' as <-. by exists q, cq, p, p'.
Qed.

Lemma fresh_root : a <> r.1.
Proof.
  intros E. destruct root_cell as (cr & Hcr). rewrite (surjective_pairing r) in Hcr.
  destruct (fresh_cases r.1 r.2) as [Hp Hch]; [by eapply cell_slot | done |].
  destruct (st_size _ _ _ Hst path c) as (b & Hb & _ & Hne); [done | done |]. congruence.
Qed.

(** The array of any other old node is where it was. *)
Lemma old_array q cq p p' cq' : node_of h r q = Some cq -> moved q p cq p' cq' -> q <> path -> (0 < s_n_children cq')%nat ->
  exists b, s_child cq' = Some b /\ b <> a /\ ~ (0 < s_n_children c /\ s_child c = Some b)%nat /\ b <> r.1 /\ size_of h b = Some (s_n_children cq').
Proof.
  intros Hq M Hqp Hp. destruct (mv_fields _ _ _ _ _ M Hqp) as [Hsh Hch]. assert (Hn0 : s_n_children cq' = s_n_children cq) by (by injection Hsh).
  destruct (st_size _ _ _ Hst q cq Hq) as (b & Hb & Hz & Hne); [lia|]. exists b.
  assert (Hrep : ~ (0 < s_n_children c /\ s_child c = Some b)%nat).
  { intros [H0 E]. apply Hqp. apply (st_own _ _ _ Hst q path cq c); [done | done | lia | done | congruence]. }
  split_and!; [congruence | | done | done | by rewrite Hn0].
  intros ->. apply Hrep. apply (fresh_cases a 0%nat); [|done]. apply size_slot. exists (s_n_children cq). split; [done | cbn; lia].
Qed.

Lemma stored_after : stored h' r (plug path (inserted n d idx) t).
Proof.
  assert (Hsub : subtree (plug path (inserted n d idx) t) (path ++ [idx]) = Some d).
  { rewrite subtree_app, (subtree_plug _ _ _ _ Hn). cbn [mbind option_bind subtree]. by rewrite inserted_new. }
  split.
  - intros q'. destruct (node_of h' r q') as [c'|] eqn:Ec'.
    + destruct (covered q') as [-> | (q & cq & -> & Hq)]; [unfold node_of in Ec'; by destruct (locate h' r q') | |].
      * rewrite node_new in Ec'. injection Ec' as <-. rewrite Hsub. cbn [fmap option_fmap option_map]. by rewrite Hdn.
      * rewrite <- Ec'. by apply (shape_after q cq).
    + destruct (subtree (plug path (inserted n d idx) t) q') as [m|] eqn:Em; [|done].
      destruct (subtree_covered n d idx Hidx Hd path t q' Hn) as [-> | (q & -> & (m' & Hm'))]; [by eexists | by rewrite node_new in Ec'|].
      destruct (stored_node h r t Hst q m' Hm') as (p & cq & Hp & Hcq & _).
      destruct (node_moved q cq) as (_ & _ & cq' & _ & _ & _ & E); [by rewrite (node_of_locate _ _ _ _ Hp)|]. congruence.
  - intros q' c' Hq' Hp'. destruct (old_node q' c' Hq' Hp') as (q & cq & p & p' & -> & Hq & M).
    destruct (decide (q = path)) as [->|Hqp].
    + destruct (mv_parent _ _ _ _ _ M) as [_ ->]; [done|]. exists a. split_and!; [done | by rewrite Hsizes, decide_True | apply fresh_root].
    + destruct (old_array q cq p p' c' Hq M Hqp Hp') as (b & H1 & H2 & H3 & H4 & Hz). exists b. split_and!; [done | | done].
      rewrite Hsizes, !decide_False; first [exact Hz | exact H2 | exact H3].
  - intros q1' q2' c1' c2' H1 H2 P1 P2 E. destruct (old_node q1' c1' H1 P1) as (q1 & c1 & p1 & p1' & -> & Hq1 & M1).
    destruct (old_node q2' c2' H2 P2) as (q2 & c2 & p2 & p2' & -> & Hq2 & M2). f_equal.
    destruct (decide (q1 = path)) as [->|Hqp1], (decide (q2 = path)) as [->|Hqp2]; [done | | |].
    + destruct (mv_parent _ _ _ _ _ M1) as [_ ->]; [done|]. destruct (old_array q2 c2 _ _ _ Hq2 M2 Hqp2 P2) as (b & E2 & Hb & _). cbn in E. congruence.
    + destruct (mv_parent _ _ _ _ _ M2) as [_ ->]; [done|]. destruct (old_array q1 c1 _ _ _ Hq1 M1 Hqp1 P1) as (b & E2 & Hb & _). cbn in E. congruence.
    + destruct (mv_fields _ _ _ _ _ M1 Hqp1) as [S1 C1], (mv_fields _ _ _ _ _ M2 Hqp2) as [S2 C2].
      apply (st_own _ _ _ Hst q1 q2 c1 c2); [done | done | injection S1; intros; lia | injection S2; intros; lia | congruence].
Qed.

Context (Hup : parents_right h r t) (Hnewup : s_parent new = Some parent).

Lemma locate_path : locate h' r path = Some parent.
Proof.
  destruct (moved_cell path parent c Hparent Hc) as (p' & c' & M). pose proof (locate_moved path _ _ _ _ Hparent M) as E.
  rewrite relocate_path in E. rewrite E. by destruct (mv_parent _ _ _ _ _ M) as [-> _].
Qed.

(** The parent of an old node that is not below a child of [path]. *)
Lemma old_up q i cq : node_of h r (q ++ [i]) = Some cq -> s_parent cq = locate h r q.
Proof.
  intros Hq. destruct (stored_valid h r t Hst _ _ Hq) as (m & Hm & _). rewrite <- (Hup q i) by (by eexists). unfold up_of. by rewrite Hq.
Qed.

Lemma given_place j : (j < length (child n))%nat -> match given c a idx j with Some up => Some up | None => locate h r (path ++ [j]) end =
  if decide ((idx < length (child n))%nat /\ path ++ [new_place idx j] = path ++ [length (child n)])
  then if decide (S idx = length (child n)) then Some (a, idx) else locate h r (path ++ [length (child n) - 1]%nat)
  else Some (a, new_place idx j).
Proof.
  intros Hj. unfold given. rewrite Hcn. assert (E : path ++ [new_place idx j] = path ++ [length (child n)] <-> (idx <= j /\ S j = length (child n))%nat).
  { rewrite (inj_iff (app path)). unfold new_place. split; [intros [= E] | intros [H1 H2]; f_equal]; destruct (decide (idx <= j)%nat); lia. }
  destruct (decide (idx < _ /\ path ++ _ = _)%nat) as [[H1 [H2 H3]%E]|Hne]; [|rewrite E in Hne].
  - rewrite decide_False, decide_False by lia. destruct (decide (S idx = length (child n))%nat).
    + rewrite decide_True by lia. repeat f_equal. lia.
    + rewrite decide_False by lia. repeat f_equal. lia.
  - unfold new_place. destruct (decide (j < idx)%nat); [by rewrite decide_False by lia|].
    rewrite (decide_True (P := (S j < _)%nat)), decide_True by lia. done.
Qed.

Lemma parent_after q i : is_Some (locate h' r (q ++ [i])) -> up_of h' r (q ++ [i]) =
  if decide ((idx < length (child n))%nat /\ q = path ++ [length (child n)])
  then if decide (S idx = length (child n)) then Some (a, idx) else locate h r (path ++ [length (child n) - 1]%nat)
  else locate h' r q.
Proof.
  intros Hl. destruct (covered _ Hl) as [E | (q0 & cq & E & Hq0)].
  { apply app_inj_tail in E as [-> ->]. unfold up_of. rewrite node_new. cbn. rewrite decide_False, locate_path; [done|].
    intros [_ E]. by apply (path_ne path [length (child n)]). }
  destruct q0 as [|k q0 _] using rev_ind; [exfalso; destruct path; by apply (app_nil q [i]) in E as [_ [=]]|].
  destruct (node_moved _ cq Hq0) as (p & p' & cq' & Hp & M & Hlp' & Hnp'). unfold up_of. rewrite E, Hnp'. cbn [mbind option_bind].
  destruct (decide (q0 = path)) as [->|Hqp].
  { rewrite relocate_child in E. apply app_inj_tail in E as [-> _]. rewrite decide_False by (intros [_ E]; by apply (path_ne path [length (child n)])).
    rewrite (mv_up _ _ _ _ _ M) by by_length. rewrite locate_path, <- Hparent. by apply (old_up path k cq). }
  rewrite relocate_snoc in E by done. apply app_inj_tail in E as [-> ->].
  destruct (path_cases q0) as [? | [(j & ->) | Hq0']]; [done | |].
  - rewrite (mv_given _ _ _ _ _ M j k) by done. rewrite (old_up _ _ _ Hq0), relocate_child.
    pose proof Hp as Hs. rewrite locate_snoc in Hs. destruct (node_of h r (path ++ [j])) as [cj|] eqn:Ecj; [|done].
    destruct (node_moved _ cj Ecj) as (pj & pj' & cj' & Hpj & Mj & Hlj & _). rewrite relocate_child in Hlj. rewrite Hlj, (mv_child _ _ _ _ _ Mj j) by done.
    rewrite locate_snoc, Hnode in Hpj. cbn in Hpj. apply step_Some in Hpj as (Hj & _). apply given_place. by rewrite <- Hcn.
  - assert (Hno : forall j, q0 <> path ++ [j]).
    { intros j ->. destruct Hq0' as [(j' & i' & E)|(_ & H & _)]; [by_length | by apply (H j)]. }
    rewrite decide_False by (intros [_ E]; apply relocate_is_child in E as (j & ->); by apply (Hno j)).
    rewrite (mv_up _ _ _ _ _ M) by (intros j i' [E _]%app_inj_tail; by apply (Hno j)). rewrite (old_up _ _ _ Hq0).
    pose proof Hp as Hs. rewrite locate_snoc in Hs. destruct (node_of h r q0) as [c0|] eqn:E0; [|done].
    destruct (node_moved _ c0 E0) as (p0 & p0' & c0' & Hp0 & M0 & Hl0 & _). by rewrite Hl0, (mv_place _ _ _ _ _ M0).
Qed.

Lemma frame_after p : p.1 <> a -> (forall q, locate h r q <> Some p) -> slot h' p = slot h p.
Proof.
  intros Hpa Hno. rewrite Hrest; [|done | intros ->; by apply (Hno path) | intros j (i & Hi)%grandchild_path; by apply (Hno _ Hi)].
  destruct (decide (replaced c p.1)) as [[H0 Hch]|]; [|done]. destruct p as [pb pj]. destruct (slot h (pb, pj)) as [x|] eqn:Ex; [|done].
  exfalso. apply (Hno (path ++ [pj])). apply (stored_cell h r t Hst path c); [done.. | by eexists].
Qed.
End AddStored.

(** ** The claims *)

(** What the memory holds once a node was added at [idx] below the node at
    [path]: the tree [t'], the node at its place, nothing else changed, and the
    parents. *)
Record node_added (h h' : memory) (r : ptr) (t' : node) (path : list nat) (k : nat) (a : addr) (idx : nat) : Prop := {
  na_stored : stored h' r t';
  na_place : locate h' r (path ++ [idx]) = Some (a, idx);
  na_frame p : p.1 <> a -> (forall q, locate h r q <> Some p) -> slot h' p = slot h p;
  na_parents q i : is_Some (subtree t' (q ++ [i])) -> up_of h' r (q ++ [i]) =
    if decide ((idx < k)%nat /\ q = path ++ [k])
    then if decide (S idx = k) then Some (a, idx) else locate h r (path ++ [k - 1]%nat)
    else locate h' r q
}.

Lemma add_stored h r t path n parent a ty name v idx :
  stored h r t -> parents_right h r t -> subtree t path = Some n -> locate h r path = Some parent -> (idx <= length (child n))%nat ->
  h !! a = None \/ child n <> [] /\ (s_child <$> node_of h r path) = Some (Some a) ->
  exists h' t', mem_add_special_node_at a h parent ty name v idx = Ok (h', (a, idx)) /\
    alter_at path (fun m => mxml_add_special_node_at m ty name v idx) t = Ok t' /\ node_added h h' r t' path (length (child n)) a idx.
Proof.
  intros Hst Hup Hn Hparent Hidx Hfresh. destruct (add_parent h r t Hst path n parent Hn Hparent) as (c & Hnode & Hc & Hsh & Hcn).
  destruct (add_result h r t Hst path n parent a idx Hparent Hidx Hfresh c Hnode Hc Hcn ty name v) as (h' & E & Hnew & Hold & Hpar & Hgrand & Hrest & Hsizes).
  exists h', (plug path (inserted n (new_node ty name v) idx) t). split_and!; [done | |].
  - apply (alter_at_plug _ _ _ n); [done|]. unfold mxml_add_special_node_at, insert_child. by rewrite (proj2 (Nat.leb_le _ _)).
  - assert (Hst' : stored h' r (plug path (inserted n (new_node ty name v) idx) t)) by (by eapply stored_after).
    split; [done | by eapply (locate_new _ _ _ Hst _ _ _ _ _ Hn) with (new := added parent ty name v) | by eapply (frame_after _ _ _ Hst)|].
    intros q i (m & Hm). destruct (stored_node h' r _ Hst' _ _ Hm) as (p & cp & Hp & _). eapply (parent_after _ _ _ Hst _ _ _ _ _ Hn) with (new := added parent ty name v); [done.. | by eexists].
Qed.

(** C24: Adding a node at any place below any node of a tree whose parents are right
    stores the tree that [mxml_add_special_node_at] of [MxmlTree.v] returns,
    wherever the allocator puts the array, and writes no other memory; and the
    parent of every node is the node that holds it, but for the children of a
    last child that had to move: they name the new node's cell when that is
    the one they moved out of, and the old cell otherwise.  So all parents are
    right after an addition at the end. *)
Theorem add_node_linked h r t path n parent a ty name v idx :
  stored h r t -> parents_right h r t -> subtree t path = Some n -> locate h r path = Some parent -> (idx <= length (child n))%nat ->
  h !! a = None \/ child n <> [] /\ (s_child <$> node_of h r path) = Some (Some a) ->
  exists h' t', mem_add_special_node_at a h parent ty name v idx = Ok (h', (a, idx)) /\
    alter_at path (fun m => mxml_add_special_node_at m ty name v idx) t = Ok t' /\ node_added h h' r t' path (length (child n)) a idx.
Proof. apply add_stored. Qed.

(** An addition at the end keeps the parents right. *)
Lemma append_linked h h' r t' path k a : node_added h h' r t' path k a k -> parents_right h' r t'.
Proof. intros H q i Hq. rewrite (na_parents _ _ _ _ _ _ _ _ H q i Hq). by rewrite decide_False by lia. Qed.

(** ** A tree built by the code *)

Definition demo_root : mxml_struct := Struct (str "root") DOCUMENT_NODE None no_attrs 0 0 None 0 None.
Definition demo_at : ptr := (1%positive, 0%nat).

Lemma root_stored a c : s_n_children c = 0%nat -> s_attrs c = no_attrs ->
  stored {[a := [Some c]]} (a, 0%nat) (Node (s_name c) (s_node_type c) (s_value c) no_attrs (s_line_number_start c) (s_line_number_end c) []).
Proof.
  intros H0 Ha. assert (Hr : cell_at {[a := [Some c]]} (a, 0%nat) = Some c) by (unfold cell_at, slot; cbn; by rewrite lookup_singleton_eq).
  assert (Hq : forall q i, node_of {[a := [Some c]]} (a, 0%nat) (q ++ [i]) = None).
  { induction q as [|j q IH] using rev_ind; intros i; unfold node_of; rewrite locate_snoc; [|by rewrite IH].
    unfold node_of. cbn. rewrite Hr. cbn. unfold step. by rewrite H0. }
  assert (Hn : forall q x, node_of {[a := [Some c]]} (a, 0%nat) q = Some x -> x = c).
  { intros q x. destruct q as [|i q _] using rev_ind; [|by rewrite Hq]. unfold node_of. cbn. rewrite Hr. by intros [= ->]. }
  split.
  - intros q. destruct q as [|i q _] using rev_ind; [|rewrite Hq, subtree_app; destruct q as [|[] q]; done].
    unfold node_of. cbn. rewrite Hr. cbn. unfold shape_at. by rewrite H0, Ha.
  - intros q x ->%Hn. lia.
  - intros q1 q2 c1 c2 ->%Hn. lia.
Qed.

(** One more node at the end of a list of children. *)
Lemma append_step h r t path n parent a ty name v h' p t' :
  stored h r t /\ parents_right h r t -> subtree t path = Some n -> locate h r path = Some parent -> h !! a = None ->
  mem_add_special_node_at a h parent ty name v (length (child n)) = Ok (h', p) ->
  alter_at path (fun m => mxml_add_special_node_at m ty name v (length (child n))) t = Ok t' -> stored h' r t' /\ parents_right h' r t'.
Proof.
  intros [Hst Hup] Hn Hp Hf E Et. destruct (add_stored h r t path n parent a ty name v (length (child n)) Hst Hup Hn Hp) as (h2 & t2 & E2 & Et2 & H); [lia | by left |].
  rewrite E in E2. rewrite Et in Et2. simplify_eq. split; [apply (na_stored _ _ _ _ _ _ _ _ H) | by eapply append_linked].
Qed.

Definition after (r : res (memory * ptr)) : memory := match r with Ok (h, _) => h | Crash _ => ∅ end.

(** The root, an element in it, one in that, and one in that. *)
Definition demo1 : memory := after (mem_add_special_node_at 2 {[1%positive := [Some demo_root]]} demo_at ELEMENT_NODE (str "a") None 0).
Definition demo2 : memory := after (mem_add_special_node_at 3 demo1 (2%positive, 0%nat) ELEMENT_NODE (str "x") None 0).
Definition demo3 : memory := after (mem_add_special_node_at 4 demo2 (3%positive, 0%nat) ELEMENT_NODE (str "y") (Some (str "7")) 0).

Definition element (name : cstr) (value : option cstr) (cs : list node) : node := Node name ELEMENT_NODE value no_attrs 0 0 cs.
Definition document (cs : list node) : node := Node (str "root") DOCUMENT_NODE None no_attrs 0 0 cs.
Definition demo_tree : node := document [element (str "a") None [element (str "x") None [element (str "y") (Some (str "7")) []]]].

Lemma demo3_linked : stored demo3 demo_at demo_tree /\ parents_right demo3 demo_at demo_tree.
Proof.
  apply (append_step demo2 demo_at (document [element (str "a") None [element (str "x") None []]]) [0; 0]%nat (element (str "x") None [])
    (3%positive, 0%nat) 4 ELEMENT_NODE (str "y") (Some (str "7")) _ (4%positive, 0%nat)); [|reflexivity..].
  apply (append_step demo1 demo_at (document [element (str "a") None []]) [0]%nat (element (str "a") None [])
    (2%positive, 0%nat) 3 ELEMENT_NODE (str "x") None _ (3%positive, 0%nat)); [|reflexivity..].
  apply (append_step {[1%positive := [Some demo_root]]} demo_at (document []) [] (document []) demo_at 2 ELEMENT_NODE (str "a") None _
    (2%positive, 0%nat)); [|reflexivity..]. split.
  - by apply (root_stored 1 demo_root).
  - intros q i (x & Hx). rewrite subtree_app in Hx. destruct q; by destruct i.
Qed.

(** A node is put in front of [a], and the array moves: the parent [x] names is
    the new node. *)
Definition demo4 : memory := after (mem_add_special_node_at 5 demo3 demo_at ELEMENT_NODE (str "b") None 0).

Lemma add_node_linked_witness : exists h' t', mem_add_special_node_at 5 demo3 demo_at ELEMENT_NODE (str "b") None 0 = Ok (h', (5%positive, 0%nat)) /\
  alter_at [] (fun m => mxml_add_special_node_at m ELEMENT_NODE (str "b") None 0) demo_tree = Ok t' /\ node_added demo3 h' demo_at t' [] 1 5 0.
Proof.
  apply (add_node_linked demo3 demo_at demo_tree [] demo_tree).
  - apply demo3_linked.
  - apply demo3_linked.
  - reflexivity.
  - reflexivity.
  - cbn. lia.
  - left. reflexivity.
Defined.

Example parent_is_the_new_node : up_of demo4 demo_at [1; 0]%nat = Some (5%positive, 0%nat) /\ locate demo4 demo_at [0]%nat = Some (5%positive, 0%nat) /\
  locate demo4 demo_at [1]%nat = Some (5%positive, 1%nat).
Proof. split_and!; reflexivity. Qed.

(** Deleting [x] then frees what is below it and leaves it where it is, with a
    pointer to memory that is gone: freeing the tree frees it again. *)
Example deleted_node_stays : exists h', mem_delete_node 3 6 demo4 (3%positive, 0%nat) = Ok h' /\
  s_n_children <$> node_of h' demo_at [1]%nat = Some 1%nat /\ s_child <$> node_of h' demo_at [1; 0]%nat = Some (Some 4%positive) /\
  h' !! 4%positive = None /\ mem_free_tree 4 h' demo_at = Crash OutOfBounds.
Proof. eexists. split; [reflexivity|]. split_and!; reflexivity. Qed.

(** On the tree as it was, the deletion removes it. *)
Example deleted_node_goes : exists h', mem_delete_node 3 6 demo3 (3%positive, 0%nat) = Ok h' /\
  s_n_children <$> node_of h' demo_at [0]%nat = Some 0%nat /\ h' !! 4%positive = None /\ h' !! 3%positive = None.
Proof. eexists. split; [reflexivity|]. split_and!; reflexivity. Qed.
