(* ===== verification/MxmlEntity.v ===== *)
(** * Entities and files: [mxml_parse_entity] and [mxml_parse_file] of [mxml/mxml.c]

    The internal subset of a document type declares entities, with their text or
    with the name of a file that has it; references to them are replaced
    in the text before it is parsed.  The files and the room behind a block of
    memory are an interface. *)

From S2P Require Import Prelude CStr Utils MxmlCodec MxmlWriter MxmlTree MxmlParse MxmlSafe MxmlFind.

(** ** Files and memory *)

(** [file_length] is what seeking to the end answers; [file_read] answers [None] for an
    error, or the bytes, at most as many as asked for.  [usable n] bytes can be written into a
    block of [malloc(n)]. *)
Class XmlFiles (F : Type) := {
  file_open : cstr -> F -> Z * F;
  file_length : Z -> F -> nat;
  file_read : Z -> nat -> F -> option (list ascii) * F;
  file_close : Z -> F -> F;
  file_error : F -> cstr;
  usable : Z -> Z
}.

Definition INTERNAL_ENTITY : Z := 0.
Definition EXTERNAL_ENTITY : Z := 1.
Definition MXML_MAX_ENTITY : nat := 500.
Definition DIR_SEPARATOR : ascii := "/"%char.

(** ** Declarations *)

(** What the arrays hold of one entity; [e_value] is null until it is set. *)
Record entity := Entity { e_name : cstr; e_type : Z; e_reference : cstr; e_value : option cstr; e_line : Z }.
Definition set_e_value (v : cstr) (x : entity) : entity := Entity (e_name x) (e_type x) (e_reference x) (Some v) (e_line x).

(** The pointer into the copy of the text, the line, and the entities so far. *)
Record est := Est { ep : cstr; eline : Z; ents : list entity }.
Definition set_ep (p : cstr) (s : est) : est := Est p (eline s) (ents s).

(** A piece goes on, or reports an error at a line. *)
Inductive eoutcome (A : Type) := EGo (a : A) (s : est) | EError (line : Z) (msg : cstr).
Arguments EGo {A}.
Arguments EError {A}.

Definition E (A : Type) : Type := est -> res (eoutcome A).
#[global] Instance E_ret : MRet E := fun A a s => Ok (EGo a s).
#[global] Instance E_bind : MBind E := fun A B k m s =>
  match m s with
  | Ok (EGo a s') => k a s'
  | Ok (EError l msg) => Ok (EError l msg)
  | Crash c => Crash c
  end.

Definition eget {A} (f : est -> A) : E A := fun s => Ok (EGo (f s) s).
Definition emod (f : est -> est) : E unit := fun s => Ok (EGo tt (f s)).
Definition elift {A} (r : res A) : E A := fun s => match r with Ok a => Ok (EGo a s) | Crash c => Crash c end.
Definition efail {A} (msg : cstr) : E A := fun s => Ok (EError (eline s) msg).

(** [while ( *p && f( *p)) { if ( *p == '\n') line_number++; p++; }] *)
Definition eskip (f : ascii -> bool) : E unit := fun s => let '(l, p) := skip_lines f (eline s) (ep s) in Ok (EGo tt (Est p l (ents s))).
Definition eadvance (n : nat) : E unit := emod (fun s => set_ep (drop n (ep s)) s).
Definition echeck_eof : E unit := p ← eget ep; match p with [] => efail EOF_MSG | _ => mret tt end.

Definition BRACKETS : list ascii := ["<"; ">"]%char.
Definition one_of (l : list ascii) (c : ascii) : bool := existsb (fun d => c =c d) l.

(** The copied characters of a name: 252 at most. *)
Definition entity_char (c : ascii) : bool := negb (isspace c) && negb (one_of ["/"; ">"; "<"]%char c).

(** The name, [&...;].  The first error message has the name in it that is read
    afterwards. *)
Definition parse_entity_name : E cstr :=
  p ← eget ep;
  let '(_, pv) := skip_while (fun c => c =c " ") (drop 7 p) in
  _ ← emod (set_ep pv);
  _ ← eskip (fun c => isspace c && negb (one_of BRACKETS c));
  _ ← echeck_eof;
  p ← eget ep;
  if one_of BRACKETS (deref p) then efail (str "Unexpected '" ++ [deref p] ++ str "' inside !ENTITY")
  else
    let '(_, pv) := skip_while (fun c => negb (isspace c) && negb (one_of BRACKETS c)) p in
    _ ← (match pv with [] => efail EOF_MSG | _ => mret tt end);
    if one_of BRACKETS (deref pv) then elift (Crash Uninit)
    else
      let copied := take 252 (fst (skip_while entity_char p)) in
      let name := "&"%char :: copied ++ str ";" in
      _ ← eadvance (length copied);
      _ ← echeck_eof;
      p ← eget ep;
      if deref p =c "<" then efail (str "Unexpected '<' inside entity " ++ quoted (drop 1 name)) else mret name.

(** Blanks, behind which the declaration goes on. *)
Definition entity_blanks (name : cstr) : E unit :=
  _ ← eskip isspace;
  _ ← echeck_eof;
  p ← eget ep;
  if deref p =c ">" then efail (str "Unexpected '>' inside entity " ++ quoted (drop 1 name)) else mret tt.

(** The text between quotes; [p] stays at the second one. *)
Definition parse_replacement (name : cstr) : E cstr :=
  p ← eget ep;
  let delimiter := deref p in
  if negb (is_quote delimiter) then efail (str "Replacement was not found for entity " ++ quoted (drop 1 name))
  else
    _ ← eadvance 1;
    _ ← echeck_eof;
    p ← eget ep;
    let '(text, pv) := skip_while (fun c => negb (c =c delimiter)) p in
    _ ← (match pv with [] => efail EOF_MSG | _ => mret tt end);
    if deref pv =c "<" then efail (str "Unexpected '" ++ [deref pv] ++ str "' inside entity " ++ quoted (drop 1 name))
    else
      _ ← emod (set_ep pv);
      mret (mxml_decode text).

Section entity.
Context {F : Type} `{XmlFiles F}.

(** [strcpy] into an object of this size. *)
Definition strcpy_into (size : Z) (src : cstr) : res cstr := _ ← check (slen src <? size) OutOfBounds; Ok src.

(** [<!ENTITY ...], from the [!] on; the block for the text has one byte
    too few. *)
Definition parse_entity_decl : E unit :=
  l ← eget ents;
  if (MXML_MAX_ENTITY <=? length l)%nat then efail (str "Too much entities")
  else
    line ← eget eline;
    name ← parse_entity_name;
    _ ← entity_blanks name;
    p ← eget ep;
    let external := starts (str "SYSTEM") p in
    _ ← (if external then eadvance 6 else mret tt);
    _ ← entity_blanks name;
    replacement ← parse_replacement name;
    x ← elift (if external then r ← strcpy_into 256 replacement; Ok (Entity name EXTERNAL_ENTITY r None line)
               else v ← strcpy_into (usable (slen replacement)) replacement; Ok (Entity name INTERNAL_ENTITY [] (Some v) line));
    _ ← emod (fun s => Est (ep s) (eline s) (ents s ++ [x]));
    _ ← eskip isspace;
    echeck_eof.

(** A comment, from the [!] on. *)
Definition skip_comment : E unit :=
  _ ← eadvance 3;
  p ← eget ep;
  match strstr p DASHES with
  | None => efail (str "Unterminated comment")
  | Some _ =>
      line ← eget eline;
      '(line, p) ← elift (until DASHES line p);
      emod (fun s => Est (drop 3 p) line (ents s))
  end.

(** One round of the search: false when the subset ends at once. *)
Definition entity_round : E bool :=
  p ← eget ep;
  if deref p =c "]" then mret false
  else
    _ ← (if deref p =c "<" then
           _ ← eadvance 1;
           _ ← eskip isspace;
           _ ← echeck_eof;
           p ← eget ep;
           if starts (str "!--") p then skip_comment
           else if starts (str "!ENTITY") p then parse_entity_decl
           else mret tt
         else mret tt);
    _ ← eskip (fun c => negb (c =c "<"));
    mret true.

(** [do { ... } while ( *p)]; every round but the last takes a character. *)
Fixpoint entity_loop (fuel : nat) : E unit :=
  match fuel with
  | O => elift (Crash NoFuel)
  | S fuel' =>
      more ← entity_round;
      p ← eget ep;
      match p with [] => mret tt | _ => if more : bool then entity_loop fuel' else mret tt end
  end.

(** ** Replacing *)

(** How often [while (1) { pv = strstr(p, name); ... p = pv + 1; }] finds it. *)
Fixpoint occurrences (name p : cstr) : Z :=
  (if starts name p then 1 else 0) + match p with [] => 0 | _ :: p' => occurrences name p' end.

(** The first entity of the list that is referred to here. *)
Definition refers (p : cstr) (l : list (cstr * cstr)) : option (cstr * cstr) := find (fun x => starts x.1 p) l.

(** [*pv++ = ...] into a block with room for [room] bytes. *)
Definition put_text (room : Z) (out v : cstr) : res cstr := _ ← check (slen out + slen v <=? room) OutOfBounds; Ok (out ++ v).

(** [do { ... *pv++ = *p++; } while ( *p)]: behind a reference at the end of the text, the
    final 0 is copied and the byte behind it is read. *)
Fixpoint replace_loop (fuel : nat) (room : Z) (l : list (cstr * cstr)) (p out : cstr) : res cstr :=
  match fuel with
  | O => Crash NoFuel
  | S fuel' =>
      '(p, out) ← (if deref p =c "&" then
                     match refers p l with
                     | Some (name, value) => out ← put_text room out value; Ok (drop (length name) p, out)
                     | None => Ok (p, out)
                     end
                   else Ok (p, out));
      match p with
      | [] => Crash OutOfBounds
      | c :: p' =>
          out ← put_text room out [c];
          match p' with [] => _ ← put_text room out [NUL]; Ok out | _ => replace_loop fuel' room l p' out end
      end
  end.

(** The second half: the length of the output is counted, and the text is
    written. *)
Definition replace_entities (buffer : cstr) (l : list (cstr * cstr)) : res cstr :=
  let length0 := foldl (fun n x => n + occurrences x.1 buffer * (slen x.2 - slen x.1)) (slen buffer) l in
  replace_loop (length buffer) (usable (length0 + 1)) l buffer [].

(** ** The function *)

(** Status 0 and the new text, or status 1 and what is reported: the line and the text of
    [error], or nothing. *)
Inductive entity_result := EntityOk (buf : cstr) | EntityBad (report : option (Z * option cstr)).

(** The file that an entity names, and the text of it: all but the last byte, up
    to the first 0. *)
Definition entity_path (directory reference : cstr) : res cstr :=
  match reference with
  | c :: _ => if c =c DIR_SEPARATOR then strcpy_into FILENAME_MAX reference else strcpy_into FILENAME_MAX (directory ++ DIR_SEPARATOR :: reference)
  | [] => strcpy_into FILENAME_MAX (directory ++ DIR_SEPARATOR :: reference)
  end.

Definition file_text (l : list ascii) : res cstr := match l with [] => Crash OutOfBounds | _ => Ok (cstr_of (removelast l ++ [NUL])) end.

(** Reading the external entities; [self] is the function for the texts in them.  A file of length 0 is not
    closed. *)
Fixpoint read_external (self : cstr -> cstr -> F -> res (entity_result * F)) (directory file_name : cstr) (error_size : option Z) (l : list entity) (f : F)
    : res ((list entity + option (Z * option cstr)) * F) :=
  match l with
  | [] => Ok (inl [], f)
  | x :: l' =>
      '(y, f) ← (if e_type x =? EXTERNAL_ENTITY then
                   path ← entity_path directory (e_reference x);
                   let '(fh, f) := file_open path f in
                   if fh =? -1 then
                     e ← read_error (Some file_name) (e_line x) error_size (e_reference x ++ str " is missing");
                     Ok (inr (Some (e_line x, e)), f)
                   else
                     let len := file_length fh f in
                     if (len =? 0)%nat then Ok (inl (set_e_value [] x), f)
                     else
                       let '(bytes, f) := file_read fh len f in
                       v ← (match bytes with None => Crash OutOfBounds | Some l => file_text l end);
                       let f := file_close fh f in
                       '(r, f) ← self v path f;
                       match r with
                       | EntityOk v => Ok (inl (set_e_value v x), f)
                       | EntityBad report => Ok (inr report, f)
                       end
                 else Ok (inl x, f));
      match y with
      | inr report => Ok (inr report, f)
      | inl x =>
          '(r, f) ← read_external self directory file_name error_size l' f;
          match r with inr report => Ok (inr report, f) | inl l' => Ok (inl (x :: l'), f) end
      end
  end.

(** The text of an entity, which is not null by now. *)
Definition entity_pair (x : entity) : res (cstr * cstr) := match e_value x with Some v => Ok (e_name x, v) | None => Crash NullDeref end.
Fixpoint entity_pairs (l : list entity) : res (list (cstr * cstr)) :=
  match l with [] => Ok [] | x :: l' => p ← entity_pair x; r ← entity_pairs l'; Ok (p :: r) end.

(** [fuel] is the depth of files in files. *)
Fixpoint mxml_parse_entity (fuel : nat) (buf file_name : cstr) (error_size : option Z) (f : F) : res (entity_result * F) :=
  match fuel with
  | O => Crash NoFuel
  | S fuel' =>
      match buf with
      | [] => Ok (EntityOk [], f)
      | _ =>
          directory ← strcpy_into FILENAME_MAX file_name;
          let directory := default [] (mxml_dirname (Some directory)) in
          match strstr buf (str "!DOCTYPE") with
          | None => Ok (EntityOk buf, f)
          | Some (_, p) =>
              match strstr p (str "[") with
              | None => Ok (EntityBad None, f)
              | Some (_, pv) =>
                  o ← entity_loop (S (length pv)) (Est (drop 1 pv) 1 []);
                  match o with
                  | EError line msg => e ← read_error (Some file_name) line error_size msg; Ok (EntityBad (Some (line, e)), f)
                  | EGo _ s =>
                      '(r, f) ← read_external (fun v path f => mxml_parse_entity fuel' v path error_size f) directory file_name error_size (ents s) f;
                      match r with
                      | inr report => Ok (EntityBad report, f)
                      | inl l => l ← entity_pairs l; out ← replace_entities buf l; Ok (EntityOk out, f)
                      end
                  end
              end
          end
      end
  end.

(** ** Files *)

(** The tree, or [NULL]; [*error_line] is set when there is a line, and [error] is
    what it says, if the caller gave one. *)
Inductive parsed_file := FileParsed (t : node) | FileNotParsed (error_line : option Z) (error : option cstr).

Definition mxml_parse_file (fuel : nat) (file_name : cstr) (error_size : option Z) (f : F) : res (parsed_file * F) :=
  let '(fh, f) := file_open file_name f in
  if fh =? -1 then
    let line := str "Unable to open file " ++ quoted file_name ++ str ": " in
    _ ← check (slen line <? 1000) OutOfBounds;
    match error_size with
    | None => Crash NullDeref
    | Some size => Ok (FileNotParsed None (Some (strlcpy_val size (strlcat_val 1000 line (file_error f)))), f)
    end
  else
    let '(bytes, f) := file_read fh (file_length fh f) f in
    match bytes with
    | None => Crash OutOfBounds
    | Some l =>
        let f := file_close fh f in
        '(r, f) ← mxml_parse_entity fuel (cstr_of (l ++ [NUL])) file_name error_size f;
        match r with
        | EntityBad None => Ok (FileNotParsed None (const [] <$> error_size), f)
        | EntityBad (Some (line, e)) => Ok (FileNotParsed (Some line) e, f)
        | EntityOk buf =>
            t ← mxml_parse_buffer buf error_size;
            Ok (match t with Parsed t => FileParsed t | NotParsed line e => FileNotParsed (Some line) e end, f)
        end
    end.
End entity.
