(* ===== verification/MxmlInclude.v ===== *)
(** * Entities and files: what reading a file means

    A tree that is written to a file and read back; a document whose entities are
    in other files.  The end of the file has what becomes of other documents. *)

From S2P Require Import Prelude CStr Utils MxmlCodec MxmlWriter MxmlTree MxmlParse MxmlSafe MxmlFind MxmlEntity.

(** A block has at least the room that was asked for. *)
Class XmlFilesLaws (F : Type) `{XmlFiles F} := { usable_enough n : n <= usable n }.

Section files.
Context {F : Type} `{HF : XmlFiles F} {HL : XmlFilesLaws F}.
Implicit Types f : F.

(** The file of this name has these bytes; the state behind its reading. *)
Definition whole_file (name : cstr) (bytes : list ascii) f f' : Prop := exists fh f1 f2,
  file_open name f = (fh, f1) /\ fh <> -1 /\ file_length fh f1 = length bytes /\ file_read fh (length bytes) f1 = (Some bytes, f2) /\ f' = file_close fh f2.

(** ** Texts without a document type *)

Lemma parse_entity_plain fuel buf name error_size f : strstr buf (str "!DOCTYPE") = None -> slen name < FILENAME_MAX ->
  mxml_parse_entity (S fuel) buf name error_size f = Ok (EntityOk buf, f).
Proof.
  intros Hd Hn. cbn [mxml_parse_entity]. destruct buf as [|c buf]; [done|]. unfold strcpy_into. rewrite check_true by bsolve. rewrite !res_bind_Ok. by rewrite Hd.
Qed.

Lemma parse_file_plain fuel name text error_size f f' : whole_file name text f f' -> NUL ∉ text -> strstr text (str "!DOCTYPE") = None -> slen name < FILENAME_MAX ->
  mxml_parse_file (S fuel) name error_size f =
    (t ← mxml_parse_buffer text error_size; Ok (match t with Parsed t => FileParsed t | NotParsed line e => FileNotParsed (Some line) e end, f')).
Proof.
  intros (fh & f1 & f2 & Eo & Hfh & El & Er & ->) Hnul Hd Hn. unfold mxml_parse_file. rewrite Eo, (proj2 (Z.eqb_neq _ _) Hfh), El, Er.
  rewrite (cstr_of_app text []) by done. by rewrite (parse_entity_plain fuel text name error_size _ Hd Hn).
Qed.

(** C21: A tree that is written to a file and read from it is the same tree, as far as
    [mxml_written_parses] says: the file has the text of the tree, and does not have a document type (in a
    value, where it is not escaped). *)
Theorem mxml_file_roundtrip os_write g fd now tree fuel name error_size f f' :
  (forall h t l, os_write h t l = slen l) -> static_ok g -> fd <> -1 -> Forall (fun c => c <> "-"%char) now ->
  let elements := List.filter (fun c => ntype c =? ELEMENT_NODE) (child tree) in
  let out := header_text g now ++ flat_map (render true 0 true) elements in
  Forall (writable true 0) elements -> Forall parseable elements -> in_memory out ->
  whole_file name out f f' -> NUL ∉ out -> strstr out (str "!DOCTYPE") = None -> slen name < FILENAME_MAX ->
  exists root, mxml_write_tree os_write g fd now tree = Ok (1, out) /\ mxml_parse_file (S fuel) name error_size f = Ok (FileParsed root, f') /\
    map strip (child root) = header_nodes g now ++ map strip elements.
Proof.
  intros Hos Hg Hfd Hnow elements out Hw Hp Hm Hfile Hnul Hd Hn.
  destruct (mxml_written_parses os_write g fd now tree error_size Hos Hg Hfd Hnow Hw Hp Hm) as (root & E1 & E2 & E3).
  exists root. split; [exact E1|]. split; [|exact E3]. rewrite (parse_file_plain fuel name out error_size f f' Hfile Hnul Hd Hn).
  unfold out, elements. by rewrite E2.
Qed.

(** ** Replacing references *)

(** A text and references, each with the text behind it. *)
Definition ref_name (n : cstr) : cstr := "&"%char :: n ++ str ";".
Definition with_refs (t0 : cstr) (rs : list (cstr * cstr)) : cstr := t0 ++ concat (map (fun r => ref_name r.1 ++ r.2) rs).
Definition value_of (vs : list (cstr * cstr)) (n : cstr) : cstr := default [] (snd <$> find (fun x => streq x.1 n) vs).
Definition with_values (vs : list (cstr * cstr)) (t0 : cstr) (rs : list (cstr * cstr)) : cstr := t0 ++ concat (map (fun r => value_of vs r.1 ++ r.2) rs).

(** Every reference is to a declared name, and there is something behind it. *)
Definition refs_ok (vs : list (cstr * cstr)) (rs : list (cstr * cstr)) : Prop :=
  Forall (fun r => In r.1 (map fst vs) /\ r.2 <> [] /\ "&"%char ∉ r.2) rs.

Definition named (vs : list (cstr * cstr)) : list (cstr * cstr) := map (fun x => (ref_name x.1, x.2)) vs.
Definition plain_name (n : cstr) : Prop := n <> [] /\ "&"%char ∉ n /\ ";"%char ∉ n.

Lemma ref_starts n m rest : ";"%char ∉ n -> ";"%char ∉ m -> starts (ref_name n) (ref_name m ++ rest) = streq n m.
Proof.
  intros Hn Hm. apply eq_bool_prop_intro. rewrite !Is_true_true, starts_spec, streq_true. unfold ref_name. split.
  - intros [v E]. cbn [app] in E. injection E as E. rewrite <- !app_assoc in E. cbn [app] in E.
    clear -Hn Hm E. revert m Hm E. induction n as [|c n IH]; intros [|d m] Hm E; cbn [app] in E; [done | exfalso; injection E as -> _; set_solver | exfalso; injection E as <- _; set_solver |].
    injection E as <- E. f_equal. apply IH; (done || set_solver).
  - intros ->. by exists rest.
Qed.

Lemma refers_named vs n rest : Forall plain_name (map fst vs) -> ";"%char ∉ n -> In n (map fst vs) ->
  refers (ref_name n ++ rest) (named vs) = Some (ref_name n, value_of vs n).
Proof.
  intros Hp Hn Hin. unfold refers, value_of. induction vs as [|[m v] vs IH]; [done|]. cbn [named map find fst snd]. destruct (Forall_inv Hp) as (_ & _ & Hm). cbn [fst] in Hm.
  rewrite ref_starts by done. destruct (streq m n) eqn:E; [apply streq_true in E; by subst|]. apply IH; [exact (Forall_inv_tail Hp)|].
  destruct Hin as [Hx|Hin]; [|exact Hin]. cbn in Hx. subst. by rewrite (proj2 (streq_true n n)) in E.
Qed.

Lemma replace_ok vs room : Forall plain_name (map fst vs) -> forall rs t0 out fuel, refs_ok vs rs -> "&"%char ∉ t0 -> with_refs t0 rs <> [] ->
  slen out + slen (with_values vs t0 rs) + 1 <= room -> (length (with_refs t0 rs) <= fuel)%nat ->
  replace_loop fuel room (named vs) (with_refs t0 rs) out = Ok (out ++ with_values vs t0 rs).
Proof.
  intros Hp. assert (Put : forall out v, slen out + slen v <= room -> put_text room out v = Ok (out ++ v)) by (intros out v Hv; unfold put_text; by rewrite check_true by bsolve).
  assert (N : forall v, 0 <= slen v) by (intros v; unfold slen; lia).
  induction rs as [|[n t] rs IH]; intros t0 out fuel Hr; revert out fuel.
  - induction t0 as [|c t0 IH0]; intros out fuel Ht Hne Hroom Hfuel; [done|]. unfold with_refs, with_values in *. cbn [map concat] in *. rewrite app_nil_r in *.
    destruct fuel as [|fuel]; [cbn in Hfuel; lia|]. cbn [replace_loop deref]. rewrite (ceqb_ne c "&") by set_solver. rewrite res_bind_Ok.
    change (c :: t0) with ([c] ++ t0) in Hroom. rewrite slen_app in Hroom. pose proof (N t0). rewrite Put by lia. rewrite res_bind_Ok.
    destruct t0 as [|d t0]; [rewrite Put by (rewrite slen_app; unfold slen in *; cbn in *; lia); done|].
    rewrite (IH0 (out ++ [c]) fuel); [by rewrite <- app_assoc | set_solver | done | rewrite slen_app; lia | cbn [length] in *; lia].
  - destruct (Forall_inv Hr) as (Hin & Hne' & Ht'). cbn [fst snd] in *. assert (Hn : ";"%char ∉ n) by (rewrite List.Forall_forall in Hp; apply (Hp n Hin)).
    induction t0 as [|c t0 IH0]; intros out fuel Ht Hne Hroom Hfuel; (destruct fuel as [|fuel]; [destruct Hne; apply length_zero_iff_nil; lia|]).
    + unfold with_refs, with_values in *. cbn [map concat app fst snd] in *. rewrite <- app_assoc in *. cbn [replace_loop].
      assert (Ed : deref (ref_name n ++ t ++ concat (map (fun r => ref_name r.1 ++ r.2) rs)) = "&"%char) by done. rewrite Ed. change ("&"%char =c "&") with true. cbv iota.
      rewrite refers_named by done. rewrite !slen_app in Hroom. pose proof (N t). pose proof (N (concat (map (fun r => value_of vs r.1 ++ r.2) rs))).
      rewrite Put by lia. rewrite !res_bind_Ok. rewrite drop_app_length. destruct t as [|c t]; [done|]. cbn [app].
      change (c :: t) with ([c] ++ t) in Hroom. rewrite slen_app in Hroom. pose proof (N t). rewrite Put by (rewrite slen_app; lia). rewrite res_bind_Ok.
      pose proof (IH t ((out ++ value_of vs n) ++ [c]) fuel (Forall_inv_tail Hr) ltac:(set_solver)) as IHt. unfold with_refs, with_values in IHt.
      destruct (t ++ concat (map (fun r => ref_name r.1 ++ r.2) rs)) as [|d p] eqn:Ep.
      * apply app_eq_nil in Ep as [-> Ep]. assert (rs = []) as -> by (by destruct rs). cbn [map concat]. rewrite Put by (rewrite !slen_app in *; cbn in *; unfold slen in *; cbn in *; lia).
        rewrite res_bind_Ok, app_nil_r, <- app_assoc. done.
      * rewrite IHt; [by rewrite <- !app_assoc | done | rewrite !slen_app; lia | ]. rewrite <- Ep. cbn [length] in Hfuel. rewrite !length_app in *. cbn [length] in Hfuel. lia.
    + unfold with_refs, with_values in *. cbn [app replace_loop deref]. rewrite (ceqb_ne c "&") by set_solver. rewrite res_bind_Ok.
      cbn [app] in Hroom, Hfuel. change (c :: ?x) with ([c] ++ x) in Hroom. rewrite slen_app in Hroom. pose proof (N (t0 ++ concat (map (fun r => value_of vs r.1 ++ r.2) ((n, t) :: rs)))).
      rewrite Put by lia. rewrite res_bind_Ok. destruct (t0 ++ concat (map (fun r => ref_name r.1 ++ r.2) ((n, t) :: rs))) as [|d p] eqn:Ep; [by apply app_eq_nil in Ep as [_ Ep]|].
      rewrite IH0; [by rewrite <- app_assoc | set_solver | done | rewrite slen_app; lia | cbn [length] in *; lia].
Qed.

(** ** The length that is counted *)

Lemma occurrences_plain n t rest : "&"%char ∉ t -> occurrences (ref_name n) (t ++ rest) = occurrences (ref_name n) rest.
Proof.
  induction t as [|c t IH]; intros Ht; [done|]. cbn [app occurrences]. unfold ref_name at 1. rewrite starts_head by set_solver. rewrite IH by set_solver. lia.
Qed.

Lemma occurrences_ref n m rest : ";"%char ∉ n -> plain_name m ->
  occurrences (ref_name n) (ref_name m ++ rest) = (if streq n m then 1 else 0) + occurrences (ref_name n) rest.
Proof.
  intros Hn (_ & Hm & Hm'). pose proof (ref_starts n m rest Hn Hm') as Es. unfold ref_name at 2 in Es. unfold ref_name at 2. cbn [app occurrences] in *. rewrite Es. f_equal.
  apply occurrences_plain. set_solver.
Qed.

Definition total {A} (g : A -> Z) (l : list A) : Z := foldr (fun x a => g x + a) 0 l.

Lemma foldl_total {A} (g : A -> Z) l : forall n, foldl (fun n x => n + g x) n l = n + total g l.
Proof. induction l as [|x l IH]; intros n; cbn [foldl total foldr]; [lia|]. rewrite IH. unfold total. lia. Qed.

Lemma total_add {A} (g h : A -> Z) l : total (fun x => g x + h x) l = total g l + total h l.
Proof. unfold total. induction l as [|x l IH]; cbn [foldr]; [done|]. rewrite IH. lia. Qed.

Lemma total_ext {A} (g h : A -> Z) l : Forall (fun x => g x = h x) l -> total g l = total h l.
Proof. unfold total. induction 1 as [|x l Hx _ IH]; cbn [foldr]; [done|]. by rewrite Hx, IH. Qed.

Lemma total_named (g : cstr * cstr -> Z) vs : total g (named vs) = total (fun x => g (ref_name x.1, x.2)) vs.
Proof. unfold total, named. induction vs as [|x vs IH]; [done|]. cbn [map foldr]. by rewrite IH. Qed.

(** The entity of a name adds its share, and the others nothing. *)
Lemma total_value (h : cstr -> Z) vs m : NoDup (map fst vs) -> In m (map fst vs) ->
  total (fun x => if streq x.1 m then h x.2 else 0) vs = h (value_of vs m).
Proof.
  unfold value_of. induction vs as [|[n v] vs IH]; intros Hnd Hin; [done|]. cbn [map fst] in Hnd. apply NoDup_cons in Hnd as [Hn Hnd]. unfold total. cbn [foldr fst snd find].
  destruct (streq n m) eqn:E.
  - apply streq_true in E as <-. cbn [fmap option_fmap option_map default from_option snd id].
    assert (Z0 : foldr (fun x a => (if streq x.1 n then h x.2 else 0) + a) 0 vs = 0); [|lia].
    clear -Hn. induction vs as [|[k v] vs IH]; [done|]. cbn [foldr fst snd]. cbn [map fst] in Hn. assert (Ek : streq k n = false) by (apply not_true_iff_false; intros ->%streq_true; set_solver).
    rewrite Ek, IH by set_solver. done.
  - destruct Hin as [Hx|Hin]; [cbn in Hx; subst; by rewrite (proj2 (streq_true m m)) in E|]. specialize (IH Hnd Hin). unfold total in IH. lia.
Qed.

Lemma counted_length vs t0 rs : NoDup (map fst vs) -> Forall plain_name (map fst vs) -> refs_ok vs rs -> "&"%char ∉ t0 ->
  foldl (fun n x => n + occurrences x.1 (with_refs t0 rs) * (slen x.2 - slen x.1)) (slen (with_refs t0 rs)) (named vs) = slen (with_values vs t0 rs).
Proof.
  intros Hnd Hp Hr Ht. rewrite foldl_total. assert (Ht0 : forall rs' t, "&"%char ∉ t -> total (fun x => occurrences x.1 (t ++ rs') * (slen x.2 - slen x.1)) (named vs) = total (fun x => occurrences x.1 rs' * (slen x.2 - slen x.1)) (named vs)).
  { intros rs' t Hx. rewrite !total_named. apply total_ext, List.Forall_forall. intros [n v] _. cbn [fst snd]. by rewrite occurrences_plain. }
  unfold with_refs, with_values. rewrite Ht0 by done. rewrite !slen_app.
  enough (slen (concat (map (fun r => ref_name r.1 ++ r.2) rs)) + total (fun x => occurrences x.1 (concat (map (fun r => ref_name r.1 ++ r.2) rs)) * (slen x.2 - slen x.1)) (named vs)
    = slen (concat (map (fun r => value_of vs r.1 ++ r.2) rs))) by lia.
  clear t0 Ht. induction rs as [|[m t] rs IH].
  - cbn [map concat]. rewrite total_named. clear. unfold total. induction vs as [|x vs IH]; [done|]. exact IH.
  - destruct (Forall_inv Hr) as (Hin & _ & Htt). cbn [fst snd] in Hin, Htt. specialize (IH (Forall_inv_tail Hr)). cbn [map concat fst snd]. set (rest := concat (map (fun r => ref_name r.1 ++ r.2) rs)) in *.
    rewrite <- !app_assoc, !slen_app. pose proof (total_value (fun v => slen v - slen (ref_name m)) vs m Hnd Hin) as V. cbn beta in V.
    assert (Em : plain_name m) by (rewrite List.Forall_forall in Hp; by apply Hp).
    assert (ET : total (fun x => occurrences x.1 (ref_name m ++ t ++ rest) * (slen x.2 - slen x.1)) (named vs) =
      total (fun x => (if streq x.1 m then slen x.2 - slen (ref_name m) else 0) + occurrences (ref_name x.1) rest * (slen x.2 - slen (ref_name x.1))) vs).
    { rewrite total_named. apply total_ext, List.Forall_forall. intros [n v] Hx. cbn [fst snd].
      assert (Hn : plain_name n) by (rewrite List.Forall_forall in Hp; apply Hp, in_map_iff; by exists (n, v)). destruct Hn as (_ & _ & Hn).
      rewrite occurrences_ref, occurrences_plain by done. destruct (streq n m) eqn:E; [apply streq_true in E as <-|]; lia. }
    rewrite ET, total_add, V. rewrite total_named in IH. cbn [fst snd] in IH. lia.
Qed.

(** ** Stepping through the declarations *)

Lemma E_bind_Go {A B} (m : E A) (k : A -> E B) s a s' : m s = Ok (EGo a s') -> (m ≫= k) s = k a s'.
Proof. intros Em. unfold mbind, E_bind. by rewrite Em. Qed.

Lemma E_bind_assoc {A B C} (m : E A) (k : A -> E B) (h : B -> E C) s : ((m ≫= k) ≫= h) s = (m ≫= (fun a => k a ≫= h)) s.
Proof. unfold mbind, E_bind. by destruct (m s) as [[a s'|l e]|c]. Qed.

Lemma E_bind_get {A B} (g : est -> A) (k : A -> E B) s : (eget g ≫= k) s = k (g s) s.
Proof. done. Qed.
Lemma E_bind_mod {B} (g : est -> est) (k : unit -> E B) s : (emod g ≫= k) s = k tt (g s).
Proof. done. Qed.
Lemma E_bind_ret {A B} (a : A) (k : A -> E B) s : (mret a ≫= k) s = k a s.
Proof. done. Qed.
Lemma E_bind_lift {A B} (a : A) (k : A -> E B) s : (elift (Ok a) ≫= k) s = k a s.
Proof. done. Qed.
Lemma E_bind_advance {B} n (k : unit -> E B) p line l : (eadvance n ≫= k) (Est p line l) = k tt (Est (drop n p) line l).
Proof. done. Qed.
Lemma E_bind_eof {B} (k : unit -> E B) c p line l : (echeck_eof ≫= k) (Est (c :: p) line l) = k tt (Est (c :: p) line l).
Proof. done. Qed.

Lemma eskip_app g u v line l : Forall (fun c => g c = true) u -> stops g v -> exists line', eskip g (Est (u ++ v) line l) = Ok (EGo tt (Est v line' l)).
Proof. intros Hu Hv. destruct (skip_lines_app g u v line Hu Hv) as [line' Es]. exists line'. unfold eskip. cbn [ep eline ents]. by rewrite Es. Qed.

Lemma eskip_stop g v line l : stops g v -> eskip g (Est v line l) = Ok (EGo tt (Est v line l)).
Proof. intros Hv. unfold eskip. cbn [ep eline ents]. by rewrite skip_lines_stop. Qed.

Ltac e_run :=
  repeat (first
    [ rewrite E_bind_assoc | rewrite E_bind_get | rewrite E_bind_mod | rewrite E_bind_ret | rewrite E_bind_eof
    | rewrite E_bind_advance | rewrite E_bind_lift | rewrite drop_0 ];
    unfold set_ep; cbn [ep eline ents]).
Ltac e_step Eq := rewrite (E_bind_Go _ _ _ _ _ Eq); e_run.

(** ** Declarations of external entities *)

Definition decl_text (d : cstr * cstr) : cstr := str "<!ENTITY " ++ d.1 ++ str " SYSTEM " ++ quoted d.2 ++ str ">" ++ [NL].
Definition decl_ok (d : cstr * cstr) : Prop :=
  plain_name d.1 /\ Forall (fun c => entity_char c = true) d.1 /\ (length d.1 <= 252)%nat /\ DQUOTE ∉ d.2 /\ "&"%char ∉ d.2 /\ slen d.2 < 256.

Lemma entity_char_not c : entity_char c = true -> isspace c = false /\ one_of BRACKETS c = false.
Proof.
  unfold entity_char, one_of, BRACKETS. cbn [existsb]. intros [H1 H2]%andb_true_iff. apply negb_true_iff in H1, H2. apply orb_false_iff in H2 as [_ H2]. rewrite !orb_false_r in *.
  apply orb_false_iff in H2 as [-> ->]. done.
Qed.

Lemma entity_name_ok n rest line l : n <> [] -> Forall (fun c => entity_char c = true) n -> (length n <= 252)%nat ->
  parse_entity_name (Est (str "!ENTITY " ++ n ++ " "%char :: rest) line l) = Ok (EGo (ref_name n) (Est (" "%char :: rest) line l)).
Proof.
  intros Hne Hn Hlen. destruct n as [|c n]; [done|]. pose proof (Forall_inv Hn) as Hc. destruct (entity_char_not c Hc) as [Hs Hb].
  unfold parse_entity_name. e_run. change (drop 7 (str "!ENTITY " ++ (c :: n) ++ " "%char :: rest)) with ([" "%char] ++ (c :: n) ++ " "%char :: rest).
  rewrite skip_while_app_stop; [| by repeat constructor | cbn; destruct (Ascii.eqb_spec c " "); [by subst | done]]. e_run.
  pose proof (eskip_stop (fun c => isspace c && negb (one_of BRACKETS c)) ((c :: n) ++ " "%char :: rest) line l ltac:(cbn [stops app]; by rewrite Hs)) as Es.
  e_step Es. cbn [app]. e_run. cbn [deref]. rewrite Hb.
  change (c :: n ++ " "%char :: rest) with ((c :: n) ++ " "%char :: rest).
  rewrite skip_while_app_stop; [| eapply List.Forall_impl; [|exact Hn]; intros d Hd; by destruct (entity_char_not d Hd) as [-> ->] | done]. e_run. cbn [deref].
  change (one_of BRACKETS " ") with false. cbv iota. rewrite skip_while_app_stop by done. cbn [fst]. rewrite take_ge by lia. e_run. rewrite drop_app_length. e_run. done.
Qed.

Lemma blanks_ok name c rest line l : isspace c = false -> (c =c ">") = false ->
  exists line', entity_blanks name (Est (" "%char :: c :: rest) line l) = Ok (EGo tt (Est (c :: rest) line' l)).
Proof.
  intros Hs Hc. unfold entity_blanks. destruct (eskip_app isspace [" "%char] (c :: rest) line l) as [line' Es]; [by repeat constructor | done |]. exists line'. cbn [app] in Es.
  e_step Es. cbn [deref]. by rewrite Hc.
Qed.

Lemma replacement_ok name file rest line l : DQUOTE ∉ file -> "&"%char ∉ file ->
  parse_replacement name (Est (quoted file ++ rest) line l) = Ok (EGo file (Est (DQUOTE :: rest) line l)).
Proof.
  intros Hq Ha. unfold parse_replacement, quoted. e_run. cbn [app deref]. change (is_quote DQUOTE) with true. cbn [negb]. e_run. cbn [drop].
  assert (Eb : forall B (k : unit -> E B), (echeck_eof ≫= k) (Est ((file ++ [DQUOTE]) ++ rest) line l) = k tt (Est ((file ++ [DQUOTE]) ++ rest) line l)) by (intros B k; by destruct file).
  rewrite Eb. e_run. rewrite <- app_assoc. cbn [app]. rewrite skip_while_app_stop; [| | by cbn]; [|apply List.Forall_forall; intros c Hc; apply negb_true_iff, ceqb_ne; intros ->; by apply Hq, list_elem_of_In].
  e_run. cbn [deref]. change (DQUOTE =c "<") with false. cbv iota. e_run. pose proof (mxml_decode_plain file [] Ha) as D. change (mxml_decode []) with (@nil ascii) in D. rewrite !app_nil_r in D. by rewrite D.
Qed.

Lemma decl_ok_parses d rest line l : decl_ok d -> (length l < MXML_MAX_ENTITY)%nat -> exists line',
  parse_entity_decl (Est (drop 1 (decl_text d) ++ rest) line l) =
    Ok (EGo tt (Est (DQUOTE :: str ">" ++ NL :: rest) line' (l ++ [Entity (ref_name d.1) EXTERNAL_ENTITY d.2 None line]))).
Proof.
  destruct d as [n file]. intros ((Hne & _) & Hn & Hlen & Hq & Ha & Hf) Hl. cbn [fst snd] in *. unfold parse_entity_decl. e_run. rewrite (proj2 (Nat.leb_gt _ _) Hl).
  assert (Et : drop 1 (decl_text (n, file)) ++ rest = str "!ENTITY " ++ n ++ " "%char :: str "SYSTEM" ++ " "%char :: quoted file ++ str ">" ++ NL :: rest).
  { unfold decl_text. cbn [fst snd]. change (drop 1 (str "<!ENTITY " ++ ?x)) with (str "!ENTITY " ++ x). rewrite <- !app_assoc. done. }
  rewrite Et. e_run. e_step (entity_name_ok n (str "SYSTEM" ++ " "%char :: quoted file ++ str ">" ++ NL :: rest) line l Hne Hn Hlen).
  destruct (blanks_ok (ref_name n) "S" (drop 1 (str "SYSTEM") ++ " "%char :: quoted file ++ str ">" ++ NL :: rest) line l eq_refl eq_refl) as [l1 E1]. e_step E1.
  change (starts (str "SYSTEM") ?x) with true. cbv iota. e_run. change (drop 6 ?x) with (" "%char :: DQUOTE :: (file ++ [DQUOTE]) ++ str ">" ++ NL :: rest).
  destruct (blanks_ok (ref_name n) DQUOTE ((file ++ [DQUOTE]) ++ str ">" ++ NL :: rest) l1 l eq_refl eq_refl) as [l2 E2]. e_step E2.
  change (DQUOTE :: (file ++ [DQUOTE]) ++ str ">" ++ NL :: rest) with (quoted file ++ str ">" ++ NL :: rest). e_step (replacement_ok (ref_name n) file (str ">" ++ NL :: rest) l2 l Hq Ha).
  unfold strcpy_into. rewrite check_true by bsolve. rewrite !res_bind_Ok. e_run. rewrite (E_bind_Go _ _ _ _ _ (eskip_stop isspace (DQUOTE :: str ">" ++ NL :: rest) _ _ eq_refl)).
  by exists l2.
Qed.

(** ** The search *)

(** Every tag has a name right behind its [<], and is no declaration or comment. *)
Fixpoint tags_ok (p : cstr) : bool :=
  match p with
  | [] => true
  | c :: p' => (if c =c "<" then match p' with d :: _ => negb (isspace d) && negb (d =c "!") | [] => false end else true) && tags_ok p'
  end.

Lemma tags_ok_suffix p q : p `suffix_of` q -> tags_ok q = true -> tags_ok p = true.
Proof. intros [u ->]. induction u as [|c u IH]; [done|]. cbn [app tags_ok]. intros [_ Hq]%andb_true_iff. by apply IH. Qed.

Lemma next_tag_suffix p : next_tag p `suffix_of` p.
Proof. apply skip_lines_suffix. Qed.

Lemma next_tag_head p : next_tag p = [] \/ exists q, next_tag p = "<"%char :: q.
Proof.
  unfold next_tag. generalize 0. induction p as [|c p IH]; intros l; cbn [skip_lines]; [by left|]. destruct (not_tag c) eqn:En; [apply IH|]. right. exists p.
  unfold not_tag in En. apply negb_false_iff in En. destruct (Ascii.eqb_spec c "<"); [by subst | done].
Qed.

Lemma round_skips p line l : deref p =c "]" = false -> deref p =c "<" = false -> exists line', entity_round (Est p line l) = Ok (EGo true (Est (next_tag p) line' l)).
Proof.
  intros H1 H2. destruct (skip_to_tag p line) as [line' Es]. exists line'. unfold entity_round. e_run. rewrite H1, H2. e_run.
  assert (E1 : eskip (fun c => negb (c =c "<")) (Est p line l) = Ok (EGo tt (Est (next_tag p) line' l))) by (unfold eskip; cbn [ep eline ents]; change (fun c : ascii => negb (c =c "<")) with not_tag; by rewrite Es).
  by e_step E1.
Qed.

Lemma round_tag c p line l : isspace c = false -> c <> "!"%char -> exists line', entity_round (Est ("<"%char :: c :: p) line l) = Ok (EGo true (Est (next_tag (c :: p)) line' l)).
Proof.
  intros Hs Hc. destruct (skip_to_tag (c :: p) line) as [line' Es]. exists line'. unfold entity_round. e_run. cbn [deref]. change ("<"%char =c "]") with false. change ("<"%char =c "<") with true. cbv iota.
  e_run. cbn [drop]. e_step (eskip_stop isspace (c :: p) line l Hs). 
  rewrite (starts_head "!"%char (str "--") c p Hc : starts (str "!--") (c :: p) = false), (starts_head "!"%char (str "ENTITY") c p Hc : starts (str "!ENTITY") (c :: p) = false). cbv iota. e_run.
  assert (E1 : eskip (fun c => negb (c =c "<")) (Est (c :: p) line l) = Ok (EGo tt (Est (next_tag (c :: p)) line' l))) by (unfold eskip; cbn [ep eline ents]; change (fun c : ascii => negb (c =c "<")) with not_tag; by rewrite Es).
  by e_step E1.
Qed.

(** What the arrays say of a declaration. *)
Definition declares (d : cstr * cstr) (x : entity) : Prop := exists line, x = Entity (ref_name d.1) EXTERNAL_ENTITY d.2 None line.

Lemma round_decl d rest line l : decl_ok d -> (length l < MXML_MAX_ENTITY)%nat -> exists line' x,
  entity_round (Est (decl_text d ++ rest) line l) = Ok (EGo true (Est (next_tag rest) line' (l ++ [x]))) /\ declares d x.
Proof.
  intros Hd Hl. destruct (decl_ok_parses d rest line l Hd Hl) as [l1 E1]. set (x := Entity (ref_name d.1) EXTERNAL_ENTITY d.2 None line) in *.
  destruct (skip_to_tag (DQUOTE :: str ">" ++ NL :: rest) l1) as [line' Es]. exists line', x. split; [|by exists line]. unfold entity_round. e_run.
  change (decl_text d ++ rest) with ("<"%char :: drop 1 (decl_text d) ++ rest). cbn [deref]. change ("<"%char =c "]") with false. change ("<"%char =c "<") with true. cbv iota. e_run. cbn [drop].
  change (drop 1 (decl_text d) ++ rest) with ("!"%char :: drop 2 (decl_text d) ++ rest) in *. e_step (eskip_stop isspace ("!"%char :: drop 2 (decl_text d) ++ rest) line l eq_refl).
  change (starts (str "!--") ("!"%char :: drop 2 (decl_text d) ++ rest)) with false. change (starts (str "!ENTITY") ("!"%char :: drop 2 (decl_text d) ++ rest)) with true. cbv iota. e_step E1.
  assert (En : next_tag (DQUOTE :: str ">" ++ NL :: rest) = next_tag rest) by (apply (next_tag_app (DQUOTE :: str ">" ++ [NL])); by repeat constructor).
  assert (E2 : eskip (fun c => negb (c =c "<")) (Est (DQUOTE :: str ">" ++ NL :: rest) l1 (l ++ [x])) = Ok (EGo tt (Est (next_tag rest) line' (l ++ [x]))))
    by (unfold eskip; cbn [ep eline ents]; change (fun c : ascii => negb (c =c "<")) with not_tag; by rewrite Es, En).
  by e_step E2.
Qed.

Lemma loop_step fuel p q line line' l l' : entity_round (Est p line l) = Ok (EGo true (Est q line' l')) ->
  entity_loop (S fuel) (Est p line l) = match q with [] => Ok (EGo tt (Est q line' l')) | _ => entity_loop fuel (Est q line' l') end.
Proof. intros E1. cbn [entity_loop]. rewrite (E_bind_Go _ _ _ _ _ E1), E_bind_get. by destruct q. Qed.

Lemma loop_tags n : forall p line l fuel, (length p <= n)%nat -> tags_ok p = true -> (length p < fuel)%nat ->
  exists line', entity_loop fuel (Est (next_tag p) line l) = Ok (EGo tt (Est [] line' l)).
Proof.
  induction n as [|n IH]; intros p line l fuel Hn Ht Hf; (destruct fuel as [|fuel]; [lia|]); pose proof (next_tag_le p) as Hle; destruct (next_tag_head p) as [Hp|[q Hp]]; rewrite Hp.
  1,3: destruct (round_skips [] line l eq_refl eq_refl) as [l1 E1]; exists l1; by rewrite (loop_step _ _ _ _ _ _ _ E1).
  - rewrite Hp in Hle. cbn in Hle. lia.
  - pose proof (tags_ok_suffix _ _ (next_tag_suffix p) Ht) as Hq. rewrite Hp in Hq, Hle. destruct q as [|c q]; [done|]. cbn [tags_ok] in Hq. change ("<"%char =c "<") with true in Hq. cbv iota in Hq.
    rewrite !andb_true_iff, !negb_true_iff in Hq. destruct Hq as ((Hs & Hc) & Hq). cbn [length] in Hle.
    destruct (round_tag c q line l Hs) as [l1 E1]; [by intros ->|]. rewrite (loop_step _ _ _ _ _ _ _ E1).
    destruct (IH (c :: q) l1 l fuel) as [l2 E2]; [cbn [length]; lia | cbn [tags_ok]; by rewrite !andb_true_iff | cbn [length]; lia |].
    exists (if next_tag (c :: q) then l1 else l2). by destruct (next_tag (c :: q)).
Qed.

Lemma loop_decls ds : forall l line fuel rest, Forall decl_ok ds -> (length l + length ds <= MXML_MAX_ENTITY)%nat -> tags_ok rest = true -> (length (concat (map decl_text ds) ++ rest) < fuel)%nat ->
  exists line' xs, entity_loop fuel (Est (next_tag (concat (map decl_text ds) ++ rest)) line l) = Ok (EGo tt (Est [] line' (l ++ xs))) /\ Forall2 declares ds xs.
Proof.
  induction ds as [|d ds IH]; intros l line fuel rest Hd Hl Ht Hf; cbn [map concat] in *.
  - destruct (loop_tags (length rest) rest line l fuel ltac:(done) Ht Hf) as [line' E1]. exists line', []. rewrite app_nil_r. by split.
  - rewrite <- app_assoc in *. destruct fuel as [|fuel]; [lia|].
    assert (En : forall q, next_tag (decl_text d ++ q) = decl_text d ++ q) by done. rewrite En.
    destruct (round_decl d (concat (map decl_text ds) ++ rest) line l (Forall_inv Hd)) as (l1 & x & E1 & Hx); [cbn [length] in Hl; lia|]. rewrite (loop_step _ _ _ _ _ _ _ E1).
    destruct (IH (l ++ [x]) l1 fuel rest (Forall_inv_tail Hd)) as (l2 & xs & E2 & Hxs); [rewrite length_app; cbn [length] in *; lia | done | assert (1 <= length (decl_text d))%nat by (cbn; lia); rewrite length_app in Hf; lia |].
    rewrite <- app_assoc in E2. cbn [app] in E2. exists (if next_tag (concat (map decl_text ds) ++ rest) then l1 else l2), (x :: xs). split; [|by constructor].
    destruct (next_tag (concat (map decl_text ds) ++ rest)) eqn:Eq; [|done].
    assert (ds = []) as ->.
    { destruct ds as [|d' ds]; [done|]. cbn [map concat] in Eq. rewrite <- app_assoc in Eq. discriminate Eq. }
    inversion Hxs. subst. done.
Qed.

(** ** Documents in several files *)

(** The file of a declaration, and what is put for the entity: the text of the file without its
    last byte, with the entities that it declares itself put into it. *)
Definition one_included (fuel : nat) (directory : cstr) (error_size : option Z) (d : cstr * cstr) (v : cstr) f f' : Prop := exists path bytes f1,
  entity_path directory d.2 = Ok path /\ whole_file path bytes f f1 /\ bytes <> [] /\
  mxml_parse_entity fuel (cstr_of (removelast bytes ++ [NUL])) path error_size f1 = Ok (EntityOk v, f').

Inductive included (fuel : nat) (directory : cstr) (error_size : option Z) : list (cstr * cstr) -> list cstr -> F -> F -> Prop :=
  | no_files f : included fuel directory error_size [] [] f f
  | file_included d ds v vs f f1 f2 : one_included fuel directory error_size d v f f1 -> included fuel directory error_size ds vs f1 f2 ->
      included fuel directory error_size (d :: ds) (v :: vs) f f2.

Lemma read_external_ok fuel directory file_name error_size ds vs f f' : included fuel directory error_size ds vs f f' -> forall xs, Forall2 declares ds xs ->
  length ds = length vs /\ exists ys, read_external (fun v path f => mxml_parse_entity fuel v path error_size f) directory file_name error_size xs f = Ok (inl ys, f') /\
    entity_pairs ys = Ok (named (zip (map fst ds) vs)).
Proof.
  induction 1 as [f|d ds v vs f f1 f2 (path & bytes & fa & Ep & (fh & fb & fc & Eo & Hfh & El & Er & ->) & Hne & Ee) _ IH]; intros xs Hxs.
  - apply Forall2_nil_inv_l in Hxs as ->. split; [done|]. by exists [].
  - apply Forall2_cons_inv_l in Hxs as (x & xs' & (line & ->) & Hxs & ->). destruct (IH xs' Hxs) as (Hlen & ys & E1 & E2). split; [by cbn; rewrite Hlen|].
    exists (set_e_value v (Entity (ref_name d.1) EXTERNAL_ENTITY d.2 None line) :: ys). split.
    + cbn [read_external e_type e_reference]. change (EXTERNAL_ENTITY =? EXTERNAL_ENTITY) with true. cbv iota. rewrite Ep, res_bind_Ok, Eo, (proj2 (Z.eqb_neq _ _) Hfh), El.
      destruct bytes as [|b bytes]; [done|]. change (length (b :: bytes) =? 0)%nat with false. cbv iota. rewrite Er. unfold file_text at 1. rewrite res_bind_Ok.
      rewrite Ee, !res_bind_Ok, E1, !res_bind_Ok. done.
    + cbn [entity_pairs]. unfold entity_pair at 1. cbn [e_value e_name set_e_value]. rewrite !res_bind_Ok, E2, !res_bind_Ok. done.
Qed.

Lemma strstr_first a lit x rest : a ∉ x -> strstr (x ++ (a :: lit) ++ rest) (a :: lit) = Some (x, (a :: lit) ++ rest).
Proof.
  induction x as [|c x IH]; intros Hx; cbn [app strstr].
  - pose proof (starts_app (a :: lit) rest) as Es. cbn [app] in Es. by rewrite Es.
  - rewrite starts_head by set_solver. change (a :: lit ++ rest) with ((a :: lit) ++ rest). by rewrite IH by set_solver.
Qed.

(** The document up to its declarations, and behind them [text]. *)
Definition document (before type : cstr) (ds : list (cstr * cstr)) (text : cstr) : cstr :=
  before ++ str "!DOCTYPE" ++ type ++ str "[" ++ NL :: concat (map decl_text ds) ++ text.

Lemma document_app before type ds u v : document before type ds (u ++ v) = document before type ds u ++ v.
Proof. unfold document. by repeat (rewrite <- app_assoc; cbn [app]). Qed.

Lemma decls_plain ds : Forall decl_ok ds -> "&"%char ∉ concat (map decl_text ds).
Proof.
  induction 1 as [|[n file] ds ((_ & Hn & _) & _ & _ & _ & Hf & _) _ IH]; [apply not_elem_of_nil|]. cbn [map concat fst snd] in *. unfold decl_text, quoted. cbn [fst snd].
  rewrite !not_elem_of_app, !not_elem_of_cons, !not_elem_of_app. split_and!; try done; try (apply (bool_decide_unpack _); by vm_compute).
Qed.

(** C22: The entities of a document: declarations of external entities, each with a name and a
    file, and behind them a text with references to these names, none of which ends
    the text or is next to another.  When all the files are there, the text that is parsed is the document
    with every reference replaced by the text of its file, which is without its last byte and has
    the entities of its own declarations put into it the same way. *)
Theorem mxml_entities fuel file_name error_size before type ds vs text rs f f' :
  "!"%char ∉ before -> "["%char ∉ type -> "&"%char ∉ before ++ type ++ text -> Forall decl_ok ds -> (length ds <= MXML_MAX_ENTITY)%nat -> NoDup (map fst ds) ->
  refs_ok (zip (map fst ds) vs) rs -> tags_ok (with_refs text rs) = true -> slen file_name < FILENAME_MAX ->
  included fuel (default [] (mxml_dirname (Some file_name))) error_size ds vs f f' ->
  mxml_parse_entity (S fuel) (document before type ds (with_refs text rs)) file_name error_size f =
    Ok (EntityOk (document before type ds (with_values (zip (map fst ds) vs) text rs)), f').
Proof.
  intros Hb Ht Ha Hd Hmax Hnd Hr Htags Hn Hinc. rewrite !not_elem_of_app in Ha. destruct Ha as (Ha1 & Ha2 & Ha3).
  set (t0 := document before type ds text). set (vals := zip (map fst ds) vs) in *.
  assert (Ed : forall rs', document before type ds (with_refs text rs') = with_refs t0 rs') by (intros rs'; apply document_app).
  assert (Ev : document before type ds (with_values vals text rs) = with_values vals t0 rs) by apply document_app.
  assert (At : "&"%char ∉ t0).
  { unfold t0, document. rewrite !not_elem_of_app, not_elem_of_cons, not_elem_of_app. split_and!; try done; [apply (bool_decide_unpack _); by vm_compute | apply (bool_decide_unpack _); by vm_compute | by apply decls_plain]. }
  assert (Hne : document before type ds (with_refs text rs) <> []) by (unfold document; by destruct before).
  cbn [mxml_parse_entity]. destruct (document before type ds (with_refs text rs)) as [|c0 buf] eqn:Eb; [done|]. rewrite <- Eb in *. clear Eb c0 buf Hne.
  unfold strcpy_into. rewrite check_true by bsolve. rewrite !res_bind_Ok.
  set (tail := type ++ str "[" ++ NL :: concat (map decl_text ds) ++ with_refs text rs).
  assert (E1 : strstr (document before type ds (with_refs text rs)) (str "!DOCTYPE") = Some (before, str "!DOCTYPE" ++ tail)) by exact (strstr_first "!"%char (str "DOCTYPE") before tail Hb).
  rewrite E1.
  assert (E2 : strstr (str "!DOCTYPE" ++ tail) (str "[") = Some (str "!DOCTYPE" ++ type, str "[" ++ NL :: concat (map decl_text ds) ++ with_refs text rs)).
  { unfold tail. rewrite app_assoc. apply (strstr_first "["%char []). rewrite not_elem_of_app. split; [apply (bool_decide_unpack _); by vm_compute | done]. }
  rewrite E2. set (decls := concat (map decl_text ds) ++ with_refs text rs).
  change (drop 1 (str "[" ++ NL :: decls)) with (NL :: decls). change (S (length (str "[" ++ NL :: decls))) with (S (S (S (length decls)))).
  destruct (round_skips (NL :: decls) 1 [] eq_refl eq_refl) as [l1 R1]. change (next_tag (NL :: decls)) with (next_tag ([NL] ++ decls)) in R1. rewrite next_tag_app in R1 by (by repeat constructor).
  destruct (loop_decls ds [] l1 (S (S (length decls))) (with_refs text rs) Hd) as (l2 & xs & E3 & Hxs); [cbn; lia | done | unfold decls; lia |]. fold decls in E3. cbn [app] in E3.
  assert (E4 : exists l3, entity_loop (S (S (S (length decls)))) (Est (NL :: decls) 1 []) = Ok (EGo tt (Est [] l3 xs))).
  { rewrite (loop_step _ _ _ _ _ _ _ R1). destruct (next_tag decls) as [|c q] eqn:Eq; [|by exists l2]. exists l1. unfold decls in Eq.
    assert (ds = []) as -> by (destruct ds as [|d ds']; [done | cbn [map concat] in Eq; rewrite <- app_assoc in Eq; discriminate Eq]). inversion Hxs. by subst. }
  destruct E4 as [l3 E4]. rewrite E4, res_bind_Ok. cbn [ents].
  destruct (read_external_ok fuel _ file_name error_size ds vs f f' Hinc xs Hxs) as (Hlen & ys & E5 & E6). rewrite E5, !res_bind_Ok, E6, !res_bind_Ok. fold vals.
  assert (Hfst : map fst vals = map fst ds) by (unfold vals; rewrite <- (fst_zip (map fst ds) vs) at 2; [done | rewrite length_map; lia]).
  assert (Hp : Forall plain_name (map fst vals)) by (rewrite Hfst; apply List.Forall_map; eapply List.Forall_impl; [|exact Hd]; intros d Hx; apply Hx).
  unfold replace_entities. rewrite Ed, counted_length by first [done | by rewrite Hfst]. rewrite (replace_ok vals); [by rewrite Ev | done | done | done | | | lia].
  - rewrite <- Ed. unfold document. by destruct before.
  - cbn [app]. change (slen []) with 0. pose proof (usable_enough (slen (with_values vals t0 rs) + 1)). lia.
Qed.
End files.

(** ** A system with files *)

(** A file is known by its place in the list; the number counts how many are open. *)
Record library := Library { l_files : list (cstr * list ascii); l_open : Z }.
Definition file_at (fh : Z) (f : library) : list ascii := default [] (snd <$> l_files f !! Z.to_nat fh).

#[export] Instance library_files : XmlFiles library := {
  file_open name f := match list_find (fun x => x.1 = name) (l_files f) with Some (i, _) => (Z.of_nat i, Library (l_files f) (l_open f + 1)) | None => (-1, f) end;
  file_length fh f := length (file_at fh f);
  file_read fh n f := (Some (take n (file_at fh f)), f);
  file_close fh f := Library (l_files f) (l_open f - 1);
  file_error f := str "No such file or directory";
  usable n := n
}.

#[export] Instance library_laws : XmlFilesLaws library.
Proof. by constructor. Qed.

Definition sample_text : cstr := header_text (MkStatic 0 enc_static_init 0 0) (str "now") ++ flat_map (render true 0 true) (child sample_tree).
Definition sample_library : library := Library [(str "config.xml", sample_text)] 0.

Lemma mxml_file_roundtrip_witness :
  exists root, mxml_write_tree os_all (MkStatic 0 enc_static_init 0 0) 5 (str "now") sample_tree = Ok (1, sample_text) /\
    mxml_parse_file 1 (str "config.xml") None sample_library = Ok (FileParsed root, sample_library) /\
    map strip (child root) = header_nodes (MkStatic 0 enc_static_init 0 0) (str "now") ++ map strip (child sample_tree).
Proof.
  refine (mxml_file_roundtrip os_all (MkStatic 0 enc_static_init 0 0) 5 (str "now") sample_tree 0 (str "config.xml") None sample_library sample_library _ _ _ _ _ _ _ _ _ _ _).
  - reflexivity.
  - split; [split; [cbn; lia | exact I] | left; reflexivity].
  - discriminate.
  - repeat constructor; discriminate.
  - repeat first [ constructor | reflexivity ].
  - repeat first [ constructor | reflexivity ].
  - vm_compute. discriminate.
  - exists 0, (Library [(str "config.xml", sample_text)] 1), (Library [(str "config.xml", sample_text)] 1). split_and!; (done || by vm_compute).
  - apply (bool_decide_unpack _). vm_compute. exact I.
  - vm_compute. reflexivity.
  - reflexivity.
Defined.

(** A document with two files, one of which includes the other. *)
Definition lines (l : list string) : cstr := concat (map (fun s => str s ++ [NL]) l).
Definition demo_decls : list (cstr * cstr) := [(str "magnets", str "magnets.xml"); (str "pmts", str "/etc/pmts.xml")].
Definition magnets_text : cstr := document (str "<") (str " m ") [(str "pmts", str "/etc/pmts.xml")] (str "]><m>&pmts;</m>").
Definition demo_library : library :=
  Library [(str "ptf/magnets.xml", magnets_text ++ [NL]); (str "/etc/pmts.xml", str "<pmt/>" ++ [NL])] 0.
Definition demo_refs : list (cstr * cstr) := [(str "magnets", str "<b>"); (str "pmts", str "</b>"); (str "pmts", str "</ptf>")].

Lemma mxml_entities_witness :
  mxml_parse_entity 3 (document (str "<") (str " ptf ") demo_decls (with_refs (str "]><ptf>") demo_refs)) (str "ptf/config.xml") None demo_library =
    Ok (EntityOk (document (str "<") (str " ptf ") demo_decls
      (str "]><ptf>" ++ document (str "<") (str " m ") [(str "pmts", str "/etc/pmts.xml")] (str "]><m><pmt/></m>") ++ str "<b><pmt/></b><pmt/></ptf>")), demo_library).
Proof.
  refine (mxml_entities 2 (str "ptf/config.xml") None (str "<") (str " ptf ") demo_decls
    [document (str "<") (str " m ") [(str "pmts", str "/etc/pmts.xml")] (str "]><m><pmt/></m>"); str "<pmt/>"] (str "]><ptf>") demo_refs demo_library demo_library _ _ _ _ _ _ _ _ _ _).
  - apply (bool_decide_unpack _). vm_compute. exact I.
  - apply (bool_decide_unpack _). vm_compute. exact I.
  - apply (bool_decide_unpack _). vm_compute. exact I.
  - repeat constructor; try (by apply (bool_decide_unpack _); vm_compute); done.
  - cbn. unfold MXML_MAX_ENTITY. lia.
  - apply (bool_decide_unpack _). vm_compute. exact I.
  - repeat constructor; try (by apply (bool_decide_unpack _); vm_compute); cbn; tauto.
  - reflexivity.
  - reflexivity.
  - econstructor; [|econstructor; [|constructor]].
    + exists (str "ptf/magnets.xml"), (magnets_text ++ [NL]), demo_library. split; [done|]. split; [|split; [done | by vm_compute]].
      eexists 0, _, _. split_and!; (done || by vm_compute).
    + exists (str "/etc/pmts.xml"), (str "<pmt/>" ++ [NL]), demo_library. split; [done|]. split; [|split; [done | by vm_compute]].
      eexists 1, _, _. split_and!; (done || by vm_compute).
Defined.

(** ** Outside the hypotheses *)

Definition entity_of (files : list (cstr * list ascii)) (text : cstr) : res (entity_result * library) := mxml_parse_entity 3 text (str "a.xml") (Some 1000) (Library files 0).
Definition one_ref (text : string) : cstr := document (str "<") (str " a ") [(str "e", str "e.txt")] (str text).
Definition e_file : list (cstr * list ascii) := [(str "./e.txt", str "hi" ++ [NL])].

(** The text of an internal entity is copied, with its 0, into a block of its length. *)
Example internal_entity : entity_of [] (str "<!DOCTYPE a [<!ENTITY e 'hi'>]><a>&e;</a>") = Crash OutOfBounds.
Proof. by vm_compute. Qed.

(** Behind a reference that ends the text the byte behind the text is read. *)
Example reference_at_the_end : entity_of e_file (one_ref "]><a>&e;") = Crash OutOfBounds.
Proof. by vm_compute. Qed.

(** A reference right behind another stays, but its length is counted as replaced: what is
    written fits when the text is longer than the reference, and not when it is shorter. *)
Example references_in_a_row :
  let file := [(str "./e.txt", str "a long text" ++ [NL])] in
  entity_of file (one_ref "]><a>&e;&e;</a>") = Ok (EntityOk (one_ref "]><a>a long text&e;</a>"), Library file 0) /\
  entity_of e_file (one_ref "]><a>&e;&e;</a>") = Crash OutOfBounds.
Proof. by vm_compute. Qed.

(** A document type without declarations, and a value with the word in it, make a document
    that is not read, and nothing is reported. *)
Example no_declarations :
  entity_of [] (str "<!DOCTYPE a><a/>") = Ok (EntityBad None, Library [] 0) /\ entity_of [] (str "<a>say !DOCTYPE</a>") = Ok (EntityBad None, Library [] 0).
Proof. by vm_compute. Qed.

(** The error message of a bad name has the name in it that is set later. *)
Example name_not_set : entity_of [] (str "<!DOCTYPE a [<!ENTITY e<") = Crash Uninit.
Proof. by vm_compute. Qed.

(** Two declarations of a name: the first is used, but the length is counted for both. *)
Example declared_twice :
  entity_of [(str "./e.txt", str "a long text" ++ [NL]); (str "./f.txt", str "b")] (document (str "<") (str " a ") [(str "e", str "e.txt"); (str "e", str "f.txt")] (str "]><a>&e;</a>")) = Crash OutOfBounds.
Proof. by vm_compute. Qed.

(** An empty file stays open. *)
Example empty_file_stays_open : entity_of [(str "./e.txt", [])] (one_ref "]><a>&e;</a>") = Ok (EntityOk (one_ref "]><a></a>"), Library [(str "./e.txt", [])] 1).
Proof. by vm_compute. Qed.

(** A file that is not there, for a caller that does not want the message. *)
Example missing_file : mxml_parse_file 1 (str "a.xml") None (Library [] 0) = Crash NullDeref.
Proof. by vm_compute. Qed.

(** A file that includes itself is read again and again, and every level leaves its blocks and its
    arrays on the stack: no depth is enough. *)
Definition self_text : cstr := document (str "<") (str " a ") [(str "e", str "a.xml")] (str "]><a>&e;</a>").
Definition self_library : library := Library [(str "./a.xml", self_text ++ [NL])] 0.

Fact file_includes_itself fuel : mxml_parse_entity fuel self_text (str "./a.xml") None self_library = Crash NoFuel.
Proof.
  induction fuel as [|fuel IH]; [done|]. cbn [mxml_parse_entity].
  assert (E0 : self_text = "<"%char :: drop 1 self_text) by done. rewrite E0 at 1. cbv iota.
  assert (E1 : strcpy_into FILENAME_MAX (str "./a.xml") = Ok (str "./a.xml")) by done. rewrite E1, res_bind_Ok.
  assert (E2 : strstr self_text (str "!DOCTYPE") = Some (str "<", drop 1 self_text)) by done. rewrite E2.
  assert (E3 : exists u v, strstr (drop 1 self_text) (str "[") = Some (u, v) /\
    entity_loop (S (length v)) (Est (drop 1 v) 1 []) = Ok (EGo tt (Est [] 3 [Entity (ref_name (str "e")) EXTERNAL_ENTITY (str "a.xml") None 2]))) by (do 2 eexists; split; [reflexivity | by vm_compute]).
  destruct E3 as (u & v & E3 & E4). rewrite E3, E4, res_bind_Ok. cbn [ents read_external e_type e_reference].
  assert (E5 : entity_path (default [] (mxml_dirname (Some (str "./a.xml")))) (str "a.xml") = Ok (str "./a.xml")) by done.
  change (EXTERNAL_ENTITY =? EXTERNAL_ENTITY) with true. cbv iota. rewrite E5, res_bind_Ok. 
  change (file_open (str "./a.xml") self_library) with (0, Library (l_files self_library) 1). cbv iota zeta. change (0 =? -1) with false. cbv iota.
  change (file_length 0 (Library (l_files self_library) 1) =? 0)%nat with false. cbv iota.
  assert (E6 : file_read 0 (file_length 0 (Library (l_files self_library) 1)) (Library (l_files self_library) 1) = (Some (self_text ++ [NL]), Library (l_files self_library) 1)) by done.
  rewrite E6. assert (E7 : file_text (self_text ++ [NL]) = Ok self_text) by done. rewrite E7, res_bind_Ok.
  change (file_close 0 (Library (l_files self_library) 1)) with self_library. by rewrite IH.
Qed.
