(* ===== verification/DevCfg.v ===== *)
(** * Serial line settings: [ser2net/devcfg.c]

    [devconfig] applies a line of configuration words to the [termios] of a
    port, [show_devcfg] prints a [termios] in those words and
    [serparm_to_str] in a short form for banners; [setdevcontrol] and
    [show_devcontrol] do the same for the modem lines.  The flag words are
    those of Linux, kept as the bits of a [Z]; [settings] is what they mean,
    and [devconfig] is shown to act on it word by word.  The banners and
    trace files of [readconfig.c] are an interface ([ConfigNames]). *)

From S2P Require Import Prelude CStr Utils.

(** ** The [termios] of Linux *)

Definition IGNBRK : Z := 1.
Definition BRKINT : Z := 2.
Definition PARMRK : Z := 8.
Definition ISTRIP : Z := 32.
Definition INLCR : Z := 64.
Definition IGNCR : Z := 128.
Definition ICRNL : Z := 256.
Definition IXON : Z := 1024.
Definition IXANY : Z := 2048.
Definition IXOFF : Z := 4096.
Definition OPOST : Z := 1.
Definition ISIG : Z := 1.
Definition ICANON : Z := 2.
Definition ECHO : Z := 8.
Definition ECHONL : Z := 64.
Definition IEXTEN : Z := 32768.
Definition CBAUD : Z := 4111.                   (* with CBAUDEX *)
Definition CSIZE : Z := 48.
Definition CS7 : Z := 32.
Definition CS8 : Z := 48.
Definition CSTOPB : Z := 64.
Definition CREAD : Z := 128.
Definition PARENB : Z := 256.
Definition PARODD : Z := 512.
Definition HUPCL : Z := 1024.
Definition CLOCAL : Z := 2048.
Definition CRTSCTS : Z := 2147483648.

Definition B300 : Z := 7.
Definition B1200 : Z := 9.
Definition B2400 : Z := 11.
Definition B4800 : Z := 12.
Definition B9600 : Z := 13.
Definition B19200 : Z := 14.
Definition B38400 : Z := 15.
Definition B57600 : Z := 4097.
Definition B115200 : Z := 4098.

Record termios := Termios {
  c_iflag : Z; c_oflag : Z; c_cflag : Z; c_lflag : Z;
  c_vstart : Z; c_vstop : Z;                    (* c_cc[VSTART], c_cc[VSTOP] *)
  c_ispeed : Z; c_ospeed : Z
}.

Definition set_iflag (f : Z -> Z) (t : termios) : termios :=
  Termios (f (c_iflag t)) (c_oflag t) (c_cflag t) (c_lflag t) (c_vstart t) (c_vstop t) (c_ispeed t) (c_ospeed t).
Definition set_oflag (f : Z -> Z) (t : termios) : termios :=
  Termios (c_iflag t) (f (c_oflag t)) (c_cflag t) (c_lflag t) (c_vstart t) (c_vstop t) (c_ispeed t) (c_ospeed t).
Definition set_cflag (f : Z -> Z) (t : termios) : termios :=
  Termios (c_iflag t) (c_oflag t) (f (c_cflag t)) (c_lflag t) (c_vstart t) (c_vstop t) (c_ispeed t) (c_ospeed t).
Definition set_lflag (f : Z -> Z) (t : termios) : termios :=
  Termios (c_iflag t) (c_oflag t) (c_cflag t) (f (c_lflag t)) (c_vstart t) (c_vstop t) (c_ispeed t) (c_ospeed t).
Definition set_flow_chars (a b : Z) (t : termios) : termios :=
  Termios (c_iflag t) (c_oflag t) (c_cflag t) (c_lflag t) a b (c_ispeed t) (c_ospeed t).

(** [flags |= m] and [flags &= ~m]. *)
Definition on (m f : Z) : Z := Z.lor f m.
Definition off (m f : Z) : Z := Z.ldiff f m.

(** The speed functions of the C library keep the speed in [c_cflag]. *)
Definition cfsetospeed (sp : Z) (t : termios) : termios :=
  let t := set_cflag (fun f => on sp (off CBAUD f)) t in
  Termios (c_iflag t) (c_oflag t) (c_cflag t) (c_lflag t) (c_vstart t) (c_vstop t) (c_ispeed t) sp.
Definition cfsetispeed (sp : Z) (t : termios) : termios :=
  let t := set_cflag (fun f => on sp (off CBAUD f)) t in
  Termios (c_iflag t) (c_oflag t) (c_cflag t) (c_lflag t) (c_vstart t) (c_vstop t) sp (c_ospeed t).
Definition cfgetospeed (t : termios) : Z := Z.land (c_cflag t) CBAUD.

Definition cfmakeraw (t : termios) : termios :=
  let t := set_iflag (off (Z.lor (Z.lor (Z.lor IGNBRK BRKINT) (Z.lor PARMRK ISTRIP))
                              (Z.lor (Z.lor INLCR IGNCR) (Z.lor ICRNL IXON)))) t in
  let t := set_oflag (off OPOST) t in
  let t := set_lflag (off (Z.lor (Z.lor (Z.lor ECHO ECHONL) (Z.lor ICANON ISIG)) IEXTEN)) t in
  let t := set_cflag (off (Z.lor CSIZE PARENB)) t in
  set_cflag (on CS8) t.

Definition XON_XOFF : Z := Z.lor (Z.lor IXON IXOFF) IXANY.

Definition devinit (t : termios) : termios :=
  let t := cfmakeraw t in
  let t := cfsetospeed B9600 t in
  let t := cfsetispeed B9600 t in
  let t := set_cflag (off CSTOPB) t in
  let t := set_cflag (off CSIZE) t in
  let t := set_cflag (on CS8) t in
  let t := set_cflag (off PARENB) t in
  let t := set_cflag (off CLOCAL) t in
  let t := set_cflag (off HUPCL) t in
  let t := set_cflag (on CREAD) t in
  let t := set_cflag (off CRTSCTS) t in
  let t := set_iflag (off XON_XOFF) t in
  set_iflag (on IGNBRK) t.

(** ** devconfig *)

Record trace_info := TraceInfo { hexdump : bool; timestamp : bool; file : option cstr }.

Record dev_info := DevInfo {
  termctl : termios;
  allow_2217 : bool;
  disablebreak : bool;
  banner : option cstr;
  trace_read : trace_info;
  trace_write : trace_info;
  trace_both : trace_info
}.

(** The names of [readconfig.c]. *)
Class ConfigNames := {
  find_banner : cstr -> option cstr;
  find_tracefile : cstr -> option cstr
}.

Definition set_termctl (f : termios -> termios) (d : dev_info) : dev_info :=
  DevInfo (f (termctl d)) (allow_2217 d) (disablebreak d) (banner d) (trace_read d) (trace_write d) (trace_both d).
Definition set_allow_2217 (b : bool) (d : dev_info) : dev_info :=
  DevInfo (termctl d) b (disablebreak d) (banner d) (trace_read d) (trace_write d) (trace_both d).
Definition set_disablebreak (b : bool) (d : dev_info) : dev_info :=
  DevInfo (termctl d) (allow_2217 d) b (banner d) (trace_read d) (trace_write d) (trace_both d).
Definition set_banner (b : option cstr) (d : dev_info) : dev_info :=
  DevInfo (termctl d) (allow_2217 d) (disablebreak d) b (trace_read d) (trace_write d) (trace_both d).
Definition set_read (f : trace_info -> trace_info) (d : dev_info) : dev_info :=
  DevInfo (termctl d) (allow_2217 d) (disablebreak d) (banner d) (f (trace_read d)) (trace_write d) (trace_both d).
Definition set_write (f : trace_info -> trace_info) (d : dev_info) : dev_info :=
  DevInfo (termctl d) (allow_2217 d) (disablebreak d) (banner d) (trace_read d) (f (trace_write d)) (trace_both d).
Definition set_both (f : trace_info -> trace_info) (d : dev_info) : dev_info :=
  DevInfo (termctl d) (allow_2217 d) (disablebreak d) (banner d) (trace_read d) (trace_write d) (f (trace_both d)).
Definition set_hexdump (b : bool) (i : trace_info) : trace_info := TraceInfo b (timestamp i) (file i).
Definition set_timestamp (b : bool) (i : trace_info) : trace_info := TraceInfo (hexdump i) b (file i).
Definition set_file (f : option cstr) (i : trace_info) : trace_info := TraceInfo (hexdump i) (timestamp i) f.

Definition no_trace : trace_info := TraceInfo false false None.

(** What [devconfig] clears before it reads the words. *)
Definition devconfig_clear (d : dev_info) : dev_info :=
  DevInfo (termctl d) false false None no_trace no_trace no_trace.

(** The speed a word names. *)
Definition speed_word (pos : cstr) : option Z :=
  if streq pos (str "300") then Some B300
  else if streq pos (str "1200") then Some B1200
  else if streq pos (str "2400") then Some B2400
  else if streq pos (str "4800") then Some B4800
  else if streq pos (str "9600") then Some B9600
  else if streq pos (str "19200") then Some B19200
  else if streq pos (str "38400") then Some B38400
  else if streq pos (str "57600") then Some B57600
  else if streq pos (str "115200") then Some B115200
  else None.

(** The words that change the flags. *)
Definition flag_word (pos : cstr) (t : termios) : option termios :=
  if streq pos (str "1STOPBIT") then Some (set_cflag (off CSTOPB) t)
  else if streq pos (str "2STOPBITS") then Some (set_cflag (on CSTOPB) t)
  else if streq pos (str "7DATABITS") then Some (set_cflag (on CS7) (set_cflag (off CSIZE) t))
  else if streq pos (str "8DATABITS") then Some (set_cflag (on CS8) (set_cflag (off CSIZE) t))
  else if streq pos (str "NONE") then Some (set_cflag (off PARENB) t)
  else if streq pos (str "EVEN") then Some (set_cflag (off PARODD) (set_cflag (on PARENB) t))
  else if streq pos (str "ODD") then Some (set_cflag (on (Z.lor PARENB PARODD)) t)
  else if streq pos (str "XONXOFF") then Some (set_flow_chars 17 19 (set_iflag (on XON_XOFF) t))
  else if streq pos (str "-XONXOFF") then Some (set_iflag (off XON_XOFF) t)
  else if streq pos (str "RTSCTS") then Some (set_cflag (on CRTSCTS) t)
  else if streq pos (str "-RTSCTS") then Some (set_cflag (off CRTSCTS) t)
  else if streq pos (str "LOCAL") then Some (set_cflag (on CLOCAL) t)
  else if streq pos (str "-LOCAL") then Some (set_cflag (off CLOCAL) t)
  else if streq pos (str "HANGUP_WHEN_DONE") then Some (set_cflag (on HUPCL) t)
  else if streq pos (str "-HANGUP_WHEN_DONE") then Some (set_cflag (off HUPCL) t)
  else None.

(** [*pos != '-'] *)
Definition not_minus (pos : cstr) : bool :=
  match pos with c :: _ => negb (c =c "-"%char) | [] => true end.

(** [strcmp(pos, w) == 0 || strcmp(pos, "-" w) == 0] *)
Definition word_or_minus (pos w : cstr) : bool := streq pos w || streq pos ("-"%char :: w).

Section devconfig.
Context `{ConfigNames}.

(** The words of the port and of its traces. *)
Definition port_word (pos : cstr) (d : dev_info) : option dev_info :=
  let b := not_minus pos in
  if streq pos (str "remctl") then Some (set_allow_2217 true d)
  else if streq pos (str "NOBREAK") then Some (set_disablebreak true d)
  else if word_or_minus pos (str "hexdump") then
    Some (set_both (set_hexdump b) (set_write (set_hexdump b) (set_read (set_hexdump b) d)))
  else if word_or_minus pos (str "timestamp") then
    Some (set_both (set_timestamp b) (set_write (set_timestamp b) (set_read (set_timestamp b) d)))
  else if word_or_minus pos (str "tr-hexdump") then Some (set_read (set_hexdump b) d)
  else if word_or_minus pos (str "tr-timestamp") then Some (set_read (set_timestamp b) d)
  else if word_or_minus pos (str "tw-hexdump") then Some (set_write (set_hexdump b) d)
  else if word_or_minus pos (str "tw-timestamp") then Some (set_write (set_timestamp b) d)
  else if word_or_minus pos (str "tb-hexdump") then Some (set_both (set_hexdump b) d)
  else if word_or_minus pos (str "tb-timestamp") then Some (set_both (set_timestamp b) d)
  else if starts (str "tr=") pos then Some (set_read (set_file (find_tracefile (drop 3 pos))) d)
  else if starts (str "tw=") pos then Some (set_write (set_file (find_tracefile (drop 3 pos))) d)
  else if starts (str "tb=") pos then Some (set_both (set_file (find_tracefile (drop 3 pos))) d)
  else None.

(** One turn of the loop: the new [*dinfo], and whether the word is known. *)
Definition devconfig_word (pos : cstr) (d : dev_info) : dev_info * bool :=
  match speed_word pos with
  | Some sp => (set_termctl (fun t => cfsetispeed sp (cfsetospeed sp t)) d, true)
  | None =>
      match flag_word pos (termctl d) with
      | Some t => (set_termctl (fun _ => t) d, true)
      | None =>
          match port_word pos d with
          | Some d' => (d', true)
          | None =>
              match find_banner pos with
              | Some b => (set_banner (Some b) d, true)
              | None => (set_banner None d, false)
              end
          end
      end
  end.

Fixpoint devconfig_loop (words : list cstr) (d : dev_info) : Z * dev_info :=
  match words with
  | [] => (0, d)
  | pos :: words' =>
      let '(d', known) := devconfig_word pos d in
      if known then devconfig_loop words' d' else (-1, d')
  end.

Definition devconfig_delim (c : ascii) : bool := (c =c ","%char) || (c =c " "%char) || (c =c "009"%char).

Definition devconfig (instr : cstr) (d : dev_info) : Z * dev_info :=
  devconfig_loop (tokens devconfig_delim instr) (devconfig_clear d).
End devconfig.

(** ** Printing *)

Definition baud_string (speed : Z) : cstr :=
  if speed =? B300 then str "300"
  else if speed =? B1200 then str "1200"
  else if speed =? B2400 then str "2400"
  else if speed =? B4800 then str "4800"
  else if speed =? B9600 then str "9600"
  else if speed =? B19200 then str "19200"
  else if speed =? B38400 then str "38400"
  else if speed =? B57600 then str "57600"
  else if speed =? B115200 then str "115200"
  else str "unknown speed".

(** [flags & m], as a truth value. *)
Definition has (m f : Z) : bool := negb (Z.land f m =? 0).

(** [serparm_to_str(str, strlen, termctl)]: the text [snprintf] leaves in an
    array of [size] bytes. *)
Definition serparm_to_str (size : Z) (t : termios) : cstr :=
  let stopbits := has CSTOPB (c_cflag t) in
  let databits := Z.land (c_cflag t) CSIZE in
  let parity_enabled := has PARENB (c_cflag t) in
  let parity := has PARODD (c_cflag t) in
  let schar := if stopbits then "2"%char else "1"%char in
  let dchar := if databits =? CS7 then "7"%char else if databits =? CS8 then "8"%char else "?"%char in
  let pchar := if parity_enabled then (if parity then "O"%char else "E"%char) else "N"%char in
  strlcpy_val size (baud_string (cfgetospeed t) ++ [" "%char; pchar; dchar; schar]).

(** [controller_output(cntlr, lit, n)]. *)
Definition out_lit (lit : cstr) (n : nat) : cstr := take n lit.

(** [show_devcfg]: the pieces sent to the controller, in order. *)
Definition show_devcfg (t : termios) : list cstr :=
  let stopbits := has CSTOPB (c_cflag t) in
  let databits := Z.land (c_cflag t) CSIZE in
  let parity_enabled := has PARENB (c_cflag t) in
  let parity := has PARODD (c_cflag t) in
  let xon := has IXON (c_iflag t) in
  let xoff := has IXOFF (c_iflag t) in
  let xany := has IXANY (c_iflag t) in
  let flow_rtscts := has CRTSCTS (c_cflag t) in
  let clocal := has CLOCAL (c_cflag t) in
  let hangup_when_done := has HUPCL (c_cflag t) in
  [baud_string (cfgetospeed t); out_lit (str " ") 1] ++
  (if xon && xoff && xany then [out_lit (str "XONXOFF ") 8] else []) ++
  (if flow_rtscts then [out_lit (str "RTSCTS ") 7] else []) ++
  (if clocal then [out_lit (str "LOCAL ") 6] else []) ++
  (if hangup_when_done then [out_lit (str "HANGUP_WHEN_DONE ") 17] else []) ++
  [if stopbits then str "2STOPBITS" else str "1STOPBIT"; out_lit (str " ") 1;
   if databits =? CS7 then str "7DATABITS" else if databits =? CS8 then str "8DATABITS"
   else str "unknown databits"; out_lit (str " ") 1;
   if parity_enabled then (if parity then str "ODD" else str "EVEN") else str "NONE"].

(** ** Modem lines *)

Definition TIOCM_DTR : Z := 2.
Definition TIOCM_RTS : Z := 4.

(** The modem lines behind a descriptor; [None] when [ioctl] fails on it and
    leaves [status] unwritten. *)
Definition modem := option Z.

(** [ioctl(fd, TIOCMGET, &status); status = f(status); ioctl(fd, TIOCMSET, &status)]. *)
Definition modem_update (f : Z -> Z) (fd : modem) : res modem :=
  match fd with Some status => Ok (Some (f status)) | None => Crash Uninit end.

Definition control_word (pos : cstr) : option (Z -> Z) :=
  if streq pos (str "RTSHI") then Some (on TIOCM_RTS)
  else if streq pos (str "RTSLO") then Some (off TIOCM_RTS)
  else if streq pos (str "DTRHI") then Some (on TIOCM_DTR)
  else if streq pos (str "DTRLO") then Some (off TIOCM_DTR)
  else None.

Fixpoint setdevcontrol_loop (words : list cstr) (fd : modem) : res (Z * modem) :=
  match words with
  | [] => Ok (0, fd)
  | pos :: words' =>
      match control_word pos with
      | Some f => fd' ← modem_update f fd; setdevcontrol_loop words' fd'
      | None => Ok (-1, fd)
      end
  end.

Definition blank (c : ascii) : bool := (c =c " "%char) || (c =c "009"%char).

Definition setdevcontrol (instr : cstr) (fd : modem) : res (Z * modem) :=
  setdevcontrol_loop (tokens blank instr) fd.

Definition show_devcontrol (fd : modem) : res (list cstr) :=
  match fd with
  | None => Crash Uninit
  | Some status =>
      Ok [if has TIOCM_RTS status then str "RTSHI" else str "RTSLO"; out_lit (str " ") 1;
          if has TIOCM_DTR status then str "DTRHI" else str "DTRLO"; out_lit (str " ") 1]
  end.

(** ** What the flags mean *)

Inductive parity_mode := ParityNone | ParityEven | ParityOdd.
#[global] Instance parity_mode_eq_dec : EqDecision parity_mode.
Proof. solve_decision. Defined.

Record settings := Settings {
  s_speed : Z;
  s_two_stop : bool;
  s_csize : Z;
  s_parity : parity_mode;
  s_xonxoff : bool;
  s_rtscts : bool;
  s_local : bool;
  s_hangup : bool
}.

Definition view_parity (f : Z) : parity_mode :=
  if has PARENB f then (if has PARODD f then ParityOdd else ParityEven) else ParityNone.

Definition view (t : termios) : settings :=
  Settings (cfgetospeed t) (has CSTOPB (c_cflag t)) (Z.land (c_cflag t) CSIZE) (view_parity (c_cflag t))
    (has IXON (c_iflag t) && has IXOFF (c_iflag t) && has IXANY (c_iflag t))
    (has CRTSCTS (c_cflag t)) (has CLOCAL (c_cflag t)) (has HUPCL (c_cflag t)).

Inductive setting_change :=
  | SetSpeed (sp : Z) | SetTwoStop (b : bool) | SetCsize (z : Z) | SetParity (p : parity_mode)
  | SetXonxoff (b : bool) | SetRtscts (b : bool) | SetLocal (b : bool) | SetHangup (b : bool).

(** Each change touches its own field. *)
Definition change (c : setting_change) (s : settings) : settings :=
  let '(Settings sp st cs pa xo rt lo hu) := s in
  match c with
  | SetSpeed v => Settings v st cs pa xo rt lo hu
  | SetTwoStop v => Settings sp v cs pa xo rt lo hu
  | SetCsize v => Settings sp st v pa xo rt lo hu
  | SetParity v => Settings sp st cs v xo rt lo hu
  | SetXonxoff v => Settings sp st cs pa v rt lo hu
  | SetRtscts v => Settings sp st cs pa xo v lo hu
  | SetLocal v => Settings sp st cs pa xo rt v hu
  | SetHangup v => Settings sp st cs pa xo rt lo v
  end.

(** The change each word of the manual page stands for. *)
Definition line_words : list (cstr * setting_change) :=
  [(str "300", SetSpeed B300); (str "1200", SetSpeed B1200); (str "2400", SetSpeed B2400);
   (str "4800", SetSpeed B4800); (str "9600", SetSpeed B9600); (str "19200", SetSpeed B19200);
   (str "38400", SetSpeed B38400); (str "57600", SetSpeed B57600); (str "115200", SetSpeed B115200);
   (str "1STOPBIT", SetTwoStop false); (str "2STOPBITS", SetTwoStop true);
   (str "7DATABITS", SetCsize CS7); (str "8DATABITS", SetCsize CS8);
   (str "NONE", SetParity ParityNone); (str "EVEN", SetParity ParityEven); (str "ODD", SetParity ParityOdd);
   (str "XONXOFF", SetXonxoff true); (str "-XONXOFF", SetXonxoff false);
   (str "RTSCTS", SetRtscts true); (str "-RTSCTS", SetRtscts false);
   (str "LOCAL", SetLocal true); (str "-LOCAL", SetLocal false);
   (str "HANGUP_WHEN_DONE", SetHangup true); (str "-HANGUP_WHEN_DONE", SetHangup false)].

Fixpoint word_change (words : list (cstr * setting_change)) (pos : cstr) : option setting_change :=
  match words with
  | [] => None
  | (w, c) :: words' => if streq pos w then Some c else word_change words' pos
  end.

Definition apply_word (s : settings) (pos : cstr) : settings :=
  match word_change line_words pos with Some c => change c s | None => s end.

(** *** Bits *)

Lemma land_on_sub m k f : Z.land m k = k -> Z.land (on m f) k = k.
Proof. intros H. unfold on. rewrite Z.land_lor_distr_l, H. apply Z.bits_inj'. intros n _. rewrite Z.lor_spec, Z.land_spec. by destruct (Z.testbit f n), (Z.testbit k n). Qed.

Lemma land_on_disjoint m k f : Z.land m k = 0 -> Z.land (on m f) k = Z.land f k.
Proof. intros H. unfold on. by rewrite Z.land_lor_distr_l, H, Z.lor_0_r. Qed.

Lemma land_off_disjoint m k f : Z.land m k = 0 -> Z.land (off m f) k = Z.land f k.
Proof.
  intros H. unfold off. apply Z.bits_inj'. intros n _. apply (f_equal (fun z => Z.testbit z n)) in H.
  rewrite Z.bits_0, Z.land_spec in H. rewrite !Z.land_spec, Z.ldiff_spec.
  destruct (Z.testbit f n), (Z.testbit k n), (Z.testbit m n); done.
Qed.

Lemma land_off_sub m k f : Z.land m k = k -> Z.land (off m f) k = 0.
Proof.
  intros H. unfold off. apply Z.bits_inj'. intros n _. apply (f_equal (fun z => Z.testbit z n)) in H.
  rewrite Z.land_spec in H. rewrite Z.bits_0, Z.land_spec, Z.ldiff_spec.
  destruct (Z.testbit f n), (Z.testbit k n), (Z.testbit m n); done.
Qed.

(** [bits] reads a flag after constant masks were set and cleared. *)
Ltac bits :=
  repeat first
    [ rewrite land_on_disjoint by reflexivity
    | rewrite land_off_disjoint by reflexivity
    | rewrite land_on_sub by reflexivity
    | rewrite land_off_sub by reflexivity ].

(** Bits outside [k] are kept by masks inside it. *)
Lemma ldiff_on m f k : Z.land m k = m -> Z.ldiff (on m f) k = Z.ldiff f k.
Proof.
  intros Hm. apply Z.bits_inj'. intros n _. apply (f_equal (fun z => Z.testbit z n)) in Hm.
  rewrite Z.land_spec in Hm. unfold on. rewrite !Z.ldiff_spec, Z.lor_spec.
  destruct (Z.testbit m n), (Z.testbit f n), (Z.testbit k n); done.
Qed.

Lemma ldiff_off m f k : Z.land m k = m -> Z.ldiff (off m f) k = Z.ldiff f k.
Proof.
  intros Hm. apply Z.bits_inj'. intros n _. apply (f_equal (fun z => Z.testbit z n)) in Hm.
  rewrite Z.land_spec in Hm. unfold off. rewrite !Z.ldiff_spec.
  destruct (Z.testbit m n), (Z.testbit f n), (Z.testbit k n); done.
Qed.

Lemma land_set_field m sp f : Z.land sp m = sp -> Z.land (on sp (off m f)) m = sp.
Proof.
  intros H. unfold on. rewrite Z.land_lor_distr_l, H. fold (off m f).
  rewrite land_off_sub; [by rewrite Z.lor_0_l | apply Z.land_diag].
Qed.

(** *** One word *)

Lemma view_eq t sp st cs pa xo rt lo hu :
  cfgetospeed t = sp -> has CSTOPB (c_cflag t) = st -> Z.land (c_cflag t) CSIZE = cs ->
  view_parity (c_cflag t) = pa ->
  has IXON (c_iflag t) && has IXOFF (c_iflag t) && has IXANY (c_iflag t) = xo ->
  has CRTSCTS (c_cflag t) = rt -> has CLOCAL (c_cflag t) = lo -> has HUPCL (c_cflag t) = hu ->
  view t = Settings sp st cs pa xo rt lo hu.
Proof. by intros <- <- <- <- <- <- <- <-. Qed.

Ltac view_step :=
  unfold change; cbn [view]; apply view_eq; cbn [c_cflag c_iflag set_cflag set_iflag set_flow_chars
    cfsetospeed cfsetispeed]; unfold cfgetospeed, view_parity, has;
  cbn [c_cflag c_iflag set_cflag set_iflag set_flow_chars cfsetospeed cfsetispeed];
  bits; try reflexivity; try (apply land_set_field; reflexivity).

Lemma view_flag_word pos t t' :
  flag_word pos t = Some t' ->
  exists c, word_change (drop 9 line_words) pos = Some c /\ view t' = change c (view t).
Proof.
  unfold flag_word. cbn [drop skipn line_words word_change].
  repeat (case (streq pos _); [intros [= <-]; eexists; split; [reflexivity | by view_step]|]).
  discriminate.
Qed.

Lemma flag_word_None pos t :
  flag_word pos t = None -> word_change (drop 9 line_words) pos = None.
Proof.
  unfold flag_word. cbn [drop skipn line_words word_change].
  repeat (case (streq pos _); [discriminate|]). done.
Qed.

Lemma view_speed t sp : Z.land sp CBAUD = sp -> Z.land sp (Z.lnot CBAUD) = 0 ->
  view (cfsetispeed sp (cfsetospeed sp t)) = change (SetSpeed sp) (view t).
Proof.
  intros Hsp Hd.
  assert (Hk : forall k f, Z.land CBAUD k = 0 -> Z.land (on sp (off CBAUD f)) k = Z.land f k).
  { intros k f Hk. rewrite land_on_disjoint; [by apply land_off_disjoint|].
    rewrite <- Hsp, <- Z.land_assoc, Hk. apply Z.land_0_r. }
  view_step; rewrite ?Hk by reflexivity; try reflexivity.
  by apply land_set_field.
Qed.

Lemma speed_word_Some pos sp :
  speed_word pos = Some sp ->
  word_change line_words pos = Some (SetSpeed sp) /\ Z.land sp CBAUD = sp /\ Z.land sp (Z.lnot CBAUD) = 0.
Proof.
  unfold speed_word. cbn [line_words word_change].
  repeat (case (streq pos _); [by intros [= <-]|]). discriminate.
Qed.

Lemma speed_word_None pos :
  speed_word pos = None -> word_change line_words pos = word_change (drop 9 line_words) pos.
Proof.
  unfold speed_word. cbn [drop skipn line_words word_change].
  repeat (case (streq pos _); [discriminate|]). done.
Qed.

Section words.
Context `{ConfigNames}.

Lemma port_word_termctl pos d d' : port_word pos d = Some d' -> termctl d' = termctl d.
Proof.
  unfold port_word.
  repeat match goal with |- (if ?b then _ else _) = _ -> _ => destruct b; [by intros [= <-]|] end.
  discriminate.
Qed.

(** A word acts on the settings as its entry of [line_words] says, and the
    others leave the flags alone. *)
Lemma devconfig_word_view pos d :
  view (termctl (fst (devconfig_word pos d))) = apply_word (view (termctl d)) pos.
Proof.
  unfold devconfig_word, apply_word. destruct (speed_word pos) as [sp|] eqn:Es.
  - destruct (speed_word_Some pos sp Es) as (Ew & H1 & H2). rewrite Ew. cbn. by apply view_speed.
  - rewrite (speed_word_None pos Es). destruct (flag_word pos (termctl d)) as [t|] eqn:Ef.
    + destruct (view_flag_word pos _ t Ef) as (c & Ec & Ev). by rewrite Ec.
    + rewrite (flag_word_None pos _ Ef). destruct (port_word pos d) as [d'|] eqn:Ep.
      * by rewrite <- (port_word_termctl pos d d' Ep).
      * by destruct (find_banner pos).
Qed.

(** The words of the line, the names of the port and traces, the banners. *)
Definition known_word (pos : cstr) (d : dev_info) : bool := snd (devconfig_word pos d).

Lemma known_line_word pos c d : word_change line_words pos = Some c -> known_word pos d = true.
Proof.
  unfold known_word, devconfig_word. destruct (speed_word pos) as [sp|] eqn:Es; [done|].
  rewrite (speed_word_None pos Es). destruct (flag_word pos (termctl d)) as [t|] eqn:Ef; [done|].
  by rewrite (flag_word_None pos _ Ef).
Qed.
End words.

(** *** Texts made of words *)

Fixpoint join (words : list cstr) : cstr :=
  match words with
  | [] => []
  | [w] => w
  | w :: words' => w ++ " "%char :: join words'
  end.

Definition plain (delim : ascii -> bool) (w : cstr) : Prop :=
  w <> [] /\ Forall (fun c => delim c = false) w.

Lemma tokens_join delim words :
  delim " "%char = true -> Forall (plain delim) words -> tokens delim (join words) = words.
Proof.
  intros Hsp Hw. induction Hw as [|w words [Hne Hf] Hw IH]; [done|].
  destruct words as [|w' words].
  - cbn [join]. rewrite <- (app_nil_r w) at 1. by rewrite tokens_first.
  - change (join (w :: w' :: words)) with (w ++ " "%char :: join (w' :: words)).
    rewrite tokens_first by done. cbn [tail]. by rewrite IH.
Qed.

(** The words [show_devcfg] prints. *)
Definition show_words (t : termios) : list cstr :=
  [baud_string (cfgetospeed t)] ++
  (if s_xonxoff (view t) then [str "XONXOFF"] else []) ++
  (if s_rtscts (view t) then [str "RTSCTS"] else []) ++
  (if s_local (view t) then [str "LOCAL"] else []) ++
  (if s_hangup (view t) then [str "HANGUP_WHEN_DONE"] else []) ++
  [if s_two_stop (view t) then str "2STOPBITS" else str "1STOPBIT";
   if s_csize (view t) =? CS7 then str "7DATABITS" else if s_csize (view t) =? CS8 then str "8DATABITS"
   else str "unknown databits";
   match s_parity (view t) with ParityOdd => str "ODD" | ParityEven => str "EVEN" | ParityNone => str "NONE" end].

Lemma show_devcfg_join t : concat (show_devcfg t) = join (show_words t).
Proof.
  unfold show_devcfg, show_words, view, view_parity. cbn [s_xonxoff s_rtscts s_local s_hangup s_two_stop s_csize s_parity].
  repeat match goal with |- context [if ?b then _ else _] => destruct b end;
    cbn [app concat join]; rewrite ?app_nil_r, <- ?app_assoc; reflexivity.
Qed.

Definition speeds : list Z := [B300; B1200; B2400; B4800; B9600; B19200; B38400; B57600; B115200].

Lemma speed_word_of_baud sp : sp ∈ speeds ->
  word_change line_words (baud_string sp) = Some (SetSpeed sp) /\ plain devconfig_delim (baud_string sp).
Proof.
  unfold speeds. rewrite !elem_of_cons. intros H.
  repeat destruct H as [->|H]; [split; [reflexivity | split; [discriminate | repeat constructor]] ..|].
  by apply elem_of_nil in H.
Qed.

Lemma fold_apply_word_app ws1 ws2 s :
  fold_left apply_word (ws1 ++ ws2) s = fold_left apply_word ws2 (fold_left apply_word ws1 s).
Proof. apply fold_left_app. Qed.

(** Words that are all known are all applied. *)
Lemma devconfig_loop_known `{ConfigNames} words : forall d,
  Forall (fun w => is_Some (word_change line_words w)) words ->
  fst (devconfig_loop words d) = 0 /\
  view (termctl (snd (devconfig_loop words d))) = fold_left apply_word words (view (termctl d)).
Proof.
  induction words as [|w words IH]; intros d Hw; [done|].
  apply Forall_cons in Hw as [[c Hc] Hw]. cbn [devconfig_loop fold_left].
  pose proof (known_line_word w c d Hc) as Hk. pose proof (devconfig_word_view w d) as Hv.
  unfold known_word in Hk. destruct (devconfig_word w d) as [d' known]. cbn [fst snd] in *. subst known.
  rewrite <- Hv. by apply IH.
Qed.

Lemma show_words_known t :
  cfgetospeed t ∈ speeds -> s_csize (view t) = CS7 \/ s_csize (view t) = CS8 ->
  Forall (fun w => is_Some (word_change line_words w)) (show_words t) /\
  Forall (plain devconfig_delim) (show_words t).
Proof.
  intros Hs Hc. destruct (speed_word_of_baud _ Hs) as [Hw Hp]. unfold show_words.
  destruct Hc as [-> | ->]; cbn [app Z.eqb];
  destruct (s_xonxoff _), (s_rtscts _), (s_local _), (s_hangup _), (s_two_stop _), (s_parity _);
  (split; repeat constructor; try (by rewrite Hw); try (eexists; reflexivity); try discriminate; apply Hp).
Qed.

(** Reading the printed words back sets the four fields that are always
    printed and or-s in the others. *)
Lemma fold_show_words t s0 :
  cfgetospeed t ∈ speeds -> s_csize (view t) = CS7 \/ s_csize (view t) = CS8 ->
  fold_left apply_word (show_words t) s0 =
    Settings (s_speed (view t)) (s_two_stop (view t)) (s_csize (view t)) (s_parity (view t))
      (s_xonxoff s0 || s_xonxoff (view t)) (s_rtscts s0 || s_rtscts (view t))
      (s_local s0 || s_local (view t)) (s_hangup s0 || s_hangup (view t)).
Proof.
  intros Hs Hc. unfold show_words. destruct (speed_word_of_baud _ Hs) as [Hw _].
  destruct s0 as [sp st cs pa xo rt lo hu]. change (cfgetospeed t) with (s_speed (view t)) in *.
  destruct (view t) as [sp' st' cs' pa' xo' rt' lo' hu'].
  cbn [s_speed s_two_stop s_csize s_parity s_xonxoff s_rtscts s_local s_hangup] in *.
  cbn [app fold_left]. unfold apply_word at 2. rewrite Hw. cbn [change].
  destruct Hc as [-> | ->], xo', rt', lo', hu', st', pa'; cbn [app fold_left Z.eqb];
    rewrite ?orb_true_r, ?orb_false_r; reflexivity.
Qed.

(** A fresh port is at 9600N81 without any flow control. *)
Lemma view_devinit t : view (devinit t) = Settings B9600 false CS8 ParityNone false false false false.
Proof.
  apply view_eq; unfold devinit, cfmakeraw, cfgetospeed, view_parity, has;
    cbn [c_cflag c_iflag set_cflag set_iflag set_oflag set_lflag cfsetospeed cfsetispeed];
    bits; reflexivity || (rewrite land_set_field; reflexivity).
Qed.

(** ** Properties *)

(** [devconfig] refines the table of words: the words up to the first one
    it does not know are applied to the settings in order, each changing its
    own field and nothing else, whatever bits the masks share; the answer is 0
    exactly when every word is known, and otherwise -1 with the words before
    the unknown one already in force. *)
Theorem devconfig_refines `{ConfigNames} (instr : cstr) (d : dev_info) :
  exists applied rest,
    tokens devconfig_delim instr = applied ++ rest /\
    view (termctl (snd (devconfig instr d))) = fold_left apply_word applied (view (termctl d)) /\
    ((fst (devconfig instr d) = 0 /\ rest = []) \/
     (fst (devconfig instr d) = -1 /\
      exists w rest', rest = w :: rest' /\ word_change line_words w = None /\ find_banner w = None)).
Proof.
  unfold devconfig. generalize (tokens devconfig_delim instr) as words. intros words.
  change (view (termctl d)) with (view (termctl (devconfig_clear d))). generalize (devconfig_clear d) as d0.
  induction words as [|w words IH]; intros d0.
  { exists [], []. split_and!; [done | done | by left]. }
  pose proof (devconfig_word_view w d0) as Hv. pose proof (known_line_word w) as Hk. unfold known_word in Hk.
  cbn [devconfig_loop]. destruct (devconfig_word w d0) as [d' known] eqn:E. cbn [fst] in Hv. destruct known.
  - destruct (IH d') as (applied & rest & -> & Hview & Hrv). exists (w :: applied), rest.
    split_and!; [done | | exact Hrv]. cbn [fold_left]. by rewrite <- Hv.
  - assert (Hw : word_change line_words w = None).
    { destruct (word_change line_words w) as [c|] eqn:Ec; [|done].
      specialize (Hk c d0 eq_refl). rewrite E in Hk. done. }
    exists [], (w :: words). split_and!; [done | |].
    + cbn [fold_left snd]. rewrite Hv. unfold apply_word. by rewrite Hw.
    + right. split; [done|]. exists w, words. split_and!; [done..|].
      unfold devconfig_word in E. destruct (speed_word w); [congruence|].
      destruct (flag_word w _); [congruence|]. destruct (port_word w d0); [congruence|].
      by destruct (find_banner w).
Qed.

(** What [show_devcfg] prints, [devconfig] reads back: for a line at one of
    the nine speeds with 7 or 8 data bits it is accepted, and gives the
    target the same speed, stop bits, data bits and parity; the flow control,
    local and hang-up settings are printed only when on, so they are or-ed
    into the target, and on a port fresh from [devinit] the whole of the
    settings is restored. *)
Theorem show_devcfg_devconfig `{ConfigNames} (t : termios) (d : dev_info) :
  cfgetospeed t ∈ speeds -> s_csize (view t) = CS7 \/ s_csize (view t) = CS8 ->
  let r := devconfig (concat (show_devcfg t)) d in
  let v := view (termctl (snd r)) in
  fst r = 0 /\
  (s_speed v, s_two_stop v, s_csize v, s_parity v)
    = (s_speed (view t), s_two_stop (view t), s_csize (view t), s_parity (view t)) /\
  s_xonxoff v = s_xonxoff (view (termctl d)) || s_xonxoff (view t) /\
  s_rtscts v = s_rtscts (view (termctl d)) || s_rtscts (view t) /\
  s_local v = s_local (view (termctl d)) || s_local (view t) /\
  s_hangup v = s_hangup (view (termctl d)) || s_hangup (view t) /\
  (forall t0, termctl d = devinit t0 -> v = view t).
Proof.
  intros Hs Hc r v.
  destruct (show_words_known t Hs Hc) as [Hk Hp].
  assert (Hr : fst r = 0 /\ v = fold_left apply_word (show_words t) (view (termctl d))).
  { subst v r. rewrite show_devcfg_join. unfold devconfig. rewrite tokens_join by done.
    change (view (termctl d)) with (view (termctl (devconfig_clear d))). by apply devconfig_loop_known. }
  destruct Hr as [Hr Hv].
  rewrite fold_show_words in Hv by done.
  split; [done|]. rewrite Hv. cbn [s_speed s_two_stop s_csize s_parity s_xonxoff s_rtscts s_local s_hangup].
  split_and!; try done. intros t0 Ht0. rewrite Ht0, view_devinit. by destruct (view t).
Qed.

Definition demo_names : ConfigNames := {|
  find_banner p := if streq p (str "hello") then Some (str "welcome") else None;
  find_tracefile p := None
|}.

Definition zero_termios : termios := Termios 0 0 0 0 0 0 0 0.
Definition demo_dev : dev_info :=
  DevInfo (devinit zero_termios) false false None no_trace no_trace no_trace.
Definition demo_line : termios :=
  termctl (snd (@devconfig demo_names (str "115200,RTSCTS 7DATABITS ODD") demo_dev)).

Example demo_shown : concat (show_devcfg demo_line) = str "115200 RTSCTS 1STOPBIT 7DATABITS ODD".
Proof. reflexivity. Qed.
Example demo_serparm : serparm_to_str 15 demo_line = str "115200 O71".
Proof. reflexivity. Qed.
Example demo_unknown_speed : serparm_to_str 15 zero_termios = str "unknown speed ".
Proof. reflexivity. Qed.

Lemma show_devcfg_devconfig_witness :
  view (termctl (snd (@devconfig demo_names (concat (show_devcfg demo_line)) demo_dev))) = view demo_line.
Proof.
  apply (@show_devcfg_devconfig demo_names demo_line demo_dev) with (t0 := zero_termios);
    [apply (bool_decide_unpack _); reflexivity | left; reflexivity | reflexivity].
Defined.

(** [setdevcontrol] reads back what [show_devcontrol] prints: on any
    line it sets RTS and DTR to the printed levels and no other modem line;
    and a word it does not know stops it with -1, the words before it done. *)
Theorem setdevcontrol_show (a b : Z) (words : list cstr) (w : cstr) :
  Forall (fun w => is_Some (control_word w)) words -> control_word w = None ->
  Forall (plain blank) (words ++ [w]) ->
  (exists pieces b',
     show_devcontrol (Some a) = Ok pieces /\
     setdevcontrol (concat pieces) (Some b) = Ok (0, Some b') /\
     has TIOCM_RTS b' = has TIOCM_RTS a /\ has TIOCM_DTR b' = has TIOCM_DTR a /\
     Z.ldiff b' (Z.lor TIOCM_RTS TIOCM_DTR) = Z.ldiff b (Z.lor TIOCM_RTS TIOCM_DTR)) /\
  (exists b', setdevcontrol (join words) (Some b) = Ok (0, b') /\
     setdevcontrol (join (words ++ [w])) (Some b) = Ok (-1, b')).
Proof.
  intros Hw Hu Hp. split.
  - cbn [show_devcontrol].
    destruct (has TIOCM_RTS a) eqn:Er, (has TIOCM_DTR a) eqn:Ed; eexists; eexists;
      (split; [reflexivity|]); (split; [reflexivity|]); unfold has; bits;
      (split; [reflexivity|]); (split; [reflexivity|]);
      repeat first [rewrite ldiff_on by reflexivity | rewrite ldiff_off by reflexivity]; reflexivity.
  - unfold setdevcontrol. pose proof Hp as Hp'. apply Forall_app in Hp' as [Hp1 _].
    rewrite !tokens_join by done. clear Hp Hp1. revert b.
    induction Hw as [|v words [f Hf] Hw IH]; intros b; cbn [app setdevcontrol_loop].
    + rewrite Hu. by eexists.
    + rewrite Hf. cbn [modem_update mbind res_bind]. apply IH.
Qed.

Lemma setdevcontrol_show_witness :
  (exists pieces b',
     show_devcontrol (Some 4) = Ok pieces /\
     setdevcontrol (concat pieces) (Some 35) = Ok (0, Some b') /\
     has TIOCM_RTS b' = true /\ has TIOCM_DTR b' = false /\ Z.ldiff b' 6 = 33) /\
  (exists b', setdevcontrol (str "DTRLO") (Some 35) = Ok (0, b') /\
     setdevcontrol (str "DTRLO RTS") (Some 35) = Ok (-1, b')).
Proof.
  apply (setdevcontrol_show 4 35 [str "DTRLO"] (str "RTS"));
    [repeat constructor; eexists; reflexivity | reflexivity |].
  repeat constructor; discriminate.
Defined.
