(* ===== verification/ReadConfig.v ===== *)
(** * The configuration file: [ser2net/readconfig.c]

    Lines of the file become banners, trace files or calls of [portconfig].
    The static variables of the file are the record [rc]; the 257 bytes of
    [working_banner] are kept as an array, so that every [memcpy] into it is
    checked.  [portconfig] and [clear_old_port_config] (of [dataxfer.c]) are
    an interface ([Ports]) that promises nothing, not even that they return
    (their instance [dx_ports] of [PortConfig.v] can fail); what this file provides to [devcfg.c] is the
    instance [rc_names] of [ConfigNames].  Memory does not run out. *)

From S2P Require Import Prelude CStr Utils DevCfg.

(** ** State *)

Definition MAX_LINE_SIZE : nat := 256.
Definition MAX_BANNER_SIZE : Z := 256.

Inductive log_msg :=
  | BannerTruncated | NoBannerName | NoTracefileName | NoTracefile
  | NoState | NoTimeout | NoDevice | PortError (e : cstr) | LineTooLong | CannotOpen
  | TracefileNotFound.

(** [struct banner_s] and [struct tracefile_s]: name and text. *)
Record named := Named { n_name : cstr; n_str : cstr }.

Record rc := RC {
  config_num : Z;
  banner_continued : bool;
  working_banner_name : option cstr;
  working_banner : list ascii;
  working_banner_len : Z;
  banner_truncated : bool;
  lineno : Z;
  banners : list named;
  tracefiles : list named;
  syslog : list (log_msg * Z)
}.

(** The initial values of the static variables. *)
Definition rc_init : rc :=
  RC 0 false None (replicate 257 NUL) 0 false 0 [] [] [].

Definition set_lineno (n : Z) (s : rc) : rc :=
  RC (config_num s) (banner_continued s) (working_banner_name s) (working_banner s) (working_banner_len s)
     (banner_truncated s) n (banners s) (tracefiles s) (syslog s).
Definition set_config_num (n : Z) (s : rc) : rc :=
  RC n (banner_continued s) (working_banner_name s) (working_banner s) (working_banner_len s)
     (banner_truncated s) (lineno s) (banners s) (tracefiles s) (syslog s).
Definition log (m : log_msg) (s : rc) : rc :=
  RC (config_num s) (banner_continued s) (working_banner_name s) (working_banner s) (working_banner_len s)
     (banner_truncated s) (lineno s) (banners s) (tracefiles s) (syslog s ++ [(m, lineno s)]).
Definition set_tracefiles (l : list named) (s : rc) : rc :=
  RC (config_num s) (banner_continued s) (working_banner_name s) (working_banner s) (working_banner_len s)
     (banner_truncated s) (lineno s) (banners s) l (syslog s).
(** The fields of the banner being read. *)
Definition set_working (cont : bool) (name : option cstr) (m : list ascii) (len : Z) (trunc : bool) (s : rc) : rc :=
  RC (config_num s) cont name m len trunc (lineno s) (banners s) (tracefiles s) (syslog s).
Definition set_banners (l : list named) (s : rc) : rc :=
  RC (config_num s) (banner_continued s) (working_banner_name s) (working_banner s) (working_banner_len s)
     (banner_truncated s) (lineno s) l (tracefiles s) (syslog s).

(** [memcpy(m + off, data, n)], the bytes of [data] being in its object. *)
Definition memcpy (m : list ascii) (off : Z) (data : cstr) (n : Z) : res (list ascii) :=
  _ ← check ((0 <=? off) && (0 <=? n) && (off + n <=? Z.of_nat (length m)) && (n <=? slen data + 1)) OutOfBounds;
  let d := take (Z.to_nat n) (data ++ [NUL]) in
  Ok (take (Z.to_nat off) m ++ d ++ drop (Z.to_nat off + length d) m).

(** ** Banners *)

Definition handle_new_banner (s : rc) : res rc :=
  m ← store (working_banner s) (Z.to_nat (working_banner_len s)) NUL;
  let s := if banner_truncated s then log BannerTruncated s else s in
  match working_banner_name s with
  | None => Ok (set_working false None m 0 false s)
  | Some name =>
      Ok (set_working false None m 0 false (set_banners (Named name (cstr_of m) :: banners s) s))
  end.

(** [(len > 0) && (line[len-1] == '\\')] *)
Definition ends_backslash (line : cstr) : bool :=
  match line !! (length line - 1)%nat with Some c => c =c "\"%char | None => false end.

(** [line] is [None] for a null pointer, which [strlen] cannot take. *)
Definition handle_banner (name : cstr) (line : option cstr) (s : rc) : res rc :=
  match line with
  | None => Crash NullDeref
  | Some line =>
      let real_line_len := slen line in
      let trunc := MAX_BANNER_SIZE <=? real_line_len in
      let line_len := if trunc then MAX_BANNER_SIZE else real_line_len in
      m ← memcpy (working_banner s) 0 line line_len;
      let t := trunc || banner_truncated s in
      if ends_backslash line
      then Ok (set_working true (Some name) m (line_len - 1) t s)
      else handle_new_banner (set_working (banner_continued s) (Some name) m line_len t s)
  end.

Definition handle_continued_banner (line : cstr) (s : rc) : res rc :=
  let real_line_len := slen line in
  let trunc := MAX_BANNER_SIZE <? real_line_len + working_banner_len s in
  let line_len := if trunc then MAX_BANNER_SIZE - working_banner_len s else real_line_len in
  m ← memcpy (working_banner s) (working_banner_len s) line line_len;
  let len := working_banner_len s + line_len in
  let t := trunc || banner_truncated s in
  if ends_backslash line
  then Ok (set_working (banner_continued s) (working_banner_name s) m (len - 1) t s)
  else handle_new_banner (set_working (banner_continued s) (working_banner_name s) m len t s).

Fixpoint find_named (l : list named) (name : cstr) : option cstr :=
  match l with
  | [] => None
  | b :: l' => if streq name (n_name b) then Some (n_str b) else find_named l' name
  end.

Definition free_banners (s : rc) : rc :=
  set_banners [] (set_working false None (working_banner s) 0 false s).

(** ** Trace files *)

Definition handle_tracefile (name fname : cstr) (s : rc) : rc :=
  set_tracefiles (Named name fname :: tracefiles s) s.

Definition free_tracefiles (s : rc) : rc := set_tracefiles [] s.

(** [find_banner] and [find_tracefile], as [devconfig] sees them (the second
    also writes to the system log when it fails, which nothing reads). *)
Definition rc_names (s : rc) : ConfigNames := {|
  find_banner := find_named (banners s);
  find_tracefile := find_named (tracefiles s)
|}.

(** ** Lines *)

(** What [dataxfer.c] offers: [portconfig] answers an error text or null. *)
Class Ports (W : Type) := {
  portconfig : ConfigNames -> cstr -> cstr -> cstr -> cstr -> cstr -> Z -> ST W (option cstr);
  clear_old_port_config : Z -> ST W unit
}.

Section lines.
Context {W : Type} `{Ports W}.

Abbreviation M := (ST (rc * W)).

Definition upd (f : rc -> rc) : M unit := modify (fun '(s, w) => (f s, w)).
Definition upd_res (f : rc -> res rc) : M unit := fun '(s, w) =>
  match f s with Ok s' => Ok (tt, (s', w)) | Crash c => Crash c end.
Definition call_ports {A} (f : rc -> ST W A) : M A := fun '(s, w) =>
  match f s w with Ok (a, w') => Ok (a, (s, w')) | Crash c => Crash c end.

Definition colon (c : ascii) : bool := c =c ":"%char.
Definition newline (c : ascii) : bool := c =c NL.

(** [strtok_r(NULL, ...)]: the token and where the next call goes on; once no
    token is left, none is found later. *)
Definition next_tok (delim : ascii -> bool) (save : cstr) : option cstr * cstr :=
  match strtok delim save with Some (tok, rest) => (Some tok, rest) | None => (None, []) end.

Definition handle_port_line (portnum save : cstr) : M unit :=
  match next_tok colon save with
  | (None, _) => upd (log NoState)
  | (Some state, save) =>
      match next_tok colon save with
      | (None, _) => upd (log NoTimeout)
      | (Some timeout, save) =>
          match next_tok colon save with
          | (None, _) => upd (log NoDevice)
          | (Some devname, save) =>
              let devcfg := match next_tok colon save with (Some d, _) => d | (None, _) => [] end in
              errstr ← call_ports (fun s => portconfig (rc_names s) portnum state timeout devname devcfg (config_num s));
              match errstr with Some e => upd (log (PortError e)) | None => mret tt end
          end
      end
  end.

Definition handle_config_line (inbuf : cstr) : M unit :=
  upd (fun s => set_lineno (lineno s + 1) s) ≫= fun _ =>
  Prelude.get ≫= fun '(s, _) =>
  if banner_continued s then
    let str := match next_tok newline inbuf with (Some t, _) => t | (None, _) => [] end in
    upd_res (handle_continued_banner str)
  else if match inbuf with c :: _ => c =c "#"%char | [] => false end then mret tt
  else
    match next_tok colon inbuf with
    | (None, _) => mret tt
    | (Some portnum, save) =>
        if streq portnum (str "BANNER") then
          let '(name, save) := next_tok colon save in
          let '(text, _) := next_tok newline save in
          match name with
          | None => upd (log NoBannerName)
          | Some name => upd_res (handle_banner name text)
          end
        else if streq portnum (str "TRACEFILE") then
          let '(name, save) := next_tok colon save in
          let '(text, _) := next_tok newline save in
          match name with
          | None => upd (log NoTracefileName)
          | Some name =>
              match text with
              | Some (c :: t) => upd (handle_tracefile name (c :: t))
              | _ => upd (log NoTracefile)
              end
          end
        else handle_port_line portnum save
    end.

(** ** The file *)

(** [fgets(inbuf, size, stream)]: at most [size - 1] bytes, up to and with the
    first newline. *)
Fixpoint fgets (n : nat) (file : list ascii) : list ascii * list ascii :=
  match n, file with
  | O, _ => ([], file)
  | _, [] => ([], [])
  | S n', c :: file' =>
      if c =c NL then ([c], file') else let '(u, rest) := fgets n' file' in (c :: u, rest)
  end.

Fixpoint readconfig_loop (fuel : nat) (file : list ascii) : M unit :=
  match file with
  | [] => mret tt
  | _ =>
      match fuel with
      | O => lift_res (Crash NoFuel)
      | S fuel' =>
          let '(line, rest) := fgets (MAX_LINE_SIZE - 1) file in
          let inbuf := cstr_of line in
          match inbuf !! (length inbuf - 1)%nat with
          | None => lift_res (Crash OutOfBounds)             (* inbuf[-1] *)
          | Some c =>
              if c =c NL then
                handle_config_line (take (length inbuf - 1) inbuf) ≫= fun _ =>
                readconfig_loop fuel' rest
              else
                upd (fun s => log LineTooLong (set_lineno (lineno s + 1) s)) ≫= fun _ =>
                readconfig_loop fuel' rest
          end
      end
  end.

(** [file] is [None] when [fopen] fails. *)
Definition readconfig (file : option (list ascii)) : M Z :=
  upd (set_lineno 0) ≫= fun _ =>
  match file with
  | None => upd (log CannotOpen) ≫= fun _ => mret (-1)
  | Some bytes =>
      upd (fun s => free_tracefiles (free_banners s)) ≫= fun _ =>
      upd (fun s => set_config_num (config_num s + 1) s) ≫= fun _ =>
      readconfig_loop (length bytes) bytes ≫= fun _ =>
      call_ports (fun s => clear_old_port_config (config_num s)) ≫= fun _ =>
      mret 0
  end.
End lines.

(** ** The invariant *)

(** The working banner is 257 bytes of which at most 256 are in use, and a
    continued banner has a name. *)
Definition rc_ok (s : rc) : Prop :=
  length (working_banner s) = 257%nat /\ 0 <= working_banner_len s <= MAX_BANNER_SIZE /\
  (banner_continued s = true -> is_Some (working_banner_name s)).

Lemma rc_init_ok : rc_ok rc_init.
Proof. split_and!; done. Qed.

Lemma memcpy_Ok m off data n :
  0 <= off -> 0 <= n <= slen data -> off + n <= Z.of_nat (length m) ->
  exists m', memcpy m off data n = Ok m' /\ length m' = length m /\
    take (Z.to_nat (off + n)) m' = take (Z.to_nat off) m ++ take (Z.to_nat n) data.
Proof.
  intros Ho Hn Hl. unfold memcpy. unfold slen in *.
  rewrite check_true; [|rewrite !andb_true_iff; split_and!; apply Z.leb_le; lia].
  cbn [mbind res_bind]. rewrite take_app_le by lia. eexists. split; [done|].
  rewrite length_app, length_app, length_take, length_take, length_drop.
  split; [lia|]. rewrite app_assoc.
  rewrite take_app_le by (rewrite length_app, !length_take; lia).
  apply take_ge. rewrite length_app, !length_take. lia.
Qed.

Lemma handle_new_banner_Ok s :
  length (working_banner s) = 257%nat -> 0 <= working_banner_len s <= MAX_BANNER_SIZE ->
  NUL ∉ take (Z.to_nat (working_banner_len s)) (working_banner s) ->
  exists m, length m = 257%nat /\ handle_new_banner s =
    Ok (set_working false None m 0 false
      (let s1 := if banner_truncated s then log BannerTruncated s else s in
       match working_banner_name s with
       | Some name =>
           set_banners (Named name (take (Z.to_nat (working_banner_len s)) (working_banner s)) :: banners s) s1
       | None => s1
       end)).
Proof.
  intros Hl Hn Hnul. unfold handle_new_banner, MAX_BANNER_SIZE in *.
  rewrite store_Ok by (rewrite Hl; lia). cbn [mbind res_bind].
  set (n := Z.to_nat (working_banner_len s)) in *. eexists. split.
  { by rewrite length_insert. }
  assert (Hc : cstr_of (<[n:=NUL]> (working_banner s)) = take n (working_banner s)).
  { rewrite insert_take_drop by lia. by apply cstr_of_app. }
  destruct (banner_truncated s); cbn [working_banner_name log banners];
    destruct (working_banner_name s); rewrite ?Hc; reflexivity.
Qed.

Lemma rc_ok_log m s : rc_ok s -> rc_ok (log m s).
Proof. done. Qed.

(** A banner handed to the list leaves the working state empty. *)
Lemma handle_new_banner_ok s s' :
  length (working_banner s) = 257%nat -> handle_new_banner s = Ok s' ->
  rc_ok s' /\ config_num s' = config_num s /\ lineno s' = lineno s /\ tracefiles s' = tracefiles s.
Proof.
  unfold handle_new_banner. intros Hl H. apply res_bind_inv in H as (m & Hm & H).
  assert (Hm' : length m = 257%nat).
  { unfold store in Hm. case_bool_decide; [|discriminate]. injection Hm as <-. by rewrite length_insert. }
  destruct (banner_truncated s); cbn [working_banner_name log] in H;
    destruct (working_banner_name s); injection H as <-; split_and!; done || (cbn; lia).
Qed.

Lemma handle_new_banner_total s :
  length (working_banner s) = 257%nat -> 0 <= working_banner_len s <= MAX_BANNER_SIZE ->
  exists s', handle_new_banner s = Ok s'.
Proof.
  intros Hl Hn. unfold handle_new_banner, MAX_BANNER_SIZE in *. rewrite store_Ok by lia.
  cbn [mbind res_bind]. destruct (working_banner_name _); eauto.
Qed.

Lemma ends_backslash_pos line : ends_backslash line = true -> 0 < slen line.
Proof. unfold ends_backslash, slen. destruct line; simpl; [done | lia]. Qed.

(** [rc_kept s s']: what handling a banner never touches. *)
Definition rc_kept (s s' : rc) : Prop :=
  rc_ok s' /\ config_num s' = config_num s /\ lineno s' = lineno s /\ tracefiles s' = tracefiles s.

Lemma handle_banner_safe name line s : rc_ok s ->
  exists s', handle_banner name (Some line) s = Ok s' /\ rc_kept s s'.
Proof.
  intros (Hl & Hn & _). unfold handle_banner, MAX_BANNER_SIZE in *. cbv zeta.
  set (n := if 256 <=? slen line then 256 else slen line).
  assert (Hs : 0 <= slen line) by (unfold slen; lia).
  assert (Hn' : 0 <= n <= 256 /\ n <= slen line).
  { unfold n. destruct (Z.leb_spec 256 (slen line)); lia. }
  destruct (memcpy_Ok (working_banner s) 0 line n) as (m & -> & Hm & _); [lia..|].
  cbn [mbind res_bind]. destruct (ends_backslash line) eqn:E.
  - apply ends_backslash_pos in E. eexists. split; [done|]. unfold rc_kept, rc_ok. split_and!; cbn; try done; try lia.
    all: unfold n in *; unfold MAX_BANNER_SIZE; destruct (Z.leb_spec 256 (slen line)); try congruence; lia.
  - match goal with |- context [handle_new_banner ?s0] => destruct (handle_new_banner_total s0) as [s' Hs'];
      [cbn; congruence | cbn; unfold MAX_BANNER_SIZE; lia|]; rewrite Hs'; exists s'; split; [done|];
      apply handle_new_banner_ok in Hs'; [exact Hs' | cbn; congruence] end.
Qed.

Lemma handle_continued_banner_safe line s : rc_ok s -> banner_continued s = true ->
  exists s', handle_continued_banner line s = Ok s' /\ rc_kept s s'.
Proof.
  intros (Hl & Hn & Hc) Hcont. unfold handle_continued_banner, MAX_BANNER_SIZE in *. cbv zeta.
  set (n := if 256 <? slen line + working_banner_len s then 256 - working_banner_len s else slen line).
  assert (Hs : 0 <= slen line) by (unfold slen; lia).
  assert (Hn' : 0 <= n /\ n + working_banner_len s <= 256 /\ n <= slen line).
  { unfold n. destruct (Z.ltb_spec 256 (slen line + working_banner_len s)); lia. }
  destruct (memcpy_Ok (working_banner s) (working_banner_len s) line n) as (m & -> & Hm & _); [lia..|].
  cbn [mbind res_bind]. destruct (ends_backslash line) eqn:E.
  - apply ends_backslash_pos in E. eexists. split; [done|]. unfold rc_kept, rc_ok. split_and!; cbn; try done; try lia.
    all: unfold n in *; unfold MAX_BANNER_SIZE;
      destruct (Z.ltb_spec 256 (slen line + working_banner_len s)); first [congruence | lia | auto].
  - match goal with |- context [handle_new_banner ?s0] => destruct (handle_new_banner_total s0) as [s' Hs'];
      [cbn; congruence | cbn; unfold MAX_BANNER_SIZE; lia|]; rewrite Hs'; exists s'; split; [done|];
      apply handle_new_banner_ok in Hs'; [exact Hs' | cbn; congruence] end.
Qed.

(** ** Lines and the file *)

(** A [BANNER] line with a name and no text. *)
Definition null_banner_line (inbuf : cstr) : bool :=
  negb (match inbuf with c :: _ => c =c "#"%char | [] => false end) &&
  match next_tok colon inbuf with
  | (Some portnum, save) =>
      streq portnum (str "BANNER") &&
      match next_tok colon save with
      | (Some _, save) => match next_tok newline save with (None, _) => true | _ => false end
      | _ => false
      end
  | _ => false
  end.

(** The pieces [fgets] cuts a file into. *)
Fixpoint read_lines (fuel : nat) (file : list ascii) : list (list ascii) :=
  match file, fuel with
  | [], _ | _, O => []
  | _, S f => let '(line, rest) := fgets (MAX_LINE_SIZE - 1) file in line :: read_lines f rest
  end.

Lemma fgets_app n : forall file, fst (fgets n file) ++ snd (fgets n file) = file.
Proof.
  induction n as [|n IH]; intros [|c file]; try done. cbn [fgets].
  destruct (c =c NL); [done|]. specialize (IH file). destruct (fgets n file). simpl in *. by rewrite IH.
Qed.

Lemma fgets_pos n c file : exists u, fst (fgets (S n) (c :: file)) = c :: u.
Proof. cbn [fgets]. destruct (c =c NL); [eauto|]. destruct (fgets n file). simpl. eauto. Qed.

Lemma fgets_shorter n file : file <> [] -> (length (snd (fgets (S n) file)) < length file)%nat.
Proof.
  destruct file as [|c file]; [done|]. intros _. destruct (fgets_pos n c file) as [u E].
  pose proof (fgets_app (S n) (c :: file)) as H. rewrite E in H. apply (f_equal length) in H.
  rewrite length_app in H. simpl in *. lia.
Qed.

Lemma cstr_of_clean l : NUL ∉ l -> cstr_of l = l.
Proof.
  intros H. unfold cstr_of. rewrite skip_while_all; [done|]. apply List.Forall_forall.
  intros c Hc. apply negb_true_iff, Ascii.eqb_neq. intros ->. by apply H, list_elem_of_In.
Qed.

(** What [fgets] makes of a file, told of the pieces alone: they are the file
    cut in order, none is empty or longer than 255 bytes, a newline is only at
    the end of a piece, and a piece without one is full or the last. *)
Fixpoint cut (pieces : list (list ascii)) (file : list ascii) : Prop :=
  match pieces with
  | [] => file = []
  | u :: pieces' =>
      exists rest, file = u ++ rest /\ u <> [] /\ (length u <= 255)%nat /\ NL ∉ removelast u /\
        (list.last u = Some NL \/ length u = 255%nat \/ rest = []) /\ cut pieces' rest
  end.

Lemma fgets_piece n : forall file, let '(u, rest) := fgets n file in
  (length u <= n)%nat /\ NL ∉ removelast u /\ (list.last u = Some NL \/ length u = n \/ rest = []).
Proof.
  induction n as [|n IH]; intros [|c file]; cbn [fgets]; try (split_and!; [simpl; lia | set_solver | auto]).
  specialize (IH file). destruct (Ascii.eqb_spec c NL) as [->|Hc].
  - split_and!; [simpl; lia | set_solver | by left].
  - destruct (fgets n file) as [u rest]. destruct IH as (I1 & I2 & I3).
    split_and!; [simpl; lia | destruct u; set_solver |].
    destruct I3 as [I3|[I3|I3]]; [left; by destruct u | right; left; simpl; lia | by do 2 right].
Qed.

Lemma read_lines_cut : forall fuel file, (length file <= fuel)%nat -> cut (read_lines fuel file) file.
Proof.
  induction fuel as [|fuel IH]; intros [|c file] Hf; [done | simpl in Hf; lia | done |].
  cbn [read_lines]. pose proof (fgets_app (MAX_LINE_SIZE - 1) (c :: file)) as Happ.
  pose proof (fgets_piece (MAX_LINE_SIZE - 1) (c :: file)) as Hp.
  pose proof (fgets_shorter 254 (c :: file) ltac:(done)) as Hlt.
  destruct (fgets_pos 254 c file) as [u0 Hu]. change (S 254) with (MAX_LINE_SIZE - 1)%nat in Hlt, Hu.
  destruct (fgets (MAX_LINE_SIZE - 1) (c :: file)) as [u rest]. cbn [fst snd] in *.
  destruct Hp as (P1 & P2 & P3). exists rest. split_and!; [done | by rewrite Hu | done | done | done |].
  apply IH. simpl in *. lia.
Qed.

(** The five words of a port line, as [strtok_r] finds them. *)
Definition port_line (line : cstr) : option (cstr * cstr * cstr * cstr * cstr) :=
  match next_tok colon line with
  | (Some portnum, s1) =>
      match next_tok colon s1 with
      | (Some state, s2) =>
          match next_tok colon s2 with
          | (Some timeout, s3) =>
              match next_tok colon s3 with
              | (Some devname, s4) =>
                  Some (portnum, state, timeout, devname,
                        match next_tok colon s4 with (Some d, _) => d | (None, _) => [] end)
              | _ => None
              end
          | _ => None
          end
      | _ => None
      end
  | _ => None
  end.

Section safe.
Context {W : Type} `{Ports W}.

(** A piece of the file: a line to be handled or a part of one too long. *)
Definition handle_piece (u : list ascii) : ST (rc * W) unit :=
  if bool_decide (list.last u = Some NL) then handle_config_line (removelast u)
  else upd (fun s => log LineTooLong (set_lineno (lineno s + 1) s)).

Fixpoint handle_pieces (l : list (list ascii)) : ST (rc * W) unit :=
  match l with
  | [] => mret tt
  | u :: l' => handle_piece u ≫= fun _ => handle_pieces l'
  end.

(** [why s w line c]: the one reason for which a line fails, when no banner is
    being continued in the state before it. *)
Definition why (s : rc) (w : W) (line : cstr) (c : crash) : Prop :=
  banner_continued s = false /\
  (null_banner_line line = true /\ c = NullDeref \/
   exists portnum state timeout devname devcfg,
     port_line line = Some (portnum, state, timeout, devname, devcfg) /\
     portconfig (rc_names s) portnum state timeout devname devcfg (config_num s) w = Crash c).

(** [line_done s s']: what holds after a line. *)
Definition line_done (s s' : rc) : Prop :=
  rc_ok s' /\ config_num s' = config_num s /\ lineno s' = lineno s + 1.

Lemma handle_port_line_cases portnum line save s w : rc_ok s ->
  next_tok colon line = (Some portnum, save) ->
  (exists s' w', handle_port_line portnum save (s, w) = Ok (tt, (s', w')) /\
    rc_ok s' /\ config_num s' = config_num s /\ lineno s' = lineno s) \/
  (exists c state timeout devname devcfg, handle_port_line portnum save (s, w) = Crash c /\
    port_line line = Some (portnum, state, timeout, devname, devcfg) /\
    portconfig (rc_names s) portnum state timeout devname devcfg (config_num s) w = Crash c).
Proof.
  intros Hs E0. unfold handle_port_line, port_line. rewrite E0.
  destruct (next_tok colon save) as [[state|] save1]; [|left; by eexists _, _].
  destruct (next_tok colon save1) as [[timeout|] save2]; [|left; by eexists _, _].
  destruct (next_tok colon save2) as [[devname|] save3]; [|left; by eexists _, _].
  rewrite ST_bind_eq. unfold call_ports.
  match goal with |- context [portconfig ?a ?b ?c ?d ?e ?f ?g w] =>
    destruct (portconfig a b c d e f g w) as [[r w']|c0] eqn:E end.
  - left. destruct r; by eexists _, _.
  - right. by eexists c0, _, _, _, _.
Qed.

Lemma handle_config_line_cases inbuf s w : rc_ok s ->
  (exists s' w', handle_config_line inbuf (s, w) = Ok (tt, (s', w')) /\ line_done s s') \/
  (exists c, handle_config_line inbuf (s, w) = Crash c /\ why s w inbuf c).
Proof.
  intros Hs. unfold handle_config_line, why, line_done. rewrite (ST_bind_Ok _ _ _ _ _ eq_refl).
  set (s1 := set_lineno (lineno s + 1) s). assert (Hs1 : rc_ok s1) by done.
  rewrite (ST_bind_Ok _ _ _ _ _ eq_refl). change (banner_continued s) with (banner_continued s1).
  destruct (banner_continued s1) eqn:Ec.
  - left. unfold upd_res.
    match goal with |- context [handle_continued_banner ?x s1] =>
      destruct (handle_continued_banner_safe x s1 Hs1 Ec) as (s' & -> & Hk & Hn & Hl & _) end.
    eexists _, _. split; [done|]. by rewrite Hn, Hl.
  - unfold null_banner_line. destruct (match inbuf with c :: _ => c =c "#"%char | [] => false end).
    { left. by eexists _, _. }
    destruct (next_tok colon inbuf) as [[portnum|] save] eqn:E0; [|left; by eexists _, _].
    destruct (streq portnum (str "BANNER")).
    + destruct (next_tok colon save) as [name save1]. destruct (next_tok newline save1) as [text save2].
      destruct name as [name|]; [|left; by eexists _, _]. destruct text as [text|].
      * left. unfold upd_res. destruct (handle_banner_safe name text s1 Hs1) as (s' & -> & Hk & Hn & Hl & _).
        eexists _, _. split; [done|]. by rewrite Hn, Hl.
      * right. exists NullDeref. split; [done|]. split; [done|]. by left.
    + destruct (streq portnum (str "TRACEFILE")).
      * left. destruct (next_tok colon save) as [name save1]. destruct (next_tok newline save1) as [text save2].
        destruct name as [name|]; [|by eexists _, _]. destruct text as [[|c t]|]; by eexists _, _.
      * destruct (handle_port_line_cases portnum inbuf save s1 w Hs1 E0)
          as [(s' & w' & E & Hk & Hn & Hl)|(c & st & ti & dn & dc & E & Ep & Ec')].
        -- left. eexists _, _. split; [exact E|]. by rewrite Hn, Hl.
        -- right. exists c. split; [exact E|]. split; [done|]. right. by exists portnum, st, ti, dn, dc.
Qed.

Lemma handle_piece_cases u s w : rc_ok s ->
  (exists s' w', handle_piece u (s, w) = Ok (tt, (s', w')) /\ line_done s s') \/
  (exists line c, u = line ++ [NL] /\ handle_piece u (s, w) = Crash c /\ why s w line c).
Proof.
  intros Hs. unfold handle_piece. case_bool_decide as E; [|left; by eexists _, _].
  apply last_Some in E as [v ->]. rewrite removelast_last.
  destruct (handle_config_line_cases v s w Hs) as [Hok|(c & Ec & Hw)]; [by left | right; by exists v, c].
Qed.

(** The loop handles the pieces one after the other. *)
Lemma readconfig_loop_pieces : forall fuel file, (length file <= fuel)%nat -> NUL ∉ file ->
  forall x, readconfig_loop fuel file x = handle_pieces (read_lines fuel file) x.
Proof.
  induction fuel as [|fuel IH]; intros [|c0 file0] Hf Hnul x; [done | simpl in Hf; lia | done |].
  cbn [readconfig_loop read_lines]. set (file := c0 :: file0) in *.
  pose proof (fgets_app (MAX_LINE_SIZE - 1) file) as Happ.
  pose proof (fgets_shorter 254 file ltac:(done)) as Hlt. change (S 254) with (MAX_LINE_SIZE - 1)%nat in Hlt.
  destruct (fgets_pos 254 c0 file0) as [u Hu].
  change (fgets (S 254) (c0 :: file0)) with (fgets (MAX_LINE_SIZE - 1) file) in Hu.
  destruct (fgets (MAX_LINE_SIZE - 1) file) as [line rest]. cbn [fst snd] in *.
  assert (Hl : NUL ∉ line /\ NUL ∉ rest) by (rewrite <- Happ in Hnul; set_solver).
  destruct Hl as [Hl Hr]. rewrite cstr_of_clean by done.
  assert (Hlast : exists v c, line = v ++ [c]).
  { rewrite Hu. destruct (exists_last (l := c0 :: u)) as (v & c & E); [done|]. eauto. }
  destruct Hlast as (v & c & ->). rewrite length_app. cbn [length handle_pieces]. rewrite Nat.add_sub.
  rewrite list_lookup_middle by done. rewrite take_app_exact. unfold handle_piece. rewrite last_snoc.
  assert (Hrest : (length rest <= fuel)%nat) by lia. rewrite removelast_last.
  destruct (Ascii.eqb_spec c NL) as [->|Hc].
  - rewrite bool_decide_eq_true_2 by done. rewrite !ST_bind_eq.
    destruct (handle_config_line v x) as [[[] y]|]; [by apply IH | done].
  - rewrite bool_decide_eq_false_2 by congruence. rewrite !ST_bind_eq.
    unfold upd at 1 2, modify. destruct x as [s w]. by apply IH.
Qed.

Lemma handle_pieces_cases : forall l s w, rc_ok s ->
  (exists s' w', handle_pieces l (s, w) = Ok (tt, (s', w')) /\
     rc_ok s' /\ config_num s' = config_num s /\ lineno s' = lineno s + Z.of_nat (length l)) \/
  (exists pre line post s1 w1 c, l = pre ++ (line ++ [NL]) :: post /\
     handle_pieces pre (s, w) = Ok (tt, (s1, w1)) /\ config_num s1 = config_num s /\
     handle_pieces l (s, w) = Crash c /\ why s1 w1 line c).
Proof.
  induction l as [|u l IH]; intros s w Hs.
  { left. exists s, w. split_and!; [done..|]. simpl. lia. }
  cbn [handle_pieces]. destruct (handle_piece_cases u s w Hs) as [(s1 & w1 & E & Hs1 & Hn1 & Hl1)|(v & c & -> & E & Hw)].
  - destruct (IH s1 w1 Hs1) as [(s2 & w2 & E2 & Hs2 & Hn2 & Hl2)|(pre & v & post & s2 & w2 & c & -> & E2 & Hn2 & E3 & Hw)].
    + left. exists s2, w2. rewrite (ST_bind_Ok _ _ _ _ _ E). split_and!; [done | done | congruence|]. simpl. lia.
    + right. exists (u :: pre), v, post, s2, w2, c. rewrite (ST_bind_Ok _ _ _ _ _ E). split_and!; try done; [|congruence].
      cbn [handle_pieces]. by rewrite (ST_bind_Ok _ _ _ _ _ E).
  - right. exists [], v, l, s, w, c. rewrite ST_bind_eq, E. by split_and!.
Qed.
End safe.

(** ** Banners of several lines *)

Definition BANNER_HEAD (name : cstr) : cstr := str "BANNER:" ++ name ++ [":"%char].
Definition continue (t : cstr) : cstr := t ++ ["\"%char].

(** The lines of the file for a banner [ts] followed by [last]: every line but
    the last ends in a backslash. *)
Definition banner_lines (name : cstr) (ts : list cstr) (last : cstr) : list cstr :=
  match ts with
  | [] => [BANNER_HEAD name ++ last]
  | t :: ts' => (BANNER_HEAD name ++ continue t) :: map continue ts' ++ [last]
  end.

(** The text [p] is in the working banner. *)
Definition working (p : cstr) (s : rc) : Prop :=
  length (working_banner s) = 257%nat /\ working_banner_len s = slen p /\
  take (length p) (working_banner s) = p.

Lemma ends_backslash_continue t : ends_backslash (continue t) = true.
Proof.
  unfold ends_backslash, continue. rewrite length_app. cbn [length]. rewrite Nat.add_sub.
  by rewrite list_lookup_middle.
Qed.

Lemma next_line t : NL ∉ t ->
  match next_tok newline t with (Some u, _) => u | (None, _) => [] end = t /\
  (t <> [] -> next_tok newline t = (Some t, [])).
Proof.
  intros Ht. assert (HF : Forall (fun c => newline c = false) t).
  { apply List.Forall_forall. intros c Hc. apply Ascii.eqb_neq. intros ->. by apply Ht, list_elem_of_In. }
  destruct t as [|c t]; [done|].
  pose proof (strtok_first newline (c :: t) [] ltac:(done) HF I) as E. rewrite app_nil_r in E.
  unfold next_tok. by rewrite E.
Qed.

(** [memcpy] after the text already there extends it. *)
Lemma working_memcpy p t data s :
  length (working_banner s) = 257%nat -> take (length p) (working_banner s) = p ->
  slen p + slen data <= 256 -> (exists u, data = t ++ u) ->
  exists m, memcpy (working_banner s) (slen p) data (slen data) = Ok m /\ length m = 257%nat /\
    take (length (p ++ t)) m = p ++ t.
Proof.
  intros Hl Hp Hle [u ->].
  destruct (memcpy_Ok (working_banner s) (slen p) (t ++ u) (slen (t ++ u))) as (m & E & Hm & Ht);
    [unfold slen; lia | unfold slen; lia | lia |].
  exists m. split; [done|]. split; [congruence|]. unfold slen in Ht at 1 2 3. rewrite Nat2Z.id, Hp in Ht.
  apply (f_equal (take (length (p ++ t)))) in Ht. rewrite take_take in Ht.
  rewrite Nat.min_l in Ht by (unfold slen; rewrite !length_app; lia). rewrite Ht.
  rewrite (take_ge (t ++ u)) by (unfold slen; lia). rewrite app_assoc. apply take_app_exact.
Qed.

(** The state that follows a complete banner. *)
Definition banner_done (name text : cstr) (s s' : rc) : Prop :=
  banners s' = Named name text :: banners s /\ syslog s' = syslog s /\
  banner_continued s' = false /\ banner_truncated s' = false /\
  lineno s' = lineno s /\ tracefiles s' = tracefiles s /\ config_num s' = config_num s.

Lemma handle_new_banner_done name p s :
  working p s -> slen p <= 256 -> NUL ∉ p -> banner_truncated s = false -> working_banner_name s = Some name ->
  exists s', handle_new_banner s = Ok s' /\ banner_done name p s s'.
Proof.
  intros (Hl & Hn & Ht) Hle Hnul Htr Hname.
  assert (Hp : take (Z.to_nat (working_banner_len s)) (working_banner s) = p).
  { rewrite Hn. unfold slen. by rewrite Nat2Z.id. }
  destruct (handle_new_banner_Ok s) as (m & Hm & E);
    [done | unfold MAX_BANNER_SIZE; unfold slen in *; lia | by rewrite Hp |].
  rewrite E, Htr, Hname, Hp. eexists. split; [reflexivity|]. by split_and!.
Qed.

(** A continued line goes behind the text read so far. *)
Lemma continue_step name p t s :
  working p s -> slen p + slen t < 256 -> banner_truncated s = false ->
  working_banner_name s = Some name -> banner_continued s = true ->
  exists s', handle_continued_banner (continue t) s = Ok s' /\ working (p ++ t) s' /\
    banner_truncated s' = false /\ working_banner_name s' = Some name /\ banner_continued s' = true /\
    banners s' = banners s /\ syslog s' = syslog s /\ lineno s' = lineno s /\
    tracefiles s' = tracefiles s /\ config_num s' = config_num s.
Proof.
  intros (Hl & Hn & Ht) Hle Htr Hname Hc. unfold handle_continued_banner. cbv zeta.
  assert (Hs : slen (continue t) = slen t + 1) by (unfold continue; by rewrite slen_app).
  unfold MAX_BANNER_SIZE. rewrite (proj2 (Z.ltb_ge _ _)) by lia. rewrite Hn.
  destruct (working_memcpy p t (continue t) s Hl Ht) as (m & -> & Hm & Htk); [lia | by eexists |].
  cbn [mbind res_bind]. rewrite ends_backslash_continue. eexists. split; [done|].
  split; [|by split_and!]. split_and!; cbn; [done | rewrite slen_app; lia | done].
Qed.

Lemma last_step name p last s :
  working p s -> slen p + slen last < 256 -> banner_truncated s = false ->
  working_banner_name s = Some name -> NUL ∉ p -> NUL ∉ last -> ends_backslash last = false ->
  exists s', handle_continued_banner last s = Ok s' /\ banner_done name (p ++ last) s s'.
Proof.
  intros (Hl & Hn & Ht) Hle Htr Hname Hp1 Hp2 He. unfold handle_continued_banner. cbv zeta.
  unfold MAX_BANNER_SIZE. rewrite (proj2 (Z.ltb_ge _ _)) by lia. rewrite Hn.
  destruct (working_memcpy p last last s Hl Ht) as (m & -> & Hm & Htk);
    [lia | exists []; by rewrite app_nil_r |].
  cbn [mbind res_bind]. rewrite He.
  match goal with |- context [handle_new_banner ?s0] =>
    destruct (handle_new_banner_done name (p ++ last) s0) as (s' & -> & Hd) end;
    [split_and!; cbn; [done | by rewrite slen_app | done] | rewrite slen_app; lia | set_solver | by cbn; rewrite Htr | done |].
  exists s'. split; [done|]. exact Hd.
Qed.

Section banner_lines.
Context {W : Type} `{Ports W}.

(** Lines handed to [handle_config_line] one after the other. *)
Fixpoint handle_lines (lines : list cstr) : ST (rc * W) unit :=
  match lines with
  | [] => mret tt
  | l :: lines' => handle_config_line l ≫= fun _ => handle_lines lines'
  end.

Lemma handle_line_continued line s w : NL ∉ line -> banner_continued s = true ->
  handle_config_line line (s, w) =
    match handle_continued_banner line (set_lineno (lineno s + 1) s) with
    | Ok s' => Ok (tt, (s', w)) | Crash c => Crash c end.
Proof.
  intros Hl Hc. unfold handle_config_line. rewrite 2!(ST_bind_Ok _ _ _ _ _ eq_refl).
  cbn [banner_continued set_lineno]. rewrite Hc. by rewrite (proj1 (next_line line Hl)).
Qed.

Lemma handle_line_banner name text s w :
  name <> [] -> ":"%char ∉ name -> text <> [] -> NL ∉ text -> banner_continued s = false ->
  handle_config_line (BANNER_HEAD name ++ text) (s, w) =
    match handle_banner name (Some text) (set_lineno (lineno s + 1) s) with
    | Ok s' => Ok (tt, (s', w)) | Crash c => Crash c end.
Proof.
  intros Hne Hcol Hte Hnl Hc. unfold handle_config_line. rewrite 2!(ST_bind_Ok _ _ _ _ _ eq_refl).
  cbn [banner_continued set_lineno]. rewrite Hc.
  assert (E1 : next_tok colon (BANNER_HEAD name ++ text) = (Some (str "BANNER"), name ++ ":"%char :: text)).
  { unfold next_tok, BANNER_HEAD.
    replace ((str "BANNER:" ++ name ++ [":"%char]) ++ text)
      with (str "BANNER" ++ ":"%char :: name ++ ":"%char :: text) by (by rewrite <- !app_assoc).
    rewrite strtok_first; [done | done | repeat constructor | done]. }
  rewrite E1. assert (E2 : next_tok colon (name ++ ":"%char :: text) = (Some name, text)).
  { unfold next_tok. rewrite strtok_first; [done | done | | done]. apply List.Forall_forall.
    intros c Hin. apply Ascii.eqb_neq. intros ->. by apply Hcol, list_elem_of_In. }
  cbn [BANNER_HEAD app]. rewrite E2, (proj2 (next_line text Hnl) Hte).
  reflexivity.
Qed.
End banner_lines.

(** The first line of a banner: complete, or to be continued. *)
Lemma first_line_last name last s :
  length (working_banner s) = 257%nat -> slen last < 256 -> banner_truncated s = false ->
  banner_continued s = false -> NUL ∉ last -> ends_backslash last = false ->
  exists s', handle_banner name (Some last) s = Ok s' /\ banner_done name last s s'.
Proof.
  intros Hl Hle Htr Hc Hp He. unfold handle_banner, MAX_BANNER_SIZE. cbv zeta.
  rewrite (proj2 (Z.leb_gt _ _)) by lia.
  destruct (working_memcpy [] last last s Hl eq_refl) as (m & Em & Hm & Htk);
    [unfold slen in *; cbn; lia | exists []; by rewrite app_nil_r |].
  change (slen []) with 0 in Em. rewrite Em. cbn [mbind res_bind]. rewrite He.
  match goal with |- context [handle_new_banner ?s0] =>
    destruct (handle_new_banner_done name last s0) as (s' & -> & Hd) end;
    [by split_and! | lia | done | done | done |].
  exists s'. split; [done|]. exact Hd.
Qed.

Lemma first_line_continue name t s :
  length (working_banner s) = 257%nat -> slen t < 255 -> banner_truncated s = false ->
  exists s', handle_banner name (Some (continue t)) s = Ok s' /\ working t s' /\
    banner_truncated s' = false /\ working_banner_name s' = Some name /\ banner_continued s' = true /\
    banners s' = banners s /\ syslog s' = syslog s /\ lineno s' = lineno s /\
    tracefiles s' = tracefiles s /\ config_num s' = config_num s.
Proof.
  intros Hl Hle Htr. unfold handle_banner, MAX_BANNER_SIZE. cbv zeta.
  assert (Hs : slen (continue t) = slen t + 1) by (unfold continue; by rewrite slen_app).
  rewrite (proj2 (Z.leb_gt _ _)) by lia.
  destruct (working_memcpy [] t (continue t) s Hl eq_refl) as (m & Em & Hm & Htk);
    [change (slen []) with 0; lia | by eexists |].
  change (slen []) with 0 in Em. rewrite Em. cbn [mbind res_bind]. rewrite ends_backslash_continue.
  eexists. split; [done|]. split; [|by split_and!]. split_and!; cbn; [done | lia | done].
Qed.

(** The lines after the first. *)
Lemma rest_lines {W} `{Ports W} name ts last (w : W) : forall p s,
  working p s -> slen p + slen (concat ts ++ last) < 255 -> banner_truncated s = false ->
  working_banner_name s = Some name -> banner_continued s = true ->
  NUL ∉ p -> NUL ∉ concat ts ++ last -> NL ∉ concat ts ++ last -> ends_backslash last = false ->
  exists s', handle_lines (map continue ts ++ [last]) (s, w) = Ok (tt, (s', w)) /\
    banner_done name (p ++ concat ts ++ last) (set_lineno (lineno s + Z.of_nat (S (length ts))) s) s'.
Proof.
  induction ts as [|t ts IH]; intros p s Hw Hle Htr Hname Hc Hp Hnul Hnl He; cbn [map app concat handle_lines] in *.
  - rewrite ST_bind_eq, handle_line_continued by done.
    destruct (last_step name p last (set_lineno (lineno s + 1) s)) as (s' & -> & Hd);
      [exact Hw | lia | done..|]. eexists. split; [done|]. exact Hd.
  - rewrite <- app_assoc in *. rewrite slen_app in Hle.
    assert (Ht : NL ∉ continue t) by (unfold continue; set_solver).
    rewrite ST_bind_eq, handle_line_continued by done.
    destruct (continue_step name p t (set_lineno (lineno s + 1) s))
      as (s1 & -> & Hw1 & Htr1 & Hname1 & Hc1 & Hb & Hlog & Hln & Htf & Hcn);
      [exact Hw | unfold slen in *; lia | done..|].
    destruct (IH (p ++ t) s1) as (s' & E & Hd); [done | rewrite slen_app; lia | done.. | set_solver | set_solver | set_solver | done |].
    exists s'. split; [exact E|]. rewrite <- app_assoc in Hd.
    destruct Hd as (D1 & D2 & D3 & D4 & D5 & D6 & D7). cbn [lineno set_lineno banners syslog tracefiles config_num] in *.
    split_and!; cbn [lineno set_lineno banners syslog tracefiles config_num]; try congruence.
    rewrite D5, Hln. cbn [length]. lia.
Qed.

(** ** Properties *)

(** The state when the first line is read. *)
Definition opened (s : rc) : rc :=
  set_config_num (config_num s + 1) (free_tracefiles (free_banners (set_lineno 0 s))).

(** C26: reading a configuration file without NUL bytes, whatever [portconfig]
    and [clear_old_port_config] do: the pieces [fgets] cuts the file into are
    handled in order, each counted as a line, and the 257 bytes of the banner
    are respected; either all of them are handled, then the ports of an older
    configuration than the new number are cleared and the answer is 0; or
    there is a first line that fails, all before it being handled, and it is a
    [BANNER] line with a name and no text, which dereferences a null pointer,
    or a port line for whose words [portconfig] itself fails. *)
Theorem readconfig_safe {W} `{Ports W} (file : list ascii) (s : rc) (w : W) : NUL ∉ file -> rc_ok s ->
  exists pieces, cut pieces file /\
  ((exists s' w', handle_pieces pieces (opened s, w) = Ok (tt, (s', w')) /\ rc_ok s' /\
      config_num s' = config_num s + 1 /\ lineno s' = Z.of_nat (length pieces) /\
      readconfig (Some file) (s, w) =
        match clear_old_port_config (config_num s + 1) w' with
        | Ok (_, w2) => Ok (0, (s', w2))
        | Crash c => Crash c
        end) \/
   (exists pre line post s1 w1 c, pieces = pre ++ (line ++ [NL]) :: post /\
      handle_pieces pre (opened s, w) = Ok (tt, (s1, w1)) /\ config_num s1 = config_num s + 1 /\
      why s1 w1 line c /\ readconfig (Some file) (s, w) = Crash c)).
Proof.
  intros Hnul Hs. exists (read_lines (length file) file). split; [by apply read_lines_cut|].
  unfold readconfig. rewrite 3!(ST_bind_Ok _ _ _ _ _ eq_refl).
  change (set_config_num _ (free_tracefiles _)) with (opened s).
  assert (Hs1 : rc_ok (opened s)) by (destruct Hs as (? & ? & ?); split_and!; done).
  rewrite ST_bind_eq, readconfig_loop_pieces by done.
  destruct (handle_pieces_cases (read_lines (length file) file) (opened s) w Hs1)
    as [(s' & w' & E & Hs' & Hn & Hl)|(pre & v & post & s1 & w1 & c & El & E1 & Hn & E & Hw)].
  - left. exists s', w'. split_and!; [done | done | done | exact Hl |]. rewrite E, ST_bind_eq. unfold call_ports.
    rewrite Hn. change (config_num (opened s)) with (config_num s + 1).
    by destruct (clear_old_port_config (config_num s + 1) w') as [[[] w2]|].
  - right. exists pre, v, post, s1, w1, c. by rewrite E.
Qed.

(** Ports that only record the lines they were given. *)
Definition recorded := (list (list cstr * Z))%type.
Definition demo_ports : Ports recorded := {|
  portconfig := fun _ a b c d e n w => Ok (None, w ++ [([a; b; c; d; e], n)]);
  clear_old_port_config := fun n w => Ok (tt, w)
|}.

Definition lines_text (l : list string) : list ascii := concat (map (fun x => str x ++ [NL]) l).

Definition demo_file : list ascii :=
  lines_text ["# ports"; "BANNER:b1:hello \"; "world"; "2000:telnet:600:/dev/ttyS0:9600 b1"]%string.

Example demo_readconfig :
  match @readconfig _ demo_ports (Some demo_file) (rc_init, []) with
  | Ok (rv, (s, w)) =>
      rv = 0 /\ banners s = [Named (str "b1") (str "hello world")] /\ syslog s = [] /\
      w = [([str "2000"; str "telnet"; str "600"; str "/dev/ttyS0"; str "9600 b1"], 1)]
  | Crash _ => False
  end.
Proof. vm_compute. done. Qed.

Example demo_null_banner :
  @readconfig _ demo_ports (Some (lines_text ["BANNER:b1:"]%string)) (rc_init, []) = Crash NullDeref.
Proof. vm_compute. done. Qed.

(** A line for which a [portconfig] fails: the file stops there. *)
Definition failing_ports : Ports recorded := {|
  portconfig := fun _ a b c d e n w => if streq a (str ",") then Crash OutOfBounds else Ok (None, w ++ [([a; b; c; d; e], n)]);
  clear_old_port_config := fun n w => Ok (tt, w)
|}.

Example demo_failing :
  @readconfig _ failing_ports (Some (lines_text ["2000:raw:0:/dev/x"; ",:raw:0:/dev/x"]%string)) (rc_init, []) = Crash OutOfBounds.
Proof. vm_compute. done. Qed.

Lemma readconfig_safe_witness :
  exists pieces, cut pieces demo_file /\
  ((exists s' w', @handle_pieces _ demo_ports pieces (opened rc_init, []) = Ok (tt, (s', w')) /\ rc_ok s' /\
      config_num s' = 1 /\ lineno s' = Z.of_nat (length pieces) /\
      @readconfig _ demo_ports (Some demo_file) (rc_init, []) = Ok (0, (s', w'))) \/
   (exists pre line post s1 w1 c, pieces = pre ++ (line ++ [NL]) :: post /\
      @handle_pieces _ demo_ports pre (opened rc_init, []) = Ok (tt, (s1, w1)) /\ config_num s1 = 1 /\
      @why _ demo_ports s1 w1 line c /\ @readconfig _ demo_ports (Some demo_file) (rc_init, []) = Crash c)).
Proof.
  apply (@readconfig_safe _ demo_ports demo_file rc_init []);
    [apply (bool_decide_unpack _); vm_compute; reflexivity | split_and!; done].
Defined.

(** A banner written over several lines, each but the last ending in a
    backslash, is put together: after its lines the newest banner has the
    texts in order without the backslashes, [find_banner] finds it, nothing
    was logged and no port was touched.  (The text has to be shorter than the
    255 bytes that fit with a backslash.) *)
Theorem banner_assembled {W} `{Ports W} name ts last (s : rc) (w : W) :
  name <> [] -> ":"%char ∉ name -> NUL ∉ concat ts ++ last -> NL ∉ concat ts ++ last ->
  ends_backslash last = false -> (ts = [] -> last <> []) -> slen (concat ts ++ last) < 255 ->
  rc_ok s -> banner_continued s = false -> banner_truncated s = false ->
  exists s', handle_lines (banner_lines name ts last) (s, w) = Ok (tt, (s', w)) /\
    banners s' = Named name (concat ts ++ last) :: banners s /\
    @find_banner (rc_names s') name = Some (concat ts ++ last) /\
    syslog s' = syslog s /\ banner_continued s' = false /\ tracefiles s' = tracefiles s /\
    lineno s' = lineno s + Z.of_nat (S (length ts)).
Proof.
  intros Hne Hcol Hnul Hnl He Hlast Hle (Hl & _) Hc Htr.
  assert (Hgoal : exists s', handle_lines (banner_lines name ts last) (s, w) = Ok (tt, (s', w)) /\
    banner_done name (concat ts ++ last) (set_lineno (lineno s + Z.of_nat (S (length ts))) s) s').
  { destruct ts as [|t ts]; cbn [banner_lines handle_lines].
    - rewrite ST_bind_eq, handle_line_banner by auto.
      destruct (first_line_last name last (set_lineno (lineno s + 1) s)) as (s' & -> & Hd);
        [done | cbn in Hle; lia | done..|]. eexists. split; [done|]. exact Hd.
    - cbn [concat] in *. rewrite <- app_assoc in *. rewrite slen_app in Hle.
      assert (Ht : NL ∉ continue t /\ continue t <> []) by (unfold continue; split; [set_solver | by destruct t]).
      rewrite ST_bind_eq, handle_line_banner by (done || apply Ht).
      destruct (first_line_continue name t (set_lineno (lineno s + 1) s))
        as (s1 & -> & Hw1 & Htr1 & Hname1 & Hc1 & Hb & Hlog & Hln & Htf & Hcn);
        [done | unfold slen in *; lia | done |].
      destruct (rest_lines name ts last w t s1) as (s' & E & Hd);
        [done | lia | done.. | set_solver | set_solver | set_solver | done |].
      exists s'. split; [exact E|].
      destruct Hd as (D1 & D2 & D3 & D4 & D5 & D6 & D7). cbn [lineno set_lineno banners syslog tracefiles config_num] in *.
      split_and!; cbn [lineno set_lineno banners syslog tracefiles config_num]; try congruence.
      rewrite D5, Hln. cbn [length]. lia. }
  destruct Hgoal as (s' & E & D1 & D2 & D3 & D4 & D5 & D6 & D7). exists s'. split; [exact E|].
  split_and!; try done. cbn [rc_names find_banner]. rewrite D1. cbn [find_named n_name n_str].
  unfold streq. by rewrite bool_decide_eq_true_2.
Qed.

Lemma banner_assembled_witness :
  exists s', @handle_lines _ demo_ports (banner_lines (str "b1") [str "hello "; str ""] (str "world")) (rc_init, [])
      = Ok (tt, (s', [])) /\
    banners s' = [Named (str "b1") (str "hello world")] /\
    @find_banner (rc_names s') (str "b1") = Some (str "hello world") /\
    syslog s' = [] /\ banner_continued s' = false /\ tracefiles s' = [] /\ lineno s' = 3.
Proof.
  apply (@banner_assembled _ demo_ports (str "b1") [str "hello "; str ""] (str "world") rc_init []);
    solve [discriminate | apply (bool_decide_unpack _); reflexivity | reflexivity | apply rc_init_ok].
Defined.
