(* ===== verification/PortData.v ===== *)
(** * The ports: data of [ser2net/dataxfer.c]

    [port_info] and the static variables of the file ([dx]), the system calls
    the file makes (the interface [Kernel], with what they promise in
    [KernelLaws]), and the operations on one port that everything else is
    made of: initialisation, the idle timer, and the traces. *)

From S2P Require Import Prelude CStr SelHeap Selector Telnet Utils DevCfg.

(** ** The system *)

Inductive errno := EINTR | EAGAIN | EPIPE | EOTHER.
#[global] Instance errno_eq_dec : EqDecision errno.
Proof. solve_decision. Defined.

(** The answer of a system call: a value, or -1 and [errno]. *)
Inductive sysres (A : Type) := Done (a : A) | Failed (e : errno).
Arguments Done {A}.
Arguments Failed {A}.

(** [sys_timestamp] is the text [strftime] gives for the current time with the
    format of [timestamp]; [interrupts] bounds the signals that can still
    interrupt a write, the measure of the retry loops. *)
Class Kernel (K : Type) := {
  sys_read : Z -> nat -> K -> sysres (list Z) * K;
  sys_write : Z -> list Z -> K -> sysres nat * K;
  sys_close : Z -> K -> K;
  sys_tcflush : Z -> K -> K;
  sys_sendbreak : Z -> K -> K;
  sys_unlink : cstr -> K -> K;
  sys_syslog : string -> K -> K;
  sys_tiocmget : Z -> K -> option Z;
  sys_now : K -> timeval;
  sys_timestamp : K -> list Z;
  sys_ntop : Z -> list Z;
  interrupts : K -> nat
}.

(** What is relied on: a write takes a prefix of the bytes, and some of them
    when there are any; interruptions come to an end; a read answers at most
    as many bytes as asked.  [sent k fd] is what [fd] has taken so far and
    [received k fd] what it has delivered; only writes and reads of [fd] add
    to them, [tcflush], which drops what is under way, as little as [close]. *)
Class KernelLaws (K : Type) `{Kernel K} := {
  sent : K -> Z -> list Z;
  received : K -> Z -> list Z;
  quiet (k k' : K) : Prop :=
    (forall fd, sent k' fd = sent k fd) /\ (forall fd, received k' fd = received k fd) /\
    (interrupts k' <= interrupts k)%nat;
  write_done fd b k n k' : sys_write fd b k = (Done n, k') ->
    (n <= length b)%nat /\ (b <> [] -> 0 < n)%nat /\ sent k' fd = sent k fd ++ take n b /\
    (forall fd', fd' <> fd -> sent k' fd' = sent k fd') /\
    (forall fd', received k' fd' = received k fd') /\ (interrupts k' <= interrupts k)%nat;
  write_failed fd b k e k' : sys_write fd b k = (Failed e, k') ->
    quiet k k' /\ (e = EINTR -> interrupts k' < interrupts k)%nat;
  read_done fd n k d k' : sys_read fd n k = (Done d, k') ->
    (length d <= n)%nat /\ (forall fd', sent k' fd' = sent k fd') /\ received k' fd = received k fd ++ d /\
    (forall fd', fd' <> fd -> received k' fd' = received k fd') /\ (interrupts k' <= interrupts k)%nat;
  read_failed fd n k e k' : sys_read fd n k = (Failed e, k') -> quiet k k';
  syslog_quiet m k : quiet k (sys_syslog m k);
  close_quiet fd k : quiet k (sys_close fd k);
  tcflush_quiet fd k : quiet k (sys_tcflush fd k);
  timestamp_length k : (length (sys_timestamp k) <= 20)%nat
}.

(** ** The terminal driver *)

(** [tcgetattr] ([None] for -1), [tcsetattr] with [TCSANOW], the ioctls
    [TIOCMBIS], [TIOCMBIC], [TIOCSBRK] and [TIOCCBRK] (true unless -1),
    [tcflow] (true for [TCION]) and [tcflush]. *)
Class Tty (K : Type) := {
  tty_getattr : Z -> K -> option termios;
  tty_setattr : Z -> termios -> K -> K;
  tty_mbis : Z -> Z -> K -> K;
  tty_mbic : Z -> Z -> K -> K;
  tty_sbrk : Z -> K -> bool * K;
  tty_cbrk : Z -> K -> bool * K;
  tty_flow : Z -> bool -> K -> K;
  tty_flush : Z -> Z -> K -> K
}.

(** The driver takes the attributes it is given. *)
Class TtyLaws (K : Type) `{Tty K} : Prop := {
  getattr_setattr fd t k : tty_getattr fd (tty_setattr fd t k) = Some t
}.

(** ** The data *)

Definition PORT_UNCONNECTED : Z := 0.
Definition PORT_WAITING_INPUT : Z := 1.
Definition PORT_WAITING_OUTPUT_CLEAR : Z := 2.

Definition PORT_DISABLED : Z := 0.
Definition PORT_RAW : Z := 1.
Definition PORT_RAWLP : Z := 2.
Definition PORT_TELNET : Z := 3.

Definition PORT_BUFSIZE : nat := 1024.

(** [trace_t]; the file is -1 when not used. *)
Record trace_t := Trace { tr_hexdump : bool; tr_timestamp : bool; tr_file : Z }.

(** One direction of the transfer: [tcp_to_dev_*] or [dev_to_tcp_*]. *)
Record flow := Flow { fl_state : Z; fl_buf : list Z; fl_start : Z; fl_count : Z }.

(** The four byte counts, [unsigned int]. *)
Record counts := Counts { tcp_rx : Z; tcp_tx : Z; dev_rx : Z; dev_tx : Z }.

(** The RFC 2217 fields. *)
Record rfc2217 := Rfc2217 {
  is_2217 : bool; break_set : bool;
  linestate_mask : Z; modemstate_mask : Z; last_modemstate : Z
}.

(** What the configuration gives. *)
Record port_conf := PortConf {
  timeout : Z; portname : option cstr; tcpport : sockaddr_in; devname : option cstr; dinfo : dev_info
}.

(** [port_info_t], its fields grouped.  [next] is the order of the list
    [ports] of [dx]; pointers are addresses in [pheap]. *)
Record port_info := PortInfo {
  conf : port_conf;
  enabled : Z;
  timeout_left : Z;
  timer : ptr;
  acceptfd : Z;
  tcpfd : Z;
  devfd : Z;
  remote : sockaddr_in;
  bytes : counts;
  tcp_to_dev : flow;
  dev_to_tcp : flow;
  tcp_monitor : option ptr;
  dev_monitor : option ptr;
  config_num : Z;
  new_config : option ptr;
  tn_data : telnet_data;
  rfc : rfc2217;
  wt : trace_t;
  rt : trace_t;
  bt : trace_t
}.

Definition set_enabled (v : Z) (p : port_info) : port_info :=
  PortInfo (conf p) v (timeout_left p) (timer p) (acceptfd p) (tcpfd p) (devfd p) (remote p) (bytes p)
    (tcp_to_dev p) (dev_to_tcp p) (tcp_monitor p) (dev_monitor p) (config_num p) (new_config p) (tn_data p)
    (rfc p) (wt p) (rt p) (bt p).
Definition set_timeout_left (v : Z) (p : port_info) : port_info :=
  PortInfo (conf p) (enabled p) v (timer p) (acceptfd p) (tcpfd p) (devfd p) (remote p) (bytes p)
    (tcp_to_dev p) (dev_to_tcp p) (tcp_monitor p) (dev_monitor p) (config_num p) (new_config p) (tn_data p)
    (rfc p) (wt p) (rt p) (bt p).
Definition set_acceptfd (v : Z) (p : port_info) : port_info :=
  PortInfo (conf p) (enabled p) (timeout_left p) (timer p) v (tcpfd p) (devfd p) (remote p) (bytes p)
    (tcp_to_dev p) (dev_to_tcp p) (tcp_monitor p) (dev_monitor p) (config_num p) (new_config p) (tn_data p)
    (rfc p) (wt p) (rt p) (bt p).
Definition set_bytes (v : counts) (p : port_info) : port_info :=
  PortInfo (conf p) (enabled p) (timeout_left p) (timer p) (acceptfd p) (tcpfd p) (devfd p) (remote p) v
    (tcp_to_dev p) (dev_to_tcp p) (tcp_monitor p) (dev_monitor p) (config_num p) (new_config p) (tn_data p)
    (rfc p) (wt p) (rt p) (bt p).
Definition set_tcp_to_dev (f : flow -> flow) (p : port_info) : port_info :=
  PortInfo (conf p) (enabled p) (timeout_left p) (timer p) (acceptfd p) (tcpfd p) (devfd p) (remote p)
    (bytes p) (f (tcp_to_dev p)) (dev_to_tcp p) (tcp_monitor p) (dev_monitor p) (config_num p)
    (new_config p) (tn_data p) (rfc p) (wt p) (rt p) (bt p).
Definition set_dev_to_tcp (f : flow -> flow) (p : port_info) : port_info :=
  PortInfo (conf p) (enabled p) (timeout_left p) (timer p) (acceptfd p) (tcpfd p) (devfd p) (remote p)
    (bytes p) (tcp_to_dev p) (f (dev_to_tcp p)) (tcp_monitor p) (dev_monitor p) (config_num p)
    (new_config p) (tn_data p) (rfc p) (wt p) (rt p) (bt p).
Definition set_tn_data (v : telnet_data) (p : port_info) : port_info :=
  PortInfo (conf p) (enabled p) (timeout_left p) (timer p) (acceptfd p) (tcpfd p) (devfd p) (remote p)
    (bytes p) (tcp_to_dev p) (dev_to_tcp p) (tcp_monitor p) (dev_monitor p) (config_num p) (new_config p) v
    (rfc p) (wt p) (rt p) (bt p).
Definition set_new_config (v : option ptr) (p : port_info) : port_info :=
  PortInfo (conf p) (enabled p) (timeout_left p) (timer p) (acceptfd p) (tcpfd p) (devfd p) (remote p)
    (bytes p) (tcp_to_dev p) (dev_to_tcp p) (tcp_monitor p) (dev_monitor p) (config_num p) v (tn_data p)
    (rfc p) (wt p) (rt p) (bt p).
Definition set_config_num (v : Z) (p : port_info) : port_info :=
  PortInfo (conf p) (enabled p) (timeout_left p) (timer p) (acceptfd p) (tcpfd p) (devfd p) (remote p)
    (bytes p) (tcp_to_dev p) (dev_to_tcp p) (tcp_monitor p) (dev_monitor p) v (new_config p) (tn_data p)
    (rfc p) (wt p) (rt p) (bt p).
Definition set_rfc (v : rfc2217) (p : port_info) : port_info :=
  PortInfo (conf p) (enabled p) (timeout_left p) (timer p) (acceptfd p) (tcpfd p) (devfd p) (remote p)
    (bytes p) (tcp_to_dev p) (dev_to_tcp p) (tcp_monitor p) (dev_monitor p) (config_num p) (new_config p)
    (tn_data p) v (wt p) (rt p) (bt p).
Definition set_traces (w r b : trace_t) (p : port_info) : port_info :=
  PortInfo (conf p) (enabled p) (timeout_left p) (timer p) (acceptfd p) (tcpfd p) (devfd p) (remote p)
    (bytes p) (tcp_to_dev p) (dev_to_tcp p) (tcp_monitor p) (dev_monitor p) (config_num p) (new_config p)
    (tn_data p) (rfc p) w r b.

Inductive trace_sel := WT | RT | BT.
Definition get_trace (s : trace_sel) (p : port_info) : trace_t :=
  match s with WT => wt p | RT => rt p | BT => bt p end.
Definition trace_set_file (f : Z) (t : trace_t) : trace_t := Trace (tr_hexdump t) (tr_timestamp t) f.
Definition set_trace_file (s : trace_sel) (f : Z) (p : port_info) : port_info :=
  match s with
  | WT => set_traces (trace_set_file f (wt p)) (rt p) (bt p) p
  | RT => set_traces (wt p) (trace_set_file f (rt p)) (bt p) p
  | BT => set_traces (wt p) (rt p) (trace_set_file f (bt p)) p
  end.

Definition fl_set_state (v : Z) (f : flow) : flow := Flow v (fl_buf f) (fl_start f) (fl_count f).
Definition fl_set_buf (v : list Z) (f : flow) : flow := Flow (fl_state f) v (fl_start f) (fl_count f).
Definition fl_set_start (v : Z) (f : flow) : flow := Flow (fl_state f) (fl_buf f) v (fl_count f).
Definition fl_set_count (v : Z) (f : flow) : flow := Flow (fl_state f) (fl_buf f) (fl_start f) v.

(** [unsigned int] addition. *)
Definition uadd (a b : Z) : Z := (a + b) mod 2 ^ 32.
Definition add_tcp_rx (n : Z) (p : port_info) : port_info :=
  set_bytes (Counts (uadd (tcp_rx (bytes p)) n) (tcp_tx (bytes p)) (dev_rx (bytes p)) (dev_tx (bytes p))) p.
Definition add_tcp_tx (n : Z) (p : port_info) : port_info :=
  set_bytes (Counts (tcp_rx (bytes p)) (uadd (tcp_tx (bytes p)) n) (dev_rx (bytes p)) (dev_tx (bytes p))) p.
Definition add_dev_rx (n : Z) (p : port_info) : port_info :=
  set_bytes (Counts (tcp_rx (bytes p)) (tcp_tx (bytes p)) (uadd (dev_rx (bytes p)) n) (dev_tx (bytes p))) p.
Definition add_dev_tx (n : Z) (p : port_info) : port_info :=
  set_bytes (Counts (tcp_rx (bytes p)) (tcp_tx (bytes p)) (dev_rx (bytes p)) (uadd (dev_tx (bytes p)) n)) p.

(** The static variables of the file and what its functions reach: the
    selector, the descriptors of the controllers, the system. *)
Record dx (K : Type) := DX {
  ports : list ptr;
  pheap : gmap ptr port_info;
  dsel : selector;
  telnet_cmds : list (telnet_cmd addr);
  ctl_fds : gmap ptr Z;
  uucp_locking_enabled : bool;
  kern : K
}.
Arguments DX {K}.
Arguments ports {K}.
Arguments pheap {K}.
Arguments dsel {K}.
Arguments telnet_cmds {K}.
Arguments ctl_fds {K}.
Arguments uucp_locking_enabled {K}.
Arguments kern {K}.

Notation DX_ K := (ST (dx K)).

Section ops.
Context {K : Type} `{Kernel K}.
Implicit Types s : dx K.

Definition with_pheap (h : gmap ptr port_info) s : dx K :=
  DX (ports s) h (dsel s) (telnet_cmds s) (ctl_fds s) (uucp_locking_enabled s) (kern s).
Definition with_ports (l : list ptr) s : dx K :=
  DX l (pheap s) (dsel s) (telnet_cmds s) (ctl_fds s) (uucp_locking_enabled s) (kern s).
Definition with_dsel (v : selector) s : dx K :=
  DX (ports s) (pheap s) v (telnet_cmds s) (ctl_fds s) (uucp_locking_enabled s) (kern s).
Definition with_cmds (v : list (telnet_cmd addr)) s : dx K :=
  DX (ports s) (pheap s) (dsel s) v (ctl_fds s) (uucp_locking_enabled s) (kern s).
Definition with_kern (k : K) s : dx K :=
  DX (ports s) (pheap s) (dsel s) (telnet_cmds s) (ctl_fds s) (uucp_locking_enabled s) k.

(** Through a pointer to a port; a freed port is not in [pheap]. *)
Definition port_at (p : ptr) : DX_ K port_info := fun s =>
  match pheap s !! p with Some i => Ok (i, s) | None => Crash OutOfBounds end.
Definition set_port (p : ptr) (f : port_info -> port_info) : DX_ K unit := fun s =>
  match pheap s !! p with
  | Some i => Ok (tt, with_pheap (<[p := f i]> (pheap s)) s)
  | None => Crash OutOfBounds
  end.

Definition sys {A} (f : K -> A * K) : DX_ K A := fun s =>
  let '(a, k) := f (kern s) in Ok (a, with_kern k s).
Definition sys_do (f : K -> K) : DX_ K unit := fun s => Ok (tt, with_kern (f (kern s)) s).
Definition ask {A} (f : K -> A) : DX_ K A := fun s => Ok (f (kern s), s).
Definition on_selector (f : selector -> res selector) : DX_ K unit := fun s =>
  match f (dsel s) with Ok v => Ok (tt, with_dsel v s) | Crash c => Crash c end.
Definition on_timers {A} (m : ST heap A) : DX_ K A := fun s =>
  match m (theap (dsel s)) with
  | Ok (a, h) => Ok (a, with_dsel (with_heap h (dsel s)) s)
  | Crash c => Crash c
  end.

Definition read_handler (fd state : Z) : DX_ K unit := on_selector (fun v => sel_set_fd_read_handler v fd state).
Definition write_handler (fd state : Z) : DX_ K unit := on_selector (fun v => sel_set_fd_write_handler v fd state).

(** [write] without a look at the answer. *)
Definition write_ignore (fd : Z) (b : list Z) : DX_ K unit := _ ← sys (sys_write fd b); mret tt.

(** [retry_write: n = write(...); if (n == -1 && errno == EINTR) goto
    retry_write;] *)
Fixpoint retry_loop (fuel : nat) (fd : Z) (b : list Z) : DX_ K (sysres nat) :=
  r ← sys (sys_write fd b);
  match r with
  | Failed EINTR => match fuel with O => lift_res (Crash NoFuel) | S f => retry_loop f fd b end
  | _ => mret r
  end.
Definition retry_write (fd : Z) (b : list Z) : DX_ K (sysres nat) :=
  n ← ask interrupts; retry_loop n fd b.

(** ** Initial values and the idle timer *)

Definition zero_addr : sockaddr_in := SockAddr 0 0 0.
Definition trace_off : trace_t := Trace false false (-1).

(** [init_port_data] writes every field but the ones of [old] kept here: the
    rest of [tn_data], the masks, the timer, the buffers, the counters of
    time, the configuration number, the banner and the trace settings, and
    [dev_monitor]. *)
Definition init_port_data (old : port_info) : port_info :=
  let d := dinfo (conf old) in
  PortInfo
    (PortConf 0 None zero_addr None (DevInfo zero_termios (allow_2217 d) false (banner d) (trace_read d) (trace_write d) (trace_both d)))
    PORT_DISABLED (timeout_left old) (timer old) (-1) (-1) 0 zero_addr (Counts 0 0 0 0)
    (Flow PORT_UNCONNECTED (fl_buf (tcp_to_dev old)) 0 0)
    (Flow PORT_UNCONNECTED (fl_buf (dev_to_tcp old)) 0 0)
    None (dev_monitor old) (config_num old) None (tn_data old)
    (Rfc2217 false false (linestate_mask (rfc old)) (modemstate_mask (rfc old)) (last_modemstate (rfc old)))
    trace_off trace_off trace_off.

Definition reset_timer (p : port_info) : port_info := set_timeout_left (timeout (conf p)) p.

(** [for (j=pos; j<count-1; j++) buf[j] = buf[j+1]; count--] *)
Definition delete_tcp_to_dev_char (pos : nat) (p : port_info) : res port_info :=
  let f := tcp_to_dev p in
  buf ← delete_loop (fl_buf f) (Z.to_nat (fl_count f - 1) - pos) pos;
  Ok (set_tcp_to_dev (fun f => fl_set_count (fl_count f - 1) (fl_set_buf buf f)) p).

(** ** Lock files *)

Definition uucp_lck_dir : cstr := str "/var/lock".

(** The name after the last slash. *)
Definition base_name (devname : cstr) : cstr :=
  match strrchr devname "/"%char with Some (_, rest) => tail rest | None => devname end.

Definition uucp_fname_lock_size (devname : cstr) : Z := 7 + slen uucp_lck_dir + slen (base_name devname).

(** [sprintf] into [size] bytes. *)
Definition uucp_fname_lock (size : Z) (devname : cstr) : res cstr :=
  let text := uucp_lck_dir ++ str "/LCK.." ++ base_name devname in
  _ ← check (slen text + 1 <=? size) OutOfBounds; Ok text.

Definition uucp_rm_lock (devname : option cstr) : DX_ K unit := fun s =>
  if uucp_locking_enabled s then
    match devname with
    | None => Crash NullDeref
    | Some d =>
        match uucp_fname_lock (uucp_fname_lock_size d) d with
        | Ok f => Ok (tt, with_kern (sys_unlink f (kern s)) s)
        | Crash c => Crash c
        end
    end
  else Ok (tt, s).

(** ** Traces *)

Definition chars (t : string) : list Z := map code (str t).

(** Text added to the 1024 bytes of [out]; text that does not fit is an
    error of the model, which [trace_write_lines] shows not to happen. *)
Definition emit (out w : list Z) : res (list Z) :=
  _ ← check (Z.of_nat (length out + length w) <? 1024) OutOfBounds; Ok (out ++ w).

Definition stamp (tr : trace_t) : DX_ K (list Z) :=
  if tr_timestamp tr then ask sys_timestamp else mret [].

Definition hex_digit (n : Z) : Z := if n <? 10 then 48 + n else 87 + n.
Definition hex2 (b : Z) : list Z := [hex_digit (b / 16); hex_digit (b mod 16)].

(** The printable column. *)
Definition trace_write_end (start : list Z) : list Z :=
  chars " |" ++ map (fun b => if (32 <=? b) && (b <=? 126) then b else 46) start ++ chars "|" ++ [10].

Definition trace_head (tr : trace_t) (prefix : list Z) : DX_ K (list Z) :=
  t ← stamp tr; lift_res (emit t (prefix ++ [32])).

(** The loop over the bytes; [out] is the line so far, [start] the bytes in
    it. *)
Fixpoint trace_loop (tr : trace_t) (prefix : list Z) (buf out start : list Z)
    : DX_ K (sysres (list Z * list Z)) :=
  match buf with
  | [] => mret (Done (out, start))
  | b :: buf' =>
      out ← lift_res (emit out (hex2 b ++ [32]));
      let start := start ++ [b] in
      if (8 <=? Z.of_nat (length start)) then
        out ← lift_res (emit out (trace_write_end start));
        rv ← sys (sys_write (tr_file tr) out);
        match rv with
        | Failed e => mret (Failed e)
        | Done _ => out ← trace_head tr prefix; trace_loop tr prefix buf' out []
        end
      else trace_loop tr prefix buf' out start
  end.

Definition trace_write (tr : trace_t) (buf prefix : list Z) : DX_ K (sysres nat) :=
  match buf with
  | [] => mret (Done 0%nat)
  | _ =>
      if negb (tr_hexdump tr) then sys (sys_write (tr_file tr) buf)
      else
        out ← trace_head tr prefix;
        r ← trace_loop tr prefix buf out [];
        match r with
        | Failed e => mret (Failed e)
        | Done (out, start) =>
            match start with
            | [] => mret (Done (length buf))
            | _ =>
                out ← lift_res (emit out (concat (replicate (8 - length start) (chars "   "))));
                out ← lift_res (emit out (trace_write_end start));
                rv ← sys (sys_write (tr_file tr) out);
                mret (match rv with Failed e => Failed e | Done _ => Done (length buf) end)
            end
        end
  end.

(** [do_trace]: partial writes go on, interrupted ones are repeated, other
    errors end the trace. *)
Fixpoint do_trace_loop (fuel : nat) (p : ptr) (sel : trace_sel) (buf prefix : list Z) : DX_ K unit :=
  match buf with
  | [] => mret tt
  | _ =>
      i ← port_at p;
      rv ← trace_write (get_trace sel i) buf prefix;
      match rv with
      | Done n => match fuel with O => lift_res (Crash NoFuel) | S f => do_trace_loop f p sel (drop n buf) prefix end
      | Failed EINTR => match fuel with O => lift_res (Crash NoFuel) | S f => do_trace_loop f p sel buf prefix end
      | Failed _ =>
          _ ← sys_do (sys_syslog "Unable to write to trace file");
          _ ← sys_do (sys_close (tr_file (get_trace sel i)));
          set_port p (set_trace_file sel (-1))
      end
  end.

Definition do_trace (p : ptr) (sel : trace_sel) (buf prefix : list Z) : DX_ K unit :=
  n ← ask interrupts; do_trace_loop (length buf + n) p sel buf prefix.

(** The three files that get the line, each file once. *)
Definition trace_to_files (p : ptr) (buf : list Z) : DX_ K unit :=
  i ← port_at p;
  let r := negb (tr_file (rt i) =? -1) && tr_timestamp (rt i) in
  _ ← (if r then write_ignore (tr_file (rt i)) buf else mret tt);
  let doneR := if r then tr_file (rt i) else -1 in
  let w := negb (tr_file (wt i) =? doneR) && tr_timestamp (wt i) in
  _ ← (if w then write_ignore (tr_file (wt i)) buf else mret tt);
  let doneW := if w then tr_file (wt i) else -1 in
  if negb (tr_file (bt i) =? doneR) && negb (tr_file (bt i) =? doneW) && tr_timestamp (bt i)
  then write_ignore (tr_file (bt i)) buf else mret tt.

Definition decimal_bytes (n : Z) : list Z := map code (decimal n).

Definition header_trace (p : ptr) : DX_ K unit :=
  i ← port_at p;
  t ← ask sys_timestamp;
  b ← lift_res (emit t (chars "OPEN ("));
  b ← lift_res (emit b (sys_ntop (sin_addr (remote i))));
  b ← lift_res (emit b (chars ":" ++ decimal_bytes (sin_port (remote i)) ++ chars ")" ++ [10]));
  trace_to_files p b.

Definition footer_trace (p : ptr) (reason : list Z) : DX_ K unit :=
  t ← ask sys_timestamp;
  b ← lift_res (emit t (chars "CLOSE (" ++ reason ++ chars ")" ++ [10]));
  trace_to_files p b.
End ops.

(** ** Lemmas *)

Section laws.
Context {K : Type} `{!Kernel K} `{!KernelLaws K}.
Implicit Types (k : K) (s : dx K).

(** Only [fd] may have taken bytes. *)
Definition quiet_but (fd : Z) k k' : Prop :=
  (forall fd', fd' <> fd -> sent k' fd' = sent k fd') /\ (forall fd', received k' fd' = received k fd') /\
  (interrupts k' <= interrupts k)%nat.

Lemma quiet_but_refl fd k : quiet_but fd k k.
Proof. by split_and!. Qed.
Lemma quiet_but_trans fd k1 k2 k3 : quiet_but fd k1 k2 -> quiet_but fd k2 k3 -> quiet_but fd k1 k3.
Proof.
  intros (A1 & B1 & C1) (A2 & B2 & C2). split_and!; [intros; by rewrite A2, A1 | intros; by rewrite B2, B1 | lia].
Qed.
Lemma quiet_quiet_but fd k k' : quiet k k' -> quiet_but fd k k'.
Proof. intros (A & B & C). split_and!; [intros; apply A | intros; apply B | done]. Qed.

(** Any write keeps the other descriptors quiet. *)
Lemma write_quiet_but fd b k r k' : sys_write fd b k = (r, k') -> quiet_but fd k k'.
Proof.
  destruct r as [n|e]; intros E.
  - apply write_done in E as (_ & _ & _ & A & B & C). by split_and!.
  - apply write_failed in E as [E _]. by apply quiet_quiet_but.
Qed.

Lemma with_kern_twice k k' s : with_kern k' (with_kern k s) = with_kern k' s.
Proof. done. Qed.
Lemma with_kern_same s : with_kern (kern s) s = s.
Proof. by destruct s. Qed.

(** [step_kern m s r k']: [m] answers [r] and changes only the system. *)
Definition step_kern {A} (m : DX_ K A) s (r : A) k' : Prop := m s = Ok (r, with_kern k' s).

Lemma step_sys {A} (f : K -> A * K) s r k' : f (kern s) = (r, k') -> step_kern (sys f) s r k'.
Proof. unfold step_kern, sys. by intros ->. Qed.

Lemma stamp_step tr s : exists t, step_kern (stamp tr) s t (kern s) /\ (length t <= 20)%nat.
Proof.
  unfold stamp, step_kern, ask. destruct (tr_timestamp tr); eexists; rewrite with_kern_same.
  - split; [done | apply timestamp_length].
  - split; [done | cbn; lia].
Qed.

Lemma emit_Ok out w : (length out + length w < 1024)%nat -> emit out w = Ok (out ++ w).
Proof. intros. unfold emit. rewrite (proj2 (Z.ltb_lt _ _)) by lia. done. Qed.

Lemma trace_head_step tr prefix s : (length prefix <= 8)%nat ->
  exists out, step_kern (trace_head tr prefix) s out (kern s) /\ (length out <= 29)%nat.
Proof.
  intros Hp. destruct (stamp_step tr s) as (t & E & Ht). unfold step_kern, trace_head in *.
  rewrite (ST_bind_Ok _ _ _ _ _ E), emit_Ok by (rewrite length_app; cbn; lia). eexists. split; [done|].
  rewrite !length_app. cbn. lia.
Qed.

Lemma length_trace_write_end start : length (trace_write_end start) = (length start + 4)%nat.
Proof. unfold trace_write_end. rewrite !length_app, length_map. cbn. lia. Qed.

(** What a trace write answers. *)
Definition trace_answer k k' {A} (r : sysres A) : Prop :=
  match r with Done _ => True | Failed e => (e = EINTR -> interrupts k' < interrupts k)%nat end.

Lemma trace_answer_trans k0 k k' {A} (r : sysres A) :
  (interrupts k <= interrupts k0)%nat -> trace_answer k k' r -> trace_answer k0 k' r.
Proof. destruct r; simpl; [done | intros Hle Ha He; specialize (Ha He); lia]. Qed.

Lemma write_answer fd b k (r : sysres nat) k' : sys_write fd b k = (r, k') -> trace_answer k k' r.
Proof. destruct r as [n|e]; intros E; [done | by apply write_failed in E as [_ E]]. Qed.

(** The lines always fit and every byte is consumed. *)
Lemma trace_loop_step tr prefix buf : forall out start s,
  (length prefix <= 8)%nat -> (length start < 8)%nat -> (length out <= 29 + 3 * length start)%nat ->
  exists r k', step_kern (trace_loop tr prefix buf out start) s r k' /\
    quiet_but (tr_file tr) (kern s) k' /\ trace_answer (kern s) k' r /\
    match r with Done (o, st) => (length st < 8)%nat /\ (length o <= 29 + 3 * length st)%nat | Failed _ => True end.
Proof.
  induction buf as [|b buf IH]; intros out start s Hp Hs Ho; cbn [trace_loop].
  { eexists _, (kern s). unfold step_kern. rewrite with_kern_same.
    split; [done|]. split; [apply quiet_but_refl|]. done. }
  unfold step_kern. rewrite emit_Ok by (cbn; lia). rewrite (ST_bind_Ok _ _ _ _ _ eq_refl).
  destruct (Z.leb_spec 8 (Z.of_nat (length (start ++ [b])))) as [H8|H8]; rewrite length_app in H8; cbn [length] in H8.
  - rewrite emit_Ok by (rewrite length_trace_write_end, !length_app; cbn; lia).
    rewrite (ST_bind_Ok _ _ _ _ _ eq_refl).
    match goal with |- context [sys (sys_write ?f ?o)] => destruct (sys_write f o (kern s)) as [rv k1] eqn:Ew end.
    rewrite (ST_bind_Ok _ _ _ _ _ (step_sys _ _ _ _ Ew)).
    pose proof (write_quiet_but _ _ _ _ _ Ew) as Hq. pose proof (write_answer _ _ _ _ _ Ew) as Ha.
    destruct rv as [n|e].
    + destruct (trace_head_step tr prefix (with_kern k1 s) Hp) as (o & E & Hl).
      rewrite (ST_bind_Ok _ _ _ _ _ E).
      destruct (IH o [] (with_kern k1 s)) as (r & k2 & E2 & Hq2 & Ha2 & Hr); [done | cbn; lia | cbn; lia |].
      exists r, k2. split; [exact E2|]. split; [by eapply quiet_but_trans|]. split; [|done].
      eapply trace_answer_trans; [|exact Ha2]. apply Hq.
    + eexists _, k1. split; [done|]. by split.
  - destruct (IH (out ++ hex2 b ++ [32]) (start ++ [b]) s) as (r & k2 & E2 & Hq2 & Ha2 & Hr);
      [done | rewrite length_app; cbn; lia | rewrite !length_app; cbn; lia |].
    exists r, k2. by split.
Qed.

Lemma trace_write_step tr buf prefix s : (length prefix <= 8)%nat ->
  exists r k', step_kern (trace_write tr buf prefix) s r k' /\
    quiet_but (tr_file tr) (kern s) k' /\ trace_answer (kern s) k' r /\
    match r with Done n => buf <> [] -> (0 < n)%nat | Failed _ => True end.
Proof.
  intros Hp. unfold trace_write. destruct buf as [|b buf].
  { eexists _, (kern s). unfold step_kern. rewrite with_kern_same. split; [done|]. split; [apply quiet_but_refl|]. done. }
  destruct (tr_hexdump tr); cbn [negb].
  2:{ destruct (sys_write (tr_file tr) (b :: buf) (kern s)) as [r k'] eqn:E. exists r, k'.
      split; [by apply step_sys|]. split; [by eapply write_quiet_but|]. split; [by eapply write_answer|].
      destruct r; [|done]. apply write_done in E as (_ & E & _). done. }
  destruct (trace_head_step tr prefix s Hp) as (o & E & Hl). unfold step_kern. rewrite (ST_bind_Ok _ _ _ _ _ E).
  rewrite with_kern_same.
  destruct (trace_loop_step tr prefix (b :: buf) o [] s) as (r & k1 & E1 & Hq & Ha & Hr); [done | cbn; lia | cbn; lia |].
  rewrite (ST_bind_Ok _ _ _ _ _ E1). destruct r as [[o1 st]|e].
  2:{ eexists _, k1. split; [done|]. by split. }
  destruct Hr as [Hst Ho1]. destruct st as [|c st].
  { eexists _, k1. split; [done|]. split; [done|]. split; [done|]. cbn. lia. }
  assert (Hpad : length (concat (replicate (8 - length (c :: st)) (chars "   "))) = (3 * (8 - length (c :: st)))%nat).
  { generalize (8 - length (c :: st))%nat as n. induction n as [|n IHn]; [done|]. cbn [replicate concat].
    rewrite length_app, IHn. cbn. lia. }
  rewrite emit_Ok by (rewrite Hpad; simpl in *; lia). rewrite (ST_bind_Ok _ _ _ _ _ eq_refl).
  rewrite emit_Ok by (rewrite length_trace_write_end, length_app, Hpad; simpl in *; lia).
  rewrite (ST_bind_Ok _ _ _ _ _ eq_refl).
  match goal with |- context [sys (sys_write ?f ?o)] => destruct (sys_write f o (kern (with_kern k1 s))) as [rv k2] eqn:Ew end.
  rewrite (ST_bind_Ok _ _ _ _ _ (step_sys _ _ _ _ Ew)). cbn [kern with_kern] in Ew.
  pose proof (write_quiet_but _ _ _ _ _ Ew) as Hq2. pose proof (write_answer _ _ _ _ _ Ew) as Ha2.
  assert (Hq' : quiet_but (tr_file tr) (kern s) k2) by (by eapply quiet_but_trans).
  destruct rv as [n|e]; eexists _, k2; (split; [done|]); (split; [done|]); (split; [|cbn; try done; lia]); [done|].
  eapply trace_answer_trans; [|exact Ha2]. apply Hq.
Qed.

(** ** Traces leave the transfer alone *)

(** [fd] is not a trace file of the port. *)
Definition trace_free (fd : Z) (i : port_info) : Prop :=
  fd <> -1 /\ fd <> tr_file (wt i) /\ fd <> tr_file (rt i) /\ fd <> tr_file (bt i).

(** From [s] to [s'] only the system and the trace files of [p] changed, and
    no other descriptor took a byte. *)
Record traced (p : ptr) s (i : port_info) s' (i' : port_info) : Prop := {
  tc_state : s' = with_pheap (<[p := i']> (pheap s)) (with_kern (kern s') s);
  tc_port : exists w r b, i' = set_traces w r b i /\
    (tr_file w = -1 \/ tr_file w = tr_file (wt i)) /\ (tr_file r = -1 \/ tr_file r = tr_file (rt i)) /\
    (tr_file b = -1 \/ tr_file b = tr_file (bt i));
  tc_sent : forall fd, trace_free fd i -> sent (kern s') fd = sent (kern s) fd;
  tc_received : forall fd, received (kern s') fd = received (kern s) fd;
  tc_interrupts : (interrupts (kern s') <= interrupts (kern s))%nat
}.

Lemma traced_refl p s i : pheap s !! p = Some i -> traced p s i s i.
Proof.
  intros Hi. constructor; [|exists (wt i), (rt i), (bt i); split_and!; [by destruct i | by right..]| done | done | done].
  rewrite insert_id by done. by destruct s.
Qed.

Lemma traced_lookup p s i s' i' : traced p s i s' i' -> pheap s' !! p = Some i'.
Proof. intros [E _ _ _ _]. rewrite E. cbn. apply lookup_insert_eq. Qed.

Lemma traced_free p s i s' i' fd : traced p s i s' i' -> trace_free fd i -> trace_free fd i'.
Proof.
  intros [_ (w & r & b & -> & Hw & Hr & Hb) _ _ _] (H1 & H2 & H3 & H4). unfold trace_free. cbn.
  split_and!; [done | destruct Hw as [->| ->] | destruct Hr as [->| ->] | destruct Hb as [->| ->]]; congruence.
Qed.

Lemma traced_trans p s1 i1 s2 i2 s3 i3 : traced p s1 i1 s2 i2 -> traced p s2 i2 s3 i3 -> traced p s1 i1 s3 i3.
Proof.
  intros T1 T2. pose proof (fun fd => traced_free p s1 i1 s2 i2 fd T1) as Hf.
  destruct T1 as [E1 (w1 & r1 & b1 & -> & Hw1 & Hr1 & Hb1) S1 R1 I1].
  destruct T2 as [E2 (w2 & r2 & b2 & -> & Hw2 & Hr2 & Hb2) S2 R2 I2]. constructor.
  - rewrite E2. cbn. rewrite E1. cbn. unfold with_pheap, with_kern. cbn. by rewrite insert_insert_eq.
  - exists w2, r2, b2. split; [done|]. cbn in *. intuition congruence.
  - intros fd Hfd. rewrite S2, S1 by auto. done.
  - intros fd. by rewrite R2.
  - lia.
Qed.

(** A step of the system alone. *)
Lemma traced_kern p s i k' :
  pheap s !! p = Some i -> (forall fd, trace_free fd i -> sent k' fd = sent (kern s) fd) ->
  (forall fd, received k' fd = received (kern s) fd) -> (interrupts k' <= interrupts (kern s))%nat ->
  traced p s i (with_kern k' s) i.
Proof.
  intros Hi Hs Hr Hn. constructor; [|exists (wt i), (rt i), (bt i); split_and!; [by destruct i | by right..]| done..].
  cbn. rewrite insert_id by done. done.
Qed.

Lemma do_trace_loop_step p sel prefix : (length prefix <= 8)%nat -> forall fuel buf s i,
  pheap s !! p = Some i -> (length buf + interrupts (kern s) <= fuel)%nat ->
  exists s' i', do_trace_loop fuel p sel buf prefix s = Ok (tt, s') /\ traced p s i s' i'.
Proof.
  intros Hp. induction fuel as [|fuel IH]; intros buf s i Hi Hf; destruct buf as [|b buf];
    [exists s, i; split; [done | by apply traced_refl] | simpl in Hf; lia
    |exists s, i; split; [done | by apply traced_refl]|].
  cbn [do_trace_loop]. assert (Ei : port_at p s = Ok (i, s)) by (unfold port_at; by rewrite Hi).
  rewrite (ST_bind_Ok _ _ _ _ _ Ei).
  destruct (trace_write_step (get_trace sel i) (b :: buf) prefix s Hp) as (r & k' & E & (Q1 & Q2 & Q3) & Ha & Hr).
  rewrite (ST_bind_Ok _ _ _ _ _ E).
  assert (T1 : traced p s i (with_kern k' s) i).
  { apply traced_kern; [done | | done | done]. intros fd (F0 & F1 & F2 & F3). apply Q1.
    destruct sel; cbn; congruence. }
  destruct r as [n|e].
  - destruct (IH (drop n (b :: buf)) (with_kern k' s) i) as (s' & i' & E' & T); [done | |].
    + specialize (Hr ltac:(done)). rewrite length_drop. simpl in *. lia.
    + exists s', i'. split; [exact E'|]. by eapply traced_trans.
  - destruct (decide (e = EINTR)) as [->|He].
    + specialize (Ha eq_refl). destruct (IH (b :: buf) (with_kern k' s) i) as (s' & i' & E' & T);
        [done | simpl in *; lia |]. exists s', i'. split; [exact E'|]. by eapply traced_trans.
    + assert (Hclose : exists s' i',
        (_ ← sys_do (sys_syslog "Unable to write to trace file");
         _ ← sys_do (sys_close (tr_file (get_trace sel i)));
         set_port p (set_trace_file sel (-1))) (with_kern k' s) = Ok (tt, s') /\
        traced p (with_kern k' s) i s' i').
      { rewrite 2!(ST_bind_Ok _ _ _ _ _ eq_refl). unfold set_port. cbn [pheap with_kern]. rewrite Hi.
        eexists _, _. split; [done|].
        destruct (syslog_quiet "Unable to write to trace file" k') as (A1 & B1 & C1).
        destruct (close_quiet (tr_file (get_trace sel i)) (sys_syslog "Unable to write to trace file" k')) as (A2 & B2 & C2).
        constructor; [done | | intros fd _; cbn; by rewrite A2, A1 | intros fd; cbn; by rewrite B2, B1 | cbn; lia].
        destruct sel; cbn; eexists _, _, _; (split; [reflexivity|]); cbn; auto. }
      destruct Hclose as (s' & i' & E' & T). exists s', i'. split; [destruct e; (done || exact E')|].
      by eapply traced_trans.
Qed.

(** A trace returns and touches nothing of the transfer. *)
Lemma do_trace_step p sel buf prefix s i :
  (length prefix <= 8)%nat -> pheap s !! p = Some i ->
  exists s' i', do_trace p sel buf prefix s = Ok (tt, s') /\ traced p s i s' i'.
Proof.
  intros Hp Hi. unfold do_trace. rewrite (ST_bind_Ok _ _ _ _ _ eq_refl).
  by apply do_trace_loop_step.
Qed.

(** A repeated write answers without [EINTR]. *)
Lemma retry_loop_step fd b : forall fuel s, (interrupts (kern s) <= fuel)%nat ->
  exists r k', retry_loop fuel fd b s = Ok (r, with_kern k' s) /\
    match r with
    | Done n => (n <= length b)%nat /\ (b <> [] -> 0 < n)%nat /\ sent k' fd = sent (kern s) fd ++ take n b
    | Failed e => e <> EINTR /\ sent k' fd = sent (kern s) fd
    end /\
    (forall fd', fd' <> fd -> sent k' fd' = sent (kern s) fd') /\
    (forall fd', received k' fd' = received (kern s) fd').
Proof.
  induction fuel as [|fuel IH]; intros s Hf; cbn [retry_loop];
    destruct (sys_write fd b (kern s)) as [r k1] eqn:Ew; rewrite (ST_bind_Ok _ _ _ _ _ (step_sys _ _ _ _ Ew));
    destruct r as [n|e].
  1,3: exists (Done n), k1; apply write_done in Ew as (A & B & C & D & E & F); split; [done|]; by split_and!.
  all: apply write_failed in Ew as [(A & B & C) Hi].
  - assert (e <> EINTR) by (intros ->; specialize (Hi eq_refl); lia).
    exists (Failed e), k1. split; [by destruct e|]. by split_and!.
  - destruct (decide (e = EINTR)) as [->|He].
    + specialize (Hi eq_refl). destruct (IH (with_kern k1 s)) as (r & k2 & E & Hr & Hs & Hrec); [cbn; lia|].
      exists r, k2. split; [exact E|]. cbn [kern with_kern] in *. split.
      * destruct r; rewrite A in Hr; exact Hr.
      * split; intros; [rewrite Hs by done; by rewrite A | rewrite Hrec; by rewrite B].
    + exists (Failed e), k1. split; [by destruct e|]. by split_and!.
Qed.

Lemma retry_write_step fd b s :
  exists r k', retry_write fd b s = Ok (r, with_kern k' s) /\
    match r with
    | Done n => (n <= length b)%nat /\ (b <> [] -> 0 < n)%nat /\ sent k' fd = sent (kern s) fd ++ take n b
    | Failed e => e <> EINTR /\ sent k' fd = sent (kern s) fd
    end /\
    (forall fd', fd' <> fd -> sent k' fd' = sent (kern s) fd') /\
    (forall fd', received k' fd' = received (kern s) fd').
Proof. unfold retry_write. rewrite (ST_bind_Ok _ _ _ _ _ eq_refl). by apply retry_loop_step. Qed.
End laws.
