(* ===== verification/PortFlow.v ===== *)
(** * The data transfer of a port: [ser2net/dataxfer.c]

    The handlers the selector calls for the two descriptors of an open port,
    the timer, and the shutdown of the port they end in.  Bytes of the device
    go to the TCP connection with their 255s doubled when the port is a
    telnet port; bytes of the connection go through the telnet parser of
    [Telnet.v] to the device.  A write that does not take everything turns
    the reader of that direction off and the writer on until the rest is out.
    RFC 2217 is an interface here ([ComPort]). *)

From S2P Require Import Prelude CStr SelHeap Selector Telnet Utils DevCfg PortData.

(** ** The functions given to the selector and to telnet *)

Definition handle_accept_port_read_fn : addr := 1%nat.
Definition handle_dev_fd_read_fn : addr := 2%nat.
Definition handle_dev_fd_write_fn : addr := 3%nat.
Definition handle_dev_fd_except_fn : addr := 4%nat.
Definition handle_tcp_fd_read_fn : addr := 5%nat.
Definition handle_tcp_fd_write_fn : addr := 6%nat.
Definition handle_tcp_fd_except_fn : addr := 7%nat.
Definition com_port_handler_fn : addr := 8%nat.
Definition com_port_will_fn : addr := 9%nat.

(** The table of options, as initialised. *)
Definition init_telnet_cmds : list (telnet_cmd addr) :=
  [TelnetCmd TN_OPT_SUPPRESS_GO_AHEAD false true true false false false None None;
   TelnetCmd TN_OPT_ECHO false true true true false false None None;
   TelnetCmd TN_OPT_BINARY_TRANSMISSION true true false true false false None None;
   TelnetCmd TN_OPT_COM_PORT true false false false false false (Some com_port_handler_fn) (Some com_port_will_fn);
   TelnetCmd 255 false false false false false false None None].

Definition telnet_init_seq : list Z :=
  [TN_IAC; TN_WILL; TN_OPT_SUPPRESS_GO_AHEAD;
   TN_IAC; TN_WILL; TN_OPT_ECHO;
   TN_IAC; TN_DONT; TN_OPT_ECHO;
   TN_IAC; TN_DO; TN_OPT_BINARY_TRANSMISSION].

(** [cb_data] is the port. *)
Notation CB K := (ptr * dx K)%type.

Class ComPort (K : Type) := {
  com_port_handler : list Z -> ST (tstate addr (CB K)) unit;
  com_port_will : ST (tstate addr (CB K)) bool
}.

Section flow.
Context {K : Type} `{Kernel K}.

Definition SERIAL : list Z := chars "term".
Definition NET : list Z := chars "tcp ".

(** *** Telnet *)

(** Code of the file that runs inside a telnet callback. *)
Definition in_callback {A} (m : ptr -> DX_ K A) : ST (tstate addr (CB K)) A := fun ts =>
  let '(p, s) := world ts in
  match m p s with
  | Ok (a, s') => Ok (a, TState (td ts) (cmds ts) (p, s'))
  | Crash c => Crash c
  end.

Definition telnet_output_ready (p : ptr) : DX_ K unit :=
  i ← port_at p;
  _ ← read_handler (devfd i) SEL_FD_HANDLER_DISABLED;
  write_handler (tcpfd i) SEL_FD_HANDLER_ENABLED.

Definition telnet_cmd_handler (cmd : Z) (p : ptr) : DX_ K unit :=
  i ← port_at p;
  if cmd =? TN_BREAK then sys_do (sys_sendbreak (devfd i)) else mret tt.

#[export] Instance port_output : TelnetOutput addr (CB K) := {
  output_ready := in_callback telnet_output_ready
}.

#[export] Instance port_client `{ComPort K} : TelnetClient addr (CB K) := {
  cmd_handler c := in_callback (telnet_cmd_handler c);
  call_option f data := if Nat.eqb f com_port_handler_fn then com_port_handler data else lift_res (Crash OutOfBounds);
  call_will f := if Nat.eqb f com_port_will_fn then com_port_will else lift_res (Crash OutOfBounds)
}.

(** A telnet function on [&port->tn_data], with the shared table. *)
Definition on_telnet {A} (p : ptr) (m : ST (tstate addr (CB K)) A) : DX_ K A := fun s =>
  match pheap s !! p with
  | None => Crash OutOfBounds
  | Some i =>
      match m (TState (tn_data i) (telnet_cmds s) (p, s)) with
      | Crash c => Crash c
      | Ok (a, ts) => (_ ← set_port p (set_tn_data (td ts)); mret a) (with_cmds (cmds ts) (snd (world ts)))
      end
  end.

(** *** The end of a connection *)

(** [change_port_state(port, PORT_DISABLED)] *)
Definition disable_port (p : ptr) : DX_ K unit :=
  i ← port_at p;
  if enabled i =? PORT_DISABLED then mret tt
  else
    _ ← (if negb (acceptfd i =? -1) then
           _ ← read_handler (acceptfd i) SEL_FD_HANDLER_DISABLED;
           _ ← on_selector (fun v => sel_clear_fd_handlers v (acceptfd i));
           _ ← sys_do (sys_close (acceptfd i));
           set_port p (set_acceptfd (-1))
         else mret tt);
    set_port p (set_enabled PORT_DISABLED).

(** [fuel] bounds the chain of [new_config]. *)
Fixpoint free_port (fuel : nat) (p : ptr) : DX_ K unit :=
  i ← port_at p;
  _ ← on_timers (sel_free_timer (timer i));
  _ ← disable_port p;
  _ ← (match new_config i with
       | None => mret tt
       | Some n => match fuel with O => lift_res (Crash NoFuel) | S f => free_port f n end
       end);
  modify (fun s => with_pheap (delete p (pheap s)) s).

(** Close the trace files, each once. *)
Definition close_traces (p : ptr) : DX_ K unit :=
  i ← port_at p;
  _ ← (if negb (tr_file (wt i) =? -1) then
         _ ← sys_do (sys_close (tr_file (wt i)));
         _ ← (if tr_file (rt i) =? tr_file (wt i) then set_port p (set_trace_file RT (-1)) else mret tt);
         _ ← (if tr_file (bt i) =? tr_file (wt i) then set_port p (set_trace_file BT (-1)) else mret tt);
         set_port p (set_trace_file WT (-1))
       else mret tt);
  i ← port_at p;
  _ ← (if negb (tr_file (rt i) =? -1) then
         _ ← sys_do (sys_close (tr_file (rt i)));
         _ ← (if tr_file (bt i) =? tr_file (rt i) then set_port p (set_trace_file BT (-1)) else mret tt);
         set_port p (set_trace_file RT (-1))
       else mret tt);
  i ← port_at p;
  if negb (tr_file (bt i) =? -1) then
    _ ← sys_do (sys_close (tr_file (bt i)));
    set_port p (set_trace_file BT (-1))
  else mret tt.

Definition flow_reset (f : flow) : flow := Flow PORT_UNCONNECTED (fl_buf f) 0 0.
Definition port_reset (i : port_info) : port_info :=
  set_bytes (Counts 0 0 0 0) (set_dev_to_tcp flow_reset (set_tcp_to_dev flow_reset i)).

(** The list of ports without [p], or with [q] in its place. *)
Fixpoint unlink_port (l : list ptr) (p : ptr) : list ptr :=
  match l with [] => [] | q :: l' => if bool_decide (q = p) then l' else q :: unlink_port l' p end.
Fixpoint replace_port (l : list ptr) (p n : ptr) : list ptr :=
  match l with [] => [] | q :: l' => if bool_decide (q = p) then n :: l' else q :: replace_port l' p n end.

Definition chain_fuel : DX_ K nat := fun s => Ok (size (pheap s), s).

(** The port leaves the list, or makes room for its new configuration. *)
Definition retire_port (p : ptr) : DX_ K unit :=
  i ← port_at p;
  s ← Prelude.get;
  let listed := bool_decide (p ∈ ports s) in
  fuel ← chain_fuel;
  if config_num i =? -1 then
    if listed then
      _ ← modify (fun s => with_ports (unlink_port (ports s) p) s);
      free_port fuel p
    else mret tt
  else
    match new_config i with
    | None => mret tt
    | Some n =>
        if listed then
          _ ← set_port n (set_acceptfd (acceptfd i));
          _ ← on_selector (fun v => sel_set_fd_handlers v (acceptfd i) (Some (Pos.to_nat n))
                                      (Some handle_accept_port_read_fn) None None);
          _ ← set_port p (set_acceptfd (-1));
          _ ← modify (fun s => with_ports (replace_port (ports s) p n) s);
          _ ← set_port p (set_enabled PORT_DISABLED);
          _ ← set_port p (set_new_config None);
          free_port fuel p
        else mret tt
    end.

Definition shutdown_port (p : ptr) (reason : list Z) : DX_ K unit :=
  _ ← footer_trace p reason;
  _ ← close_traces p;
  i ← port_at p;
  _ ← on_timers (sel_stop_timer (timer i));
  _ ← on_selector (fun v => sel_clear_fd_handlers v (devfd i));
  _ ← on_selector (fun v => sel_clear_fd_handlers v (tcpfd i));
  _ ← sys_do (sys_close (tcpfd i));
  _ ← sys_do (sys_tcflush (devfd i));
  _ ← sys_do (sys_close (devfd i));
  _ ← uucp_rm_lock (devname (conf i));
  _ ← set_port p port_reset;
  if sin_port (tcpport (conf i)) =? 0 then lift_res (Crash Exited)
  else retire_port p.

(** *** From the device to the connection *)

(** [for (j=count; j>i; j--) buf[j+1] = buf[j]], [n] rounds of it. *)
Fixpoint shift_up (n i : nat) (buf : list Z) : res (list Z) :=
  match n with
  | O => Ok buf
  | S n' => b ← load buf (i + S n')%nat; buf' ← store buf (S (i + S n')) b; shift_up n' i buf'
  end.

(** The loop that doubles the 255s; [n] is [count - i]. *)
Fixpoint double_loop (n i count : nat) (buf : list Z) : res (list Z * nat) :=
  match n with
  | O => Ok (buf, count)
  | S n' =>
      b ← load buf i;
      if b =? 255 then
        buf ← shift_up (count - i) i buf;
        buf ← store buf (S i) 255;
        double_loop n' (S (S i)) (S count) buf
      else double_loop n' (S i) count buf
  end.

(** The bytes of [data] over the beginning of [buf], as [read] stores them. *)
Definition read_into (data buf : list Z) : list Z := data ++ drop (length data) buf.

(** The bytes a write of the direction hands to the system. *)
Definition pending (f : flow) : list Z := take (Z.to_nat (fl_count f)) (drop (Z.to_nat (fl_start f)) (fl_buf f)).

(** [controller_write(cntlr, data, count)]: a write of [count] bytes to the
    controller; the count is converted to [size_t]. *)
Definition controller_write (c : ptr) (buf : list Z) (count : Z) : DX_ K unit :=
  s ← Prelude.get;
  match ctl_fds s !! c with
  | None => lift_res (Crash OutOfBounds)
  | Some fd =>
      _ ← lift_res (check ((0 <=? count) && (count <=? Z.of_nat (length buf))) OutOfBounds);
      write_ignore fd (take (Z.to_nat count) buf)
  end.

Definition trace_if (p : ptr) (sel : trace_sel) (buf prefix : list Z) : DX_ K unit :=
  i ← port_at p;
  if negb (tr_file (get_trace sel i) =? -1) then do_trace p sel buf prefix else mret tt.

Definition block_dev_reader (p : ptr) : DX_ K unit :=
  i ← port_at p;
  _ ← read_handler (devfd i) SEL_FD_HANDLER_DISABLED;
  _ ← write_handler (tcpfd i) SEL_FD_HANDLER_ENABLED;
  set_port p (set_dev_to_tcp (fl_set_state PORT_WAITING_OUTPUT_CLEAR)).

(** After the write of what was read. *)
Definition dev_written (p : ptr) (r : sysres nat) : DX_ K unit :=
  match r with
  | Failed EAGAIN => _ ← block_dev_reader p; set_port p reset_timer
  | Failed EPIPE => shutdown_port p (chars "EPIPE")
  | Failed _ =>
      _ ← sys_do (sys_syslog "The tcp write had error");
      shutdown_port p (chars "tcp write error")
  | Done n =>
      let n := Z.of_nat n in
      _ ← set_port p (fun i => set_dev_to_tcp (fun f => fl_set_count (fl_count f - n) f) (add_tcp_tx n i));
      i ← port_at p;
      _ ← (if negb (fl_count (dev_to_tcp i) =? 0) then
             _ ← set_port p (set_dev_to_tcp (fun f => fl_set_start (fl_start f + n) f));
             block_dev_reader p
           else mret tt);
      set_port p reset_timer
  end.

(** What follows the checks of the read: traces, the doubling, the write. *)
Definition dev_forward (p : ptr) (telnet : bool) : DX_ K unit :=
  i ← port_at p;
  let count := fl_count (dev_to_tcp i) in
  let buf := fl_buf (dev_to_tcp i) in
  let data := take (Z.to_nat count) buf in
  _ ← trace_if p RT data SERIAL;
  _ ← trace_if p BT data SERIAL;
  _ ← set_port p (add_dev_rx count);
  _ ← (if telnet then
         '(buf, n) ← lift_res (double_loop (Z.to_nat count) 0 (Z.to_nat count) buf);
         set_port p (set_dev_to_tcp (fun f => fl_set_count (Z.of_nat n) (fl_set_buf buf f)))
       else mret tt);
  i ← port_at p;
  r ← retry_write (tcpfd i) (take (Z.to_nat (fl_count (dev_to_tcp i))) (fl_buf (dev_to_tcp i)));
  dev_written p r.

Definition handle_dev_fd_read (fd : Z) (p : ptr) : DX_ K unit :=
  i ← port_at p;
  _ ← set_port p (set_dev_to_tcp (fl_set_start 0));
  let telnet := enabled i =? PORT_TELNET in
  r ← sys (sys_read fd (if telnet then PORT_BUFSIZE / 2 else PORT_BUFSIZE)%nat);
  let count := match r with Done d => Z.of_nat (length d) | Failed _ => -1 end in
  let buf := match r with Done d => read_into d (fl_buf (dev_to_tcp i)) | Failed _ => fl_buf (dev_to_tcp i) end in
  _ ← set_port p (set_dev_to_tcp (fun f => fl_set_count count (fl_set_buf buf f)));
  _ ← (match dev_monitor i with Some c => controller_write c buf count | None => mret tt end);
  if count <? 0 then
    _ ← sys_do (sys_syslog "dev read error");
    shutdown_port p (chars "dev read error")
  else if count =? 0 then shutdown_port p (chars "closed port")
  else dev_forward p telnet.

(** The second half of [handle_tcp_fd_write]: the bytes of the device. *)
Definition tcp_write_data (p : ptr) : DX_ K unit :=
  i ← port_at p;
  r ← sys (sys_write (tcpfd i) (pending (dev_to_tcp i)));
  match r with
  | Failed EINTR => mret tt
  | Failed EAGAIN => set_port p reset_timer
  | Failed EPIPE => shutdown_port p (chars "EPIPE")
  | Failed _ =>
      _ ← sys_do (sys_syslog "The tcp write had error");
      shutdown_port p (chars "tcp write error")
  | Done n =>
      let n := Z.of_nat n in
      _ ← set_port p (fun i => set_dev_to_tcp (fun f => fl_set_count (fl_count f - n) f) (add_tcp_tx n i));
      i ← port_at p;
      _ ← (if negb (fl_count (dev_to_tcp i) =? 0) then
             set_port p (set_dev_to_tcp (fun f => fl_set_start (fl_start f + n) f))
           else
             _ ← read_handler (devfd i) SEL_FD_HANDLER_ENABLED;
             _ ← write_handler (tcpfd i) SEL_FD_HANDLER_DISABLED;
             set_port p (set_dev_to_tcp (fl_set_state PORT_WAITING_INPUT)));
      set_port p reset_timer
  end.

Definition handle_tcp_fd_write (fd : Z) (p : ptr) : DX_ K unit :=
  i ← port_at p;
  let out := out_telnet_cmd (tn_data i) in
  match out with
  | [] => tcp_write_data p
  | _ =>
      r ← sys (sys_write (tcpfd i) out);
      match r with
      | Failed EINTR => mret tt
      | Failed EAGAIN => tcp_write_data p
      | Failed EPIPE => shutdown_port p (chars "EPIPE")
      | Failed _ =>
          _ ← sys_do (sys_syslog "The tcp write had error");
          shutdown_port p (chars "tcp write error")
      | Done n =>
          _ ← set_port p (fun i => set_tn_data (set_out (drop n out) (tn_data i)) i);
          if bool_decide (drop n out = []) then tcp_write_data p else mret tt
      end
  end.

(** *** From the connection to the device *)

Definition block_tcp_reader (p : ptr) : DX_ K unit :=
  i ← port_at p;
  _ ← read_handler (tcpfd i) SEL_FD_HANDLER_DISABLED;
  _ ← write_handler (devfd i) SEL_FD_HANDLER_ENABLED;
  set_port p (set_tcp_to_dev (fl_set_state PORT_WAITING_OUTPUT_CLEAR)).

(** After the write of what was read. *)
Definition tcp_written (p : ptr) (r : sysres nat) : DX_ K unit :=
  match r with
  | Failed EAGAIN => _ ← block_tcp_reader p; set_port p reset_timer
  | Failed _ =>
      _ ← sys_do (sys_syslog "The dev write had error");
      shutdown_port p (chars "dev write error")
  | Done n =>
      let n := Z.of_nat n in
      _ ← set_port p (fun i => set_tcp_to_dev (fun f => fl_set_count (fl_count f - n) f) (add_dev_tx n i));
      i ← port_at p;
      _ ← (if negb (fl_count (tcp_to_dev i) =? 0) then
             _ ← set_port p (set_tcp_to_dev (fun f => fl_set_start (fl_start f + n) f));
             block_tcp_reader p
           else mret tt);
      set_port p reset_timer
  end.

(** What follows the telnet parser: monitor, traces, the write. *)
Definition tcp_forward (p : ptr) : DX_ K unit :=
  i ← port_at p;
  let f := tcp_to_dev i in
  _ ← (match tcp_monitor i with Some c => controller_write c (fl_buf f) (fl_count f) | None => mret tt end);
  let data := take (Z.to_nat (fl_count f)) (fl_buf f) in
  _ ← trace_if p WT data NET;
  _ ← trace_if p BT data NET;
  r ← retry_write (devfd i) data;
  tcp_written p r.

Definition handle_tcp_fd_read `{ComPort K} (fd : Z) (p : ptr) : DX_ K unit :=
  i ← port_at p;
  _ ← set_port p (set_tcp_to_dev (fl_set_start 0));
  r ← sys (sys_read fd PORT_BUFSIZE);
  match r with
  | Failed _ =>
      _ ← set_port p (set_tcp_to_dev (fl_set_count (-1)));
      _ ← sys_do (sys_syslog "read error");
      shutdown_port p (chars "tcp read error")
  | Done [] =>
      _ ← set_port p (set_tcp_to_dev (fl_set_count 0));
      shutdown_port p (chars "tcp read close")
  | Done d =>
      let count := Z.of_nat (length d) in
      _ ← set_port p (set_tcp_to_dev (fun f => fl_set_count count (fl_set_buf (read_into d (fl_buf f)) f)));
      _ ← set_port p (add_tcp_rx count);
      if enabled i =? PORT_TELNET then
        i ← port_at p;
        '(buf, n) ← on_telnet p (process_telnet_data (fl_buf (tcp_to_dev i)) (length d));
        _ ← set_port p (set_tcp_to_dev (fun f => fl_set_count (Z.of_nat n) (fl_set_buf buf f)));
        i ← port_at p;
        if td_error (tn_data i) then shutdown_port p (chars "telnet output error")
        else if (n =? 0)%nat then mret tt
        else tcp_forward p
      else tcp_forward p
  end.

Definition handle_dev_fd_write (fd : Z) (p : ptr) : DX_ K unit :=
  i ← port_at p;
  r ← sys (sys_write (devfd i) (pending (tcp_to_dev i)));
  match r with
  | Failed EINTR => mret tt
  | Failed EAGAIN => set_port p reset_timer
  | Failed _ =>
      _ ← sys_do (sys_syslog "The dev write had error");
      shutdown_port p (chars "dev write error")
  | Done n =>
      let n := Z.of_nat n in
      _ ← set_port p (fun i => set_tcp_to_dev (fun f => fl_set_count (fl_count f - n) f) (add_dev_tx n i));
      i ← port_at p;
      _ ← (if negb (fl_count (tcp_to_dev i) =? 0) then
             set_port p (set_tcp_to_dev (fun f => fl_set_start (fl_start f + n) f))
           else
             _ ← read_handler (tcpfd i) SEL_FD_HANDLER_ENABLED;
             _ ← write_handler (devfd i) SEL_FD_HANDLER_DISABLED;
             set_port p (set_tcp_to_dev (fl_set_state PORT_WAITING_INPUT)));
      set_port p reset_timer
  end.

(** *** Exceptions and the timer *)

Definition handle_dev_fd_except (fd : Z) (p : ptr) : DX_ K unit :=
  _ ← sys_do (sys_syslog "Select exception on device");
  shutdown_port p (chars "fd exception").
Definition handle_tcp_fd_except (fd : Z) (p : ptr) : DX_ K unit :=
  _ ← sys_do (sys_syslog "Select exception on port");
  shutdown_port p (chars "tcp fd exception").

Definition TIOCM_CTS : Z := 32.
Definition TIOCM_CD : Z := 64.
Definition TIOCM_RI : Z := 128.
Definition TIOCM_DSR : Z := 256.

Definition modemstate_of (val : Z) : Z :=
  Z.lor (if has TIOCM_CD val then 128 else 0)
    (Z.lor (if has TIOCM_RI val then 64 else 0)
       (Z.lor (if has TIOCM_DSR val then 32 else 0) (if has TIOCM_CTS val then 16 else 0))).

(** Tell the client about the modem lines that changed. *)
Definition notify_modemstate (p : ptr) : DX_ K unit :=
  i ← port_at p;
  if is_2217 (rfc i) then
    v ← ask (sys_tiocmget (devfd i));
    match v with
    | None => mret tt
    | Some val =>
        let m := Z.land (modemstate_of val) (modemstate_mask (rfc i)) in
        if m =? last_modemstate (rfc i) then mret tt
        else
          _ ← set_port p (set_rfc (Rfc2217 (is_2217 (rfc i)) (break_set (rfc i)) (linestate_mask (rfc i))
                                     (modemstate_mask (rfc i)) m));
          on_telnet p (telnet_send_option [TN_OPT_COM_PORT; 107; m])
    end
  else mret tt.

Definition got_timeout (p : ptr) : DX_ K unit :=
  i ← port_at p;
  expired ← (if negb (timeout (conf i) =? 0) then
               _ ← set_port p (fun i => set_timeout_left (timeout_left i - 1) i);
               i ← port_at p; mret (timeout_left i <? 0)
             else mret false);
  if expired : bool then shutdown_port p (chars "timeout")
  else
    _ ← notify_modemstate p;
    now ← ask sys_now;
    i ← port_at p;
    _ ← on_timers (sel_start_timer (timer i) (TV (tv_sec now + 1) (tv_usec now)));
    mret tt.
End flow.

(** ** Doubling the 255s in the buffer *)

Lemma shift_up_spec n : forall i (a b : list Z) x r,
  length a = S i -> length b = n ->
  shift_up n i (a ++ b ++ x :: r) = Ok (a ++ take 1 (b ++ [x]) ++ b ++ r).
Proof.
  induction n as [|n IH]; intros i a b x r Ha Hb; cbn [shift_up].
  { destruct b; [done | discriminate]. }
  destruct (exists_last (l := b)) as (b' & y & ->); [by intros ->|].
  rewrite length_app in Hb. cbn [length] in Hb.
  assert (Hn : length (a ++ b') = (i + S n)%nat) by (rewrite length_app; lia).
  replace (a ++ (b' ++ [y]) ++ x :: r) with ((a ++ b') ++ y :: x :: r) by (by rewrite <- !app_assoc).
  rewrite <- Hn, load_app. cbn [mbind res_bind].
  rewrite store_Ok by (rewrite !length_app; cbn; lia). cbn [mbind res_bind].
  replace (S (length (a ++ b'))) with (length ((a ++ b') ++ [y])) by (rewrite (length_app _ [y]); cbn; lia).
  replace ((a ++ b') ++ y :: x :: r) with (((a ++ b') ++ [y]) ++ x :: r) by (by rewrite <- !app_assoc).
  rewrite insert_app_at.
  replace (((a ++ b') ++ [y]) ++ y :: r) with (a ++ b' ++ y :: (y :: r)) by (by rewrite <- !app_assoc).
  rewrite IH by lia. f_equal. rewrite <- !app_assoc. cbn [app]. f_equal. by destruct b'.
Qed.

(** Storing past the end stops the loop at its first round. *)
Lemma shift_up_overflow n i (buf : list Z) :
  (S (i + n) = length buf)%nat -> (0 < n)%nat -> shift_up n i buf = Crash OutOfBounds.
Proof.
  intros Hl Hn. destruct n as [|n]; [lia|]. cbn [shift_up]. unfold load.
  destruct (lookup_lt_is_Some_2 buf (i + S n)) as [c ->]; [lia|]. cbn [mbind res_bind].
  unfold store. rewrite bool_decide_eq_false_2 by lia. done.
Qed.

Definition has_iac (l : list Z) : bool := existsb (Z.eqb 255) l.

Lemma double_iac_length l : (length l <= length (double_iac l))%nat.
Proof.
  unfold double_iac. induction l as [|b l IH]; [done|]. cbn [flat_map]. rewrite length_app.
  destruct (b =? 255); cbn [length]; lia.
Qed.

Lemma double_iac_none l : has_iac l = false -> double_iac l = l.
Proof.
  unfold double_iac. induction l as [|b l IH]; [done|]. cbn [has_iac existsb flat_map]. intros [Hb Hl]%orb_false_iff.
  rewrite Z.eqb_sym in Hb. rewrite Hb, IH by exact Hl. done.
Qed.

(** The loop turns the bytes into their doubled form in place, and leaves the
    buffer exactly when a byte has to be doubled and the result fills it. *)
Lemma double_loop_spec todo : forall done_ rest,
  rest <> [] -> (length todo <= length rest)%nat ->
  match double_loop (length todo) (length done_) (length (done_ ++ todo)) (done_ ++ todo ++ rest) with
  | Ok (buf, n) =>
      (has_iac todo = true -> length (double_iac todo) < length todo + length rest)%nat /\
      n = length (done_ ++ double_iac todo) /\
      exists tl, buf = done_ ++ double_iac todo ++ tl /\
        (length (double_iac todo) + length tl = length todo + length rest)%nat
  | Crash c => has_iac todo = true /\ c = OutOfBounds /\
      (length todo + length rest <= length (double_iac todo))%nat
  end.
Proof.
  induction todo as [|b todo IH]; intros done_ rest Hne Hle.
  { cbn. split; [done|]. split; [done|]. exists rest. done. }
  cbn [length double_loop app]. rewrite load_app. cbn [mbind res_bind].
  cbn [has_iac existsb double_iac flat_map]. fold (double_iac todo). fold (has_iac todo).
  rewrite (Z.eqb_sym 255 b). destruct (Z.eqb_spec b 255) as [->|Hb]; cbn [orb app length].
  - destruct rest as [|g rest]; [done|].
    assert (Hn : (length (done_ ++ 255%Z :: todo) - length done_)%nat = length (todo ++ [g])).
    { rewrite !length_app. cbn. lia. }
    rewrite Hn. destruct rest as [|x rest].
    + simpl in Hle. destruct todo as [|c todo]; [|simpl in Hle; lia].
      rewrite shift_up_overflow by (rewrite ?length_app; cbn; lia). cbn. split_and!; [done | done | lia].
    + replace (done_ ++ 255 :: todo ++ g :: x :: rest) with ((done_ ++ [255]) ++ (todo ++ [g]) ++ x :: rest)
        by (by rewrite <- !app_assoc).
      rewrite shift_up_spec by (rewrite length_app; cbn; lia). cbn [mbind res_bind].
      assert (Hhd : exists h, take 1 ((todo ++ [g]) ++ [x]) = [h]) by (destruct todo; by eexists).
      destruct Hhd as [h ->].
      rewrite store_Ok by (rewrite !length_app; cbn; lia). cbn [mbind res_bind app].
      replace (S (length done_)) with (length (done_ ++ [255])) by (rewrite length_app; cbn; lia).
      rewrite insert_app_at.
      specialize (IH (done_ ++ [255; 255]) (g :: rest) ltac:(done) ltac:(simpl in *; lia)).
      replace (length (done_ ++ [255; 255])) with (S (length (done_ ++ [255]))) in IH by (rewrite !length_app; cbn; lia).
      replace (length ((done_ ++ [255; 255]) ++ todo)) with (S (length (done_ ++ 255 :: todo))) in IH
        by (rewrite !length_app; cbn; lia).
      replace ((done_ ++ [255]) ++ 255 :: (todo ++ [g]) ++ rest) with ((done_ ++ [255; 255]) ++ todo ++ g :: rest)
        by (by rewrite <- !app_assoc).
      pose proof (double_iac_length todo) as Hdl. cbn [length] in *.
      destruct (double_loop _ _ _ _) as [[buf n]|c].
      * destruct IH as (H1 & -> & tl & -> & H2). split; [|split].
        -- intros _. destruct (has_iac todo) eqn:E; [specialize (H1 eq_refl); lia|].
           rewrite double_iac_none by done. lia.
        -- rewrite !length_app. cbn. lia.
        -- exists tl. rewrite <- app_assoc. split; [done | lia].
      * destruct IH as (H1 & -> & H2). split_and!; [done | done | lia].
  - specialize (IH (done_ ++ [b]) rest Hne ltac:(simpl in *; lia)).
    replace (length (done_ ++ [b])) with (S (length done_)) in IH by (rewrite length_app; cbn; lia).
    rewrite <- !app_assoc in IH. cbn [app] in IH.
    destruct (double_loop _ _ _ _) as [[buf n]|c].
    + destruct IH as (H1 & -> & tl & -> & H2). split; [intros; specialize (H1 ltac:(done)); lia|]. split.
      * done.
      * exists tl. rewrite <- app_assoc. split; [done | lia].
    + destruct IH as (H1 & -> & H2). split_and!; [done | done | lia].
Qed.

(** ** The stream from the device to the connection *)

Section stream.
Context {K : Type} `{!Kernel K} `{!KernelLaws K}.
Implicit Types (s : dx K) (i : port_info) (p : ptr).

(** The state with another content of the port. *)
Definition upd p i s : dx K := with_pheap (<[p := i]> (pheap s)) s.

Lemma port_at_Ok p i s : pheap s !! p = Some i -> port_at p s = Ok (i, s).
Proof. unfold port_at. by intros ->. Qed.
Lemma set_port_Ok p f i s : pheap s !! p = Some i -> set_port p f s = Ok (tt, upd p (f i) s).
Proof. unfold set_port. by intros ->. Qed.
Lemma upd_lookup p i s : pheap (upd p i s) !! p = Some i.
Proof. apply lookup_insert_eq. Qed.
Lemma upd_upd p i i' s : upd p i' (upd p i s) = upd p i' s.
Proof. unfold upd, with_pheap. cbn. by rewrite insert_insert_eq. Qed.
Lemma upd_same p i s : pheap s !! p = Some i -> upd p i s = s.
Proof. intros Hi. unfold upd. rewrite insert_id by done. by destruct s. Qed.

Lemma read_handler_off fd s : 0 <= fd < FD_SETSIZE ->
  read_handler fd SEL_FD_HANDLER_DISABLED s = Ok (tt, with_dsel (with_read (read_set (dsel s) ∖ {[fd]}) (dsel s)) s).
Proof.
  intros Hfd. unfold read_handler, on_selector, sel_set_fd_read_handler, set_member. cbn.
  by rewrite fd_index_ok.
Qed.
Lemma read_handler_on fd s : 0 <= fd < FD_SETSIZE ->
  read_handler fd SEL_FD_HANDLER_ENABLED s = Ok (tt, with_dsel (with_read ({[fd]} ∪ read_set (dsel s)) (dsel s)) s).
Proof.
  intros Hfd. unfold read_handler, on_selector, sel_set_fd_read_handler, set_member. cbn.
  by rewrite fd_index_ok.
Qed.
Lemma write_handler_off fd s : 0 <= fd < FD_SETSIZE ->
  write_handler fd SEL_FD_HANDLER_DISABLED s = Ok (tt, with_dsel (with_write (write_set (dsel s) ∖ {[fd]}) (dsel s)) s).
Proof.
  intros Hfd. unfold write_handler, on_selector, sel_set_fd_write_handler, set_member. cbn.
  by rewrite fd_index_ok.
Qed.
Lemma write_handler_on fd s : 0 <= fd < FD_SETSIZE ->
  write_handler fd SEL_FD_HANDLER_ENABLED s = Ok (tt, with_dsel (with_write ({[fd]} ∪ write_set (dsel s)) (dsel s)) s).
Proof.
  intros Hfd. unfold write_handler, on_selector, sel_set_fd_write_handler, set_member. cbn.
  by rewrite fd_index_ok.
Qed.

(** One direction of an open port: [src] is read into [f], which is written
    to [dst].  While bytes are left the reader is off and the writer on. *)
Record flow_shape (src dst : Z) (f : flow) : Prop := {
  fs_src : 0 <= src < FD_SETSIZE;
  fs_dst : 0 <= dst < FD_SETSIZE;
  fs_differ : src <> dst;
  fs_buf : length (fl_buf f) = PORT_BUFSIZE;
  fs_range : 0 <= fl_start f /\ 0 <= fl_count f /\ fl_start f + fl_count f <= Z.of_nat PORT_BUFSIZE
}.
Record flow_ok (src dst : Z) (f : flow) (v : selector) : Prop := {
  fo_shape : flow_shape src dst f;
  fo_blocked : fl_count f <> 0 -> src ∉ read_set v /\ dst ∈ write_set v
}.

(** The monitor is a controller with a descriptor of its own. *)
Definition monitor_ok (m : option ptr) (dst : Z) s : Prop :=
  match m with None => True | Some c => exists fd, ctl_fds s !! c = Some fd /\ fd <> dst end.

Record d2t_ok p s i : Prop := {
  d_port : pheap s !! p = Some i;
  d_flow : flow_ok (devfd i) (tcpfd i) (dev_to_tcp i) (dsel s);
  d_trace : trace_free (tcpfd i) i;
  d_monitor : monitor_ok (dev_monitor i) (tcpfd i) s
}.

(** What the connection has taken and what it will be given. *)
Definition d2t_stream s i : list Z := sent (kern s) (tcpfd i) ++ pending (dev_to_tcp i).

(** What the bytes of the device become. *)
Definition encode i (d : list Z) : list Z := if enabled i =? PORT_TELNET then double_iac d else d.

(** The parts of a port the transfer never changes. *)
Definition same_line i i' : Prop :=
  conf i' = conf i /\ enabled i' = enabled i /\ devfd i' = devfd i /\ tcpfd i' = tcpfd i /\
  tn_data i' = tn_data i /\ dev_monitor i' = dev_monitor i /\ tcp_monitor i' = tcp_monitor i /\
  (forall fd, trace_free fd i -> trace_free fd i').

Lemma same_line_refl i : same_line i i.
Proof. by split_and!. Qed.
Lemma same_line_trans i1 i2 i3 : same_line i1 i2 -> same_line i2 i3 -> same_line i1 i3.
Proof. intros (A1&A2&A3&A4&A5&A6&A7&A8) (B1&B2&B3&B4&B5&B6&B7&B8). split_and!; try congruence. auto. Qed.

Lemma traced_same_line p s i s' i' : traced p s i s' i' -> same_line i i'.
Proof.
  intros T. pose proof (fun fd => traced_free p s i s' i' fd T).
  destruct T as [_ (w & r & b & -> & _) _ _ _]. by split_and!.
Qed.

Lemma pending_start f n : pending (Flow (fl_state f) (fl_buf f) 0 n) = take (Z.to_nat n) (fl_buf f).
Proof. unfold pending. cbn. by rewrite drop_0. Qed.

(** The bytes left after the first [n] were taken. *)
Lemma pending_after f n :
  0 <= fl_start f -> (n <= length (pending f))%nat -> fl_count f = Z.of_nat (length (pending f)) ->
  drop n (pending f) =
    pending (Flow (fl_state f) (fl_buf f) (fl_start f + Z.of_nat n) (fl_count f - Z.of_nat n)).
Proof.
  intros Hs Hn Hc. unfold pending at 1. unfold pending. cbn.
  rewrite skipn_firstn_comm, drop_drop. f_equal; [lia|]. f_equal. lia.
Qed.

Lemma pending_length src dst f : flow_shape src dst f -> length (pending f) = Z.to_nat (fl_count f).
Proof.
  intros [_ _ _ Hb (H1 & H2 & H3)]. unfold pending. rewrite length_take, length_drop, Hb. lia.
Qed.

(** The reader off and the writer on. *)
Lemma block_dev_reader_Ok p i s :
  pheap s !! p = Some i -> 0 <= devfd i < FD_SETSIZE -> 0 <= tcpfd i < FD_SETSIZE ->
  exists v, block_dev_reader p s = Ok (tt, upd p (set_dev_to_tcp (fl_set_state PORT_WAITING_OUTPUT_CLEAR) i) (with_dsel v s)) /\
    devfd i ∉ read_set v /\ tcpfd i ∈ write_set v.
Proof.
  intros Hi Hd Ht. unfold block_dev_reader. rewrite (ST_bind_Ok _ _ _ _ _ (port_at_Ok _ _ _ Hi)).
  rewrite (ST_bind_Ok _ _ _ _ _ (read_handler_off _ _ Hd)). rewrite (ST_bind_Ok _ _ _ _ _ (write_handler_on _ _ Ht)).
  rewrite (set_port_Ok p _ i) by done. eexists. split; [reflexivity|]. cbn. set_solver.
Qed.

(** The reader on and the writer off. *)
Lemma unblock_Ok p i s f a b : pheap s !! p = Some i -> 0 <= a < FD_SETSIZE -> 0 <= b < FD_SETSIZE ->
  exists v, (_ ← read_handler a SEL_FD_HANDLER_ENABLED; _ ← write_handler b SEL_FD_HANDLER_DISABLED;
             set_port p f) s = Ok (tt, upd p (f i) (with_dsel v s)).
Proof.
  intros Hi Ha Hb. rewrite (ST_bind_Ok _ _ _ _ _ (read_handler_on _ _ Ha)).
  rewrite (ST_bind_Ok _ _ _ _ _ (write_handler_off _ _ Hb)). rewrite (set_port_Ok p _ i) by done. by eexists.
Qed.

(** How a handler ends: with the port open, or in [shutdown_port]. *)
Definition flow_result (m : DX_ K unit) (p : ptr) s (ok : dx K -> port_info -> Prop) (closing : dx K -> port_info -> Prop) : Prop :=
  (exists s' i', m s = Ok (tt, s') /\ ok s' i') \/
  (exists reason s1 i1, m s = shutdown_port p reason s1 /\ (length reason <= 900)%nat /\ closing s1 i1).

(** Before a shutdown only the system and the port have changed, and the port
    neither in what it is nor in its descriptors, timer and configuration. *)
Definition closing_at p s i s1 i1 : Prop :=
  s1 = upd p i1 (with_kern (kern s1) s) /\
  conf i1 = conf i /\ timer i1 = timer i /\ tcpfd i1 = tcpfd i /\ devfd i1 = devfd i /\
  config_num i1 = config_num i /\ new_config i1 = new_config i /\
  (forall fd, trace_free fd i -> trace_free fd i1).

Lemma closing_lookup p s i s1 i1 : closing_at p s i s1 i1 -> pheap s1 !! p = Some i1.
Proof. intros [-> _]. apply upd_lookup. Qed.
Lemma closing_kern p s i k : pheap s !! p = Some i -> closing_at p s i (with_kern k s) i.
Proof. intros Hi. split; [|by split_and!]. by rewrite upd_same. Qed.
Lemma closing_upd p s i k i1 : 
  conf i1 = conf i -> timer i1 = timer i -> tcpfd i1 = tcpfd i -> devfd i1 = devfd i ->
  config_num i1 = config_num i -> new_config i1 = new_config i -> (forall fd, trace_free fd i -> trace_free fd i1) ->
  closing_at p s i (upd p i1 (with_kern k s)) i1.
Proof. intros. split; [done | by split_and!]. Qed.
Lemma closing_trans p s i s1 i1 s2 i2 :
  closing_at p s i s1 i1 -> closing_at p s1 i1 s2 i2 -> closing_at p s i s2 i2.
Proof.
  intros (E1 & A1 & A2 & A3 & A4 & A5 & A6 & A7) (E2 & B1 & B2 & B3 & B4 & B5 & B6 & B7).
  split; [|split_and!; try congruence; auto]. rewrite E2, E1. unfold upd, with_pheap, with_kern. cbn.
  by rewrite insert_insert_eq.
Qed.
Lemma traced_closing p s i s' i' : traced p s i s' i' -> closing_at p s i s' i'.
Proof.
  intros T. pose proof (fun fd => traced_free p s i s' i' fd T) as Hf.
  destruct T as [E (w & r & b & -> & _) _ _ _]. split; [exact E | by split_and!].
Qed.

Lemma flow_result_bind {A} (m : DX_ K A) (k : A -> DX_ K unit) p s a s0 ok closing :
  m s = Ok (a, s0) -> flow_result (k a) p s0 ok closing -> flow_result (m ≫= k) p s ok closing.
Proof. intros E H. unfold flow_result in *. by rewrite (ST_bind_Ok _ _ _ _ _ E). Qed.

(** [sent] and [received] as before. *)
Definition same_bytes (k k' : K) : Prop :=
  (forall fd, sent k' fd = sent k fd) /\ (forall fd, received k' fd = received k fd).

Lemma dev_written_step p s i r :
  pheap s !! p = Some i -> flow_shape (devfd i) (tcpfd i) (dev_to_tcp i) ->
  fl_start (dev_to_tcp i) = 0 -> fl_count (dev_to_tcp i) <> 0 ->
  match r with Done n => (n <= length (pending (dev_to_tcp i)))%nat | Failed e => e <> EINTR end ->
  flow_result (dev_written p r) p s
    (fun s' i' => pheap s' !! p = Some i' /\ same_line i i' /\ kern s' = kern s /\ ctl_fds s' = ctl_fds s /\
       flow_ok (devfd i) (tcpfd i) (dev_to_tcp i') (dsel s') /\
       pending (dev_to_tcp i') = match r with Done n => drop n (pending (dev_to_tcp i)) | Failed _ => pending (dev_to_tcp i) end)
    (fun s1 i1 => closing_at p s i s1 i1 /\ same_line i i1 /\ same_bytes (kern s) (kern s1) /\
       (exists e, r = Failed e)).
Proof.
  intros Hi Hok Hst Hcn Hr. pose proof (pending_length _ _ _ Hok) as Hlen.
  destruct Hok as [Hsrc Hdst Hdiff Hbuf Hrange]. rewrite Hst in Hrange.
  assert (Hquiet : forall m, same_bytes (kern s) (sys_syslog m (kern s))).
  { intros m. destruct (syslog_quiet m (kern s)) as (A & B & _). by split. }
  destruct r as [n|e]; cbn [dev_written].
  - left. rewrite (ST_bind_Ok _ _ _ _ _ (set_port_Ok p _ i s Hi)).
    set (i1 := set_dev_to_tcp _ _). rewrite (ST_bind_Ok _ _ _ _ _ (port_at_Ok _ _ _ (upd_lookup p i1 s))).
    destruct (Z.eqb_spec (fl_count (dev_to_tcp i1)) 0) as [Hz|Hz]; cbn [negb].
    + rewrite (ST_bind_Ok _ _ _ _ _ eq_refl). rewrite (set_port_Ok _ _ _ _ (upd_lookup p i1 s)), upd_upd.
      eexists _, _. split; [reflexivity|]. split; [apply upd_lookup|]. split; [by split_and!|]. split; [done|]. split; [done|].
      cbn in Hz |- *. split.
      * constructor; [|done]. constructor; cbn; try done. rewrite ?Hst. lia.
      * rewrite (pending_after (dev_to_tcp i) n) by lia. unfold pending. cbn. by rewrite Hz.
    + set (i2 := set_dev_to_tcp (fl_set_state PORT_WAITING_OUTPUT_CLEAR)
              (set_dev_to_tcp (fun f => fl_set_start (fl_start f + Z.of_nat n) f) i1)).
      destruct (block_dev_reader_Ok p (set_dev_to_tcp (fun f => fl_set_start (fl_start f + Z.of_nat n) f) i1)
        (upd p (set_dev_to_tcp (fun f => fl_set_start (fl_start f + Z.of_nat n) f) i1) s))
        as (v & Eb & Hv1 & Hv2); [apply upd_lookup | done | done |].
      assert (E : (_ ← set_port p (set_dev_to_tcp (fun f => fl_set_start (fl_start f + Z.of_nat n) f));
                   block_dev_reader p) (upd p i1 s) =
                Ok (tt, upd p i2 (with_dsel v (upd p (set_dev_to_tcp (fun f => fl_set_start (fl_start f + Z.of_nat n) f) i1) s)))).
      { rewrite (ST_bind_Ok _ _ _ _ _ (set_port_Ok _ _ _ _ (upd_lookup p i1 s))), upd_upd. exact Eb. }
      rewrite (ST_bind_Ok _ _ _ _ _ E). rewrite (set_port_Ok _ _ _ _ (upd_lookup p i2 _)), upd_upd.
      eexists _, _. split; [reflexivity|]. split; [apply upd_lookup|]. split; [by split_and!|]. split; [done|]. split; [done|].
      cbn in Hz |- *. split.
      * constructor; [|by split]. constructor; cbn; try done. rewrite ?Hst. lia.
      * rewrite (pending_after (dev_to_tcp i) n) by lia. unfold pending. cbn. by rewrite Hst.
  - destruct e; cbn [dev_written]; [done | | |].
    + left. destruct (block_dev_reader_Ok p i s Hi Hsrc Hdst) as (v & Eb & Hv1 & Hv2).
      rewrite (ST_bind_Ok _ _ _ _ _ Eb), (set_port_Ok _ _ _ _ (upd_lookup p _ _)), upd_upd.
      eexists _, _. split; [reflexivity|]. split; [apply upd_lookup|]. split; [by split_and!|]. split; [done|]. split; [done|].
      split; [|done]. constructor; [|by split]. constructor; cbn; try done. rewrite ?Hst. lia.
    + right. eexists _, s, i. split; [reflexivity|]. split; [by apply Nat.leb_le|].
      split; [rewrite <- (with_kern_same s) at 2; by apply closing_kern|]. split; [apply same_line_refl|]. split; [done | eauto].
    + right. rewrite (ST_bind_Ok _ _ _ _ _ eq_refl). eexists _, _, i. split; [reflexivity|].
      split; [by apply Nat.leb_le|]. split; [by apply closing_kern|]. split; [apply same_line_refl|]. split; [apply Hquiet | eauto].
Qed.

Lemma trace_if_step p sel buf prefix s i : (length prefix <= 8)%nat -> pheap s !! p = Some i ->
  exists s' i', trace_if p sel buf prefix s = Ok (tt, s') /\ traced p s i s' i'.
Proof.
  intros Hp Hi. unfold trace_if. rewrite (ST_bind_Ok _ _ _ _ _ (port_at_Ok _ _ _ Hi)).
  destruct (negb _); [by apply do_trace_step|]. exists s, i. split; [done | by apply traced_refl].
Qed.

Lemma traced_state p s i s' i' : traced p s i s' i' ->
  dsel s' = dsel s /\ ctl_fds s' = ctl_fds s /\ dev_to_tcp i' = dev_to_tcp i /\ tcp_to_dev i' = tcp_to_dev i.
Proof. intros [-> (w & r & b & -> & _) _ _ _]. done. Qed.

(** Two traces of the same bytes, and the byte count. *)
Lemma two_traces_step p a b buf prefix f s i :
  (length prefix <= 8)%nat -> pheap s !! p = Some i ->
  exists s' i', (forall m : DX_ K unit, (_ ← trace_if p a buf prefix; _ ← trace_if p b buf prefix; _ ← set_port p f; m) s = m (upd p (f i') s')) /\
    traced p s i s' i'.
Proof.
  intros Hp Hi. destruct (trace_if_step p a buf prefix s i Hp Hi) as (s1 & i1 & E1 & T1).
  destruct (trace_if_step p b buf prefix s1 i1 Hp (traced_lookup _ _ _ _ _ T1)) as (s2 & i2 & E2 & T2).
  exists s2, i2. split; [|by eapply traced_trans]. intros m.
  rewrite (ST_bind_Ok _ _ _ _ _ E1), (ST_bind_Ok _ _ _ _ _ E2).
  by rewrite (ST_bind_Ok _ _ _ _ _ (set_port_Ok p f i2 s2 (traced_lookup _ _ _ _ _ T2))).
Qed.

(** All 512 bytes of a telnet read are 255: the doubled bytes fill the buffer
    and the loop stores behind it. *)
Definition all_iac (d : list Z) : Prop := d = replicate 512 255.

Lemma double_iac_le d : (length (double_iac d) <= 2 * length d)%nat /\
  (length (double_iac d) = (2 * length d)%nat -> d = replicate (length d) 255).
Proof.
  unfold double_iac. induction d as [|b d [IH1 IH2]]; [done|]. cbn [flat_map]. rewrite length_app.
  destruct (Z.eqb_spec b 255) as [->|]; cbn [length]; split; try lia; intros.
  cbn [replicate]. f_equal. apply IH2. lia.
Qed.

Lemma double_in_buffer (d rest : list Z) :
  length (d ++ rest) = PORT_BUFSIZE -> (length d <= 512)%nat ->
  match double_loop (length d) 0 (length d) (d ++ rest) with
  | Ok (buf, n) => ~ all_iac d /\ n = length (double_iac d) /\ take n buf = double_iac d /\
      length buf = PORT_BUFSIZE /\ (n <= PORT_BUFSIZE)%nat
  | Crash c => all_iac d /\ c = OutOfBounds
  end.
Proof.
  intros Hl Hd. unfold PORT_BUFSIZE in *. rewrite length_app in Hl.
  pose proof (double_loop_spec d [] rest) as H. cbn [app length] in H.
  assert (rest <> []) by (intros ->; simpl in Hl; lia). specialize (H ltac:(done) ltac:(lia)).
  destruct (double_iac_le d) as [H2 H3]. pose proof (double_iac_length d) as H4.
  destruct (double_loop _ _ _ _) as [[buf n]|c].
  - destruct H as (H1 & -> & tl & -> & Htl). split; [|split_and!; [done | apply take_app_length | rewrite length_app; lia | lia]].
    intros Ha. assert (Hi : has_iac d = true) by (by rewrite Ha).
    assert (Hx : length (double_iac d) = 1024%nat) by (by rewrite Ha).
    assert (Hy : length d = 512%nat) by (by rewrite Ha). specialize (H1 Hi). lia.
  - destruct H as (H1 & -> & H5). split; [|done]. unfold all_iac.
    assert (length d = 512)%nat by lia. rewrite <- H. apply H3. lia.
Qed.

(** From bytes that are to go out, [out], to what the connection takes. *)

Lemma dev_send_step p s i out :
  pheap s !! p = Some i -> flow_shape (devfd i) (tcpfd i) (dev_to_tcp i) ->
  fl_start (dev_to_tcp i) = 0 -> fl_count (dev_to_tcp i) <> 0 -> pending (dev_to_tcp i) = out ->
  flow_result (r ← retry_write (tcpfd i) (take (Z.to_nat (fl_count (dev_to_tcp i))) (fl_buf (dev_to_tcp i))); dev_written p r) p s
    (fun s' i' => pheap s' !! p = Some i' /\ same_line i i' /\ ctl_fds s' = ctl_fds s /\
       flow_ok (devfd i) (tcpfd i) (dev_to_tcp i') (dsel s') /\
       (forall fd, received (kern s') fd = received (kern s) fd) /\
       d2t_stream s' i' = sent (kern s) (tcpfd i) ++ out)
    (fun s1 i1 => closing_at p s i s1 i1 /\ (forall fd, received (kern s1) fd = received (kern s) fd) /\
       sent (kern s1) (tcpfd i) = sent (kern s) (tcpfd i)).
Proof.
  intros Hi Hsh Hst Hcn Hout.
  assert (Hp : take (Z.to_nat (fl_count (dev_to_tcp i))) (fl_buf (dev_to_tcp i)) = out).
  { rewrite <- Hout. unfold pending. by rewrite Hst. }
  rewrite Hp. destruct (retry_write_step (tcpfd i) out s) as (r & k' & E & Hr & Hs & Hrec).
  eapply flow_result_bind; [exact E|].
  destruct (dev_written_step p (with_kern k' s) i r Hi Hsh Hst Hcn) as [(s' & i' & Em & H1 & H2 & H3 & H4 & H5 & H6)|(re & s1 & i1 & Em & Hre & H1 & H2 & [H3 H3'] & [e ->])].
  - destruct r; [rewrite Hout; apply Hr | apply Hr].
  - left. exists s', i'. split; [exact Em|]. split_and!; try done.
    + intros fd. rewrite H3. apply Hrec.
    + unfold d2t_stream. destruct H2 as (_ & _ & _ & -> & _). rewrite H3, H6, Hout. cbn [kern with_kern].
      destruct r as [n|e]; [|by destruct Hr as [_ ->]].
      destruct Hr as (_ & _ & ->). by rewrite <- app_assoc, take_drop.
  - right. exists re, s1, i1. split; [exact Em|]. split; [done|].
    split; [eapply closing_trans; [by apply closing_kern | exact H1]|]. split.
    + intros fd. rewrite H3'. apply Hrec.
    + rewrite H3. apply Hr.
Qed.

Lemma dev_forward_step p s i d rest telnet :
  pheap s !! p = Some i -> flow_shape (devfd i) (tcpfd i) (dev_to_tcp i) -> trace_free (tcpfd i) i ->
  fl_start (dev_to_tcp i) = 0 -> fl_count (dev_to_tcp i) = Z.of_nat (length d) -> d <> [] ->
  fl_buf (dev_to_tcp i) = d ++ rest -> telnet = (enabled i =? PORT_TELNET) ->
  (telnet = true -> length d <= 512)%nat ->
  (telnet = true /\ all_iac d /\ dev_forward p telnet s = Crash OutOfBounds) \/
  (telnet = true -> ~ all_iac d) /\
  flow_result (dev_forward p telnet) p s
    (fun s' i' => pheap s' !! p = Some i' /\ same_line i i' /\ ctl_fds s' = ctl_fds s /\
       flow_ok (devfd i) (tcpfd i) (dev_to_tcp i') (dsel s') /\
       (forall fd, received (kern s') fd = received (kern s) fd) /\
       d2t_stream s' i' = sent (kern s) (tcpfd i) ++ encode i d)
    (fun s1 i1 => closing_at p s i s1 i1 /\ (forall fd, received (kern s1) fd = received (kern s) fd) /\
       sent (kern s1) (tcpfd i) = sent (kern s) (tcpfd i)).
Proof.
  intros Hi Hsh Htf Hst Hcn Hne Hbuf Htel Hlen. subst telnet. unfold dev_forward, flow_result.
  rewrite (ST_bind_Ok _ _ _ _ _ (port_at_Ok _ _ _ Hi)).
  destruct (two_traces_step p RT BT (take (Z.to_nat (fl_count (dev_to_tcp i))) (fl_buf (dev_to_tcp i))) SERIAL
              (add_dev_rx (fl_count (dev_to_tcp i))) s i ltac:(cbn; lia) Hi) as (s2 & i2 & Erun & T).
  rewrite Erun. clear Erun. pose proof (traced_state _ _ _ _ _ T) as (Hsel & Hctl & Hd2t & _).
  pose proof (traced_same_line _ _ _ _ _ T) as HL. destruct HL as (L1 & L2 & L3 & L4 & L5 & L6 & L7 & L8).
  set (i3 := add_dev_rx (fl_count (dev_to_tcp i)) i2).
  assert (Hn0 : (length d <> 0)%nat) by (by destruct d).
  destruct Hsh as [Hsrc Hdst Hdiff Hbl Hrg].
  rewrite Hcn, Nat2Z.id, Hbuf. unfold encode.
  assert (Hfin : forall i4 out, pheap (upd p i4 s2) !! p = Some i4 -> same_line i i4 -> closing_at p s i (upd p i4 s2) i4 ->
    flow_shape (devfd i4) (tcpfd i4) (dev_to_tcp i4) -> fl_start (dev_to_tcp i4) = 0 ->
    fl_count (dev_to_tcp i4) <> 0 -> pending (dev_to_tcp i4) = out ->
    flow_result (i ← port_at p;
       r ← retry_write (tcpfd i) (take (Z.to_nat (fl_count (dev_to_tcp i))) (fl_buf (dev_to_tcp i)));
       dev_written p r) p (upd p i4 s2)
    (fun s' i' => pheap s' !! p = Some i' /\ same_line i i' /\ ctl_fds s' = ctl_fds s /\
       flow_ok (devfd i) (tcpfd i) (dev_to_tcp i') (dsel s') /\
       (forall fd, received (kern s') fd = received (kern s) fd) /\
       d2t_stream s' i' = sent (kern s) (tcpfd i) ++ out)
    (fun s1 i1 => closing_at p s i s1 i1 /\ (forall fd, received (kern s1) fd = received (kern s) fd) /\
       sent (kern s1) (tcpfd i) = sent (kern s) (tcpfd i))).
  { intros i4 out Hi4 HL4 Hcl4 Hsh4 Hst4 Hcn4 Hout. eapply flow_result_bind; [by apply port_at_Ok|].
    pose proof (tc_sent _ _ _ _ _ T (tcpfd i) Htf) as Hsent. pose proof (tc_received _ _ _ _ _ T) as Hrec.
    pose proof HL4 as (_ & _ & M3 & M4 & _).
    destruct (dev_send_step p (upd p i4 s2) i4 out Hi4 Hsh4 Hst4 Hcn4 Hout)
      as [(s' & i' & Em & G1 & G2 & G3 & G4 & G5 & G6)|(re & s1 & i1 & Em & Hre & G1 & G2 & G3)].
    - left. exists s', i'. split; [exact Em|]. rewrite M3, M4 in *. split_and!; [done | by eapply same_line_trans | | done | |].
      + by rewrite G3.
      + intros fd. rewrite G5. apply Hrec.
      + rewrite G6. cbn. by rewrite Hsent.
    - right. exists re, s1, i1. split; [exact Em|]. rewrite M4 in *. split_and!; [done | by eapply closing_trans | |].
      + intros fd. rewrite G2. apply Hrec.
      + by rewrite G3. }
  assert (HL3 : same_line i i3) by (by split_and!).
  assert (Hcl : forall f, closing_at p s i (upd p (set_dev_to_tcp f i3) s2) (set_dev_to_tcp f i3)).
  { intros f. eapply closing_trans; [exact (traced_closing _ _ _ _ _ T)|].
    rewrite <- (with_kern_same s2) at 2. by apply closing_upd. }
  assert (Hcl3 : closing_at p s i (upd p i3 s2) i3).
  { specialize (Hcl (fun f => f)). by destruct i3. }
  destruct (enabled i =? PORT_TELNET) eqn:Et.
  - rewrite Hbuf in Hbl. pose proof (double_in_buffer d rest Hbl (Hlen eq_refl)) as Hdb.
    destruct (double_loop (length d) 0 (length d) (d ++ rest)) as [[buf n]|c] eqn:Ed.
    + right. destruct Hdb as (Hna & Hn & Htk & Hbl' & Hle). split; [done|].
      set (i4 := set_dev_to_tcp (fun f => fl_set_count (Z.of_nat n) (fl_set_buf buf f)) i3).
      assert (E4 : ('(buf0, n0) ← lift_res (Ok (buf, n));
         set_port p (set_dev_to_tcp (fun f => fl_set_count (Z.of_nat n0) (fl_set_buf buf0 f)))) (upd p i3 s2) = Ok (tt, upd p i4 s2)).
      { rewrite (ST_bind_Ok _ _ _ _ _ eq_refl). rewrite (set_port_Ok _ _ _ _ (upd_lookup p i3 s2)), upd_upd. done. }
      rewrite (ST_bind_Ok _ _ _ _ _ E4). pose proof (double_iac_length d).
      apply (Hfin i4 (double_iac d)); [apply upd_lookup | by split_and! | apply Hcl | | | | ];
        cbn; rewrite ?Hd2t, ?L3, ?L4, ?Hst; try done.
      * constructor; cbn; rewrite ?Hd2t, ?Hst; try done. lia.
      * lia.
      * unfold pending. cbn. rewrite ?Hd2t, Hst, Nat2Z.id, drop_0. exact Htk.
    + left. destruct Hdb as [Ha ->]. split; [done|]. split; [done|].
      unfold lift_res. rewrite ST_bind_eq. done.
  - right. split; [done|]. rewrite (ST_bind_Ok _ _ _ _ _ eq_refl).
    apply (Hfin i3 d); [apply upd_lookup | done | exact Hcl3 | | | |]; cbn; rewrite ?Hd2t, ?L3, ?L4, ?Hcn; try done.
    + lia.
    + unfold pending. rewrite Hst, Hcn, Hbuf, Nat2Z.id. cbn [Z.to_nat]. rewrite drop_0. apply take_app_length.
Qed.

(** The monitor gets its bytes through a descriptor of its own. *)
Lemma monitor_step m dst buf count s :
  monitor_ok m dst s -> 0 <= count <= Z.of_nat (length buf) ->
  exists k', (match m with Some c => controller_write c buf count | None => mret tt end) s = Ok (tt, with_kern k' s) /\
    sent k' dst = sent (kern s) dst /\ (forall fd, received k' fd = received (kern s) fd).
Proof.
  intros Hm Hc. destruct m as [c|]; [|exists (kern s); by rewrite with_kern_same].
  destruct Hm as (fd & Hfd & Hne). unfold controller_write. rewrite (ST_bind_Ok _ _ _ _ _ eq_refl), Hfd.
  rewrite check_true; [|rewrite andb_true_iff; split; apply Z.leb_le; lia].
  rewrite (ST_bind_Ok _ _ _ _ _ eq_refl). unfold write_ignore.
  destruct (sys_write fd (take (Z.to_nat count) buf) (kern s)) as [r k'] eqn:E.
  rewrite (ST_bind_Ok _ _ _ _ _ (step_sys _ _ _ _ E)). exists k'. split; [done|].
  destruct (write_quiet_but _ _ _ _ _ E) as (A & B & _). split; [apply A; congruence | apply B].
Qed.

Definition read_size i : nat := if enabled i =? PORT_TELNET then (PORT_BUFSIZE / 2)%nat else PORT_BUFSIZE.

(** How one event of the direction ends. *)
Definition d2t_after p s i (m : DX_ K unit) : Prop :=
  (exists s' i' d, m s = Ok (tt, s') /\ d2t_ok p s' i' /\ same_line i i' /\
     received (kern s') (devfd i) = received (kern s) (devfd i) ++ d /\
     d2t_stream s' i' = d2t_stream s i ++ encode i d) \/
  (exists reason s1 i1 d, m s = shutdown_port p reason s1 /\ (length reason <= 900)%nat /\ closing_at p s i s1 i1 /\
     received (kern s1) (devfd i) = received (kern s) (devfd i) ++ d /\
     sent (kern s1) (tcpfd i) `prefix_of` d2t_stream s i ++ encode i d).

(** What a read of the device delivers, and how the handler of it ends. *)
Definition bytes_read s i : list Z :=
  match fst (sys_read (devfd i) (read_size i) (kern s)) with Done d => d | Failed _ => [] end.

Definition d2t_read p s i (m : DX_ K unit) : Prop :=
  let d := bytes_read s i in
  (exists s' i', m s = Ok (tt, s') /\ d2t_ok p s' i' /\ same_line i i' /\ d <> [] /\
     received (kern s') (devfd i) = received (kern s) (devfd i) ++ d /\
     d2t_stream s' i' = d2t_stream s i ++ encode i d) \/
  (exists reason s1 i1, m s = shutdown_port p reason s1 /\ (length reason <= 900)%nat /\ closing_at p s i s1 i1 /\
     received (kern s1) (devfd i) = received (kern s) (devfd i) ++ d /\
     sent (kern s1) (tcpfd i) `prefix_of` d2t_stream s i ++ encode i d).

Lemma d2t_read_after p s i m : d2t_read p s i m -> d2t_after p s i m.
Proof.
  intros [(s' & i' & E & Hok & HL & _ & Hr & Hs)|(re & s1 & i1 & H)]; [left | right].
  - by exists s', i', (bytes_read s i).
  - by exists re, s1, i1, (bytes_read s i).
Qed.

Lemma d2t_ok_keep p s i s' i' :
  d2t_ok p s i -> pheap s' !! p = Some i' -> same_line i i' -> ctl_fds s' = ctl_fds s ->
  flow_ok (devfd i) (tcpfd i) (dev_to_tcp i') (dsel s') -> d2t_ok p s' i'.
Proof.
  intros [H1 H2 H3 H4] Hi' (L1 & L2 & L3 & L4 & L5 & L6 & L7 & L8) Hctl Hf. constructor.
  - done.
  - by rewrite L3, L4.
  - rewrite L4. by apply L8.
  - unfold monitor_ok in *. by rewrite L6, L4, Hctl.
Qed.

(** The reads that make the handler leave its objects: a telnet read of 512
    bytes that are all 255, and a failed read on a monitored port. *)
Definition bad_read s i : Prop :=
  (enabled i = PORT_TELNET /\ fst (sys_read (devfd i) (read_size i) (kern s)) = Done (replicate 512 255)) \/
  (dev_monitor i <> None /\ exists e, fst (sys_read (devfd i) (read_size i) (kern s)) = Failed e).

Lemma handle_dev_fd_read_step p s i :
  d2t_ok p s i -> devfd i ∈ read_set (dsel s) ->
  (~ bad_read s i /\ d2t_read p s i (handle_dev_fd_read (devfd i) p)) \/
  (bad_read s i /\ handle_dev_fd_read (devfd i) p s = Crash OutOfBounds).
Proof.
  intros Hok Hready. pose proof Hok as [Hi Hfl Htf Hm]. pose proof Hfl as [[Hsrc Hdst Hdiff Hbuf Hrange] Hbl].
  assert (Hc0 : fl_count (dev_to_tcp i) = 0).
  { destruct (decide (fl_count (dev_to_tcp i) = 0)) as [E|E]; [done|]. by destruct (Hbl E). }
  assert (Hstream : d2t_stream s i = sent (kern s) (tcpfd i)).
  { unfold d2t_stream, pending. by rewrite Hc0, app_nil_r. }
  unfold d2t_read, bytes_read, handle_dev_fd_read, bad_read. rewrite Hstream.
  rewrite (ST_bind_Ok _ _ _ _ _ (port_at_Ok _ _ _ Hi)), (ST_bind_Ok _ _ _ _ _ (set_port_Ok p _ i s Hi)).
  set (i1 := set_dev_to_tcp (fl_set_start 0) i). fold (read_size i).
  destruct (sys_read (devfd i) (read_size i) (kern s)) as [r k1] eqn:Er.
  assert (Esys : sys (sys_read (devfd i) (read_size i)) (upd p i1 s) = Ok (r, with_kern k1 (upd p i1 s))).
  { apply step_sys. exact Er. }
  rewrite (ST_bind_Ok _ _ _ _ _ Esys). cbn [fst].
  change (with_kern k1 (upd p i1 s)) with (upd p i1 (with_kern k1 s)).
  destruct r as [d|e].
  2:{ apply read_failed in Er as (A & B & _). rewrite (ST_bind_Ok _ _ _ _ _ (set_port_Ok p _ i1 _ (upd_lookup p i1 _))).
      destruct (dev_monitor i) as [c|] eqn:Emon.
      - right. split; [right; split; [done | eauto]|]. destruct Hm as (fd & Hfd & _).
        unfold controller_write. rewrite ST_bind_eq, (ST_bind_Ok _ _ _ _ _ eq_refl). cbn [ctl_fds upd with_pheap with_kern].
        rewrite Hfd. done.
      - left. split; [intros [[_ Hx]|[Hx _]]; [discriminate | done]|]. right. rewrite (ST_bind_Ok _ _ _ _ _ eq_refl). change (-1 <? 0) with true. cbv iota.
        rewrite (ST_bind_Ok _ _ _ _ _ eq_refl).
        eexists _, _, _. split; [reflexivity|]. split; [by apply Nat.leb_le|].
        split; [rewrite upd_upd; change (with_kern ?k (upd p ?j (with_kern ?k0 s))) with (upd p j (with_kern k s)); by apply closing_upd|].
        destruct (syslog_quiet "dev read error" k1) as (A2 & B2 & _). cbn. rewrite B2, B, A2, A, app_nil_r.
        split; [done | unfold encode; destruct (_ =? _); rewrite app_nil_r; done]. }
  apply read_done in Er as (Hlen & A & B & _).
  assert (Hrs : (read_size i <= PORT_BUFSIZE)%nat) by (unfold read_size; destruct (_ =? _); by apply Nat.leb_le).
  set (rest := drop (length d) (fl_buf (dev_to_tcp i))).
  assert (Hlb : length (d ++ rest) = PORT_BUFSIZE).
  { unfold rest. rewrite length_app, length_drop, Hbuf. lia. }
  set (i2 := set_dev_to_tcp (fun f => fl_set_count (Z.of_nat (length d)) (fl_set_buf (d ++ rest) f)) i1).
  assert (E2 : set_port p (set_dev_to_tcp (fun f => fl_set_count (Z.of_nat (length d))
       (fl_set_buf (read_into d (fl_buf (dev_to_tcp i))) f))) (upd p i1 (with_kern k1 s)) = Ok (tt, upd p i2 (with_kern k1 s))).
  { by rewrite (set_port_Ok p _ i1 _ (upd_lookup p i1 _)), upd_upd. }
  rewrite (ST_bind_Ok _ _ _ _ _ E2).
  destruct (monitor_step (dev_monitor i) (tcpfd i) (read_into d (fl_buf (dev_to_tcp i))) (Z.of_nat (length d)) (upd p i2 (with_kern k1 s)))
    as (k2 & Em & Hs2 & Hr2); [exact Hm | unfold read_into; fold rest; rewrite Hlb; lia |].
  rewrite (ST_bind_Ok _ _ _ _ _ Em). cbn [kern upd with_pheap with_kern] in Hs2, Hr2.
  assert (Hrecv : received k2 (devfd i) = received (kern s) (devfd i) ++ d) by (by rewrite Hr2, B).
  assert (Hsent : sent k2 (tcpfd i) = sent (kern s) (tcpfd i)) by (by rewrite Hs2, A).
  rewrite (proj2 (Z.ltb_ge _ _)) by lia.
  destruct (Z.eqb_spec (Z.of_nat (length d)) 0) as [Hz|Hz].
  - left. split; [intros [[_ Hx]|[_ [e Hx]]]; [injection Hx as ->; by cbn in Hz | discriminate]|].
    right. eexists _, _, i2. split; [reflexivity|]. split; [by apply Nat.leb_le|].
    split; [change (with_kern ?k (upd p ?j (with_kern ?k0 s))) with (upd p j (with_kern k s)); by apply closing_upd|].
    split; [exact Hrecv|].
    cbn. rewrite Hsent. apply prefix_app_r. done.
  - assert (Hnb : ((enabled i =? PORT_TELNET) = true -> ~ all_iac d) ->
      ~ ((enabled i = PORT_TELNET /\ Done d = Done (replicate 512 255)) \/
         (dev_monitor i <> None /\ exists e, Done d = Failed e))).
    { intros Hna [[Ht Hx]|[_ [e Hx]]]; [|discriminate]. apply Z.eqb_eq in Ht. injection Hx as Hx. by destruct (Hna Ht). }
    destruct (dev_forward_step p (with_kern k2 (upd p i2 (with_kern k1 s))) i2 d rest (enabled i =? PORT_TELNET))
      as [(H1 & H2 & H3)|[Hna [(s' & i' & H1 & H2 & H3 & H4 & H5 & H6 & H7)|(re & s1 & i1' & H1 & Hre & H2 & H3 & H4)]]].
    + apply upd_lookup.
    + constructor; cbn; try done. lia.
    + exact Htf.
    + done.
    + done.
    + intros ->. done.
    + done.
    + done.
    + intros Ht. unfold read_size in Hlen. rewrite Ht in Hlen. cbn in Hlen. lia.
    + right. split; [|exact H3]. left. apply Z.eqb_eq in H1. split; [done|]. by rewrite H2.
    + left. split; [exact (Hnb Hna)|]. left. exists s', i'. split; [exact H1|].
      assert (HL : same_line i i') by (eapply same_line_trans; [|exact H3]; by split_and!).
      split_and!; [by eapply d2t_ok_keep | done | by intros -> | |].
      * rewrite H6. exact Hrecv.
      * rewrite H7. cbn. by rewrite Hsent.
    + left. split; [exact (Hnb Hna)|]. right. exists re, s1, i1'. split; [exact H1|]. split; [exact Hre|].
      split; [eapply closing_trans; [|exact H2];
        change (with_kern ?k (upd p ?j (with_kern ?k0 s))) with (upd p j (with_kern k s)); by apply closing_upd|]. split.
      * rewrite H3. exact Hrecv.
      * cbn in H4. rewrite H4, Hsent. apply prefix_app_r. done.
Qed.

Lemma tcp_write_data_step p s i :
  d2t_ok p s i -> tcpfd i ∈ write_set (dsel s) -> d2t_after p s i (tcp_write_data p).
Proof.
  intros Hok Hready. pose proof Hok as [Hi Hfl Htf Hm]. pose proof Hfl as [Hsh Hbl].
  pose proof (pending_length _ _ _ Hsh) as Hlen. destruct Hsh as [Hsrc Hdst Hdiff Hbuf Hrange].
  unfold d2t_after, tcp_write_data. rewrite (ST_bind_Ok _ _ _ _ _ (port_at_Ok _ _ _ Hi)).
  destruct (sys_write (tcpfd i) (pending (dev_to_tcp i)) (kern s)) as [r k1] eqn:Ew.
  rewrite (ST_bind_Ok _ _ _ _ _ (step_sys _ _ _ _ Ew)).
  assert (Henc : encode i [] = []) by (unfold encode; by destruct (_ =? _)).
  destruct r as [n|e].
  - left. apply write_done in Ew as (Hn & _ & Hs & _ & Hr & _).
    rewrite (ST_bind_Ok _ _ _ _ _ (set_port_Ok p _ i (with_kern k1 s) Hi)).
    set (i1 := set_dev_to_tcp _ _). rewrite (ST_bind_Ok _ _ _ _ _ (port_at_Ok _ _ _ (upd_lookup p i1 _))).
    assert (Hpend : drop n (pending (dev_to_tcp i)) =
      pending (Flow (fl_state (dev_to_tcp i)) (fl_buf (dev_to_tcp i)) (fl_start (dev_to_tcp i) + Z.of_nat n)
        (fl_count (dev_to_tcp i) - Z.of_nat n))) by (apply pending_after; lia).
    destruct (Z.eqb_spec (fl_count (dev_to_tcp i1)) 0) as [Hz|Hz]; cbn [negb].
    + destruct (unblock_Ok p i1 (upd p i1 (with_kern k1 s)) (set_dev_to_tcp (fl_set_state PORT_WAITING_INPUT))
        (devfd i1) (tcpfd i1)) as (v & Eu); [apply upd_lookup | done | done |].
      rewrite (ST_bind_Ok _ _ _ _ _ Eu).
      rewrite (set_port_Ok p _ _ _ (upd_lookup p _ _)), upd_upd.
      eexists _, (reset_timer (set_dev_to_tcp (fl_set_state PORT_WAITING_INPUT) i1)), []. split; [reflexivity|]. split; [|split; [by split_and! | split; [cbn; by rewrite Hr, app_nil_r|]]].
      * eapply d2t_ok_keep; [exact Hok | apply upd_lookup | by split_and! | done |]. cbn in Hz |- *.
        constructor; [constructor; cbn; try done; lia | done].
      * unfold d2t_stream. rewrite Henc, app_nil_r. cbn. rewrite Hs, <- app_assoc. f_equal.
        rewrite <- (take_drop n (pending (dev_to_tcp i))) at 2. f_equal. rewrite Hpend.
        unfold pending. cbn in Hz |- *. by rewrite Hz.
    + rewrite (ST_bind_Ok _ _ _ _ _ (set_port_Ok p _ i1 _ (upd_lookup p i1 (with_kern k1 s)))), upd_upd.
      rewrite (set_port_Ok p _ _ _ (upd_lookup p _ _)), upd_upd.
      eexists _, (reset_timer (set_dev_to_tcp (fun f => fl_set_start (fl_start f + Z.of_nat n) f) i1)), [].
      split; [reflexivity|]. split; [|split; [by split_and! | split; [cbn; by rewrite Hr, app_nil_r|]]].
      * eapply d2t_ok_keep; [exact Hok | apply upd_lookup | by split_and! | done |]. cbn in Hz |- *.
        constructor; [constructor; cbn; try done; lia |]. intros _. apply Hbl. lia.
      * unfold d2t_stream. rewrite Henc, app_nil_r. cbn. rewrite Hs, <- app_assoc. f_equal.
        rewrite <- (take_drop n (pending (dev_to_tcp i))) at 2. f_equal. by rewrite Hpend.
  - apply write_failed in Ew as [(A & B & C) _].
    assert (Hsyslog : forall m, sent (sys_syslog m k1) (tcpfd i) = sent (kern s) (tcpfd i) /\
      received (sys_syslog m k1) (devfd i) = received (kern s) (devfd i)).
    { intros m. destruct (syslog_quiet m k1) as (A2 & B2 & _). by rewrite A2, B2, A, B. }
    assert (Hkeep : forall i', pheap (upd p i' (with_kern k1 s)) !! p = Some i' -> same_line i i' ->
      dev_to_tcp i' = dev_to_tcp i ->
      d2t_ok p (upd p i' (with_kern k1 s)) i' /\ same_line i i' /\
      received (kern (upd p i' (with_kern k1 s))) (devfd i) = received (kern s) (devfd i) ++ [] /\
      d2t_stream (upd p i' (with_kern k1 s)) i' = d2t_stream s i ++ encode i []).
    { intros i' Hi' HL Hd. pose proof HL as (_ & _ & _ & M4 & _).
      split; [|split; [done | split; [cbn; by rewrite B, app_nil_r|]]].
      - eapply d2t_ok_keep; [exact Hok | done | done | done |]. by rewrite Hd.
      - unfold d2t_stream. rewrite Henc, app_nil_r, Hd, M4. cbn. by rewrite A. }
    destruct e.
    + left. eexists _, i, []. split; [reflexivity|]. rewrite <- (upd_same p i (with_kern k1 s)) by done.
      apply Hkeep; [by apply upd_lookup | apply same_line_refl | done].
    + left. rewrite (set_port_Ok p _ i (with_kern k1 s) Hi). eexists _, (reset_timer i), []. split; [reflexivity|].
      apply Hkeep; [apply upd_lookup | by split_and! | done].
    + right. eexists _, (with_kern k1 s), i, []. split; [reflexivity|]. split; [by apply Nat.leb_le|].
      split; [by apply closing_kern|]. cbn.
      rewrite B, A, app_nil_r, Henc, app_nil_r. split; [done|]. unfold d2t_stream. by apply prefix_app_r.
    + right. rewrite (ST_bind_Ok _ _ _ _ _ eq_refl). eexists _, _, i, []. split; [reflexivity|]. split; [by apply Nat.leb_le|].
      split; [change (with_kern ?k (with_kern ?k0 s)) with (with_kern k s); by apply closing_kern|]. cbn. destruct (Hsyslog "The tcp write had error"%string) as [-> ->].
      rewrite app_nil_r, Henc, app_nil_r. split; [done|]. unfold d2t_stream. by apply prefix_app_r.
Qed.

(** ** The stream from the connection to the device *)

(** The reader off and the writer on. *)
Lemma block_tcp_reader_Ok p i s :
  pheap s !! p = Some i -> 0 <= tcpfd i < FD_SETSIZE -> 0 <= devfd i < FD_SETSIZE ->
  exists v, block_tcp_reader p s = Ok (tt, upd p (set_tcp_to_dev (fl_set_state PORT_WAITING_OUTPUT_CLEAR) i) (with_dsel v s)) /\
    tcpfd i ∉ read_set v /\ devfd i ∈ write_set v.
Proof.
  intros Hi Hd Ht. unfold block_tcp_reader. rewrite (ST_bind_Ok _ _ _ _ _ (port_at_Ok _ _ _ Hi)).
  rewrite (ST_bind_Ok _ _ _ _ _ (read_handler_off _ _ Hd)). rewrite (ST_bind_Ok _ _ _ _ _ (write_handler_on _ _ Ht)).
  rewrite (set_port_Ok p _ i) by done. eexists. split; [reflexivity|]. cbn. set_solver.
Qed.

Lemma tcp_written_step p s i r :
  pheap s !! p = Some i -> flow_shape (tcpfd i) (devfd i) (tcp_to_dev i) ->
  fl_start (tcp_to_dev i) = 0 -> fl_count (tcp_to_dev i) <> 0 ->
  match r with Done n => (n <= length (pending (tcp_to_dev i)))%nat | Failed e => e <> EINTR end ->
  flow_result (tcp_written p r) p s
    (fun s' i' => pheap s' !! p = Some i' /\ same_line i i' /\ kern s' = kern s /\ ctl_fds s' = ctl_fds s /\
       flow_ok (tcpfd i) (devfd i) (tcp_to_dev i') (dsel s') /\
       pending (tcp_to_dev i') = match r with Done n => drop n (pending (tcp_to_dev i)) | Failed _ => pending (tcp_to_dev i) end)
    (fun s1 i1 => pheap s1 !! p = Some i1 /\ same_line i i1 /\ same_bytes (kern s) (kern s1) /\
       (exists e, r = Failed e)).
Proof.
  intros Hi Hok Hst Hcn Hr. pose proof (pending_length _ _ _ Hok) as Hlen.
  destruct Hok as [Hsrc Hdst Hdiff Hbuf Hrange]. rewrite Hst in Hrange.
  assert (Hquiet : forall m, same_bytes (kern s) (sys_syslog m (kern s))).
  { intros m. destruct (syslog_quiet m (kern s)) as (A & B & _). by split. }
  destruct r as [n|e]; cbn [tcp_written].
  - left. rewrite (ST_bind_Ok _ _ _ _ _ (set_port_Ok p _ i s Hi)).
    set (i1 := set_tcp_to_dev _ _). rewrite (ST_bind_Ok _ _ _ _ _ (port_at_Ok _ _ _ (upd_lookup p i1 s))).
    destruct (Z.eqb_spec (fl_count (tcp_to_dev i1)) 0) as [Hz|Hz]; cbn [negb].
    + rewrite (ST_bind_Ok _ _ _ _ _ eq_refl). rewrite (set_port_Ok _ _ _ _ (upd_lookup p i1 s)), upd_upd.
      eexists _, _. split; [reflexivity|]. split; [apply upd_lookup|]. split; [by split_and!|]. split; [done|]. split; [done|].
      cbn in Hz |- *. split.
      * constructor; [|done]. constructor; cbn; try done. rewrite ?Hst. lia.
      * rewrite (pending_after (tcp_to_dev i) n) by lia. unfold pending. cbn. by rewrite Hz.
    + set (i2 := set_tcp_to_dev (fl_set_state PORT_WAITING_OUTPUT_CLEAR)
              (set_tcp_to_dev (fun f => fl_set_start (fl_start f + Z.of_nat n) f) i1)).
      destruct (block_tcp_reader_Ok p (set_tcp_to_dev (fun f => fl_set_start (fl_start f + Z.of_nat n) f) i1)
        (upd p (set_tcp_to_dev (fun f => fl_set_start (fl_start f + Z.of_nat n) f) i1) s))
        as (v & Eb & Hv1 & Hv2); [apply upd_lookup | done | done |].
      assert (E : (_ ← set_port p (set_tcp_to_dev (fun f => fl_set_start (fl_start f + Z.of_nat n) f));
                   block_tcp_reader p) (upd p i1 s) =
                Ok (tt, upd p i2 (with_dsel v (upd p (set_tcp_to_dev (fun f => fl_set_start (fl_start f + Z.of_nat n) f) i1) s)))).
      { rewrite (ST_bind_Ok _ _ _ _ _ (set_port_Ok _ _ _ _ (upd_lookup p i1 s))), upd_upd. exact Eb. }
      rewrite (ST_bind_Ok _ _ _ _ _ E). rewrite (set_port_Ok _ _ _ _ (upd_lookup p i2 _)), upd_upd.
      eexists _, _. split; [reflexivity|]. split; [apply upd_lookup|]. split; [by split_and!|]. split; [done|]. split; [done|].
      cbn in Hz |- *. split.
      * constructor; [|by split]. constructor; cbn; try done. rewrite ?Hst. lia.
      * rewrite (pending_after (tcp_to_dev i) n) by lia. unfold pending. cbn. by rewrite Hst.
  - destruct e; cbn [tcp_written]; [done | | |].
    + left. destruct (block_tcp_reader_Ok p i s Hi Hsrc Hdst) as (v & Eb & Hv1 & Hv2).
      rewrite (ST_bind_Ok _ _ _ _ _ Eb), (set_port_Ok _ _ _ _ (upd_lookup p _ _)), upd_upd.
      eexists _, _. split; [reflexivity|]. split; [apply upd_lookup|]. split; [by split_and!|]. split; [done|]. split; [done|].
      split; [|done]. constructor; [|by split]. constructor; cbn; try done. rewrite ?Hst. lia.
    + right; rewrite (ST_bind_Ok _ _ _ _ _ eq_refl); eexists _, _, i; (split; [reflexivity|]); (split; [by apply Nat.leb_le|]); (split; [done|]);
      (split; [apply same_line_refl|]); (split; [apply Hquiet | eauto]).
    + right; rewrite (ST_bind_Ok _ _ _ _ _ eq_refl); eexists _, _, i; (split; [reflexivity|]); (split; [by apply Nat.leb_le|]); (split; [done|]);
      (split; [apply same_line_refl|]); (split; [apply Hquiet | eauto]).
Qed.

Record t2d_ok p s i : Prop := {
  t_port : pheap s !! p = Some i;
  t_flow : flow_ok (tcpfd i) (devfd i) (tcp_to_dev i) (dsel s);
  t_trace : trace_free (devfd i) i;
  t_monitor : monitor_ok (tcp_monitor i) (devfd i) s
}.

(** What the device has taken and what it will be given. *)
Definition t2d_stream s i : list Z := sent (kern s) (devfd i) ++ pending (tcp_to_dev i).

Lemma t2d_ok_keep p s i s' i' :
  t2d_ok p s i -> pheap s' !! p = Some i' -> same_line i i' -> ctl_fds s' = ctl_fds s ->
  flow_ok (tcpfd i) (devfd i) (tcp_to_dev i') (dsel s') -> t2d_ok p s' i'.
Proof.
  intros [H1 H2 H3 H4] Hi' (L1 & L2 & L3 & L4 & L5 & L6 & L7 & L8) Hctl Hf. constructor.
  - done.
  - by rewrite L3, L4.
  - rewrite L3. by apply L8.
  - unfold monitor_ok in *. by rewrite L7, L3, Hctl.
Qed.

(** How one event of the direction ends. *)
Definition t2d_after p s i (m : DX_ K unit) : Prop :=
  (exists s' i' d, m s = Ok (tt, s') /\ t2d_ok p s' i' /\ same_line i i' /\
     received (kern s') (tcpfd i) = received (kern s) (tcpfd i) ++ d /\
     t2d_stream s' i' = t2d_stream s i ++ d) \/
  (exists reason s1 i1 d, m s = shutdown_port p reason s1 /\ pheap s1 !! p = Some i1 /\
     received (kern s1) (tcpfd i) = received (kern s) (tcpfd i) ++ d /\
     sent (kern s1) (devfd i) `prefix_of` t2d_stream s i ++ d).

Lemma handle_dev_fd_write_step p s i :
  t2d_ok p s i -> devfd i ∈ write_set (dsel s) -> t2d_after p s i (handle_dev_fd_write (devfd i) p).
Proof.
  intros Hok Hready. pose proof Hok as [Hi Hfl Htf Hm]. pose proof Hfl as [Hsh Hbl].
  pose proof (pending_length _ _ _ Hsh) as Hlen. destruct Hsh as [Hsrc Hdst Hdiff Hbuf Hrange].
  unfold t2d_after, handle_dev_fd_write. rewrite (ST_bind_Ok _ _ _ _ _ (port_at_Ok _ _ _ Hi)).
  destruct (sys_write (devfd i) (pending (tcp_to_dev i)) (kern s)) as [r k1] eqn:Ew.
  rewrite (ST_bind_Ok _ _ _ _ _ (step_sys _ _ _ _ Ew)).
  destruct r as [n|e].
  - left. apply write_done in Ew as (Hn & _ & Hs & _ & Hr & _).
    rewrite (ST_bind_Ok _ _ _ _ _ (set_port_Ok p _ i (with_kern k1 s) Hi)).
    set (i1 := set_tcp_to_dev _ _). rewrite (ST_bind_Ok _ _ _ _ _ (port_at_Ok _ _ _ (upd_lookup p i1 _))).
    assert (Hpend : drop n (pending (tcp_to_dev i)) =
      pending (Flow (fl_state (tcp_to_dev i)) (fl_buf (tcp_to_dev i)) (fl_start (tcp_to_dev i) + Z.of_nat n)
        (fl_count (tcp_to_dev i) - Z.of_nat n))) by (apply pending_after; lia).
    destruct (Z.eqb_spec (fl_count (tcp_to_dev i1)) 0) as [Hz|Hz]; cbn [negb].
    + destruct (unblock_Ok p i1 (upd p i1 (with_kern k1 s)) (set_tcp_to_dev (fl_set_state PORT_WAITING_INPUT))
        (tcpfd i1) (devfd i1)) as (v & Eu); [apply upd_lookup | done | done |].
      rewrite (ST_bind_Ok _ _ _ _ _ Eu).
      rewrite (set_port_Ok p _ _ _ (upd_lookup p _ _)), upd_upd.
      eexists _, (reset_timer (set_tcp_to_dev (fl_set_state PORT_WAITING_INPUT) i1)), []. split; [reflexivity|]. split; [|split; [by split_and! | split; [cbn; by rewrite Hr, app_nil_r|]]].
      * eapply t2d_ok_keep; [exact Hok | apply upd_lookup | by split_and! | done |]. cbn in Hz |- *.
        constructor; [constructor; cbn; try done; lia | done].
      * unfold t2d_stream. rewrite app_nil_r. cbn. rewrite Hs, <- app_assoc. f_equal.
        rewrite <- (take_drop n (pending (tcp_to_dev i))) at 2. f_equal. rewrite Hpend.
        unfold pending. cbn in Hz |- *. by rewrite Hz.
    + rewrite (ST_bind_Ok _ _ _ _ _ (set_port_Ok p _ i1 _ (upd_lookup p i1 (with_kern k1 s)))), upd_upd.
      rewrite (set_port_Ok p _ _ _ (upd_lookup p _ _)), upd_upd.
      eexists _, (reset_timer (set_tcp_to_dev (fun f => fl_set_start (fl_start f + Z.of_nat n) f) i1)), [].
      split; [reflexivity|]. split; [|split; [by split_and! | split; [cbn; by rewrite Hr, app_nil_r|]]].
      * eapply t2d_ok_keep; [exact Hok | apply upd_lookup | by split_and! | done |]. cbn in Hz |- *.
        constructor; [constructor; cbn; try done; lia |]. intros _. apply Hbl. lia.
      * unfold t2d_stream. rewrite app_nil_r. cbn. rewrite Hs, <- app_assoc. f_equal.
        rewrite <- (take_drop n (pending (tcp_to_dev i))) at 2. f_equal. by rewrite Hpend.
  - apply write_failed in Ew as [(A & B & C) _].
    assert (Hsyslog : forall m, sent (sys_syslog m k1) (devfd i) = sent (kern s) (devfd i) /\
      received (sys_syslog m k1) (tcpfd i) = received (kern s) (tcpfd i)).
    { intros m. destruct (syslog_quiet m k1) as (A2 & B2 & _). by rewrite A2, B2, A, B. }
    assert (Hkeep : forall i', pheap (upd p i' (with_kern k1 s)) !! p = Some i' -> same_line i i' ->
      tcp_to_dev i' = tcp_to_dev i ->
      t2d_ok p (upd p i' (with_kern k1 s)) i' /\ same_line i i' /\
      received (kern (upd p i' (with_kern k1 s))) (tcpfd i) = received (kern s) (tcpfd i) ++ [] /\
      t2d_stream (upd p i' (with_kern k1 s)) i' = t2d_stream s i ++ []).
    { intros i' Hi' HL Hd. pose proof HL as (_ & _ & M4 & _).
      split; [|split; [done | split; [cbn; by rewrite B, app_nil_r|]]].
      - eapply t2d_ok_keep; [exact Hok | done | done | done |]. by rewrite Hd.
      - unfold t2d_stream. rewrite app_nil_r, Hd, M4. cbn. by rewrite A. }
    destruct e.
    + left. eexists _, i, []. split; [reflexivity|]. rewrite <- (upd_same p i (with_kern k1 s)) by done.
      apply Hkeep; [by apply upd_lookup | apply same_line_refl | done].
    + left. rewrite (set_port_Ok p _ i (with_kern k1 s) Hi). eexists _, (reset_timer i), []. split; [reflexivity|].
      apply Hkeep; [apply upd_lookup | by split_and! | done].
    + right. rewrite (ST_bind_Ok _ _ _ _ _ eq_refl). eexists _, _, i, []. split; [reflexivity|]. split; [done|].
      cbn. destruct (Hsyslog "The dev write had error"%string) as [-> ->].
      rewrite !app_nil_r. split; [done|]. unfold t2d_stream. by apply prefix_app_r.
    + right. rewrite (ST_bind_Ok _ _ _ _ _ eq_refl). eexists _, _, i, []. split; [reflexivity|]. split; [done|].
      cbn. destruct (Hsyslog "The dev write had error"%string) as [-> ->].
      rewrite !app_nil_r. split; [done|]. unfold t2d_stream. by apply prefix_app_r.
Qed.
End stream.
