(* ===== verification/PortText.v ===== *)
(** * Texts of a port: the banner and the trace file names of [ser2net/dataxfer.c]

    [display_banner] puts the banner of the port in front of what the device
    will send; [translate_filename] makes the name of a trace file.  Both
    replace escape sequences, and both treat the numeric ones in a way of
    their own, which the model keeps.  Each is compared with a reference
    ([banner_text], [expand]) that says what the sequences stand for. *)

From S2P Require Import Prelude CStr SelHeap Selector Telnet Utils DevCfg PortData PortFlow.

(** ** The banner *)

(** [add_port_tcp_char]: a byte behind what waits to be sent, dropped at the
    end of the buffer. *)
Definition add_port_tcp_char (c : Z) (i : port_info) : res port_info :=
  let f := dev_to_tcp i in
  let pos := fl_start f + fl_count f in
  if Z.of_nat PORT_BUFSIZE <=? pos then Ok i
  else
    _ ← check (0 <=? pos) OutOfBounds;
    buf ← store (fl_buf f) (Z.to_nat pos) c;
    Ok (set_dev_to_tcp (fun f => fl_set_count (fl_count f + 1) (fl_set_buf buf f)) i).

Fixpoint add_port_tcp_chars (l : list Z) (i : port_info) : res port_info :=
  match l with [] => Ok i | c :: l' => i' ← add_port_tcp_char c i; add_port_tcp_chars l' i' end.

(** A value stored in a [char], as a byte. *)
Definition to_char (z : Z) : Z := z mod 256.

(** [return c = 'A' + 10]: an assignment where a difference was meant. *)
Definition from_hex_digit (c : ascii) : Z :=
  if (48 <=? code c) && (code c <=? 57) then code c - 48
  else if (65 <=? code c) && (code c <=? 70) then to_char (65 + 10)
  else if (97 <=? code c) && (code c <=? 102) then to_char (97 + 10)
  else 0.

Definition isodigit (c : ascii) : bool := (48 <=? code c) && (code c <=? 55).

(** What a one-character escape of a banner adds, for all but the numeric
    ones; the default is the character itself. *)
Definition banner_escape (i : port_info) (c : ascii) : res (list Z) :=
  if c =c "a"%char then Ok [7]
  else if c =c "b"%char then Ok [8]
  else if c =c "f"%char then Ok [12]
  else if c =c "n"%char then Ok [10]
  else if c =c "r"%char then Ok [13]
  else if c =c "t"%char then Ok [9]
  else if c =c "v"%char then Ok [11]
  else if c =c "d"%char then match devname (conf i) with Some t => Ok (map code t) | None => Crash NullDeref end
  else if c =c "p"%char then match portname (conf i) with Some t => Ok (map code t) | None => Crash NullDeref end
  else if c =c "s"%char then Ok (map code (serparm_to_str 15 (termctl (dinfo (conf i)))))
  else Ok [code c].

(** The loop over the banner; [continue] looks at the same character again. *)
Fixpoint banner_loop (s : cstr) (i : port_info) : res port_info :=
  match s with
  | [] => Ok i
  | c :: s1 =>
      if negb (c =c "\"%char) then i' ← add_port_tcp_char (code c) i; banner_loop s1 i'
      else
        match s1 with
        | [] => Ok i
        | d :: s2 =>
            if isodigit d then
              let val := code d - 48 in
              match s2 with
              | [] => add_port_tcp_char val i
              | e :: s3 =>
                  if negb (isdigit e) then banner_loop s2 i
                  else
                    let val := to_char (val * 8 + code e - 48) in
                    match s3 with
                    | [] => add_port_tcp_char val i
                    | f :: s4 => if negb (isdigit f) then banner_loop s3 i else banner_loop s4 i
                    end
              end
            else if d =c "x"%char then
              match s2 with
              | [] => Ok i
              | e :: s3 =>
                  if negb (isxdigit e) then banner_loop s2 i
                  else
                    match s3 with
                    | [] => add_port_tcp_char (from_hex_digit e) i
                    | f :: s4 => if negb (isdigit f) then banner_loop s3 i else banner_loop s4 i
                    end
              end
            else t ← banner_escape i d; i' ← add_port_tcp_chars t i; banner_loop s2 i'
        end
  end.

Definition display_banner (i : port_info) : res port_info :=
  match banner (dinfo (conf i)) with None => Ok i | Some b => banner_loop b i end.

(** ** The name of a trace file *)

(** [struct tm], the fields that are read. *)
Record tm := Tm {
  tm_sec : Z; tm_min : Z; tm_hour : Z; tm_mday : Z; tm_mon : Z; tm_year : Z; tm_wday : Z; tm_yday : Z
}.

(** [localtime_r], and the text of an address ([inet_ntop]). *)
Class Libc := {
  localtime : Z -> tm;
  ntop : Z -> list Z
}.

Inductive fn_tr_state := TR_NORMAL | TR_ESC | TR_ESCx1 | TR_ESCx2 | TR_ESCo1 | TR_ESCo2.
#[global] Instance fn_tr_state_eq_dec : EqDecision fn_tr_state.
Proof. solve_decision. Defined.

Definition smonths : list string :=
  ["Jan"; "Feb"; "Mar"; "Apr"; "May"; "Jun"; "Jul"; "Aug"; "Sep"; "Oct"; "Nov"; "Dec"]%string.
Definition sdays : list string := ["Sun"; "Mon"; "Tue"; "Wed"; "Thu"; "Fri"; "Sat"]%string.

(** An entry of a table of texts, through an [int]. *)
Definition table_text (t : list string) (k : Z) : res (list Z) :=
  if k <? 0 then Crash OutOfBounds
  else match t !! Z.to_nat k with Some x => Ok (chars x) | None => Crash OutOfBounds end.

(** [%d] and [%ld]; [%w.wd] with at least [w] digits (and as many columns). *)
Definition fmt_d (n : Z) : list Z := if n <? 0 then 45 :: decimal_bytes (- n) else decimal_bytes n.
Definition fmt_digits (w : nat) (n : Z) : list Z :=
  if n <? 0 then 45 :: replicate (w - length (decimal_bytes (- n))) 48 ++ decimal_bytes (- n)
  else replicate (w - length (decimal_bytes n)) 48 ++ decimal_bytes n.

(** What a conversion adds to the name: one byte stored at [*cooked++], or a
    text [snprintf] writes into the room left, or the address [inet_ntop]
    writes; or nothing known. *)
Inductive piece := PByte (b : Z) | PText (t : list Z) | PAddr (t : list Z) | PBad.

Section names.
Context `{Libc}.
Context (i : port_info) (tv : timeval).

Abbreviation time := (localtime (tv_sec tv)).

Definition hour12 (h : Z) : Z := if h =? 0 then 12 else if 12 <? h then h - 12 else h.

(** The cases of the [switch] but the ones that change [state]. *)
Definition name_piece (c : ascii) : res piece :=
  if c =c "\"%char then Ok (PByte 92)
  else if c =c "a"%char then Ok (PByte 7)
  else if c =c "b"%char then Ok (PByte 8)
  else if c =c "f"%char then Ok (PByte 12)
  else if c =c "n"%char then Ok (PByte 10)
  else if c =c "r"%char then Ok (PByte 13)
  else if c =c "t"%char then Ok (PByte 9)
  else if c =c "v"%char then Ok (PByte 11)
  else if c =c SQUOTE then Ok (PByte 39)
  else if c =c "?"%char then Ok (PByte 63)
  else if c =c DQUOTE then Ok (PByte 34)
  else if c =c "Y"%char then Ok (PText (fmt_d (tm_year time + 1900)))
  else if c =c "y"%char then Ok (PText (fmt_d (tm_yday time)))
  else if c =c "M"%char then
    if 12 <=? tm_mon time then Ok (PByte 63) else t ← table_text smonths (tm_mon time); Ok (PText t)
  else if c =c "m"%char then Ok (PText (fmt_d (tm_mon time)))
  else if c =c "A"%char then
    if 12 <=? tm_mon time then Ok (PByte 63) else t ← table_text sdays (tm_wday time); Ok (PText t)
  else if c =c "D"%char then Ok (PText (fmt_d (tm_mday time)))
  else if c =c "H"%char then Ok (PText (fmt_digits 2 (tm_hour time)))
  else if c =c "h"%char then Ok (PText (fmt_digits 2 (hour12 (tm_hour time))))
  else if c =c "i"%char then Ok (PText (fmt_digits 2 (tm_min time)))
  else if c =c "s"%char then Ok (PText (fmt_digits 2 (tm_sec time)))
  else if c =c "q"%char then Ok (PText (if tm_hour time <? 12 then chars "am" else chars "pm"))
  else if c =c "P"%char then Ok (PText (if tm_hour time <? 12 then chars "AM" else chars "PM"))
  else if c =c "T"%char then
    Ok (PText (fmt_digits 2 (tm_hour time) ++ 58 :: fmt_digits 2 (tm_min time) ++ 58 :: fmt_digits 2 (tm_sec time)))
  else if c =c "e"%char then Ok (PText (fmt_d (tv_sec tv)))
  else if c =c "U"%char then Ok (PText (fmt_digits 6 (tv_usec tv)))
  else if c =c "p"%char then match portname (conf i) with Some t => Ok (PText (map code t)) | None => Crash NullDeref end
  else if c =c "d"%char then
    match devname (conf i) with Some t => Ok (PText (map code (base_name t))) | None => Crash NullDeref end
  else if c =c "I"%char then Ok (PAddr (ntop (sin_addr (remote i))))
  else Ok PBad.

(** [*cooked++ = c] in an array of [size] bytes of which [out] is written. *)
Definition put (size : Z) (out : list Z) (c : Z) : res (list Z) :=
  _ ← check (Z.of_nat (length out) <? size) OutOfBounds; Ok (out ++ [c]).

(** [left = cooked_end - cooked], [unsigned int]. *)
Definition room (size : Z) (out : list Z) : Z := (size - Z.of_nat (length out)) mod 2 ^ 32.

(** A piece into the name: the new name, or nothing for [return -1].  [left]
    is the room there was at the top of the loop; it is not computed again when
    a hexadecimal escape has stored its byte since.  [snprintf] writes as much
    of the text as goes into [left] with its terminator, whatever it answers,
    and the terminator is over the last byte of a text as long as [left];
    [inet_ntop] writes nothing when the room does not do. *)
Definition put_piece (size left : Z) (out : list Z) (p : piece) : res (option (list Z)) :=
  let len := Z.of_nat (length out) in
  match p with
  | PByte b => o ← put size out b; Ok (Some o)
  | PText t =>
      let n := Z.of_nat (length t) in
      _ ← check (len + (Z.min n (left - 1) + 1) <=? size) OutOfBounds;
      if left <? n then Ok None
      else if n =? left then Ok (Some (out ++ take (length t - 1) t ++ [0]))
      else Ok (Some (out ++ t))
  | PAddr t =>
      let n := Z.of_nat (length t) in
      if left <? n + 1 then Ok None
      else _ ← check (len + (n + 1) <=? size) OutOfBounds; Ok (Some (out ++ t))
  | PBad => Ok None
  end.

(** The value of a hexadecimal digit. *)
Definition hex_value (c : ascii) : Z :=
  if isdigit c then code c - 48 else if isupper c then code c - 65 + 10 else code c - 97 + 10.

(** One character: the new state, [c] and the name, or [return -1].  The
    numeric states store the digit and then go on to the [switch]. *)
Definition name_numeric (size : Z) (st : fn_tr_state) (c : Z) (out : list Z) (d : ascii)
    : res (option (fn_tr_state * Z * list Z)) :=
  match st with
  | TR_ESCx1 => if negb (isxdigit d) then Ok None else Ok (Some (TR_ESCx2, to_char (c * 16 + hex_value d), out))
  | TR_ESCx2 =>
      if negb (isxdigit d) then Ok None
      else let c := to_char (c * 16 + hex_value d) in o ← put size out c; Ok (Some (TR_NORMAL, c, o))
  | _ => Ok (Some (st, c, out))
  end.

Definition name_octal (size : Z) (st : fn_tr_state) (c : Z) (out : list Z) (d : ascii)
    : res (option (fn_tr_state * Z * list Z)) :=
  match st with
  | TR_ESCo1 => if negb (isodigit d) then Ok None else Ok (Some (TR_ESCo2, to_char (c * 16 + (code d - 48)), out))
  | TR_ESCo2 =>
      if negb (isodigit d) then Ok None
      else let c := to_char (c * 16 + (code d - 48)) in o ← put size out c; Ok (Some (TR_NORMAL, c, o))
  | _ => Ok (Some (st, c, out))
  end.

Definition name_switch (size left : Z) (st : fn_tr_state) (c : Z) (out : list Z) (d : ascii)
    : res (option (fn_tr_state * Z * list Z)) :=
  let next st := if bool_decide (st = TR_ESC) then TR_NORMAL else st in
  if isodigit d then Ok (Some (TR_ESCo1, code d - 48, out))
  else if d =c "x"%char then Ok (Some (TR_ESCx1, 0, out))
  else
    p ← name_piece d;
    o ← put_piece size left out p;
    Ok (match o with None => None | Some out => Some (next st, c, out) end).

Definition name_char (size : Z) (st : fn_tr_state) (c : Z) (out : list Z) (d : ascii)
    : res (option (fn_tr_state * Z * list Z)) :=
  match st with
  | TR_NORMAL =>
      if d =c "\"%char then Ok (Some (TR_ESC, c, out))
      else o ← put size out (code d); Ok (Some (TR_NORMAL, c, o))
  | _ =>
      let left := room size out in
      r ← name_numeric size st c out d;
      match r with
      | None => Ok None
      | Some (st, c, out) =>
          r ← name_octal size st c out d;
          match r with None => Ok None | Some (st, c, out) => name_switch size left st c out d end
      end
  end.

Fixpoint name_loop (size : Z) (s : cstr) (st : fn_tr_state) (c : Z) (out : list Z) : res (option (list Z)) :=
  match s with
  | [] => Ok (if bool_decide (st = TR_NORMAL) && negb (room size out =? 0) then Some out else None)
  | d :: s' =>
      if room size out =? 0 then Ok None
      else
        r ← name_char size st c out d;
        match r with None => Ok None | Some (st, c, out) => name_loop size s' st c out end
  end.

(** The name in an array of [size] bytes, or -1. *)
Definition translate_filename (raw : cstr) (size : Z) : res (option (list Z)) := name_loop size raw TR_NORMAL 0 [].
End names.

(** ** The banner: lemmas *)

(** The direction from the device, its numbers in range. *)
Record flow_fits (f : flow) : Prop := {
  ff_buf : length (fl_buf f) = PORT_BUFSIZE;
  ff_start : 0 <= fl_start f;
  ff_count : 0 <= fl_count f;
  ff_end : fl_start f + fl_count f <= Z.of_nat PORT_BUFSIZE
}.

(** [l] behind what waits, as far as there is room. *)
Definition appended (f f' : flow) (l : list Z) : Prop :=
  fl_state f' = fl_state f /\ fl_start f' = fl_start f /\ flow_fits f' /\
  pending f' = take (PORT_BUFSIZE - Z.to_nat (fl_start f)) (pending f ++ l).

Lemma pending_fits f : flow_fits f -> length (pending f) = Z.to_nat (fl_count f).
Proof. intros [Hb Hs Hc He]. unfold pending. rewrite length_take, length_drop, Hb. unfold PORT_BUFSIZE in *. lia. Qed.

Lemma appended_nil f : flow_fits f -> appended f f [].
Proof.
  intros Hf. split_and!; [done..|]. rewrite app_nil_r, take_ge; [done|].
  rewrite pending_fits by done. destruct Hf. unfold PORT_BUFSIZE in *. lia.
Qed.

Lemma appended_trans f1 f2 f3 a b : appended f1 f2 a -> appended f2 f3 b -> appended f1 f3 (a ++ b).
Proof.
  intros (A1 & B1 & C1 & D1) (A2 & B2 & C2 & D2). split_and!; [congruence | congruence | done |].
  rewrite D2, D1, B1, app_assoc. generalize (PORT_BUFSIZE - Z.to_nat (fl_start f1))%nat as n.
  generalize (pending f1 ++ a) as l. clear. induction l as [|x l IH]; intros [|n]; cbn; try done. by rewrite IH.
Qed.

Lemma add_char_appended c i : flow_fits (dev_to_tcp i) ->
  exists f', add_port_tcp_char c i = Ok (set_dev_to_tcp (fun _ => f') i) /\ appended (dev_to_tcp i) f' [c].
Proof.
  intros Hf. unfold add_port_tcp_char. set (f := dev_to_tcp i) in *. pose proof Hf as [Hb Hs Hc He].
  pose proof (pending_fits f Hf) as Hw. destruct (Z.leb_spec (Z.of_nat PORT_BUFSIZE) (fl_start f + fl_count f)) as [Hfull|Hroom].
  - exists f. split; [by destruct i|]. split_and!; [done..|]. rewrite take_app_le by (unfold PORT_BUFSIZE in *; lia).
    by rewrite take_ge by (unfold PORT_BUFSIZE in *; lia).
  - rewrite check_leb by lia. cbn [mbind res_bind]. rewrite store_Ok by (rewrite Hb; lia). cbn [mbind res_bind].
    eexists. split; [reflexivity|]. fold f. split_and!; [done | done | |].
    { constructor; cbn; [by rewrite length_insert | lia | lia | lia]. }
    unfold pending. cbn. set (p := Z.to_nat (fl_start f)). set (n := Z.to_nat (fl_count f)).
    replace (Z.to_nat (fl_start f + fl_count f)) with (p + n)%nat by lia.
    replace (Z.to_nat (fl_count f + 1)) with (S n) by lia.
    rewrite drop_insert_ge by lia. replace (p + n - p)%nat with n by lia.
    assert (Hl : (n < length (drop p (fl_buf f)))%nat) by (rewrite length_drop, Hb; lia).
    rewrite insert_take_drop by done. rewrite (take_ge (take n _ ++ [c])) by (rewrite length_app, length_take; change PORT_BUFSIZE with 1024%nat in *; cbn [length]; lia).
    rewrite cons_middle, app_assoc. apply take_app_length'. rewrite length_app, length_take. cbn. lia.
Qed.

Lemma add_chars_appended l : forall i, flow_fits (dev_to_tcp i) ->
  exists f', add_port_tcp_chars l i = Ok (set_dev_to_tcp (fun _ => f') i) /\ appended (dev_to_tcp i) f' l.
Proof.
  induction l as [|c l IH]; intros i Hf; cbn [add_port_tcp_chars].
  - exists (dev_to_tcp i). split; [by destruct i | by apply appended_nil].
  - destruct (add_char_appended c i Hf) as (f1 & E1 & A1). rewrite E1. cbn [mbind res_bind].
    destruct (IH (set_dev_to_tcp (fun _ => f1) i)) as (f2 & E2 & A2); [by apply A1|].
    exists f2. split; [exact E2|]. exact (appended_trans _ _ _ [c] l A1 A2).
Qed.

(** What a banner stands for. *)
Section reference.
Context (i : port_info).
Fixpoint banner_text (s : cstr) : list Z :=
  match s with
  | [] => []
  | c :: s1 =>
      if negb (c =c "\"%char) then code c :: banner_text s1
      else match s1 with
           | [] => []
           | d :: s2 => match banner_escape i d with Ok t => t | Crash _ => [] end ++ banner_text s2
           end
  end.
End reference.

(** No octal and no hexadecimal escape. *)
Fixpoint numeric_free (s : cstr) : bool :=
  match s with
  | [] => true
  | c :: s1 =>
      if negb (c =c "\"%char) then numeric_free s1
      else match s1 with
           | [] => true
           | d :: s2 => negb (isodigit d) && negb (d =c "x"%char) && numeric_free s2
           end
  end.

Definition named (i : port_info) : Prop := is_Some (portname (conf i)) /\ is_Some (devname (conf i)).

Lemma banner_escape_Ok i d : named i -> exists t, banner_escape i d = Ok t.
Proof.
  intros [[p Hp] [n Hn]]. unfold banner_escape. rewrite Hp, Hn.
  repeat match goal with |- context [if ?b then _ else _] => destruct b end; eauto.
Qed.

Lemma banner_escape_flow i f d : banner_escape (set_dev_to_tcp f i) d = banner_escape i d.
Proof. done. Qed.
Lemma banner_text_flow i f s : banner_text (set_dev_to_tcp f i) s = banner_text i s.
Proof. done. Qed.

(** Every banner adds some text and never runs out of the buffer. *)
Lemma banner_loop_appends n : forall s i, (length s <= n)%nat -> named i -> flow_fits (dev_to_tcp i) ->
  exists f' l, banner_loop s i = Ok (set_dev_to_tcp (fun _ => f') i) /\ appended (dev_to_tcp i) f' l /\
    (numeric_free s = true -> l = banner_text i s).
Proof.
  induction n as [|n IH]; intros s i Hn Hi Hf.
  { destruct s; [|simpl in Hn; lia]. exists (dev_to_tcp i), []. split; [by destruct i|]. split; [by apply appended_nil|done]. }
  assert (Hstop : forall s0, exists f' l, Ok i = Ok (set_dev_to_tcp (fun _ => f') i) /\ appended (dev_to_tcp i) f' l /\
    (numeric_free s0 = true -> l = [])).
  { intros s0. exists (dev_to_tcp i), []. split; [by destruct i|]. split; [by apply appended_nil|done]. }
  assert (Hlast : forall c, exists f' l, add_port_tcp_char c i = Ok (set_dev_to_tcp (fun _ => f') i) /\
    appended (dev_to_tcp i) f' l).
  { intros c. destruct (add_char_appended c i Hf) as (f' & E & A). by exists f', [c]. }
  assert (Hgo : forall s0, (length s0 <= n)%nat -> exists f' l, banner_loop s0 i = Ok (set_dev_to_tcp (fun _ => f') i) /\
    appended (dev_to_tcp i) f' l).
  { intros s0 Hl. destruct (IH s0 i Hl Hi Hf) as (f' & l & E & A & _). by exists f', l. }
  assert (Hadd : forall t s0, (length s0 <= n)%nat -> exists f' l,
    (i' ← add_port_tcp_chars t i; banner_loop s0 i') = Ok (set_dev_to_tcp (fun _ => f') i) /\
    appended (dev_to_tcp i) f' l /\ (numeric_free s0 = true -> l = t ++ banner_text i s0)).
  { intros t s0 Hl. destruct (add_chars_appended t i Hf) as (f1 & E1 & A1). rewrite E1. cbn [mbind res_bind].
    destruct (IH s0 (set_dev_to_tcp (fun _ => f1) i) Hl Hi (proj1 (proj2 (proj2 A1)))) as (f2 & l & E2 & A2 & T2).
    exists f2, (t ++ l). split; [exact E2|]. split; [exact (appended_trans _ _ _ t l A1 A2)|].
    intros Hs. by rewrite (T2 Hs). }
  destruct s as [|c s1]; [apply (Hstop [])|]. cbn [banner_loop banner_text numeric_free].
  destruct (c =c "\"%char) eqn:Ec; cbn [negb].
  2:{ destruct (Hadd [code c] s1) as (f' & l & E & A & T); [simpl in Hn; lia|]. exists f', l.
      split; [|by split]. rewrite <- E. cbn [add_port_tcp_chars]. by destruct (add_port_tcp_char (code c) i). }
  destruct s1 as [|d s2]; [apply (Hstop [])|].
  assert (Hnum : (isodigit d || (d =c "x"%char))%bool = true ->
    negb (isodigit d) && negb (d =c "x"%char) && numeric_free s2 = false).
  { by destruct (isodigit d), (d =c "x"%char). }
  destruct (isodigit d); [|destruct (d =c "x"%char)].
  3:{ destruct (banner_escape_Ok i d Hi) as [t Ht]. rewrite Ht. cbn [mbind res_bind].
      apply Hadd. simpl in Hn. lia. }
  all: rewrite Hnum by done; assert (Hweak : forall m, (exists f' l, m = Ok (set_dev_to_tcp (fun _ => f') i) /\
    appended (dev_to_tcp i) f' l) -> exists f' l, m = Ok (set_dev_to_tcp (fun _ => f') i) /\
    appended (dev_to_tcp i) f' l /\ (false = true -> l = match banner_escape i d with Ok t => t | Crash _ => [] end ++ banner_text i s2))
    by (intros m (f' & l & E & A); exists f', l; by split_and!); apply Hweak; clear Hweak.
  - destruct s2 as [|e s3]; [apply Hlast|]. destruct (negb (isdigit e)); [apply Hgo; simpl in *; lia|].
    destruct s3 as [|f s4]; [apply Hlast|]. destruct (negb (isdigit f)); apply Hgo; simpl in *; lia.
  - destruct s2 as [|e s3]; [destruct (Hstop []) as (f' & l & E & A & _); by exists f', l|].
    destruct (negb (isxdigit e)); [apply Hgo; simpl in *; lia|].
    destruct s3 as [|f s4]; [apply Hlast|]. destruct (negb (isdigit f)); apply Hgo; simpl in *; lia.
Qed.

Lemma display_banner_appends i : named i -> flow_fits (dev_to_tcp i) ->
  exists f' l, display_banner i = Ok (set_dev_to_tcp (fun _ => f') i) /\ appended (dev_to_tcp i) f' l /\
    (match banner (dinfo (conf i)) with None => l = [] | Some b => numeric_free b = true -> l = banner_text i b end).
Proof.
  intros Hi Hf. unfold display_banner. destruct (banner (dinfo (conf i))) as [b|].
  - by apply (banner_loop_appends (length b)).
  - exists (dev_to_tcp i), []. split; [by destruct i|]. split; [by apply appended_nil | done].
Qed.

(** ** The name of a trace file: lemmas *)

Section expansion.
Context `{Libc}.
Context (i : port_info) (tv : timeval).

(** What a name stands for, if it stands for anything. *)
Definition piece_text (p : piece) : option (list Z) :=
  match p with PByte b => Some [b] | PText t | PAddr t => Some t | PBad => None end.

Fixpoint expand (raw : cstr) : option (list Z) :=
  match raw with
  | [] => Some []
  | c :: r =>
      if negb (c =c "\"%char) then cons (code c) <$> expand r
      else match r with
           | [] => None
           | d :: r' =>
               if isodigit d then None
               else match name_piece i tv d with
                    | Ok p => t ← piece_text p; u ← expand r'; Some (t ++ u)
                    | Crash _ => None
                    end
           end
  end.

(** No hexadecimal escape. *)
Fixpoint hex_free (raw : cstr) : bool :=
  match raw with
  | [] => true
  | c :: r =>
      if negb (c =c "\"%char) then hex_free r
      else match r with [] => true | d :: r' => negb (d =c "x"%char) && hex_free r' end
  end.

(** The fields of [struct tm] that index tables. *)
Definition tm_ok (t : tm) : Prop := 0 <= tm_mon t < 12 /\ 0 <= tm_wday t < 7.

Lemma table_text_Ok l k : 0 <= k < Z.of_nat (length l) -> exists t, table_text l k = Ok t.
Proof.
  intros Hk. unfold table_text. rewrite (proj2 (Z.ltb_ge k 0)) by lia.
  destruct (lookup_lt_is_Some_2 l (Z.to_nat k)) as [x Hx]; [lia|]. rewrite Hx. eauto.
Qed.

Lemma name_piece_Ok d : named i -> tm_ok (localtime (tv_sec tv)) -> exists p, name_piece i tv d = Ok p.
Proof.
  intros [[pn Hp] [dn Hd]] [Hm Hw]. unfold name_piece. rewrite Hp, Hd.
  destruct (table_text_Ok smonths (tm_mon (localtime (tv_sec tv)))) as [m Em]; [done|].
  destruct (table_text_Ok sdays (tm_wday (localtime (tv_sec tv)))) as [w Ew]; [done|]. rewrite Em, Ew.
  repeat match goal with |- context [if ?b then _ else _] => destruct b end; eauto.
Qed.

Lemma room_eq size out : 0 <= size < 2 ^ 32 -> Z.of_nat (length out) <= size ->
  room size out = size - Z.of_nat (length out).
Proof. intros. unfold room. apply Z.mod_small. lia. Qed.

(** A piece fits when there is room, and leaves no room otherwise. *)
Lemma put_piece_spec size out p : 0 <= size < 2 ^ 32 -> Z.of_nat (length out) < size ->
  let left := room size out in
  match piece_text p with
  | None => put_piece size left out p = Ok None
  | Some t =>
      (Z.of_nat (length (out ++ t)) < size -> put_piece size left out p = Ok (Some (out ++ t))) /\
      (size <= Z.of_nat (length (out ++ t)) -> put_piece size left out p = Ok None \/
         exists o, put_piece size left out p = Ok (Some o) /\ Z.of_nat (length o) = size)
  end.
Proof.
  intros Hs Ho left. unfold left, put_piece. rewrite room_eq by lia.
  destruct p as [b|t|t|]; cbn [piece_text]; [| | |done]; rewrite length_app.
  - unfold put. rewrite (proj2 (Z.ltb_lt _ _)) by lia. cbn. split; [done|]. intros Hfull. right.
    eexists. split; [done|]. rewrite length_app. cbn. lia.
  - rewrite check_leb by lia. cbn [mbind res_bind].
    destruct (Z.ltb_spec (size - Z.of_nat (length out)) (Z.of_nat (length t))); [split; [lia | by left]|].
    destruct (Z.eqb_spec (Z.of_nat (length t)) (size - Z.of_nat (length out))); [|split; [done | lia]].
    split; [lia|]. right. eexists. split; [done|]. rewrite !length_app, length_take. cbn. lia.
  - destruct (Z.ltb_spec (size - Z.of_nat (length out)) (Z.of_nat (length t) + 1)); [split; [lia | by left]|].
    rewrite check_leb by lia. split; [done | lia].
Qed.

(** Once in an octal escape, the name is never accepted. *)
Lemma octal_fails size s : forall c out, name_loop i tv size s TR_ESCo1 c out = Ok None.
Proof.
  induction s as [|d s IH]; intros c out; cbn [name_loop]; [done|]. destruct (room size out =? 0); [done|].
  cbn [name_char name_numeric name_octal mbind res_bind]. destruct (isodigit d) eqn:Ed; cbn [negb]; [|done].
  cbn [mbind res_bind]. unfold name_switch. rewrite Ed. cbn [mbind res_bind]. apply IH.
Qed.

Lemma full_fails size s c out : 0 <= size < 2 ^ 32 -> Z.of_nat (length out) = size ->
  name_loop i tv size s TR_NORMAL c out = Ok None.
Proof.
  intros Hs Ho. assert (E : (room size out =? 0) = true) by (apply Z.eqb_eq; rewrite room_eq; lia).
  destruct s; cbn [name_loop]; by rewrite E.
Qed.

(** The outcome of a name of which [out] is done. *)
Definition outcome (size : Z) (out : list Z) (t : option (list Z)) : res (option (list Z)) :=
  Ok (t ← t; if Z.of_nat (length (out ++ t)) <? size then Some (out ++ t) else None).

Lemma name_loop_expand n : forall raw size c out, (length raw <= n)%nat -> named i -> tm_ok (localtime (tv_sec tv)) ->
  0 <= size < 2 ^ 32 -> Z.of_nat (length out) <= size -> hex_free raw = true ->
  name_loop i tv size raw TR_NORMAL c out = outcome size out (expand raw).
Proof.
  induction n as [|n IH]; intros raw size c out Hn Hi Htm Hs Ho Hx.
  { destruct raw; [|simpl in Hn; lia]. unfold outcome. cbn. rewrite app_nil_r, room_eq by lia.
    destruct (Z.eqb_spec (size - Z.of_nat (length out)) 0), (Z.ltb_spec (Z.of_nat (length out)) size); done || lia. }
  assert (Hstop : forall t, Z.of_nat (length out) = size -> Ok None = outcome size out t).
  { intros [t|] Hl; [|done]. unfold outcome. cbn. rewrite length_app.
    by rewrite (proj2 (Z.ltb_ge _ _)) by lia. }
  destruct raw as [|d raw]; [apply (IH []); (done || simpl; lia)|]. cbn [name_loop hex_free expand] in *. rewrite room_eq by lia.
  destruct (Z.eqb_spec (size - Z.of_nat (length out)) 0) as [|Hroom]; [apply Hstop; lia|].
  cbn [name_char]. destruct (d =c "\"%char) eqn:Ed; cbn [negb] in *.
  2:{ unfold put. rewrite (proj2 (Z.ltb_lt _ _)) by lia. cbn [check mbind res_bind].
      rewrite IH by (try done; rewrite ?length_app; simpl in *; lia). unfold outcome.
      destruct (expand raw) as [t|]; [|done]. cbn. by rewrite <- app_assoc. }
  cbn [mbind res_bind]. destruct raw as [|e raw]; [done|]. apply andb_true_iff in Hx as [Hx1 Hx].
  apply negb_true_iff in Hx1. cbn [name_loop]. rewrite room_eq by lia.
  rewrite (proj2 (Z.eqb_neq _ 0)) by lia. cbn [name_char name_numeric name_octal mbind res_bind].
  unfold name_switch. destruct (isodigit e); [apply octal_fails|]. rewrite Hx1.
  destruct (name_piece_Ok e Hi Htm) as [p Ep]. rewrite Ep. cbn [mbind res_bind].
  pose proof (put_piece_spec size out p Hs ltac:(lia)) as Hp. destruct (piece_text p) as [t|]; [|by rewrite Hp].
  destruct Hp as [Hfit Hfull]. cbn [mbind option_bind].
  destruct (Z.lt_ge_cases (Z.of_nat (length (out ++ t))) size) as [Hl|Hl].
  - rewrite (Hfit Hl). cbn [mbind res_bind]. rewrite bool_decide_true by done.
    rewrite IH by (try done; simpl in *; lia). unfold outcome.
    destruct (expand raw) as [u|]; [|done]. cbn. by rewrite <- app_assoc.
  - assert (HNone : Ok None = outcome size out (u ← expand raw; Some (t ++ u))).
    { destruct (expand raw) as [u|]; [|done]. unfold outcome. cbn. rewrite app_assoc, length_app.
      by rewrite (proj2 (Z.ltb_ge _ _)) by lia. }
    destruct (Hfull Hl) as [E|(o & E & Eo)]; rewrite E; cbn [mbind res_bind]; [done|].
    rewrite bool_decide_true by done. by rewrite full_fails.
Qed.
End expansion.

(** ** Properties *)

(** Banner.  For a port with its names set and a banner without numeric
    escapes, [display_banner] puts the text the banner stands for behind what
    already waits for the connection, cut at the end of the 1024-byte buffer;
    nothing else of the port changes and no byte is stored outside the
    buffer. *)
Theorem display_banner_text (i : port_info) (b : cstr) :
  named i -> flow_fits (dev_to_tcp i) -> banner (dinfo (conf i)) = Some b -> numeric_free b = true ->
  exists f', display_banner i = Ok (set_dev_to_tcp (fun _ => f') i) /\ flow_fits f' /\
    fl_state f' = fl_state (dev_to_tcp i) /\ fl_start f' = fl_start (dev_to_tcp i) /\
    pending f' = take (PORT_BUFSIZE - Z.to_nat (fl_start (dev_to_tcp i))) (pending (dev_to_tcp i) ++ banner_text i b).
Proof.
  intros Hi Hf Hb Hn. destruct (display_banner_appends i Hi Hf) as (f' & l & E & (A1 & A2 & A3 & A4) & T).
  rewrite Hb in T. rewrite (T Hn) in A4. exists f'. by split_and!.
Qed.

(** Trace file names.  For a name without hexadecimal escapes
    [translate_filename] agrees with the reference [expand]: it answers the
    text the name stands for when that text and its terminator fit in the
    array, and -1 when they do not, when an escape is unknown or cut off, and
    for every octal escape.  It never writes outside the array. *)
Theorem translate_filename_expand `{Libc} (i : port_info) (tv : timeval) (raw : cstr) (size : Z) :
  named i -> tm_ok (localtime (tv_sec tv)) -> 0 <= size < 2 ^ 32 -> hex_free raw = true ->
  translate_filename i tv raw size =
    Ok (t ← expand i tv raw; if Z.of_nat (length t) <? size then Some t else None).
Proof.
  intros Hi Ht Hs Hx. unfold translate_filename. by rewrite (name_loop_expand i tv (length raw)) by (done || cbn; lia).
Qed.

(** *** Witnesses and concrete runs *)

Definition demo_libc : Libc := {|
  localtime _ := Tm 9 5 14 7 10 113 4 310;
  ntop _ := chars "127.0.0.1"
|}.

Definition demo_bannered (b : string) : port_info :=
  set_dev_to_tcp (fun f => f)
    (PortInfo (PortConf 10 (Some (str "2000")) (SockAddr 2 53255 0) (Some (str "/dev/ttyS0"))
       (DevInfo (devinit zero_termios) false false (Some (str b)) no_trace no_trace no_trace))
     PORT_TELNET 10 1%positive 4 6 5 (SockAddr 2 1 1) (Counts 0 0 0 0)
     (Flow PORT_WAITING_INPUT (replicate 1024 0) 0 0) (Flow PORT_WAITING_INPUT (replicate 1024 0) 0 0)
     None None 1 None (TelnetData (replicate 32 0) 0 false [] false) (Rfc2217 false false 0 0 0)
     trace_off trace_off trace_off).

Lemma display_banner_text_witness :
  let i := demo_bannered "port \p on \d\r\n" in
  named i /\ exists f', display_banner i = Ok (set_dev_to_tcp (fun _ => f') i) /\
    pending f' = chars "port 2000 on /dev/ttyS0" ++ [13; 10].
Proof.
  intros i. split; [by split; eexists|].
  destruct (display_banner_text i (str "port \p on \d\r\n")) as (f' & E & _ & _ & _ & P);
    [by split; eexists | by constructor | done | done |].
  exists f'. split; [exact E|]. rewrite P. vm_compute. reflexivity.
Defined.

Lemma translate_filename_expand_witness :
  let i := demo_bannered "hi" in
  translate_filename (H := demo_libc) i (TV 1383833109 0) (str "/tmp/\d-\Y\M\D-\T") 4096 =
    Ok (Some (chars "/tmp/ttyS0-2013Nov7-14:05:09")).
Proof.
  intros i.
  rewrite (translate_filename_expand (H := demo_libc) i (TV 1383833109 0) (str "/tmp/\d-\Y\M\D-\T") 4096);
    [vm_compute; reflexivity | by split; eexists | by vm_compute | by vm_compute | done].
Defined.

(** Octal and hexadecimal escapes. *)
Example translate_octal :
  translate_filename (H := demo_libc) (demo_bannered "hi") (TV 0 0) (str "\101") 4096 = Ok None.
Proof. vm_compute. reflexivity. Qed.
Example translate_hex :
  translate_filename (H := demo_libc) (demo_bannered "hi") (TV 0 0) (str "\x41") 4096 = Ok None /\
  translate_filename (H := demo_libc) (demo_bannered "hi") (TV 0 0) (str "\xab") 4096 = Ok (Some [7; 171; 8]).
Proof. by vm_compute. Qed.
(** The byte of a hexadecimal escape and the one of the letter behind it take
    two places where only one was tested for. *)
Example translate_hex_overflow :
  translate_filename (H := demo_libc) (demo_bannered "hi") (TV 0 0) (str "\xab") 2 = Crash OutOfBounds.
Proof. vm_compute. reflexivity. Qed.
(** The same for a letter whose text goes through [snprintf], which is given
    the room there was before the byte of the escape: the digit and the 0 behind
    it are written where there is room for one. *)
Example translate_hex_room :
  translate_filename (H := demo_libc) (demo_bannered "hi") (TV 0 0) (str "ab\xaD") 5 = Crash OutOfBounds /\
  translate_filename (H := demo_libc) (demo_bannered "hi") (TV 0 0) (str "ab\xaD") 6 = Ok (Some [97; 98; 7; 173; 55]).
Proof. by vm_compute. Qed.
Example banner_octal_dropped :
  (pending ∘ dev_to_tcp) <$> display_banner (demo_bannered "a\101b\x41c") = Ok (chars "abc") /\
  (pending ∘ dev_to_tcp) <$> display_banner (demo_bannered "\xA") = Ok [75].
Proof. by vm_compute. Qed.
