(* ===== verification/PortScript.v ===== *)
(** * A system and a port for the concrete runs

    A kernel that answers from a script stands in for the system in the
    witnesses; it keeps the laws the theorems assume of one. *)

From S2P Require Import Prelude CStr SelHeap Selector Telnet Utils DevCfg PortData PortFlow.

(** ** A kernel that answers from a script *)

(** Reads and writes take their answers from two lists; a write after the last
    answer takes everything, a read after the last answer finds nothing.  The
    transfers are recorded, the descriptors that were closed, and the
    attributes of the lines, which take what they are given. *)
Record script := Script {
  s_reads : list (sysres (list Z));
  s_writes : list (sysres nat);
  s_sent : list (Z * list Z);
  s_received : list (Z * list Z);
  s_closed : list Z;
  s_tty : gmap Z termios
}.

Definition transfers (fd : Z) (l : list (Z * list Z)) : list Z :=
  flat_map (fun '(f, b) => if f =? fd then b else []) l.

Definition script_read (fd : Z) (n : nat) (k : script) : sysres (list Z) * script :=
  match s_reads k with
  | [] => (Failed EAGAIN, k)
  | Failed e :: rs => (Failed e, Script rs (s_writes k) (s_sent k) (s_received k) (s_closed k) (s_tty k))
  | Done d :: rs =>
      let d := take n d in
      (Done d, Script rs (s_writes k) (s_sent k) (s_received k ++ [(fd, d)]) (s_closed k) (s_tty k))
  end.

Definition script_write (fd : Z) (b : list Z) (k : script) : sysres nat * script :=
  match s_writes k with
  | Failed e :: ws => (Failed e, Script (s_reads k) ws (s_sent k) (s_received k) (s_closed k) (s_tty k))
  | ws =>
      let n := match ws with Done n :: _ => Nat.min (Nat.max 1 n) (length b) | _ => length b end in
      (Done n, Script (s_reads k) (tail ws) (s_sent k ++ [(fd, take n b)]) (s_received k) (s_closed k) (s_tty k))
  end.

#[export] Instance script_kernel : Kernel script := {
  sys_read := script_read;
  sys_write := script_write;
  sys_close fd k := Script (s_reads k) (s_writes k) (s_sent k) (s_received k) (s_closed k ++ [fd]) (s_tty k);
  sys_tcflush _ k := k;
  sys_sendbreak _ k := k;
  sys_unlink _ k := k;
  sys_syslog _ k := k;
  sys_tiocmget _ _ := Some 0;
  sys_now _ := TV 100 0;
  sys_timestamp _ := chars "2013/11/07 12:00:00 ";
  sys_ntop _ := chars "127.0.0.1";
  interrupts k := length (s_writes k)
}.

Lemma transfers_app fd l1 l2 : transfers fd (l1 ++ l2) = transfers fd l1 ++ transfers fd l2.
Proof. apply flat_map_app. Qed.

Lemma transfers_one fd l f b : transfers fd (l ++ [(f, b)]) = transfers fd l ++ (if f =? fd then b else []).
Proof. rewrite transfers_app. cbn. by rewrite app_nil_r. Qed.

#[export] Instance script_laws : KernelLaws script.
Proof.
  refine {| sent k fd := transfers fd (s_sent k); received k fd := transfers fd (s_received k) |}.
  - intros fd b k n k'. cbn [sys_write interrupts script_kernel]. unfold script_write.
    destruct (s_writes k) as [|[m|e] ws]; [| |discriminate]; intros [= <- <-]; cbn [s_sent s_received s_writes tail];
      (split; [lia|]); (split; [intros Hb; destruct b; [done | cbn; lia]|]);
      rewrite transfers_one, Z.eqb_refl; (split; [done|]);
      (split; [intros fd' Hne; rewrite transfers_one, (proj2 (Z.eqb_neq fd fd')), app_nil_r by congruence; done|]);
      (split; [done | cbn; lia]).
  - intros fd b k e k'. cbn [sys_write interrupts script_kernel]. unfold script_write.
    destruct (s_writes k) as [|[m|e'] ws]; [discriminate | discriminate|]. intros [= <- <-]. cbn. split_and!; try done; lia.
  - intros fd n k d k'. cbn [sys_read interrupts script_kernel]. unfold script_read.
    destruct (s_reads k) as [|[d'|e'] rs]; [discriminate | | discriminate]. intros [= <- <-]. cbn [s_sent s_received s_writes].
    split; [rewrite length_take; lia|]. split; [done|]. rewrite transfers_one, Z.eqb_refl. split; [done|].
    split; [|done]. intros fd' Hne. rewrite transfers_one, (proj2 (Z.eqb_neq fd fd')), app_nil_r by congruence. done.
  - intros fd n k e k'. cbn [sys_read interrupts script_kernel]. unfold script_read.
    destruct (s_reads k) as [|[d'|e'] rs]; [ | discriminate |]; intros [= <- <-]; by split_and!.
  - intros m k. by split_and!.
  - intros fd k. by split_and!.
  - intros fd k. by split_and!.
  - intros k. cbn. lia.
Defined.


#[export] Instance script_tty : Tty script := {
  tty_getattr fd k := s_tty k !! fd;
  tty_setattr fd t k := Script (s_reads k) (s_writes k) (s_sent k) (s_received k) (s_closed k) (<[fd := t]> (s_tty k));
  tty_mbis _ _ k := k;
  tty_mbic _ _ k := k;
  tty_sbrk _ k := (true, k);
  tty_cbrk _ k := (true, k);
  tty_flow _ _ k := k;
  tty_flush _ _ k := k
}.

#[export] Instance script_tty_laws : TtyLaws script.
Proof. constructor. intros fd t k. apply lookup_insert_eq. Qed.

(** ** A concrete port *)

Definition demo_conf : port_conf :=
  PortConf 10 (Some (str "2000")) (SockAddr 2 53255 0) (Some (str "/dev/ttyS0"))
    (DevInfo zero_termios false false None no_trace no_trace no_trace).

(** Connected on descriptor 6, the device on 5, traced to descriptor 7. *)
Definition demo_port (mode : Z) (cmd pend : list Z) : port_info :=
  PortInfo demo_conf mode 10 1%positive 4 6 5 (SockAddr 2 1 1) (Counts 0 0 0 0)
    (Flow PORT_WAITING_INPUT (replicate 1024 0) 0 0)
    (Flow PORT_WAITING_INPUT (pend ++ replicate (1024 - length pend) 0) 0 (Z.of_nat (length pend)))
    None None 1 None (TelnetData (replicate 32 0) 0 false cmd false) (Rfc2217 false false 0 0 0)
    trace_off (Trace true true 7) (Trace false false 7).

Definition demo_dx (mode : Z) (cmd pend : list Z) (r w : gset Z) (k : script) : dx script :=
  DX [1%positive] {[ 1%positive := demo_port mode cmd pend ]}
    (with_read r (with_write w (demo_selector demo_heap))) init_telnet_cmds ∅ false k.

Definition demo_script (rs : list (sysres (list Z))) (ws : list (sysres nat)) : script := Script rs ws [] [] [] ∅.

#[export] Instance demo_com_port : ComPort script := {
  com_port_handler _ := mret tt;
  com_port_will := mret true
}.

Lemma demo_fds_ok r w : fds_ok (with_read r (with_write w (demo_selector demo_heap))).
Proof.
  constructor; [reflexivity|]. exists (-1). split_and!; [reflexivity | lia | unfold FD_SETSIZE; lia | | lia].
  intros k c Hk Hc. apply lookup_replicate in Hk as [-> _]. discriminate.
Qed.
