(* ===== verification/PortSetup.v ===== *)
(** * Opening a port: [ser2net/dataxfer.c]

    What happens between a connection request and the first byte: the lock
    file of the device, the search for a USB device, the trace files, the
    settings of the line, the telnet start and the banner; and the accept
    socket of a port, opened and closed by its state.  The system calls only
    this part makes are the interface [Net]. *)

From S2P Require Import Prelude CStr SelHeap Selector Telnet Utils DevCfg PortData PortFlow PortText.

(** ** The system *)

(** Flags of [open], as in Linux. *)
Definition O_RDONLY : Z := 0.
Definition O_WRONLY : Z := 1.
Definition O_RDWR : Z := 2.
Definition O_CREAT : Z := 64.
Definition O_EXCL : Z := 128.
Definition O_NOCTTY : Z := 256.
Definition O_APPEND : Z := 1024.
Definition O_NONBLOCK : Z := 2048.

(** [None] and [false] are -1.  [lock_dir] is [stat] of the lock directory,
    [process_gone] is [kill(pid, 0)] failing with [ESRCH], [scan_pid] is
    [sscanf("%d")] into a variable that holds 0, [lock_text] what
    [snprintf("%10ld\t%s\n")] makes of the process, [usb_listing] the output
    of the [find] command and [readable] an [fopen] that succeeds. *)
Class Net (K : Type) := {
  net_accept : Z -> K -> option (Z * sockaddr_in) * K;
  net_socket : K -> option Z * K;
  net_nonblock : Z -> K -> bool * K;
  net_nodelay : Z -> K -> bool * K;
  net_reuseaddr : Z -> K -> bool * K;
  net_bind : Z -> sockaddr_in -> K -> bool * K;
  net_listen : Z -> K -> bool * K;
  hosts_access : Z -> K -> bool;
  sys_open : list Z -> Z -> K -> option Z * K;
  tty_set : Z -> termios -> K -> bool * K;
  lock_dir : K -> bool;
  process_gone : Z -> K -> bool;
  scan_pid : list Z -> Z;
  lock_text : K -> list Z;
  usb_listing : K -> option (list ascii);
  readable : cstr -> K -> bool
}.

Section setup.
Context {K : Type} `{Kernel K} `{Tty K} `{Net K} `{Libc}.
Implicit Types s : dx K.

Definition path (t : cstr) : list Z := map code t.

(** ** Lock files *)

(** [*(int * ) buf]: four bytes, least significant first, as an [int]. *)
Definition le_int (b : list Z) : Z :=
  match b with
  | [b0; b1; b2; b3] =>
      let u := b0 + 256 * (b1 + 256 * (b2 + 256 * b3)) in if u <? 2 ^ 31 then u else u - 2 ^ 32
  | _ => 0
  end.

(** The process a lock file names; [buf] is an array of 64 bytes and
    [buf[n] = 0] is stored behind what was read. *)
Definition lock_owner (r : sysres (list Z)) : res Z :=
  match r with
  | Failed _ => Ok 0
  | Done b =>
      let n := length b in
      if Nat.eqb n 4 then Ok (le_int b)
      else if Nat.ltb 0 n then _ ← check (Nat.ltb n 64) OutOfBounds; Ok (scan_pid b)
      else Ok 0
  end.

(** 0: locked, 1: locked by another process, -1: error. *)
Definition uucp_mk_lock (devname : cstr) : DX_ K Z :=
  s ← Prelude.get;
  if negb (uucp_locking_enabled s) then mret 0
  else
    dir ← ask lock_dir;
    if negb dir then mret (-1)
    else
      lck_file ← lift_res (uucp_fname_lock (uucp_fname_lock_size devname) devname);
      fd ← sys (sys_open (path lck_file) O_RDONLY);
      pid ← (match fd with
             | None => mret 0
             | Some fd =>
                 r ← sys (sys_read fd 64);
                 _ ← sys_do (sys_close fd);
                 pid ← lift_res (lock_owner r);
                 gone ← ask (process_gone pid);
                 if (0 <? pid) && gone then _ ← sys_do (sys_unlink lck_file); mret 0
                 else mret 1
             end);
      if pid =? 0 then
        fd ← sys (sys_open (path lck_file) (Z.lor O_WRONLY (Z.lor O_CREAT O_EXCL)));
        match fd with
        | None => mret 1
        | Some fd =>
            t ← ask lock_text;
            _ ← write_ignore fd t;
            _ ← sys_do (sys_close fd);
            mret 0
        end
      else mret pid.

(** ** USB devices *)

(** A line of the listing: colons become dashes and the newline ends it. *)
Fixpoint usb_line (buf : cstr) : cstr :=
  match buf with
  | [] => []
  | c :: r => if c =c ":"%char then "-"%char :: usb_line r else if c =c NL then [] else c :: usb_line r
  end.

(** The lines [fgets] answers with a buffer of 256 bytes. *)
Fixpoint usb_lines (fuel : nat) (text : list ascii) : list cstr :=
  match text, fuel with
  | [], _ | _, O => []
  | _, S fuel' =>
      let '(l, rest) := (fix fgets (n : nat) (t : list ascii) :=
        match n, t with
        | O, _ | _, [] => ([], t)
        | S n', c :: t' => if c =c NL then ([c], t') else let '(u, v) := fgets n' t' in (c :: u, v)
        end) 255%nat text in
      cstr_of l :: usb_lines fuel' rest
  end.

(** The search; the answer is [sprintf("/dev/%s")] in an array of 256. *)
Fixpoint usb_search (lines : list cstr) (usbpath : cstr) (k : K) : res (option cstr) :=
  match lines with
  | [] => Ok None
  | l :: lines' =>
      let buf := usb_line l in
      match strstr buf usbpath with
      | None => usb_search lines' usbpath k
      | Some _ =>
          match strstr buf (str "ttyUSB") with
          | None => usb_search lines' usbpath k
          | Some (_, t) =>
              let dev := str "/dev/" ++ t in
              _ ← check (slen dev <? 256) OutOfBounds;
              if readable dev k then Ok (Some dev) else usb_search lines' usbpath k
          end
      end
  end.

(** [usbpath += 4] has to stay inside the text. *)
Definition usbFindSerial (usbpath : cstr) (k : K) : res (option cstr) :=
  match usb_listing k with
  | None => Ok None
  | Some text =>
      _ ← check (4 <=? slen usbpath) OutOfBounds;
      usb_search (usb_lines (length text) text) (drop 4 usbpath) k
  end.

(** ** Trace files *)

Definition FILENAME_MAX : Z := 4096.

(** The file is -1 when the name or the file is refused; the settings are
    copied when it opens. *)
Definition open_trace_file (i : port_info) (inf : trace_info) (f : cstr) (out : trace_t) (tv : timeval) : DX_ K trace_t :=
  name ← lift_res (translate_filename i tv f FILENAME_MAX);
  match name with
  | None => _ ← sys_do (sys_syslog "Unable to translate trace file"); mret (trace_set_file (-1) out)
  | Some trfile =>
      fd ← sys (sys_open trfile (Z.lor O_WRONLY (Z.lor O_CREAT O_APPEND)));
      match fd with
      | None => _ ← sys_do (sys_syslog "Unable to open trace file"); mret (trace_set_file (-1) out)
      | Some fd => mret (Trace (hexdump inf) (timestamp inf) fd)
      end
  end.

(** [a.file && strcmp(b.file, a.file) == 0] *)
Definition same_file (a : option cstr) (b : cstr) : bool :=
  match a with Some f => streq b f | None => false end.

Definition setup_trace (p : ptr) : DX_ K unit :=
  tv ← ask sys_now;
  i ← port_at p;
  let d := dinfo (conf i) in
  w ← (match file (DevCfg.trace_write d) with
       | Some f => open_trace_file i (DevCfg.trace_write d) f (wt i) tv
       | None => mret (trace_set_file (-1) (wt i))
       end);
  _ ← set_port p (fun i => set_traces w (rt i) (bt i) i);
  r ← (match file (trace_read d) with
       | Some f => if same_file (file (DevCfg.trace_write d)) f then mret w
                   else open_trace_file i (trace_read d) f (rt i) tv
       | None => mret (trace_set_file (-1) (rt i))
       end);
  _ ← set_port p (fun i => set_traces (wt i) r (bt i) i);
  b ← (match file (trace_both d) with
       | Some f => if same_file (file (DevCfg.trace_write d)) f then mret w
                   else if same_file (file (trace_read d)) f then mret r
                   else open_trace_file i (trace_both d) f (bt i) tv
       | None => mret (trace_set_file (-1) (bt i))
       end);
  set_port p (fun i => set_traces (wt i) (rt i) b i).

(** ** A new connection *)

Definition set_tcpfd (v : Z) (i : port_info) : port_info :=
  PortInfo (conf i) (enabled i) (timeout_left i) (timer i) (acceptfd i) v (devfd i) (remote i) (bytes i)
    (tcp_to_dev i) (dev_to_tcp i) (tcp_monitor i) (dev_monitor i) (config_num i) (new_config i) (tn_data i)
    (rfc i) (wt i) (rt i) (bt i).
Definition set_devfd (v : Z) (i : port_info) : port_info :=
  PortInfo (conf i) (enabled i) (timeout_left i) (timer i) (acceptfd i) (tcpfd i) v (remote i) (bytes i)
    (tcp_to_dev i) (dev_to_tcp i) (tcp_monitor i) (dev_monitor i) (config_num i) (new_config i) (tn_data i)
    (rfc i) (wt i) (rt i) (bt i).
Definition set_remote (v : sockaddr_in) (i : port_info) : port_info :=
  PortInfo (conf i) (enabled i) (timeout_left i) (timer i) (acceptfd i) (tcpfd i) (devfd i) v (bytes i)
    (tcp_to_dev i) (dev_to_tcp i) (tcp_monitor i) (dev_monitor i) (config_num i) (new_config i) (tn_data i)
    (rfc i) (wt i) (rt i) (bt i).

(** The pointer of a name, as a function that reads it needs it. *)
Definition nonnull {A} (o : option A) : DX_ K A :=
  match o with Some a => mret a | None => lift_res (Crash NullDeref) end.

(** Refuse the connection that is on [tcpfd]. *)
Definition refuse (fd : Z) (err : list Z) : DX_ K Z :=
  _ ← write_ignore fd err; _ ← sys_do (sys_close fd); mret (-1).
Definition abandon (fds : list Z) (msg : string) : DX_ K Z :=
  _ ← (fix close (l : list Z) : DX_ K unit :=
         match l with [] => mret tt | fd :: l' => _ ← sys_do (sys_close fd); close l' end) fds;
  _ ← sys_do (sys_syslog msg);
  mret (-1).

(** The device: its name, or where the USB device is now. *)
Definition open_device (i : port_info) (dev : cstr) : DX_ K (option (option Z)) :=
  let options := Z.lor (Z.lor O_NONBLOCK O_NOCTTY) (if enabled i =? PORT_RAWLP then O_WRONLY else O_RDWR) in
  if starts (str "usb") dev then
    d ← (fun s => lift_res (usbFindSerial dev (kern s)) s);
    match d with
    | None => mret None
    | Some d => _ ← sys_do (sys_syslog "USB device"); fd ← sys (sys_open (path d) options); mret (Some fd)
    end
  else fd ← sys (sys_open (path dev) options); mret (Some fd).

(** The handlers of the two descriptors. *)
Definition watch_port (p : ptr) (i : port_info) : DX_ K unit :=
  let lp := enabled i =? PORT_RAWLP in
  _ ← on_selector (fun v => sel_set_fd_handlers v (devfd i) (Some (Pos.to_nat p))
        (if lp then None else Some handle_dev_fd_read_fn) (Some handle_dev_fd_write_fn) (Some handle_dev_fd_except_fn));
  _ ← read_handler (devfd i) (if lp then SEL_FD_HANDLER_DISABLED else SEL_FD_HANDLER_ENABLED);
  _ ← on_selector (fun v => sel_set_fd_except_handler v (devfd i) SEL_FD_HANDLER_ENABLED);
  _ ← set_port p (set_dev_to_tcp (fl_set_state PORT_WAITING_INPUT));
  _ ← on_selector (fun v => sel_set_fd_handlers v (tcpfd i) (Some (Pos.to_nat p))
        (Some handle_tcp_fd_read_fn) (Some handle_tcp_fd_write_fn) (Some handle_tcp_fd_except_fn));
  _ ← read_handler (tcpfd i) SEL_FD_HANDLER_ENABLED;
  _ ← on_selector (fun v => sel_set_fd_except_handler v (tcpfd i) SEL_FD_HANDLER_ENABLED);
  set_port p (set_tcp_to_dev (fl_set_state PORT_WAITING_INPUT)).

(** From the point where the device is open and set up: nothing fails any
    more. *)
Definition start_session (p : ptr) : DX_ K unit :=
  i ← port_at p;
  _ ← (if negb (enabled i =? PORT_RAWLP) then
         ok ← sys (tty_cbrk (devfd i));
         if ok : bool then mret tt else sys_do (sys_syslog "Could not turn off break")
       else mret tt);
  _ ← set_port p (fun i => set_rfc (Rfc2217 false false (linestate_mask (rfc i)) (modemstate_mask (rfc i))
                                      (last_modemstate (rfc i))) i);
  _ ← watch_port p i;
  _ ← (if enabled i =? PORT_TELNET then on_telnet p (telnet_init telnet_init_seq)
       else read_handler (devfd i) SEL_FD_HANDLER_ENABLED);
  i ← port_at p;
  i' ← lift_res (display_banner i);
  _ ← set_port p (fun _ => i');
  _ ← setup_trace p;
  _ ← header_trace p;
  now ← ask sys_now;
  _ ← on_timers (sel_start_timer (timer i) (TV (tv_sec now + 1) (tv_usec now)));
  set_port p reset_timer.

Definition setup_tcp_port (p : ptr) : DX_ K Z :=
  i ← port_at p;
  let fd := tcpfd i in
  ok ← sys (net_nonblock fd);
  if negb (ok : bool) then abandon [fd] "Could not fcntl the tcp port"
  else
    ok ← sys (net_nodelay fd);
    if negb (ok : bool) then abandon [fd] "Could not enable TCP_NODELAY tcp port"
    else
      allowed ← ask (hosts_access fd);
      if negb allowed then refuse fd (chars "Access denied" ++ [10; 13])
      else
        dev ← nonnull (devname (conf i));
        rv ← uucp_mk_lock dev;
        if 0 <? rv then refuse fd (chars "Port already in use by another process" ++ [10; 13])
        else if rv <? 0 then refuse fd (chars "Error creating port lock file" ++ [10; 13])
        else
          d ← open_device i dev;
          match d with
          | None => abandon [fd] "Could not find USB device"
          | Some o =>
              _ ← set_port p (set_devfd (default (-1) o));
              match o with
              | None =>
                  _ ← abandon [fd] "Could not open device";
                  _ ← uucp_rm_lock (Some dev);
                  mret (-1)
              | Some devfd =>
                  ok ← (if negb (enabled i =? PORT_RAWLP) && negb (disablebreak (dinfo (conf i)))
                        then sys (tty_set devfd (termctl (dinfo (conf i)))) else mret true);
                  if negb (ok : bool) then
                    _ ← abandon [fd; devfd] "Could not set up device";
                    _ ← uucp_rm_lock (Some dev);
                    mret (-1)
                  else _ ← start_session p; mret 0
              end
          end.

(** Is the device of [p] in use by another port of the list? *)
Definition is_device_already_inuse (p : ptr) : DX_ K bool := fun s =>
  match pheap s !! p with
  | None => Crash OutOfBounds
  | Some i =>
      (fix loop (l : list ptr) : res (bool * dx K) :=
         match l with
         | [] => Ok (false, s)
         | q :: l' =>
             if bool_decide (q = p) then loop l'
             else match pheap s !! q with
                  | None => Crash OutOfBounds
                  | Some j =>
                      match devname (conf j), devname (conf i) with
                      | Some a, Some b =>
                          if streq a b && negb (fl_state (tcp_to_dev j) =? PORT_UNCONNECTED)
                          then Ok (true, s) else loop l'
                      | _, _ => Crash NullDeref
                      end
                  end
         end) (ports s)
  end.

Definition handle_accept_port_read (fd : Z) (p : ptr) : DX_ K unit :=
  i ← port_at p;
  err ← (if negb (fl_state (tcp_to_dev i) =? PORT_UNCONNECTED) then mret (Some (chars "Port already in use" ++ [10; 13]))
         else
           busy ← is_device_already_inuse p;
           mret (if busy : bool then Some (chars "Port's device already in use" ++ [10; 13]) else None));
  match err with
  | Some err =>
      new ← sys (net_accept fd);
      match new with
      | Some (new_fd, _) => _ ← write_ignore new_fd err; sys_do (sys_close new_fd)
      | None => mret tt
      end
  | None =>
      new ← sys (net_accept fd);
      match new with
      | None =>
          _ ← set_port p (set_tcpfd (-1));
          sys_do (sys_syslog "Could not accept on port")
      | Some (fd, from) =>
          _ ← set_port p (fun i => set_remote from (set_tcpfd fd i));
          _ ← setup_tcp_port p;
          mret tt
      end
  end.

(** ** The accept socket *)

(** A step that closes the socket and answers [err] when the call fails. *)
Definition or_close (p : ptr) (call : K -> bool * K) (err : string) (next : DX_ K (option cstr)) : DX_ K (option cstr) :=
  ok ← sys call;
  if negb (ok : bool) then
    i ← port_at p;
    _ ← sys_do (sys_close (acceptfd i));
    mret (Some (str err))
  else next.

Definition startup_port (p : ptr) : DX_ K (option cstr) :=
  i ← port_at p;
  if sin_port (tcpport (conf i)) =? 0 then
    busy ← is_device_already_inuse p;
    if busy : bool then
      _ ← write_ignore 0 (chars "Port's device already in use" ++ [10; 13]);
      lift_res (Crash Exited)
    else
      _ ← set_port p (fun i => set_tcpfd 0 (set_acceptfd (-1) i));
      rv ← setup_tcp_port p;
      if rv =? -1 then lift_res (Crash Exited) else mret None
  else
    fd ← sys net_socket;
    _ ← set_port p (set_acceptfd (default (-1) fd));
    match fd with
    | None => mret (Some (str "Unable to create TCP socket"))
    | Some fd =>
        or_close p (net_nonblock fd) "Could not fcntl the accept port"
          (or_close p (net_reuseaddr fd) "Unable to set reuseaddress on socket"
            (or_close p (net_bind fd (tcpport (conf i))) "Unable to bind TCP port"
              (or_close p (net_listen fd) "Unable to listen to TCP port"
                (_ ← on_selector (fun v => sel_set_fd_handlers v fd (Some (Pos.to_nat p))
                                             (Some handle_accept_port_read_fn) None None);
                 _ ← read_handler fd SEL_FD_HANDLER_ENABLED;
                 mret None))))
    end.

Definition change_port_state (p : ptr) (state : Z) : DX_ K (option cstr) :=
  i ← port_at p;
  if enabled i =? state then mret None
  else if state =? PORT_DISABLED then _ ← disable_port p; mret None
  else
    rv ← (if enabled i =? PORT_DISABLED then startup_port p else mret None);
    _ ← set_port p (set_enabled state);
    mret rv.
End setup.

(** ** What is relied on of the system

    Descriptors that are handed out are new and fit in the tables of
    [select]; an address prints as at most 15 characters; the time has its
    fields in range. *)
Class NetLaws (K : Type) `{KernelLaws K, Tty K, Net K, Libc} : Type := {
  opens : K -> gset Z;
  new_fd k fd k' : Prop := 0 <= fd < FD_SETSIZE /\ fd ∉ opens k /\ opens k' = {[fd]} ∪ opens k;
  accept_new f k fd a k' : net_accept f k = (Some (fd, a), k') -> new_fd k fd k';
  open_new n f k fd k' : sys_open n f k = (Some fd, k') -> new_fd k fd k';
  open_none n f k k' : sys_open n f k = (None, k') -> opens k' = opens k;
  socket_new k fd k' : net_socket k = (Some fd, k') -> new_fd k fd k';
  nonblock_opens f k : opens (net_nonblock f k).2 = opens k;
  nodelay_opens f k : opens (net_nodelay f k).2 = opens k;
  tty_set_opens f t k : opens (tty_set f t k).2 = opens k;
  tty_cbrk_opens f k : opens (tty_cbrk f k).2 = opens k;
  write_opens f b k : opens (sys_write f b k).2 = opens k;
  syslog_opens m k : opens (sys_syslog m k) = opens k;
  ntop_short a : (length (sys_ntop a) <= 15)%nat;
  localtime_ok t : tm_ok (localtime t)
}.

(** ** Steps on one port *)

Section steps.
Context {K : Type} `{NetLaws K}.
Context (p : ptr) (s0 : dx K).
Implicit Types (s : dx K) (i : port_info) (o r w : gset Z).

(** Properties of the port, of the descriptors that are open and of the two
    sets of the selector. *)
Abbreviation assertion := (port_info -> gset Z -> gset Z -> gset Z -> Prop).
Implicit Types P Q : assertion.

(** Nothing but [p], the system, the telnet table and the selector differs
    from [s0]. *)
Record at_port P s : Prop := {
  ap_port : exists i, pheap s !! p = Some i /\ P i (opens (kern s)) (read_set (dsel s)) (write_set (dsel s));
  ap_rest : delete p (pheap s) = delete p (pheap s0);
  ap_ports : ports s = ports s0;
  ap_ctl : ctl_fds s = ctl_fds s0;
  ap_uucp : uucp_locking_enabled s = uucp_locking_enabled s0;
  ap_fds : fds_ok (dsel s);
  ap_sched : sched_ok (theap (dsel s));
  ap_timers : dom (timers (theap (dsel s))) = dom (timers (theap (dsel s0)))
}.

(** [m] returns, and leads from [P] to [Q]. *)
Definition leads {A} P (m : DX_ K A) (Q : A -> assertion) : Prop :=
  forall s, at_port P s -> exists a s', m s = Ok (a, s') /\ at_port (Q a) s'.

Lemma at_port_weaken P Q s : (forall i o r w, P i o r w -> Q i o r w) -> at_port P s -> at_port Q s.
Proof. intros HPQ [(i & Hi & HP) ? ? ? ? ? ? ?]. constructor; eauto. Qed.

Lemma leads_bind {A B} P (m : DX_ K A) (k : A -> DX_ K B) (Q : B -> assertion) (R : A -> assertion) :
  leads P m R -> (forall a, leads (R a) (k a) Q) -> leads P (m ≫= k) Q.
Proof.
  intros Hm Hk s Hs. destruct (Hm s Hs) as (a & s1 & E & Hs1). rewrite (ST_bind_Ok _ _ _ _ _ E). by apply Hk.
Qed.

Lemma leads_conseq {A} P P' (m : DX_ K A) (Q Q' : A -> assertion) :
  leads P' m Q' -> (forall i o r w, P i o r w -> P' i o r w) -> (forall a i o r w, Q' a i o r w -> Q a i o r w) -> leads P m Q.
Proof.
  intros Hm HP HQ s Hs. destruct (Hm s (at_port_weaken _ _ _ HP Hs)) as (a & s' & E & H'). exists a, s'.
  split; [done|]. exact (at_port_weaken _ _ _ (HQ a) H').
Qed.

Lemma leads_pure {A} (X : Prop) P (m : DX_ K A) (Q : A -> assertion) : (X -> leads P m Q) -> leads (fun i o r w => X /\ P i o r w) m Q.
Proof.
  intros Hm s Hs. destruct (ap_port _ _ Hs) as (i & Hi & HX & HP). apply (Hm HX).
  destruct Hs as [_ ? ? ? ? ? ? ?]. constructor; eauto.
Qed.

Lemma leads_ret {A} (a : A) P (Q : A -> assertion) : (forall i o r w, P i o r w -> Q a i o r w) -> leads P (mret a) Q.
Proof. intros HQ s Hs. exists a, s. split; [done|]. exact (at_port_weaken _ _ _ HQ Hs). Qed.

Lemma leads_port_at P : leads P (port_at p) (fun a i o r w => a = i /\ P i o r w).
Proof.
  intros s Hs. destruct (ap_port _ _ Hs) as (i & Hi & HP). exists i, s. unfold port_at. rewrite Hi. split; [done|].
  destruct Hs as [_ ? ? ? ? ? ? ?]. constructor; eauto.
Qed.

Lemma leads_pre {A} (X : Prop) P (m : DX_ K A) (Q : A -> assertion) :
  (forall i o r w, P i o r w -> X) -> (X -> leads P m Q) -> leads P m Q.
Proof. intros HX Hm. eapply (leads_conseq _ (fun i o r w => X /\ P i o r w)); [by apply leads_pure | eauto | done]. Qed.
Lemma leads_exists {A X} (P : X -> assertion) (m : DX_ K A) (Q : A -> assertion) :
  (forall x, leads (P x) m Q) -> leads (fun i o r w => exists x, P x i o r w) m Q.
Proof.
  intros Hm s Hs. destruct (ap_port _ _ Hs) as (i & Hi & x & HP). apply (Hm x).
  destruct Hs as [_ ? ? ? ? ? ? ?]. constructor; eauto.
Qed.
Lemma leads_port {B} (k : port_info -> DX_ K B) P (Q : B -> assertion) :
  (forall j, leads (fun i o r w => i = j /\ P i o r w) (k j) Q) -> leads P (i ← port_at p; k i) Q.
Proof.
  intros Hk. eapply leads_bind; [apply leads_port_at|]. intros j. eapply leads_conseq; [apply (Hk j) | | done].
  intros i o r w [-> HP]. by split.
Qed.
Lemma leads_known {B} i1 (k : port_info -> DX_ K B) P (Q : B -> assertion) :
  leads (fun i o r w => i = i1 /\ P i o r w) (k i1) Q -> leads (fun i o r w => i = i1 /\ P i o r w) (i ← port_at p; k i) Q.
Proof.
  intros Hk. apply leads_port. intros j. apply (leads_pre (j = i1)); [by intros i o r w (-> & -> & _)|]. intros ->.
  eapply leads_conseq; [exact Hk | by intros i o r w [_ HP] | done].
Qed.
Lemma leads_lift {A B} (m : res A) a (k : A -> DX_ K B) P (Q : B -> assertion) :
  m = Ok a -> leads P (k a) Q -> leads P (x ← lift_res m; k x) Q.
Proof. intros -> Hk s Hs. destruct (Hk s Hs) as (b & s' & E & Hb). exists b, s'. by rewrite (ST_bind_Ok _ _ _ _ _ eq_refl). Qed.

Lemma leads_set_port f P (Q : assertion) :
  (forall i o r w, P i o r w -> Q (f i) o r w) -> leads P (set_port p f) (fun _ => Q).
Proof.
  intros HQ s Hs. destruct (ap_port _ _ Hs) as (i & Hi & HP). eexists tt, _. unfold set_port. rewrite Hi.
  split; [done|]. destruct Hs as [_ ? ? ? ? ? ? ?]. constructor; cbn; [|by rewrite delete_insert_eq|done..].
  exists (f i). split; [apply lookup_insert_eq | by apply HQ].
Qed.

Lemma leads_ask {A} (f : K -> A) (X : A -> Prop) P : (forall k, X (f k)) -> leads P (ask f) (fun a i o r w => X a /\ P i o r w).
Proof.
  intros HX s Hs. eexists _, s. split; [done|]. eapply at_port_weaken; [|exact Hs]. intros. by split.
Qed.

(** System calls, by what they do to the descriptors. *)
Lemma leads_sys {A} (f : K -> A * K) P (Q : A -> assertion) :
  (forall k i r w, P i (opens k) r w -> Q (f k).1 i (opens (f k).2) r w) -> leads P (sys f) Q.
Proof.
  intros HQ s Hs. destruct (ap_port _ _ Hs) as (i & Hi & HP). specialize (HQ (kern s) i _ _ HP).
  unfold sys. destruct (f (kern s)) as [a k] eqn:E. exists a, (with_kern k s). split; [done|].
  destruct Hs as [_ ? ? ? ? ? ? ?]. constructor; cbn; eauto.
Qed.
Lemma leads_sys_keep {A} (f : K -> A * K) P : (forall k, opens (f k).2 = opens k) -> leads P (sys f) (fun _ => P).
Proof. intros Hk. apply leads_sys. intros. by rewrite Hk. Qed.
Lemma leads_syslog m P : leads P (sys_do (sys_syslog m)) (fun _ => P).
Proof.
  intros s Hs. destruct (ap_port _ _ Hs) as (i & Hi & HP). exists tt, (with_kern (sys_syslog m (kern s)) s). split; [done|].
  destruct Hs as [_ ? ? ? ? ? ? ?]. constructor; cbn; try done. exists i. by rewrite syslog_opens.
Qed.
Lemma leads_write fd b P : leads P (write_ignore fd b) (fun _ => P).
Proof.
  unfold write_ignore. eapply leads_bind; [apply leads_sys_keep, write_opens|]. intros a. by apply leads_ret.
Qed.

(** The selector. *)
Lemma leads_handlers fd data rd wr ex P : 0 <= fd < FD_SETSIZE ->
  leads P (on_selector (fun v => sel_set_fd_handlers v fd data rd wr ex)) (fun _ => P).
Proof.
  intros Hfd s Hs. destruct (set_handlers_spec (dsel s) fd data rd wr ex (ap_fds _ _ Hs) Hfd) as (v & E & Hv & _ & Hr & Hw & _ & Ht).
  unfold on_selector. rewrite E. eexists tt, _. split; [done|].
  destruct Hs as [(i & Hi & HP) ? ? ? ? ? ? ?]. constructor; cbn; try done; [|by rewrite Ht..].
  exists i. by rewrite Hr, Hw.
Qed.
Lemma fds_ok_sets v v' : fds v' = fds v -> maxfd v' = maxfd v -> fds_ok v -> fds_ok v'.
Proof. intros Ef Em [Hl Hm]. constructor; rewrite ?Ef, ?Em; done. Qed.
Ltac keep_fds := match goal with Hf : fds_ok ?v |- fds_ok _ => apply (fds_ok_sets v); [done | done | exact Hf] end.
Lemma leads_read fd st P Q : 0 <= fd < FD_SETSIZE -> st = SEL_FD_HANDLER_ENABLED \/ st = SEL_FD_HANDLER_DISABLED ->
  (forall i o r w, P i o r w -> Q i o (if st =? SEL_FD_HANDLER_ENABLED then {[fd]} ∪ r else r ∖ {[fd]}) w) ->
  leads P (read_handler fd st) (fun _ => Q).
Proof.
  intros Hfd Hst HQ s Hs. unfold read_handler, on_selector, sel_set_fd_read_handler, set_member.
  rewrite fd_index_ok by done. destruct (ap_port _ _ Hs) as (i & Hi & HP). specialize (HQ _ _ _ _ HP).
  destruct Hst as [-> | ->]; cbn in *; eexists tt, _; (split; [done|]); destruct Hs as [_ ? ? ? ? ? ? ?];
    constructor; cbn; eauto; keep_fds.
Qed.
Lemma leads_write_on fd P Q : 0 <= fd < FD_SETSIZE ->
  (forall i o r w, P i o r w -> Q i o r ({[fd]} ∪ w)) -> leads P (write_handler fd SEL_FD_HANDLER_ENABLED) (fun _ => Q).
Proof.
  intros Hfd HQ s Hs. unfold write_handler, on_selector, sel_set_fd_write_handler, set_member.
  rewrite fd_index_ok by done. destruct (ap_port _ _ Hs) as (i & Hi & HP). specialize (HQ _ _ _ _ HP).
  cbn in *; eexists tt, _; (split; [done|]); destruct Hs as [_ ? ? ? ? ? ? ?]; constructor; cbn; eauto.
  keep_fds.
Qed.
Lemma leads_except fd P : 0 <= fd < FD_SETSIZE ->
  leads P (on_selector (fun v => sel_set_fd_except_handler v fd SEL_FD_HANDLER_ENABLED)) (fun _ => P).
Proof.
  intros Hfd s Hs. unfold on_selector, sel_set_fd_except_handler, set_member. rewrite fd_index_ok by done.
  cbn. eexists tt, _. split; [done|]. destruct Hs as [? ? ? ? ? ? ? ?]. constructor; cbn; eauto. keep_fds.
Qed.
(** The idle timer. *)
Lemma leads_start_timer t v P : t ∈ dom (timers (theap (dsel s0))) ->
  leads P (on_timers (sel_start_timer t v)) (fun _ => P).
Proof.
  intros Ht s Hs. rewrite <- (ap_timers _ _ Hs) in Ht. apply elem_of_dom in Ht.
  destruct (start_timer_dom _ t v (ap_sched _ _ Hs) Ht) as (a & h & E & Hh & Hd).
  unfold on_timers. rewrite E. eexists a, _. split; [done|].
  destruct Hs as [? ? ? ? ? ? ? Hdom]. constructor; cbn; eauto; [keep_fds | by rewrite Hd].
Qed.

(** The telnet start queues the initial sequence and holds the device back. *)
Lemma leads_telnet_init i1 P (Q : assertion) :
  0 <= devfd i1 < FD_SETSIZE -> 0 <= tcpfd i1 < FD_SETSIZE ->
  (forall o r w, P i1 o r w ->
     Q (set_tn_data (set_out telnet_init_seq (set_out [] (set_error false (set_pos 0 (tn_data i1))))) i1) o
       (r ∖ {[devfd i1]}) ({[tcpfd i1]} ∪ w)) ->
  leads (fun i o r w => i = i1 /\ P i o r w) (on_telnet p (telnet_init telnet_init_seq)) (fun _ => Q).
Proof.
  intros Hd Ht HQ s Hs. destruct (ap_port _ _ Hs) as (i & Hi & -> & HP). specialize (HQ _ _ _ HP).
  unfold on_telnet. rewrite Hi. eexists tt, _. split.
  { cbv beta iota delta [telnet_init mod_td modify mbind ST_bind mret ST_ret output_ready port_output in_callback
      lift_res check world td cmds].
    change (Z.of_nat (length telnet_init_seq) <=? Z.of_nat MAX_TELNET_CMD_XMIT_BUF) with true.
    cbv beta iota. unfold telnet_output_ready. rewrite (ST_bind_Ok _ _ _ _ _ (port_at_Ok _ _ _ Hi)).
    rewrite (ST_bind_Ok _ _ _ _ _ (read_handler_off _ _ Hd)), (write_handler_on _ _ Ht). cbn [fst snd].
    unfold set_port. cbn [pheap with_cmds with_dsel with_pheap]. rewrite Hi. reflexivity. }
  destruct Hs as [_ ? ? ? ? ? ? ?]. constructor; cbn; try done; [|by rewrite delete_insert_eq|keep_fds].
  eexists. split; [apply lookup_insert_eq | exact HQ].
Qed.

(** The banner. *)
Lemma leads_banner i1 (P : gset Z -> gset Z -> gset Z -> Prop) : named i1 -> flow_fits (dev_to_tcp i1) ->
  leads (fun i o r w => i = i1 /\ P o r w)
    (i ← port_at p; i' ← lift_res (display_banner i); set_port p (fun _ => i'))
    (fun _ i o r w => (exists f l, i = set_dev_to_tcp (fun _ => f) i1 /\ appended (dev_to_tcp i1) f l /\
       match banner (dinfo (conf i1)) with None => l = [] | Some b => numeric_free b = true -> l = banner_text i1 b end) /\
       P o r w).
Proof.
  intros Hn Hf. destruct (display_banner_appends i1 Hn Hf) as (f & l & E & A & T).
  apply (leads_known i1 _ (fun _ => P)). eapply leads_lift; [exact E|]. apply leads_set_port.
  intros i o r w [-> HP]. eauto 8.
Qed.

(** [X] are descriptors that stay open. *)
Definition avoids (X : gset Z) (tr : trace_t) : Prop := tr_file tr ∉ X.

Lemma leads_open_trace X j inf f out tv (P : port_info -> gset Z -> gset Z -> Prop) : named j -> hex_free f = true -> -1 ∉ X ->
  leads (fun i o r w => X ⊆ o /\ P i r w) (open_trace_file j inf f out tv)
    (fun tr i o r w => avoids X tr /\ X ⊆ o /\ P i r w).
Proof.
  intros Hn Hx Hm. unfold open_trace_file.
  assert (E : exists name, translate_filename j tv f FILENAME_MAX = Ok name).
  { unfold translate_filename. rewrite (name_loop_expand j tv (length f)) by (done || apply localtime_ok).
    unfold outcome. eauto. }
  destruct E as [name E]. eapply leads_lift; [exact E|].
  assert (Hno : forall m, leads (fun i o r w => X ⊆ o /\ P i r w)
    (_ ← sys_do (sys_syslog m); mret (trace_set_file (-1) out)) (fun tr i o r w => avoids X tr /\ X ⊆ o /\ P i r w)).
  { intros m. eapply leads_bind; [apply leads_syslog|]. intros ?. apply leads_ret. by intros i o r w HP. }
  destruct name as [name|]; [|apply Hno].
  eapply leads_bind; [apply (leads_sys _ _ (fun fd i o r w => match fd with Some fd => fd ∉ X | None => True end /\ X ⊆ o /\ P i r w))|].
  - intros k i r w [HX HP]. destruct (sys_open _ _ k) as [[fd|] k'] eqn:Eo; cbn [fst snd].
    + apply open_new in Eo as (_ & Hfd & Ho). rewrite Ho. split_and!; [set_solver | set_solver | done].
    + apply open_none in Eo. by rewrite Eo.
  - intros [fd|]; apply leads_pure; intros Hfd; [|apply Hno]. by apply leads_ret.
Qed.

(** The trace files are new descriptors. *)
Lemma leads_setup_trace X (P : port_info -> gset Z -> gset Z -> Prop) j : -1 ∉ X -> named j ->
  (forall f, file (DevCfg.trace_write (dinfo (conf j))) = Some f -> hex_free f = true) ->
  (forall f, file (trace_read (dinfo (conf j))) = Some f -> hex_free f = true) ->
  (forall f, file (trace_both (dinfo (conf j))) = Some f -> hex_free f = true) ->
  (forall i r w a b c, P i r w -> P (set_traces a b c i) r w) ->
  leads (fun i o r w => i = j /\ X ⊆ o /\ P i r w) (setup_trace p)
    (fun _ i o r w => (exists a b c, i = set_traces a b c j /\ avoids X a /\ avoids X b /\ avoids X c) /\ X ⊆ o /\ P i r w).
Proof.
  intros Hm Hn Hfw Hfr Hfb HP. unfold setup_trace. eapply leads_bind; [apply (leads_ask _ (fun _ => True)); done|].
  intros tv. apply leads_pure. intros _. apply (leads_known j _ (fun i o r w => X ⊆ o /\ P i r w)).
  assert (Hnone : forall (Pr : port_info -> gset Z -> gset Z -> Prop) tr,
    leads (fun i o r w => X ⊆ o /\ Pr i r w) (mret (trace_set_file (-1) tr)) (fun tr i o r w => avoids X tr /\ X ⊆ o /\ Pr i r w)).
  { intros Pr tr. apply leads_ret. by intros. }
  assert (Hsame : forall (Pr : port_info -> gset Z -> gset Z -> Prop) tr, avoids X tr ->
    leads (fun i o r w => X ⊆ o /\ Pr i r w) (mret tr) (fun tr i o r w => avoids X tr /\ X ⊆ o /\ Pr i r w)).
  { intros Pr tr Ha. apply leads_ret. by intros. }
  set (P0 i r w := i = j /\ P i r w).
  eapply (leads_conseq _ (fun i o r w => X ⊆ o /\ P0 i r w)); [|unfold P0; naive_solver | intros a i o r w HQ; exact HQ].
  eapply leads_bind.
  { destruct (file (DevCfg.trace_write _)) as [f|] eqn:Ef; [apply (leads_open_trace X j _ f _ _ P0); eauto | apply (Hnone P0)]. }
  intros a. apply leads_pure. intros Ha. set (P1 i r w := i = set_traces a (rt j) (bt j) j /\ P i r w).
  eapply leads_bind.
  { apply (leads_set_port _ _ (fun i o r w => X ⊆ o /\ P1 i r w)). intros i o r w (HX & -> & Hi). split; [done|]. split; eauto. }
  intros ?. eapply leads_bind.
  { destruct (file (trace_read _)) as [f|] eqn:Ef; [|apply (Hnone P1)].
    destruct (same_file _ f); [by apply (Hsame P1) | apply (leads_open_trace X j _ f _ _ P1); eauto]. }
  intros b. apply leads_pure. intros Hb. set (P2 i r w := i = set_traces a b (bt j) j /\ P i r w).
  eapply leads_bind.
  { apply (leads_set_port _ _ (fun i o r w => X ⊆ o /\ P2 i r w)). intros i o r w (HX & -> & Hi). split; [done|]. split; [done|].
    by apply (HP (set_traces a (rt j) (bt j) j)). }
  intros ?. eapply leads_bind.
  { destruct (file (trace_both _)) as [f|] eqn:Ef; [|apply (Hnone P2)].
    destruct (same_file _ f); [by apply (Hsame P2)|]. destruct (same_file _ f); [by apply (Hsame P2)|].
    apply (leads_open_trace X j _ f _ _ P2); eauto. }
  intros c. apply leads_pure. intros Hc. apply leads_set_port. intros i o r w (HX & -> & Hi).
  split; [exists a, b, c; by split_and!|]. split; [done|]. by apply (HP (set_traces a b (bt j) j)).
Qed.

(** The line about the new connection. *)
Lemma leads_trace_to_files buf P : leads P (trace_to_files p buf) (fun _ => P).
Proof.
  unfold trace_to_files. apply leads_port. intros j.
  assert (Hif : forall (c : bool) fd, leads P (if c then write_ignore fd buf else mret tt) (fun _ => P)).
  { intros c fd. destruct c; [apply leads_write | by apply leads_ret]. }
  eapply leads_conseq; [|intros i o r w [_ HP]; exact HP | intros a i o r w HP; exact HP].
  eapply leads_bind; [apply Hif|]. intros ?. eapply leads_bind; [apply Hif|]. intros ?. apply Hif.
Qed.

Lemma decimal_bytes_short n : (length (decimal_bytes n) <= 20)%nat.
Proof. unfold decimal_bytes. rewrite length_map. pose proof (decimal_slen n) as Hs. unfold slen in Hs. lia. Qed.

Lemma leads_header P : leads P (header_trace p) (fun _ => P).
Proof.
  unfold header_trace. apply leads_port. intros j.
  eapply leads_bind; [apply (leads_ask _ (fun t => length t <= 20)%nat), timestamp_length|]. intros t. apply leads_pure. intros Ht.
  pose proof (ntop_short (sin_addr (remote j))) as Hn. pose proof (decimal_bytes_short (sin_port (remote j))) as Hd.
  assert (Hc : length (chars "OPEN (") = 6%nat /\ length (chars ":") = 1%nat /\ length (chars ")") = 1%nat) by done.
  destruct Hc as (Hc1 & Hc2 & Hc3).
  eapply leads_lift; [apply emit_Ok; lia|].
  eapply leads_lift; [apply emit_Ok; rewrite length_app; lia|].
  eapply leads_lift; [apply emit_Ok; rewrite !length_app; cbn [length]; lia|].
  eapply leads_conseq; [apply (leads_trace_to_files _ P) | by intros i o r w [_ HP] | done].
Qed.

(** What a session starts with, [i1] being the port when the device is
    open. *)
Definition banner_clause (i : port_info) (l : list Z) : Prop :=
  match banner (dinfo (conf i)) with None => l = [] | Some b => numeric_free b = true -> l = banner_text i b end.

Definition same_fields (i1 i : port_info) : Prop :=
  conf i = conf i1 /\ enabled i = enabled i1 /\ timer i = timer i1 /\ acceptfd i = acceptfd i1 /\
  config_num i = config_num i1 /\ new_config i = new_config i1 /\ tcp_monitor i = tcp_monitor i1 /\
  dev_monitor i = dev_monitor i1.

Record opened (i1 i : port_info) (r w : gset Z) : Prop := {
  op_fields : same_fields i1 i;
  op_tcpfd : tcpfd i = tcpfd i1;
  op_devfd : devfd i = devfd i1;
  op_t2d : tcp_to_dev i = fl_set_state PORT_WAITING_INPUT (tcp_to_dev i1);
  op_d2t : exists l, appended (fl_set_state PORT_WAITING_INPUT (dev_to_tcp i1)) (dev_to_tcp i) l /\ banner_clause i1 l;
  op_telnet : enabled i1 = PORT_TELNET ->
    devfd i1 ∉ r /\ tcpfd i1 ∈ w /\ out_telnet_cmd (tn_data i) = telnet_init_seq;
  op_traces : forall fd, fd ∈ ({[tcpfd i1; devfd i1]} : gset Z) -> trace_free fd i;
  op_timeout : timeout_left i = timeout (conf i1)
}.

(** The names of the trace files have no hexadecimal escape. *)
Definition plain_names (d : dev_info) : Prop :=
  (forall f, file (DevCfg.trace_write d) = Some f -> hex_free f = true) /\
  (forall f, file (trace_read d) = Some f -> hex_free f = true) /\
  (forall f, file (trace_both d) = Some f -> hex_free f = true).

Lemma leads_watch i0 i1 (P : gset Z -> Prop) : 0 <= devfd i0 < FD_SETSIZE -> 0 <= tcpfd i0 < FD_SETSIZE ->
  leads (fun i o r w => i = i1 /\ P o) (watch_port p i0)
    (fun _ i o r w => i = set_tcp_to_dev (fl_set_state PORT_WAITING_INPUT) (set_dev_to_tcp (fl_set_state PORT_WAITING_INPUT) i1) /\ P o).
Proof.
  intros Hd Ht. unfold watch_port.
  eapply leads_bind; [by apply leads_handlers|]. intros ?.
  eapply leads_bind; [apply (leads_read _ _ _ (fun i o r w => i = i1 /\ P o)); [done | destruct (enabled i0 =? PORT_RAWLP); auto | done]|].
  intros ?. eapply leads_bind; [by apply leads_except|]. intros ?.
  eapply leads_bind; [apply (leads_set_port _ _ (fun i o r w => i = set_dev_to_tcp (fl_set_state PORT_WAITING_INPUT) i1 /\ P o));
    by intros i o r w [-> HP]|]. intros ?.
  eapply leads_bind; [by apply leads_handlers|]. intros ?.
  eapply leads_bind; [apply (leads_read _ _ _ (fun i o r w => i = set_dev_to_tcp (fl_set_state PORT_WAITING_INPUT) i1 /\ P o)); [done | by left | done]|].
  intros ?. eapply leads_bind; [by apply leads_except|]. intros ?.
  apply leads_set_port. by intros i o r w [-> HP].
Qed.

Lemma leads_start i1 : 0 <= devfd i1 < FD_SETSIZE -> 0 <= tcpfd i1 < FD_SETSIZE -> named i1 ->
  flow_fits (dev_to_tcp i1) -> plain_names (dinfo (conf i1)) -> timer i1 ∈ dom (timers (theap (dsel s0))) ->
  leads (fun i o r w => i = i1 /\ {[tcpfd i1; devfd i1]} ⊆ o) (start_session p) (fun _ i o r w => opened i1 i r w).
Proof.
  intros Hd Ht Hn Hf (Hfw & Hfr & Hfb) Htm. set (X := {[tcpfd i1; devfd i1]} : gset Z).
  unfold start_session. apply (leads_known i1 _ (fun i o r w => X ⊆ o)).
  eapply leads_bind.
  { instantiate (1 := fun _ i o r w => i = i1 /\ X ⊆ o).
    destruct (negb (enabled i1 =? PORT_RAWLP)); [|by apply leads_ret]. eapply leads_bind; [apply leads_sys_keep, tty_cbrk_opens|].
    intros [|]; [by apply leads_ret | apply leads_syslog]. }
  set (i2 := set_rfc (Rfc2217 false false (linestate_mask (rfc i1)) (modemstate_mask (rfc i1)) (last_modemstate (rfc i1))) i1).
  intros ?. eapply leads_bind.
  { apply (leads_set_port _ _ (fun i o r w => i = i2 /\ X ⊆ o)). by intros i o r w [-> HX]. }
  intros ?.
  eapply leads_bind.
  { by apply (leads_watch i1 i2 (fun o => X ⊆ o)). }
  intros ?. set (i3 := set_tcp_to_dev _ _).
  set (tn d r w := enabled i1 = PORT_TELNET -> devfd i1 ∉ r /\ tcpfd i1 ∈ w /\ out_telnet_cmd d = telnet_init_seq).
  eapply leads_bind.
  { instantiate (1 := fun _ i o r w => exists d, i = set_tn_data d i3 /\ X ⊆ o /\ tn d r w).
    destruct (Z.eqb_spec (enabled i1) PORT_TELNET) as [He|He].
    - apply (leads_telnet_init i3 (fun i o r w => X ⊆ o)); [done | done |]. intros o r w HX.
      eexists. split; [reflexivity|]. split; [done|]. intros _. cbn. split_and!; [set_solver | set_solver | done].
    - apply (leads_read _ _ _ (fun i o r w => exists d, i = set_tn_data d i3 /\ X ⊆ o /\ tn d r w)); [done | by left |].
      intros i o r w [-> HX]. exists (tn_data i3). split_and!; [by destruct i1 | done | by intros ?]. }
  intros ?. apply leads_exists. intros d. set (i4 := set_tn_data d i3).
  apply (leads_known i4 _ (fun i o r w => X ⊆ o /\ tn d r w)).
  destruct (display_banner_appends i4 Hn) as (f & l & E & A & T); [destruct Hf; by constructor|].
  eapply leads_lift; [exact E|]. set (i5 := set_dev_to_tcp _ i4).
  eapply leads_bind; [apply (leads_set_port _ _ (fun i o r w => i = i5 /\ X ⊆ o /\ tn d r w)); by intros i o r w [-> HP]|].
  intros ?. eapply leads_bind.
  { apply (leads_setup_trace X (fun i r w => tn d r w) i5); [|done..]. unfold X. set_unfold. unfold FD_SETSIZE in *. lia. }
  intros ?. eapply leads_bind; [apply leads_header|]. intros ?.
  eapply leads_bind; [apply (leads_ask _ (fun _ => True)); done|]. intros now. apply leads_pure. intros _.
  eapply leads_bind; [by apply leads_start_timer|]. intros ?.
  apply leads_set_port. intros i o r w ((a' & b' & c' & -> & Ha & Hb & Hc) & HX & Htn).
  constructor; [unfold same_fields; by split_and! | done | done | done | by exists l | exact Htn | | done].
  intros fd Hfd. assert (fd ∈ X) by done. unfold avoids in *. split_and!; cbn; try congruence.
  intros ->. unfold X in *. set_unfold. unfold FD_SETSIZE in *. lia.
Qed.

(** Closing forgets what is open. *)
Lemma leads_skip {A B} P (m : DX_ K A) (k : DX_ K B) (Q : B -> assertion) :
  leads P m (fun _ => P) -> leads P k Q -> leads P (_ ← m; k) Q.
Proof. intros Hm Hk. eapply leads_bind; [exact Hm|]. intros ?. exact Hk. Qed.

Definition closed_under (P : assertion) : Prop := forall i o o' r w, P i o r w -> P i o' r w.

Lemma leads_do (f : K -> K) P : closed_under P -> leads P (sys_do f) (fun _ => P).
Proof.
  intros HP s Hs. exists tt, (with_kern (f (kern s)) s). split; [done|].
  destruct Hs as [(i & Hi & Hio) ? ? ? ? ? ? ?]. constructor; cbn; eauto.
Qed.

Lemma leads_abandon fds m P : closed_under P -> leads P (abandon fds m) (fun a i o r w => a = -1 /\ P i o r w).
Proof.
  intros HP. unfold abandon. apply leads_skip; [|apply leads_skip; [by apply leads_do | by apply leads_ret]].
  induction fds as [|fd fds IH]; [by apply leads_ret|]. apply leads_skip; [by apply leads_do | exact IH].
Qed.

Lemma leads_refuse fd b P : closed_under P -> leads P (refuse fd b) (fun a i o r w => a = -1 /\ P i o r w).
Proof.
  intros HP. unfold refuse. apply leads_skip; [apply leads_write|]. apply leads_skip; [by apply leads_do | by apply leads_ret].
Qed.

Lemma leads_no_lock d P : uucp_locking_enabled s0 = false -> leads P (uucp_mk_lock d) (fun a i o r w => a = 0 /\ P i o r w).
Proof.
  intros Hu s Hs. exists 0, s. unfold uucp_mk_lock. rewrite (ST_bind_Ok _ _ _ _ _ eq_refl), (ap_uucp _ _ Hs), Hu.
  split; [done|]. by eapply at_port_weaken; [|exact Hs].
Qed.
Lemma leads_no_unlock d P : uucp_locking_enabled s0 = false -> leads P (uucp_rm_lock d) (fun _ => P).
Proof. intros Hu s Hs. exists tt, s. unfold uucp_rm_lock. by rewrite (ap_uucp _ _ Hs), Hu. Qed.

(** The name of a USB device is searched without leaving a buffer. *)
Definition usb_safe (dev : cstr) : Prop := starts (str "usb") dev = true -> forall k : K, exists d, usbFindSerial dev k = Ok d.

(** The device gets a descriptor that is not in [T]. *)
Lemma leads_open_device j dev (T : gset Z) (P : port_info -> gset Z -> gset Z -> Prop) : usb_safe dev ->
  leads (fun i o r w => T ⊆ o /\ P i r w) (open_device j dev)
    (fun a i o r w => match a with Some (Some d) => 0 <= d < FD_SETSIZE /\ d ∉ T | _ => True end /\
      match a with Some (Some d) => {[d]} ∪ T ⊆ o | _ => True end /\ P i r w).
Proof.
  intros Hu. assert (Hopen : forall n f, leads (fun i o r w => T ⊆ o /\ P i r w) (fd ← sys (sys_open n f); mret (Some fd))
    (fun a i o r w => match a with Some (Some d) => 0 <= d < FD_SETSIZE /\ d ∉ T | _ => True end /\
      match a with Some (Some d) => {[d]} ∪ T ⊆ o | _ => True end /\ P i r w)).
  { intros n f. eapply leads_bind; [apply (leads_sys _ _ (fun a i o r w =>
      match a with Some d => 0 <= d < FD_SETSIZE /\ d ∉ T | _ => True end /\
      match a with Some d => {[d]} ∪ T ⊆ o | _ => True end /\ P i r w))|].
    - intros k i r w [Ht HP]. destruct (sys_open n f k) as [[d|] k'] eqn:E; cbn [fst snd]; [|done].
      apply open_new in E as (Hd & Hn & Ho). rewrite Ho. split_and!; [lia | lia | set_solver | set_solver | done].
    - intros a. apply leads_ret. by intros. }
  unfold open_device. destruct (starts (str "usb") dev) eqn:Eu; [|apply Hopen].
  eapply leads_bind; [instantiate (1 := fun _ i o r w => T ⊆ o /\ P i r w)|].
  - intros s Hs. destruct (Hu Eu (kern s)) as [d E]. exists d, s. by rewrite E.
  - intros [d|]; [|by apply leads_ret; intros i o r w [_ HP]]. eapply leads_bind; [apply leads_syslog|]. intros ?. apply Hopen.
Qed.

Lemma leads_nonnull {A B} (a : A) (k : A -> DX_ K B) P (Q : B -> assertion) :
  leads P (k a) Q -> leads P (x ← nonnull (Some a); k x) Q.
Proof. intros Hk. exact Hk. Qed.

(** A new connection: the session starts, or everything is closed again. *)
Lemma leads_setup i1 dev (T : gset Z) : tcpfd i1 ∈ T -> 0 <= tcpfd i1 < FD_SETSIZE -> named i1 -> devname (conf i1) = Some dev -> usb_safe dev ->
  flow_fits (dev_to_tcp i1) -> plain_names (dinfo (conf i1)) -> timer i1 ∈ dom (timers (theap (dsel s0))) ->
  uucp_locking_enabled s0 = false ->
  leads (fun i o r w => i = i1 /\ T ⊆ o) (setup_tcp_port p)
    (fun a i o r w =>
       (a = 0 /\ exists d, 0 <= d < FD_SETSIZE /\ d ∉ T /\ opened (set_devfd d i1) i r w) \/
       (a = -1 /\ exists d, i = set_devfd d i1)).
Proof.
  intros HT Ht Hn Hdev Husb Hf Hpl Htm Huu. unfold setup_tcp_port. apply (leads_known i1 _ (fun i o r w => T ⊆ o)).
  set (failed (i : port_info) (_ _ _ : gset Z) := exists d, i = set_devfd d i1).
  assert (Hst : closed_under failed) by (intros i o o' r w HP; exact HP).
  set (good (a : Z) (i : port_info) (o r w : gset Z) := (a = 0 /\ exists d, 0 <= d < FD_SETSIZE /\ d ∉ T /\ opened (set_devfd d i1) i r w)).
  assert (Hfail : forall m, leads failed m (fun a i o r w => a = -1 /\ failed i o r w) ->
    leads (fun i o r w => i = i1 /\ T ⊆ o) m (fun a i o r w => good a i o r w \/ (a = -1 /\ exists d, i = set_devfd d i1))).
  { intros m Hm. eapply leads_conseq; [exact Hm | | by right]. intros i o r w [-> _]. exists (devfd i1). by destruct i1. }
  eapply leads_bind; [apply leads_sys_keep, nonblock_opens|]. intros [|]; cbn [negb]; [|apply Hfail; by apply leads_abandon].
  eapply leads_bind; [apply leads_sys_keep, nodelay_opens|]. intros [|]; cbn [negb]; [|apply Hfail; by apply leads_abandon].
  eapply leads_bind; [apply (leads_ask _ (fun _ => True)); done|]. intros allowed. apply leads_pure. intros _.
  destruct allowed; cbn [negb]; [|apply Hfail; by apply leads_refuse].
  rewrite Hdev. apply leads_nonnull.
  eapply leads_bind; [by apply leads_no_lock|]. intros rv. apply leads_pure. intros ->. cbn [Z.ltb Z.compare].
  eapply leads_bind.
  { eapply leads_conseq; [apply (leads_open_device i1 dev T (fun i r w => i = i1) Husb) | by intros i o r w [-> HX] |].
    intros a i o r w HP. exact HP. }
  intros a. apply leads_pure. intros Ha. destruct a as [[d|]|].
  - destruct Ha as (Hd & Hdt). set (i2 := set_devfd d i1). cbn [default].
    eapply leads_bind; [apply (leads_set_port _ _ (fun i o r w => i = i2 /\ {[tcpfd i2; devfd i2]} ⊆ o));
      intros i o r w [Ho ->]; split; [done | cbn; set_solver]|]. intros ?.
    eapply leads_bind.
    { instantiate (1 := fun _ i o r w => i = i2 /\ {[tcpfd i2; devfd i2]} ⊆ o).
      destruct (negb _ && negb _); [apply leads_sys_keep, tty_set_opens | by apply leads_ret]. }
    intros [|]; cbn [negb].
    + eapply leads_bind; [apply (leads_start i2); done|]. intros ?. apply leads_ret. intros i o r w Hop. left. eauto 8.
    + apply (leads_conseq _ failed _ _ (fun a i o r w => a = -1 /\ failed i o r w)); [|intros i o r w [-> _]; by exists d | by right].
      eapply leads_bind; [by apply leads_abandon|]. intros ?. apply leads_pure. intros _.
      apply leads_skip; [by apply leads_no_unlock | by apply leads_ret].
  - apply (leads_conseq _ (fun i o r w => i = i1) _ _ (fun a i o r w => a = -1 /\ failed i o r w)); [|by intros i o r w [_ HP] | by right].
    eapply leads_bind; [apply (leads_set_port _ _ failed); intros i o r w ->; by eexists|]. intros ?.
    eapply leads_bind; [by apply leads_abandon|]. intros ?. apply leads_pure. intros _.
    apply leads_skip; [by apply leads_no_unlock | by apply leads_ret].
  - apply (leads_conseq _ failed _ _ (fun a i o r w => a = -1 /\ failed i o r w)); [by apply leads_abandon | | by right].
    intros i o r w [_ ->]. exists (devfd i1). by destruct i1.
Qed.
End steps.
