(* ===== verification/PortAccept.v ===== *)
(** * Accepting connections: [ser2net/dataxfer.c]

    What [handle_accept_port_read] of [PortSetup.v] does to the ports: it
    refuses a second session on a port or on its device, and otherwise opens a
    session in a state the transfer handlers of [PortFlow.v] work from. *)

From S2P Require Import Prelude CStr SelHeap Selector Telnet Utils DevCfg PortData PortFlow PortText PortScript PortSetup.

(** ** Accepting a connection *)

Section accept.
Context {K : Type} `{NetLaws K}.
Implicit Types (s : dx K) (i : port_info).

Definition connected i : Prop := fl_state (tcp_to_dev i) <> PORT_UNCONNECTED.

(** Another port of the list has a session on the device of [p]. *)
Definition device_busy s p i : Prop :=
  exists q j, q ∈ ports s /\ q <> p /\ pheap s !! q = Some j /\ devname (conf j) = devname (conf i) /\ connected j.

Definition all_named s : Prop := forall q, q ∈ ports s -> exists j, pheap s !! q = Some j /\ named j.

Lemma inuse_spec s p i : pheap s !! p = Some i -> named i -> all_named s ->
  exists b, is_device_already_inuse p s = Ok (b, s) /\ (b = true <-> device_busy s p i).
Proof.
  intros Hi [_ [n Hn]] Hall. unfold is_device_already_inuse, device_busy. rewrite Hi, Hn. unfold all_named in Hall.
  assert (Hsub : forall q, q ∈ ports s -> q ∈ ports s) by done. revert Hsub.
  generalize (ports s) at 1 3 4 as l. intros l. induction l as [|q l IH]; intros Hsub.
  { exists false. split; [done|]. split; [done|]. intros (q & j & Hq & _). by apply not_elem_of_nil in Hq. }
  destruct IH as (b & E & Hb); [intros q' Hq'; apply Hsub; by right|].
  destruct (bool_decide_reflect (q = p)) as [->|Hne].
  { exists b. split; [exact E|]. rewrite Hb. split; intros (q & j & Hq & Hr); exists q, j; (split; [|done]); [by right|].
    apply elem_of_cons in Hq as [->|]; [by destruct Hr | done]. }
  destruct (Hall q ltac:(apply Hsub; by left)) as (j & Hj & [_ [m Hm]]). rewrite Hj, Hm.
  destruct (streq m n) eqn:Es; cbn [andb]; [destruct (Z.eqb_spec (fl_state (tcp_to_dev j)) PORT_UNCONNECTED) as [Hu|Hu]; cbn [negb]|].
  - exists b. split; [exact E|]. rewrite Hb. split; intros (q' & j' & Hq & Hr); exists q', j'; (split; [|done]); [by right|].
    apply elem_of_cons in Hq as [->|]; [|done]. destruct Hr as (_ & Hj' & _ & Hc). by simplify_eq.
  - exists true. split; [done|]. split; [|done]. intros _. apply streq_true in Es. subst m.
    exists q, j. split_and!; [by left | done | done | by rewrite Hm | done].
  - exists b. split; [exact E|]. rewrite Hb. split; intros (q' & j' & Hq & Hr); exists q', j'; (split; [|done]); [by right|].
    apply elem_of_cons in Hq as [->|]; [|done]. destruct Hr as (_ & Hj' & Hd & _). simplify_eq.
    by rewrite (proj2 (streq_true _ _) eq_refl) in Es.
Qed.

(** A port that waits for a connection. *)
Definition flow_idle (f : flow) : Prop := fl_state f = PORT_UNCONNECTED /\ fl_start f = 0 /\ fl_count f = 0 /\ flow_fits f.

Record port_idle s p i : Prop := {
  pi_port : pheap s !! p = Some i;
  pi_named : named i;
  pi_t2d : flow_idle (tcp_to_dev i);
  pi_d2t : flow_idle (dev_to_tcp i);
  pi_timer : timer i ∈ dom (timers (theap (dsel s)));
  pi_plain : plain_names (dinfo (conf i));
  pi_usb : forall dev, devname (conf i) = Some dev -> usb_safe dev
}.

(** The descriptor of a monitor is open. *)
Definition monitor_open (m : option ptr) s : Prop :=
  match m with None => True | Some c => exists fd, ctl_fds s !! c = Some fd /\ fd ∈ opens (kern s) end.

(** What the refused side is told. *)
Definition busy_text i : list Z :=
  if negb (fl_state (tcp_to_dev i) =? PORT_UNCONNECTED) then chars "Port already in use" ++ [10; 13]
  else chars "Port's device already in use" ++ [10; 13].

Lemma accept_busy s p i fd : pheap s !! p = Some i -> named i -> all_named s -> connected i \/ device_busy s p i ->
  handle_accept_port_read fd p s =
    Ok (tt, with_kern (match net_accept fd (kern s) with
                       | (None, k) => k
                       | (Some (n, _), k) => sys_close n (sys_write n (busy_text i) k).2
                       end) s).
Proof.
  intros Hi Hn Hall Hbusy. unfold handle_accept_port_read, busy_text.
  rewrite (ST_bind_Ok _ _ _ _ _ (port_at_Ok _ _ _ Hi)).
  assert (Hfin : forall err, (new ← sys (net_accept fd);
      match new with
      | Some (new_fd, _) => _ ← write_ignore new_fd err; sys_do (sys_close new_fd)
      | None => mret tt
      end) s = Ok (tt, with_kern (match net_accept fd (kern s) with
                       | (None, k) => k
                       | (Some (n, _), k) => sys_close n (sys_write n err k).2
                       end) s)).
  { intros err. rewrite ST_bind_eq. unfold sys. destruct (net_accept fd (kern s)) as [[[n a]|] k]; [|done].
    unfold write_ignore. rewrite !ST_bind_eq. unfold sys. cbn. by destruct (sys_write n err k). }
  destruct (Z.eqb_spec (fl_state (tcp_to_dev i)) PORT_UNCONNECTED) as [Hu|Hu]; cbn [negb].
  - destruct Hbusy as [Hc|Hb]; [done|]. destruct (inuse_spec s p i Hi Hn Hall) as (b & E & Hbb).
    rewrite (proj2 Hbb Hb) in E. rewrite (ST_bind_Ok _ _ s (Some (chars "Port's device already in use" ++ [10; 13])) s);
      [apply Hfin | by rewrite (ST_bind_Ok _ _ _ _ _ E)].
  - rewrite (ST_bind_Ok _ _ _ _ _ eq_refl). apply Hfin.
Qed.

Lemma accept_idle s p i fd : port_idle s p i -> all_named s -> ~ device_busy s p i ->
  handle_accept_port_read fd p s =
    (new ← sys (net_accept fd);
     match new with
     | None => _ ← set_port p (set_tcpfd (-1)); sys_do (sys_syslog "Could not accept on port")
     | Some (fd, from) =>
         _ ← set_port p (fun i => set_remote from (set_tcpfd fd i));
         _ ← setup_tcp_port p;
         mret tt
     end) s.
Proof.
  intros Hp Hall Hfree. unfold handle_accept_port_read. rewrite (ST_bind_Ok _ _ _ _ _ (port_at_Ok _ _ _ (pi_port _ _ _ Hp))).
  rewrite (proj1 (pi_t2d _ _ _ Hp)). cbn [negb Z.eqb PORT_UNCONNECTED].
  destruct (inuse_spec s p i (pi_port _ _ _ Hp) (pi_named _ _ _ Hp) Hall) as (b & E & Hb).
  assert (b = false) as -> by (destruct b; [by destruct Hfree; apply Hb | done]).
  rewrite (ST_bind_Ok _ _ s None s); [done | by rewrite (ST_bind_Ok _ _ _ _ _ E)].
Qed.

(** A session that has just begun. *)
Record session_started s s' p i i' : Prop := {
  ss_t2d : t2d_ok p s' i';
  ss_d2t : enabled i = PORT_TELNET \/ banner (dinfo (conf i)) = None -> d2t_ok p s' i';
  ss_states : fl_state (tcp_to_dev i') = PORT_WAITING_INPUT /\ fl_state (dev_to_tcp i') = PORT_WAITING_INPUT;
  ss_device : devfd i' ∉ opens (kern s);
  ss_empty : pending (tcp_to_dev i') = [];
  ss_banner : exists l, pending (dev_to_tcp i') = take PORT_BUFSIZE l /\ banner_clause i l;
  ss_telnet : enabled i = PORT_TELNET ->
    out_telnet_cmd (tn_data i') = telnet_init_seq /\ tcpfd i' ∈ write_set (dsel s');
  ss_timeout : timeout_left i' = timeout (conf i)
}.

(** What accepting leaves alone. *)
Record accept_frame s s' p i i' : Prop := {
  af_port : pheap s' !! p = Some i';
  af_rest : delete p (pheap s') = delete p (pheap s);
  af_ports : ports s' = ports s;
  af_ctl : ctl_fds s' = ctl_fds s;
  af_fds : fds_ok (dsel s');
  af_sched : sched_ok (theap (dsel s'));
  af_fields : same_fields i i'
}.

Lemma same_fields_trans i1 i2 i3 : same_fields i1 i2 -> same_fields i2 i3 -> same_fields i1 i3.
Proof. unfold same_fields. intros; destruct_and!; split_and!; congruence. Qed.

Lemma monitor_ok_fresh m s s' d : monitor_open m s -> ctl_fds s' = ctl_fds s -> d ∉ opens (kern s) -> monitor_ok m d s'.
Proof.
  unfold monitor_open, monitor_ok. destruct m as [c|]; [|done]. intros (fd & Hc & Hfd) -> Hd.
  exists fd. split; [done|]. intros ->. done.
Qed.

Lemma opened_session s s' p i1 i' d : tcpfd i1 ∉ opens (kern s) -> d ∉ {[tcpfd i1]} ∪ opens (kern s) ->
  0 <= tcpfd i1 < FD_SETSIZE -> 0 <= d < FD_SETSIZE ->
  flow_idle (tcp_to_dev i1) -> flow_idle (dev_to_tcp i1) ->
  monitor_open (tcp_monitor i1) s -> monitor_open (dev_monitor i1) s -> ctl_fds s' = ctl_fds s ->
  pheap s' !! p = Some i' -> opened (set_devfd d i1) i' (read_set (dsel s')) (write_set (dsel s')) ->
  session_started s s' p i1 i'.
Proof.
  intros Ht Hd Htr Hdr (Ts & Tb & Tc & Tf) (Ds & Db & Dc & Df) Hm1 Hm2 Hctl Hi' [Hfi Ot Od O1 (l & Oa & Ob) O3 O4 O5].
  destruct Hfi as (Fc & Fe & _ & _ & _ & _ & Fm1 & Fm2). cbn in *.
  assert (Hdt : d <> tcpfd i1) by set_solver.
  destruct Oa as (A1 & A2 & A3 & A4). cbn in A1, A2. destruct Tf as [Tl _ _ _], A3 as [Dl _ D2 D3].
  rewrite Db in A2.
  assert (Hp : pending (dev_to_tcp i') = take PORT_BUFSIZE l).
  { rewrite A4. unfold pending. cbn [fl_set_state fl_start fl_count fl_buf]. by rewrite Dc, Db. }
  constructor.
  - constructor; [done | | rewrite Od; apply O4; set_solver | rewrite Fm1, Od; eapply monitor_ok_fresh; [done | done | set_solver]].
    rewrite Ot, Od, O1. constructor; [|cbn; by rewrite Tc].
    constructor; cbn; [lia | lia | lia | done | rewrite Tb, Tc; lia].
  - intros Hcase. constructor; [done | | rewrite Ot; apply O4; set_solver | rewrite Fm2, Ot; eapply monitor_ok_fresh; [done | done | done]].
    rewrite Ot, Od. constructor; [constructor; [lia | lia | lia | done | rewrite A2 in *; lia]|].
    intros Hc. destruct Hcase as [He|Hb]; [destruct (O3 He) as (? & ? & _); done|].
    exfalso. apply Hc. unfold banner_clause in Ob. cbn in Ob. rewrite Hb in Ob. subst l.
    apply (f_equal length) in Hp. rewrite pending_fits in Hp by (constructor; rewrite ?A2; done || lia). cbn in Hp. lia.
  - rewrite O1, A1. done.
  - rewrite Od. set_solver.
  - rewrite O1. unfold pending. cbn. by rewrite Tc.
  - exists l. split; [exact Hp | exact Ob].
  - intros He. destruct (O3 He) as (_ & ? & ?). by rewrite Ot.
  - done.
Qed.

(** Everything [handle_accept_port_read] does for a port that waits. *)
Lemma accept_outcome s p i fd : port_idle s p i -> all_named s -> ~ device_busy s p i ->
  fds_ok (dsel s) -> sched_ok (theap (dsel s)) -> uucp_locking_enabled s = false ->
  monitor_open (tcp_monitor i) s -> monitor_open (dev_monitor i) s ->
  exists s' i', handle_accept_port_read fd p s = Ok (tt, s') /\ accept_frame s s' p i i' /\
    (tcp_to_dev i' = tcp_to_dev i /\ dev_to_tcp i' = dev_to_tcp i \/
     session_started s s' p i i' /\ exists from k, net_accept fd (kern s) = (Some (tcpfd i', from), k)).
Proof.
  intros Hp Hall Hfree Hfds Hsch Huu Hm1 Hm2. rewrite (accept_idle s p i fd Hp Hall Hfree).
  pose proof Hp as [Hi Hn Ht Hd Htm Hpl Husb].
  rewrite ST_bind_eq. unfold sys. destruct (net_accept fd (kern s)) as [[[n from]|] k] eqn:Ea.
  2:{ rewrite (ST_bind_Ok _ _ _ _ _ (set_port_Ok p _ i (with_kern k s) Hi)). eexists _, (set_tcpfd (-1) i).
      split; [done|]. split; [|by left]. constructor; cbn; try done; [apply lookup_insert_eq | by rewrite delete_insert_eq]. }
  apply accept_new in Ea as Hnew. destruct Hnew as (Hr & Hno & Ho).
  rewrite (ST_bind_Ok _ _ _ _ _ (set_port_Ok p _ i (with_kern k s) Hi)).
  set (i1 := set_remote from (set_tcpfd n i)). set (s1 := PortFlow.upd p i1 (with_kern k s)).
  destruct (proj2 Hn) as [dev Hdev].
  assert (Hat : at_port p s1 (fun i o r w => i = i1 /\ {[n]} ∪ opens (kern s) ⊆ o) s1).
  { constructor; try done. exists i1. split; [apply upd_lookup|]. split; [done|]. cbn. by rewrite Ho. }
  destruct (leads_setup p s1 i1 dev ({[n]} ∪ opens (kern s))) with (s := s1) as (a & s' & E & Hs'); try done.
  { set_solver. } { by apply Husb. } { apply Hd. }
  rewrite (ST_bind_Ok _ _ _ _ _ E). destruct Hs' as [(i' & Hi' & Hcase) Hrest Hports Hctl _ Hf Hs _].
  exists s', i'. split; [done|].
  assert (Hfr : same_fields i1 i' -> accept_frame s s' p i i').
  { intros Hsf. constructor; try done. rewrite Hrest. cbn. by rewrite delete_insert_eq. }
  destruct Hcase as [(_ & d & Hdr & Hdn & Hop)|(_ & d & ->)].
  - split; [apply Hfr, (op_fields _ _ _ _ Hop)|]. right. split.
    + destruct (opened_session s s' p i1 i' d Hno Hdn Hr Hdr Ht Hd Hm1 Hm2 Hctl Hi' Hop). by constructor.
    + exists from, k. rewrite (op_tcpfd _ _ _ _ Hop). done.
  - split; [by apply Hfr | by left].
Qed.
End accept.

(** ** Properties *)

(** A connection to a port that has a session, or whose device is in use
    by the session of another port, is accepted, told so and closed; no port,
    no selector entry and no timer changes. *)
Theorem accept_refused {K} `{NetLaws K} (s : dx K) p i fd :
  pheap s !! p = Some i -> named i -> all_named s -> connected i \/ device_busy s p i ->
  handle_accept_port_read fd p s =
    Ok (tt, with_kern (match net_accept fd (kern s) with
                       | (None, k) => k
                       | (Some (n, _), k) => sys_close n (sys_write n (busy_text i) k).2
                       end) s).
Proof. apply accept_busy. Qed.

(** C15: A connection to a waiting port whose device is free.  Either the
    session is given up and the port waits as before, or a session starts on
    the accepted descriptor: both directions are empty but for the banner (cut
    at 1024 bytes) and satisfy the invariants the transfer handlers preserve
    - the one towards the connection only for a telnet port or a port without
    a banner, because nothing arms the writer for the banner of a raw port -,
    a telnet port has its initial negotiation queued and the writer armed, and
    the idle time is full.  Every other port is as it was. *)
Theorem accept_session {K} `{NetLaws K} (s : dx K) p i fd :
  port_idle s p i -> all_named s -> ~ device_busy s p i ->
  fds_ok (dsel s) -> sched_ok (theap (dsel s)) -> uucp_locking_enabled s = false ->
  monitor_open (tcp_monitor i) s -> monitor_open (dev_monitor i) s ->
  exists s' i', handle_accept_port_read fd p s = Ok (tt, s') /\ accept_frame s s' p i i' /\
    (tcp_to_dev i' = tcp_to_dev i /\ dev_to_tcp i' = dev_to_tcp i \/
     session_started s s' p i i' /\ exists from k, net_accept fd (kern s) = (Some (tcpfd i', from), k)).
Proof. apply accept_outcome. Qed.

(** No two ports of the list have sessions on one device. *)
Definition exclusive {K} (s : dx K) : Prop :=
  forall p q i j, p ∈ ports s -> q ∈ ports s -> pheap s !! p = Some i -> pheap s !! q = Some j ->
    devname (conf i) = devname (conf j) -> connected i -> connected j -> p = q.

(** C34: Accepting a connection, whatever becomes of it, keeps every device to
    one session. *)
Theorem accept_exclusive {K} `{NetLaws K} (s : dx K) p i fd :
  p ∈ ports s -> pheap s !! p = Some i -> (connected i \/ port_idle s p i) -> all_named s ->
  fds_ok (dsel s) -> sched_ok (theap (dsel s)) -> uucp_locking_enabled s = false ->
  monitor_open (tcp_monitor i) s -> monitor_open (dev_monitor i) s ->
  exclusive s ->
  exists s', handle_accept_port_read fd p s = Ok (tt, s') /\ exclusive s'.
Proof.
  intros Hp Hi Hst Hall Hf Hs Hu Hm1 Hm2 Hex.
  assert (Hn : named i) by (destruct (Hall p Hp) as (j & Hj & Hn); congruence).
  destruct (inuse_spec s p i Hi Hn Hall) as (b & _ & Hb).
  destruct (decide (b = true)) as [Hbt|Hbf].
  { eexists. split; [apply (accept_busy s p i fd Hi Hn Hall); right; by apply Hb | exact Hex]. }
  destruct Hst as [Hc|Hidle].
  { eexists. split; [apply (accept_busy s p i fd Hi Hn Hall); by left | exact Hex]. }
  assert (Hfree : ~ device_busy s p i) by (by intros ?%Hb).
  destruct (accept_outcome s p i fd Hidle Hall Hfree Hf Hs Hu Hm1 Hm2) as (s' & i' & E & Hfr & _).
  exists s'. split; [done|]. destruct Hfr as [Hi' Hrest Hports _ _ _ (Hconf & _)].
  assert (Hother : forall q, q <> p -> pheap s' !! q = pheap s !! q).
  { intros q Hq. rewrite <- (lookup_delete_ne (pheap s') p q), <- (lookup_delete_ne (pheap s) p q) by congruence. by rewrite Hrest. }
  intros q1 q2 j1 j2. rewrite Hports. intros H1' H2' L1 L2 Hdev C1 C2.
  assert (Hcase : forall q j, q ∈ ports s -> q <> p -> pheap s' !! q = Some j -> connected j ->
    devname (conf j) = devname (conf i) -> False).
  { intros q j Hq Hqp Hj Hcj Hd. apply Hfree. exists q, j. rewrite <- Hother by done. by split_and!. }
  destruct (decide (q1 = p)) as [->|N1], (decide (q2 = p)) as [->|N2]; [done | | |].
  - exfalso. apply (Hcase q2 j2); try done. simplify_eq. congruence.
  - exfalso. apply (Hcase q1 j1); try done. simplify_eq. congruence.
  - rewrite Hother in L1, L2 by done. by apply (Hex q1 q2 j1 j2).
Qed.

(** *** A system that hands out descriptors *)

(** The script of [PortScript.v] with a counter for new descriptors. *)
Record netk := NetK { n_script : script; n_next : Z }.

Definition lift_script {A} (f : script -> A * script) (k : netk) : A * netk :=
  let '(a, s) := f (n_script k) in (a, NetK s (n_next k)).

Definition new_descriptor (k : netk) : option Z * netk :=
  if (0 <=? n_next k) && (n_next k <? FD_SETSIZE) then (Some (n_next k), NetK (n_script k) (n_next k + 1)) else (None, k).

#[export] Instance netk_kernel : Kernel netk := {
  sys_read fd n := lift_script (sys_read fd n);
  sys_write fd b := lift_script (sys_write fd b);
  sys_close fd k := NetK (sys_close fd (n_script k)) (n_next k);
  sys_tcflush _ k := k;
  sys_sendbreak _ k := k;
  sys_unlink _ k := k;
  sys_syslog _ k := k;
  sys_tiocmget _ _ := Some 0;
  sys_now _ := TV 100 0;
  sys_timestamp _ := chars "2013/11/07 12:00:00 ";
  sys_ntop _ := chars "127.0.0.1";
  interrupts k := interrupts (n_script k)
}.

#[export] Instance netk_laws : KernelLaws netk.
Proof.
  refine {| sent k := sent (n_script k); received k := received (n_script k) |}.
  - intros fd b k n k'. cbn [sys_write netk_kernel interrupts]. unfold lift_script.
    destruct (sys_write fd b (n_script k)) as [r s] eqn:E. intros [= -> <-]. exact (write_done _ _ _ _ _ E).
  - intros fd b k n k'. cbn [sys_write netk_kernel interrupts]. unfold lift_script.
    destruct (sys_write fd b (n_script k)) as [r s] eqn:E. intros [= -> <-]. exact (write_failed _ _ _ _ _ E).
  - intros fd b k n k'. cbn [sys_read netk_kernel interrupts]. unfold lift_script.
    destruct (sys_read fd b (n_script k)) as [r s] eqn:E. intros [= -> <-]. exact (read_done _ _ _ _ _ E).
  - intros fd b k n k'. cbn [sys_read netk_kernel interrupts]. unfold lift_script.
    destruct (sys_read fd b (n_script k)) as [r s] eqn:E. intros [= -> <-]. exact (read_failed _ _ _ _ _ E).
  - intros m k. by split_and!.
  - intros fd k. exact (close_quiet fd (n_script k)).
  - intros fd k. by split_and!.
  - intros k. cbn. lia.
Defined.

#[export] Instance netk_tty : Tty netk := {
  tty_getattr fd k := tty_getattr fd (n_script k);
  tty_setattr fd t k := NetK (tty_setattr fd t (n_script k)) (n_next k);
  tty_mbis _ _ k := k;
  tty_mbic _ _ k := k;
  tty_sbrk _ k := (true, k);
  tty_cbrk _ k := (true, k);
  tty_flow _ _ k := k;
  tty_flush _ _ k := k
}.

#[export] Instance netk_net : Net netk := {
  net_accept _ k := let '(fd, k) := new_descriptor k in (option_map (fun fd => (fd, SockAddr 2 4660 16777343)) fd, k);
  net_socket := new_descriptor;
  net_nonblock _ k := (true, k);
  net_nodelay _ k := (true, k);
  net_reuseaddr _ k := (true, k);
  net_bind _ _ k := (true, k);
  net_listen _ k := (true, k);
  hosts_access _ _ := true;
  sys_open _ _ := new_descriptor;
  tty_set fd t k := (true, NetK (tty_setattr fd t (n_script k)) (n_next k));
  lock_dir _ := true;
  process_gone _ _ := false;
  scan_pid _ := 0;
  lock_text _ := [];
  usb_listing _ := None;
  readable _ _ := true
}.

#[export] Existing Instance demo_libc.

#[export] Instance netk_net_laws : NetLaws netk.
Proof.
  assert (Hnew : forall k fd k', new_descriptor k = (Some fd, k') ->
    0 <= fd < FD_SETSIZE /\ fd ∉ (list_to_set (seqZ 0 (n_next k)) : gset Z) /\
    (list_to_set (seqZ 0 (n_next k')) : gset Z) = {[fd]} ∪ list_to_set (seqZ 0 (n_next k))).
  { intros k fd k'. unfold new_descriptor. destruct ((0 <=? n_next k) && (n_next k <? FD_SETSIZE)) eqn:E; [|done].
    intros [= <- <-]. cbn [n_next]. bprop. split; [lia|]. split.
    - rewrite elem_of_list_to_set, elem_of_seqZ. lia.
    - apply set_eq. intros x. rewrite elem_of_union, elem_of_singleton, !elem_of_list_to_set, !elem_of_seqZ. lia. }
  assert (Hw : forall fd b k, n_next (sys_write fd b k).2 = n_next k).
  { intros fd b k. cbn [sys_write netk_kernel]. unfold lift_script. by destruct (sys_write fd b (n_script k)). }
  refine {| opens k := list_to_set (seqZ 0 (n_next k)) |}; try done.
  - intros f k fd a k'. cbn. destruct (new_descriptor k) as [[x|] k1] eqn:E; cbn; [|done]. intros [= <- <- <-]. by apply Hnew.
  - intros n f k k'. cbn. unfold new_descriptor. destruct (_ && _); [done|]. by intros [= <-].
  - intros fd b k. by rewrite Hw.
  - intros a. cbn. lia.
Defined.

(** *** Witnesses *)

(** A waiting telnet port with a banner and a trace file. *)
Definition demo_idle (mode : Z) (b : option cstr) : port_info :=
  PortInfo (PortConf 10 (Some (str "2000")) (SockAddr 2 53255 0) (Some (str "/dev/ttyS0"))
      (DevInfo (devinit zero_termios) false false b no_trace (TraceInfo true false (Some (str "/tmp/\p.log"))) no_trace))
    mode 0 1%positive 4 (-1) 0 zero_addr (Counts 0 0 0 0)
    (Flow PORT_UNCONNECTED (replicate 1024 0) 0 0) (Flow PORT_UNCONNECTED (replicate 1024 0) 0 0)
    None None 1 None (TelnetData (replicate 32 0) 0 false [] false) (Rfc2217 false false 0 0 0)
    trace_off trace_off trace_off.

Definition demo_waiting (mode : Z) (b : option cstr) (rs : list (sysres (list Z))) : dx netk :=
  DX [1%positive] {[ 1%positive := demo_idle mode b ]}
    (with_read {[4]} (demo_selector demo_heap)) init_telnet_cmds ∅ false (NetK (demo_script rs []) 5).

Definition demo_banner : cstr := str "ready\r\n".

Lemma demo_idle_ok mode b rs : (b = None \/ b = Some demo_banner) -> port_idle (demo_waiting mode b rs) 1%positive (demo_idle mode b).
Proof.
  intros Hb. constructor; [apply lookup_singleton_eq | by split; eexists | | | by vm_compute | | ].
  1,2: split_and!; [done | done | done |]; constructor; cbn; unfold PORT_BUFSIZE; try lia; apply length_replicate.
  - split_and!; intros f; cbn; [by intros [= <-] | done | done].
  - intros dev [= <-]. by intros ?.
Qed.

Lemma demo_all_named mode b rs : all_named (demo_waiting mode b rs).
Proof.
  intros q Hq. apply list_elem_of_singleton in Hq as ->. exists (demo_idle mode b). split; [apply lookup_singleton_eq|].
  by split; eexists.
Qed.

Lemma demo_not_busy mode b rs : ~ device_busy (demo_waiting mode b rs) 1%positive (demo_idle mode b).
Proof. intros (q & j & Hq & Hne & _). by apply list_elem_of_singleton in Hq. Qed.

(** The state of the port after a handler. *)
Definition state_after (r : res (unit * dx netk)) : option Z :=
  match r with Ok (_, s) => (fl_state ∘ tcp_to_dev) <$> pheap s !! (1%positive : ptr) | Crash _ => None end.

(** The descriptor of the connection is 5, of the device 6, of the trace 7. *)
Lemma accept_session_witness :
  exists s' i', handle_accept_port_read 4 1%positive (demo_waiting PORT_TELNET (Some demo_banner) []) = Ok (tt, s') /\
    pheap s' !! 1%positive = Some i' /\ connected i' /\ tcpfd i' = 5 /\ d2t_ok 1%positive s' i' /\
    pending (dev_to_tcp i') = chars "ready" ++ [13; 10].
Proof.
  destruct (accept_session (demo_waiting PORT_TELNET (Some demo_banner) []) 1%positive (demo_idle PORT_TELNET (Some demo_banner)) 4)
    as (s' & i' & E & Hfr & [[Ht _]|[Hs (from & k & Ek)]]);
    [apply demo_idle_ok; by right | apply demo_all_named | apply demo_not_busy | apply (demo_fds_ok _ ∅) | exact demo_heap_ok
    | reflexivity | exact I | exact I | |].
  { exfalso. destruct Hfr as [Hp _ _ _ _ _ _]. 
    assert (Hc : state_after (handle_accept_port_read 4 1%positive (demo_waiting PORT_TELNET (Some demo_banner) [])) = Some 1)
      by (vm_compute; reflexivity).
    rewrite E in Hc. unfold state_after in Hc. unfold ptr in *. rewrite Hp in Hc. cbn in Hc. rewrite Ht in Hc. discriminate. }
  exists s', i'. split; [exact E|]. split; [apply (af_port _ _ _ _ _ Hfr)|].
  destruct Hs as [_ Hd (Hst & _) _ _ (l & Hl & Hb) _ _]. split; [unfold connected; by rewrite Hst|].
  split; [by injection Ek as <- _ _|]. split; [apply Hd; by left|]. rewrite Hl, (Hb eq_refl). vm_compute. reflexivity.
Defined.

Lemma accept_refused_witness :
  let s := demo_dx PORT_TELNET [] [] ∅ ∅ (demo_script [] []) in
  let s := DX (ports s) (pheap s) (dsel s) (telnet_cmds s) (ctl_fds s) false (NetK (kern s) 8) in
  exists k, handle_accept_port_read 4 1%positive s = Ok (tt, with_kern k s) /\
    sent k 8 = chars "Port already in use" ++ [10; 13].
Proof.
  intros s0 s. eexists. split.
  { apply (accept_refused s 1%positive (demo_port PORT_TELNET [] []) 4);
      [apply lookup_singleton_eq | by split; eexists | | left; by vm_compute].
    intros q Hq. apply list_elem_of_singleton in Hq as ->. exists (demo_port PORT_TELNET [] []).
    split; [apply lookup_singleton_eq | by split; eexists]. }
  vm_compute. reflexivity.
Defined.

Lemma accept_exclusive_witness :
  exists s', handle_accept_port_read 4 1%positive (demo_waiting PORT_RAW None []) = Ok (tt, s') /\ exclusive s'.
Proof.
  apply (accept_exclusive (demo_waiting PORT_RAW None []) 1%positive (demo_idle PORT_RAW None) 4);
    [by left | apply lookup_singleton_eq | right; apply demo_idle_ok; by left | apply demo_all_named
    | apply (demo_fds_ok _ ∅) | exact demo_heap_ok | reflexivity | exact I | exact I |].
  intros p q i j Hp Hq _ _ _ _ _. apply list_elem_of_singleton in Hp as ->, Hq as ->. reflexivity.
Defined.

(** The banner of a raw port waits with the writer off, and the first bytes of
    the device take its place in the buffer: the connection never sees it. *)
Example raw_banner_lost :
  match (_ ← handle_accept_port_read 4 1%positive; handle_dev_fd_read 6 1%positive)
          (demo_waiting PORT_RAW (Some demo_banner) [Done [65; 66]]) with
  | Ok (_, s) => sent (kern s) 5 = [65; 66] /\
      (pending ∘ dev_to_tcp) <$> pheap s !! 1%positive = Some []
  | Crash _ => False
  end.
Proof. by vm_compute. Qed.
