(* ===== verification/PortConfig.v ===== *)
(** * The list of ports: [portconfig] and [clear_old_port_config] of [ser2net/dataxfer.c]

    A line of the configuration makes a new port, replaces one that nobody is
    connected to, or is kept to replace one at the end of its connection;
    ports of an older configuration are removed in the same two ways.  The
    two functions are the instance [dx_ports] of the interface [Ports] that
    [ReadConfig.v] works against. *)

From S2P Require Import Prelude CStr SelHeap Selector Telnet Utils DevCfg ReadConfig PortData PortFlow PortText PortSetup.

(** [malloc] answers an address that is not in use; the contents of new memory
    are unknown. *)
Class Memory (K : Type) := {
  junk_port : K -> port_info;
  junk_timer : K -> sel_timer
}.

Definition got_timeout_fn : addr := 10%nat.

Definition set_conf (v : port_conf) (i : port_info) : port_info :=
  PortInfo v (enabled i) (timeout_left i) (timer i) (acceptfd i) (tcpfd i) (devfd i) (remote i) (bytes i)
    (tcp_to_dev i) (dev_to_tcp i) (tcp_monitor i) (dev_monitor i) (PortData.config_num i) (new_config i) (tn_data i)
    (rfc i) (wt i) (rt i) (bt i).
Definition set_timer (v : ptr) (i : port_info) : port_info :=
  PortInfo (conf i) (enabled i) (timeout_left i) v (acceptfd i) (tcpfd i) (devfd i) (remote i) (bytes i)
    (tcp_to_dev i) (dev_to_tcp i) (tcp_monitor i) (dev_monitor i) (PortData.config_num i) (new_config i) (tn_data i)
    (rfc i) (wt i) (rt i) (bt i).

Definition set_portname (v : option cstr) (c : port_conf) : port_conf :=
  PortConf (timeout c) v (tcpport c) (devname c) (dinfo c).
Definition set_tcpport (v : sockaddr_in) (c : port_conf) : port_conf :=
  PortConf (timeout c) (portname c) v (devname c) (dinfo c).
Definition set_timeout (v : Z) (c : port_conf) : port_conf :=
  PortConf v (portname c) (tcpport c) (devname c) (dinfo c).
Definition set_dinfo (v : dev_info) (c : port_conf) : port_conf :=
  PortConf (timeout c) (portname c) (tcpport c) (devname c) v.
Definition set_devname (v : option cstr) (c : port_conf) : port_conf :=
  PortConf (timeout c) (portname c) (tcpport c) v (dinfo c).

(** The words for [enabled]. *)
Definition state_word (w : cstr) : option Z :=
  if streq w (str "raw") then Some PORT_RAW
  else if streq w (str "rawlp") then Some PORT_RAWLP
  else if streq w (str "telnet") then Some PORT_TELNET
  else if streq w (str "off") then Some PORT_DISABLED
  else None.

Section config.
Context {K : Type} `{Kernel K} `{Tty K} `{Net K} `{Memory K} `{Libc} `{Resolver}.
Implicit Types s : dx K.

(** The port and its timer. *)
Definition malloc_port : DX_ K ptr := fun s =>
  let p := fresh (dom (pheap s)) in Ok (p, with_pheap (<[p := junk_port (kern s)]> (pheap s)) s).
Definition malloc_timer (p : ptr) : DX_ K ptr :=
  h ← (fun s => Ok (theap (dsel s), s));
  junk ← ask junk_timer;
  '(_, t) ← on_timers (sel_alloc_timer (Some (fresh (dom (timers h)), junk)) got_timeout_fn (Pos.to_nat p));
  nonnull t.

(** The lines from [init_port_data] to [config_num]: the fields of the new
    port, or the message of [errout]. *)
Definition fill_port `{ConfigNames} (p : ptr) (portnum state timeout devname devcfg : cstr) (config_num : Z)
    : DX_ K (option cstr) :=
  _ ← set_port p init_port_data;
  _ ← set_port p (fun i => set_conf (set_portname (Some portnum) (conf i)) i);
  i ← port_at p;
  '(rv, addr, _) ← lift_res (scan_tcp_port portnum (tcpport (conf i)));
  _ ← set_port p (fun i => set_conf (set_tcpport addr (conf i)) i);
  if rv =? -1 then mret (Some (str "port number was invalid"))
  else
    match state_word state with
    | None => mret (Some (str "state was invalid"))
    | Some e =>
        _ ← set_port p (set_enabled e);
        t ← lift_res (scan_int timeout);
        _ ← set_port p (fun i => set_conf (set_timeout t (conf i)) i);
        if t =? -1 then mret (Some (str "timeout was invalid"))
        else
          i ← port_at p;
          let d := set_termctl devinit (dinfo (conf i)) in
          let '(rv, d) := devconfig devcfg d in
          _ ← set_port p (fun i => set_conf (set_dinfo d (conf i)) i);
          if rv =? -1 then mret (Some (str "device configuration invalid"))
          else
            _ ← set_port p (fun i => set_conf (set_devname (Some devname) (conf i)) i);
            _ ← set_port p (set_config_num config_num);
            mret None
    end.

(** The port of the list with a name. *)
Fixpoint find_name (h : gmap ptr port_info) (l : list ptr) (name : cstr) : res (option ptr) :=
  match l with
  | [] => Ok None
  | q :: l' =>
      match h !! q with
      | None => Crash OutOfBounds
      | Some j =>
          match portname (conf j) with
          | None => Crash NullDeref
          | Some n => if streq n name then Ok (Some q) else find_name h l' name
          end
      end
  end.

(** [p] takes the place of [curr], which nobody is connected to. *)
Definition replace_idle (p curr : ptr) : DX_ K unit :=
  i ← port_at p;
  j ← port_at curr;
  let new_state := enabled i in
  _ ← set_port p (set_enabled (enabled j));
  _ ← set_port p (set_acceptfd (acceptfd j));
  _ ← set_port curr (set_enabled PORT_DISABLED);
  _ ← set_port curr (set_acceptfd (-1));
  _ ← on_selector (fun v => sel_set_fd_handlers v (acceptfd j) (Some (Pos.to_nat p))
                              (Some handle_accept_port_read_fn) None None);
  _ ← modify (fun s => with_ports (replace_port (ports s) curr p) s);
  fuel ← chain_fuel;
  _ ← free_port fuel curr;
  _ ← change_port_state p new_state;
  mret tt.

(** [p] waits until the connection of [curr] ends; a configuration that
    waited before is freed. *)
Definition replace_later (p curr : ptr) (config_num : Z) : DX_ K unit :=
  j ← port_at curr;
  _ ← (match new_config j with
       | None => mret tt
       | Some n =>
           _ ← set_port curr (set_enabled PORT_DISABLED);
           modify (fun s => with_pheap (delete n (pheap s)) s)
       end);
  _ ← set_port curr (set_config_num config_num);
  set_port curr (set_new_config (Some p)).

(** [goto errout] *)
Definition errout (p : ptr) (err : option cstr) : DX_ K (option cstr) :=
  fuel ← chain_fuel; _ ← free_port fuel p; mret err.

Definition portconfig `{ConfigNames} (portnum state timeout devname devcfg : cstr) (config_num : Z)
    : DX_ K (option cstr) :=
  p ← malloc_port;
  t ← malloc_timer p;
  _ ← set_port p (set_timer t);
  err ← fill_port p portnum state timeout devname devcfg config_num;
  match err with
  | Some _ => errout p err
  | None =>
      s ← Prelude.get;
      old ← lift_res (find_name (pheap s) (ports s) portnum);
      match old with
      | Some curr =>
          j ← port_at curr;
          _ ← (if fl_state (dev_to_tcp j) =? PORT_UNCONNECTED then replace_idle p curr
               else replace_later p curr config_num);
          mret None
      | None =>
          i ← port_at p;
          err ← (if negb (enabled i =? PORT_DISABLED) then startup_port p else mret None);
          match err with
          | Some _ => errout p err
          | None => _ ← modify (fun s => with_ports (ports s ++ [p]) s); mret None
          end
      end
  end.

(** The loop over the list; [seen] are the ports before [curr]. *)
Fixpoint clear_loop (l : list ptr) (curr_config : Z) : DX_ K unit :=
  match l with
  | [] => mret tt
  | curr :: l' =>
      j ← port_at curr;
      if negb (PortData.config_num j =? curr_config) then
        if fl_state (dev_to_tcp j) =? PORT_UNCONNECTED then
          _ ← modify (fun s => with_ports (unlink_port (ports s) curr) s);
          fuel ← chain_fuel;
          _ ← free_port fuel curr;
          clear_loop l' curr_config
        else _ ← set_port curr (set_config_num (-1)); clear_loop l' curr_config
      else clear_loop l' curr_config
  end.

Definition clear_old_port_config (curr_config : Z) : DX_ K unit :=
  s ← Prelude.get; clear_loop (ports s) curr_config.

#[export] Instance dx_ports : Ports (dx K) := {
  ReadConfig.portconfig names := @portconfig names;
  ReadConfig.clear_old_port_config := clear_old_port_config
}.
End config.
