(* ===== verification/PortTable.v ===== *)
(** * The table of ports: what the configuration does to it

    The list of ports of [PortConfig.v] seen from outside is a list of
    entries.  Reading a line of the configuration changes it as
    [spec_portconfig] says, the end of the file as [spec_clear] says; the
    pointers, timers and descriptors underneath keep the invariant [pool]. *)

From S2P Require Import Prelude CStr SelHeap Selector Telnet Utils DevCfg ReadConfig PortData PortFlow PortText.
From S2P Require Import PortScript PortSetup PortAccept PortConfig.

(** ** The list of ports, seen from outside

    An entry per port: its configuration, whether a session is open, the
    number of the configuration it belongs to and the configuration that waits
    for the end of the session. *)
Record entry := Entry {
  e_conf : port_conf; e_enabled : Z; e_busy : bool; e_num : Z; e_next : option port_conf
}.

Definition is_busy (i : port_info) : bool := negb (fl_state (dev_to_tcp i) =? PORT_UNCONNECTED).

Definition entry_of (h : gmap ptr port_info) (p : ptr) : option entry :=
  i ← h !! p;
  Some (Entry (conf i) (enabled i) (is_busy i) (PortData.config_num i) (n ← new_config i; conf <$> h !! n)).

Definition entries {K} (s : dx K) : list entry := omap (entry_of (pheap s)) (ports s).

(** *** What a line of the configuration asks for *)

(** The first thing that is wrong with the line, or the state and the
    configuration of the port. *)
Definition line_result `{Resolver} `{ConfigNames} (portnum state timeout devname devcfg : cstr)
    : res (cstr + Z * port_conf) :=
  '(rv, addr, _) ← scan_tcp_port portnum zero_addr;
  if rv =? -1 then Ok (inl (str "port number was invalid"))
  else
    match state_word state with
    | None => Ok (inl (str "state was invalid"))
    | Some e =>
        t ← scan_int timeout;
        if t =? -1 then Ok (inl (str "timeout was invalid"))
        else
          let '(rv, d) := devconfig devcfg (DevInfo (devinit zero_termios) false false None no_trace no_trace no_trace) in
          if rv =? -1 then Ok (inl (str "device configuration invalid"))
          else Ok (inr (e, PortConf t (Some portnum) addr (Some devname) d))
    end.

(** *** What becomes of the entries *)

Definition has_name (name : cstr) (x : entry) : bool := bool_decide (portname (e_conf x) = Some name).

(** An entry with the name of the line: replaced, or marked. *)
Definition reconfigured (e : Z) (c : port_conf) (num : Z) (x : entry) : entry :=
  if e_busy x
  then Entry (e_conf x) (match e_next x with Some _ => PORT_DISABLED | None => e_enabled x end) true num (Some c)
  else Entry c e false num None.

Definition spec_portconfig (name : cstr) (e : Z) (c : port_conf) (num : Z) (l : list entry) : list entry :=
  if existsb (has_name name) l
  then map (fun x => if has_name name x then reconfigured e c num x else x) l
  else l ++ [Entry c e false num None].

(** Idle entries of another configuration go, busy ones are marked. *)
Definition spec_clear (num : Z) (l : list entry) : list entry :=
  omap (fun x => if e_num x =? num then Some x
                 else if e_busy x then Some (Entry (e_conf x) (e_enabled x) true (-1) (e_next x)) else None) l.

(** *** The invariant *)

(** The ports [h] that exist, the list [l] of them and the timers [D]: names
    are set and unique in the list, timers are not shared, and a configuration
    that waits belongs to a listed port with a session and is not listed. *)
Record pool (h : gmap ptr port_info) (l : list ptr) (D : gset ptr) : Prop := {
  po_nodup : NoDup l;
  po_listed p : p ∈ l -> is_Some (h !! p);
  po_named p i : h !! p = Some i -> named i;
  po_accept p i : h !! p = Some i -> -1 <= acceptfd i < FD_SETSIZE;
  po_timer p i : h !! p = Some i -> timer i ∈ D;
  po_inj p q i j : h !! p = Some i -> h !! q = Some j -> timer i = timer j -> p = q;
  po_new p i n : h !! p = Some i -> new_config i = Some n ->
    p ∈ l /\ is_busy i = true /\ n ∉ l /\ is_Some (h !! n);
  po_new_inj p q i j n : h !! p = Some i -> h !! q = Some j ->
    new_config i = Some n -> new_config j = Some n -> p = q;
  po_unique p q i j : p ∈ l -> q ∈ l -> h !! p = Some i -> h !! q = Some j ->
    portname (conf i) = portname (conf j) -> p = q
}.

Record pool_ok {K} (s : dx K) : Prop := {
  po_pool : pool (pheap s) (ports s) (dom (timers (theap (dsel s))));
  po_fds : fds_ok (dsel s);
  po_sched : sched_ok (theap (dsel s))
}.

(** ** Lemmas *)

Section config_steps.
Context {K : Type} `{NetLaws K}.
Context (p : ptr) (s0 : dx K).
Abbreviation assertion := (port_info -> gset Z -> gset Z -> gset Z -> Prop).
Implicit Types P Q : assertion.

Lemma leads_clear fd P : 0 <= fd < FD_SETSIZE -> (forall i o r w, P i o r w -> P i o (r ∖ {[fd]}) (w ∖ {[fd]})) ->
  leads p s0 P (on_selector (fun v => sel_clear_fd_handlers v fd)) (fun _ => P).
Proof.
  intros Hfd HP s Hs. destruct (clear_handlers_spec (dsel s) fd (ap_fds _ _ _ _ Hs) Hfd) as (v & E & Hv & _ & Hr & Hw & _ & Ht).
  unfold on_selector. rewrite E. eexists tt, _. split; [done|].
  destruct Hs as [(i & Hi & Hio) ? ? ? ? ? ? ?]. constructor; cbn; try done; [|by rewrite Ht..].
  exists i. rewrite Hr, Hw. eauto.
Qed.

(** Any system call, for what does not depend on descriptors. *)
Lemma leads_sys_any {A} (f : K -> A * K) P : closed_under P -> leads p s0 P (sys f) (fun _ => P).
Proof. intros HP. apply leads_sys. eauto. Qed.

(** The port and nothing of the selector. *)
Definition port_is i1 : assertion := fun i _ _ _ => i = i1.
Ltac port_eq := let HP := fresh in intros ? ? ? ? HP; unfold port_is in *; by rewrite HP.
Lemma port_is_closed i1 : closed_under (port_is i1).
Proof. intros i o o' r w HP. exact HP. Qed.
Lemma leads_port_is {B} i1 (k : port_info -> DX_ K B) (Q : B -> assertion) :
  leads p s0 (port_is i1) (k i1) Q -> leads p s0 (port_is i1) (i ← port_at p; k i) Q.
Proof.
  intros Hk. apply leads_port. intros j. apply (leads_pre _ _ (j = i1)); [by intros i o r w [<- ->]|]. intros ->.
  eapply leads_conseq; [exact Hk | by intros i o r w [-> _] | done].
Qed.
Lemma leads_update {B} i1 f (k : DX_ K B) (Q : B -> assertion) :
  leads p s0 (port_is (f i1)) k Q -> leads p s0 (port_is i1) (_ ← set_port p f; k) Q.
Proof.
  intros Hk. eapply leads_bind; [apply (leads_set_port _ _ f _ (port_is (f i1))); port_eq|]. intros ?. exact Hk.
Qed.
Lemma leads_update_last i1 f : leads p s0 (port_is i1) (set_port p f) (fun _ => port_is (f i1)).
Proof. apply leads_set_port. port_eq. Qed.

(** [change_port_state(port, PORT_DISABLED)] *)
Definition disabled i : port_info :=
  if enabled i =? PORT_DISABLED then i else set_enabled PORT_DISABLED (set_acceptfd (-1) i).

Lemma leads_disable i1 : -1 <= acceptfd i1 < FD_SETSIZE ->
  leads p s0 (port_is i1) (disable_port p) (fun _ => port_is (disabled i1)).
Proof.
  intros Ha. unfold disable_port, disabled. apply leads_port_is.
  destruct (enabled i1 =? PORT_DISABLED); [by apply leads_ret|].
  destruct (Z.eqb_spec (acceptfd i1) (-1)) as [E|E]; cbn [negb].
  - apply leads_skip; [by apply leads_ret|].
    assert (Hi : set_acceptfd (-1) i1 = i1) by (destruct i1; cbn in *; by subst). rewrite Hi. apply leads_update_last.
  - eapply leads_bind; [|intros ?; apply leads_update_last].
    apply leads_skip; [apply leads_read; [lia | by right | done]|].
    apply leads_skip; [by apply leads_clear; [lia|]|].
    apply leads_skip; [apply leads_do, port_is_closed | apply leads_update_last].
Qed.

(** A port that was never open. *)
Definition unopened i0 i : Prop := timer i = timer i0 /\ acceptfd i = -1 /\ new_config i = None.

Definition filled i0 (e num : Z) (c : port_conf) : port_info :=
  set_config_num num (set_conf c (set_enabled e (init_port_data i0))).

Lemma leads_fill `{Resolver} `{ConfigNames} i0 portnum state timeout devname devcfg num r :
  line_result portnum state timeout devname devcfg = Ok r ->
  leads p s0 (port_is i0) (fill_port p portnum state timeout devname devcfg num)
    (fun err i _ _ _ => match r with
       | inl e => err = Some e /\ unopened i0 i
       | inr (e, c) => err = None /\ i = filled i0 e num c
       end).
Proof.
  intros Hr. unfold line_result in Hr. apply res_bind_inv in Hr as ([[rv addr] left] & Escan & Hr).
  unfold fill_port. apply leads_update, leads_update, leads_port_is. eapply leads_lift; [exact Escan|].
  apply leads_update. destruct (rv =? -1).
  { injection Hr as <-. apply leads_ret. intros i o r w ->. by split. }
  destruct (state_word state) as [e|].
  2:{ injection Hr as <-. apply leads_ret. intros i o r w ->. by split. }
  apply res_bind_inv in Hr as (t & Et & Hr). apply leads_update. eapply leads_lift; [exact Et|]. apply leads_update.
  destruct (t =? -1).
  { injection Hr as <-. apply leads_ret. intros i o r w ->. by split. }
  apply leads_port_is. change (devconfig devcfg (set_termctl _ _)) with
    (devconfig devcfg (DevInfo (devinit zero_termios) false false None no_trace no_trace no_trace)).
  destruct (devconfig _ _) as [rv' d]. apply leads_update. destruct (rv' =? -1).
  { injection Hr as <-. apply leads_ret. intros i o r w ->. by split. }
  injection Hr as <-. apply leads_update, leads_update. apply leads_ret. intros i o r w ->. by split.
Qed.

(** The accept socket: opened, or closed again with its number kept. *)
Lemma leads_or_close i1 call err next (Q : option cstr -> assertion) :
  leads p s0 (port_is i1) next Q -> (forall i o r w, port_is i1 i o r w -> Q (Some (str err)) i o r w) ->
  leads p s0 (port_is i1) (or_close p call err next) Q.
Proof.
  intros Hn HQ. unfold or_close. eapply leads_bind; [apply leads_sys_any, port_is_closed|]. intros [|]; cbn [negb]; [exact Hn|].
  apply leads_port_is. apply leads_skip; [apply leads_do, port_is_closed | by apply leads_ret].
Qed.

Lemma leads_startup i1 : sin_port (tcpport (conf i1)) <> 0 ->
  leads p s0 (port_is i1) (startup_port p)
    (fun err i _ _ _ => exists fd, -1 <= fd < FD_SETSIZE /\ i = set_acceptfd fd i1 /\ (err = None -> 0 <= fd)).
Proof.
  intros Hp. unfold startup_port. apply leads_port_is. rewrite (proj2 (Z.eqb_neq _ 0)) by done.
  set (Qfd (fd : option Z) (i : port_info) (o r w : gset Z) := match fd with Some n => 0 <= n < FD_SETSIZE | None => True end /\ i = i1).
  eapply leads_bind; [apply (leads_sys _ _ _ _ Qfd)|].
  { intros k i r w ->. split; [|done]. destruct (net_socket k) as [[n|] k'] eqn:E; [|done]. by apply socket_new in E as [? _]. }
  intros fd. apply leads_pure. intros Hfd.
  eapply leads_bind; [apply (leads_set_port _ _ _ _ (port_is (set_acceptfd (default (-1) fd) i1))); intros i o r w ->; done|].
  intros ?. destruct fd as [n|]; cbn [default].
  2:{ apply leads_ret. intros i o r w ->. exists (-1). unfold FD_SETSIZE. split_and!; [lia | lia | done | done]. }
  assert (Hend : forall err i o r w, port_is (set_acceptfd n i1) i o r w ->
    exists fd, -1 <= fd < FD_SETSIZE /\ i = set_acceptfd fd i1 /\ (err = (None : option cstr) -> 0 <= fd)).
  { intros err i o r w ->. exists n. split_and!; [lia | lia | done | lia]. }
  do 4 (apply leads_or_close; [|intros i o r w HP; by eapply Hend, HP]).
  apply leads_skip; [by apply leads_handlers|]. apply leads_skip; [apply leads_read; [lia | by left | done]|].
  apply leads_ret. intros i o r w HP. eapply Hend, HP.
Qed.
End config_steps.

(** *** Changes of the pool *)

Lemma pool_add h l D p i : pool h l D -> h !! p = None -> timer i ∉ D -> named i -> -1 <= acceptfd i < FD_SETSIZE ->
  new_config i = None -> pool (<[p := i]> h) l ({[timer i]} ∪ D).
Proof.
  intros [P1 P2 P3 P4 P5 P6 P7 P8 P9] Hp Ht Hn Ha Hc.
  assert (Hl : p ∉ l) by (intros Hin; destruct (P2 p Hin); congruence).
  assert (Hlk : forall q j, <[p := i]> h !! q = Some j -> (q = p /\ j = i) \/ (q <> p /\ h !! q = Some j)).
  { intros q j. destruct (decide (q = p)) as [->|]; [rewrite lookup_insert_eq | rewrite lookup_insert_ne by done]; naive_solver. }
  constructor; try done.
  - intros q Hq. rewrite lookup_insert_ne by congruence. by apply P2.
  - intros q j [[-> ->]|[_ ?]]%Hlk; eauto.
  - intros q j [[-> ->]|[_ ?]]%Hlk; eauto.
  - intros q j [[-> ->]|[_ ?%P5]]%Hlk; set_solver.
  - intros q1 q2 j1 j2 [[-> ->]|[? H1]]%Hlk [[-> ->]|[? H2]]%Hlk E; eauto; exfalso; apply Ht; [rewrite E | rewrite <- E]; eauto.
  - intros q j n [[-> ->]|[? H1]]%Hlk E; [congruence|]. destruct (P7 _ _ _ H1 E) as (A & B & C & D').
    split_and!; try done. destruct (decide (n = p)) as [->|]; [rewrite lookup_insert_eq; eauto | by rewrite lookup_insert_ne].
  - intros q1 q2 j1 j2 n [[-> ->]|[? H1]]%Hlk [[-> ->]|[? H2]]%Hlk E1 E2; try congruence. eauto.
  - intros q1 q2 j1 j2 Q1 Q2 [[-> ->]|[? H1]]%Hlk [[-> ->]|[? H2]]%Hlk E; try done. eauto.
Qed.

Lemma pool_delete h l D D' p : pool h l D -> p ∉ l -> (forall q j, h !! q = Some j -> new_config j <> Some p) ->
  (forall q j, q <> p -> h !! q = Some j -> timer j ∈ D') -> pool (delete p h) l D'.
Proof.
  intros [P1 P2 P3 P4 P5 P6 P7 P8 P9] Hl Href HD.
  assert (Hlk : forall q j, delete p h !! q = Some j -> q <> p /\ h !! q = Some j).
  { intros q j. rewrite lookup_delete_Some. naive_solver. }
  constructor; try done.
  - intros q Hq. rewrite lookup_delete_ne by congruence. by apply P2.
  - intros q j [_ ?]%Hlk; eauto.
  - intros q j [_ ?]%Hlk; eauto.
  - intros q j [? ?]%Hlk; eauto.
  - intros q1 q2 j1 j2 [_ ?]%Hlk [_ ?]%Hlk; eauto.
  - intros q j n [? H1]%Hlk E. destruct (P7 _ _ _ H1 E) as (A & B & C & D1). split_and!; try done.
    rewrite lookup_delete_ne; [done|]. intros ->. by eapply Href.
  - intros q1 q2 j1 j2 n [_ ?]%Hlk [_ ?]%Hlk; eauto.
  - intros q1 q2 j1 j2 ? ? [_ ?]%Hlk [_ ?]%Hlk; eauto.
Qed.

(** Another list of the same ports. *)
Lemma pool_relist h l l' D : pool h l D -> NoDup l' -> (forall p, p ∈ l' -> is_Some (h !! p)) ->
  (forall p i n, h !! p = Some i -> new_config i = Some n -> p ∈ l' /\ n ∉ l') ->
  (forall p q i j, p ∈ l' -> q ∈ l' -> h !! p = Some i -> h !! q = Some j -> portname (conf i) = portname (conf j) -> p = q) ->
  pool h l' D.
Proof.
  intros [P1 P2 P3 P4 P5 P6 P7 P8 P9] Hn Hl Hc Hu. constructor; try done.
  intros p i n Hp En. destruct (P7 _ _ _ Hp En) as (_ & B & _ & D1), (Hc _ _ _ Hp En). by split_and!.
Qed.

(** A port changes its fields. *)
Lemma pool_update h l D p i i' : pool h l D -> h !! p = Some i -> timer i' = timer i -> conf i' = conf i ->
  -1 <= acceptfd i' < FD_SETSIZE ->
  (forall n, new_config i' = Some n -> p ∈ l /\ is_busy i' = true /\ n ∉ l /\ is_Some (h !! n) /\
     forall q j, q <> p -> h !! q = Some j -> new_config j <> Some n) ->
  pool (<[p := i']> h) l D.
Proof.
  intros [P1 P2 P3 P4 P5 P6 P7 P8 P9] Hp Ht Hcf Ha Hn.
  assert (Hlk : forall q j, <[p := i']> h !! q = Some j -> (q = p /\ j = i') \/ (q <> p /\ h !! q = Some j)).
  { intros q j. destruct (decide (q = p)) as [->|]; [rewrite lookup_insert_eq | rewrite lookup_insert_ne by done]; naive_solver. }
  assert (Hsome : forall q, is_Some (h !! q) -> is_Some (<[p := i']> h !! q)).
  { intros q. destruct (decide (q = p)) as [->|]; [rewrite lookup_insert_eq; eauto | by rewrite lookup_insert_ne]. }
  constructor; try done.
  - intros q Hq. by apply Hsome, P2.
  - intros q j [[-> ->]|[_ ?]]%Hlk; [|eauto]. unfold named. rewrite Hcf. by apply (P3 p).
  - intros q j [[-> ->]|[_ ?]]%Hlk; eauto.
  - intros q j [[-> ->]|[_ ?]]%Hlk; [|eauto]. rewrite Ht. eauto.
  - intros q1 q2 j1 j2 [[-> ->]|[? H1]]%Hlk [[-> ->]|[? H2]]%Hlk E; eauto; rewrite Ht in E; eauto.
  - intros q j n [[-> ->]|[? H1]]%Hlk E.
    + destruct (Hn n E) as (A & B & C & D1 & _). split_and!; eauto.
    + destruct (P7 _ _ _ H1 E) as (A & B & C & D1). split_and!; eauto.
  - intros q1 q2 j1 j2 n [[-> ->]|[? H1]]%Hlk [[-> ->]|[? H2]]%Hlk E1 E2; try done; [| |eauto].
    + destruct (Hn n E1) as (_ & _ & _ & _ & Hx). by destruct (Hx q2 j2 ltac:(done) H2).
    + destruct (Hn n E2) as (_ & _ & _ & _ & Hx). by destruct (Hx q1 j1 ltac:(done) H1).
  - intros q1 q2 j1 j2 Q1 Q2 [[-> ->]|[? H1]]%Hlk [[-> ->]|[? H2]]%Hlk E; try done; rewrite ?Hcf in E; eauto.
Qed.

(** *** Entries under changes of the pool *)

Lemma replace_port_same l p : replace_port l p p = l.
Proof. induction l as [|q l IH]; cbn [replace_port]; [done|]. case_bool_decide; [by subst | by rewrite IH]. Qed.

Lemma elem_of_replace l p n q : NoDup l -> p ∈ l -> q ∈ replace_port l p n <-> q = n \/ (q ∈ l /\ q <> p).
Proof.
  induction l as [|x l IH]; intros Hn Hp; [by apply not_elem_of_nil in Hp|]. inversion Hn; subst. cbn [replace_port].
  case_bool_decide; subst.
  - rewrite !elem_of_cons. split; [intros [->|Hq]; [by left|]|intros [->|[[->|Hq] ?]]; auto; done].
    right. split; [by right|]. intros ->. done.
  - rewrite !elem_of_cons. apply elem_of_cons in Hp as [->|Hp]; [done|]. rewrite IH by done.
    split; [intros [->|[->|[? ?]]]; auto | intros [->|[[->|?] ?]]; auto].
Qed.

Lemma NoDup_replace l p n : NoDup l -> p ∈ l -> n ∉ l -> NoDup (replace_port l p n).
Proof.
  induction l as [|x l IH]; intros Hn Hp Hl; [constructor|]. inversion Hn; subst. cbn [replace_port].
  apply not_elem_of_cons in Hl as [? Hl]. case_bool_decide; subst; [by constructor|].
  apply elem_of_cons in Hp as [->|Hp]; [done|]. constructor; [|by apply IH].
  rewrite elem_of_replace by done. intros [->|[? ?]]; done.
Qed.

(** One element is replaced, the others stay. *)
Lemma omap_others {B} (f f' : ptr -> option B) (g : B -> B) l :
  (forall q, q ∈ l -> f' q = f q /\ forall z, f q = Some z -> g z = z) -> omap f' l = map g (omap f l).
Proof.
  induction l as [|x l IH]; intros Hq; [done|]. destruct (Hq x ltac:(by left)) as [E1 E2].
  cbn. rewrite E1, IH by (intros q ?; apply Hq; by right). destruct (f x) as [z|]; [|done]. cbn. by rewrite (E2 z).
Qed.

Lemma omap_replace {B} (f f' : ptr -> option B) (g : B -> B) l p p' y : NoDup l -> p ∈ l ->
  f p = Some y -> f' p' = Some (g y) ->
  (forall q, q ∈ l -> q <> p -> f' q = f q /\ forall z, f q = Some z -> g z = z) ->
  omap f' (replace_port l p p') = map g (omap f l).
Proof.
  intros Hn Hp Hy Hy' Hq. induction l as [|x l IH]; [by apply not_elem_of_nil in Hp|]. inversion Hn; subst.
  cbn [replace_port]. case_bool_decide as E.
  - subst x. cbn. rewrite Hy, Hy'. cbn. f_equal. apply omap_others. intros q Hl. apply Hq; [by right|]. by intros ->.
  - apply elem_of_cons in Hp as [->|Hp]; [done|]. destruct (Hq x ltac:(by left) ltac:(congruence)) as [E1 E2].
    cbn. rewrite E1, IH by (done || (intros q ? ?; apply Hq; [by right | done])).
    destruct (f x) as [z|]; [|done]. cbn. by rewrite (E2 z).
Qed.


(** *** The operations *)

Section table.
Context {K : Type} `{NetLaws K} `{Memory K} `{Resolver}.
Implicit Types (s : dx K) (i : port_info).

Abbreviation alive s := (dom (timers (theap (dsel s)))).

(** What no operation on the table changes. *)
Definition same_rest s s' : Prop :=
  ctl_fds s' = ctl_fds s /\ uucp_locking_enabled s' = uucp_locking_enabled s.

Lemma same_rest_trans s1 s2 s3 : same_rest s1 s2 -> same_rest s2 s3 -> same_rest s1 s3.
Proof. unfold same_rest. intros; destruct_and!; split_and!; congruence. Qed.

Lemma at_port_start s p i : pheap s !! p = Some i -> fds_ok (dsel s) -> sched_ok (theap (dsel s)) ->
  at_port p s (port_is i) s.
Proof. intros Hi Hf Hs. constructor; try done. by exists i. Qed.

(** A run on one port, as an equation on the ports. *)
Lemma leads_run {A} (m : DX_ K A) s p i (Q : A -> port_info -> gset Z -> gset Z -> gset Z -> Prop) :
  pheap s !! p = Some i -> fds_ok (dsel s) -> sched_ok (theap (dsel s)) -> leads p s (port_is i) m Q ->
  exists a s' i', m s = Ok (a, s') /\ Q a i' (opens (kern s')) (read_set (dsel s')) (write_set (dsel s')) /\
    pheap s' = <[p := i']> (pheap s) /\ ports s' = ports s /\ same_rest s s' /\ alive s' = alive s /\
    fds_ok (dsel s') /\ sched_ok (theap (dsel s')).
Proof.
  intros Hi Hf Hs Hm. destruct (Hm s (at_port_start s p i Hi Hf Hs)) as (a & s' & E & [(i' & Hi' & HQ) Hr Hp Hc Hu Hf' Hs' Ht]).
  exists a, s', i'. split_and!; try done. apply map_eq. intros q. destruct (decide (q = p)) as [->|Hq].
  - by rewrite lookup_insert_eq.
  - rewrite lookup_insert_ne by done. rewrite <- (lookup_delete_ne (pheap s') p q), <- (lookup_delete_ne (pheap s) p q) by congruence.
    by rewrite Hr.
Qed.

(** Freeing a port without a waiting configuration. *)
Lemma free_port_ok fuel s p i : pheap s !! p = Some i -> new_config i = None -> -1 <= acceptfd i < FD_SETSIZE ->
  timer i ∈ alive s -> fds_ok (dsel s) -> sched_ok (theap (dsel s)) ->
  exists s', free_port fuel p s = Ok (tt, s') /\ pheap s' = delete p (pheap s) /\ ports s' = ports s /\ same_rest s s' /\
    alive s' = alive s ∖ {[timer i]} /\ fds_ok (dsel s') /\ sched_ok (theap (dsel s')).
Proof.
  intros Hi Hn Ha Ht Hf Hs. apply elem_of_dom in Ht.
  destruct (free_timer_spec _ _ Hs Ht) as (r & h & Et & Hh & Hd).
  set (s1 := with_dsel (with_heap h (dsel s)) s).
  assert (E1 : on_timers (sel_free_timer (timer i)) s = Ok (r, s1)) by (unfold on_timers; by rewrite Et).
  assert (Hi1 : pheap s1 !! p = Some i) by done. assert (Hf1 : fds_ok (dsel s1)) by (by apply (fds_ok_sets (dsel s))).
  destruct (leads_run _ s1 p i _ Hi1 Hf1 Hh (leads_disable p s1 i Ha))
    as ([] & s2 & i2 & E2 & _ & Hp2 & Hports2 & Hrest2 & Hal2 & Hf2 & Hs2).
  exists (with_pheap (delete p (pheap s2)) s2). split.
  - destruct fuel; cbn [free_port]; rewrite (ST_bind_Ok _ _ _ _ _ (port_at_Ok _ _ _ Hi)), (ST_bind_Ok _ _ _ _ _ E1),
      (ST_bind_Ok _ _ _ _ _ E2), Hn, (ST_bind_Ok _ _ _ _ _ eq_refl); done.
  - cbn. rewrite Hp2, delete_insert_eq. split_and!; try done. rewrite Hal2. exact Hd.
Qed.

(** The new port: its memory and its timer. *)
Definition new_port s : ptr := fresh (dom (pheap s)).
Definition new_timer s : ptr := fresh (alive s).

Lemma new_port_free s : pheap s !! new_port s = None.
Proof. unfold new_port. apply not_elem_of_dom. apply (is_fresh (dom (pheap s))). Qed.
Lemma new_timer_free s : new_timer s ∉ alive s.
Proof. unfold new_timer. apply (is_fresh (alive s)). Qed.

(** The new port is there, unlisted, next to the state it was added to. *)
Record staged s s' i : Prop := {
  st_heap : pheap s' = <[new_port s := i]> (pheap s);
  st_ports : ports s' = ports s;
  st_rest : same_rest s s';
  st_alive : alive s' = {[new_timer s]} ∪ alive s;
  st_fds : fds_ok (dsel s');
  st_sched : sched_ok (theap (dsel s'));
  st_timer : timer i = new_timer s;
  st_accept : -1 <= acceptfd i < FD_SETSIZE;
  st_new : new_config i = None
}.

(** Everything before [portconfig] looks at the list. *)
Lemma portconfig_start `{ConfigNames} s portnum state timeout devname devcfg num r : pool_ok s ->
  Z.of_nat (size (timers (theap (dsel s)))) + 1 < 2 ^ 32 -> line_result portnum state timeout devname devcfg = Ok r ->
  exists err s' i',
    (forall B (k : ptr -> option cstr -> DX_ K B),
      (p ← malloc_port; t ← malloc_timer p; _ ← set_port p (set_timer t);
       err ← fill_port p portnum state timeout devname devcfg num; k p err) s = k (new_port s) err s') /\
    match r with
    | inl e => err = Some e
    | inr (e, c) => err = None /\ i' = filled (set_timer (new_timer s) (junk_port (kern s))) e num c
    end /\ staged s s' i'.
Proof.
  intros [Hpool Hf Hs] Hsz Hr. set (p := new_port s).
  destruct (alloc_timer_spec (theap (dsel s)) (junk_timer (kern s)) got_timeout_fn (Pos.to_nat p) Hs Hsz) as (h & Et & Hh & Hd).
  set (i0 := set_timer (new_timer s) (junk_port (kern s))).
  set (s1 := with_dsel (with_heap h (dsel s)) (with_pheap (<[p := i0]> (pheap s)) s)).
  assert (E0 : forall B (k : ptr -> DX_ K B), (p ← malloc_port; t ← malloc_timer p; _ ← set_port p (set_timer t); k p) s = k p s1).
  { intros B k. rewrite (ST_bind_Ok _ _ _ _ _ eq_refl). fold (new_port s). fold p. set (sp := with_pheap _ s).
    assert (E : malloc_timer p sp = Ok (new_timer s, with_dsel (with_heap h (dsel s)) sp)).
    { unfold malloc_timer. rewrite 2!(ST_bind_Ok _ _ _ _ _ eq_refl).
      rewrite (ST_bind_Ok _ _ _ ((0, Some (new_timer s))) (with_dsel (with_heap h (dsel s)) sp)); [done|].
      unfold on_timers. change (theap (dsel sp)) with (theap (dsel s)). change (kern sp) with (kern s). by rewrite Et. }
    rewrite (ST_bind_Ok _ _ _ _ _ E).
    rewrite (ST_bind_Ok _ _ _ _ _ (set_port_Ok p _ (junk_port (kern s)) _ (lookup_insert_eq _ _ _))).
    unfold PortFlow.upd. cbn. by rewrite insert_insert_eq. }
  assert (Hf1 : fds_ok (dsel s1)) by (by apply (fds_ok_sets (dsel s))).
  assert (Hi1 : pheap s1 !! p = Some i0) by apply lookup_insert_eq.
  destruct (leads_run _ s1 p i0 _ Hi1 Hf1 Hh
    (leads_fill p s1 i0 portnum state timeout devname devcfg num r Hr))
    as (err & s2 & i2 & E2 & HQ & Hp2 & Hports2 & Hrest2 & Hal2 & Hf2 & Hs2).
  exists err, s2, i2. split; [intros B k; rewrite E0; by rewrite (ST_bind_Ok _ _ _ _ _ E2)|]. split.
  { destruct r as [e|[e c]]; [|done]. by destruct HQ as (-> & _). }
  assert (U : unopened i0 i2) by (destruct r as [e|[e c]]; [by destruct HQ | by destruct HQ as (_ & ->)]).
  destruct U as (U1 & U2 & U3). constructor; try done.
  - rewrite Hp2. cbn. by rewrite insert_insert_eq.
  - rewrite Hal2. exact Hd.
  - rewrite U2. unfold FD_SETSIZE. lia.
Qed.
(** *** Looking a name up *)

Lemma find_name_spec (h : gmap ptr port_info) l D name : pool h l D -> exists o, find_name h l name = Ok o /\
  match o with
  | Some q => q ∈ l /\ exists j, h !! q = Some j /\ portname (conf j) = Some name
  | None => forall q j, q ∈ l -> h !! q = Some j -> portname (conf j) <> Some name
  end.
Proof.
  intros [_ P2 P3 _ _ _ _ _ _]. induction l as [|q l IH]; cbn [find_name].
  { exists None. split; [done|]. intros q j Hq. by apply not_elem_of_nil in Hq. }
  destruct (P2 q ltac:(by left)) as [j Hj]. rewrite Hj. destruct (P3 q j Hj) as [[n Hn] _]. rewrite Hn.
  destruct (streq n name) eqn:E.
  - apply streq_true in E as ->. exists (Some q). split; [done|]. split; [by left | eauto].
  - destruct IH as (o & Eo & Ho); [intros; apply P2; by right|]. exists o. split; [done|]. destruct o as [q'|].
    + destruct Ho as [? ?]. split; [by right | done].
    + intros q' j' [->|Hq']%elem_of_cons Hj'; [|by eapply Ho]. rewrite Hj in Hj'. injection Hj' as <-.
      rewrite Hn. intros [= ->]. by rewrite (proj2 (streq_true name name) eq_refl) in E.
Qed.

Lemma entry_of_frame (h h' : gmap ptr port_info) q : h' !! q = h !! q ->
  (forall j n, h !! q = Some j -> new_config j = Some n -> conf <$> h' !! n = conf <$> h !! n) ->
  entry_of h' q = entry_of h q.
Proof.
  intros Hq Hn. unfold entry_of. rewrite Hq. destruct (h !! q) as [j|] eqn:Hj; [|done]. cbn.
  destruct (new_config j) as [n|] eqn:En; [|done]. cbn. by rewrite (Hn j n).
Qed.

Lemma entry_of_named (h : gmap ptr port_info) q j x name : h !! q = Some j -> entry_of h q = Some x ->
  has_name name x = bool_decide (portname (conf j) = Some name).
Proof. unfold entry_of. intros ->. by intros [= <-]. Qed.

Lemma entry_of_some (h : gmap ptr port_info) q j : h !! q = Some j -> exists x, entry_of h q = Some x.
Proof. intros Hj. unfold entry_of. rewrite Hj. eauto. Qed.

Lemma existsb_name (h : gmap ptr port_info) l q j name : q ∈ l -> h !! q = Some j -> portname (conf j) = Some name ->
  existsb (has_name name) (omap (entry_of h) l) = true.
Proof.
  intros Hq Hj Hn. destruct (entry_of_some h q j Hj) as [x Hx]. apply existsb_exists. exists x. split.
  - apply list_elem_of_In, list_elem_of_omap. eauto.
  - rewrite (entry_of_named _ _ _ _ _ Hj Hx). by apply bool_decide_eq_true.
Qed.

Lemma existsb_no_name (h : gmap ptr port_info) l name : (forall q, q ∈ l -> is_Some (h !! q)) ->
  (forall q j, q ∈ l -> h !! q = Some j -> portname (conf j) <> Some name) ->
  existsb (has_name name) (omap (entry_of h) l) = false.
Proof.
  intros Hl Hn. apply not_true_iff_false. intros (x & Hx & Hb)%existsb_exists.
  apply list_elem_of_In, list_elem_of_omap in Hx as (q & Hq & Hx). destruct (Hl q Hq) as [j Hj].
  rewrite (entry_of_named _ _ _ _ _ Hj Hx) in Hb. apply bool_decide_eq_true in Hb. by eapply Hn.
Qed.

(** *** The three ways a line ends *)

Lemma staged_lookup s s' i : staged s s' i -> pheap s' !! new_port s = Some i.
Proof. intros Hst. rewrite (st_heap _ _ _ Hst). apply lookup_insert_eq. Qed.

Lemma staged_pool s s' i : pool_ok s -> staged s s' i -> named i -> pool (pheap s') (ports s') (alive s').
Proof.
  intros Hs [E1 E2 _ E4 _ _ Et Ea En] Hn. rewrite E1, E2, E4, <- Et.
  apply pool_add; try done; [apply Hs | apply new_port_free | rewrite Et; apply new_timer_free].
Qed.

Lemma staged_entries s s' i : pool_ok s -> staged s s' i -> omap (entry_of (pheap s')) (ports s) = entries s.
Proof.
  intros Hs Hst. rewrite (st_heap _ _ _ Hst). unfold entries.
  rewrite (omap_others (entry_of (pheap s)) _ id); [apply list_fmap_id|]. intros q Hq. split; [|done].
  pose proof (new_port_free s) as Hf. apply entry_of_frame.
  - apply lookup_insert_ne. intros <-. destruct (po_listed _ _ _ (po_pool _ Hs) _ Hq). congruence.
  - intros j n Hj Hn. rewrite lookup_insert_ne; [done|]. intros <-.
    destruct (po_new _ _ _ (po_pool _ Hs) _ _ _ Hj Hn) as (_ & _ & _ & []). congruence.
Qed.

(** The new port is freed: everything is as before. *)
Lemma errout_ok s s' i err : pool_ok s -> staged s s' i ->
  exists s'', errout (new_port s) err s' = Ok (err, s'') /\ pool_ok s'' /\ same_rest s s'' /\ entries s'' = entries s.
Proof.
  intros Hs [E1 E2 E3 E4 E5 E6 Et Ea En]. pose proof (new_port_free s) as Hf. pose proof (new_timer_free s) as Ht.
  assert (Hi : pheap s' !! new_port s = Some i) by (rewrite E1; apply lookup_insert_eq).
  destruct (free_port_ok (size (pheap s')) s' _ i Hi En Ea) as (s2 & F & F1 & F2 & F3 & F4 & F5 & F6); try done.
  { rewrite Et, E4. set_solver. }
  assert (G1 : pheap s2 = pheap s) by (by rewrite F1, E1, delete_insert_id).
  assert (G2 : ports s2 = ports s) by congruence.
  exists s2. unfold errout. rewrite (ST_bind_Ok _ _ _ _ _ eq_refl), (ST_bind_Ok _ _ _ _ _ F). split_and!; try done.
  - constructor; try done. rewrite G1, G2, F4, E4, Et.
    replace (({[new_timer s]} ∪ alive s) ∖ {[new_timer s]}) with (alive s) by set_solver. apply Hs.
  - by eapply same_rest_trans.
  - unfold entries. by rewrite G1, G2.
Qed.

(** The new port goes to the end of the list. *)
Lemma append_ok s s' i : pool_ok s -> staged s s' i -> named i ->
  (forall q j, q ∈ ports s -> pheap s !! q = Some j -> portname (conf j) <> portname (conf i)) ->
  pool_ok (with_ports (ports s' ++ [new_port s]) s') /\
  entries (with_ports (ports s' ++ [new_port s]) s') =
    entries s ++ [Entry (conf i) (enabled i) (is_busy i) (PortData.config_num i) None].
Proof.
  intros Hs Hst Hn Hun. pose proof (staged_pool _ _ _ Hs Hst Hn) as Hp. pose proof (staged_lookup _ _ _ Hst) as Hi.
  pose proof (new_port_free s) as Hf. assert (Hl : new_port s ∉ ports s) by (intros Hin; destruct (po_listed _ _ _ (po_pool _ Hs) _ Hin); congruence).
  pose proof (st_ports _ _ _ Hst) as E2. split.
  - constructor; [|apply Hst..]. cbn. apply (pool_relist _ (ports s')); [done|..].
    + rewrite E2. apply NoDup_app. split_and!; [apply Hs | set_solver | apply NoDup_singleton].
    + intros q [Hq | ->%list_elem_of_singleton]%elem_of_app; [by eapply po_listed | eauto].
    + intros q j n Hj Hc. destruct (po_new _ _ _ Hp _ _ _ Hj Hc) as (A & _ & B & _). split; [set_solver|].
      intros [? | ->%list_elem_of_singleton]%elem_of_app; [done|]. rewrite (st_heap _ _ _ Hst) in Hj.
      apply lookup_insert_Some in Hj as [[_ <-]|[_ Hj]]; [by rewrite (st_new _ _ _ Hst) in Hc|].
      destruct (po_new _ _ _ (po_pool _ Hs) _ _ _ Hj Hc) as (_ & _ & _ & []). congruence.
    + assert (Hun' : forall q j, q ∈ ports s -> pheap s' !! q = Some j -> portname (conf j) <> portname (conf i)).
      { intros q j Hq Hj. rewrite (st_heap _ _ _ Hst), lookup_insert_ne in Hj by congruence. eauto. }
      rewrite E2. intros q1 q2 j1 j2 [L1 | ->%list_elem_of_singleton]%elem_of_app [L2 | ->%list_elem_of_singleton]%elem_of_app K1 K2 E; try done.
      * rewrite <- E2 in L1, L2. by eapply (po_unique _ _ _ Hp).
      * rewrite Hi in K2. injection K2 as <-. by destruct (Hun' _ _ L1 K1).
      * rewrite Hi in K1. injection K1 as <-. by destruct (Hun' _ _ L2 K2).
  - unfold entries at 1. cbn. rewrite E2, omap_app, (staged_entries _ _ _ Hs Hst). f_equal. cbn. unfold entry_of.
    rewrite Hi. cbn. by rewrite (st_new _ _ _ Hst).
Qed.

(** *** A configuration that waits for the end of a session *)

(** The heap once [n], if there is one, was freed and [p] waits for [q]. *)
Definition waiting (h : gmap ptr port_info) (p q : ptr) (num : Z) (j : port_info) : gmap ptr port_info :=
  match new_config j with
  | None => <[q := set_new_config (Some p) (set_config_num num j)]> h
  | Some n => <[q := set_new_config (Some p) (set_config_num num (set_enabled PORT_DISABLED j))]> (delete n h)
  end.

Lemma waiting_pool (h : gmap ptr port_info) l D p q num j i : pool h l D -> h !! q = Some j -> q ∈ l -> is_busy j = true ->
  h !! p = Some i -> p ∉ l -> (forall q' j', h !! q' = Some j' -> new_config j' <> Some p) -> pool (waiting h p q num j) l D.
Proof.
  intros Hp Hq Hl Hb Hpi Hpl Href. pose proof (po_accept _ _ _ Hp _ _ Hq) as Ha. unfold waiting.
  destruct (new_config j) as [n|] eqn:En.
  - destruct (po_new _ _ _ Hp _ _ _ Hq En) as (_ & _ & Hn & _). assert (n <> q) by congruence.
    assert (n <> p) by (intros ->; exact (Href _ _ Hq En)).
    pose proof (pool_update _ _ _ q j (set_new_config None j) Hp Hq eq_refl eq_refl Ha ltac:(done)) as Hp1.
    assert (Hp2 : pool (delete n (<[q := set_new_config None j]> h)) l D).
    { eapply pool_delete; [exact Hp1 | done | |].
      - intros q' j' [[_ <-]|[Hne Hj']]%lookup_insert_Some; [done|]. intros En'. apply Hne. by eapply (po_new_inj _ _ _ Hp).
      - intros q' j' _ Hj'. eapply (po_timer _ _ _ Hp1), Hj'. }
    rewrite delete_insert_ne in Hp2 by done.
    rewrite <- (insert_insert_eq (delete n h) q _ (set_new_config None j)).
    eapply pool_update; [exact Hp2 | apply lookup_insert_eq | done.. |].
    intros n' [= <-]. split_and!; try done; [by rewrite lookup_insert_ne, lookup_delete_ne by congruence|].
    intros q' j' Hne. rewrite lookup_insert_ne, lookup_delete_Some by done. intros [_ Hj']. by eapply Href.
  - eapply pool_update; [exact Hp | exact Hq | done.. |]. intros n' [= <-]. split_and!; eauto.
Qed.

Lemma waiting_entries (h : gmap ptr port_info) l D p q num e j i name (g := fun x : entry =>
    if has_name name x then reconfigured e (conf i) num x else x) : portname (conf j) = Some name ->
  pool h l D -> h !! q = Some j -> q ∈ l -> is_busy j = true -> h !! p = Some i -> p ∉ l ->
  (forall q' j', h !! q' = Some j' -> new_config j' <> Some p) ->
  omap (entry_of (waiting h p q num j)) l = map g (omap (entry_of h) l).
Proof.
  intros Hname Hp Hq Hl Hb Hpi Hpl Href. assert (Hqp : q <> p) by congruence.
  assert (Hnp : new_config j <> Some p) by exact (Href _ _ Hq).
  assert (Hnq : new_config j <> Some q) by (intros En; destruct (po_new _ _ _ Hp _ _ _ Hq En) as (_ & _ & ? & _); done).
  assert (Hoth : forall q', q' <> q -> new_config j <> Some q' -> waiting h p q num j !! q' = h !! q').
  { intros q' ? Hne. unfold waiting. destruct (new_config j) as [n|]; rewrite lookup_insert_ne by done; [|done].
    rewrite lookup_delete_ne by congruence. done. }
  rewrite <- (replace_port_same l q) at 1. destruct (entry_of_some h q j Hq) as [y Hy].
  eapply omap_replace; [apply Hp | done | exact Hy | |].
  - unfold entry_of in Hy. rewrite Hq in Hy. injection Hy as <-. unfold entry_of at 1, g.
    assert (Hself : waiting h p q num j !! q = Some (set_new_config (Some p) (set_config_num num
      (match new_config j with Some _ => set_enabled PORT_DISABLED j | None => j end)))).
    { unfold waiting. destruct (new_config j); by rewrite lookup_insert_eq. }
    rewrite Hself. cbn. rewrite Hoth by done. rewrite Hpi. cbn. unfold has_name. cbn.
    rewrite bool_decide_eq_true_2 by (by destruct (new_config j)). unfold reconfigured. cbn.
    destruct (new_config j) as [n|] eqn:En; cbn; [|change (is_busy (set_new_config _ _)) with (is_busy j); by rewrite Hb].
    change (is_busy (set_new_config _ _)) with (is_busy j). rewrite Hb.
    destruct (po_new _ _ _ Hp _ _ _ Hq En) as (_ & _ & _ & [k Hk]). by rewrite Hk.
  - intros q' Hq' Hne. destruct (po_listed _ _ _ Hp _ Hq') as [j' Hj']. split.
    + apply entry_of_frame.
      * apply Hoth; [done|]. intros En. destruct (po_new _ _ _ Hp _ _ _ Hq En) as (_ & _ & ? & _). done.
      * intros j1 n Hj1 En. rewrite Hoth; [done | |].
        -- intros ->. destruct (po_new _ _ _ Hp _ _ _ Hj1 En) as (_ & _ & ? & _). done.
        -- intros En'. apply Hne. by eapply (po_new_inj _ _ _ Hp).
    + intros z Hz. unfold g. rewrite (entry_of_named _ _ _ _ _ Hj' Hz). case_bool_decide as Hd; [|done].
      destruct Hne. eapply (po_unique _ _ _ Hp); try done. by rewrite Hd.
Qed.

Lemma replace_later_run s p q num j : pheap s !! q = Some j -> new_config j <> Some q ->
  replace_later p q num s = Ok (tt, with_pheap (waiting (pheap s) p q num j) s).
Proof.
  intros Hq Hn. unfold replace_later, waiting. rewrite (ST_bind_Ok _ _ _ _ _ (port_at_Ok _ _ _ Hq)).
  destruct (new_config j) as [n|] eqn:En.
  - rewrite (ST_bind_Ok _ _ _ tt (with_pheap (delete n (<[q := set_enabled PORT_DISABLED j]> (pheap s))) s)).
    2:{ by rewrite (ST_bind_Ok _ _ _ _ _ (set_port_Ok _ _ _ _ Hq)). }
    rewrite delete_insert_ne by congruence.
    rewrite (ST_bind_Ok _ _ _ _ _ (set_port_Ok q _ _ _ (lookup_insert_eq _ _ _))).
    rewrite (set_port_Ok q _ _ _ (lookup_insert_eq _ _ _)). unfold PortFlow.upd. cbn. by rewrite !insert_insert_eq.
  - rewrite (ST_bind_Ok _ _ _ _ _ eq_refl), (ST_bind_Ok _ _ _ _ _ (set_port_Ok _ _ _ _ Hq)).
    rewrite (set_port_Ok q _ _ _ (lookup_insert_eq _ _ _)). unfold PortFlow.upd. cbn. by rewrite !insert_insert_eq.
Qed.

(** *** A port nobody is connected to gives way *)

Lemma gives_way_pool (h : gmap ptr port_info) l D p q i i' j : pool h l D -> h !! q = Some j -> q ∈ l -> is_busy j = false ->
  h !! p = Some i -> p ∉ l -> portname (conf i) = portname (conf j) ->
  (forall q' j', h !! q' = Some j' -> new_config j' <> Some p) ->
  timer i' = timer i -> conf i' = conf i -> -1 <= acceptfd i' < FD_SETSIZE -> new_config i' = None ->
  pool (<[p := i']> (delete q h)) (replace_port l q p) (D ∖ {[timer j]}).
Proof.
  intros Hp Hq Hl Hb Hpi Hpl Hname Href Ht Hc Ha Hn. pose proof (po_nodup _ _ _ Hp) as Hnd.
  assert (Hnq : forall q' j', h !! q' = Some j' -> new_config j' <> Some q).
  { intros q' j' Hj' En. by destruct (po_new _ _ _ Hp _ _ _ Hj' En) as (_ & _ & ? & _). }
  assert (Hp1 : pool h (replace_port l q p) D).
  { apply (pool_relist h l); [done | by apply NoDup_replace | ..].
    - intros x [->|[Hx _]]%elem_of_replace; [eauto | by eapply po_listed | done..].
    - intros x ix n Hx En. destruct (po_new _ _ _ Hp _ _ _ Hx En) as (A & B & C & _). rewrite !elem_of_replace by done. split.
      + right. split; [done|]. intros ->. congruence.
      + intros [->|[? _]]; [exact (Href _ _ Hx En) | done].
    - intros x y ix iy Hx Hy Kx Ky E. apply elem_of_replace in Hx as [->|[Hx Hxq]], Hy as [->|[Hy Hyq]]; try done.
      + rewrite Hpi in Kx. injection Kx as <-. destruct Hyq. eapply (po_unique _ _ _ Hp); try done. congruence.
      + rewrite Hpi in Ky. injection Ky as <-. destruct Hxq. eapply (po_unique _ _ _ Hp); try done. congruence.
      + by eapply (po_unique _ _ _ Hp). }
  assert (Hp2 : pool (delete q h) (replace_port l q p) (D ∖ {[timer j]})).
  { eapply pool_delete; [exact Hp1 | | exact Hnq |].
    - rewrite elem_of_replace by done. intros [->|[_ ?]]; done.
    - intros x ix Hne Hx. pose proof (po_timer _ _ _ Hp _ _ Hx). apply elem_of_difference. split; [done|].
      intros Et%elem_of_singleton. apply Hne. by eapply (po_inj _ _ _ Hp). }
  eapply pool_update; [exact Hp2 | | done..|]; [|by rewrite Hn]. rewrite lookup_delete_ne; [done | congruence].
Qed.

Lemma gives_way_entries (h : gmap ptr port_info) l D p q num e j i i' name (g := fun x : entry =>
    if has_name name x then reconfigured e (conf i) num x else x) : portname (conf j) = Some name ->
  pool h l D -> h !! q = Some j -> q ∈ l -> is_busy j = false -> h !! p = Some i -> p ∉ l ->
  (forall q' j', h !! q' = Some j' -> new_config j' <> Some p) ->
  entry_of (<[p := i']> (delete q h)) p = Some (Entry (conf i) e false num None) ->
  omap (entry_of (<[p := i']> (delete q h))) (replace_port l q p) = map g (omap (entry_of h) l).
Proof.
  intros Hname Hp Hq Hl Hb Hpi Hpl Href He. destruct (entry_of_some h q j Hq) as [y Hy].
  eapply omap_replace; [apply Hp | done | exact Hy | |].
  - rewrite He. unfold entry_of in Hy. rewrite Hq in Hy. injection Hy as <-. unfold g, has_name. cbn.
    rewrite bool_decide_eq_true_2 by done. unfold reconfigured. cbn. by rewrite Hb.
  - intros q' Hq' Hne. destruct (po_listed _ _ _ Hp _ Hq') as [j' Hj']. split.
    + assert (Hoth : forall x, x <> p -> x <> q -> <[p := i']> (delete q h) !! x = h !! x).
      { intros x ? ?. by rewrite lookup_insert_ne, lookup_delete_ne. }
      apply entry_of_frame; [apply Hoth; congruence|]. intros j1 n Hj1 En.
      destruct (po_new _ _ _ Hp _ _ _ Hj1 En) as (_ & _ & Hnl & _). rewrite Hoth; [done | |congruence].
      intros ->. exact (Href _ _ Hj1 En).
    + intros z Hz. unfold g. rewrite (entry_of_named _ _ _ _ _ Hj' Hz). case_bool_decide as Hd; [|done].
      destruct Hne. eapply (po_unique _ _ _ Hp); try done. by rewrite Hd.
Qed.

(** A port that can be connected to. *)
Definition listening i : Prop := enabled i <> PORT_DISABLED /\ 0 <= acceptfd i < FD_SETSIZE.

Lemma leads_change_listening p s0 i1 e : listening i1 ->
  leads p s0 (port_is i1) (change_port_state p e)
    (fun _ i _ _ _ => exists fd, -1 <= fd < FD_SETSIZE /\ i = set_enabled e (set_acceptfd fd i1)).
Proof.
  intros [He Ha]. unfold change_port_state. apply leads_port_is. destruct (Z.eqb_spec (enabled i1) e) as [E|E].
  { apply leads_ret. intros i o r w ->. exists (acceptfd i1). split; [lia|]. destruct i1. cbn in *. by subst. }
  destruct (Z.eqb_spec e PORT_DISABLED) as [E'|E'].
  - eapply leads_bind; [apply leads_disable; lia|]. intros ?. apply leads_ret. intros i o r w ->. exists (-1).
    split; [unfold FD_SETSIZE; lia|]. subst e. unfold disabled. by rewrite (proj2 (Z.eqb_neq _ _) He).
  - rewrite (proj2 (Z.eqb_neq _ _) He).
    eapply leads_bind; [by apply (leads_ret _ _ None (port_is i1) (fun _ => port_is i1))|]. intros rv.
    apply leads_update. apply leads_ret. intros i o r w ->. exists (acceptfd i1). split; [lia|]. by destruct i1.
Qed.

Lemma replace_idle_run s p q i j l D : pool (pheap s) l D -> alive s = D -> ports s = l ->
  fds_ok (dsel s) -> sched_ok (theap (dsel s)) ->
  pheap s !! p = Some i -> p <> q -> pheap s !! q = Some j -> new_config j = None -> listening j ->
  exists s' fd, replace_idle p q s = Ok (tt, s') /\ -1 <= fd < FD_SETSIZE /\
    pheap s' = <[p := set_enabled (enabled i) (set_acceptfd fd i)]> (delete q (pheap s)) /\
    ports s' = replace_port l q p /\ same_rest s s' /\ alive s' = D ∖ {[timer j]} /\
    fds_ok (dsel s') /\ sched_ok (theap (dsel s')).
Proof.
  intros Hpool HD Hl Hf Hs Hi Hpq Hj Hn Hlis. pose proof Hlis as [_ Ha].
  set (i1 := set_acceptfd (acceptfd j) (set_enabled (enabled j) i)).
  set (j1 := set_acceptfd (-1) (set_enabled PORT_DISABLED j)).
  set (s1 := with_pheap (<[q := j1]> (<[p := i1]> (pheap s))) s).
  assert (Hi1 : pheap s1 !! p = Some i1) by (cbn; by rewrite lookup_insert_ne, lookup_insert_eq by done).
  destruct (leads_run _ s1 p i1 _ Hi1 Hf Hs
    (leads_handlers p s1 (acceptfd j) (Some (Pos.to_nat p)) (Some handle_accept_port_read_fn) None None (port_is i1) Ha))
    as ([] & s2 & i2 & E2 & -> & Hp2 & Hl2 & Hr2 & Ha2 & Hf2 & Hs2).
  set (s3 := with_ports (replace_port (ports s2) q p) s2).
  assert (Hj3 : pheap s3 !! q = Some j1).
  { cbn. rewrite Hp2, lookup_insert_ne by done. cbn. apply lookup_insert_eq. }
  destruct (free_port_ok (size (pheap s3)) s3 q j1 Hj3 Hn) as (s4 & E4 & Hp4 & Hl4 & Hr4 & Ha4 & Hf4 & Hs4); try done.
  { change (alive s3) with (alive s2). rewrite Ha2. change (alive s1) with (alive s). rewrite HD. exact (po_timer _ _ _ Hpool q j Hj). }
  assert (Hi4 : pheap s4 !! p = Some i1).
  { rewrite Hp4, lookup_delete_ne by done. cbn. by rewrite Hp2, lookup_insert_eq. }
  destruct (leads_run _ s4 p i1 _ Hi4 Hf4 Hs4 (leads_change_listening p s4 i1 (enabled i) Hlis))
    as (rv & s5 & i5 & E5 & (fd & Hfd & ->) & Hp5 & Hl5 & Hr5 & Ha5 & Hf5 & Hs5).
  exists s5, fd. split; [|split_and!].
  - unfold replace_idle. rewrite (ST_bind_Ok _ _ _ _ _ (port_at_Ok _ _ _ Hi)), (ST_bind_Ok _ _ _ _ _ (port_at_Ok _ _ _ Hj)).
    rewrite (ST_bind_Ok _ _ _ _ _ (set_port_Ok _ _ _ _ Hi)).
    rewrite (ST_bind_Ok _ _ _ _ _ (set_port_Ok p _ _ _ (lookup_insert_eq _ _ _))).
    assert (Hj' : pheap (PortFlow.upd p i1 (PortFlow.upd p (set_enabled (enabled j) i) s)) !! q = Some j)
      by (cbn; by rewrite !lookup_insert_ne by done).
    rewrite (ST_bind_Ok _ _ _ _ _ (set_port_Ok _ _ _ _ Hj')).
    rewrite (ST_bind_Ok _ _ _ _ _ (set_port_Ok q _ _ _ (lookup_insert_eq _ _ _))).
    replace (PortFlow.upd q _ _) with s1 by (unfold PortFlow.upd, s1; cbn; by rewrite !insert_insert_eq).
    rewrite (ST_bind_Ok _ _ _ _ _ E2), (ST_bind_Ok _ _ _ _ _ eq_refl). fold s3.
    rewrite (ST_bind_Ok _ _ _ _ _ eq_refl), (ST_bind_Ok _ _ _ _ _ E4), (ST_bind_Ok _ _ _ _ _ E5). done.
  - lia.
  - lia.
  - rewrite Hp5, Hp4. change (pheap s3) with (pheap s2). rewrite Hp2. unfold s1, i1. cbn.
    rewrite (insert_insert_ne _ p q) by done. rewrite insert_insert_eq, delete_insert_eq, delete_insert_ne by done.
    by rewrite insert_insert_eq.
  - rewrite Hl5, Hl4. cbn. by rewrite Hl2, <- Hl.
  - eapply same_rest_trans; [|exact Hr5]. eapply same_rest_trans; [|exact Hr4]. exact Hr2.
  - rewrite Ha5, Ha4. change (alive s3) with (alive s2). rewrite Ha2. change (alive s1) with (alive s). by rewrite HD.
  - done.
  - done.
Qed.

(** *** The whole line *)

(** A port of the list that the line replaces has a session or listens; a new
    port that is enabled is not the one of standard input. *)
Definition line_fits s (name : cstr) (e : Z) (c : port_conf) : Prop :=
  (forall q j, q ∈ ports s -> pheap s !! q = Some j -> portname (conf j) = Some name -> is_busy j = false -> listening j) /\
  (e = PORT_DISABLED \/ sin_port (tcpport c) <> 0).

(** What the run says and leaves. *)
Definition line_done s (name : cstr) (num : Z) (r : cstr + Z * port_conf) (err : option cstr) s' : Prop :=
  pool_ok s' /\ same_rest s s' /\
  match r with
  | inl e => err = Some e /\ entries s' = entries s
  | inr (e, c) =>
      (err = None /\ entries s' = spec_portconfig name e c num (entries s)) \/
      (is_Some err /\ existsb (has_name name) (entries s) = false /\ e <> PORT_DISABLED /\ entries s' = entries s)
  end.

Section after_fill.
Context (s s1 : dx K) (name : cstr) (num e : Z) (c : port_conf) (i : port_info).
Hypothesis Hpool : pool_ok s.
Hypothesis Hst : staged s s1 i.
Hypothesis Hnamed : named i.
Hypothesis Hname : portname (conf i) = Some name.
Hypothesis Hentry : Entry (conf i) (enabled i) (is_busy i) (PortData.config_num i) None = Entry c e false num None.
Hypothesis Hfits : line_fits s name e c.

Lemma fill_unreferenced q j : pheap s1 !! q = Some j -> new_config j <> Some (new_port s).
Proof.
  rewrite (st_heap _ _ _ Hst). intros [[_ <-]|[_ Hj]]%lookup_insert_Some En; [by rewrite (st_new _ _ _ Hst) in En|].
  destruct (po_new _ _ _ (po_pool _ Hpool) _ _ _ Hj En) as (_ & _ & _ & []). by rewrite new_port_free in *.
Qed.

Lemma fill_unlisted : new_port s ∉ ports s1.
Proof.
  rewrite (st_ports _ _ _ Hst). intros Hin. destruct (po_listed _ _ _ (po_pool _ Hpool) _ Hin). by rewrite new_port_free in *.
Qed.

Lemma fill_old q : q ∈ ports s1 -> pheap s1 !! q = pheap s !! q.
Proof. intros Hq. rewrite (st_heap _ _ _ Hst), lookup_insert_ne; [done|]. intros <-. by apply fill_unlisted. Qed.

(** The line of a new port. *)
Definition new_line_run : DX_ K (option cstr) :=
  i ← port_at (new_port s);
  err ← (if negb (enabled i =? PORT_DISABLED) then startup_port (new_port s) else mret None);
  match err with
  | Some _ => errout (new_port s) err
  | None => _ ← modify (fun s0 => with_ports (ports s0 ++ [new_port s]) s0); mret None
  end.

Lemma new_line_done : (forall q j, q ∈ ports s1 -> pheap s1 !! q = Some j -> portname (conf j) <> Some name) ->
  exists err s', new_line_run s1 = Ok (err, s') /\ line_done s name num (inr (e, c)) err s'.
Proof.
  intros Hno. pose proof Hentry as [= Ec Ee Eb En].
  assert (Hno' : forall q j, q ∈ ports s -> pheap s !! q = Some j -> portname (conf j) <> Some name).
  { intros q j Hq Hj. rewrite <- (st_ports _ _ _ Hst) in Hq. apply (Hno q); [done|]. by rewrite fill_old. }
  assert (Hex : existsb (has_name name) (entries s) = false) by (by apply existsb_no_name; [apply Hpool|]).
  assert (Happ : forall s2 i2, staged s s2 i2 -> conf i2 = conf i -> enabled i2 = enabled i -> is_busy i2 = is_busy i ->
    PortData.config_num i2 = PortData.config_num i ->
    line_done s name num (inr (e, c)) None (with_ports (ports s2 ++ [new_port s]) s2)).
  { intros s2 i2 Hst2 F1 F2 F3 F4. destruct (append_ok s s2 i2 Hpool Hst2) as [A B].
    - unfold named. by rewrite F1.
    - rewrite F1, Hname. eauto.
    - split; [exact A|]. split; [apply (st_rest _ _ _ Hst2)|]. left. split; [done|].
      rewrite B. unfold spec_portconfig. rewrite Hex. by rewrite F1, F2, F3, F4, Hentry. }
  unfold new_line_run. rewrite (ST_bind_Ok _ _ _ _ _ (port_at_Ok _ _ _ (staged_lookup _ _ _ Hst))).
  destruct (Z.eqb_spec (enabled i) PORT_DISABLED) as [Ed|Ed]; cbn [negb].
  { eexists _, _. split; [reflexivity|]. by apply (Happ s1 i). }
  destruct Hfits as [_ [?|Hsin]]; [congruence|]. rewrite <- Ec in Hsin.
  destruct (leads_run _ s1 (new_port s) i _ (staged_lookup _ _ _ Hst) (st_fds _ _ _ Hst) (st_sched _ _ _ Hst)
    (leads_startup _ s1 i Hsin)) as (err & s2 & i2 & E2 & (fd & Hfd & -> & _) & Hp2 & Hl2 & Hr2 & Ha2 & Hf2 & Hs2).
  assert (Hst2 : staged s s2 (set_acceptfd fd i)).
  { destruct Hst as [T1 T2 T3 T4 T5 T6 T7 T8 T9]. constructor; try done.
    - by rewrite Hp2, T1, insert_insert_eq.
    - congruence.
    - by eapply same_rest_trans.
    - congruence. }
  rewrite (ST_bind_Ok _ _ _ _ _ E2). destruct err as [m|].
  - destruct (errout_ok s s2 _ (Some m) Hpool Hst2) as (s3 & E3 & Hok & Hr3 & He3). exists (Some m), s3.
    split; [done|]. split; [done|]. split; [done|]. right. split_and!; [eauto | done | congruence | done].
  - eexists _, _. split; [reflexivity|]. by apply (Happ s2 (set_acceptfd fd i)).
Qed.

(** The line of a port that exists. *)
Lemma old_line_done q j : q ∈ ports s1 -> pheap s1 !! q = Some j -> portname (conf j) = Some name ->
  exists s', (if fl_state (dev_to_tcp j) =? PORT_UNCONNECTED then replace_idle (new_port s) q
              else replace_later (new_port s) q num) s1 = Ok (tt, s') /\ line_done s name num (inr (e, c)) None s'.
Proof.
  intros Hq Hj Hjn. pose proof Hentry as [= Ec Ee Eb En]. pose proof (staged_pool _ _ _ Hpool Hst Hnamed) as Hp1.
  pose proof (staged_lookup _ _ _ Hst) as Hi. pose proof fill_unlisted as Hpl. pose proof fill_unreferenced as Href.
  assert (Hqp : new_port s <> q) by congruence.
  assert (Hjs : pheap s !! q = Some j) by (by rewrite <- fill_old).
  assert (Hqs : q ∈ ports s) by (by rewrite <- (st_ports _ _ _ Hst)).
  assert (Hex : existsb (has_name name) (entries s) = true) by (by apply (existsb_name _ _ q j)).
  assert (Hes : omap (entry_of (pheap s1)) (ports s1) = entries s).
  { rewrite (st_ports _ _ _ Hst). by eapply staged_entries. }
  assert (Hend : forall s', pool_ok s' -> same_rest s1 s' ->
    entries s' = map (fun x => if has_name name x then reconfigured e (conf i) num x else x) (entries s) ->
    line_done s name num (inr (e, c)) None s').
  { intros s' A B C. split; [exact A|]. split; [eapply same_rest_trans; [apply Hst | exact B]|]. left. split; [done|].
    unfold spec_portconfig. by rewrite Hex, C, Ec. }
  destruct (fl_state (dev_to_tcp j) =? PORT_UNCONNECTED) eqn:Est.
  - assert (Hb : is_busy j = false) by (unfold is_busy; by rewrite Est).
    assert (Hnj : new_config j = None).
    { destruct (new_config j) as [n|] eqn:Enj; [|done]. destruct (po_new _ _ _ Hp1 _ _ _ Hj Enj) as (_ & ? & _). congruence. }
    destruct (replace_idle_run s1 _ q i j _ _ Hp1 eq_refl eq_refl (st_fds _ _ _ Hst) (st_sched _ _ _ Hst) Hi Hqp Hj Hnj)
      as (s2 & fd & E2 & Hfd & Hp2 & Hl2 & Hr2 & Ha2 & Hf2 & Hs2); [by eapply (proj1 Hfits)|].
    exists s2. split; [done|]. apply Hend; [|done|].
    + constructor; try done. rewrite Hp2, Hl2, Ha2.
      apply (gives_way_pool _ _ _ _ _ i _ j); try done; [by rewrite Hname | apply Hst].
    + unfold entries at 1. rewrite Hp2, Hl2, <- Hes.
      eapply (gives_way_entries _ _ _ _ _ _ _ _ _ _ _ Hjn Hp1 Hj Hq Hb Hi Hpl Href). unfold entry_of.
      rewrite lookup_insert_eq. cbn. rewrite (st_new _ _ _ Hst). cbn. change (is_busy (set_enabled _ _)) with (is_busy i). by rewrite Ee, Eb, En.
  - assert (Hb : is_busy j = true) by (unfold is_busy; by rewrite Est).
    rewrite (replace_later_run s1 _ q num j Hj) by (intros Enj; by destruct (po_new _ _ _ Hp1 _ _ _ Hj Enj) as (_ & _ & ? & _)).
    eexists. split; [reflexivity|]. apply Hend; [|done|].
    + constructor; [|apply Hst..]. by eapply waiting_pool.
    + unfold entries at 1. cbn. rewrite <- Hes. by eapply waiting_entries.
Qed.
End after_fill.

Lemma line_result_named `{ConfigNames} portnum state timeout devname devcfg e c :
  line_result portnum state timeout devname devcfg = Ok (inr (e, c)) -> portname c = Some portnum /\ is_Some (PortData.devname c).
Proof.
  unfold line_result. intros ([[rv addr] left] & _ & Hr)%res_bind_inv. destruct (rv =? -1); [done|].
  destruct (state_word state) as [e'|]; [|done]. apply res_bind_inv in Hr as (t & _ & Hr). destruct (t =? -1); [done|].
  destruct (devconfig _ _) as [rv' d]. destruct (rv' =? -1); [done|]. injection Hr as <- <-. cbn. eauto.
Qed.

Lemma portconfig_done `{ConfigNames} s portnum state timeout devname devcfg num r : pool_ok s ->
  Z.of_nat (size (timers (theap (dsel s)))) + 1 < 2 ^ 32 -> line_result portnum state timeout devname devcfg = Ok r ->
  (forall e c, r = inr (e, c) -> line_fits s portnum e c) ->
  exists err s', portconfig portnum state timeout devname devcfg num s = Ok (err, s') /\ line_done s portnum num r err s'.
Proof.
  intros Hs Hsz Hr Hfits. destruct (portconfig_start s portnum state timeout devname devcfg num r Hs Hsz Hr)
    as (err & s1 & i & Erun & Hres & Hst). unfold portconfig. rewrite Erun. destruct r as [m|[e c]].
  - subst err. destruct (errout_ok s s1 i (Some m) Hs Hst) as (s2 & E2 & A & B & C). exists (Some m), s2.
    by split_and!.
  - destruct Hres as [-> Ei]. destruct (line_result_named _ _ _ _ _ _ _ Hr) as [Hpn Hdn].
    assert (Hn : named i) by (subst i; split; cbn; [rewrite Hpn; eauto | done]).
    assert (Hpi : portname (conf i) = Some portnum) by (by subst i).
    assert (He : Entry (conf i) (enabled i) (is_busy i) (PortData.config_num i) None = Entry c e false num None) by (by subst i).
    clear Ei. destruct (find_name_spec _ _ _ portnum (staged_pool _ _ _ Hs Hst Hn)) as (o & Eo & Ho).
    rewrite (ST_bind_Ok _ _ _ _ _ eq_refl). rewrite (ST_bind_Ok _ _ _ o s1) by (unfold lift_res; by rewrite Eo).
    specialize (Hfits e c eq_refl). destruct o as [q|].
    + destruct Ho as (Hq & j & Hj & Hjn). rewrite (ST_bind_Ok _ _ _ _ _ (port_at_Ok _ _ _ Hj)).
      destruct (old_line_done s s1 portnum num e c i Hs Hst Hn Hpi He Hfits q j Hq Hj Hjn) as (s2 & E2 & Hd).
      rewrite (ST_bind_Ok _ _ _ _ _ E2). by exists None, s2.
    + exact (new_line_done s s1 portnum num e c i Hs Hst Hn Hpi He Hfits Ho).
Qed.

(** *** The end of the file *)

Lemma unlink_port_app l1 l2 p : p ∉ l1 -> unlink_port (l1 ++ p :: l2) p = l1 ++ l2.
Proof.
  induction l1 as [|q l1 IH]; cbn [app unlink_port]; intros Hp; [by rewrite bool_decide_eq_true_2|].
  apply not_elem_of_cons in Hp as [? Hp]. rewrite bool_decide_eq_false_2 by congruence. by rewrite IH.
Qed.

Lemma omap_entries_frame (h h' : gmap ptr port_info) (l : list ptr) : (forall q, q ∈ l -> entry_of h' q = entry_of h q) ->
  omap (entry_of h') l = omap (entry_of h) l.
Proof. intros Hq. rewrite (omap_others (entry_of h) _ id); [apply list_fmap_id | eauto]. Qed.

(** An idle port leaves the list and is freed. *)
Lemma drop_idle s pre x l j : pool_ok s -> ports s = pre ++ x :: l -> pheap s !! x = Some j -> is_busy j = false ->
  exists s', free_port (size (pheap s)) x (with_ports (unlink_port (ports s) x) s) = Ok (tt, s') /\
    pool_ok s' /\ same_rest s s' /\ ports s' = pre ++ l /\ pheap s' = delete x (pheap s) /\
    forall q, q ∈ pre ++ l -> entry_of (pheap s') q = entry_of (pheap s) q.
Proof.
  intros Hs Hl Hj Hb. pose proof (po_pool _ Hs) as Hp. pose proof (po_nodup _ _ _ Hp) as Hnd. rewrite Hl in Hnd.
  assert (Hnl : x ∉ pre ++ l).
  { apply NoDup_app in Hnd as (_ & Hd & Hnd). apply NoDup_cons in Hnd as [Hx _]. rewrite elem_of_app. intros [Hx'|?]; [|done].
    apply (Hd _ Hx'). by left. }
  assert (Hin : x ∈ ports s) by (rewrite Hl; set_solver).
  assert (Hnj : new_config j = None).
  { destruct (new_config j) as [n|] eqn:En; [|done]. destruct (po_new _ _ _ Hp _ _ _ Hj En) as (_ & ? & _). congruence. }
  assert (Href : forall q i, pheap s !! q = Some i -> new_config i <> Some x).
  { intros q i Hi En. by destruct (po_new _ _ _ Hp _ _ _ Hi En) as (_ & _ & ? & _). }
  set (s1 := with_ports (pre ++ l) s).
  destruct (free_port_ok (size (pheap s)) s1 x j Hj Hnj (po_accept _ _ _ Hp _ _ Hj) (po_timer _ _ _ Hp _ _ Hj)
    (po_fds _ Hs) (po_sched _ Hs)) as (s2 & E2 & F1 & F2 & F3 & F4 & F5 & F6).
  exists s2. split.
  { rewrite Hl, unlink_port_app by set_solver. exact E2. }
  assert (Hsub : forall q, q ∈ pre ++ l -> q ∈ ports s /\ q <> x).
  { intros q Hq. split; [rewrite Hl; set_solver | congruence]. }
  split; [|split_and!; try done].
  - constructor; [|done..]. rewrite F1, F2, F4. change (pheap s1) with (pheap s). change (alive s1) with (alive s).
    apply (pool_delete _ _ (alive s)); [|done | done |].
    + apply (pool_relist _ (ports s)); [done | | | |].
      * apply NoDup_app in Hnd as (? & Hd & [? ?]%NoDup_cons). apply NoDup_app. split_and!; try done. intros y Hy Hy'.
        apply (Hd y Hy). by right.
      * intros q Hq. eapply po_listed; [exact Hp | by apply Hsub].
      * intros q i n Hi En. destruct (po_new _ _ _ Hp _ _ _ Hi En) as (A & B & C & _). rewrite Hl in A, C.
        assert (q <> x) by (intros ->; congruence). split; set_solver.
      * intros q1 q2 i1 i2 [A _]%Hsub [B _]%Hsub. by apply (po_unique _ _ _ Hp).
    + intros q i Hne Hi. pose proof (po_timer _ _ _ Hp _ _ Hi). apply elem_of_difference. split; [done|].
      intros Et%elem_of_singleton. apply Hne. by eapply (po_inj _ _ _ Hp).
  - intros q Hq. rewrite F1. change (pheap s1) with (pheap s). apply entry_of_frame.
    + apply lookup_delete_ne. intros <-. done.
    + intros i n Hi En. rewrite lookup_delete_ne; [done|]. intros <-. exact (Href _ _ Hi En).
Qed.

(** A port with a session is marked. *)
Lemma mark_busy s x j : pool_ok s -> x ∈ ports s -> pheap s !! x = Some j -> is_busy j = true ->
  let s' := PortFlow.upd x (set_config_num (-1) j) s in
  pool_ok s' /\ entry_of (pheap s') x = (y ← entry_of (pheap s) x; Some (Entry (e_conf y) (e_enabled y) true (-1) (e_next y))) /\
  forall q, q <> x -> q ∈ ports s -> entry_of (pheap s') q = entry_of (pheap s) q.
Proof.
  intros Hs Hx Hj Hb s'. pose proof (po_pool _ Hs) as Hp.
  assert (Hlk : pheap s' !! x = Some (set_config_num (-1) j)) by apply lookup_insert_eq.
  assert (Hconf : forall n, conf <$> pheap s' !! n = conf <$> pheap s !! n).
  { intros n. destruct (decide (n = x)) as [->|]; [by rewrite Hlk, Hj | by cbn; rewrite lookup_insert_ne]. }
  split_and!.
  - constructor; [|apply Hs..]. eapply pool_update; [exact Hp | exact Hj | done | done | exact (po_accept _ _ _ Hp _ _ Hj) |].
    intros n En. change (new_config (set_config_num (-1) j)) with (new_config j) in En.
    destruct (po_new _ _ _ Hp _ _ _ Hj En) as (A & B & C & D). split_and!; try done.
    intros q i Hne Hi En'. apply Hne. by eapply (po_new_inj _ _ _ Hp).
  - unfold entry_of. rewrite Hlk, Hj. cbn. change (is_busy (set_config_num _ _)) with (is_busy j). rewrite Hb.
    destruct (new_config j) as [n|]; [|done]. cbn. by rewrite Hconf.
  - intros q Hne _. apply entry_of_frame; [by apply lookup_insert_ne | auto].
Qed.

Lemma spec_clear_cons num x l : spec_clear num (x :: l) =
  (if e_num x =? num then [x] else if e_busy x then [Entry (e_conf x) (e_enabled x) true (-1) (e_next x)] else []) ++ spec_clear num l.
Proof. unfold spec_clear. cbn. destruct (e_num x =? num); [done|]. by destruct (e_busy x). Qed.

Lemma clear_loop_done num l pre s : pool_ok s -> ports s = pre ++ l ->
  exists s', clear_loop l num s = Ok (tt, s') /\ pool_ok s' /\ same_rest s s' /\
    entries s' = omap (entry_of (pheap s)) pre ++ spec_clear num (omap (entry_of (pheap s)) l).
Proof.
  induction l as [|x l IH] in pre, s |- *; intros Hs Hl; cbn [clear_loop].
  { exists s. unfold entries. by rewrite Hl, omap_app. }
  pose proof (po_pool _ Hs) as Hp. assert (Hx : x ∈ ports s) by (rewrite Hl; set_solver).
  destruct (po_listed _ _ _ Hp _ Hx) as [j Hj]. rewrite (ST_bind_Ok _ _ _ _ _ (port_at_Ok _ _ _ Hj)).
  destruct (entry_of_some _ _ _ Hj) as [y Hy].
  assert (Hyn : e_num y = PortData.config_num j /\ e_busy y = is_busy j) by (unfold entry_of in Hy; rewrite Hj in Hy; by injection Hy as <-).
  destruct Hyn as [Hyn Hyb].
  assert (Hcons : spec_clear num (omap (entry_of (pheap s)) (x :: l)) =
    (if e_num y =? num then [y] else if e_busy y then [Entry (e_conf y) (e_enabled y) true (-1) (e_next y)] else []) ++
    spec_clear num (omap (entry_of (pheap s)) l)) by (rewrite <- (spec_clear_cons num y); f_equal; cbn; by rewrite Hy).
  rewrite Hcons, Hyn, Hyb. unfold is_busy. destruct (PortData.config_num j =? num); cbn [negb].
  { destruct (IH (pre ++ [x]) s Hs) as (s' & E & A & B & C); [by rewrite <- app_assoc|]. exists s'. split_and!; try done.
    rewrite C, omap_app, <- app_assoc. cbn. by rewrite Hy. }
  destruct (fl_state (dev_to_tcp j) =? PORT_UNCONNECTED) eqn:Est; cbn [negb].
  - destruct (drop_idle s pre x l j Hs Hl Hj) as (s1 & E1 & A1 & B1 & C1 & D1 & F1); [unfold is_busy; by rewrite Est|].
    destruct (IH pre s1 A1 C1) as (s' & E & A & B & C). exists s'. split_and!; [| done | by eapply same_rest_trans |].
    + by rewrite 2!(ST_bind_Ok _ _ _ _ _ eq_refl), (ST_bind_Ok _ _ _ _ _ E1).
    + rewrite C, !(omap_entries_frame (pheap s) (pheap s1)); [done|..]; intros; apply F1; set_solver.
  - destruct (mark_busy s x j Hs Hx Hj) as (A1 & F1 & G1); [unfold is_busy; by rewrite Est|]. set (s1 := PortFlow.upd _ _ s) in *.
    assert (Hnd : x ∉ pre /\ x ∉ l).
    { pose proof (po_nodup _ _ _ Hp) as Hnd. rewrite Hl in Hnd. apply NoDup_app in Hnd as (_ & Hd & [? _]%NoDup_cons). split; [|done].
      intros Hin. apply (Hd _ Hin). by left. }
    destruct (IH (pre ++ [x]) s1 A1) as (s' & E & A & B & C); [cbn; by rewrite <- app_assoc|]. exists s'.
    split_and!; [by rewrite (ST_bind_Ok _ _ _ _ _ (set_port_Ok _ _ _ _ Hj)) | done | exact B |].
    rewrite C, omap_app, <- app_assoc.
    rewrite (omap_entries_frame (pheap s) (pheap s1) pre), (omap_entries_frame (pheap s) (pheap s1) l).
    + f_equal. cbn [omap list_omap]. by rewrite F1, Hy.
    + intros q Hq. apply G1; [|rewrite Hl; set_solver]. intros ->. by destruct Hnd.
    + intros q Hq. apply G1; [|rewrite Hl; set_solver]. intros ->. by destruct Hnd.
Qed.
End table.

(** ** The claims *)

(** C16: A line of the configuration ([portconfig]) from a table of ports that
    satisfies the invariant [pool_ok].  A line with an error is answered with
    its first error and changes no port.  Otherwise the table becomes what
    [spec_portconfig] says - a new port at the end of the list, an idle port
    with the same name replaced in its place, the new configuration kept with
    a port that has a session in place of one that waited before - or the
    accept socket of a new port cannot be opened, and the table stays as it
    is and the answer says why.  Pointers, timers, names and waiting
    configurations satisfy the invariant again. *)
Theorem portconfig_refines {K} `{NetLaws K} `{Memory K} `{Resolver} `{ConfigNames} (s : dx K)
    portnum state timeout devname devcfg num r :
  pool_ok s -> Z.of_nat (size (timers (theap (dsel s)))) + 1 < 2 ^ 32 ->
  line_result portnum state timeout devname devcfg = Ok r ->
  (forall e c, r = inr (e, c) -> line_fits s portnum e c) ->
  exists err s', portconfig portnum state timeout devname devcfg num s = Ok (err, s') /\ pool_ok s' /\ same_rest s s' /\
    match r with
    | inl e => err = Some e /\ entries s' = entries s
    | inr (e, c) =>
        (err = None /\ entries s' = spec_portconfig portnum e c num (entries s)) \/
        (is_Some err /\ existsb (has_name portnum) (entries s) = false /\ e <> PORT_DISABLED /\ entries s' = entries s)
    end.
Proof. apply portconfig_done. Qed.

(** The end of the configuration ([clear_old_port_config]) removes exactly
    the ports of another configuration that have no session, in the order of
    the list, and marks the ones that have one, so that they go when it ends;
    the invariant of the table is kept. *)
Theorem clear_old_refines {K} `{NetLaws K} (s : dx K) num : pool_ok s ->
  exists s', clear_old_port_config num s = Ok (tt, s') /\ pool_ok s' /\ same_rest s s' /\
    entries s' = spec_clear num (entries s).
Proof. intros Hs. exact (clear_loop_done num (ports s) [] s Hs eq_refl). Qed.

(** *** Witnesses *)

#[local] Existing Instances demo_names demo_resolver.

#[local] Instance netk_memory : Memory netk := {
  junk_port _ := demo_idle 0 None;
  junk_timer _ := SelTimer 0%nat 0%nat (TV 0 0) false None None None
}.

Lemma demo_waiting_port p i : pheap (demo_waiting PORT_TELNET None []) !! p = Some i ->
  p = 1%positive /\ i = demo_idle PORT_TELNET None.
Proof. cbn [pheap demo_waiting]. unfold ptr in *. by intros [<- <-]%lookup_singleton_Some. Qed.

Lemma demo_pool_ok : pool_ok (demo_waiting PORT_TELNET None []).
Proof.
  pose proof demo_waiting_port as Hlk.
  constructor; [|apply (demo_fds_ok _ ∅) | exact demo_heap_ok]. constructor.
  - apply NoDup_singleton.
  - intros p ->%list_elem_of_singleton. eexists. apply lookup_singleton_eq.
  - intros p i [-> ->]%Hlk. by split; eexists.
  - by intros p i [-> ->]%Hlk.
  - intros p i [-> ->]%Hlk. by vm_compute.
  - intros p q i j [-> ->]%Hlk [-> ->]%Hlk. done.
  - by intros p i n [-> ->]%Hlk.
  - by intros p q i j n [-> ->]%Hlk.
  - intros p q i j ->%list_elem_of_singleton ->%list_elem_of_singleton. done.
Qed.

(** The port "2000" as the line [2000:raw:600:/dev/ttyS1:9600] asks for it. *)
Definition demo_result : res (cstr + Z * port_conf) :=
  line_result (str "2000") (str "raw") (str "600") (str "/dev/ttyS1") (str "9600").
Definition demo_conf : port_conf :=
  match demo_result with Ok (inr (_, c)) => c | _ => conf (demo_idle 0 None) end.

Lemma portconfig_refines_witness :
  exists err s', portconfig (str "2000") (str "raw") (str "600") (str "/dev/ttyS1") (str "9600") 2
      (demo_waiting PORT_TELNET None []) = Ok (err, s') /\ err = None /\ pool_ok s' /\
    entries s' = [Entry demo_conf PORT_RAW false 2 None].
Proof.
  destruct (portconfig_refines (demo_waiting PORT_TELNET None []) (str "2000") (str "raw") (str "600") (str "/dev/ttyS1")
      (str "9600") 2 (inr (PORT_RAW, demo_conf)) demo_pool_ok) as (err & s' & E & Hok & _ & [[-> Hs]|(_ & He & _)]).
  - vm_compute. reflexivity.
  - vm_compute. reflexivity.
  - intros e c [= <- <-]. split; [|right; by vm_compute]. intros q j _ [_ ->]%demo_waiting_port _ _. by vm_compute.
  - exists None, s'. split; [exact E|]. split; [done|]. split; [exact Hok|]. rewrite Hs. vm_compute. reflexivity.
  - exfalso. revert He. vm_compute. discriminate.
Defined.

Lemma clear_old_refines_witness :
  exists s', clear_old_port_config 2 (demo_waiting PORT_TELNET None []) = Ok (tt, s') /\ pool_ok s' /\ entries s' = [].
Proof.
  destruct (clear_old_refines (demo_waiting PORT_TELNET None []) 2 demo_pool_ok) as (s' & E & Hok & _ & Hs).
  exists s'. split_and!; [exact E | exact Hok|]. rewrite Hs. vm_compute. reflexivity.
Defined.

(** A port that is "off" has no accept socket.  When its line is read again,
    [sel_set_fd_handlers] is called for descriptor -1 and indexes its table
    with it. *)
Example off_port_read_again :
  (_ ← portconfig (str "3000") (str "off") (str "600") (str "/dev/ttyS1") (str "9600") 1;
   portconfig (str "3000") (str "off") (str "600") (str "/dev/ttyS1") (str "9600") 2)
    (demo_waiting PORT_TELNET None []) = Crash OutOfBounds.
Proof. by vm_compute. Qed.
