(* ===== verification/PortStream.v ===== *)
(** * What a port transfers: properties of [PortFlow.v]

    The bytes of the device reach the connection in order, doubled where the
    port is a telnet port, none lost and none twice; the bytes of a raw
    connection reach the device; a shut down port is unconnected or gone; and
    the two places where the code leaves its buffers. *)

From S2P Require Import Prelude CStr SelHeap Selector Telnet Utils DevCfg PortData PortFlow PortScript.

(** ** From a raw connection to the device *)

Section raw.
Context {K : Type} `{!Kernel K} `{!KernelLaws K} `{!ComPort K}.
Implicit Types (s : dx K) (i : port_info) (p : ptr).

Lemma tcp_forward_step p s i d rest :
  pheap s !! p = Some i -> flow_shape (tcpfd i) (devfd i) (tcp_to_dev i) -> trace_free (devfd i) i ->
  monitor_ok (tcp_monitor i) (devfd i) s ->
  fl_start (tcp_to_dev i) = 0 -> fl_count (tcp_to_dev i) = Z.of_nat (length d) -> d <> [] ->
  fl_buf (tcp_to_dev i) = d ++ rest ->
  flow_result (tcp_forward p) p s
    (fun s' i' => pheap s' !! p = Some i' /\ same_line i i' /\ ctl_fds s' = ctl_fds s /\
       flow_ok (tcpfd i) (devfd i) (tcp_to_dev i') (dsel s') /\
       (forall fd, received (kern s') fd = received (kern s) fd) /\
       t2d_stream s' i' = sent (kern s) (devfd i) ++ d)
    (fun s1 i1 => pheap s1 !! p = Some i1 /\ (forall fd, received (kern s1) fd = received (kern s) fd) /\
       sent (kern s1) (devfd i) = sent (kern s) (devfd i)).
Proof.
  intros Hi Hsh Htf Hm Hst Hcn Hne Hbuf. unfold tcp_forward.
  eapply flow_result_bind; [by apply port_at_Ok|]. rewrite Hcn, Hbuf, Nat2Z.id, take_app_exact.
  destruct (monitor_step (tcp_monitor i) (devfd i) (d ++ rest) (Z.of_nat (length d)) s Hm)
    as (k1 & Em & Hs1 & Hr1); [rewrite length_app; lia|].
  eapply flow_result_bind; [exact Em|].
  destruct (trace_if_step p WT d NET (with_kern k1 s) i ltac:(cbn; lia) Hi) as (s2 & i2 & E2 & T2).
  eapply flow_result_bind; [exact E2|].
  destruct (trace_if_step p BT d NET s2 i2 ltac:(cbn; lia) (traced_lookup _ _ _ _ _ T2)) as (s3 & i3 & E3 & T3).
  eapply flow_result_bind; [exact E3|].
  pose proof (traced_trans _ _ _ _ _ _ _ T2 T3) as T.
  pose proof (traced_state _ _ _ _ _ T) as (Hsel & Hctl & _ & Ht2d).
  pose proof (traced_same_line _ _ _ _ _ T) as HL. pose proof HL as (L1 & L2 & L3 & L4 & L5 & L6 & L7 & L8).
  pose proof (tc_sent _ _ _ _ _ T (devfd i) Htf) as Hs3. pose proof (tc_received _ _ _ _ _ T) as Hr3.
  cbn [kern with_kern] in Hs3, Hr3.
  destruct (retry_write_step (devfd i) d s3) as (r & k4 & E4 & Hr & Hs4 & Hrec).
  eapply flow_result_bind; [exact E4|].
  assert (Hp : pending (tcp_to_dev i3) = d).
  { unfold pending. rewrite Ht2d, Hst, Hcn, Hbuf, Nat2Z.id. cbn [Z.to_nat]. rewrite drop_0. apply take_app_length. }
  destruct (tcp_written_step p (with_kern k4 s3) i3 r)
    as [(s' & i' & Er & H1 & H2 & H3 & H4 & H5 & H6)|(re & s1 & i1 & Er & Hre & H1 & H2 & [H3 H3'] & [e ->])].
  - apply (traced_lookup _ _ _ _ _ T3).
  - by rewrite L3, L4, Ht2d.
  - by rewrite Ht2d.
  - rewrite Ht2d, Hcn. destruct d; [done | cbn; lia].
  - rewrite Hp. destruct r; apply Hr.
  - left. exists s', i'. split; [exact Er|]. rewrite L3, L4 in *. split_and!.
    + done.
    + by eapply same_line_trans.
    + rewrite H4. exact Hctl.
    + done.
    + intros fd. rewrite H3. cbn. by rewrite Hrec, Hr3, Hr1.
    + unfold t2d_stream. destruct H2 as (_ & _ & M3 & _). rewrite M3, L3, H3, H6, Hp. cbn [kern with_kern].
      destruct r as [n|e].
      * destruct Hr as (_ & _ & ->). by rewrite <- app_assoc, take_drop, Hs3, Hs1.
      * destruct Hr as [_ ->]. by rewrite Hs3, Hs1.
  - right. exists re, s1, i1. split; [exact Er|]. split; [done|]. split; [done|]. split.
    + intros fd. rewrite H3'. cbn. by rewrite Hrec, Hr3, Hr1.
    + rewrite H3. cbn. destruct Hr as [_ ->]. by rewrite Hs3, Hs1.
Qed.

Lemma handle_tcp_fd_read_raw p s i :
  t2d_ok p s i -> enabled i <> PORT_TELNET -> tcpfd i ∈ read_set (dsel s) ->
  t2d_after p s i (handle_tcp_fd_read (tcpfd i) p).
Proof.
  intros Hok Hraw Hready. pose proof Hok as [Hi Hfl Htf Hm].
  pose proof Hfl as [[Hsrc Hdst Hdiff Hbuf Hrange] Hbl].
  assert (Hc0 : fl_count (tcp_to_dev i) = 0).
  { destruct (decide (fl_count (tcp_to_dev i) = 0)) as [E|E]; [done|]. by destruct (Hbl E). }
  assert (Hstream : t2d_stream s i = sent (kern s) (devfd i)).
  { unfold t2d_stream, pending. by rewrite Hc0, app_nil_r. }
  unfold t2d_after, handle_tcp_fd_read. rewrite Hstream.
  rewrite (ST_bind_Ok _ _ _ _ _ (port_at_Ok _ _ _ Hi)), (ST_bind_Ok _ _ _ _ _ (set_port_Ok p _ i s Hi)).
  set (i1 := set_tcp_to_dev (fl_set_start 0) i).
  destruct (sys_read (tcpfd i) PORT_BUFSIZE (kern s)) as [r k1] eqn:Er.
  assert (Esys : sys (sys_read (tcpfd i) PORT_BUFSIZE) (upd p i1 s) = Ok (r, upd p i1 (with_kern k1 s))).
  { exact (step_sys _ (upd p i1 s) r k1 Er). }
  rewrite (ST_bind_Ok _ _ _ _ _ Esys). destruct r as [[|b d]|e].
  - apply read_done in Er as (_ & A & B & _). right.
    rewrite (ST_bind_Ok _ _ _ _ _ (set_port_Ok p _ i1 _ (upd_lookup p i1 _))), upd_upd.
    eexists _, _, _, []. split; [reflexivity|]. split; [apply upd_lookup|]. cbn. rewrite A, B.
    split; [done | by rewrite app_nil_r].
  - set (dd := b :: d) in *. apply read_done in Er as (Hlen & A & B & _).
    rewrite (ST_bind_Ok _ _ _ _ _ (set_port_Ok p _ i1 _ (upd_lookup p i1 _))), upd_upd.
    rewrite (ST_bind_Ok _ _ _ _ _ (set_port_Ok p _ _ _ (upd_lookup p _ _))), upd_upd.
    rewrite (proj2 (Z.eqb_neq _ _)) by done.
    assert (Hdd : dd <> []) by done. set (i2 := add_tcp_rx _ _). clearbody dd.
    destruct (tcp_forward_step p (upd p i2 (with_kern k1 s)) i2 dd (drop (length dd) (fl_buf (tcp_to_dev i))))
      as [(s' & i' & H1 & H2 & H3 & H4 & H5 & H6 & H7)|(re & s1 & i1' & H1 & _ & H2 & H3 & H4)].
    + apply upd_lookup.
    + constructor; cbn [i2 tcpfd devfd]; try done.
      * cbn. unfold read_into. rewrite length_app, length_drop, Hbuf. lia.
      * cbn. lia.
    + exact Htf.
    + exact Hm.
    + done.
    + done.
    + done.
    + done.
    + left. exists s', i', dd. split; [exact H1|].
      assert (HL : same_line i i') by (eapply same_line_trans; [|exact H3]; by split_and!).
      split_and!; [by eapply t2d_ok_keep | done | |].
      * rewrite H6. apply B.
      * rewrite H7. cbn. by rewrite A.
    + right. exists re, s1, i1', dd. split; [exact H1|]. split; [exact H2|]. split.
      * rewrite H3. apply B.
      * cbn in H4. rewrite H4, A. apply prefix_app_r. done.
  - apply read_failed in Er as (A & B & _). right.
    rewrite (ST_bind_Ok _ _ _ _ _ (set_port_Ok p _ i1 _ (upd_lookup p i1 _))), upd_upd.
    rewrite (ST_bind_Ok _ _ _ _ _ eq_refl).
    eexists _, _, _, []. split; [reflexivity|]. split; [apply upd_lookup|]. cbn.
    destruct (syslog_quiet "read error" k1) as (A2 & B2 & _). rewrite B2, B, A2, A.
    split; [by rewrite app_nil_r | apply prefix_app_r; done].
Qed.
End raw.

(** ** Shutting a port down *)

(** [dx_step] runs the first operation of a sequence of system calls and
    updates of one port. *)
Ltac dx_step :=
  match goal with
  | |- context [((?m ≫= ?h) ≫= ?k) ?s] => rewrite (ST_bind_assoc m h k s)
  | |- context [(sys_do ?f ≫= ?k) ?s] => rewrite (ST_bind_Ok (sys_do f) k s _ _ eq_refl)
  | |- context [(mret ?a ≫= ?k) ?s] => rewrite (ST_bind_Ok (mret a) k s _ _ eq_refl)
  | |- context [(port_at ?p ≫= ?k) ?s] =>
      erewrite (ST_bind_Ok (port_at p) k s); [|apply port_at_Ok; first [eassumption | apply lookup_insert_eq]]
  | |- context [(set_port ?p ?f ≫= ?k) ?s] =>
      erewrite (ST_bind_Ok (set_port p f) k s); [|apply set_port_Ok; first [eassumption | apply lookup_insert_eq]]
  | |- context [set_port ?p ?f ?s] =>
      erewrite (set_port_Ok p f _ s); [|first [eassumption | apply lookup_insert_eq]]
  end.

Section shutdown.
Context {K : Type} `{!Kernel K} `{!KernelLaws K}.
Implicit Types (s : dx K) (i : port_info) (p : ptr).

(** The open trace files, each once. *)
Definition trace_files i : list Z :=
  let w := tr_file (wt i) in let r := tr_file (rt i) in let b := tr_file (bt i) in
  List.filter (fun f => negb (f =? -1))
    ([w] ++ (if r =? w then [] else [r]) ++ (if (b =? w) || (b =? r) then [] else [b])).

Definition close_all (files : list Z) (k : K) : K := fold_left (fun k f => sys_close f k) files k.

Definition traces_off i : port_info :=
  set_traces (trace_set_file (-1) (wt i)) (trace_set_file (-1) (rt i)) (trace_set_file (-1) (bt i)) i.

Lemma trace_files_NoDup i : NoDup (trace_files i).
Proof.
  unfold trace_files. apply NoDup_ListNoDup, List.NoDup_filter, NoDup_ListNoDup.
  destruct (Z.eqb_spec (tr_file (rt i)) (tr_file (wt i))), (Z.eqb_spec (tr_file (bt i)) (tr_file (wt i)));
    cbn [orb app]; try destruct (Z.eqb_spec (tr_file (bt i)) (tr_file (rt i)));
    repeat constructor; rewrite ?elem_of_cons; set_solver.
Qed.

(** Setting a trace file that is off to off changes nothing. *)
Lemma trace_set_file_same t : trace_set_file (tr_file t) t = t.
Proof. by destruct t. Qed.

Lemma with_kern_upd p i k s : with_kern k (upd p i s) = upd p i (with_kern k s).
Proof. done. Qed.

Lemma close_traces_step p i s : pheap s !! p = Some i ->
  close_traces p s = Ok (tt, upd p (traces_off i) (with_kern (close_all (trace_files i) (kern s)) s)).
Proof.
  intros Hi. unfold close_traces, close_all, trace_files, traces_off.
  destruct i as [cf en tl tm af tf df re by_ t2d d2t tmo dmo cn nc tn rf [wh ws w] [rh rs r] [bh bs b]].
  destruct (w =? -1) eqn:Ew, (r =? -1) eqn:Er, (b =? -1) eqn:Eb, (r =? w) eqn:Erw, (b =? w) eqn:Ebw, (b =? r) eqn:Ebr;
    bprop; subst; try lia.
  all: repeat (cbn [negb orb andb app List.filter fold_left tr_file wt rt bt set_trace_file set_traces trace_set_file];
      rewrite ?Z.eqb_refl; repeat rewrite (proj2 (Z.eqb_neq _ _)) by congruence; try dx_step).
  all: try (rewrite ?with_kern_upd, ?upd_upd; reflexivity).
  all: rewrite with_kern_same, upd_same; [reflexivity | exact Hi].
Qed.

(** The line [b] to the files [files], one after the other, whatever is
    answered. *)
Definition write_all (files : list Z) (b : list Z) (k : K) : K :=
  fold_left (fun k f => snd (sys_write f b k)) files k.

(** The last line of the traces, and the files it goes to: those of the traces
    with times, each once.  (The file -1 of a trace that is not open is left
    out by the test for files already written to, as long as there are none.) *)
Definition closing_line (reason : list Z) (k : K) : list Z :=
  sys_timestamp k ++ chars "CLOSE (" ++ reason ++ chars ")" ++ [10].

Definition footer_files i : list Z :=
  let r := if negb (tr_file (rt i) =? -1) && tr_timestamp (rt i) then [tr_file (rt i)] else [] in
  let w := if negb (tr_file (wt i) =? List.hd (-1) r) && tr_timestamp (wt i) then [tr_file (wt i)] else [] in
  let b := if negb (tr_file (bt i) =? List.hd (-1) r) && negb (tr_file (bt i) =? List.hd (-1) w) && tr_timestamp (bt i)
           then [tr_file (bt i)] else [] in
  r ++ w ++ b.

Lemma footer_files_NoDup i : NoDup (footer_files i).
Proof.
  unfold footer_files.
  destruct (Z.eqb_spec (tr_file (rt i)) (-1)), (tr_timestamp (rt i)); cbn [negb andb List.hd app];
    match goal with |- context [tr_file (wt i) =? ?x] => destruct (Z.eqb_spec (tr_file (wt i)) x) end;
    destruct (tr_timestamp (wt i)); cbn [negb andb List.hd app];
    repeat match goal with |- context [tr_file (bt i) =? ?x] => destruct (Z.eqb_spec (tr_file (bt i)) x) end;
    destruct (tr_timestamp (bt i)); cbn [negb andb app];
    repeat constructor; rewrite ?elem_of_cons, ?elem_of_nil; intuition congruence.
Qed.

Lemma footer_files_traces fd i : fd ∈ footer_files i -> fd = tr_file (wt i) \/ fd = tr_file (rt i) \/ fd = tr_file (bt i).
Proof.
  unfold footer_files. intros H. repeat rewrite elem_of_app in H.
  destruct H as [H|[H|H]];
    match type of H with _ ∈ (if ?c then _ else _) => destruct c end; set_solver.
Qed.

(** The open trace files. *)
Lemma trace_files_open fd i : fd ∈ trace_files i <->
  fd <> -1 /\ (fd = tr_file (wt i) \/ fd = tr_file (rt i) \/ fd = tr_file (bt i)).
Proof.
  unfold trace_files. rewrite list_elem_of_In, List.filter_In, <- list_elem_of_In, negb_true_iff, Z.eqb_neq.
  destruct (Z.eqb_spec (tr_file (rt i)) (tr_file (wt i))), (Z.eqb_spec (tr_file (bt i)) (tr_file (wt i)));
    cbn [orb app]; try destruct (Z.eqb_spec (tr_file (bt i)) (tr_file (rt i)));
    rewrite !elem_of_cons, elem_of_nil; intuition congruence.
Qed.

Lemma write_if_step (c : bool) fd b s :
  (if c then write_ignore fd b else mret tt) s = Ok (tt, with_kern (write_all (if c then [fd] else []) b (kern s)) s).
Proof.
  destruct c; [|unfold write_all; cbn [fold_left]; by rewrite with_kern_same]. unfold write_ignore.
  destruct (sys_write fd b (kern s)) as [r k'] eqn:E. rewrite (ST_bind_Ok _ _ _ _ _ (step_sys _ _ _ _ E)).
  unfold write_all. cbn. by rewrite E.
Qed.

Lemma footer_trace_step p i reason s : pheap s !! p = Some i -> (length reason <= 900)%nat ->
  footer_trace p reason s =
    Ok (tt, with_kern (write_all (footer_files i) (closing_line reason (kern s)) (kern s)) s).
Proof.
  intros Hi Hl. unfold footer_trace. rewrite (ST_bind_Ok _ _ _ _ _ eq_refl).
  pose proof (timestamp_length (kern s)) as Ht.
  rewrite emit_Ok by (rewrite !length_app; cbn; lia). rewrite (ST_bind_Ok _ _ _ _ _ eq_refl).
  unfold trace_to_files. rewrite (ST_bind_Ok _ _ _ _ _ (port_at_Ok _ _ _ Hi)).
  rewrite (ST_bind_Ok _ _ _ _ _ (write_if_step _ _ _ s)).
  match goal with |- (_ ≫= _) ?s1 = _ => rewrite (ST_bind_Ok _ _ _ _ _ (write_if_step _ _ _ s1)) end.
  rewrite write_if_step. cbn [kern with_kern]. unfold write_all. rewrite <- !fold_left_app. unfold footer_files.
  destruct (negb (tr_file (rt i) =? -1) && tr_timestamp (rt i)); cbn [List.hd];
    match goal with |- context [if negb (tr_file (wt i) =? ?x) && ?y then [_] else _] =>
      destruct (negb (tr_file (wt i) =? x) && y) end; reflexivity.
Qed.

Lemma write_all_quiet files b : forall k,
  (forall fd, fd ∉ files -> sent (write_all files b k) fd = sent k fd) /\
  (forall fd, received (write_all files b k) fd = received k fd).
Proof.
  induction files as [|f files IH]; intros k; [done|]. destruct (sys_write f b k) as [r k'] eqn:E.
  destruct (IH k') as [IH1 IH2]. apply write_quiet_but in E as Hq. destruct Hq as (A & B & _).
  unfold write_all in *. cbn. rewrite E. cbn. split; intros fd; [intros Hf; rewrite IH1 by set_solver; apply A; set_solver|].
  by rewrite IH2, B.
Qed.

Lemma close_all_quiet files : forall k,
  (forall fd, sent (close_all files k) fd = sent k fd) /\ (forall fd, received (close_all files k) fd = received k fd).
Proof.
  induction files as [|f files IH]; intros k; [done|]. destruct (IH (sys_close f k)) as [IH1 IH2].
  destruct (close_quiet f k) as (A & B & _). unfold close_all in *. cbn.
  split; intros fd; [by rewrite IH1, A | by rewrite IH2, B].
Qed.

(** What the system has done when the port is shut down: the last line of the
    traces, their files closed, the connection closed, the device flushed and
    closed. *)
Definition shut_kern i (reason : list Z) (k : K) : K :=
  sys_close (devfd i) (sys_tcflush (devfd i) (sys_close (tcpfd i)
    (close_all (trace_files i) (write_all (footer_files i) (closing_line reason k) k)))).

Lemma shut_kern_quiet i reason k :
  (forall fd, trace_free fd i -> sent (shut_kern i reason k) fd = sent k fd) /\
  (forall fd, received (shut_kern i reason k) fd = received k fd).
Proof.
  unfold shut_kern. set (k1 := write_all _ _ k).
  destruct (write_all_quiet (footer_files i) (closing_line reason k) k) as [A1 B1]. fold k1 in A1, B1.
  destruct (close_all_quiet (trace_files i) k1) as [A2 B2].
  destruct (close_quiet (tcpfd i) (close_all (trace_files i) k1)) as (A3 & B3 & _).
  set (k3 := sys_close (tcpfd i) _) in *. destruct (tcflush_quiet (devfd i) k3) as (A4 & B4 & _).
  destruct (close_quiet (devfd i) (sys_tcflush (devfd i) k3)) as (A5 & B5 & _).
  split; intros fd; [|by rewrite B5, B4, B3, B2, B1]. intros (F0 & F1 & F2 & F3).
  rewrite A5, A4, A3, A2. apply A1. intros Hin. destruct (footer_files_traces _ _ Hin) as [|[|]]; congruence.
Qed.

Lemma free_port_gone fuel p s r : free_port fuel p s = Ok r -> pheap (snd r) !! p = None.
Proof.
  destruct fuel; cbn [free_port]; intros H;
    repeat match goal with
    | H : (_ ≫= _) _ = Ok _ |- _ => apply ST_bind_inv in H as (? & ? & ? & H)
    end; injection H as <-; cbn; apply lookup_delete_eq.
Qed.

Definition unconnected i : Prop :=
  fl_state (tcp_to_dev i) = PORT_UNCONNECTED /\ fl_state (dev_to_tcp i) = PORT_UNCONNECTED.

Lemma retire_port_unconnected p i s r :
  pheap s !! p = Some i -> unconnected i -> retire_port p s = Ok r ->
  pheap (snd r) !! p = None \/ pheap (snd r) !! p = Some i.
Proof.
  intros Hi Hu. unfold retire_port. rewrite (ST_bind_Ok _ _ _ _ _ (port_at_Ok _ _ _ Hi)).
  rewrite 2!(ST_bind_Ok _ _ _ _ _ eq_refl).
  destruct (config_num i =? -1).
  - destruct (bool_decide (p ∈ ports s)); [|intros [= <-]; by right].
    intros H. apply ST_bind_inv in H as (? & ? & _ & H). left. by eapply free_port_gone.
  - destruct (new_config i) as [n|]; [|intros [= <-]; by right].
    destruct (bool_decide (p ∈ ports s)); [|intros [= <-]; by right].
    intros H. repeat match goal with H : (_ ≫= _) _ = Ok _ |- _ => apply ST_bind_inv in H as (? & ? & ? & H) end.
    left. by eapply free_port_gone.
Qed.

(** After a shutdown the port is gone or unconnected. *)
Lemma shutdown_unconnected p reason s r i :
  shutdown_port p reason s = Ok r -> pheap (snd r) !! p = Some i -> unconnected i.
Proof.
  unfold shutdown_port. intros H Hi.
  do 10 (apply ST_bind_inv in H as (? & ? & ? & H)). apply ST_bind_inv in H as ([] & s1 & Hset & H).
  destruct (_ =? 0); [discriminate|]. unfold set_port in Hset.
  match type of Hset with match ?l with _ => _ end = _ => destruct l as [j|] eqn:Ej end; [|discriminate].
  injection Hset as <-.
  eapply (retire_port_unconnected p (port_reset j)) in H; [| apply lookup_insert_eq | by split].
  destruct H as [H|H]; rewrite H in Hi; [discriminate | injection Hi as <-; by split].
Qed.

(** A port whose shutdown goes through: its selector and timer are in order,
    no lock files are used, it is not the port of the standard input and it is
    not about to be replaced or removed. *)
Record closable s i : Prop := {
  cl_fds : fds_ok (dsel s);
  cl_sched : sched_ok (theap (dsel s));
  cl_timer : is_Some (timers (theap (dsel s)) !! timer i);
  cl_dev : 0 <= devfd i < FD_SETSIZE;
  cl_tcp : 0 <= tcpfd i < FD_SETSIZE;
  cl_lock : uucp_locking_enabled s = false;
  cl_port : sin_port (tcpport (conf i)) <> 0;
  cl_config : config_num i <> -1;
  cl_new : new_config i = None
}.

Lemma closable_at p s i s1 i1 : closing_at p s i s1 i1 -> closable s i -> closable s1 i1.
Proof.
  intros (E & A1 & A2 & A3 & A4 & A5 & A6 & A7) []. rewrite E. constructor; cbn; rewrite ?A1, ?A2, ?A3, ?A4, ?A5, ?A6; done.
Qed.

(** The whole effect of a shutdown. *)
Record shut p (reason : list Z) s i s' : Prop := {
  sh_port : pheap s' = <[p := port_reset (traces_off i)]> (pheap s);
  sh_ports : ports s' = ports s;
  sh_kern : kern s' = shut_kern i reason (kern s);
  sh_sel : fds_ok (dsel s');
  sh_fds : fds (dsel s') = <[Z.to_nat (tcpfd i) := init_fd]> (<[Z.to_nat (devfd i) := init_fd]> (fds (dsel s)));
  sh_read : read_set (dsel s') = read_set (dsel s) ∖ {[devfd i]} ∖ {[tcpfd i]};
  sh_write : write_set (dsel s') = write_set (dsel s) ∖ {[devfd i]} ∖ {[tcpfd i]};
  sh_armed : armed (theap (dsel s')) = delete (timer i) (armed (theap (dsel s)))
}.

Lemma shutdown_port_shut p reason s i :
  pheap s !! p = Some i -> closable s i -> (length reason <= 900)%nat ->
  exists s', shutdown_port p reason s = Ok (tt, s') /\ shut p reason s i s'.
Proof.
  intros Hi [Hfds Hsched Htimer Hd Ht Hu Hport Hcn Hnc] Hre.
  unfold shutdown_port. rewrite (ST_bind_Ok _ _ _ _ _ (footer_trace_step p i reason s Hi Hre)).
  set (k0 := write_all _ _ (kern s)).
  rewrite (ST_bind_Ok _ _ _ _ _ (close_traces_step p i (with_kern k0 s) Hi)).
  dx_step. cbn [kern with_kern].
  set (s1 := upd p (traces_off i) (with_kern (close_all (trace_files i) k0) s)).
  destruct (stop_timer_spec (theap (dsel s)) (timer i) Hsched Htimer) as (r & h' & Es & Hs' & Ha).
  assert (E2 : on_timers (sel_stop_timer (timer (traces_off i))) s1 = Ok (r, with_dsel (with_heap h' (dsel s)) s1)).
  { unfold on_timers. cbn [dsel s1 upd with_pheap with_kern timer traces_off set_traces]. by rewrite Es. }
  rewrite (ST_bind_Ok _ _ _ _ _ E2).
  assert (Hok1 : fds_ok (with_heap h' (dsel s))) by (destruct Hfds; by constructor).
  destruct (clear_handlers_spec (with_heap h' (dsel s)) (devfd i) Hok1 Hd) as (v1 & Ev1 & Hv1 & F1 & R1 & W1 & _ & T1).
  destruct (clear_handlers_spec v1 (tcpfd i) Hv1 Ht) as (v2 & Ev2 & Hv2 & F2 & R2 & W2 & _ & T2).
  assert (E3 : on_selector (fun v => sel_clear_fd_handlers v (devfd (traces_off i))) (with_dsel (with_heap h' (dsel s)) s1)
    = Ok (tt, with_dsel v1 s1)) by (unfold on_selector; cbn [dsel with_dsel devfd traces_off set_traces]; by rewrite Ev1).
  rewrite (ST_bind_Ok _ _ _ _ _ E3).
  assert (E4 : on_selector (fun v => sel_clear_fd_handlers v (tcpfd (traces_off i))) (with_dsel v1 s1)
    = Ok (tt, with_dsel v2 s1)) by (unfold on_selector; cbn [dsel with_dsel tcpfd traces_off set_traces]; by rewrite Ev2).
  rewrite (ST_bind_Ok _ _ _ _ _ E4). do 3 dx_step.
  unfold uucp_rm_lock. rewrite ST_bind_eq. cbn [uucp_locking_enabled with_kern with_dsel s1 upd with_pheap]. rewrite Hu.
  dx_step. rewrite (proj2 (Z.eqb_neq _ _)) by done.
  unfold retire_port. dx_step. rewrite 2!(ST_bind_Ok _ _ _ _ _ eq_refl).
  cbn [config_num port_reset set_bytes set_dev_to_tcp set_tcp_to_dev traces_off set_traces new_config].
  rewrite (proj2 (Z.eqb_neq _ _)) by done. rewrite Hnc.
  eexists. split; [reflexivity|]. constructor; cbn [pheap ports kern dsel with_pheap with_kern with_dsel upd s1]; try done.
  - by rewrite insert_insert_eq.
  - by rewrite F2, F1.
  - by rewrite R2, R1.
  - by rewrite W2, W1.
  - rewrite T2, T1. cbn [theap with_heap]. destruct (armed (theap (dsel s)) !! timer i) as [w|] eqn:Ew.
    + by destruct Ha as [_ ->].
    + destruct Ha as [_ ->]. by rewrite delete_id.
Qed.
End shutdown.

(** ** Runs *)

Section runs.
Context {K : Type} `{!Kernel K} `{!KernelLaws K}.
Implicit Types (s : dx K) (i : port_info) (p : ptr).

Definition connected i : Prop := fl_state (dev_to_tcp i) <> PORT_UNCONNECTED /\ fl_state (tcp_to_dev i) <> PORT_UNCONNECTED.

(** The handlers of the direction, each called when its set allows it, on a
    port that stays connected and has no telnet commands to send. *)
Inductive d2t_run p : dx K -> port_info -> dx K -> port_info -> Prop :=
  | d2t_here s i : d2t_run p s i s i
  | d2t_readable s i s1 i1 s' i' :
      devfd i ∈ read_set (dsel s) -> handle_dev_fd_read (devfd i) p s = Ok (tt, s1) ->
      pheap s1 !! p = Some i1 -> connected i1 -> d2t_run p s1 i1 s' i' -> d2t_run p s i s' i'
  | d2t_writable s i s1 i1 s' i' :
      tcpfd i ∈ write_set (dsel s) -> out_telnet_cmd (tn_data i) = [] ->
      handle_tcp_fd_write (tcpfd i) p s = Ok (tt, s1) ->
      pheap s1 !! p = Some i1 -> connected i1 -> d2t_run p s1 i1 s' i' -> d2t_run p s i s' i'.

Inductive t2d_run `{!ComPort K} p : dx K -> port_info -> dx K -> port_info -> Prop :=
  | t2d_here s i : t2d_run p s i s i
  | t2d_readable s i s1 i1 s' i' :
      tcpfd i ∈ read_set (dsel s) -> handle_tcp_fd_read (tcpfd i) p s = Ok (tt, s1) ->
      pheap s1 !! p = Some i1 -> connected i1 -> t2d_run p s1 i1 s' i' -> t2d_run p s i s' i'
  | t2d_writable s i s1 i1 s' i' :
      devfd i ∈ write_set (dsel s) -> handle_dev_fd_write (devfd i) p s = Ok (tt, s1) ->
      pheap s1 !! p = Some i1 -> connected i1 -> t2d_run p s1 i1 s' i' -> t2d_run p s i s' i'.

Lemma encode_app i a b : encode i (a ++ b) = encode i a ++ encode i b.
Proof. unfold encode, double_iac. destruct (_ =? _); [apply flat_map_app | done]. Qed.

Lemma encode_same i i' d : same_line i i' -> encode i' d = encode i d.
Proof. intros (_ & E & _). unfold encode. by rewrite E. Qed.

(** A port that is still connected was not shut down. *)
Lemma d2t_after_connected p s i m s1 i1 :
  d2t_after p s i m -> m s = Ok (tt, s1) -> pheap s1 !! p = Some i1 -> connected i1 ->
  exists d, d2t_ok p s1 i1 /\ same_line i i1 /\ received (kern s1) (devfd i) = received (kern s) (devfd i) ++ d /\
    d2t_stream s1 i1 = d2t_stream s i ++ encode i d.
Proof.
  intros [(s' & i' & d & E & Hok & HL & Hr & Hs)|(re & s0 & i0 & d & E & _)] Em Hi1 [Hc _].
  - rewrite E in Em. injection Em as ->. pose proof (d_port _ _ _ Hok) as Hi'. rewrite Hi1 in Hi'.
    injection Hi' as ->. by exists d.
  - rewrite Em in E. symmetry in E. by destruct (shutdown_unconnected _ _ _ _ _ E Hi1).
Qed.

Lemma t2d_after_connected p s i m s1 i1 :
  t2d_after p s i m -> m s = Ok (tt, s1) -> pheap s1 !! p = Some i1 -> connected i1 ->
  exists d, t2d_ok p s1 i1 /\ same_line i i1 /\ received (kern s1) (tcpfd i) = received (kern s) (tcpfd i) ++ d /\
    t2d_stream s1 i1 = t2d_stream s i ++ d.
Proof.
  intros [(s' & i' & d & E & Hok & HL & Hr & Hs)|(re & s0 & i0 & d & E & _)] Em Hi1 [Hc _].
  - rewrite E in Em. injection Em as ->. pose proof (t_port _ _ _ Hok) as Hi'. rewrite Hi1 in Hi'.
    injection Hi' as ->. by exists d.
  - rewrite Em in E. symmetry in E. by destruct (shutdown_unconnected _ _ _ _ _ E Hi1).
Qed.

Lemma handle_tcp_fd_write_step p s i :
  d2t_ok p s i -> tcpfd i ∈ write_set (dsel s) -> out_telnet_cmd (tn_data i) = [] ->
  d2t_after p s i (handle_tcp_fd_write (tcpfd i) p).
Proof.
  intros Hok Hw Hout. pose proof (tcp_write_data_step p s i Hok Hw) as H. unfold d2t_after, handle_tcp_fd_write in *.
  rewrite (ST_bind_Ok _ _ _ _ _ (port_at_Ok _ _ _ (d_port _ _ _ Hok))), Hout. exact H.
Qed.

(** ** Properties *)

(** C10: whatever the sizes of the reads and of the partial writes, the bytes a
    connection has been sent, followed by those waiting in the buffer, are the
    bytes that were there plus exactly the bytes the device delivered since,
    in order, with the 255s doubled on a telnet port; and the buffer, the
    reader and the writer stay consistent. *)
Theorem dev_to_tcp_stream p s i s' i' :
  d2t_ok p s i -> d2t_run p s i s' i' ->
  exists d, d2t_ok p s' i' /\ same_line i i' /\
    received (kern s') (devfd i) = received (kern s) (devfd i) ++ d /\
    d2t_stream s' i' = d2t_stream s i ++ encode i d.
Proof.
  intros Hok R. induction R as [s i|s i s1 i1 s' i' Hrd E Hi1 Hc R IH|s i s1 i1 s' i' Hwr Hout E Hi1 Hc R IH].
  - exists []. split_and!; [done | apply same_line_refl | by rewrite app_nil_r |].
    unfold encode. by destruct (_ =? _); rewrite app_nil_r.
  - destruct (handle_dev_fd_read_step p s i Hok Hrd) as [[_ H%d2t_read_after]|[_ H]]; [|rewrite E in H; discriminate].
    destruct (d2t_after_connected _ _ _ _ _ _ H E Hi1 Hc) as (d1 & Hok1 & HL1 & Hr1 & Hs1).
    destruct (IH Hok1) as (d2 & Hok2 & HL2 & Hr2 & Hs2). exists (d1 ++ d2).
    split_and!; [done | by eapply same_line_trans | |].
    + pose proof HL1 as (_ & _ & Ed & _). rewrite Ed in Hr2. by rewrite Hr2, Hr1, app_assoc.
    + by rewrite Hs2, Hs1, (encode_same _ _ _ HL1), encode_app, app_assoc.
  - pose proof (handle_tcp_fd_write_step p s i Hok Hwr Hout) as H.
    destruct (d2t_after_connected _ _ _ _ _ _ H E Hi1 Hc) as (d1 & Hok1 & HL1 & Hr1 & Hs1).
    destruct (IH Hok1) as (d2 & Hok2 & HL2 & Hr2 & Hs2). exists (d1 ++ d2).
    split_and!; [done | by eapply same_line_trans | |].
    + pose proof HL1 as (_ & _ & Ed & _). rewrite Ed in Hr2. by rewrite Hr2, Hr1, app_assoc.
    + by rewrite Hs2, Hs1, (encode_same _ _ _ HL1), encode_app, app_assoc.
Qed.

(** C11: the same from a raw connection to the device: what the device has
    taken, followed by what waits, grows by exactly the bytes received. *)
Theorem tcp_to_dev_stream `{!ComPort K} p s i s' i' :
  t2d_ok p s i -> enabled i <> PORT_TELNET -> t2d_run p s i s' i' ->
  exists d, t2d_ok p s' i' /\ same_line i i' /\
    received (kern s') (tcpfd i) = received (kern s) (tcpfd i) ++ d /\
    t2d_stream s' i' = t2d_stream s i ++ d.
Proof.
  intros Hok Hraw R. induction R as [s i|s i s1 i1 s' i' Hrd E Hi1 Hc R IH|s i s1 i1 s' i' Hwr E Hi1 Hc R IH].
  - exists []. split_and!; [done | apply same_line_refl | by rewrite app_nil_r | by rewrite app_nil_r].
  - pose proof (handle_tcp_fd_read_raw p s i Hok Hraw Hrd) as H.
    destruct (t2d_after_connected _ _ _ _ _ _ H E Hi1 Hc) as (d1 & Hok1 & HL1 & Hr1 & Hs1).
    pose proof HL1 as (_ & Een & _ & Ed & _).
    destruct (IH Hok1) as (d2 & Hok2 & HL2 & Hr2 & Hs2); [congruence|]. exists (d1 ++ d2).
    split_and!; [done | by eapply same_line_trans | | by rewrite Hs2, Hs1, app_assoc].
    rewrite Ed in Hr2. by rewrite Hr2, Hr1, app_assoc.
  - pose proof (handle_dev_fd_write_step p s i Hok Hwr) as H.
    destruct (t2d_after_connected _ _ _ _ _ _ H E Hi1 Hc) as (d1 & Hok1 & HL1 & Hr1 & Hs1).
    pose proof HL1 as (_ & Een & _ & Ed & _).
    destruct (IH Hok1) as (d2 & Hok2 & HL2 & Hr2 & Hs2); [congruence|]. exists (d1 ++ d2).
    split_and!; [done | by eapply same_line_trans | | by rewrite Hs2, Hs1, app_assoc].
    rewrite Ed in Hr2. by rewrite Hr2, Hr1, app_assoc.
Qed.

(** C40: for a port that may be shut down, reading the device leaves the
    objects of the code in exactly two cases: a telnet read of 512 bytes that
    are all 255, which doubled do not fit the buffer of 1024 as the loop shifts
    them, and a failed read while a controller monitors the port, whose count
    of -1 is passed on as a size.  In all others the handler returns, and
    either the port is open and the stream of the connection has grown by what
    was read, or the port was shut down, unconnected and off the selector, and
    the connection has taken a part of that stream; a read that fails or is
    empty always shuts it down. *)
Theorem dev_read_bounds p s i :
  d2t_ok p s i -> closable s i -> devfd i ∈ read_set (dsel s) ->
  (handle_dev_fd_read (devfd i) p s = Crash OutOfBounds <-> bad_read s i) /\
  (~ bad_read s i ->
   let d := bytes_read s i in
   exists s', handle_dev_fd_read (devfd i) p s = Ok (tt, s') /\
     received (kern s') (devfd i) = received (kern s) (devfd i) ++ d /\
     ((exists i', d2t_ok p s' i' /\ same_line i i' /\ d2t_stream s' i' = d2t_stream s i ++ encode i d /\ d <> []) \/
      (exists i', pheap s' = <[p := port_reset i']> (pheap s) /\ ports s' = ports s /\ conf i' = conf i /\
         devfd i ∉ read_set (dsel s') /\ tcpfd i ∉ write_set (dsel s') /\
         sent (kern s') (tcpfd i) `prefix_of` d2t_stream s i ++ encode i d))).
Proof.
  intros Hok Hcl Hrd. destruct (handle_dev_fd_read_step p s i Hok Hrd) as [[Hb Ha]|[Hb Hc]];
    [|by split; [|intros Hn; destruct (Hn Hb)]].
  set (d := bytes_read s i). assert (HR : exists s', handle_dev_fd_read (devfd i) p s = Ok (tt, s') /\
     received (kern s') (devfd i) = received (kern s) (devfd i) ++ d /\
     ((exists i', d2t_ok p s' i' /\ same_line i i' /\ d2t_stream s' i' = d2t_stream s i ++ encode i d /\ d <> []) \/
      (exists i', pheap s' = <[p := port_reset i']> (pheap s) /\ ports s' = ports s /\ conf i' = conf i /\
         devfd i ∉ read_set (dsel s') /\ tcpfd i ∉ write_set (dsel s') /\
         sent (kern s') (tcpfd i) `prefix_of` d2t_stream s i ++ encode i d))).
  { destruct Ha as [(s' & i' & E & Hok' & HL & Hne & Hr & Hs)|(re & s1 & i1 & E & Hre & HC & Hr & Hs)].
    - exists s'. split; [exact E|]. split; [exact Hr|]. left. exists i'. by split_and!.
    - destruct (shutdown_port_shut p re s1 i1 (closing_lookup _ _ _ _ _ HC) (closable_at _ _ _ _ _ HC Hcl) Hre)
        as (s' & Es & [S1 S2 S3 S4 S5 S6 S7 S8]).
      destruct (shut_kern_quiet i1 re (kern s1)) as [Q1 Q2].
      destruct HC as (EC & C1 & C2 & C3 & C4 & C5 & C6 & C7).
      exists s'. split; [by rewrite E|]. rewrite S3. split; [by rewrite Q2|]. right. exists (traces_off i1).
      rewrite S1, S2, S6, S7, Q1, C3, C4 by (apply C7, Hok). rewrite EC. cbn. rewrite insert_insert_eq.
      split_and!; try done; set_solver. }
  split; [|done]. split; [|by intros Hbad; destruct (Hb Hbad)].
  destruct HR as (s' & -> & _). discriminate.
Qed.

(** C35: shutting down a port that is not about to be replaced or removed stops
    its timer, takes both descriptors out of the selector, writes the last line
    of the traces to each file with times once, closes every open trace file
    exactly once, then the connection, and flushes and closes the device; it
    sends nothing to any other descriptor and leaves the port in the list,
    unconnected, with empty buffers and its byte counts at zero. *)
Theorem shutdown_port_closes p reason s i :
  pheap s !! p = Some i -> closable s i -> (length reason <= 900)%nat ->
  exists s', shutdown_port p reason s = Ok (tt, s') /\
    pheap s' = <[p := port_reset (traces_off i)]> (pheap s) /\ ports s' = ports s /\
    kern s' =
      sys_close (devfd i) (sys_tcflush (devfd i) (sys_close (tcpfd i)
        (close_all (trace_files i) (write_all (footer_files i) (closing_line reason (kern s)) (kern s))))) /\
    NoDup (footer_files i) /\ NoDup (trace_files i) /\
    (forall f, f ∈ trace_files i <-> f <> -1 /\ (f = tr_file (wt i) \/ f = tr_file (rt i) \/ f = tr_file (bt i))) /\
    (forall fd, trace_free fd i -> sent (kern s') fd = sent (kern s) fd) /\
    fds_ok (dsel s') /\ fds (dsel s') = <[Z.to_nat (tcpfd i) := init_fd]> (<[Z.to_nat (devfd i) := init_fd]> (fds (dsel s))) /\
    read_set (dsel s') = read_set (dsel s) ∖ {[devfd i]} ∖ {[tcpfd i]} /\
    write_set (dsel s') = write_set (dsel s) ∖ {[devfd i]} ∖ {[tcpfd i]} /\
    armed (theap (dsel s')) = delete (timer i) (armed (theap (dsel s))).
Proof.
  intros Hi Hcl Hre. destruct (shutdown_port_shut p reason s i Hi Hcl Hre) as (s' & E & [S1 S2 S3 S4 S5 S6 S7 S8]).
  exists s'. split_and!; try done; [apply footer_files_NoDup | apply trace_files_NoDup | intros f; apply trace_files_open |].
  rewrite S3. apply shut_kern_quiet.
Qed.

(** When the connection does not take a telnet command at once but takes
    data right after, the data goes first: the bytes of the device are sent
    while the command, of which a part may already be out, still waits. *)
Theorem telnet_command_overtaken p s i cmd n k1 k2 :
  d2t_ok p s i -> out_telnet_cmd (tn_data i) = cmd -> cmd <> [] ->
  sys_write (tcpfd i) cmd (kern s) = (Failed EAGAIN, k1) ->
  sys_write (tcpfd i) (pending (dev_to_tcp i)) k1 = (Done n, k2) ->
  exists s' i', handle_tcp_fd_write (tcpfd i) p s = Ok (tt, s') /\ pheap s' !! p = Some i' /\
    out_telnet_cmd (tn_data i') = cmd /\
    sent (kern s') (tcpfd i) = sent (kern s) (tcpfd i) ++ take n (pending (dev_to_tcp i)).
Proof.
  intros [Hi [[Hsrc Hdst _ _ _] _] _ _] Hcmd Hne E1 E2. unfold handle_tcp_fd_write. dx_step. rewrite Hcmd.
  destruct cmd as [|c cmd]; [done|].
  rewrite (ST_bind_Ok _ _ _ _ _ (step_sys _ s _ _ E1)). unfold tcp_write_data. dx_step.
  rewrite (ST_bind_Ok _ _ _ _ _ (step_sys _ (with_kern k1 s) _ _ E2)).
  apply write_failed in E1 as [(A & _) _]. apply write_done in E2 as (_ & _ & S & _).
  rewrite (ST_bind_Ok _ _ _ _ _ (set_port_Ok p _ i (with_kern k2 s) Hi)).
  set (i1 := set_dev_to_tcp _ _). rewrite (ST_bind_Ok _ _ _ _ _ (port_at_Ok _ _ _ (upd_lookup p i1 _))).
  destruct (fl_count (dev_to_tcp i1) =? 0); cbn [negb].
  - destruct (unblock_Ok p i1 (upd p i1 (with_kern k2 s)) (set_dev_to_tcp (fl_set_state PORT_WAITING_INPUT))
      (devfd i1) (tcpfd i1)) as (v & Eu); [apply upd_lookup | done | done |].
    rewrite (ST_bind_Ok _ _ _ _ _ Eu), (set_port_Ok p _ _ _ (upd_lookup p _ _)).
    eexists _, _. split; [reflexivity|]. split; [apply upd_lookup|]. split; [exact Hcmd|]. cbn. by rewrite S, A.
  - rewrite (ST_bind_Ok _ _ _ _ _ (set_port_Ok p _ i1 _ (upd_lookup p i1 (with_kern k2 s)))).
    rewrite (set_port_Ok p _ _ _ (upd_lookup p _ _)).
    eexists _, _. split; [reflexivity|]. split; [apply upd_lookup|]. split; [exact Hcmd|]. cbn. by rewrite S, A.
Qed.
End runs.

(** ** Concrete runs *)

(** What is left of a run: the transfers and the waiting bytes of the port. *)
Definition outcome (r : res (unit * dx script)) : option (list (Z * list Z) * list Z * list Z) :=
  match r with
  | Ok (_, s) => match pheap s !! 1%positive with
                 | Some i => Some (s_sent (kern s), pending (dev_to_tcp i), s_closed (kern s))
                 | None => None
                 end
  | Crash _ => None
  end.

(** Three bytes are read and traced, two of the four doubled bytes are taken. *)
Example demo_partial :
  outcome (handle_dev_fd_read 5 1%positive
    (demo_dx PORT_TELNET [] [] {[5; 6]} ∅ (demo_script [Done [65; 255; 66]] [Done 200%nat; Done 3%nat; Failed EINTR; Done 2%nat])))
  = Some ([(7, chars "2013/11/07 12:00:00 term 41 ff 42                 |A.B|" ++ [10]);
           (7, [65; 255; 66]); (6, [65; 255])], [255; 66], []).
Proof. vm_compute. reflexivity. Qed.

(** The traces share descriptor 7, which is closed once. *)
Example demo_shutdown :
  outcome (shutdown_port 1%positive (chars "bye") (demo_dx PORT_RAW [] [1; 2] {[6]} {[6]} (demo_script [] [])))
  = Some ([(7, chars "2013/11/07 12:00:00 CLOSE (bye)" ++ [10])], [], [7; 6; 5]).
Proof. vm_compute. reflexivity. Qed.

Lemma demo_d2t_ok mode cmd pend r w k :
  (length pend <= 1024)%nat -> (pend <> [] -> 5 ∉ r /\ 6 ∈ w) ->
  d2t_ok 1%positive (demo_dx mode cmd pend r w k) (demo_port mode cmd pend).
Proof.
  intros Hl Hb. constructor.
  - apply lookup_singleton_eq.
  - constructor; [constructor|]; cbn [demo_port devfd tcpfd dev_to_tcp fl_buf fl_start fl_count];
      unfold FD_SETSIZE, PORT_BUFSIZE; try lia.
    + rewrite length_app, length_replicate. lia.
    + intros Hc. apply Hb. intros ->. by cbn in Hc.
  - unfold trace_free. cbn. lia.
  - exact I.
Qed.

(** The state after a handler. *)
Definition after (r : res (unit * dx script)) : dx script :=
  match r with Ok (_, s) => s | Crash _ => demo_dx 0 [] [] ∅ ∅ (demo_script [] []) end.
Definition port_after (s : dx script) : port_info := default (demo_port 0 [] []) (pheap s !! 1%positive).

(** A read of which two of four bytes are taken, then the rest. *)
Definition run_s0 : dx script :=
  demo_dx PORT_TELNET [] [] {[5; 6]} ∅ (demo_script [Done [65; 255; 66]] [Done 200%nat; Done 3%nat; Failed EINTR; Done 2%nat; Done 9%nat]).
Definition run_s1 : dx script := after (handle_dev_fd_read 5 1%positive run_s0).
Definition run_s2 : dx script := after (handle_tcp_fd_write 6 1%positive run_s1).

Lemma dev_to_tcp_stream_witness :
  exists d, d2t_ok 1%positive run_s2 (port_after run_s2) /\ same_line (demo_port PORT_TELNET [] []) (port_after run_s2) /\
    received (kern run_s2) 5 = received (kern run_s0) 5 ++ d /\
    d2t_stream run_s2 (port_after run_s2) = d2t_stream run_s0 (demo_port PORT_TELNET [] []) ++ encode (demo_port PORT_TELNET [] []) d.
Proof.
  apply (dev_to_tcp_stream 1%positive run_s0).
  - apply demo_d2t_ok; [cbn; lia | done].
  - eapply (d2t_readable _ _ _ run_s1 (port_after run_s1)); [apply (bool_decide_unpack _); vm_compute; reflexivity
      | vm_compute; reflexivity | vm_compute; reflexivity | split; vm_compute; discriminate |].
    eapply (d2t_writable _ _ _ run_s2 (port_after run_s2)); [apply (bool_decide_unpack _); vm_compute; reflexivity
      | vm_compute; reflexivity | vm_compute; reflexivity | vm_compute; reflexivity | split; vm_compute; discriminate |].
    apply d2t_here.
Defined.

Definition run_t0 : dx script := demo_dx PORT_RAW [] [] {[5; 6]} ∅ (demo_script [Done [1; 2; 3]] [Done 3%nat; Done 2%nat; Done 9%nat]).
Definition run_t1 : dx script := after (handle_tcp_fd_read 6 1%positive run_t0).
Definition run_t2 : dx script := after (handle_dev_fd_write 5 1%positive run_t1).

Lemma tcp_to_dev_stream_witness :
  exists d, t2d_ok 1%positive run_t2 (port_after run_t2) /\ same_line (demo_port PORT_RAW [] []) (port_after run_t2) /\
    received (kern run_t2) 6 = received (kern run_t0) 6 ++ d /\
    t2d_stream run_t2 (port_after run_t2) = t2d_stream run_t0 (demo_port PORT_RAW [] []) ++ d.
Proof.
  apply (tcp_to_dev_stream 1%positive run_t0 (demo_port PORT_RAW [] [])).
  - constructor; [reflexivity | | unfold trace_free; cbn; lia | exact I].
    constructor; [constructor; cbn; unfold FD_SETSIZE; try lia; reflexivity | done].
  - discriminate.
  - eapply (t2d_readable _ _ _ run_t1 (port_after run_t1)); [apply (bool_decide_unpack _); vm_compute; reflexivity
      | vm_compute; reflexivity | vm_compute; reflexivity | split; vm_compute; discriminate |].
    eapply (t2d_writable _ _ _ run_t2 (port_after run_t2)); [apply (bool_decide_unpack _); vm_compute; reflexivity
      | vm_compute; reflexivity | vm_compute; reflexivity | split; vm_compute; discriminate |].
    apply t2d_here.
Defined.

Lemma demo_closable mode cmd pend r w k : closable (demo_dx mode cmd pend r w k) (demo_port mode cmd pend).
Proof.
  constructor; [apply demo_fds_ok | exact demo_heap_ok | exact (mk_is_Some _ _ eq_refl)
    | unfold FD_SETSIZE; cbn; lia | unfold FD_SETSIZE; cbn; lia | reflexivity | discriminate | discriminate | reflexivity].
Qed.

Lemma dev_read_bounds_witness :
  let d := [65; 255; 66] in
  exists s', handle_dev_fd_read 5 1%positive run_s0 = Ok (tt, s') /\
     received (kern s') 5 = received (kern run_s0) 5 ++ d /\
     ((exists i', d2t_ok 1%positive s' i' /\ same_line (demo_port PORT_TELNET [] []) i' /\
         d2t_stream s' i' = d2t_stream run_s0 (demo_port PORT_TELNET [] []) ++ encode (demo_port PORT_TELNET [] []) d /\ d <> []) \/
      (exists i', pheap s' = <[1%positive := port_reset i']> (pheap run_s0) /\ ports s' = [1%positive] /\
         conf i' = PortScript.demo_conf /\ 5 ∉ read_set (dsel s') /\ 6 ∉ write_set (dsel s') /\
         sent (kern s') 6 `prefix_of` d2t_stream run_s0 (demo_port PORT_TELNET [] []) ++ encode (demo_port PORT_TELNET [] []) d)).
Proof.
  refine (proj2 (dev_read_bounds 1%positive run_s0 (demo_port PORT_TELNET [] []) _ _ _) _).
  - apply demo_d2t_ok; [cbn; lia | done].
  - apply demo_closable.
  - apply (bool_decide_unpack _). vm_compute. reflexivity.
  - intros [[_ H]|[H _]]; [vm_compute in H; discriminate | by apply H].
Defined.

(** The two bad reads. *)
Example demo_all_iac :
  handle_dev_fd_read 5 1%positive (demo_dx PORT_TELNET [] [] {[5; 6]} ∅ (demo_script [Done (replicate 512 255)] []))
  = Crash OutOfBounds.
Proof. vm_compute. reflexivity. Qed.

Lemma shutdown_port_closes_witness :
  exists s', shutdown_port 1%positive (chars "bye") run_t0 = Ok (tt, s') /\
    pheap s' = <[1%positive := port_reset (traces_off (demo_port PORT_RAW [] []))]> (pheap run_t0) /\ ports s' = [1%positive] /\
    kern s' = sys_close 5 (sys_tcflush 5 (sys_close 6 (close_all [7]
      (write_all [7] (closing_line (chars "bye") (kern run_t0)) (kern run_t0))))) /\
    NoDup [7] /\ NoDup [7] /\ (forall f, f ∈ [7] <-> f <> -1 /\ (f = -1 \/ f = 7 \/ f = 7)) /\
    (forall fd, trace_free fd (demo_port PORT_RAW [] []) -> sent (kern s') fd = sent (kern run_t0) fd) /\
    fds_ok (dsel s') /\ fds (dsel s') = <[6%nat := init_fd]> (<[5%nat := init_fd]> (fds (dsel run_t0))) /\
    read_set (dsel s') = read_set (dsel run_t0) ∖ {[5]} ∖ {[6]} /\
    write_set (dsel s') = write_set (dsel run_t0) ∖ {[5]} ∖ {[6]} /\
    armed (theap (dsel s')) = delete 1%positive (armed (theap (dsel run_t0))).
Proof.
  apply (shutdown_port_closes 1%positive (chars "bye") run_t0 (demo_port PORT_RAW [] []));
    [reflexivity | apply demo_closable | cbn; lia].
Defined.

Definition run_c0 : dx script :=
  demo_dx PORT_TELNET [255; 253] [65; 66] {[6]} {[6]} (demo_script [] [Failed EAGAIN; Done 2%nat]).

Lemma telnet_command_overtaken_witness :
  exists s' i', handle_tcp_fd_write 6 1%positive run_c0 = Ok (tt, s') /\ pheap s' !! 1%positive = Some i' /\
    out_telnet_cmd (tn_data i') = [255; 253] /\ sent (kern s') 6 = sent (kern run_c0) 6 ++ [65; 66].
Proof.
  apply (telnet_command_overtaken 1%positive run_c0 (demo_port PORT_TELNET [255; 253] [65; 66]) [255; 253] 2
           (demo_script [] [Done 2%nat]) (Script [] [] [(6, [65; 66])] [] [] ∅));
    [apply demo_d2t_ok; [cbn; lia | intros _; split; apply (bool_decide_unpack _); vm_compute; reflexivity]
    | reflexivity | discriminate | reflexivity | reflexivity].
Defined.
