(* ===== verification/PortLive.v ===== *)
(** * Draining a port: what waits for the connection gets there

    A connection that takes what it is offered, in pieces and with refusals in
    between, empties the buffer of the port: the writer goes off and the
    reader of the device comes back, within the number of calls the connection
    needs. *)

From S2P Require Import Prelude CStr SelHeap Selector Telnet Utils DevCfg PortData PortFlow PortScript PortStream.

Section drain.
Context {K : Type} `{!Kernel K} `{!KernelLaws K}.
Implicit Types (s : dx K) (i : port_info) (p : ptr).

(** Within [t] offers, each of all that is left, the descriptor takes [m]
    bytes; an offer may be refused
    for now ([EAGAIN]) or interrupted ([EINTR]). *)
Fixpoint takes (fd : Z) (t m : nat) (k : K) : Prop :=
  match t with
  | O => m = 0%nat
  | S t' =>
      m = 0%nat \/
      forall b, length b = m ->
        match sys_write fd b k with
        | (Done n, k') => takes fd t' (m - n) k'
        | (Failed e, k') => (e = EAGAIN \/ e = EINTR) /\ takes fd t' m k'
        end
  end.

(** [n] calls of the handler. *)
Fixpoint write_calls (n : nat) (fd : Z) (p : ptr) : DX_ K unit :=
  match n with O => mret tt | S n' => _ ← handle_tcp_fd_write fd p; write_calls n' fd p end.

(** The buffer is empty, the writer off and the reader of the device on. *)
Definition drained s i : Prop :=
  pending (dev_to_tcp i) = [] /\ fl_state (dev_to_tcp i) = PORT_WAITING_INPUT /\
  devfd i ∈ read_set (dsel s) /\ tcpfd i ∉ write_set (dsel s).

Lemma open_reader p i s f a b : pheap s !! p = Some i -> 0 <= a < FD_SETSIZE -> 0 <= b < FD_SETSIZE ->
  (_ ← read_handler a SEL_FD_HANDLER_ENABLED; _ ← write_handler b SEL_FD_HANDLER_DISABLED; set_port p f) s =
    Ok (tt, upd p (f i) (with_dsel (with_write (write_set (dsel s) ∖ {[b]}) (with_read ({[a]} ∪ read_set (dsel s)) (dsel s))) s)).
Proof.
  intros Hi Ha Hb. rewrite (ST_bind_Ok _ _ _ _ _ (read_handler_on _ _ Ha)), (ST_bind_Ok _ _ _ _ _ (write_handler_off _ _ Hb)).
  by rewrite (set_port_Ok p _ i).
Qed.

(** One call when the connection takes [n] bytes. *)
Lemma write_progress p s i n k1 :
  d2t_ok p s i -> pending (dev_to_tcp i) <> [] -> out_telnet_cmd (tn_data i) = [] ->
  sys_write (tcpfd i) (pending (dev_to_tcp i)) (kern s) = (Done n, k1) ->
  exists s' i', handle_tcp_fd_write (tcpfd i) p s = Ok (tt, s') /\ d2t_ok p s' i' /\ same_line i i' /\ kern s' = k1 /\
    pending (dev_to_tcp i') = drop n (pending (dev_to_tcp i)) /\ (pending (dev_to_tcp i') = [] -> drained s' i').
Proof.
  intros Hok Hne Hout Ew. pose proof Hok as [Hi Hfl _ _]. pose proof Hfl as [Hsh Hbl].
  pose proof (pending_length _ _ _ Hsh) as Hlen. destruct Hsh as [Hsrc Hdst Hdiff Hbuf Hrange].
  pose proof (write_done _ _ _ _ _ Ew) as (Hn & _). unfold handle_tcp_fd_write.
  rewrite (ST_bind_Ok _ _ _ _ _ (port_at_Ok _ _ _ Hi)), Hout. unfold tcp_write_data.
  rewrite (ST_bind_Ok _ _ _ _ _ (port_at_Ok _ _ _ Hi)), (ST_bind_Ok _ _ _ _ _ (step_sys _ _ _ _ Ew)).
  rewrite (ST_bind_Ok _ _ _ _ _ (set_port_Ok p _ i (with_kern k1 s) Hi)).
  set (i1 := set_dev_to_tcp _ _). rewrite (ST_bind_Ok _ _ _ _ _ (port_at_Ok _ _ _ (upd_lookup p i1 _))).
  assert (Hpend : drop n (pending (dev_to_tcp i)) = pending (dev_to_tcp (set_dev_to_tcp (fun f => fl_set_start (fl_start f + Z.of_nat n) f) i1)))
    by (apply pending_after; lia).
  destruct (Z.eqb_spec (fl_count (dev_to_tcp i1)) 0) as [Hz|Hz]; cbn [negb].
  - rewrite (ST_bind_Ok _ _ _ _ _ (open_reader p i1 (upd p i1 (with_kern k1 s)) _ (devfd i1) (tcpfd i1) (upd_lookup _ _ _) Hsrc Hdst)).
    rewrite (set_port_Ok p _ _ _ (upd_lookup p _ _)).
    eexists _, (reset_timer (set_dev_to_tcp (fl_set_state PORT_WAITING_INPUT) i1)). split; [reflexivity|].
    assert (Hd : forall f, fl_count f = 0 -> pending f = []) by (intros f Hf; unfold pending; by rewrite Hf).
    split; [|split_and!; [by split_and! | done | |]].
    + eapply d2t_ok_keep; [exact Hok | apply upd_lookup | by split_and! | done |]. cbn in Hz |- *.
      constructor; [constructor; cbn; try done; lia | done].
    + rewrite Hpend, !Hd; done.
    + intros _. split_and!; [by apply Hd | done | cbn; set_solver | cbn; set_solver].
  - rewrite (ST_bind_Ok _ _ _ _ _ (set_port_Ok p _ i1 _ (upd_lookup p i1 (with_kern k1 s)))), upd_upd.
    rewrite (set_port_Ok p _ _ _ (upd_lookup p _ _)), upd_upd.
    eexists _, (reset_timer (set_dev_to_tcp (fun f => fl_set_start (fl_start f + Z.of_nat n) f) i1)). split; [reflexivity|].
    split; [|split_and!; [by split_and! | done | by symmetry |]].
    + eapply d2t_ok_keep; [exact Hok | apply upd_lookup | by split_and! | done |]. cbn in Hz |- *.
      constructor; [constructor; cbn; try done; lia |]. intros _. apply Hbl. lia.
    + intros He. exfalso. cbn [reset_timer dev_to_tcp set_timeout_left] in He. rewrite <- Hpend in He.
      apply (f_equal length) in He. rewrite length_drop in He. cbn in He, Hz. lia.
Qed.

(** One call when the connection takes nothing now. *)
Lemma write_refused p s i e k1 :
  d2t_ok p s i -> out_telnet_cmd (tn_data i) = [] -> e = EAGAIN \/ e = EINTR ->
  sys_write (tcpfd i) (pending (dev_to_tcp i)) (kern s) = (Failed e, k1) ->
  exists s' i', handle_tcp_fd_write (tcpfd i) p s = Ok (tt, s') /\ d2t_ok p s' i' /\ same_line i i' /\ kern s' = k1 /\
    dev_to_tcp i' = dev_to_tcp i.
Proof.
  intros Hok Hout He Ew. pose proof Hok as [Hi Hfl _ _]. unfold handle_tcp_fd_write.
  rewrite (ST_bind_Ok _ _ _ _ _ (port_at_Ok _ _ _ Hi)), Hout. unfold tcp_write_data.
  rewrite (ST_bind_Ok _ _ _ _ _ (port_at_Ok _ _ _ Hi)), (ST_bind_Ok _ _ _ _ _ (step_sys _ _ _ _ Ew)).
  destruct He as [-> | ->].
  - rewrite (set_port_Ok p _ i (with_kern k1 s) Hi). eexists _, (reset_timer i). split; [reflexivity|].
    split; [|by split_and!]. eapply d2t_ok_keep; [exact Hok | apply upd_lookup | by split_and! | done | exact Hfl].
  - eexists _, i. split; [reflexivity|].
    split; [|by split_and!]. eapply d2t_ok_keep; [exact Hok | exact Hi | by split_and! | done | exact Hfl].
Qed.

(** C39: Liveness of the transfer.  On a connected port without telnet commands
    to send, when the connection takes as many bytes as wait for it within
    [t] offers - however it cuts them, and with refusals and interruptions
    between - then after at most [t] calls of [handle_tcp_fd_write] it has
    been sent exactly those bytes, nothing waits, the writer is off and the
    reader of the device is on again. *)
Theorem dev_to_tcp_drains (t : nat) p s i :
  d2t_ok p s i -> pending (dev_to_tcp i) <> [] -> out_telnet_cmd (tn_data i) = [] ->
  takes (tcpfd i) t (length (pending (dev_to_tcp i))) (kern s) ->
  exists n s' i', (n <= t)%nat /\ write_calls n (tcpfd i) p s = Ok (tt, s') /\ d2t_ok p s' i' /\ same_line i i' /\
    drained s' i' /\ sent (kern s') (tcpfd i) = sent (kern s) (tcpfd i) ++ pending (dev_to_tcp i).
Proof.
  induction t as [|t IH] in s, i |- *; intros Hok Hne Hout Ht; cbn [takes] in Ht.
  { destruct (pending (dev_to_tcp i)); done. }
  destruct Ht as [Ht|Ht]; [destruct (pending (dev_to_tcp i)); done|]. specialize (Ht _ eq_refl).
  destruct (sys_write (tcpfd i) (pending (dev_to_tcp i)) (kern s)) as [[n|e] k1] eqn:Ew.
  - destruct (write_progress p s i n k1 Hok Hne Hout Ew) as (s1 & i1 & E1 & Hok1 & HL & Hk & Hp1 & Hd1).
    apply write_done in Ew as (_ & _ & Hs & _).
    pose proof HL as (_ & _ & _ & Ltcp & Ltn & _). destruct (decide (pending (dev_to_tcp i1) = [])) as [He|He].
    + exists 1%nat, s1, i1. split; [lia|]. split; [by cbn [write_calls]; rewrite (ST_bind_Ok _ _ _ _ _ E1)|].
      split_and!; try done; [by apply Hd1|]. rewrite Hk, Hs. f_equal. rewrite <- (take_drop n (pending (dev_to_tcp i))) at 2.
      by rewrite <- Hp1, He, app_nil_r.
    + destruct (IH s1 i1 Hok1 He) as (m & s' & i' & Hm & E & Hok' & HL' & Hd & Hs'); [by rewrite Ltn | |].
      { rewrite Ltcp, Hk, Hp1, length_drop. exact Ht. }
      exists (S m), s', i'. rewrite Ltcp in *. split; [lia|]. split; [by cbn [write_calls]; rewrite (ST_bind_Ok _ _ _ _ _ E1)|].
      split_and!; try done; [by eapply same_line_trans|]. by rewrite Hs', Hk, Hs, Hp1, <- app_assoc, take_drop.
  - destruct Ht as [He Ht]. destruct (write_refused p s i e k1 Hok Hout He Ew) as (s1 & i1 & E1 & Hok1 & HL & Hk & Hd1).
    apply write_failed in Ew as [(Hs & _) _]. pose proof HL as (_ & _ & _ & Ltcp & Ltn & _).
    destruct (IH s1 i1 Hok1) as (m & s' & i' & Hm & E & Hok' & HL' & Hd & Hs'); [by rewrite Hd1 | by rewrite Ltn | |].
    { rewrite Ltcp, Hk, Hd1. exact Ht. }
    exists (S m), s', i'. rewrite Ltcp in *. split; [lia|]. split; [by cbn [write_calls]; rewrite (ST_bind_Ok _ _ _ _ _ E1)|].
    split_and!; try done; [by eapply same_line_trans|]. by rewrite Hs', Hk, Hs, Hd1.
Qed.
End drain.

(** Three bytes wait; the connection refuses, takes one, is interrupted and
    takes the rest. *)
Definition drain_s0 : dx script :=
  demo_dx PORT_TELNET [] [65; 66; 67] {[6]} {[6]} (demo_script [] [Failed EAGAIN; Done 1%nat; Failed EINTR; Done 2%nat]).

Lemma dev_to_tcp_drains_witness :
  exists n s' i', (n <= 4)%nat /\ write_calls n 6 1%positive drain_s0 = Ok (tt, s') /\
    d2t_ok 1%positive s' i' /\ same_line (demo_port PORT_TELNET [] [65; 66; 67]) i' /\ drained s' i' /\
    sent (kern s') 6 = sent (kern drain_s0) 6 ++ [65; 66; 67].
Proof.
  apply (dev_to_tcp_drains 4 1%positive drain_s0 (demo_port PORT_TELNET [] [65; 66; 67]));
    [apply demo_d2t_ok; [cbn; lia | intros _; split; apply (bool_decide_unpack _); vm_compute; reflexivity] | discriminate | reflexivity |].
  right. intros [|x [|y [|z [|? ?]]]] Hb; try discriminate. split; [by left|].
  right. intros [|x' [|y' [|z' [|? ?]]]] Hc; try discriminate.
  right. intros [|x2 [|y2 [|? ?]]] Hd; try discriminate. split; [by right|].
  right. intros [|x3 [|y3 [|? ?]]] He; try discriminate. reflexivity.
Defined.
