(* ===== verification/ComPort.v ===== *)
(** * RFC 2217: the serial line over telnet, in [ser2net/dataxfer.c]

    A client that negotiated the COM-PORT option sets and reads the line of
    its port with suboptions.  [com_port_handler] answers each with the
    value that holds afterwards; [com_port_will] turns the option on.  Both
    run as callbacks of [Telnet.v] and implement the interface [ComPort] of
    [PortFlow.v].  The terminal driver is the interface [Tty] of
    [PortData.v]. *)

From S2P Require Import Prelude CStr SelHeap Selector Telnet Utils DevCfg PortData PortFlow PortScript.

(** ** Constants of the driver *)

Definition TCIFLUSH : Z := 0.
Definition TCOFLUSH : Z := 1.
Definition TCIOFLUSH : Z := 2.
Definition CS5 : Z := 0.
Definition CS6 : Z := 16.
Definition TIOCM_DTR : Z := 2.
Definition TIOCM_RTS : Z := 4.

(** ** Baud rates *)

Record baud_rates_s := BaudRate { real_rate : Z; baud_val : Z; cisco_ios_val : Z }.

Definition baud_rates : list baud_rates_s :=
  [BaudRate 50 1 (-1); BaudRate 75 2 (-1); BaudRate 110 3 (-1); BaudRate 134 4 (-1); BaudRate 150 5 (-1);
   BaudRate 200 6 (-1); BaudRate 300 B300 3; BaudRate 600 8 4; BaudRate 1200 B1200 5; BaudRate 1800 10 (-1);
   BaudRate 2400 B2400 6; BaudRate 4800 B4800 7; BaudRate 9600 B9600 8; BaudRate 19200 B19200 10;
   BaudRate 38400 B38400 12; BaudRate 57600 B57600 13; BaudRate 115200 B115200 14; BaudRate 230400 4099 15].

(** [cfgetispeed] of the C library. *)
Definition cfgetispeed (t : termios) : Z := Z.land (c_cflag t) CBAUD.

(** A [uint32_t] in network order, and its value as an [int]. *)
Definition htonl (v : Z) : list Z :=
  [(v / 2 ^ 24) mod 256; (v / 2 ^ 16) mod 256; (v / 2 ^ 8) mod 256; v mod 256].
Definition ntohl (b : list Z) : Z :=
  match b with
  | [a; b; c; d] =>
      let u := a * 2 ^ 24 + b * 2 ^ 16 + c * 2 ^ 8 + d in
      if u <? 2 ^ 31 then u else u - 2 ^ 32
  | _ => 0
  end.

Section rfc2217.
Context {K : Type} `{Kernel K} `{Tty K}.

(** The flag of the command line; it is set before any port is opened. *)
Context (cisco_ios_baud_rates : bool).

Fixpoint find_rate (f : baud_rates_s -> bool) (l : list baud_rates_s) : option baud_rates_s :=
  match l with [] => None | r :: l' => if f r then Some r else find_rate f l' end.

(** [None] for a return of 0. *)
Definition get_baud_rate (rate : Z) : option Z :=
  baud_val <$> find_rate (fun r => rate =? (if cisco_ios_baud_rates then cisco_ios_val r else real_rate r)) baud_rates.

(** [*val] afterwards; it keeps its value for a rate that is not listed. *)
Definition get_rate_from_baud_rate (baud_rate val : Z) : Z :=
  match find_rate (fun r => baud_rate =? baud_val r) baud_rates with
  | None => val
  | Some r =>
      if cisco_ios_baud_rates then (if cisco_ios_val r <? 0 then 0 else cisco_ios_val r) else real_rate r
  end.

(** ** The requests

    Each answers with the bytes it sends, or with nothing.  [opt] is the
    suboption from its first byte, the option number, on; a byte of it that
    was not received is not read. *)

Definition byte_of (v : Z) : Z := v mod 256.

(** [tcsetattr(port->devfd, TCSANOW, &termio)] *)
Definition setattr (fd : Z) (t : termios) : DX_ K unit := sys_do (tty_setattr fd t).

Definition set_baudrate (i : port_info) (opt : list Z) : DX_ K (option (list Z)) :=
  if (Z.of_nat (length opt) <? (if cisco_ios_baud_rates then 3 else 6)) then mret None
  else
    let val := if cisco_ios_baud_rates then nth 2 opt 0 else ntohl (take 4 (drop 2 opt)) in
    t ← ask (tty_getattr (devfd i));
    val ← (match t with
           | None => mret 0
           | Some termio =>
               termio ← (match (if negb (val =? 0) then get_baud_rate val else None) with
                         | Some b =>
                             let termio := cfsetospeed b (cfsetispeed b termio) in
                             _ ← setattr (devfd i) termio; mret termio
                         | None => mret termio
                         end);
               t ← ask (tty_getattr (devfd i));
               mret (cfgetispeed (match t with Some t' => t' | None => termio end))
           end);
    let val := get_rate_from_baud_rate val val in
    mret (Some (if cisco_ios_baud_rates then [44; 101; byte_of val] else [44; 101] ++ htonl val)).

Definition csize_flag (n : Z) : Z := if n =? 5 then CS5 else if n =? 6 then CS6 else if n =? 7 then CS7 else CS8.

(** [switch (termio.c_cflag & CSIZE)], for the four values there are. *)
Definition csize_val (t : termios) : Z :=
  let f := Z.land (c_cflag t) CSIZE in
  if f =? CS5 then 5 else if f =? CS6 then 6 else if f =? CS7 then 7 else 8.

(** The three requests that set a field of [c_cflag] have one shape: the
    attributes are read, changed and written when [ok], and the field read
    back from the local copy. *)
Definition set_field (i : port_info) (ok : bool) (f : termios -> termios) (val : termios -> Z) (code : Z)
    : DX_ K (option (list Z)) :=
  t ← ask (tty_getattr (devfd i));
  v ← (match t with
       | None => mret 0
       | Some termio =>
           if ok then _ ← setattr (devfd i) (f termio); mret (val (f termio)) else mret (val termio)
       end);
  mret (Some [44; code; byte_of v]).

Definition set_datasize (i : port_info) (v : Z) : DX_ K (option (list Z)) :=
  set_field i ((5 <=? v) && (v <=? 8)) (set_cflag (fun f => on (csize_flag v) (off CSIZE f))) csize_val 102.

Definition parity_flag (v : Z) : Z := if v =? 1 then 0 else if v =? 2 then Z.lor PARENB PARODD else PARENB.
Definition parity_val (t : termios) : Z :=
  if has PARENB (c_cflag t) then (if has PARODD (c_cflag t) then 2 else 3) else 1.
Definition set_parity (i : port_info) (v : Z) : DX_ K (option (list Z)) :=
  set_field i ((1 <=? v) && (v <=? 3)) (set_cflag (fun f => on (parity_flag v) (off (Z.lor PARENB PARODD) f))) parity_val 103.

Definition stop_flag (v : Z) : Z := if v =? 1 then 0 else CSTOPB.
Definition stop_val (t : termios) : Z := if has CSTOPB (c_cflag t) then 2 else 1.
Definition set_stopsize (i : port_info) (v : Z) : DX_ K (option (list Z)) :=
  set_field i ((v =? 1) || (v =? 2)) (set_cflag (fun f => on (stop_flag v) (off CSTOPB f))) stop_val 104.

(** *** SET-CONTROL *)

Definition outbound_flow (i : port_info) (v : Z) : DX_ K Z :=
  t ← ask (tty_getattr (devfd i));
  match t with
  | None => mret 0
  | Some termio =>
      termio ← (if negb (v =? 0) then
                  let termio := set_cflag (off CRTSCTS) (set_iflag (off (Z.lor IXON IXOFF)) termio) in
                  let termio := if v =? 2 then set_iflag (on (Z.lor IXON IXOFF)) termio
                                else if v =? 3 then set_cflag (on CRTSCTS) termio else termio in
                  _ ← setattr (devfd i) termio; mret termio
                else mret termio);
      mret (if has CRTSCTS (c_cflag termio) then 3 else if has IXON (c_iflag termio) then 2 else 1)
  end.

Definition inbound_flow (i : port_info) (v : Z) : DX_ K Z :=
  t ← ask (tty_getattr (devfd i));
  match t with
  | None => mret 0
  | Some termio =>
      termio ← (if v =? 15 then
                  let termio := set_iflag (on IXOFF) termio in
                  _ ← setattr (devfd i) termio; mret termio
                else mret termio);
      mret (if has CRTSCTS (c_cflag termio) then 16 else if has IXOFF (c_iflag termio) then 15 else 14)
  end.

Definition set_break_set (b : bool) (i : port_info) : port_info :=
  let r := rfc i in set_rfc (Rfc2217 (is_2217 r) b (linestate_mask r) (modemstate_mask r) (last_modemstate r)) i.

(** [ioctl(port->devfd, ...) != -1] sets [break_set]; then
    [read_break_val]. *)
Definition break_control (p : ptr) (i : port_info) (v : Z) : DX_ K Z :=
  _ ← (if v =? 6 then
         ok ← sys (tty_cbrk (devfd i)); if ok : bool then set_port p (set_break_set false) else mret tt
       else if v =? 5 then
         ok ← sys (tty_sbrk (devfd i)); if ok : bool then set_port p (set_break_set true) else mret tt
       else mret tt);
  i ← port_at p;
  mret (if break_set (rfc i) then 5 else 6).

(** DTR and RTS: [set], [clear] and the request itself are [base+1],
    [base+2] and [base]. *)
Definition modem_line (i : port_info) (bit base v : Z) : DX_ K Z :=
  _ ← (if v =? base + 1 then sys_do (tty_mbis (devfd i) bit)
       else if v =? base + 2 then sys_do (tty_mbic (devfd i) bit)
       else mret tt);
  m ← ask (sys_tiocmget (devfd i));
  mret (match m with
        | None => base
        | Some val => if has bit val then base + 1 else base + 2
        end).

Definition set_control (p : ptr) (i : port_info) (v : Z) : DX_ K (option (list Z)) :=
  val ← (if (0 <=? v) && (v <=? 3) then outbound_flow i v
         else if (13 <=? v) && (v <=? 19) then inbound_flow i v
         else if (4 <=? v) && (v <=? 6) then break_control p i v
         else if (7 <=? v) && (v <=? 9) then modem_line i TIOCM_DTR 7 v
         else if (10 <=? v) && (v <=? 12) then modem_line i TIOCM_RTS 10 v
         else mret 0);
  mret (Some [44; 105; byte_of val]).

(** *** The rest *)

Definition set_linestate_mask (v : Z) (i : port_info) : port_info :=
  let r := rfc i in set_rfc (Rfc2217 (is_2217 r) (break_set r) v (modemstate_mask r) (last_modemstate r)) i.
Definition set_modemstate_mask (v : Z) (i : port_info) : port_info :=
  let r := rfc i in set_rfc (Rfc2217 (is_2217 r) (break_set r) (linestate_mask r) v (last_modemstate r)) i.

Definition purge_data (i : port_info) (v : Z) : DX_ K (option (list Z)) :=
  match (if v =? 1 then Some TCIFLUSH else if v =? 2 then Some TCOFLUSH else if v =? 3 then Some TCIOFLUSH else None) with
  | None => mret None
  | Some q => _ ← sys_do (tty_flush (devfd i) q); mret (Some [44; 112; v])
  end.

Definition signature : list Z := chars "ser2net".

(** The switch over [option[1]]; all cases but three need a third byte. *)
Definition com_port_request (opt : list Z) (p : ptr) : DX_ K (option (list Z)) :=
  i ← port_at p;
  if (length opt <? 2)%nat then mret None
  else
    let c := nth 1 opt 0 in
    let v := nth 2 opt 0 in
    if c =? 0 then mret (Some ([44; 100] ++ signature))
    else if c =? 1 then set_baudrate i opt
    else if c =? 8 then _ ← sys_do (tty_flow (devfd i) false); mret (Some [44; 108])
    else if c =? 9 then _ ← sys_do (tty_flow (devfd i) true); mret (Some [44; 109])
    else if (length opt <? 3)%nat then mret None
    else if c =? 2 then set_datasize i v
    else if c =? 3 then set_parity i v
    else if c =? 4 then set_stopsize i v
    else if c =? 5 then set_control p i v
    else if c =? 10 then _ ← set_port p (set_linestate_mask v); mret (Some [44; 110; v])
    else if c =? 11 then _ ← set_port p (set_modemstate_mask v); mret (Some [44; 111; v])
    else if c =? 12 then purge_data i v
    else mret None.

Definition rfc_handler (opt : list Z) : ST (tstate addr (CB K)) unit :=
  r ← in_callback (com_port_request opt);
  match r with None => mret tt | Some out => telnet_send_option out end.

Definition start_2217 (i : port_info) : port_info :=
  set_rfc (Rfc2217 true (break_set (rfc i)) 0 255 0) i.
Definition set_last_modemstate (v : Z) (i : port_info) : port_info :=
  let r := rfc i in set_rfc (Rfc2217 (is_2217 r) (break_set r) (linestate_mask r) (modemstate_mask r) v) i.

(** The option to send, unless the port does not allow RFC 2217. *)
Definition rfc_accept (p : ptr) : DX_ K (option (list Z)) :=
  i ← port_at p;
  if negb (allow_2217 (dinfo (conf i))) then mret None
  else
    _ ← set_port p start_2217;
    m ← ask (sys_tiocmget (devfd i));
    let st := match m with None => 0 | Some val => modemstate_of val end in
    _ ← (match m with None => mret tt | Some _ => set_port p (set_last_modemstate st) end);
    mret (Some [TN_OPT_COM_PORT; 107; st]).

Definition rfc_will : ST (tstate addr (CB K)) bool :=
  r ← in_callback rfc_accept;
  match r with None => mret false | Some out => _ ← telnet_send_option out; mret true end.

#[export] Instance rfc2217_port : ComPort K := { com_port_handler := rfc_handler; com_port_will := rfc_will }.
End rfc2217.

(** ** What a request does to the line *)

(** The requests for which there is a setting of the line. *)
Inductive line_request :=
  | RBaud (r : baud_rates_s)
  | RSize (n : Z)
  | RParity (m : parity_mode)
  | RStop (two : bool).

Definition parity_code (m : parity_mode) : Z := match m with ParityNone => 1 | ParityOdd => 2 | ParityEven => 3 end.

Definition supported (cisco : bool) (q : line_request) : Prop :=
  match q with
  | RBaud r => r ∈ baud_rates /\ (cisco = true -> 0 <= cisco_ios_val r)
  | RSize n => 5 <= n <= 8
  | _ => True
  end.

(** The value of a request, as the suboption carries it. *)
Definition request_value (cisco : bool) (q : line_request) : list Z :=
  match q with
  | RBaud r => if cisco then [cisco_ios_val r] else htonl (real_rate r)
  | RSize n => [n]
  | RParity m => [parity_code m]
  | RStop b => [if b then 2 else 1]
  end.

Definition request_code (q : line_request) : Z :=
  match q with RBaud _ => 1 | RSize _ => 2 | RParity _ => 3 | RStop _ => 4 end.

Definition request_change (q : line_request) : setting_change :=
  match q with
  | RBaud r => SetSpeed (baud_val r)
  | RSize n => SetCsize (csize_flag n)
  | RParity m => SetParity m
  | RStop b => SetTwoStop b
  end.

Section requests.
Context {K : Type} `{Kernel K} `{Tty K}.

Lemma baud_rate_find cisco r :
  r ∈ baud_rates -> (cisco = true -> 0 <= cisco_ios_val r) ->
  let v := if cisco then cisco_ios_val r else real_rate r in
  v <> 0 /\ get_baud_rate cisco v = Some (baud_val r) /\ get_rate_from_baud_rate cisco (baud_val r) (baud_val r) = v /\
  ntohl (htonl (real_rate r)) = real_rate r /\ (cisco = true -> byte_of v = v) /\
  Z.land (baud_val r) CBAUD = baud_val r /\ Z.land (baud_val r) (Z.lnot CBAUD) = 0.
Proof.
  intros Hr Hc. unfold baud_rates in Hr. repeat (apply elem_of_cons in Hr as [->|Hr]); [..|by apply elem_of_nil in Hr];
    destruct cisco; try (specialize (Hc eq_refl); cbn in Hc; lia);
    (split; [discriminate|]; split_and!; try reflexivity; done).
Qed.

Lemma sys_do_Ok (f : K -> K) (s : dx K) : sys_do f s = Ok (tt, with_kern (f (kern s)) s).
Proof. done. Qed.
Lemma ask_Ok {A} (f : K -> A) (s : dx K) : ask f s = Ok (f (kern s), s).
Proof. done. Qed.

Lemma set_field_sets i ok f val code (s : dx K) t :
  tty_getattr (devfd i) (kern s) = Some t -> ok = true ->
  set_field i ok f val code s =
    Ok (Some [44; code; byte_of (val (f t))], with_kern (tty_setattr (devfd i) (f t) (kern s)) s).
Proof. intros Ht ->. unfold set_field. rewrite (ST_bind_Ok _ _ _ _ _ (ask_Ok _ s)), Ht. reflexivity. Qed.

Lemma set_field_reads i ok f val code (s : dx K) t :
  tty_getattr (devfd i) (kern s) = Some t -> ok = false ->
  set_field i ok f val code s = Ok (Some [44; code; byte_of (val t)], s).
Proof. intros Ht ->. unfold set_field. rewrite (ST_bind_Ok _ _ _ _ _ (ask_Ok _ s)), Ht. reflexivity. Qed.

Lemma size_set n t : 5 <= n <= 8 ->
  csize_val (set_cflag (fun f => on (csize_flag n) (off CSIZE f)) t) = n /\
  view (set_cflag (fun f => on (csize_flag n) (off CSIZE f)) t) = change (SetCsize (csize_flag n)) (view t).
Proof.
  intros Hn. assert (n = 5 \/ n = 6 \/ n = 7 \/ n = 8) as [-> | [-> | [-> | ->]]] by lia; unfold csize_flag, csize_val;
    cbn [Z.eqb Pos.eqb c_cflag set_cflag]; (split; [rewrite land_set_field by reflexivity; reflexivity | by view_step]).
Qed.

Lemma parity_set m t :
  parity_val (set_cflag (fun f => on (parity_flag (parity_code m)) (off (Z.lor PARENB PARODD) f)) t) = parity_code m /\
  view (set_cflag (fun f => on (parity_flag (parity_code m)) (off (Z.lor PARENB PARODD) f)) t) = change (SetParity m) (view t).
Proof.
  destruct m; unfold parity_val, parity_flag, parity_code, has; cbn [Z.eqb Pos.eqb c_cflag set_cflag];
    (split; [bits; reflexivity | by view_step]).
Qed.

Lemma stop_set (b : bool) t :
  stop_val (set_cflag (fun f => on (stop_flag (if b then 2 else 1)) (off CSTOPB f)) t) = (if b then 2 else 1) /\
  view (set_cflag (fun f => on (stop_flag (if b then 2 else 1)) (off CSTOPB f)) t) = change (SetTwoStop b) (view t).
Proof.
  destruct b; unfold stop_val, stop_flag, has; cbn [Z.eqb Pos.eqb c_cflag set_cflag];
    (split; [bits; reflexivity | by view_step]).
Qed.
End requests.

(** The value that stands for the present setting of a field. *)
Definition present_value (c : Z) (t : termios) : Z :=
  if c =? 2 then csize_val t else if c =? 3 then parity_val t else stop_val t.

Section claims.
Context {K : Type} `{Kernel K} `{Tty K} `{!TtyLaws K}.

(** C36: a request for a setting the program supports sets it: the answer
    repeats the value, under the code of the answer, the attributes the line
    has afterwards differ in that setting and no other, and nothing else of
    the program changes. *)
Theorem com_port_request_sets cisco q p (s : dx K) i t :
  pheap s !! p = Some i -> tty_getattr (devfd i) (kern s) = Some t -> supported cisco q ->
  exists t', com_port_request cisco ([44; request_code q] ++ request_value cisco q) p s =
      Ok (Some ([44; 100 + request_code q] ++ request_value cisco q), with_kern (tty_setattr (devfd i) t' (kern s)) s) /\
    tty_getattr (devfd i) (tty_setattr (devfd i) t' (kern s)) = Some t' /\ view t' = change (request_change q) (view t).
Proof.
  intros Hi Ht Hq. unfold com_port_request. rewrite (ST_bind_Ok _ _ _ _ _ (port_at_Ok _ _ _ Hi)).
  destruct q as [r|n|m|two]; cbn [request_code request_value request_change supported] in *.
  - destruct Hq as [Hr Hc]. destruct (baud_rate_find cisco r Hr Hc) as (Hne & Hg & Hv & Hn & Hb & Hl1 & Hl2).
    set (t' := cfsetospeed (baud_val r) (cfsetispeed (baud_val r) t)). exists t'.
    split; [|split; [apply getattr_setattr|]].
    + assert (Hs : cfgetispeed t' = baud_val r).
      { unfold cfgetispeed, t'. cbn [c_cflag cfsetospeed cfsetispeed set_cflag]. by apply land_set_field. }
      assert (Hlen : Z.of_nat (length ([44; 1] ++ (if cisco then [cisco_ios_val r] else htonl (real_rate r))))
        = if cisco then 3 else 6) by by destruct cisco.
      destruct (Nat.ltb_spec (length ([44; 1] ++ (if cisco then [cisco_ios_val r] else htonl (real_rate r)))) 2); [destruct cisco; lia|].
      cbn [nth app]. cbn [Z.eqb Pos.eqb]. unfold set_baudrate.
      change (44 :: 1 :: ?l) with ([44; 1] ++ l). rewrite Hlen.
      replace ((if cisco then 3 else 6) <? (if cisco then 3 else 6)) with false by by destruct cisco.
      replace (if cisco then nth 2 ([44; 1] ++ (if cisco then [cisco_ios_val r] else htonl (real_rate r))) 0
               else ntohl (take 4 (drop 2 ([44; 1] ++ (if cisco then [cisco_ios_val r] else htonl (real_rate r))))))
        with (if cisco then cisco_ios_val r else real_rate r); [|destruct cisco; [done | symmetry; exact Hn]].
      rewrite (ST_bind_Ok _ _ _ _ _ (ask_Ok _ s)), Ht.
      rewrite (proj2 (Z.eqb_neq _ _) Hne). cbn [negb]. rewrite Hg. fold t'.
      rewrite ST_bind_eq, ST_bind_eq. unfold setattr. rewrite (ST_bind_Ok _ _ _ _ _ (sys_do_Ok _ s)).
      cbn [mret ST_ret]. rewrite (ST_bind_Ok _ _ _ _ _ (ask_Ok _ _)). cbn [kern with_kern].
      rewrite getattr_setattr, Hs. cbn [mret ST_ret]. rewrite Hv.
      destruct cisco; [by rewrite (Hb eq_refl) | done].
    + exact (view_speed t (baud_val r) Hl1 Hl2).
  - destruct (size_set n t Hq) as [Hv Hview]. eexists. split; [|split; [apply getattr_setattr | exact Hview]].
    cbn [app length Nat.ltb Nat.leb nth Z.eqb Pos.eqb]. unfold set_datasize.
    rewrite (set_field_sets _ _ _ _ _ s t Ht) by lia. rewrite Hv. unfold byte_of. by rewrite Z.mod_small by lia.
  - destruct (parity_set m t) as [Hv Hview]. eexists. split; [|split; [apply getattr_setattr | exact Hview]].
    cbn [app length Nat.ltb Nat.leb nth Z.eqb Pos.eqb]. unfold set_parity.
    rewrite (set_field_sets _ _ _ _ _ s t Ht) by by destruct m. rewrite Hv. by destruct m.
  - destruct (stop_set two t) as [Hv Hview]. eexists. split; [|split; [apply getattr_setattr | exact Hview]].
    cbn [app length Nat.ltb Nat.leb nth Z.eqb Pos.eqb]. unfold set_stopsize.
    rewrite (set_field_sets _ _ _ _ _ s t Ht) by by destruct two. rewrite Hv. by destruct two.
Qed.

(** A request whose value the program does not support, such as the
    query 0, leaves the line alone and answers with the present setting. *)
Theorem com_port_request_reads cisco c v p (s : dx K) i t :
  pheap s !! p = Some i -> tty_getattr (devfd i) (kern s) = Some t -> 2 <= c <= 4 ->
  v < (if c =? 2 then 5 else 1) \/ (if c =? 2 then 8 else if c =? 3 then 3 else 2) < v ->
  com_port_request cisco [44; c; v] p s = Ok (Some [44; 100 + c; present_value c t], s).
Proof.
  intros Hi Ht Hc Hv. unfold com_port_request. rewrite (ST_bind_Ok _ _ _ _ _ (port_at_Ok _ _ _ Hi)).
  assert (Hb : byte_of (present_value c t) = present_value c t).
  { apply Z.mod_small. unfold present_value, csize_val, parity_val, stop_val. repeat case_match; lia. }
  assert (c = 2 \/ c = 3 \/ c = 4) as [-> | [-> | ->]] by lia; cbn [Z.eqb Pos.eqb] in Hv;
    cbn [length Nat.ltb Nat.leb nth Z.eqb Pos.eqb]; unfold set_datasize, set_parity, set_stopsize;
    rewrite (set_field_reads _ _ _ _ _ s t Ht) by lia; unfold present_value in *; cbn [Z.eqb Pos.eqb] in *;
    by rewrite Hb.
Qed.
End claims.

(** ** The callbacks keep the promises of a telnet client *)

(** The port exists and its descriptors fit the sets of the selector. *)
Definition usable {K} (p : ptr) (s : dx K) : Prop :=
  exists i, pheap s !! p = Some i /\ 0 <= devfd i < FD_SETSIZE /\ 0 <= tcpfd i < FD_SETSIZE.

(** What is behind [cb_data] of the port [q]. *)
Definition port_inv (K : Type) (q : ptr) : ClientInv addr (CB K) := {|
  world_ok w := w.1 = q /\ usable q w.2;
  option_ok f := f = com_port_handler_fn;
  will_ok f := f = com_port_will_fn
|}.

Section callbacks.
Context {K : Type} `{Kernel K} `{Tty K} (q : ptr).
#[local] Instance this_inv : ClientInv addr (CB K) := port_inv K q.
Implicit Types s : dx K.

(** [calm p m]: on a usable port [m] returns, and leaves it usable. *)
Definition calm {A} (p : ptr) (m : DX_ K A) : Prop :=
  forall s, usable p s -> exists a s', m s = Ok (a, s') /\ usable p s'.

Lemma calm_ret {A} p (a : A) : calm p (mret a).
Proof. intros s Hs. by exists a, s. Qed.

Lemma calm_bind {A B} p (m : DX_ K A) (k : A -> DX_ K B) : calm p m -> (forall a, calm p (k a)) -> calm p (m ≫= k).
Proof.
  intros Hm Hk s Hs. destruct (Hm s Hs) as (a & s1 & E & Hs1). rewrite (ST_bind_Ok _ _ _ _ _ E). by apply Hk.
Qed.

Lemma calm_ask {A} p (f : K -> A) : calm p (ask f).
Proof. intros s Hs. by exists (f (kern s)), s. Qed.

Lemma calm_sys_do p (f : K -> K) : calm p (sys_do f).
Proof. intros s Hs. by eexists _, _. Qed.

Lemma calm_sys {A} p (f : K -> A * K) : calm p (sys f).
Proof. intros s Hs. unfold sys. destruct (f (kern s)) as [a k]. by eexists _, _. Qed.

Lemma calm_port_at p : calm p (port_at p).
Proof. intros s Hs. pose proof Hs as (i & Hi & _). exists i, s. by rewrite (port_at_Ok _ _ _ Hi). Qed.

Lemma calm_set_port p (f : port_info -> port_info) :
  (forall i, devfd (f i) = devfd i /\ tcpfd (f i) = tcpfd i) -> calm p (set_port p f).
Proof.
  intros Hf s (i & Hi & Hd & Ht). exists tt, (upd p (f i) s). split; [by apply set_port_Ok|].
  exists (f i). destruct (Hf i) as [-> ->]. split; [apply upd_lookup | done].
Qed.

Create HintDb calm discriminated.
#[local] Hint Resolve calm_ret calm_ask calm_sys_do calm_sys calm_port_at : calm.

(** Through the code of a handler, branch by branch. *)
Ltac calm_step :=
  repeat match goal with
  | |- calm _ (_ ≫= _) => apply calm_bind; [|intros ?]
  | |- calm _ (set_port _ _) => apply calm_set_port; by intros []
  | |- calm _ (if ?b then _ else _) => destruct b
  | |- calm _ (match ?o with Some _ => _ | None => _ end) => destruct o
  | |- calm _ (let _ := _ in _) => cbv zeta
  | |- calm _ _ => solve [eauto with calm | unfold setattr; eauto with calm]
  end.

Lemma calm_request cisco opt p : calm p (com_port_request cisco opt p).
Proof.
  unfold com_port_request, set_baudrate, set_datasize, set_parity, set_stopsize, set_field, set_control, outbound_flow,
    inbound_flow, break_control, modem_line, purge_data. calm_step.
Qed.

Lemma calm_accept p : calm p (rfc_accept p).
Proof. unfold rfc_accept. calm_step. Qed.

Lemma calm_output_ready p : calm p (telnet_output_ready p).
Proof.
  intros s (i & Hi & Hd & Ht). unfold telnet_output_ready. rewrite (ST_bind_Ok _ _ _ _ _ (port_at_Ok _ _ _ Hi)).
  rewrite (ST_bind_Ok _ _ _ _ _ (read_handler_off _ _ Hd)), (write_handler_on _ _ Ht).
  eexists _, _. split; [done|]. by exists i.
Qed.

Lemma callback_safe {A} (m : ptr -> DX_ K A) : (forall p, calm p (m p)) -> safe (in_callback m).
Proof.
  intros Hm [d c [p s]] [Ht Hc Ho Hw]. unfold in_callback. cbn [world td cmds].
  destruct Hw as [Hq Hw]. cbn in Hq, Hw. subst p.
  destruct (Hm q s Hw) as (a & s' & -> & Hw'). apply fine_Ok; [by constructor | done].
Qed.

#[local] Instance port_output_safe : SafeOutput addr (CB K).
Proof. constructor. apply callback_safe, calm_output_ready. Qed.

Lemma rfc2217_safe cisco : SafeClient (H0 := port_client (H0 := rfc2217_port cisco)) addr (CB K).
Proof.
  constructor.
  - apply port_output_safe.
  - intros c. apply callback_safe. intros p. unfold telnet_cmd_handler. calm_step.
  - intros f data ->. cbn [call_option port_client com_port_handler rfc2217_port]. rewrite Nat.eqb_refl.
    apply safe_bind; [apply callback_safe, calm_request|].
    intros [out|]; [apply safe_telnet_send_option | apply safe_ret].
  - intros f ->. cbn [call_will port_client com_port_will rfc2217_port]. rewrite Nat.eqb_refl.
    apply safe_bind; [apply callback_safe, calm_accept|]. intros [out|]; [|apply safe_ret].
    apply safe_bind; [apply safe_telnet_send_option | intros _; apply safe_ret].
Qed.
End callbacks.

(** ** A telnet port with RFC 2217 *)

Definition table_ok (l : list (telnet_cmd addr)) : Prop :=
  terminated l /\ Forall (fun m => (forall f, option_handler m = Some f -> f = com_port_handler_fn) /\
                                   (forall f, will_handler m = Some f -> f = com_port_will_fn)) l.

Lemma init_table_ok : table_ok init_telnet_cmds.
Proof.
  split; [do 4 apply Exists_cons_tl; by apply Exists_cons_hd|].
  repeat constructor; cbn; intros f Hf; by simplify_eq.
Qed.

Section port.
Context {K : Type} `{Kernel K} `{Tty K} (cisco : bool).
#[local] Instance this_com_port : ComPort K := rfc2217_port cisco.
Implicit Types s : dx K.

(** C13: whatever a connection sends to a telnet port, with its commands and
    RFC 2217 requests cut anywhere, the parser and the handlers it calls come
    back, with the port usable, its telnet state and the table sound and no
    more data than was read; or a suboption for an option of the table that has no
    handler ends somewhere in the input (behind a part that is parsed), and then its
    handler is called through a null pointer. *)
Theorem telnet_port_input p s i data tl :
  pheap s !! p = Some i -> usable p s -> td_ok (tn_data i) -> table_ok (telnet_cmds s) ->
  (exists d n s' i', on_telnet p (process_telnet_data (data ++ tl) (length data)) s = Ok ((d, n), s') /\
    usable p s' /\ pheap s' !! p = Some i' /\ td_ok (tn_data i') /\ table_ok (telnet_cmds s') /\
    (n <= length data)%nat /\ drop (length data) d = tl) \/
  (on_telnet p (process_telnet_data (data ++ tl) (length data)) s = Crash NullDeref /\
   null_suboption (H1 := port_client (H0 := rfc2217_port cisco)) data (TState (tn_data i) (telnet_cmds s) (p, s)) /\ null_handler (telnet_cmds s)).
Proof.
  intros Hi Hu Htd [Hterm Hcall]. unfold on_telnet. rewrite Hi.
  pose proof (rfc2217_safe p cisco) as Hsafe. set (inv := port_inv K p) in Hsafe.
  assert (Hok : tn_ok (TState (tn_data i) (telnet_cmds s) (p, s))) by by constructor.
  pose proof (process_telnet_data_fine data tl _ Hok) as Hf.
  destruct (process_telnet_data (data ++ tl) (length data) (TState (tn_data i) (telnet_cmds s) (p, s)))
    as [[[d n] ts]|c]; [left | right; by destruct Hf as (-> & ? & ?)].
  destruct Hf as ([Htd' Hterm' Hcall' Hw'] & _ & Hn & _ & Hd).
  assert (Hp : exists s2 i2, (_ ← set_port p (set_tn_data (td ts)); mret (d, n)) (with_cmds (cmds ts) (snd (world ts)))
      = Ok ((d, n), s2) /\ pheap s2 !! p = Some i2 /\ tn_data i2 = td ts /\ telnet_cmds s2 = cmds ts /\ usable p s2).
  { destruct (world ts) as [p' s1]. destruct Hw' as [Hp' (i1 & Hi1 & Hd1 & Ht1)]. cbn in Hp', Hi1. subst p'.
    set (s2 := with_cmds (cmds ts) s1). eexists (upd p (set_tn_data (td ts) i1) s2), _. split.
    - by rewrite (ST_bind_Ok _ _ _ _ _ (set_port_Ok p _ i1 s2 Hi1)).
    - split; [apply upd_lookup|]. split; [done|]. split; [done|].
      exists (set_tn_data (td ts) i1). split; [apply upd_lookup | done]. }
  destruct Hp as (s2 & i2 & -> & Hi2 & Htd2 & Hc2 & Hu2).
  exists d, n, s2, i2. rewrite Htd2, Hc2. done.
Qed.
End port.

(** ** Concrete requests *)

Definition tty_dx (rs : list (sysres (list Z))) : dx script :=
  demo_dx PORT_TELNET [] [] {[5; 6]} ∅ (Script rs [] [] [] [] {[ 5 := zero_termios ]}).

Lemma com_port_request_sets_witness :
  exists t', com_port_request false ([44; 1] ++ htonl 9600) 1%positive (tty_dx []) =
      Ok (Some ([44; 101] ++ htonl 9600), with_kern (tty_setattr 5 t' (kern (tty_dx []))) (tty_dx [])) /\
    tty_getattr 5 (tty_setattr 5 t' (kern (tty_dx []))) = Some t' /\ view t' = change (SetSpeed B9600) (view zero_termios).
Proof.
  apply (com_port_request_sets false (RBaud (BaudRate 9600 B9600 8)) 1%positive (tty_dx []) (demo_port PORT_TELNET [] []) zero_termios).
  - reflexivity.
  - reflexivity.
  - split; [|discriminate]. do 12 apply list_elem_of_further. apply list_elem_of_here.
Defined.

Lemma com_port_request_reads_witness :
  com_port_request true [44; 3; 0] 1%positive (tty_dx []) = Ok (Some [44; 103; 1], tty_dx []).
Proof.
  apply (com_port_request_reads true 3 0 1%positive (tty_dx []) (demo_port PORT_TELNET [] []) zero_termios);
    [reflexivity | reflexivity | lia | left; reflexivity].
Defined.

(** The line keeps eight bits when the driver does not take seven, but the
    answer says seven: only SET-BAUDRATE reads the attributes again. *)
Example datasize_not_read_back :
  let lost : Tty script := {| tty_getattr fd k := s_tty k !! fd; tty_setattr _ _ k := k; tty_mbis _ _ k := k;
    tty_mbic _ _ k := k; tty_sbrk _ k := (true, k); tty_cbrk _ k := (true, k); tty_flow _ _ k := k; tty_flush _ _ k := k |} in
  (fun r => match r with Ok (a, s) => Some (a, csize_val <$> s_tty (kern s) !! 5) | Crash _ => None end)
    (com_port_request (H0 := lost) false [44; 2; 7] 1%positive
      (demo_dx PORT_TELNET [] [] ∅ ∅ (Script [] [] [] [] [] {[ 5 := set_cflag (on CS8) zero_termios ]})))
  = Some (Some [44; 102; 7], Some 8).
Proof. vm_compute. reflexivity. Qed.

(** A speed that is not in the table is answered with the bits of the flag
    word: 460800 is [B460800], 4100. *)
Example unlisted_speed : get_rate_from_baud_rate false 4100 4100 = 4100.
Proof. reflexivity. Qed.

(** Seven bits and a carrier report: the client turns the option on and sets
    the size in one read. *)
Example demo_session :
  (fun r => match r with
            | Ok (_, s) => match pheap s !! 1%positive with Some i => out_telnet_cmd (tn_data i) | None => [] end
            | Crash _ => []
            end)
    (handle_tcp_fd_read (H0 := rfc2217_port false) 6 1%positive
      (tty_dx [Done ([255; 251; 44] ++ [255; 250; 44; 2; 7; 255; 240])]))
  = [255; 254; 44] ++ [255; 250; 44; 102; 7; 255; 240].
Proof. vm_compute. reflexivity. Qed.

(** Five bytes from the network end the program: the option SUPPRESS GO AHEAD
    has no handler, and its suboption calls it. *)
Example null_handler_from_network :
  handle_tcp_fd_read (H0 := rfc2217_port false) 6 1%positive (tty_dx [Done [255; 250; 3; 255; 240]]) = Crash NullDeref.
Proof. vm_compute. reflexivity. Qed.

Lemma telnet_port_input_witness :
  (exists d n s' i', on_telnet (K := script) 1%positive
      (process_telnet_data (H0 := port_client (H0 := rfc2217_port false)) ([65; 255; 250; 44; 2; 7; 255; 240] ++ [0]) 8) (tty_dx [])
      = Ok ((d, n), s') /\
    usable 1%positive s' /\ pheap s' !! 1%positive = Some i' /\ td_ok (tn_data i') /\ table_ok (telnet_cmds s') /\
    (n <= 8)%nat /\ drop 8 d = [0]) \/
  (on_telnet (K := script) 1%positive
      (process_telnet_data (H0 := port_client (H0 := rfc2217_port false)) ([65; 255; 250; 44; 2; 7; 255; 240] ++ [0]) 8) (tty_dx [])
      = Crash NullDeref /\
   null_suboption (H1 := port_client (H0 := rfc2217_port false)) [65; 255; 250; 44; 2; 7; 255; 240] (TState (tn_data (demo_port PORT_TELNET [] [])) init_telnet_cmds (1%positive, tty_dx [])) /\
   null_handler init_telnet_cmds).
Proof.
  apply (telnet_port_input false 1%positive (tty_dx []) (demo_port PORT_TELNET [] []) [65; 255; 250; 44; 2; 7; 255; 240] [0]).
  - reflexivity.
  - exists (demo_port PORT_TELNET [] []). split; [reflexivity|]. split; split; discriminate || reflexivity.
  - repeat split; cbn; lia.
  - split; [do 4 apply Exists_cons_tl; apply Exists_cons_hd; reflexivity|].
    repeat constructor; cbn; intros f E; try discriminate E; injection E as <-; reflexivity.
Defined.
