(* ===== verification/CtlData.v ===== *)
(** * Control connections: data, output and end of [ser2net/controller.c]

    A control connection has a buffer for the line that is typed, a growing
    buffer for what is to be sent, and at most one port it monitors.  This
    file holds the state, the output buffer and the end of a connection;
    [PortAdmin.v] holds the commands, [Controller.v] the handlers. *)

From S2P Require Import Prelude CStr SelHeap Selector Telnet Utils DevCfg PortData PortFlow PortText PortSetup.

(** ** Moving bytes inside a buffer *)

(** [for (...; n rounds; i++, j++) buf[j] = buf[i]] *)
Fixpoint copy_down (buf : list Z) (n j i : nat) : res (list Z) :=
  match n with
  | O => Ok buf
  | S n' => b ← load buf i; buf' ← store buf j b; copy_down buf' n' (S j) (S i)
  end.

(** [memcpy(&buf[pos], data, count)] and the source of one. *)
Definition paste (buf : list Z) (pos : nat) (data : list Z) : res (list Z) :=
  _ ← check (Nat.leb (pos + length data) (length buf)) OutOfBounds;
  Ok (take pos buf ++ data ++ drop (pos + length data) buf).
Definition slice (buf : list Z) (pos count : nat) : res (list Z) :=
  _ ← check (Nat.leb (pos + count) (length buf)) OutOfBounds;
  Ok (take count (drop pos buf)).

(** ** The state *)

Definition INBUF_SIZE : nat := 255.
Definition max_controller_ports : Z := 4.

(** [controller_info_t] without its descriptor, which is in [ctl_fds], and
    without the input buffer.  [outbuf] is the memory block, [outbufsize] what
    the code takes for its size. *)
Record controller_info := ControllerInfo {
  c_remote : sockaddr_in;
  outbuf : option (list Z);
  outbufsize : Z;
  outbuf_pos : Z;
  outbuf_count : Z;
  monitor_port_id : option ptr;
  c_tn : telnet_data
}.

Definition set_out_block (b : option (list Z)) (size pos count : Z) (i : controller_info) : controller_info :=
  ControllerInfo (c_remote i) b size pos count (monitor_port_id i) (c_tn i).
Definition set_monitor (v : option ptr) (i : controller_info) : controller_info :=
  ControllerInfo (c_remote i) (outbuf i) (outbufsize i) (outbuf_pos i) (outbuf_count i) v (c_tn i).
Definition set_c_tn (v : telnet_data) (i : controller_info) : controller_info :=
  ControllerInfo (c_remote i) (outbuf i) (outbufsize i) (outbuf_pos i) (outbuf_count i) (monitor_port_id i) v.

(** The static variables of the file next to those of [dataxfer.c]. *)
Record ct (K : Type) := Ct {
  ctls : gmap ptr controller_info;
  controllers : list ptr;
  num_controller_ports : Z;
  ctl_cmds : list (telnet_cmd addr);
  ctl_dx : dx K
}.
Arguments Ct {K}.
Arguments ctls {K}.
Arguments controllers {K}.
Arguments num_controller_ports {K}.
Arguments ctl_cmds {K}.
Arguments ctl_dx {K}.

Abbreviation CT K := (ST (ct K)).

(** The two monitors of a port. *)
Definition set_monitors (t d : option ptr) (i : port_info) : port_info :=
  PortInfo (conf i) (enabled i) (timeout_left i) (timer i) (acceptfd i) (tcpfd i) (devfd i) (remote i) (bytes i)
    (tcp_to_dev i) (dev_to_tcp i) t d (PortData.config_num i) (new_config i) (tn_data i) (rfc i) (wt i) (rt i) (bt i).

Section ctl.
Context {K : Type} `{Kernel K}.
Implicit Types s : ct K.

Definition with_ctls (h : gmap ptr controller_info) s : ct K :=
  Ct h (controllers s) (num_controller_ports s) (ctl_cmds s) (ctl_dx s).
Definition with_list (l : list ptr) (n : Z) s : ct K := Ct (ctls s) l n (ctl_cmds s) (ctl_dx s).
Definition with_ctl_cmds (v : list (telnet_cmd addr)) s : ct K :=
  Ct (ctls s) (controllers s) (num_controller_ports s) v (ctl_dx s).
Definition with_dx (d : dx K) s : ct K :=
  Ct (ctls s) (controllers s) (num_controller_ports s) (ctl_cmds s) d.
Definition with_ctl_fds (f : gmap ptr Z) (d : dx K) : dx K :=
  DX (ports d) (pheap d) (dsel d) (telnet_cmds d) f (uucp_locking_enabled d) (kern d).

Definition on_dx {A} (m : DX_ K A) : CT K A := fun s =>
  match m (ctl_dx s) with Ok (a, d) => Ok (a, with_dx d s) | Crash c => Crash c end.

(** Through a pointer to a controller; a freed one is not in [ctls]. *)
Definition ctl_at (c : ptr) : CT K controller_info := fun s =>
  match ctls s !! c with Some i => Ok (i, s) | None => Crash OutOfBounds end.
Definition set_ctl (c : ptr) (f : controller_info -> controller_info) : CT K unit := fun s =>
  match ctls s !! c with
  | Some i => Ok (tt, with_ctls (<[c := f i]> (ctls s)) s)
  | None => Crash OutOfBounds
  end.
Definition ctl_tcpfd (c : ptr) : CT K Z := fun s =>
  match ctl_fds (ctl_dx s) !! c with Some fd => Ok (fd, s) | None => Crash OutOfBounds end.

(** ** Output *)

(** The size of a block for [n] bytes. *)
Definition block_size (n : Z) : Z := n ÷ 1024 * 1024 + 1024.

(** [malloc] of a block of [size] bytes that starts with [data]; the other
    bytes are unknown, and not read before they are written. *)
Definition new_block (size : Z) (data : list Z) : res (list Z) :=
  paste (replicate (Z.to_nat size) 0) 0 data.

(** The bytes behind the ones that wait, in the block when they fit. *)
Definition append_output (i : controller_info) (buf data : list Z) : res controller_info :=
  let pos := Z.to_nat (outbuf_pos i) in
  let n := Z.to_nat (outbuf_count i) in
  let count := Z.of_nat (length data) in
  let new_size := outbuf_count i + count in
  if new_size <=? outbufsize i then
    buf ← (if 0 <? outbuf_pos i then copy_down buf n 0 pos else Ok buf);
    buf ← paste buf n data;
    Ok (set_out_block (Some buf) (outbufsize i) 0 (outbuf_count i + count) i)
  else
    let new_size := block_size new_size in
    old ← slice buf pos n;
    newbuf ← new_block new_size old;
    newbuf ← paste newbuf n data;
    Ok (set_out_block (Some newbuf) new_size 0 (outbuf_count i + count) i).

Definition controller_output (c : ptr) (data : list Z) : CT K unit :=
  i ← ctl_at c;
  match outbuf i with
  | Some buf => i' ← lift_res (append_output i buf data); set_ctl c (fun _ => i')
  | None =>
      let count := Z.of_nat (length data) in
      newbuf ← lift_res (new_block (block_size count) data);
      _ ← set_ctl c (set_out_block (Some newbuf) (block_size count) 0 count);
      fd ← ctl_tcpfd c;
      _ ← on_dx (read_handler fd SEL_FD_HANDLER_DISABLED);
      on_dx (write_handler fd SEL_FD_HANDLER_ENABLED)
  end.

(** A [char *] passed with its [strlen]. *)
Definition output_str (c : ptr) (t : string) : CT K unit := controller_output c (chars t).
Definition CRLF : list Z := [10; 13].

(** ** The end of a connection *)

Definition data_monitor_stop (p : ptr) : CT K unit := on_dx (set_port p (set_monitors None None)).

Definition free_controller (c : ptr) : CT K unit := modify (fun s =>
  with_dx (with_ctl_fds (delete c (ctl_fds (ctl_dx s))) (ctl_dx s)) (with_ctls (delete c (ctls s)) s)).

Definition shutdown_controller (c : ptr) : CT K unit :=
  i ← ctl_at c;
  _ ← (match monitor_port_id i with
       | Some p => _ ← data_monitor_stop p; set_ctl c (set_monitor None)
       | None => mret tt
       end);
  fd ← ctl_tcpfd c;
  _ ← on_dx (on_selector (fun v => sel_clear_fd_handlers v fd));
  _ ← on_dx (sys_do (sys_close fd));
  _ ← set_ctl c (fun i => set_out_block None (outbufsize i) (outbuf_pos i) (outbuf_count i) i);
  _ ← modify (fun s => if bool_decide (c ∈ controllers s)
                       then with_list (unlink_port (controllers s) c) (num_controller_ports s - 1) s else s);
  free_controller c.
End ctl.
