(* ===== verification/PortAdmin.v ===== *)
(** * The commands on ports: [ser2net/dataxfer.c], from [showshortport] to
    [disconnect_port]

    What a control connection can ask of the ports.  Every function finds the
    port by its name and answers on the connection with [controller_output]. *)

From S2P Require Import Prelude CStr SelHeap Selector Telnet Utils DevCfg PortData PortFlow PortText PortSetup CtlData.

(** [ioctl(fd, TIOCMSET, &status)] *)
Class Modem (K : Type) := {
  tty_mset : Z -> Z -> K -> K
}.

Definition state_str : list string := ["unconnected"; "waiting input"; "waiting output"]%string.
Definition enabled_str : list string := ["off"; "raw"; "rawlp"; "telnet"]%string.

(** [%-ws], [%ws] and [%wd]; an [unsigned int] printed with [%d]. *)
Definition left_in (w : nat) (t : list Z) : list Z := t ++ replicate (w - length t) 32.
Definition right_in (w : nat) (t : list Z) : list Z := replicate (w - length t) 32 ++ t.
Definition as_int (u : Z) : Z := if u <? 2 ^ 31 then u else u - 2 ^ 32.

(** [sprintf] into an array of [size] bytes. *)
Definition printed (size : nat) (t : list Z) : res (list Z) :=
  _ ← check (Nat.ltb (length t) size) OutOfBounds; Ok t.

(** A name through its pointer. *)
Definition name_bytes (t : option cstr) : res (list Z) :=
  match t with Some t => Ok (map code t) | None => Crash NullDeref end.

Section admin.
Context {K : Type} `{Kernel K} `{Tty K} `{Net K} `{Libc} `{Modem K}.
Implicit Types s : ct K.

(** Texts one after the other. *)
Fixpoint output_all (c : ptr) (l : list (list Z)) : CT K unit :=
  match l with [] => mret tt | t :: l' => _ ← controller_output c t; output_all c l' end.

(** The modem lines of the device, as [show_devcontrol] prints them. *)
Definition devcontrol_shown (fd : Z) : CT K (list (list Z)) :=
  m ← on_dx (ask (sys_tiocmget fd));
  t ← lift_res (show_devcontrol m);
  mret (map (map code) t).

(** ** One port *)

(** The columns of [showshortport] up to the device configuration; the spaces
    after the address are separate calls. *)
Definition short_columns (i : port_info) : res (list (list Z)) :=
  name ← name_bytes (portname (conf i));
  mode ← table_text enabled_str (enabled i);
  mode ← printed 128 (32 :: left_in 6 mode ++ [32]);
  let addr := sys_ntop (sin_addr (remote i)) in
  let port := 44 :: fmt_d (htons (sin_port (remote i))) ++ [32] in
  dev ← name_bytes (devname (conf i));
  t2d ← table_text state_str (fl_state (tcp_to_dev i));
  d2t ← table_text state_str (fl_state (dev_to_tcp i));
  let n u := right_in 9 (fmt_d (as_int u)) ++ [32] in
  Ok ([take 22 (left_in 22 name); mode; right_in 7 (fmt_d (timeout (conf i))) ++ [32]; addr; port] ++
      replicate (23 - (length addr + length port)) [32] ++
      [take 22 (left_in 22 dev); 32 :: left_in 14 t2d ++ [32]; left_in 14 d2t ++ [32];
       n (tcp_rx (bytes i)); n (tcp_tx (bytes i)); n (dev_rx (bytes i)); n (dev_tx (bytes i))]).

Definition showshortport (c p : ptr) : CT K unit :=
  i ← on_dx (port_at p);
  cols ← lift_res (short_columns i);
  _ ← output_all c cols;
  let need_space := negb (enabled i =? PORT_RAWLP) in
  _ ← (if need_space then output_all c (map (map code) (show_devcfg (termctl (dinfo (conf i))))) else mret tt);
  _ ← (if negb (fl_state (tcp_to_dev i) =? PORT_UNCONNECTED) then
         _ ← (if need_space then controller_output c [32] else mret tt);
         t ← devcontrol_shown (devfd i);
         output_all c t
       else mret tt);
  controller_output c CRLF.

(** [showport] up to the device configuration. *)
Definition port_head (i : port_info) : res (list (list Z)) :=
  name ← name_bytes (portname (conf i));
  name ← printed 128 name;
  mode ← table_text enabled_str (enabled i);
  dev ← name_bytes (devname (conf i));
  Ok [chars "TCP Port "; name; CRLF;
      chars "  enable state: "; mode; CRLF;
      chars "  timeout: "; fmt_d (timeout (conf i)); CRLF;
      chars "  connected to (or last connection): "; sys_ntop (sin_addr (remote i)); chars ":";
      fmt_d (htons (sin_port (remote i))); CRLF;
      chars "  device: "; dev; CRLF;
      chars "  device config: "].

(** The states and the counts. *)
Definition port_counts (i : port_info) : res (list (list Z)) :=
  t2d ← table_text state_str (fl_state (tcp_to_dev i));
  d2t ← table_text state_str (fl_state (dev_to_tcp i));
  let n u := fmt_d (as_int u) in
  Ok [chars "  tcp to device state: "; t2d; CRLF;
      chars "  device to tcp state: "; d2t; CRLF;
      chars "  bytes read from TCP: "; n (tcp_rx (bytes i)); CRLF;
      chars "  bytes written to TCP: "; n (tcp_tx (bytes i)); CRLF;
      chars "  bytes read from device: "; n (dev_rx (bytes i)); CRLF;
      chars "  bytes written to device: "; n (dev_tx (bytes i)); CRLF].

Definition showport (c p : ptr) : CT K unit :=
  i ← on_dx (port_at p);
  head ← lift_res (port_head i);
  _ ← output_all c head;
  _ ← (if enabled i =? PORT_RAWLP then controller_output c (chars "none" ++ CRLF)
       else _ ← output_all c (map (map code) (show_devcfg (termctl (dinfo (conf i))))); controller_output c CRLF);
  _ ← output_str c "  device controls: ";
  _ ← (if fl_state (tcp_to_dev i) =? PORT_UNCONNECTED then controller_output c (chars "not currently connected" ++ CRLF)
       else t ← devcontrol_shown (devfd i); _ ← output_all c t; controller_output c CRLF);
  tail ← lift_res (port_counts i);
  _ ← output_all c tail;
  if PortData.config_num i =? -1
  then controller_output c (chars "  Port will be deleted when current session closes." ++ CRLF)
  else match new_config i with
       | Some _ => controller_output c (chars "  Port will be reconfigured when current session closes." ++ CRLF)
       | None => mret tt
       end.

(** ** The list *)

Fixpoint find_port (h : gmap ptr port_info) (l : list ptr) (portstr : cstr) : res (option ptr) :=
  match l with
  | [] => Ok None
  | p :: l' =>
      match h !! p with
      | None => Crash OutOfBounds
      | Some i =>
          match portname (conf i) with
          | None => Crash NullDeref
          | Some n => if streq portstr n then Ok (Some p) else find_port h l' portstr
          end
      end
  end.
Definition find_port_by_num (portstr : cstr) : CT K (option ptr) :=
  s ← Prelude.get; lift_res (find_port (pheap (ctl_dx s)) (ports (ctl_dx s)) portstr).

(** An error message, a word the user typed and the end of the line. *)
Definition complain (c : ptr) (err : string) (word : cstr) : CT K unit :=
  output_all c [chars err; map code word; CRLF].

(** The functions that show all ports or one. *)
Definition each_port (c : ptr) (show : ptr -> ptr -> CT K unit) : CT K unit :=
  s ← Prelude.get;
  (fix loop (l : list ptr) : CT K unit :=
     match l with [] => mret tt | p :: l' => _ ← show c p; loop l' end) (ports (ctl_dx s)).
Definition show_spec (c : ptr) (show : ptr -> ptr -> CT K unit) (portspec : option cstr) : CT K unit :=
  match portspec with
  | None => each_port c show
  | Some name =>
      p ← find_port_by_num name;
      match p with None => complain c "Invalid port number: " name | Some p => show c p end
  end.

Definition showports (c : ptr) (portspec : option cstr) : CT K unit := show_spec c showport portspec.

Definition short_header : list Z :=
  left_in 22 (chars "Port name") ++ [32] ++ left_in 6 (chars "Type") ++ [32] ++ right_in 7 (chars "Timeout") ++ [32] ++
  left_in 22 (chars "Remote address") ++ [32] ++ left_in 22 (chars "Device") ++ [32] ++
  left_in 14 (chars "TCP to device") ++ [32] ++ left_in 14 (chars "Device to TCP") ++ [32] ++
  right_in 9 (chars "TCP in") ++ [32] ++ right_in 9 (chars "TCP out") ++ [32] ++ right_in 9 (chars "Dev in") ++ [32] ++
  right_in 9 (chars "Dev out") ++ [32] ++ chars "State" ++ CRLF.
Definition showshortports (c : ptr) (portspec : option cstr) : CT K unit :=
  t ← lift_res (printed 512 short_header);
  _ ← controller_output c t;
  show_spec c showshortport portspec.

(** ** Changes *)

Definition set_conf_timeout (t : Z) (i : port_info) : port_info :=
  let c := conf i in
  PortInfo (PortConf t (portname c) (tcpport c) (devname c) (dinfo c)) (enabled i) (timeout_left i) (timer i) (acceptfd i)
    (tcpfd i) (devfd i) (remote i) (bytes i) (tcp_to_dev i) (dev_to_tcp i) (tcp_monitor i) (dev_monitor i)
    (PortData.config_num i) (new_config i) (tn_data i) (rfc i) (wt i) (rt i) (bt i).
Definition set_conf_dinfo (d : dev_info) (i : port_info) : port_info :=
  let c := conf i in
  PortInfo (PortConf (timeout c) (portname c) (tcpport c) (devname c) d) (enabled i) (timeout_left i) (timer i) (acceptfd i)
    (tcpfd i) (devfd i) (remote i) (bytes i) (tcp_to_dev i) (dev_to_tcp i) (tcp_monitor i) (dev_monitor i)
    (PortData.config_num i) (new_config i) (tn_data i) (rfc i) (wt i) (rt i) (bt i).

Definition setporttimeout (c : ptr) (portspec timeout : cstr) : CT K unit :=
  port ← find_port_by_num portspec;
  match port with
  | None => complain c "Invalid port number: " portspec
  | Some p =>
      timeout_num ← lift_res (scan_int timeout);
      if timeout_num =? -1 then complain c "Invalid timeout: " timeout
      else
        _ ← on_dx (set_port p (set_conf_timeout timeout_num));
        i ← on_dx (port_at p);
        if negb (tcpfd i =? -1) then on_dx (set_port p reset_timer) else mret tt
  end.

Definition setportdevcfg `{ConfigNames} (c : ptr) (portspec devcfg : cstr) : CT K unit :=
  port ← find_port_by_num portspec;
  match port with
  | None => complain c "Invalid port number: " portspec
  | Some p =>
      i ← on_dx (port_at p);
      let '(rv, d) := devconfig devcfg (dinfo (conf i)) in
      _ ← on_dx (set_port p (set_conf_dinfo d));
      if rv =? -1 then controller_output c (chars "Invalid device config" ++ CRLF) else mret tt
  end.

(** [setdevcontrol] on the descriptor: each word reads the status, changes it
    and sets it. *)
Fixpoint dev_control_loop (words : list cstr) (fd : Z) : DX_ K Z :=
  match words with
  | [] => mret 0
  | w :: words' =>
      match control_word w with
      | None => mret (-1)
      | Some f =>
          m ← ask (sys_tiocmget fd);
          status ← lift_res (match m with Some status => Ok status | None => Crash Uninit end);
          _ ← sys_do (tty_mset fd (f status));
          dev_control_loop words' fd
      end
  end.
Definition dev_control (controls : cstr) (fd : Z) : DX_ K Z := dev_control_loop (tokens blank controls) fd.

Definition setportcontrol (c : ptr) (portspec controls : cstr) : CT K unit :=
  port ← find_port_by_num portspec;
  match port with
  | None => complain c "Invalid port number: " portspec
  | Some p =>
      i ← on_dx (port_at p);
      if fl_state (tcp_to_dev i) =? PORT_UNCONNECTED then complain c "Port is not currently connected: " portspec
      else
        rv ← on_dx (dev_control controls (devfd i));
        if rv =? -1 then controller_output c (chars "Invalid device controls" ++ CRLF) else mret tt
  end.

Definition enable_word (w : cstr) : option Z :=
  if streq w (str "off") then Some PORT_DISABLED
  else if streq w (str "raw") then Some PORT_RAW
  else if streq w (str "rawlp") then Some PORT_RAWLP
  else if streq w (str "telnet") then Some PORT_TELNET
  else None.

Definition setportenable (c : ptr) (portspec enable : cstr) : CT K unit :=
  port ← find_port_by_num portspec;
  match port with
  | None => complain c "Invalid port number: " portspec
  | Some p =>
      match enable_word enable with
      | None => complain c "Invalid enable: " enable
      | Some new_enable =>
          err ← on_dx (change_port_state p new_enable);
          match err with
          | Some err => output_all c [map code err; CRLF]
          | None => mret tt
          end
      end
  end.

(** ** Monitors *)

Definition data_monitor_start (c : ptr) (type portspec : cstr) : CT K (option ptr) :=
  port ← find_port_by_num portspec;
  match port with
  | None => _ ← complain c "Invalid port number: " portspec; mret None
  | Some p =>
      i ← on_dx (port_at p);
      match tcp_monitor i, dev_monitor i with
      | None, None =>
          if streq type (str "tcp") then
            _ ← on_dx (set_port p (fun i => set_monitors (Some c) (dev_monitor i) i)); mret (Some p)
          else if streq type (str "term") then
            _ ← on_dx (set_port p (fun i => set_monitors (tcp_monitor i) (Some c) i)); mret (Some p)
          else _ ← complain c "invalid monitor type: " type; mret None
      | _, _ =>
          _ ← output_all c [chars "Port is already being monitored"; CRLF];
          mret None
      end
  end.

Definition disconnect_port (c : ptr) (portspec : cstr) : CT K unit :=
  port ← find_port_by_num portspec;
  match port with
  | None => complain c "Invalid port number: " portspec
  | Some p =>
      i ← on_dx (port_at p);
      if fl_state (tcp_to_dev i) =? PORT_UNCONNECTED then complain c "Port not connected: " portspec
      else on_dx (shutdown_port p (chars "disconnect"))
  end.
End admin.
