(* ===== verification/Controller.v ===== *)
(** * The control port: the handlers of [ser2net/controller.c]

    Lines typed on a control connection are edited in place in [inbuf] and
    run as commands; what they print leaves through the output buffer of
    [CtlData.v]. *)

From S2P Require Import Prelude CStr SelHeap Selector Telnet Utils DevCfg PortData PortFlow PortText PortSetup CtlData PortAdmin.

Definition handle_tcp_fd_read_ctl_fn : addr := 11%nat.
Definition handle_tcp_fd_write_ctl_fn : addr := 12%nat.
Definition handle_tcp_fd_except_ctl_fn : addr := 13%nat.
Definition handle_accept_port_read_ctl_fn : addr := 14%nat.

Definition prompt : list Z := chars "-> ".

(** A byte as a character of a text. *)
Definition char_of (b : Z) : ascii := ascii_of_N (Z.to_N b).

(** The table of options of the control connections. *)
Definition telnet_cmds : list (telnet_cmd addr) :=
  [TelnetCmd TN_OPT_SUPPRESS_GO_AHEAD false true true false false false None None;
   TelnetCmd TN_OPT_ECHO false true true true false false None None;
   TelnetCmd TN_OPT_BINARY_TRANSMISSION true true false true false false None None;
   TelnetCmd 255 false false false false false false None None].

Definition telnet_init_seq : list Z :=
  [TN_IAC; TN_WILL; TN_OPT_SUPPRESS_GO_AHEAD;
   TN_IAC; TN_WILL; TN_OPT_ECHO;
   TN_IAC; TN_DONT; TN_OPT_ECHO].

Definition help_lines : list string :=
  ["exit - leave the program.";
   "help - display this help.";
   "version - display the version of this program.";
   "monitor <type> <tcp port> - display all the input for a given port on";
   "       the calling control port.  Only one direction may be monitored";
   "       at a time.  The type field may be 'tcp' or 'term' and specifies";
   "       whether to monitor data from the TCP port or from the serial port";
   "       Note that data monitoring is best effort, if the controller port";
   "       cannot keep up the data will be silently dropped.  A controller";
   "       may only monitor one thing and a port may only be monitored by";
   "       one controller.";
   "monitor stop - stop the current monitor.";
   "disconnect <tcp port> - disconnect the tcp connection on the port.";
   "showport [<tcp port>] - Show information about a port. If no port is";
   "       given, all ports are displayed.";
   "showshortport [<tcp port>] - Show information about a port in a one-line";
   "       format. If no port is given, all ports are displayed.";
   "setporttimeout <tcp port> <timeout> - Set the amount of time in seconds";
   "       before the port connection will be shut down if no activity";
   "       has been seen on the port.";
   "setportconfig <tcp port> <config> - Set the port configuration as in";
   "       the device configuration in the ser2net.conf file.  Valid options";
   "       are: 300, 1200, 2400, 4800, 9600, 19200, 38400, 57600, 115200, ";
   "       EVEN, ODD, NONE, 1STOPBIT, 2STOPBITS, 7DATABITS, 8DATABITS, ";
   "       LOCAL (ignore modem control), [-]RTSCTS, [-]XONXOFF.";
   "       Note that these will not change until the port is disconnected";
   "       and connected again.";
   "setportcontrol <tcp port> <controls>";
   "       Dynamically modify the characteristics of the port.  These are";
   "       immedaite and won't live between connections.  Valid controls are";
   "       DTRHI, DTRLO, RTSHI, and RTSLO.";
   "setportenable <tcp port> <enable state> - Sets the port operation state.";
   "       Valid states are:";
   "         off - The TCP port is shut down";
   "         raw - The TCP port is up and all I/O is transferred";
   "         rawlp - The TCP port is up and the input is transferred to dev";
   "         telnet - The TCP port is up and the telnet negotiation protocol";
   "                  runs on the port."]%string.
Definition help_str : list Z := flat_map (fun l => chars l ++ CRLF) help_lines.

(** The version is data of the build. *)
Class Texts := { VERSION : list Z }.

Section command.
Context {K : Type} `{Kernel K} `{Tty K} `{Net K} `{Libc} `{Modem K} `{Texts} `{ConfigNames}.
Implicit Types s : ct K.

(** ** Commands *)

(** The next word, and the rest of the line. *)
Definition word (line : cstr) : option (cstr * cstr) := strtok blank line.
Definition remainder (line : cstr) : option (cstr * cstr) := strtok (fun _ => false) line.

(** A required argument, or the message for its absence. *)
Definition need {A} (c : ptr) (tok : option A) (err : string) (k : A -> CT K unit) : CT K unit :=
  match tok with Some a => k a | None => controller_output c (chars err ++ CRLF) end.

Definition monitor_command (c : ptr) (rest : cstr) : CT K unit :=
  need c (word rest) "No monitor type given" (fun '(type, rest) =>
    i ← ctl_at c;
    if streq type (str "stop") then
      match monitor_port_id i with
      | Some p => _ ← data_monitor_stop p; set_ctl c (set_monitor None)
      | None => mret tt
      end
    else
      match monitor_port_id i with
      | Some _ => controller_output c (chars "Already monitoring a port" ++ CRLF)
      | None =>
          need c (word rest) "No tcp port given" (fun '(portspec, _) =>
            p ← data_monitor_start c type portspec;
            set_ctl c (set_monitor p))
      end).

(** The command of a line and its arguments; true when the connection is
    closed and no prompt is wanted. *)
Definition run_command (c : ptr) (tok rest : cstr) : CT K bool :=
  let go_on (m : CT K unit) : CT K bool := _ ← m; mret false in
  if streq tok (str "exit") then _ ← shutdown_controller c; mret true
  else if streq tok (str "quit") then _ ← shutdown_controller c; mret true
  else if streq tok (str "help") then go_on (controller_output c help_str)
  else if streq tok (str "version") then go_on (output_all c [chars "ser2net version "; VERSION; CRLF])
  else if streq tok (str "showport") then go_on (showports c (fst <$> word rest))
  else if streq tok (str "showshortport") then go_on (showshortports c (fst <$> word rest))
  else if streq tok (str "monitor") then go_on (monitor_command c rest)
  else if streq tok (str "disconnect") then
    go_on (need c (word rest) "No port given" (fun '(port, _) => disconnect_port c port))
  else if streq tok (str "setporttimeout") then
    go_on (need c (word rest) "No port given" (fun '(port, rest) =>
      need c (word rest) "No timeout given" (fun '(t, _) => setporttimeout c port t)))
  else if streq tok (str "setportenable") then
    go_on (need c (word rest) "No port given" (fun '(port, rest) =>
      need c (word rest) "No timeout given" (fun '(e, _) => setportenable c port e)))
  else if streq tok (str "setportconfig") then
    go_on (need c (word rest) "No port given" (fun '(port, rest) =>
      need c (remainder rest) "No device config" (fun '(cfg, _) => setportdevcfg c port cfg)))
  else if streq tok (str "setportcontrol") then
    go_on (need c (word rest) "No port given" (fun '(port, rest) =>
      need c (remainder rest) "No device controls" (fun '(ctl, _) => setportcontrol c port ctl)))
  else go_on (output_all c [chars "Unknown command: "; map code tok; CRLF]).

Definition process_input_line (c : ptr) (line : cstr) : CT K unit :=
  closed ← (match word line with None => mret false | Some (tok, rest) => run_command c tok rest end);
  if closed : bool then mret tt else controller_output c prompt.
End command.

(** ** The input buffer *)

(** [inbuf] and [inbuf_count]. *)
Record input := Input { inbuf : list Z; inbuf_count : nat }.

(** The input buffers of the controllers next to the rest of the state, which
    is all that commands see: the line reaches them as an argument. *)
Record ctl (K : Type) := Ctl { inputs : gmap ptr input; ctrl : ct K }.
Arguments Ctl {K}.
Arguments inputs {K}.
Arguments ctrl {K}.
Abbreviation CTL K := (ST (ctl K)).

(** [malloc]: the contents of the new [controller_info_t] are unknown. *)
Class CtlMemory (K : Type) := {
  junk_controller : K -> controller_info;
  junk_inbuf : K -> list Z
}.

Section editor.
Context {K : Type} `{Kernel K} `{Tty K} `{Net K} `{Libc} `{Modem K} `{Texts} `{ConfigNames}.
Implicit Types s : ctl K.

Definition on_ct {A} (m : CT K A) : CTL K A := fun s =>
  match m (ctrl s) with Ok (a, r) => Ok (a, Ctl (inputs s) r) | Crash c => Crash c end.

(** Through the pointer: the memory of a controller that was freed is gone. *)
Definition input_at (c : ptr) : CTL K input := fun s =>
  match ctls (ctrl s) !! c, inputs s !! c with
  | Some _, Some b => Ok (b, s)
  | _, _ => Crash OutOfBounds
  end.
Definition set_input (c : ptr) (b : input) : CTL K unit := fun s =>
  match ctls (ctrl s) !! c with
  | Some _ => Ok (tt, Ctl (<[c := b]> (inputs s)) (ctrl s))
  | None => Crash OutOfBounds
  end.

(** [remove_chars]: the answer is [pos - count]. *)
Definition remove_chars (c : ptr) (pos : Z) (count : nat) : CTL K Z :=
  b ← input_at c;
  let j := Z.to_nat (pos - Z.of_nat count + 1) in
  buf ← lift_res (copy_down (inbuf b) (inbuf_count b - count - j) j (j + count));
  _ ← set_input c (Input buf (inbuf_count b - count));
  mret (pos - Z.of_nat count).

(** A carriage return at [i]: the line runs, and what is left moves to the
    front. *)
Definition enter_line (c : ptr) (i : nat) : CTL K unit :=
  _ ← on_ct (controller_output c CRLF);
  b ← input_at c;
  buf ← lift_res (store (inbuf b) i 0);
  _ ← set_input c (Input buf (inbuf_count b));
  _ ← on_ct (process_input_line c (cstr_of (map char_of buf)));
  b ← input_at c;
  let n := (inbuf_count b - S i)%nat in
  buf ← lift_res (copy_down (inbuf b) n 0 (S i));
  set_input c (Input buf n).

(** The loop over the new bytes; every round leaves fewer of them behind [i],
    so [fuel] is their number. *)
Fixpoint edit_loop (fuel : nat) (c : ptr) (i : Z) : CTL K unit :=
  b ← input_at c;
  if negb (i <? Z.of_nat (inbuf_count b)) then mret tt
  else
    match fuel with
    | O => lift_res (Crash NoFuel)
    | S fuel' =>
        x ← lift_res (load (inbuf b) (Z.to_nat i));
        i' ← (if x =? 0 then remove_chars c i 1
              else if x =? 10 then remove_chars c i 1
              else if (x =? 8) || (x =? 127) then
                if i =? 0 then remove_chars c i 1
                else i' ← remove_chars c i 2; _ ← on_ct (controller_output c [8; 32; 8]); mret i'
              else if x =? 13 then _ ← enter_line c (Z.to_nat i); mret (-1)
              else _ ← on_ct (controller_output c [x]); mret i);
        edit_loop fuel' c (i' + 1)
    end.

(** ** Telnet *)

(** [cb_data] is the controller. *)
Definition in_ctl_callback {A} (m : ptr -> CT K A) : ST (tstate addr (ptr * ct K)) A := fun ts =>
  let '(c, s) := world ts in
  match m c s with
  | Ok (a, s') => Ok (a, TState (td ts) (cmds ts) (c, s'))
  | Crash e => Crash e
  end.

Definition telnet_output_ready (c : ptr) : CT K unit :=
  fd ← ctl_tcpfd c;
  _ ← on_dx (read_handler fd SEL_FD_HANDLER_DISABLED);
  on_dx (write_handler fd SEL_FD_HANDLER_ENABLED).

#[export] Instance ctl_telnet_output : TelnetOutput addr (ptr * ct K) := {
  output_ready := in_ctl_callback telnet_output_ready
}.

(** Commands are ignored; the table names no handlers. *)
#[export] Instance ctl_telnet_client : TelnetClient addr (ptr * ct K) := {
  cmd_handler _ := mret tt;
  call_option _ _ := lift_res (Crash OutOfBounds);
  call_will _ := lift_res (Crash OutOfBounds)
}.

(** A telnet function on [&cntlr->tn_data], with the shared table. *)
Definition on_ctl_telnet {A} (c : ptr) (m : ST (tstate addr (ptr * ct K)) A) : CT K A := fun (s : ct K) =>
  match ctls s !! c with
  | None => Crash OutOfBounds
  | Some i =>
      match m (TState (c_tn i) (ctl_cmds s) (c, s)) with
      | Crash e => Crash e
      | Ok (a, ts) => (_ ← set_ctl c (set_c_tn (td ts)); mret a) (with_ctl_cmds (cmds ts) (snd (world ts)))
      end
  end.

(** ** The handlers *)

Definition handle_tcp_fd_read (fd : Z) (c : ptr) : CTL K unit :=
  b ← input_at c;
  let start := inbuf_count b in
  if Nat.eqb start INBUF_SIZE then
    _ ← on_ct (controller_output c (chars "Input line too long" ++ CRLF));
    set_input c (Input (inbuf b) 0)
  else
    r ← on_ct (on_dx (sys (sys_read fd (INBUF_SIZE - start))));
    match r with
    | Failed EINTR => mret tt
    | Failed EAGAIN => mret tt
    | Failed _ =>
        _ ← on_ct (on_dx (sys_do (sys_syslog "read error for controller port")));
        on_ct (shutdown_controller c)
    | Done [] => on_ct (shutdown_controller c)
    | Done d =>
        buf ← lift_res (paste (inbuf b) start d);
        '(data, n) ← on_ct (on_ctl_telnet c (process_telnet_data (drop start buf) (length d)));
        _ ← set_input c (Input (take start buf ++ data) start);
        i ← on_ct (ctl_at c);
        if td_error (c_tn i) then on_ct (shutdown_controller c)
        else
          _ ← set_input c (Input (take start buf ++ data) (start + n));
          edit_loop n c (Z.of_nat start)
    end.

(** The second part of the write handler: the output.  Without a block the
    count is 0 and nothing is read through the null pointer. *)
Definition write_output (c : ptr) : CT K unit :=
  i ← ctl_at c;
  fd ← ctl_tcpfd c;
  b ← lift_res (match outbuf i with
                | None => if outbuf_count i =? 0 then Ok [] else Crash NullDeref
                | Some buf => slice buf (Z.to_nat (outbuf_pos i)) (Z.to_nat (outbuf_count i))
                end);
  r ← on_dx (sys (sys_write fd b));
  match r with
  | Failed EAGAIN => mret tt
  | Failed EPIPE => shutdown_controller c
  | Failed _ =>
      _ ← on_dx (sys_do (sys_syslog "The tcp write for controller had error"));
      shutdown_controller c
  | Done n =>
      let n := Z.of_nat n in
      if negb (outbuf_count i - n =? 0) then
        set_ctl c (fun i => set_out_block (outbuf i) (outbufsize i) (outbuf_pos i + n) (outbuf_count i - n) i)
      else
        _ ← set_ctl c (fun i => set_out_block None (outbufsize i) (outbuf_pos i) (outbuf_count i - n) i);
        _ ← on_dx (read_handler fd SEL_FD_HANDLER_ENABLED);
        on_dx (write_handler fd SEL_FD_HANDLER_DISABLED)
  end.

Definition handle_tcp_fd_write (fd : Z) (c : ptr) : CT K unit :=
  i ← ctl_at c;
  fd ← ctl_tcpfd c;
  let out := out_telnet_cmd (c_tn i) in
  match out with
  | [] => write_output c
  | _ =>
      r ← on_dx (sys (sys_write fd out));
      match r with
      | Failed EINTR => mret tt
      | Failed EAGAIN => write_output c
      | Failed EPIPE => shutdown_controller c
      | Failed _ =>
          _ ← on_dx (sys_do (sys_syslog "The tcp write for controller had error"));
          shutdown_controller c
      | Done n =>
          _ ← set_ctl c (fun i => set_c_tn (set_out (drop n out) (c_tn i)) i);
          match drop n out with [] => write_output c | _ => mret tt end
      end
  end.

Definition handle_tcp_fd_except (fd : Z) (c : ptr) : CT K unit :=
  _ ← on_dx (sys_do (sys_syslog "Select exception for controller port"));
  shutdown_controller c.
(** ** Connections *)

(** The connection is told why and closed. *)
Definition turn_away (fd : Z) (err : list Z) : CTL K unit :=
  new ← on_ct (on_dx (sys (net_accept fd)));
  match new with
  | Some (new_fd, _) => _ ← on_ct (on_dx (write_ignore new_fd err)); on_ct (on_dx (sys_do (sys_close new_fd)))
  | None => mret tt
  end.

(** The new [controller_info_t], at an address that is not in use. *)
Definition new_controller `{CtlMemory K} (tcpfd : Z) (from : sockaddr_in) : CTL K ptr := fun s =>
  let r := ctrl s in
  let c := fresh (dom (ctls r)) in
  let i := junk_controller (kern (ctl_dx r)) in
  let i := ControllerInfo from None (outbufsize i) (outbuf_pos i) (outbuf_count i) None (c_tn i) in
  Ok (c, Ctl (<[c := Input (junk_inbuf (kern (ctl_dx r))) 0]> (inputs s))
             (with_dx (with_ctl_fds (<[c := tcpfd]> (ctl_fds (ctl_dx r))) (ctl_dx r)) (with_ctls (<[c := i]> (ctls r)) r))).

Definition handle_accept_port_read `{CtlMemory K} (fd : Z) : CTL K unit :=
  s ← Prelude.get;
  if max_controller_ports <=? num_controller_ports (ctrl s)
  then turn_away fd (chars "Too many controller ports" ++ CRLF)
  else
    new ← on_ct (on_dx (sys (net_accept fd)));
    match new with
    | None => on_ct (on_dx (sys_do (sys_syslog "Could not accept on controller port")))
    | Some (tcpfd, from) =>
        allowed ← on_ct (on_dx (ask (hosts_access tcpfd)));
        if negb allowed then
          _ ← on_ct (on_dx (write_ignore tcpfd (chars "Access denied" ++ CRLF)));
          on_ct (on_dx (sys_do (sys_close tcpfd)))
        else
          ok ← on_ct (on_dx (sys (net_nonblock tcpfd)));
          if negb (ok : bool) then
            _ ← on_ct (on_dx (sys_do (sys_close tcpfd)));
            on_ct (on_dx (sys_do (sys_syslog "Could not fcntl the tcp port")))
          else
            c ← new_controller tcpfd from;
            _ ← on_ct (on_dx (on_selector (fun v => sel_set_fd_handlers v tcpfd (Some (Pos.to_nat c))
                  (Some handle_tcp_fd_read_ctl_fn) (Some handle_tcp_fd_write_ctl_fn) (Some handle_tcp_fd_except_ctl_fn))));
            _ ← on_ct (modify (fun r => with_list (c :: controllers r) (num_controller_ports r) r));
            _ ← on_ct (on_ctl_telnet c (telnet_init telnet_init_seq));
            _ ← on_ct (controller_output c prompt);
            on_ct (modify (fun r => with_list (controllers r) (num_controller_ports r + 1) r))
    end.

(** [exit(1)] after a message. *)
Definition give_in (fd : option Z) (msg : string) : CTL K Z :=
  _ ← (match fd with Some fd => on_ct (on_dx (sys_do (sys_close fd))) | None => mret tt end);
  _ ← on_ct (on_dx (sys_do (sys_syslog msg)));
  lift_res (Crash Exited).

Definition controller_init `{Resolver} (controller_port : cstr) : CTL K Z :=
  '(rv, sock, _) ← lift_res (scan_tcp_port controller_port zero_addr);
  if rv =? -1 then mret (-1)
  else
    fd ← on_ct (on_dx (sys net_socket));
    match fd with
    | None => give_in None "Unable to create TCP socket"
    | Some acceptfd =>
        let step (call : K -> bool * K) (msg : string) (next : CTL K Z) : CTL K Z :=
          ok ← on_ct (on_dx (sys call)); if negb (ok : bool) then give_in (Some acceptfd) msg else next in
        step (net_nonblock acceptfd) "Could not fcntl the accept port"
          (step (net_reuseaddr acceptfd) "Unable to set reuseaddress on socket"
            (step (net_bind acceptfd sock) "Unable to bind TCP port"
              (step (net_listen acceptfd) "Unable to listen to TCP port"
                (_ ← on_ct (on_dx (on_selector (fun v => sel_set_fd_handlers v acceptfd None
                      (Some handle_accept_port_read_ctl_fn) None None)));
                 _ ← on_ct (on_dx (read_handler acceptfd SEL_FD_HANDLER_ENABLED));
                 mret 0))))
    end.
End editor.
