(* ===== verification/CtlEdit.v ===== *)
(** * Typing on a control connection: properties of [Controller.v]

    The handler edits the bytes of a read inside the input buffer, with
    indices that go back and forth and data that moves under them.  It does
    what typing the bytes one by one on an empty screen does ([key]): that is
    the main theorem, and with it reads can be cut anywhere. *)

From S2P Require Import Prelude CStr SelHeap Selector Telnet Utils DevCfg PortData PortFlow PortText PortSetup.
From S2P Require Import PortScript PortAccept CtlData PortAdmin Controller.

(** ** Typing *)

Section typing.
Context {K : Type} `{Kernel K} `{Tty K} `{Net K} `{Libc} `{Modem K} `{Texts} `{ConfigNames}.
Implicit Types (r : ct K) (line d : list Z).

(** One byte on a connection whose line so far is [line]: NUL and newline are
    ignored, backspace and DEL take the last character back, a carriage return
    runs the line, and everything else is echoed and added. *)
Definition key (c : ptr) (b : Z) (line : list Z) (r : ct K) : res (list Z * ct K) :=
  if (b =? 0) || (b =? 10) then Ok (line, r)
  else if (b =? 8) || (b =? 127) then
    match line with
    | [] => Ok ([], r)
    | _ => '(_, r) ← controller_output c [8; 32; 8] r; Ok (removelast line, r)
    end
  else if b =? 13 then
    '(_, r) ← controller_output c CRLF r;
    '(_, r) ← process_input_line c (cstr_of (map char_of line)) r;
    match ctls r !! c with Some _ => Ok ([], r) | None => Crash OutOfBounds end
  else '(_, r) ← controller_output c [b] r; Ok (line ++ [b], r).

Fixpoint keys (c : ptr) (d : list Z) (line : list Z) (r : ct K) : res (list Z * ct K) :=
  match d with [] => Ok (line, r) | b :: d' => '(line, r) ← key c b line r; keys c d' line r end.

(** What the bytes of one read are worth: telnet takes its commands out, and
    the rest is typed; an error of telnet ends the connection. *)
Definition type_read (c : ptr) (d line : list Z) (r : ct K) : res (option (list Z) * ct K) :=
  '(out, r) ← on_ctl_telnet c (tn_filter d) r;
  match ctls r !! c with
  | None => Crash OutOfBounds
  | Some i =>
      if td_error (c_tn i) then '(_, r) ← shutdown_controller c r; Ok (None, r)
      else '(line, r) ← keys c out line r; Ok (Some line, r)
  end.
End typing.

(** ** Lemmas *)

(** What moves down ends up behind [u]; the length stays. *)
Lemma copy_down_spec v : forall u gap w, exists junk,
  copy_down (u ++ gap ++ v ++ w) (length v) (length u) (length u + length gap) = Ok (u ++ v ++ junk) /\
  length junk = (length gap + length w)%nat.
Proof.
  induction v as [|b v IH]; intros u gap w; cbn [length copy_down app].
  { exists (gap ++ w). by rewrite length_app. }
  assert (El : load (u ++ gap ++ b :: v ++ w) (length u + length gap) = Ok b).
  { rewrite app_assoc, <- length_app. apply load_app. }
  rewrite El, res_bind_Ok. rewrite store_Ok by (rewrite !length_app; cbn; lia). rewrite res_bind_Ok.
  destruct gap as [|g gap]; cbn [app length].
  - rewrite insert_app_at, Nat.add_0_r. destruct (IH (u ++ [b]) [] w) as (junk & E & Hl). exists junk. split; [|done].
    rewrite <- !app_assoc in E. cbn [app] in E. rewrite length_app, Nat.add_0_r in E. cbn [length] in E.
    by rewrite Nat.add_1_r in E.
  - rewrite insert_app_at. destruct (IH (u ++ [b]) (gap ++ [b]) w) as (junk & E & Hl). exists junk.
    rewrite <- !app_assoc in E. cbn [app] in E. rewrite !length_app in E. cbn [length] in E. rewrite Nat.add_1_r in E.
    replace (S (length u) + (length gap + 1))%nat with (S (length u + S (length gap))) in E by lia.
    split; [exact E | rewrite Hl, length_app; cbn; lia].
Qed.

Lemma cstr_of_stop u v : cstr_of (u ++ NUL :: v) = cstr_of u.
Proof.
  unfold cstr_of. induction u as [|c u IH]; cbn; [done|]. destruct (negb _); [|done].
  destruct (skip_while _ (u ++ NUL :: v)), (skip_while _ u). cbn in *. by f_equal.
Qed.

Section editor.
Context {K : Type} `{Kernel K} `{Tty K} `{Net K} `{Libc} `{Modem K} `{Texts} `{ConfigNames}.
Implicit Types (r : ct K) (s : ctl K) (line d : list Z) (c : ptr).

Lemma on_ct_Ok {A} (m : CT K A) s a r : m (ctrl s) = Ok (a, r) -> on_ct m s = Ok (a, Ctl (inputs s) r).
Proof. unfold on_ct. by intros ->. Qed.
Lemma on_ct_crash {A} (m : CT K A) s e : m (ctrl s) = Crash e -> on_ct m s = Crash e.
Proof. unfold on_ct. by intros ->. Qed.

(** The connection is there and its buffer holds [line], [rest] and bytes
    that do not matter. *)
Definition typed_at c s line rest junk : Prop :=
  is_Some (ctls (ctrl s) !! c) /\ inputs s !! c = Some (Input (line ++ rest ++ junk) (length line + length rest)).

Lemma input_at_Ok c s line rest junk : typed_at c s line rest junk ->
  input_at c s = Ok (Input (line ++ rest ++ junk) (length line + length rest), s).
Proof. intros [[i Hi] Hb]. unfold input_at. by rewrite Hi, Hb. Qed.

Lemma set_input_Ok c s b : is_Some (ctls (ctrl s) !! c) -> set_input c b s = Ok (tt, Ctl (<[c := b]> (inputs s)) (ctrl s)).
Proof. intros [i Hi]. unfold set_input. by rewrite Hi. Qed.

Lemma on_dx_inv {A} (m : DX_ K A) r a r' : on_dx m r = Ok (a, r') ->
  exists d : dx K, m (ctl_dx r) = Ok (a, d) /\ r' = with_dx d r.
Proof. unfold on_dx. destruct (m (ctl_dx r)) as [[x d]|]; [|done]. intros [= <- <-]. eauto. Qed.

(** Output keeps the connection. *)
Lemma output_keeps c data r r' : controller_output c data r = Ok (tt, r') -> is_Some (ctls r' !! c).
Proof.
  unfold controller_output. intros E. apply ST_bind_inv in E as (i & r1 & E1 & E). unfold ctl_at in E1.
  destruct (ctls r !! c) as [i0|] eqn:Hi; [|done]. injection E1 as <- <-. destruct (outbuf i0) as [buf|].
  - apply ST_bind_inv in E as (i' & r2 & E1 & E). unfold lift_res in E1. destruct (append_output i0 buf data); [|done].
    injection E1 as <- <-. unfold set_ctl in E. rewrite Hi in E. injection E as <-. cbn. rewrite lookup_insert_eq. eauto.
  - apply ST_bind_inv in E as (nb & r2 & E1 & E). unfold lift_res in E1. destruct (new_block _ data); [|done]. injection E1 as <- <-.
    apply ST_bind_inv in E as ([] & r3 & E1 & E). unfold set_ctl in E1. rewrite Hi in E1. injection E1 as <-.
    apply ST_bind_inv in E as (fd & r4 & E1 & E). unfold ctl_tcpfd in E1. destruct (ctl_fds _ !! c); [|done]. injection E1 as <- <-.
    apply ST_bind_inv in E as ([] & r5 & E1 & E). apply on_dx_inv in E1 as (d1 & _ & ->), E as (d2 & _ & ->).
    cbn. rewrite lookup_insert_eq. eauto.
Qed.

(** Removing the last [k] bytes of what was typed. *)
Lemma remove_chars_Ok c s line (x : list Z) rest junk k : typed_at c s (line ++ x) rest junk -> length x = k -> (0 < k)%nat ->
  exists junk', remove_chars c (Z.of_nat (length (line ++ x)) - 1) k s =
    Ok (Z.of_nat (length line) - 1, Ctl (<[c := Input (line ++ rest ++ junk') (length line + length rest)]> (inputs s)) (ctrl s)) /\
    length junk' = (k + length junk)%nat.
Proof.
  intros Ht Hx Hk. unfold remove_chars. rewrite (ST_bind_Ok _ _ _ _ _ (input_at_Ok _ _ _ _ _ Ht)). cbn [inbuf inbuf_count].
  rewrite !length_app, Hx.
  replace (Z.to_nat (Z.of_nat (length line + k) - 1 - Z.of_nat k + 1)) with (length line) by lia.
  replace (length line + k + length rest - k - length line)%nat with (length rest) by lia.
  destruct (copy_down_spec rest line x junk) as (junk' & E & Hl). rewrite <- app_assoc, <- Hx, E.
  rewrite (ST_bind_Ok _ _ _ _ _ eq_refl), (ST_bind_Ok _ _ _ _ _ (set_input_Ok _ _ _ (proj1 Ht))).
  exists junk'. split; [|lia].
  replace (length line + length x + length rest - length x)%nat with (length line + length rest)%nat by lia.
  by replace (Z.of_nat (length line + length x) - 1 - Z.of_nat (length x)) with (Z.of_nat (length line) - 1) by lia.
Qed.

(** The buffer after typing. *)
Definition typed_input (line junk : list Z) : input := Input (line ++ junk) (length line).

(** The outcome of the loop is that of typing. *)
Definition types (m : CTL K unit) c s size (k : res (list Z * ct K)) : Prop :=
  match k with
  | Crash e => m s = Crash e
  | Ok (line, r) => exists junk, m s = Ok (tt, Ctl (<[c := typed_input line junk]> (inputs s)) r) /\
      (length line + length junk)%nat = size
  end.

Lemma typed_here c s line rest junk : typed_at c s line rest junk -> typed_at c s (line ++ rest) [] junk.
Proof.
  intros [Hc Hb]. split; [done|]. rewrite Hb, <- app_assoc. cbn. by rewrite length_app, Nat.add_0_r.
Qed.

(** A carriage return at the end of the line. *)
Lemma enter_line_Ok c s line rest junk : typed_at c s line (13 :: rest) junk ->
  match (r1 ← controller_output c CRLF (ctrl s); process_input_line c (cstr_of (map char_of line)) r1.2) with
  | Crash e => enter_line c (length line) s = Crash e
  | Ok (_, r) =>
      match ctls r !! c with
      | None => enter_line c (length line) s = Crash OutOfBounds
      | Some _ => exists junk', enter_line c (length line) s =
          Ok (tt, Ctl (<[c := Input (rest ++ junk') (length rest)]> (inputs s)) r) /\
          length junk' = (S (length line) + length junk)%nat
      end
  end.
Proof.
  intros Ht. pose proof Ht as [_ Hb]. unfold enter_line.
  destruct (controller_output c CRLF (ctrl s)) as [[[] r1]|e] eqn:E1; cbn [mbind res_bind snd].
  2:{ rewrite ST_bind_eq. by rewrite (on_ct_crash _ _ _ E1). }
  pose proof (output_keeps _ _ _ _ E1) as Hc1. rewrite (ST_bind_Ok _ _ _ _ _ (on_ct_Ok _ _ _ _ E1)).
  set (s1 := Ctl (inputs s) r1). assert (Ht1 : typed_at c s1 line (13 :: rest) junk) by done.
  rewrite (ST_bind_Ok _ _ _ _ _ (input_at_Ok _ _ _ _ _ Ht1)). cbn [inbuf inbuf_count].
  assert (Est : store (line ++ (13 :: rest) ++ junk) (length line) 0 = Ok (line ++ 0 :: rest ++ junk)).
  { rewrite store_Ok by (rewrite length_app; cbn; lia). cbn [app]. by rewrite insert_app_at. }
  rewrite Est, (ST_bind_Ok _ _ _ _ _ eq_refl), (ST_bind_Ok _ _ _ _ _ (set_input_Ok c s1 _ Hc1)).
  assert (El : cstr_of (map char_of (line ++ 0 :: rest ++ junk)) = cstr_of (map char_of line)) by (rewrite map_app; apply cstr_of_stop).
  rewrite El. set (s2 := Ctl _ (ctrl s1)). change r1 with (ctrl s2).
  destruct (process_input_line c _ (ctrl s2)) as [[[] r2]|e] eqn:E2.
  2:{ rewrite ST_bind_eq. by rewrite (on_ct_crash _ _ _ E2). }
  rewrite (ST_bind_Ok _ _ _ _ _ (on_ct_Ok _ _ _ _ E2)). destruct (ctls r2 !! c) as [i|] eqn:Hc2.
  2:{ rewrite ST_bind_eq. unfold input_at. cbn [ctrl]. by rewrite Hc2. }
  assert (Hin : input_at c (Ctl (inputs s2) r2) =
    Ok (Input (line ++ 0 :: rest ++ junk) (length line + S (length rest)), Ctl (inputs s2) r2)).
  { unfold input_at. cbn. by rewrite Hc2, lookup_insert_eq. }
  rewrite (ST_bind_Ok _ _ _ _ _ Hin). cbn [inbuf inbuf_count].
  replace (length line + S (length rest) - S (length line))%nat with (length rest) by lia.
  destruct (copy_down_spec rest [] (line ++ [0]) junk) as (junk' & E3 & Hl). rewrite <- app_assoc in E3. cbn [app length] in E3.
  rewrite length_app in E3, Hl. cbn [length] in E3, Hl. rewrite Nat.add_1_r in E3. cbn [Nat.add] in E3. rewrite E3.
  rewrite (ST_bind_Ok _ _ _ _ _ eq_refl), set_input_Ok by (cbn; eauto). exists junk'. split; [|lia].
  unfold s2. cbn. by rewrite insert_insert_eq.
Qed.

Lemma typed_shift c s line b rest junk : typed_at c s line (b :: rest) junk -> typed_at c s (line ++ [b]) rest junk.
Proof.
  intros [Hc Hb]. split; [done|]. rewrite Hb, length_app, <- app_assoc. cbn [app length].
  by replace (length line + S (length rest))%nat with (length line + 1 + length rest)%nat by lia.
Qed.

Lemma typed_same c s b r line rest junk : is_Some (ctls r !! c) -> b = Input (line ++ rest ++ junk) (length line + length rest) ->
  typed_at c (Ctl (<[c := b]> (inputs s)) r) line rest junk.
Proof. intros Hc ->. split; [done|]. cbn. by rewrite lookup_insert_eq. Qed.

(** A step of the loop that leads to a state from where it goes on. *)
Lemma types_step (m m' : CTL K unit) c s b r size k : m s = m' (Ctl (<[c := b]> (inputs s)) r) ->
  types m' c (Ctl (<[c := b]> (inputs s)) r) size k -> types m c s size k.
Proof.
  intros E. unfold types. destruct k as [[line r']|e]; rewrite E; [|done]. cbn. intros (junk & Hm & Hl). exists junk.
  by rewrite Hm, insert_insert_eq.
Qed.
Lemma types_same (m m' : CTL K unit) c s r size k : m s = m' (Ctl (inputs s) r) ->
  types m' c (Ctl (inputs s) r) size k -> types m c s size k.
Proof. intros E. unfold types. by destruct k as [[line r']|e]; rewrite E. Qed.

(** What a round does with a byte, and the loop from there. *)
Definition edit_byte c (i x : Z) : CTL K Z :=
  if x =? 0 then remove_chars c i 1
  else if x =? 10 then remove_chars c i 1
  else if (x =? 8) || (x =? 127) then
    if i =? 0 then remove_chars c i 1
    else i' ← remove_chars c i 2; _ ← on_ct (controller_output c [8; 32; 8]); mret i'
  else if x =? 13 then _ ← enter_line c (Z.to_nat i); mret (-1)
  else _ ← on_ct (controller_output c [x]); mret i.

Lemma edit_loop_byte c s line b rest junk : typed_at c s line (b :: rest) junk ->
  edit_loop (S (length rest)) c (Z.of_nat (length line)) s =
    (i ← edit_byte c (Z.of_nat (length line)) b; edit_loop (length rest) c (i + 1)) s.
Proof.
  intros Ht. cbn [edit_loop]. rewrite (ST_bind_Ok _ _ _ _ _ (input_at_Ok _ _ _ _ _ Ht)). cbn [inbuf inbuf_count length].
  rewrite (proj2 (Z.ltb_lt _ _)) by lia. cbn [negb].
  change (line ++ (b :: rest) ++ junk) with (line ++ b :: rest ++ junk).
  by rewrite (ST_bind_Ok _ _ _ b s) by (unfold lift_res; by rewrite Nat2Z.id, load_app).
Qed.

(** A round does to the buffer what typing the byte does to the line. *)
Definition byte_types c s line rest (junk : list Z) b : Prop :=
  match key c b line (ctrl s) with
  | Crash e => edit_byte c (Z.of_nat (length line)) b s = Crash e
  | Ok (line', r) => exists i' junk',
      edit_byte c (Z.of_nat (length line)) b s =
        Ok (i', Ctl (<[c := Input (line' ++ rest ++ junk') (length line' + length rest)]> (inputs s)) r) /\
      i' + 1 = Z.of_nat (length line') /\ is_Some (ctls r !! c) /\
      (length line' + length junk' = S (length line) + length junk)%nat
  end.

Lemma byte_dropped c s line rest junk b : typed_at c s line (b :: rest) junk ->
  key c b line (ctrl s) = Ok (line, ctrl s) ->
  edit_byte c (Z.of_nat (length line)) b s = remove_chars c (Z.of_nat (length line)) 1 s -> byte_types c s line rest junk b.
Proof.
  intros Ht Ek Ee. pose proof (typed_shift _ _ _ _ _ _ Ht) as Ht'.
  destruct (remove_chars_Ok c s line [b] rest junk 1 Ht' eq_refl ltac:(lia)) as (j1 & E1 & Hl1).
  replace (Z.of_nat (length (line ++ [b])) - 1) with (Z.of_nat (length line)) in E1 by (rewrite length_app; cbn; lia).
  unfold byte_types. rewrite Ek, Ee. exists (Z.of_nat (length line) - 1), j1. split_and!; [exact E1 | lia | apply Ht | lia].
Qed.

Lemma byte_back c s line a rest junk b : typed_at c s (line ++ [a]) (b :: rest) junk ->
  (b =? 0) = false -> (b =? 10) = false -> (b =? 8) || (b =? 127) = true -> byte_types c s (line ++ [a]) rest junk b.
Proof.
  intros Ht B0 B10 B8. pose proof (typed_shift _ _ _ _ _ _ Ht) as Ht'. rewrite <- app_assoc in Ht'.
  destruct (remove_chars_Ok c s line ([a] ++ [b]) rest junk 2) as (j2 & E2 & Hl2); [exact Ht' | done | lia |].
  replace (Z.of_nat (length (line ++ [a] ++ [b])) - 1) with (Z.of_nat (length (line ++ [a]))) in E2 by (rewrite !length_app; cbn; lia).
  unfold byte_types, edit_byte, key. rewrite B0, B10, B8. cbn [orb].
  rewrite (proj2 (Z.eqb_neq _ 0)) by (rewrite length_app; cbn; lia). rewrite (ST_bind_Ok _ _ _ _ _ E2), removelast_last.
  replace (match line ++ [a] with [] => Ok ([], ctrl s) | _ => '(_, r) ← controller_output c [8; 32; 8] (ctrl s); Ok (line, r) end)
    with ('(_, r) ← controller_output c [8; 32; 8] (ctrl s); Ok (line, r)) by (by destruct line).
  destruct (controller_output c [8; 32; 8] (ctrl s)) as [[[] r]|e] eqn:Eo; cbn [mbind res_bind].
  - exists (Z.of_nat (length line) - 1), j2. rewrite (ST_bind_Ok _ _ _ _ _ (on_ct_Ok _ (Ctl _ (ctrl s)) _ _ Eo)).
    split_and!; [done | lia | by eapply output_keeps | rewrite length_app; cbn; lia].
  - rewrite ST_bind_eq. by rewrite (on_ct_crash _ (Ctl _ (ctrl s)) _ Eo).
Qed.

Lemma byte_enter c s line rest junk : typed_at c s line (13 :: rest) junk -> byte_types c s line rest junk 13.
Proof.
  intros Ht. pose proof (enter_line_Ok _ _ _ _ _ Ht) as He. unfold byte_types, edit_byte, key. cbn [Z.eqb Pos.eqb orb].
  rewrite Nat2Z.id. destruct (controller_output c CRLF (ctrl s)) as [[[] r1]|e]; cbn [mbind res_bind snd] in *.
  2:{ by rewrite ST_bind_eq, He. }
  destruct (process_input_line c _ r1) as [[[] r2]|e]; cbn [mbind res_bind]; [|by rewrite ST_bind_eq, He].
  destruct (ctls r2 !! c) as [i|] eqn:Hr; [|by rewrite ST_bind_eq, He]. destruct He as (j2 & E2 & Hl2).
  exists (-1), j2. rewrite (ST_bind_Ok _ _ _ _ _ E2), Hr. split_and!; [done | done | eauto | cbn; lia].
Qed.

Lemma byte_echo c s line rest junk b : typed_at c s line (b :: rest) junk ->
  (b =? 0) = false -> (b =? 10) = false -> (b =? 8) || (b =? 127) = false -> (b =? 13) = false ->
  byte_types c s line rest junk b.
Proof.
  intros Ht B0 B10 B8 B13. unfold byte_types, edit_byte, key. rewrite B0, B10, B8, B13. cbn [orb].
  destruct (controller_output c [b] (ctrl s)) as [[[] r]|e] eqn:Eo; cbn [mbind res_bind].
  - exists (Z.of_nat (length line)), junk. rewrite (ST_bind_Ok _ _ _ _ _ (on_ct_Ok _ _ _ _ Eo)).
    pose proof (proj2 (typed_shift _ _ _ _ _ _ Ht)) as Hb. rewrite insert_id by exact Hb.
    split_and!; [done | rewrite length_app; cbn; lia | by eapply output_keeps | rewrite length_app; cbn; lia].
  - rewrite ST_bind_eq. by rewrite (on_ct_crash _ _ _ Eo).
Qed.

Lemma edit_byte_types c s line rest junk b : typed_at c s line (b :: rest) junk -> byte_types c s line rest junk b.
Proof.
  intros Ht. destruct (b =? 0) eqn:B0; [by apply byte_dropped; [|unfold key, edit_byte; rewrite B0..]|].
  destruct (b =? 10) eqn:B10; [by apply byte_dropped; [|unfold key, edit_byte; rewrite B0, B10..]|].
  destruct ((b =? 8) || (b =? 127)) eqn:B8.
  - assert (Hl : line = [] \/ exists l0 a, line = l0 ++ [a]) by (destruct line using rev_ind; eauto).
    destruct Hl as [-> | (l0 & a & ->)]; [|by apply byte_back].
    by apply byte_dropped; [|unfold key, edit_byte; rewrite B0, B10, B8..].
  - destruct (b =? 13) eqn:B13; [apply Z.eqb_eq in B13 as ->; by apply byte_enter | by apply byte_echo].
Qed.

Lemma edit_loop_types c d : forall line junk s, typed_at c s line d junk ->
  types (edit_loop (length d) c (Z.of_nat (length line))) c s (length line + length d + length junk) (keys c d line (ctrl s)).
Proof.
  induction d as [|b d IH]; intros line junk s Ht.
  { cbn [keys types edit_loop length]. exists junk. rewrite (ST_bind_Ok _ _ _ _ _ (input_at_Ok _ _ _ _ _ Ht)).
    cbn [inbuf_count length]. rewrite (proj2 (Z.ltb_ge _ _)) by lia. cbn [negb]. split; [|lia].
    destruct Ht as [_ Hb]. cbn in Hb. rewrite Nat.add_0_r in Hb. unfold typed_input. rewrite insert_id by exact Hb. by destruct s. }
  pose proof (edit_byte_types _ _ _ _ _ _ Ht) as Hb. unfold byte_types in Hb. pose proof (edit_loop_byte _ _ _ _ _ _ Ht) as Eb.
  cbn [keys]. destruct (key c b line (ctrl s)) as [[line' r]|e]; cbn [mbind res_bind].
  - destruct Hb as (i' & junk' & E & Hi & Hc & Hl). rewrite (ST_bind_Ok _ _ _ _ _ E), Hi in Eb.
    replace (length line + length (b :: d) + length junk)%nat with (length line' + length d + length junk')%nat by (cbn [length]; lia).
    eapply types_step; [exact Eb|]. by apply (IH line' junk'), (typed_same c s).
  - cbn [types length]. rewrite Eb, ST_bind_eq. by rewrite Hb.
Qed.

(** Telnet on the received bytes is the filter of [Telnet.v]. *)
Lemma ctl_telnet_filter c d tl r :
  match on_ctl_telnet c (tn_filter d) r with
  | Crash e => on_ctl_telnet c (process_telnet_data (d ++ tl) (length d)) r = Crash e
  | Ok (out, r') => is_Some (ctls r' !! c) /\ exists junk,
      on_ctl_telnet c (process_telnet_data (d ++ tl) (length d)) r = Ok ((out ++ junk ++ tl, length out), r') /\
      (length out + length junk)%nat = length d
  end.
Proof.
  unfold on_ctl_telnet. destruct (ctls r !! c) as [i|]; [|done].
  pose proof (process_telnet_data_filter d tl (TState (c_tn i) (ctl_cmds r) (c, r))) as Hp.
  destruct (tn_filter d _) as [[out ts]|e]; [|by rewrite Hp]. destruct Hp as (junk & -> & Hl).
  rewrite !ST_bind_eq. unfold set_ctl. cbn [ctls with_ctl_cmds]. destruct (ctls (snd (world ts)) !! c) as [j|]; [|done].
  cbn. rewrite lookup_insert_eq. split; [eauto|]. exists junk. by split.
Qed.

Lemma keys_app c a b line r : keys c (a ++ b) line r = '(line, r) ← keys c a line r; keys c b line r.
Proof.
  induction a as [|x a IH] in line, r |- *; [done|]. cbn [app keys]. destruct (key c x line r) as [[line' r']|]; [|done]. apply IH.
Qed.
End editor.

(** ** The claim *)

(** Reading from a control connection is typing.  When the connection has
    room for a line and delivers [d], the handler ends as [type_read] says:
    telnet takes its commands out of [d], and the rest is typed byte by byte on
    the line so far - whatever the editing in place inside the buffer, the
    carriage returns in the middle and the commands they run.  The buffer then
    holds the new line, within its 256 bytes; a telnet error closes the
    connection; and the handler fails exactly when typing does. *)
Theorem read_types_line {K} `{KernelLaws K} `{Tty K} `{Net K} `{Libc} `{Modem K} `{Texts} `{ConfigNames}
    (s : ctl K) (c : ptr) fd buf (n : nat) d k :
  is_Some (ctls (ctrl s) !! c) -> inputs s !! c = Some (Input buf n) -> length buf = S INBUF_SIZE -> (n < INBUF_SIZE)%nat ->
  sys_read fd (INBUF_SIZE - n) (kern (ctl_dx (ctrl s))) = (Done d, k) -> d <> [] ->
  match type_read c d (take n buf) (with_dx (with_kern k (ctl_dx (ctrl s))) (ctrl s)) with
  | Crash e => handle_tcp_fd_read fd c s = Crash e
  | Ok (None, r) => exists b, handle_tcp_fd_read fd c s = Ok (tt, Ctl (<[c := b]> (inputs s)) r)
  | Ok (Some line, r) => exists junk,
      handle_tcp_fd_read fd c s = Ok (tt, Ctl (<[c := Input (line ++ junk) (length line)]> (inputs s)) r) /\
      (length line + length junk)%nat = S INBUF_SIZE
  end.
Proof.
  intros Hc Hin Hlen Hn Hread Hd. pose proof (read_done _ _ _ _ _ Hread) as (Hdl & _). pose proof Hc as [i Hi].
  unfold handle_tcp_fd_read. rewrite (ST_bind_Ok _ _ _ (Input buf n) s) by (unfold input_at; by rewrite Hi, Hin).
  cbn [inbuf inbuf_count]. rewrite (proj2 (Nat.eqb_neq _ _)) by lia.
  set (r1 := with_dx (with_kern k (ctl_dx (ctrl s))) (ctrl s)). set (s1 := Ctl (inputs s) r1).
  rewrite (ST_bind_Ok _ _ _ (Done d) s1) by (unfold on_ct, on_dx, sys; by rewrite Hread).
  destruct d as [|b0 d0]; [done|]. set (d := b0 :: d0) in *. clearbody d.
  set (tl := drop (n + length d) buf). set (line := take n buf).
  assert (Hll : length line = n) by (unfold line; rewrite length_take; lia).
  rewrite (ST_bind_Ok _ _ _ (line ++ d ++ tl) s1)
    by (unfold lift_res, paste; by rewrite check_true by (apply Nat.leb_le; lia)).
  replace (drop n (line ++ d ++ tl)) with (d ++ tl) by (rewrite <- Hll; symmetry; apply drop_app_exact).
  replace (take n (line ++ d ++ tl)) with line by (rewrite <- Hll at 1; symmetry; apply take_app_exact).
  unfold type_read. pose proof (ctl_telnet_filter c d tl r1) as Hf.
  destruct (on_ctl_telnet c (tn_filter d) r1) as [[out r2]|e]; cbn [mbind res_bind].
  2:{ rewrite ST_bind_eq. by rewrite (on_ct_crash _ s1 _ Hf). }
  destruct Hf as (Hc2 & junk & Ef & Hjl). rewrite (ST_bind_Ok _ _ _ _ _ (on_ct_Ok _ s1 _ _ Ef)).
  rewrite (ST_bind_Ok _ _ _ _ _ (set_input_Ok c (Ctl (inputs s1) r2) _ Hc2)). destruct Hc2 as [i2 Hi2]. rewrite Hi2.
  assert (Ea : ctl_at c r2 = Ok (i2, r2)) by (unfold ctl_at; by rewrite Hi2).
  rewrite (ST_bind_Ok _ _ _ _ _ (on_ct_Ok _ (Ctl _ r2) _ _ Ea)).
  destruct (td_error (c_tn i2)).
  { destruct (shutdown_controller c r2) as [[[] r3]|e] eqn:Es; cbn [mbind res_bind].
    - eexists. by rewrite (on_ct_Ok _ (Ctl _ r2) _ _ Es).
    - by rewrite (on_ct_crash _ (Ctl _ r2) _ Es). }
  rewrite (ST_bind_Ok _ _ _ _ _ (set_input_Ok c (Ctl _ r2) _ (mk_is_Some _ _ Hi2))). cbn [inputs ctrl s1]. rewrite insert_insert_eq, <- Hll.
  set (s2 := Ctl _ r2).
  assert (Ht : typed_at c s2 line out (junk ++ tl)) by (split; [cbn; eauto | cbn; by rewrite lookup_insert_eq]).
  pose proof (edit_loop_types c out line (junk ++ tl) s2 Ht) as He. change (ctrl s2) with r2 in He.
  assert (Hsize : (length line + length out + length (junk ++ tl))%nat = S INBUF_SIZE).
  { unfold tl. rewrite length_app, length_drop, Hlen, Hll. lia. }
  destruct (keys c out line r2) as [[line' r3]|e]; cbn [mbind res_bind types] in *; [|exact He].
  destruct He as (junk' & E & Hl'). exists junk'. split; [|lia]. rewrite E. cbn. by rewrite insert_insert_eq.
Qed.

(** ** A concrete connection *)

#[export] Instance netk_modem : Modem netk := { tty_mset _ _ k := k }.
#[export] Instance demo_texts : Texts := { VERSION := chars "2.9.1" }.
#[export] Existing Instance demo_names.

(** The controller 1 on descriptor 5, with the output [buf] waiting, next to the
    port 1 that waits for a connection. *)
Definition demo_conn (cmd : list Z) (buf : option (list Z)) (n : Z) : controller_info :=
  ControllerInfo (SockAddr 2 4660 16777343) buf 1024 0 n None (TelnetData (replicate 32 0) 0 false cmd false).

Definition demo_ct (i : controller_info) (r w : gset Z) (rs : list (sysres (list Z))) (ws : list (sysres nat)) : ct netk :=
  Ct {[ 1%positive := i ]} [1%positive] 1 Controller.telnet_cmds
    (DX [1%positive] {[ 1%positive := demo_idle PORT_RAW None ]} (with_read r (with_write w (demo_selector demo_heap)))
       init_telnet_cmds {[ 1%positive := 5 ]} false (NetK (demo_script rs ws) 6)).

(** A word, a character taken back, the command finished and the next one
    begun, all in one read. *)
Definition demo_typed : list Z := chars "versiom" ++ [127] ++ chars "n" ++ [13; 10] ++ chars "he".
Definition demo_line : list Z := chars "junk" ++ replicate 252 0.
Definition demo_ctl : ctl netk :=
  Ctl {[ 1%positive := Input demo_line 0 ]} (demo_ct (demo_conn [] None 0) {[4; 5]} ∅ [Done demo_typed] []).

Definition line_left (x : res (option (list Z) * ct netk)) : option (list Z) :=
  match x with Ok (l, _) => l | Crash _ => None end.

Lemma read_types_line_witness : exists junk r,
  handle_tcp_fd_read 5 1%positive demo_ctl =
    Ok (tt, Ctl (<[1%positive := Input (chars "he" ++ junk) 2]> (inputs demo_ctl)) r) /\ length junk = 254%nat.
Proof.
  pose proof (read_types_line demo_ctl 1%positive 5 demo_line 0 demo_typed
    (snd (sys_read 5 255 (kern (ctl_dx (ctrl demo_ctl))))) (mk_is_Some _ _ eq_refl) eq_refl eq_refl ltac:(unfold INBUF_SIZE; lia)
    eq_refl ltac:(discriminate)) as E.
  match type of E with context [match ?t with Ok _ => _ | Crash _ => _ end] => set (x := t) in E end.
  assert (Hl : line_left x = Some (chars "he")) by (vm_compute; reflexivity).
  clearbody x. destruct x as [[[line|] r]|e]; [|discriminate Hl..]. injection Hl as ->.
  destruct E as (junk & E & Hj). exists junk, r. split; [exact E | change (2 + length junk = 256)%nat in Hj; lia].
Defined.
