(* ===== verification/CtlOut.v ===== *)
(** * What a control connection is sent: properties of [CtlData.v] and the
    write handler of [Controller.v]

    The output buffer - a block that is moved, replaced by a larger one and
    freed when it is empty - is a queue: output goes to its end, the
    connection takes from its front, in pieces, and nothing is lost. *)

From S2P Require Import Prelude CStr SelHeap Selector Telnet Utils DevCfg PortData PortFlow PortText PortSetup.
From S2P Require Import PortScript PortAccept CtlData PortAdmin Controller CtlEdit.

(** ** The queue *)

Definition out_queue (i : controller_info) : list Z :=
  match outbuf i with
  | None => []
  | Some buf => take (Z.to_nat (outbuf_count i)) (drop (Z.to_nat (outbuf_pos i)) buf)
  end.

(** The block is as large as the code takes it to be, and what waits is inside
    it. *)
Record out_ok (i : controller_info) : Prop := {
  oo_none : outbuf i = None -> outbuf_count i = 0;
  oo_size buf : outbuf i = Some buf -> Z.of_nat (length buf) = outbufsize i;
  oo_pos : outbuf i <> None -> 0 <= outbuf_pos i;
  oo_count : 0 <= outbuf_count i;
  oo_range : outbuf i <> None -> outbuf_pos i + outbuf_count i <= outbufsize i
}.

Lemma block_size_fits n : 0 <= n -> n < block_size n.
Proof.
  intros Hn. unfold block_size. rewrite Z.quot_div_nonneg by lia.
  pose proof (Z.div_mod n 1024 ltac:(lia)). pose proof (Z.mod_pos_bound n 1024 ltac:(lia)). lia.
Qed.

Lemma paste_Ok (u v w data : list Z) : length v = length data -> paste (u ++ v ++ w) (length u) data = Ok (u ++ data ++ w).
Proof.
  intros Hl. unfold paste. rewrite check_true by (apply Nat.leb_le; rewrite !length_app; lia). cbn [mbind res_bind].
  rewrite take_app_exact. do 3 f_equal. rewrite <- Hl, <- length_app, app_assoc. apply drop_app_exact.
Qed.

Lemma paste_at (buf data : list Z) u k : length u = k -> (k + length data <= length buf)%nat -> take k buf = u ->
  exists w, paste buf k data = Ok (u ++ data ++ w) /\ length (u ++ data ++ w) = length buf.
Proof.
  intros Hk Hb Hu. exists (drop (k + length data) buf). split.
  - unfold paste. rewrite check_true by (apply Nat.leb_le; lia). by rewrite Hu.
  - rewrite !length_app, length_drop. lia.
Qed.

Lemma new_block_Ok size data : Z.of_nat (length data) <= size ->
  exists w, new_block size data = Ok (data ++ w) /\ Z.of_nat (length (data ++ w)) = size.
Proof.
  intros Hs. destruct (paste_at (replicate (Z.to_nat size) 0) data [] 0) as (w & E & Hl); [done | | done |].
  { rewrite length_replicate. lia. }
  exists w. split; [exact E|]. cbn [app] in Hl. rewrite Hl, length_replicate. lia.
Qed.

(** Adding to the end of the queue. *)
Lemma append_output_Ok i buf data : out_ok i -> outbuf i = Some buf ->
  exists i' buf', append_output i buf data = Ok i' /\ outbuf i' = Some buf' /\ out_ok i' /\ out_queue i' = out_queue i ++ data /\
    monitor_port_id i' = monitor_port_id i /\ c_tn i' = c_tn i /\ c_remote i' = c_remote i.
Proof.
  intros [_ O2 O3 O4 O5] Hb. specialize (O2 _ Hb). specialize (O3 ltac:(congruence)). specialize (O5 ltac:(congruence)).
  set (pos := Z.to_nat (outbuf_pos i)). set (n := Z.to_nat (outbuf_count i)).
  set (v := take n (drop pos buf)). assert (Hv : length v = n) by (unfold v; rewrite length_take, length_drop; lia).
  assert (Hq : out_queue i = v) by (unfold out_queue; by rewrite Hb).
  assert (Hres : forall blk w size, Z.of_nat (length blk) = size -> blk = v ++ data ++ w ->
    let i' := set_out_block (Some blk) size 0 (outbuf_count i + Z.of_nat (length data)) i in
    out_ok i' /\ out_queue i' = v ++ data).
  { intros blk w size Hsz -> i'. split.
    - constructor; cbn; try done; [by intros b [= <-] | lia |]. intros _. rewrite <- Hsz, !length_app, Hv. lia.
    - unfold out_queue. cbn. replace (Z.to_nat (outbuf_count i + Z.of_nat (length data))) with (length (v ++ data)) by (rewrite length_app; lia).
      rewrite app_assoc. apply take_app_length. }
  unfold append_output. fold pos n. rewrite Hq. destruct (Z.leb_spec (outbuf_count i + Z.of_nat (length data)) (outbufsize i)) as [Hf|Hf].
  - assert (Hmove : exists junk, (if 0 <? outbuf_pos i then copy_down buf n 0 pos else Ok buf) = Ok (v ++ junk) /\ length (v ++ junk) = length buf).
    { assert (Hsplit : buf = take pos buf ++ v ++ drop n (drop pos buf)) by (unfold v; by rewrite !take_drop).
      destruct (Z.ltb_spec 0 (outbuf_pos i)).
      - destruct (copy_down_spec v [] (take pos buf) (drop n (drop pos buf))) as (junk & E & Hl).
        rewrite <- Hsplit, Hv in E. cbn [app length] in E.
        assert (Hp : length (take pos buf) = pos) by (rewrite length_take; lia). rewrite Hp in E. exists junk. split; [exact E|].
        rewrite length_app, Hl, Hp, !length_drop. lia.
      - exists (drop n buf). assert (Hpos : pos = 0%nat) by lia.
        assert (Hv0 : v = take n buf) by (unfold v; by rewrite Hpos, drop_0). by rewrite Hv0, take_drop. }
    destruct Hmove as (junk & -> & Hlen). cbn [mbind res_bind].
    destruct (paste_at (v ++ junk) data v n Hv) as (w & -> & Hl); [lia | by rewrite <- Hv, take_app_length |].
    cbn [mbind res_bind]. eexists _, _. split; [reflexivity|]. split; [reflexivity|].
    destruct (Hres (v ++ data ++ w) w (outbufsize i)) as [A B]; [by rewrite Hl, Hlen | done | by split_and!].
  - unfold slice. rewrite check_true by (apply Nat.leb_le; lia). cbn [mbind res_bind]. fold v.
    pose proof (block_size_fits (outbuf_count i + Z.of_nat (length data)) ltac:(lia)) as Hbs.
    destruct (new_block_Ok (block_size (outbuf_count i + Z.of_nat (length data))) v ltac:(lia)) as (w1 & -> & Hl1). cbn [mbind res_bind].
    destruct (paste_at (v ++ w1) data v n Hv) as (w & -> & Hl); [lia | by rewrite <- Hv, take_app_length |].
    cbn [mbind res_bind]. eexists _, _. split; [reflexivity|]. split; [reflexivity|].
    destruct (Hres (v ++ data ++ w) w (block_size (outbuf_count i + Z.of_nat (length data)))) as [A B]; [by rewrite Hl, Hl1 | done | by split_and!].
Qed.

Section stream.
Context {K : Type} `{Kernel K} `{!KernelLaws K}.
Implicit Types (s : ct K) (c p : ptr) (i : controller_info).

(** ** A connection *)

(** What still has to be sent: telnet commands go first. *)
Definition out_pending i : list Z := out_telnet_cmd (c_tn i) ++ out_queue i.

Record conn_ok c (fd : Z) s i : Prop := {
  co_at : ctls s !! c = Some i;
  co_fd : ctl_fds (ctl_dx s) !! c = Some fd;
  co_range : 0 <= fd < FD_SETSIZE;
  co_fds : fds_ok (dsel (ctl_dx s));
  co_out : out_ok i;
  co_armed : outbuf i <> None \/ out_telnet_cmd (c_tn i) <> [] ->
    fd ∈ write_set (dsel (ctl_dx s)) /\ fd ∉ read_set (dsel (ctl_dx s));
  co_monitor p : monitor_port_id i = Some p -> is_Some (pheap (ctl_dx s) !! p)
}.

Definition fd_sent s (fd : Z) : list Z := sent (kern (ctl_dx s)) fd.

Lemma ctl_at_Ok c s i : ctls s !! c = Some i -> ctl_at c s = Ok (i, s).
Proof. unfold ctl_at. by intros ->. Qed.
Lemma set_ctl_Ok c f s i : ctls s !! c = Some i -> set_ctl c f s = Ok (tt, with_ctls (<[c := f i]> (ctls s)) s).
Proof. unfold set_ctl. by intros ->. Qed.
Lemma ctl_tcpfd_Ok c s fd : ctl_fds (ctl_dx s) !! c = Some fd -> ctl_tcpfd c s = Ok (fd, s).
Proof. unfold ctl_tcpfd. by intros ->. Qed.
Lemma on_dx_Ok {A} (m : DX_ K A) s a d : m (ctl_dx s) = Ok (a, d) -> on_dx m s = Ok (a, with_dx d s).
Proof. unfold on_dx. by intros ->. Qed.

(** The state with a new controller structure and new sets. *)
Definition ctl_upd c i (r w : gset Z) s : ct K :=
  with_dx (with_dsel (with_write w (with_read r (dsel (ctl_dx s)))) (ctl_dx s)) (with_ctls (<[c := i]> (ctls s)) s).

Lemma with_sets_same (v : selector) : with_write (write_set v) (with_read (read_set v) v) = v.
Proof. by destruct v. Qed.

(** Output always succeeds and goes to the end of the queue. *)
Lemma output_step c fd s i data : conn_ok c fd s i ->
  exists s' i', controller_output c data s = Ok (tt, s') /\ conn_ok c fd s' i' /\ out_pending i' = out_pending i ++ data /\ kern (ctl_dx s') = kern (ctl_dx s).
Proof.
  intros [C1 C2 C3 C4 C5 C6 C7]. unfold controller_output. rewrite (ST_bind_Ok _ _ _ _ _ (ctl_at_Ok _ _ _ C1)).
  destruct (outbuf i) as [buf|] eqn:Hb.
  - destruct (append_output_Ok i buf data C5 Hb) as (i' & buf' & E & Hb' & Ho & Hq & Hm & Ht & _).
    rewrite (ST_bind_Ok _ _ _ i' s) by (unfold lift_res; by rewrite E).
    exists (with_ctls (<[c := i']> (ctls s)) s), i'. split; [exact (set_ctl_Ok c (fun _ => i') s i C1)|]. split_and!; [|unfold out_pending; by rewrite Ht, Hq, app_assoc | done].
    constructor; cbn; try done; [apply lookup_insert_eq | intros _; apply C6; by left | by rewrite Hm].
  - destruct (new_block_Ok (block_size (Z.of_nat (length data))) data) as (w & E & Hl).
    { pose proof (block_size_fits (Z.of_nat (length data))). lia. }
    rewrite (ST_bind_Ok _ _ _ (data ++ w) s) by (unfold lift_res; by rewrite E).
    set (i' := set_out_block (Some (data ++ w)) (block_size (Z.of_nat (length data))) 0 (Z.of_nat (length data)) i).
    rewrite (ST_bind_Ok _ _ _ _ _ (set_ctl_Ok c (set_out_block _ _ _ _) s i C1)).
    set (s1 := with_ctls _ s). rewrite (ST_bind_Ok _ _ _ _ _ (ctl_tcpfd_Ok c s1 fd C2)).
    rewrite (ST_bind_Ok _ _ _ _ _ (on_dx_Ok _ s1 _ _ (read_handler_off fd _ C3))).
    rewrite (on_dx_Ok _ _ _ _ (write_handler_on fd _ C3)).
    eexists _, i'. split; [reflexivity|]. cbn [ctl_dx with_dx kern with_dsel]. split_and!; [| |done].
    + constructor; cbn; try done; [apply lookup_insert_eq | by apply (fds_ok_sets (dsel (ctl_dx s))) | | intros _; set_solver].
      pose proof (block_size_fits (Z.of_nat (length data)) ltac:(lia)).
      constructor; cbn; try done; [by intros b [= <-] | lia | lia].
    + unfold out_pending. cbn. rewrite Nat2Z.id, drop_0, take_app_length. unfold out_queue. by rewrite Hb, app_nil_r.
Qed.

Lemma sent_quiet k k' fd : quiet k k' -> sent k' fd = sent k fd.
Proof. by intros (Hs & _). Qed.

(** The end: nothing more is sent, and the controller is gone. *)
Lemma shutdown_step c fd s i : conn_ok c fd s i ->
  exists s', shutdown_controller c s = Ok (tt, s') /\ ctls s' !! c = None /\ (forall f, fd_sent s' f = fd_sent s f).
Proof.
  intros [C1 C2 C3 C4 C5 C6 C7]. unfold shutdown_controller. rewrite (ST_bind_Ok _ _ _ _ _ (ctl_at_Ok _ _ _ C1)).
  assert (Hstop : exists i1 h, (match monitor_port_id i with
      | Some p => _ ← data_monitor_stop p; set_ctl c (set_monitor None) | None => mret tt end) s =
      Ok (tt, with_dx (with_pheap h (ctl_dx s)) (with_ctls (<[c := i1]> (ctls s)) s))).
  { destruct (monitor_port_id i) as [p|].
    - destruct (C7 p eq_refl) as [j Hj]. exists (set_monitor None i), (<[p := set_monitors None None j]> (pheap (ctl_dx s))).
      unfold data_monitor_stop. rewrite (ST_bind_Ok _ _ _ _ _ (on_dx_Ok _ _ _ _ (set_port_Ok p _ j (ctl_dx s) Hj))).
      by rewrite (set_ctl_Ok c _ _ i).
    - exists i, (pheap (ctl_dx s)). rewrite insert_id by done. by destruct s as [? ? ? ? []]. }
  destruct Hstop as (i1 & h & E1). rewrite (ST_bind_Ok _ _ _ _ _ E1). set (s1 := with_dx _ _).
  rewrite (ST_bind_Ok _ _ _ _ _ (ctl_tcpfd_Ok c s1 fd C2)).
  destruct (clear_handlers_spec (dsel (ctl_dx s)) fd C4 C3) as (v & Ev & _).
  rewrite (ST_bind_Ok _ _ _ _ _ (on_dx_Ok (on_selector (fun v => sel_clear_fd_handlers v fd)) s1 tt (with_dsel v (ctl_dx s1)) ltac:(unfold on_selector; cbn; by rewrite Ev))).
  rewrite (ST_bind_Ok _ _ _ _ _ (on_dx_Ok (sys_do _) _ _ _ eq_refl)).
  set (s2 := with_dx (with_kern _ _) _). assert (C1' : ctls s2 !! c = Some i1) by (cbn; apply lookup_insert_eq).
  rewrite (ST_bind_Ok _ _ _ _ _ (set_ctl_Ok c (fun i => set_out_block None (outbufsize i) (outbuf_pos i) (outbuf_count i) i) s2 i1 C1')).
  rewrite (ST_bind_Ok _ _ _ _ _ eq_refl). eexists. split; [reflexivity|]. split.
  - destruct (bool_decide _); cbn; apply lookup_delete_eq.
  - intros f. unfold fd_sent. destruct (bool_decide _); cbn; apply sent_quiet, close_quiet.
Qed.

(** What one call of the write handler does to the stream. *)
Definition write_outcome c fd s i s' : Prop :=
  (exists i', conn_ok c fd s' i' /\ fd_sent s' fd ++ out_pending i' = fd_sent s fd ++ out_pending i) \/
  (ctls s' !! c = None /\ exists rest, fd_sent s' fd ++ rest = fd_sent s fd ++ out_pending i).

Lemma conn_kern c fd s i k : conn_ok c fd s i -> conn_ok c fd (with_dx (with_kern k (ctl_dx s)) s) i.
Proof. intros []. by constructor. Qed.

Lemma fail_outcome c fd s i (m : CT K unit) k : conn_ok c fd s i -> sent k fd = fd_sent s fd ->
  (m = shutdown_controller c \/ m = (_ ← on_dx (sys_do (sys_syslog "The tcp write for controller had error")); shutdown_controller c)) ->
  exists s', m (with_dx (with_kern k (ctl_dx s)) s) = Ok (tt, s') /\ write_outcome c fd s i s'.
Proof.
  intros Hc Hk Hm. assert (Hsd : forall k1, sent k1 fd = fd_sent s fd -> exists s',
    shutdown_controller c (with_dx (with_kern k1 (ctl_dx s)) s) = Ok (tt, s') /\ write_outcome c fd s i s').
  { intros k1 Hk1. destruct (shutdown_step c fd _ i (conn_kern _ _ _ _ k1 Hc)) as (s' & E & Hg & Hs).
    exists s'. split; [exact E|]. right. split; [exact Hg|]. exists (out_pending i). rewrite Hs. unfold fd_sent at 1. cbn. by rewrite Hk1. }
  destruct Hm as [-> | ->]; [by apply Hsd|]. rewrite (ST_bind_Ok _ _ _ _ _ (on_dx_Ok (sys_do _) _ _ _ eq_refl)).
  apply Hsd. rewrite (sent_quiet _ _ _ (syslog_quiet _ _)). exact Hk.
Qed.

Lemma slice_queue i buf : out_ok i -> outbuf i = Some buf ->
  slice buf (Z.to_nat (outbuf_pos i)) (Z.to_nat (outbuf_count i)) = Ok (out_queue i).
Proof.
  intros [_ O2 O3 O4 O5] Hb. unfold slice, out_queue. rewrite Hb. specialize (O2 _ Hb). specialize (O3 ltac:(congruence)).
  specialize (O5 ltac:(congruence)). by rewrite check_true by (apply Nat.leb_le; lia).
Qed.

Lemma queue_length i : out_ok i -> Z.of_nat (length (out_queue i)) = outbuf_count i.
Proof.
  intros [O1 O2 O3 O4 O5]. unfold out_queue. destruct (outbuf i) as [buf|] eqn:Hb; [|cbn; by rewrite O1].
  specialize (O2 _ eq_refl). specialize (O3 ltac:(done)). specialize (O5 ltac:(done)). rewrite length_take, length_drop. lia.
Qed.

Lemma write_output_step c fd s i : conn_ok c fd s i -> out_telnet_cmd (c_tn i) = [] ->
  exists s', write_output c s = Ok (tt, s') /\ write_outcome c fd s i s'.
Proof.
  intros Hok Hcmd. pose proof Hok as [C1 C2 C3 C4 C5 C6 C7]. pose proof (queue_length _ C5) as Hlen.
  unfold write_output. rewrite (ST_bind_Ok _ _ _ _ _ (ctl_at_Ok _ _ _ C1)), (ST_bind_Ok _ _ _ _ _ (ctl_tcpfd_Ok _ _ _ C2)).
  rewrite (ST_bind_Ok _ _ _ (out_queue i) s).
  2:{ unfold lift_res. destruct (outbuf i) as [buf|] eqn:Hb; [by rewrite slice_queue|].
      rewrite (oo_none _ C5 Hb), Z.eqb_refl. unfold out_queue. by rewrite Hb. }
  destruct (sys_write fd (out_queue i) (kern (ctl_dx s))) as [r k] eqn:Ew.
  rewrite (ST_bind_Ok _ _ _ _ _ (on_dx_Ok (sys _) s _ _ (step_sys _ _ _ _ Ew))). set (s1 := with_dx _ s).
  destruct r as [n|e].
  2:{ destruct (write_failed _ _ _ _ _ Ew) as [Hq _]. assert (Hk : sent k fd = fd_sent s fd) by (by apply sent_quiet).
      destruct e; try (apply fail_outcome; [done | done | by (left + right)]).
      exists s1. split; [done|]. left. exists i. split; [by apply conn_kern|]. unfold fd_sent. cbn. by rewrite Hk. }
  pose proof (write_done _ _ _ _ _ Ew) as (Hn & Hpos & Hs & _).
  destruct (outbuf_count i - Z.of_nat n =? 0) eqn:Ez; cbn [negb].
  - apply Z.eqb_eq in Ez.
    rewrite (ST_bind_Ok _ _ _ _ _ (set_ctl_Ok c (fun i => set_out_block None (outbufsize i) (outbuf_pos i) (outbuf_count i - Z.of_nat n) i) s1 i C1)).
    rewrite (ST_bind_Ok _ _ _ _ _ (on_dx_Ok _ _ _ _ (read_handler_on fd _ C3))), (on_dx_Ok _ _ _ _ (write_handler_off fd _ C3)).
    set (i' := set_out_block None (outbufsize i) (outbuf_pos i) (outbuf_count i - Z.of_nat n) i).
    eexists. split; [reflexivity|]. left. exists i'. split.
    { constructor; cbn; try done; [apply lookup_insert_eq | by apply (fds_ok_sets (dsel (ctl_dx s))) | constructor; cbn; try done; lia |].
      intros [Hx|Hx]; [done | by rewrite Hcmd in Hx]. }
    unfold fd_sent, out_pending. cbn. rewrite Hcmd, Hs, take_ge by lia. unfold out_queue at 2. cbn. by rewrite app_nil_r.
  - apply Z.eqb_neq in Ez. assert (Hb : outbuf i <> None) by (intros Hb; rewrite (oo_none _ C5 Hb) in *; lia).
    set (f := fun i : controller_info => set_out_block (outbuf i) (outbufsize i) (outbuf_pos i + Z.of_nat n) (outbuf_count i - Z.of_nat n) i).
    rewrite (set_ctl_Ok c f s1 i C1). eexists. split; [reflexivity|]. left. exists (f i). split.
    { constructor; cbn; try done; [apply lookup_insert_eq |].
      pose proof (oo_pos _ C5 Hb). pose proof (oo_range _ C5 Hb). constructor; cbn; try done; [apply C5 | lia..]. }
    unfold fd_sent, out_pending. cbn. rewrite Hcmd, Hs, <- app_assoc. f_equal. cbn [app].
    destruct (outbuf i) as [buf|] eqn:Hb'; [|done]. pose proof (oo_pos _ C5 ltac:(congruence)). unfold out_queue. cbn. rewrite Hb'.
    rewrite Z2Nat.inj_add by lia. rewrite <- drop_drop, Nat2Z.id.
    replace (Z.to_nat (outbuf_count i - Z.of_nat n)) with (Z.to_nat (outbuf_count i) - n)%nat by lia.
    rewrite <- skipn_firstn_comm. apply take_drop.
Qed.

(** A refused or partial write of telnet commands leaves the rest for later. *)
Lemma handle_write_step c fd fd0 s i : conn_ok c fd s i ->
  (out_telnet_cmd (c_tn i) <> [] -> forall k, sys_write fd (out_telnet_cmd (c_tn i)) (kern (ctl_dx s)) <> (Failed EAGAIN, k)) ->
  exists s', handle_tcp_fd_write fd0 c s = Ok (tt, s') /\ write_outcome c fd s i s'.
Proof.
  intros Hok Hgo. pose proof Hok as [C1 C2 C3 C4 C5 C6 C7]. unfold handle_tcp_fd_write.
  rewrite (ST_bind_Ok _ _ _ _ _ (ctl_at_Ok _ _ _ C1)), (ST_bind_Ok _ _ _ _ _ (ctl_tcpfd_Ok _ _ _ C2)).
  destruct (out_telnet_cmd (c_tn i)) as [|b out] eqn:Hcmd; [by apply write_output_step|].
  specialize (Hgo ltac:(done)). destruct (sys_write fd (b :: out) (kern (ctl_dx s))) as [r k] eqn:Ew.
  rewrite (ST_bind_Ok _ _ _ _ _ (on_dx_Ok (sys _) s _ _ (step_sys _ _ _ _ Ew))). set (s1 := with_dx _ s).
  destruct r as [n|e].
  2:{ destruct (write_failed _ _ _ _ _ Ew) as [Hq _]. assert (Hk : sent k fd = fd_sent s fd) by (by apply sent_quiet).
      destruct e; try (apply fail_outcome; [done | done | by (left + right)]); [|by destruct (Hgo k)].
      exists s1. split; [done|]. left. exists i. split; [by apply conn_kern|]. unfold fd_sent. cbn. by rewrite Hk. }
  pose proof (write_done _ _ _ _ _ Ew) as (Hn & Hpos & Hs & _).
  set (f := fun i => set_c_tn (set_out (drop n (b :: out)) (c_tn i)) i). rewrite (ST_bind_Ok _ _ _ _ _ (set_ctl_Ok c f s1 i C1)).
  set (s2 := with_ctls _ s1). assert (Hok2 : conn_ok c fd s2 (f i)).
  { constructor; try done; [apply lookup_insert_eq | by destruct C5; constructor |]. intros _. apply C6. by right. }
  assert (Hstream : fd_sent s2 fd ++ out_pending (f i) = fd_sent s fd ++ out_pending i).
  { unfold fd_sent, out_pending. rewrite Hcmd. change (kern (ctl_dx s2)) with k. rewrite Hs, <- app_assoc. f_equal. rewrite app_assoc.
    change (out_telnet_cmd (c_tn (f i))) with (drop n (b :: out)). by rewrite take_drop. }
  destruct (drop n (b :: out)) as [|b' out'] eqn:Hd.
  - destruct (write_output_step c fd s2 (f i) Hok2) as (s' & E & Ho); [done|]. exists s'. split; [exact E|].
    unfold write_outcome in *. by rewrite Hstream in Ho.
  - exists s2. split; [done|]. left. by exists (f i).
Qed.

(** ** Runs *)

(** Output of the commands, the prompt and the echo; and a call of the write
    handler. *)
Inductive conn_event := Say (data : list Z) | Writable.

Definition conn_step c fd (e : conn_event) : CT K unit :=
  match e with Say data => controller_output c data | Writable => handle_tcp_fd_write fd c end.

(** The events until the controller is gone. *)
Fixpoint conn_run c fd (es : list conn_event) : CT K unit :=
  match es with
  | [] => mret tt
  | e :: es' => s ← Prelude.get; match ctls s !! c with Some _ => _ ← conn_step c fd e; conn_run c fd es' | None => mret tt end
  end.

Definition said (es : list conn_event) : list Z :=
  flat_map (fun e => match e with Say data => data | Writable => [] end) es.

(** No telnet command is refused with [EAGAIN]: the handler would go on with
    the output and send it first. *)
Fixpoint commands_taken c fd (es : list conn_event) s : Prop :=
  match es with
  | [] => True
  | e :: es' =>
      (e = Writable -> forall i k, ctls s !! c = Some i -> out_telnet_cmd (c_tn i) <> [] ->
         sys_write fd (out_telnet_cmd (c_tn i)) (kern (ctl_dx s)) <> (Failed EAGAIN, k)) /\
      match conn_step c fd e s with Ok (_, s') => commands_taken c fd es' s' | Crash _ => True end
  end.

Lemma conn_event_step c fd s i e : conn_ok c fd s i ->
  (e = Writable -> forall i k, ctls s !! c = Some i -> out_telnet_cmd (c_tn i) <> [] ->
     sys_write fd (out_telnet_cmd (c_tn i)) (kern (ctl_dx s)) <> (Failed EAGAIN, k)) ->
  exists s', conn_step c fd e s = Ok (tt, s') /\
    ((exists i', conn_ok c fd s' i' /\ fd_sent s' fd ++ out_pending i' = fd_sent s fd ++ out_pending i ++ said [e]) \/
     (ctls s' !! c = None /\ exists rest, fd_sent s' fd ++ rest = fd_sent s fd ++ out_pending i)).
Proof.
  intros Hok Hgo. destruct e as [data|]; cbn [conn_step said flat_map]; rewrite app_nil_r.
  - destruct (output_step c fd s i data Hok) as (s' & i' & E & Hok' & Hp & Hk). exists s'. split; [exact E|]. left. exists i'.
    split; [exact Hok'|]. rewrite Hp. unfold fd_sent. by rewrite Hk.
  - destruct (handle_write_step c fd fd s i Hok) as (s' & E & Ho); [|by exists s'].
    intros Hc k. apply (Hgo eq_refl i k); [apply Hok | done].
Qed.

(** C17: The output of a control connection is a queue.  From a state where the
    connection is in order, any sequence of outputs and writable events runs
    without a fault - the block is moved, replaced and freed inside its bounds -
    and as long as no telnet command is refused, what the connection has taken
    followed by what waits is what it was before followed by everything that was
    output, in order: nothing is lost, repeated or overtaken.  The writer stays
    armed while anything waits.  When a write fails the controller is closed
    and what was sent is a prefix of that stream. *)
Theorem control_stream c fd es s i : conn_ok c fd s i -> commands_taken c fd es s ->
  exists s', conn_run c fd es s = Ok (tt, s') /\
    ((exists i', conn_ok c fd s' i' /\ fd_sent s' fd ++ out_pending i' = fd_sent s fd ++ out_pending i ++ said es) \/
     (ctls s' !! c = None /\ exists rest, fd_sent s' fd ++ rest = fd_sent s fd ++ out_pending i ++ said es)).
Proof.
  induction es as [|e es IH] in s, i |- *; intros Hok Hgo.
  { exists s. split; [done|]. left. exists i. split; [done|]. by rewrite !app_nil_r. }
  destruct Hgo as [Hgo Hrest]. cbn [conn_run]. rewrite (ST_bind_Ok _ _ _ _ _ eq_refl), (co_at _ _ _ _ Hok).
  destruct (conn_event_step c fd s i e Hok Hgo) as (s1 & E & Ho). rewrite (ST_bind_Ok _ _ _ _ _ E). rewrite E in Hrest.
  assert (Hsaid : said (e :: es) = said [e] ++ said es) by (unfold said; cbn; by rewrite app_nil_r). rewrite Hsaid.
  destruct Ho as [(i1 & Hok1 & Hs1)|[Hg (rest & Hs1)]].
  - destruct (IH s1 i1 Hok1 Hrest) as (s' & E' & Ho'). exists s'. split; [exact E'|].
    rewrite (app_assoc (out_pending i)), (app_assoc (fd_sent s fd)), <- Hs1. by rewrite <- app_assoc.
  - exists s1. split; [destruct es; cbn; [done | by rewrite (ST_bind_Ok _ _ _ _ _ eq_refl), Hg]|]. right.
    split; [exact Hg|]. exists (rest ++ said [e] ++ said es). by rewrite app_assoc, Hs1, <- !app_assoc.
Qed.
End stream.

(** Five bytes wait behind a telnet command; more is said while they go out in
    pieces and with refusals; then everything is taken. *)
Definition demo_busy : ct netk :=
  demo_ct (demo_conn [255; 251; 3] (Some (chars "hello" ++ replicate 1019 0)) 5) {[4]} {[5]} []
    [Done 2; Done 1; Done 3; Failed EAGAIN]%nat.

Definition demo_events : list conn_event := [Writable; Writable; Say (chars " wor"); Writable; Say (chars "ld"); Writable].

Lemma demo_busy_ok : conn_ok 1%positive 5 demo_busy (demo_conn [255; 251; 3] (Some (chars "hello" ++ replicate 1019 0)) 5).
Proof.
  constructor; try done; [apply demo_fds_ok | by constructor; cbn; [| intros b [= <-] | | |]].
Qed.

Lemma control_stream_witness :
  exists s' : ct netk, conn_run 1%positive 5 demo_events demo_busy = Ok (tt, s') /\
    fd_sent s' 5 = [255; 251; 3] ++ chars "hello world".
Proof.
  destruct (control_stream 1%positive 5 demo_events demo_busy _ demo_busy_ok) as (s' & E & _); [|].
  { repeat (split; [intros; simplify_eq; try done | vm_compute]); try done. }
  exists s'. split; [exact E|].
  assert (Hs : match conn_run 1%positive 5 demo_events demo_busy with Ok (_, s) => Some (fd_sent s 5) | Crash _ => None end =
    Some ([255; 251; 3] ++ chars "hello world")) by (vm_compute; reflexivity).
  rewrite E in Hs. by injection Hs.
Defined.
