(* ===== verification/CtlLife.v ===== *)
(** * The life of a control connection: monitors, the limit and the end

    A connection that monitors a port and the port it monitors name each
    other; the commands that start and stop monitoring and the end of the
    connection keep it so.  The list of connections stays within its limit.
    The end by a command, which the code does not survive, is here too. *)

From S2P Require Import Prelude CStr SelHeap Selector Telnet Utils DevCfg PortData PortFlow PortText PortSetup.
From S2P Require Import PortScript PortAccept CtlData PortAdmin Controller CtlEdit CtlOut.

Section life.
Context {K : Type} `{Kernel K} `{!KernelLaws K} `{Tty K} `{Net K} `{Libc} `{Modem K} `{Texts} `{ConfigNames}.
Implicit Types (s r : ct K) (c p : ptr) (i : controller_info) (j : port_info).

(** ** Monitors *)

(** One direction of the port is shown to [c], and nothing to anyone else. *)
Definition watched j c : Prop :=
  (tcp_monitor j = Some c /\ dev_monitor j = None) \/ (tcp_monitor j = None /\ dev_monitor j = Some c).

Record links s : Prop := {
  li_ctl c i p : ctls s !! c = Some i -> monitor_port_id i = Some p ->
    exists j, pheap (ctl_dx s) !! p = Some j /\ watched j c;
  li_port p j c : pheap (ctl_dx s) !! p = Some j -> tcp_monitor j = Some c \/ dev_monitor j = Some c ->
    exists i, ctls s !! c = Some i /\ monitor_port_id i = Some p
}.

(** The ports and who monitors what are the same. *)
Definition same_links s s' : Prop :=
  pheap (ctl_dx s') = pheap (ctl_dx s) /\
  (forall c, monitor_port_id <$> (ctls s' !! c) = monitor_port_id <$> (ctls s !! c)) /\
  controllers s' = controllers s /\ num_controller_ports s' = num_controller_ports s.

Lemma same_links_refl s : same_links s s.
Proof. by split. Qed.
Lemma same_links_trans s1 s2 s3 : same_links s1 s2 -> same_links s2 s3 -> same_links s1 s3.
Proof. intros (P1 & C1 & L1 & N1) (P2 & C2 & L2 & N2). split_and!; [congruence | | congruence..]. intros c. by rewrite C2. Qed.

Lemma same_links_lookup s s' c i : same_links s s' -> ctls s' !! c = Some i ->
  exists i0, ctls s !! c = Some i0 /\ monitor_port_id i0 = monitor_port_id i.
Proof. intros (_ & C & _) Hi. specialize (C c). rewrite Hi in C. destruct (ctls s !! c); [|done]. injection C as C. eauto. Qed.

Lemma same_links_sym s s' : same_links s s' -> same_links s' s.
Proof. intros (P & C & L & N). by split_and!. Qed.

Lemma links_same s s' : same_links s s' -> links s -> links s'.
Proof.
  intros Hs [L1 L2]. pose proof Hs as (P & _). constructor.
  - intros c i p Hi Hm. destruct (same_links_lookup _ _ _ _ Hs Hi) as (i0 & Hi0 & E). rewrite P. apply (L1 c i0 p); congruence.
  - intros p j c Hj Hw. rewrite P in Hj. destruct (L2 p j c Hj Hw) as (i & Hi & E).
    destruct (same_links_lookup _ _ _ _ (same_links_sym _ _ Hs) Hi) as (i0 & Hi0 & E0). exists i0. split; [done | congruence].
Qed.

Lemma set_ctl_links c f s s' : (forall i, monitor_port_id (f i) = monitor_port_id i) ->
  set_ctl c f s = Ok (tt, s') -> same_links s s'.
Proof.
  intros Hf. unfold set_ctl. destruct (ctls s !! c) as [i|] eqn:Hi; [|done]. intros [= <-]. split_and!; try done. intros c'. cbn.
  destruct (decide (c' = c)) as [-> |]; [rewrite lookup_insert_eq, Hi; cbn; by rewrite Hf | by rewrite lookup_insert_ne].
Qed.

Lemma selector_links s s' (f : selector -> res selector) : on_dx (on_selector f) s = Ok (tt, s') -> same_links s s'.
Proof.
  intros E. apply on_dx_inv in E as (d & E & ->). unfold on_selector in E. destruct (f _); [|done]. injection E as <-.
  by split.
Qed.

Lemma append_output_monitor i buf data i' : append_output i buf data = Ok i' -> monitor_port_id i' = monitor_port_id i.
Proof.
  unfold append_output. case_match; intros E; repeat (apply res_bind_inv in E as (? & _ & E)); by injection E as <-.
Qed.

Lemma output_links c data s s' : controller_output c data s = Ok (tt, s') -> same_links s s'.
Proof.
  unfold controller_output. intros E. apply ST_bind_inv in E as (i & s0 & E0 & E). unfold ctl_at in E0.
  destruct (ctls s !! c) as [i0|] eqn:Hi; [|done]. injection E0 as <- <-. destruct (outbuf i0) as [buf|].
  - apply ST_bind_inv in E as (i' & s1 & E1 & E). unfold lift_res in E1.
    destruct (append_output i0 buf data) as [i1|] eqn:Ea; [|done]. injection E1 as <- <-.
    unfold set_ctl in E. rewrite Hi in E. injection E as <-. split_and!; try done. intros c'. cbn.
    destruct (decide (c' = c)) as [-> |]; [|by rewrite lookup_insert_ne].
    rewrite lookup_insert_eq, Hi. cbn. by rewrite (append_output_monitor _ _ _ _ Ea).
  - apply ST_bind_inv in E as (nb & s1 & E1 & E). unfold lift_res in E1. destruct (new_block _ data); [|done]. injection E1 as <- <-.
    apply ST_bind_inv in E as ([] & s2 & E1 & E). apply set_ctl_links in E1; [|done].
    apply ST_bind_inv in E as (fd & s3 & E2 & E). unfold ctl_tcpfd in E2. destruct (ctl_fds _ !! c); [|done]. injection E2 as <- <-.
    unfold read_handler, write_handler in E. apply ST_bind_inv in E as ([] & s4 & E2 & E). apply selector_links in E2, E.
    exact (same_links_trans _ _ _ E1 (same_links_trans _ _ _ E2 E)).
Qed.

Lemma output_all_links c l s s' : output_all c l s = Ok (tt, s') -> same_links s s'.
Proof.
  revert s. induction l as [|t l IH]; intros s E; [injection E as <-; apply same_links_refl|]. cbn in E.
  apply ST_bind_inv in E as ([] & s1 & E1 & E). exact (same_links_trans _ _ _ (output_links _ _ _ _ E1) (IH _ E)).
Qed.

Lemma find_port_here h l name p : find_port h l name = Ok (Some p) -> is_Some (h !! p).
Proof.
  induction l as [|q l IH]; cbn; [done|]. destruct (h !! q) as [j|] eqn:Hq; [|done]. destruct (portname (conf j)); [|done].
  case_match; [intros [= <-]; by rewrite Hq | exact IH].
Qed.

(** What starting a monitor leads to: nothing but messages, or one direction of
    a port that nobody watched is shown to the connection. *)
Lemma monitor_start_outcome c type spec s m s' : data_monitor_start c type spec s = Ok (m, s') ->
  (m = None /\ same_links s s') \/
  exists p j j', m = Some p /\ pheap (ctl_dx s) !! p = Some j /\ tcp_monitor j = None /\ dev_monitor j = None /\
    watched j' c /\ ctls s' = ctls s /\
      controllers s' = controllers s /\ num_controller_ports s' = num_controller_ports s /\ pheap (ctl_dx s') = <[p := j']> (pheap (ctl_dx s)).
Proof.
  unfold data_monitor_start. intros E. apply ST_bind_inv in E as (port & s1 & E1 & E).
  unfold find_port_by_num in E1. apply ST_bind_inv in E1 as (s0 & s2 & E0 & E1). injection E0 as <- <-. unfold lift_res in E1.
  destruct (find_port _ _ spec) as [x|] eqn:Hf; [|done]. injection E1 as <- <-.
  assert (Hsay : forall l, (_ ← output_all c l; mret None) s = Ok (m, s') -> m = None /\ same_links s s').
  { intros l E1. apply ST_bind_inv in E1 as ([] & s1 & E1 & E2). injection E2 as <- <-. split; [done | by eapply output_all_links]. }
  destruct x as [p|]; [|left; by eapply Hsay]. destruct (find_port_here _ _ _ _ Hf) as [j Hj].
  apply ST_bind_inv in E as (j0 & s1 & E1 & E). apply on_dx_inv in E1 as (d & E1 & ->). unfold port_at in E1. rewrite Hj in E1.
  injection E1 as <- <-. assert (Hs : with_dx (ctl_dx s) s = s) by (by destruct s). rewrite Hs in E.
  destruct (tcp_monitor j) eqn:Ht, (dev_monitor j) eqn:Hd; try (left; by eapply Hsay).
  destruct (streq type (str "tcp")); [|destruct (streq type (str "term")); [|left; by eapply Hsay]].
  all: apply ST_bind_inv in E as ([] & s1 & E1 & E); injection E as <- <-; apply on_dx_inv in E1 as (d & E1 & ->);
    unfold set_port in E1; rewrite Hj in E1; injection E1 as <-; right; exists p, j; eexists; split_and!; try done.
  - left. split; [done | exact Hd].
  - right. split; [exact Ht | done].
Qed.

(** The connection and the port name each other. *)
Lemma links_join s s' c i p j j' : links s -> ctls s !! c = Some i -> monitor_port_id i = None ->
  pheap (ctl_dx s) !! p = Some j -> tcp_monitor j = None -> dev_monitor j = None -> watched j' c ->
  ctls s' = <[c := set_monitor (Some p) i]> (ctls s) -> pheap (ctl_dx s') = <[p := j']> (pheap (ctl_dx s)) -> links s'.
Proof.
  intros [L1 L2] Hi Hm Hj Ht Hd Hw Hc Hp. constructor.
  - intros c1 i1 p1. rewrite Hc, Hp. destruct (decide (c1 = c)) as [-> |].
    + rewrite lookup_insert_eq. intros [= <-] [= <-]. rewrite lookup_insert_eq. eauto.
    + rewrite lookup_insert_ne by done. intros Hi1 Hm1. destruct (L1 c1 i1 p1 Hi1 Hm1) as (j1 & Hj1 & Hw1).
      exists j1. rewrite lookup_insert_ne; [done|]. intros <-. unfold watched in Hw1. simplify_eq. destruct Hw1 as [[? ?]|[? ?]]; congruence.
  - intros p1 j1 c1. rewrite Hc, Hp. destruct (decide (p1 = p)) as [-> |].
    + rewrite lookup_insert_eq. intros [= <-] Hw1. assert (c1 = c) as -> by (destruct Hw as [[? ?]|[? ?]], Hw1; congruence).
      rewrite lookup_insert_eq. eauto.
    + rewrite lookup_insert_ne by done. intros Hj1 Hw1. destruct (L2 p1 j1 c1 Hj1 Hw1) as (i1 & Hi1 & Hm1).
      exists i1. rewrite lookup_insert_ne; [done|]. intros <-. congruence.
Qed.

(** Neither names the other any more. *)
Lemma links_part s s' c i p j : links s -> ctls s !! c = Some i -> monitor_port_id i = Some p -> pheap (ctl_dx s) !! p = Some j ->
  (forall c1, c1 <> c -> ctls s' !! c1 = ctls s !! c1) -> (forall i1, ctls s' !! c = Some i1 -> monitor_port_id i1 = None) ->
  pheap (ctl_dx s') = <[p := set_monitors None None j]> (pheap (ctl_dx s)) -> links s'.
Proof.
  intros [L1 L2] Hi Hm Hj Hc Hn Hp. destruct (L1 c i p Hi Hm) as (j0 & Hj0 & Hw0). simplify_eq. constructor.
  - intros c1 i1 p1 Hi1 Hm1. destruct (decide (c1 = c)) as [-> |]; [rewrite (Hn _ Hi1) in Hm1; done|].
    rewrite Hc in Hi1 by done. destruct (L1 c1 i1 p1 Hi1 Hm1) as (j1 & Hj1 & Hw1). exists j1. rewrite Hp, lookup_insert_ne; [done|].
    intros <-. simplify_eq. unfold watched in *. destruct Hw0 as [[? ?]|[? ?]], Hw1 as [[? ?]|[? ?]]; congruence.
  - intros p1 j1 c1. rewrite Hp. destruct (decide (p1 = p)) as [-> |].
    + rewrite lookup_insert_eq. intros [= <-] [?|?]; done.
    + rewrite lookup_insert_ne by done. intros Hj1 Hw1. destruct (L2 p1 j1 c1 Hj1 Hw1) as (i1 & Hi1 & Hm1). exists i1.
      rewrite Hc; [done|]. intros ->. by simplify_eq.
Qed.

Lemma need_links {A} c (tok : option A) err (k : A -> CT K unit) s s' : links s ->
  (forall a, tok = Some a -> k a s = Ok (tt, s') -> links s') -> need c tok err k s = Ok (tt, s') -> links s'.
Proof.
  intros Hl Hk E. destruct tok as [a|]; [by apply (Hk a)|]. cbn in E. exact (links_same _ _ (output_links _ _ _ _ E) Hl).
Qed.

Lemma ctl_at_inv c s i s' : ctl_at c s = Ok (i, s') -> s' = s /\ ctls s !! c = Some i.
Proof. unfold ctl_at. destruct (ctls s !! c); [|done]. by intros [= <- <-]. Qed.

Lemma monitor_stop_inv p s s' : data_monitor_stop p s = Ok (tt, s') -> exists j, pheap (ctl_dx s) !! p = Some j /\
  s' = with_dx (with_pheap (<[p := set_monitors None None j]> (pheap (ctl_dx s))) (ctl_dx s)) s.
Proof.
  intros E. apply on_dx_inv in E as (d & E & ->). unfold set_port in E. destruct (pheap _ !! p) as [j|]; [|done].
  injection E as <-. eauto.
Qed.

Lemma set_ctl_inv c f s s' : set_ctl c f s = Ok (tt, s') -> exists i, ctls s !! c = Some i /\ s' = with_ctls (<[c := f i]> (ctls s)) s.
Proof. unfold set_ctl. destruct (ctls s !! c) as [i|]; [|done]. intros [= <-]. eauto. Qed.

Lemma monitor_command_links c rest s s' : links s -> monitor_command c rest s = Ok (tt, s') -> links s'.
Proof.
  intros Hl. unfold monitor_command. apply need_links; [done|]. intros [type rest'] _ E.
  apply ST_bind_inv in E as (i & s1 & E1 & E). apply ctl_at_inv in E1 as [-> Hi].
  destruct (streq type (str "stop")); destruct (monitor_port_id i) as [p|] eqn:Hm.
  - apply ST_bind_inv in E as ([] & s1 & E1 & E). apply monitor_stop_inv in E1 as (j & Hj & ->).
    apply set_ctl_inv in E as (i1 & Hi1 & ->). apply (links_part s _ c i p j); try done; cbn.
    + intros c1 Hne. by rewrite lookup_insert_ne.
    + intros i2. rewrite lookup_insert_eq. by intros [= <-].
  - by injection E as <-.
  - exact (links_same _ _ (output_links _ _ _ _ E) Hl).
  - revert E. apply need_links; [done|]. intros [spec rest''] _ E. apply ST_bind_inv in E as (m & s1 & E1 & E).
    apply set_ctl_inv in E as (i1 & Hi1 & ->).
    destruct (monitor_start_outcome _ _ _ _ _ _ E1) as [[-> Hs]|(p & j & j' & -> & Hj & Ht & Hd & Hw & Hc & _ & _ & Hp)].
    + apply (links_same s); [|done]. destruct Hs as (P & C & CL & CN). split_and!; try done. intros c'. cbn.
      destruct (decide (c' = c)) as [-> |]; [by rewrite lookup_insert_eq, Hi; cbn; rewrite Hm | by rewrite lookup_insert_ne].
    + rewrite Hc in Hi1. simplify_eq. apply (links_join s _ c i p j j'); try done. cbn. by rewrite Hc.
Qed.

Lemma selector_inv (f : selector -> res selector) s s' : on_dx (on_selector f) s = Ok (tt, s') -> exists v, s' = with_dx (with_dsel v (ctl_dx s)) s.
Proof.
  intros E. apply on_dx_inv in E as (d & E & ->). unfold on_selector in E. destruct (f _) as [v|]; [|done]. injection E as <-. eauto.
Qed.

(** After the part of [shutdown_controller] that stops the monitor. *)
Lemma shutdown_monitor c i s s' : ctls s !! c = Some i ->
  (match monitor_port_id i with Some p => _ ← data_monitor_stop p; set_ctl c (set_monitor None) | None => mret tt end) s = Ok (tt, s') ->
  links s -> links s' /\ exists i', ctls s' !! c = Some i' /\ monitor_port_id i' = None.
Proof.
  intros Hi E Hl. destruct (monitor_port_id i) as [p|] eqn:Hm; [|injection E as <-; eauto].
  apply ST_bind_inv in E as ([] & s1 & E1 & E). apply monitor_stop_inv in E1 as (j & Hj & ->).
  apply set_ctl_inv in E as (i1 & Hi1 & ->). split; [|cbn; rewrite lookup_insert_eq; eauto].
  apply (links_part s _ c i p j); try done; cbn.
  - intros c1 Hne. by rewrite lookup_insert_ne.
  - intros i2. rewrite lookup_insert_eq. by intros [= <-].
Qed.

Lemma links_gone s s' c i : links s -> ctls s !! c = Some i -> monitor_port_id i = None ->
  pheap (ctl_dx s') = pheap (ctl_dx s) -> ctls s' = delete c (ctls s) -> links s'.
Proof.
  intros [L1 L2] Hi Hm Hp Hc. constructor.
  - intros c1 i1 p1. rewrite Hc, Hp, lookup_delete_Some. intros [_ Hi1]. by apply (L1 c1 i1).
  - intros p1 j1 c1. rewrite Hc, Hp. intros Hj1 Hw1. destruct (L2 p1 j1 c1 Hj1 Hw1) as (i1 & Hi1 & Hm1). exists i1.
    rewrite lookup_delete_ne; [done|]. intros ->. by simplify_eq.
Qed.

Lemma shutdown_links c s s' : links s -> shutdown_controller c s = Ok (tt, s') -> links s' /\ ctls s' !! c = None.
Proof.
  intros Hl E. unfold shutdown_controller in E. apply ST_bind_inv in E as (i & s1 & E1 & E). apply ctl_at_inv in E1 as [-> Hi].
  apply ST_bind_inv in E as ([] & s1 & E1 & E). destruct (shutdown_monitor _ _ _ _ Hi E1 Hl) as (Hl1 & i1 & Hi1 & Hm1).
  apply ST_bind_inv in E as (fd & s2 & E2 & E). unfold ctl_tcpfd in E2. destruct (ctl_fds _ !! c) as [fd'|]; [|done]. injection E2 as <- <-.
  apply ST_bind_inv in E as ([] & s2 & E2 & E). apply selector_inv in E2 as (v & ->).
  apply ST_bind_inv in E as ([] & s2 & E2 & E). injection E2 as <-.
  apply ST_bind_inv in E as ([] & s2 & E2 & E). apply set_ctl_inv in E2 as (i2 & Hi2 & ->).
  apply ST_bind_inv in E as ([] & s2 & E2 & E). injection E2 as <-. injection E as <-. cbn in Hi2. simplify_eq.
  case_bool_decide; (split; [|cbn; apply lookup_delete_eq]);
    (apply (links_gone s1 _ c i2); [done..|]); cbn; by rewrite delete_insert_eq.
Qed.

(** ** The list of connections *)

Definition counted s : Prop :=
  num_controller_ports s = Z.of_nat (length (controllers s)) /\ num_controller_ports s <= max_controller_ports /\
  NoDup (controllers s) /\ forall c, c ∈ controllers s <-> is_Some (ctls s !! c).

(** The list and the set of addresses in use are the same. *)
Definition same_list s s' : Prop :=
  controllers s' = controllers s /\ num_controller_ports s' = num_controller_ports s /\
  forall c, is_Some (ctls s' !! c) <-> is_Some (ctls s !! c).

Lemma same_links_list s s' : same_links s s' -> same_list s s'.
Proof.
  intros (_ & C & L & N). split_and!; [done..|]. intros c. specialize (C c).
  destruct (ctls s !! c), (ctls s' !! c); try done; split; eauto; by intros [? ?].
Qed.

Lemma same_list_trans s1 s2 s3 : same_list s1 s2 -> same_list s2 s3 -> same_list s1 s3.
Proof. intros (L1 & N1 & C1) (L2 & N2 & C2). split_and!; [congruence..|]. intros c. by rewrite C2. Qed.

Lemma counted_same s s' : same_list s s' -> counted s -> counted s'.
Proof. intros (L & N & C) (A & B & D & F). unfold counted. rewrite L, N. split_and!; [done..|]. intros c. by rewrite C, F. Qed.

Lemma dx_list s d : same_list s (with_dx d s).
Proof. by split_and!. Qed.

Lemma set_ctl_list c f s s' : set_ctl c f s = Ok (tt, s') -> same_list s s'.
Proof.
  intros E. apply set_ctl_inv in E as (i & Hi & ->). split_and!; try done. intros c'. cbn. destruct (decide (c' = c)) as [-> |];
    [by rewrite lookup_insert_eq, Hi; split; eauto | by rewrite lookup_insert_ne].
Qed.

Lemma monitor_command_list c rest s s' : monitor_command c rest s = Ok (tt, s') -> same_list s s'.
Proof.
  assert (Hneed : forall A (tok : option A) err (k : A -> CT K unit), (forall a, k a s = Ok (tt, s') -> same_list s s') ->
    need c tok err k s = Ok (tt, s') -> same_list s s').
  { intros A tok err k Hk E. destruct tok as [a|]; [by apply (Hk a)|]. cbn in E. exact (same_links_list _ _ (output_links _ _ _ _ E)). }
  unfold monitor_command. apply Hneed. intros [type rest'] E.
  apply ST_bind_inv in E as (i & s1 & E1 & E). apply ctl_at_inv in E1 as [-> Hi].
  destruct (streq type (str "stop")); destruct (monitor_port_id i) as [p|] eqn:Hm.
  - apply ST_bind_inv in E as ([] & s1 & E1 & E). apply monitor_stop_inv in E1 as (j & Hj & ->).
    exact (same_list_trans _ _ _ (dx_list _ _) (set_ctl_list _ _ _ _ E)).
  - by injection E as <-.
  - exact (same_links_list _ _ (output_links _ _ _ _ E)).
  - revert E. apply Hneed. intros [spec rest''] E. apply ST_bind_inv in E as (m & s1 & E1 & E).
    apply (same_list_trans _ s1); [|exact (set_ctl_list _ _ _ _ E)].
    destruct (monitor_start_outcome _ _ _ _ _ _ E1) as [[-> Hs]|(p & j & j' & _ & _ & _ & _ & _ & Hc & Hl & Hn & _)].
    + by apply same_links_list.
    + split_and!; [done..|]. intros c'. by rewrite Hc.
Qed.

Lemma unlink_spec (l : list ptr) c : NoDup l -> c ∈ l ->
  NoDup (unlink_port l c) /\ length l = S (length (unlink_port l c)) /\ forall x, x ∈ unlink_port l c <-> x ∈ l /\ x <> c.
Proof.
  induction l as [|q l IH]; [set_solver|]. rewrite NoDup_cons. intros [Hq Hl] Hc. cbn. case_bool_decide as Hqc.
  - subst q. split_and!; [done..|]. intros x. rewrite elem_of_cons. split; [intros Hx; split; [by right | by intros ->] | intros [[?|?] ?]; done].
  - rewrite elem_of_cons in Hc. destruct Hc as [Hc|Hc]; [congruence|]. destruct (IH Hl Hc) as (N & L & E). split_and!.
    + rewrite NoDup_cons. split; [|done]. rewrite E. by intros [? _].
    + cbn. by rewrite L.
    + intros x. rewrite !elem_of_cons, E. split; [intros [->|[? ?]]; [split; [by left | done] | tauto] | tauto].
Qed.

Lemma shutdown_list c s s' : counted s -> shutdown_controller c s = Ok (tt, s') -> counted s'.
Proof.
  intros Hs E. unfold shutdown_controller in E. apply ST_bind_inv in E as (i & s1 & E1 & E). apply ctl_at_inv in E1 as [-> Hi].
  apply ST_bind_inv in E as ([] & s1 & E1 & E). assert (Hs1 : same_list s s1).
  { destruct (monitor_port_id i) as [p|]; [|injection E1 as <-; by split_and!].
    apply ST_bind_inv in E1 as ([] & s2 & E1 & E2). apply monitor_stop_inv in E1 as (j & _ & ->).
    exact (same_list_trans _ _ _ (dx_list _ _) (set_ctl_list _ _ _ _ E2)). }
  apply ST_bind_inv in E as (fd & s2 & E2 & E). unfold ctl_tcpfd in E2. destruct (ctl_fds _ !! c) as [fd'|]; [|done]. injection E2 as <- <-.
  apply ST_bind_inv in E as ([] & s2 & E2 & E). apply selector_inv in E2 as (v & ->).
  apply ST_bind_inv in E as ([] & s2 & E2 & E). injection E2 as <-.
  apply ST_bind_inv in E as ([] & s2 & E2 & E). apply set_ctl_list in E2.
  assert (Hs2 : counted s2) by (apply (counted_same s); [exact (same_list_trans _ _ _ Hs1 E2) | exact Hs]).
  assert (Hc : c ∈ controllers s2).
  { apply Hs2, E2. cbn. apply Hs1. by rewrite Hi. }
  apply ST_bind_inv in E as ([] & s3 & E3 & E). injection E3 as <-. injection E as <-. rewrite bool_decide_eq_true_2 by done.
  destruct Hs2 as (A & B & D & F). destruct (unlink_spec _ c D Hc) as (N & L & U). split_and!; cbn; [lia | lia | done |].
  intros x. rewrite U, F. destruct (decide (x = c)) as [-> |]; [rewrite lookup_delete_eq; split; [by intros [_ ?] | by intros [? ?]]|].
  rewrite lookup_delete_ne by done. split; [by intros [? _] | done].
Qed.

(** ** New connections *)

Lemma on_ct_inv {A} (m : CT K A) (s : ctl K) a (s' : ctl K) : on_ct m s = Ok (a, s') -> m (ctrl s) = Ok (a, ctrl s').
Proof. unfold on_ct. destruct (m (ctrl s)) as [[x r]|]; [|done]. by intros [= <- <-]. Qed.

Lemma sys_links {A} (f : K -> A * K) s a s' : on_dx (sys f) s = Ok (a, s') -> same_links s s'.
Proof. intros E. apply on_dx_inv in E as (d & E & ->). unfold sys in E. destruct (f _) as [x k]. by injection E as _ <-. Qed.
Lemma sys_do_links (f : K -> K) s a s' : on_dx (sys_do f) s = Ok (a, s') -> same_links s s'.
Proof. intros E. apply on_dx_inv in E as (d & E & ->). by injection E as _ <-. Qed.
Lemma ask_links {A} (f : K -> A) s a s' : on_dx (ask f) s = Ok (a, s') -> same_links s s'.
Proof. intros E. apply on_dx_inv in E as (d & E & ->). by injection E as _ <-. Qed.
Lemma write_ignore_links fd b s a s' : on_dx (write_ignore fd b) s = Ok (a, s') -> same_links s s'.
Proof.
  intros E. apply on_dx_inv in E as (d & E & ->). unfold write_ignore in E. apply ST_bind_inv in E as (n & d1 & E1 & E).
  injection E as _ <-. unfold sys in E1. destruct (sys_write _ _ _). by injection E1 as _ <-.
Qed.

Lemma output_ready_links c s s' : telnet_output_ready c s = Ok (tt, s') -> same_links s s'.
Proof.
  intros E. unfold telnet_output_ready, read_handler, write_handler in E.
  apply ST_bind_inv in E as (fd & s1 & E1 & E). unfold ctl_tcpfd in E1. destruct (ctl_fds _ !! c); [|done]. injection E1 as <- <-.
  apply ST_bind_inv in E as ([] & s2 & E2 & E). exact (same_links_trans _ _ _ (selector_links _ _ _ E2) (selector_links _ _ _ E)).
Qed.

Lemma telnet_init_links c seq s s' : on_ctl_telnet c (telnet_init seq) s = Ok (tt, s') -> same_links s s'.
Proof.
  unfold on_ctl_telnet. destruct (ctls s !! c) as [i|] eqn:Hi; [|done]. destruct (telnet_init seq _) as [[[] ts]|] eqn:Et; [|done].
  intros E. apply ST_bind_inv in E as ([] & s1 & E1 & E). injection E as <-. apply set_ctl_links in E1; [|done].
  unfold telnet_init in Et. apply ST_bind_inv in Et as ([] & t1 & T1 & Et). injection T1 as <-.
  apply ST_bind_inv in Et as ([] & t1 & T1 & Et). unfold lift_res in T1. destruct (check _ _); [|done]. injection T1 as _ <-.
  apply ST_bind_inv in Et as ([] & t1 & T1 & Et). injection T1 as <-.
  cbn [output_ready ctl_telnet_output] in Et. unfold in_ctl_callback in Et. cbn [world] in Et.
  destruct (telnet_output_ready c s) as [[[] r]|] eqn:Eo; [|done]. injection Et as <-. cbn in E1.
  apply output_ready_links in Eo. exact (same_links_trans _ _ _ Eo E1).
Qed.

(** Either nothing changes for the links and the list, or one connection is
    added that monitors nothing. *)
Definition joined r r' : Prop := exists r0 rA rB c i,
  same_links r r0 /\ ctls r0 !! c = None /\ monitor_port_id i = None /\ num_controller_ports r < max_controller_ports /\
  pheap (ctl_dx rA) = pheap (ctl_dx r0) /\ ctls rA = <[c := i]> (ctls r0) /\
  controllers rA = c :: controllers r0 /\ num_controller_ports rA = num_controller_ports r0 /\
  same_links rA rB /\ r' = with_list (controllers rB) (num_controller_ports rB + 1) rB.

Ltac ct_step E E1 s1 :=
  let a := fresh "a" in apply ST_bind_inv in E as (a & s1 & E1 & E); apply on_ct_inv in E1;
  try match type of a with unit => destruct a end.

Lemma ctl_accept_outcome `{CtlMemory K} fd (s s' : ctl K) : Controller.handle_accept_port_read fd s = Ok (tt, s') ->
  same_links (ctrl s) (ctrl s') \/ joined (ctrl s) (ctrl s').
Proof.
  unfold Controller.handle_accept_port_read. intros E. apply ST_bind_inv in E as (s0 & s1 & E1 & E). injection E1 as <- <-.
  destruct (Z.leb_spec max_controller_ports (num_controller_ports (ctrl s))) as [Hn|Hn].
  { left. unfold turn_away in E. ct_step E E1 s1. apply sys_links in E1. destruct a as [[new ?]|]; [|by injection E as <-].
    ct_step E E2 s2. apply write_ignore_links in E2. apply on_ct_inv, sys_do_links in E.
    exact (same_links_trans _ _ _ E1 (same_links_trans _ _ _ E2 E)). }
  ct_step E E1 s1. apply sys_links in E1. destruct a as [[tcpfd from]|].
  2:{ left. apply on_ct_inv, sys_do_links in E. exact (same_links_trans _ _ _ E1 E). }
  ct_step E E2 s2. apply ask_links in E2. pose proof (same_links_trans _ _ _ E1 E2) as F2. destruct (negb a).
  { left. ct_step E E3 s3. apply write_ignore_links in E3. apply on_ct_inv, sys_do_links in E.
    exact (same_links_trans _ _ _ F2 (same_links_trans _ _ _ E3 E)). }
  ct_step E E3 s3. apply sys_links in E3. pose proof (same_links_trans _ _ _ F2 E3) as F3. destruct (negb a0).
  { left. ct_step E E4 s4. apply sys_do_links in E4. apply on_ct_inv, sys_do_links in E.
    exact (same_links_trans _ _ _ F3 (same_links_trans _ _ _ E4 E)). }
  right. apply ST_bind_inv in E as (c & s4 & E4 & E). unfold new_controller in E4. injection E4 as Hc <-.
  ct_step E E5 s5. apply selector_inv in E5 as (v & E5). ct_step E E6 s6. injection E6 as E6.
  ct_step E E7 s7. apply telnet_init_links in E7. ct_step E E8 s8. apply output_links in E8.
  apply on_ct_inv in E. injection E as E. exists (ctrl s3), (ctrl s6), (ctrl s8), c.
  eexists. split_and!; [exact F3 | | | exact Hn | | | | | exact (same_links_trans _ _ _ E7 E8) | exact (eq_sym E)].
  - apply not_elem_of_dom. rewrite <- Hc. apply is_fresh.
  - shelve.
  - rewrite <- E6, E5. reflexivity.
  - rewrite <- E6, E5, <- Hc. reflexivity.
  - rewrite <- E6, E5. reflexivity.
  - rewrite <- E6, E5. reflexivity.
  Unshelve. reflexivity.
Qed.

Lemma links_joined r r' : links r -> joined r r' -> links r'.
Proof.
  intros Hl (r0 & rA & rB & c & i & F & Hc & Hm & _ & Hp & HcA & _ & _ & FB & ->).
  destruct (links_same _ _ F Hl) as [L1 L2]. cut (links rB); [by intros [? ?]; constructor|]. apply (links_same _ _ FB). constructor.
  - intros c1 i1 p1. rewrite HcA, Hp. destruct (decide (c1 = c)) as [-> |].
    + rewrite lookup_insert_eq. intros [= <-] Hm1. congruence.
    + rewrite lookup_insert_ne by done. apply L1.
  - intros p1 j1 c1. rewrite HcA, Hp. intros Hj Hw. destruct (L2 p1 j1 c1 Hj Hw) as (i1 & Hi1 & Hm1). exists i1.
    rewrite lookup_insert_ne; [done|]. intros <-. congruence.
Qed.

Lemma counted_joined r r' : counted r -> joined r r' -> counted r'.
Proof.
  intros Hn (r0 & rA & rB & c & i & F & Hc & _ & Hlt & _ & HcA & HlA & HnA & FB & ->).
  pose proof F as (_ & _ & _ & FN). rewrite <- FN in Hlt.
  destruct (counted_same _ _ (same_links_list _ _ F) Hn) as (A & B & D & G).
  destruct (same_links_list _ _ FB) as (LB & NB & CB). unfold counted, with_list. cbn. rewrite LB, NB, HlA, HnA. split_and!.
  - cbn [length]. lia.
  - lia.
  - rewrite NoDup_cons. split; [|done]. rewrite G, Hc. by intros [? ?].
  - intros x. rewrite elem_of_cons, G, CB, HcA. destruct (decide (x = c)) as [-> |].
    + rewrite lookup_insert_eq. split; [eauto | by left].
    + rewrite lookup_insert_ne by done. split; [by intros [?|?] | by right].
Qed.
End life.

(** ** The claims *)

(** What happens to control connections: one arrives, something is said, a
    monitor command is run, one ends. *)
Inductive life_step {K} `{Kernel K} `{Tty K} `{Net K} `{Libc} `{CtlMemory K} : ctl K -> ctl K -> Prop :=
  | step_accept fd (s s' : ctl K) : Controller.handle_accept_port_read fd s = Ok (tt, s') -> life_step s s'
  | step_output c data (s s' : ctl K) : on_ct (controller_output c data) s = Ok (tt, s') -> life_step s s'
  | step_monitor c rest (s s' : ctl K) : on_ct (monitor_command c rest) s = Ok (tt, s') -> life_step s s'
  | step_end c (s s' : ctl K) : on_ct (shutdown_controller c) s = Ok (tt, s') -> life_step s s'.

(** C33: Connections and the ports they monitor name each other: whatever
    connections arrive, monitor, stop and end, a connection that has a port to
    monitor is the only one that port shows its data to, in one direction,
    and a port that shows its data shows it to a connection that is there and
    has that port - never to one that has ended. *)
Theorem monitor_links {K} `{Kernel K} `{Tty K} `{Net K} `{Libc} `{CtlMemory K} (s s' : ctl K) :
  rtc life_step s s' -> links (ctrl s) -> links (ctrl s').
Proof.
  induction 1 as [|s1 s2 s3 Hst _ IH]; [done|]. intros Hl. apply IH. destruct Hst as [fd s s' E|c data s s' E|c rest s s' E|c s s' E].
  - apply ctl_accept_outcome in E as [F|J]; [exact (links_same _ _ F Hl) | exact (links_joined _ _ Hl J)].
  - apply on_ct_inv, output_links in E. exact (links_same _ _ E Hl).
  - apply on_ct_inv in E. by eapply monitor_command_links.
  - apply on_ct_inv in E. by apply (shutdown_links c (ctrl s)).
Qed.

(** There are never more than four control connections: the count of the
    program is the length of its list, the list has no connection twice, and it
    holds exactly the connections that are allocated - whatever arrives,
    is said, is monitored and ends. *)
Theorem connection_limit {K} `{Kernel K} `{Tty K} `{Net K} `{Libc} `{CtlMemory K} (s s' : ctl K) :
  rtc life_step s s' -> counted (ctrl s) -> counted (ctrl s') /\ (length (controllers (ctrl s')) <= 4)%nat.
Proof.
  intros Hst Hc. cut (counted (ctrl s')).
  { intros Hc'. split; [exact Hc'|]. destruct Hc' as (A & B & _). unfold max_controller_ports in B. lia. }
  revert Hc. induction Hst as [|s1 s2 s3 Hst _ IH]; [done|]. intros Hc. apply IH.
  destruct Hst as [fd s s' E|c data s s' E|c rest s s' E|c s s' E].
  - apply ctl_accept_outcome in E as [F|J]; [exact (counted_same _ _ (same_links_list _ _ F) Hc) | exact (counted_joined _ _ Hc J)].
  - apply on_ct_inv, output_links in E. exact (counted_same _ _ (same_links_list _ _ E) Hc).
  - apply on_ct_inv, monitor_command_list in E. exact (counted_same _ _ E Hc).
  - apply on_ct_inv in E. by apply (shutdown_list c (ctrl s)).
Qed.

(** A connection does not survive [exit] and [quit]: the command frees the
    controller, and the editor of the line, which goes on in its buffer,
    leaves memory that is allocated. *)
Theorem exit_use_after_free {K} `{Kernel K} `{!KernelLaws K} `{Tty K} `{Net K} `{Libc} `{Modem K} `{Texts} `{ConfigNames}
    (s : ctl K) c fd i line rest junk w rest' :
  typed_at c s line (13 :: rest) junk -> conn_ok c fd (ctrl s) i ->
  word (cstr_of (map char_of line)) = Some (w, rest') -> w = str "exit" \/ w = str "quit" ->
  enter_line c (length line) s = Crash OutOfBounds.
Proof.
  intros Ht Hok Hw Hq. pose proof (enter_line_Ok c s line rest junk Ht) as He.
  destruct (output_step c fd (ctrl s) i CRLF Hok) as (r1 & i1 & E1 & Hok1 & _). rewrite E1 in He. cbn [mbind res_bind snd] in He.
  destruct (shutdown_step c fd r1 i1 Hok1) as (r2 & E2 & Hg & _).
  assert (Er : run_command c w rest' r1 = Ok (true, r2)).
  { unfold run_command. destruct Hq as [-> | ->]; [change (streq (str "exit") (str "exit")) with true
      | change (streq (str "quit") (str "exit")) with false; change (streq (str "quit") (str "quit")) with true];
      cbv iota; by rewrite (ST_bind_Ok _ _ _ _ _ E2). }
  assert (Ep : process_input_line c (cstr_of (map char_of line)) r1 = Ok (tt, r2)).
  { unfold process_input_line. rewrite Hw. by rewrite (ST_bind_Ok _ _ _ _ _ Er). }
  rewrite Ep, Hg in He. exact He.
Qed.

(** ** A concrete life *)

#[export] Instance netk_memory : CtlMemory netk := {
  junk_controller _ := demo_conn [] None 77;
  junk_inbuf _ := replicate 256 7
}.

Definition ran (m : CTL netk unit) (s : ctl netk) : ctl netk := match m s with Ok (_, s') => s' | Crash _ => s end.
Definition runs (m : CTL netk unit) (s : ctl netk) : bool := match m s with Ok _ => true | Crash _ => false end.
Lemma ran_Ok m s : runs m s = true -> m s = Ok (tt, ran m s).
Proof. unfold runs, ran. by destruct (m s) as [[[] s']|]. Qed.

(** A second connection arrives, monitors the port, and the first one ends. *)
Definition life0 : ctl netk := demo_ctl.
Definition life1 : ctl netk := ran (Controller.handle_accept_port_read 4) life0.
Definition life2 : ctl netk := ran (on_ct (monitor_command 2%positive (str "tcp 2000"))) life1.
Definition life3 : ctl netk := ran (on_ct (shutdown_controller 1%positive)) life2.

Lemma demo_life : rtc life_step life0 life3.
Proof.
  apply (rtc_l _ _ life1); [apply (step_accept 4), ran_Ok; vm_compute; reflexivity|].
  apply (rtc_l _ _ life2); [apply (step_monitor 2%positive (str "tcp 2000")), ran_Ok; vm_compute; reflexivity|].
  apply rtc_once. apply (step_end 1%positive), ran_Ok. vm_compute. reflexivity.
Qed.

Lemma demo_links : links (ctrl life0).
Proof.
  constructor.
  - intros c i p. cbn. rewrite lookup_singleton_Some. by intros [_ <-].
  - intros p j c. cbn. rewrite lookup_singleton_Some. intros [_ <-] [?|?]; done.
Qed.

Lemma monitor_links_witness : links (ctrl life3) /\
  (tcp_monitor <$> (pheap (ctl_dx (ctrl life3)) !! 1%positive) = Some (Some 2%positive)).
Proof. split; [apply (monitor_links life0 life3 demo_life demo_links) | vm_compute; reflexivity]. Defined.

Lemma connection_limit_witness : (counted (ctrl life3) /\ (length (controllers (ctrl life3)) <= 4)%nat) /\
  controllers (ctrl life3) = [2%positive].
Proof.
  split; [apply (connection_limit life0 life3 demo_life)|vm_compute; reflexivity].
  split_and!; [reflexivity | done | apply NoDup_singleton |]. intros c. cbn.
  rewrite list_elem_of_singleton. destruct (decide (c = 1%positive)) as [-> |].
  - rewrite lookup_singleton_eq. split; eauto.
  - rewrite lookup_singleton_ne by done. split; [done | by intros [? ?]].
Defined.

(** The line [exit], with the newline of the terminal still behind it. *)
Definition demo_exit : ctl netk :=
  Ctl {[ 1%positive := Input (chars "exit" ++ [13; 10] ++ replicate 250 0) 6 ]} (demo_ct (demo_conn [] None 0) {[4; 5]} ∅ [] []).

Lemma exit_use_after_free_witness : enter_line 1%positive 4 demo_exit = Crash OutOfBounds.
Proof.
  apply (exit_use_after_free demo_exit 1%positive 5 (demo_conn [] None 0) (chars "exit") [10] (replicate 250 0) (str "exit") (str "")).
  - split; [by eexists | reflexivity].
  - constructor; try done; [apply demo_fds_ok | by intros [?|?]].
  - reflexivity.
  - by left.
Defined.
