(* ===== verification/VmeBus.v ===== *)
(** * The VME bus, as [vme/vf48.c], [vme/vt48.c] and [vme/sis3820.c] use it

    The drivers reach their modules only through the MIDAS calls [mvme_*],
    which are not part of the repository: they are an interface here, with
    the laws of the bus that the theorems rely on. *)

From S2P Require Import Prelude.

(** ** The interface *)

(** [mvmestd.h]: its constants and calls on the state of the crate.  A single
    read answers the word, a single write the status, and a block read of
    [n] bytes the status and the words that reached the destination. *)
Class Mvme (V : Type) := {
  MVME_AM_A24 : Z;
  MVME_AM_A32 : Z;
  MVME_DMODE_D32 : Z;
  MVME_BLT_NONE : Z;
  MVME_BLT_MBLT64 : Z;
  MVME_BLT_2EVME : Z;
  MVME_SUCCESS : Z;
  mvme_set_am : Z -> V -> V;
  mvme_get_dmode : V -> Z;
  mvme_set_dmode : Z -> V -> V;
  mvme_set_blt : Z -> V -> V;
  mvme_read_value : Z -> V -> Z * V;
  mvme_write_value : Z -> Z -> V -> Z * V;
  mvme_read : Z -> Z -> V -> Z * list Z * V
}.

(** A single read answers a 32-bit word; the data mode is what was set last. *)
Class MvmeLaws (V : Type) `{Mvme V} : Prop := {
  read_value_range a v : 0 <= fst (mvme_read_value a v) < 2 ^ 32;
  dmode_set m v : mvme_get_dmode (mvme_set_dmode m v) = m;
  dmode_am m v : mvme_get_dmode (mvme_set_am m v) = mvme_get_dmode v;
  dmode_blt m v : mvme_get_dmode (mvme_set_blt m v) = mvme_get_dmode v;
  dmode_read_value a v : mvme_get_dmode (snd (mvme_read_value a v)) = mvme_get_dmode v;
  dmode_write_value a x v : mvme_get_dmode (snd (mvme_write_value a x v)) = mvme_get_dmode v;
  dmode_read a n v : mvme_get_dmode (snd (mvme_read a n v)) = mvme_get_dmode v
}.

(** ** Words *)

(** [DWORD] is [unsigned int]; assigned to an [int] it wraps. *)
Definition dword (x : Z) : Z := x mod 2 ^ 32.
Definition int32 (x : Z) : Z := (x + 2 ^ 31) mod 2 ^ 32 - 2 ^ 31.

(** [base+reg] *)
Definition vme_addr (base reg : Z) : Z := dword (base + reg).

(** [csr & mask] as a condition *)
Definition any_bit (x mask : Z) : bool := negb (Z.land x mask =? 0).

Section bus.
Context {V : Type} `{Mvme V}.

Abbreviation VM := (ST V).

Definition set_am (m : Z) : VM unit := modify (mvme_set_am m).
Definition get_dmode : VM Z := fun v => Ok (mvme_get_dmode v, v).
Definition set_dmode (m : Z) : VM unit := modify (mvme_set_dmode m).
Definition set_blt (m : Z) : VM unit := modify (mvme_set_blt m).
Definition read_value (base reg : Z) : VM Z := fun v => Ok (mvme_read_value (vme_addr base reg) v).
Definition write_value (base reg x : Z) : VM Z := fun v => Ok (mvme_write_value (vme_addr base reg) (dword x) v).
Definition read_int (base reg : Z) : VM Z := x ← read_value base reg; mret (int32 x).
Definition block_read (base reg n : Z) : VM (Z * list Z) := fun v => Ok (mvme_read (vme_addr base reg) (dword n) v).

(** A read or a write whose answer is not used. *)
Definition flush (base reg : Z) : VM unit := _ ← read_value base reg; mret tt.
Definition put_value (base reg x : Z) : VM unit := _ ← write_value base reg x; mret tt.

(** [for (i=0; i<n; i++)] over a body with the index. *)
Fixpoint for_loop (n : nat) (i : Z) (body : Z -> VM unit) : VM unit :=
  match n with O => mret tt | S n' => _ ← body i; for_loop n' (i + 1) body end.
End bus.
Abbreviation VM V := (ST V).

(** ** Lemmas *)

Lemma int32_range x : - 2 ^ 31 <= int32 x < 2 ^ 31.
Proof. unfold int32. pose proof (Z.mod_pos_bound (x + 2 ^ 31) (2 ^ 32) ltac:(lia)). lia. Qed.

Lemma int32_id x : - 2 ^ 31 <= x < 2 ^ 31 -> int32 x = x.
Proof. intros Hx. unfold int32. rewrite Z.mod_small; lia. Qed.

Lemma dword_int32 x : 0 <= x < 2 ^ 32 -> dword (int32 x) = x.
Proof.
  intros Hx. unfold dword, int32. rewrite Zminus_mod_idemp_l. replace (x + 2 ^ 31 - 2 ^ 31) with x by lia. apply Z.mod_small. lia.
Qed.

(** Bits below 31 of a word are those of the [int]. *)
Lemma int32_testbit x n : 0 <= n < 31 -> Z.testbit (int32 x) n = Z.testbit x n.
Proof.
  intros Hn. rewrite <- (Z.mod_pow2_bits_low (int32 x) 31 n), <- (Z.mod_pow2_bits_low x 31 n) by lia.
  assert (E : int32 x mod 2 ^ 31 = x mod 2 ^ 31); [|by rewrite E].
  assert (Hd : int32 x = x + ((x + 2 ^ 31) / 2 ^ 32 * -2) * 2 ^ 31).
  { unfold int32. pose proof (Z.div_mod (x + 2 ^ 31) (2 ^ 32) ltac:(lia)). lia. }
  rewrite Hd. apply Z.mod_add. lia.
Qed.

(** A condition on one bit. *)
Lemma any_bit_pow2 x n : 0 <= n -> any_bit x (2 ^ n) = Z.testbit x n.
Proof.
  intros Hn. unfold any_bit. destruct (Z.testbit x n) eqn:Hb.
  - apply negb_true_iff, Z.eqb_neq. intros E. assert (Hf : Z.testbit (Z.land x (2 ^ n)) n = true) by (rewrite Z.land_spec, Hb, Z.pow2_bits_true by lia; done).
    rewrite E, Z.bits_0 in Hf. done.
  - apply negb_false_iff, Z.eqb_eq, Z.bits_inj'. intros k Hk. rewrite Z.land_spec, Z.bits_0. destruct (decide (k = n)) as [-> |].
    + by rewrite Hb.
    + rewrite Z.pow2_bits_false by done. apply andb_false_r.
Qed.

Lemma any_bit_int32 x n : 0 <= n < 31 -> any_bit (int32 x) (2 ^ n) = any_bit x (2 ^ n).
Proof. intros Hn. rewrite !any_bit_pow2 by lia. by apply int32_testbit. Qed.

Section laws.
Context {V : Type} `{MvmeLaws V}.
Implicit Types v : V.

(** Keeping the data mode. *)
Definition keeps_mode {A} (m : VM V A) : Prop := forall v a v', m v = Ok (a, v') -> mvme_get_dmode v' = mvme_get_dmode v.

Lemma mode_ret {A} (a : A) : keeps_mode (mret a).
Proof. by intros v b v' [= _ <-]. Qed.
Lemma mode_bind {A B} (m : VM V A) (k : A -> VM V B) : keeps_mode m -> (forall a, keeps_mode (k a)) -> keeps_mode (m ≫= k).
Proof. intros Hm Hk v b v' E. apply ST_bind_inv in E as (a & v1 & E1 & E2). by rewrite (Hk _ _ _ _ E2), (Hm _ _ _ E1). Qed.
Lemma keeps_read base reg : keeps_mode (read_value base reg).
Proof.
  intros v x v' E. unfold read_value in E. pose proof (dmode_read_value (vme_addr base reg) v) as D.
  destruct (mvme_read_value _ v) as [y w]. injection E as _ <-. exact D.
Qed.
Lemma keeps_write base reg x : keeps_mode (write_value base reg x).
Proof.
  intros v y v' E. unfold write_value in E. pose proof (dmode_write_value (vme_addr base reg) (dword x) v) as D.
  destruct (mvme_write_value _ _ v) as [z w]. injection E as _ <-. exact D.
Qed.
Lemma keeps_am m : keeps_mode (set_am m).
Proof. intros v [] v' [= <-]. apply dmode_am. Qed.
Lemma keeps_blt m : keeps_mode (set_blt m).
Proof. intros v [] v' [= <-]. apply dmode_blt. Qed.
Lemma keeps_block base reg n : keeps_mode (block_read base reg n).
Proof.
  intros v y v' E. unfold block_read in E. pose proof (dmode_read (vme_addr base reg) (dword n) v) as D.
  destruct (mvme_read _ _ v) as [z w]. injection E as _ <-. exact D.
Qed.
Lemma keeps_for n i (body : Z -> VM V unit) : (forall i, keeps_mode (body i)) -> keeps_mode (for_loop n i body).
Proof. intros Hb. revert i. induction n as [|n IH]; intros i; [apply mode_ret | by apply mode_bind]. Qed.
Lemma keeps_flush base reg : keeps_mode (flush base reg).
Proof. apply mode_bind; [apply keeps_read | intros ?; apply mode_ret]. Qed.
Lemma keeps_put base reg x : keeps_mode (put_value base reg x).
Proof. apply mode_bind; [apply keeps_write | intros ?; apply mode_ret]. Qed.
Lemma keeps_read_int base reg : keeps_mode (read_int base reg).
Proof. apply mode_bind; [apply keeps_read | intros ?; apply mode_ret]. Qed.

(** The bracket [mvme_get_dmode; mvme_set_dmode; ...; mvme_set_dmode(cmode)]
    keeps the mode whatever is inside. *)
Lemma keeps_bracket {A} (m : VM V A) d :
  keeps_mode (cmode ← get_dmode; _ ← set_dmode d; a ← m; _ ← set_dmode cmode; mret a).
Proof.
  intros v a v' E. apply ST_bind_inv in E as (c & v1 & E1 & E). injection E1 as <- <-.
  apply ST_bind_inv in E as ([] & v1 & E1 & E). apply ST_bind_inv in E as (b & v2 & E2 & E).
  apply ST_bind_inv in E as ([] & v3 & E3 & E). injection E3 as <-. injection E as _ <-. apply dmode_set.
Qed.
End laws.

Create HintDb keeps.
#[export] Hint Resolve mode_ret keeps_read keeps_write keeps_am keeps_blt keeps_block keeps_flush keeps_put keeps_read_int : keeps.
