(* ===== verification/Vf48.v ===== *)
(** * The VF48 digitizer: registers and parameters ([vme/vf48.c], [vme/vf48.h])

    The collector of the module is reached through registers; the parameters of
    the six front ends are behind two of them, with a protocol of its own.
    The readout of events is in [Vf48Event.v].  Messages to the terminal
    are left out. *)

From S2P Require Import Prelude VmeBus.

(** ** [vf48.h] *)

Definition VF48_GRP_OFFSET : Z := 12.
Definition VF48_PARMA_BIT_RD : Z := 128.
Definition VF48_SUCCESS : Z := 1.
Definition VF48_ERROR : Z := -1.
Definition VF48_ERR_PARM : Z := -1.
Definition VF48_ERR_NODATA : Z := 503.
Definition VF48_ERR_HW : Z := 603.

Definition VF48_CSR_REG_RW : Z := 0x0000.
Definition VF48_TEST_REG_RW : Z := 0x0020.
Definition VF48_FIRMWARE_R : Z := 0x0030.
Definition VF48_SOFTWARE_RESET_W : Z := 0x0040.
Definition VF48_PARAM_DATA_RW : Z := 0x0050.
Definition VF48_PARAM_ID_W : Z := 0x0060.
Definition VF48_SOFT_TRIG_W : Z := 0x0070.
Definition VF48_LVDS_RESET_W : Z := 0x0080.
Definition VF48_GRP_REG_RW : Z := 0x0090.
Definition VF48_NFRAME_R : Z := 0x00A0.
Definition VF48_GLOBAL_RESET_W : Z := 0x00B0.
Definition VF48_LinkMonA : Z := 0x0100.
Definition VF48_LinkMonB : Z := 0x0110.
Definition VF48_DATA_FIFO_R : Z := 0x1000.

Definition VF48_CSR_START_ACQ : Z := 0x00000001.
Definition VF48_CSR_PARM_DATA_RDY : Z := 0x00000004.
Definition VF48_CSR_EXT_TRIGGER : Z := 0x00000080.

Definition VF48_HIT_THRESHOLD : Z := 2.
Definition VF48_PRE_TRIGGER : Z := 4.
Definition VF48_SEGMENT_SIZE : Z := 5.
Definition VF48_ACTIVE_CH_MASK : Z := 9.
Definition VF48_MBIT1 : Z := 10.
Definition VF48_MBIT2 : Z := 11.
Definition VF48_LATENCY : Z := 12.
Definition VF48_FIRMWARE_ID : Z := 13.
Definition VF48_TRIG_THRESHOLD : Z := 15.
Definition VF48_FIRMWARE_ID_LOW : Z := 16.

Definition TIGC_TRIGREG_SUMENABLE : Z := 0x0100.
Definition TIGC_TRIGREG_THRESHOLD : Z := 0x0108.
Definition TIGC_TRIGREG_DISABLEM : Z := 0x0110.
Definition TIGC_TRIGREG_SUMGAINS : Z := 0x0118.
Definition TIGC_GENRESET : Z := 0x0080.

Section vf48.
Context {V : Type} `{Mvme V}.

(** ** Registers *)

Definition select_module : VM V unit := _ ← set_am MVME_AM_A24; set_dmode MVME_DMODE_D32.

Definition vf48_RegisterRead (base reg : Z) : VM V Z := _ ← select_module; read_int base reg.
Definition vf48_RegisterWrite (base reg value : Z) : VM V Z := _ ← select_module; write_value base reg value.
Definition vf48_NFrameRead (base : Z) : VM V Z := vf48_RegisterRead base VF48_NFRAME_R.
Definition vf48_CsrRead (base : Z) : VM V Z := vf48_RegisterRead base VF48_CSR_REG_RW.
Definition vf48_CsrWrite (base value : Z) : VM V Z := vf48_RegisterWrite base VF48_CSR_REG_RW value.

(** [mvme_get_dmode(&cmode); mvme_set_dmode(D32); m; mvme_set_dmode(cmode)] *)
Definition in_d32 {A} (m : VM V A) : VM V A :=
  cmode ← get_dmode; _ ← set_dmode MVME_DMODE_D32; a ← m; _ ← set_dmode cmode; mret a.

Definition vf48_isPresent (base : Z) : VM V Z := in_d32 (
  csr ← read_value base VF48_CSR_REG_RW;
  fw ← read_value base VF48_FIRMWARE_R;
  mret (if (csr =? 0xFFFFFFFF) || (fw =? 0xFFFFFFFF) then VF48_ERROR else VF48_SUCCESS)).

(** ** Parameters *)

(** [wr = VF48_PARMA_BIT_RD | param | grp<<VF48_GRP_OFFSET] and the one of a
    write. *)
Definition write_id (grp param : Z) : Z := Z.lor param (Z.shiftl grp VF48_GRP_OFFSET).
Definition read_id (grp param : Z) : Z := Z.lor VF48_PARMA_BIT_RD (write_id grp param).

(** [for (to=10; to>0; to--)]: the last status that was read. *)
Fixpoint wait_ready (to : nat) (base csr : Z) : VM V Z :=
  match to with
  | O => mret csr
  | S to' =>
      csr ← read_int base VF48_CSR_REG_RW;
      if any_bit csr VF48_CSR_PARM_DATA_RDY then mret csr else wait_ready to' base csr
  end.

(** The bodies of the loops on [retry], and the loops. *)
Definition read_try (base grp param : Z) : VM V (option Z) :=
  _ ← put_value base VF48_PARAM_ID_W (read_id grp param);
  _ ← flush base VF48_CSR_REG_RW;
  _ ← put_value base VF48_PARAM_DATA_RW 0xFFFFFFFF;
  csr ← read_int base VF48_CSR_REG_RW;
  csr ← wait_ready 10 base csr;
  if negb (any_bit csr VF48_CSR_PARM_DATA_RDY) then mret None
  else
    data ← read_int base VF48_PARAM_DATA_RW;
    _ ← flush base VF48_CSR_REG_RW;
    mret (Some (Z.land data 0xFFFF)).

Fixpoint read_retry (retry : nat) (base grp param cmode : Z) : VM V Z :=
  match retry with
  | O => mret VF48_ERR_PARM
  | S retry' =>
      data ← read_try base grp param;
      match data with
      | None => read_retry retry' base grp param cmode
      | Some x => _ ← set_dmode cmode; mret x
      end
  end.

Definition vf48_ParameterRead (base grp param : Z) : VM V Z :=
  present ← vf48_isPresent base;
  if negb (present =? VF48_SUCCESS) then mret VF48_ERR_PARM
  else if (grp <? 0) || (6 <=? grp) then mret VF48_ERR_PARM
  else
    _ ← set_am MVME_AM_A24;
    cmode ← get_dmode;
    _ ← set_dmode MVME_DMODE_D32;
    read_retry 20 base grp param cmode.

(** The limits of some parameters. *)
Definition truncated (param value : Z) : Z :=
  if param =? VF48_SEGMENT_SIZE then if 1023 <? value then 1023 else value
  else if param =? VF48_PRE_TRIGGER then if 127 <? value then 100 else value
  else if param =? VF48_LATENCY then if 127 <? value then 127 else value
  else value.

Fixpoint write_retry (retry : nat) (base grp param value cmode : Z) : VM V Z :=
  match retry with
  | O => mret VF48_ERR_PARM
  | S retry' =>
      _ ← put_value base VF48_PARAM_ID_W (write_id grp param);
      _ ← flush base VF48_CSR_REG_RW;
      _ ← put_value base VF48_PARAM_DATA_RW value;
      _ ← flush base VF48_CSR_REG_RW;
      rd ← vf48_ParameterRead base grp param;
      if rd =? VF48_ERR_PARM then mret VF48_ERR_PARM
      else if rd =? value then _ ← set_dmode cmode; mret VF48_SUCCESS
      else write_retry retry' base grp param value cmode
  end.

Definition vf48_ParameterWrite (base grp param value : Z) : VM V Z :=
  if (grp <? 0) || (6 <=? grp) then mret VF48_ERR_PARM
  else
    let value := Z.land (truncated param value) 0xFFFF in
    cmode ← get_dmode;
    _ ← set_dmode MVME_DMODE_D32;
    write_retry 20 base grp param value cmode.

(** *** Parameters by name *)

Definition set_parameter (base grp param value : Z) : VM V Z :=
  in_d32 (_ ← vf48_ParameterWrite base grp param (int32 value); mret grp).
Definition get_parameter (base grp param : Z) : VM V Z := in_d32 (vf48_ParameterRead base grp param).

Definition vf48_SegmentSizeSet (base size : Z) : VM V Z :=
  _ ← lift_res (check (0 <? size) AssertFail);
  _ ← lift_res (check (size <=? 1000) AssertFail);
  in_d32 (_ ← for_loop 6 0 (fun i => _ ← vf48_ParameterWrite base i VF48_SEGMENT_SIZE (int32 size); mret tt); mret 1).
Definition vf48_SegmentSizeRead (base grp : Z) : VM V Z := get_parameter base grp VF48_SEGMENT_SIZE.
Definition vf48_TrgThresholdSet (base grp size : Z) : VM V Z := set_parameter base grp VF48_TRIG_THRESHOLD size.
Definition vf48_TrgThresholdRead (base grp : Z) : VM V Z := get_parameter base grp VF48_TRIG_THRESHOLD.
Definition vf48_HitThresholdSet (base grp size : Z) : VM V Z := set_parameter base grp VF48_HIT_THRESHOLD size.
Definition vf48_HitThresholdRead (base grp : Z) : VM V Z := get_parameter base grp VF48_HIT_THRESHOLD.
Definition vf48_ActiveChMaskSet (base grp size : Z) : VM V Z := set_parameter base grp VF48_ACTIVE_CH_MASK size.
Definition vf48_ActiveChMaskRead (base grp : Z) : VM V Z := get_parameter base grp VF48_ACTIVE_CH_MASK.
Definition vf48_RawDataSuppSet (base grp size : Z) : VM V Z := set_parameter base grp VF48_MBIT1 size.
Definition vf48_RawDataSuppRead (base grp : Z) : VM V Z := get_parameter base grp VF48_MBIT1.

Definition vf48_ChSuppSet (base grp value : Z) : VM V Z := in_d32 (
  mbit2 ← vf48_ParameterRead base grp VF48_MBIT2;
  let mbit2 := Z.lor (Z.land mbit2 (Z.lnot 1)) (Z.land value 1) in
  _ ← vf48_ParameterWrite base grp VF48_MBIT2 mbit2;
  mret grp).
Definition vf48_ChSuppRead (base grp : Z) : VM V Z :=
  in_d32 (val ← vf48_ParameterRead base grp VF48_MBIT2; mret (Z.land 1 val)).

Definition vf48_DivisorRead (base grp : Z) : VM V Z :=
  in_d32 (val ← vf48_ParameterRead base grp VF48_MBIT2; mret (Z.land (Z.shiftr val 8) 0xff)).

Definition vf48_GrpEnable (base grpbit : Z) : VM V Z :=
  in_d32 (_ ← put_value base VF48_GRP_REG_RW (Z.land grpbit 0x3F); mret VF48_SUCCESS).
Definition vf48_GrpRead (base : Z) : VM V Z := in_d32 (read_int base VF48_GRP_REG_RW).

(** [abort()] when a group does not read back what was written. *)
Definition vf48_DivisorWrite (base value : Z) : VM V Z :=
  _ ← lift_res (check (0 <? value) AssertFail);
  _ ← lift_res (check (value <? 256) AssertFail);
  _ ← select_module;
  grp ← vf48_GrpRead base;
  let each (body : Z -> VM V unit) : VM V unit :=
    for_loop 6 0 (fun i => if any_bit grp (Z.shiftl 1 i) then body i else mret tt) in
  _ ← each (fun i =>
        mbit2 ← vf48_ParameterRead base i VF48_MBIT2;
        let mbit2 := int32 (Z.lor (Z.land mbit2 (Z.lnot 0xFF00)) (Z.shiftl value 8)) in
        _ ← vf48_ParameterWrite base i VF48_MBIT2 mbit2; mret tt);
  _ ← each (fun i =>
        rd ← vf48_DivisorRead base i;
        lift_res (check (rd =? value) AssertFail));
  mret (int32 value).

(** ** Control *)

Definition vf48_ReconfigureFPGA (base : Z) : VM V Z :=
  _ ← vf48_RegisterWrite base VF48_SOFTWARE_RESET_W 0;
  _ ← vf48_RegisterRead base VF48_CSR_REG_RW;
  mret VF48_SUCCESS.

Definition vf48_ResetCollector (base : Z) : VM V Z :=
  _ ← select_module;
  _ ← put_value base VF48_SOFTWARE_RESET_W 0;
  _ ← flush base VF48_CSR_REG_RW;
  mret VF48_SUCCESS.

Definition vf48_ResetFrontends (base groupMask : Z) : VM V Z :=
  _ ← select_module;
  _ ← put_value base VF48_LVDS_RESET_W groupMask;
  _ ← flush base VF48_CSR_REG_RW;
  mret VF48_SUCCESS.

(** Starting and stopping change one bit of the control register. *)
Definition vf48_AcqStart (base : Z) : VM V Z := in_d32 (
  _ ← set_am MVME_AM_A24;
  csr ← read_int base VF48_CSR_REG_RW;
  _ ← put_value base VF48_CSR_REG_RW (Z.lor csr VF48_CSR_START_ACQ);
  _ ← flush base VF48_CSR_REG_RW;
  mret VF48_SUCCESS).
Definition vf48_AcqStop (base : Z) : VM V Z :=
  cmode ← get_dmode;
  _ ← select_module;
  csr ← read_int base VF48_CSR_REG_RW;
  _ ← put_value base VF48_CSR_REG_RW (Z.land csr (Z.lnot VF48_CSR_START_ACQ));
  _ ← flush base VF48_CSR_REG_RW;
  _ ← set_dmode cmode;
  mret VF48_SUCCESS.
Definition vf48_ExtTrgSet (base : Z) : VM V Z := in_d32 (
  csr ← read_int base VF48_CSR_REG_RW;
  _ ← put_value base VF48_CSR_REG_RW (Z.lor csr VF48_CSR_EXT_TRIGGER);
  mret VF48_SUCCESS).
Definition vf48_ExtTrgClr (base : Z) : VM V Z := in_d32 (
  csr ← read_int base VF48_CSR_REG_RW;
  _ ← put_value base VF48_CSR_REG_RW (Z.land csr (Z.lnot VF48_CSR_EXT_TRIGGER));
  mret VF48_SUCCESS).

Definition vf48_Trigger (base : Z) : VM V Z :=
  _ ← vf48_RegisterWrite base VF48_SOFT_TRIG_W 0;
  _ ← vf48_CsrRead base;
  mret VF48_SUCCESS.

Definition vf48_Setup (base mode : Z) : VM V Z :=
  cmode ← get_dmode;
  _ ← set_dmode MVME_DMODE_D32;
  let done (rv : Z) : VM V Z := _ ← set_dmode cmode; mret rv in
  if mode =? 1 then done 0
  else if mode =? 2 then _ ← vf48_ExtTrgSet base; done 0
  else if mode =? 3 then
    _ ← vf48_ExtTrgSet base;
    _ ← for_loop 6 0 (fun i => _ ← vf48_ParameterWrite base i VF48_SEGMENT_SIZE 16; mret tt);
    _ ← for_loop 6 0 (fun i => _ ← vf48_ParameterRead base i VF48_SEGMENT_SIZE; mret tt);
    done 0
  else done (-1).

(** *** Reset *)

(** Waiting for the links: at most 10000 looks. *)
Fixpoint wait_links (n : nat) (base : Z) : VM V unit :=
  match n with
  | O => mret tt
  | S n' =>
      lvdsa ← vf48_RegisterRead base VF48_LinkMonA;
      lvdsb ← vf48_RegisterRead base VF48_LinkMonB;
      if (lvdsa =? 0x04040404) && (lvdsb =? 0x00000404) then mret tt else wait_links n' base
  end.

Definition reset_frontends (base fwrev : Z) : VM V unit :=
  if fwrev =? 0x4d77d1fb then _ ← vf48_RegisterWrite base VF48_GRP_REG_RW 0x3F; mret tt
  else if Z.land fwrev 0xFF000000 =? 0x07000000 then
    _ ← vf48_RegisterRead base VF48_GRP_REG_RW;
    _ ← vf48_RegisterWrite base VF48_GRP_REG_RW 0;
    _ ← vf48_RegisterRead base VF48_CSR_REG_RW;
    _ ← vf48_RegisterRead base VF48_LinkMonA;
    _ ← vf48_RegisterRead base VF48_LinkMonB;
    _ ← vf48_RegisterWrite base VF48_GRP_REG_RW 0x3F;
    _ ← vf48_RegisterRead base VF48_CSR_REG_RW;
    wait_links (Z.to_nat 10000) base
  else mret tt.

(** The firmware of the six front ends; false when one of them is not there. *)
Fixpoint firmware_good (n : nat) (i base : Z) : VM V bool :=
  match n with
  | O => mret true
  | S n' =>
      vh ← vf48_ParameterRead base i VF48_FIRMWARE_ID;
      vl ← vf48_ParameterRead base i VF48_FIRMWARE_ID_LOW;
      good ← firmware_good n' (i + 1) base;
      mret (negb (Z.land vh 0xFFFF =? 0xFFFF) && negb (Z.land vl 0xFFFF =? 0xFFFF) && good)
  end.

(** One try: the answer of the function, or whether all is good. *)
Definition reset_try (base fwrev : Z) : VM V (Z + bool) :=
  _ ← flush base VF48_CSR_REG_RW;
  _ ← put_value base VF48_GLOBAL_RESET_W 0;
  _ ← flush base VF48_CSR_REG_RW;
  _ ← put_value base VF48_TEST_REG_RW 0;
  _ ← flush base VF48_TEST_REG_RW;
  _ ← put_value base VF48_TEST_REG_RW 0xFFFFFFFF;
  _ ← flush base VF48_TEST_REG_RW;
  present ← vf48_isPresent base;
  if negb (present =? VF48_SUCCESS) then mret (inl VF48_ERR_HW)
  else
    csr ← read_int base VF48_CSR_REG_RW;
    _ ← (if any_bit csr VF48_CSR_START_ACQ then _ ← vf48_AcqStop base; mret tt else mret tt);
    _ ← reset_frontends base fwrev;
    _ ← for_loop 6 0 (fun i => _ ← vf48_ParameterWrite base i VF48_TRIG_THRESHOLD 1000; mret tt);
    _ ← vf48_RegisterRead base VF48_FIRMWARE_R;
    good ← firmware_good 6 0 base;
    mret (inr good).

Fixpoint reset_loop (n : nat) (base fwrev : Z) : VM V Z :=
  match n with
  | O => mret VF48_SUCCESS
  | S n' =>
      r ← reset_try base fwrev;
      match r with
      | inl err => mret err
      | inr true => mret VF48_SUCCESS
      | inr false => reset_loop n' base fwrev
      end
  end.

Definition vf48_Reset (base : Z) : VM V Z :=
  _ ← select_module;
  fwrev ← vf48_RegisterRead base VF48_FIRMWARE_R;
  let fwrev := dword fwrev in
  if fwrev =? 0xFFFFFFFF then mret VF48_ERR_HW else reset_loop 100 base fwrev.

(** *** The trigger module (TIGC) *)

Definition tigc_write (base reg value : Z) : VM V Z := in_d32 (_ ← put_value base reg value; mret VF48_SUCCESS).
Definition vf48_SetTigcSumEnable (base value : Z) : VM V Z := tigc_write base TIGC_TRIGREG_SUMENABLE value.
Definition vf48_SetTigcTrigThreshold (base value : Z) : VM V Z := tigc_write base TIGC_TRIGREG_THRESHOLD value.
Definition vf48_SetTigcDisableMask (base value : Z) : VM V Z := tigc_write base TIGC_TRIGREG_DISABLEM value.
Definition vf48_SetTigcSumGains (base value : Z) : VM V Z := tigc_write base TIGC_TRIGREG_SUMGAINS value.
Definition vf48_TigcGenReset (base : Z) : VM V Z := tigc_write base TIGC_GENRESET 0.

(** *** Status *)

(** What [vf48_Status] prints: registers, then the parameters of each front end
    unless the module runs. *)
Definition status_registers (fwrev : Z) : list Z :=
  [0x0; 0x20; 0x30; 0x90; 0xA0; 0xC0; 0xD0] ++
  (if Z.land fwrev 0xFF000000 =? 0x07000000
   then [0x110; 0x100; 0x120; 0x130; 0x140; 0x1B0; 0x1C0; 0x1D0; 0x1E0; 0x1F0; 0x200] else []).

Fixpoint read_each (base : Z) (regs : list Z) : VM V (list Z) :=
  match regs with
  | [] => mret []
  | r :: regs' => x ← read_value base r; l ← read_each base regs'; mret (x :: l)
  end.
Fixpoint read_params (base : Z) (l : list (Z * Z)) : VM V (list Z) :=
  match l with
  | [] => mret []
  | (grp, par) :: l' => x ← vf48_ParameterRead base grp par; r ← read_params base l'; mret (x :: r)
  end.
Definition status_params : list (Z * Z) := flat_map (fun i => map (fun j => (j, i)) (seqZ 0 6)) (seqZ 1 19).

Definition vf48_Status (base : Z) : VM V (Z * list Z * list Z) :=
  cmode ← get_dmode;
  _ ← set_dmode MVME_DMODE_D32;
  fwrev ← vf48_RegisterRead base VF48_FIRMWARE_R;
  let fwrev := dword fwrev in
  if fwrev =? 0xFFFFFFFF then mret (VF48_ERR_HW, [], [])
  else
    regs ← read_each base (status_registers fwrev);
    csr ← read_value base 0x0;
    pars ← (if any_bit csr 1 then mret [] else read_params base status_params);
    _ ← set_dmode cmode;
    mret (VF48_SUCCESS, regs, pars).
End vf48.
