(* ===== verification/Vf48Param.v ===== *)
(** * Parameters of a VF48: properties of [Vf48.v]

    On a module that follows its protocol a parameter that is written is read
    back, and nothing else changes; the functions that keep two settings in
    one parameter keep each other's bits; and what they do when the module
    does not answer. *)

From S2P Require Import Prelude VmeBus Vf48.

(** ** A module that works *)

(** The parameters of a front end are numbered from 1 to 17; its firmware id, in
    two of them, is only read. *)
Definition readable (p : Z) : Prop := 1 <= p <= 17.
Definition writable (p : Z) : Prop := 1 <= p <= 17 /\ p <> 13 /\ p <> 16.

(** What is relied on of a module at [base], addressed with A24 and D32: the id
    register takes the parameter that is meant, its number in the low bits, the
    group above [group_bit] and bit 7 for a read; the data register then stores
    the value, or starts a read, after which the ready bit comes within ten
    looks and the data register has the value.  The notes of [vf48.h] have the
    group in bits 11 to 8, its constant [VF48_GRP_OFFSET] in bits 15 to 12, so
    that [group_bit] is left open here. *)
Class Frontends (V : Type) `{Mvme V} (base : Z) := {
  group_bit : Z;
  bus_am : V -> Z;
  fe_id : V -> Z;
  fe_par : V -> Z -> Z -> Z;
  fe_lag : V -> nat;
  same_fe (v v' : V) : Prop := bus_am v' = bus_am v /\ fe_id v' = fe_id v /\ (forall g p, fe_par v' g p = fe_par v g p);
  listening (v : V) : Prop := bus_am v = MVME_AM_A24 /\ mvme_get_dmode v = MVME_DMODE_D32;
  par_range v g p : 0 <= fe_par v g p < 2 ^ 16;
  fe_set_dmode m v : same_fe v (mvme_set_dmode m v);
  fe_set_am m v : fe_id (mvme_set_am m v) = fe_id v /\ (forall g p, fe_par (mvme_set_am m v) g p = fe_par v g p) /\
    bus_am (mvme_set_am m v) = m;
  id_write v x : listening v -> 0 <= x < 2 ^ 32 -> let v' := snd (mvme_write_value (vme_addr base VF48_PARAM_ID_W) (dword x) v) in
    bus_am v' = bus_am v /\ fe_id v' = x /\ forall g p, fe_par v' g p = fe_par v g p;
  data_write v g p x : listening v -> 0 <= g < 6 -> writable p -> fe_id v = g * 2 ^ group_bit + p -> 0 <= x < 2 ^ 16 ->
    let v' := snd (mvme_write_value (vme_addr base VF48_PARAM_DATA_RW) (dword x) v) in
    bus_am v' = bus_am v /\ forall g' p', fe_par v' g' p' = if (g' =? g) && (p' =? p) then x else fe_par v g' p';
  data_start v g p x : listening v -> 0 <= g < 6 -> readable p -> fe_id v = g * 2 ^ group_bit + 128 + p ->
    let v' := snd (mvme_write_value (vme_addr base VF48_PARAM_DATA_RW) (dword x) v) in same_fe v v' /\ (fe_lag v' <= 10)%nat;
  csr_read v : listening v -> let '(x, v') := mvme_read_value (vme_addr base VF48_CSR_REG_RW) v in
    same_fe v v' /\ fe_lag v' = Nat.pred (fe_lag v) /\ x <> 0xFFFFFFFF /\
    (fe_lag v = 0%nat -> Z.testbit x 2 = true);
  firmware_read v : listening v -> let '(x, v') := mvme_read_value (vme_addr base VF48_FIRMWARE_R) v in
    same_fe v v' /\ x <> 0xFFFFFFFF;
  data_read v g p : listening v -> 0 <= g < 6 -> readable p -> fe_id v = g * 2 ^ group_bit + 128 + p ->
    let '(x, v') := mvme_read_value (vme_addr base VF48_PARAM_DATA_RW) v in
    same_fe v v' /\ x mod 2 ^ 16 = fe_par v g p
}.
Arguments group_bit {V _} base {_}.

Lemma writable_readable p : writable p -> readable p.
Proof. unfold writable, readable. lia. Qed.

(** The ids of the driver as numbers. *)
Lemma ids g p : 0 <= g < 6 -> readable p -> write_id g p = g * 2 ^ 12 + p /\ read_id g p = g * 2 ^ 12 + 128 + p.
Proof.
  unfold readable. intros Hg Hp.
  assert (E : forallb (fun g => forallb (fun p => (write_id g p =? g * 2 ^ 12 + p) && (read_id g p =? g * 2 ^ 12 + 128 + p)) (seqZ 1 17)) (seqZ 0 6) = true)
    by (vm_compute; reflexivity).
  rewrite forallb_forall in E. specialize (E g). rewrite <- list_elem_of_In, elem_of_seqZ in E. specialize (E ltac:(lia)).
  rewrite forallb_forall in E. specialize (E p). rewrite <- list_elem_of_In, elem_of_seqZ in E. specialize (E ltac:(lia)).
  apply andb_true_iff in E as [E1 E2]. by apply Z.eqb_eq in E1, E2.
Qed.

(** The interface hides its base address where the section has one. *)
Section param.
Context {V : Type} `{MvmeLaws V} (base : Z) `{!Frontends V base} (group_offset : group_bit base = 12).
Implicit Types v : V.

(** A computation that returns [a] in a state with [Q]. *)
Definition does {A} (m : VM V A) v (a : A) (Q : V -> Prop) : Prop := exists v', m v = Ok (a, v') /\ Q v'.

Lemma does_bind {A B} (m : VM V A) (k : A -> VM V B) v a b (Q : V -> Prop) :
  does m v a (fun v' => does (k a) v' b Q) -> does (m ≫= k) v b Q.
Proof. intros (v1 & E1 & v2 & E2 & HQ). exists v2. split; [|exact HQ]. by rewrite (ST_bind_Ok _ _ _ _ _ E1). Qed.

Lemma does_ret {A} (a : A) v (Q : V -> Prop) : Q v -> does (mret a) v a Q.
Proof. intros HQ. by exists v. Qed.

Lemma does_mono {A} (m : VM V A) v a (P Q : V -> Prop) : does m v a P -> (forall v', P v' -> Q v') -> does m v a Q.
Proof. intros (v' & E & HP) HPQ. exists v'. split; [exact E | by apply HPQ]. Qed.

(** The state of the module as the theorems see it: addressed, with the
    parameters [f]. *)
Definition module_is (f : Z -> Z -> Z) (mode : Z) v : Prop :=
  bus_am v = MVME_AM_A24 /\ mvme_get_dmode v = mode /\ forall g p, fe_par v g p = f g p.

Lemma same_fe_trans v1 v2 v3 : same_fe v1 v2 -> same_fe v2 v3 -> same_fe v1 v3.
Proof. intros (A1 & I1 & P1) (A2 & I2 & P2). split_and!; [congruence..|]. intros g p. by rewrite P2. Qed.

(** One access after the other, addressed. *)
Definition idle (f : Z -> Z -> Z) (x : Z) v : Prop := listening v /\ fe_id v = x /\ forall g p, fe_par v g p = f g p.

Lemma idle_same f x v v' : idle f x v -> same_fe v v' -> mvme_get_dmode v' = mvme_get_dmode v -> idle f x v'.
Proof.
  intros ([Ha Hd] & Hx & Hf) (Sa & Si & Sp) Hm. split_and!; [split; congruence | congruence|]. intros g p. by rewrite Sp.
Qed.

Lemma does_flush f x v : idle f x v -> does (flush base VF48_CSR_REG_RW) v tt (fun v' => idle f x v' /\ fe_lag v' = Nat.pred (fe_lag v)).
Proof.
  intros Hi. pose proof Hi as [Hl _]. unfold flush. pose proof (csr_read v Hl) as Hr. pose proof (dmode_read_value (vme_addr base VF48_CSR_REG_RW) v) as Hd.
  destruct (mvme_read_value _ v) as [y v'] eqn:E. destruct Hr as (Hs & Hlag & _). exists v'. split.
  - rewrite (ST_bind_Ok _ _ _ y v'); [done|]. unfold read_value. by rewrite E.
  - split; [by eapply idle_same | exact Hlag].
Qed.

Lemma does_put_id f x y v : idle f x v -> 0 <= y < 2 ^ 32 -> does (put_value base VF48_PARAM_ID_W y) v tt (idle f y).
Proof.
  intros ([Ha Hm] & Hx & Hf) Hy. pose proof (id_write v y (conj Ha Hm) Hy) as (Wa & Wi & Wp).
  pose proof (dmode_write_value (vme_addr base VF48_PARAM_ID_W) (dword y) v) as Hd.
  destruct (mvme_write_value _ _ v) as [z v'] eqn:E. exists v'. split.
  - unfold put_value. rewrite (ST_bind_Ok _ _ _ z v'); [done|]. unfold write_value. by rewrite E.
  - cbn in *. split_and!; [split; congruence | done |]. intros g p. by rewrite Wp.
Qed.

Lemma does_put_data f v g p y : idle f (write_id g p) v -> 0 <= g < 6 -> writable p -> 0 <= y < 2 ^ 16 ->
  does (put_value base VF48_PARAM_DATA_RW y) v tt (fun v' => listening v' /\
    forall g' p', fe_par v' g' p' = if (g' =? g) && (p' =? p) then y else f g' p').
Proof.
  intros ([Ha Hm] & Hx & Hf) Hg Hp Hy. rewrite (proj1 (ids g p Hg (writable_readable p Hp))), <- group_offset in Hx.
  pose proof (data_write v g p y (conj Ha Hm) Hg Hp Hx Hy) as (Wa & Wp).
  pose proof (dmode_write_value (vme_addr base VF48_PARAM_DATA_RW) (dword y) v) as Hd.
  destruct (mvme_write_value _ _ v) as [z v'] eqn:E. exists v'. split.
  - unfold put_value. rewrite (ST_bind_Ok _ _ _ z v'); [done|]. unfold write_value. by rewrite E.
  - cbn in *. split; [split; congruence|]. intros g' p'. rewrite Wp. by rewrite Hf.
Qed.

Lemma does_start f v g p y : idle f (read_id g p) v -> 0 <= g < 6 -> readable p ->
  does (put_value base VF48_PARAM_DATA_RW y) v tt (fun v' => idle f (read_id g p) v' /\ (fe_lag v' <= 10)%nat).
Proof.
  intros Hi Hg Hp. pose proof Hi as (Hl & Hx & _). rewrite (proj2 (ids g p Hg Hp)), <- group_offset in Hx.
  pose proof (data_start v g p y Hl Hg Hp Hx) as (Hs & Hlag).
  pose proof (dmode_write_value (vme_addr base VF48_PARAM_DATA_RW) (dword y) v) as Hd.
  destruct (mvme_write_value _ _ v) as [z v'] eqn:E. exists v'. split.
  - unfold put_value. rewrite (ST_bind_Ok _ _ _ z v'); [done|]. unfold write_value. by rewrite E.
  - split; [by eapply idle_same | exact Hlag].
Qed.

(** A read of the status: whether the module is ready. *)
Lemma does_csr f x v : idle f x v -> exists csr, does (read_int base VF48_CSR_REG_RW) v csr
    (fun v' => idle f x v' /\ fe_lag v' = Nat.pred (fe_lag v)) /\
  (fe_lag v = 0%nat -> any_bit csr VF48_CSR_PARM_DATA_RDY = true).
Proof.
  intros Hi. pose proof Hi as [Hl _]. pose proof (csr_read v Hl) as Hr. pose proof (dmode_read_value (vme_addr base VF48_CSR_REG_RW) v) as Hd.
  destruct (mvme_read_value _ v) as [y v'] eqn:E. destruct Hr as (Hs & Hlag & _ & Hrdy). exists (int32 y). split.
  - exists v'. split; [|split; [by eapply idle_same | exact Hlag]]. unfold read_int.
    rewrite (ST_bind_Ok _ _ _ y v'); [done|]. unfold read_value. by rewrite E.
  - intros Hlag0. change VF48_CSR_PARM_DATA_RDY with (2 ^ 2). rewrite any_bit_int32, any_bit_pow2 by lia. by apply Hrdy.
Qed.

Lemma does_wait f x n csr v : idle f x v -> (fe_lag v < n)%nat -> exists csr', does (wait_ready n base csr) v csr' (idle f x) /\
  any_bit csr' VF48_CSR_PARM_DATA_RDY = true.
Proof.
  revert csr v. induction n as [|n IH]; intros csr v Hi Hlag; [lia|]. cbn [wait_ready].
  destruct (does_csr f x v Hi) as (c & Hc & Hrdy). destruct (any_bit c VF48_CSR_PARM_DATA_RDY) eqn:Hb.
  - exists c. split; [|exact Hb]. apply does_bind with (a := c). eapply does_mono; [exact Hc|]. intros v' [Hi' _]. rewrite Hb. by apply does_ret.
  - destruct Hc as (v' & E & Hi' & Hlag'). assert (fe_lag v <> 0%nat) by (intros Hz; specialize (Hrdy Hz); congruence).
    destruct (IH c v' Hi' ltac:(lia)) as (c' & Hw & Hb'). exists c'. split; [|exact Hb'].
    apply does_bind with (a := c). exists v'. split; [exact E|]. by rewrite Hb.
Qed.

(** One try to read a parameter succeeds. *)
Lemma does_read_try f x g p v : idle f x v -> 0 <= g < 6 -> readable p ->
  does (read_try base g p) v (Some (f g p)) (idle f (read_id g p)).
Proof.
  intros Hi Hg Hp. unfold read_try. eapply does_bind, does_mono; [apply does_put_id with (f := f) (x := x); [done | destruct (ids g p Hg Hp) as [_ ->]; unfold readable in Hp; lia]|]. cbn beta. intros v1 Hi1.
  eapply does_bind, does_mono; [by apply does_flush|]. cbn beta. intros v2 [Hi2 _].
  eapply does_bind, does_mono; [by apply does_start with (f := f)|]. cbn beta. intros v3 [Hi3 Hlag3].
  destruct (does_csr f _ v3 Hi3) as (c & Hc & _). eapply does_bind, does_mono; [exact Hc|]. cbn beta. intros v4 [Hi4 Hlag4].
  destruct (does_wait f _ 10 c v4 Hi4 ltac:(lia)) as (c' & Hw & Hb). eapply does_bind, does_mono; [exact Hw|]. cbn beta.
  intros v5 Hi5. rewrite Hb. cbn [negb]. pose proof Hi5 as (Hl5 & Hx5 & Hf5).
  rewrite (proj2 (ids g p Hg Hp)), <- group_offset in Hx5. pose proof (data_read v5 g p Hl5 Hg Hp Hx5) as Hr. pose proof (dmode_read_value (vme_addr base VF48_PARAM_DATA_RW) v5) as Hd.
  destruct (mvme_read_value _ v5) as [y v6] eqn:E. destruct Hr as (Hs & Hy).
  apply does_bind with (a := int32 y). exists v6. split.
  { unfold read_int. rewrite (ST_bind_Ok _ _ _ y v6); [done|]. unfold read_value. by rewrite E. }
  assert (Hi6 : idle f (read_id g p) v6) by (by eapply idle_same).
  eapply does_bind, does_mono; [by apply does_flush|]. cbn beta. intros v7 [Hi7 _].
  assert (Hland : Z.land (int32 y) 0xFFFF = f g p).
  { change 0xFFFF with (Z.ones 16). rewrite Z.land_ones by lia. rewrite <- Hf5, <- Hy. unfold int32.
    rewrite Zminus_mod. change ((2 ^ 31) mod 2 ^ 16) with 0. rewrite Z.sub_0_r, Z.mod_mod by lia.
    rewrite Z.mod_mod_divide by (by exists 65536).
    rewrite Zplus_mod. change ((2 ^ 31) mod 2 ^ 16) with 0. by rewrite Z.add_0_r, Z.mod_mod by lia. }
  rewrite Hland. by apply does_ret.
Qed.

(** Between the functions: the mode is the caller's. *)
Lemma module_idle f mode v : module_is f mode v -> idle f (fe_id v) (mvme_set_dmode MVME_DMODE_D32 v).
Proof.
  intros (Ha & Hm & Hf). destruct (fe_set_dmode MVME_DMODE_D32 v) as (Sa & Si & Sp).
  split_and!; [split; [congruence | apply dmode_set] | done |]. intros g p. by rewrite Sp.
Qed.
Lemma idle_module f x mode v : idle f x v -> module_is f mode (mvme_set_dmode mode v).
Proof.
  intros ([Ha Hm] & Hx & Hf). destruct (fe_set_dmode mode v) as (Sa & Si & Sp).
  split_and!; [congruence | apply dmode_set |]. intros g p. by rewrite Sp.
Qed.

Lemma does_bracket {A} (m : VM V A) v a (Q : V -> Prop) :
  does m (mvme_set_dmode MVME_DMODE_D32 v) a (fun v' => Q (mvme_set_dmode (mvme_get_dmode v) v')) -> does (in_d32 m) v a Q.
Proof.
  intros (v' & E & HQ). exists (mvme_set_dmode (mvme_get_dmode v) v'). split; [|exact HQ]. unfold in_d32.
  rewrite (ST_bind_Ok _ _ _ (mvme_get_dmode v) v) by done. rewrite (ST_bind_Ok _ _ _ tt (mvme_set_dmode MVME_DMODE_D32 v)) by done.
  by rewrite (ST_bind_Ok _ _ _ _ _ E).
Qed.

Lemma does_present f mode v : module_is f mode v -> does (vf48_isPresent base) v VF48_SUCCESS (module_is f mode).
Proof.
  intros Hv. apply does_bracket. pose proof (module_idle _ _ _ Hv) as Hi. set (v0 := mvme_set_dmode _ v) in *. pose proof Hi as [Hl _].
  pose proof (csr_read v0 Hl) as Hr. pose proof (dmode_read_value (vme_addr base VF48_CSR_REG_RW) v0) as Hd.
  destruct (mvme_read_value _ v0) as [x v1] eqn:E1. destruct Hr as (Hs1 & _ & Hx & _). assert (Hi1 : idle f (fe_id v) v1) by (by eapply idle_same).
  pose proof Hi1 as [Hl1 _]. pose proof (firmware_read v1 Hl1) as Hr. pose proof (dmode_read_value (vme_addr base VF48_FIRMWARE_R) v1) as Hd1.
  destruct (mvme_read_value _ v1) as [y v2] eqn:E2. destruct Hr as (Hs2 & Hy). assert (Hi2 : idle f (fe_id v) v2) by (by eapply idle_same).
  apply does_bind with (a := x). exists v1. split; [by unfold read_value; rewrite E1|].
  apply does_bind with (a := y). exists v2. split; [by unfold read_value; rewrite E2|].
  rewrite (proj2 (Z.eqb_neq _ _) Hx), (proj2 (Z.eqb_neq _ _) Hy). apply does_ret. cbn beta.
  destruct Hv as (_ & <- & _). by eapply idle_module.
Qed.

Lemma group_ok g : 0 <= g < 6 -> (g <? 0) || (6 <=? g) = false.
Proof. intros Hg. apply orb_false_iff. split; [apply Z.ltb_ge | apply Z.leb_gt]; lia. Qed.

Lemma does_ParameterRead f mode g p v : module_is f mode v -> 0 <= g < 6 -> readable p ->
  does (vf48_ParameterRead base g p) v (f g p) (module_is f mode).
Proof.
  intros Hv Hg Hp. unfold vf48_ParameterRead. eapply does_bind, does_mono; [by apply does_present|]. cbn beta. intros v1 Hv1.
  change (negb (VF48_SUCCESS =? VF48_SUCCESS)) with false. cbv iota. rewrite group_ok by done. cbv iota.
  assert (Hv2 : module_is f mode (mvme_set_am MVME_AM_A24 v1)).
  { destruct Hv1 as (Ha & Hm & Hf). destruct (fe_set_am MVME_AM_A24 v1) as (Si & Sp & Sa).
    split_and!; [done | by rewrite dmode_am |]. intros g' p'. by rewrite Sp. }
  set (v2 := mvme_set_am _ v1) in *. apply does_bind with (a := tt). exists v2. split; [done|].
  apply does_bind with (a := mode). exists v2. split; [unfold get_dmode; by destruct Hv2 as (_ & -> & _)|].
  apply does_bind with (a := tt). exists (mvme_set_dmode MVME_DMODE_D32 v2). split; [done|].
  cbn [read_retry]. eapply does_bind, does_mono; [eapply does_read_try; [by eapply module_idle | done..]|]. cbn beta. intros v3 Hi3.
  apply does_bind with (a := tt). exists (mvme_set_dmode mode v3). split; [done|]. apply does_ret. by eapply idle_module.
Qed.

(** The value that ends up in the module: the segment size (parameter 5) and the
    latency (12) are cut at 1023 and at 127, a pre-trigger (4) above 127 becomes
    100, and the low 16 bits are kept. *)
Definition limited (param value : Z) : Z :=
  match param with
  | 5 => Z.min value 1023
  | 12 => Z.min value 127
  | 4 => if decide (value <= 127) then value else 100
  | _ => value
  end.
Definition stored (param value : Z) : Z := limited param value mod 65536.
Definition updated (f : Z -> Z -> Z) (g p y : Z) (g' p' : Z) : Z := if (g' =? g) && (p' =? p) then y else f g' p'.

Lemma stored_range p y : 0 <= stored p y < 2 ^ 16.
Proof. unfold stored. apply Z.mod_pos_bound. lia. Qed.

Lemma stored_is p y : Z.land (truncated p y) 0xFFFF = stored p y.
Proof.
  change 0xFFFF with (Z.ones 16). rewrite Z.land_ones by lia. change (2 ^ 16) with 65536. unfold stored. f_equal.
  unfold truncated, limited, VF48_SEGMENT_SIZE, VF48_PRE_TRIGGER, VF48_LATENCY.
  destruct (Z.eqb_spec p 5) as [->|]; [destruct (Z.ltb_spec 1023 y); lia|].
  destruct (Z.eqb_spec p 4) as [->|]; [destruct (Z.ltb_spec 127 y), (decide (y <= 127)); lia|].
  destruct (Z.eqb_spec p 12) as [->|]; [destruct (Z.ltb_spec 127 y); lia|].
  destruct p as [|p|]; try done. do 4 (destruct p as [p|p|]; try done).
Qed.

Lemma does_ParameterWrite f mode g p y v : module_is f mode v -> 0 <= g < 6 -> writable p ->
  does (vf48_ParameterWrite base g p y) v VF48_SUCCESS (module_is (updated f g p (stored p y)) mode).
Proof.
  intros Hv Hg Hp. unfold vf48_ParameterWrite. rewrite group_ok by done. cbv iota. rewrite stored_is. pose proof (stored_range p y) as Hy.
  apply does_bind with (a := mode). exists v. split; [unfold get_dmode; by destruct Hv as (_ & -> & _)|].
  apply does_bind with (a := tt). exists (mvme_set_dmode MVME_DMODE_D32 v). split; [done|].
  pose proof (module_idle _ _ _ Hv) as Hi. cbn [write_retry].
  eapply does_bind, does_mono; [eapply does_put_id; [exact Hi | destruct (ids g p Hg (writable_readable p Hp)) as [-> _]; unfold writable in Hp; lia]|]. cbn beta. intros v1 Hi1.
  eapply does_bind, does_mono; [eapply does_flush; exact Hi1|]. cbn beta. intros v2 [Hi2 _].
  eapply does_bind, does_mono; [by eapply does_put_data|]. cbn beta. intros v3 [Hl3 Hf3].
  assert (Hi3 : idle (updated f g p (stored p y)) (fe_id v3) v3) by done.
  eapply does_bind, does_mono; [eapply does_flush; exact Hi3|]. cbn beta. intros v4 [Hi4 _].
  assert (Hm4 : module_is (updated f g p (stored p y)) MVME_DMODE_D32 v4) by (destruct Hi4 as ([? ?] & ? & ?); by split_and!).
  eapply does_bind, does_mono; [by eapply does_ParameterRead, writable_readable|]. cbn beta. intros v5 Hm5.
  assert (Hval : updated f g p (stored p y) g p = stored p y) by (unfold updated; by rewrite !Z.eqb_refl). rewrite Hval.
  rewrite (proj2 (Z.eqb_neq _ VF48_ERR_PARM)) by (unfold VF48_ERR_PARM; lia). rewrite Z.eqb_refl.
  apply does_bind with (a := tt). exists (mvme_set_dmode mode v5). split; [done|]. apply does_ret.
  destruct Hm5 as (Ha & Hd & Hf). by apply (idle_module _ (fe_id v5)).
Qed.

(** The functions with a bracket of their own. *)
Lemma does_in_d32 {A} (m : VM V A) f f' mode v a : module_is f mode v ->
  (forall w, module_is f MVME_DMODE_D32 w -> does m w a (module_is f' MVME_DMODE_D32)) -> does (in_d32 m) v a (module_is f' mode).
Proof.
  intros Hv Hm. apply does_bracket. pose proof (module_idle _ _ _ Hv) as ([Ha Hd] & Hx & Hf).
  eapply does_mono; [apply Hm; by split_and!|]. cbn beta. intros w (Ha' & Hd' & Hf'). destruct Hv as (_ & -> & _).
  by apply (idle_module _ (fe_id w)).
Qed.

Lemma does_for f (h : Z -> (Z -> Z -> Z) -> Z -> Z -> Z) mode (body : Z -> VM V unit) :
  (forall i f v, module_is f mode v -> 0 <= i < 6 -> does (body i) v tt (module_is (h i f) mode)) ->
  forall n i v, module_is f mode v -> 0 <= i -> i + Z.of_nat n <= 6 ->
  does (for_loop n i body) v tt (module_is (fold_left (fun f i => h i f) (seqZ i (Z.of_nat n)) f) mode).
Proof.
  intros Hb n. revert f. induction n as [|n IH]; intros f i v Hv Hi Hn; [by apply does_ret|]. cbn [for_loop].
  rewrite (seqZ_cons i) by lia. cbn [fold_left]. eapply does_bind, does_mono; [apply Hb; [exact Hv | lia]|]. cbn beta. intros v1 Hv1.
  replace (Z.succ i) with (i + 1) by lia. replace (Z.pred (Z.of_nat (S n))) with (Z.of_nat n) by lia. apply IH; [done | lia | lia].
Qed.
End param.

(** ** The claims *)


(** All groups after the loop over them. *)
Lemma updated_all f p y : forall g q, 0 <= g < 6 ->
  fold_left (fun f i => updated f i p y) (seqZ 0 6) f g q = if q =? p then y else f g q.
Proof.
  intros g q Hg. change (seqZ 0 6) with [0; 1; 2; 3; 4; 5]. cbn [fold_left]. assert (Hcase : g = 0 \/ g = 1 \/ g = 2 \/ g = 3 \/ g = 4 \/ g = 5) by lia. unfold updated.
  destruct Hcase as [-> | [-> | [-> | [-> | [-> | ->]]]]]; cbn [Z.eqb Pos.eqb andb]; by destruct (q =? p).
Qed.

(** Setting the segment size sets it in all six groups: for a size from 1 to
    1000 the function answers 1, every group has that size afterwards, every other
    parameter is what it was, and so is the data mode. *)
Theorem segment_size_all {V} `{MvmeLaws V} base `{!Frontends V base} f mode size (v : V) :
  group_bit base = 12 -> module_is base f mode v -> 1 <= size <= 1000 ->
  exists v' f', vf48_SegmentSizeSet base size v = Ok (1, v') /\ module_is base f' mode v' /\
    forall g q, 0 <= g < 6 -> f' g q = if q =? VF48_SEGMENT_SIZE then size else f g q.
Proof.
  intros Hgb Hv Hs. unfold vf48_SegmentSizeSet. rewrite (proj2 (Z.ltb_lt 0 size)), (proj2 (Z.leb_le size 1000)) by lia.
  rewrite 2!(ST_bind_Ok _ _ _ tt v) by done. rewrite int32_id by lia.
  assert (Hst : stored VF48_SEGMENT_SIZE size = size).
  { unfold stored. change (limited VF48_SEGMENT_SIZE size) with (Z.min size 1023). rewrite Z.min_l by lia. apply Z.mod_small. lia. }
  set (f' := fold_left (fun f i => updated f i VF48_SEGMENT_SIZE size) (seqZ 0 6) f).
  destruct (does_in_d32 base (_ ← for_loop 6 0 (fun i => _ ← vf48_ParameterWrite base i VF48_SEGMENT_SIZE size; mret tt); mret 1) f f' mode v 1 Hv)
    as (v' & E & H').
  { intros w Hw. eapply does_bind, does_mono; [apply (does_for base f (fun i f => updated f i VF48_SEGMENT_SIZE size) MVME_DMODE_D32) with (n := 6%nat) (i := 0)|].
    - intros i f0 v0 H0' Hi. eapply does_bind, does_mono; [apply (does_ParameterWrite base Hgb f0 MVME_DMODE_D32); [done | done | unfold writable, VF48_SEGMENT_SIZE; lia]|].
      cbn beta. intros v1 Hv1. rewrite Hst in Hv1. by apply does_ret.
    - exact Hw.
    - lia.
    - lia.
    - cbn beta. intros v1 Hv1. by apply does_ret. }
  exists v', f'. split; [exact E|]. split; [exact H'|]. intros g q Hg. by apply updated_all.
Qed.

(** The channel suppression flag and the sampling divisor share a parameter,
    and setting the flag keeps the divisor and every other bit of it: bit 0
    becomes that of the value, bits 1 to 15 stay; so does all else. *)
Theorem suppression_keeps_divisor {V} `{MvmeLaws V} base `{!Frontends V base} f mode grp value (v : V) :
  group_bit base = 12 -> module_is base f mode v -> 0 <= grp < 6 -> 0 <= f grp VF48_MBIT2 < 2 ^ 16 ->
  exists v' y, vf48_ChSuppSet base grp value v = Ok (grp, v') /\ module_is base (updated f grp VF48_MBIT2 y) mode v' /\
    Z.testbit y 0 = Z.testbit value 0 /\ (forall n, 1 <= n -> Z.testbit y n = Z.testbit (f grp VF48_MBIT2) n) /\
    exists v2, vf48_DivisorRead base grp v' = Ok (Z.land (Z.shiftr (f grp VF48_MBIT2) 8) 0xff, v2).
Proof.
  intros Hgb Hv Hg Hr. set (old := f grp VF48_MBIT2) in *. set (new := Z.lor (Z.land old (Z.lnot 1)) (Z.land value 1)).
  assert (Hp : writable VF48_MBIT2) by (unfold writable, VF48_MBIT2; lia). pose proof (writable_readable _ Hp) as Hp'.
  assert (Hbit : forall n, 0 <= n -> Z.testbit new n = if n =? 0 then Z.testbit value 0 else Z.testbit old n).
  { intros n Hn. unfold new. rewrite Z.lor_spec, !Z.land_spec, Z.lnot_spec by lia. change 1 with (2 ^ 0).
    rewrite Z.pow2_bits_eqb by lia. rewrite (Z.eqb_sym 0 n). destruct (Z.eqb_spec n 0) as [-> |]; cbn; [by rewrite andb_true_r, andb_false_r|].
    by rewrite andb_true_r, andb_false_r, orb_false_r. }
  assert (Hold : forall n, 16 <= n -> Z.testbit old n = false).
  { intros n Hn. rewrite <- (Z.mod_small old (2 ^ 16)) by done. apply Z.mod_pow2_bits_high. lia. }
  assert (Hst : forall n, 0 <= n -> Z.testbit (stored VF48_MBIT2 new) n = Z.testbit new n).
  { intros n Hn. rewrite <- stored_is. change (truncated VF48_MBIT2 new) with new.
    rewrite Z.land_spec. change 0xFFFF with (Z.ones 16). rewrite Z.testbit_ones_nonneg by lia.
    destruct (Z.ltb_spec n 16); [apply andb_true_r|]. rewrite andb_false_r, Hbit by lia. rewrite (proj2 (Z.eqb_neq n 0)) by lia.
    symmetry. by apply Hold. }
  destruct (does_in_d32 base (mbit2 ← vf48_ParameterRead base grp VF48_MBIT2;
      let mbit2 := Z.lor (Z.land mbit2 (Z.lnot 1)) (Z.land value 1) in
      _ ← vf48_ParameterWrite base grp VF48_MBIT2 mbit2; mret grp) f (updated f grp VF48_MBIT2 (stored VF48_MBIT2 new)) mode v grp Hv)
    as (v' & E & H').
  { intros w Hw. eapply does_bind, does_mono; [by apply (does_ParameterRead base Hgb f)|]. cbn beta. intros v1 Hv1.
    eapply does_bind, does_mono; [by apply (does_ParameterWrite base Hgb f)|]. cbn beta. intros v2 Hv2. by apply does_ret. }
  exists v', (stored VF48_MBIT2 new). split; [exact E|]. split; [exact H'|]. split; [by rewrite Hst, Hbit by lia|]. split.
  { intros n Hn. rewrite Hst, Hbit by lia. by rewrite (proj2 (Z.eqb_neq n 0)) by lia. }
  destruct (does_in_d32 base (val ← vf48_ParameterRead base grp VF48_MBIT2; mret (Z.land (Z.shiftr val 8) 0xff))
    (updated f grp VF48_MBIT2 (stored VF48_MBIT2 new)) (updated f grp VF48_MBIT2 (stored VF48_MBIT2 new)) mode v'
    (Z.land (Z.shiftr (stored VF48_MBIT2 new) 8) 0xff) H') as (v2 & E2 & _).
  { intros w Hw. eapply does_bind, does_mono; [by apply (does_ParameterRead base Hgb _ _ grp VF48_MBIT2 w Hw)|]. cbn beta. intros v1 Hv1.
    unfold updated at 1. rewrite !Z.eqb_refl. by apply does_ret. }
  exists v2. unfold vf48_DivisorRead. rewrite E2. do 2 f_equal. apply Z.bits_inj'. intros n Hn. rewrite !Z.land_spec, !Z.shiftr_spec by lia.
  rewrite Hst, Hbit by lia. by rewrite (proj2 (Z.eqb_neq (n + 8) 0)) by lia.
Qed.

(** A read that fails is taken for data: when the module does not answer the
    read of the mode bits, setting the suppression flag writes -1 back with the
    flag in bit 0, so that every other mode bit of the group is set, the divisor
    to 255 among them; and the divisor reads as 255. *)
Theorem failed_read_is_written {V} `{Mvme V} base grp value (v v1 : V) :
  vf48_ParameterRead base grp VF48_MBIT2 (mvme_set_dmode MVME_DMODE_D32 v) = Ok (VF48_ERR_PARM, v1) ->
  vf48_ChSuppSet base grp value v =
    (_ ← vf48_ParameterWrite base grp VF48_MBIT2 (-2 + value mod 2); _ ← set_dmode (mvme_get_dmode v); mret grp) v1 /\
  stored VF48_MBIT2 (-2 + value mod 2) = 0xFFFE + value mod 2 /\
  vf48_DivisorRead base grp v = Ok (255, mvme_set_dmode (mvme_get_dmode v) v1).
Proof.
  intros E. pose proof (Z.mod_pos_bound value 2 ltac:(lia)) as Hb. split_and!.
  - unfold vf48_ChSuppSet, in_d32. rewrite (ST_bind_Ok _ _ _ (mvme_get_dmode v) v) by done.
    rewrite (ST_bind_Ok _ _ _ tt (mvme_set_dmode MVME_DMODE_D32 v)) by done.
    rewrite !ST_bind_assoc. rewrite (ST_bind_Ok _ _ _ _ _ E). cbn zeta beta. change 1 with (Z.ones 1) at 2. rewrite Z.land_ones by lia.
    change (Z.land VF48_ERR_PARM (Z.lnot 1)) with (-2). change (2 ^ 1) with 2.
    assert (Hc : value mod 2 = 0 \/ value mod 2 = 1) by lia. destruct Hc as [-> | ->]; cbn [Z.lor Z.add Z.sub]; by rewrite ST_bind_assoc.
  - assert (Hc : value mod 2 = 0 \/ value mod 2 = 1) by lia. by destruct Hc as [-> | ->].
  - unfold vf48_DivisorRead, in_d32. rewrite (ST_bind_Ok _ _ _ (mvme_get_dmode v) v) by done.
    rewrite (ST_bind_Ok _ _ _ tt (mvme_set_dmode MVME_DMODE_D32 v)) by done.
    rewrite !ST_bind_assoc. by rewrite (ST_bind_Ok _ _ _ _ _ E).
Qed.

(** ** A simulated module *)

(** At 0xAF0000, with 16-bit parameters and a fixed delay before a parameter that
    is asked for is there; the FIFO is a list of words, and an empty one
    reads as a word that is neither header nor trailer.  The group is four bits
    of the id from bit [gb]. *)
Definition sim_base : Z := 0xAF0000.
Definition NO_DATA : Z := 0xFFFFFFFF.
Record sim := Sim {
  sim_am : Z; sim_dmode : Z; sim_id : Z; sim_par : gmap (Z * Z) Z; sim_lag : nat; sim_fifo : list Z
}.

Definition sim_value (s : sim) (g p : Z) : Z := default 0 (sim_par s !! (g, p)) mod 2 ^ 16.

Definition sim_group (gb : Z) (s : sim) : Z := (sim_id s / 2 ^ gb) mod 16.

Definition sim_read_at (gb a : Z) (s : sim) : Z * sim :=
  if a =? vme_addr sim_base VF48_CSR_REG_RW then
    (if Nat.eqb (sim_lag s) 0 then 6 else 2, Sim (sim_am s) (sim_dmode s) (sim_id s) (sim_par s) (Nat.pred (sim_lag s)) (sim_fifo s))
  else if a =? vme_addr sim_base VF48_FIRMWARE_R then (0x07110727, s)
  else if a =? vme_addr sim_base VF48_PARAM_DATA_RW then (sim_value s (sim_group gb s) (sim_id s mod 128), s)
  else if a =? vme_addr sim_base VF48_NFRAME_R then (Z.of_nat (length (sim_fifo s)) mod 2 ^ 32, s)
  else if a =? vme_addr sim_base VF48_DATA_FIFO_R then
    match sim_fifo s with
    | [] => (NO_DATA, s)
    | w :: ws => (w mod 2 ^ 32, Sim (sim_am s) (sim_dmode s) (sim_id s) (sim_par s) (sim_lag s) ws)
    end
  else (0, s).

Definition sim_write_at (gb a x : Z) (s : sim) : Z * sim :=
  if a =? vme_addr sim_base VF48_PARAM_ID_W then (1, Sim (sim_am s) (sim_dmode s) x (sim_par s) (sim_lag s) (sim_fifo s))
  else if a =? vme_addr sim_base VF48_PARAM_DATA_RW then
    if sim_id s mod 256 <? 128
    then (1, Sim (sim_am s) (sim_dmode s) (sim_id s) (<[(sim_group gb s, sim_id s mod 128) := x]> (sim_par s)) (sim_lag s) (sim_fifo s))
    else (1, Sim (sim_am s) (sim_dmode s) (sim_id s) (sim_par s) 3 (sim_fifo s))
  else (1, s).

Definition sim_read : Z -> sim -> Z * sim := sim_read_at 12.
Definition sim_write : Z -> Z -> sim -> Z * sim := sim_write_at 12.

Definition sim_set_am (m : Z) (s : sim) : sim := Sim m (sim_dmode s) (sim_id s) (sim_par s) (sim_lag s) (sim_fifo s).
Definition sim_set_dmode (m : Z) (s : sim) : sim := Sim (sim_am s) m (sim_id s) (sim_par s) (sim_lag s) (sim_fifo s).

#[export] Instance sim_bus : Mvme sim := {
  MVME_AM_A24 := 0x39; MVME_AM_A32 := 0x09; MVME_DMODE_D32 := 3;
  MVME_BLT_NONE := 1; MVME_BLT_MBLT64 := 3; MVME_BLT_2EVME := 6; MVME_SUCCESS := 1;
  mvme_set_am := sim_set_am;
  mvme_get_dmode := sim_dmode;
  mvme_set_dmode := sim_set_dmode;
  mvme_set_blt _ s := s;
  mvme_read_value := sim_read;
  mvme_write_value := sim_write;
  mvme_read a n s := (1, take (Z.to_nat (n / 4)) (sim_fifo s),
    Sim (sim_am s) (sim_dmode s) (sim_id s) (sim_par s) (sim_lag s) (drop (Z.to_nat (n / 4)) (sim_fifo s)))
}.

#[export] Instance sim_laws : MvmeLaws sim.
Proof.
  constructor; try done.
  - intros a s. cbn [mvme_read_value sim_bus]. unfold sim_read, sim_read_at, sim_value, NO_DATA. repeat case_match; cbn [fst]; try lia;
      match goal with |- 0 <= ?x mod ?m < _ => pose proof (Z.mod_pos_bound x m ltac:(lia)); lia end.
  - intros a s. cbn [mvme_read_value sim_bus mvme_get_dmode]. unfold sim_read, sim_read_at. by repeat case_match.
  - intros a x s. cbn [mvme_write_value sim_bus mvme_get_dmode]. unfold sim_write, sim_write_at. by repeat case_match.
Qed.

(** The fields of the ids. *)
Lemma sim_id_parts s g p : 0 <= g < 6 -> 1 <= p <= 17 -> sim_id s = g * 2 ^ 12 + p ->
  sim_id s mod 256 = p /\ sim_id s mod 128 = p /\ sim_group 12 s = g.
Proof.
  intros Hg Hp Hid. unfold sim_group. rewrite Hid. change (2 ^ 12) with 4096. split_and!.
  - replace (g * 4096 + p) with (p + (g * 16) * 256) by lia. rewrite Z.mod_add by lia. apply Z.mod_small. lia.
  - replace (g * 4096 + p) with (p + (g * 32) * 128) by lia. rewrite Z.mod_add by lia. apply Z.mod_small. lia.
  - rewrite Z.div_add_l, (Z.div_small p) by lia. rewrite Z.add_0_r. apply Z.mod_small. lia.
Qed.
Lemma sim_id_parts_rd s g p : 0 <= g < 6 -> readable p -> sim_id s = g * 2 ^ 12 + 128 + p ->
  sim_id s mod 256 = 128 + p /\ sim_id s mod 128 = p /\ sim_group 12 s = g.
Proof.
  unfold readable. intros Hg Hp Hid. unfold sim_group. rewrite Hid. change (2 ^ 12) with 4096. split_and!.
  - replace (g * 4096 + 128 + p) with (128 + p + (g * 16) * 256) by lia. rewrite Z.mod_add by lia. apply Z.mod_small. lia.
  - replace (g * 4096 + 128 + p) with (p + (g * 32 + 1) * 128) by lia. rewrite Z.mod_add by lia. apply Z.mod_small. lia.
  - rewrite <- Z.add_assoc, Z.div_add_l, (Z.div_small (128 + p)) by lia. rewrite Z.add_0_r. apply Z.mod_small. lia.
Qed.

#[export] Instance sim_frontends : Frontends sim sim_base.
Proof.
  refine {| group_bit := 12; bus_am := sim_am; fe_id := sim_id; fe_par := sim_value; fe_lag := sim_lag |}.
  - intros s g p. unfold sim_value. apply Z.mod_pos_bound. lia.
  - done.
  - done.
  - intros s x _ Hx. cbn. unfold dword. by rewrite Z.mod_small.
  - intros s g p x _ Hg [Hp _] Hid Hx. destruct (sim_id_parts s g p Hg Hp Hid) as (H256 & Hmod & Hgr).
    cbn [mvme_write_value sim_bus]. unfold sim_write, sim_write_at. change (vme_addr sim_base VF48_PARAM_DATA_RW =? vme_addr sim_base VF48_PARAM_ID_W) with false.
    rewrite Z.eqb_refl. rewrite H256, Hmod, Hgr. rewrite (proj2 (Z.ltb_lt p 128)) by lia. cbv zeta. cbn [snd sim_am]. split; [done|].
    intros g' p'. unfold sim_value. cbn [sim_par]. unfold dword. rewrite (Z.mod_small x (2 ^ 32)) by lia.
    destruct (Z.eqb_spec g' g) as [-> |Hg']; [destruct (Z.eqb_spec p' p) as [-> |Hp']|].
    + cbn [andb]. rewrite lookup_insert_eq. cbn [default]. apply Z.mod_small. lia.
    + cbn [andb]. rewrite lookup_insert_ne; [done|]. intros [= E]. lia.
    + cbn [andb]. rewrite lookup_insert_ne; [done|]. intros [= E]. lia.
  - intros s g p x _ Hg Hp Hid. destruct (sim_id_parts_rd s g p Hg Hp Hid) as (H256 & _ & _).
    cbn [mvme_write_value sim_bus]. unfold sim_write, sim_write_at. change (vme_addr sim_base VF48_PARAM_DATA_RW =? vme_addr sim_base VF48_PARAM_ID_W) with false.
    rewrite Z.eqb_refl, H256. unfold readable in Hp. rewrite (proj2 (Z.ltb_ge (128 + p) 128)) by lia. cbn. split; [done | lia].
  - intros s _. cbn. split_and!; try done; [by destruct (sim_lag s) | by intros ->].
  - intros s _. by cbn.
  - intros s g p _ Hg Hp Hid. destruct (sim_id_parts_rd s g p Hg Hp Hid) as (_ & Hmod & Hgr).
    cbn [mvme_read_value sim_bus]. unfold sim_read, sim_read_at.
    change (vme_addr sim_base VF48_PARAM_DATA_RW =? vme_addr sim_base VF48_CSR_REG_RW) with false.
    change (vme_addr sim_base VF48_PARAM_DATA_RW =? vme_addr sim_base VF48_FIRMWARE_R) with false.
    rewrite Z.eqb_refl, Hmod, Hgr. split; [done|]. unfold sim_value. by rewrite Z.mod_mod by lia.
Defined.

(** ** Witnesses *)

Definition sim0 : sim := Sim 0x39 7 0 {[ (2, VF48_MBIT2) := 0x0304 ]} 0 [].
Lemma sim0_is : module_is sim_base (sim_value sim0) 7 sim0.
Proof. by split_and!. Qed.

Lemma sim0_offset : group_bit sim_base = 12.
Proof. done. Qed.


Lemma segment_size_all_witness : exists v' f', vf48_SegmentSizeSet sim_base 512 sim0 = Ok (1, v') /\
  module_is sim_base f' 7 v' /\ f' 5 VF48_SEGMENT_SIZE = 512.
Proof.
  destruct (segment_size_all sim_base (sim_value sim0) 7 512 sim0 sim0_offset sim0_is) as (v' & f' & E & Hf & Hall); [lia|].
  exists v', f'. split; [exact E|]. split; [exact Hf|]. by rewrite Hall by lia.
Defined.

Lemma suppression_keeps_divisor_witness : exists v' y, vf48_ChSuppSet sim_base 2 1 sim0 = Ok (2, v') /\
  Z.testbit y 0 = true /\ exists v2, vf48_DivisorRead sim_base 2 v' = Ok (3, v2).
Proof.
  destruct (suppression_keeps_divisor sim_base (sim_value sim0) 7 2 1 sim0 sim0_offset sim0_is) as (v' & y & E & _ & Hb & _ & v2 & E2); [lia | by vm_compute |].
  exists v', y. split; [exact E|]. split; [exact Hb|]. exists v2. exact E2.
Defined.

(** The same module behind a bus that answers with its ready bit off. *)
Record deaf := Deaf { deaf_sim : sim }.
Definition on_deaf {A} (f : sim -> A * sim) (d : deaf) : A * deaf := let '(a, s) := f (deaf_sim d) in (a, Deaf s).
#[export] Instance deaf_bus : Mvme deaf := {
  MVME_AM_A24 := 0x39; MVME_AM_A32 := 0x09; MVME_DMODE_D32 := 3;
  MVME_BLT_NONE := 1; MVME_BLT_MBLT64 := 3; MVME_BLT_2EVME := 6; MVME_SUCCESS := 1;
  mvme_set_am m d := Deaf (sim_set_am m (deaf_sim d));
  mvme_get_dmode d := sim_dmode (deaf_sim d);
  mvme_set_dmode m d := Deaf (sim_set_dmode m (deaf_sim d));
  mvme_set_blt _ d := d;
  mvme_read_value a d := let '(x, d) := on_deaf (sim_read a) d in (if a =? sim_base then Z.land x 2 else x, d);
  mvme_write_value a x := on_deaf (sim_write a x);
  mvme_read a n d := (1, [], d)
}.

Lemma failed_read_is_written_witness : exists v1, vf48_DivisorRead sim_base 2 (Deaf sim0) = Ok (255, v1).
Proof.
  set (r := vf48_ParameterRead sim_base 2 VF48_MBIT2 (mvme_set_dmode MVME_DMODE_D32 (Deaf sim0))).
  assert (Hr : match r with Ok (x, _) => x | Crash _ => 0 end = VF48_ERR_PARM) by (vm_compute; reflexivity).
  destruct r as [[x v1]|] eqn:E; [|discriminate]. subst x r.
  destruct (failed_read_is_written sim_base 2 1 (Deaf sim0) v1 E) as (_ & _ & Ed). eexists. exact Ed.
Defined.

(** The same module with the frame that the notes of [vf48.h] describe, the group in
    bits 11 to 8: a parameter written for group 2 goes to group 0, where it is
    read back, so that the driver reports success. *)
Record noted := Noted { noted_sim : sim }.
Definition on_noted {A} (f : sim -> A * sim) (d : noted) : A * noted := let '(a, s) := f (noted_sim d) in (a, Noted s).
#[export] Instance noted_bus : Mvme noted := {
  MVME_AM_A24 := 0x39; MVME_AM_A32 := 0x09; MVME_DMODE_D32 := 3;
  MVME_BLT_NONE := 1; MVME_BLT_MBLT64 := 3; MVME_BLT_2EVME := 6; MVME_SUCCESS := 1;
  mvme_set_am m d := Noted (sim_set_am m (noted_sim d));
  mvme_get_dmode d := sim_dmode (noted_sim d);
  mvme_set_dmode m d := Noted (sim_set_dmode m (noted_sim d));
  mvme_set_blt _ d := d;
  mvme_read_value a := on_noted (sim_read_at 8 a);
  mvme_write_value a x := on_noted (sim_write_at 8 a x);
  mvme_read a n d := (1, [], d)
}.
Example group_in_noted_frame :
  match vf48_ParameterWrite sim_base 2 VF48_PRE_TRIGGER 32 (Noted sim0) with
  | Ok (r, d) => r = VF48_SUCCESS /\ sim_value (noted_sim d) 2 VF48_PRE_TRIGGER = 0 /\ sim_value (noted_sim d) 0 VF48_PRE_TRIGGER = 32
  | Crash _ => False
  end.
Proof. by vm_compute. Qed.
