(* ===== verification/Vf48Event.v ===== *)
(** * Reading events from a VF48 ([vme/vf48.c])

    Four ways to read: word by word up to a trailer, from a local buffer that
    block transfers fill, from the FIFOs of the front ends, and everything
    there is.  What a function stores through [pdest] is a list; nothing in the code
    bounds it. *)

From S2P Require Import Prelude VmeBus Vf48.

Definition VF48_IDXMAX : Z := 4096.
Definition VF48_HEADER : Z := 0x80000000.
Definition VF48_TRAILER : Z := 0xE0000000.
Definition VF48_FifoStat10 : Z := 0x0120.
Definition VF48_FifoData0 : Z := 0x0150.
Definition VF48_CSR_FIFO_EMPTY : Z := 0x00000008.
Definition VF48_CSR_FIFO_INCOMPLETE : Z := 0x00000010.
Definition VF48_CSR_FIFO_DISABLE : Z := 0x00020000.

(** [(w & 0xF0000000) == kind] *)
Definition is_kind (kind w : Z) : bool := Z.land w 0xF0000000 =? kind.
Abbreviation is_header := (is_kind VF48_HEADER).
Abbreviation is_trailer := (is_kind VF48_TRAILER).

Section event.
Context {V : Type} `{Mvme V}.

(** [vf48_DataRead]: the answer and the words that were stored. *)
Definition vf48_DataRead (base nentry : Z) : VM V (Z * list Z) :=
  _ ← select_module;
  _ ← set_blt MVME_BLT_MBLT64;
  '(status, d) ← block_read base VF48_DATA_FIFO_R (Z.shiftl nentry 2);
  mret (if negb (status =? MVME_SUCCESS) then 0 else nentry, d).

(** ** Word by word: [vf48_EventRead] *)

(** Both loops run at most this often. *)
Definition EVENT_MAX : nat := Z.to_nat 25000.

(** [do { timeout--; hdata = ...; } while (!header && timeout)]: the last word and
    what is left of [timeout]. *)
Fixpoint seek_header (timeout : nat) (base : Z) : VM V (Z * nat) :=
  match timeout with
  | O => lift_res (Crash NoFuel)
  | S t =>
      hdata ← read_value base VF48_DATA_FIFO_R;
      if is_header hdata then mret (hdata, t)
      else match t with O => mret (hdata, t) | _ => seek_header t base end
  end.

(** The words up to the trailer, included. *)
Fixpoint copy_event (timeout : nat) (base : Z) (pdest : list Z) : VM V (list Z * nat) :=
  match timeout with
  | O => lift_res (Crash NoFuel)
  | S t =>
      w ← read_value base VF48_DATA_FIFO_R;
      let pdest := pdest ++ [w] in
      if is_trailer w then mret (pdest, t)
      else match t with O => mret (pdest, t) | _ => copy_event t base pdest end
  end.

(** The answer, [*nentry] and the words at [pdest], when there are frames. *)
Definition read_event (base cmode : Z) : VM V (Z * Z * list Z) :=
  '(hdata, timeout) ← seek_header EVENT_MAX base;
  match timeout with
  | O => _ ← set_dmode cmode; mret (VF48_ERR_NODATA, 0, [])
  | _ =>
      '(pdest, timeout) ← copy_event EVENT_MAX base [hdata];
      match timeout with
      | O => mret (VF48_ERROR, 0, pdest)
      | _ => _ ← set_dmode cmode; mret (VF48_SUCCESS, Z.of_nat (length pdest), pdest)
      end
  end.

Definition vf48_EventRead (base : Z) : VM V (Z * Z * list Z) :=
  cmode ← get_dmode;
  _ ← set_dmode MVME_DMODE_D32;
  nframe ← read_value base VF48_NFRAME_R;
  if nframe =? 0 then _ ← set_dmode cmode; mret (VF48_SUCCESS, 0, [])
  else read_event base cmode.

(** ** Through a local buffer: [vf48_EventRead64] *)

(** The static variables, and the local array [lData], of which only what was
    stored in this call has a value. *)
Record ev64 := Ev64 { ev_idx : Z; ev_inbuf : Z }.
Definition lData_t : Type := list (option Z).
Definition fresh_lData : lData_t := replicate (Z.to_nat VF48_IDXMAX) None.

Definition lData_at (l : lData_t) (i : Z) : res Z :=
  if i <? 0 then Crash OutOfBounds
  else match l !! Z.to_nat i with
       | None => Crash OutOfBounds
       | Some None => Crash Uninit
       | Some (Some w) => Ok w
       end.

(** [inbuf = vf48_NFrameRead(...); vf48_DataRead(mvme, base, lData, &inbuf)] *)
Definition refill (base : Z) (l : lData_t) : VM V (Z * lData_t) :=
  inbuf ← vf48_NFrameRead base;
  '(_, d) ← vf48_DataRead base inbuf;
  _ ← lift_res (check (Nat.leb (length d) (length l)) OutOfBounds);
  mret (inbuf, map Some d ++ drop (length d) l).

(** [while ((idx < inbuf) && !kind(lData[idx])) ...]: the words passed over. *)
Fixpoint scan_to (fuel : nat) (kind : Z) (l : lData_t) (idx inbuf : Z) (seen : list Z) : res (Z * list Z) :=
  if negb (idx <? inbuf) then Ok (idx, seen)
  else
    w ← lData_at l idx;
    if is_kind kind w then Ok (idx, seen)
    else match fuel with O => Crash NoFuel | S f => scan_to f kind l (idx + 1) inbuf (seen ++ [w]) end.
Definition scan (kind : Z) (l : lData_t) (idx inbuf : Z) : res (Z * list Z) :=
  scan_to (Z.to_nat (inbuf - idx)) kind l idx inbuf [].

(** The search for the header: the word, and where the reading goes on. *)
Fixpoint find_header (timeout : nat) (base : Z) (l : lData_t) (st : ev64) : VM V (option Z * lData_t * ev64) :=
  match timeout with
  | O => mret (None, l, st)
  | S t =>
      '(idx, _) ← lift_res (scan VF48_HEADER l (ev_idx st) (ev_inbuf st));
      if idx <? ev_inbuf st then
        w ← lift_res (lData_at l idx);
        l ← lift_res (store l (Z.to_nat idx) (Some 0xffffffff));
        mret (Some w, l, Ev64 (idx + 1) (ev_inbuf st))
      else
        '(inbuf, l) ← refill base l;
        find_header t base l (Ev64 0 inbuf)
  end.

(** The rest of the event.  After the copy the word at [idx] is looked at, also
    when [idx] is [inbuf]. *)
Fixpoint copy_rest (timeout : nat) (base : Z) (l : lData_t) (st : ev64) (pdest : list Z) : VM V (Z * Z * list Z * ev64) :=
  match timeout with
  | O => mret (VF48_ERROR, 0, pdest, st)
  | S t =>
      '(idx, ws) ← lift_res (scan VF48_TRAILER l (ev_idx st) (ev_inbuf st));
      let pdest := pdest ++ ws in
      w ← lift_res (lData_at l idx);
      if is_trailer w then
        let pdest := pdest ++ [w] in
        mret (VF48_SUCCESS, Z.of_nat (length pdest), pdest, Ev64 (idx + 1) (ev_inbuf st))
      else
        '(inbuf, l) ← refill base l;
        match t with
        | O => mret (VF48_ERROR, 0, pdest, Ev64 0 inbuf)
        | _ => copy_rest t base l (Ev64 0 inbuf) pdest
        end
  end.

(** One call, with the static variables before and after it. *)
Definition vf48_EventRead64 (base : Z) (st : ev64) : VM V (Z * Z * list Z * ev64) :=
  _ ← set_dmode MVME_DMODE_D32;
  let l := fresh_lData in
  let st := if VF48_IDXMAX <? ev_inbuf st then Ev64 0 (ev_inbuf st) else st in
  '(l, st) ← (if ev_idx st =? 0 then '(inbuf, l) ← refill base l; mret (l, Ev64 0 inbuf) else mret (l, st));
  '(h, l, st) ← find_header 16 base l st;
  match h with
  | None => mret (VF48_ERROR, 0, [], Ev64 0 (ev_inbuf st))
  | Some hdata => copy_rest 64 base l st [hdata]
  end.

(** ** From the FIFOs of the front ends: [vf48_EventReadPio] *)

(** [for (j=0; j<nw; j++)]: the words that were stored and whether the group is
    done. *)
Fixpoint pio_words (nw : nat) (base addr max_words : Z) (out : list Z) : VM V (list Z * bool) :=
  match nw with
  | O => mret (out, false)
  | S nw' =>
      w ← vf48_RegisterRead base addr;
      let out := out ++ [dword w] in
      if is_kind VF48_TRAILER (dword w) then mret (out, true)
      else if max_words <=? Z.of_nat (length out) then mret (out, true)
      else pio_words nw' base addr max_words out
  end.

(** The half of a status register that belongs to group [i]. *)
Definition pio_status (i status : Z) : Z := Z.land (if Z.odd i then Z.shiftr status 16 else status) 0xFFFF.

(** [while (!done)]; [fuel] bounds the rounds, which the code does not. *)
Fixpoint pio_group (fuel : nat) (base i max_words : Z) (out : list Z) : VM V (list Z) :=
  match fuel with
  | O => lift_res (Crash NoFuel)
  | S fuel' =>
      status ← vf48_RegisterRead base (VF48_FifoStat10 + 0x10 * (i ÷ 2));
      let status := pio_status i status in
      if any_bit status 0x8000 then mret out
      else
        let nw := Z.to_nat (Z.land status 0x0FFF) in
        '(out, finished) ← pio_words nw base (VF48_FifoData0 + 0x10 * i) max_words (out ++ [0xFFFFFFF0 + i]);
        if finished : bool then mret out else pio_group fuel' base i max_words out
  end.

Fixpoint pio_groups (n fuel : nat) (base i grpEnable max_words : Z) (out : list Z) : VM V (list Z) :=
  match n with
  | O => mret out
  | S n' =>
      if any_bit (Z.shiftl 1 i) grpEnable then
        out ← pio_group fuel base i max_words out;
        if max_words <=? Z.of_nat (length out) then mret out
        else pio_groups n' fuel base (i + 1) grpEnable max_words out
      else pio_groups n' fuel base (i + 1) grpEnable max_words out
  end.

(** [max_words] is [*nwords] before the call; [*nwords] after it is the length of
    the list. *)
Definition vf48_EventReadPio (fuel : nat) (base max_words : Z) : VM V (Z * list Z) :=
  csr ← vf48_RegisterRead base VF48_CSR_REG_RW;
  _ ← lift_res (check (any_bit csr VF48_CSR_FIFO_DISABLE) AssertFail);
  grpEnable ← vf48_RegisterRead base VF48_GRP_REG_RW;
  out ← pio_groups 6 fuel base 0 grpEnable max_words [];
  mret (VF48_SUCCESS, out).

(** ** Everything there is: [vf48_EventReadSync] *)

(** [for (j=0; j<10; j++) csr = vf48_CsrRead(...)] *)
Fixpoint csr_reads (n : nat) (base csr : Z) : VM V Z :=
  match n with O => mret csr | S n' => csr ← vf48_CsrRead base; csr_reads n' base csr end.

(** [for (i=0; i<100; i++)]: the last number of frames. *)
Fixpoint settle (n : nat) (base nframe : Z) : VM V Z :=
  match n with
  | O => mret nframe
  | S n' =>
      csr ← csr_reads 10 base 0;
      nframe ← vf48_NFrameRead base;
      if (2000 <? nframe) || negb (any_bit csr VF48_CSR_FIFO_INCOMPLETE) then mret nframe
      else settle n' base nframe
  end.

(** [while (((int)(pdest+iptr) & 0xf) != 0) pdest[iptr++] = 0xdeadbeef] with
    [pdest] at address [dest]. *)
Fixpoint align (fuel : nat) (dest : Z) (out : list Z) : res (list Z) :=
  if Z.land (int32 (dest + 4 * Z.of_nat (length out))) 0xf =? 0 then Ok out
  else match fuel with O => Crash NoFuel | S f => align f dest (out ++ [0xdeadbeef]) end.

Fixpoint sync_loop (fuel : nat) (base dest max_words : Z) (out : list Z) : VM V (list Z) :=
  match fuel with
  | O => lift_res (Crash NoFuel)
  | S fuel' =>
      csr ← vf48_CsrRead base;
      haveData ← vf48_NFrameRead base;
      if haveData =? 0 then mret out
      else if any_bit csr VF48_CSR_FIFO_EMPTY then sync_loop fuel' base dest max_words out
      else
        haveData ← (if (haveData <? 2000) && any_bit csr VF48_CSR_FIFO_INCOMPLETE then settle 100 base haveData else mret haveData);
        let count := Z.land haveData (Z.lnot 0xF) in
        let count := if haveData <? 2000 then count + 16 else count in
        _ ← vf48_CsrRead base;
        if count =? 0 then sync_loop fuel' base dest max_words out
        else
          _ ← lift_res (check (Z.of_nat (length out) + count + 10 <=? max_words) AssertFail);
          out ← lift_res (align 4 dest out);
          '(rd, d) ← vf48_DataRead base count;
          if negb (rd =? count) then lift_res (Crash Exited)
          else sync_loop fuel' base dest max_words (out ++ d)
  end.

Definition vf48_EventReadSync (fuel : nat) (base dest max_words : Z) : VM V (Z * list Z) :=
  out ← sync_loop fuel base dest max_words [];
  mret (VF48_SUCCESS, out).
End event.
