(* ===== verification/Vf48Read.v ===== *)
(** * Events of a VF48: properties of [Vf48Event.v]

    Reading word by word is compared with what the stream of words holds;
    the other readers are shown with their bounds and with what goes wrong in
    them. *)

From S2P Require Import Prelude VmeBus Vf48 Vf48Param Vf48Event.

(** ** Word by word *)

(** What is relied on of the FIFO of a module, addressed with A24 and D32: the
    words come in order, an empty FIFO reads as a word that is neither header
    nor trailer, and the frame count is 0 exactly when it is empty. *)
Class Fifo (V : Type) `{Mvme V} (base : Z) := {
  fifo : V -> list Z;
  fifo_ready : V -> Prop;
  filler : Z;
  filler_kind : is_header filler = false /\ is_trailer filler = false;
  fifo_set_dmode m v : fifo (mvme_set_dmode m v) = fifo v /\ (fifo_ready v -> fifo_ready (mvme_set_dmode m v));
  nframe_read v : fifo_ready v -> mvme_get_dmode v = MVME_DMODE_D32 ->
    let '(n, v') := mvme_read_value (vme_addr base VF48_NFRAME_R) v in
    (n = 0 <-> fifo v = []) /\ fifo v' = fifo v /\ fifo_ready v';
  fifo_read v : fifo_ready v -> mvme_get_dmode v = MVME_DMODE_D32 ->
    let '(w, v') := mvme_read_value (vme_addr base VF48_DATA_FIFO_R) v in
    w = hd filler (fifo v) /\ fifo v' = tl (fifo v) /\ fifo_ready v'
}.

(** The words before the first one of a kind, when there is one. *)
Definition position (kind : Z) (l : list Z) : option nat := fst <$> list_find (is_kind kind) l.

(** What [vf48_EventRead] makes of a stream of words: an empty one is no event;
    the header has to be among the first 24999 words and the trailer among the
    24999 after it.  The answer, [*nentry], the words stored, and the stream that
    is left. *)
Definition event_spec (fill : Z) (l : list Z) : Z * Z * list Z * list Z :=
  match l with
  | [] => (VF48_SUCCESS, 0, [], [])
  | _ =>
      match position VF48_HEADER l with
      | Some k =>
          if Nat.ltb (S k) EVENT_MAX then
            let r := drop (S k) l in
            let h := nth k l fill in
            match position VF48_TRAILER r with
            | Some m =>
                if Nat.ltb (S m) EVENT_MAX
                then (VF48_SUCCESS, Z.of_nat (m + 2), h :: take (S m) r, drop (S m) r)
                else (VF48_ERROR, 0, h :: take EVENT_MAX r, drop EVENT_MAX r)
            | None => (VF48_ERROR, 0, h :: take EVENT_MAX (r ++ replicate EVENT_MAX fill), drop EVENT_MAX r)
            end
          else (VF48_ERR_NODATA, 0, [], drop EVENT_MAX l)
      | None => (VF48_ERR_NODATA, 0, [], drop EVENT_MAX l)
      end
  end.

Section read.
Context {V : Type} `{MvmeLaws V} (base : Z) `{!Fifo V base}.
Implicit Types v : V.

Definition stream_is (l : list Z) v : Prop := fifo_ready v /\ mvme_get_dmode v = MVME_DMODE_D32 /\ fifo v = l.

Lemma position_cons kind w l : position kind (w :: l) = if is_kind kind w then Some 0%nat else S <$> position kind l.
Proof.
  unfold position. cbn. destruct (is_kind kind w); cbn; [done|]. destruct (list_find _ l) as [[k x]|]; done.
Qed.

Lemma does_word l v : stream_is l v -> does (read_value base VF48_DATA_FIFO_R) v (hd filler l) (stream_is (tl l)).
Proof.
  intros (Hr & Hm & Hl). pose proof (fifo_read v Hr Hm) as Hf. pose proof (dmode_read_value (vme_addr base VF48_DATA_FIFO_R) v) as Hd.
  destruct (mvme_read_value _ v) as [w v'] eqn:E. destruct Hf as (Hw & Hf & Hr'). exists v'. split.
  - unfold read_value. rewrite E. by rewrite Hw, Hl.
  - split_and!; [done | by rewrite <- Hm | by rewrite Hf, Hl].
Qed.

(** The search for the header, with [t] words to go. *)
Lemma does_seek t l v : stream_is l v -> (0 < t)%nat -> exists w t', does (seek_header t base) v (w, t') (stream_is (drop (t - t') l)) /\
  (t' < t)%nat /\
  match position VF48_HEADER l with
  | Some k => if Nat.ltb (S k) t then t' = (t - S k)%nat /\ w = nth k l filler else t' = 0%nat
  | None => t' = 0%nat
  end.
Proof.
  revert l v. induction t as [|t IH]; intros l v Hl Ht; [lia|]. cbn [seek_header].
  assert (Hpos : position VF48_HEADER l = if is_header (hd filler l) then Some 0%nat else S <$> position VF48_HEADER (tl l)).
  { destruct l as [|w l]; [|apply position_cons]. destruct filler_kind as [Hk _]. cbn. by rewrite Hk. }
  pose proof (does_word l v Hl) as (v1 & E1 & H1). destruct (is_header (hd filler l)) eqn:Hh.
  - exists (hd filler l), t. split; [|split; [lia|]].
    + exists v1. split; [by rewrite (ST_bind_Ok _ _ _ _ _ E1), Hh|]. replace (S t - t)%nat with 1%nat by lia. by destruct l.
    + rewrite Hpos. destruct (Nat.ltb_spec 1 (S t)); [split; [lia | by destruct l] | lia].
  - destruct t as [|t].
    + exists (hd filler l), 0%nat. split; [|split; [lia|]].
      * exists v1. split; [by rewrite (ST_bind_Ok _ _ _ _ _ E1), Hh|]. by destruct l.
      * rewrite Hpos. by destruct (position VF48_HEADER (tl l)).
    + destruct (IH (tl l) v1 H1 ltac:(lia)) as (w & t' & (v2 & E2 & H2) & Ht' & Hcase). exists w, t'. split; [|split; [lia|]].
      * exists v2. split; [by rewrite (ST_bind_Ok _ _ _ _ _ E1), Hh|]. replace (S (S t) - t')%nat with (S (S t - t')) by lia.
        destruct l; [by rewrite !drop_nil in * | exact H2].
      * rewrite Hpos. destruct (position VF48_HEADER (tl l)) as [k|]; cbn [fmap option_fmap option_map]; [|done].
        change (Nat.ltb (S (S k)) (S (S t))) with (Nat.ltb (S k) (S t)). destruct (Nat.ltb (S k) (S t)); [|done].
        destruct Hcase as [-> ->]. split; [lia | by destruct l; [destruct k|]].
Qed.

Lemma does_copy t l v pdest : stream_is l v -> (0 < t)%nat -> exists t',
  does (copy_event t base pdest) v (pdest ++ take (t - t') (l ++ replicate (t - t') filler), t') (stream_is (drop (t - t') l)) /\
  (t' < t)%nat /\
  t' = match position VF48_TRAILER l with Some m => if Nat.ltb (S m) t then (t - S m)%nat else 0%nat | None => 0%nat end.
Proof.
  revert l v pdest. induction t as [|t IH]; intros l v pdest Hl Ht; [lia|]. cbn [copy_event].
  assert (Hpos : position VF48_TRAILER l = if is_trailer (hd filler l) then Some 0%nat else S <$> position VF48_TRAILER (tl l)).
  { destruct l as [|w l]; [|apply position_cons]. destruct filler_kind as [_ Hk]. cbn. by rewrite Hk. }
  assert (Hpad : forall n, take (S n) (l ++ replicate (S n) filler) = hd filler l :: take n (tl l ++ replicate n filler)).
  { intros n. destruct l as [|w l]; cbn [hd tl app]; [done|]. cbn [replicate app take]. f_equal.
    change (filler :: replicate n filler) with (replicate (S n) filler). rewrite replicate_S_end, app_assoc, take_app_le; [done|].
    rewrite length_app, length_replicate. lia. }
  pose proof (does_word l v Hl) as (v1 & E1 & H1). destruct (is_trailer (hd filler l)) eqn:Hh.
  - exists t. split; [|split; [lia|]].
    + exists v1. replace (S t - t)%nat with 1%nat by lia. rewrite Hpad. cbn [take]. split; [by rewrite (ST_bind_Ok _ _ _ _ _ E1), Hh | by destruct l].
    + rewrite Hpos. destruct (Nat.ltb_spec 1 (S t)); lia.
  - destruct t as [|t].
    + exists 0%nat. split; [|split; [lia|]].
      * exists v1. cbn [Nat.sub]. rewrite Hpad. cbn [take]. split; [by rewrite (ST_bind_Ok _ _ _ _ _ E1), Hh | by destruct l].
      * rewrite Hpos. by destruct (position VF48_TRAILER (tl l)).
    + destruct (IH (tl l) v1 (pdest ++ [hd filler l]) H1 ltac:(lia)) as (t' & (v2 & E2 & H2) & Ht' & Hcase). exists t'. split; [|split; [lia|]].
      * exists v2. replace (S (S t) - t')%nat with (S (S t - t')) by lia. rewrite Hpad. split.
        -- rewrite (ST_bind_Ok _ _ _ _ _ E1), Hh, E2. by rewrite <- app_assoc.
        -- destruct l; [by rewrite !drop_nil in * | exact H2].
      * rewrite Hpos, Hcase. by destruct (position VF48_TRAILER (tl l)).
Qed.

Lemma position_lt kind l k : position kind l = Some k -> (k < length l)%nat.
Proof.
  unfold position. destruct (list_find _ l) as [[j x]|] eqn:E; [|done]. intros [= <-].
  apply list_find_Some in E as (Hl & _). by apply lookup_lt_Some in Hl.
Qed.

Lemma EVENT_MAX_pos : (0 < EVENT_MAX)%nat.
Proof. unfold EVENT_MAX. lia. Qed.

(** The part after the frame count, on a stream that is not empty. *)
Definition event_done (cmode : Z) (l : list Z) v (r : res (Z * Z * list Z * V)) : Prop :=
  exists v', r = Ok (fst (event_spec filler l), v') /\ fifo v' = snd (event_spec filler l) /\
    (fst (fst (fst (event_spec filler l))) <> VF48_ERROR -> mvme_get_dmode v' = cmode).

Lemma restored cmode v : fifo (mvme_set_dmode cmode v) = fifo v /\ mvme_get_dmode (mvme_set_dmode cmode v) = cmode.
Proof. split; [apply fifo_set_dmode | apply dmode_set]. Qed.

Lemma read_event_found l v cmode k h t : stream_is (drop (S k) l) v -> l <> [] -> position VF48_HEADER l = Some k ->
  Nat.ltb (S k) EVENT_MAX = true -> h = nth k l filler -> (0 < t)%nat ->
  event_done cmode l v ((match t with
    | O => _ ← set_dmode cmode; mret (VF48_ERR_NODATA, 0, [])
    | _ => '(pdest, timeout) ← copy_event EVENT_MAX base [h];
           match timeout with O => mret (VF48_ERROR, 0, pdest)
           | _ => _ ← set_dmode cmode; mret (VF48_SUCCESS, Z.of_nat (length pdest), pdest) end end) v).
Proof.
  intros Hs Hne Hk Hlt -> Ht. destruct t as [|t]; [lia|]. set (r := drop (S k) l) in *.
  destruct (does_copy EVENT_MAX r v [nth k l filler] Hs EVENT_MAX_pos) as (t' & (v2 & E2 & H2) & Ht' & Hcase).
  rewrite (ST_bind_Ok _ _ _ _ _ E2). unfold event_done, event_spec. destruct l as [|w0 l0]; [done|]. rewrite Hk, Hlt. fold r.
  destruct H2 as (_ & _ & H2). destruct (restored cmode v2) as [A B]. destruct (position VF48_TRAILER r) as [m|] eqn:Hm.
  - pose proof (position_lt _ _ _ Hm) as Hml. destruct (Nat.ltb_spec (S m) EVENT_MAX) as [Hlt2|Hge].
    + destruct t' as [|t']; [lia|]. rewrite Hcase in *. replace (EVENT_MAX - (EVENT_MAX - S m))%nat with (S m) in * by lia.
      exists (mvme_set_dmode cmode v2). cbn [fst snd]. rewrite A, H2, take_app_le by lia. cbn [app length]. rewrite length_take.
      replace (S (S m `min` length r)) with (m + 2)%nat by lia. by split_and!.
    + subst t'. rewrite Nat.sub_0_r in *. exists v2. cbn [fst snd]. rewrite H2. split_and!; [|done|done].
      rewrite take_app_le by lia. reflexivity.
  - subst t'. rewrite Nat.sub_0_r in *. exists v2. cbn [fst snd]. by rewrite H2.
Qed.

Lemma read_event_done l v cmode : stream_is l v -> l <> [] -> event_done cmode l v (read_event base cmode v).
Proof.
  intros Hs Hne. unfold read_event. destruct (does_seek EVENT_MAX l v Hs EVENT_MAX_pos) as (w & t & (v2 & E2 & H2) & Ht & Hcase).
  rewrite (ST_bind_Ok _ _ _ _ _ E2).
  assert (Hnone : t = 0%nat -> event_spec filler l = (VF48_ERR_NODATA, 0, [], drop EVENT_MAX l) ->
    event_done cmode l v ((_ ← set_dmode cmode; mret (VF48_ERR_NODATA, 0, [])) v2)).
  { intros -> F. exists (mvme_set_dmode cmode v2). destruct (restored cmode v2) as [A B]. rewrite F. destruct H2 as (_ & _ & H2).
    cbn [fst snd]. rewrite A, H2, Nat.sub_0_r. by split_and!. }
  destruct (position VF48_HEADER l) as [k|] eqn:Hk; [destruct (Nat.ltb (S k) EVENT_MAX) eqn:Hlt|].
  - destruct Hcase as [-> ->]. apply Nat.ltb_lt in Hlt as Hlt'. replace (EVENT_MAX - (EVENT_MAX - S k))%nat with (S k) in H2 by lia.
    apply (read_event_found l v2 cmode k); try done. lia.
  - rewrite Hcase in *. apply Hnone; [done|]. unfold event_spec. destruct l; [done|]. by rewrite Hk, Hlt.
  - rewrite Hcase in *. apply Hnone; [done|]. unfold event_spec. destruct l; [done|]. by rewrite Hk.
Qed.
End read.

(** ** The FIFOs of the front ends *)

Section pio.
Context {V : Type} `{Mvme V} (base : Z).
Implicit Types v : V.

(** A FIFO that is not empty has words to count. *)
Definition counts_words : Prop := forall i v, 0 <= i < 6 ->
  let status := pio_status i (int32 (fst (mvme_read_value (vme_addr base (VF48_FifoStat10 + 0x10 * (i ÷ 2))) v))) in
  any_bit status 0x8000 = false -> 0 < Z.land status 0x0FFF.

Lemma pio_words_bound nw addr max : forall out v out' fin v', pio_words nw base addr max out v = Ok ((out', fin), v') ->
  Z.of_nat (length out) <= max -> (0 < nw)%nat \/ Z.of_nat (length out) < max ->
  Z.of_nat (length out') <= max + 1 /\ (fin = false -> Z.of_nat (length out') < max).
Proof.
  induction nw as [|nw IH]; intros out v out' fin v' E Hl Hnw; cbn [pio_words] in E.
  { injection E as <- <- <-. destruct Hnw as [Hnw|Hnw]; [lia|]. split; [lia | done]. }
  apply ST_bind_inv in E as (w & v1 & _ & E). destruct (is_kind VF48_TRAILER (dword w)).
  { injection E as <- <- <-. rewrite length_app. cbn. split; [lia | done]. }
  destruct (Z.leb_spec max (Z.of_nat (length (out ++ [dword w])))) as [Hm|Hm].
  { injection E as <- <- <-. rewrite length_app in *. cbn in *. split; [lia | done]. }
  apply IH in E; [done | lia | right; lia].
Qed.

Lemma register_read_inv reg v x v' : vf48_RegisterRead base reg v = Ok (x, v') ->
  exists v0, x = int32 (fst (mvme_read_value (vme_addr base reg) v0)).
Proof.
  intros E. unfold vf48_RegisterRead, select_module in E. rewrite ST_bind_assoc in E.
  apply ST_bind_inv in E as ([] & v1 & _ & E). apply ST_bind_inv in E as ([] & v2 & _ & E). unfold read_int in E.
  apply ST_bind_inv in E as (y & v3 & E3 & E). injection E as <- _. exists v2. unfold read_value in E3.
  destruct (mvme_read_value _ v2). by injection E3 as <- _.
Qed.

Lemma pio_group_bound fuel i max : counts_words -> 0 <= i < 6 -> forall out v out' v', pio_group fuel base i max out v = Ok (out', v') ->
  Z.of_nat (length out) < max -> Z.of_nat (length out') <= max + 1.
Proof.
  intros Hc Hi. induction fuel as [|fuel IH]; intros out v out' v' E Hl; [done|]. cbn [pio_group] in E.
  apply ST_bind_inv in E as (st & v1 & E1 & E). destruct (register_read_inv _ _ _ _ E1) as (v0 & ->).
  specialize (Hc i v0 Hi). cbv zeta in Hc. set (s := pio_status i _) in *.
  destruct (any_bit s 0x8000); [injection E as <- _; lia|]. specialize (Hc eq_refl).
  apply ST_bind_inv in E as ([out1 fin] & v2 & E2 & E). apply pio_words_bound in E2; [|rewrite length_app; cbn; lia | left; lia].
  destruct E2 as [B1 B2]. destruct fin; [by injection E as <- _|]. apply IH in E; [done | by apply B2].
Qed.

Lemma pio_groups_bound n fuel i grp max : counts_words -> 0 <= i -> i + Z.of_nat n <= 6 -> forall out v out' v',
  pio_groups n fuel base i grp max out v = Ok (out', v') -> Z.of_nat (length out) < max -> Z.of_nat (length out') <= max + 1.
Proof.
  intros Hc. revert i. induction n as [|n IH]; intros i Hi Hn out v out' v' E Hl; cbn [pio_groups] in E; [injection E as <- _; lia|].
  destruct (any_bit _ grp); [|apply IH in E; [done | lia | lia | done]].
  apply ST_bind_inv in E as (out1 & v1 & E1 & E). apply pio_group_bound in E1; [|done | lia | done].
  destruct (Z.leb_spec max (Z.of_nat (length out1))); [by injection E as <- _|]. apply IH in E; [done | lia | lia | done].
Qed.

(** *** The local buffer *)

Lemma fresh_at i : 0 < i < VF48_IDXMAX -> lData_at fresh_lData i = Crash Uninit.
Proof.
  intros Hi. unfold lData_at, fresh_lData. rewrite (proj2 (Z.ltb_ge i 0)) by lia. unfold VF48_IDXMAX in *.
  rewrite (lookup_replicate_2 (A:=option Z)) by lia. done.
Qed.

Lemma lData_at_nonneg l i w : lData_at l i = Ok w -> 0 <= i.
Proof. unfold lData_at. destruct (Z.ltb_spec i 0); [done | lia]. Qed.

Lemma copy_rest_idx t l st out v n ws st' v' : copy_rest t base l st out v = Ok ((VF48_SUCCESS, n, ws, st'), v') -> 0 < ev_idx st'.
Proof.
  revert l st out v. induction t as [|t IH]; intros l st out v E; cbn [copy_rest] in E; [discriminate E|].
  apply ST_bind_inv in E as ([idx w0] & v1 & _ & E). apply ST_bind_inv in E as (w & v2 & E2 & E).
  unfold lift_res in E2. destruct (lData_at l idx) as [x|] eqn:El; [|done]. apply lData_at_nonneg in El.
  destruct (is_trailer w); [injection E as _ _ <- _; cbn; lia|]. apply ST_bind_inv in E as ([inbuf l'] & v3 & _ & E).
  destruct t as [|t]; [discriminate E | by apply IH in E].
Qed.

Lemma event_read64_idx st v n ws st' v' : vf48_EventRead64 base st v = Ok ((VF48_SUCCESS, n, ws, st'), v') -> 0 < ev_idx st'.
Proof.
  intros E. unfold vf48_EventRead64 in E. apply ST_bind_inv in E as ([] & v1 & _ & E). apply ST_bind_inv in E as ([l st1] & v2 & _ & E).
  apply ST_bind_inv in E as ([[h l'] st2] & v3 & _ & E). destruct h; [by apply copy_rest_idx in E | discriminate E].
Qed.

(** *** Everything there is *)

Lemma align_bound fuel dest : forall out out', align fuel dest out = Ok out' ->
  (length out' <= length out + fuel)%nat.
Proof.
  induction fuel as [|fuel IH]; intros out out'; cbn [align]; destruct (_ =? 0); [intros [= <-]; lia | done | intros [= <-]; lia|].
  intros E. apply IH in E. rewrite length_app in E. cbn in E. lia.
Qed.
End pio.

(** ** The claims *)

(** C28: Reading an event word by word does what [event_spec] says of the stream of
    the FIFO, for every stream: an event between a header and a trailer that
    come soon enough is stored whole, counted, and taken out of the FIFO with
    what came before it; otherwise the answer and the words that are lost
    are those of the specification.  The data mode is restored except after a
    missing trailer. *)
Theorem event_read_refines {V} `{MvmeLaws V} base `{!Fifo V base} (v : V) :
  fifo_ready v ->
  exists v', vf48_EventRead base v = Ok (fst (event_spec filler (fifo v)), v') /\
    fifo v' = snd (event_spec filler (fifo v)) /\
    (fst (fst (fst (event_spec filler (fifo v)))) <> VF48_ERROR -> mvme_get_dmode v' = mvme_get_dmode v).
Proof.
  intros Hr. unfold vf48_EventRead. rewrite (ST_bind_Ok _ _ _ (mvme_get_dmode v) v) by done. set (cmode := mvme_get_dmode v).
  rewrite (ST_bind_Ok _ _ _ tt (mvme_set_dmode MVME_DMODE_D32 v)) by done. set (v0 := mvme_set_dmode _ v).
  destruct (fifo_set_dmode MVME_DMODE_D32 v) as [Hf0 Hr0]. fold v0 in Hf0, Hr0. specialize (Hr0 Hr).
  assert (Hm0 : mvme_get_dmode v0 = MVME_DMODE_D32) by apply dmode_set.
  pose proof (nframe_read v0 Hr0 Hm0) as Hn. pose proof (dmode_read_value (vme_addr base VF48_NFRAME_R) v0) as Hd.
  destruct (mvme_read_value _ v0) as [n v1] eqn:En. destruct Hn as (Hn & Hf1 & Hr1). rewrite Hf0 in Hn, Hf1. cbn [snd] in Hd.
  rewrite (ST_bind_Ok _ _ _ n v1) by (unfold read_value; by rewrite En). destruct (Z.eqb_spec n 0) as [Hz|Hnz].
  - apply Hn in Hz. exists (mvme_set_dmode cmode v1). destruct (restored base cmode v1) as [A B]. rewrite A, Hf1, Hz. by split_and!.
  - apply (read_event_done base (fifo v) v1 cmode); [split_and!; congruence|]. intros E. by apply Hnz, Hn.
Qed.

(** Reading the FIFOs of the front ends stores at most one word more than the
    caller has room for: when every FIFO that is not empty has words to count, a
    call with room for [max_words] stores at most [max_words + 1] words.  The
    bound is reached (see the witness): the marker of a group is stored without a
    look at the room. *)
Theorem pio_one_too_many {V} `{Mvme V} base fuel max_words status out (v v' : V) :
  counts_words (V := V) base -> 1 <= max_words ->
  vf48_EventReadPio fuel base max_words v = Ok ((status, out), v') ->
  status = VF48_SUCCESS /\ Z.of_nat (length out) <= max_words + 1.
Proof.
  intros Hc Hm E. unfold vf48_EventReadPio in E. apply ST_bind_inv in E as (csr & v1 & _ & E).
  apply ST_bind_inv in E as ([] & v2 & _ & E). apply ST_bind_inv in E as (grp & v3 & _ & E).
  apply ST_bind_inv in E as (out1 & v4 & E4 & E). injection E as <- <- _. split; [done|].
  apply pio_groups_bound in E4; [done | done | lia | lia | cbn; lia].
Qed.

(** Two events in one block are one too many: when a call of the buffered
    reader finds an event and the block holds more words, the next call looks for
    the next header in an array of its own that was never written. *)
Theorem second_event_uninitialised {V} `{Mvme V} base st n ws st' (v v' : V) :
  vf48_EventRead64 base st v = Ok ((VF48_SUCCESS, n, ws, st'), v') -> ev_idx st' < ev_inbuf st' <= VF48_IDXMAX ->
  vf48_EventRead64 base st' v' = Crash Uninit.
Proof.
  intros E Hst. apply event_read64_idx in E. unfold vf48_EventRead64. rewrite (ST_bind_Ok _ _ _ tt (mvme_set_dmode MVME_DMODE_D32 v')) by done.
  rewrite (proj2 (Z.ltb_ge _ _)) by lia. rewrite (proj2 (Z.eqb_neq _ 0)) by lia. rewrite (ST_bind_Ok _ _ _ _ _ eq_refl).
  assert (Es : scan VF48_HEADER fresh_lData (ev_idx st') (ev_inbuf st') = Crash Uninit).
  { unfold scan. replace (Z.to_nat (ev_inbuf st' - ev_idx st')) with (S (Z.to_nat (ev_inbuf st' - ev_idx st' - 1))) by lia.
    cbn [scan_to]. rewrite (proj2 (Z.ltb_lt _ _)) by lia. cbn [negb]. by rewrite fresh_at by lia. }
  cbn [find_header]. rewrite !ST_bind_eq. unfold lift_res. by rewrite Es.
Qed.

(** ** Witnesses *)

#[export] Instance sim_fifo_words : Fifo sim sim_base.
Proof.
  refine {| fifo s := map (fun w => w mod 2 ^ 32) (sim_fifo s); fifo_ready s := Z.of_nat (length (sim_fifo s)) < 2 ^ 32; filler := NO_DATA |}.
  - done.
  - done.
  - intros s Hr _. cbn [mvme_read_value sim_bus]. change (sim_read (vme_addr sim_base VF48_NFRAME_R) s)
      with (Z.of_nat (length (sim_fifo s)) mod 2 ^ 32, s). rewrite Z.mod_small by lia. split; [|done].
    destruct (sim_fifo s); cbn; [done | split; [lia | done]].
  - intros [am dm id par lag [|w ws]] Hr _; [done|]. cbn [sim_fifo length] in Hr.
    change (w mod 2 ^ 32 = w mod 2 ^ 32 /\ map (fun w => w mod 2 ^ 32) ws = map (fun w => w mod 2 ^ 32) ws /\ Z.of_nat (length ws) < 2 ^ 32).
    split_and!; [done | done | lia].
Defined.

(** Noise, an event of four words, and the beginning of the next. *)
Definition sim1 : sim := Sim 0x39 7 0 ∅ 0 [0x10; 0x80000001; 0xA0000005; 0x00030002; 0xE0000001; 0x80000002].

Lemma event_read_refines_witness : exists v',
  vf48_EventRead sim_base sim1 = Ok ((VF48_SUCCESS, 4, [0x80000001; 0xA0000005; 0x00030002; 0xE0000001]), v') /\
  fifo v' = [0x80000002] /\ mvme_get_dmode v' = 7.
Proof.
  assert (S : event_spec filler (fifo sim1) = (VF48_SUCCESS, 4, [0x80000001; 0xA0000005; 0x00030002; 0xE0000001], [0x80000002]))
    by (vm_compute; reflexivity).
  destruct (event_read_refines sim_base sim1) as (v' & E & Hf & Hm); [done|]. rewrite S in E, Hf, Hm.
  exists v'. split; [exact E|]. split; [exact Hf|]. apply Hm. by vm_compute.
Defined.

(** Six groups with one word each, all the time. *)
#[export] Instance full_bus : Mvme unit := {
  MVME_AM_A24 := 0x39; MVME_AM_A32 := 0x09; MVME_DMODE_D32 := 3;
  MVME_BLT_NONE := 1; MVME_BLT_MBLT64 := 3; MVME_BLT_2EVME := 6; MVME_SUCCESS := 1;
  mvme_set_am _ v := v; mvme_get_dmode _ := 3; mvme_set_dmode _ v := v; mvme_set_blt _ v := v;
  mvme_read_value a v := (if a =? vme_addr sim_base VF48_CSR_REG_RW then VF48_CSR_FIFO_DISABLE
    else if a =? vme_addr sim_base VF48_GRP_REG_RW then 0x3F else 0x00010001, v);
  mvme_write_value _ _ v := (1, v);
  mvme_read _ _ v := (1, [], v)
}.

Lemma pio_one_too_many_witness :
  vf48_EventReadPio 5 sim_base 1 tt = Ok ((VF48_SUCCESS, [0xFFFFFFF0; 0x00010001]), tt) /\ 2 <= 1 + 1.
Proof.
  assert (E : vf48_EventReadPio 5 sim_base 1 tt = Ok ((VF48_SUCCESS, [0xFFFFFFF0; 0x00010001]), tt)) by (vm_compute; reflexivity).
  assert (C : counts_words (V := unit) sim_base).
  { intros i [] Hi. assert (Hc : i = 0 \/ i = 1 \/ i = 2 \/ i = 3 \/ i = 4 \/ i = 5) by lia.
    destruct Hc as [->|[->|[->|[->|[->| ->]]]]]; vm_compute; done. }
  split; [exact E|]. exact (proj2 (pio_one_too_many sim_base 5 1 VF48_SUCCESS _ tt tt C (Z.le_refl 1) E)).
Defined.

(** Two events in one block. *)
Definition sim2 : sim := Sim 0x39 7 0 ∅ 0 [0x80000001; 0xE0000001; 0x80000002; 0xE0000002].

Lemma second_event_uninitialised_witness : exists v',
  vf48_EventRead64 sim_base (Ev64 0 0) sim2 = Ok ((VF48_SUCCESS, 2, [0x80000001; 0xE0000001], Ev64 2 4), v') /\
  vf48_EventRead64 sim_base (Ev64 2 4) v' = Crash Uninit.
Proof.
  set (r := vf48_EventRead64 sim_base (Ev64 0 0) sim2).
  assert (Hr : match r with Ok (x, _) => Some x | Crash _ => None end = Some (VF48_SUCCESS, 2, [0x80000001; 0xE0000001], Ev64 2 4))
    by (vm_compute; reflexivity).
  destruct r as [[x v']|] eqn:E; [|discriminate]. injection Hr as ->. subst r. exists v'. split; [reflexivity|].
  apply (second_event_uninitialised sim_base _ _ _ _ _ _ E). unfold VF48_IDXMAX. cbn. lia.
Defined.
