(* ===== verification/Vt48.v ===== *)
(** * The VT48 time digitizer and the SIS3820 counter ([vme/vt48.c], [vme/sis3820.c])

    Both are registers and a FIFO behind the bus of [VmeBus.v].  What a
    function stores through [pdest] is a list, and what it prints is part of its
    answer; delays are left out. *)

From S2P Require Import Prelude VmeBus Vf48 Vf48Event.

(** ** [vt48.h] *)

Definition VT48_SUCCESS : Z := 1.
Definition VT48_ERR_NODATA : Z := 10.
Definition VT48_CSR_RO : Z := 0x0000.
Definition VT48_OCCUPANCY_RO : Z := 0x0000.
Definition VT48_CMD_REG : Z := 0x0004.
Definition VT48_ID1_REG_RO : Z := 0x0008.
Definition VT48_ID2_REG_RO : Z := 0x000C.
Definition VT48_CSR16_REG : Z := 0x0020.
Definition VT48_CSR0_REG : Z := 0x0040.
Definition VT48_CSR0_RB_REG : Z := 0x0080.
Definition VT48_DATA_FIFO : Z := 0x1000.
Definition VT48_AMT_CFG_RW : Z := 0x1.
Definition VT48_AMT_STATUS_R : Z := 0x2.
Definition VT48_AMT_ID_R : Z := 0x3.
Definition VT48_HEADER : Z := 0x10000000.
Definition VT48_TRAILER : Z := 0x80000000.

(** [VT48_CSR0_REG] to [VT48_CSR14_REG] *)
Definition VT48_CSR (i : Z) : Z := VT48_CSR0_REG + 4 * i.

Section vt48.
Context {V : Type} `{Mvme V}.

(** ** Registers *)

Definition vt48_RegWrite (base reg data : Z) : VM V unit :=
  _ ← set_dmode MVME_DMODE_D32; put_value base reg data.

(** The register is a [WORD]. *)
Definition vt48_RegRead (base reg : Z) : VM V Z :=
  _ ← set_dmode MVME_DMODE_D32; read_value base (reg mod 2 ^ 16).

Fixpoint read_registers (base : Z) (regs : list Z) : VM V (list Z) :=
  match regs with
  | [] => mret []
  | r :: regs' => x ← vt48_RegRead base r; l ← read_registers base regs'; mret (x :: l)
  end.

Definition vt48_WindowSet (base : Z) : VM V unit := set_dmode MVME_DMODE_D32.
Definition vt48_WindowOffsetSet (base : Z) : VM V unit := set_dmode MVME_DMODE_D32.

Definition vt48_RegPrint (base : Z) : VM V (list Z) :=
  _ ← set_dmode MVME_DMODE_D32;
  _ ← vt48_RegWrite base VT48_CMD_REG VT48_AMT_CFG_RW;
  read_registers base (map VT48_CSR (seqZ 0 15)).

Definition vt48_Status (base : Z) : VM V (list Z) :=
  _ ← set_dmode MVME_DMODE_D32;
  csr ← vt48_RegRead base VT48_CSR_RO;
  _ ← vt48_RegWrite base VT48_CMD_REG VT48_AMT_ID_R;
  ids ← read_registers base [VT48_ID1_REG_RO; VT48_ID2_REG_RO];
  _ ← vt48_RegWrite base VT48_CMD_REG VT48_AMT_STATUS_R;
  status ← read_registers base (map (fun i => VT48_CSR16_REG + i * 4) (seqZ 0 6));
  control ← read_registers base (map VT48_CSR (seqZ 0 15));
  readback ← read_registers base (map (fun i => VT48_CSR0_RB_REG + i * 4) (seqZ 0 15));
  mret (csr :: ids ++ status ++ control ++ readback).

(** ** Events *)

Definition fifo_empty (occupancy : Z) : bool := any_bit occupancy 0x4000.

(** The search for the header: [hdata] keeps its value while the FIFO is empty. *)
Fixpoint vt48_seek (timeout : nat) (base hdata : Z) : VM V (Z * nat) :=
  match timeout with
  | O => lift_res (Crash NoFuel)
  | S t =>
      occ ← read_value base VT48_OCCUPANCY_RO;
      hdata ← (if fifo_empty occ then mret hdata else read_value base VT48_DATA_FIFO);
      if is_kind VT48_HEADER hdata then mret (hdata, t)
      else match t with O => mret (hdata, t) | _ => vt48_seek t base hdata end
  end.

(** The copy: every word starts the timeout again, so that it bounds the empty
    looks between two words and not the loop; [fuel] does.  The last
    word decides whether it goes on. *)
Fixpoint vt48_copy (fuel timeout : nat) (base w : Z) (pdest : list Z) : VM V (list Z) :=
  match fuel with
  | O => lift_res (Crash NoFuel)
  | S fuel' =>
      occ ← read_value base VT48_OCCUPANCY_RO;
      if fifo_empty occ then
        if is_kind VT48_TRAILER w || Nat.eqb (pred timeout) 0 then mret pdest
        else vt48_copy fuel' (pred timeout) base w pdest
      else
        w ← read_value base VT48_DATA_FIFO;
        let pdest := pdest ++ [w] in
        if is_kind VT48_TRAILER w then mret pdest else vt48_copy fuel' 2000 base w pdest
  end.

(** The answer, [*nentry] and the words; the number of entries that was asked for
    plays no part, and [*nentry--] moves the pointer only. *)
Definition vt48_EventRead (fuel : nat) (base : Z) : VM V (Z * Z * list Z) :=
  _ ← set_dmode MVME_DMODE_D32;
  '(hdata, timeout) ← vt48_seek 300 base 0;
  match timeout with
  | O => mret (VT48_ERR_NODATA, 0, [])
  | _ =>
      pdest ← vt48_copy fuel 2000 base hdata [hdata];
      mret (VT48_SUCCESS, Z.of_nat (length pdest), pdest)
  end.

Definition vt48_DataRead (base nwords : Z) : VM V (Z * list Z) :=
  _ ← set_am MVME_AM_A24;
  _ ← set_dmode MVME_DMODE_D32;
  _ ← set_blt MVME_BLT_NONE;
  _ ← (if nwords <? 0 then set_blt 0 else mret tt);
  let nwords := Z.abs nwords in
  _ ← lift_res (check (nwords * 4 <=? 2 ^ 31 - 1) IntOverflow);
  block_read base VT48_DATA_FIFO (nwords * 4).

(** ** Setup *)

(** [do { ... } while (!(occupancy & 0x4000))]; [fuel] bounds the words. *)
Fixpoint drain_fifo (fuel : nat) (base : Z) : VM V unit :=
  match fuel with
  | O => lift_res (Crash NoFuel)
  | S fuel' =>
      _ ← vt48_RegRead base VT48_DATA_FIFO;
      occ ← vt48_RegRead base VT48_OCCUPANCY_RO;
      if fifo_empty occ then mret tt else drain_fifo fuel' base
  end.

Fixpoint write_registers (base : Z) (l : list (Z * Z)) : VM V unit :=
  match l with
  | [] => mret tt
  | (reg, data) :: l' => _ ← vt48_RegWrite base reg data; write_registers base l'
  end.
End vt48.

(** The registers CSR0 to CSR14 of the modes. *)
Definition csr_values (mode : Z) : list Z :=
  if mode =? 1 then
    [0xf0200020; 0x0000; 0x0080; 0x0070; 0x0f80; 0x0000; 0x0fa0; 0x0000; 0x0fff; 0xf3000301; 0x0af1; 0x0e11; 0x01ff; 0x0fff; 0x0fff]
  else if mode =? 2 then
    [0xf0200020; 0x0000; 1008; 1000; 3092; 0x0000; 3100; 0x0000; 0x0fff; 0xf3000301; 0x0af3; 0x0e11; 0x01ff; 0x0fff; 0x0fff]
  else if mode =? 3 then
    [0xf0200020; 0x0000; 408; 400; 3692; 0x0000; 3700; 0x0000; 0x0fff; 0xf3000301; 0x0af1; 0x0e11; 0x01ff; 0x0fff; 0x0fff]
  else
    [0xf0200020; 0x0000; 0x0080; 0x0070; 0x0f80; 0x0000; 0x0fa0; 0x0000; 0x0fff; 0xf3020301; 0x0af1; 0x0e11; 0x01ff; 0xf0000fff; 0xf0000fff].

(** The global resets of a mode. *)
Definition mode_resets (mode : Z) : list Z := if mode =? 4 then [0x10] else [0x10; 0x11; 0x12].

(** The writes of the [switch]; [None] for a mode that is not known. *)
Definition mode_writes (mode : Z) : option (list (Z * Z)) :=
  if (1 <=? mode) && (mode <=? 4) then
    Some (map (fun x => (VT48_CMD_REG, x)) (mode_resets mode) ++ zip (map VT48_CSR (seqZ 0 15)) (csr_values mode))
  else if mode =? 5 then Some []
  else if mode =? 0x11 then Some [(VT48_CMD_REG, 0xf)]
  else None.

Section setup.
Context {V : Type} `{Mvme V}.

Definition vt48_Setup (fuel : nat) (base mode : Z) : VM V Z :=
  _ ← set_dmode MVME_DMODE_D32;
  _ ← drain_fifo fuel base;
  _ ← vt48_RegRead base VT48_OCCUPANCY_RO;
  match mode_writes mode with
  | None => mret (-1)
  | Some l =>
      _ ← write_registers base l;
      _ ← write_registers base [(VT48_CMD_REG, VT48_AMT_CFG_RW); (VT48_CMD_REG, VT48_AMT_CFG_RW); (VT48_CMD_REG, 0x12)];
      mret 0
  end.

(** ** The SIS3820 *)

Definition SIS3820_CONTROL_STATUS : Z := 0x0.
Definition SIS3820_MODID : Z := 0x4.
Definition SIS3820_FIFO_WORDCOUNTER : Z := 0x38.
Definition SIS3820_OPERATION_MODE : Z := 0x100.
Definition SIS3820_KEY_RESET : Z := 0x400.

Definition regRead (base offset : Z) : VM V Z :=
  _ ← set_am MVME_AM_A32; _ ← set_dmode MVME_DMODE_D32; read_value base offset.
Definition regWrite (base offset value : Z) : VM V unit :=
  _ ← set_am MVME_AM_A32; _ ← set_dmode MVME_DMODE_D32; put_value base offset value.
Definition sis3820_RegisterRead (base offset : Z) : VM V Z := regRead base offset.
Definition sis3820_RegisterWrite (base offset value : Z) : VM V unit := regWrite base offset value.

(** The answer is [wcount], whatever was read. *)
Definition sis3820_FifoRead (base wcount : Z) : VM V (Z * list Z) :=
  _ ← set_am MVME_AM_A32;
  _ ← set_blt MVME_BLT_2EVME;
  _ ← lift_res (check ((- 2 ^ 31 <=? wcount * 4) && (wcount * 4 <=? 2 ^ 31 - 1)) IntOverflow);
  '(_, d) ← block_read base 0x800000 (wcount * 4);
  mret (wcount, d).

Definition sis3820_Reset (base : Z) : VM V unit := regWrite base SIS3820_KEY_RESET 0.
Definition sis3820_DataReady (base : Z) : VM V Z := x ← regRead base SIS3820_FIFO_WORDCOUNTER; mret (int32 x).
Definition sis3820_Status (base : Z) : VM V (list Z) :=
  csr ← regRead base SIS3820_CONTROL_STATUS;
  id ← regRead base SIS3820_MODID;
  mode ← regRead base SIS3820_OPERATION_MODE;
  mret [csr; id; mode].
End setup.
