(* ===== verification/Vt48Props.v ===== *)
(** * The VT48: properties of [Vt48.v]

    Reading an event, against the looks at the FIFO that find it empty or find
    a word; and the registers that a setup mode leaves. *)

From S2P Require Import Prelude VmeBus Vf48 Vf48Param Vf48Event Vt48.

(** ** The module *)

(** What is relied on of a module at [base]: a look at the occupancy says that the
    FIFO is empty, or there is a word to read; [polls] is what the looks to
    come will find, and once it is used up the FIFO stays empty.  A register
    keeps what is written to it. *)
Class TdcModule (V : Type) `{Mvme V} (base : Z) := {
  polls : V -> list (option Z);
  reg_of : V -> Z -> Z;
  is_register (reg : Z) : Prop := reg = VT48_CMD_REG \/ VT48_CSR0_REG <= reg <= VT48_CSR0_REG + 56;
  tdc_set_dmode m v : polls (mvme_set_dmode m v) = polls v /\ forall r, reg_of (mvme_set_dmode m v) r = reg_of v r;
  occupancy_read v : mvme_get_dmode v = MVME_DMODE_D32 ->
    let '(x, v') := mvme_read_value (vme_addr base VT48_OCCUPANCY_RO) v in
    (forall r, reg_of v' r = reg_of v r) /\
    match polls v with
    | [] => fifo_empty x = true /\ polls v' = []
    | None :: l => fifo_empty x = true /\ polls v' = l
    | Some _ :: _ => fifo_empty x = false /\ polls v' = polls v
    end;
  word_read v : mvme_get_dmode v = MVME_DMODE_D32 ->
    let '(x, v') := mvme_read_value (vme_addr base VT48_DATA_FIFO) v in
    (forall r, reg_of v' r = reg_of v r) /\
    match polls v with Some w :: l => x = w /\ polls v' = l | _ => polls v' = polls v end;
  register_write v reg x : mvme_get_dmode v = MVME_DMODE_D32 -> is_register reg ->
    let v' := snd (mvme_write_value (vme_addr base reg) (dword x) v) in
    polls v' = polls v /\ forall r, reg_of v' r = if r =? reg then dword x else reg_of v r
}.

Section tdc.
Context {V : Type} `{MvmeLaws V} (base : Z) `{!TdcModule V base}.
Implicit Types v : V.

(** The looks to come and the registers, in D32. *)
Definition tdc_is (l : list (option Z)) (f : Z -> Z) v : Prop :=
  mvme_get_dmode v = MVME_DMODE_D32 /\ polls v = l /\ forall r, reg_of v r = f r.

(** ** Looking and reading *)

Lemma does_look l f v : tdc_is l f v -> exists x v', read_value base VT48_OCCUPANCY_RO v = Ok (x, v') /\
  match l with
  | [] => fifo_empty x = true /\ tdc_is [] f v'
  | None :: l' => fifo_empty x = true /\ tdc_is l' f v'
  | Some _ :: _ => fifo_empty x = false /\ tdc_is l f v'
  end.
Proof.
  intros (Hm & Hl & Hf). pose proof (occupancy_read v Hm) as Ho. pose proof (dmode_read_value (vme_addr base VT48_OCCUPANCY_RO) v) as Hd.
  unfold read_value. destruct (mvme_read_value _ v) as [x v'] eqn:E. destruct Ho as [Hr Ho]. cbn in Hd. exists x, v'. split; [done|]. rewrite Hl in Ho.
  assert (Hk : forall l', polls v' = l' -> tdc_is l' f v').
  { intros l' Hl'. split; [congruence|]. split; [done|]. intros r. by rewrite Hr. }
  destruct l as [|[w|] l]; destruct Ho as [Ho Hp]; (split; [done | by apply Hk]).
Qed.

Lemma does_word_read w l f v : tdc_is (Some w :: l) f v -> does (read_value base VT48_DATA_FIFO) v w (tdc_is l f).
Proof.
  intros (Hm & Hl & Hf). pose proof (word_read v Hm) as Ho. pose proof (dmode_read_value (vme_addr base VT48_DATA_FIFO) v) as Hd.
  unfold does, read_value. destruct (mvme_read_value _ v) as [x v'] eqn:E. destruct Ho as [Hr Ho]. rewrite Hl in Ho. destruct Ho as [-> Hp].
  exists v'. split; [done|]. split; [by rewrite <- Hm|]. split; [done|]. intros r. by rewrite Hr.
Qed.

Lemma does_set_dmode l f v : polls v = l -> (forall r, reg_of v r = f r) -> does (set_dmode MVME_DMODE_D32) v tt (tdc_is l f).
Proof.
  intros Hl Hf. exists (mvme_set_dmode MVME_DMODE_D32 v). destruct (tdc_set_dmode MVME_DMODE_D32 v) as [Hp Hr].
  split; [done|]. split; [apply dmode_set|]. split; [congruence|]. intros r. by rewrite Hr.
Qed.

(** ** Events *)

(** The first word of a kind and what comes after it, within [n] looks. *)
Fixpoint sought (n : nat) (l : list (option Z)) : option (Z * list (option Z)) :=
  match n, l with
  | S n', Some w :: l' => if is_kind VT48_HEADER w then Some (w, l') else sought n' l'
  | S n', None :: l' => sought n' l'
  | _, _ => None
  end.

(** The words of an event up to its trailer, or up to the look that is one empty
    look too many in a row; [gap] of them were empty so far. *)
Fixpoint event_words (gap : nat) (l : list (option Z)) : list Z :=
  match l with
  | [] => []
  | None :: l' => if Nat.leb 1999 gap then [] else event_words (S gap) l'
  | Some w :: l' => if is_kind VT48_TRAILER w then [w] else w :: event_words 0 l'
  end.

Lemma sought_nil n : sought n [] = None.
Proof. by destruct n. Qed.

Lemma does_vt48_seek t l f v hdata : tdc_is l f v -> is_kind VT48_HEADER hdata = false -> (0 < t)%nat ->
  exists w t', does (vt48_seek t base hdata) v (w, t') (fun v' => exists l', tdc_is l' f v' /\ (t' <> 0%nat -> sought (pred t) l = Some (w, l'))) /\
    (t' = 0%nat <-> sought (pred t) l = None).
Proof.
  revert l v hdata. induction t as [|t IH]; intros l v hdata Hl Hh Ht; [lia|]. cbn [vt48_seek pred].
  destruct (does_look l f v Hl) as (x & v1 & E1 & H1).
  (* a look that finds nothing new *)
  assert (Hnone : forall l1 v2 h, tdc_is l1 f v2 -> is_kind VT48_HEADER h = false -> (t <> 0%nat -> sought t l = sought (pred t) l1) -> (t = 0%nat -> sought t l = None) ->
    exists w t', does (match t with O => mret (h, t) | _ => vt48_seek t base h end) v2 (w, t')
      (fun v' => exists l', tdc_is l' f v' /\ (t' <> 0%nat -> sought t l = Some (w, l'))) /\ (t' = 0%nat <-> sought t l = None)).
  { intros l1 v2 h H2 Hk Hs H0'. destruct t as [|t].
    - exists h, 0%nat. split; [|by rewrite H0']. exists v2. split; [done|]. exists l1. by split.
    - rewrite Hs by done. apply (IH l1 v2 h); [done | done | lia]. }
  assert (Hstep : forall k : Z -> VM V (Z * nat), (_ ← read_value base VT48_OCCUPANCY_RO; k hdata) v = k hdata v1).
  { intros k. by rewrite (ST_bind_Ok _ _ _ _ _ E1). }
  destruct l as [|[w|] l].
  - destruct H1 as [Hx H1]. destruct (Hnone [] v1 hdata H1 Hh) as (w & t' & (v2 & E & Q) & Ht'); [by rewrite !sought_nil | by rewrite sought_nil |].
    exists w, t'. split; [|done]. exists v2. split; [|done]. rewrite (ST_bind_Ok _ _ _ _ _ E1), Hx. rewrite (ST_bind_Ok _ _ _ hdata v1) by done. by rewrite Hh.
  - destruct H1 as [Hx H1]. destruct (does_word_read w l f v1 H1) as (v2 & E2 & H2). destruct (is_kind VT48_HEADER w) eqn:Hw.
    + exists w, t. split.
      * exists v2. split; [by rewrite (ST_bind_Ok _ _ _ _ _ E1), Hx, (ST_bind_Ok _ _ _ _ _ E2), Hw|]. exists l. split; [done|]. intros Hne.
        destruct t; [done|]. cbn [sought]. by rewrite Hw.
      * destruct t; [done|]. cbn [sought]. rewrite Hw. done.
    + destruct (Hnone l v2 w H2 Hw) as (y & t' & (v3 & E & Q) & Ht').
      { intros Hne. destruct t; [done|]. cbn [sought pred]. by rewrite Hw. } { by intros ->. }
      exists y, t'. split; [|done]. exists v3. split; [|done]. by rewrite (ST_bind_Ok _ _ _ _ _ E1), Hx, (ST_bind_Ok _ _ _ _ _ E2), Hw.
  - destruct H1 as [Hx H1]. destruct (Hnone l v1 hdata H1 Hh) as (w & t' & (v2 & E & Q) & Ht'); [by destruct t | by intros -> |].
    exists w, t'. split; [|done]. exists v2. split; [|done]. rewrite (ST_bind_Ok _ _ _ _ _ E1), Hx. rewrite (ST_bind_Ok _ _ _ hdata v1) by done. by rewrite Hh.
Qed.

Lemma does_vt48_copy fuel : forall t l f v w pdest, tdc_is l f v -> is_kind VT48_TRAILER w = false -> (0 < t <= 2000)%nat -> (t <= fuel)%nat ->
  (l <> [] -> (length l + 2000 <= fuel)%nat) ->
  does (vt48_copy fuel t base w pdest) v (pdest ++ event_words (2000 - t) l) (fun v' => exists l', tdc_is l' f v').
Proof.
  induction fuel as [|fuel IH]; intros t l f v w pdest Hl Hw Ht Htf Hlf; [lia|]. cbn [vt48_copy].
  destruct (does_look l f v Hl) as (x & v1 & E1 & H1).
  (* an empty look *)
  assert (Hempty : forall l1, fifo_empty x = true -> tdc_is l1 f v1 -> (l1 <> [] -> (length l1 + 2000 <= fuel)%nat) ->
    event_words (2000 - t) l = (if Nat.leb t 1 then [] else event_words (2000 - pred t) l1) ->
    does (occ ← read_value base VT48_OCCUPANCY_RO;
      if fifo_empty occ then if is_kind VT48_TRAILER w || Nat.eqb (pred t) 0 then mret pdest else vt48_copy fuel (pred t) base w pdest
      else w ← read_value base VT48_DATA_FIFO; let pdest := pdest ++ [w] in
        if is_kind VT48_TRAILER w then mret pdest else vt48_copy fuel 2000 base w pdest) v (pdest ++ event_words (2000 - t) l) (fun v' => exists l', tdc_is l' f v')).
  { intros l1 Hx H1' Hf1 ->. destruct (Nat.leb_spec t 1) as [Hle|Hgt].
    - exists v1. rewrite (ST_bind_Ok _ _ _ _ _ E1), Hx, Hw. replace t with 1%nat by lia. cbn [pred Nat.eqb orb]. rewrite app_nil_r. split; [done | by exists l1].
    - destruct (IH (pred t) l1 f v1 w pdest H1' Hw) as (v2 & E2 & Q); [lia | lia | done |]. exists v2. split; [|done].
      rewrite (ST_bind_Ok _ _ _ _ _ E1), Hx, Hw, (proj2 (Nat.eqb_neq (pred t) 0)) by lia. exact E2. }
  destruct l as [|[y|] l].
  - destruct H1 as [Hx H1]. apply (Hempty [] Hx H1); [done|]. by destruct (Nat.leb t 1).
  - destruct H1 as [Hx H1]. clear Hempty. destruct (does_word_read y l f v1 H1) as (v2 & E2 & H2). cbn [event_words].
    assert (Hb : (length l + 2000 <= fuel)%nat) by (specialize (Hlf ltac:(done)); cbn in Hlf; lia).
    destruct (is_kind VT48_TRAILER y) eqn:Hy.
    + exists v2. split; [by rewrite (ST_bind_Ok _ _ _ _ _ E1), Hx, (ST_bind_Ok _ _ _ _ _ E2), Hy | by exists l].
    + destruct (IH 2000%nat l f v2 y (pdest ++ [y]) H2 Hy) as (v3 & E3 & Q); [lia | lia | done |]. exists v3. split; [|done].
      rewrite (ST_bind_Ok _ _ _ _ _ E1), Hx, (ST_bind_Ok _ _ _ _ _ E2), Hy, E3. by rewrite <- app_assoc.
  - destruct H1 as [Hx H1]. apply (Hempty l Hx H1).
    + intros _. specialize (Hlf ltac:(done)). cbn in Hlf. lia.
    + cbn [event_words]. destruct (Nat.leb_spec 1999 (2000 - t)), (Nat.leb_spec t 1); try lia; [done|]. by replace (S (2000 - t)) with (2000 - pred t)%nat by lia.
Qed.

(** ** Setup *)







End tdc.

Lemma sought_shorter n l w l' : sought n l = Some (w, l') -> (length l' < length l)%nat.
Proof.
  revert l. induction n as [|n IH]; intros [|[x|] l]; cbn [sought length]; try done.
  - destruct (is_kind _ x); [intros [= <- <-]; lia|]. intros E. apply IH in E. lia.
  - intros E. apply IH in E. lia.
Qed.

(** ** The claims *)

(** C29: Reading an event of the VT48: the header has to come within 299 looks at
    the FIFO, else there is no data; then the words are stored up to the
    trailer.  The call always ends, but an event that stops without a trailer is
    answered with success after 2000 looks that find nothing, and no number of
    entries bounds what is stored. *)
Theorem vt48_event_read {V} `{MvmeLaws V} base `{!TdcModule V base} fuel (v : V) :
  (length (polls v) + 2000 <= fuel)%nat ->
  exists v', vt48_EventRead fuel base v = Ok (match sought 299 (polls v) with
    | None => (VT48_ERR_NODATA, 0, [])
    | Some (h, l) => let ws := h :: event_words 0 l in (VT48_SUCCESS, Z.of_nat (length ws), ws)
    end, v').
Proof.
  intros Hfuel. destruct (does_set_dmode base (polls v) (reg_of v) v) as (v1 & E1 & H1); [done | done |].
  unfold vt48_EventRead. rewrite (ST_bind_Ok _ _ _ _ _ E1).
  destruct (does_vt48_seek base 300 (polls v) (reg_of v) v1 0 H1) as (w & t & (v2 & E2 & l & H2 & Hs) & Hnone); [reflexivity | lia |].
  rewrite (ST_bind_Ok _ _ _ _ _ E2). change (pred 300) with 299%nat in Hs, Hnone. destruct t as [|t].
  - exists v2. by rewrite (proj1 Hnone).
  - specialize (Hs ltac:(done)). rewrite Hs. pose proof (sought_shorter _ _ _ _ Hs) as Hlen.
    assert (Hw : is_kind VT48_TRAILER w = false).
    { assert (Hh : forall n k, sought n k = Some (w, l) -> is_kind VT48_HEADER w = true).
      { induction n as [|n IH]; intros [|[x|] k]; cbn [sought]; try done; [|by apply IH].
        destruct (is_kind VT48_HEADER x) eqn:Ex; [by intros [= <- _] | by apply IH]. }
      apply Hh in Hs. unfold is_kind in *. apply Z.eqb_eq in Hs. rewrite Hs. done. }
    destruct (does_vt48_copy base fuel 2000 l (reg_of v) v2 w [w] H2 Hw) as (v3 & E3 & _); [lia | lia | lia |].
    rewrite (ST_bind_Ok _ _ _ _ _ E3). exists v3. done.
Qed.



(** ** Witnesses *)

Definition tdc_base : Z := 0x900000.
Record tdc := Tdc { tdc_dmode : Z; tdc_polls : list (option Z); tdc_regs : Z -> Z }.

Definition tdc_read (a : Z) (s : tdc) : Z * tdc :=
  if a =? vme_addr tdc_base VT48_OCCUPANCY_RO then
    match tdc_polls s with
    | Some _ :: _ => (1, s)
    | None :: l => (0x4000, Tdc (tdc_dmode s) l (tdc_regs s))
    | [] => (0x4000, s)
    end
  else if a =? vme_addr tdc_base VT48_DATA_FIFO then
    match tdc_polls s with
    | Some w :: l => (w mod 2 ^ 32, Tdc (tdc_dmode s) l (tdc_regs s))
    | _ => (0, s)
    end
  else (tdc_regs s (a - tdc_base) mod 2 ^ 32, s).

#[export] Instance tdc_bus : Mvme tdc := {
  MVME_AM_A24 := 0x39; MVME_AM_A32 := 0x09; MVME_DMODE_D32 := 3;
  MVME_BLT_NONE := 1; MVME_BLT_MBLT64 := 3; MVME_BLT_2EVME := 6; MVME_SUCCESS := 1;
  mvme_set_am _ s := s;
  mvme_get_dmode := tdc_dmode;
  mvme_set_dmode m s := Tdc m (tdc_polls s) (tdc_regs s);
  mvme_set_blt _ s := s;
  mvme_read_value := tdc_read;
  mvme_write_value a x s := (1, Tdc (tdc_dmode s) (tdc_polls s) (fun r => if r =? a - tdc_base then x else tdc_regs s r));
  mvme_read a n s := (1, [], s)
}.

#[export] Instance tdc_laws : MvmeLaws tdc.
Proof.
  constructor; try done.
  - intros a s. cbn [mvme_read_value tdc_bus]. unfold tdc_read. repeat case_match; cbn [fst]; try lia; apply Z.mod_pos_bound; lia.
  - intros a s. cbn [mvme_read_value tdc_bus mvme_get_dmode]. unfold tdc_read. by repeat case_match.
Qed.

(** The words of the FIFO as the bus delivers them. *)
Definition word32 (x : option Z) : option Z := (fun w => w mod 2 ^ 32) <$> x.

#[export] Instance tdc_module : TdcModule tdc tdc_base.
Proof.
  refine {| polls s := map word32 (tdc_polls s); reg_of s := tdc_regs s |}.
  - done.
  - intros s _. cbn [mvme_read_value tdc_bus]. unfold tdc_read. rewrite Z.eqb_refl. by destruct s as [m [|[w|] l] f].
  - intros s _. cbn [mvme_read_value tdc_bus]. unfold tdc_read.
    change (vme_addr tdc_base VT48_DATA_FIFO =? vme_addr tdc_base VT48_OCCUPANCY_RO) with false. rewrite Z.eqb_refl. by destruct s as [m [|[w|] l] f].
  - intros s reg x _ Hreg. cbn [mvme_write_value tdc_bus snd tdc_polls tdc_regs]. split; [done|]. intros r.
    assert (E : vme_addr tdc_base reg - tdc_base = reg); [|by rewrite E]. unfold vme_addr, dword, tdc_base.
    rewrite Z.mod_small; unfold VT48_CMD_REG, VT48_CSR0_REG in Hreg; lia.
Defined.

(** Noise, an empty look, and an event in two pieces. *)
Definition tdc0 : tdc := Tdc 7 [Some 5; None; Some 0x10000001; None; Some 0x20000002; Some 0x80000003; Some 9] (fun _ => 0).

Lemma vt48_event_read_witness : exists v',
  vt48_EventRead 2100 tdc_base tdc0 = Ok ((VT48_SUCCESS, 3, [0x10000001; 0x20000002; 0x80000003]), v').
Proof. destruct (vt48_event_read tdc_base 2100 tdc0) as (v' & E); [cbn; lia|]. exists v'. exact E. Defined.


(** Without a trailer. *)
Example truncated_event_succeeds :
  match vt48_EventRead 2100 tdc_base (Tdc 7 [Some 0x10000001; Some 0x20000002] (fun _ => 0)) with
  | Ok (r, _) => r = (VT48_SUCCESS, 2, [0x10000001; 0x20000002])
  | Crash _ => False
  end.
Proof. vm_compute. reflexivity. Qed.
