(* ===== verification/VmeRings.v ===== *)
(** * The event builders: data ([vme/vf48_multi.c], [vme/vt48_multi.c])

    Both files collect what up to twenty modules have read out in ring buffers
    of the MIDAS library, as segments: a marker, the number of bytes, and the
    words as they came over the bus.  They turn the segments of a unit into the
    words of a bank of the event.  The ring buffers and the list of DMA
    transfers are not part of the repository: they are an interface here.

    Addresses are those of a 32-bit machine; the list of units is one for both
    files, which keep it in parallel arrays.  The file that reads VF48s is the
    one built without [HAVE_VMICVME], which swaps the bytes of every word. *)

From S2P Require Import Prelude CStr VmeBus.

(** ** Byte order *)

Definition be2cpu (w : Z) : Z :=
  Z.lor (Z.lor (Z.lor (Z.lor 0 (Z.shiftr (Z.land w 0xFF000000) 24)) (Z.shiftr (Z.land w 0x00FF0000) 8))
    (Z.shiftl (Z.land w 0x0000FF00) 8)) (Z.shiftl (Z.land w 0x000000FF) 24).

(** ** Ring buffers and DMA *)

(** [rb_load] and [rb_store] are memory accesses at a number of words from the
    read pointer, [rb_get_rp] and [rb_get_wp] with a timeout of 0 answer their
    status (and an address), [rb_put] is what is stored from the write pointer on and
    then passed by [rb_increment_wp], and [gefvme_read_dma_multiple]
    answers its status and the words of every transfer of its list. *)
Class Rings (V : Type) := {
  SUCCESS : Z;
  DB_TIMEOUT : Z;
  rb_create : Z -> Z -> V -> Z * Z * V;
  rb_get_buffer_level : Z -> V -> Z * Z;
  rb_get_rp : Z -> V -> Z;
  rb_load : Z -> nat -> V -> Z;
  rb_store : Z -> nat -> Z -> V -> V;
  rb_increment_rp : Z -> Z -> V -> V;
  rb_get_wp : Z -> V -> Z * Z;
  rb_put : Z -> list Z -> V -> V;
  gefvme_read_dma_multiple : list (Z * Z) -> V -> Z * list (list Z) * V
}.

Definition MARKER : Z := 0xabbaabba.

(** ** Units *)

Definition MAX_VF48 : nat := 20.

Record vme_unit := VmeUnit {
  unit_addr : Z;
  unit_nbytes : Z;
  unit_bank : cstr;
  unit_rb : Z;
  first_word : Z;
  last_word : Z;
  count_reads : Z;
  count_bytes : Z
}.

Definition set_nbytes (n : Z) (u : vme_unit) : vme_unit :=
  VmeUnit (unit_addr u) n (unit_bank u) (unit_rb u) (first_word u) (last_word u) (count_reads u) (count_bytes u).
Definition set_first (w : Z) (u : vme_unit) : vme_unit :=
  VmeUnit (unit_addr u) (unit_nbytes u) (unit_bank u) (unit_rb u) w (last_word u) (count_reads u) (count_bytes u).
Definition set_last (w : Z) (u : vme_unit) : vme_unit :=
  VmeUnit (unit_addr u) (unit_nbytes u) (unit_bank u) (unit_rb u) (first_word u) w (count_reads u) (count_bytes u).
Definition counted_read (nb : Z) (u : vme_unit) : vme_unit :=
  VmeUnit (unit_addr u) nb (unit_bank u) (unit_rb u) (first_word u) (last_word u) (count_reads u + 1) (count_bytes u + nb).

(** The bus with its ring buffers, and the units. *)
Record crate (V : Type) := Crate { crate_bus : V; crate_units : list vme_unit }.
Arguments Crate {V} _ _.
Arguments crate_bus {V} _.
Arguments crate_units {V} _.

Section rings.
Context {V : Type} `{Mvme V, Rings V}.

Definition on_bus {A} (m : VM V A) : ST (crate V) A := fun c =>
  match m (crate_bus c) with Ok (a, v) => Ok (a, Crate v (crate_units c)) | Crash e => Crash e end.
Definition unit_at (i : nat) : ST (crate V) vme_unit := fun c =>
  match crate_units c !! i with Some u => Ok (u, c) | None => Crash OutOfBounds end.
Definition set_unit (i : nat) (f : vme_unit -> vme_unit) : ST (crate V) unit :=
  modify (fun c => Crate (crate_bus c) (alter f i (crate_units c))).

(** [for (i=0; i<MAX_VF48; i++) if (buf->vf48_addr[i] > 0)] with something
    to hand on. *)
Fixpoint each_unit {A} (l : list nat) (body : nat -> vme_unit -> A -> ST (crate V) A) (a : A) : ST (crate V) A :=
  match l with
  | [] => mret a
  | i :: l' =>
      u ← unit_at i;
      if 0 <? unit_addr u then a ← body i u a; each_unit l' body a else each_unit l' body a
  end.
Definition all_units : list nat := seq 0 MAX_VF48.

(** ** Segments *)

Definition ring_load (rb : Z) (k : nat) : VM V Z := fun v => Ok (rb_load rb k v, v).
Definition increment_rp (rb n : Z) : VM V unit := modify (rb_increment_rp rb n).

(** The loop of the two [init] functions that throws away what is in the ring;
    [fuel] bounds the segments. *)
Fixpoint flush_ring (fuel : nat) (rb : Z) : VM V unit := fun v =>
  let '(status, nbytes) := rb_get_buffer_level rb v in
  if negb (status =? SUCCESS) then Crash AssertFail
  else if 0 <? nbytes then
    match fuel with
    | O => Crash NoFuel
    | S fuel' =>
        (_ ← lift_res (check (rb_get_rp rb v =? SUCCESS) AssertFail);
         m ← ring_load rb 0;
         _ ← lift_res (check (m =? MARKER) AssertFail);
         n ← ring_load rb 1;
         _ ← increment_rp rb (int32 (8 + n));
         flush_ring fuel' rb) v
    end
  else Ok (tt, v).

(** Words of the memory behind the read pointer, from [k] on. *)
Fixpoint ring_words (rb : Z) (k n : nat) (v : V) : list Z :=
  match n with O => [] | S n' => rb_load rb k v :: ring_words rb (S k) n' v end.

(** The loop over all segments: their words, in the byte order of the
    processor. *)
Fixpoint stream_segments (fuel : nat) (swap : bool) (rb : Z) (p32 : list Z) : VM V (list Z) := fun v =>
  let status := rb_get_rp rb v in
  if status =? DB_TIMEOUT then Ok (p32, v)
  else if negb (status =? SUCCESS) then Crash AssertFail
  else
    match fuel with
    | O => Crash NoFuel
    | S fuel' =>
        (m ← ring_load rb 0;
         _ ← lift_res (check (m =? MARKER) AssertFail);
         n ← ring_load rb 1;
         let nw := n / 4 in
         let ws := ring_words rb 2 (Z.to_nat nw) v in
         let p32 := p32 ++ map (fun w => if swap then be2cpu w else w) ws in
         _ ← increment_rp rb (int32 (4 * nw + 8));
         stream_segments fuel' swap rb p32) v
    end.
End rings.
