(* ===== verification/EventBuild.v ===== *)
(** * The event builders: operations ([vme/vf48_multi.c], [vme/vt48_multi.c])

    [vf48_multi_read] moves what the modules have to the rings in one list of
    DMA transfers; [vf48_multi_bank_stream] makes a bank of everything in a ring and
    [vf48_multi_bank_event] a bank of one event; [vf48_read_event] reads until
    the modules are done and compares event numbers.  Those of the VT48 are
    variants.  A bank is its name and its words. *)

From S2P Require Import Prelude CStr VmeBus Vf48 Vf48Event Vt48 VmeRings.

Definition rb_size : Z := 4 * 1024 * 1024.
Definition rb_max_event_size : Z := 100 + 48 * 2 * 1000.
Definition DEADDEAD : Z := 0xdeaddead.

(** The thread's parameters that change. *)
Record thread_param := ThreadParam { is_running : bool; stop : bool }.

(** What a round of a thread does next. *)
Inductive thread_step := Sleep | Again | Break.

Section build.
Context {V : Type} `{Mvme V, Rings V}.
Abbreviation MB := (ST (crate V)).

(** ** VF48: setting up a unit *)

(** The ring is made once and otherwise emptied; [fuel] bounds its segments. *)
Definition init_ring (fuel : nat) (i : nat) (max_event_size : Z) : MB unit :=
  u ← unit_at i;
  _ ← (if unit_rb u =? 0 then
         '(status, rb) ← on_bus (fun v => let '(status, rb, v) := rb_create rb_size max_event_size v in Ok (status, rb, v));
         _ ← set_unit i (fun u => VmeUnit (unit_addr u) (unit_nbytes u) (unit_bank u) rb (first_word u) (last_word u) (count_reads u) (count_bytes u));
         lift_res (check (status =? SUCCESS) AssertFail)
       else mret tt);
  u ← unit_at i;
  on_bus (flush_ring fuel (unit_rb u)).

Definition vf48_multi_init (fuel : nat) (i : nat) (addr : Z) (bank_name : cstr) : MB Z :=
  _ ← set_unit i (fun u => VmeUnit addr 0 (take 4 bank_name) (unit_rb u) 0 0 0 0);
  _ ← init_ring fuel i rb_max_event_size;
  mret SUCCESS.

(** ** VF48: reading the modules *)

(** [while (nb%16 != 0)]: the bytes of a transfer; three rounds are enough for a
    multiple of 4. *)
Fixpoint align_bytes (fuel : nat) (incomplete : bool) (nb : Z) : res Z :=
  if Z.rem nb 16 =? 0 then Ok nb
  else match fuel with O => Crash NoFuel | S f => align_bytes f incomplete (if incomplete then nb - 4 else nb + 4) end.

(** [while ((((int)dstaddr[j])&0xF) != 0)]: the words in front of the data. *)
Fixpoint pad_words (fuel : nat) (addr : Z) (pad : nat) : res nat :=
  if Z.land (int32 addr) 0xF =? 0 then Ok pad
  else match fuel with O => Crash NoFuel | S f => pad_words f (addr + 4) (S pad) end.

(** A transfer: the unit, the words in front, and the bytes from its FIFO. *)
Record transfer := Transfer { t_unit : nat; t_pad : nat; t_addr : Z; t_bytes : Z }.

(** One module of the first loop. *)
Definition prepare_unit (i : nat) (u : vme_unit) (acc : Z * list transfer) : MB (Z * list transfer) :=
  let '(rd, ts) := acc in
  _ ← set_unit i (set_nbytes 0);
  csr ← on_bus (vf48_CsrRead (unit_addr u));
  nf ← on_bus (vf48_NFrameRead (unit_addr u));
  if negb (any_bit csr VF48_CSR_START_ACQ) || any_bit csr VF48_CSR_FIFO_EMPTY then mret acc
  else
    _ ← lift_res (check ((- 2 ^ 31 <=? nf * 4) && (nf * 4 <=? 2 ^ 31 - 16)) IntOverflow);
    nr ← lift_res (align_bytes 3 (any_bit csr VF48_CSR_FIFO_INCOMPLETE) (nf * 4));
    if nr =? 0 then mret acc
    else
      _ ← lift_res (check (0 <? nr) AssertFail);
      '(status, ptr) ← on_bus (fun v => Ok (rb_get_wp (unit_rb u) v, v));
      _ ← lift_res (check (status =? SUCCESS) AssertFail);
      pad ← lift_res (pad_words 3 (ptr + 8) 0);
      let nb := nr + 4 * Z.of_nat pad in
      _ ← lift_res (check (count_bytes u + nb <=? 2 ^ 31 - 1) IntOverflow);
      _ ← set_unit i (counted_read nb);
      mret (rd + nb, ts ++ [Transfer i pad (vme_addr (unit_addr u) VF48_DATA_FIFO_R) nr]).

(** A segment as it lies in the ring. *)
Definition segment (pad : nat) (data : list Z) : list Z :=
  MARKER :: 4 * Z.of_nat (pad + length data) :: replicate pad (be2cpu DEADDEAD) ++ data.

(** [for (j=4; j<32; j+=4)]: the last word that is not filling, looked for from
    the end of the data backwards, over what is in front of it too; [k] words
    are left to look at. *)
Definition is_filling (w : Z) : bool := is_kind 0xF0000000 w || (w =? DEADDEAD) || (w =? 0xdeadbeef).
Fixpoint find_last (k : nat) (back : list Z) : res (option Z) :=
  match k with
  | O => Ok None
  | S k' =>
      match back with
      | [] => Crash OutOfBounds
      | x :: back' => let w := be2cpu x in if is_filling w then find_last k' back' else Ok (Some w)
      end
  end.

(** The second loop: every segment becomes readable. *)
Fixpoint commit_units (ts : list transfer) (data : list (list Z)) : MB unit :=
  match ts, data with
  | t :: ts', d :: data' =>
      u ← unit_at (t_unit t);
      let s := segment (t_pad t) d in
      w ← lift_res (find_last 7 (reverse s));
      _ ← (match w with Some w => set_unit (t_unit t) (set_last w) | None => mret tt end);
      _ ← on_bus (modify (rb_put (unit_rb u) s));
      commit_units ts' data'
  | _, _ => mret tt
  end.

Definition vf48_multi_read : MB Z :=
  '(rd, ts) ← each_unit all_units prepare_unit (0, []);
  match ts with
  | [] => mret 0
  | _ =>
      _ ← on_bus (set_blt MVME_BLT_2EVME);
      '(status, data) ← on_bus (fun v =>
        let '(status, data, v) := gefvme_read_dma_multiple (map (fun t => (t_addr t, t_bytes t)) ts) v in Ok ((status, data), v));
      if negb (status =? SUCCESS) then lift_res (Crash Exited)
      else _ ← commit_units ts data; mret rd
  end.

(** ** VF48: banks *)

(** [fuel] bounds the segments of a ring. *)
Definition stream_unit (fuel : nat) (swap : bool) (u : vme_unit) : VM V (list Z) := stream_segments fuel swap (unit_rb u) [].

Definition vf48_multi_bank_stream (fuel : nat) (swap : bool) : MB (Z * list (cstr * list Z)) :=
  each_unit all_units (fun _ u '(rd, banks) =>
    p32 ← on_bus (stream_unit fuel swap u);
    mret (rd + 4 * Z.of_nat (length p32), banks ++ [(unit_bank u, p32)])) (0, []).

(** The state of the copy of one event: [copy], the event numbers of the header
    and the trailer, the words of the bank, and [incr]. *)
Record scan := Scan { sc_copy : bool; sc_header : Z; sc_trailer : Z; sc_out : list Z; sc_incr : Z }.

(** The copy of a word: it starts with a header. *)
Definition scan_word (header mask w : Z) (s : scan) : scan :=
  let s := if is_kind header w then Scan true (Z.land w mask) (sc_trailer s) (sc_out s) (sc_incr s) else s in
  Scan (sc_copy s) (sc_header s) (sc_trailer s) (if sc_copy s then sc_out s ++ [w] else sc_out s) (sc_incr s + 4).

(** The loop over a segment, with [n] words left from [j] on: where it stops.  The
    word behind a trailer is looked at, also behind the end of the segment: the same event
    number once more does not end the event. *)
Fixpoint scan_segment (header trailer mask : Z) (n j : nat) (word : nat -> Z) (s : scan) : nat * scan :=
  match n with
  | O => (j, s)
  | S n' =>
      let w := word j in
      let s := scan_word header mask w s in
      if is_kind trailer w then
        let s := Scan false (sc_header s) (Z.land w mask) (sc_out s) (sc_incr s) in
        let ww := word (S j) in
        if is_kind header ww && (Z.land ww 0xFFFF =? sc_trailer s) then scan_segment header trailer mask n' (S j) word s
        else (S j, s)
      else scan_segment header trailer mask n' (S j) word s
  end.

(** A word of the segment at the read pointer. *)
Definition segment_word (swap : bool) (rb : Z) (v : V) (j : nat) : Z :=
  let w := rb_load rb (2 + j) v in if swap then be2cpu w else w.

(** [while (1)]: what is behind the event gets a header of its own, which is
    written over it. *)
Fixpoint event_segments (fuel : nat) (swap : bool) (rb : Z) (s : scan) : VM V scan := fun v =>
  let status := rb_get_rp rb v in
  if status =? DB_TIMEOUT then Ok (s, v)
  else if negb (status =? SUCCESS) then Crash AssertFail
  else
    match fuel with
    | O => Crash NoFuel
    | S fuel' =>
        (m ← ring_load rb 0;
         _ ← lift_res (check (m =? MARKER) AssertFail);
         nbytes ← ring_load rb 1;
         _ ← lift_res (check (0 <? nbytes) AssertFail);
         _ ← lift_res (check (nbytes <? rb_size) AssertFail);
         let '(j, s) := scan_segment VF48_HEADER VF48_TRAILER 0x00FFFFFF (Z.to_nat (nbytes / 4)) 0 (segment_word swap rb v)
                          (Scan (sc_copy s) (sc_header s) (sc_trailer s) (sc_out s) 8) in
         x ← ring_load rb (2 + j);
         let incr := if (x =? DEADDEAD) || (x =? 0xaddeadde) then sc_incr s + 4 else sc_incr s in
         _ ← (if negb (incr =? nbytes + 8) then
                let wp32 := Z.to_nat (incr / 4) in
                _ ← modify (rb_store rb wp32 MARKER);
                modify (rb_store rb (S wp32) ((nbytes - incr) mod 2 ^ 32))
              else mret tt);
         _ ← increment_rp rb incr;
         let s := Scan (sc_copy s) (sc_header s) (sc_trailer s) (sc_out s) incr in
         if 0 <? sc_trailer s then mret s else event_segments fuel' swap rb s) v
    end.

Definition event_unit (fuel : nat) (swap : bool) (u : vme_unit) : VM V scan :=
  event_segments fuel swap (unit_rb u) (Scan true (-1) (-1) [] 0).

Definition vf48_multi_bank_event (fuel : nat) (swap : bool) : MB (Z * list (cstr * list Z)) :=
  each_unit all_units (fun _ u '(rd, banks) =>
    s ← on_bus (event_unit fuel swap u);
    mret (rd + 4 * Z.of_nat (length (sc_out s)), banks ++ [(unit_bank u, sc_out s)])) (0, []).

(** ** VF48: an event *)

Fixpoint read_loop (n : nat) : MB unit :=
  match n with
  | O => mret tt
  | S n' =>
      rd ← vf48_multi_read;
      if 0 <? rd then read_loop n'
      else
        more ← each_unit all_units (fun _ u more => mret (more || negb (is_kind VF48_TRAILER (last_word u)))) false;
        if more : bool then read_loop n' else mret tt
  end.

(** The first word of a bank that is not filling, of ten; the words behind the
    bank are not the program's. *)
Fixpoint bank_first (n : nat) (bank : list Z) : res (option Z) :=
  match n with
  | O => Ok None
  | S n' =>
      match bank with
      | [] => Crash OutOfBounds
      | w :: bank' => if is_kind 0xD0000000 w || is_kind 0xF0000000 w then bank_first n' bank' else Ok (Some w)
      end
  end.

Definition event_no (kind w : Z) : Z := if is_kind kind w then Z.land w 0xFFFFFF else -1.

(** The units whose event numbers differ from the one expected. *)
Definition compare_unit (expected : Z) (banks : list (cstr * list Z)) (i : nat) (u : vme_unit) (acc : nat * nat) : MB (nat * nat) :=
  let '(k, errors) := acc in
  b ← lift_res (match banks !! k with Some b => Ok b | None => Crash OutOfBounds end);
  w ← lift_res (bank_first 10 (snd b));
  _ ← (match w with Some w => set_unit i (set_first w) | None => mret tt end);
  u ← unit_at i;
  let fe := Z.land expected 0xFFFFFF in
  let bad := negb (event_no VF48_HEADER (first_word u) =? fe) || negb (event_no VF48_TRAILER (last_word u) =? fe) in
  mret (S k, if bad then S errors else errors).

Definition vf48_read_event (fuel : nat) (expected : Z) : MB (Z * list (cstr * list Z) * nat) :=
  _ ← each_unit all_units (fun i _ _ => set_unit i (fun u => set_last 0 (set_first 0 u))) tt;
  _ ← read_loop 20;
  '(countb, banks) ← vf48_multi_bank_stream fuel true;
  '(_, errors) ← each_unit all_units (compare_unit expected banks) (O, O);
  mret (countb, banks, errors).

(** A round of [vf48_multi_thread]. *)
Definition vf48_multi_thread (p : thread_param) : MB thread_step :=
  if stop p then mret Break
  else if negb (is_running p) then mret Sleep
  else
    nb ← vf48_multi_read;
    mret (if nb <? 0 then Break else if nb =? 0 then Sleep else Again).

(** ** VT48 *)

Definition vt48_max_event_size : Z := 100 * 1024.

Definition vt48_multi_init (fuel : nat) (i : nat) (addr : Z) (bank_name : cstr) : MB Z :=
  _ ← set_unit i (fun u => VmeUnit addr 0 (take 4 bank_name) (unit_rb u) (first_word u) 0 (count_reads u) (count_bytes u));
  _ ← init_ring fuel i vt48_max_event_size;
  mret SUCCESS.

Definition vt48_prepare (i : nat) (u : vme_unit) (acc : Z * list transfer) : MB (Z * list transfer) :=
  let '(rd, ts) := acc in
  _ ← set_unit i (set_nbytes 0);
  csr ← on_bus (vt48_RegRead (unit_addr u) VT48_CSR_RO);
  let nb := Z.land csr 0xFFF * 4 in
  if nb =? 0 then mret acc
  else
    _ ← set_unit i (set_nbytes nb);
    '(status, _) ← on_bus (fun v => Ok (rb_get_wp (unit_rb u) v, v));
    _ ← lift_res (check (status =? SUCCESS) AssertFail);
    mret (rd + nb, ts ++ [Transfer i 0 (vme_addr (unit_addr u) VT48_DATA_FIFO) nb]).

Fixpoint vt48_commit (ts : list transfer) (data : list (list Z)) : MB unit :=
  match ts, data with
  | t :: ts', d :: data' =>
      u ← unit_at (t_unit t);
      _ ← set_unit (t_unit t) (set_last (int32 (be2cpu (List.last d 0))));
      _ ← on_bus (modify (rb_put (unit_rb u) (segment 0 d)));
      vt48_commit ts' data'
  | _, _ => mret tt
  end.

(** On an error the modules print their status. *)
Definition vt48_multi_read : MB Z :=
  '(rd, ts) ← each_unit all_units vt48_prepare (0, []);
  match ts with
  | [] => mret 0
  | _ =>
      _ ← on_bus (set_blt MVME_BLT_NONE);
      '(status, data) ← on_bus (fun v =>
        let '(status, data, v) := gefvme_read_dma_multiple (map (fun t => (t_addr t, t_bytes t)) ts) v in Ok ((status, data), v));
      if negb (status =? SUCCESS) then
        _ ← each_unit all_units (fun _ u _ => _ ← on_bus (vt48_Status (unit_addr u)); mret tt) tt;
        mret (-1)
      else _ ← vt48_commit ts data; mret rd
  end.

(** One event: an empty ring is not expected, and what is behind the event stays
    without a header. *)
Fixpoint vt48_event_segments (fuel : nat) (swap : bool) (rb : Z) (s : scan) : VM V scan := fun v =>
  if negb (rb_get_rp rb v =? SUCCESS) then Crash AssertFail
  else
    match fuel with
    | O => Crash NoFuel
    | S fuel' =>
        (m ← ring_load rb 0;
         _ ← lift_res (check (m =? MARKER) AssertFail);
         nbytes ← ring_load rb 1;
         let '(_, s) := scan_segment VT48_HEADER VT48_TRAILER 0xFFFF (Z.to_nat (int32 nbytes / 4)) 0 (segment_word swap rb v)
                          (Scan (sc_copy s) (sc_header s) (sc_trailer s) (sc_out s) 8) in
         _ ← increment_rp rb (sc_incr s);
         if 0 <=? sc_trailer s then mret s else vt48_event_segments fuel' swap rb s) v
    end.

Definition vt48_event_unit (fuel : nat) (swap : bool) (u : vme_unit) : VM V scan :=
  vt48_event_segments fuel swap (unit_rb u) (Scan false (-1) (-1) [] 0).

Definition vt48_multi_bank (fuel : nat) (swap one_event : bool) : MB (Z * list (cstr * list Z)) :=
  each_unit all_units (fun _ u '(rd, banks) =>
    p32 ← on_bus (if one_event then s ← vt48_event_unit fuel swap u; mret (sc_out s)
                  else stream_unit fuel swap u);
    mret (rd + 4 * Z.of_nat (length p32), banks ++ [(unit_bank u, p32)])) (0, []).

Definition vt48_multi_thread (p : thread_param) : MB thread_step :=
  if stop p then mret Break
  else if negb (is_running p) then mret Sleep
  else
    nb ← vt48_multi_read;
    mret (if nb <? 0 then Break else if nb =? 0 then Sleep else Again).
End build.
