(* ===== verification/EventProps.v ===== *)
(** * The event builders: properties of [EventBuild.v]

    A ring that holds segments is turned into the words of a bank, all of them,
    in order; an event that ends with its segment is taken out exactly; and what
    happens when there are words behind it. *)

From S2P Require Import Prelude CStr VmeBus Vf48 Vf48Param Vf48Event Vt48 VmeRings EventBuild.

(** ** Rings *)

(** A segment in a ring. *)
Definition encode (l : list Z) : list Z := MARKER :: 4 * Z.of_nat (length l) :: l.
Definition small (l : list Z) : Prop := 4 * Z.of_nat (length l) < rb_size.

(** What is relied on of the ring buffers of MIDAS: the words that can be read are
    a queue, an empty one is a timeout, the read pointer is at its first word
    and the segment there lies in one piece behind it, and writing changes the
    words.  [load_behind] says this of the word behind the segment too, which
    the code reads for one event (line 644 of [vf48_multi.c]): the words of
    another segment are there unless the ring starts again at the front of its
    memory behind the first one, and then the code reads a word that is not of the ring.
    That place of the ring is idealised here, and [store_is] is so for the words behind a segment. *)
Class RingLaws (V : Type) `{Mvme V, Rings V} := {
  ring : Z -> V -> list Z;
  timeout_no_success : SUCCESS <> DB_TIMEOUT;
  level_is rb v : rb_get_buffer_level rb v = (SUCCESS, 4 * Z.of_nat (length (ring rb v)));
  get_rp_is rb v : rb_get_rp rb v = match ring rb v with [] => DB_TIMEOUT | _ => SUCCESS end;
  load_first rb w r v : ring rb v = w :: r -> rb_load rb 0 v = w;
  load_segment rb l r k w v : ring rb v = encode l ++ r -> encode l !! k = Some w -> rb_load rb k v = w;
  load_behind rb l w r v : ring rb v = encode l ++ w :: r -> rb_load rb (length (encode l)) v = w;
  store_is rb k w v rb' : ring rb' (rb_store rb k w v) = if rb' =? rb then <[k:=w]> (ring rb v) else ring rb' v;
  increment_is rb n v rb' : (n <= length (ring rb v))%nat ->
    ring rb' (rb_increment_rp rb (4 * Z.of_nat n) v) = if rb' =? rb then drop n (ring rb v) else ring rb' v
}.

Lemma segment_encode pad d : segment pad d = encode (replicate pad (be2cpu DEADDEAD) ++ d).
Proof. unfold segment, encode. rewrite length_app, length_replicate. done. Qed.

Section rings.
Context {V : Type} `{RingLaws V}.
Implicit Types v : V.

(** The words behind the header of a segment. *)
Lemma ring_words_is rb l r v : ring rb v = encode l ++ r -> ring_words rb 2 (length l) v = l.
Proof.
  intros Hr.
  assert (Hgo : forall l2 l1, l = l1 ++ l2 -> ring_words rb (2 + length l1) (length l2) v = l2).
  { induction l2 as [|w l2 IH]; intros l1 Hl; [done|]. cbn [ring_words length]. f_equal.
    - apply (load_segment rb l r _ w v Hr). cbn. rewrite Hl. by apply list_lookup_middle.
    - specialize (IH (l1 ++ [w])). rewrite length_app, Nat.add_1_r in IH. apply IH. by rewrite Hl, <- app_assoc. }
  by apply (Hgo l []).
Qed.

Lemma segment_head rb l r v : ring rb v = encode l ++ r ->
  rb_get_rp rb v = SUCCESS /\ rb_load rb 0 v = MARKER /\ rb_load rb 1 v = 4 * Z.of_nat (length l) /\ ring_words rb 2 (length l) v = l.
Proof.
  intros Hr. split_and!.
  - by rewrite get_rp_is, Hr.
  - by apply (load_segment rb l r 0 _ v Hr).
  - by apply (load_segment rb l r 1 _ v Hr).
  - by apply (ring_words_is rb l r).
Qed.

Lemma ring_load_is rb k w v : rb_load rb k v = w -> ring_load rb k v = Ok (w, v).
Proof. by intros <-. Qed.

Lemma increment_segment rb l r v rb' : small l -> ring rb v = encode l ++ r ->
  ring rb' (rb_increment_rp rb (int32 (4 * (4 * Z.of_nat (length l) / 4) + 8)) v) = if rb' =? rb then r else ring rb' v.
Proof.
  intros Hl Hr. unfold small, rb_size in Hl. rewrite (Z.mul_comm 4 (Z.of_nat (length l))), Z.div_mul by lia.
  replace (4 * Z.of_nat (length l) + 8) with (4 * Z.of_nat (2 + length l)) by lia. rewrite int32_id by lia.
  rewrite increment_is by (rewrite Hr, length_app; cbn; lia). rewrite Hr. cbn [encode app drop Nat.add]. by rewrite drop_app_length.
Qed.

(** ** Everything in a ring *)

Definition swapped (swap : bool) (w : Z) : Z := if swap then be2cpu w else w.

Lemma stream_segments_is fuel swap rb segs : forall p32 v, (length segs <= fuel)%nat -> Forall small segs -> ring rb v = concat (map encode segs) ->
  exists v', stream_segments fuel swap rb p32 v = Ok (p32 ++ map (swapped swap) (concat segs), v') /\
    forall rb', ring rb' v' = if rb' =? rb then [] else ring rb' v.
Proof.
  revert segs. induction fuel as [|fuel IH]; intros [|l segs] p32 v Hf Hs Hr; cbn [length] in Hf; try lia.
  1, 2: exists v; cbn [stream_segments]; rewrite get_rp_is, Hr; cbn [map concat]; rewrite Z.eqb_refl, app_nil_r;
    (split; [done|]); intros rb'; destruct (Z.eqb_spec rb' rb) as [-> |]; [by rewrite Hr | done].
  cbn [map concat] in Hr. destruct (segment_head rb l _ v Hr) as (E1 & E2 & E3 & E4). apply Forall_cons in Hs as [Hl Hs].
  cbn [stream_segments]. rewrite E1. pose proof timeout_no_success as Hne. rewrite (proj2 (Z.eqb_neq _ _)), Z.eqb_refl by done. cbn [negb].
  rewrite (ST_bind_Ok _ _ _ _ _ (ring_load_is _ _ _ _ E2)), (ST_bind_Ok _ _ _ tt v) by done.
  rewrite (ST_bind_Ok _ _ _ _ _ (ring_load_is _ _ _ _ E3)). cbv zeta.
  assert (Hn : Z.to_nat (4 * Z.of_nat (length l) / 4) = length l) by (rewrite Z.mul_comm, Z.div_mul by lia; lia). rewrite Hn, E4.
  set (v1 := rb_increment_rp rb (int32 (4 * (4 * Z.of_nat (length l) / 4) + 8)) v). rewrite (ST_bind_Ok _ _ _ tt v1) by done.
  assert (Hv1 : forall rb', ring rb' v1 = if rb' =? rb then concat (map encode segs) else ring rb' v) by (intros rb'; by apply increment_segment).
  destruct (IH segs (p32 ++ map (swapped swap) l) v1) as (v2 & E & Hv2); [lia | done | by rewrite Hv1, Z.eqb_refl |].
  exists v2. cbn [concat]. rewrite map_app, app_assoc. split; [exact E|]. intros rb'. rewrite Hv2, Hv1. by destruct (rb' =? rb).
Qed.

(** ** One event *)

(** A word copied: nothing is lost once the copy is on. *)
Definition copied (header mask : Z) (l : list Z) (s : scan) : scan := fold_left (fun s w => scan_word header mask w s) l s.

Lemma copied_copy header mask l : forall s, sc_copy s = true ->
  sc_copy (copied header mask l s) = true /\ sc_out (copied header mask l s) = sc_out s ++ l /\
  sc_trailer (copied header mask l s) = sc_trailer s /\ sc_incr (copied header mask l s) = sc_incr s + 4 * Z.of_nat (length l).
Proof.
  induction l as [|w l IH]; intros s Hs; cbn [copied fold_left length]; [by rewrite app_nil_r; split_and!; try done; lia|].
  destruct (IH (scan_word header mask w s)) as (A & B & C & D).
  { unfold scan_word. by destruct (is_kind header w). }
  unfold copied in *. split_and!; [done | rewrite B | rewrite C | rewrite D]; unfold scan_word; destruct (is_kind header w); cbn; rewrite ?Hs, <- ?app_assoc; try done; lia.
Qed.

(** The scan over words without a trailer. *)
Lemma scan_words header trailer mask l : forall n j word s, (forall k w, l !! k = Some w -> word (j + k)%nat = w) ->
  Forall (fun w => is_kind trailer w = false) l ->
  scan_segment header trailer mask (length l + n) j word s = scan_segment header trailer mask n (j + length l) word (copied header mask l s).
Proof.
  induction l as [|w l IH]; intros n j word s Hw Ht; cbn [length Nat.add]; [by rewrite Nat.add_0_r|]. apply Forall_cons in Ht as [Hx Ht].
  cbn [scan_segment]. pose proof (Hw 0%nat w eq_refl) as E. rewrite Nat.add_0_r in E. rewrite E, Hx.
  rewrite (IH n (S j) word (scan_word header mask w s)).
  - replace (S j + length l)%nat with (j + S (length l))%nat by lia. done.
  - intros k x Hk. specialize (Hw (S k) x Hk). by replace (S j + k)%nat with (j + S k)%nat by lia.
  - done.
Qed.

(** The scan up to a trailer that ends the event. *)
Lemma scan_event header trailer mask pre t n j word s : (forall k w, (pre ++ [t]) !! k = Some w -> word (j + k)%nat = w) ->
  Forall (fun w => is_kind trailer w = false) pre -> is_kind trailer t = true -> sc_copy s = true -> is_kind header t = false ->
  is_kind header (word (j + S (length pre))%nat) && (Z.land (word (j + S (length pre))%nat) 0xFFFF =? Z.land t mask) = false ->
  exists s', scan_segment header trailer mask (S (length pre + n)) j word s = ((j + S (length pre))%nat, s') /\ sc_copy s' = false /\
    sc_out s' = sc_out s ++ pre ++ [t] /\ sc_trailer s' = Z.land t mask /\ sc_incr s' = sc_incr s + 4 * Z.of_nat (S (length pre)).
Proof.
  intros Hw Hpre Ht Hc Hh Hdup. replace (S (length pre + n)) with (length pre + S n)%nat by lia.
  rewrite (scan_words header trailer mask pre (S n) j word s); [|by intros k w Hk; apply Hw; by apply lookup_app_l_Some | done].
  destruct (copied_copy header mask pre s Hc) as (A & B & C & D). cbn [scan_segment].
  assert (E : word (j + length pre)%nat = t) by (apply Hw; by apply list_lookup_middle). rewrite E, Ht.
  set (s1 := scan_word header mask t (copied header mask pre s)).
  assert (Hs1 : sc_out s1 = sc_out s ++ pre ++ [t] /\ sc_incr s1 = sc_incr s + 4 * Z.of_nat (S (length pre))).
  { unfold s1, scan_word. rewrite Hh. cbn [sc_out sc_incr sc_copy]. rewrite A, B, D, <- app_assoc. split; [done | lia]. }
  clearbody s1. cbv zeta. cbn [sc_trailer]. replace (S (j + length pre)) with (j + S (length pre))%nat by lia. rewrite Hdup.
  destruct Hs1 as [Ho Hi]. eexists. split; [reflexivity|]. by cbn.
Qed.

Lemma segment_word_is swap rb l r v j w : ring rb v = encode l ++ r -> l !! j = Some w -> segment_word swap rb v j = swapped swap w.
Proof. intros Hr Hw. unfold segment_word. by rewrite (load_segment rb l r (2 + j) w v Hr Hw). Qed.

(** An event as it lies in a segment: no trailer before its last word, which is
    one with an event number. *)
Definition event_in (swap : bool) (trailer header mask : Z) (pre : list Z) (t : Z) : Prop :=
  Forall (fun w => is_kind trailer (swapped swap w) = false) pre /\ is_kind trailer (swapped swap t) = true /\
  is_kind header (swapped swap t) = false.

(** What the scan makes of it, from behind [front] on, and of the word [w] behind it. *)
Lemma scan_at swap rb header trailer mask front pre t rest r v w s : ring rb v = encode (front ++ pre ++ t :: rest) ++ r ->
  event_in swap trailer header mask pre t -> rb_load rb (2 + (length front + S (length pre))) v = w -> sc_copy s = true ->
  is_kind header (swapped swap w) && (Z.land (swapped swap w) 0xFFFF =? Z.land (swapped swap t) mask) = false ->
  exists s', scan_segment header trailer mask (length (pre ++ t :: rest)) (length front) (segment_word swap rb v) s = ((length front + S (length pre))%nat, s') /\
    sc_out s' = sc_out s ++ map (swapped swap) (pre ++ [t]) /\ sc_trailer s' = Z.land (swapped swap t) mask /\
    sc_incr s' = sc_incr s + 4 * Z.of_nat (S (length pre)).
Proof.
  intros Hr (Hpre & Ht & Hh) Hw Hc Hdup.
  assert (Happ : front ++ pre ++ t :: rest = front ++ (pre ++ [t]) ++ rest) by (by rewrite <- !app_assoc).
  assert (En : segment_word swap rb v (length front + S (length (map (swapped swap) pre))) = swapped swap w).
  { rewrite length_map. unfold segment_word, swapped. by rewrite Hw. }
  destruct (scan_event header trailer mask (map (swapped swap) pre) (swapped swap t) (length rest) (length front) (segment_word swap rb v) s) as (s' & E & _ & Ho & Htr & Hi).
  - intros k x Hk. replace (map (swapped swap) pre ++ [swapped swap t]) with (map (swapped swap) (pre ++ [t])) in Hk by (by rewrite map_app).
    rewrite list_lookup_fmap in Hk. destruct ((pre ++ [t]) !! k) as [y|] eqn:Ey; [|done]. injection Hk as <-.
    apply (segment_word_is swap rb _ _ _ _ _ Hr). rewrite Happ, lookup_app_r by lia. replace (length front + k - length front)%nat with k by lia.
    by apply lookup_app_l_Some.
  - by rewrite Forall_map.
  - done.
  - done.
  - done.
  - by rewrite En.
  - rewrite length_map in E, Hi. rewrite length_app. cbn [length]. rewrite Nat.add_succ_r. exists s'. rewrite map_app. by split_and!.
Qed.

Lemma scan_encoded swap rb header trailer mask pre t rest r v w s : ring rb v = encode (pre ++ t :: rest) ++ r ->
  event_in swap trailer header mask pre t -> rb_load rb (2 + S (length pre)) v = w -> sc_copy s = true ->
  is_kind header (swapped swap w) && (Z.land (swapped swap w) 0xFFFF =? Z.land (swapped swap t) mask) = false ->
  exists s', scan_segment header trailer mask (length (pre ++ t :: rest)) 0 (segment_word swap rb v) s = (S (length pre), s') /\
    sc_out s' = sc_out s ++ map (swapped swap) (pre ++ [t]) /\ sc_trailer s' = Z.land (swapped swap t) mask /\
    sc_incr s' = sc_incr s + 4 * Z.of_nat (S (length pre)).
Proof. exact (scan_at swap rb header trailer mask [] pre t rest r v w s). Qed.

Lemma nat_words l : Z.to_nat (4 * Z.of_nat (length (l : list Z)) / 4) = length l.
Proof. rewrite Z.mul_comm, Z.div_mul by lia. lia. Qed.

(** *** The rounds of the loop for one event *)

(** The checks at the head of a round, for a segment that is not empty. *)
Lemma event_round fuel swap rb s l r v : l <> [] -> small l -> ring rb v = encode l ++ r ->
  event_segments (S fuel) swap rb s v =
    (let '(j, s) := scan_segment VF48_HEADER VF48_TRAILER 0x00FFFFFF (length l) 0 (segment_word swap rb v)
                      (Scan (sc_copy s) (sc_header s) (sc_trailer s) (sc_out s) 8) in
     x ← ring_load rb (2 + j);
     let incr := if (x =? DEADDEAD) || (x =? 0xaddeadde) then sc_incr s + 4 else sc_incr s in
     _ ← (if negb (incr =? 4 * Z.of_nat (length l) + 8) then
            let wp32 := Z.to_nat (incr / 4) in
            _ ← modify (rb_store rb wp32 MARKER);
            modify (rb_store rb (S wp32) ((4 * Z.of_nat (length l) - incr) mod 2 ^ 32))
          else mret tt);
     _ ← increment_rp rb incr;
     let s := Scan (sc_copy s) (sc_header s) (sc_trailer s) (sc_out s) incr in
     if 0 <? sc_trailer s then mret s else event_segments fuel swap rb s) v.
Proof.
  intros Hne Hl Hr. destruct (segment_head rb l r v Hr) as (E1 & E2 & E3 & _). cbn [event_segments]. rewrite E1.
  pose proof timeout_no_success as Hn. rewrite (proj2 (Z.eqb_neq _ _)), Z.eqb_refl by done. cbn [negb].
  rewrite (ST_bind_Ok _ _ _ _ _ (ring_load_is _ _ _ _ E2)), (ST_bind_Ok _ _ _ tt v) by done.
  rewrite (ST_bind_Ok _ _ _ _ _ (ring_load_is _ _ _ _ E3)).
  rewrite (ST_bind_Ok _ _ _ tt v); [|unfold lift_res, check; rewrite (proj2 (Z.ltb_lt _ _)); [done | destruct l; [done | cbn [length]; lia]]].
  rewrite (ST_bind_Ok _ _ _ tt v) by (unfold lift_res, check; by rewrite (proj2 (Z.ltb_lt _ _))). by rewrite nat_words.
Qed.

(** The word behind is not filling. *)
Definition no_filling (w : Z) : Prop := w <> DEADDEAD /\ w <> 0xaddeadde.

Lemma no_filling_false w : no_filling w -> (w =? DEADDEAD) || (w =? 0xaddeadde) = false.
Proof. intros [A B]. by rewrite (proj2 (Z.eqb_neq _ _) A), (proj2 (Z.eqb_neq _ _) B). Qed.

Lemma increment_words rb n l r v incr v' : incr = 8 + 4 * Z.of_nat n -> ring rb v = encode l ++ r -> (n <= length l)%nat ->
  v' = rb_increment_rp rb incr v -> forall rb', ring rb' v' = if rb' =? rb then drop n l ++ r else ring rb' v.
Proof.
  intros -> Hr Hn -> rb'. replace (8 + 4 * Z.of_nat n) with (4 * Z.of_nat (2 + n)) by lia.
  rewrite increment_is by (rewrite Hr, length_app; cbn [encode length]; lia). rewrite Hr. cbn [encode app drop Nat.add].
  by rewrite drop_app_le.
Qed.



(** A header written over the two words behind the first [n]. *)
Lemma header_over (pre l r : list Z) (a b x : Z) n : length pre = n ->
  drop n (<[S n := x]> (<[n := MARKER]> (pre ++ (a :: b :: l) ++ r))) = MARKER :: x :: l ++ r.
Proof.
  intros <-. rewrite insert_app_r_alt by lia. rewrite Nat.sub_diag. rewrite insert_app_r_alt by lia.
  rewrite drop_app_length. replace (S (length pre) - length pre)%nat with 1%nat by lia. done.
Qed.

(** The segment in which the event ends, with words behind the event. *)
Lemma round_cut fuel swap rb s pre t a b rest r v : small (pre ++ t :: a :: b :: rest) ->
  ring rb v = encode (pre ++ t :: a :: b :: rest) ++ r ->
  event_in swap VF48_TRAILER VF48_HEADER 0x00FFFFFF pre t -> sc_copy s = true -> 0 < Z.land (swapped swap t) 0x00FFFFFF -> no_filling a ->
  is_kind VF48_HEADER (swapped swap a) && (Z.land (swapped swap a) 0xFFFF =? Z.land (swapped swap t) 0x00FFFFFF) = false ->
  exists s' v', event_segments (S fuel) swap rb s v = Ok (s', v') /\ sc_out s' = sc_out s ++ map (swapped swap) (pre ++ [t]) /\
    forall rb', ring rb' v' = if rb' =? rb then encode rest ++ r else ring rb' v.
Proof.
  intros Hl Hr Hev Hc Hno Hfill Hdup. set (n := (2 + S (length pre))%nat). assert (Hne : pre ++ t :: a :: b :: rest <> []) by (by destruct pre).
  rewrite (event_round fuel swap rb s _ r v Hne Hl Hr). set (s0 := Scan (sc_copy s) (sc_header s) (sc_trailer s) (sc_out s) 8).
  set (len := 4 * Z.of_nat (length (pre ++ t :: a :: b :: rest))) in *.
  assert (Hring : ring rb v = (MARKER :: len :: pre ++ [t]) ++ (a :: b :: rest) ++ r).
  { rewrite Hr. unfold encode. cbn [app]. rewrite <- !app_assoc. done. }
  assert (Hnlen : length (MARKER :: len :: pre ++ [t]) = n) by (cbn [length]; rewrite length_app; cbn [length]; lia).
  assert (Hw : rb_load rb n v = a).
  { apply (load_segment rb _ r _ _ _ Hr). unfold n. cbn.
    replace (pre ++ t :: a :: b :: rest) with ((pre ++ [t]) ++ a :: b :: rest) by (by rewrite <- app_assoc).
    apply list_lookup_middle. rewrite length_app. cbn. lia. }
  destruct (scan_encoded swap rb VF48_HEADER VF48_TRAILER 0x00FFFFFF pre t (a :: b :: rest) r v a s0 Hr Hev Hw Hc Hdup) as (s1 & E & Ho & Htr & Hi).
  rewrite E. clear E. rewrite (ST_bind_Ok _ _ _ _ _ (ring_load_is _ _ _ _ Hw)), (no_filling_false a Hfill). cbv zeta iota. cbn [sc_incr sc_out s0] in *.
  assert (Hincr : sc_incr s1 = 4 * Z.of_nat n) by (unfold n; lia).
  assert (Hlen : len - sc_incr s1 = 4 * Z.of_nat (length rest)) by (unfold len; rewrite Hincr, length_app; unfold n; cbn [length]; lia).
  rewrite (proj2 (Z.eqb_neq (sc_incr s1) _)) by lia. cbn [negb].
  replace (Z.to_nat (sc_incr s1 / 4)) with n by (rewrite Hincr, Z.mul_comm, Z.div_mul by lia; lia).
  rewrite Hlen. unfold small, rb_size in Hl. rewrite Z.mod_small by (unfold len in *; rewrite length_app in *; cbn [length] in *; lia).
  set (x := 4 * Z.of_nat (length rest)). set (v1 := rb_store rb (S n) x (rb_store rb n MARKER v)).
  rewrite (ST_bind_Ok _ _ _ tt v1) by done. set (v2 := rb_increment_rp rb (sc_incr s1) v1). rewrite (ST_bind_Ok _ _ _ tt v2) by done.
  cbn [sc_trailer]. rewrite (proj2 (Z.ltb_lt _ _)) by lia. eexists _, v2. split; [reflexivity|]. cbn [sc_out]. split; [done|].
  assert (Hv1 : forall rb', ring rb' v1 = if rb' =? rb then <[S n := x]> (<[n := MARKER]> (ring rb v)) else ring rb' v).
  { intros rb'. unfold v1. rewrite !store_is, Z.eqb_refl. by destruct (rb' =? rb). }
  intros rb'. unfold v2. rewrite Hincr, increment_is, !Hv1, Z.eqb_refl.
  - destruct (rb' =? rb); [|done]. rewrite Hring. by apply header_over.
  - rewrite Hv1, Z.eqb_refl, !length_insert, Hring, length_app. lia.
Qed.



(** *** The event of a VT48 *)

Lemma vt48_round fuel swap rb s l r v : small l -> ring rb v = encode l ++ r ->
  vt48_event_segments (S fuel) swap rb s v =
    (let '(_, s) := scan_segment VT48_HEADER VT48_TRAILER 0xFFFF (length l) 0 (segment_word swap rb v)
                      (Scan (sc_copy s) (sc_header s) (sc_trailer s) (sc_out s) 8) in
     _ ← increment_rp rb (sc_incr s);
     if 0 <=? sc_trailer s then mret s else vt48_event_segments fuel swap rb s) v.
Proof.
  intros Hl Hr. destruct (segment_head rb l r v Hr) as (E1 & E2 & E3 & _). cbn [vt48_event_segments]. rewrite E1, Z.eqb_refl. cbn [negb].
  rewrite (ST_bind_Ok _ _ _ _ _ (ring_load_is _ _ _ _ E2)), (ST_bind_Ok _ _ _ tt v) by done.
  rewrite (ST_bind_Ok _ _ _ _ _ (ring_load_is _ _ _ _ E3)), int32_id by (unfold small, rb_size in Hl; lia). by rewrite nat_words.
Qed.

(** An event that starts its segment: it is copied, and what is behind it stays. *)
Lemma vt48_event_taken fuel swap u v h pre t rest r w : small (h :: pre ++ t :: rest) -> ring (unit_rb u) v = encode (h :: pre ++ t :: rest) ++ r ->
  is_kind VT48_HEADER (swapped swap h) = true -> is_kind VT48_TRAILER (swapped swap h) = false ->
  event_in swap VT48_TRAILER VT48_HEADER 0xFFFF pre t -> rb_load (unit_rb u) (3 + S (length pre)) v = w ->
  is_kind VT48_HEADER (swapped swap w) && (Z.land (swapped swap w) 0xFFFF =? Z.land (swapped swap t) 0xFFFF) = false ->
  exists s v', vt48_event_unit (S fuel) swap u v = Ok (s, v') /\ sc_out s = map (swapped swap) (h :: pre ++ [t]) /\
    forall rb', ring rb' v' = if rb' =? unit_rb u then rest ++ r else ring rb' v.
Proof.
  intros Hl Hr Hh Hht Hev Hw Hdup. unfold vt48_event_unit. rewrite (vt48_round fuel swap _ _ _ r v Hl Hr). cbn [sc_copy sc_header sc_trailer sc_out].
  set (rb := unit_rb u) in *. assert (E0 : segment_word swap rb v 0 = swapped swap h) by (by apply (segment_word_is swap rb _ r _ _ _ Hr)).
  cbn [length scan_segment]. rewrite E0, Hht. set (s1 := scan_word VT48_HEADER 0xFFFF (swapped swap h) _).
  assert (Hs1 : sc_copy s1 = true /\ sc_out s1 = [swapped swap h] /\ sc_incr s1 = 12) by (unfold s1, scan_word; rewrite Hh; done).
  destruct Hs1 as (A & B & C). clearbody s1.
  destruct (scan_at swap rb VT48_HEADER VT48_TRAILER 0xFFFF [h] pre t rest r v w s1 Hr Hev Hw A Hdup) as (s2 & E & Ho & Ht & Hi).
  cbn [length] in E. rewrite E. set (v1 := rb_increment_rp rb (sc_incr s2) v). rewrite (ST_bind_Ok _ _ _ tt v1) by done.
  rewrite (proj2 (Z.leb_le _ _)) by (rewrite Ht; apply Z.land_nonneg; right; lia).
  exists s2, v1. split_and!; [done | by rewrite Ho, B |]. intros rb'.
  assert (Hn : sc_incr s2 = 8 + 4 * Z.of_nat (length (h :: pre ++ [t]))) by (cbn [length]; rewrite length_app; cbn [length]; lia).
  assert (Hle : (length (h :: pre ++ [t]) <= length (h :: pre ++ t :: rest))%nat) by (cbn [length]; rewrite !length_app; cbn [length]; lia).
  rewrite (increment_words rb _ _ r v _ v1 Hn Hr Hle eq_refl rb'). destruct (rb' =? rb); [|done]. f_equal.
  replace (h :: pre ++ t :: rest) with ((h :: pre ++ [t]) ++ rest) by (by cbn; rewrite <- app_assoc). apply drop_app_length.
Qed.

(** A ring that does not begin with a segment. *)
Lemma vt48_no_segment fuel swap u a r v : ring (unit_rb u) v = a :: r -> a <> MARKER -> vt48_event_unit (S fuel) swap u v = Crash AssertFail.
Proof.
  intros Hr Ha. unfold vt48_event_unit. cbn [vt48_event_segments]. rewrite get_rp_is, Hr, Z.eqb_refl. cbn [negb].
  assert (E : rb_load (unit_rb u) 0 v = a) by (by apply (load_first _ a r)). rewrite (ST_bind_Ok _ _ _ _ _ (ring_load_is _ _ _ _ E)).
  unfold lift_res, check. rewrite (proj2 (Z.eqb_neq _ _) Ha). done.
Qed.

(** ** All units *)

Definition active (us : list vme_unit) : list vme_unit := filter (fun u => 0 < unit_addr u) us.

(** The rings after each active unit's is changed to what is left of it. *)
Definition leaves (left : vme_unit -> list Z) (us : list vme_unit) v v' : Prop :=
  forall rb, ring rb v' = match list_find (fun u => unit_rb u = rb) (active us) with Some (_, u) => left u | None => ring rb v end.

Lemma leaves_cons left u us v v1 v' : 0 < unit_addr u -> NoDup (map unit_rb (active (u :: us))) ->
  (forall rb, ring rb v1 = if rb =? unit_rb u then left u else ring rb v) -> leaves left us v1 v' -> leaves left (u :: us) v v'.
Proof.
  unfold leaves, active. intros Ha. rewrite filter_cons_True by done. cbn [map]. intros Hnd Hv1 Hv' rb. apply NoDup_cons in Hnd as [Hni _].
  rewrite Hv'. cbn [list_find]. destruct (decide (unit_rb u = rb)) as [<- |Hne].
  - assert (Hno : list_find (fun u' => unit_rb u' = unit_rb u) (filter (fun u => 0 < unit_addr u) us) = None).
    { apply list_find_None, Forall_forall. intros x Hx E. apply Hni. rewrite <- E. by apply list_elem_of_fmap_2. }
    by rewrite Hno, Hv1, Z.eqb_refl.
  - destruct (list_find _ _) as [[k x]|]; cbn; [done|]. rewrite Hv1. by rewrite (proj2 (Z.eqb_neq _ _)) by congruence.
Qed.

Lemma leaves_skip left u us v v' : ~ 0 < unit_addr u -> leaves left us v v' -> leaves left (u :: us) v v'.
Proof. unfold leaves, active. intros Ha. by rewrite filter_cons_False by done. Qed.

(** A loop that makes a bank of every active unit. *)
Lemma each_unit_banks (body : nat -> vme_unit -> Z * list (cstr * list Z) -> ST (crate V) (Z * list (cstr * list Z)))
    (out left : vme_unit -> list Z) us : forall pre rd banks v, NoDup (map unit_rb (active us)) ->
  (forall i u rd banks v1, u ∈ active us -> ring (unit_rb u) v1 = ring (unit_rb u) v -> exists v2,
    body i u (rd, banks) (Crate v1 (pre ++ us)) = Ok ((rd + 4 * Z.of_nat (length (out u)), banks ++ [(unit_bank u, out u)]), Crate v2 (pre ++ us)) /\
    forall rb, ring rb v2 = if rb =? unit_rb u then left u else ring rb v1) ->
  exists v', each_unit (seq (length pre) (length us)) body (rd, banks) (Crate v (pre ++ us)) =
      Ok ((rd + 4 * Z.of_nat (length (concat (map out (active us)))), banks ++ map (fun u => (unit_bank u, out u)) (active us)), Crate v' (pre ++ us)) /\
    leaves left us v v'.
Proof.
  induction us as [|u us IH]; intros pre rd banks v Hnd Hb; cbn [seq length each_unit].
  { exists v. change (active []) with (@nil vme_unit). cbn [map concat length]. rewrite Z.add_0_r, (app_nil_r banks). by split. }
  assert (Hu : unit_at (V := V) (length pre) (Crate v (pre ++ u :: us)) = Ok (u, Crate v (pre ++ u :: us))).
  { unfold unit_at. cbn [crate_units]. by rewrite list_lookup_middle. }
  rewrite (ST_bind_Ok _ _ _ _ _ Hu). specialize (IH (pre ++ [u])). rewrite length_app, Nat.add_comm, <- app_assoc in IH. cbn [app length Nat.add] in IH.
  destruct (Z.ltb_spec 0 (unit_addr u)) as [Ha|Ha].
  - assert (Hact : active (u :: us) = u :: active us) by (unfold active; by rewrite filter_cons_True).
    destruct (Hb (length pre) u rd banks v) as (v1 & E & Hv1); [rewrite Hact; left | done |]. rewrite (ST_bind_Ok _ _ _ _ _ E).
    assert (Hnd' := Hnd). rewrite Hact in Hnd. cbn [map] in Hnd. apply NoDup_cons in Hnd as [Hni Hnd].
    destruct (IH (rd + 4 * Z.of_nat (length (out u))) (banks ++ [(unit_bank u, out u)]) v1 Hnd) as (v' & E' & Hv').
    + intros i x rd' banks' v2 Hx Hr. apply Hb; [rewrite Hact; by right|]. rewrite Hr, Hv1.
      rewrite (proj2 (Z.eqb_neq _ _)); [done|]. intros Heq. apply Hni. rewrite <- Heq. by apply list_elem_of_fmap_2.
    + exists v'. split; [|by eapply leaves_cons]. rewrite E', Hact. cbn [map concat]. rewrite length_app, Nat2Z.inj_add, <- app_assoc, Z.mul_add_distr_l, Z.add_assoc. done.
  - assert (Hact : active (u :: us) = active us) by (unfold active; rewrite filter_cons_False; [done | lia]).
    rewrite Hact in Hnd. destruct (IH rd banks v Hnd) as (v' & E' & Hv').
    + intros i x rd' banks' v2 Hx Hr. apply Hb; [by rewrite Hact | done].
    + exists v'. split; [by rewrite E', Hact | apply leaves_skip; [lia | done]].
Qed.
End rings.

(** ** What the banks hold *)

Section claims.
Context {V : Type} `{RingLaws V}.
Implicit Types v : V.

(** C32: [vf48_multi_bank_stream] on a crate whose active units have rings of
    their own that hold segments, as [vf48_multi_read] leaves them, makes one bank per
    active unit, in the order of the units, under the unit's name: all the words of all its
    segments, in order, each in the byte order of the processor if the DMA does not
    swap.  No assertion fails, the rings of the active units are empty afterwards, the other rings are as before,
    and the value returned is the number of bytes in the banks. *)
Theorem vf48_stream_banks fuel swap v units (held : Z -> list (list Z)) : length units = MAX_VF48 ->
  NoDup (map unit_rb (active units)) ->
  Forall (fun u => (length (held (unit_rb u)) <= fuel)%nat /\ Forall small (held (unit_rb u)) /\
                   ring (unit_rb u) v = concat (map encode (held (unit_rb u)))) (active units) ->
  let out u := map (swapped swap) (concat (held (unit_rb u))) in
  exists v', vf48_multi_bank_stream fuel swap (Crate v units) =
      Ok ((4 * Z.of_nat (length (concat (map out (active units)))), map (fun u => (unit_bank u, out u)) (active units)), Crate v' units) /\
    leaves (fun _ => []) units v v'.
Proof.
  intros Hlen Hnd Hall out. unfold vf48_multi_bank_stream, all_units. rewrite <- Hlen. apply (each_unit_banks _ out (fun _ => []) units [] 0 [] v Hnd).
  intros i u rd banks v1 Hu Hr. rewrite Forall_forall in Hall. destruct (Hall u) as (Hf & Hs & Hring); [done|]. rewrite Hring in Hr.
  destruct (stream_segments_is fuel swap (unit_rb u) _ [] v1 Hf Hs Hr) as (v2 & E & Hv2). exists v2. split; [|done].
  rewrite (ST_bind_Ok _ _ _ (out u) (Crate v2 ([] ++ units))); [done|]. unfold on_bus, stream_unit. cbn [crate_bus crate_units]. by rewrite E.
Qed.


(** An event that does not end its segment costs the words behind it: the
    header that [vf48_multi_bank_event] makes for what is left of the segment is written over
    the first two words of it.  The event is complete; the words [a] and [b], which [vf48_multi_read] had stored,
    are in no bank of this or of a later call. *)
Theorem vf48_event_loses_words fuel swap u v pre t a b rest more : small (pre ++ t :: a :: b :: rest) ->
  ring (unit_rb u) v = encode (pre ++ t :: a :: b :: rest) ++ more ->
  event_in swap VF48_TRAILER VF48_HEADER 0x00FFFFFF pre t -> 0 < Z.land (swapped swap t) 0x00FFFFFF -> no_filling a ->
  is_kind VF48_HEADER (swapped swap a) && (Z.land (swapped swap a) 0xFFFF =? Z.land (swapped swap t) 0x00FFFFFF) = false ->
  exists s v', event_unit (S fuel) swap u v = Ok (s, v') /\ sc_out s = map (swapped swap) (pre ++ [t]) /\
    forall rb, ring rb v' = if rb =? unit_rb u then encode rest ++ more else ring rb v.
Proof.
  intros Hl Hr Hev Hno Hfill Hdup. unfold event_unit.
  by apply (round_cut fuel swap (unit_rb u) (Scan true (-1) (-1) [] 0) pre t a b rest more v Hl Hr Hev eq_refl Hno Hfill Hdup).
Qed.

(** The bank of one event of a VT48 is the event, from its header to its
    trailer; what follows in the segment stays in the ring without a header, so
    that the next call for the unit fails its assertion (unless the word happens to be the marker). *)
Theorem vt48_event_then_abort fuel fuel' swap u v h pre t a rest more : small (h :: pre ++ t :: a :: rest) ->
  ring (unit_rb u) v = encode (h :: pre ++ t :: a :: rest) ++ more ->
  is_kind VT48_HEADER (swapped swap h) = true -> event_in swap VT48_TRAILER VT48_HEADER 0xFFFF pre t ->
  is_kind VT48_HEADER (swapped swap a) && (Z.land (swapped swap a) 0xFFFF =? Z.land (swapped swap t) 0xFFFF) = false -> a <> MARKER ->
  exists s v', vt48_event_unit (S fuel) swap u v = Ok (s, v') /\ sc_out s = map (swapped swap) (h :: pre ++ [t]) /\
    ring (unit_rb u) v' = a :: rest ++ more /\ vt48_event_unit (S fuel') swap u v' = Crash AssertFail.
Proof.
  intros Hl Hr Hh Hev Hdup Ha.
  assert (Hht : is_kind VT48_TRAILER (swapped swap h) = false).
  { unfold is_kind in *. apply Z.eqb_eq in Hh. apply Z.eqb_neq. rewrite Hh. done. }
  assert (Hw : rb_load (unit_rb u) (3 + S (length pre)) v = a).
  { apply (load_segment _ _ more _ _ _ Hr). cbn. replace (pre ++ t :: a :: rest) with ((pre ++ [t]) ++ a :: rest) by (by rewrite <- app_assoc).
    apply list_lookup_middle. rewrite length_app. cbn. lia. }
  destruct (vt48_event_taken fuel swap u v h pre t (a :: rest) more a Hl Hr Hh Hht Hev Hw Hdup) as (s & v' & E & Ho & Hr').
  exists s, v'. assert (Hr1 : ring (unit_rb u) v' = a :: rest ++ more) by (by rewrite Hr', Z.eqb_refl). split_and!; [done.. |].
  by apply (vt48_no_segment fuel' swap u a (rest ++ more)).
Qed.
End claims.

(** ** A crate *)

(** Modules with words in their FIFOs (by base address), and rings. *)
Record rack := Rack { rack_fifo : Z -> list Z; rack_ring : Z -> list Z }.

Definition base_of (a : Z) : Z := a - a mod 0x10000.
Definition on_ring (rb : Z) (f : list Z -> list Z) (r : rack) : rack :=
  Rack (rack_fifo r) (fun rb' => if rb' =? rb then f (rack_ring r rb) else rack_ring r rb').

Definition rack_read (a : Z) (r : rack) : Z * rack :=
  let l := rack_fifo r (base_of a) in
  let reg := a - base_of a in
  (if reg =? VF48_NFRAME_R then Z.of_nat (length l) mod 2 ^ 32
   else if reg =? VF48_CSR_REG_RW then (if bool_decide (l = []) then Z.lor 1 VF48_CSR_FIFO_EMPTY else 1) else 0, r).

(** A FIFO answers filling when it has no more words. *)
Definition rack_dma1 (t : Z * Z) (r : rack) : list Z * rack :=
  let n := Z.to_nat (snd t / 4) in
  let b := base_of (fst t) in
  let l := rack_fifo r b in
  (take n l ++ replicate (n - length l) 0xFFFFFFFF, Rack (fun b' => if b' =? b then drop n l else rack_fifo r b') (rack_ring r)).
Fixpoint rack_dma (ts : list (Z * Z)) (r : rack) : list (list Z) * rack :=
  match ts with
  | [] => ([], r)
  | t :: ts' => let '(d, r) := rack_dma1 t r in let '(ds, r) := rack_dma ts' r in (d :: ds, r)
  end.

#[export] Instance rack_bus : Mvme rack := {
  MVME_AM_A24 := 0x39; MVME_AM_A32 := 0x09; MVME_DMODE_D32 := 3;
  MVME_BLT_NONE := 1; MVME_BLT_MBLT64 := 3; MVME_BLT_2EVME := 6; MVME_SUCCESS := 1;
  mvme_set_am _ r := r; mvme_get_dmode _ := 3; mvme_set_dmode _ r := r; mvme_set_blt _ r := r;
  mvme_read_value := rack_read; mvme_write_value _ _ r := (1, r);
  mvme_read _ _ r := (1, [], r)
}.

#[export] Instance rack_rings : Rings rack := {
  SUCCESS := 1; DB_TIMEOUT := 604;
  rb_create _ _ r := (1, 1, r);
  rb_get_buffer_level rb r := (1, 4 * Z.of_nat (length (rack_ring r rb)));
  rb_get_rp rb r := match rack_ring r rb with [] => 604 | _ => 1 end;
  rb_load rb k r := nth k (rack_ring r rb) 0;
  rb_store rb k w := on_ring rb (fun l => <[k:=w]> l);
  rb_increment_rp rb n := on_ring rb (drop (Z.to_nat (n / 4)));
  rb_get_wp rb r := (1, 0x10000000 + 4 * Z.of_nat (length (rack_ring r rb)));
  rb_put rb s := on_ring rb (fun l => l ++ s);
  gefvme_read_dma_multiple ts r := let '(ds, r) := rack_dma ts r in (1, ds, r)
}.

#[export] Instance rack_laws : RingLaws rack.
Proof.
  refine {| ring rb r := rack_ring r rb |}; try done.
  - intros rb w r v Hr. cbn. by rewrite Hr.
  - intros rb l r k w v Hr Hk. cbn. rewrite Hr. apply nth_lookup_Some. by apply lookup_app_l_Some.
  - intros rb l w r v Hr. cbn [rb_load]. unfold rb_load. cbn. rewrite Hr. apply nth_lookup_Some. by apply list_lookup_middle.
  - intros rb n r rb' _. cbn. rewrite Z.mul_comm, Z.div_mul by lia. by rewrite Nat2Z.id.
Defined.

(** *** Witnesses *)

(** Twenty slots, of which the first and the third are used. *)
Definition slot (addr : Z) (bank : cstr) (rb : Z) : vme_unit := VmeUnit addr 0 bank rb 0 0 0 0.
Definition two_units (a b : Z) : list vme_unit :=
  slot a (str "VFA") 1 :: slot 0 [] 7 :: slot b (str "VFB") 2 :: replicate 17 (slot 0 [] 0).
Definition with_rings (l1 l2 : list Z) : rack := Rack (fun _ => []) (fun rb => if rb =? 1 then l1 else if rb =? 2 then l2 else []).

Lemma vf48_stream_banks_witness : exists v',
  vf48_multi_bank_stream 3 true (Crate (with_rings (encode [0x11; 0x2200] ++ encode [0x33]) (encode [0x44])) (two_units 0xA00000 0xA10000)) =
  Ok ((16, [(str "VFA", [0x11000000; 0x220000; 0x33000000]); (str "VFB", [0x44000000])]), Crate v' (two_units 0xA00000 0xA10000)) /\
  leaves (fun _ => []) (two_units 0xA00000 0xA10000) (with_rings (encode [0x11; 0x2200] ++ encode [0x33]) (encode [0x44])) v'.
Proof.
  refine (vf48_stream_banks 3 true _ _ (fun rb => if rb =? 1 then [[0x11; 0x2200]; [0x33]] else [[0x44]]) _ _ _); [reflexivity | |].
  - refine (bool_decide_unpack _ _). vm_compute. exact I.
  - repeat constructor; vm_compute; congruence.
Defined.


Lemma vf48_event_loses_words_witness : exists s v',
  event_unit 1 false (slot 0xA00000 [] 1) (with_rings (encode [0x80000005; 0x11; 0xE0000005; 0x80000006; 0x55; 0x66] ++ encode [0x77]) []) = Ok (s, v') /\
  sc_out s = [0x80000005; 0x11; 0xE0000005] /\
  forall rb, ring rb v' = if rb =? 1 then encode [0x66] ++ encode [0x77] else
    ring rb (with_rings (encode [0x80000005; 0x11; 0xE0000005; 0x80000006; 0x55; 0x66] ++ encode [0x77]) []).
Proof.
  refine (vf48_event_loses_words 0 false (slot 0xA00000 [] 1) _ [0x80000005; 0x11] 0xE0000005 0x80000006 0x55 [0x66] (encode [0x77]) _ _ _ _ _ _).
  - reflexivity.
  - reflexivity.
  - unfold event_in. repeat constructor.
  - reflexivity.
  - split; vm_compute; congruence.
  - reflexivity.
Defined.

Lemma vt48_event_then_abort_witness : exists s v',
  vt48_event_unit 1 false (slot 0xA00000 [] 1) (with_rings (encode [0x10000005; 0x11; 0x80000005; 0x10000006; 0x80000006]) []) = Ok (s, v') /\
  sc_out s = [0x10000005; 0x11; 0x80000005] /\ ring 1 v' = [0x10000006; 0x80000006] /\
  vt48_event_unit 1 false (slot 0xA00000 [] 1) v' = Crash AssertFail.
Proof.
  refine (vt48_event_then_abort 0 0 false (slot 0xA00000 [] 1) _ 0x10000005 [0x11] 0x80000005 0x10000006 [0x80000006] [] _ _ _ _ _ _); try reflexivity.
  - unfold event_in. repeat constructor.
  - vm_compute. congruence.
Defined.
