(* ===== verification/EventRead.v ===== *)
(** * The event builders: reading the modules

    [vf48_multi_read] of [EventBuild.v], whatever the modules answer: it ends,
    and what it leaves in the rings is a sequence of segments again. *)

From S2P Require Import Prelude CStr VmeBus Vf48 Vf48Param Vf48Event Vt48 VmeRings EventBuild EventProps.

(** ** The rounding of a transfer *)

Lemma rem_16 x : (Z.rem x 16 =? 0) = (x mod 16 =? 0).
Proof. apply Bool.eq_iff_eq_true. rewrite !Z.eqb_eq. apply Z.rem_mod_eq_0. lia. Qed.

(** Whole units of 16 bytes do not matter. *)
Lemma align_bytes_shift f incomplete q : forall j, align_bytes f incomplete (16 * q + j) = r ← align_bytes f incomplete j; Ok (16 * q + r).
Proof.
  induction f as [|f IH]; intros j; cbn [align_bytes]; rewrite !rem_16, (Z.add_comm _ j), (Z.mul_comm 16 q), Z.mod_add by lia;
    destruct (j mod 16 =? 0); cbn [mbind res_bind]; rewrite ?(Z.mul_comm q 16), 1?(Z.add_comm j); try done.
  destruct incomplete; [replace (16 * q + j - 4) with (16 * q + (j - 4)) by lia | replace (16 * q + j + 4) with (16 * q + (j + 4)) by lia]; apply IH.
Qed.

(** Down while the FIFO is filling, else up. *)
Lemma align_bytes_is incomplete nf :
  align_bytes 3 incomplete (nf * 4) = Ok (if incomplete then nf * 4 - nf * 4 mod 16 else nf * 4 + (- (nf * 4)) mod 16).
Proof.
  pose proof (Z.div_mod nf 4 ltac:(lia)) as Hd. pose proof (Z.mod_pos_bound nf 4 ltac:(lia)) as Hb.
  set (q := nf / 4) in *. set (k := nf mod 4) in *. clearbody q k. subst nf.
  replace ((4 * q + k) * 4) with (16 * q + 4 * k) by lia. rewrite align_bytes_shift.
  replace (- (16 * q + 4 * k)) with (- (4 * k) + (- q) * 16) by lia. rewrite Z.mod_add by lia.
  replace (16 * q + 4 * k) with (4 * k + q * 16) by lia. rewrite Z.mod_add by lia.
  assert (Hk : k = 0 \/ k = 1 \/ k = 2 \/ k = 3) by lia. destruct Hk as [-> |[-> |[-> | ->]]], incomplete;
    match goal with |- context [align_bytes 3 ?b ?x] => let r := eval vm_compute in (align_bytes 3 b x) in change (align_bytes 3 b x) with r end;
    match goal with |- context [?x mod 16] => let r := eval vm_compute in (x mod 16) in change (x mod 16) with r end;
    rewrite res_bind_Ok; f_equal; lia.
Qed.

Lemma align_bytes_range incomplete nf r : align_bytes 3 incomplete (nf * 4) = Ok r -> r mod 16 = 0 /\ - 16 < r - nf * 4 < 16.
Proof.
  rewrite align_bytes_is. intros [= <-]. pose proof (Z.mod_pos_bound (nf * 4) 16 ltac:(lia)). pose proof (Z.mod_pos_bound (- (nf * 4)) 16 ltac:(lia)).
  destruct incomplete; (split; [|lia]).
  - rewrite Zminus_mod_idemp_r. by rewrite Z.sub_diag.
  - rewrite Zplus_mod_idemp_r. by replace (nf * 4 + - (nf * 4)) with 0 by lia.
Qed.

(** The words that align the data. *)
Lemma land_15 a : Z.land (int32 a) 0xF = a mod 16.
Proof.
  rewrite (Z.land_ones _ 4) by lia. change (2 ^ 4) with 16. unfold int32.
  rewrite Zminus_mod, Z.mod_mod_divide by (by exists (2 ^ 28)).
  rewrite <- Zminus_mod. f_equal. lia.
Qed.

Lemma pad_words_is addr pad : addr mod 4 = 0 -> pad_words 3 addr pad = Ok (pad + Z.to_nat ((- addr) mod 16 / 4))%nat.
Proof.
  intros Ha. pose proof (Z.div_mod addr 16 ltac:(lia)) as Hd. pose proof (Z.mod_pos_bound addr 16 ltac:(lia)) as Hb.
  assert (Hk : addr mod 16 = 0 \/ addr mod 16 = 4 \/ addr mod 16 = 8 \/ addr mod 16 = 12).
  { set (q := addr / 16) in *. set (k := addr mod 16) in *. clearbody q k. subst addr.
    replace (16 * q + k) with (k + (4 * q) * 4) in Ha by lia. rewrite Z.mod_add in Ha by lia. pose proof (Z.div_mod k 4 ltac:(lia)). lia. }
  assert (Hm : forall j, (addr + j) mod 16 = (addr mod 16 + j) mod 16) by (intros j; by rewrite Zplus_mod_idemp_l).
  assert (Hneg : (- addr) mod 16 = (- (addr mod 16)) mod 16).
  { rewrite Hd at 1. replace (- (16 * (addr / 16) + addr mod 16)) with (- (addr mod 16) + (- (addr / 16)) * 16) by lia. by rewrite Z.mod_add by lia. }
  rewrite Hneg. cbn [pad_words]. rewrite !land_15, <- !Z.add_assoc, !Hm.
  destruct Hk as [-> |[-> |[-> | ->]]];
    match goal with |- context [Z.to_nat ?x] => let r := eval vm_compute in (Z.to_nat x) in change (Z.to_nat x) with r end; cbn - [Nat.add]; f_equal; lia.
Qed.

(** ** Outcomes *)

(** What may stop [vf48_multi_read]: an assertion, an overflow of [int]
    arithmetic, or the [exit] after a failed DMA. *)
Definition stops (e : crash) : Prop := e = AssertFail \/ e = IntOverflow \/ e = Exited.

Definition outcome {S A} (Q : A -> S -> Prop) (r : res (A * S)) : Prop :=
  match r with Ok (a, s) => Q a s | Crash e => stops e end.

Lemma outcome_bind {S A B} (m : ST S A) (k : A -> ST S B) (P : A -> S -> Prop) Q s :
  outcome P (m s) -> (forall a s', P a s' -> outcome Q (k a s')) -> outcome Q ((m ≫= k) s).
Proof. rewrite ST_bind_eq. destruct (m s) as [[a s']|e]; cbn; auto. Qed.

Lemma outcome_check {S} b e (Q : unit -> S -> Prop) s : stops e -> (b = true -> Q tt s) -> outcome Q (lift_res (check b e) s).
Proof. intros He HQ. unfold lift_res, check. destruct b; cbn; auto. Qed.

Lemma outcome_weaken {S A} (P Q : A -> S -> Prop) r : outcome P r -> (forall a s, P a s -> Q a s) -> outcome Q r.
Proof. destruct r as [[a s]|e]; cbn; auto. Qed.

Create HintDb stops.
#[export] Hint Unfold stops : stops.
#[export] Hint Extern 1 (stops _) => (unfold stops; tauto) : stops.

(** What is relied on: the calls that are not the rings' leave the rings alone, a segment that is put
    becomes readable at the end, the write pointer is one of words, and a
    DMA that succeeds fills what it was given. *)
Class RingFrame (V : Type) `{RingLaws V} : Prop := {
  am_ring rb m v : ring rb (mvme_set_am m v) = ring rb v;
  dmode_ring rb m v : ring rb (mvme_set_dmode m v) = ring rb v;
  blt_ring rb m v : ring rb (mvme_set_blt m v) = ring rb v;
  read_ring rb a v : ring rb (snd (mvme_read_value a v)) = ring rb v;
  put_ring rb s v rb' : ring rb' (rb_put rb s v) = if rb' =? rb then ring rb v ++ s else ring rb' v;
  wp_word rb v : snd (rb_get_wp rb v) mod 4 = 0;
  dma_ring rb ts v : ring rb (snd (gefvme_read_dma_multiple ts v)) = ring rb v;
  dma_words ts v : Forall (fun t => 0 <= snd t /\ snd t mod 4 = 0) ts -> fst (fst (gefvme_read_dma_multiple ts v)) = SUCCESS ->
    Forall2 (fun t d => snd t = 4 * Z.of_nat (length d)) ts (snd (fst (gefvme_read_dma_multiple ts v)))
}.

Section read.
Context {V : Type} `{RingFrame V}.
Implicit Types (v : V) (c : crate V).

(** The module, the bank and the ring of every unit. *)
Definition wiring (us : list vme_unit) : list (Z * cstr * Z) := map (fun u => (unit_addr u, unit_bank u, unit_rb u)) us.

(** Nothing but the counters of the units and the bus has changed. *)
Definition undisturbed c0 c : Prop :=
  wiring (crate_units c) = wiring (crate_units c0) /\ forall rb, ring rb (crate_bus c) = ring rb (crate_bus c0).

Lemma undisturbed_refl c : undisturbed c c.
Proof. done. Qed.
Lemma undisturbed_trans c1 c2 c3 : undisturbed c1 c2 -> undisturbed c2 c3 -> undisturbed c1 c3.
Proof. intros [A B] [C D]. split; [congruence | intros rb; by rewrite D, B]. Qed.

Lemma outcome_register base reg c :
  outcome (fun x c' => undisturbed c c' /\ - 2 ^ 31 <= x < 2 ^ 31) (on_bus (vf48_RegisterRead base reg) c).
Proof.
  unfold on_bus, vf48_RegisterRead, select_module, read_int, set_am, set_dmode, modify, read_value, mbind, ST_bind. 
  set (w := mvme_set_dmode _ _). pose proof (fun rb => read_ring rb (vme_addr base reg) w) as Hr.
  destruct (mvme_read_value (vme_addr base reg) w) as [x w'] eqn:E. cbn [outcome mret ST_ret snd] in *. split; [|apply int32_range].
  split; [done|]. intros rb. cbn [crate_bus]. rewrite Hr. unfold w. by rewrite dmode_ring, am_ring.
Qed.

Lemma outcome_set i f c : (forall u, (unit_addr (f u), unit_bank (f u), unit_rb (f u)) = (unit_addr u, unit_bank u, unit_rb u)) ->
  outcome (fun _ c' => undisturbed c c') (set_unit i f c).
Proof.
  intros Hf. cbn. split; [|done]. cbn [crate_units]. unfold wiring. revert i. induction (crate_units c) as [|u us IH]; intros [|i]; cbn; try done.
  - by rewrite Hf.
  - f_equal. apply IH.
Qed.

Lemma outcome_each {A} (I : A -> crate V -> Prop) l body : forall a c,
  (forall a c i, I a c -> i ∈ l -> is_Some (crate_units c !! i)) ->
  (forall i u a c, i ∈ l -> I a c -> crate_units c !! i = Some u -> outcome I (body i u a c)) ->
  I a c -> outcome I (each_unit l body a c).
Proof.
  induction l as [|i l IH]; intros a c Hsome Hb Ha; cbn [each_unit]; [done|].
  destruct (Hsome a c i Ha ltac:(left)) as [u Hu].
  assert (Hat : unit_at i c = Ok (u, c)) by (unfold unit_at; by rewrite Hu). rewrite (ST_bind_Ok _ _ _ _ _ Hat).
  assert (IH' : forall a c, I a c -> outcome I (each_unit l body a c)).
  { intros a' c' Ha'. apply IH; [intros a2 c2 j Hj Hjl; eapply Hsome; [done | by right] | intros j; intros; apply Hb; [by right | done..] | done]. }
  destruct (0 <? unit_addr u); [|by apply IH'].
  eapply outcome_bind; [apply Hb; [left | done | done] | intros a' c' Ha'; by apply IH'].
Qed.

(** What is known of the transfers prepared so far: they are for units of the
    crate, of whole words, and [rd] is the bytes that the segments will have. *)
Definition transfer_ok (n : nat) (t : transfer) : Prop :=
  (t_unit t < n)%nat /\ 0 < t_bytes t /\ t_bytes t mod 16 = 0 /\ (t_pad t <= 3)%nat.
Definition transfer_bytes (t : transfer) : Z := t_bytes t + 4 * Z.of_nat (t_pad t).
Definition total (l : list Z) : Z := foldr Z.add 0 l.

Lemma total_app l k : total (l ++ k) = total l + total k.
Proof. unfold total. induction l as [|x l IH]; cbn [foldr app]; [done | rewrite IH; lia]. Qed.

Definition prepared c0 (acc : Z * list transfer) c : Prop :=
  undisturbed c0 c /\ Forall (transfer_ok (length (crate_units c0))) (snd acc) /\ fst acc = total (map transfer_bytes (snd acc)).

Lemma wiring_length c0 c : undisturbed c0 c -> length (crate_units c) = length (crate_units c0).
Proof. intros [Hw _]. apply (f_equal (@length _)) in Hw. unfold wiring in Hw. by rewrite !length_map in Hw. Qed.

Lemma prepared_more c0 rd ts c c' : prepared c0 (rd, ts) c -> undisturbed c c' -> prepared c0 (rd, ts) c'.
Proof. intros (A & B & C) Hu. split; [by eapply undisturbed_trans | done]. Qed.

Lemma prepare_unit_prepared c0 i u acc c : (i < length (crate_units c0))%nat -> prepared c0 acc c ->
  outcome (prepared c0) (prepare_unit i u acc c).
Proof.
  intros Hi Hp. destruct acc as [rd ts]. cbn [prepare_unit].
  eapply outcome_bind; [by apply outcome_set | intros ? c1 P1]. apply (prepared_more _ _ _ _ _ Hp) in P1.
  eapply outcome_bind; [apply outcome_register | intros csr c2 [P2 _]]. apply (prepared_more _ _ _ _ _ P1) in P2.
  eapply outcome_bind; [apply outcome_register | intros nf c3 [P3 Hnf]]. apply (prepared_more _ _ _ _ _ P2) in P3.
  destruct (negb _ || _); [exact P3|].
  eapply outcome_bind; [apply (outcome_check _ _ (fun _ c => c = c3)); [unfold stops; tauto | done] | intros [] _ ->].
  rewrite align_bytes_is. set (nr := if any_bit _ _ then _ else _).
  assert (Hnr : nr mod 16 = 0) by (by apply (align_bytes_range (any_bit csr VF48_CSR_FIFO_INCOMPLETE) nf); rewrite align_bytes_is).
  rewrite (ST_bind_Ok _ _ _ nr c3) by done. destruct (Z.eqb_spec nr 0); [exact P3|].
  eapply outcome_bind; [apply (outcome_check _ _ (fun _ c => c = c3 /\ 0 < nr)); [unfold stops; tauto | by intros ?%Z.ltb_lt] | intros [] _ [-> Hpos]].
  unfold on_bus. cbn [crate_bus]. destruct (rb_get_wp (unit_rb u) (crate_bus c3)) as [status ptr] eqn:Ewp.
  rewrite (ST_bind_Ok _ _ _ (status, ptr) c3) by (rewrite Ewp; by destruct c3).
  eapply outcome_bind; [apply (outcome_check _ _ (fun _ c => c = c3)); [unfold stops; tauto | done] | intros [] _ ->].
  assert (Hw : (ptr + 8) mod 4 = 0).
  { pose proof (wp_word (unit_rb u) (crate_bus c3)) as Hw. rewrite Ewp in Hw. cbn in Hw. rewrite <- Zplus_mod_idemp_l, Hw. done. }
  rewrite pad_words_is by done. set (pad := (0 + _)%nat). rewrite (ST_bind_Ok _ _ _ pad c3) by done. cbv zeta.
  eapply outcome_bind; [apply (outcome_check _ _ (fun _ c => c = c3)); [unfold stops; tauto | done] | intros [] _ ->].
  eapply outcome_bind; [by apply outcome_set | intros ? c4 P4]. apply (prepared_more _ _ _ _ _ P3) in P4.
  destruct P4 as (A & B & C). split; [done|]. cbn [fst snd] in *. split.
  - apply Forall_app. split; [done|]. apply Forall_singleton. unfold transfer_ok. cbn [t_unit t_bytes t_pad]. split_and!; [done.. |]. unfold pad.
    pose proof (Z.mod_pos_bound (- (ptr + 8)) 16 ltac:(lia)). pose proof (Z.div_lt_upper_bound ((- (ptr + 8)) mod 16) 4 4 ltac:(lia) ltac:(lia)). lia.
  - rewrite map_app, total_app, <- C. unfold total, transfer_bytes. cbn [map foldr t_bytes t_pad]. lia.
Qed.

(** ** The segments *)

Lemma find_last_marker k back : exists o, find_last k (back ++ [MARKER]) = Ok o.
Proof.
  revert back. induction k as [|k IH]; intros [|x back]; cbn [find_last app]; try (eexists; reflexivity).
  destruct (is_filling (be2cpu x)); [apply IH | eexists; reflexivity].
Qed.

(** The marker in front stops the search for the last word. *)
Lemma find_last_segment pad d : exists o, find_last 7 (reverse (segment pad d)) = Ok o.
Proof. unfold segment. rewrite reverse_cons. apply find_last_marker. Qed.

(** The words of a segment: the filling that aligns them, and what the DMA moved. *)
Definition stored (t : transfer) (d : list Z) : nat * list Z := (t_unit t, replicate (t_pad t) (be2cpu DEADDEAD) ++ d).

(** The words stored in a ring, in order. *)
Definition ring_of (us : list vme_unit) (i : nat) : option Z := unit_rb <$> us !! i.
Definition added (us : list vme_unit) (rb : Z) (segs : list (nat * list Z)) : list (list Z) :=
  map snd (filter (fun s => ring_of us (fst s) = Some rb) segs).

Lemma wiring_ring us us' i : wiring us = wiring us' -> ring_of us i = ring_of us' i.
Proof.
  intros Hw. apply (f_equal (fun l => snd <$> l !! i)) in Hw. unfold wiring in Hw. rewrite !list_lookup_fmap in Hw. unfold ring_of.
  by destruct (us !! i), (us' !! i); cbn in *.
Qed.

(** [segs] has been added to the rings. *)
Definition extended (us : list vme_unit) v (segs : list (nat * list Z)) c : Prop :=
  wiring (crate_units c) = wiring us /\ forall rb, ring rb (crate_bus c) = ring rb v ++ concat (map encode (added us rb segs)).

Lemma commit_extends ts : forall data us v segs c, extended us v segs c ->
  Forall (transfer_ok (length us)) ts -> length data = length ts ->
  outcome (fun _ c' => extended us v (segs ++ zip_with stored ts data) c') (commit_units ts data c).
Proof.
  induction ts as [|t ts IH]; intros [|d data] us v segs c Hext Hts Hlen; try done; cbn [commit_units zip_with]; [by rewrite app_nil_r|].
  apply Forall_cons in Hts as [(Hi & _) Hts]. injection Hlen as Hlen. destruct Hext as [Hw Hr].
  assert (Hu : is_Some (crate_units c !! t_unit t)).
  { apply lookup_lt_is_Some. apply (f_equal (@length _)) in Hw. unfold wiring in Hw. rewrite !length_map in Hw. by rewrite Hw. }
  destruct Hu as [u Hu]. assert (Hat : unit_at (t_unit t) c = Ok (u, c)) by (unfold unit_at; by rewrite Hu). rewrite (ST_bind_Ok _ _ _ _ _ Hat).
  cbv zeta. destruct (find_last_segment (t_pad t) d) as [o Ho]. rewrite (ST_bind_Ok _ _ _ o c) by (unfold lift_res; by rewrite Ho).
  assert (Hrb : ring_of us (t_unit t) = Some (unit_rb u)).
  { by rewrite <- (wiring_ring (crate_units c) us) by done; unfold ring_of; rewrite Hu. }
  eapply outcome_bind with (P := fun _ c1 => undisturbed c c1); [destruct o; [by apply outcome_set | done]|]. intros _ c1 [Hw1 Hr1].
  set (c2 := Crate (rb_put (unit_rb u) (segment (t_pad t) d) (crate_bus c1)) (crate_units c1)).
  rewrite (ST_bind_Ok _ _ _ tt c2) by done. eapply outcome_weaken; [apply (IH data us v (segs ++ [stored t d])) | by rewrite <- app_assoc]; [|done..].
  split; [cbn [crate_units c2]; congruence|]. intros rb. cbn [crate_bus c2]. rewrite put_ring, !Hr1, !Hr.
  unfold added. rewrite filter_app, !map_app, concat_app.
  destruct (Z.eqb_spec rb (unit_rb u)) as [-> |Hne].
  - rewrite filter_cons_True by done. cbn [map concat filter list_filter]. by rewrite app_nil_r, <- app_assoc, segment_encode.
  - rewrite filter_cons_False; [by rewrite app_nil_r|]. cbn [fst stored]. rewrite Hrb. congruence.
Qed.

Lemma stored_bytes ts data : Forall2 (fun t d => t_bytes t = 4 * Z.of_nat (length d)) ts data ->
  total (map transfer_bytes ts) = total (map (fun s => 4 * Z.of_nat (length (snd s))) (zip_with stored ts data)).
Proof.
  unfold total. induction 1 as [|t d ts data Hd Hf IH]; [done|]. cbn [map zip_with foldr]. rewrite IH. unfold transfer_bytes, stored. cbn [snd].
  rewrite length_app, length_replicate. lia.
Qed.

(** What a call leaves that returns [rd]: whole segments behind what was in the
    rings, each for a unit of the crate, a multiple of 4 words of its FIFO behind at most three words of filling,
    [rd] bytes in all. *)
Definition whole_segments v units (rd : Z) c : Prop := exists segs,
  extended units v segs c /\ rd = total (map (fun s => 4 * Z.of_nat (length (snd s))) segs) /\
  Forall (fun s => (fst s < MAX_VF48)%nat /\ exists pad d, (pad <= 3)%nat /\ Z.of_nat (length d) mod 4 = 0 /\ d <> [] /\
                     snd s = replicate pad (be2cpu DEADDEAD) ++ d) segs.

(** [vf48_multi_read], whatever the modules answer: it ends, unless an
    assertion fails, the arithmetic of [int] overflows or a DMA error makes it [exit]; the loops
    that align the transfer and its destination need at most three rounds.  If it returns, it has
    added to the rings whole segments and nothing else - so that rings that held segments
    do again -, for units of the crate, each a multiple of 4 words of the FIFO behind at most three words of
    filling that align them, and what it returns is the number of bytes of their words.  The wiring of the units has not changed. *)
Theorem vf48_read_segments v units : length units = MAX_VF48 ->
  outcome (whole_segments v units) (vf48_multi_read (Crate v units)).
Proof.
  intros Hlen. unfold vf48_multi_read. set (c0 := Crate v units).
  assert (Hl0 : length (crate_units c0) = MAX_VF48) by done.
  eapply outcome_bind with (P := prepared c0).
  { apply outcome_each.
    - intros a c i (Hu & _) Hi. apply lookup_lt_is_Some. rewrite (wiring_length c0 c Hu), Hl0. unfold all_units in Hi. apply elem_of_seq in Hi. lia.
    - intros i u a c Hi Hp _. apply prepare_unit_prepared; [|done]. rewrite Hl0. unfold all_units in Hi. apply elem_of_seq in Hi. lia.
    - split_and!; [apply undisturbed_refl | constructor | done]. }
  intros [rd ts] c (Hu & Hts & Hrd). cbn [fst snd] in *. destruct ts as [|t ts].
  { cbn. exists []. split_and!; [split; [apply Hu | intros rb; rewrite (proj2 Hu); cbn; by rewrite app_nil_r] | done | constructor]. }
  set (c1 := Crate (mvme_set_blt MVME_BLT_2EVME (crate_bus c)) (crate_units c)). rewrite (ST_bind_Ok _ _ _ tt c1) by done.
  remember (t :: ts) as l eqn:El. clear El t ts. unfold on_bus at 1. cbn [crate_bus c1].
  pose proof (fun rb => dma_ring rb (map (fun t => (t_addr t, t_bytes t)) l) (crate_bus c1)) as Hring.
  pose proof (dma_words (map (fun t => (t_addr t, t_bytes t)) l) (crate_bus c1)) as Hwords.
  destruct (gefvme_read_dma_multiple _ (crate_bus c1)) as [[status data] v2] eqn:Ed. cbn [fst snd] in *.
  set (c2 := Crate v2 (crate_units c)).
  rewrite (ST_bind_Ok _ _ _ (status, data) c2) by (cbv beta; by rewrite Ed).
  destruct (Z.eqb_spec status SUCCESS) as [-> |]; cbn [negb]; [|cbn; unfold stops; tauto].
  assert (Hmod : Forall (fun t : Z * Z => 0 <= snd t /\ snd t mod 4 = 0) (map (fun t => (t_addr t, t_bytes t)) l)).
  { apply Forall_map. eapply Forall_impl; [exact Hts|]. intros t (_ & Hb & Hm & _). cbn [snd]. split; [lia|].
    rewrite (Z.div_mod (t_bytes t) 16), Hm by lia. rewrite Z.add_0_r. replace (16 * (t_bytes t / 16)) with (t_bytes t / 16 * 4 * 4) by lia. by apply Z.mod_mul. }
  specialize (Hwords Hmod eq_refl). clear Hmod. apply Forall2_fmap_l in Hwords. cbn [snd] in Hwords.
  assert (Hext : extended units v [] c2).
  { split; [apply Hu|]. intros rb. cbn [crate_bus c2]. rewrite Hring. cbn [crate_bus c1]. rewrite blt_ring, (proj2 Hu). cbn. by rewrite app_nil_r. }
  eapply outcome_bind; [apply (commit_extends l data units v [] c2 Hext Hts); symmetry; by eapply Forall2_length|].
  intros [] c3 Hc3. exists (zip_with stored l data). split_and!; [done | by rewrite Hrd; apply stored_bytes |].
  clear - Hts Hwords Hlen. induction Hwords as [|t d l data Hd Hf IH]; [constructor|]. apply Forall_cons in Hts as [(A & B & C & D) Hts].
  cbn [zip_with]. constructor; [|by apply IH]. cbn in Hd. split; [rewrite <- Hlen; exact A|]. exists (t_pad t), d.
  split_and!; [done | | intros ->; cbn in Hd; lia | done]. rewrite Hd in C. pose proof (Z.div_mod (4 * Z.of_nat (length d)) 16 ltac:(lia)). set (q := _ / 16) in *.
  replace (Z.of_nat (length d)) with (q * 4) by lia. apply Z.mod_mul. lia.
Qed.
End read.

(** ** Witness *)

Lemma rack_dma_is ts : forall r, (forall rb, rack_ring (snd (rack_dma ts r)) rb = rack_ring r rb) /\
  (Forall (fun t => 0 <= snd t /\ snd t mod 4 = 0) ts -> Forall2 (fun t d => snd t = 4 * Z.of_nat (length d)) ts (fst (rack_dma ts r))).
Proof.
  induction ts as [|t ts IH]; intros r; [by split|]. cbn [rack_dma]. destruct (rack_dma1 t r) as [d r1] eqn:E1. destruct (IH r1) as [A B].
  destruct (rack_dma ts r1) as [ds r2] eqn:E2. cbn [fst snd] in *. unfold rack_dma1 in E1. injection E1 as <- <-. split; [done|].
  intros [[Hp Hm] Hts]%Forall_cons. constructor; [|by apply B]. rewrite length_app, length_take, length_replicate.
  pose proof (Z.div_mod (snd t) 4 ltac:(lia)). pose proof (Z.div_pos (snd t) 4 Hp ltac:(lia)). lia.
Qed.

#[export] Instance rack_frame : RingFrame rack.
Proof.
  constructor; try done.
  - intros rb r. cbn. rewrite <- (Zplus_mod_idemp_r (4 * _)), (Z.mul_comm 4), Z.mod_mul by lia. done.
  - intros rb ts r. cbn. destruct (rack_dma_is ts r) as [A _]. by destruct (rack_dma ts r).
  - intros ts r Hts _. cbn. destruct (rack_dma_is ts r) as [_ B]. destruct (rack_dma ts r). by apply B.
Qed.

Definition with_fifos (l1 l2 : list Z) : rack := Rack (fun b => if b =? 0xA00000 then l1 else if b =? 0xA10000 then l2 else []) (fun _ => []).

Lemma vf48_read_segments_witness :
  outcome (whole_segments (with_fifos [0x80000001; 0x22; 0xE0000001] [0x44]) (two_units 0xA00000 0xA10000))
    (vf48_multi_read (Crate (with_fifos [0x80000001; 0x22; 0xE0000001] [0x44]) (two_units 0xA00000 0xA10000))) /\
  match vf48_multi_read (Crate (with_fifos [0x80000001; 0x22; 0xE0000001] [0x44]) (two_units 0xA00000 0xA10000)) with
  | Ok (rd, c) => (rd, ring 1 (crate_bus c)) = (48, encode ([0xaddeadde; 0xaddeadde] ++ [0x80000001; 0x22; 0xE0000001; 0xFFFFFFFF]))
  | Crash _ => False
  end.
Proof. split; [by apply vf48_read_segments | vm_compute; reflexivity]. Defined.
