(* ===== verification/MidasEvent.v ===== *)
(** * MIDAS events ([rootana/libMidasInterface/TMidasEvent.cxx], [TMidasStructs.h])

    The files that are converted are sequences of events: a header of 16 bytes and
    a block that begins with a bank header and holds banks, each with a name of
    four characters, a type and a size, padded to a multiple of 8 bytes.
    [TMidasEvent] finds and lists the banks, and brings an event from a machine
    of the other byte order into the one of this machine.

    The block is the memory from [fData] on, a list of bytes, and pointers into
    it are offsets.  What the program can read there may be more than the
    event: reading behind the list is [OutOfBounds].  The machine is
    little-endian with pointers that are wider than 32 bits. *)

From S2P Require Import Prelude.

(** ** Bytes *)

Definition le_word (l : list Z) : Z := foldr (fun b acc => b + 256 * acc) 0 l.
Fixpoint le_bytes (n : nat) (w : Z) : list Z :=
  match n with O => [] | S n' => w mod 256 :: le_bytes n' (w / 256) end.

Definition bytes_at (m : list Z) (off : Z) (n : nat) : res (list Z) :=
  if (0 <=? off) && (off + Z.of_nat n <=? Z.of_nat (length m)) then Ok (take n (drop (Z.to_nat off) m)) else Crash OutOfBounds.
Definition load_word (n : nat) (m : list Z) (off : Z) : res Z := l ← bytes_at m off n; Ok (le_word l).

(** [BYTE _tmp; ...]: the bytes of a word in the other order. *)
Definition swap_at (n : nat) (m : list Z) (off : Z) : res (list Z) :=
  l ← bytes_at m off n; Ok (take (Z.to_nat off) m ++ reverse l ++ drop (Z.to_nat off + n) m).

(** ** [TMidasStructs.h] *)

Record event_header := EventHeader {
  fEventId : Z;
  fTriggerMask : Z;
  fSerialNumber : Z;
  fTimeStamp : Z;
  fDataSize : Z
}.

Definition EVENT_HEADER_SIZE : nat := 16.
Definition BANK_HEADER_SIZE : Z := 8.
Definition BANK_SIZE : Z := 8.
Definition BANK32_SIZE : Z := 12.

(** Fields of the structures at an offset. *)
Definition bh_size (m : list Z) : res Z := load_word 4 m 0.
Definition bh_flags (m : list Z) : res Z := load_word 4 m 4.
Definition bk_name (m : list Z) (bk : Z) : res (list Z) := bytes_at m bk 4.
Definition bk_type (m : list Z) (bk : Z) : res Z := load_word 2 m (bk + 4).
Definition bk_size (m : list Z) (bk : Z) : res Z := load_word 2 m (bk + 6).
Definition bk32_type (m : list Z) (bk : Z) : res Z := load_word 4 m (bk + 4).
Definition bk32_size (m : list Z) (bk : Z) : res Z := load_word 4 m (bk + 8).

(** [((x)+7) & ~7] on [int] and on [uint32_t] *)
Definition align8 (x : Z) : Z := (x + 7) / 8 * 8.
Definition align8_32 (x : Z) : Z := (x + 7) mod 2 ^ 32 / 8 * 8.

Definition TID_SIZE : list Z := [0; 1; 1; 1; 2; 2; 4; 4; 4; 4; 8; 1; 0; 0; 0; 0; 0].
Definition TID_MAX : Z := 17.
Definition tid_size (type : Z) : res Z := load TID_SIZE (Z.to_nat (Z.land type 0xFF)).

(** [(int)] of an [uint32_t] *)
Definition to_int (x : Z) : Z := (x + 2 ^ 31) mod 2 ^ 32 - 2 ^ 31.

(** ** The event *)

(** [fData] is the memory from there on; the bank list is its bytes up to the
    final 0, which is always behind them. *)
Record midas_event := MidasEvent {
  fEventHeader : event_header;
  fData : option (list Z);
  fAllocatedByUs : bool;
  fBanksN : nat;
  fBankList : option (list Z)
}.

Definition no_header : event_header := EventHeader 0 0 0 0 0.
Definition TMidasEvent : midas_event := MidasEvent no_header None false 0 None.

(** Whatever the event was, it is empty afterwards; freed blocks are not
    modelled. *)
Definition Clear (e : midas_event) : midas_event := TMidasEvent.

Definition IsGoodSize (h : event_header) : bool := (0 <? fDataSize h) && (fDataSize h <=? 500 * 1024 * 1024).

(** [malloc] answers a block of at least the size, with what is in it, or
    nothing. *)
Definition AllocateData (block : option (list Z)) (e : midas_event) : res midas_event :=
  _ ← check (negb (fAllocatedByUs e)) AssertFail;
  _ ← check (IsGoodSize (fEventHeader e)) AssertFail;
  match block with
  | None => Crash AssertFail
  | Some b => Ok (MidasEvent (fEventHeader e) (Some b) true (fBanksN e) (fBankList e))
  end.

Definition GetData (block : option (list Z)) (e : midas_event) : res midas_event :=
  match fData e with None => AllocateData block e | Some _ => Ok e end.

Definition event_data (e : midas_event) : res (list Z) :=
  match fData e with Some m => Ok m | None => Crash NullDeref end.

(** [strdup] stops at the first 0. *)
Definition until_nul (l : list Z) : list Z := take (default (length l) (fst <$> list_find (fun b => b = 0) l)) l.

Definition Copy (block : option (list Z)) (rhs : midas_event) : res midas_event :=
  match block with
  | None => Crash AssertFail
  | Some b =>
      m ← event_data rhs;
      l ← bytes_at m 0 (Z.to_nat (fDataSize (fEventHeader rhs)));
      match fBankList rhs with
      | None => Crash NullDeref
      | Some names => Ok (MidasEvent (fEventHeader rhs) (Some (l ++ drop (length l) b)) true (fBanksN rhs) (Some (until_nul names)))
      end
  end.

Definition is_bank32 (flags : Z) : bool := negb (Z.land flags 16 =? 0).
Definition IsBank32 (m : list Z) : res bool := flags ← bh_flags m; Ok (is_bank32 flags).

(** ** Banks *)

(** The end of the banks: [event->fDataSize + sizeof(TMidas_BANK_HEADER)] bytes behind the event. *)
Definition banks_end (m : list Z) : res Z := n ← bh_size m; Ok (n + BANK_HEADER_SIZE).

(** The bank after [pbk] (the first one for a null pointer), or null. *)
Definition IterateBank (m : list Z) (pbk : option Z) : res (option Z) :=
  pbk ← match pbk with
        | None => Ok BANK_HEADER_SIZE
        | Some bk => n ← bk_size m bk; Ok (bk + BANK_SIZE + align8 n)
        end;
  stop ← banks_end m;
  if stop <=? pbk then Ok None else _ ← bk_size m pbk; Ok (Some pbk).

(** A type that does not exist is looked for 4 bytes further on. *)
Definition IterateBank32 (m : list Z) (pbk : option Z) : res (option Z) :=
  pbk ← match pbk with
        | None => Ok BANK_HEADER_SIZE
        | Some bk => n ← bk32_size m bk; Ok (bk + BANK32_SIZE + align8_32 n)
        end;
  let bk4 := pbk + 4 in
  type ← bk32_type m pbk;
  pbk ← (if TID_MAX <? type then
           type4 ← bk32_type m bk4;
           Ok (if type4 <=? TID_MAX then Some bk4 else None)
         else Ok (Some pbk));
  match pbk with
  | None => Ok None
  | Some pbk =>
      stop ← banks_end m;
      if stop <=? pbk then Ok None else _ ← bk32_size m pbk; Ok (Some pbk)
  end.

(** The four comparisons of a name. *)
Definition same_name (name l : list Z) : bool := bool_decide (take 4 name = l).

(** What is found: the number of elements, the type, and where the data are. *)
Record found := Found { bklen : Z; bktype : Z; pdata : Z }.

Definition bank_length (size type : Z) : res Z :=
  t ← tid_size type; Ok (to_int (if t =? 0 then size else size / t)).

(** [while (1)] and [do ... while] over the banks; [fuel] bounds them: every
    bank is longer than its header. *)
Fixpoint find_bank32 (fuel : nat) (m : list Z) (name : list Z) (pbk : option Z) : res (option found) :=
  match fuel with
  | O => Crash NoFuel
  | S fuel' =>
      pbk ← IterateBank32 m pbk;
      match pbk with
      | None => Ok None
      | Some bk =>
          l ← bk_name m bk;
          if same_name name l then
            type ← bk32_type m bk;
            size ← bk32_size m bk;
            len ← bank_length size type;
            Ok (Some (Found len (to_int type) (bk + BANK32_SIZE)))
          else find_bank32 fuel' m name (Some bk)
      end
  end.

Fixpoint find_bank (fuel : nat) (m : list Z) (name : list Z) (bk : Z) : res (option found) :=
  match fuel with
  | O => Crash NoFuel
  | S fuel' =>
      l ← bk_name m bk;
      size ← bk_size m bk;
      if same_name name l then
        type ← bk_type m bk;
        len ← bank_length size type;
        Ok (Some (Found len type (bk + BANK_SIZE)))
      else
        let bk := bk + BANK_SIZE + align8 size in
        stop ← banks_end m;
        if bk <? stop then find_bank fuel' m name bk else Ok None
  end.

Definition FindBank (m : list Z) (name : list Z) : res (option found) :=
  flags ← bh_flags m;
  if is_bank32 flags then find_bank32 (S (length m)) m name None
  else find_bank (S (length m)) m name BANK_HEADER_SIZE.

(** The length, and the place of the data. *)
Definition LocateBank (m : list Z) (name : list Z) : res (Z * option Z) :=
  r ← FindBank m name;
  Ok (match r with None => (0, None) | Some f => (bklen f, Some (pdata f)) end).

(** The list grows by 100 names; [listSize] is what is allocated. *)
Fixpoint list_banks (fuel : nat) (m : list Z) (listSize : Z) (names : list Z) (pbk : option Z) : res (list Z) :=
  match fuel with
  | O => Crash NoFuel
  | S fuel' =>
      let listSize := if listSize <=? Z.of_nat (length names) then listSize + 400 else listSize in
      b32 ← IsBank32 m;
      pbk ← (if b32 : bool then IterateBank32 m pbk else IterateBank m pbk);
      match pbk with
      | None =>
          _ ← check (Z.of_nat (length names) <? listSize) OutOfBounds;
          Ok names
      | Some bk =>
          l ← bk_name m bk;
          _ ← check (Z.of_nat (length names) + 4 <=? listSize) OutOfBounds;
          list_banks fuel' m listSize (names ++ l) (Some bk)
      end
  end.

Definition SetBankList (e : midas_event) : res (Z * midas_event) :=
  if fEventId (fEventHeader e) <=? 0 then Ok (0, e)
  else
    match fBankList e with
    | Some _ => Ok (Z.of_nat (fBanksN e), e)
    | None =>
        m ← event_data e;
        names ← list_banks (S (length m)) m 0 [] None;
        let n := (length names / 4)%nat in
        Ok (Z.of_nat n, MidasEvent (fEventHeader e) (fData e) (fAllocatedByUs e) n (Some names))
    end.

(** ** Byte order *)

Definition swap16 (w : Z) : Z := le_word (reverse (le_bytes 2 w)).
Definition swap32 (w : Z) : Z := le_word (reverse (le_bytes 4 w)).

Definition SwapBytesEventHeader (h : event_header) : event_header :=
  EventHeader (swap16 (fEventId h)) (swap16 (fTriggerMask h)) (swap32 (fSerialNumber h)) (swap32 (fTimeStamp h)) (swap32 (fDataSize h)).

(** The size of the elements of a type that are swapped. *)
Definition swap_width (type : Z) : nat :=
  if (type =? 4) || (type =? 5) then 2
  else if (6 <=? type) && (type <=? 9) then 4
  else if type =? 10 then 8
  else 0.

(** [while (pdata < pbk)] *)
Fixpoint swap_data (fuel : nat) (n : nat) (m : list Z) (pdata pbk : Z) : res (list Z) :=
  if pdata <? pbk then
    match fuel with
    | O => Crash NoFuel
    | S fuel' => m ← swap_at n m pdata; swap_data fuel' n m (pdata + Z.of_nat n) pbk
    end
  else Ok m.

(** A bank: its header, then its data up to the next bank. *)
Definition swap_bank (b32 : bool) (size : Z) (m : list Z) (bk : Z) : res (list Z * Z) :=
  '(m, type, n, pdata, next) ←
    (if b32 then
       m ← swap_at 4 m (bk + 4);
       m ← swap_at 4 m (bk + 8);
       type ← bk32_type m bk;
       n ← bk32_size m bk;
       Ok (m, type mod 2 ^ 16, n, bk + BANK32_SIZE, bk + BANK32_SIZE + align8_32 n)
     else
       m ← swap_at 2 m (bk + 4);
       m ← swap_at 2 m (bk + 6);
       type ← bk_type m bk;
       n ← bk_size m bk;
       Ok (m, type, n, bk + BANK_SIZE, bk + BANK_SIZE + align8 n));
  _ ← check (n <? (size + 100) mod 2 ^ 32) AssertFail;
  m ← (match swap_width type with O => Ok m | w => swap_data (length m) w m pdata next end);
  Ok (m, next).

Fixpoint swap_banks (fuel : nat) (b32 : bool) (size : Z) (m : list Z) (bk : Z) : res (list Z) :=
  stop ← banks_end m;
  if bk <? stop then
    match fuel with
    | O => Crash NoFuel
    | S fuel' => '(m, bk) ← swap_bank b32 size m bk; swap_banks fuel' b32 size m bk
    end
  else Ok m.

(** The answer, and the block. *)
Definition SwapBytes (force : bool) (h : event_header) (m : list Z) : res (Z * list Z) :=
  n ← bh_size m;
  let dssw := swap32 n in
  flags ← bh_flags m;
  if (flags <? 0x10000) && negb force then Ok (0, m)
  else if n =? 0x6d783f3c then Ok (1, m)
  else if n =? 0x3c3f786d then Ok (1, m)
  else if (fDataSize h + 100) mod 2 ^ 32 <? dssw then Ok (1, m)
  else
    m ← swap_at 4 m 0;
    m ← swap_at 4 m 4;
    b32 ← IsBank32 m;
    m ← swap_banks (S (length m)) b32 (fDataSize h) m BANK_HEADER_SIZE;
    Ok (1, m).

Definition SetData (size : Z) (data : list Z) (e : midas_event) : res midas_event :=
  let h := fEventHeader e in
  let h := EventHeader (fEventId h) (fTriggerMask h) (fSerialNumber h) (fTimeStamp h) size in
  _ ← check (negb (fAllocatedByUs e)) AssertFail;
  _ ← check (IsGoodSize h) AssertFail;
  '(_, m) ← SwapBytes false h data;
  Ok (MidasEvent h (Some m) false (fBanksN e) (fBankList e)).
