(* ===== verification/MidasBanks.v ===== *)
(** * MIDAS events: finding and listing banks

    An event is written down as a list of banks; the operations of
    [MidasEvent.v] on its bytes do what they say on that list.  What lies
    behind the event in memory does not matter, except that the iteration over
    32-bit banks reads it. *)

From S2P Require Import Prelude MidasEvent.

(** ** Bytes in a block *)

Lemma length_le_bytes n : forall w, length (le_bytes n w) = n.
Proof. induction n as [|n IH]; intros w; [done|]. cbn. by rewrite IH. Qed.

Lemma le_word_bytes n : forall w, 0 <= w < 256 ^ Z.of_nat n -> le_word (le_bytes n w) = w.
Proof.
  induction n as [|n IH]; intros w Hw; [cbn in *; lia|]. rewrite Nat2Z.inj_succ, Z.pow_succ_r in Hw by lia.
  cbn [le_bytes le_word foldr]. fold (le_word (le_bytes n (w / 256))). rewrite IH.
  - pose proof (Z.div_mod w 256 ltac:(lia)). lia.
  - split; [apply Z.div_pos; lia | apply Z.div_lt_upper_bound; lia].
Qed.

Lemma bytes_at_app pre l post off n : Z.of_nat (length pre) = off -> length l = n -> bytes_at (pre ++ l ++ post) off n = Ok l.
Proof.
  intros <- <-. unfold bytes_at. rewrite !length_app, (proj2 (Z.leb_le _ _)), (proj2 (Z.leb_le _ _)) by lia. cbn [andb].
  by rewrite Nat2Z.id, drop_app_length, take_app_length.
Qed.

Lemma load_word_app pre post off n w : Z.of_nat (length pre) = off -> 0 <= w < 256 ^ Z.of_nat n -> load_word n (pre ++ le_bytes n w ++ post) off = Ok w.
Proof. intros Hoff Hw. unfold load_word. rewrite (bytes_at_app pre _ post off n Hoff (length_le_bytes n w)), res_bind_Ok. by rewrite le_word_bytes. Qed.

Lemma bytes_at_behind m off n : Z.of_nat (length m) < off + Z.of_nat n -> bytes_at m off n = Crash OutOfBounds.
Proof. intros Hm. unfold bytes_at. rewrite (proj2 (Z.leb_gt (off + _) _)) by lia. by rewrite andb_false_r. Qed.

(** Anything that is there can be read. *)
Lemma bytes_at_inside m off n : 0 <= off -> off + Z.of_nat n <= Z.of_nat (length m) -> exists l, bytes_at m off n = Ok l.
Proof. intros Hoff Hm. unfold bytes_at. rewrite !(proj2 (Z.leb_le _ _)) by lia. eauto. Qed.

Lemma load_word_inside m off n : 0 <= off -> off + Z.of_nat n <= Z.of_nat (length m) -> exists w, load_word n m off = Ok w.
Proof. intros Hoff Hm. unfold load_word. destruct (bytes_at_inside m off n Hoff Hm) as [l ->]. rewrite res_bind_Ok. eauto. Qed.

(** ** Events as lists of banks *)

Record bank := Bank { b_name : list Z; b_type : Z; b_data : list Z }.

Definition size_of (b : bank) : Z := Z.of_nat (length (b_data b)).

(** The width of the fields of a bank header. *)
Definition field (b32 : bool) : nat := if b32 then 4 else 2.

Definition padding (n : Z) : list Z := replicate (Z.to_nat (align8 n - n)) 0.
Definition encode_bank (b32 : bool) (b : bank) : list Z :=
  b_name b ++ le_bytes (field b32) (b_type b) ++ le_bytes (field b32) (size_of b) ++ b_data b ++ padding (size_of b).
Definition encode_banks (b32 : bool) (bs : list bank) : list Z := concat (map (encode_bank b32) bs).

Definition encode_event (flags : Z) (bs : list bank) : list Z :=
  le_bytes 4 (Z.of_nat (length (encode_banks (is_bank32 flags) bs))) ++ le_bytes 4 flags ++ encode_banks (is_bank32 flags) bs.

(** A bank that its header can describe. *)
Definition bank_ok (b32 : bool) (b : bank) : Prop :=
  length (b_name b) = 4%nat /\ 0 <= b_type b < TID_MAX /\ size_of b + 7 < 256 ^ Z.of_nat (field b32).
Definition event_ok (flags : Z) (bs : list bank) : Prop :=
  0 <= flags < 2 ^ 32 /\ Forall (bank_ok (is_bank32 flags)) bs /\ 8 + Z.of_nat (length (encode_banks (is_bank32 flags) bs)) <= 500 * 1024 * 1024.

Definition header_size (b32 : bool) : Z := if b32 then BANK32_SIZE else BANK_SIZE.

Lemma align8_range n : 0 <= n -> n <= align8 n < n + 8 /\ align8 n mod 8 = 0.
Proof.
  intros Hn. unfold align8. pose proof (Z.div_mod (n + 7) 8 ltac:(lia)). pose proof (Z.mod_pos_bound (n + 7) 8 ltac:(lia)).
  split; [lia | by apply Z.mod_mul].
Qed.

Lemma align8_32_small n : 0 <= n -> n + 7 < 2 ^ 32 -> align8_32 n = align8 n.
Proof. intros Hn Hs. unfold align8_32, align8. by rewrite Z.mod_small by lia. Qed.

Lemma length_encode_bank b32 b : bank_ok b32 b -> Z.of_nat (length (encode_bank b32 b)) = header_size b32 + align8 (size_of b).
Proof.
  intros (Hn & _). unfold encode_bank, padding. rewrite !length_app, !length_le_bytes, length_replicate, Hn.
  pose proof (align8_range (size_of b) ltac:(unfold size_of; lia)) as [Ha _]. unfold size_of in *. destruct b32; cbn [field header_size]; unfold BANK32_SIZE, BANK_SIZE; lia.
Qed.

(** *** The fields of a bank in memory *)

Section fields.
Variables (b32 : bool) (b : bank) (pre post : list Z) (bk : Z).
Hypothesis Hb : bank_ok b32 b.
Hypothesis Hbk : Z.of_nat (length pre) = bk.
Let m := pre ++ encode_bank b32 b ++ post.

Lemma name_field : bk_name m bk = Ok (b_name b).
Proof. unfold m, bk_name, encode_bank. rewrite <- app_assoc. apply bytes_at_app; [done | apply Hb]. Qed.

Lemma type_field : load_word (field b32) m (bk + 4) = Ok (b_type b).
Proof.
  destruct Hb as (Hn & Ht & _). unfold m, encode_bank. rewrite <- !app_assoc, (app_assoc pre (b_name b)). apply load_word_app; [rewrite length_app, Hn; lia|].
  unfold TID_MAX in Ht. destruct b32; cbn [field]; lia.
Qed.

Lemma size_field : load_word (field b32) m (bk + 4 + Z.of_nat (field b32)) = Ok (size_of b).
Proof.
  destruct Hb as (Hn & _ & Hs). unfold m, encode_bank. rewrite <- !app_assoc, (app_assoc pre (b_name b)), (app_assoc (pre ++ b_name b)).
  apply load_word_app; [rewrite !length_app, length_le_bytes, Hn; lia | unfold size_of in *; lia].
Qed.

Lemma data_field : take (length (b_data b)) (drop (Z.to_nat (bk + header_size b32)) m) = b_data b.
Proof.
  destruct Hb as (Hn & _). unfold m, encode_bank. rewrite <- !app_assoc, (app_assoc pre (b_name b)), (app_assoc (pre ++ b_name b)), (app_assoc ((pre ++ b_name b) ++ _)).
  replace (Z.to_nat (bk + header_size b32)) with (length (((pre ++ b_name b) ++ le_bytes (field b32) (b_type b)) ++ le_bytes (field b32) (size_of b))).
  - by rewrite drop_app_length, take_app_length.
  - rewrite !length_app, !length_le_bytes, Hn. subst bk. destruct b32; cbn [field header_size]; unfold BANK32_SIZE, BANK_SIZE; lia.
Qed.
End fields.

(** ** Walking through an event *)

Section walk.
Variables (flags : Z) (bs : list bank) (behind : list Z).
Hypothesis Hev : event_ok flags bs.
Let b32 := is_bank32 flags.
Let m := encode_event flags bs ++ behind.

(** Where the bank after [l1] begins. *)
Definition offset (b32 : bool) (l1 : list bank) : Z := BANK_HEADER_SIZE + Z.of_nat (length (encode_banks b32 l1)).

Lemma offset_snoc l1 b : bank_ok b32 b -> offset b32 (l1 ++ [b]) = offset b32 l1 + header_size b32 + align8 (size_of b).
Proof.
  intros Hb. unfold offset, encode_banks. rewrite map_app, concat_app, length_app. cbn [map concat]. rewrite app_nil_r.
  pose proof (length_encode_bank b32 b Hb). lia.
Qed.

Lemma event_flags : bh_flags m = Ok flags.
Proof.
  unfold m, bh_flags, encode_event. rewrite <- !app_assoc. apply load_word_app; [by rewrite length_le_bytes|]. destruct Hev as (Hf & _). lia.
Qed.

Lemma event_end : banks_end m = Ok (offset b32 bs).
Proof.
  assert (E : bh_size m = Ok (Z.of_nat (length (encode_banks b32 bs)))).
  { unfold m, bh_size, encode_event. fold b32. rewrite <- !app_assoc. apply (load_word_app []); [done|]. destruct Hev as (_ & _ & Hl). fold b32 in Hl. lia. }
  unfold banks_end, offset. rewrite E, res_bind_Ok. f_equal. lia.
Qed.

(** The block, cut at a bank. *)
Definition front (l1 : list bank) : list Z :=
  le_bytes 4 (Z.of_nat (length (encode_banks b32 bs))) ++ le_bytes 4 flags ++ encode_banks b32 l1.

Lemma block_cut l1 b l2 : bs = l1 ++ b :: l2 -> m = front l1 ++ encode_bank b32 b ++ encode_banks b32 l2 ++ behind.
Proof.
  intros E. unfold m, encode_event, front. fold b32. rewrite <- !app_assoc. do 2 f_equal. rewrite E. unfold encode_banks at 1.
  rewrite map_app, concat_app. cbn [map concat]. by rewrite <- !app_assoc.
Qed.

Lemma length_front l1 : Z.of_nat (length (front l1)) = offset b32 l1.
Proof. unfold front. rewrite !length_app, !length_le_bytes. unfold offset, BANK_HEADER_SIZE. lia. Qed.

Lemma bank_at l1 b l2 : bs = l1 ++ b :: l2 -> bank_ok b32 b.
Proof. intros E. destruct Hev as (_ & Hf & _). rewrite E in Hf. apply Forall_app in Hf as [_ Hf]. exact (Forall_inv Hf). Qed.

Lemma length_block : Z.of_nat (length m) = offset b32 bs + Z.of_nat (length behind).
Proof. unfold m, encode_event, offset, BANK_HEADER_SIZE. fold b32. rewrite !length_app, !length_le_bytes. lia. Qed.

(** The iteration has come to the end of [l1]. *)
Definition reached (pbk : option Z) (l1 : list bank) : Prop :=
  pbk = None /\ l1 = [] \/ exists l0 b0, l1 = l0 ++ [b0] /\ pbk = Some (offset b32 l0).

(** The arithmetic of the two iterators. *)
Lemma next_bank32 pbk l1 l2 : b32 = true -> reached pbk l1 -> bs = l1 ++ l2 ->
  match pbk with None => Ok BANK_HEADER_SIZE | Some bk => n ← bk32_size m bk; Ok (bk + BANK32_SIZE + align8_32 n) end = Ok (offset b32 l1).
Proof.
  intros E32 [[-> ->]|(l0 & b0 & -> & ->)] E; [done|]. rewrite <- app_assoc in E. pose proof (bank_at _ _ _ E) as Hb.
  pose proof (size_field b32 b0 (front l0) (encode_banks b32 l2 ++ behind) _ Hb (length_front l0)) as Hs. rewrite <- (block_cut _ _ _ E) in Hs.
  rewrite offset_snoc by done. unfold bk32_size. rewrite E32 in *. cbn [field header_size] in *. replace (offset true l0 + 4 + Z.of_nat 4) with (offset true l0 + 8) in Hs by lia.
  rewrite Hs, res_bind_Ok. rewrite align8_32_small; [done | unfold size_of; lia |]. destruct Hb as (_ & _ & Hb). cbn [field] in Hb. lia.
Qed.

Lemma next_bank16 pbk l1 l2 : b32 = false -> reached pbk l1 -> bs = l1 ++ l2 ->
  match pbk with None => Ok BANK_HEADER_SIZE | Some bk => n ← bk_size m bk; Ok (bk + BANK_SIZE + align8 n) end = Ok (offset b32 l1).
Proof.
  intros E32 [[-> ->]|(l0 & b0 & -> & ->)] E; [done|]. rewrite <- app_assoc in E. pose proof (bank_at _ _ _ E) as Hb.
  pose proof (size_field b32 b0 (front l0) (encode_banks b32 l2 ++ behind) _ Hb (length_front l0)) as Hs. rewrite <- (block_cut _ _ _ E) in Hs.
  rewrite offset_snoc by done. unfold bk_size. rewrite E32 in *. cbn [field header_size] in *. replace (offset false l0 + 4 + Z.of_nat 2) with (offset false l0 + 6) in Hs by lia.
  by rewrite Hs, res_bind_Ok.
Qed.

Lemma offset_before l1 b l2 : bs = l1 ++ b :: l2 -> offset b32 l1 < offset b32 bs.
Proof.
  intros E. pose proof (bank_at _ _ _ E) as Hb. rewrite E. unfold offset, encode_banks. rewrite map_app, concat_app, length_app. cbn [map concat].
  rewrite length_app. pose proof (length_encode_bank b32 b Hb). pose proof (align8_range (size_of b) ltac:(unfold size_of; lia)). unfold size_of in *.
  destruct b32; cbn [header_size] in *; unfold BANK32_SIZE, BANK_SIZE in *; lia.
Qed.

(** A step to a bank that is there. *)
Lemma iterate32_at pbk l1 b l2 : b32 = true -> reached pbk l1 -> bs = l1 ++ b :: l2 -> IterateBank32 m pbk = Ok (Some (offset b32 l1)).
Proof.
  intros E32 Hr E. unfold IterateBank32. rewrite (next_bank32 pbk l1 _ E32 Hr E), res_bind_Ok. pose proof (bank_at _ _ _ E) as Hb.
  pose proof (type_field b32 b (front l1) (encode_banks b32 l2 ++ behind) _ Hb (length_front l1)) as Ht.
  pose proof (size_field b32 b (front l1) (encode_banks b32 l2 ++ behind) _ Hb (length_front l1)) as Hs. rewrite <- (block_cut _ _ _ E) in Ht, Hs.
  unfold bk32_type, bk32_size. rewrite E32 in *. cbn [field] in *. rewrite Ht, res_bind_Ok. destruct Hb as (_ & Hb & _).
  rewrite (proj2 (Z.ltb_ge TID_MAX _)) by lia. rewrite res_bind_Ok, event_end, res_bind_Ok.
  pose proof (offset_before _ _ _ E) as Hlt. rewrite E32 in Hlt |- *. rewrite (proj2 (Z.leb_gt _ _) Hlt).
  replace (offset true l1 + 8) with (offset true l1 + 4 + Z.of_nat 4) by lia. by rewrite Hs.
Qed.

Lemma iterate16_at pbk l1 b l2 : b32 = false -> reached pbk l1 -> bs = l1 ++ b :: l2 -> IterateBank m pbk = Ok (Some (offset b32 l1)).
Proof.
  intros E32 Hr E. unfold IterateBank. rewrite (next_bank16 pbk l1 _ E32 Hr E), res_bind_Ok, event_end, res_bind_Ok. pose proof (bank_at _ _ _ E) as Hb.
  pose proof (size_field b32 b (front l1) (encode_banks b32 l2 ++ behind) _ Hb (length_front l1)) as Hs. rewrite <- (block_cut _ _ _ E) in Hs.
  pose proof (offset_before _ _ _ E) as Hlt. rewrite (proj2 (Z.leb_gt _ _) Hlt). unfold bk_size. rewrite E32 in *. cbn [field] in Hs.
  replace (offset false l1 + 6) with (offset false l1 + 4 + Z.of_nat 2) by lia. by rewrite Hs.
Qed.

(** The step behind the last bank. *)
Lemma iterate16_end pbk : b32 = false -> reached pbk bs -> IterateBank m pbk = Ok None.
Proof.
  intros E32 Hr. unfold IterateBank. rewrite (next_bank16 pbk bs [] E32 Hr (eq_sym (app_nil_r bs))), res_bind_Ok, event_end, res_bind_Ok. by rewrite Z.leb_refl.
Qed.

Lemma iterate32_end pbk : b32 = true -> reached pbk bs -> (12 <= length behind)%nat -> IterateBank32 m pbk = Ok None.
Proof.
  intros E32 Hr Hl. unfold IterateBank32. rewrite (next_bank32 pbk bs [] E32 Hr (eq_sym (app_nil_r bs))), res_bind_Ok. pose proof length_block as Hm.
  assert (Hpos : 0 <= offset b32 bs) by (unfold offset, BANK_HEADER_SIZE; lia).
  unfold bk32_type. destruct (load_word_inside m (offset b32 bs + 4) 4) as [t ->]; [lia..|]. rewrite res_bind_Ok.
  destruct (TID_MAX <? t).
  - destruct (load_word_inside m (offset b32 bs + 4 + 4) 4) as [t4 ->]; [lia..|]. rewrite !res_bind_Ok. destruct (t4 <=? TID_MAX); [|done].
    rewrite event_end, res_bind_Ok. by rewrite (proj2 (Z.leb_le _ _)) by lia.
  - rewrite res_bind_Ok, event_end, res_bind_Ok. by rewrite Z.leb_refl.
Qed.

Lemma iterate32_overread pbk : b32 = true -> reached pbk bs -> (length behind < 8)%nat -> IterateBank32 m pbk = Crash OutOfBounds.
Proof.
  intros E32 Hr Hl. unfold IterateBank32. rewrite (next_bank32 pbk bs [] E32 Hr (eq_sym (app_nil_r bs))), res_bind_Ok. pose proof length_block as Hm.
  assert (E : bk32_type m (offset b32 bs) = Crash OutOfBounds) by (unfold bk32_type, load_word; rewrite bytes_at_behind by lia; reflexivity).
  rewrite E. reflexivity.
Qed.

Lemma reached_first : reached None [].
Proof. by left. Qed.
Lemma reached_next l1 b : reached (Some (offset b32 l1)) (l1 ++ [b]).
Proof. right. eauto. Qed.

(** ** Finding *)

(** The number of elements that the bank has. *)
Definition elements (b : bank) : Z :=
  match TID_SIZE !! Z.to_nat (b_type b) with Some (Zpos t) => size_of b / Zpos t | _ => size_of b end.
Definition named (name : list Z) (b : bank) : Prop := take 4 name = b_name b.

Lemma bank_length_is b : bank_ok b32 b -> size_of b < 2 ^ 31 -> bank_length (size_of b) (b_type b) = Ok (elements b).
Proof.
  intros (_ & Ht & _) Hs. unfold bank_length, tid_size, load, elements. change 0xFF with (Z.ones 8). rewrite Z.land_ones, Z.mod_small by (unfold TID_MAX in Ht; lia).
  unfold TID_MAX in Ht. destruct (lookup_lt_is_Some_2 TID_SIZE (Z.to_nat (b_type b))) as [t Et]; [cbn; lia|]. rewrite Et, res_bind_Ok.
  assert (Hpos : 0 <= t). { assert (Hall : Forall (fun t => 0 <= t) TID_SIZE) by (repeat constructor; lia). exact (Forall_lookup_1 _ _ _ _ Hall Et). }
  assert (Hn : 0 <= size_of b) by (unfold size_of; lia).
  assert (Hi : forall x, 0 <= x <= size_of b -> to_int x = x) by (intros x Hx; unfold to_int; rewrite Z.mod_small; lia).
  destruct t as [|t|t]; cbn [Z.eqb]; [|destruct (Z.eqb_spec (Zpos t) 0); [lia|] | lia]; rewrite Hi; [done | lia | done |].
  split; [by apply Z.div_pos | apply Z.div_le_upper_bound; nia].
Qed.

Lemma bank_small l1 b l2 : bs = l1 ++ b :: l2 -> size_of b < 2 ^ 31.
Proof.
  intros E. pose proof (bank_at _ _ _ E) as Hb. destruct Hev as (_ & _ & Hl). fold b32 in Hl. rewrite E in Hl. unfold encode_banks in Hl.
  rewrite map_app, concat_app, length_app in Hl. cbn [map concat] in Hl. rewrite length_app in Hl.
  pose proof (length_encode_bank b32 b Hb). pose proof (align8_range (size_of b) ltac:(unfold size_of; lia)). destruct b32; cbn [header_size] in *; unfold BANK32_SIZE, BANK_SIZE in *; lia.
Qed.

(** The fields of the bank at the end of [l1]. *)
Lemma bank_fields l1 b l2 : bs = l1 ++ b :: l2 -> let bk := offset b32 l1 in
  bk_name m bk = Ok (b_name b) /\ load_word (field b32) m (bk + 4) = Ok (b_type b) /\ load_word (field b32) m (bk + 4 + Z.of_nat (field b32)) = Ok (size_of b) /\
  take (length (b_data b)) (drop (Z.to_nat (bk + header_size b32)) m) = b_data b.
Proof.
  intros E bk. pose proof (bank_at _ _ _ E) as Hb. rewrite (block_cut _ _ _ E). pose proof (length_front l1) as Hl.
  split_and!; [by apply name_field | by apply type_field | by apply size_field | by apply data_field].
Qed.

Lemma same_name_true name b : named name b -> same_name name (b_name b) = true.
Proof. intros H. unfold same_name. by rewrite bool_decide_eq_true. Qed.
Lemma same_name_false name b : ~ named name b -> same_name name (b_name b) = false.
Proof. intros H. unfold same_name. by rewrite bool_decide_eq_false. Qed.

(** Banks of other names are passed. *)
Lemma find32_skip name l2 : b32 = true -> forall l0 l1 fuel pbk, Forall (fun b => ~ named name b) l1 -> reached pbk l0 -> bs = l0 ++ l1 ++ l2 ->
  exists pbk', reached pbk' (l0 ++ l1) /\ find_bank32 (length l1 + fuel) m name pbk = find_bank32 fuel m name pbk'.
Proof.
  intros E32 l0 l1. revert l0. induction l1 as [|b l1 IH]; intros l0 fuel pbk Hn Hr E; cbn [length Nat.add].
  { exists pbk. by rewrite app_nil_r. }
  cbn [app] in E. destruct (bank_fields _ _ _ E) as (Fn & _). pose proof (Forall_inv Hn) as Hb. pose proof (Forall_inv_tail Hn) as Hn'. cbv beta in Hb.
  destruct (IH (l0 ++ [b]) fuel (Some (offset b32 l0)) Hn' (reached_next _ _)) as (pbk' & Hr' & Ef); [by rewrite <- app_assoc|].
  exists pbk'. rewrite <- app_assoc in Hr'. split; [exact Hr'|]. rewrite <- Ef. cbn [find_bank32].
  rewrite (iterate32_at pbk l0 b _ E32 Hr E), res_bind_Ok, Fn, res_bind_Ok. by rewrite same_name_false.
Qed.

Lemma find16_skip name l2 : b32 = false -> forall l0 l1 fuel, Forall (fun b => ~ named name b) l1 -> bs = l0 ++ l1 ++ l2 -> l2 <> [] ->
  find_bank (length l1 + fuel) m name (offset b32 l0) = find_bank fuel m name (offset b32 (l0 ++ l1)).
Proof.
  intros E32 l0 l1. revert l0. induction l1 as [|b l1 IH]; intros l0 fuel Hn E Hl2; cbn [length Nat.add]; [by rewrite app_nil_r|].
  cbn [app] in E. destruct (bank_fields _ _ _ E) as (Fn & _ & Fs & _). pose proof (Forall_inv Hn) as Hb. pose proof (Forall_inv_tail Hn) as Hn'. cbv beta in Hb.
  replace (l0 ++ b :: l1) with ((l0 ++ [b]) ++ l1) by (by rewrite <- app_assoc). rewrite <- (IH (l0 ++ [b])); [|done|by rewrite <- app_assoc|done].
  pose proof (bank_at _ _ _ E) as Hok. cbn [find_bank]. rewrite Fn, res_bind_Ok. unfold bk_size.
  rewrite offset_snoc by done. rewrite E32 in *. cbn [field header_size] in *. replace (offset false l0 + 4 + Z.of_nat 2) with (offset false l0 + 6) in Fs by lia.
  rewrite Fs, res_bind_Ok, same_name_false by done. rewrite event_end, res_bind_Ok, (proj2 (Z.ltb_lt _ _)); [done|].
  assert (Hlt : offset b32 (l0 ++ [b]) < offset b32 bs).
  { destruct (l1 ++ l2) as [|b' r] eqn:Er; [by destruct l1, l2|]. apply (offset_before _ b' r). by rewrite <- app_assoc. }
  rewrite offset_snoc in Hlt by (by rewrite E32). rewrite E32 in Hlt |- *. exact Hlt.
Qed.
End walk.

(** The number of banks is a bound on the steps. *)
Lemma many_bytes flags bs behind : event_ok flags bs -> (length bs < length (encode_event flags bs ++ behind))%nat.
Proof.
  intros (_ & Hf & _). unfold encode_event. rewrite !length_app, !length_le_bytes. enough (length bs <= length (encode_banks (is_bank32 flags) bs))%nat by lia.
  revert Hf. generalize (is_bank32 flags). intros b32 Hf. induction Hf as [|b bs Hb Hf IH]; [done|]. unfold encode_banks in *. cbn [map concat length]. rewrite length_app.
  pose proof (length_encode_bank b32 b Hb). pose proof (align8_range (size_of b) ltac:(unfold size_of; lia)). unfold size_of in *.
  destruct b32; cbn [header_size] in *; unfold BANK32_SIZE, BANK_SIZE in *; lia.
Qed.

Lemma to_int_type b32 b : bank_ok b32 b -> to_int (b_type b) = b_type b.
Proof. intros (_ & Ht & _). unfold TID_MAX in Ht. unfold to_int. rewrite Z.mod_small; lia. Qed.

Lemma header_inside flags l1 b l2 behind : event_ok flags (l1 ++ b :: l2) ->
  0 <= offset (is_bank32 flags) l1 + header_size (is_bank32 flags) <= Z.of_nat (length (encode_event flags (l1 ++ b :: l2) ++ behind)).
Proof.
  intros Hev. rewrite (block_cut flags (l1 ++ b :: l2) behind l1 b l2 eq_refl). pose proof (length_front flags (l1 ++ b :: l2) l1) as Hl.
  pose proof (length_encode_bank _ b (bank_at flags _ Hev l1 b l2 eq_refl)) as Hb. pose proof (align8_range (size_of b) ltac:(unfold size_of; lia)). unfold size_of in *.
  rewrite !length_app. unfold offset, BANK_HEADER_SIZE in *. destruct (is_bank32 flags); cbn [header_size] in *; unfold BANK32_SIZE, BANK_SIZE in *; lia.
Qed.

Lemma FindBank_at flags l1 b l2 name behind : event_ok flags (l1 ++ b :: l2) -> Forall (fun b => ~ named name b) l1 -> named name b ->
  exists pre post, encode_event flags (l1 ++ b :: l2) ++ behind = pre ++ b_data b ++ post /\ FindBank (encode_event flags (l1 ++ b :: l2) ++ behind) name = Ok (Some (Found (elements b) (b_type b) (Z.of_nat (length pre)))).
Proof.
  intros Hev Hn Hb. set (bs := l1 ++ b :: l2) in *. unfold FindBank. rewrite (event_flags flags bs behind Hev), res_bind_Ok.
  pose proof (many_bytes flags bs behind Hev) as Hfuel. set (m := encode_event flags bs ++ behind) in *.
  assert (Hl1 : (length l1 < length bs)%nat) by (unfold bs; rewrite length_app; cbn; lia).
  pose proof (bank_at flags bs Hev l1 b l2 eq_refl) as Hok. pose proof (bank_length_is flags b Hok (bank_small flags bs Hev l1 b l2 eq_refl)) as Hlen.
  destruct (bank_fields flags bs behind Hev l1 b l2 eq_refl) as (Fn & Ft & Fs & Fd). fold m in Fn, Ft, Fs, Fd.
  exists (take (Z.to_nat (offset (is_bank32 flags) l1 + header_size (is_bank32 flags))) m), (drop (length (b_data b)) (drop (Z.to_nat (offset (is_bank32 flags) l1 + header_size (is_bank32 flags))) m)).
  split; [etransitivity; [symmetry; apply (take_drop (Z.to_nat (offset (is_bank32 flags) l1 + header_size (is_bank32 flags))))|]; f_equal; etransitivity; [symmetry; apply (take_drop (length (b_data b)))|]; by rewrite Fd|]. rewrite length_take. pose proof (header_inside flags l1 b l2 behind Hev) as Hin. fold bs m in Hin.
  replace (Z.of_nat (Nat.min (Z.to_nat (offset (is_bank32 flags) l1 + header_size (is_bank32 flags))) (length m))) with (offset (is_bank32 flags) l1 + header_size (is_bank32 flags)) by lia.
  destruct (is_bank32 flags) eqn:E32; cbn [field header_size] in *.
  - replace (S (length m)) with (length l1 + S (length m - length l1))%nat by lia.
    destruct (find32_skip flags bs behind Hev name (b :: l2) E32 [] l1 (S (length m - length l1)) None Hn (reached_first flags) eq_refl) as (pbk & Hr & Ef).
    fold m in Ef. rewrite Ef. cbn [find_bank32]. pose proof (iterate32_at flags bs behind Hev pbk l1 b l2 E32 Hr eq_refl) as Hi. fold m in Hi. rewrite E32 in Hi.
    rewrite Hi, res_bind_Ok, Fn, res_bind_Ok, same_name_true by done. unfold bk32_type, bk32_size. rewrite Ft, res_bind_Ok.
    replace (offset true l1 + 8) with (offset true l1 + 4 + Z.of_nat 4) by lia. rewrite Fs, res_bind_Ok, Hlen, res_bind_Ok. by rewrite (to_int_type true b Hok).
  - replace (S (length m)) with (length l1 + S (length m - length l1))%nat by lia.
    pose proof (find16_skip flags bs behind Hev name (b :: l2) E32 [] l1 (S (length m - length l1)) Hn eq_refl ltac:(done)) as Ef.
    fold m in Ef. rewrite E32 in Ef. change (offset false []) with BANK_HEADER_SIZE in Ef. rewrite Ef. cbn [find_bank app]. rewrite Fn, res_bind_Ok.
    unfold bk_size. replace (offset false l1 + 6) with (offset false l1 + 4 + Z.of_nat 2) by lia. rewrite Fs, res_bind_Ok, same_name_true by done.
    unfold bk_type. by rewrite Ft, res_bind_Ok, Hlen, res_bind_Ok.
Qed.

(** C5: [FindBank] on an event, with 16-bit or 32-bit bank headers, answers the first bank of the name: its number of
    elements, its type, and the place where its data are, whatever lies
    behind the event in memory and whether or not the bank is the last one. *)
Theorem find_bank_first flags l1 b l2 name behind : event_ok flags (l1 ++ b :: l2) -> Forall (fun b => ~ named name b) l1 -> named name b ->
  exists off, FindBank (encode_event flags (l1 ++ b :: l2) ++ behind) name = Ok (Some (Found (elements b) (b_type b) off)) /\
    take (length (b_data b)) (drop (Z.to_nat off) (encode_event flags (l1 ++ b :: l2) ++ behind)) = b_data b.
Proof.
  intros Hev Hn Hb. destruct (FindBank_at flags l1 b l2 name behind Hev Hn Hb) as (pre & post & E & ->). rewrite E.
  exists (Z.of_nat (length pre)). split; [done|]. by rewrite Nat2Z.id, drop_app_length, take_app_length.
Qed.

(** [FindBank] on an event without a bank of the name answers that there is none:
    with 16-bit headers if the event has a bank at all, with 32-bit headers if
    at least 12 more bytes of memory can be read behind the event, whatever they
    are. *)
Theorem find_bank_absent flags bs name behind : event_ok flags bs -> bs <> [] -> Forall (fun b => ~ named name b) bs ->
  (is_bank32 flags = true -> (12 <= length behind)%nat) -> FindBank (encode_event flags bs ++ behind) name = Ok None.
Proof.
  intros Hev Hne Hn Hlb. unfold FindBank. rewrite (event_flags flags bs behind Hev), res_bind_Ok.
  pose proof (many_bytes flags bs behind Hev) as Hfuel. set (m := encode_event flags bs ++ behind) in *. destruct (is_bank32 flags) eqn:E32.
  - replace (S (length m)) with (length bs + S (length m - length bs))%nat by lia.
    destruct (find32_skip flags bs behind Hev name [] E32 [] bs (S (length m - length bs)) None Hn (reached_first flags)) as (pbk & Hr & Ef); [by rewrite app_nil_r|].
    fold m in Ef. rewrite Ef. cbn [find_bank32]. pose proof (iterate32_end flags bs behind Hev pbk E32 Hr (Hlb eq_refl)) as Hi. fold m in Hi. by rewrite Hi.
  - destruct (exists_last Hne) as (l1 & b & E). pose proof (bank_at flags bs Hev l1 b [] E) as Hok. rewrite E32 in Hok.
    assert (Hn' := Hn). rewrite E in Hn'. apply Forall_app in Hn' as [Hn1 Hb]. apply Forall_inv in Hb.
    assert (Hl1 : (length l1 < length bs)%nat) by (rewrite E, length_app; cbn; lia).
    replace (S (length m)) with (length l1 + S (length m - length l1))%nat by lia.
    pose proof (find16_skip flags bs behind Hev name [b] E32 [] l1 (S (length m - length l1)) Hn1 E ltac:(done)) as Ef.
    fold m in Ef. rewrite E32 in Ef. change (offset false []) with BANK_HEADER_SIZE in Ef. rewrite Ef. cbn [find_bank app].
    destruct (bank_fields flags bs behind Hev l1 b [] E) as (Fn & _ & Fs & _). fold m in Fn, Fs. rewrite E32 in Fn, Fs. cbn [field] in Fs.
    rewrite Fn, res_bind_Ok. unfold bk_size. replace (offset false l1 + 6) with (offset false l1 + 4 + Z.of_nat 2) by lia. rewrite Fs, res_bind_Ok, same_name_false by done.
    pose proof (event_end flags bs behind Hev) as He. fold m in He. rewrite He, res_bind_Ok, E32.
    pose proof (offset_snoc flags l1 b) as Ho. rewrite E32 in Ho. specialize (Ho Hok). cbn [header_size] in Ho. rewrite <- Ho, <- E, Z.ltb_irrefl. done.
Qed.

#[export] Instance named_dec name b : Decision (named name b).
Proof. unfold named. apply _. Defined.

(** The first bank of a name. *)
Fixpoint first_named (name : list Z) (bs : list bank) : option bank :=
  match bs with [] => None | b :: bs' => if decide (named name b) then Some b else first_named name bs' end.

Lemma first_named_Some name bs b : first_named name bs = Some b -> exists l1 l2, bs = l1 ++ b :: l2 /\ Forall (fun b => ~ named name b) l1 /\ named name b.
Proof.
  induction bs as [|c bs IH]; cbn [first_named]; [done|]. case_decide as Hc; [intros [= ->]; by exists [], bs|].
  intros E. destruct (IH E) as (l1 & l2 & -> & Hn & Hb). exists (c :: l1), l2. split; [done|]. split; [by constructor | done].
Qed.

Lemma first_named_None name bs : first_named name bs = None -> Forall (fun b => ~ named name b) bs.
Proof. induction bs as [|c bs IH]; cbn [first_named]; [constructor|]. case_decide as Hc; [done|]. intros E. constructor; auto. Qed.

(** What can be read behind the events. *)
Definition readable (flags : Z) (behind : list Z) : Prop := is_bank32 flags = true -> (12 <= length behind)%nat.

Lemma FindBank_named flags bs name behind : event_ok flags bs -> bs <> [] -> readable flags behind ->
  match first_named name bs with
  | None => FindBank (encode_event flags bs ++ behind) name = Ok None
  | Some b => exists pre post, encode_event flags bs ++ behind = pre ++ b_data b ++ post /\
      FindBank (encode_event flags bs ++ behind) name = Ok (Some (Found (elements b) (b_type b) (Z.of_nat (length pre))))
  end.
Proof.
  intros Hev Hne Hr. destruct (first_named name bs) as [b|] eqn:E.
  - apply first_named_Some in E as (l1 & l2 & -> & Hn & Hb). by apply FindBank_at.
  - apply first_named_None in E. by apply find_bank_absent.
Qed.

Lemma names_length b32 l : Forall (bank_ok b32) l -> Z.of_nat (length (concat (map b_name l))) = 4 * Z.of_nat (length l).
Proof. induction 1 as [|b l (Hn & _) Hf IH]; [done|]. cbn [map concat length]. rewrite length_app, Hn. lia. Qed.

(** The list always has room for one more name: its size is a multiple of
    400. *)
Lemma grown n size : 0 <= size -> size mod 400 = 0 -> 4 * Z.of_nat n <= size ->
  let size' := if size <=? 4 * Z.of_nat n then size + 400 else size in
  4 * Z.of_nat n < size' /\ 0 <= size' /\ size' mod 400 = 0 /\ 4 * Z.of_nat n + 4 <= size'.
Proof.
  intros Hp Hm Hn size'. unfold size'. destruct (Z.leb_spec size (4 * Z.of_nat n)).
  - replace (size + 400) with (size + 1 * 400) by lia. rewrite Z.mod_add by lia. lia.
  - pose proof (Z.div_mod size 400 ltac:(lia)). lia.
Qed.

(** The loop of [SetBankList] comes to the end of the banks with all their names. *)
Lemma list_walk flags bs behind : event_ok flags bs -> forall l2 l1 fuel listSize pbk,
  bs = l1 ++ l2 -> reached flags pbk l1 -> (length l2 < fuel)%nat -> 0 <= listSize -> listSize mod 400 = 0 -> 4 * Z.of_nat (length l1) <= listSize ->
  exists fuel' size pbk', list_banks fuel (encode_event flags bs ++ behind) listSize (concat (map b_name l1)) pbk =
      list_banks (S fuel') (encode_event flags bs ++ behind) size (concat (map b_name bs)) pbk' /\
    reached flags pbk' bs /\ 0 <= size /\ size mod 400 = 0 /\ 4 * Z.of_nat (length bs) <= size.
Proof.
  intros Hev l2. induction l2 as [|b l2 IH]; intros l1 [|fuel] listSize pbk E Hr Hfuel Hpos Hmod Hsize; cbn [length] in Hfuel; try lia.
  { rewrite app_nil_r in E. subst l1. exists fuel, listSize, pbk. by split_and!. }
  assert (Hlen : Z.of_nat (length (concat (map b_name l1))) = 4 * Z.of_nat (length l1)).
  { apply (names_length (is_bank32 flags)). destruct Hev as (_ & Hf & _). rewrite E in Hf. by apply Forall_app in Hf as [Hf _]. }
  destruct (grown (length l1) listSize Hpos Hmod Hsize) as (_ & Hs2 & Hs3 & Hs4).
  destruct (bank_fields flags bs behind Hev l1 b l2 E) as (Fn & _).
  assert (Hit : (if is_bank32 flags then IterateBank32 (encode_event flags bs ++ behind) pbk else IterateBank (encode_event flags bs ++ behind) pbk) = Ok (Some (offset (is_bank32 flags) l1))).
  { destruct (is_bank32 flags) eqn:E32; [rewrite <- E32; by apply (iterate32_at flags bs behind Hev pbk l1 b l2) | rewrite <- E32; by apply (iterate16_at flags bs behind Hev pbk l1 b l2)]. }
  set (size := if listSize <=? 4 * Z.of_nat (length l1) then listSize + 400 else listSize) in *.
  destruct (IH (l1 ++ [b]) fuel size (Some (offset (is_bank32 flags) l1))) as (fuel' & size' & pbk' & El & Hrest);
    [by rewrite <- app_assoc | apply reached_next | lia | done | done | rewrite length_app; cbn [length]; lia |].
  exists fuel', size', pbk'. split; [|exact Hrest]. rewrite <- El, map_app, concat_app. cbn [map concat]. rewrite app_nil_r. clear El.
  cbn [list_banks]. unfold IsBank32. rewrite (event_flags flags bs behind Hev), !res_bind_Ok, Hlen, Hit, res_bind_Ok, Fn, res_bind_Ok. fold size. by rewrite (check_leb _ _ _ Hs4), res_bind_Ok.
Qed.

(** Its last iteration. *)
Lemma list_end flags bs behind fuel size pbk : event_ok flags bs -> reached flags pbk bs -> 0 <= size -> size mod 400 = 0 -> 4 * Z.of_nat (length bs) <= size ->
  list_banks (S fuel) (encode_event flags bs ++ behind) size (concat (map b_name bs)) pbk =
    if is_bank32 flags && (length behind <? 8)%nat then Crash OutOfBounds
    else if is_bank32 flags && (length behind <? 12)%nat then list_banks (S fuel) (encode_event flags bs ++ behind) size (concat (map b_name bs)) pbk
    else Ok (concat (map b_name bs)).
Proof.
  intros Hev Hr Hp Hm Hs. assert (Hlen : Z.of_nat (length (concat (map b_name bs))) = 4 * Z.of_nat (length bs)) by (apply (names_length (is_bank32 flags)); apply Hev).
  destruct (grown (length bs) size Hp Hm Hs) as (Hs1 & _). destruct (is_bank32 flags) eqn:E32; cbn [andb].
  - destruct (Nat.ltb_spec (length behind) 8) as [H8|_].
    + cbn [list_banks]. unfold IsBank32. rewrite (event_flags flags bs behind Hev), !res_bind_Ok, E32.
      by rewrite (iterate32_overread flags bs behind Hev pbk E32 Hr H8).
    + destruct (Nat.ltb_spec (length behind) 12) as [_|H12]; [done|].
      cbn [list_banks]. unfold IsBank32. rewrite (event_flags flags bs behind Hev), !res_bind_Ok, E32.
      rewrite (iterate32_end flags bs behind Hev pbk E32 Hr H12), res_bind_Ok, Hlen. by rewrite check_true by (by apply Z.ltb_lt).
  - cbn [list_banks]. unfold IsBank32. rewrite (event_flags flags bs behind Hev), !res_bind_Ok, E32.
    rewrite (iterate16_end flags bs behind Hev pbk E32 Hr), res_bind_Ok, Hlen. by rewrite check_true by (by apply Z.ltb_lt).
Qed.

Lemma SetBankList_names h flags bs behind own n : event_ok flags bs -> 0 < fEventId h -> (is_bank32 flags = true -> (12 <= length behind)%nat) ->
  let e := MidasEvent h (Some (encode_event flags bs ++ behind)) own n None in
  SetBankList e = Ok (Z.of_nat (length bs), MidasEvent h (fData e) own (length bs) (Some (concat (map b_name bs)))).
Proof.
  intros Hev Hid Hlb e. unfold SetBankList, e. cbn [fEventHeader fBankList fData]. rewrite (proj2 (Z.leb_gt _ _)) by done. unfold event_data. cbn [fData]. rewrite res_bind_Ok.
  pose proof (many_bytes flags bs behind Hev) as Hfuel. set (fuel := S (length (encode_event flags bs ++ behind))).
  destruct (list_walk flags bs behind Hev bs [] fuel 0 None eq_refl (reached_first flags)) as (fuel' & size & pbk & El & Hr & Hp & Hm & Hs); [lia | done | done | done |].
  change (concat (map b_name [])) with (@nil Z) in El. rewrite El, (list_end flags bs behind fuel' size pbk Hev Hr Hp Hm Hs).
  assert (Hb : is_bank32 flags && (length behind <? 8)%nat = false /\ is_bank32 flags && (length behind <? 12)%nat = false).
  { destruct (is_bank32 flags); cbn [andb]; [|done]. specialize (Hlb eq_refl). split; apply Nat.ltb_ge; lia. }
  destruct Hb as [-> ->]. rewrite res_bind_Ok. assert (Hlen : Z.of_nat (length (concat (map b_name bs))) = 4 * Z.of_nat (length bs)) by (apply (names_length (is_bank32 flags)); apply Hev).
  assert (Hdiv : (length (concat (map b_name bs)) / 4)%nat = length bs) by (replace (length (concat (map b_name bs))) with (length bs * 4)%nat by lia; by apply Nat.div_mul).
  by rewrite Hdiv.
Qed.

(** [SetBankList] on an event that has an event number and no list yet makes the list
    of the names of all banks, in order, and answers their number; the list, which grows
    by 100 names, always has room for the next name and the final 0.  With 32-bit headers at least 12 bytes of memory must be readable
    behind the event. *)
Theorem bank_list_names h flags bs behind own n : event_ok flags bs -> 0 < fEventId h -> (is_bank32 flags = true -> (12 <= length behind)%nat) ->
  let e := MidasEvent h (Some (encode_event flags bs ++ behind)) own n None in
  SetBankList e = Ok (Z.of_nat (length bs), MidasEvent h (fData e) own (length bs) (Some (concat (map b_name bs)))).
Proof. apply SetBankList_names. Qed.

(** The iteration over 32-bit banks looks at the type of the bank before it looks
    whether there is one: on an event that fills its block, as the events
    that are read from a file do, listing the banks, which is done for every event, and looking for a
    bank that is not there, read behind the block. *)
Theorem bank32_overread h flags bs name behind own n : event_ok flags bs -> is_bank32 flags = true -> 0 < fEventId h -> Forall (fun b => ~ named name b) bs ->
  (length behind < 8)%nat ->
  SetBankList (MidasEvent h (Some (encode_event flags bs ++ behind)) own n None) = Crash OutOfBounds /\
  FindBank (encode_event flags bs ++ behind) name = Crash OutOfBounds.
Proof.
  intros Hev E32 Hid Hn H8. pose proof (many_bytes flags bs behind Hev) as Hfuel. split.
  - unfold SetBankList. cbn [fEventHeader fBankList]. rewrite (proj2 (Z.leb_gt _ _)) by done. unfold event_data. cbn [fData]. rewrite res_bind_Ok.
    destruct (list_walk flags bs behind Hev bs [] (S (length (encode_event flags bs ++ behind))) 0 None eq_refl (reached_first flags)) as (fuel' & size & pbk & El & Hr & Hp & Hm & Hs); [lia | done | done | done |].
    change (concat (map b_name [])) with (@nil Z) in El. rewrite El, (list_end flags bs behind fuel' size pbk Hev Hr Hp Hm Hs), E32.
    by rewrite (proj2 (Nat.ltb_lt _ _) H8).
  - unfold FindBank. rewrite (event_flags flags bs behind Hev), res_bind_Ok, E32. set (m := encode_event flags bs ++ behind) in *.
    replace (S (length m)) with (length bs + S (length m - length bs))%nat by lia.
    destruct (find32_skip flags bs behind Hev name [] E32 [] bs (S (length m - length bs)) None Hn (reached_first flags)) as (pbk & Hr & Ef); [by rewrite app_nil_r|].
    fold m in Ef. rewrite Ef. cbn [find_bank32]. pose proof (iterate32_overread flags bs behind Hev pbk E32 Hr H8) as Hi. fold m in Hi. by rewrite Hi.
Qed.

(** ** Witnesses *)

Definition demo_banks : list bank := [Bank [0x56; 0x37; 0x33; 0x30] 6 [1; 2; 3; 4]; Bank [0x50; 0x48; 0x30; 0x30] 10 [1; 2; 3; 4; 5; 6; 7; 8]].

Lemma find_bank_first_witness :
  FindBank (encode_event 17 demo_banks ++ [9]) [0x50; 0x48; 0x30; 0x30; 0] = Ok (Some (Found 1 10 40)) /\
  exists off, FindBank (encode_event 17 demo_banks ++ [9]) [0x50; 0x48; 0x30; 0x30; 0] = Ok (Some (Found 1 10 off)) /\
    take 8 (drop (Z.to_nat off) (encode_event 17 demo_banks ++ [9])) = [1; 2; 3; 4; 5; 6; 7; 8].
Proof.
  split; [vm_compute; reflexivity|].
  refine (find_bank_first 17 [Bank [0x56; 0x37; 0x33; 0x30] 6 [1; 2; 3; 4]] (Bank [0x50; 0x48; 0x30; 0x30] 10 [1; 2; 3; 4; 5; 6; 7; 8]) [] _ [9] _ _ _); [| | reflexivity].
  - split; [lia|]. split; [repeat constructor; vm_compute; congruence | vm_compute; congruence].
  - repeat constructor. vm_compute. congruence.
Defined.

Lemma find_bank_absent_witness : FindBank (encode_event 1 demo_banks) [0x50; 0x48; 0x30; 0x31; 0] = Ok None.
Proof.
  rewrite <- (app_nil_r (encode_event 1 demo_banks)). refine (find_bank_absent 1 demo_banks _ [] _ _ _ _); [| done | | done].
  - split; [lia|]. split; [repeat constructor; vm_compute; congruence | vm_compute; congruence].
  - repeat constructor; vm_compute; congruence.
Defined.

Definition demo_header : event_header := EventHeader 1 0 7 0 48.

Lemma bank_list_names_witness :
  SetBankList (MidasEvent demo_header (Some (encode_event 17 demo_banks ++ replicate 12 0)) true 0 None) =
  Ok (2, MidasEvent demo_header (Some (encode_event 17 demo_banks ++ replicate 12 0)) true 2 (Some [0x56; 0x37; 0x33; 0x30; 0x50; 0x48; 0x30; 0x30])).
Proof.
  refine (bank_list_names demo_header 17 demo_banks (replicate 12 0) true 0 _ _ _); [| done | done].
  split; [lia|]. split; [repeat constructor; vm_compute; congruence | vm_compute; congruence].
Defined.

Lemma bank32_overread_witness :
  SetBankList (MidasEvent demo_header (Some (encode_event 17 demo_banks ++ [])) true 0 None) = Crash OutOfBounds /\
  FindBank (encode_event 17 demo_banks ++ []) [0x42; 0x4f; 0x4e; 0x4d] = Crash OutOfBounds.
Proof.
  refine (bank32_overread demo_header 17 demo_banks _ [] true 0 _ _ _ _ _); [| reflexivity | reflexivity | | cbn; lia].
  - split; [lia|]. split; [repeat constructor; vm_compute; congruence | vm_compute; congruence].
  - repeat constructor; vm_compute; congruence.
Defined.
