(* ===== verification/MidasSwap.v ===== *)
(** * MIDAS events: the byte order

    [SwapBytes] brings an event that was written by a machine of the other byte
    order into the order of this one. *)

From S2P Require Import Prelude MidasEvent MidasBanks.

(** ** An event of the other byte order *)

(** The first [k] groups of [n] bytes, each in the other order. *)
Fixpoint flip_groups (k n : nat) (l : list Z) : list Z :=
  match k with O => l | S k' => reverse (take n l) ++ flip_groups k' n (drop n l) end.

(** The elements of a bank and what pads them; types without elements that are
    swapped keep their bytes. *)
Definition flip (type : Z) (l : list Z) : list Z :=
  match swap_width type with O => l | n => flip_groups (length l / n) n l end.

Definition foreign_bank (b32 : bool) (b : bank) : list Z :=
  b_name b ++ reverse (le_bytes (field b32) (b_type b)) ++ reverse (le_bytes (field b32) (size_of b)) ++
  flip (b_type b) (b_data b ++ padding (size_of b)).
Definition foreign_banks (b32 : bool) (bs : list bank) : list Z := concat (map (foreign_bank b32) bs).

Definition foreign_event (flags : Z) (bs : list bank) : list Z :=
  reverse (le_bytes 4 (Z.of_nat (length (encode_banks (is_bank32 flags) bs)))) ++ reverse (le_bytes 4 flags) ++ foreign_banks (is_bank32 flags) bs.

(** ** Swapping in place *)

Lemma swap_at_app n pre l post off : Z.of_nat (length pre) = off -> length l = n -> swap_at n (pre ++ l ++ post) off = Ok (pre ++ reverse l ++ post).
Proof.
  intros Hoff Hn. unfold swap_at. rewrite (bytes_at_app pre l post off n Hoff Hn), res_bind_Ok. subst off. rewrite Nat2Z.id.
  assert (E : drop (length pre + n) (pre ++ l ++ post) = post).
  { rewrite app_assoc. replace (length pre + n)%nat with (length (pre ++ l)) by (rewrite length_app; lia). by rewrite drop_app_length. }
  by rewrite take_app_length, E.
Qed.

Lemma length_flip_groups k n : forall l, (k * n <= length l)%nat -> length (flip_groups k n l) = length l.
Proof.
  induction k as [|k IH]; intros l Hl; cbn [flip_groups]; [done|]. rewrite length_app, length_reverse, length_take, IH; rewrite length_drop; lia.
Qed.

Lemma length_flip type l : length (flip type l) = length l.
Proof.
  unfold flip. destruct (swap_width type) as [|n]; [done|]. apply length_flip_groups. pose proof (Nat.div_mod (length l) (S n) ltac:(lia)). lia.
Qed.

Lemma swap_data_groups k n : forall fuel pre l post, (k <= fuel)%nat -> length l = (k * n)%nat -> (0 < n)%nat ->
  swap_data fuel n (pre ++ flip_groups k n l ++ post) (Z.of_nat (length pre)) (Z.of_nat (length pre + length l)) = Ok (pre ++ l ++ post).
Proof.
  induction k as [|k IH]; intros fuel pre l post Hf Hl Hn.
  - destruct l; [|cbn in Hl; lia]. cbn [length]. rewrite Nat.add_0_r. destruct fuel; cbn [swap_data]; by rewrite Z.ltb_irrefl.
  - destruct fuel as [|fuel]; [lia|]. cbn [swap_data flip_groups]. rewrite (proj2 (Z.ltb_lt _ _)) by lia. rewrite <- app_assoc.
    assert (Ht : length (take n l) = n) by (rewrite length_take; lia).
    rewrite (swap_at_app n pre _ _ _ eq_refl) by (by rewrite length_reverse). rewrite res_bind_Ok, reverse_involutive.
    specialize (IH fuel (pre ++ take n l) (drop n l) post). rewrite length_app, Ht, length_drop, <- !app_assoc in IH.
    replace (Z.of_nat (length pre) + Z.of_nat n) with (Z.of_nat (length pre + n)) by lia.
    replace (length pre + length l)%nat with (length pre + n + (length l - n))%nat by lia. rewrite IH by lia.
    by rewrite (app_assoc (take n l)), take_drop.
Qed.

(** The data of a bank with its padding, in whole groups. *)
Lemma padded_length b : length (b_data b ++ padding (size_of b)) = Z.to_nat (align8 (size_of b)) /\ align8 (size_of b) mod 8 = 0.
Proof.
  pose proof (align8_range (size_of b) ltac:(unfold size_of; lia)) as [Ha Hm]. split; [|done]. unfold padding. rewrite length_app, length_replicate. unfold size_of in *. lia.
Qed.

Lemma swap_width_divides type : swap_width type = 0%nat \/ swap_width type = 2%nat \/ swap_width type = 4%nat \/ swap_width type = 8%nat.
Proof. unfold swap_width. destruct (_ || _); [tauto|]. destruct (_ && _); [tauto|]. destruct (_ =? _); tauto. Qed.

Lemma flip_back b pre post : let l := b_data b ++ padding (size_of b) in
  forall next fuel, next = Z.of_nat (length pre) + align8 (size_of b) -> (length l <= fuel)%nat ->
  match swap_width (b_type b) with O => Ok (pre ++ flip (b_type b) l ++ post) | w => swap_data fuel w (pre ++ flip (b_type b) l ++ post) (Z.of_nat (length pre)) next end =
  Ok (pre ++ l ++ post).
Proof.
  intros l next fuel -> Hf. destruct (padded_length b) as [Hl Hm]. fold l in Hl. unfold flip. destruct (swap_width_divides (b_type b)) as [E|E]; [by rewrite E|].
  assert (Hw : exists w k, swap_width (b_type b) = S w /\ length l = (k * S w)%nat).
  { pose proof (Z.div_mod (align8 (size_of b)) 8 ltac:(lia)) as Hd. set (q := align8 (size_of b) / 8) in *. clearbody q.
    destruct E as [E|[E|E]]; rewrite E; [exists 1%nat, (Z.to_nat q * 4)%nat | exists 3%nat, (Z.to_nat q * 2)%nat | exists 7%nat, (Z.to_nat q)]; (split; [done | lia]). }
  destruct Hw as (w & k & Ew & Ek). rewrite Ew, Ek, Nat.div_mul by lia.
  replace (Z.of_nat (length pre) + align8 (size_of b)) with (Z.of_nat (length pre + length l)).
  - apply swap_data_groups; [nia | done | lia].
  - rewrite Hl. pose proof (align8_range (size_of b) ltac:(unfold size_of; lia)). unfold size_of in *. lia.
Qed.

(** ** A bank *)

Section header.
Variables (b32 : bool) (b : bank) (pre D post : list Z) (bk : Z).
Hypothesis Hb : bank_ok b32 b.
Hypothesis Hbk : Z.of_nat (length pre) = bk.
Let n := field b32.
Let T := le_bytes n (b_type b).
Let N := le_bytes n (size_of b).
Let M := pre ++ b_name b ++ T ++ N ++ D ++ post.

(** The two fields of its header, one after the other. *)
Lemma swap_type : swap_at n (pre ++ (b_name b ++ reverse T ++ reverse N ++ D) ++ post) (bk + 4) = Ok (pre ++ b_name b ++ T ++ reverse N ++ D ++ post).
Proof.
  destruct Hb as (Hn & _). rewrite <- !app_assoc, (app_assoc pre).
  rewrite (swap_at_app n (pre ++ b_name b)); [| rewrite length_app, Hn; lia | unfold T; by rewrite length_reverse, length_le_bytes].
  by rewrite reverse_involutive, <- !app_assoc.
Qed.

Lemma swap_size : swap_at n (pre ++ b_name b ++ T ++ reverse N ++ D ++ post) (bk + 4 + Z.of_nat n) = Ok M.
Proof.
  destruct Hb as (Hn & _). rewrite (app_assoc pre), (app_assoc (pre ++ _)).
  rewrite (swap_at_app n ((pre ++ b_name b) ++ T)); [| unfold T; rewrite !length_app, length_le_bytes, Hn; lia | unfold N; by rewrite length_reverse, length_le_bytes].
  by rewrite reverse_involutive, <- !app_assoc.
Qed.

Lemma load_type : load_word n M (bk + 4) = Ok (b_type b).
Proof.
  destruct Hb as (Hn & Ht & _). unfold M. rewrite (app_assoc pre). apply load_word_app; [rewrite length_app, Hn; lia|].
  unfold TID_MAX in Ht. unfold n. destruct b32; cbn [field]; lia.
Qed.

Lemma load_size : load_word n M (bk + 4 + Z.of_nat n) = Ok (size_of b).
Proof.
  destruct Hb as (Hn & _ & Hs). unfold M. rewrite (app_assoc pre), (app_assoc (pre ++ _)).
  apply load_word_app; [unfold T; rewrite !length_app, length_le_bytes, Hn; lia | unfold n, size_of in *; lia].
Qed.

Lemma header_length : Z.of_nat (length (pre ++ b_name b ++ T ++ N)) = bk + header_size b32.
Proof. destruct Hb as (Hn & _). unfold T, N. rewrite !length_app, !length_le_bytes, Hn. unfold n. subst bk. destruct b32; cbn [field header_size]; unfold BANK32_SIZE, BANK_SIZE; lia. Qed.
End header.

Lemma swap_bank_foreign b32 size b pre post : bank_ok b32 b -> size_of b < (size + 100) mod 2 ^ 32 ->
  swap_bank b32 size (pre ++ foreign_bank b32 b ++ post) (Z.of_nat (length pre)) =
  Ok (pre ++ encode_bank b32 b ++ post, Z.of_nat (length (pre ++ encode_bank b32 b))).
Proof.
  intros Hb Hs. set (D := flip (b_type b) (b_data b ++ padding (size_of b))).
  pose proof (swap_type b32 b pre D post _ Hb eq_refl) as E1. pose proof (swap_size b32 b pre D post _ Hb eq_refl) as E2.
  pose proof (load_type b32 b pre D post _ Hb eq_refl) as E3. pose proof (load_size b32 b pre D post _ Hb eq_refl) as E4.
  pose proof (header_length b32 b pre D post _ Hb eq_refl) as Hh. pose proof (length_encode_bank b32 b Hb) as Hlen.
  assert (Hnext : Z.of_nat (length (pre ++ encode_bank b32 b)) = Z.of_nat (length pre) + header_size b32 + align8 (size_of b)) by (rewrite length_app; lia).
  set (bk := Z.of_nat (length pre)) in *. set (H := pre ++ b_name b ++ le_bytes (field b32) (b_type b) ++ le_bytes (field b32) (size_of b)) in *.
  assert (HM : forall X : list Z, H ++ X ++ post = pre ++ b_name b ++ le_bytes (field b32) (b_type b) ++ le_bytes (field b32) (size_of b) ++ X ++ post) by (intros X; unfold H; by rewrite <- !app_assoc).
  assert (Hdone : forall fuel, (length (b_data b ++ padding (size_of b)) <= fuel)%nat ->
    match swap_width (b_type b) with O => Ok (pre ++ b_name b ++ le_bytes (field b32) (b_type b) ++ le_bytes (field b32) (size_of b) ++ D ++ post)
    | w => swap_data fuel w (pre ++ b_name b ++ le_bytes (field b32) (b_type b) ++ le_bytes (field b32) (size_of b) ++ D ++ post) (bk + header_size b32) (bk + header_size b32 + align8 (size_of b)) end =
    Ok (pre ++ encode_bank b32 b ++ post)).
  { intros fuel Hf. rewrite <- HM. unfold D. rewrite <- Hh. rewrite (flip_back b H post _ fuel eq_refl Hf), HM. unfold encode_bank. by rewrite <- !app_assoc. }
  rewrite Hnext. unfold foreign_bank. fold D. unfold swap_bank. destruct Hb as (Hn & Ht & Hsz).
  set (M := pre ++ b_name b ++ le_bytes (field b32) (b_type b) ++ le_bytes (field b32) (size_of b) ++ D ++ post) in *.
  assert (HMlen : (length (b_data b ++ padding (size_of b)) <= length M)%nat).
  { assert (Hd : length D = length (b_data b ++ padding (size_of b))) by apply length_flip. unfold M. rewrite <- Hd, !length_app. lia. }
  specialize (Hdone _ HMlen). clearbody M. unfold TID_MAX in Ht. destruct b32; cbn [field header_size] in *.
  - rewrite E1, res_bind_Ok. replace (bk + 8) with (bk + 4 + Z.of_nat 4) by lia. rewrite E2, res_bind_Ok. unfold bk32_type, bk32_size. rewrite E3, res_bind_Ok.
    replace (bk + 8) with (bk + 4 + Z.of_nat 4) by lia. rewrite E4, !res_bind_Ok, Z.mod_small by lia. rewrite align8_32_small by (unfold size_of in *; lia).
    rewrite check_true by (by apply Z.ltb_lt). rewrite res_bind_Ok, Hdone. done.
  - rewrite E1, res_bind_Ok. replace (bk + 6) with (bk + 4 + Z.of_nat 2) by lia. rewrite E2, res_bind_Ok. unfold bk_type, bk_size. rewrite E3, res_bind_Ok.
    replace (bk + 6) with (bk + 4 + Z.of_nat 2) by lia. rewrite E4, !res_bind_Ok. rewrite check_true by (by apply Z.ltb_lt). rewrite res_bind_Ok, Hdone. done.
Qed.

(** ** An event *)

(** The sizes of the banks stay below the size in the event's header. *)
Definition sizes_below (size : Z) (bs : list bank) : Prop := Forall (fun b => size_of b < (size + 100) mod 2 ^ 32) bs.

Lemma swap_banks_foreign b32 size n flags behind l2 : forall l1 fuel,
  let pre := le_bytes 4 n ++ le_bytes 4 flags ++ encode_banks b32 l1 in
  Forall (bank_ok b32) l2 -> sizes_below size l2 -> (length l2 <= fuel)%nat -> 0 <= n < 2 ^ 32 -> n = Z.of_nat (length (encode_banks b32 (l1 ++ l2))) ->
  swap_banks fuel b32 size (pre ++ foreign_banks b32 l2 ++ behind) (Z.of_nat (length pre)) = Ok (le_bytes 4 n ++ le_bytes 4 flags ++ encode_banks b32 (l1 ++ l2) ++ behind).
Proof.
  induction l2 as [|b l2 IH]; intros l1 fuel pre Hok Hs Hf Hn En.
  all: assert (Hend : forall X, banks_end (pre ++ X) = Ok (n + BANK_HEADER_SIZE)) by
    (intros X; unfold banks_end, bh_size, pre; rewrite <- app_assoc; pose proof (load_word_app [] ((le_bytes 4 flags ++ encode_banks b32 l1) ++ X) 0 4 n eq_refl ltac:(lia)) as E; cbn [app] in E; by rewrite E).
  all: assert (Hpre : Z.of_nat (length pre) = BANK_HEADER_SIZE + Z.of_nat (length (encode_banks b32 l1))) by
    (unfold pre, BANK_HEADER_SIZE; rewrite !length_app, !length_le_bytes; lia).
  - rewrite app_nil_r in *. destruct fuel; cbn [swap_banks]; rewrite Hend, res_bind_Ok, (proj2 (Z.ltb_ge _ _)) by lia;
      cbn [foreign_banks map concat app]; unfold pre; by rewrite <- !app_assoc.
  - pose proof (Forall_inv Hok) as Hb. pose proof (Forall_inv_tail Hok) as Hok'. pose proof (Forall_inv Hs) as Hsb. pose proof (Forall_inv_tail Hs) as Hs'. cbv beta in Hsb.
    destruct fuel as [|fuel]; cbn [length] in Hf; [lia|]. cbn [swap_banks]. rewrite Hend, res_bind_Ok.
    assert (Hlen : Z.of_nat (length (encode_banks b32 l1)) < n).
    { rewrite En. unfold encode_banks. rewrite map_app, concat_app, length_app. cbn [map concat]. rewrite length_app.
      pose proof (length_encode_bank b32 b Hb). pose proof (align8_range (size_of b) ltac:(unfold size_of; lia)). unfold size_of in *. destruct b32; cbn [header_size] in *; unfold BANK32_SIZE, BANK_SIZE in *; lia. }
    rewrite (proj2 (Z.ltb_lt _ _)) by lia. cbn [foreign_banks map concat]. fold (foreign_banks b32 l2). rewrite <- (app_assoc (foreign_bank b32 b)).
    rewrite (swap_bank_foreign b32 size b pre (foreign_banks b32 l2 ++ behind) Hb Hsb), res_bind_Ok.
    specialize (IH (l1 ++ [b]) fuel). cbv zeta in IH. replace (encode_banks b32 (l1 ++ [b])) with (encode_banks b32 l1 ++ encode_bank b32 b) in IH
      by (unfold encode_banks; rewrite map_app, concat_app; cbn; by rewrite app_nil_r).
    rewrite <- (app_assoc l1 [b]) in IH. cbn [app] in IH.
    replace (le_bytes 4 n ++ le_bytes 4 flags ++ encode_banks b32 l1 ++ encode_bank b32 b) with (pre ++ encode_bank b32 b) in IH by (unfold pre; by rewrite <- !app_assoc).
    rewrite <- app_assoc in IH. apply IH; [done | done | lia | done | done].
Qed.

Lemma swap32_involutive w : 0 <= w < 2 ^ 32 -> swap32 (swap32 w) = w.
Proof.
  intros Hw. unfold swap32. assert (E : le_bytes 4 (le_word (reverse (le_bytes 4 w))) = reverse (le_bytes 4 w)); [|by rewrite E, reverse_involutive, le_word_bytes].
  assert (Hgen : forall l, Forall (fun b => 0 <= b < 256) l -> le_bytes (length l) (le_word l) = l).
  { induction 1 as [|b l Hb Hl IH]; [done|]. cbn [length le_bytes le_word foldr]. fold (le_word l).
    rewrite (Z.mul_comm 256), Z.mod_add, Z.mod_small, Z.div_add, Z.div_small, Z.add_0_l by lia. by rewrite IH. }
  rewrite <- (Hgen (reverse (le_bytes 4 w))) at 2; [by rewrite length_reverse, length_le_bytes|].
  apply Forall_reverse. cbn. repeat constructor; pose proof (Z.mod_pos_bound); match goal with |- context [?x mod 256] => pose proof (Z.mod_pos_bound x 256 ltac:(lia)); lia end.
Qed.

Lemma load_reverse pre w post off : Z.of_nat (length pre) = off -> load_word 4 (pre ++ reverse (le_bytes 4 w) ++ post) off = Ok (swap32 w).
Proof. intros Hoff. unfold load_word. rewrite (bytes_at_app pre _ post off 4 Hoff); [done | by rewrite length_reverse, length_le_bytes]. Qed.

Lemma length_foreign_banks b32 bs : length (foreign_banks b32 bs) = length (encode_banks b32 bs).
Proof.
  unfold foreign_banks, encode_banks. induction bs as [|b bs IH]; [done|]. cbn [map concat]. rewrite !length_app, IH. f_equal.
  unfold foreign_bank, encode_bank. by rewrite !length_app, !length_reverse, length_flip, !length_app.
Qed.

(** C6: an event that was written by a machine of the other byte order (with 16-bit
    or 32-bit bank headers) becomes the event of this machine: the sizes and types, and every element of the banks
    with elements of 2, 4 or 8 bytes, padding included; banks of characters
    and structures keep their bytes; the memory behind the event is not
    touched.  The event is recognised by its flags. *)
Theorem swap_foreign h flags bs behind : event_ok flags bs -> 0x10000 <= swap32 flags ->
  fDataSize h = 8 + Z.of_nat (length (encode_banks (is_bank32 flags) bs)) ->
  SwapBytes false h (foreign_event flags bs ++ behind) = Ok (1, encode_event flags bs ++ behind).
Proof.
  intros Hev Hfl Hsize. pose proof (many_bytes flags bs behind Hev) as Hfuel. destruct Hev as (Hf & Hok & Htot).
  set (n := Z.of_nat (length (encode_banks (is_bank32 flags) bs))) in *. assert (Hn : 0 <= n < 2 ^ 32) by (unfold n in *; lia).
  assert (HM : foreign_event flags bs ++ behind = reverse (le_bytes 4 n) ++ reverse (le_bytes 4 flags) ++ foreign_banks (is_bank32 flags) bs ++ behind) by (unfold foreign_event; by rewrite <- !app_assoc).
  rewrite HM. clear HM. unfold SwapBytes, bh_size, bh_flags.
  assert (E1 : forall X, load_word 4 (reverse (le_bytes 4 n) ++ X) 0 = Ok (swap32 n)) by (intros X; by apply (load_reverse [])).
  rewrite E1, res_bind_Ok. rewrite (load_reverse (reverse (le_bytes 4 n))), res_bind_Ok by (by rewrite length_reverse, length_le_bytes).
  rewrite (proj2 (Z.ltb_ge _ _)) by lia. cbn [andb]. rewrite (swap32_involutive n Hn).
  assert (Hx : forall x, 0 <= x < 2 ^ 32 -> swap32 x > 600 * 1024 * 1024 -> swap32 n =? x = false).
  { intros x Hx Hbig. apply Z.eqb_neq. intros E. rewrite <- E, swap32_involutive in Hbig by done. unfold n in *. lia. }
  rewrite (Hx 0x6d783f3c), (Hx 0x3c3f786d) by (try lia; vm_compute; done).
  rewrite (Z.mod_small (fDataSize h + 100)), (proj2 (Z.ltb_ge _ _)) by lia.
  assert (E2 : forall X, swap_at 4 (reverse (le_bytes 4 n) ++ X) 0 = Ok (le_bytes 4 n ++ X)).
  { intros X. pose proof (swap_at_app 4 [] (reverse (le_bytes 4 n)) X 0 eq_refl (length_reverse _)) as E. by rewrite reverse_involutive in E. }
  rewrite E2, res_bind_Ok.
  rewrite (swap_at_app 4 (le_bytes 4 n) (reverse (le_bytes 4 flags)) _ 4 eq_refl (length_reverse _)), res_bind_Ok, reverse_involutive.
  unfold IsBank32, bh_flags. rewrite (load_word_app (le_bytes 4 n)), !res_bind_Ok by (rewrite ?length_le_bytes; lia).
  pose proof (swap_banks_foreign (is_bank32 flags) (fDataSize h) n flags behind bs []) as Hsw. cbv zeta in Hsw. cbn [encode_banks map concat app] in Hsw.
  rewrite app_nil_r, <- app_assoc in Hsw. change (Z.of_nat (length (le_bytes 4 n ++ le_bytes 4 flags))) with BANK_HEADER_SIZE in Hsw.
  rewrite Hsw; [| done | | | done | done].
  - rewrite res_bind_Ok. unfold encode_event. fold n. by rewrite <- !app_assoc.
  - unfold sizes_below. rewrite Z.mod_small by lia. apply Forall_forall. intros b Hb. apply in_split in Hb as (l1 & l2 & ->).
    assert (Hb' : bank_ok (is_bank32 flags) b) by (apply Forall_app in Hok as [_ Hok]; exact (Forall_inv Hok)).
    assert (size_of b <= n); [|lia]. unfold n, encode_banks. rewrite map_app, concat_app, length_app. cbn [map concat]. rewrite length_app.
    pose proof (length_encode_bank _ b Hb'). pose proof (align8_range (size_of b) ltac:(unfold size_of; lia)). destruct (is_bank32 flags); cbn [header_size] in *; unfold BANK32_SIZE, BANK_SIZE in *; lia.
  - rewrite !length_app, !length_le_bytes. unfold encode_event in Hfuel. rewrite !length_app, !length_le_bytes in Hfuel.
    rewrite length_foreign_banks. lia.
Qed.

Definition demo_swapped : list Z :=
  [0; 0; 0; 40; 0; 0; 0; 17] ++ [0x50; 0x48; 0x30; 0x30; 0; 0; 0; 10; 0; 0; 0; 8; 8; 7; 6; 5; 4; 3; 2; 1] ++
  [0x56; 0x37; 0x33; 0x30; 0; 0; 0; 4; 0; 0; 0; 4; 2; 1; 4; 3; 0; 0; 0; 0].
Definition demo_words : list bank := [Bank [0x50; 0x48; 0x30; 0x30] 10 [1; 2; 3; 4; 5; 6; 7; 8]; Bank [0x56; 0x37; 0x33; 0x30] 4 [1; 2; 3; 4]].

Lemma swap_foreign_witness :
  foreign_event 17 demo_words = demo_swapped /\
  SwapBytes false (EventHeader 1 0 7 0 48) (foreign_event 17 demo_words ++ [1]) = Ok (1, encode_event 17 demo_words ++ [1]).
Proof.
  split; [vm_compute; reflexivity|]. refine (swap_foreign (EventHeader 1 0 7 0 48) 17 demo_words [1] _ _ _); [| vm_compute; congruence | reflexivity].
  split; [lia|]. split; [repeat constructor; vm_compute; congruence | vm_compute; congruence].
Defined.
