(* ===== verification/MidasFile.v ===== *)
(** * MIDAS files ([rootana/libMidasInterface/TMidasFile.cxx])

    A file is read event by event, directly, through [zlib] or from a command
    in a pipe; the calls to the system and to [zlib] are an interface.  The
    code is built with [HAVE_ZLIB].  Messages to the terminal are left
    out. *)

From S2P Require Import Prelude CStr MidasEvent.

(** ** The interface *)

(** [read] and [gzread] answer their value and the bytes that reached the buffer,
    [write] and [gzwrite] their value; [fd_of_pipe] is [popen] and [fileno];
    [malloc] answers the block with what is in it. *)
Class MidasIO (V : Type) := {
  io_open : cstr -> bool -> V -> Z * V;
  fd_of_pipe : cstr -> V -> option Z * V;
  gzdopen : Z -> bool -> V -> bool * V;
  gzsetparams : V -> bool * V;
  io_read : Z -> Z -> V -> Z * list Z * V;
  gzread : Z -> V -> Z * list Z * V;
  io_write : Z -> list Z -> V -> Z * V;
  gzwrite : list Z -> V -> Z * V;
  io_close : Z -> V -> V;
  io_pclose : V -> V;
  gzclose : bool -> V -> V;
  malloc : Z -> V -> option (list Z) * V;
  io_errno : V -> Z;
  strerror : Z -> cstr
}.

Record midas_file := MidasFile {
  fFilename : cstr;
  fOutFilename : cstr;
  fLastErrno : Z;
  fLastError : cstr;
  fDoByteSwap : bool;
  fFile : Z;
  fGzFile : bool;
  fPoFile : bool;
  fOutFile : Z;
  fOutGzFile : bool
}.

(** The machine is little-endian. *)
Definition TMidasFile : midas_file := MidasFile [] [] 0 [] false (-1) false false (-1) false.

Definition set_error (n : Z) (s : cstr) (f : midas_file) : midas_file :=
  MidasFile (fFilename f) (fOutFilename f) n s (fDoByteSwap f) (fFile f) (fGzFile f) (fPoFile f) (fOutFile f) (fOutGzFile f).
Definition set_in (name : cstr) (fd : Z) (gz po : bool) (f : midas_file) : midas_file :=
  MidasFile name (fOutFilename f) (fLastErrno f) (fLastError f) (fDoByteSwap f) fd gz po (fOutFile f) (fOutGzFile f).
Definition set_out (name : cstr) (fd : Z) (gz : bool) (f : midas_file) : midas_file :=
  MidasFile (fFilename f) name (fLastErrno f) (fLastError f) (fDoByteSwap f) (fFile f) (fGzFile f) (fPoFile f) fd gz.

(** ** Names *)

(** The first occurrence of the suffix is looked at. *)
Definition hasSuffix (name suffix : cstr) : bool :=
  match strstr name suffix with
  | None => false
  | Some (u, _) => (length u + length suffix =? length name)%nat
  end.

Definition unzip_of (name : cstr) : cstr :=
  if hasSuffix name (str ".gz") then str " | gzip -dc"
  else if hasSuffix name (str ".bz2") then str " | bzip2 -dc"
  else [].

(** The command that is read from, for the names that are not files; [None] for
    a name that is not valid. *)
Definition pipe_of (filename : cstr) : option cstr :=
  if starts (str "ssh://") filename then
    match strchr (drop 6 filename) "/"%char with
    | None => None
    | Some (remoteHost, s) =>
        let remoteFile := drop 1 s in
        Some (str "ssh -e none -T -x -n " ++ remoteHost ++ str " dd if=" ++ remoteFile ++ str " bs=1024k" ++ unzip_of remoteFile)
    end
  else if starts (str "dccp://") filename then
    Some (str "dccp " ++ drop 7 filename ++ str " /dev/fd/1" ++ unzip_of filename)
  else if starts (str "pipein://") filename then Some (drop 9 filename)
  else if hasSuffix filename (str ".bz2") then Some (str "bzip2 -dc " ++ filename)
  else Some [].

Section file.
Context {V : Type} `{MidasIO V}.

(** A file object and the system. *)
Record on_file := OnFile { of_file : midas_file; of_io : V }.
Abbreviation MF := (ST on_file).

Definition set_file (f : midas_file -> midas_file) : MF unit := modify (fun s => OnFile (f (of_file s)) (of_io s)).
Definition the_file : MF midas_file := fun s => Ok (of_file s, s).
Definition io {A} (f : V -> A * V) : MF A := fun s => let '(a, v) := f (of_io s) in Ok (a, OnFile (of_file s) v).
Definition io_ (f : V -> V) : MF unit := modify (fun s => OnFile (of_file s) (f (of_io s))).

(** [fLastErrno = errno; fLastError = strerror(errno); return false] *)
Definition sys_error : MF bool :=
  n ← (fun s => Ok (io_errno (of_io s), s)); _ ← set_file (set_error n (strerror n)); mret false.
Definition own_error (text : cstr) : MF bool := _ ← set_file (set_error (-1) text); mret false.

Definition Close : MF unit :=
  f ← the_file;
  _ ← (if fPoFile f then io_ io_pclose else mret tt);
  _ ← (if fGzFile f then io_ (gzclose false) else mret tt);
  _ ← (if 0 <? fFile f then io_ (io_close (fFile f)) else mret tt);
  set_file (set_in [] (-1) false false).

Definition OutClose : MF unit :=
  f ← the_file;
  _ ← (if fOutGzFile f then io_ (gzclose true) else mret tt);
  _ ← (if 0 <? fOutFile f then io_ (io_close (fOutFile f)) else mret tt);
  set_file (set_out [] (-1) false).

Definition Open (filename : cstr) : MF bool :=
  f ← the_file;
  _ ← (if 0 <? fFile f then Close else mret tt);
  _ ← set_file (fun f => set_in filename (fFile f) (fGzFile f) (fPoFile f) f);
  match pipe_of filename with
  | None => own_error (str "TMidasFile::Open: Invalid ssh:// URI. Should be: ssh://user@host/file/path/...")
  | Some [] =>
      fd ← io (io_open filename false);
      _ ← set_file (fun f => set_in filename fd (fGzFile f) (fPoFile f) f);
      if fd <=? 0 then sys_error
      else if hasSuffix filename (str ".gz") then
        ok ← io (gzdopen fd false);
        _ ← set_file (fun f => set_in filename fd true (fPoFile f) f);
        if ok : bool then mret true else own_error (str "zlib gzdopen() error")
      else mret true
  | Some pipe =>
      fd ← io (fd_of_pipe pipe);
      match fd with
      | None => sys_error
      | Some fd => _ ← set_file (fun f => set_in filename fd (fGzFile f) true f); mret true
      end
  end.

Definition OutOpen (filename : cstr) : MF bool :=
  f ← the_file;
  _ ← (if 0 <? fOutFile f then OutClose else mret tt);
  fd ← io (io_open filename true);
  _ ← set_file (fun f => set_out filename fd (fOutGzFile f) f);
  if fd <=? 0 then sys_error
  else if hasSuffix filename (str ".gz") then
    ok ← io (gzdopen fd true);
    _ ← set_file (fun f => set_out filename fd true f);
    if ok : bool then
      ok ← io gzsetparams;
      if ok : bool then mret true else own_error (str "zlib gzsetparams() error")
    else own_error (str "zlib gzdopen() error")
  else mret true.

(** ** Reading *)

(** The value, and the bytes in the buffer; every turn but the last one reads
    something. *)
Fixpoint readpipe_loop (fuel : nat) (fd length : Z) (got : list Z) : MF (Z * list Z) :=
  if 0 <? length then
    match fuel with
    | O => lift_res (Crash NoFuel)
    | S fuel' =>
        '(rd, l) ← io (fun v => let '(rd, l, v) := io_read fd length v in ((rd, l), v));
        if 0 <? rd then readpipe_loop fuel' fd (length - rd) (got ++ l)
        else mret (if rd =? 0 then Z.of_nat (List.length got) else -1, got)
    end
  else mret (Z.of_nat (List.length got), got).
Definition readpipe (fd length : Z) : MF (Z * list Z) := readpipe_loop (Z.to_nat length) fd length [].

Definition read_bytes (length : Z) : MF (Z * list Z) :=
  f ← the_file;
  if fGzFile f then io (fun v => let '(rd, l, v) := gzread length v in ((rd, l), v)) else readpipe (fFile f) length.

(** The structure of the header and its bytes. *)
Definition header_bytes (h : event_header) : list Z :=
  le_bytes 2 (fEventId h) ++ le_bytes 2 (fTriggerMask h) ++ le_bytes 4 (fSerialNumber h) ++ le_bytes 4 (fTimeStamp h) ++ le_bytes 4 (fDataSize h).
Definition header_of (l : list Z) : event_header :=
  EventHeader (le_word (take 2 l)) (le_word (take 2 (drop 2 l))) (le_word (take 4 (drop 4 l))) (le_word (take 4 (drop 8 l))) (le_word (take 4 (drop 12 l))).

(** Bytes that come over those of a buffer. *)
Definition over (l buf : list Z) : list Z := l ++ drop (length l) buf.

Definition set_header (h : event_header) (e : midas_event) : midas_event := MidasEvent h (fData e) (fAllocatedByUs e) (fBanksN e) (fBankList e).
Definition set_data (m : list Z) (e : midas_event) : midas_event := MidasEvent (fEventHeader e) (Some m) (fAllocatedByUs e) (fBanksN e) (fBankList e).

(** [GetData()] of an event, with a block from [malloc] if it has none. *)
Definition get_data (e : midas_event) : MF midas_event :=
  match fData e with
  | Some _ => mret e
  | None => block ← io (malloc (fDataSize (fEventHeader e))); lift_res (AllocateData block e)
  end.

(** The second half of [Read], the data. *)
Definition read_data (e : midas_event) : MF (bool * midas_event) :=
  block ← lift_res (event_data e);
  '(rd, l) ← read_bytes (fDataSize (fEventHeader e));
  let e := set_data (over l block) e in
  if negb (rd =? to_int (fDataSize (fEventHeader e))) then ok ← sys_error; mret (ok, e)
  else
    m ← lift_res (event_data e);
    '(_, m) ← lift_res (SwapBytes false (fEventHeader e) m);
    mret (true, set_data m e).

Definition Read (e : midas_event) : MF (bool * midas_event) :=
  let e := Clear e in
  '(rd, l) ← read_bytes (Z.of_nat EVENT_HEADER_SIZE);
  let e := set_header (header_of (over l (header_bytes no_header))) e in
  if rd =? 0 then _ ← set_file (set_error 0 (str "EOF")); mret (false, e)
  else if negb (rd =? Z.of_nat EVENT_HEADER_SIZE) then ok ← sys_error; mret (ok, e)
  else
    f ← the_file;
    let e := if fDoByteSwap f then set_header (SwapBytesEventHeader (fEventHeader e)) e else e in
    if negb (IsGoodSize (fEventHeader e)) then ok ← own_error (str "Invalid event size"); mret (ok, e)
    else e ← get_data e; read_data e.

(** ** Writing *)

Definition write_bytes (l : list Z) : MF Z :=
  f ← the_file;
  if fOutGzFile f then io (gzwrite l) else io (io_write (fOutFile f) l).

(** The value of the second call is answered, as a [bool]. *)
Definition Write (e : midas_event) : MF (bool * midas_event) :=
  wr ← write_bytes (header_bytes (fEventHeader e));
  if negb (wr =? Z.of_nat EVENT_HEADER_SIZE) then mret (false, e)
  else
    e ← get_data e;
    m ← lift_res (event_data e);
    l ← lift_res (bytes_at m 0 (Z.to_nat (fDataSize (fEventHeader e))));
    wr ← write_bytes l;
    mret (negb (wr =? 0), e).
End file.
Arguments on_file V : clear implicits.
