(* ===== verification/MidasStream.v ===== *)
(** * MIDAS files: what is written is read back

    Laws of the interface of [MidasFile.v], the reading loop of a program,
    and what they give: the events of a file are read in order, through [zlib] or
    not, whatever pieces the system delivers; a file that was cut inside an event
    gives the events before it. *)

From S2P Require Import Prelude CStr MidasEvent MidasBanks MidasFile.

(** ** Laws *)

(** Where bytes come from: [None] is the compressed stream. *)
Class MidasIOLaws (V : Type) `{MidasIO V} := {
  incoming : option Z -> V -> list Z;
  outgoing : option Z -> V -> list Z;
  read_some fd n v : 0 < n -> exists l v', io_read fd n v = (Z.of_nat (length l), l, v') /\ Z.of_nat (length l) <= n /\
    incoming (Some fd) v = l ++ incoming (Some fd) v' /\ (l = [] -> incoming (Some fd) v = []);
  gzread_all n v : 0 <= n -> exists v', let l := take (Z.to_nat n) (incoming None v) in
    gzread n v = (Z.of_nat (length l), l, v') /\ incoming None v' = drop (Z.to_nat n) (incoming None v);
  write_all fd l v : exists v', io_write fd l v = (Z.of_nat (length l), v') /\ outgoing (Some fd) v' = outgoing (Some fd) v ++ l;
  gzwrite_all l v : exists v', gzwrite l v = (Z.of_nat (length l), v') /\ outgoing None v' = outgoing None v ++ l;
  malloc_block n v : exists b v', malloc n v = (Some b, v') /\ n <= Z.of_nat (length b) /\
    (forall fd, incoming fd v' = incoming fd v) /\ (forall fd, outgoing fd v' = outgoing fd v)
}.

(** ** Specification *)

(** An event on its way: a header and its data. *)
Abbreviation raw_event := (event_header * list Z)%type.

Definition header_ok (h : event_header) : Prop :=
  0 <= fEventId h < 2 ^ 16 /\ 0 <= fTriggerMask h < 2 ^ 16 /\ 0 <= fSerialNumber h < 2 ^ 32 /\ 0 <= fTimeStamp h < 2 ^ 32 /\ 0 <= fDataSize h < 2 ^ 32.

(** The data are those of a machine of this byte order, or a text: one that is XML, or one
    that would be no size of banks on a machine of the other byte order. *)
Definition raw_ok (r : raw_event) : Prop :=
  header_ok r.1 /\ IsGoodSize r.1 = true /\ fDataSize r.1 = Z.of_nat (length r.2) /\
  exists n flags, bh_size r.2 = Ok n /\ bh_flags r.2 = Ok flags /\ (flags < 0x10000 \/ n = 0x6d783f3c \/ (fDataSize r.1 + 100) mod 2 ^ 32 < swap32 n).

Definition raw_bytes (r : raw_event) : list Z := header_bytes r.1 ++ r.2.

(** The event object holds the event; its block may be larger. *)
Definition holds (r : raw_event) (e : midas_event) : Prop :=
  fEventHeader e = r.1 /\ exists behind, fData e = Some (r.2 ++ behind).

Section stream.
Context {V : Type} `{HV : MidasIO V} {HL : MidasIOLaws V}.
Implicit Types (s : on_file V) (f : midas_file).

(** ** Programs on files *)

(** [while (file.Read(&event)) ...] *)
Fixpoint read_events (fuel : nat) : ST (on_file V) (list midas_event) :=
  match fuel with
  | O => lift_res (Crash NoFuel)
  | S fuel' =>
      '(ok, e) ← Read TMidasEvent;
      if ok : bool then l ← read_events fuel'; mret (e :: l) else mret []
  end.

Fixpoint write_events (es : list midas_event) : ST (on_file V) bool :=
  match es with
  | [] => mret true
  | e :: es' => '(ok, _) ← Write e; if ok : bool then write_events es' else mret false
  end.

Definition source f : option Z := if fGzFile f then None else Some (fFile f).
Definition sink f : option Z := if fOutGzFile f then None else Some (fOutFile f).
Definition coming s : list Z := incoming (source (of_file s)) (of_io s).
Definition written s : list Z := outgoing (sink (of_file s)) (of_io s).

(** ** Headers *)

Lemma header_of_bytes h : header_ok h -> header_of (header_bytes h) = h.
Proof.
  intros (H1 & H2 & H3 & H4 & H5). destruct h as [a b c d n]. cbn [fEventId fTriggerMask fSerialNumber fTimeStamp fDataSize] in *.
  unfold header_of, header_bytes. cbn [fEventId fTriggerMask fSerialNumber fTimeStamp fDataSize].
  f_equal; (apply (le_word_bytes 2); lia) || (apply (le_word_bytes 4); lia).
Qed.

Lemma length_header h : length (header_bytes h) = 16%nat.
Proof. unfold header_bytes. by rewrite !length_app, !length_le_bytes. Qed.

Lemma over_full l buf : length l = length buf -> over l buf = l.
Proof. intros E. unfold over. by rewrite E, drop_all, app_nil_r. Qed.

(** ** Reading bytes *)

Lemma readpipe_all fuel fd : forall n got s, 0 <= n -> (Z.to_nat n <= fuel)%nat ->
  let inc := incoming (Some fd) (of_io s) in
  exists v', readpipe_loop fuel fd n got s =
    Ok ((Z.of_nat (length (got ++ take (Z.to_nat n) inc)), got ++ take (Z.to_nat n) inc), OnFile (of_file s) v') /\
    incoming (Some fd) v' = drop (Z.to_nat n) inc.
Proof.
  induction fuel as [|fuel IH]; intros n got s Hn Hf inc.
  - assert (n = 0) as -> by lia. exists (of_io s). cbn. rewrite take_0, app_nil_r. by destruct s.
  - cbn [readpipe_loop]. destruct (Z.ltb_spec 0 n) as [Hp|Hp].
    + destruct (read_some fd n (of_io s) Hp) as (l & v & E & Hl & Hi & He). unfold inc. rewrite ST_bind_eq. unfold io. rewrite E. cbn [of_file].
      destruct (Z.ltb_spec 0 (Z.of_nat (length l))) as [Hpos|Hz].
      * specialize (IH (n - Z.of_nat (length l)) (got ++ l) (OnFile (of_file s) v) ltac:(lia) ltac:(lia)) as (v' & IH & Hi'). cbn [of_file of_io] in IH, Hi'.
        exists v'. rewrite IH. rewrite Hi, take_app_ge, drop_app_ge, <- app_assoc by lia.
        replace (Z.to_nat n - length l)%nat with (Z.to_nat (n - Z.of_nat (length l))) by lia. by rewrite Hi'.
      * destruct l; [|cbn in Hz; lia]. pose proof (He eq_refl) as Hnil. rewrite Hnil. exists v. cbn [length Z.of_nat app] in *. rewrite take_nil, drop_nil, app_nil_r.
        split; [done | congruence].
    + assert (n = 0) as -> by lia. exists (of_io s). cbn. rewrite take_0, app_nil_r. by destruct s.
Qed.

Lemma read_bytes_all n s : 0 <= n -> exists s', read_bytes n s = Ok ((Z.of_nat (length (take (Z.to_nat n) (coming s))), take (Z.to_nat n) (coming s)), s') /\
  of_file s' = of_file s /\ coming s' = drop (Z.to_nat n) (coming s).
Proof.
  intros Hn. unfold read_bytes, coming, source. rewrite ST_bind_eq. unfold the_file. destruct (fGzFile (of_file s)) eqn:Egz.
  - destruct (gzread_all n (of_io s) Hn) as (v' & E & Hi). unfold io. rewrite E. eexists. split; [done|]. cbn [of_file of_io]. by rewrite Egz.
  - destruct (readpipe_all (Z.to_nat n) (fFile (of_file s)) n [] s Hn ltac:(lia)) as (v' & E & Hi). unfold readpipe. rewrite E. eexists. split; [done|].
    cbn [of_file of_io]. by rewrite Egz.
Qed.

(** ** Reading events *)

Lemma bytes_at_more m k off n l : bytes_at m off n = Ok l -> bytes_at (m ++ k) off n = Ok l.
Proof.
  unfold bytes_at. destruct (Z.leb_spec 0 off); [|done]. destruct (Z.leb_spec (off + Z.of_nat n) (Z.of_nat (length m))); [|done].
  cbn [andb]. intros [= <-]. rewrite length_app, (proj2 (Z.leb_le _ _)) by lia. by rewrite drop_app_le, take_app_le by (rewrite ?length_drop; lia).
Qed.

Lemma load_word_more m k off n w : load_word n m off = Ok w -> load_word n (m ++ k) off = Ok w.
Proof.
  unfold load_word. intros E. apply res_bind_inv in E as (l & El & E). rewrite (bytes_at_more _ k _ _ _ El). by rewrite res_bind_Ok.
Qed.

Lemma swap_not_needed r behind : raw_ok r -> exists k, SwapBytes false r.1 (r.2 ++ behind) = Ok (k, r.2 ++ behind).
Proof.
  intros (_ & _ & _ & n & flags & En & Ef & Hf). unfold SwapBytes. unfold bh_size in En. unfold bh_flags in Ef.
  unfold bh_size, bh_flags. rewrite (load_word_more _ behind _ _ _ En), res_bind_Ok, (load_word_more _ behind _ _ _ Ef), res_bind_Ok.
  destruct Hf as [Hf|[-> |Hf]]; [exists 0; by rewrite (proj2 (Z.ltb_lt _ _) Hf) | destruct (flags <? 0x10000); [by exists 0 | by exists 1] |].
  destruct ((flags <? 0x10000) && negb false); [by exists 0|]. rewrite (proj2 (Z.ltb_lt _ _) Hf). destruct (n =? 0x6d783f3c), (n =? 0x3c3f786d); by exists 1.
Qed.

(** A block of this size that [malloc] gave. *)
Definition from_malloc (n : Z) (b : list Z) : Prop := exists v v', malloc n v = (Some b, v').

Lemma from_malloc_length n b : from_malloc n b -> n <= Z.of_nat (length b).
Proof. intros (v & v' & E). destruct (malloc_block n v) as (b' & v2 & E' & H & _). rewrite E in E'. by injection E' as <- _. Qed.

Lemma over_app (l m : list Z) : (length l <= length m)%nat -> over l m = l ++ drop (length l) m.
Proof. done. Qed.

(** The header, when it is there; the event has a block for its data then. *)
Lemma Read_header r rest s : raw_ok r -> fDoByteSwap (of_file s) = false -> coming s = header_bytes r.1 ++ rest ->
  exists b s', Read TMidasEvent s = read_data (MidasEvent r.1 (Some b) true 0 None) s' /\ from_malloc (fDataSize r.1) b /\
    of_file s' = of_file s /\ coming s' = rest.
Proof.
  intros (Hh & Hg & Hlen & _) Hswap Hc. unfold Read.
  destruct (read_bytes_all (Z.of_nat EVENT_HEADER_SIZE) s ltac:(lia)) as (s1 & E1 & F1 & C1). rewrite (ST_bind_Ok _ _ _ _ _ E1). clear E1.
  assert (T1 : take (Z.to_nat (Z.of_nat EVENT_HEADER_SIZE)) (coming s) = header_bytes r.1).
  { rewrite Hc. exact (take_app_length' _ _ _ (eq_sym (length_header r.1))). }
  assert (D1 : coming s1 = rest).
  { rewrite C1, Hc. exact (drop_app_length' _ _ _ (eq_sym (length_header r.1))). }
  assert (O1 : header_of (over (header_bytes r.1) (header_bytes no_header)) = r.1).
  { rewrite over_full by (by rewrite !length_header). by apply header_of_bytes. }
  rewrite T1, O1, length_header. change (Clear TMidasEvent) with TMidasEvent.
  change (Z.of_nat 16 =? 0) with false. change (negb (Z.of_nat 16 =? Z.of_nat EVENT_HEADER_SIZE)) with false. cbv iota.
  rewrite ST_bind_eq. unfold the_file. rewrite F1, Hswap. cbn [fEventHeader set_header]. rewrite Hg. cbn [negb].
  rewrite ST_bind_eq. unfold get_data. cbn [fData set_header TMidasEvent fEventHeader]. rewrite ST_bind_eq. unfold io.
  destruct (malloc_block (fDataSize r.1) (of_io s1)) as (b & v & Em & _ & Hin & _). rewrite Em.
  unfold AllocateData. cbn [fAllocatedByUs set_header TMidasEvent negb fEventHeader]. rewrite Hg.
  exists b, (OnFile (of_file s1) v). split; [done|]. split; [by exists (of_io s1), v|]. split; [done|]. rewrite <- D1. unfold coming. cbn [of_file of_io]. apply Hin.
Qed.

(** The data, all or part of them. *)
Lemma read_data_bytes r b rest s : raw_ok r -> fDataSize r.1 <= Z.of_nat (length b) -> coming s = r.2 ++ rest ->
  exists e s', read_data (MidasEvent r.1 (Some b) true 0 None) s = Ok ((true, e), s') /\ e = MidasEvent r.1 (Some (r.2 ++ drop (length r.2) b)) true 0 None /\ of_file s' = of_file s /\ coming s' = rest.
Proof.
  intros Hr Hb Hc. pose proof Hr as (_ & Hg & Hlen & _). unfold IsGoodSize in Hg. apply andb_true_iff in Hg as [Hg1 Hg2]. bprop.
  unfold read_data. rewrite ST_bind_eq. unfold lift_res at 1. cbn [event_data fData fEventHeader].
  destruct (read_bytes_all (fDataSize r.1) s ltac:(lia)) as (s2 & E2 & F2 & C2). rewrite (ST_bind_Ok _ _ _ _ _ E2). clear E2.
  rewrite Hc, Hlen, Nat2Z.id in *. rewrite take_app_length, drop_app_length in *. cbn [fEventHeader set_data fData]. rewrite Hlen.
  replace (to_int (Z.of_nat (length r.2))) with (Z.of_nat (length r.2)) by (unfold to_int; rewrite Z.mod_small; lia).
  rewrite Z.eqb_refl. change (negb true) with false. cbv iota. rewrite ST_bind_eq. unfold lift_res at 1. cbn [event_data fData set_data].
  rewrite ST_bind_eq. unfold lift_res, over. destruct (swap_not_needed r (drop (length r.2) b) Hr) as [k ->].
  eexists _, s2. done.
Qed.

Lemma read_data_short r b s : raw_ok r -> (length (coming s) < length r.2)%nat ->
  exists e s', read_data (MidasEvent r.1 (Some b) true 0 None) s = Ok ((false, e), s') /\ fLastErrno (of_file s') = io_errno (of_io s').
Proof.
  intros Hr Hc. pose proof Hr as (_ & Hg & Hlen & _). unfold IsGoodSize in Hg. apply andb_true_iff in Hg as [Hg1 Hg2]. bprop.
  unfold read_data. rewrite ST_bind_eq. unfold lift_res at 1. cbn [event_data fData fEventHeader].
  destruct (read_bytes_all (fDataSize r.1) s ltac:(lia)) as (s2 & E2 & F2 & C2). rewrite (ST_bind_Ok _ _ _ _ _ E2). clear E2.
  cbn [fEventHeader set_data fData]. rewrite take_ge by lia.
  replace (to_int (fDataSize r.1)) with (fDataSize r.1) by (unfold to_int; rewrite Z.mod_small; lia).
  rewrite (proj2 (Z.eqb_neq _ _)) by lia. cbn [negb]. eexists _, _. split; reflexivity.
Qed.

(** An event that is complete: a block that was allocated for it, and the data at
    its beginning. *)
Lemma Read_block r rest s : raw_ok r -> fDoByteSwap (of_file s) = false -> coming s = raw_bytes r ++ rest ->
  exists b s', Read TMidasEvent s = Ok ((true, MidasEvent r.1 (Some (r.2 ++ drop (length r.2) b)) true 0 None), s') /\ from_malloc (fDataSize r.1) b /\
    of_file s' = of_file s /\ coming s' = rest.
Proof.
  intros Hr Hswap Hc. unfold raw_bytes in Hc. rewrite <- app_assoc in Hc. destruct (Read_header r _ s Hr Hswap Hc) as (b & s1 & -> & Hb & F1 & C1).
  destruct (read_data_bytes r b rest s1 Hr (from_malloc_length _ _ Hb) C1) as (e & s2 & E & -> & F2 & C2). exists b, s2. repeat split; congruence.
Qed.

Lemma Read_event r rest s : raw_ok r -> fDoByteSwap (of_file s) = false -> coming s = raw_bytes r ++ rest ->
  exists e s', Read TMidasEvent s = Ok ((true, e), s') /\ holds r e /\ of_file s' = of_file s /\ coming s' = rest.
Proof.
  intros Hr Hswap Hc. destruct (Read_block r rest s Hr Hswap Hc) as (b & s' & E & _ & F & C). eexists _, s'. split; [exact E|]. split; [|done]. split; [done|]. by eexists.
Qed.

(** The end of a file: nothing, or the beginning of an event. *)
Lemma Read_cut r cut more s : raw_ok r -> fDoByteSwap (of_file s) = false -> raw_bytes r = cut ++ more -> more <> [] -> coming s = cut ->
  exists e s', Read TMidasEvent s = Ok ((false, e), s') /\ (cut = [] -> fLastErrno (of_file s') = 0).
Proof.
  intros Hr Hswap Hb Hm Hc. destruct (decide (length cut < 16)%nat) as [Hs|Hs].
  - unfold Read. destruct (read_bytes_all (Z.of_nat EVENT_HEADER_SIZE) s ltac:(lia)) as (s1 & E1 & F1 & C1). rewrite (ST_bind_Ok _ _ _ _ _ E1). clear E1.
    change (Z.to_nat (Z.of_nat EVENT_HEADER_SIZE)) with 16%nat. rewrite Hc, (take_ge cut) by lia. change (Z.of_nat EVENT_HEADER_SIZE) with 16.
    destruct (Z.eqb_spec (Z.of_nat (length cut)) 0) as [Hz|Hz].
    + eexists _, _. split; [reflexivity | done].
    + rewrite (proj2 (Z.eqb_neq _ 16)) by lia. eexists _, _. split; [reflexivity|]. intros ->. done.
  - assert (exists part, cut = header_bytes r.1 ++ part /\ r.2 = part ++ more) as (part & E & Hp).
    { pose proof (length_header r.1). unfold raw_bytes in Hb. apply app_eq_inv in Hb as [(k & E & Hk)|(k & E & Hk)]; [|by exists k].
      assert (length k = 0%nat) as ->%nil_length_inv by (apply (f_equal length) in E; rewrite length_app in E; lia).
      exists []. rewrite app_nil_r in *. by subst. }
    rewrite E in Hc. destruct (Read_header r _ s Hr Hswap Hc) as (b & s1 & -> & _ & _ & C1).
    destruct (read_data_short r b s1 Hr) as (e & s2 & E2 & _).
    + rewrite C1, Hp, length_app. destruct more; [done|]. cbn. lia.
    + exists e, s2. split; [done|]. intros ->. cbn in Hs. lia.
Qed.

Lemma read_events_file rs : forall cut s, Forall raw_ok rs -> fDoByteSwap (of_file s) = false ->
  (exists r more, raw_ok r /\ raw_bytes r = cut ++ more /\ more <> []) -> coming s = concat (map raw_bytes rs) ++ cut ->
  exists es s', read_events (S (length rs)) s = Ok (es, s') /\ Forall2 holds rs es /\ (cut = [] -> fLastErrno (of_file s') = 0).
Proof.
  induction rs as [|r rs IH]; intros cut s Hrs Hswap Hcut Hc.
  - destruct Hcut as (r & more & Hr & Hb & Hm). cbn in Hc. destruct (Read_cut r cut more s Hr Hswap Hb Hm Hc) as (e & s1 & E & He).
    exists [], s1. cbn [read_events length]. rewrite (ST_bind_Ok _ _ _ _ _ E). done.
  - cbn [map concat] in Hc. rewrite <- app_assoc in Hc. destruct (Read_event r _ s (Forall_inv Hrs) Hswap Hc) as (e & s1 & E & He & F1 & C1).
    destruct (IH cut s1 (Forall_inv_tail Hrs) ltac:(congruence) Hcut C1) as (es & s2 & E2 & Hes & Hz).
    exists (e :: es), s2. cbn [length]. cbn [read_events] in *. rewrite (ST_bind_Ok _ _ _ _ _ E), (ST_bind_Ok _ _ _ _ _ E2).
    split; [done|]. split; [by constructor | done].
Qed.

(** ** Writing events *)

Lemma write_bytes_all l s : exists s', write_bytes l s = Ok (Z.of_nat (length l), s') /\ of_file s' = of_file s /\ written s' = written s ++ l.
Proof.
  unfold write_bytes, written, sink. rewrite ST_bind_eq. unfold the_file. destruct (fOutGzFile (of_file s)) eqn:E; unfold io.
  - destruct (gzwrite_all l (of_io s)) as (v & -> & Hv). eexists. split; [done|]. cbn [of_file of_io]. by rewrite E.
  - destruct (write_all (fOutFile (of_file s)) l (of_io s)) as (v & -> & Hv). eexists. split; [done|]. cbn [of_file of_io]. by rewrite E.
Qed.

Lemma Write_second e m l wr s s1 s2 :
  fData e = Some m -> write_bytes (header_bytes (fEventHeader e)) s = Ok (Z.of_nat EVENT_HEADER_SIZE, s1) ->
  bytes_at m 0 (Z.to_nat (fDataSize (fEventHeader e))) = Ok l -> write_bytes l s1 = Ok (wr, s2) ->
  Write e s = Ok ((negb (wr =? 0), e), s2).
Proof.
  intros Hd E1 El E2. unfold Write. rewrite (ST_bind_Ok _ _ _ _ _ E1), Z.eqb_refl. change (negb true) with false. cbv iota.
  assert (Eg : get_data e s1 = Ok (e, s1)) by (unfold get_data; by rewrite Hd).
  assert (Em : lift_res (event_data e) s1 = Ok (m, s1)) by (unfold lift_res, event_data; by rewrite Hd).
  assert (Eb : lift_res (bytes_at m 0 (Z.to_nat (fDataSize (fEventHeader e)))) s1 = Ok (l, s1)) by (unfold lift_res; by rewrite El).
  by rewrite (ST_bind_Ok _ _ _ _ _ Eg), (ST_bind_Ok _ _ _ _ _ Em), (ST_bind_Ok _ _ _ _ _ Eb), (ST_bind_Ok _ _ _ _ _ E2).
Qed.

Lemma Write_event r e s : raw_ok r -> holds r e -> exists s', Write e s = Ok ((true, e), s') /\ of_file s' = of_file s /\ written s' = written s ++ raw_bytes r.
Proof.
  intros (_ & Hg & Hlen & _) (Hh & behind & Hd). unfold IsGoodSize in Hg. apply andb_true_iff in Hg as [Hg1 Hg2]. bprop.
  destruct (write_bytes_all (header_bytes (fEventHeader e)) s) as (s1 & E1 & F1 & W1). rewrite length_header in E1.
  destruct (write_bytes_all r.2 s1) as (s2 & E2 & F2 & W2). exists s2.
  rewrite (Write_second e (r.2 ++ behind) r.2 _ s s1 s2 Hd E1 ltac:(rewrite Hh, Hlen, Nat2Z.id; by apply (bytes_at_app [] r.2)) E2).
  rewrite (proj2 (Z.eqb_neq _ _)) by lia. split; [done|]. split; [congruence|]. rewrite W2, W1, Hh. unfold raw_bytes. by rewrite app_assoc.
Qed.

Lemma write_events_file rs : forall es s, Forall raw_ok rs -> Forall2 holds rs es ->
  exists s', write_events es s = Ok (true, s') /\ of_file s' = of_file s /\ written s' = written s ++ concat (map raw_bytes rs).
Proof.
  induction rs as [|r rs IH]; intros es s Hrs Hes.
  - apply Forall2_nil_inv_l in Hes as ->. exists s. cbn. by rewrite app_nil_r.
  - apply Forall2_cons_inv_l in Hes as (e & es' & He & Hes & ->). destruct (Write_event r e s (Forall_inv Hrs) He) as (s1 & E1 & F1 & W1).
    destruct (IH es' s1 (Forall_inv_tail Hrs) Hes) as (s2 & E2 & F2 & W2). exists s2. cbn [write_events]. rewrite (ST_bind_Ok _ _ _ _ _ E1).
    split; [done|]. split; [congruence|]. rewrite W2, W1, <- app_assoc. done.
Qed.

(** C4: Events that are written to an empty file are all written, and a file that delivers
    what was written, whatever the pieces the system delivers it in and
    compressed or not, gives the same events in the same order and then its
    end; when the file was cut inside the event after these, the events before
    it are read all the same. *)
Theorem midas_file_roundtrip rs es s next cut more s2 :
  Forall raw_ok rs -> Forall2 holds rs es -> written s = [] ->
  raw_ok next -> raw_bytes next = cut ++ more -> more <> [] ->
  exists s1, write_events es s = Ok (true, s1) /\
    (fDoByteSwap (of_file s2) = false -> coming s2 = written s1 ++ cut ->
     exists es2 s3, read_events (S (length rs)) s2 = Ok (es2, s3) /\ Forall2 holds rs es2 /\ (cut = [] -> fLastErrno (of_file s3) = 0)).
Proof.
  intros Hrs Hes Hw Hn Hcut Hm. destruct (write_events_file rs es s Hrs Hes) as (s1 & E & _ & W). exists s1. split; [done|].
  intros Hswap Hc. apply (read_events_file rs cut s2 Hrs Hswap); [by exists next, more|]. by rewrite Hc, W, Hw.
Qed.
End stream.

(** The answer of [Write] is that of the second call: an error, or fewer bytes
    than the event has, are answered as success. *)
Lemma write_failure_is_true {V} `{MidasIO V} e m l wr (s s1 s2 : on_file V) :
  fData e = Some m -> write_bytes (header_bytes (fEventHeader e)) s = Ok (Z.of_nat EVENT_HEADER_SIZE, s1) ->
  bytes_at m 0 (Z.to_nat (fDataSize (fEventHeader e))) = Ok l -> write_bytes l s1 = Ok (wr, s2) ->
  wr <> 0 -> Write e s = Ok ((true, e), s2).
Proof. intros Hd E1 El E2 Hwr. rewrite (Write_second _ _ _ _ _ _ _ Hd E1 El E2). by rewrite (proj2 (Z.eqb_neq _ _) Hwr). Qed.

(** ** A system with one file in memory *)

(** What can be read, in pieces of at most [d_piece] bytes, and what was written. *)
Record disk := Disk { d_in : list Z; d_out : list Z; d_piece : nat }.

Definition disk_read (n : Z) (v : disk) : Z * list Z * disk :=
  let k := Nat.min (Z.to_nat n) (S (d_piece v)) in
  let l := take k (d_in v) in (Z.of_nat (length l), l, Disk (drop k (d_in v)) (d_out v) (d_piece v)).
Definition disk_gzread (n : Z) (v : disk) : Z * list Z * disk :=
  let l := take (Z.to_nat n) (d_in v) in (Z.of_nat (length l), l, Disk (drop (Z.to_nat n) (d_in v)) (d_out v) (d_piece v)).
Definition disk_write (l : list Z) (v : disk) : Z * disk := (Z.of_nat (length l), Disk (d_in v) (d_out v ++ l) (d_piece v)).

#[export] Instance disk_io : MidasIO disk := {
  io_open _ _ v := (3, v); fd_of_pipe _ v := (Some 4, v); gzdopen _ _ v := (true, v); gzsetparams v := (true, v);
  io_read _ := disk_read; gzread := disk_gzread; io_write _ := disk_write; gzwrite := disk_write;
  io_close _ v := v; io_pclose v := v; gzclose _ v := v; malloc n v := (Some (replicate (Z.to_nat n + 3) 165), v);
  io_errno _ := 0; strerror _ := []
}.

#[export] Instance disk_laws : MidasIOLaws disk.
Proof.
  refine {| incoming _ v := d_in v; outgoing _ v := d_out v |}.
  - intros fd n v Hn. exists (take (Nat.min (Z.to_nat n) (S (d_piece v))) (d_in v)). eexists. cbn. unfold disk_read. split; [done|]. cbn [d_in].
    rewrite take_drop, length_take. split; [lia|]. split; [done|]. intros E. apply (f_equal length) in E. rewrite length_take in E. cbn in E.
    destruct (d_in v); [done | cbn in E; lia].
  - intros n v _. eexists. split; [reflexivity | done].
  - intros fd l v. eexists. split; [reflexivity | done].
  - intros l v. eexists. split; [reflexivity | done].
  - intros n v. eexists _, v. split; [reflexivity|]. rewrite length_replicate. split; [lia | done].
Defined.

Definition event_one : raw_event := (EventHeader 1 0 7 1500000000 16, [8; 0; 0; 0; 1; 0; 0; 0; 69; 79; 77; 48; 1; 0; 0; 0]).
Definition event_two : raw_event := (EventHeader 2 65535 8 1500000001 9, [1; 0; 0; 0; 1; 0; 0; 0; 255]).
Definition object (r : raw_event) : midas_event := MidasEvent r.1 (Some r.2) false 0 None.
Definition disk_of (l : list Z) : on_file disk := OnFile (set_in (str "run.mid") 3 false false (set_out (str "out.mid") 4 false TMidasFile)) (Disk l [] 4).

Lemma events_raw_ok : Forall raw_ok [event_one; event_two].
Proof.
  repeat constructor; cbn; try lia; [exists 8, 1 | exists 1, 1]; (split; [by vm_compute | split; [by vm_compute | by left]]).
Qed.

Lemma midas_file_roundtrip_witness :
  exists s1, write_events (map object [event_one; event_two]) (disk_of []) = Ok (true, s1) /\
    exists es2 s3, read_events 3 (disk_of (written s1 ++ take 20 (raw_bytes event_one))) = Ok (es2, s3) /\ Forall2 holds [event_one; event_two] es2.
Proof.
  pose proof events_raw_ok as H2.
  assert (Hes : Forall2 holds [event_one; event_two] (map object [event_one; event_two])).
  { repeat constructor; exists []; by rewrite app_nil_r. }
  assert (Hw : written (disk_of []) = []) by by vm_compute.
  destruct (midas_file_roundtrip _ _ _ event_one (take 20 (raw_bytes event_one)) (drop 20 (raw_bytes event_one))
    (disk_of (concat (map raw_bytes [event_one; event_two]) ++ take 20 (raw_bytes event_one))) H2 Hes Hw (Forall_inv H2) (eq_sym (take_drop _ _)) ltac:(discriminate))
    as (s1 & E & Hread).
  assert (W : written s1 = concat (map raw_bytes [event_one; event_two])).
  { vm_compute in E. injection E as <-. by vm_compute. }
  exists s1. split; [exact E|]. rewrite W. destruct (Hread eq_refl) as (es2 & s3 & E2 & H3 & _).
  - rewrite W. reflexivity.
  - exists es2, s3. split; [exact E2 | exact H3].
Defined.

(** A disk that is full: [write] answers -1 for the data. *)
Definition full_disk : MidasIO disk := {|
  io_open _ _ v := (3, v); fd_of_pipe _ v := (Some 4, v); gzdopen _ _ v := (true, v); gzsetparams v := (true, v);
  io_read _ := disk_read; gzread := disk_gzread;
  io_write _ l v := if (16 <? length (d_out v) + length l)%nat then (-1, v) else disk_write l v; gzwrite := disk_write;
  io_close _ v := v; io_pclose v := v; gzclose _ v := v; malloc n v := (None, v);
  io_errno _ := 28; strerror _ := []
|}.
Example full_disk_is_success : exists s, Write (H := full_disk) (object event_one) (disk_of []) = Ok ((true, object event_one), s) /\ d_out (of_io s) = header_bytes event_one.1.
Proof. eexists. split; vm_compute; reflexivity. Qed.

(** The name of a compressed file is not recognised when the suffix is in it
    before. *)
Example suffix_twice : hasSuffix (str "run.gz.gz") (str ".gz") = false /\ hasSuffix (str "run.gz") (str ".gz") = true.
Proof. by vm_compute. Qed.
