(* ===== verification/Digitizer.v ===== *)
(** * Data of the modules ([rootana/libAnalyzer/T*Data.cxx], [midas2root/TBRBRawData.cxx])

    Each class decodes the bank of one kind of module, from a pointer to its
    data and a number of elements: the waveforms of the CAEN V1730 and V1720 and of
    the BRB, the measurements of the CAEN V1190 and V792, of the Mesytec
    MADC32 and of the LeCroy 2249.  A decoder gets the block of the event and
    the place of the data; most of them do not look at the number of elements and
    read as far as the headers in the data say. *)

From S2P Require Import Prelude MidasEvent.

(** [GetData32()[i]], [GetData16()[i]] and [GetData64()[i]] *)
Definition word32 (m : list Z) (p i : Z) : res Z := load_word 4 m (p + 4 * i).
Definition word16 (m : list Z) (p i : Z) : res Z := load_word 2 m (p + 2 * i).
Definition word64 (m : list Z) (p i : Z) : res Z := load_word 8 m (p + 8 * i).

(** [for (ch = 0; ch < n; ch++)] *)
Fixpoint over_channels {S} (f : Z -> S -> res S) (chs : list Z) (s : S) : res S :=
  match chs with [] => Ok s | ch :: chs' => s ← f ch s; over_channels f chs' s end.
Definition channels (n : nat) : list Z := map Z.of_nat (seq 0 n).

(** [mask & (1<<ch)] *)
Definition in_mask (mask ch : Z) : bool := negb (Z.land mask (Z.shiftl 1 ch) =? 0).

(** [std::vector] accesses with a default *)
Definition sample_at (l : list Z) (i other : Z) : Z := if (0 <=? i) && (i <? Z.of_nat (length l)) then nth (Z.to_nat i) l 0 else other.

(** ** CAEN V1730, raw ([TV1730RawData]) *)

Record channel_measurement := ChannelMeasurement { fChan : Z; fSamples : list Z }.
Record v1730 := V1730 { fGlobalHeader : list Z; fMeasurements : list channel_measurement }.

Definition GetNSamples (c : channel_measurement) : Z := Z.of_nat (length (fSamples c)).
Definition GetSample (c : channel_measurement) (i : Z) : Z := sample_at (fSamples c) i 9999999.

Definition global_headers (m : list Z) (p : Z) : res (list Z) :=
  h0 ← word32 m p 0; h1 ← word32 m p 1; h2 ← word32 m p 2; h3 ← word32 m p 3; Ok [h0; h1; h2; h3].

Definition header (d : list Z) (i : nat) : Z := nth i d 0.
Definition GetEventCounter (h : list Z) : Z := Z.land (header h 2) 0xffffff.
Definition GetEventSize (h : list Z) : Z := Z.land (header h 0) 0xfffffff.
Definition GetGeoAddress (h : list Z) : Z := Z.shiftr (Z.land (header h 1) 0xf8000000) 27.
Definition GetTriggerTimeTag (h : list Z) : Z := header h 3.
Definition GetChMask (h : list Z) : Z := Z.land (header h 1) 0xff + Z.shiftr (Z.land (header h 2) 0xff000000) 16.

(** Two samples of 14 bits in each word; the samples and the place behind
    them.  Every turn reads four bytes further on, so that the length of the block
    is fuel enough. *)
Fixpoint read_samples (fuel : nat) (m : list Z) (p n counter : Z) : res (list Z * Z) :=
  if 0 <? n then
    match fuel with
    | O => Crash NoFuel
    | S fuel' =>
        w ← word32 m p counter;
        '(l, counter) ← read_samples fuel' m p (n - 1) (counter + 1);
        Ok (Z.land w 0x3fff :: Z.shiftr (Z.land w 0x3fff0000) 16 :: l, counter)
    end
  else Ok ([], counter).

Definition number_available_channels (mask : Z) : Z := Z.of_nat (length (filter (fun ch => in_mask mask ch = true) (channels 16))).

Definition v1730_channel (m : list Z) (p mask nwords ch : Z) (s : Z * list channel_measurement) : res (Z * list channel_measurement) :=
  let '(counter, l) := s in
  if in_mask mask ch then
    '(samples, counter) ← read_samples (S (length m)) m p nwords counter;
    Ok (counter, l ++ [ChannelMeasurement ch samples])
  else Ok (counter, l).

Definition TV1730RawData (m : list Z) (p : Z) : res v1730 :=
  h ← global_headers m p;
  if negb (Z.land (header h 0) 0xf0000000 =? 0xa0000000) then Ok (V1730 h [])
  else
    let n := number_available_channels (GetChMask h) in
    _ ← check (negb (n =? 0)) DivideByZero;
    let nwords_per_channel := to_int ((GetEventSize h - 4) mod 2 ^ 32 / n) in
    '(_, l) ← over_channels (v1730_channel m p (GetChMask h) nwords_per_channel) (channels 16) (4, []);
    Ok (V1730 h l).

(** ** CAEN V1730, pulse processing ([TV1730DppData]) *)

Record dpp_measurement := DppMeasurement { dpp_chan : Z; header0 : Z; header1 : Z; dpp_samples : list Z }.
Record v1730_dpp := V1730Dpp { dpp_header : list Z; dpp_measurements : list dpp_measurement }.

Definition GetDualTraceEnabled (c : dpp_measurement) : bool := negb (Z.shiftr (Z.land (header1 c) 0x80000000) 31 =? 0).
Definition GetChargeEnabled (c : dpp_measurement) : bool := negb (Z.shiftr (Z.land (header1 c) 0x40000000) 30 =? 0).
Definition GetTimeEnabled (c : dpp_measurement) : bool := negb (Z.shiftr (Z.land (header1 c) 0x20000000) 29 =? 0).
Definition GetBaselineEnabled (c : dpp_measurement) : bool := negb (Z.shiftr (Z.land (header1 c) 0x10000000) 28 =? 0).
Definition GetSamplesEnabled (c : dpp_measurement) : bool := negb (Z.shiftr (Z.land (header1 c) 0x08000000) 27 =? 0).
(** The number in the header; a warning is printed when it is not the number of
    samples. *)
Definition dpp_GetNSamples (c : dpp_measurement) : Z := Z.land (header1 c) 0xfff * 8.
Definition dpp_GetChMask (h : list Z) : Z := Z.land (header h 1) 0xff.

Definition dpp_channel (m : list Z) (p mask ch : Z) (s : Z * list dpp_measurement) : res (Z * list dpp_measurement) :=
  let '(counter, l) := s in
  if in_mask mask ch then
    h0 ← word32 m p counter;
    h1 ← word32 m p (counter + 1);
    let nsamples := to_int ((Z.land h0 0x7fff - 2) mod 2 ^ 32) in
    '(samples, counter) ← read_samples (S (length m)) m p nsamples (counter + 2);
    Ok (counter, l ++ [DppMeasurement ch h0 h1 samples])
  else Ok (counter, l).

(** A wrong identifier is only reported. *)
Definition TV1730DppData (m : list Z) (p : Z) : res v1730_dpp :=
  h ← global_headers m p;
  '(_, l) ← over_channels (dpp_channel m p (dpp_GetChMask h)) (channels 16) (4, []);
  Ok (V1730Dpp h l).

(** ** CAEN V1720 ([TV1720RawData]) *)

Record zle_pulse := ZlePulse { fFirstBin : Z; pulse_samples : list Z }.
Record v1720_channel := V1720Channel { fChannelNumber : Z; fIsZLECompressed : bool; fZlePulses : list zle_pulse; fWaveform : list Z }.
Record v1720 := V1720 { v1720_header : list Z; v1720_measurements : list v1720_channel }.

Definition v1720_GetEventSize (h : list Z) : Z := Z.land (header h 0) 0xffffff.
Definition GetChannelMask (h : list Z) : Z := Z.land (header h 1) 0xff.
Definition IsZLECompressed (h : list Z) : bool := Z.testbit (header h 1) 24.
Definition GetTriggerTag (h : list Z) : Z := Z.land (header h 3) 0xffffffff.
Definition GetADCSample (c : v1720_channel) (i : Z) : Z := sample_at (fWaveform c) i (-1).
Definition pulse_GetSample (z : zle_pulse) (i : Z) : Z := sample_at (pulse_samples z) i (-1).
Definition IsEmpty (c : v1720_channel) : bool := match fZlePulses c, fWaveform c with [], [] => true | _, _ => false end.

(** [uint32_t] *)
Definition u32 (x : Z) : Z := x mod 2 ^ 32.

(** Words of a pulse: the samples, [iPtr] and [iChPtr]. *)
Fixpoint zle_words (fuel : nat) (m : list Z) (p n iPtr iChPtr : Z) : res (list Z * Z * Z) :=
  if 0 <? n then
    match fuel with
    | O => Crash NoFuel
    | S fuel' =>
        let iPtr := u32 (iPtr + 1) in
        let iChPtr := u32 (iChPtr + 1) in
        w ← word32 m p iPtr;
        '(l, iPtr, iChPtr) ← zle_words fuel' m p (n - 1) iPtr iChPtr;
        Ok (Z.land w 0xFFF :: Z.land (Z.shiftr w 16) 0xFFF :: l, iPtr, iChPtr)
    end
  else Ok ([], iPtr, iChPtr).

(** [while(iChPtr<chSize)]: the pulses and [iPtr]. *)
Fixpoint zle_channel (fuel : nat) (m : list Z) (p chSize iPtr iChPtr iBin : Z) : res (list zle_pulse * Z) :=
  if iChPtr <? chSize then
    match fuel with
    | O => Crash NoFuel
    | S fuel' =>
        w ← word32 m p iPtr;
        let nWords := Z.land w 0xFFFFF in
        '(pulse, iPtr, iChPtr) ←
          (if Z.testbit w 31 then
             '(l, iPtr, iChPtr) ← zle_words (S (length m)) m p nWords iPtr iChPtr;
             Ok ([ZlePulse (to_int iBin) l], iPtr, iChPtr)
           else Ok ([], iPtr, iChPtr));
        '(l, iPtr) ← zle_channel fuel' m p chSize (u32 (iPtr + 1)) (u32 (iChPtr + 1)) (u32 (iBin + nWords * 2));
        Ok (pulse ++ l, iPtr)
    end
  else Ok ([], iPtr).

Definition zle_step (m : list Z) (p mask : Z) (zle : bool) (ch : Z) (s : Z * list v1720_channel) : res (Z * list v1720_channel) :=
  let '(iPtr, l) := s in
  if in_mask mask ch then
    chSize ← word32 m p iPtr;
    '(pulses, iPtr) ← zle_channel (S (length m)) m p chSize (u32 (iPtr + 1)) 1 0;
    Ok (iPtr, l ++ [V1720Channel ch zle pulses []])
  else Ok (iPtr, l).

Definition HandlZLECompressedData (m : list Z) (p : Z) (h : list Z) : res (list v1720_channel) :=
  w ← word32 m p 1;
  '(_, l) ← over_channels (zle_step m p (Z.land w 0xFF) (IsZLECompressed h)) (channels 8) (4, []);
  Ok l.

(** The two samples of 12 bits in each word. *)
Fixpoint read_samples12 (fuel : nat) (m : list Z) (p n iPtr : Z) : res (list Z * Z) :=
  if 0 <? n then
    match fuel with
    | O => Crash NoFuel
    | S fuel' =>
        w ← word32 m p iPtr;
        '(l, iPtr) ← read_samples12 fuel' m p (n - 1) (u32 (iPtr + 1));
        Ok (Z.land w 0xFFF :: Z.land (Z.shiftr w 16) 0xFFF :: l, iPtr)
    end
  else Ok ([], iPtr).

Definition uncompressed_step (m : list Z) (p mask n : Z) (zle : bool) (ch : Z) (s : Z * list v1720_channel) : res (Z * list v1720_channel) :=
  let '(iPtr, l) := s in
  if negb (in_mask mask ch) then Ok (iPtr, l ++ [V1720Channel ch zle [] []])
  else
    '(samples, iPtr) ← read_samples12 (S (length m)) m p n iPtr;
    Ok (iPtr, l ++ [V1720Channel ch zle [] samples]).

Definition HandlUncompressedData (m : list Z) (p : Z) (h : list Z) : res (list v1720_channel) :=
  w ← word32 m p 1;
  let chMask := Z.land w 0xFF in
  let nActiveChannels := Z.of_nat (length (filter (fun ch => in_mask chMask ch = true) (channels 8))) in
  _ ← check (negb (nActiveChannels =? 0)) DivideByZero;
  let N32samples := to_int (u32 (v1720_GetEventSize h - 4) / nActiveChannels) in
  '(_, l) ← over_channels (uncompressed_step m p chMask N32samples (IsZLECompressed h)) (channels 8) (4, []);
  Ok l.

Definition TV1720RawData (m : list Z) (p : Z) : res v1720 :=
  h ← global_headers m p;
  l ← (if IsZLECompressed h then HandlZLECompressedData m p h else HandlUncompressedData m p h);
  Ok (V1720 h l).

Definition GetChannelData (d : v1720) (i : Z) : v1720_channel :=
  if (0 <=? i) && (i <? Z.of_nat (length (v1720_measurements d))) then nth (Z.to_nat i) (v1720_measurements d) (V1720Channel 0 false [] [])
  else V1720Channel 0 false [] [].

(** ** BRB ([midas2root/TBRBRawData]) *)

Definition BRB_PACKET : Z := 533.
Definition chan_map : list Z := [2; 3; 0; 1].

(** Sample [i] of a packet, for its channel. *)
Definition brb_sample (m : list Z) (p istart i : Z) (samples : list (list Z)) : res (list (list Z)) :=
  ch ← load chan_map (Z.to_nat (i mod 4));
  w ← word16 m p (i + 21 + istart);
  let data := Z.shiftr w 4 in
  let data := if (ch =? 1) || (ch =? 3) then 4096 - data else data in
  Ok (alter (fun l => l ++ [data]) (Z.to_nat ch) samples).

Definition brb_packet (m : list Z) (p adc pk : Z) (samples : list (list Z)) : res (list (list Z)) :=
  let istart := (adc * 8 + pk) * BRB_PACKET in
  _ ← word16 m p (istart + 4);
  _ ← word16 m p (istart + 2);
  _ ← word16 m p (istart + 19);
  _ ← word16 m p (istart + 20);
  over_channels (brb_sample m p istart) (channels 512) samples.

Definition brb_adc (m : list Z) (p adc : Z) (l : list channel_measurement) : res (list channel_measurement) :=
  samples ← over_channels (brb_packet m p adc) (channels 8) [[]; []; []; []];
  Ok (l ++ imap (fun ach s => ChannelMeasurement (adc * 4 + Z.of_nat ach) s) samples).

Definition TBRBRawData (m : list Z) (p bklen : Z) : res (list channel_measurement) :=
  let npackets := Z.quot bklen BRB_PACKET in
  let nadcs := Z.quot (npackets - 1) 8 in
  over_channels (brb_adc m p) (channels (Z.to_nat nadcs)) [].

(** ** CAEN V1190 ([TV1190Data]) *)

Record tdc_measurement := TdcMeasurement {
  tdc_header_word : Z; tdc_measurement_word : Z; tdc_trailer_word : Z; tdc_error_error : Z; event_index : Z
}.

Definition IsLeading (t : tdc_measurement) : bool := Z.land (tdc_measurement_word t) 0x4000000 =? 0.
Definition IsTrailing (t : tdc_measurement) : bool := Z.land (tdc_measurement_word t) 0x4000000 =? 0x4000000.
Definition GetMeasurement (t : tdc_measurement) : Z := Z.land (tdc_measurement_word t) 0x7ffff.
Definition GetChannel (t : tdc_measurement) : Z := Z.shiftr (Z.land (tdc_measurement_word t) 0x3f80000) 19.
Definition HasTDCHeader (t : tdc_measurement) : bool := negb (tdc_header_word t =? 0).
Definition HasTDCTrailer (t : tdc_measurement) : bool := negb (tdc_trailer_word t =? 0).
Definition HasTDCErrorWord (t : tdc_measurement) : bool := negb (tdc_error_error t =? 0).
Definition GetTDCNumber (t : tdc_measurement) : Z :=
  if HasTDCHeader t then Z.shiftr (Z.land (tdc_header_word t) 0x3000000) 24
  else if HasTDCTrailer t then Z.shiftr (Z.land (tdc_trailer_word t) 0x3000000) 24
  else 0xdeadbeef.
Definition GetEventID (t : tdc_measurement) : Z :=
  if HasTDCHeader t then Z.shiftr (Z.land (tdc_header_word t) 0xfff000) 12
  else if HasTDCTrailer t then Z.shiftr (Z.land (tdc_trailer_word t) 0xfff000) 12
  else 0xdeadbeef.
Definition GetBunchID (t : tdc_measurement) : Z := if HasTDCHeader t then Z.land (tdc_header_word t) 0xfff else 0xdeadbeef.
Definition GetErrors (t : tdc_measurement) : Z := if HasTDCErrorWord t then Z.land (tdc_error_error t) 0x7fff else 0xdeadbeef.
Definition SetTrailer (w : Z) (t : tdc_measurement) : tdc_measurement :=
  TdcMeasurement (tdc_header_word t) (tdc_measurement_word t) w (tdc_error_error t) (event_index t).
Definition SetErrors (w : Z) (t : tdc_measurement) : tdc_measurement :=
  TdcMeasurement (tdc_header_word t) (tdc_measurement_word t) (tdc_trailer_word t) w (event_index t).

Record v1190 := V1190 {
  v1190_header : list Z;
  fExtendedTriggerTimeTag : list Z;
  fWordCountTotal : Z;
  fStatus : list Z;
  v1190_measurements : list tdc_measurement;
  fCorruptedBank : bool;
  found_trailer_word : Z;
  current_tdc_header : Z;
  index_for_trailer : nat
}.

(** [fMeasurements[i]] from an index on *)
Definition from_index (f : tdc_measurement -> tdc_measurement) (i : nat) (l : list tdc_measurement) : list tdc_measurement := take i l ++ map f (drop i l).

(** The five bits that say what a word is. *)
Definition word_kind (w : Z) : Z := Z.land w 0xf8000000.

(** One word; the errors are set from the index for the trailers on, as the
    source does. *)
Definition v1190_word (i w : Z) (d : v1190) : res v1190 :=
  let '(V1190 hs tags total status ms bad trailer current idx) := d in
  let k := word_kind w in
  if k =? 0x40000000 then Ok (V1190 (hs ++ [w]) tags total status ms bad trailer current idx)
  else if k =? 0x08000000 then Ok (V1190 hs tags total status ms bad trailer w idx)
  else if k =? 0 then Ok (V1190 hs tags total status (ms ++ [TdcMeasurement current w 0 0 (Z.of_nat (length hs) - 1)]) bad trailer current idx)
  else if k =? 0x18000000 then Ok (V1190 hs tags total status (from_index (SetTrailer w) idx ms) bad trailer current (length ms))
  else if k =? 0x20000000 then Ok (V1190 hs tags total status (from_index (SetErrors w) idx ms) bad trailer current idx)
  else if k =? 0x88000000 then Ok (V1190 hs (tags ++ [Z.land w 0x07ffffff]) total status ms bad trailer current idx)
  else if k =? 0x80000000 then
    let total := total + Z.shiftr (Z.land w 0x1fffe0) 5 in
    Ok (V1190 hs tags (to_int total) (status ++ [Z.shiftr (Z.land w 0x07000000) 24]) ms bad i current idx)
  else Ok d.

Fixpoint v1190_words (n : nat) (m : list Z) (p i : Z) (d : v1190) : res v1190 :=
  match n with
  | O => Ok d
  | S n' => w ← word32 m p i; d ← v1190_word i w d; v1190_words n' m p (i + 1) d
  end.

Definition TV1190Data (m : list Z) (p bklen : Z) : res v1190 :=
  w0 ← word32 m p 0;
  d ← v1190_words (Z.to_nat bklen) m p 0 (V1190 [] [] 0 [] [] (negb (word_kind w0 =? 0x40000000)) (-1) 0 0);
  let bad := fCorruptedBank d || (found_trailer_word d =? -1) || negb (found_trailer_word d =? bklen - 1) || negb (fWordCountTotal d =? bklen) in
  Ok (V1190 (v1190_header d) (fExtendedTriggerTimeTag d) (fWordCountTotal d) (fStatus d) (v1190_measurements d) bad
        (found_trailer_word d) (current_tdc_header d) (index_for_trailer d)).

(** ** CAEN V792 ([TV792Data]) *)

Record adc_measurement := AdcMeasurement { adc_header_word : Z; adc_measurement_word : Z }.
Record v792 := V792 { v792_measurements : list adc_measurement; fAdc_header_word : Z; fAdc_trailer_word : Z }.

Definition v792_GetMeasurement (a : adc_measurement) : Z := Z.land (adc_measurement_word a) 0xfff.
Definition v792_GetChannel (a : adc_measurement) : Z := Z.shiftr (Z.land (adc_measurement_word a) 0x1f0000) 16.
Definition GetCrate (w : Z) : Z := Z.shiftr (Z.land w 0xff0000) 16.
Definition GetNumberChannels (d : v792) : Z := Z.shiftr (Z.land (fAdc_header_word d) 0x3f00) 8.
Definition IsUnderThreshold (a : adc_measurement) : bool := Z.land (adc_measurement_word a) 0x2000 =? 0x2000.
Definition IsOverFlow (a : adc_measurement) : bool := Z.land (adc_measurement_word a) 0x1000 =? 0x1000.

Definition v792_word (w : Z) (d : v792) : v792 :=
  let k := Z.land w 0x07000000 in
  if k =? 0x02000000 then V792 (v792_measurements d) w (fAdc_trailer_word d)
  else if k =? 0 then V792 (v792_measurements d ++ [AdcMeasurement (fAdc_header_word d) w]) (fAdc_header_word d) (fAdc_trailer_word d)
  else if k =? 0x04000000 then V792 (v792_measurements d) (fAdc_header_word d) w
  else d.

Definition TV792Data (m : list Z) (p bklen : Z) : res v792 :=
  over_channels (fun i d => w ← word32 m p i; Ok (v792_word w d)) (channels (Z.to_nat bklen)) (V792 [] 0 0).

(** ** Mesytec MADC32 ([TMesytecData]) *)

(** The trailer is what the memory held until one is found. *)
Record mesytec := Mesytec { mesy_header : Z; mesy_trailer : option Z; mesy_measurements : list adc_measurement }.

(** The resolution is a global variable, and so changes with the last header of
    any bank. *)
Definition gBitResolution : Z := 0x7ff.
Definition mesy_GetMeasurement (resolution : Z) (a : adc_measurement) : Z := Z.land (adc_measurement_word a) resolution.
Definition GetTimeStamp (d : mesytec) : res Z := match mesy_trailer d with Some w => Ok (Z.land w 0x3fffffff) | None => Crash Uninit end.

Definition mesy_word (w : Z) (s : Z * mesytec) : Z * mesytec :=
  let '(res, d) := s in
  let k := Z.land w 0xc0000000 in
  if k =? 0x40000000 then
    let r := Z.shiftr (Z.land w 0x7000) 12 in
    (if r =? 1 then 0x7ff else if r =? 2 then 0xfff else if r =? 4 then 0x1fff else res, Mesytec w (mesy_trailer d) (mesy_measurements d))
  else if (k =? 0) && (Z.land w 0x3fe00000 =? 0x04000000) then
    (res, Mesytec (mesy_header d) (mesy_trailer d) (mesy_measurements d ++ [AdcMeasurement (mesy_header d) w]))
  else if k =? 0xc0000000 then (res, Mesytec (mesy_header d) (Some w) (mesy_measurements d))
  else s.

Definition TMesytecData (m : list Z) (p bklen resolution : Z) : res (Z * mesytec) :=
  over_channels (fun i s => w ← word32 m p i; Ok (mesy_word w s)) (channels (Z.to_nat bklen)) (resolution, Mesytec 0 None []).

(** ** LeCroy 2249 ([TL2249Data]) *)

Definition TL2249Data (m : list Z) (p bklen : Z) : res (list Z) :=
  over_channels (fun i l => w ← word16 m p i; Ok (l ++ [w])) (channels (Z.to_nat bklen)) [].
Definition l2249_GetMeasurement (w : Z) : Z := Z.land w 0xfff.
