(* ===== verification/Waveforms.v ===== *)
(** * Waveforms: what the modules sent is what is decoded

    The decoders of [Digitizer.v] on banks that are written down from the
    waveforms: the raw format of the V1730, the compressed format of the
    V1720, and the packets of the BRB. *)

From S2P Require Import Prelude MidasEvent MidasBanks Digitizer.

(** ** Words in a block *)

Definition words_at (m : list Z) (p : Z) (ws : list Z) : Prop := forall i w, ws !! i = Some w -> word32 m p (Z.of_nat i) = Ok w.
Definition words16_at (m : list Z) (p : Z) (ws : list Z) : Prop := forall i w, ws !! i = Some w -> word16 m p (Z.of_nat i) = Ok w.

Lemma In_channels b n : In b (channels n) <-> 0 <= b < Z.of_nat n.
Proof.
  unfold channels. rewrite in_map_iff. split; [intros (k & <- & Hk); apply in_seq in Hk; lia|]. intros Hb. exists (Z.to_nat b). split; [lia|]. apply in_seq. lia.
Qed.

Lemma load_word_nth n (ws : list Z) pre post i w p : Z.of_nat (length pre) = p -> Forall (fun w => 0 <= w < 256 ^ Z.of_nat n) ws -> ws !! i = Some w ->
  load_word n (pre ++ concat (map (le_bytes n) ws) ++ post) (p + Z.of_nat n * Z.of_nat i) = Ok w.
Proof.
  intros Hp Hws Hi. pose proof (proj1 (Forall_lookup _ ws) Hws i w Hi) as Hw. rewrite <- (take_drop_middle ws i w Hi) at 1.
  rewrite map_app, concat_app. cbn [map concat]. rewrite <- !app_assoc, (app_assoc pre). apply load_word_app; [|exact Hw].
  assert (E : forall l, length (concat (map (le_bytes n) l)) = (n * length l)%nat).
  { induction l as [|a l IH]; cbn [map concat length]; [lia|]. rewrite length_app, length_le_bytes, IH. lia. }
  rewrite length_app, E, length_take. pose proof (lookup_lt_Some _ _ _ Hi). lia.
Qed.

Lemma words_at_bytes pre ws post : Forall (fun w => 0 <= w < 2 ^ 32) ws -> words_at (pre ++ concat (map (le_bytes 4) ws) ++ post) (Z.of_nat (length pre)) ws.
Proof. intros Hws i w Hi. by apply load_word_nth. Qed.

Lemma words16_at_bytes pre ws post : Forall (fun w => 0 <= w < 2 ^ 16) ws -> words16_at (pre ++ concat (map (le_bytes 2) ws) ++ post) (Z.of_nat (length pre)) ws.
Proof. intros Hws i w Hi. by apply load_word_nth. Qed.

Lemma words_at_middle m p u w v i : words_at m p (u ++ w :: v) -> Z.of_nat (length u) = i -> word32 m p i = Ok w.
Proof. intros H <-. apply H. by rewrite list_lookup_middle. Qed.

(** Words that can be read bound the block. *)
Lemma word32_inside m p i w : word32 m p i = Ok w -> 0 <= p + 4 * i /\ p + 4 * i + 4 <= Z.of_nat (length m).
Proof.
  unfold word32, load_word, bytes_at. destruct (Z.leb_spec 0 (p + 4 * i)); [|done]. destruct (Z.leb_spec (p + 4 * i + Z.of_nat 4) (Z.of_nat (length m))); [|done]. lia.
Qed.

Lemma words_at_fuel m p u l v : words_at m p (u ++ l ++ v) -> (length l <= length m)%nat.
Proof.
  intros H. destruct l as [|a l _] using rev_ind; [cbn; lia|]. rewrite <- app_assoc, app_assoc in H. cbn [app] in H.
  pose proof (words_at_middle m p _ a v _ H eq_refl) as Hw. apply word32_inside in Hw. rewrite !length_app in *. cbn [length].
  destruct u as [|b u].
  - destruct l as [|c l]; [cbn in *; lia|]. specialize (H 0%nat c eq_refl). apply word32_inside in H. cbn [length app] in *. lia.
  - specialize (H 0%nat b eq_refl). apply word32_inside in H. cbn [length app] in *. lia.
Qed.

(** ** Masks *)

Section masks.
Context {A : Type}.
Implicit Types l : list (option A).

(** The channels that are there. *)
Fixpoint mask_of l : Z := match l with [] => 0 | o :: l' => (match o with Some _ => 1 | None => 0 end) + 2 * mask_of l' end.
Fixpoint present (i : Z) l : list (Z * A) :=
  match l with [] => [] | None :: l' => present (i + 1) l' | Some a :: l' => (i, a) :: present (i + 1) l' end.

Lemma mask_of_pos l : 0 <= mask_of l.
Proof. induction l as [|[a|] l IH]; cbn; lia. Qed.

Lemma mask_of_bit l : forall i, Z.testbit (mask_of l) (Z.of_nat i) = match l !! i with Some (Some _) => true | _ => false end.
Proof.
  induction l as [|o l IH]; intros i; [by rewrite Z.testbit_0_l|]. destruct i as [|i].
  - cbn [mask_of lookup list_lookup]. change (Z.of_nat 0) with 0. destruct o; [rewrite Z.add_comm; apply Z.testbit_odd_0 | rewrite Z.add_0_l; apply Z.testbit_even_0].
  - rewrite Nat2Z.inj_succ. cbn [mask_of lookup list_lookup]. rewrite <- IH.
    destruct o; [rewrite Z.add_comm; apply Z.testbit_odd_succ; lia | rewrite Z.add_0_l; apply Z.testbit_even_succ; lia].
Qed.

Lemma in_mask_bit mask i : 0 <= i -> in_mask mask i = Z.testbit mask i.
Proof.
  intros Hi. unfold in_mask. rewrite Z.shiftl_1_l. destruct (Z.testbit mask i) eqn:E.
  - apply negb_true_iff, Z.eqb_neq. intros H0. apply (f_equal (fun x => Z.testbit x i)) in H0. rewrite Z.land_spec, E, Z.pow2_bits_true, Z.bits_0 in H0 by done. done.
  - apply negb_false_iff, Z.eqb_eq, Z.bits_inj'. intros n Hn. rewrite Z.land_spec, Z.bits_0. destruct (decide (i = n)) as [->|Hne]; [by rewrite E|].
    by rewrite Z.pow2_bits_false, andb_false_r by done.
Qed.

Lemma in_mask_of l i : in_mask (mask_of l) (Z.of_nat i) = match l !! i with Some (Some _) => true | _ => false end.
Proof. rewrite in_mask_bit by lia. apply mask_of_bit. Qed.

Lemma length_present l : forall i, length (present i l) = length (filter (fun o => is_Some o) l).
Proof. induction l as [|[a|] l IH]; intros i; cbn; [done | by rewrite IH | by rewrite IH]. Qed.

Lemma present_app l0 l1 : forall i, present i (l0 ++ l1) = present i l0 ++ present (i + Z.of_nat (length l0)) l1.
Proof.
  induction l0 as [|[a|] l0 IH]; intros i; cbn [app present length]; [by rewrite Z.add_0_r| |]; rewrite IH; cbn [app]; [f_equal|]; do 2 f_equal; lia.
Qed.
End masks.

(** ** Loops *)

Lemma over_index {A St} (f : Z -> St -> res St) (l : list A) (I : list A -> St -> Prop) :
  (forall l0 o l1 s, l = l0 ++ o :: l1 -> I l0 s -> exists s', f (Z.of_nat (length l0)) s = Ok s' /\ I (l0 ++ [o]) s') ->
  forall s, I [] s -> exists s', over_channels f (channels (length l)) s = Ok s' /\ I l s'.
Proof.
  intros Hstep. unfold channels.
  enough (G : forall l1 l0 s, l = l0 ++ l1 -> I l0 s -> exists s', over_channels f (map Z.of_nat (seq (length l0) (length l1))) s = Ok s' /\ I l s')
    by (intros s Hs; exact (G l [] s eq_refl Hs)).
  induction l1 as [|o l1 IH]; intros l0 s El Hs; cbn [length seq map over_channels].
  - rewrite app_nil_r in El. subst. eauto.
  - destruct (Hstep l0 o l1 s El Hs) as (s' & -> & Hs'). rewrite res_bind_Ok. specialize (IH (l0 ++ [o]) s'). rewrite length_app, Nat.add_1_r in IH.
    apply IH; [by rewrite <- app_assoc | done].
Qed.

(** A loop over the channels does its work for those that are there. *)
Lemma over_present {A St} (f : Z -> St -> res St) (l : list (option A)) (I : list (Z * A) -> St -> Prop) :
  (forall i s k, in_mask (mask_of l) i = false -> I k s -> f i s = Ok s) ->
  (forall i a s k k', in_mask (mask_of l) i = true -> present 0 l = k ++ (i, a) :: k' -> I k s -> exists s', f i s = Ok s' /\ I (k ++ [(i, a)]) s') ->
  forall s, I [] s -> exists s', over_channels f (channels (length l)) s = Ok s' /\ I (present 0 l) s'.
Proof.
  intros Hskip Hdo. apply (over_index f l (fun l0 => I (present 0 l0))). intros l0 o l1 s El Hs.
  assert (Em : in_mask (mask_of l) (Z.of_nat (length l0)) = match o with Some _ => true | None => false end) by (rewrite in_mask_of, El, list_lookup_middle by done; by destruct o).
  rewrite present_app, Z.add_0_l. destruct o as [a|]; cbn [present].
  - apply (Hdo _ a s _ (present (Z.of_nat (length l0) + 1) l1) Em); [|done]. by rewrite El, present_app.
  - rewrite app_nil_r. eauto.
Qed.

(** ** Two samples in a word *)

Fixpoint pack (l : list Z) : list Z := match l with a :: b :: l' => a + 2 ^ 16 * b :: pack l' | _ => [] end.

Definition samples_ok (bits : Z) (l : list Z) : Prop := Forall (fun a => 0 <= a < 2 ^ bits) l.

(** Two samples at a time. *)
Lemma pairs_ind (P : list Z -> Prop) : P [] -> (forall a b l, P l -> P (a :: b :: l)) -> forall l, Nat.Even (length l) -> P l.
Proof.
  intros H0 H2. fix IH 1. intros [|a [|b l]] He; [exact H0 | exfalso; destruct He as [k Hk]; cbn in Hk; lia|].
  apply H2, IH. destruct He as [k Hk]. exists (k - 1)%nat. cbn [length] in Hk. lia.
Qed.

Lemma length_pack l : Nat.Even (length l) -> (2 * length (pack l) = length l)%nat.
Proof. revert l. apply pairs_ind; [done | intros a b l IH; cbn [pack length]; lia]. Qed.

Lemma pack_words bits l : 0 <= bits <= 16 -> Nat.Even (length l) -> samples_ok bits l -> Forall (fun w => 0 <= w < 2 ^ 32) (pack l).
Proof.
  intros Hb. revert l. apply (pairs_ind (fun l => samples_ok bits l -> Forall (fun w => 0 <= w < 2 ^ 32) (pack l))); [constructor|]. intros a b l IH Hl.
  pose proof (Forall_inv Hl) as Ha. pose proof (Forall_inv (Forall_inv_tail Hl)) as Hbb. pose proof (Z.pow_le_mono_r 2 bits 16 ltac:(lia) ltac:(lia)).
  cbn [pack]. constructor; [cbn in *; lia | apply IH, (Forall_inv_tail (Forall_inv_tail Hl))].
Qed.

Lemma low_sample bits a b : 0 <= bits <= 16 -> 0 <= a < 2 ^ bits -> Z.land (a + 2 ^ 16 * b) (Z.ones bits) = a.
Proof.
  intros Hb Ha. rewrite Z.land_ones by lia. replace 16 with (bits + (16 - bits)) by lia. rewrite Z.pow_add_r by lia.
  replace (a + 2 ^ bits * 2 ^ (16 - bits) * b) with (a + (2 ^ (16 - bits) * b) * 2 ^ bits) by ring. rewrite Z.mod_add by lia. by apply Z.mod_small.
Qed.

Lemma high_part a b : 0 <= a < 2 ^ 16 -> Z.shiftr (a + 2 ^ 16 * b) 16 = b.
Proof. intros Ha. rewrite Z.shiftr_div_pow2 by lia. rewrite Z.mul_comm, Z.div_add by lia. rewrite Z.div_small by lia. lia. Qed.

Lemma high_sample bits a b : 0 <= bits <= 16 -> 0 <= a < 2 ^ bits -> 0 <= b < 2 ^ bits -> Z.land (Z.shiftr (a + 2 ^ 16 * b) 16) (Z.ones bits) = b.
Proof.
  intros Hb Ha Hbb. pose proof (Z.pow_le_mono_r 2 bits 16 ltac:(lia) ltac:(lia)). rewrite high_part by lia. rewrite Z.land_ones by lia. by apply Z.mod_small.
Qed.

Lemma high_sample14 a b : 0 <= a < 2 ^ 14 -> 0 <= b < 2 ^ 14 -> Z.shiftr (Z.land (a + 2 ^ 16 * b) 0x3fff0000) 16 = b.
Proof. intros Ha Hb. rewrite Z.shiftr_land. change (Z.shiftr 0x3fff0000 16) with (Z.ones 14). by apply (high_sample 14). Qed.

(** ** V1730 *)

Lemma read_samples_packed m p : forall l, Nat.Even (length l) -> forall fuel u v, samples_ok 14 l -> (length (pack l) <= fuel)%nat -> words_at m p (u ++ pack l ++ v) ->
  read_samples fuel m p (Z.of_nat (length (pack l))) (Z.of_nat (length u)) = Ok (l, Z.of_nat (length u + length (pack l))).
Proof.
  apply (pairs_ind (fun l => forall fuel u v, samples_ok 14 l -> (length (pack l) <= fuel)%nat -> words_at m p (u ++ pack l ++ v) ->
    read_samples fuel m p (Z.of_nat (length (pack l))) (Z.of_nat (length u)) = Ok (l, Z.of_nat (length u + length (pack l))))).
  - intros fuel u v Hl Hf Hw. cbn [pack length]. rewrite Nat.add_0_r. by destruct fuel.
  - intros a b l IH fuel u v Hl Hf Hw. cbn [pack length] in *. destruct fuel as [|fuel]; [lia|]. cbn [read_samples]. rewrite (proj2 (Z.ltb_lt _ _)) by lia.
    rewrite (words_at_middle m p u (a + 2 ^ 16 * b) (pack l ++ v) _ Hw eq_refl), res_bind_Ok.
    replace (Z.of_nat (S (length (pack l))) - 1) with (Z.of_nat (length (pack l))) by lia.
    specialize (IH fuel (u ++ [a + 2 ^ 16 * b]) v (Forall_inv_tail (Forall_inv_tail Hl)) ltac:(lia)). rewrite <- app_assoc in IH. specialize (IH Hw).
    rewrite length_app in IH. cbn [length] in IH. replace (Z.of_nat (length u) + 1) with (Z.of_nat (length u + 1)) by lia. rewrite IH, res_bind_Ok.
    pose proof (Forall_inv Hl) as Ha. pose proof (Forall_inv (Forall_inv_tail Hl)) as Hb.
    change 0x3fff with (Z.ones 14). rewrite (low_sample 14), high_sample14 by (done || lia). do 2 f_equal. lia.
Qed.

(** The waveforms of the 16 channels, and the words of a bank behind the
    four headers. *)
Abbreviation waveforms := (list (option (list Z))).

Definition packed (l : list (Z * list Z)) : list Z := concat (map (fun x => pack x.2) l).

(** The headers describe the waveforms: [n] words for each. *)
Definition v1730_ok (hs : list Z) (data : waveforms) (n : nat) : Prop :=
  length hs = 4%nat /\ Z.land (header hs 0) 0xf0000000 = 0xa0000000 /\ length data = 16%nat /\ GetChMask hs = mask_of data /\
  present 0 data <> [] /\ GetEventSize hs = 4 + Z.of_nat n * Z.of_nat (length (present 0 data)) /\
  Forall (fun x => samples_ok 14 x.2 /\ length x.2 = (2 * n)%nat) (present 0 data).

Lemma global_headers_at m p hs v : length hs = 4%nat -> words_at m p (hs ++ v) -> global_headers m p = Ok hs.
Proof.
  intros Hl Hw. destruct hs as [|h0 [|h1 [|h2 [|h3 [|]]]]]; try done. unfold global_headers.
  by rewrite (Hw 0%nat h0 eq_refl : word32 m p 0 = _), (Hw 1%nat h1 eq_refl : word32 m p 1 = _), (Hw 2%nat h2 eq_refl : word32 m p 2 = _), (Hw 3%nat h3 eq_refl : word32 m p 3 = _).
Qed.

Lemma number_of_channels n {A} (l : list (option A)) : length l = n ->
  length (filter (fun ch => in_mask (mask_of l) ch = true) (channels n)) = length (present 0 l).
Proof.
  intros <-. rewrite length_present. unfold channels.
  assert (G : forall l1 l0, l = l0 ++ l1 -> length (filter (fun ch => in_mask (mask_of l) ch = true) (map Z.of_nat (seq (length l0) (length l1)))) = length (filter (fun o => is_Some o) l1)).
  { induction l1 as [|o l1 IH]; intros l0 El; [done|]. cbn [length seq map]. specialize (IH (l0 ++ [o])). rewrite <- app_assoc, length_app, Nat.add_1_r in IH. specialize (IH El).
    rewrite !filter_cons. assert (Em : in_mask (mask_of l) (Z.of_nat (length l0)) = match o with Some _ => true | None => false end) by (rewrite in_mask_of, El, list_lookup_middle by done; by destruct o).
    rewrite Em. destruct o as [a|]; repeat case_decide; cbn [length]; rewrite ?IH; try done; exfalso; eauto using is_Some_None. }
  apply (G l []); done.
Qed.

Lemma packed_app k k' : packed (k ++ k') = packed k ++ packed k'.
Proof. unfold packed. by rewrite map_app, concat_app. Qed.

Lemma packed_middle k i a k' : packed (k ++ (i, a) :: k') = packed k ++ pack a ++ packed k'.
Proof. by rewrite packed_app. Qed.

Lemma packed_snoc k i a : packed (k ++ [(i, a)]) = packed k ++ pack a.
Proof. rewrite packed_middle. cbn. by rewrite app_nil_r. Qed.

Lemma event_size_bound hs : 0 <= GetEventSize hs < 2 ^ 28.
Proof. unfold GetEventSize. change 0xfffffff with (Z.ones 28). rewrite Z.land_ones by lia. apply Z.mod_pos_bound. lia. Qed.

Lemma v1730_decoded m p hs data n v : v1730_ok hs data n -> words_at m p (hs ++ packed (present 0 data) ++ v) ->
  TV1730RawData m p = Ok (V1730 hs (map (fun x => ChannelMeasurement x.1 x.2) (present 0 data))).
Proof.
  intros (Hhs & Hid & H16 & Hmask & Hne & Hsize & Hall) Hw. unfold TV1730RawData. rewrite (global_headers_at m p hs _ Hhs Hw), res_bind_Ok.
  rewrite Hid, Z.eqb_refl. cbn [negb]. unfold number_available_channels. rewrite Hmask, (number_of_channels 16 data H16).
  set (cnt := length (present 0 data)) in *. assert (Hcnt : 0 < Z.of_nat cnt) by (unfold cnt; destruct (present 0 data); [done | cbn; lia]).
  rewrite (proj2 (Z.eqb_neq _ _)) by lia. cbn [negb]. rewrite check_true, res_bind_Ok by done.
  pose proof (event_size_bound hs) as Hb. rewrite Hsize in Hb |- *.
  assert (En : to_int ((4 + Z.of_nat n * Z.of_nat cnt - 4) mod 2 ^ 32 / Z.of_nat cnt) = Z.of_nat n).
  { rewrite Z.mod_small by lia. replace (4 + Z.of_nat n * Z.of_nat cnt - 4) with (Z.of_nat n * Z.of_nat cnt) by lia. rewrite Z.div_mul by lia.
    unfold to_int. rewrite Z.mod_small by nia. lia. }
  rewrite En. set (I := fun (k : list (Z * list Z)) (s : Z * list channel_measurement) => s = (Z.of_nat (4 + length (packed k)), map (fun x => ChannelMeasurement x.1 x.2) k)).
  destruct (over_present (v1730_channel m p (mask_of data) (Z.of_nat n)) data I) with (s := (4, []) : Z * list channel_measurement) as (s' & E & ->).
  - intros i s k Hm ->. unfold v1730_channel. by rewrite Hm.
  - intros i a s k k' Hm Ek ->. unfold v1730_channel. rewrite Hm. rewrite Ek, packed_middle, <- !app_assoc, (app_assoc hs) in Hw. rewrite Ek in Hall. apply Forall_app in Hall as [_ Hall]. destruct (Forall_inv Hall) as [Hs Hlen]. cbn [snd] in *.
    assert (Hev : Nat.Even (length a)) by (exists n; lia). pose proof (length_pack a Hev) as Hp. pose proof (words_at_fuel _ _ _ _ _ Hw) as Hfuel.
    pose proof (read_samples_packed m p a Hev (S (length m)) _ _ Hs ltac:(lia) Hw) as R. rewrite length_app, Hhs in R. replace (length (pack a)) with n in R by lia.
    rewrite R, res_bind_Ok. eexists. split; [done|]. unfold I. rewrite packed_snoc, map_app, length_app.
    f_equal. lia.
  - done.
  - rewrite H16 in E. rewrite E, res_bind_Ok. done.
Qed.

(** C7: a bank of a V1730 that is written from the waveforms of the channels in
    its mask, two samples of 14 bits in a word, is decoded to these waveforms:
    each channel once, in order, with all its samples, whatever lies behind the
    bank. *)
Theorem v1730_decode m p hs data n v : v1730_ok hs data n -> words_at m p (hs ++ packed (present 0 data) ++ v) ->
  TV1730RawData m p = Ok (V1730 hs (map (fun x => ChannelMeasurement x.1 x.2) (present 0 data))).
Proof. apply v1730_decoded. Qed.

(** ** V1720, compressed *)

(** A stretch of a waveform: what it is, and whether it was sent. *)
Abbreviation stretch := (bool * list Z)%type.

Definition stretch_words (s : stretch) : list Z := ((if s.1 then 2 ^ 31 else 0) + Z.of_nat (length (s.2)) / 2) :: (if s.1 then pack s.2 else []).
Definition zle_data (ss : list stretch) : list Z := concat (map stretch_words ss).
Definition zle_bank (l : list (Z * list stretch)) : list Z := concat (map (fun x => 1 + Z.of_nat (length (zle_data x.2)) :: zle_data x.2) l).

Fixpoint pulses (bin : Z) (ss : list stretch) : list zle_pulse :=
  match ss with
  | [] => []
  | (sent, l) :: ss' => (if sent then [ZlePulse bin l] else []) ++ pulses (bin + Z.of_nat (length l)) ss'
  end.
Definition waveform (ss : list stretch) : list Z := concat (map snd ss).

Definition stretch_ok (s : stretch) : Prop := samples_ok 12 s.2 /\ Nat.Even (length s.2) /\ Z.of_nat (length s.2) < 2 ^ 21.

(** The pulses are where the waveform has them. *)
Lemma pulses_in_waveform ss : forall before, Forall (fun z => take (length (pulse_samples z)) (drop (Z.to_nat (fFirstBin z)) (before ++ waveform ss)) = pulse_samples z)
  (pulses (Z.of_nat (length before)) ss).
Proof.
  induction ss as [|[sent l] ss IH]; intros before; [constructor|]. cbn [pulses]. unfold waveform in *. cbn [map concat snd].
  specialize (IH (before ++ l)). rewrite length_app, Nat2Z.inj_add, <- app_assoc in IH. destruct sent; [|exact IH].
  constructor; [|exact IH]. cbn [pulse_samples fFirstBin]. by rewrite Nat2Z.id, drop_app_length, take_app_length.
Qed.

Lemma u32_small x : 0 <= x < 2 ^ 32 -> u32 x = x.
Proof. apply Z.mod_small. Qed.

Lemma zle_words_packed m p : forall l, Nat.Even (length l) -> forall fuel u w v c, samples_ok 12 l -> (length (pack l) <= fuel)%nat -> words_at m p (u ++ w :: pack l ++ v) ->
  Z.of_nat (length u + length (pack l)) < 2 ^ 30 -> 0 <= c -> c + Z.of_nat (length (pack l)) < 2 ^ 32 ->
  zle_words fuel m p (Z.of_nat (length (pack l))) (Z.of_nat (length u)) c = Ok (l, Z.of_nat (length u + length (pack l)), c + Z.of_nat (length (pack l))).
Proof.
  apply (pairs_ind (fun l => forall fuel u w v c, samples_ok 12 l -> (length (pack l) <= fuel)%nat -> words_at m p (u ++ w :: pack l ++ v) ->
    Z.of_nat (length u + length (pack l)) < 2 ^ 30 -> 0 <= c -> c + Z.of_nat (length (pack l)) < 2 ^ 32 ->
    zle_words fuel m p (Z.of_nat (length (pack l))) (Z.of_nat (length u)) c = Ok (l, Z.of_nat (length u + length (pack l)), c + Z.of_nat (length (pack l))))).
  - intros fuel u w v c _ _ _ _ _ _. cbn [pack length]. rewrite Nat.add_0_r, Z.add_0_r. by destruct fuel.
  - intros a b l IH fuel u w v c Hl Hf Hw Hu Hc0 Hc. cbn [pack length] in *. destruct fuel as [|fuel]; [lia|]. cbn [zle_words]. rewrite (proj2 (Z.ltb_lt _ _)) by lia.
    rewrite !u32_small by lia. rewrite (cons_middle w u), app_assoc in Hw. cbn [app] in Hw.
    rewrite (words_at_middle m p (u ++ [w]) (a + 2 ^ 16 * b) (pack l ++ v) _ Hw) by (rewrite length_app; cbn [length]; lia). rewrite res_bind_Ok.
    replace (Z.of_nat (S (length (pack l))) - 1) with (Z.of_nat (length (pack l))) by lia.
    specialize (IH fuel (u ++ [w]) (a + 2 ^ 16 * b) v (c + 1) (Forall_inv_tail (Forall_inv_tail Hl)) ltac:(lia) Hw).
    rewrite length_app in IH. cbn [length] in IH. replace (Z.of_nat (length u) + 1) with (Z.of_nat (length u + 1)) by lia. rewrite IH, res_bind_Ok by lia.
    pose proof (Forall_inv Hl) as Ha. pose proof (Forall_inv (Forall_inv_tail Hl)) as Hb. cbn beta in Ha, Hb.
    change 0xFFF with (Z.ones 12). rewrite (low_sample 12), (high_sample 12) by lia. repeat (f_equal; try lia).
Qed.

Lemma stretch_word (sent : bool) k : 0 <= k < 2 ^ 20 -> Z.testbit ((if sent then 2 ^ 31 else 0) + k) 31 = sent /\ Z.land ((if sent then 2 ^ 31 else 0) + k) 0xFFFFF = k.
Proof.
  intros Hk. split.
  - apply Z.b2z_inj. rewrite Z.testbit_spec' by lia. destruct sent; cbn [Z.b2z].
    + replace (2 ^ 31 + k) with (k + 1 * 2 ^ 31) by lia. rewrite Z.div_add, Z.div_small by lia. done.
    + rewrite Z.div_small by lia. done.
  - change 0xFFFFF with (Z.ones 20). rewrite Z.land_ones by lia. destruct sent.
    + replace (2 ^ 31 + k) with (k + 2 ^ 11 * 2 ^ 20) by lia. rewrite Z.mod_add by lia. by apply Z.mod_small.
    + by apply Z.mod_small.
Qed.

Lemma zle_data_cons s ss : zle_data (s :: ss) = stretch_words s ++ zle_data ss.
Proof. done. Qed.

Lemma zle_channel_stretches m p ss : forall fuel u v c bin, Forall stretch_ok ss -> (length (zle_data ss) <= fuel)%nat -> words_at m p (u ++ zle_data ss ++ v) ->
  Z.of_nat (length u + length (zle_data ss)) < 2 ^ 30 -> 0 <= c -> c + Z.of_nat (length (zle_data ss)) < 2 ^ 32 -> 0 <= bin -> bin + Z.of_nat (length (waveform ss)) < 2 ^ 31 ->
  zle_channel fuel m p (c + Z.of_nat (length (zle_data ss))) (Z.of_nat (length u)) c bin = Ok (pulses bin ss, Z.of_nat (length u + length (zle_data ss))).
Proof.
  induction ss as [|[sent l] ss IH]; intros fuel u v c bin Hss Hf Hw Hu Hc0 Hc Hb0 Hb.
  - cbn [zle_data map concat length pulses] in *. rewrite Z.add_0_r, Nat.add_0_r. destruct fuel; cbn [zle_channel]; by rewrite Z.ltb_irrefl.
  - destruct (Forall_inv Hss) as (Hl & He & Hlen). cbn [snd] in *. pose proof (length_pack l He) as Hp.
    assert (Hk : Z.of_nat (length l) / 2 = Z.of_nat (length (pack l))) by (rewrite <- Hp, Nat2Z.inj_mul, Z.mul_comm; by rewrite Z.div_mul).
    unfold waveform in Hb. cbn [map concat snd] in Hb. rewrite length_app in Hb. fold (waveform ss) in Hb.
    rewrite zle_data_cons in *. unfold stretch_words in *. cbn [fst snd] in *. rewrite Hk in *. destruct (stretch_word sent (Z.of_nat (length (pack l))) ltac:(lia)) as [Hbit Hland].
    set (w := (if sent then 2 ^ 31 else 0) + Z.of_nat (length (pack l))) in *. cbn [app] in *. destruct fuel as [|fuel]; [cbn in Hf; lia|].
    cbn [length] in *. cbn [zle_channel]. rewrite (proj2 (Z.ltb_lt _ _)) by lia. rewrite (words_at_middle m p u w _ _ Hw eq_refl), res_bind_Ok, Hbit, Hland.
    assert (Eb : u32 (bin + Z.of_nat (length (pack l)) * 2) = bin + Z.of_nat (length l)) by (rewrite u32_small; lia).
    rewrite Eb. destruct sent; cbn [app] in *.
    + rewrite <- app_assoc in Hw. rewrite length_app in *. pose proof Hw as Hw'. rewrite (cons_middle w u), app_assoc in Hw'. cbn [app] in Hw'.
      pose proof (words_at_fuel _ _ _ _ _ Hw') as Hm. rewrite (zle_words_packed m p l He (S (length m)) u w _ c Hl ltac:(lia) Hw ltac:(lia) Hc0 ltac:(lia)), res_bind_Ok, res_bind_Ok.
      rewrite !u32_small by lia. rewrite app_assoc in Hw'.
      specialize (IH fuel ((u ++ [w]) ++ pack l) v (c + Z.of_nat (length (pack l)) + 1) (bin + Z.of_nat (length l)) (Forall_inv_tail Hss) ltac:(lia) Hw').
      rewrite !length_app in IH. cbn [length] in IH.
      replace (c + Z.of_nat (S (length (pack l) + length (zle_data ss)))) with (c + Z.of_nat (length (pack l)) + 1 + Z.of_nat (length (zle_data ss))) by lia.
      replace (Z.of_nat (length u + length (pack l)) + 1) with (Z.of_nat (length u + 1 + length (pack l))) by lia. rewrite IH, res_bind_Ok by lia.
      cbn [pulses app]. replace (to_int bin) with bin by (unfold to_int; rewrite Z.mod_small by lia; lia). do 2 f_equal. lia.
    + rewrite res_bind_Ok. rewrite !u32_small by lia. rewrite (cons_middle w u), app_assoc in Hw. cbn [app] in Hw.
      specialize (IH fuel (u ++ [w]) v (c + 1) (bin + Z.of_nat (length l)) (Forall_inv_tail Hss) ltac:(lia) Hw). rewrite length_app in IH. cbn [length] in IH.
      replace (c + Z.of_nat (S (length (zle_data ss)))) with (c + 1 + Z.of_nat (length (zle_data ss))) by lia.
      replace (Z.of_nat (length u) + 1) with (Z.of_nat (length u + 1)) by lia. rewrite IH, res_bind_Ok by lia. cbn [pulses app]. do 2 f_equal. lia.
Qed.

Definition v1720_zle_ok (hs : list Z) (data : list (option (list stretch))) : Prop :=
  length hs = 4%nat /\ IsZLECompressed hs = true /\ length data = 8%nat /\ GetChannelMask hs = mask_of data /\
  Z.of_nat (length (zle_bank (present 0 data))) < 2 ^ 30 - 4 /\
  Forall (fun x => Forall stretch_ok x.2 /\ Z.of_nat (length (waveform x.2)) < 2 ^ 31) (present 0 data).

Lemma zle_bank_middle k i a k' : zle_bank (k ++ (i, a) :: k') = zle_bank k ++ ((1 + Z.of_nat (length (zle_data a))) :: zle_data a) ++ zle_bank k'.
Proof. unfold zle_bank. by rewrite map_app, concat_app. Qed.

Lemma zle_bank_snoc k i a : zle_bank (k ++ [(i, a)]) = zle_bank k ++ (1 + Z.of_nat (length (zle_data a))) :: zle_data a.
Proof. rewrite zle_bank_middle. cbn. by rewrite app_nil_r. Qed.

(** C8: a compressed bank of a V1720, in which each channel is a sequence of
    stretches that were sent or left out, is decoded to the stretches that were
    sent; the first bin of each is its place in the waveform. *)
Theorem v1720_zle_decode m p hs data v : v1720_zle_ok hs data -> words_at m p (hs ++ zle_bank (present 0 data) ++ v) ->
  TV1720RawData m p = Ok (V1720 hs (map (fun x => V1720Channel x.1 true (pulses 0 x.2) []) (present 0 data))) /\
  Forall (fun x => Forall (fun z => take (length (pulse_samples z)) (drop (Z.to_nat (fFirstBin z)) (waveform x.2)) = pulse_samples z) (pulses 0 x.2)) (present 0 data).
Proof.
  intros (Hhs & Hzle & H8 & Hmask & Hlen & Hall) Hw.
  split; [|apply Forall_forall; intros x _; apply (pulses_in_waveform x.2 [])].
  unfold TV1720RawData. rewrite (global_headers_at m p hs _ Hhs Hw), res_bind_Ok. rewrite Hzle. unfold HandlZLECompressedData.
  assert (Hw1 : word32 m p 1 = Ok (header hs 1)).
  { destruct hs as [|h0 [|h1 [|h2 [|h3 [|]]]]]; try done. exact (Hw 1%nat h1 eq_refl). }
  rewrite Hw1, res_bind_Ok. fold (GetChannelMask hs). rewrite Hmask, Hzle.
  set (I := fun (k : list (Z * list stretch)) (s : Z * list v1720_channel) =>
    s = (Z.of_nat (4 + length (zle_bank k)), map (fun x => V1720Channel x.1 true (pulses 0 x.2) []) k)).
  destruct (over_present (zle_step m p (mask_of data) true) data I) with (s := (4, []) : Z * list v1720_channel) as (s' & E & ->).
  - intros i s k Hm ->. unfold zle_step. by rewrite Hm.
  - intros i a s k k' Hm Ek ->. unfold zle_step. rewrite Hm. rewrite Ek, zle_bank_middle, <- !app_assoc, (app_assoc hs) in Hw. rewrite Ek, zle_bank_middle, !length_app in Hlen.
    rewrite Ek in Hall. apply Forall_app in Hall as [_ Hall]. destruct (Forall_inv Hall) as [Hs Hwf]. cbn [snd app length] in *.
    rewrite (words_at_middle m p (hs ++ zle_bank k) _ _ _ Hw) by (by rewrite length_app, Hhs). rewrite res_bind_Ok.
    rewrite cons_middle, app_assoc in Hw. pose proof (words_at_fuel _ _ _ _ _ Hw) as Hfuel.
    pose proof (zle_channel_stretches m p a (S (length m)) _ _ 1 0 Hs ltac:(lia) Hw) as R. rewrite !length_app, Hhs in R. cbn [length] in R.
    rewrite u32_small by lia. replace (Z.of_nat (4 + length (zle_bank k)) + 1) with (Z.of_nat (4 + length (zle_bank k) + 1)) by lia.
    rewrite R, res_bind_Ok by lia. eexists. split; [done|]. unfold I. rewrite zle_bank_snoc, map_app, length_app. f_equal. cbn [length]. lia.
  - done.
  - rewrite H8 in E. rewrite E, res_bind_Ok. done.
Qed.

(** ** V1720, not compressed *)

Lemma read_samples12_packed m p : forall l, Nat.Even (length l) -> forall fuel u v, samples_ok 12 l -> (length (pack l) <= fuel)%nat -> words_at m p (u ++ pack l ++ v) ->
  Z.of_nat (length u + length (pack l)) < 2 ^ 30 ->
  read_samples12 fuel m p (Z.of_nat (length (pack l))) (Z.of_nat (length u)) = Ok (l, Z.of_nat (length u + length (pack l))).
Proof.
  apply (pairs_ind (fun l => forall fuel u v, samples_ok 12 l -> (length (pack l) <= fuel)%nat -> words_at m p (u ++ pack l ++ v) -> Z.of_nat (length u + length (pack l)) < 2 ^ 30 ->
    read_samples12 fuel m p (Z.of_nat (length (pack l))) (Z.of_nat (length u)) = Ok (l, Z.of_nat (length u + length (pack l))))).
  - intros fuel u v _ _ _ _. cbn [pack length]. rewrite Nat.add_0_r. by destruct fuel.
  - intros a b l IH fuel u v Hl Hf Hw Hu. cbn [pack length] in *. destruct fuel as [|fuel]; [lia|]. cbn [read_samples12]. rewrite (proj2 (Z.ltb_lt _ _)) by lia.
    rewrite (words_at_middle m p u (a + 2 ^ 16 * b) (pack l ++ v) _ Hw eq_refl), res_bind_Ok, u32_small by lia.
    replace (Z.of_nat (S (length (pack l))) - 1) with (Z.of_nat (length (pack l))) by lia.
    specialize (IH fuel (u ++ [a + 2 ^ 16 * b]) v (Forall_inv_tail (Forall_inv_tail Hl)) ltac:(lia)). rewrite <- app_assoc in IH. specialize (IH Hw).
    rewrite length_app in IH. cbn [length] in IH. replace (Z.of_nat (length u) + 1) with (Z.of_nat (length u + 1)) by lia. rewrite IH, res_bind_Ok by lia.
    pose proof (Forall_inv Hl) as Ha. pose proof (Forall_inv (Forall_inv_tail Hl)) as Hb. cbn beta in Ha, Hb.
    change 0xFFF with (Z.ones 12). rewrite (low_sample 12), (high_sample 12) by lia. do 2 f_equal. lia.
Qed.

(** Without a channel in its mask a bank is divided by zero. *)
Lemma v1730_empty_mask m p hs v : length hs = 4%nat -> Z.land (header hs 0) 0xf0000000 = 0xa0000000 -> GetChMask hs = 0 -> words_at m p (hs ++ v) ->
  TV1730RawData m p = Crash DivideByZero.
Proof.
  intros Hhs Hid Hm Hw. unfold TV1730RawData. rewrite (global_headers_at m p hs _ Hhs Hw), res_bind_Ok, Hid, Z.eqb_refl, Hm. reflexivity.
Qed.

Definition v1720_ok (hs : list Z) (data : waveforms) (n : nat) : Prop :=
  length hs = 4%nat /\ IsZLECompressed hs = false /\ length data = 8%nat /\ GetChannelMask hs = mask_of data /\ present 0 data <> [] /\
  v1720_GetEventSize hs = 4 + Z.of_nat n * Z.of_nat (length (present 0 data)) /\
  Forall (fun x => samples_ok 12 x.2 /\ length x.2 = (2 * n)%nat) (present 0 data).

Lemma length_packed n l : Forall (fun x => samples_ok 12 x.2 /\ length x.2 = (2 * n)%nat) l -> length (packed l) = (n * length l)%nat.
Proof.
  induction l as [|[i a] l IH]; intros Hl; [cbn; lia|]. unfold packed. cbn [map concat length snd]. rewrite length_app. fold (packed l). rewrite (IH (Forall_inv_tail Hl)).
  destruct (Forall_inv Hl) as [_ Ha]. cbn [snd] in Ha. pose proof (length_pack a ltac:(exists n; lia)). lia.
Qed.

(** A bank that is not compressed is decoded to a waveform for each of the eight
    channels, empty for those that are not in the mask. *)
Lemma v1720_decode m p hs data n v : v1720_ok hs data n -> words_at m p (hs ++ packed (present 0 data) ++ v) ->
  TV1720RawData m p = Ok (V1720 hs (imap (fun i o => V1720Channel (Z.of_nat i) false [] (default [] o)) data)).
Proof.
  intros (Hhs & Hzle & H8 & Hmask & Hne & Hsize & Hall) Hw. unfold TV1720RawData. rewrite (global_headers_at m p hs _ Hhs Hw), res_bind_Ok, Hzle. unfold HandlUncompressedData.
  assert (Hw1 : word32 m p 1 = Ok (header hs 1)).
  { destruct hs as [|h0 [|h1 [|h2 [|h3 [|]]]]]; try done. exact (Hw 1%nat h1 eq_refl). }
  rewrite Hw1, res_bind_Ok. fold (GetChannelMask hs). rewrite Hmask, Hzle, (number_of_channels 8 data H8).
  pose proof (length_packed n _ Hall) as Hlen. set (cnt := length (present 0 data)) in *. assert (Hcnt : 0 < Z.of_nat cnt) by (unfold cnt; destruct (present 0 data); [done | cbn; lia]).
  rewrite (proj2 (Z.eqb_neq _ _)) by lia. cbn [negb]. rewrite check_true, res_bind_Ok by done.
  assert (Hb : 0 <= v1720_GetEventSize hs < 2 ^ 24) by (unfold v1720_GetEventSize; change 0xffffff with (Z.ones 24); rewrite Z.land_ones by lia; apply Z.mod_pos_bound; lia).
  rewrite Hsize in *. rewrite u32_small by lia. replace (4 + Z.of_nat n * Z.of_nat cnt - 4) with (Z.of_nat n * Z.of_nat cnt) by lia. rewrite Z.div_mul by lia.
  replace (to_int (Z.of_nat n)) with (Z.of_nat n) by (unfold to_int; rewrite Z.mod_small by nia; lia).
  set (I := fun (l : waveforms) (s : Z * list v1720_channel) => s = (Z.of_nat (4 + length (packed (present 0 l))), imap (fun i o => V1720Channel (Z.of_nat i) false [] (default [] o)) l)).
  destruct (over_index (uncompressed_step m p (mask_of data) (Z.of_nat n) false) data I) with (s := (4, []) : Z * list v1720_channel) as (s' & E & ->); [| done | by rewrite <- H8, E, res_bind_Ok].
  intros l0 o l1 s El ->. unfold uncompressed_step.
  assert (Em : in_mask (mask_of data) (Z.of_nat (length l0)) = match o with Some _ => true | None => false end) by (rewrite in_mask_of, El, list_lookup_middle by done; by destruct o).
  rewrite Em.
  assert (Ep : present 0 (l0 ++ [o]) = present 0 l0 ++ match o with Some a => [(Z.of_nat (length l0), a)] | None => [] end) by (rewrite present_app, Z.add_0_l; by destruct o).
  unfold I. rewrite Ep, imap_app. cbn [imap]. rewrite Nat.add_0_r. destruct o as [a|]; cbn [negb default]; [|rewrite app_nil_r; eauto].
  rewrite El, present_app, Z.add_0_l in Hall, Hw, Hlen. cbn [present] in Hall, Hw, Hlen. rewrite packed_middle in *. apply Forall_app in Hall as [_ Hall]. destruct (Forall_inv Hall) as [Hs Hl]. cbn [snd] in *.
  rewrite <- !app_assoc, (app_assoc hs) in Hw. pose proof (length_pack a ltac:(exists n; lia)) as Hp. pose proof (words_at_fuel _ _ _ _ _ Hw) as Hfuel. rewrite !length_app in Hlen.
  pose proof (read_samples12_packed m p a ltac:(exists n; lia) (S (length m)) _ _ Hs ltac:(lia) Hw) as R. rewrite length_app, Hhs in R. assert (Hn : length (pack a) = n) by lia. rewrite Hn in *.
  rewrite R, res_bind_Ok by nia. eexists. split; [done|]. change (packed []) with (@nil Z). by rewrite app_nil_r, length_app, Hn, Nat.add_assoc.
Qed.

(** ** BRB *)

(** One moment in the four channels of an ADC, and its words in the packet; the
    polarity of channels 1 and 3 is the other way round. *)
Abbreviation quad := (Z * Z * Z * Z)%type.
Definition quad_words (q : quad) : list Z := let '(a, b, c, d) := q in [16 * c; 16 * (4096 - d); 16 * a; 16 * (4096 - b)].
Definition quad_ok (q : quad) : Prop := let '(a, b, c, d) := q in 0 <= a < 4096 /\ 0 < b <= 4096 /\ 0 <= c < 4096 /\ 0 < d <= 4096.

Definition first_of (q : quad) : Z := q.1.1.1.
Definition second_of (q : quad) : Z := q.1.1.2.
Definition third_of (q : quad) : Z := q.1.2.
Definition fourth_of (q : quad) : Z := q.2.
Definition quad_waveforms (qs : list quad) : list (list Z) := [map first_of qs; map second_of qs; map third_of qs; map fourth_of qs].

(** A packet: 21 words of header and 128 moments. *)
Abbreviation packet := (list Z * list quad)%type.
Definition packet_words (x : packet) : list Z := x.1 ++ concat (map quad_words x.2).
Definition packet_ok (x : packet) : Prop := length x.1 = 21%nat /\ length x.2 = 128%nat /\ Forall quad_ok x.2.
Definition adc_words (ps : list packet) : list Z := concat (map packet_words ps).
Definition adc_ok (ps : list packet) : Prop := length ps = 8%nat /\ Forall packet_ok ps.
Definition adc_quads (ps : list packet) : list quad := concat (map snd ps).

(** The words that are dealt out to the channels. *)
Definition put (i : nat) (w : Z) (samples : list (list Z)) : list (list Z) :=
  let ch := nth (i mod 4) [2; 3; 0; 1] 0 in
  let data := if (ch =? 1) || (ch =? 3) then 4096 - Z.shiftr w 4 else Z.shiftr w 4 in
  alter (fun l => l ++ [data]) (Z.to_nat ch) samples.
Fixpoint deal (i : nat) (ws : list Z) (samples : list (list Z)) : list (list Z) :=
  match ws with [] => samples | w :: ws' => deal (S i) ws' (put i w samples) end.

Lemma deal_snoc ws : forall i w s, deal i (ws ++ [w]) s = put (i + length ws) w (deal i ws s).
Proof. induction ws as [|v ws IH]; intros i w s; cbn [app deal length]; [by rewrite Nat.add_0_r | rewrite IH; f_equal; lia]. Qed.

Definition add_quads (samples : list (list Z)) (qs : list quad) : list (list Z) := zip_with app samples (quad_waveforms qs).

Lemma deal_quads qs : forall k s0 s1 s2 s3, Forall quad_ok qs -> deal (4 * k) (concat (map quad_words qs)) [s0; s1; s2; s3] = add_quads [s0; s1; s2; s3] qs.
Proof.
  induction qs as [|[[[a b] c] d] qs IH]; intros k s0 s1 s2 s3 Hq.
  - cbn. by rewrite !app_nil_r.
  - destruct (Forall_inv Hq) as (Ha & Hb & Hc & Hd). cbn [map concat quad_words app deal].
    assert (M : forall j, (j < 4)%nat -> ((j + 4 * k) mod 4 = j)%nat) by (intros j Hj; rewrite (Nat.mul_comm 4), Nat.Div0.mod_add; by apply Nat.mod_small).
    assert (Sh : forall x, Z.shiftr (16 * x) 4 = x) by (intros x; rewrite Z.shiftr_div_pow2 by lia; rewrite Z.mul_comm; by rewrite Z.div_mul).
    pose proof (M 0%nat ltac:(lia)) as M0. pose proof (M 1%nat ltac:(lia)) as M1. pose proof (M 2%nat ltac:(lia)) as M2. pose proof (M 3%nat ltac:(lia)) as M3.
    cbn [Nat.add] in M0, M1, M2, M3. unfold put. rewrite M0, M1, M2, M3.
    cbn [nth Z.eqb Pos.eqb orb]. rewrite !Sh. replace (4096 - (4096 - d)) with d by lia. replace (4096 - (4096 - b)) with b by lia.
    change (Z.to_nat 2) with 2%nat. change (Z.to_nat 3) with 3%nat. change (Z.to_nat 0) with 0%nat. change (Z.to_nat 1) with 1%nat. cbn [alter list_alter].
    replace (S (S (S (S (4 * k))))) with (4 * S k)%nat by lia. rewrite (IH (S k) _ _ _ _ (Forall_inv_tail Hq)).
    unfold add_quads, quad_waveforms. cbn [map zip_with]. by rewrite <- !app_assoc.
Qed.

Lemma length_packet x : packet_ok x -> length (packet_words x) = 533%nat.
Proof.
  intros (H1 & H2 & _). unfold packet_words. rewrite length_app, H1. assert (E : forall qs, length (concat (map quad_words qs)) = (4 * length qs)%nat).
  { induction qs as [|[[[a b] c] d] qs IH]; [done|]. cbn [map concat quad_words]. rewrite length_app, IH. cbn [length]. lia. }
  rewrite E, H2. lia.
Qed.

Lemma words16_middle m p u w v i : words16_at m p (u ++ w :: v) -> Z.of_nat (length u) = i -> word16 m p i = Ok w.
Proof. intros H <-. apply H. by rewrite list_lookup_middle. Qed.

Lemma words16_in m p ws i : words16_at m p ws -> 0 <= i < Z.of_nat (length ws) -> exists w, word16 m p i = Ok w.
Proof.
  intros H Hi. destruct (lookup_lt_is_Some_2 ws (Z.to_nat i) ltac:(lia)) as [w Hw]. exists w. specialize (H _ _ Hw). by rewrite Z2Nat.id in H by lia.
Qed.

Lemma brb_sample_put m p istart i w s : word16 m p (Z.of_nat i + 21 + istart) = Ok w -> brb_sample m p istart (Z.of_nat i) s = Ok (put i w s).
Proof.
  intros Hw. unfold brb_sample, put. rewrite Hw.
  assert (Em : Z.to_nat (Z.of_nat i mod 4) = (i mod 4)%nat) by (pose proof (Nat2Z.inj_mod i 4); lia). rewrite Em. pose proof (Nat.mod_upper_bound i 4 ltac:(lia)). assert (E : load chan_map (i mod 4) = Ok (nth (i mod 4) [2; 3; 0; 1] 0)).
  { destruct (i mod 4)%nat as [|[|[|[|]]]]; done || lia. }
  rewrite E, !res_bind_Ok. done.
Qed.

Lemma brb_packet_deal m p adc pk x u v s0 s1 s2 s3 : packet_ok x -> words16_at m p (u ++ packet_words x ++ v) -> Z.of_nat (length u) = (adc * 8 + pk) * BRB_PACKET ->
  brb_packet m p adc pk [s0; s1; s2; s3] = Ok (add_quads [s0; s1; s2; s3] x.2).
Proof.
  intros Hx Hw Hu. pose proof (length_packet x Hx) as Hlen. destruct Hx as (Hh & Hq & Hok). unfold brb_packet. rewrite <- Hu.
  assert (R : forall k, 0 <= k < 533 -> exists w, word16 m p (Z.of_nat (length u) + k) = Ok w) by (intros k Hk; apply (words16_in _ _ _ _ Hw); rewrite !length_app; lia).
  destruct (R 4 ltac:(lia)) as [w4 ->], (R 2 ltac:(lia)) as [w2 ->], (R 19 ltac:(lia)) as [w19 ->], (R 20 ltac:(lia)) as [w20 ->]. rewrite !res_bind_Ok. clear R.
  unfold packet_words in *. rewrite length_app in Hlen. set (ws := concat (map quad_words x.2)) in *.
  destruct (over_index (brb_sample m p (Z.of_nat (length u))) ws (fun l0 s => s = deal 0 l0 [s0; s1; s2; s3])) with (s := [s0; s1; s2; s3]) as (s' & E & ->); [|done|].
  - intros l0 w l1 s El ->. eexists. split; [|by rewrite deal_snoc]. apply brb_sample_put. rewrite El in Hw.
    rewrite <- !app_assoc, (app_assoc u), (app_assoc (u ++ x.1)) in Hw. cbn [app] in Hw. apply (words16_middle m p _ w _ _ Hw). rewrite !length_app. lia.
  - replace (length ws) with 512%nat in E by lia. rewrite E. f_equal. by apply (deal_quads x.2 0).
Qed.

Lemma add_quads_app s0 s1 s2 s3 q q' : add_quads (add_quads [s0; s1; s2; s3] q) q' = add_quads [s0; s1; s2; s3] (q ++ q').
Proof. unfold add_quads, quad_waveforms. cbn [zip_with]. by rewrite !map_app, !app_assoc. Qed.

Lemma length_packets l : Forall packet_ok l -> length (concat (map packet_words l)) = (533 * length l)%nat.
Proof.
  induction l as [|x l IH]; intros Hl; [done|]. cbn [map concat length]. rewrite length_app, (IH (Forall_inv_tail Hl)), (length_packet x (Forall_inv Hl)). lia.
Qed.

Lemma length_adc ps : adc_ok ps -> length (adc_words ps) = 4264%nat.
Proof.
  intros (H8 & Hall). unfold adc_words. rewrite (length_packets ps Hall), H8. lia.
Qed.

Definition adc_channels (adc : nat) (ps : list packet) : list channel_measurement :=
  imap (fun ach s => ChannelMeasurement (Z.of_nat adc * 4 + Z.of_nat ach) s) (quad_waveforms (adc_quads ps)).

Lemma brb_adc_packets m p adc ps u v l : adc_ok ps -> words16_at m p (u ++ adc_words ps ++ v) -> Z.of_nat (length u) = Z.of_nat adc * 8 * BRB_PACKET ->
  brb_adc m p (Z.of_nat adc) l = Ok (l ++ adc_channels adc ps).
Proof.
  intros (H8 & Hall) Hw Hu. unfold brb_adc.
  destruct (over_index (brb_packet m p (Z.of_nat adc)) ps (fun l0 s => s = add_quads [[]; []; []; []] (adc_quads l0))) with (s := [[]; []; []; []] : list (list Z)) as (s' & E & ->); [|done|].
  - intros l0 x l1 s El ->. rewrite El in Hw, Hall. apply Forall_app in Hall as [H0 H1]. unfold adc_words in Hw. rewrite map_app, concat_app in Hw. cbn [map concat] in Hw.
    rewrite <- !app_assoc, (app_assoc u) in Hw. eexists. split.
    + unfold add_quads at 1. cbn [quad_waveforms zip_with]. apply (brb_packet_deal m p _ _ x _ _ _ _ _ _ (Forall_inv H1) Hw). rewrite length_app, Nat2Z.inj_add, Hu.
      rewrite (length_packets l0 H0). unfold BRB_PACKET. lia.
    + unfold adc_quads. rewrite map_app, concat_app. cbn [map concat]. rewrite app_nil_r, <- add_quads_app. done.
  - rewrite H8 in E. rewrite E, res_bind_Ok. done.
Qed.

Definition brb_words (adcs : list (list packet)) : list Z := concat (map adc_words adcs).

Lemma length_adcs l : Forall adc_ok l -> length (brb_words l) = (4264 * length l)%nat.
Proof.
  induction l as [|x l IH]; intros Hl; [done|]. unfold brb_words in *. cbn [map concat length]. rewrite length_app, (IH (Forall_inv_tail Hl)), (length_adc x (Forall_inv Hl)). lia.
Qed.

Lemma brb_decoded m p bklen adcs v : Forall adc_ok adcs -> words16_at m p (brb_words adcs ++ v) ->
  BRB_PACKET * (8 * Z.of_nat (length adcs) + 1) <= bklen < BRB_PACKET * (8 * Z.of_nat (length adcs) + 9) ->
  TBRBRawData m p bklen = Ok (concat (imap adc_channels adcs)).
Proof.
  intros Hall Hw Hb. unfold TBRBRawData.
  assert (En : Z.to_nat (Z.quot (Z.quot bklen BRB_PACKET - 1) 8) = length adcs).
  { unfold BRB_PACKET in *. rewrite (Z.quot_div_nonneg bklen) by lia. pose proof (Z.div_le_lower_bound bklen 533 (8 * Z.of_nat (length adcs) + 1) ltac:(lia) ltac:(lia)).
    pose proof (Z.div_lt_upper_bound bklen 533 (8 * Z.of_nat (length adcs) + 9) ltac:(lia) ltac:(lia)). rewrite Z.quot_div_nonneg by lia.
    enough ((bklen / 533 - 1) / 8 = Z.of_nat (length adcs)) by lia. symmetry. apply (Z.div_unique _ 8 _ (bklen / 533 - 1 - 8 * Z.of_nat (length adcs))); lia. }
  rewrite En. destruct (over_index (brb_adc m p) adcs (fun l0 l => l = concat (imap adc_channels l0))) with (s := [] : list channel_measurement) as (s' & E & ->); [|done|exact E].
  intros l0 ps l1 l El ->. rewrite El in Hw, Hall. apply Forall_app in Hall as [H0 H1]. unfold brb_words in Hw. rewrite map_app, concat_app in Hw. cbn [map concat] in Hw. rewrite <- !app_assoc in Hw.
  eexists. split.
  - apply (brb_adc_packets m p _ ps _ _ _ (Forall_inv H1) Hw). fold (brb_words l0). rewrite (length_adcs l0 H0). unfold BRB_PACKET. lia.
  - rewrite imap_app, concat_app. cbn [imap concat]. by rewrite Nat.add_0_r, app_nil_r.
Qed.

(** C9: a bank of the BRB that holds eight packets for each ADC, and at least one
    packet behind them but not another eight, is decoded to four waveforms for each
    ADC: the samples of the channel in all its packets, dealt out of the words and with the
    polarity of channels 1 and 3 turned. *)
Theorem brb_decode m p bklen adcs v : Forall adc_ok adcs -> words16_at m p (brb_words adcs ++ v) ->
  BRB_PACKET * (8 * Z.of_nat (length adcs) + 1) <= bklen < BRB_PACKET * (8 * Z.of_nat (length adcs) + 9) ->
  TBRBRawData m p bklen = Ok (concat (imap adc_channels adcs)).
Proof. apply brb_decoded. Qed.

(** ** Witnesses *)

Definition demo_headers : list Z := [0xa0000008; 0x00000005; 0x00000007; 12345].
Definition demo_data : waveforms := [Some [1; 2; 3; 16383]; None; Some [0; 5; 16383; 7]] ++ replicate 13 None.
Definition demo_bytes : list Z := concat (map (le_bytes 4) (demo_headers ++ packed (present 0 demo_data))).

Lemma v1730_decode_witness : TV1730RawData ([1; 2; 3] ++ demo_bytes ++ [9]) 3 = Ok (V1730 demo_headers [ChannelMeasurement 0 [1; 2; 3; 16383]; ChannelMeasurement 2 [0; 5; 16383; 7]]).
Proof.
  apply (v1730_decode _ 3 demo_headers demo_data 2 []).
  - repeat split; try (vm_compute; congruence). repeat constructor; vm_compute; congruence.
  - rewrite app_nil_r. apply (words_at_bytes [1; 2; 3] _ [9]). refine (bool_decide_unpack _ _); vm_compute; exact I.
Defined.

Definition zle_headers : list Z := [0xa0000000; 0x01000082; 1; 2].
Definition zle_demo : list (option (list stretch)) := [None; Some [(false, [7; 7; 7; 7]); (true, [1; 4095]); (false, [7; 7]); (true, [3; 4; 5; 6])]] ++ replicate 5 None ++ [Some []].

Lemma v1720_zle_decode_witness :
  TV1720RawData (concat (map (le_bytes 4) (zle_headers ++ zle_bank (present 0 zle_demo)))) 0 =
    Ok (V1720 zle_headers [V1720Channel 1 true [ZlePulse 4 [1; 4095]; ZlePulse 8 [3; 4; 5; 6]] []; V1720Channel 7 true [] []]).
Proof.
  refine (proj1 (v1720_zle_decode _ 0 zle_headers zle_demo [] _ _)).
  - assert (B : forall ss, forallb (fun s => forallb (fun a => (0 <=? a) && (a <? 4096)) s.2 && Nat.even (length s.2) && (length s.2 <? 100)%nat) ss = true -> Forall stretch_ok ss).
    { intros ss Hs. apply Forall_forall. intros s Hin. apply forallb_forall with (x := s) in Hs; [|done]. apply andb_true_iff in Hs as [Hs Hl]. apply andb_true_iff in Hs as [Hs He].
      apply Nat.ltb_lt in Hl. split; [|split; [by apply Nat.even_spec | lia]]. apply Forall_forall. intros a Ha. apply forallb_forall with (x := a) in Hs; [bprop; lia | done]. }
    split_and!; try done. constructor; [|constructor; [|constructor]]; (split; [apply B; reflexivity | vm_compute; reflexivity]).
  - rewrite app_nil_r. pose proof (words_at_bytes [] (zle_headers ++ zle_bank (present 0 zle_demo)) []) as W. rewrite app_nil_r in W. apply W. refine (bool_decide_unpack _ _); vm_compute; exact I.
Defined.

Definition demo_packet (k : Z) : packet := (replicate 21 7, map (fun i => (Z.of_nat i, 4096, k, 1 + Z.of_nat i)) (seq 0 128)).
Definition demo_adc : list packet := map demo_packet [0; 1; 2; 3; 4; 5; 6; 7].

Lemma demo_adc_ok : adc_ok demo_adc.
Proof.
  assert (K : forall k, 0 <= k < 8 -> packet_ok (demo_packet k)).
  { intros k Hk. split; [done|]. split; [done|]. apply Forall_forall. intros q Hq. apply in_map_iff in Hq as (i & <- & Hi). apply in_seq in Hi. cbn. lia. }
  split; [done|]. unfold demo_adc. do 8 (constructor; [apply K; lia|]). constructor.
Qed.

Lemma brb_decode_witness : TBRBRawData (concat (map (le_bytes 2) (brb_words [demo_adc]))) 0 (533 * 9) = Ok (concat (imap adc_channels [demo_adc])).
Proof.
  apply (brb_decode _ 0 (533 * 9) [demo_adc] []).
  - constructor; [exact demo_adc_ok | constructor].
  - rewrite app_nil_r. pose proof (words16_at_bytes [] (brb_words [demo_adc]) []) as W. rewrite app_nil_r in W. apply W. refine (bool_decide_unpack _ _); vm_compute; exact I.
  - unfold BRB_PACKET. cbn [length]. lia.
Defined.

(** A bank of the digitizer is read as far as its headers say, whatever its
    length is. *)
Example v1730_reads_behind : TV1730RawData (concat (map (le_bytes 4) demo_headers)) 0 = Crash OutOfBounds.
Proof. reflexivity. Qed.
