(* ===== verification/DataContainer.v ===== *)
(** * Decoded banks ([rootana/libAnalyzer/TDataContainer], [TGenericData])

    The container of an event finds a bank, decodes it into an object of the class
    that is asked for, and keeps the object until the event is done.  The end of the file
    has the conversions between numbers that the converters use. *)

From S2P Require Import Prelude MidasEvent Digitizer.

(** ** Objects *)

(** The classes that the converters ask for; [TGenericData] is the base of the
    others. *)
Inductive bank_class := TGenericData | TV1730Raw | TBRBRaw.
#[export] Instance bank_class_dec : EqDecision bank_class.
Proof. solve_decision. Defined.

Inductive bank_contents := Generic | Raw1730 (d : v1730) | RawBrb (l : list channel_measurement).

(** Names are without their final 0; the data stay in the block of the event. *)
Record bank_object := BankObject { fBankName : list Z; fSize : Z; fBankType : Z; fBankData : Z; contents : bank_contents }.

Definition class_of (b : bank_object) : bank_class :=
  match contents b with Generic => TGenericData | Raw1730 _ => TV1730Raw | RawBrb _ => TBRBRaw end.

(** [dynamic_cast] *)
Definition castable (T : bank_class) (b : bank_object) : bool := bool_decide (T = TGenericData) || bool_decide (T = class_of b).

(** [new T(bklen,bktype,name, ptr)] *)
Definition construct (T : bank_class) (m : list Z) (name : list Z) (f : found) : res bank_object :=
  c ← match T with
      | TGenericData => Ok Generic
      | TV1730Raw => d ← TV1730RawData m (pdata f); Ok (Raw1730 d)
      | TBRBRaw => l ← TBRBRawData m (pdata f) (bklen f); Ok (RawBrb l)
      end;
  Ok (BankObject name (bklen f) (bktype f) (pdata f) c).

(** ** The container *)

Record container := Container {
  fMidasEventPointer : option midas_event;
  fOwnMidasEventMemory : bool;
  fEventDataList : list bank_object
}.

Definition new_container : container := Container None false [].

(** The copy owns a copy of the event. *)
Definition copy_container (block : option (list Z)) (c : container) : res container :=
  match fMidasEventPointer c with
  | None => Crash Uncaught
  | Some e => e ← Copy block e; Ok (Container (Some e) true [])
  end.

Definition GetMidasData (c : container) : res midas_event :=
  match fMidasEventPointer c with None => Crash Uncaught | Some e => Ok e end.
Definition CleanupEvent (c : container) : container := Container (fMidasEventPointer c) (fOwnMidasEventMemory c) [].
Definition SetMidasEventPointer (e : midas_event) (c : container) : res container :=
  if fOwnMidasEventMemory c && bool_decide (is_Some (fMidasEventPointer c)) then Crash Uncaught
  else Ok (Container (Some e) false (fEventDataList c)).

Definition GetEventData (T : bank_class) (name : list Z) (c : container) : res (option bank_object * container) :=
  match list_find (fun b => fBankName b = name) (fEventDataList c) with
  | Some (_, b) => if castable T b then Ok (Some b, c) else Crash Uncaught
  | None =>
      e ← GetMidasData c;
      m ← event_data e;
      f ← FindBank m (name ++ [0]);
      match f with
      | None => Ok (None, c)
      | Some f => b ← construct T m name f; Ok (Some b, Container (fMidasEventPointer c) (fOwnMidasEventMemory c) (fEventDataList c ++ [b]))
      end
  end.

(** Number [i] of a bank, read through a pointer to [double] or [float], as the
    bits that are there. *)
Definition bank_word (n : nat) (b : bank_object) (i : Z) (c : container) : res Z :=
  e ← GetMidasData c; m ← event_data e; load_word n m (fBankData b + Z.of_nat n * i).
Definition bank_double := bank_word 8.
Definition bank_float := bank_word 4.

(** ** Numbers

    A [double] is its 64 bits, a [float] its 32 bits. *)

(** An integer that a [double] holds exactly; only such are converted. *)
Definition double_of_int (n : Z) : Z :=
  if n =? 0 then 0
  else
    let a := Z.abs n in
    let k := Z.log2 a in
    (if n <? 0 then 2 ^ 63 else 0) + (k + 1023) * 2 ^ 52 + (a - 2 ^ k) * 2 ^ (52 - k).

(** Every [float] is a [double]; one that is not a number becomes a quiet one. *)
Definition double_of_float (w : Z) : Z :=
  let s := Z.shiftr w 31 * 2 ^ 63 in
  let e := Z.land (Z.shiftr w 23) 0xff in
  let f := Z.land w 0x7fffff in
  if e =? 255 then s + 2047 * 2 ^ 52 + (if f =? 0 then 0 else Z.lor (f * 2 ^ 29) (2 ^ 51))
  else if e =? 0 then
    if f =? 0 then s
    else let k := Z.log2 f in s + (k + 874) * 2 ^ 52 + (f - 2 ^ k) * 2 ^ (52 - k)
  else s + (e + 896) * 2 ^ 52 + f * 2 ^ 29.

(** [(int)] of a [double]: its integral part, which must be an [int]. *)
Definition int_of_double (w : Z) : res Z :=
  let e := Z.land (Z.shiftr w 52) 0x7ff in
  let m := 2 ^ 52 + Z.land w (2 ^ 52 - 1) in
  if e <? 1023 then Ok 0
  else
    _ ← check (e <? 1023 + 32) IntOverflow;
    let a := Z.shiftr m (1075 - e) in
    let n := if Z.testbit w 63 then - a else a in
    _ ← check ((- 2 ^ 31 <=? n) && (n <? 2 ^ 31)) IntOverflow;
    Ok n.

Example doubles : double_of_int 1 = 0x3ff0000000000000 /\ double_of_int 9999999 = 0x416312CFE0000000 /\ double_of_int (-2) = 0xc000000000000000 /\
  double_of_float 0x41c80000 = 0x4039000000000000 /\ double_of_float 1 = 0x36a0000000000000 /\ double_of_float 0xff800000 = 0xfff0000000000000.
Proof. by vm_compute. Qed.
Example ints : int_of_double 0x4039800000000000 = Ok 25 /\ int_of_double 0xc0f86a0000000000 = Ok (-100000) /\ int_of_double 0x41e0000000000000 = Crash IntOverflow /\
  int_of_double 0xc1e0000000000000 = Ok (- 2 ^ 31) /\ int_of_double 0x7ff8000000000000 = Crash IntOverflow.
Proof. by vm_compute. Qed.
