(* ===== verification/EventLoop.v ===== *)
(** * The event loop ([rootana/libAnalyzer/TRootanaEventLoop])

    A program derives a class from [TRootanaEventLoop]; the loop reads the
    events of a file and calls its virtual methods.  Its state is the base's
    members and the members of the derived class.  ROOT (files and trees) and
    the system with [zlib] are interfaces; the program is built without
    [HAVE_MIDAS] and runs in batch mode, so that the part for data that are taken now
    and the windows are left out, and messages too. *)

From S2P Require Import Prelude CStr Utils MidasEvent MidasFile DataContainer.

(** ** Numbers in texts *)

(** [strtol(s, &end, 10)]: the number and the rest, which is all of [s] when there
    is no number. *)
Definition strtol (s : cstr) : Z * cstr :=
  let '(_, t) := skip_while isspace s in
  let '(neg, t) := match t with c :: t' => if c =c "-"%char then (true, t') else if c =c "+"%char then (false, t') else (false, t) | [] => (false, t) end in
  let '(digits, rest) := skip_while isdigit t in
  match digits with
  | [] => (0, s)
  | _ =>
      let n := digits_val 0 digits in
      (if neg then Z.max (- 2 ^ 63) (- n) else Z.min (2 ^ 63 - 1) n, rest)
  end.

(** [(int)strtol(s, 0, 10)] *)
Definition atoi_int (s : cstr) : Z := to_int (fst (strtol s)).

(** [%08d] *)
Definition pad0 (n : nat) (s : cstr) : cstr := replicate (n - length s) "0"%char ++ s.
Definition decimal08 (n : Z) : cstr := if n <? 0 then "-"%char :: pad0 7 (decimal (- n)) else pad0 8 (decimal n).

(** ** ROOT *)

(** [W] is what the branches of a tree hold when it is filled; a tree is known by its
    pointer. *)
Class Root (W R : Type) := {
  new_TFile : cstr -> R -> R;
  write_and_close : R -> R;
  new_TTree : R -> Z * R;
  tree_alive : Z -> R -> bool;
  tree_fill : Z -> W -> R -> R;
  new_XmlOdb : list Z -> R -> R;
  is_batch : R -> bool;
  run_test : R -> R
}.

(** ** The base class *)

Record event_loop (A R V : Type) := EventLoop {
  fOutputFile : bool;
  fOutputFilename : cstr;
  fDisableRootOutput : bool;
  fMaxEvents : Z;
  fCurrentRunNumber : Z;
  fIsOffline : bool;
  fUseBatchMode : bool;
  fBufferName : cstr;
  fDataContainer : container;
  fProcessEventIDs : list Z;
  self : A;
  root : R;
  sys : V
}.
Arguments EventLoop {A R V}.
Arguments fOutputFile {A R V}.
Arguments fOutputFilename {A R V}.
Arguments fDisableRootOutput {A R V}.
Arguments fMaxEvents {A R V}.
Arguments fCurrentRunNumber {A R V}.
Arguments fIsOffline {A R V}.
Arguments fUseBatchMode {A R V}.
Arguments fBufferName {A R V}.
Arguments fDataContainer {A R V}.
Arguments fProcessEventIDs {A R V}.
Arguments self {A R V}.
Arguments root {A R V}.
Arguments sys {A R V}.

Section loop.
Context {A R V W : Type}.
Abbreviation L := (event_loop A R V).
Implicit Types s : L.

Definition TRootanaEventLoop (a : A) (r : R) (v : V) : L :=
  EventLoop false (str "output") false 0 0 true false (str "SYSTEM") new_container [] a r v.

Definition with_output (b : bool) s : L := EventLoop b (fOutputFilename s) (fDisableRootOutput s) (fMaxEvents s) (fCurrentRunNumber s) (fIsOffline s) (fUseBatchMode s) (fBufferName s) (fDataContainer s) (fProcessEventIDs s) (self s) (root s) (sys s).
Definition with_run (n : Z) s : L := EventLoop (fOutputFile s) (fOutputFilename s) (fDisableRootOutput s) (fMaxEvents s) n (fIsOffline s) (fUseBatchMode s) (fBufferName s) (fDataContainer s) (fProcessEventIDs s) (self s) (root s) (sys s).
Definition with_max (n : Z) s : L := EventLoop (fOutputFile s) (fOutputFilename s) (fDisableRootOutput s) n (fCurrentRunNumber s) (fIsOffline s) (fUseBatchMode s) (fBufferName s) (fDataContainer s) (fProcessEventIDs s) (self s) (root s) (sys s).
Definition with_offline (b : bool) s : L := EventLoop (fOutputFile s) (fOutputFilename s) (fDisableRootOutput s) (fMaxEvents s) (fCurrentRunNumber s) b (fUseBatchMode s) (fBufferName s) (fDataContainer s) (fProcessEventIDs s) (self s) (root s) (sys s).
Definition with_buffer (l : cstr) s : L := EventLoop (fOutputFile s) (fOutputFilename s) (fDisableRootOutput s) (fMaxEvents s) (fCurrentRunNumber s) (fIsOffline s) (fUseBatchMode s) l (fDataContainer s) (fProcessEventIDs s) (self s) (root s) (sys s).
Definition UseBatchMode s : L := EventLoop (fOutputFile s) (fOutputFilename s) (fDisableRootOutput s) (fMaxEvents s) (fCurrentRunNumber s) (fIsOffline s) true (fBufferName s) (fDataContainer s) (fProcessEventIDs s) (self s) (root s) (sys s).
Definition with_container (c : container) s : L := EventLoop (fOutputFile s) (fOutputFilename s) (fDisableRootOutput s) (fMaxEvents s) (fCurrentRunNumber s) (fIsOffline s) (fUseBatchMode s) (fBufferName s) c (fProcessEventIDs s) (self s) (root s) (sys s).
Definition with_self (a : A) s : L := EventLoop (fOutputFile s) (fOutputFilename s) (fDisableRootOutput s) (fMaxEvents s) (fCurrentRunNumber s) (fIsOffline s) (fUseBatchMode s) (fBufferName s) (fDataContainer s) (fProcessEventIDs s) a (root s) (sys s).
Definition with_root (r : R) s : L := EventLoop (fOutputFile s) (fOutputFilename s) (fDisableRootOutput s) (fMaxEvents s) (fCurrentRunNumber s) (fIsOffline s) (fUseBatchMode s) (fBufferName s) (fDataContainer s) (fProcessEventIDs s) (self s) r (sys s).
Definition with_sys (v : V) s : L := EventLoop (fOutputFile s) (fOutputFilename s) (fDisableRootOutput s) (fMaxEvents s) (fCurrentRunNumber s) (fIsOffline s) (fUseBatchMode s) (fBufferName s) (fDataContainer s) (fProcessEventIDs s) (self s) (root s) v.

(** Members of the derived class, and the decoded banks of the event. *)
Definition member {B} (f : A -> B) : ST L B := fun s => Ok (f (self s), s).
Definition set_member (f : A -> A) : ST L unit := modify (fun s => with_self (f (self s)) s).
Definition try_member (f : A -> res A) : ST L unit := fun s => a ← f (self s); Ok (tt, with_self a s).
Definition GetBank (T : bank_class) (name : list Z) : ST L (option bank_object) :=
  fun s => '(b, c) ← GetEventData T name (fDataContainer s); Ok (b, with_container c s).
Definition in_container {B} (f : container -> res B) : ST L B := fun s => b ← f (fDataContainer s); Ok (b, s).

Definition ProcessThisEventID (id : Z) s : L :=
  EventLoop (fOutputFile s) (fOutputFilename s) (fDisableRootOutput s) (fMaxEvents s) (fCurrentRunNumber s) (fIsOffline s) (fUseBatchMode s) (fBufferName s) (fDataContainer s) (fProcessEventIDs s ++ [id]) (self s) (root s) (sys s).
Definition CheckEventID (eventId : Z) s : bool :=
  match fProcessEventIDs s with [] => true | ids => existsb (fun id => id =? Z.land eventId 0xFFFF) ids end.

Context `{Root W R, MidasIO V}.

Definition on_root (f : R -> R) : ST L unit := modify (fun s => with_root (f (root s)) s).

(** [filename] has 1024 bytes. *)
Definition OpenRootFile (SetFullOutputFileName : Z -> cstr -> cstr) (run : Z) (midasFilename : cstr) : ST L unit := fun s =>
  if fDisableRootOutput s then Ok (tt, s)
  else
    let s := if fOutputFile s then with_output false (with_root (write_and_close (root s)) s) else s in
    let filename := fOutputFilename s ++ decimal08 run ++ str ".root" in
    _ ← check (length filename <? 1024)%nat OutOfBounds;
    let fullname := match midasFilename with [] => [] | _ => SetFullOutputFileName run midasFilename end in
    let filename := match fullname with [] => filename | _ => fullname end in
    _ ← check (length filename <? 1024)%nat OutOfBounds;
    Ok (tt, with_output true (with_root (new_TFile filename (root s)) s)).

Definition CloseRootFile : ST L unit := modify (fun s => if fOutputFile s then with_output false (with_root (write_and_close (root s)) s) else s).

(** ** The virtual methods *)

Class Analyzer := {
  Initialize : ST L unit;
  BeginRun : Z -> Z -> Z -> ST L unit;
  EndRun : Z -> Z -> Z -> ST L unit;
  Finalize : ST L unit;
  ProcessMidasEvent : ST L bool;
  PreFilter : ST L bool;
  CheckOption : cstr -> ST L bool;
  SetFullOutputFileName : Z -> cstr -> cstr
}.
Context `{Analyzer}.

(** ** Files *)

(** One event that was read. *)
Definition process_event (e : midas_event) (fname : cstr) : ST L unit :=
  let eventId := fEventId (fEventHeader e) in
  let serial := to_int (fSerialNumber (fEventHeader e)) in
  if Z.land eventId 0xFFFF =? 0x8000 then
    m ← lift_res (event_data e);
    xml ← lift_res (bytes_at m 0 (Z.to_nat (fDataSize (fEventHeader e))));
    _ ← on_root (new_XmlOdb xml);
    _ ← modify (with_run serial);
    _ ← OpenRootFile SetFullOutputFileName serial fname;
    BeginRun 0 serial 0
  else if Z.land eventId 0xFFFF =? 0x8001 then mret tt
  else if Z.land eventId 0xFFFF =? 0x8002 then
    (* the data are printed as a string *)
    m ← lift_res (event_data e);
    lift_res (check (bool_decide (0 ∈ m)) OutOfBounds)
  else
    wanted ← (fun s => Ok (CheckEventID eventId s, s));
    if wanted : bool then
      '(_, e) ← lift_res (SetBankList e);
      _ ← (fun s => c ← SetMidasEventPointer e (fDataContainer s); Ok (tt, with_container c s));
      ok ← PreFilter;
      _ ← (if ok : bool then ProcessMidasEvent else mret false);
      modify (fun s => with_container (CleanupEvent (fDataContainer s)) s)
    else mret tt.

(** An operation on a file object. *)
Definition with_file {B} (f : midas_file) (op : ST (on_file V) B) : ST L (B * midas_file) := fun s =>
  '(b, o) ← op (OnFile f (sys s)); Ok ((b, of_file o), with_sys (of_io o) s).

(** [while (1)]; the file object is answered.  [fuel] is the number of events, and one
    more. *)
Fixpoint read_loop (fuel : nat) (fname : cstr) (f : midas_file) (i : Z) : ST L midas_file :=
  match fuel with
  | O => lift_res (Crash NoFuel)
  | S fuel' =>
      '(ok, e, f) ← with_file f (Read TMidasEvent);
      if negb (ok : bool) then mret f
      else
        _ ← process_event e fname;
        _ ← lift_res (check (i <? 2 ^ 31 - 1) IntOverflow);
        stop ← (fun s => Ok (negb (fMaxEvents s =? 0) && (fMaxEvents s <=? i + 1), s));
        if stop : bool then mret f else read_loop fuel' fname f (i + 1)
  end.

(** The destructor of the file object closes it again. *)
Definition ProcessMidasFile (fuel : nat) (fname : cstr) : ST L Z :=
  '(tryOpen, f) ← with_file TMidasFile (Open fname);
  if negb (tryOpen : bool) then
    _ ← with_file f (_ ← Close; OutClose); mret (-1)
  else
    f ← read_loop fuel fname f 0;
    '(_, f) ← with_file f Close;
    run ← (fun s => Ok (fCurrentRunNumber s, s));
    _ ← EndRun 0 run 0;
    _ ← CloseRootFile;
    _ ← with_file f (_ ← Close; OutClose);
    mret 0.

(** ** Arguments *)

(** An option: whether it is [-T]; [-h] and what no one knows print the help and end
    the process. *)
Definition process_option (arg : cstr) : ST L bool :=
  if starts (str "-e") arg then _ ← modify (with_max (atoi_int (drop 2 arg))); mret false
  else if starts (str "-m") arg then mret false
  else if starts (str "-P") arg then mret false
  else if streq arg (str "-T") then mret true
  else if streq arg (str "-g") then mret false
  else if starts (str "-H") arg then mret false
  else if starts (str "-E") arg then mret false
  else if starts (str "-b") arg then _ ← modify (with_buffer (drop 2 arg)); mret false
  else if streq arg (str "-h") then lift_res (Crash Exited)
  else if starts (str "-") arg then
    ok ← CheckOption arg;
    if ok : bool then mret false else lift_res (Crash Exited)
  else mret false.

Fixpoint process_options (args : list cstr) : ST L bool :=
  match args with
  | [] => mret false
  | arg :: args' => t ← process_option arg; t' ← process_options args'; mret (t || t')
  end.

Fixpoint process_files (fuel : nat) (args : list cstr) : ST L unit :=
  match args with
  | [] => mret tt
  | arg :: args' =>
      _ ← (if negb (starts (str "-") arg) then _ ← ProcessMidasFile fuel arg; mret tt else mret tt);
      process_files fuel args'
  end.

(** [args] are the arguments behind the name of the program. *)
Definition ExecuteLoop (fuel : nat) (args : list cstr) : ST L Z :=
  if existsb (fun arg => streq arg (str "-h")) args then lift_res (Crash Exited)
  else
    refused ← (fun s => Ok (is_batch (root s) && negb (fUseBatchMode s), s));
    if refused : bool then mret 1
    else
      testMode ← process_options args;
      let offline := existsb (fun arg => negb (starts (str "-") arg)) args in
      _ ← modify (with_offline offline);
      _ ← Initialize;
      _ ← process_files fuel args;
      if testMode : bool then _ ← on_root run_test; mret 0
      else if offline then mret 0
      else _ ← Finalize; mret 0.
End loop.
