(* ===== verification/PtfConverter.v ===== *)
(** * The converter of the PTF scans ([midas2root/midas2root_ptf.cxx])

    A scan moves a gantry from point to point.  The end of a move (bank [EOM])
    starts a measurement; what the digitizer, the Phidgets and the other
    equipment send then is collected, and the beginning of the next move (bank
    [BONM]) fills a row of the tree with it.  [single_point] is false. *)

From S2P Require Import Prelude CStr MidasEvent MidasFile Digitizer DataContainer EventLoop.

Definition nPoints_max : Z := 12000.
Definition num_phidg_max : Z := 10000.
Definition max_temp_sensor : Z := 20.
Definition num_v1730_max : Z := 70.
Definition timeStart : Z := 180.

(** ** The members of the class *)

(** Numbers, and doubles as their bits. *)
Inductive var :=
  | nnn | counter_gant | subevent
  | x0_pos | y0_pos | z0_pos | tilt0_pos | rot0_pos | x1_pos | y1_pos | z1_pos | tilt1_pos | rot1_pos | time
  | num_phidg0_points | num_phidg1_points | num_phidg3_points | num_phidg4_points | num_ACC_points
  | int_temp | ext1_temp | ext2_temp | timestamp
  | counter_mag | curr_coil1 | curr_coil2 | curr_coil3 | curr_coil4 | curr_coil5 | curr_coil6
  | volt_coil1 | volt_coil2 | volt_coil3 | volt_coil4 | volt_coil5 | volt_coil6
  | curr_hpd_enable | curr_hpd_hv_control | curr_hpd_lv_control | curr_receiver0 | curr_receiver1 | curr_monitor0 | curr_monitor1
  | volt_hpd_enable | volt_hpd_hv_control | volt_hpd_lv_control | volt_receiver0 | volt_receiver1 | volt_monitor0 | volt_monitor1
  | start_val_stat | window_width | trigger | counter | num_points | num_points_dig0 | num_points_dig1
  | ngoodTDCbanks | nbadTDCbanks.

(** Arrays of doubles. *)
Inductive arr :=
  | x0_field | y0_field | z0_field | tot0_field | x1_field | y1_field | z1_field | tot1_field
  | tilt_phid0 | tilt_phid1 | acc_x0 | acc_y0 | acc_z0 | acc_x1 | acc_y1 | acc_z1
  | x3_field | y3_field | z3_field | tot3_field | x4_field | y4_field | z4_field | tot4_field
  | tilt_phid3 | tilt_phid4 | acc_x3 | acc_y3 | acc_z3 | acc_x4 | acc_y4 | acc_z4
  | acc0_x0 | acc0_y0 | acc0_z0 | temperatures
  | Start_time0 | Window_width0 | Start_time1 | Window_width1 | evt_timestamp.

(** The arrays of waveforms; those of channels 3 to 5 are never used. *)
Inductive wave := V1730_wave0 | V1730_wave1 | V1730_wave2.

#[export] Instance var_dec : EqDecision var.
Proof. solve_decision. Defined.
#[export] Instance arr_dec : EqDecision arr.
Proof. solve_decision. Defined.
#[export] Instance wave_dec : EqDecision wave.
Proof. solve_decision. Defined.

Definition arr_size (a : arr) : Z :=
  match a with
  | temperatures => max_temp_sensor
  | Start_time0 | Window_width0 | Start_time1 | Window_width1 | evt_timestamp => nPoints_max
  | _ => num_phidg_max
  end.

(** An element that was never written is not in the map; [tree] is 0 for a null
    pointer.  [gbl_accept_banks] and [run_numb] are global. *)
Record converter := Converter {
  vars : var -> Z;
  arrays : arr -> gmap Z Z;
  waves : wave -> gmap (Z * Z) Z;
  tree : Z;
  gbl_accept_banks : bool;
  run_numb : Z
}.

Definition set_var (v : var) (x : Z) (c : converter) : converter :=
  Converter (fun w => if decide (w = v) then x else vars c w) (arrays c) (waves c) (tree c) (gbl_accept_banks c) (run_numb c).
Definition set_tree (t : Z) (c : converter) : converter := Converter (vars c) (arrays c) (waves c) t (gbl_accept_banks c) (run_numb c).
Definition set_accept (b : bool) (c : converter) : converter := Converter (vars c) (arrays c) (waves c) (tree c) b (run_numb c).
Definition set_arr (a : arr) (m : gmap Z Z) (c : converter) : converter :=
  Converter (vars c) (fun b => if decide (b = a) then m else arrays c b) (waves c) (tree c) (gbl_accept_banks c) (run_numb c).
Definition set_wave (w : wave) (m : gmap (Z * Z) Z) (c : converter) : converter :=
  Converter (vars c) (arrays c) (fun u => if decide (u = w) then m else waves c u) (tree c) (gbl_accept_banks c) (run_numb c).

Definition put (a : arr) (i x : Z) (c : converter) : res converter :=
  _ ← check ((0 <=? i) && (i <? arr_size a)) OutOfBounds; Ok (set_arr a (<[i := x]> (arrays c a)) c).
Definition put_wave (w : wave) (i j x : Z) (c : converter) : res converter :=
  _ ← check ((0 <=? i) && (i <? nPoints_max) && (0 <=? j) && (j <? num_v1730_max)) OutOfBounds; Ok (set_wave w (<[(i, j) := x]> (waves c w)) c).

(** [n++] of an [int] *)
Definition increment (v : var) (c : converter) : res converter :=
  _ ← check (vars c v <? 2 ^ 31 - 1) IntOverflow; Ok (set_var v (vars c v + 1) c).

(** ** The tree *)

(** The branches with arrays, and the variables that say how long they are. *)
Definition branches : list (arr * var) :=
  [(Start_time0, num_points_dig0); (Start_time1, num_points_dig1); (Window_width0, num_points_dig0); (Window_width1, num_points_dig1);
   (evt_timestamp, num_points);
   (acc0_x0, num_ACC_points); (acc0_y0, num_ACC_points); (acc0_z0, num_ACC_points);
   (acc_x0, num_phidg0_points); (acc_y0, num_phidg0_points); (acc_z0, num_phidg0_points); (x0_field, num_phidg0_points);
   (y0_field, num_phidg0_points); (z0_field, num_phidg0_points); (tot0_field, num_phidg0_points); (tilt_phid0, num_phidg0_points);
   (acc_x1, num_phidg1_points); (acc_y1, num_phidg1_points); (acc_z1, num_phidg1_points); (x1_field, num_phidg1_points);
   (y1_field, num_phidg1_points); (z1_field, num_phidg1_points); (tot1_field, num_phidg1_points); (tilt_phid1, num_phidg1_points);
   (acc_x3, num_phidg3_points); (acc_y3, num_phidg3_points); (acc_z3, num_phidg3_points); (x3_field, num_phidg3_points);
   (y3_field, num_phidg3_points); (z3_field, num_phidg3_points); (tot3_field, num_phidg3_points); (tilt_phid3, num_phidg3_points);
   (acc_x4, num_phidg4_points); (acc_y4, num_phidg4_points); (acc_z4, num_phidg4_points); (x4_field, num_phidg4_points);
   (y4_field, num_phidg4_points); (z4_field, num_phidg4_points); (tot4_field, num_phidg4_points); (tilt_phid4, num_phidg4_points)].

(** What the branches hold: the numbers, the arrays as far as they are used, and the
    waveforms of the points. *)
Record row := Row { row_vars : var -> Z; row_arrays : list (arr * list (option Z)); row_temperatures : list (option Z); row_waves : list (list (list (option Z))) }.

Definition elements_of (m : gmap Z Z) (n : Z) : list (option Z) := map (fun i => m !! Z.of_nat i) (seq 0 (Z.to_nat n)).
Definition waves_of (m : gmap (Z * Z) Z) (n : Z) : list (list (option Z)) :=
  map (fun i => map (fun j => m !! (Z.of_nat i, Z.of_nat j)) (seq 0 (Z.to_nat num_v1730_max))) (seq 0 (Z.to_nat n)).
Definition snapshot (c : converter) : row :=
  Row (vars c) (map (fun '(a, n) => (a, elements_of (arrays c a) (vars c n))) branches) (elements_of (arrays c temperatures) max_temp_sensor)
    (map (fun w => waves_of (waves c w) (vars c num_points)) [V1730_wave0; V1730_wave1; V1730_wave2]).

Section converter.
Context {R V : Type} `{Root row R} `{MidasIO V}.
Abbreviation P := (ST (event_loop converter R V)).

(** [SetFullOutputFileName] is that of the base. *)
Definition base_name (run : Z) (name : cstr) : cstr := [].

(** The constructor: what the memory held, but for one member. *)
Definition ScanToTreeConverter (memory : converter) (r : R) (v : V) : event_loop converter R V :=
  UseBatchMode (TRootanaEventLoop (set_var nnn 0 memory) r v).

Definition initialize_tree : P unit :=
  run ← member run_numb;
  _ ← OpenRootFile base_name run [];
  t ← (fun s => let '(t, r) := new_TTree (root s) in Ok (t, with_root r s));
  _ ← set_member (set_tree t);
  _ ← set_member (set_var ngoodTDCbanks 0);
  set_member (set_var nbadTDCbanks 0).

(** [tree->Fill()]; the tree must be there. *)
Definition fill_tree (t : Z) (values : row) : P unit := fun s =>
  _ ← check (negb (t =? 0) && tree_alive t (root s)) NullDeref; Ok (tt, with_root (tree_fill t values (root s)) s).
Definition Fill : P unit := t ← member tree; values ← member snapshot; fill_tree t values.

(** ** Equipment *)

(** Doubles of a bank, into variables. *)
Fixpoint store_vars (b : bank_object) (l : list (var * Z)) : P unit :=
  match l with
  | [] => mret tt
  | (v, i) :: l' => x ← in_container (bank_double b i); _ ← set_member (set_var v x); store_vars b l'
  end.

(** A reading of a Phidget: doubles of a bank, into arrays at the index of this
    reading. *)
Fixpoint store_reading (b : bank_object) (n : var) (l : list (arr * Z)) : P unit :=
  match l with
  | [] => mret tt
  | (a, i) :: l' => x ← in_container (bank_double b i); k ← member (fun c => vars c n); _ ← try_member (put a (k - 1) x); store_reading b n l'
  end.

Definition phidget0 : list (arr * Z) := [(acc_x0, 0); (acc_y0, 1); (acc_z0, 2); (x0_field, 3); (y0_field, 4); (z0_field, 5); (tot0_field, 6); (tilt_phid0, 7)].
Definition phidget1 : list (arr * Z) := [(acc_x1, 0); (acc_y1, 1); (acc_z1, 2); (x1_field, 3); (y1_field, 4); (z1_field, 5); (tilt_phid1, 7)].
Definition phidget3 : list (arr * Z) := [(acc_x3, 0); (acc_y3, 1); (acc_z3, 2); (x3_field, 3); (y3_field, 4); (z3_field, 5); (tot3_field, 6); (tilt_phid3, 7)].
Definition phidget4 : list (arr * Z) := [(acc_x4, 0); (acc_y4, 1); (acc_z4, 2); (x4_field, 3); (y4_field, 4); (z4_field, 5); (tot4_field, 6); (tilt_phid4, 7)].
Definition phidgetACC : list (arr * Z) := [(acc0_x0, 0); (acc0_y0, 1); (acc0_z0, 2)].

(** The banks of the Phidgets in the order they are looked for. *)
Definition EOM : list Z := [0x45; 0x4f; 0x4d].
Definition BONM : list Z := [0x42; 0x4f; 0x4e; 0x4d].
Definition V730 : list Z := [0x56; 0x37; 0x33; 0x30].
Definition name_V1730 : list Z := [0x56; 0x31; 0x37; 0x33; 0x30].
Definition PH00 : list Z := [0x50; 0x48; 0x30; 0x30].
Definition PH01 : list Z := [0x50; 0x48; 0x30; 0x31].
Definition PH03 : list Z := [0x50; 0x48; 0x30; 0x33].
Definition PH04 : list Z := [0x50; 0x48; 0x30; 0x34].
Definition PA00 : list Z := [0x50; 0x41; 0x30; 0x30].
Definition ENVT : list Z := [0x45; 0x4e; 0x56; 0x54].
Definition CYC0 : list Z := [0x43; 0x59; 0x43; 0x30].
Definition MAG0 : list Z := [0x4d; 0x41; 0x47; 0x30].
Definition phidgets : list (list Z * var * list (arr * Z)) :=
  [(PH00, num_phidg0_points, phidget0); (PH01, num_phidg1_points, phidget1); (PH03, num_phidg3_points, phidget3); (PH04, num_phidg4_points, phidget4);
   (PA00, num_ACC_points, phidgetACC)].

(** Whether a Phidget had a reading; then the event is done. *)
Fixpoint read_phidgets (l : list (list Z * var * list (arr * Z))) : P bool :=
  match l with
  | [] => mret false
  | (name, n, fields) :: l' =>
      b ← GetBank TGenericData name;
      match b with
      | Some b => _ ← try_member (increment n); _ ← store_reading b n fields; mret true
      | None => read_phidgets l'
      end
  end.

(** Temperatures are of type [float]. *)
Definition environment : P unit :=
  b ← GetBank TGenericData ENVT;
  match b with
  | None => mret tt
  | Some b =>
      t0 ← in_container (bank_float b 0);
      t1 ← in_container (bank_float b 1);
      t2 ← in_container (bank_float b 2);
      _ ← set_member (set_var int_temp (double_of_float t0));
      _ ← set_member (set_var ext1_temp (double_of_float t1));
      _ ← set_member (set_var ext2_temp (double_of_float t2));
      _ ← try_member (put temperatures 0 (double_of_float t0));
      _ ← try_member (put temperatures 1 (double_of_float t1));
      try_member (put temperatures 2 (double_of_float t2))
  end.

Definition store_int (b : bank_object) (v : var) (i : Z) : P unit :=
  x ← in_container (bank_double b i); n ← lift_res (int_of_double x); set_member (set_var v n).

Definition gantry : P unit :=
  b ← GetBank TGenericData CYC0;
  match b with
  | None => mret tt
  | Some b =>
      _ ← store_int b counter_gant 0;
      store_vars b [(x0_pos, 1); (y0_pos, 2); (z0_pos, 3); (rot0_pos, 4); (tilt0_pos, 5); (x1_pos, 6); (y1_pos, 7); (z1_pos, 8); (rot1_pos, 9); (tilt1_pos, 10); (time, 11)]
  end.

Definition magnets : P unit :=
  b ← GetBank TGenericData MAG0;
  match b with
  | None => mret tt
  | Some b =>
      _ ← store_int b counter_mag 0;
      store_vars b
        [(curr_coil1, 9); (curr_coil2, 10); (curr_coil3, 1); (curr_coil4, 2); (curr_coil5, 3); (curr_coil6, 4);
         (curr_hpd_enable, 5); (curr_hpd_hv_control, 6); (curr_hpd_lv_control, 7); (curr_receiver0, 33); (curr_monitor0, 34); (curr_receiver1, 35); (curr_monitor1, 36);
         (volt_coil1, 49); (volt_coil2, 50); (volt_coil3, 41); (volt_coil4, 42); (volt_coil5, 43); (volt_coil6, 44);
         (volt_hpd_enable, 45); (volt_hpd_hv_control, 46); (volt_hpd_lv_control, 47); (volt_receiver0, 73); (volt_monitor0, 74); (volt_receiver1, 75); (volt_monitor1, 76)]
  end.

(** ** The digitizer *)

(** The array of a channel, and where in the waveform its window begins. *)
Definition window (chan : Z) : option (wave * Z) :=
  if chan =? 0 then Some (V1730_wave0, timeStart)
  else if chan =? 1 then Some (V1730_wave1, 0)
  else if chan =? 2 then Some (V1730_wave2, timeStart)
  else None.

(** [for(int ib = 0; ...)]: [ib] counts up from the end of the list. *)
Fixpoint store_samples (w : wave) (i from : Z) (meas : channel_measurement) (ibs : list Z) (c : converter) : res converter :=
  match ibs with
  | [] => Ok c
  | ib :: ibs' => c ← put_wave w i ib (double_of_int (GetSample meas (ib + from))) c; store_samples w i from meas ibs' c
  end.

Definition store_channel (i : Z) (meas : channel_measurement) (c : converter) : res converter :=
  match window (fChan meas) with
  | None => Ok c
  | Some (w, from) => store_samples w i from meas (channels (Z.to_nat (Z.min (GetNSamples meas) num_v1730_max))) c
  end.

Fixpoint store_channels (i : Z) (l : list channel_measurement) (c : converter) : res converter :=
  match l with [] => Ok c | meas :: l' => c ← store_channel i meas c; store_channels i l' c end.

Definition measurements_of (b : bank_object) : list channel_measurement := match contents b with Raw1730 d => fMeasurements d | _ => [] end.

Definition digitizer (b : bank_object) : P unit :=
  n ← member (fun c => vars c num_points);
  if n <? nPoints_max then
    _ ← set_member (set_var num_points (n + 1));
    e ← in_container GetMidasData;
    _ ← try_member (put evt_timestamp n (double_of_int (fTimeStamp (fEventHeader e))));
    try_member (store_channels n (measurements_of b))
  else mret tt.

(** ** The event *)

Definition last_look : P bool :=
  _ ← GetBank TV1730Raw name_V1730;
  _ ← try_member (increment nbadTDCbanks);
  mret true.

(** The counters that a new measurement starts with. *)
Definition counters : list var :=
  [counter; num_points; num_points_dig0; num_points_dig1; num_phidg0_points; num_phidg1_points; num_phidg3_points; num_phidg4_points; num_ACC_points].

Definition end_of_measurement : P bool :=
  e ← in_container GetMidasData;
  _ ← set_member (set_var timestamp (double_of_int (fTimeStamp (fEventHeader e))));
  _ ← Fill;
  _ ← set_member (fun c => foldl (fun c v => set_var v 0 c) c counters);
  _ ← try_member (increment ngoodTDCbanks);
  _ ← set_member (set_accept false);
  mret true.

Definition measurement : P bool :=
  _ ← set_member (set_var start_val_stat 90);
  _ ← set_member (set_var window_width 45);
  _ ← set_member (set_var trigger 40);
  b ← GetBank TV1730Raw V730;
  match b with
  | Some b => _ ← digitizer b; mret true
  | None =>
      read ← read_phidgets phidgets;
      if read : bool then mret true
      else
        _ ← environment;
        _ ← gantry;
        _ ← magnets;
        last_look
  end.

Definition event_banks : P bool :=
  b ← GetBank TGenericData EOM;
  match b with
  | Some _ => _ ← set_member (set_accept true); mret true
  | None =>
      b ← GetBank TGenericData BONM;
      match b with
      | Some _ => end_of_measurement
      | None => accept ← member gbl_accept_banks; if accept : bool then measurement else last_look
      end
  end.

Definition ptf_ProcessMidasEvent : P bool :=
  t ← member tree;
  _ ← (if t =? 0 then initialize_tree else mret tt);
  event_banks.

(** Messages only. *)
Definition ptf_EndRun (transition run time : Z) : P unit := mret tt.

#[export] Instance ptf : Analyzer := {
  Initialize := mret tt;
  BeginRun _ _ _ := mret tt;
  EndRun := ptf_EndRun;
  Finalize := mret tt;
  ProcessMidasEvent := ptf_ProcessMidasEvent;
  PreFilter := mret true;
  CheckOption arg := mret (starts (str "-D") arg);
  SetFullOutputFileName := base_name
}.

(** ** The program *)

(** [main]: the arguments behind the name of the program, of which the second and the
    third are numbers; all of them go to the loop.  The answer says whether
    a measurement is going on, for the next file of the run. *)
Definition ptf_main (fuel : nat) (args : list cstr) (memory : converter) (r : R) (v : V) : res (Z * event_loop converter R V) :=
  match args with
  | _ :: arg2 :: arg3 :: _ =>
      let x := to_int (fst (strtol arg2)) in
      let run := to_int (fst (strtol arg3)) in
      let globals := Converter (vars memory) (arrays memory) (waves memory) (tree memory) (x =? 1) run in
      '(_, s) ← ExecuteLoop fuel args (ScanToTreeConverter globals r v);
      Ok (if gbl_accept_banks (self s) then 1 else 0, s)
  | _ => Crash NullDeref
  end.
End converter.
