(* ===== verification/FileLoop.v ===== *)
(** * The event loop on a file: lemmas for every program

    A program that says what handling an event does to its state (an invariant
    that goes on from event to event) gets from here what it does on a file, whatever pieces
    the system delivers it in, and with its arguments. *)

From S2P Require Import Prelude CStr Utils MidasEvent MidasBanks MidasFile MidasStream Digitizer Waveforms DataContainer EventLoop.

(** The beginning of an event, which is all that the file has of it. *)
Definition cut_event (cut : list Z) : Prop := exists r more, raw_ok r /\ raw_bytes r = cut ++ more /\ more <> [].

(** What [Read] makes of an event, in a block from [malloc]. *)
Definition read_as (r : raw_event) (b : list Z) : midas_event := MidasEvent r.1 (Some (r.2 ++ drop (length r.2) b)) true 0 None.

Definition event_kind (h : event_header) : Z := Z.land (fEventId h) 0xFFFF.

(** Listing the banks leaves the data. *)
Lemma listed h flags bs behind own n : event_ok flags bs -> readable flags behind ->
  exists i k names, SetBankList (MidasEvent h (Some (encode_event flags bs ++ behind)) own n None) = Ok (i, MidasEvent h (Some (encode_event flags bs ++ behind)) own k names).
Proof.
  intros Hev Hb. destruct (Z.leb_spec (fEventId h) 0) as [Hi|Hi].
  - unfold SetBankList. cbn [fEventHeader]. rewrite (proj2 (Z.leb_le _ _) Hi). by eexists _, _, _.
  - rewrite (SetBankList_names h flags bs behind own n Hev Hi Hb). by eexists _, _, _.
Qed.

(** The blocks of the system are larger than what is asked for. *)
Definition roomy {V} `{HV : MidasIO V} {HVL : @MidasIOLaws V HV} : Prop := forall n b, from_malloc (V := V) n b -> n + 12 <= Z.of_nat (length b).

(** An argument that names a file. *)
Definition no_option (arg : cstr) : Prop := starts (str "-") arg = false.

(** ** Trees *)

(** A tree keeps its rows; the text of an XML event is kept elsewhere. *)
Class RootLaws (W R : Type) `{Root W R} := {
  tree_rows : Z -> R -> list W;
  new_tree r : tree_alive (fst (new_TTree r)) (snd (new_TTree r)) = true /\ fst (new_TTree r) <> 0 /\ tree_rows (fst (new_TTree r)) (snd (new_TTree r)) = [];
  fill_row t w r : tree_alive t r = true -> tree_alive t (tree_fill t w r) = true /\ tree_rows t (tree_fill t w r) = tree_rows t r ++ [w]
}.

(** ** The events of a run *)

(** Its beginning, data of the modules (and what the program takes them for), its end and
    messages. *)
Inductive file_entry (E : Type) :=
  | BeginOfRun (h : event_header) (data : list Z)
  | Physics (h : event_header) (flags : Z) (bs : list bank) (ev : E)
  | EndOfRun (h : event_header) (data : list Z)
  | Message (h : event_header) (data : list Z).
Arguments BeginOfRun {E}.
Arguments Physics {E}.
Arguments EndOfRun {E}.
Arguments Message {E}.

Definition raw_of {E} (x : file_entry E) : raw_event :=
  match x with Physics h flags bs _ => (h, encode_event flags bs) | BeginOfRun h l | EndOfRun h l | Message h l => (h, l) end.
Definition is_begin {E} (x : file_entry E) : bool := match x with BeginOfRun _ _ => true | _ => false end.

(** They are in the file as they should be, and the banks say what [event_is] wants. *)
Definition entry_good {E V} `{HV : MidasIO V} {HVL : @MidasIOLaws V HV} (event_is : list bank -> E -> Prop) (x : file_entry E) : Prop :=
  raw_ok (raw_of x) /\
  match x with
  | Physics h flags bs ev =>
      event_kind h <> 0x8000 /\ event_kind h <> 0x8001 /\ event_kind h <> 0x8002 /\
      event_ok flags bs /\ bs <> [] /\ event_is bs ev /\ (is_bank32 flags = true -> roomy)
  | BeginOfRun h _ => event_kind h = 0x8000
  | EndOfRun h _ => event_kind h = 0x8001
  | Message h l => event_kind h = 0x8002 /\ In 0 l
  end.

(** ** Banks that are not there *)

Definition absent (name : list Z) (bs : list bank) : Prop := first_named (name ++ [0]) bs = None.

(** The rows of a tree, if there is one. *)
Definition rows_at {W R} `{HR : Root W R} {HL : RootLaws W R} (t : Z) (r : R) : list W := if t =? 0 then [] else tree_rows t r.

(** ** Handlers: members and banks *)

Section handler.
Context {A R V : Type}.
Abbreviation L := (event_loop A R V).
Implicit Types s : L.

(** ** Steps on the members *)

Lemma member_Ok {B} (f : A -> B) s : member f s = Ok (f (self s), s).
Proof. done. Qed.
Lemma set_member_Ok f s : set_member f s = Ok (tt, with_self (f (self s)) s).
Proof. done. Qed.
Lemma try_member_Ok f s c : f (self s) = Ok c -> try_member f s = Ok (tt, with_self c s).
Proof. unfold try_member. by intros ->. Qed.
Lemma in_container_Ok {B} (f : container -> res B) s b : f (fDataContainer s) = Ok b -> in_container f s = Ok (b, s).
Proof. unfold in_container. by intros ->. Qed.

Lemma with_container_same s : with_container (fDataContainer s) s = s.
Proof. by destruct s. Qed.

Lemma with_self_container c s : with_self (self s) (with_container c s) = with_container c s.
Proof. by destruct s. Qed.

(** All but the members of the class and the decoded banks is the same. *)
Definition same_base s s' : Prop :=
  exists c cc, s' = with_self c (with_container cc s) /\ fMidasEventPointer cc = fMidasEventPointer (fDataContainer s) /\
    fOwnMidasEventMemory cc = fOwnMidasEventMemory (fDataContainer s).

Lemma same_base_refl s : same_base s s.
Proof. exists (self s), (fDataContainer s). by destruct s. Qed.
Lemma same_base_trans s1 s2 s3 : same_base s1 s2 -> same_base s2 s3 -> same_base s1 s3.
Proof. intros (c1 & cc1 & -> & E1 & O1) (c2 & cc2 & -> & E2 & O2). exists c2, cc2. cbn in *. split; [done|]. split; congruence. Qed.
Lemma same_base_self s c : same_base s (with_self c s).
Proof. exists c, (fDataContainer s). by destruct s. Qed.
Lemma same_base_root s s' : same_base s s' -> root s' = root s /\ fOutputFile s' = fOutputFile s /\ sys s' = sys s.
Proof. by intros (c & cc & -> & _). Qed.

(** ** Banks of the event *)

Variables (e : midas_event) (flags : Z) (bs : list bank) (behind : list Z).
Hypothesis Hev : event_ok flags bs.
Hypothesis Hne : bs <> [].
Hypothesis Hbehind : readable flags behind.
Hypothesis Hdata : fData e = Some (encode_event flags bs ++ behind).
Let m := encode_event flags bs ++ behind.

(** The container has the event, and these names in its list. *)
Definition holding (names : list (list Z)) s : Prop :=
  fMidasEventPointer (fDataContainer s) = Some e /\ map fBankName (fEventDataList (fDataContainer s)) = names.

Lemma holding_self names c s : holding names s -> holding names (with_self c s).
Proof. done. Qed.

Lemma the_event names s : holding names s -> in_container GetMidasData s = Ok (e, s).
Proof. intros [Hs _]. apply in_container_Ok. unfold GetMidasData. by rewrite Hs. Qed.

Lemma not_cached name names s : holding names s -> ~ In name names -> list_find (fun b => fBankName b = name) (fEventDataList (fDataContainer s)) = None.
Proof.
  intros [_ Hn] Hin. apply list_find_None, Forall_forall. intros b Hb E. apply Hin. rewrite <- Hn, <- E. by apply in_map, list_elem_of_In.
Qed.

Lemma GetBank_absent T name names s : holding names s -> ~ In name names -> absent name bs -> GetBank T name s = Ok (None, s).
Proof.
  intros Hs Hin Ha. unfold GetBank, GetEventData. rewrite (not_cached name names s Hs Hin). destruct Hs as [Hs _]. unfold GetMidasData, event_data. rewrite Hs, res_bind_Ok, Hdata, res_bind_Ok.
  pose proof (FindBank_named flags bs (name ++ [0]) behind Hev Hne Hbehind) as F. rewrite Ha in F. rewrite F, !res_bind_Ok. by rewrite with_container_same.
Qed.

Lemma GetBank_present T name names s b : holding names s -> ~ In name names -> first_named (name ++ [0]) bs = Some b ->
  exists pre post, m = pre ++ b_data b ++ post /\
    forall c, match T with
              | TGenericData => Ok Generic
              | TV1730Raw => d ← TV1730RawData m (Z.of_nat (length pre)); Ok (Raw1730 d)
              | TBRBRaw => l ← TBRBRawData m (Z.of_nat (length pre)) (elements b); Ok (RawBrb l)
              end = Ok c ->
    let o := BankObject name (elements b) (b_type b) (Z.of_nat (length pre)) c in
    exists s', GetBank T name s = Ok (Some o, s') /\ holding (names ++ [name]) s' /\ same_base s s' /\ self s' = self s.
Proof.
  intros Hs Hin Hb. pose proof (FindBank_named flags bs (name ++ [0]) behind Hev Hne Hbehind) as F. rewrite Hb in F. destruct F as (pre & post & Em & F).
  exists pre, post. split; [done|]. intros c Hc o. unfold GetBank, GetEventData. rewrite (not_cached name names s Hs Hin). destruct Hs as [Hs Hn].
  unfold GetMidasData, event_data. rewrite Hs, res_bind_Ok, Hdata, res_bind_Ok, F, res_bind_Ok. unfold construct. cbn [pdata bklen bktype]. fold m. rewrite Hc, !res_bind_Ok.
  eexists. split; [done|]. split_and!.
  - split; [done|]. cbn. by rewrite map_app, Hn.
  - exists (self s). eexists. split; [symmetry; apply with_self_container|]. split; [by symmetry | done].
  - done.
Qed.

(** Doubles of a bank. *)
Lemma bank_word_inside names s o b pre post n i : holding names s -> m = pre ++ b_data b ++ post -> fBankData o = Z.of_nat (length pre) -> 0 <= i ->
  (n * S (Z.to_nat i) <= length (b_data b))%nat -> exists x, in_container (bank_word n o i) s = Ok (x, s).
Proof.
  intros [Hs _] Em Ho Hi Hl. destruct (load_word_inside m (Z.of_nat (length pre) + Z.of_nat n * i) n) as [x Hx]; [lia | rewrite Em, !length_app; nia |].
  exists x. apply in_container_Ok. unfold bank_word, GetMidasData, event_data. rewrite Hs, res_bind_Ok, Hdata, res_bind_Ok, Ho. exact Hx.
Qed.

Lemma bank_word_value names s o pre values more post n i x : holding names s -> m = pre ++ (concat (map (le_bytes n) values) ++ more) ++ post ->
  fBankData o = Z.of_nat (length pre) -> Forall (fun w => 0 <= w < 256 ^ Z.of_nat n) values -> 0 <= i -> values !! Z.to_nat i = Some x ->
  in_container (bank_word n o i) s = Ok (x, s).
Proof.
  intros [Hs _] Em Ho Hv Hi Hx. apply in_container_Ok. unfold bank_word, GetMidasData, event_data. rewrite Hs, res_bind_Ok, Hdata, res_bind_Ok, Ho. fold m. rewrite Em, <- app_assoc.
  replace i with (Z.of_nat (Z.to_nat i)) by lia. by apply load_word_nth.
Qed.

(** The container has the event [e], and nothing is decoded. *)
Definition carries (e : midas_event) s : Prop := fMidasEventPointer (fDataContainer s) = Some e /\ fEventDataList (fDataContainer s) = [].

(** All but the members, the decoded banks and the rows of the tree. *)
Definition same_loop s s' : Prop := exists c cc r, s' = with_root r (with_self c (with_container cc s)) /\
  fMidasEventPointer cc = fMidasEventPointer (fDataContainer s) /\ fOwnMidasEventMemory cc = fOwnMidasEventMemory (fDataContainer s).

Lemma same_loop_trans s1 s2 s3 : same_loop s1 s2 -> same_loop s2 s3 -> same_loop s1 s3.
Proof. intros (c1 & cc1 & r1 & -> & P1 & O1) (c2 & cc2 & r2 & -> & P2 & O2). exists c2, cc2, r2. split; [done|]. cbn in *. split; congruence. Qed.

Lemma same_base_loop s s' : same_base s s' -> same_loop s s'.
Proof. intros (c & cc & -> & E1 & E2). exists c, cc, (root s). by destruct s. Qed.

(** Between events, with default settings. *)
Record ready s : Prop := Ready {
  rd_own : fOwnMidasEventMemory (fDataContainer s) = false;
  rd_list : fEventDataList (fDataContainer s) = [];
  rd_ids : fProcessEventIDs s = [];
  rd_max : fMaxEvents s = 0;
  rd_enabled : fDisableRootOutput s = false;
  rd_name : (length (fOutputFilename s) < 900)%nat
}.

(** The same but for what [same_loop] leaves open and whether there is a file. *)
Definition same_run s s' : Prop := exists b, same_loop (with_output b s) s'.

Lemma same_run_ready s s' : same_run s s' -> ready s -> ready (with_container (CleanupEvent (fDataContainer s')) s').
Proof. intros (b & c & cc & r & -> & _ & O) [H1 H2 H3 H4 H5 H6]. constructor; try done. cbn in *. congruence. Qed.

Lemma same_loop_run s s' : same_loop s s' -> same_run s s' /\ fOutputFile s' = fOutputFile s.
Proof. intros (c & cc & r & -> & H). split; [|done]. exists (fOutputFile s), c, cc, r. by destruct s. Qed.

Lemma same_run_loop s1 s2 s3 : same_run s1 s2 -> same_loop s2 s3 -> same_run s1 s3.
Proof. intros (b & c1 & cc1 & r1 & -> & P1 & O1) (c2 & cc2 & r2 & -> & P2 & O2). exists b, c2, cc2, r2. split; [done|]. cbn in *. split; congruence. Qed.

Lemma same_run_sys s s' : same_run s s' -> sys s' = sys s.
Proof. by intros (b & c & cc & r & -> & _). Qed.

End handler.

(** ** The file of the tree *)

Lemma decimal08_length n : (length (decimal08 n) <= 30)%nat.
Proof.
  assert (H : forall k m, (k <= 8)%nat -> (length (pad0 k (decimal m)) <= 28)%nat).
  { intros k m Hk. unfold pad0. rewrite length_app, length_replicate. pose proof (decimal_slen m) as D. unfold slen in D. lia. }
  unfold decimal08. destruct (n <? 0); cbn [length]; [specialize (H 7%nat (- n) ltac:(lia)) | specialize (H 8%nat n ltac:(lia))]; lia.
Qed.

Section output.
Context {A R V W : Type} `{HR : Root W R}.
Implicit Types s : event_loop A R V.

(** [SetFullOutputFileName] of the base. *)
Definition no_name (run : Z) (name : cstr) : cstr := [].

(** The name of the tree's file does not depend on that of the data. *)
Lemma OpenRootFile_ok run name s : fDisableRootOutput s = false -> (length (fOutputFilename s) < 900)%nat ->
  exists r, OpenRootFile no_name run name s = Ok (tt, with_output true (with_root r s)).
Proof.
  intros Hd Hn. unfold OpenRootFile. rewrite Hd.
  set (s1 := if fOutputFile s then _ else s).
  assert (Hs1 : exists r, with_output true s1 = with_output true (with_root r s) /\ fOutputFilename s1 = fOutputFilename s /\
    forall q, with_output true (with_root q s1) = with_output true (with_root q s)).
  { unfold s1. destruct (fOutputFile s); [by exists (write_and_close (root s))|]. exists (root s). by destruct s. }
  destruct Hs1 as (r1 & _ & En & Eq). clearbody s1. rewrite En. pose proof (decimal08_length run) as Hrun.
  assert (Hl : (length (fOutputFilename s ++ decimal08 run ++ str ".root") < 1024)%nat) by (rewrite !length_app; cbn; lia).
  apply Nat.ltb_lt in Hl. cbn zeta. rewrite (check_true _ _ Hl), res_bind_Ok.
  assert (Eb : match name with [] => [] | _ :: _ => no_name run name end = []) by (by destruct name). rewrite Eb, (check_true _ _ Hl), res_bind_Ok.
  eexists. by rewrite Eq.
Qed.

End output.

Section loop.
Context {A R V W : Type} `{HR : Root W R} `{HV : MidasIO V} {HVL : @MidasIOLaws V HV} {HA : @Analyzer A R V}.
Abbreviation L := (event_loop A R V).
Implicit Types s : L.

(** ** Operations on the file object *)

Lemma with_file_Ok {B} f (op : ST (on_file V) B) s b o : op (OnFile f (sys s)) = Ok (b, o) -> with_file f op s = Ok ((b, of_file o), with_sys (of_io o) s).
Proof. unfold with_file. intros ->. done. Qed.

Lemma file_closes (f : midas_file) s (b : bool) : exists f' v, with_file f (if b then Close else (_ ← Close; OutClose)) s = Ok ((tt, f'), with_sys v s).
Proof.
  unfold with_file. assert (C : forall o, exists o', Close (V := V) o = Ok (tt, o')).
  { intros o. unfold Close. rewrite ST_bind_eq. unfold the_file. destruct (fPoFile _), (fGzFile _), (0 <? _); eexists; reflexivity. }
  assert (D : forall o, exists o', OutClose (V := V) o = Ok (tt, o')).
  { intros o. unfold OutClose. rewrite ST_bind_eq. unfold the_file. destruct (fOutGzFile _), (0 <? _); eexists; reflexivity. }
  destruct (C (OnFile f (sys s))) as [o E]. destruct b; [rewrite E; by eexists _, _|]. rewrite (ST_bind_Ok _ _ _ _ _ E). destruct (D o) as [o' ->]. by eexists _, _.
Qed.

(** ** Events *)

Lemma carries_now e s : fOwnMidasEventMemory (fDataContainer s) = false ->
  (fun s => c ← SetMidasEventPointer e (fDataContainer s); Ok (tt, with_container c s)) s = Ok (tt, with_container (Container (Some e) false (fEventDataList (fDataContainer s))) s).
Proof. unfold SetMidasEventPointer. by intros ->. Qed.

(** An event with banks goes to the handler. *)
Lemma process_data e fname s s2 i e' (handled : bool) :
  event_kind (fEventHeader e) <> 0x8000 -> event_kind (fEventHeader e) <> 0x8001 -> event_kind (fEventHeader e) <> 0x8002 -> fProcessEventIDs s = [] ->
  SetBankList e = Ok (i, e') -> fOwnMidasEventMemory (fDataContainer s) = false ->
  let s1 := with_container (Container (Some e') false (fEventDataList (fDataContainer s))) s in
  PreFilter s1 = Ok (true, s1) -> ProcessMidasEvent s1 = Ok (handled, s2) ->
  process_event e fname s = Ok (tt, with_container (CleanupEvent (fDataContainer s2)) s2).
Proof.
  intros K0 K1 K2 Hids El Hown s1 Hpre Hproc. unfold process_event. unfold event_kind in *. rewrite !(proj2 (Z.eqb_neq _ _)) by done.
  assert (Hw : (fun s => Ok (CheckEventID (fEventId (fEventHeader e)) s, s)) s = Ok (true, s)) by (unfold CheckEventID; by rewrite Hids).
  rewrite (ST_bind_Ok _ _ _ _ _ Hw), ST_bind_eq. unfold lift_res. rewrite El.
  rewrite (ST_bind_Ok _ _ _ _ _ (carries_now e' s Hown)). fold s1. rewrite (ST_bind_Ok _ _ _ _ _ Hpre), (ST_bind_Ok _ _ _ _ _ Hproc). done.
Qed.

(** An event of a file, by what the handler does with it in the container. *)
Lemma process_physics {E} (event_is : list bank -> E -> Prop) h flags bs ev b fname s (P : L -> Prop) :
  entry_good (V := V) event_is (Physics h flags bs ev) -> from_malloc (V := V) (fDataSize h) b -> ready s -> (forall s0, PreFilter s0 = Ok (true, s0)) ->
  (forall e behind cc, readable flags behind -> fData e = Some (encode_event flags bs ++ behind) -> fEventHeader e = h ->
    let s1 := with_container cc s in carries e s1 -> ready s1 -> exists s2, ProcessMidasEvent s1 = Ok (true, s2) /\ same_run s1 s2 /\ P s2) ->
  exists s2, process_event (read_as (raw_of (Physics h flags bs ev)) b) fname s = Ok (tt, with_container (CleanupEvent (fDataContainer s2)) s2) /\
    P s2 /\ ready (with_container (CleanupEvent (fDataContainer s2)) s2) /\ sys s2 = sys s.
Proof.
  intros [Hraw (K0 & K1 & K2 & Hev & Hne & _ & Hroom)] Hb Hr Hpre Hh. unfold read_as. cbn [raw_of fst snd] in *.
  set (behind := drop _ b). assert (Hbehind : readable flags behind).
  { intros H32. specialize (Hroom H32 _ _ Hb). destruct Hraw as (_ & _ & Hlen & _). cbn [fst snd] in Hlen. unfold behind. rewrite length_drop. lia. }
  destruct (listed h flags bs behind true 0 Hev Hbehind) as (i & n & names & El).
  set (e := MidasEvent h (Some (encode_event flags bs ++ behind)) true n names) in El. set (cc := Container (Some e) false (fEventDataList (fDataContainer s))).
  destruct (Hh e behind cc Hbehind eq_refl eq_refl) as (s2 & E2 & B2 & P2); [split; [done | apply (rd_list _ Hr)] | by destruct Hr; constructor |].
  exists s2. split; [exact (process_data (MidasEvent h (Some (encode_event flags bs ++ behind)) true 0 None) fname s s2 i e true K0 K1 K2 (rd_ids _ Hr) El (rd_own _ Hr) (Hpre _) E2)|].
  split; [exact P2|]. split; [eapply same_run_ready; [exact B2 | by destruct Hr; constructor] | exact (same_run_sys _ _ B2)].
Qed.

(** The end of a run, and messages. *)
Lemma process_end e fname s : event_kind (fEventHeader e) = 0x8001 -> process_event e fname s = Ok (tt, s).
Proof. unfold event_kind, process_event. by intros ->. Qed.

Lemma process_message r b fname s : event_kind r.1 = 0x8002 -> In 0 r.2 -> process_event (read_as r b) fname s = Ok (tt, s).
Proof.
  unfold event_kind, process_event. cbn [fEventHeader read_as]. intros Hk Hz. rewrite Hk. change (0x8002 =? 0x8000) with false. change (0x8002 =? 0x8001) with false. change (0x8002 =? 0x8002) with true. cbv iota.
  rewrite ST_bind_eq. unfold lift_res at 1. cbn [event_data fData read_as]. unfold lift_res. rewrite check_true; [done|].
  apply bool_decide_eq_true, list_elem_of_In, in_or_app. by left.
Qed.

(** The event that begins a run: its data are the settings, as XML. *)
Lemma process_begin r b fname s : raw_ok r -> event_kind r.1 = 0x8000 ->
  process_event (read_as r b) fname s =
    (_ ← OpenRootFile SetFullOutputFileName (to_int (fSerialNumber r.1)) fname; BeginRun 0 (to_int (fSerialNumber r.1)) 0)
      (with_run (to_int (fSerialNumber r.1)) (with_root (new_XmlOdb r.2 (root s)) s)).
Proof.
  intros (Hh & _ & Hlen & _) Hk. unfold process_event, read_as. cbn [fEventHeader]. unfold event_kind in Hk. rewrite Hk, Z.eqb_refl.
  rewrite ST_bind_eq. unfold lift_res at 1. cbn [event_data fData]. rewrite ST_bind_eq. unfold lift_res. rewrite Hlen, Nat2Z.id.
  assert (Eb : bytes_at (r.2 ++ drop (length r.2) b) 0 (length r.2) = Ok r.2) by (by apply (bytes_at_app [] r.2)). by rewrite Eb.
Qed.

(** ** Invariants *)

Section invariant.
Context {X Y : Type} (raw_of : X -> raw_event) (good : X -> Y -> Prop) (next : X -> Y -> Y) (Inv : Y -> L -> Prop).
Hypothesis step : forall fname x b y s, good x y -> from_malloc (V := V) (fDataSize (raw_of x).1) b -> Inv y s ->
  exists s', process_event (read_as (raw_of x) b) fname s = Ok (tt, s') /\ Inv (next x y) s' /\ sys s' = sys s.
Hypothesis good_raw : forall x y, good x y -> raw_ok (raw_of x).
Hypothesis Inv_sys : forall y v s, Inv y s -> Inv y (with_sys v s).
Hypothesis Inv_max : forall y s, Inv y s -> fMaxEvents s = 0.

Fixpoint all_good (l : list X) (y : Y) : Prop := match l with [] => True | x :: l' => good x y /\ all_good l' (next x y) end.
Fixpoint last_state (l : list X) (y : Y) : Y := match l with [] => y | x :: l' => last_state l' (next x y) end.

(** The bytes that the file object has before it. *)
Definition unread (f : midas_file) s : list Z := coming (OnFile f (sys s)).

Lemma loop_ok fname l : forall i y s f cut fuel, all_good l y -> cut_event cut ->
  fDoByteSwap f = false -> unread f s = concat (map (fun x => raw_bytes (raw_of x)) l) ++ cut ->
  Inv y s -> 0 <= i -> i + Z.of_nat (length l) <= 2 ^ 31 - 1 -> (length l < fuel)%nat ->
  exists f' s', read_loop fuel fname f i s = Ok (f', s') /\ Inv (last_state l y) s'.
Proof.
  induction l as [|x l IH]; intros i y s f cut fuel Hl (r & more & Hr & Hcut & Hm) Hswap Hc Hinv Hi Hmax Hfuel; (destruct fuel as [|fuel]; [cbn in Hfuel; lia|]); cbn [read_loop].
  - destruct (Read_cut r cut more (OnFile f (sys s)) Hr Hswap Hcut Hm Hc) as (e & o & E & _). rewrite (ST_bind_Ok _ _ _ _ _ (with_file_Ok f _ s _ o E)). cbn [negb].
    eexists _, _. split; [reflexivity|]. by apply Inv_sys.
  - destruct Hl as [Hx Hl]. unfold unread in Hc. cbn [map concat] in Hc. rewrite <- app_assoc in Hc.
    destruct (Read_block _ _ (OnFile f (sys s)) (good_raw _ _ Hx) Hswap Hc) as (b & o & E & Hb & Ff & Hc'). rewrite (ST_bind_Ok _ _ _ _ _ (with_file_Ok f _ s _ o E)). cbn [negb].
    cbn [of_file] in Ff. rewrite Ff. cbn [length] in Hmax, Hfuel.
    destruct (step fname x b y (with_sys (of_io o) s) Hx Hb (Inv_sys _ _ _ Hinv)) as (s1 & E1 & I1 & V1).
    unfold read_as in E1. rewrite (ST_bind_Ok _ _ _ _ _ E1). rewrite ST_bind_eq. unfold lift_res. rewrite check_true by (apply Z.ltb_lt; lia).
    rewrite ST_bind_eq. rewrite (Inv_max _ _ I1). change (negb (0 =? 0) && (0 <=? i + 1)) with false. cbv iota.
    assert (Hu : unread f s1 = concat (map (fun x => raw_bytes (raw_of x)) l) ++ cut).
    { unfold unread. rewrite V1. rewrite <- Hc'. destruct o as [g w]. cbn [of_file] in Ff. by subst g. }
    cbn [last_state]. apply (IH (i + 1) (next x y) s1 f cut fuel); try done; (lia || by exists r, more).
Qed.

(** A file object that reads these bytes. *)
Definition opens (fname : cstr) (v : V) (bytes : list Z) : Prop :=
  exists o, Open fname (OnFile TMidasFile v) = Ok (true, o) /\ fDoByteSwap (of_file o) = false /\ coming o = bytes.

Definition file_bytes (l : list X) (cut : list Z) : list Z := concat (map (fun x => raw_bytes (raw_of x)) l) ++ cut.

(** The file of the output, closed. *)
Definition closed s : L := if fOutputFile s then with_output false (with_root (write_and_close (root s)) s) else s.

Hypothesis end_run : forall a b c s, EndRun a b c s = Ok (tt, s).

Lemma file_ok fuel fname l cut y s : Inv y s -> opens fname (sys s) (file_bytes l cut) -> cut_event cut -> all_good l y ->
  Z.of_nat (length l) <= 2 ^ 31 - 1 -> (length l < fuel)%nat ->
  exists s2 v v', Inv (last_state l y) s2 /\ ProcessMidasFile fuel fname s = Ok (0, with_sys v' (closed (with_sys v s2))).
Proof.
  intros Hinv (o & Ho & Hswap & Hc) Hcut Hl Hmax Hfuel. unfold ProcessMidasFile. rewrite (ST_bind_Ok _ _ _ _ _ (with_file_Ok TMidasFile _ s _ o Ho)). cbn [negb].
  destruct (loop_ok fname l 0 y (with_sys (of_io o) s) (of_file o) cut fuel Hl Hcut Hswap) as (f' & s2 & E3 & I2); [| by apply Inv_sys | lia | lia | lia |].
  { unfold unread. unfold file_bytes in Hc. rewrite <- Hc. by destruct o. }
  rewrite (ST_bind_Ok _ _ _ _ _ E3). destruct (file_closes f' s2 true) as (f2 & v2 & E4). rewrite (ST_bind_Ok _ _ _ _ _ E4).
  rewrite ST_bind_eq, (ST_bind_Ok _ _ _ _ _ (end_run _ _ _ _)), ST_bind_eq. unfold CloseRootFile, modify. cbv beta. fold (closed (with_sys v2 s2)).
  destruct (file_closes f2 (closed (with_sys v2 s2)) false) as (f4 & v4 & E5). cbv iota in E5. rewrite (ST_bind_Ok _ _ _ _ _ E5).
  exists s2, v2, v4. done.
Qed.
End invariant.

Lemma closed_self s v v' : self (with_sys v' (closed (with_sys v s))) = self s /\ (fOutputFile s = true -> root (with_sys v' (closed (with_sys v s))) = write_and_close (root s)).
Proof. unfold closed. cbn [fOutputFile with_sys]. by destruct (fOutputFile s). Qed.

(** A name that is not that of a file. *)
Definition no_file (arg : cstr) : Prop := forall v : V, exists o, Open arg (OnFile TMidasFile v) = Ok (false, o).

Lemma file_missing fuel arg s : no_file arg -> exists v, ProcessMidasFile fuel arg s = Ok (-1, with_sys v s).
Proof.
  intros Hn. destruct (Hn (sys s)) as [o E]. unfold ProcessMidasFile. rewrite (ST_bind_Ok _ _ _ _ _ (with_file_Ok TMidasFile _ s _ o E)). cbn [negb].
  destruct (file_closes (of_file o) (with_sys (of_io o) s) false) as (f' & v & E2). cbv iota in E2. rewrite (ST_bind_Ok _ _ _ _ _ E2). by exists v.
Qed.

(** ** Arguments *)

Lemma not_dash t lit arg : t = "-"%char :: lit -> no_option arg -> starts t arg = false /\ streq arg t = false.
Proof.
  intros ->. unfold no_option. intros Ha. assert (H : forall v, arg <> "-"%char :: v).
  { intros v ->. cbn in Ha. by destruct v. }
  split.
  - apply not_true_iff_false. intros [v E]%starts_spec. by apply (H (lit ++ v)).
  - apply not_true_iff_false. intros E%streq_true. by apply (H lit).
Qed.

Lemma process_option_none arg s : no_option arg -> process_option arg s = Ok (false, s).
Proof.
  intros Ha. unfold process_option. repeat match goal with
    | |- context [starts ?t arg] => rewrite (proj1 (not_dash t _ arg eq_refl Ha))
    | |- context [streq arg ?t] => rewrite (proj2 (not_dash t _ arg eq_refl Ha))
    end. done.
Qed.

Lemma process_options_none args s : Forall no_option args -> process_options args s = Ok (false, s).
Proof.
  induction 1 as [|arg args Ha _ IH]; [done|]. cbn [process_options]. rewrite (ST_bind_Ok _ _ _ _ _ (process_option_none arg s Ha)), (ST_bind_Ok _ _ _ _ _ IH). done.
Qed.

Lemma ExecuteLoop_files fuel arg args s : Initialize (with_offline true s) = Ok (tt, with_offline true s) -> fUseBatchMode s = true -> Forall no_option (arg :: args) ->
  ExecuteLoop fuel (arg :: args) s = (_ ← process_files fuel (arg :: args); mret 0) (with_offline true s).
Proof.
  intros Hinit Hb Hn. unfold ExecuteLoop. assert (Hh : existsb (fun a => streq a (str "-h")) (arg :: args) = false).
  { apply not_true_iff_false. intros H. apply existsb_exists in H as (a & Hin & Ha). rewrite Forall_forall in Hn.
    rewrite (proj2 (not_dash (str "-h") _ a eq_refl (Hn a ltac:(by apply list_elem_of_In)))) in Ha. done. }
  rewrite Hh. rewrite ST_bind_eq. rewrite Hb, andb_false_r. rewrite (ST_bind_Ok _ _ _ _ _ (process_options_none _ s Hn)).
  assert (Ho : existsb (fun a => negb (starts (str "-") a)) (arg :: args) = true) by (cbn [existsb]; pose proof (Forall_inv Hn) as Ha; unfold no_option in Ha; by rewrite Ha).
  rewrite Ho. cbv zeta iota. rewrite ST_bind_eq. unfold modify. by rewrite (ST_bind_Ok _ _ _ _ _ Hinit).
Qed.

Lemma process_files_cons fuel arg args s k s' : no_option arg -> ProcessMidasFile fuel arg s = Ok (k, s') ->
  process_files fuel (arg :: args) s = process_files fuel args s'.
Proof. unfold no_option. intros Hn E. cbn [process_files]. rewrite Hn. cbn [negb]. rewrite ST_bind_eq. rewrite (ST_bind_Ok _ _ _ _ _ E). done. Qed.
End loop.
