(* ===== verification/OneFile.v ===== *)
(** * A system with one file and a simulated ROOT

    What the witnesses and the examples of the converters run on: a system that has the file
    [run.mid], trees that are lists of rows, and events with one bank. *)

From S2P Require Import Prelude CStr MidasEvent MidasBanks MidasFile MidasStream DataContainer EventLoop FileLoop.

Ltac by_computation := refine (bool_decide_unpack _ _); vm_compute; exact I.

(** ** A simulated ROOT *)

Record sim_tree (W : Type) := SimTree { t_alive : bool; t_rows : list W }.
Arguments SimTree {W}.
Arguments t_alive {W}.
Arguments t_rows {W}.
Record sim_root (W : Type) := SimRoot { sim_files : list cstr; sim_trees : list (sim_tree W) }.
Arguments SimRoot {W}.
Arguments sim_files {W}.
Arguments sim_trees {W}.

(** Tree 1 is the first of the list; a file that is closed deletes the trees. *)
Definition sim_tree_at {W} (t : Z) (r : sim_root W) : option (sim_tree W) := if t <=? 0 then None else sim_trees r !! Z.to_nat (t - 1).

#[export] Instance sim W : Root W (sim_root W) := {
  new_TFile name r := SimRoot (sim_files r ++ [name]) (sim_trees r);
  write_and_close r := SimRoot (sim_files r) (map (fun t => SimTree false (t_rows t)) (sim_trees r));
  new_TTree r := (Z.of_nat (length (sim_trees r)) + 1, SimRoot (sim_files r) (sim_trees r ++ [SimTree true []]));
  tree_alive t r := match sim_tree_at t r with Some x => t_alive x | None => false end;
  tree_fill t w r := SimRoot (sim_files r) (alter (fun x => SimTree (t_alive x) (t_rows x ++ [w])) (Z.to_nat (t - 1)) (sim_trees r));
  new_XmlOdb _ r := r;
  is_batch _ := false;
  run_test r := r
}.

#[export] Instance sim_laws W : RootLaws W (sim_root W).
Proof.
  refine {| tree_rows t r := match sim_tree_at t r with Some x => t_rows x | None => [] end |}.
  - intros r. cbn [new_TTree sim fst snd tree_alive]. unfold sim_tree_at. cbn [sim_trees]. rewrite (proj2 (Z.leb_gt _ _)) by lia.
    replace (Z.to_nat (Z.of_nat (length (sim_trees r)) + 1 - 1)) with (length (sim_trees r)) by lia. rewrite list_lookup_middle by done. split_and!; done || lia.
  - intros t w r. cbn [tree_alive tree_fill sim]. unfold sim_tree_at. cbn [sim_trees]. destruct (Z.leb_spec t 0); [done|].
    rewrite list_lookup_alter_eq. by destruct (sim_trees r !! Z.to_nat (t - 1)).
Defined.

(** ** A system with one file *)

Definition one_file : MidasIO disk := {|
  io_open name _ v := (if streq name (str "run.mid") then 3 else -1, v); fd_of_pipe _ v := (Some 4, v); gzdopen _ _ v := (true, v); gzsetparams v := (true, v);
  io_read _ := disk_read; gzread := disk_gzread; io_write _ := disk_write; gzwrite := disk_write;
  io_close _ v := v; io_pclose v := v; gzclose _ v := v; malloc n v := (Some (replicate (Z.to_nat n) 165), v);
  io_errno _ := 2; strerror _ := str "No such file"
|}.

Definition one_file_laws : @MidasIOLaws disk one_file.
Proof.
  refine (Build_MidasIOLaws disk one_file (fun _ v => d_in v) (fun _ v => d_out v) (@read_some disk disk_io disk_laws) (@gzread_all disk disk_io disk_laws)
    (@write_all disk disk_io disk_laws) (@gzwrite_all disk disk_io disk_laws) _).
  intros n v. eexists _, v. split; [reflexivity|]. rewrite length_replicate. split; [lia | done].
Defined.

(** ** Events *)

Definition bank_of (name : list Z) (type : Z) (data : list Z) : bank := Bank (take 4 (name ++ [0])) type data.
Definition demo_header (id serial time : Z) (data : list Z) : event_header := EventHeader id 0 serial time (Z.of_nat (length data)).
Definition demo_xml : list Z := map code (str "<?xml version=1?>").
Definition demo_message : list Z := [104; 105; 32; 116; 104; 101; 114; 101; 0].

Lemma one_bank_ok b : length (b_name b) = 4%nat -> 0 <= b_type b < TID_MAX -> size_of b + 30 < 65536 -> event_ok 1 [b].
Proof.
  intros Hn Ht Hs. assert (Hb : bank_ok (is_bank32 1) b) by (split_and!; [done | lia | lia | change (256 ^ Z.of_nat (field (is_bank32 1))) with 65536; lia]).
  split; [lia|]. split; [constructor; [exact Hb | constructor]|]. unfold encode_banks. cbn [map concat]. rewrite app_nil_r. pose proof (length_encode_bank _ b Hb) as E.
  rewrite E. unfold header_size. change (is_bank32 1) with false. cbv iota. pose proof (align8_range (size_of b) ltac:(unfold size_of; lia)). unfold BANK_SIZE. lia.
Qed.


(** An event with one bank can be written. *)
Lemma one_bank_raw time b : 0 <= time < 2 ^ 32 -> event_ok 1 [b] -> size_of b + 30 < 65536 -> raw_ok (demo_header 1 0 time (encode_event 1 [b]), encode_event 1 [b]).
Proof.
  intros Htime Hok Hs.
  assert (Hl : 16 <= Z.of_nat (length (encode_event 1 [b])) < 2 ^ 17).
  { unfold encode_event. rewrite !length_app, !length_le_bytes. unfold encode_banks. cbn [map concat]. rewrite app_nil_r.
    destruct Hok as (_ & Hb & _). pose proof (length_encode_bank _ b (Forall_inv Hb)) as E. unfold header_size in E. change (is_bank32 1) with false in *. cbv iota in E.
    pose proof (align8_range (size_of b) ltac:(unfold size_of; lia)). unfold BANK_SIZE in E. unfold size_of in *. lia. }
  unfold demo_header. split; [unfold header_ok; cbn [fst snd fEventId fTriggerMask fSerialNumber fTimeStamp fDataSize]; lia|].
  split; [unfold IsGoodSize; cbn [fst fDataSize]; apply andb_true_iff; split; bsolve|]. split; [done|].
  eexists _, 1. split; [|split; [rewrite <- (app_nil_r (snd _)); by apply event_flags | left; lia]].
  unfold bh_size, encode_event. cbn [snd]. rewrite <- (app_nil_l (_ ++ _)). apply load_word_app; [done|]. destruct Hok as (_ & _ & Hok). change (256 ^ Z.of_nat 4) with (2 ^ 32). lia.
Qed.

Lemma text_raw id time : id = 0x8001 \/ id = 0x8002 -> 0 <= time < 2 ^ 32 -> raw_ok (demo_header id 0 time demo_message, demo_message).
Proof.
  intros Hid Ht. split; [unfold header_ok; cbn [fst fEventId fTriggerMask fSerialNumber fTimeStamp fDataSize demo_header]; change (Z.of_nat (length demo_message)) with 9; lia|].
  split; [by vm_compute|]. split; [by vm_compute|]. exists 0x74206968, 0x65726568. split; [by vm_compute|]. split; [by vm_compute|]. right; right. by vm_compute.
Qed.

Lemma xml_raw : raw_ok (demo_header 0x8000 4711 100 demo_xml, demo_xml).
Proof. split; [by_computation|]. split; [by vm_compute|]. split; [by vm_compute|]. exists 0x6d783f3c. eexists. split; [by vm_compute|]. split; [by vm_compute | by right; left]. Qed.

(** Twenty bytes of an event. *)
Definition demo_cut : list Z := take 20 (raw_bytes (demo_header 0x8000 4711 100 demo_xml, demo_xml)).
Lemma demo_cut_event : cut_event demo_cut.
Proof.
  exists (demo_header 0x8000 4711 100 demo_xml, demo_xml), (drop 20 (raw_bytes (demo_header 0x8000 4711 100 demo_xml, demo_xml))).
  split; [apply xml_raw|]. split; [symmetry; apply take_drop | by vm_compute].
Qed.

Definition demo_physics {E} (time : Z) (b : bank) (ev : E) : file_entry E := Physics (demo_header 1 0 time (encode_event 1 [b])) 1 [b] ev.

Lemma demo_physics_ok {E} (event_is : list bank -> E -> Prop) time b ev : 0 <= time < 2 ^ 32 -> length (b_name b) = 4%nat -> 0 <= b_type b < TID_MAX -> size_of b + 30 < 65536 ->
  event_is [b] ev -> entry_good (HV := one_file) (HVL := one_file_laws) event_is (demo_physics time b ev).
Proof.
  intros Htime Hn Ht Hs He. pose proof (one_bank_ok b Hn Ht Hs) as Hok. split; [by apply one_bank_raw|]. split_and!; try done; by vm_compute.
Qed.
