(* ===== verification/PtfScan.v ===== *)
(** * The converter of the PTF scans: what an event does

    A scan as an abstract machine: whether a measurement is going on, the points of the
    digitizer and the readings of the Phidgets in it.  Handling one event by the
    converter is one step of the machine. *)

From S2P Require Import Prelude CStr MidasEvent MidasBanks MidasFile Digitizer Waveforms DataContainer EventLoop FileLoop PtfConverter.

(** ** The abstract scan *)

Record point := Point { pt_time : Z; pt_windows : list (list Z) }.
Record scan := Scan { sc_accept : bool; sc_points : list point; sc_readings : var -> list (list Z) }.

(** What an event is to the scan: a reading is of the [k]th Phidget. *)
Inductive scan_event :=
  | EndOfMove
  | NextMove
  | Pulse (data : waveforms)
  | Reading (k : nat) (values : list Z)
  | Other.

Definition chan (data : waveforms) (i : nat) : list Z := match data !! i with Some (Some l) => l | _ => [] end.
Definition window_of (l : list Z) (from : Z) : list Z := map (fun ib => sample_at l (ib + from) 9999999) (channels (Z.to_nat num_v1730_max)).
Definition point_of (t : Z) (data : waveforms) : point :=
  Point t [window_of (chan data 0) timeStart; window_of (chan data 1) 0; window_of (chan data 2) timeStart].

Definition phidget_var (k : nat) : var := match phidgets !! k with Some (_, n, _) => n | None => counter end.

(** The new state, and the row that is filled: the time and the state that it
    shows. *)
Definition scan_step (t : Z) (ev : scan_event) (sc : scan) : scan * option (Z * scan) :=
  match ev with
  | EndOfMove => (Scan true (sc_points sc) (sc_readings sc), None)
  | NextMove => (Scan false [] (fun _ => []), Some (t, sc))
  | Pulse data =>
      (if sc_accept sc && (Z.of_nat (length (sc_points sc)) <? nPoints_max) then Scan true (sc_points sc ++ [point_of t data]) (sc_readings sc) else sc, None)
  | Reading k values =>
      (if sc_accept sc then Scan true (sc_points sc) (fun n => if decide (n = phidget_var k) then sc_readings sc n ++ [values] else sc_readings sc n) else sc, None)
  | Other => (sc, None)
  end.

(** ** What the banks of an event say *)

(** A bank of doubles, if it is there. *)
Definition doubles_ok (name : list Z) (n : nat) (bs : list bank) : Prop :=
  match first_named (name ++ [0]) bs with None => True | Some b => (8 * n <= length (b_data b))%nat end.
Definition counter_ok (name : list Z) (bs : list bank) : Prop :=
  match first_named (name ++ [0]) bs with None => True | Some b => exists n, int_of_double (le_word (take 8 (b_data b))) = Ok n end.

(** The digitizer has sent channels 0, 1 and 2, with at least the samples that
    are stored. *)
Definition pulse_bank (b : bank) (data : waveforms) : Prop :=
  exists hs n more, b_data b = concat (map (le_bytes 4) (hs ++ packed (present 0 data))) ++ more /\
    v1730_ok hs data n /\ Forall (fun w => 0 <= w < 2 ^ 32) hs /\ num_v1730_max <= 2 * Z.of_nat n /\
    forall i, (i < 3)%nat -> exists l, data !! i = Some (Some l).

Definition event_is (bs : list bank) (ev : scan_event) : Prop :=
  absent name_V1730 bs /\
  match ev with
  | EndOfMove => ~ absent EOM bs
  | NextMove => absent EOM bs /\ ~ absent BONM bs
  | Pulse data => absent EOM bs /\ absent BONM bs /\ exists b, first_named (V730 ++ [0]) bs = Some b /\ pulse_bank b data
  | Reading k values =>
      absent EOM bs /\ absent BONM bs /\ absent V730 bs /\
      exists name n fields b more, phidgets !! k = Some (name, n, fields) /\ Forall (fun p => absent p.1.1 bs) (take k phidgets) /\
        first_named (name ++ [0]) bs = Some b /\ b_data b = concat (map (le_bytes 8) values) ++ more /\
        Forall (fun w => 0 <= w < 2 ^ 64) values /\ Forall (fun f => 0 <= f.2 /\ (Z.to_nat f.2 < length values)%nat) fields
  | Other =>
      absent EOM bs /\ absent BONM bs /\ absent V730 bs /\ Forall (fun p => absent p.1.1 bs) phidgets /\
      doubles_ok ENVT 2 bs /\ doubles_ok CYC0 12 bs /\ counter_ok CYC0 bs /\ doubles_ok MAG0 77 bs /\ counter_ok MAG0 bs
  end.

(** ** The arrays as lists *)

Lemma seq_snoc_Z n : 0 <= n -> seq 0 (Z.to_nat (n + 1)) = seq 0 (Z.to_nat n) ++ [Z.to_nat n].
Proof. intros Hn. replace (Z.to_nat (n + 1)) with (Z.to_nat n + 1)%nat by lia. by rewrite seq_app. Qed.

Lemma elements_of_snoc m n x : 0 <= n -> elements_of (<[n := x]> m) (n + 1) = elements_of m n ++ [Some x].
Proof.
  intros Hn. unfold elements_of. rewrite seq_snoc_Z, map_app by done. cbn [map]. rewrite Z2Nat.id, lookup_insert by done. case_decide; [|done]. f_equal.
  apply map_ext_in. intros i Hi. apply in_seq in Hi. rewrite lookup_insert_ne; [done | lia].
Qed.

Lemma waves_of_snoc m m' n l : 0 <= n -> (forall i j, 0 <= i < n -> 0 <= j < num_v1730_max -> m' !! (i, j) = m !! (i, j)) ->
  (forall j, 0 <= j < num_v1730_max -> m' !! (n, j) = nth_error l (Z.to_nat j)) -> length l = Z.to_nat num_v1730_max ->
  waves_of m' (n + 1) = waves_of m n ++ [map Some l].
Proof.
  intros Hn Hold Hnew Hl. unfold waves_of. rewrite seq_snoc_Z, map_app by done. cbn [map]. f_equal.
  - apply map_ext_in. intros i Hi. apply map_ext_in. intros j Hj. apply in_seq in Hi, Hj. apply Hold; lia.
  - f_equal. rewrite Z2Nat.id by done. rewrite <- Hl.
    assert (G : forall k (u : list Z), l = u ++ drop (length u) l -> (length u + k)%nat = length l ->
      map (fun j => m' !! (n, Z.of_nat j)) (seq (length u) k) = map Some (drop (length u) l)).
    { induction k as [|k IH]; intros u Eu Hk; [rewrite drop_ge by lia; done|]. destruct (drop (length u) l) as [|x v] eqn:Ed.
      { apply (f_equal length) in Ed. rewrite length_drop in Ed. cbn in Ed. lia. }
      cbn [seq map]. rewrite Hnew by lia. rewrite Nat2Z.id. f_equal.
      - rewrite Eu. rewrite nth_error_app2 by lia. by rewrite Nat.sub_diag.
      - assert (Ed' : drop (length (u ++ [x])) l = v) by (rewrite Eu, length_app; cbn [length]; rewrite <- drop_drop, drop_app_length; done).
        specialize (IH (u ++ [x])). rewrite Ed', <- app_assoc, length_app, Nat.add_1_r in IH. apply IH; [done | lia]. }
    exact (G (length l) [] eq_refl eq_refl).
Qed.

(** ** The members as the scan *)

Definition doubles (l : list Z) : list (option Z) := map (fun x => Some (double_of_int x)) l.

(** [k] bounds the counters of the events. *)
Record tracks (k : Z) (sc : scan) (c : converter) : Prop := Tracks {
  tr_accept : gbl_accept_banks c = sc_accept sc;
  tr_points : vars c num_points = Z.of_nat (length (sc_points sc));
  tr_max : vars c num_points <= nPoints_max;
  tr_times : elements_of (arrays c evt_timestamp) (vars c num_points) = doubles (map pt_time (sc_points sc));
  tr_waves : forall j w, [V1730_wave0; V1730_wave1; V1730_wave2] !! j = Some w ->
    waves_of (waves c w) (vars c num_points) = map (fun p => doubles (nth j (pt_windows p) [])) (sc_points sc);
  tr_readings : forall name n fields, In (name, n, fields) phidgets -> vars c n = Z.of_nat (length (sc_readings sc n)) /\ vars c n <= num_phidg_max /\
    forall a i, In (a, i) fields -> elements_of (arrays c a) (vars c n) = map (fun r => r !! Z.to_nat i) (sc_readings sc n);
  tr_good : 0 <= vars c ngoodTDCbanks <= k;
  tr_bad : 0 <= vars c nbadTDCbanks <= k
}.

(** The variables and arrays that say what the scan is. *)
Definition tracked_vars : list var :=
  [num_points; num_phidg0_points; num_phidg1_points; num_phidg3_points; num_phidg4_points; num_ACC_points; ngoodTDCbanks; nbadTDCbanks].

(** All of it is the same. *)
Definition same_scan (c c' : converter) : Prop :=
  (forall v, In v tracked_vars -> vars c' v = vars c v) /\ (forall a, a <> temperatures -> arrays c' a = arrays c a) /\
  waves c' = waves c /\ tree c' = tree c /\ gbl_accept_banks c' = gbl_accept_banks c /\ run_numb c' = run_numb c.

Lemma same_scan_refl c : same_scan c c.
Proof. done. Qed.
Lemma same_scan_trans c1 c2 c3 : same_scan c1 c2 -> same_scan c2 c3 -> same_scan c1 c3.
Proof.
  intros (A1 & A2 & A3 & A4 & A5 & A6) (B1 & B2 & B3 & B4 & B5 & B6). split_and!; try congruence.
  - intros v Hv. rewrite B1, A1; done.
  - intros a Ha. rewrite B2, A2; done.
Qed.
Lemma same_scan_var c v x : ~ In v tracked_vars -> same_scan c (set_var v x c).
Proof. intros Hv. split_and!; try done. intros w Hw. cbn. case_decide; [by subst | done]. Qed.
Lemma put_Ok a i x c : 0 <= i < arr_size a -> put a i x c = Ok (set_arr a (<[i := x]> (arrays c a)) c).
Proof. intros Hi. unfold put. rewrite check_true; [done|]. rewrite andb_true_iff, Z.leb_le, Z.ltb_lt. lia. Qed.

Lemma same_scan_temperature c i x c' : put temperatures i x c = Ok c' -> same_scan c c'.
Proof.
  unfold put. destruct (check _ _); [|done]. rewrite res_bind_Ok. intros [= <-]. split_and!; try done. intros b Hb. cbn. by case_decide.
Qed.

(** The Phidgets have variables and arrays of their own. *)
Lemma phidget_vars_tracked name n fields : In (name, n, fields) phidgets -> In n tracked_vars /\ n <> num_points /\ n <> ngoodTDCbanks /\ n <> nbadTDCbanks.
Proof. cbn. intros [E|[E|[E|[E|[E|[]]]]]]; injection E as <- <- <-; cbn; split_and!; (done || tauto). Qed.

Lemma phidget_arrays name n fields a i : In (name, n, fields) phidgets -> In (a, i) fields -> a <> temperatures /\ a <> evt_timestamp /\ arr_size a = num_phidg_max.
Proof.
  cbn. intros [E|[E|[E|[E|[E|[]]]]]] Hf; injection E as <- <- <-; cbn in Hf;
    repeat destruct Hf as [Hf|Hf]; (done || (injection Hf as <- <-; split_and!; done)).
Qed.

Definition arrays_of (p : list Z * var * list (arr * Z)) : list arr := map fst p.2.

Lemma phidget_apart : forallb (fun k => forallb (fun j => bool_decide (k = j) ||
  match phidgets !! k, phidgets !! j with
  | Some p, Some q => bool_decide (p.1.2 <> q.1.2) && forallb (fun a => negb (bool_decide (a ∈ arrays_of q))) (arrays_of p) && bool_decide (NoDup (arrays_of p))
  | _, _ => true
  end) (seq 0 5)) (seq 0 5) = true.
Proof. by vm_compute. Qed.

Lemma same_scan_tracks k sc c c' : same_scan c c' -> tracks k sc c -> tracks k sc c'.
Proof.
  intros (S1 & S2 & S3 & S4 & S5 & S6) [T1 T2 T3 T4 T5 T6 T7 T8].
  assert (Hn : vars c' num_points = vars c num_points) by (apply S1; cbn; tauto).
  assert (Hg : vars c' ngoodTDCbanks = vars c ngoodTDCbanks) by (apply S1; cbn; tauto).
  assert (Hb : vars c' nbadTDCbanks = vars c nbadTDCbanks) by (apply S1; cbn; tauto).
  constructor; rewrite ?Hn, ?Hg, ?Hb, ?S3, ?S5; try done.
  - by rewrite S2.
  - intros name n fields Hp. destruct (phidget_vars_tracked _ _ _ Hp) as (Ht & _). rewrite (S1 n Ht). destruct (T6 _ _ _ Hp) as (A & B & C). split_and!; try done.
    intros a i Hf. destruct (phidget_arrays _ _ _ _ _ Hp Hf) as (Ha & _). rewrite S2 by done. by apply C.
Qed.

Lemma tracks_more k k' sc c : k <= k' -> tracks k sc c -> tracks k' sc c.
Proof. intros Hk [T1 T2 T3 T4 T5 T6 T7 T8]. constructor; try done; lia. Qed.

(** ** Waveforms of a point *)

(** All but the waveforms is the same. *)
Definition same_but_waves (c c' : converter) : Prop :=
  vars c' = vars c /\ arrays c' = arrays c /\ tree c' = tree c /\ gbl_accept_banks c' = gbl_accept_banks c /\ run_numb c' = run_numb c.

Lemma store_samples_ok w i from meas : 0 <= i < nPoints_max -> forall ibs c, Forall (fun ib => 0 <= ib < num_v1730_max) ibs ->
  exists c', store_samples w i from meas ibs c = Ok c' /\ same_but_waves c c' /\ (forall u, u <> w -> waves c' u = waves c u) /\
    (forall a b, ~ (a = i /\ In b ibs) -> waves c' w !! (a, b) = waves c w !! (a, b)) /\
    (forall b, In b ibs -> waves c' w !! (i, b) = Some (double_of_int (GetSample meas (b + from)))).
Proof.
  intros Hi. induction ibs as [|ib ibs IH]; intros c Hb; cbn [store_samples].
  - exists c. split_and!; done.
  - pose proof (Forall_inv Hb) as H0. cbn beta in H0. set (x := double_of_int (GetSample meas (ib + from))). set (c1 := set_wave w (<[(i, ib) := x]> (waves c w)) c).
    assert (E : put_wave w i ib x c = Ok c1).
    { unfold put_wave. rewrite check_true; [done|]. rewrite !andb_true_iff, !Z.leb_le, !Z.ltb_lt. lia. }
    rewrite E, res_bind_Ok. destruct (IH c1 (Forall_inv_tail Hb)) as (c' & E' & (S1 & S2 & S3 & S4 & S5) & Hu & Hold & Hnew).
    exists c'. split; [done|]. split; [done|]. split_and!.
    + intros u Hne. rewrite Hu by done. cbn. by rewrite decide_False.
    + intros a b Hab. rewrite Hold by (intros [-> Hin]; apply Hab; split; [done | by right]). cbn. rewrite decide_True by done.
      rewrite lookup_insert_ne; [done|]. intros [= -> ->]. apply Hab. split; [done | by left].
    + intros b [<-|Hin]; [|by apply Hnew]. destruct (In_dec Z.eq_dec ib ibs) as [Hin|Hin]; [by apply Hnew|].
      rewrite Hold by tauto. cbn. rewrite decide_True by done. by rewrite lookup_insert_eq.
Qed.

Lemma window_is a w f : window a = Some (w, f) ->
  a = match w with V1730_wave0 => 0 | V1730_wave1 => 1 | V1730_wave2 => 2 end /\ f = match w with V1730_wave1 => 0 | _ => timeStart end.
Proof.
  unfold window. destruct (Z.eqb_spec a 0); [by intros [= <- <-]|]. destruct (Z.eqb_spec a 1); [by intros [= <- <-]|]. destruct (Z.eqb_spec a 2); [by intros [= <- <-] | done].
Qed.

Lemma window_inj a b w f f' : window a = Some (w, f) -> window b = Some (w, f') -> a = b /\ f = f'.
Proof. intros [-> ->]%window_is [-> ->]%window_is. done. Qed.

Lemma store_channels_ok i : 0 <= i < nPoints_max -> forall l c, Forall (fun meas => num_v1730_max <= GetNSamples meas) l -> NoDup (map fChan l) ->
  exists c', store_channels i l c = Ok c' /\ same_but_waves c c' /\
    (forall w a b, a <> i -> waves c' w !! (a, b) = waves c w !! (a, b)) /\
    (forall meas w from b, In meas l -> window (fChan meas) = Some (w, from) -> 0 <= b < num_v1730_max ->
      waves c' w !! (i, b) = Some (double_of_int (GetSample meas (b + from)))) /\
    (forall w, (forall meas from, In meas l -> window (fChan meas) <> Some (w, from)) -> waves c' w = waves c w).
Proof.
  intros Hi. induction l as [|meas l IH]; intros c Hl Hnd; cbn [store_channels].
  - exists c. split_and!; done.
  - cbn [map] in Hnd. apply NoDup_cons in Hnd as [Hnin Hnd]. pose proof (Forall_inv Hl) as Hlen. cbn beta in Hlen. unfold store_channel at 1. destruct (window (fChan meas)) as [[w from]|] eqn:Ew.
    + rewrite Z.min_r by done. destruct (store_samples_ok w i from meas Hi (channels (Z.to_nat num_v1730_max)) c) as (c1 & E & (S1 & S2 & S3 & S4 & S5) & Hu & Hold & Hnew).
      { apply Forall_forall. intros b Hb. apply list_elem_of_In, In_channels in Hb. lia. }
      rewrite E, res_bind_Ok. destruct (IH c1 (Forall_inv_tail Hl) Hnd) as (c' & E' & (S1' & S2' & S3' & S4' & S5') & Hrow & Hsame & Hnone).
      exists c'. split; [done|]. split; [split_and!; congruence|]. split_and!.
      * intros u a b Hab. rewrite Hrow by done. destruct (decide (u = w)) as [->|Hne]; [apply Hold; tauto | by rewrite Hu].
      * intros meas' u from' b [<-|Hin] Hw Hb; [|by apply Hsame]. rewrite Ew in Hw. injection Hw as <- <-. rewrite Hnone.
        -- apply Hnew, In_channels. lia.
        -- intros meas' from' Hin Hw. destruct (window_inj _ _ _ _ _ Ew Hw) as [Ec _]. apply Hnin. rewrite Ec. by apply list_elem_of_In, in_map.
      * intros u Hno. rewrite Hnone by (intros meas' from' Hin; apply Hno; by right). apply Hu. intros ->. by apply (Hno meas from (or_introl eq_refl)).
    + rewrite res_bind_Ok. destruct (IH c (Forall_inv_tail Hl) Hnd) as (c' & E' & S & Hrow & Hsame & Hnone). exists c'. split; [done|]. split; [done|]. split_and!; try done.
      * intros meas' w from b [<-|Hin] Hw Hb; [congruence | by apply Hsame].
      * intros w Hno. apply Hnone. intros meas' from Hin. apply Hno. by right.
Qed.

(** ** Channels of a bank *)

Lemma present_fst {A} (l : list (option A)) : forall i, NoDup (map fst (present i l)) /\ Forall (fun x => i <= x.1) (present i l).
Proof.
  induction l as [|[a|] l IH]; intros i; cbn [present map]; [split; constructor| |].
  - destruct (IH (i + 1)) as [Hnd Hle]. split; [|constructor; [cbn; lia | eapply Forall_impl; [exact Hle | cbn; lia]]]. apply NoDup_cons. split; [|done].
    intros Hin. apply list_elem_of_In, in_map_iff in Hin as (x & Hx & Hin). apply list_elem_of_In in Hin. cbn in Hx. rewrite Forall_forall in Hle. specialize (Hle _ Hin). lia.
  - destruct (IH (i + 1)) as [Hnd Hle]. split; [done|]. eapply Forall_impl; [exact Hle | cbn; lia].
Qed.

Lemma present_In {A} (l : list (option A)) k a : forall i, l !! k = Some (Some a) -> In (i + Z.of_nat k, a) (present i l).
Proof.
  revert k. induction l as [|o l IH]; intros k i Hk; [done|]. destruct k as [|k]; cbn in Hk.
  - injection Hk as ->. cbn. left. f_equal. lia.
  - specialize (IH k (i + 1) Hk). replace (i + 1 + Z.of_nat k) with (i + Z.of_nat (S k)) in IH by lia. destruct o; cbn [present]; [by right | done].
Qed.

Section event.
Context {R V : Type} `{HR : Root row R} {HV : MidasIO V}.
Abbreviation L := (event_loop converter R V).
Implicit Types s : L.

Variables (e : midas_event) (flags : Z) (bs : list bank) (behind : list Z).
Hypothesis Hev : event_ok flags bs.
Hypothesis Hne : bs <> [].
Hypothesis Hbehind : readable flags behind.
Hypothesis Hdata : fData e = Some (encode_event flags bs ++ behind).
Let m := encode_event flags bs ++ behind.
Abbreviation holding := (holding e).

(** ** Readings of the Phidgets *)

Lemma store_reading_ok o n fields names values pre more post : forall s, holding names s -> m = pre ++ (concat (map (le_bytes 8) values) ++ more) ++ post ->
  fBankData o = Z.of_nat (length pre) -> Forall (fun w => 0 <= w < 2 ^ 64) values -> Forall (fun f => 0 <= f.2 /\ (Z.to_nat f.2 < length values)%nat) fields ->
  1 <= vars (self s) n <= num_phidg_max -> Forall (fun f => arr_size f.1 = num_phidg_max) fields -> NoDup (map fst fields) ->
  exists c', store_reading o n fields s = Ok (tt, with_self c' s) /\ vars c' = vars (self s) /\ waves c' = waves (self s) /\ tree c' = tree (self s) /\
    gbl_accept_banks c' = gbl_accept_banks (self s) /\ run_numb c' = run_numb (self s) /\
    (forall a, ~ In a (map fst fields) -> arrays c' a = arrays (self s) a) /\
    (forall a i, In (a, i) fields -> exists x, values !! Z.to_nat i = Some x /\ arrays c' a = <[vars (self s) n - 1 := x]> (arrays (self s) a)).
Proof.
  induction fields as [|[a i] fields IH]; intros s Hs Em Ho Hv Hf Hn Hsize Hnd.
  - exists (self s). split; [by destruct s|]. split_and!; done || (intros; done).
  - destruct (Forall_inv Hf) as [Hi Hl]. cbn [snd] in Hi, Hl. destruct (lookup_lt_is_Some_2 values (Z.to_nat i) Hl) as [x Hx]. cbn [store_reading].
    assert (Ed : in_container (bank_double o i) s = Ok (x, s)) by (by apply (bank_word_value e flags bs behind Hdata names s o pre values more post 8 i x)).
    rewrite (ST_bind_Ok _ _ _ _ _ Ed), (ST_bind_Ok _ _ _ _ _ (member_Ok _ s)).
    pose proof (Forall_inv Hsize) as Ha. cbn [fst] in Ha. set (c1 := set_arr a (<[vars (self s) n - 1 := x]> (arrays (self s) a)) (self s)).
    assert (Ep : put a (vars (self s) n - 1) x (self s) = Ok c1).
    { apply put_Ok. rewrite Ha. lia. }
    rewrite (ST_bind_Ok _ _ _ _ _ (try_member_Ok _ _ _ Ep)). cbn [map fst] in Hnd. apply NoDup_cons in Hnd as [Hna Hnd].
    destruct (IH (with_self c1 s) Hs Em Ho Hv (Forall_inv_tail Hf) Hn (Forall_inv_tail Hsize) Hnd) as (c' & E & Ev & Ew & Et & Eg & Er & Eo & En).
    exists c'. rewrite E. split; [by destruct s|]. split_and!; try done.
    + intros b Hb. cbn [map fst] in Hb. rewrite Eo by (intros Hin; apply Hb; by right). cbn. case_decide as D; [|done]. subst. exfalso. apply Hb. by left.
    + intros b j [Eb|Hin].
      * injection Eb as <- <-. exists x. split; [done|]. rewrite Eo by (intros Hin; apply Hna; by apply list_elem_of_In). cbn. by case_decide.
      * destruct (En b j Hin) as (y & Hy & Eb). exists y. split; [done|]. rewrite Eb. cbn. case_decide as D; [|done]. subst. exfalso. apply Hna, list_elem_of_In.
        change a with (fst (a, j)). by apply in_map.
Qed.

(** The Phidgets before the one that has a reading are passed. *)
Lemma read_phidgets_skip l1 l2 names s : holding names s -> (forall p, In p l1 -> ~ In p.1.1 names /\ absent p.1.1 bs) ->
  read_phidgets (l1 ++ l2) s = read_phidgets l2 s.
Proof.
  intros Hs. induction l1 as [|[[name n] fields] l1 IH]; intros Hl; [done|]. cbn [app read_phidgets].
  destruct (Hl _ (or_introl eq_refl)) as [Hin Ha]. cbn [fst] in Hin, Ha. rewrite (ST_bind_Ok _ _ _ _ _ (GetBank_absent e flags bs behind Hev Hne Hbehind Hdata TGenericData name names s Hs Hin Ha)).
  apply IH. intros p Hp. apply Hl. by right.
Qed.

Lemma phidget_names : forallb (fun p => negb (bool_decide (p.1.1 ∈ [EOM; BONM; V730]))) phidgets = true /\ NoDup (map (fun p => p.1.1) phidgets).
Proof. split; [by vm_compute|]. refine (bool_decide_unpack _ _). by vm_compute. Qed.

Lemma phidget_fields_ok name n fields : In (name, n, fields) phidgets -> Forall (fun f => arr_size f.1 = num_phidg_max) fields /\ NoDup (map fst fields).
Proof.
  cbn. intros [E|[E|[E|[E|[E|[]]]]]]; injection E as <- <- <-; (split; [repeat constructor | refine (bool_decide_unpack _ _); by vm_compute]).
Qed.

(** Two Phidgets have nothing in common. *)
Lemma phidgets_differ k j p q : phidgets !! k = Some p -> phidgets !! j = Some q -> k <> j ->
  p.1.2 <> q.1.2 /\ forall a, In a (arrays_of p) -> ~ In a (arrays_of q).
Proof.
  intros Hk Hj Hkj. pose proof phidget_apart as A. pose proof (lookup_lt_Some _ _ _ Hk) as Lk. pose proof (lookup_lt_Some _ _ _ Hj) as Lj. cbn [phidgets length] in Lk, Lj.
  rewrite forallb_forall in A. specialize (A k ltac:(apply in_seq; lia)). rewrite forallb_forall in A. specialize (A j ltac:(apply in_seq; lia)).
  rewrite Hk, Hj, bool_decide_eq_false_2 in A by done. cbn [orb] in A. apply andb_true_iff in A as [A _]. apply andb_true_iff in A as [A B]. apply bool_decide_eq_true in A.
  split; [done|]. intros a Ha. rewrite forallb_forall in B. specialize (B a Ha). apply negb_true_iff, bool_decide_eq_false in B. by rewrite <- list_elem_of_In.
Qed.

Lemma elements_of_insert_ne m0 n i x : n <= i -> elements_of (<[i := x]> m0) n = elements_of m0 n.
Proof. intros Hi. unfold elements_of. apply map_ext_in. intros j Hj. apply in_seq in Hj. rewrite lookup_insert_ne; [done | lia]. Qed.

(** The members after a reading of Phidget [k]. *)
Lemma reading_tracks kk sc c c' k name n fields values : tracks kk sc c -> phidgets !! k = Some (name, n, fields) -> sc_accept sc = true ->
  vars c n < num_phidg_max -> Forall (fun f => 0 <= f.2 /\ (Z.to_nat f.2 < length values)%nat) fields ->
  vars c' = vars (set_var n (vars c n + 1) c) -> waves c' = waves c -> gbl_accept_banks c' = gbl_accept_banks c ->
  (forall a, ~ In a (map fst fields) -> arrays c' a = arrays c a) ->
  (forall a i, In (a, i) fields -> exists x, values !! Z.to_nat i = Some x /\ arrays c' a = <[vars c n := x]> (arrays c a)) ->
  forall t, tracks kk (fst (scan_step t (Reading k values) sc)) c'.
Proof.
  intros [T1 T2 T3 T4 T5 T6 T7 T8] Hk Hacc Hmax Hvals Ev Ew Eg Eo En t. cbn [scan_step fst]. rewrite Hacc. assert (Hin : In (name, n, fields) phidgets) by (apply list_elem_of_In; by eapply list_elem_of_lookup_2).
  destruct (phidget_vars_tracked _ _ _ Hin) as (_ & N1 & N2 & N3). unfold phidget_var. rewrite Hk.
  assert (Evar : forall v, v <> n -> vars c' v = vars c v) by (intros v Hv; rewrite Ev; cbn; by rewrite decide_False).
  assert (Enn : vars c' n = vars c n + 1) by (rewrite Ev; cbn; by rewrite decide_True).
  constructor; cbn [sc_accept sc_points sc_readings]; rewrite ?Evar, ?Ew by done; try done; [by rewrite Eg, T1 | |].
  - rewrite Eo; [done|]. intros Ha. apply in_map_iff in Ha as ([a i] & Ea & Hf). cbn in Ea. subst a. by destruct (phidget_arrays _ _ _ _ _ Hin Hf) as (_ & ? & _).
  - intros name' n' fields' Hp. pose proof (T6 _ _ _ Hp) as (A & B & C). apply list_elem_of_In, list_elem_of_lookup in Hp as [j Hj]. destruct (decide (j = k)) as [->|Hjk].
    + rewrite Hk in Hj. injection Hj as <- <- <-. rewrite decide_True by done. rewrite Enn, A, length_app. cbn [length]. split_and!; [lia | lia |].
      intros a i Hf. destruct (En a i Hf) as (x & Hx & ->). rewrite A, elements_of_snoc by lia. rewrite <- A, (C a i Hf), map_app. cbn [map]. by rewrite Hx.
    + destruct (phidgets_differ _ _ _ _ Hj Hk Hjk) as [Hn Ha]. cbn [fst snd arrays_of] in Hn, Ha. rewrite decide_False by done. rewrite Evar by done. split_and!; try done.
      intros a i Hf. rewrite Eo; [by apply C|]. apply Ha. change a with (fst (a, i)). by apply in_map.
Qed.

(** ** A pulse of the digitizer *)

Lemma length_window l from : length (window_of l from) = Z.to_nat num_v1730_max.
Proof. unfold window_of, channels. by rewrite !length_map, length_seq. Qed.

Lemma window_nth l from b : 0 <= b < num_v1730_max -> nth_error (map double_of_int (window_of l from)) (Z.to_nat b) = Some (double_of_int (sample_at l (b + from) 9999999)).
Proof.
  intros Hb. unfold window_of, channels. rewrite !map_map, nth_error_map, nth_error_seq. rewrite (proj2 (Nat.ltb_lt _ _)) by lia. cbn. by rewrite Z2Nat.id by lia.
Qed.

Lemma pulse_tracks kk sc c c1 c' data n t hs : tracks kk sc c -> sc_accept sc = true -> Z.of_nat (length (sc_points sc)) < nPoints_max ->
  v1730_ok hs data n -> num_v1730_max <= 2 * Z.of_nat n -> (forall i, (i < 3)%nat -> exists l, data !! i = Some (Some l)) ->
  c1 = set_arr evt_timestamp (<[vars c num_points := double_of_int t]> (arrays c evt_timestamp)) (set_var num_points (vars c num_points + 1) c) ->
  store_channels (vars c num_points) (map (fun x => ChannelMeasurement x.1 x.2) (present 0 data)) c1 = Ok c' ->
  tracks kk (fst (scan_step t (Pulse data) sc)) c'.
Proof.
  intros [T1 T2 T3 T4 T5 T6 T7 T8] Hacc Hlt (_ & _ & _ & _ & _ & _ & Hall) Hn Hch E1 E. cbn [scan_step fst]. rewrite Hacc, (proj2 (Z.ltb_lt _ _) Hlt). cbn [andb].
  set (i := vars c num_points) in *. assert (Hi : 0 <= i < nPoints_max) by lia.
  destruct (store_channels_ok i Hi (map (fun x => ChannelMeasurement x.1 x.2) (present 0 data)) c1) as (c2 & E2 & (S1 & S2 & S3 & S4 & S5) & Hrow & Hsame & Hnone).
  { rewrite Forall_fmap. eapply Forall_impl; [exact Hall|]. intros x [_ Hx]. cbn. unfold GetNSamples. cbn. lia. }
  { rewrite map_map. cbn [fChan]. apply present_fst. }
  rewrite E in E2. injection E2 as <-. assert (Hpts : vars c' num_points = i + 1) by (rewrite S1, E1; done).
  assert (Hv : forall v, v <> num_points -> vars c' v = vars c v) by (intros v Hv; rewrite S1, E1; cbn; by rewrite decide_False).
  assert (Ha : forall a, a <> evt_timestamp -> arrays c' a = arrays c a) by (intros a Ha; rewrite S2, E1; cbn; by rewrite decide_False).
  assert (Hw : forall u a b, a <> i -> waves c' u !! (a, b) = waves c u !! (a, b)) by (intros u a b Hab; rewrite Hrow by done; by rewrite E1).
  constructor; cbn [sc_accept sc_points sc_readings]; rewrite ?Hpts; [rewrite S4, E1; cbn; congruence | rewrite length_app; cbn [length]; lia | unfold nPoints_max in *; lia | | | | by rewrite Hv | by rewrite Hv].
  - rewrite S2, E1. cbn [arrays set_arr]. rewrite decide_True by done. rewrite elements_of_snoc by lia. rewrite T4. unfold doubles. by rewrite !map_app.
  - intros j w Hj. rewrite map_app. cbn [map]. rewrite <- (T5 j w Hj). unfold doubles at 1. rewrite <- (map_map double_of_int Some). apply waves_of_snoc; [lia | | |].
    + intros a b Ha' Hb. apply Hw. lia.
    + intros b Hb. assert (G : forall k from, window (Z.of_nat k) = Some (w, from) -> (k < 3)%nat -> waves c' w !! (i, b) = Some (double_of_int (sample_at (chan data k) (b + from) 9999999))).
      { intros k from Hk Hk3. destruct (Hch k Hk3) as [l Hl]. pose proof (present_In data k l 0 Hl) as Hin. rewrite Z.add_0_l in Hin.
        rewrite (Hsame (ChannelMeasurement (Z.of_nat k) l) w from b); [|exact (in_map (fun x => ChannelMeasurement x.1 x.2) _ _ Hin) | exact Hk | exact Hb].
        unfold chan, GetSample. by rewrite Hl. }
      destruct j as [|[|[|j]]]; cbn in Hj; [..|done]; injection Hj as <-; cbn [point_of pt_windows nth]; rewrite window_nth by done;
        [apply (G 0%nat) | apply (G 1%nat) | apply (G 2%nat)]; (done || lia).
    + rewrite length_map. destruct j as [|[|[|j]]]; cbn in Hj; [..|done]; apply length_window.
  - intros name n' fields Hp. destruct (phidget_vars_tracked _ _ _ Hp) as (_ & N1 & _). rewrite Hv by done. destruct (T6 _ _ _ Hp) as (A & B & C). split_and!; try done.
    intros a k Hf. destruct (phidget_arrays _ _ _ _ _ Hp Hf) as (_ & N2 & _). rewrite Ha by done. by apply C.
Qed.

Lemma digitizer_ok kk sc names s b hs data n : holding names s -> contents b = Raw1730 (V1730 hs (map (fun x => ChannelMeasurement x.1 x.2) (present 0 data))) ->
  v1730_ok hs data n -> num_v1730_max <= 2 * Z.of_nat n -> (forall i, (i < 3)%nat -> exists l, data !! i = Some (Some l)) ->
  tracks kk sc (self s) -> sc_accept sc = true ->
  exists s', digitizer b s = Ok (tt, s') /\ same_base s s' /\ tracks kk (fst (scan_step (fTimeStamp (fEventHeader e)) (Pulse data) sc)) (self s') /\ tree (self s') = tree (self s) /\
    run_numb (self s') = run_numb (self s).
Proof.
  intros Hs Hc Hok Hn Hch T Hacc. unfold digitizer. rewrite (ST_bind_Ok _ _ _ _ _ (member_Ok _ s)). pose proof (tr_points _ _ _ T) as Hp.
  destruct (Z.ltb_spec (vars (self s) num_points) nPoints_max) as [Hlt|Hge].
  - set (i := vars (self s) num_points) in *. set (t := fTimeStamp (fEventHeader e)).
    rewrite (ST_bind_Ok _ _ _ _ _ (set_member_Ok _ s)). set (s1 := with_self (set_var num_points (i + 1) (self s)) s).
    assert (Ee : in_container GetMidasData s1 = Ok (e, s1)) by exact (the_event e names s1 Hs).
    rewrite (ST_bind_Ok _ _ _ _ _ Ee). set (c1 := set_arr evt_timestamp (<[i := double_of_int t]> (arrays (self s) evt_timestamp)) (set_var num_points (i + 1) (self s))).
    assert (Ep : put evt_timestamp i (double_of_int t) (self s1) = Ok c1).
    { apply put_Ok. cbn [arr_size]. lia. }
    rewrite (ST_bind_Ok _ _ _ _ _ (try_member_Ok _ _ _ Ep)).
    destruct (store_channels_ok i ltac:(lia) (map (fun x => ChannelMeasurement x.1 x.2) (present 0 data)) c1) as (c' & E & (S1 & S2 & S3 & S4 & S5) & _).
    { destruct Hok as (_ & _ & _ & _ & _ & _ & Hall). rewrite Forall_fmap. eapply Forall_impl; [exact Hall|]. intros x [_ Hx]. cbn. unfold GetNSamples. cbn. lia. }
    { rewrite map_map. cbn [fChan]. apply present_fst. }
    assert (Em : measurements_of b = map (fun x => ChannelMeasurement x.1 x.2) (present 0 data)) by (unfold measurements_of; by rewrite Hc).
    rewrite <- Em in E. exists (with_self c' s). rewrite (try_member_Ok _ (with_self c1 s1) c' E). split; [by destruct s|]. split; [apply same_base_self|]. split; [|split].
    + rewrite Em in E. apply (pulse_tracks kk sc (self s) c1 c' data n t hs); try done. unfold i in Hlt. by rewrite <- Hp.
    + cbn. by rewrite S3.
    + cbn. by rewrite S5.
  - exists s. split; [done|]. split; [apply same_base_refl|]. split; [|done]. cbn [scan_step fst]. rewrite Hacc, (proj2 (Z.ltb_ge _ _)) by lia. done.
Qed.

(** ** The other equipment *)

Lemma store_vars_ok names o b pre post l : forall s, holding names s -> m = pre ++ b_data b ++ post -> fBankData o = Z.of_nat (length pre) ->
  Forall (fun f => ~ In f.1 tracked_vars /\ 0 <= f.2 /\ (8 * S (Z.to_nat f.2) <= length (b_data b))%nat) l ->
  exists c', store_vars o l s = Ok (tt, with_self c' s) /\ same_scan (self s) c'.
Proof.
  induction l as [|[v i] l IH]; intros s Hs Em Ho Hl; cbn [store_vars].
  - exists (self s). split; [by destruct s | apply same_scan_refl].
  - destruct (Forall_inv Hl) as (Hv & Hi & Hlen). cbn [fst snd] in *. destruct (bank_word_inside e flags bs behind Hdata names s o b pre post 8 i Hs Em Ho Hi Hlen) as [x Hx].
    rewrite (ST_bind_Ok _ _ _ _ _ Hx), (ST_bind_Ok _ _ _ _ _ (set_member_Ok _ s)).
    destruct (IH (with_self (set_var v x (self s)) s) Hs Em Ho (Forall_inv_tail Hl)) as (c' & E & S). exists c'. rewrite E. split; [by destruct s|].
    eapply same_scan_trans; [apply (same_scan_var _ v x Hv) | exact S].
Qed.

Lemma store_int_ok names o b pre post v s : holding names s -> m = pre ++ b_data b ++ post -> fBankData o = Z.of_nat (length pre) -> ~ In v tracked_vars ->
  (8 <= length (b_data b))%nat -> (exists n, int_of_double (le_word (take 8 (b_data b))) = Ok n) ->
  exists c', store_int o v 0 s = Ok (tt, with_self c' s) /\ same_scan (self s) c'.
Proof.
  intros [Hs Hn] Em Ho Hv Hl [n Hi]. unfold store_int.
  assert (Ed : in_container (bank_double o 0) s = Ok (le_word (take 8 (b_data b)), s)).
  { apply in_container_Ok. unfold bank_double, bank_word, GetMidasData, event_data. rewrite Hs, res_bind_Ok, Hdata, res_bind_Ok, Ho. fold m. unfold load_word.
    rewrite Em, <- (take_drop 8 (b_data b)), <- !app_assoc. rewrite (bytes_at_app pre (take 8 (b_data b))); [|lia | rewrite length_take; lia].
    rewrite res_bind_Ok, take_app_le, take_take by (rewrite length_take; lia). done. }
  rewrite (ST_bind_Ok _ _ _ _ _ Ed). unfold lift_res. rewrite ST_bind_eq, Hi. eexists. rewrite set_member_Ok. split; [done | by apply same_scan_var].
Qed.

(** A part that looks for one bank and stores what it has. *)
Definition harmless (name : list Z) (part : ST L unit) : Prop :=
  forall names s, holding names s -> ~ In name names ->
    exists s' names', part s = Ok (tt, s') /\ same_base s s' /\ same_scan (self s) (self s') /\ holding names' s' /\ (forall x, In x names' -> In x names \/ x = name).

Lemma same_base_then_self s s' c : same_base s s' -> same_base s (with_self c s').
Proof. intros H. eapply same_base_trans; [exact H | apply same_base_self]. Qed.

(** The bank is not there, or it is and the rest of the part stores numbers. *)
Lemma harmless_part name (part : ST L unit) (k : bank_object -> ST L unit) :
  (forall s, part s = (GetBank TGenericData name ≫= fun b => match b with None => mret tt | Some b => k b end) s) ->
  (forall b o names s pre post, first_named (name ++ [0]) bs = Some b -> holding names s -> m = pre ++ b_data b ++ post -> fBankData o = Z.of_nat (length pre) ->
    exists c', k o s = Ok (tt, with_self c' s) /\ same_scan (self s) c') ->
  harmless name part.
Proof.
  intros Epart Hk names s Hs Hin. rewrite Epart. destruct (first_named (name ++ [0]) bs) as [b|] eqn:Eb.
  - destruct (GetBank_present e flags bs behind Hev Hne Hbehind Hdata TGenericData name names s b Hs Hin Eb) as (pre & post & Em & G). destruct (G Generic eq_refl) as (s1 & E1 & Hs1 & B1 & F1).
    rewrite (ST_bind_Ok _ _ _ _ _ E1). destruct (Hk b (BankObject name (elements b) (b_type b) (Z.of_nat (length pre)) Generic) _ s1 pre post eq_refl Hs1 Em eq_refl) as (c' & E2 & S2). exists (with_self c' s1), (names ++ [name]).
    split; [exact E2|]. split; [by apply same_base_then_self|]. split; [by rewrite <- F1|]. split; [done|]. intros x Hx. apply in_app_or in Hx as [Hx|[<-|[]]]; [by left | by right].
  - rewrite (ST_bind_Ok _ _ _ _ _ (GetBank_absent e flags bs behind Hev Hne Hbehind Hdata TGenericData name names s Hs Hin Eb)). exists s, names. split; [done|]. split; [apply same_base_refl|]. split; [apply same_scan_refl|]. split; [done | by left].
Qed.

Lemma environment_harmless : doubles_ok ENVT 2 bs -> harmless ENVT environment.
Proof.
  intros Hok. eapply harmless_part; [intros s; reflexivity|]. intros b o names s pre post Eb Hs Em Ho. unfold doubles_ok in Hok. rewrite Eb in Hok.
  assert (F : forall i s', holding names s' -> 0 <= i <= 2 -> exists x, in_container (bank_float o i) s' = Ok (x, s')) by (intros i s' Hs' Hi; apply (bank_word_inside e flags bs behind Hdata names s' o b pre post 4 i Hs' Em Ho); lia).
  destruct (F 0 s Hs ltac:(lia)) as [x0 E0], (F 1 s Hs ltac:(lia)) as [x1 E1], (F 2 s Hs ltac:(lia)) as [x2 E2].
  rewrite (ST_bind_Ok _ _ _ _ _ E0), (ST_bind_Ok _ _ _ _ _ E1), (ST_bind_Ok _ _ _ _ _ E2). rewrite !(ST_bind_Ok _ _ _ _ _ (set_member_Ok _ _)).
  assert (Ht : forall i, 0 <= i <= 2 -> 0 <= i < arr_size temperatures) by (intros i Hi; cbn; unfold max_temp_sensor; lia).
  rewrite (ST_bind_Ok _ _ _ _ _ (try_member_Ok _ _ _ (put_Ok temperatures 0 (double_of_float x0) _ (Ht 0 ltac:(lia))))).
  rewrite (ST_bind_Ok _ _ _ _ _ (try_member_Ok _ _ _ (put_Ok temperatures 1 (double_of_float x1) _ (Ht 1 ltac:(lia))))).
  rewrite (try_member_Ok _ _ _ (put_Ok temperatures 2 (double_of_float x2) _ (Ht 2 ltac:(lia)))). eexists. split; [reflexivity|].
  cbn [self with_self]. repeat (eapply same_scan_trans; [|eapply same_scan_temperature, put_Ok; cbn; unfold max_temp_sensor; lia]).
  repeat (eapply same_scan_trans; [|apply same_scan_var; cbn; intuition discriminate]). apply same_scan_refl.
Qed.

(** A count and the numbers behind it. *)
Lemma numbers_ok names o b pre post v l n s : holding names s -> m = pre ++ b_data b ++ post -> fBankData o = Z.of_nat (length pre) -> ~ In v tracked_vars ->
  (exists x, int_of_double (le_word (take 8 (b_data b))) = Ok x) -> (1 <= n)%nat -> (8 * n <= length (b_data b))%nat ->
  forallb (fun f => negb (bool_decide (f.1 ∈ tracked_vars)) && (0 <=? f.2) && (f.2 <? Z.of_nat n)) l = true ->
  exists c', (store_int o v 0 ≫= fun _ => store_vars o l) s = Ok (tt, with_self c' s) /\ same_scan (self s) c'.
Proof.
  intros Hs Em Ho Hv Hi Hn Hl Hf. destruct (store_int_ok names o b pre post v s Hs Em Ho Hv ltac:(lia) Hi) as (c1 & E1 & S1). rewrite (ST_bind_Ok _ _ _ _ _ E1).
  destruct (store_vars_ok names o b pre post l (with_self c1 s) Hs Em Ho) as (c2 & E2 & S2).
  - apply Forall_forall. intros f Hin. rewrite forallb_forall in Hf. specialize (Hf f ltac:(by apply list_elem_of_In)). apply andb_true_iff in Hf as [Hf H3]. apply andb_true_iff in Hf as [H1 H2].
    apply negb_true_iff, bool_decide_eq_false in H1. bprop. rewrite list_elem_of_In in H1. split; [done|]. lia.
  - exists c2. rewrite E2. split; [by destruct s | by eapply same_scan_trans].
Qed.

Lemma gantry_harmless : doubles_ok CYC0 12 bs -> counter_ok CYC0 bs -> harmless CYC0 gantry.
Proof.
  intros Hok Hc. eapply harmless_part; [intros s; reflexivity|]. intros b o names s pre post Eb Hs Em Ho. unfold doubles_ok, counter_ok in *. rewrite Eb in Hok, Hc.
  apply (numbers_ok names o b pre post counter_gant _ 12 s Hs Em Ho); [cbn; intuition discriminate | exact Hc | lia | exact Hok | by vm_compute].
Qed.

Lemma magnets_harmless : doubles_ok MAG0 77 bs -> counter_ok MAG0 bs -> harmless MAG0 magnets.
Proof.
  intros Hok Hc. eapply harmless_part; [intros s; reflexivity|]. intros b o names s pre post Eb Hs Em Ho. unfold doubles_ok, counter_ok in *. rewrite Eb in Hok, Hc.
  apply (numbers_ok names o b pre post counter_mag _ 77 s Hs Em Ho); [cbn; intuition discriminate | exact Hc | lia | exact Hok | by vm_compute].
Qed.

(** ** The whole event *)

Variables (kk : Z) (sc : scan).
Hypothesis Hkk : kk < 2 ^ 31 - 1.

Lemma increment_Ok v c : vars c v < 2 ^ 31 - 1 -> increment v c = Ok (set_var v (vars c v + 1) c).
Proof. intros Hv. unfold increment. by rewrite check_true by (by apply Z.ltb_lt). Qed.

Lemma bad_tracks sc' c : tracks kk sc' c -> tracks (kk + 1) sc' (set_var nbadTDCbanks (vars c nbadTDCbanks + 1) c).
Proof.
  intros [T1 T2 T3 T4 T5 T6 T7 T8]. constructor; cbn [vars set_var arrays waves gbl_accept_banks]; rewrite ?decide_True, ?decide_False by done; try done; [|lia|lia].
  intros name n fields Hp. destruct (phidget_vars_tracked _ _ _ Hp) as (_ & _ & _ & N3). rewrite decide_False by done. by apply T6 in Hp.
Qed.

(** The state is the same but for the members, the decoded banks and the rows of the
    tree; the event was a step of the scan. *)
Definition stepped s s' (sc' : scan) : Prop :=
  same_base s s' /\ tracks (kk + 1) sc' (self s') /\ tree (self s') = tree (self s).

Lemma last_look_ok names s sc' : holding names s -> ~ In name_V1730 names -> absent name_V1730 bs -> tracks kk sc' (self s) ->
  exists s', last_look s = Ok (true, s') /\ stepped s s' sc'.
Proof.
  intros Hs Hin Ha T. unfold last_look. rewrite (ST_bind_Ok _ _ _ _ _ (GetBank_absent e flags bs behind Hev Hne Hbehind Hdata TV1730Raw name_V1730 names s Hs Hin Ha)).
  pose proof (tr_bad _ _ _ T) as Hb. rewrite (ST_bind_Ok _ _ _ _ _ (try_member_Ok _ s _ (increment_Ok nbadTDCbanks (self s) ltac:(lia)))).
  eexists. split; [reflexivity|]. split; [apply same_base_self|]. split; [by apply bad_tracks | done].
Qed.

Lemma same_base_stepped s s1 s2 sc' : same_base s s1 -> tree (self s1) = tree (self s) -> stepped s1 s2 sc' -> stepped s s2 sc'.
Proof. intros B F (B2 & T2 & F2). split; [by eapply same_base_trans|]. split; [done | congruence]. Qed.

Lemma other_ok s : holding [] s -> event_is bs Other -> tracks kk sc (self s) -> sc_accept sc = true ->
  exists s', measurement s = Ok (true, s') /\ stepped s s' sc.
Proof.
  intros Hs (Hv & He & Hb & H7 & Hph & Henv & Hcyc & Hcc & Hmag & Hmc) T Hacc. unfold measurement. rewrite !(ST_bind_Ok _ _ _ _ _ (set_member_Ok _ _)).
  set (s0 := with_self _ _). assert (S0 : same_scan (self s) (self s0)).
  { unfold s0. cbn [self with_self]. repeat (eapply same_scan_trans; [|apply same_scan_var; cbn; intuition discriminate]). apply same_scan_refl. }
  assert (B0 : same_base s s0) by (unfold s0; repeat (eapply same_base_trans; [|apply same_base_self]); apply same_base_refl).
  assert (Hs0 : holding [] s0) by exact Hs. clearbody s0.
  rewrite (ST_bind_Ok _ _ _ _ _ (GetBank_absent e flags bs behind Hev Hne Hbehind Hdata TV1730Raw V730 [] s0 Hs0 (fun F => F) H7)).
  pose proof (read_phidgets_skip phidgets [] [] s0 Hs0) as Ep. rewrite app_nil_r in Ep. rewrite ST_bind_eq, Ep.
  2: { intros p Hp. split; [exact (fun F => F)|]. rewrite Forall_forall in Hph. by apply Hph, list_elem_of_In. }
  cbn [read_phidgets mret ST_ret].
  destruct (environment_harmless Henv [] s0 Hs0 (fun F => F)) as (s1 & n1 & E1 & B1 & S1 & Hs1 & In1). rewrite (ST_bind_Ok _ _ _ _ _ E1).
  assert (I1 : forall x, In x n1 -> x = ENVT) by (intros x Hx; by destruct (In1 x Hx)).
  destruct (gantry_harmless Hcyc Hcc n1 s1 Hs1 ltac:(intros Hx; by apply I1 in Hx)) as (s2 & n2 & E2 & B2 & S2 & Hs2 & In2). rewrite (ST_bind_Ok _ _ _ _ _ E2).
  assert (I2 : forall x, In x n2 -> x = ENVT \/ x = CYC0) by (intros x Hx; destruct (In2 x Hx) as [Hx'| ->]; [left; auto | by right]).
  destruct (magnets_harmless Hmag Hmc n2 s2 Hs2 ltac:(intros Hx; by apply I2 in Hx as [|])) as (s3 & n3 & E3 & B3 & S3 & Hs3 & In3). rewrite (ST_bind_Ok _ _ _ _ _ E3).
  assert (S03 : same_scan (self s) (self s3)) by (repeat (eapply same_scan_trans; [eassumption|]); apply same_scan_refl).
  destruct (last_look_ok n3 s3 sc Hs3) as (s4 & E4 & ST4); [| exact Hv | by eapply same_scan_tracks |].
  { intros Hx. destruct (In3 _ Hx) as [Hx'|Hx']; [by apply I2 in Hx' as [|] | done]. }
  exists s4. split; [exact E4|]. eapply (same_base_stepped s s3); [| | exact ST4].
  - repeat (eapply same_base_trans; [eassumption|]). apply same_base_refl.
  - apply S03.
Qed.

(** Events outside a measurement. *)
Lemma set_accept_tracks k a c : tracks k sc c -> tracks (k + 1) (Scan a (sc_points sc) (sc_readings sc)) (set_accept a c).
Proof. intros [T1 T2 T3 T4 T5 T6 T7 T8]. constructor; cbn [gbl_accept_banks set_accept vars arrays waves sc_accept sc_points sc_readings]; try done; lia. Qed.

Lemma pulse_ok s data : holding [] s -> event_is bs (Pulse data) -> tracks kk sc (self s) -> sc_accept sc = true ->
  exists s', measurement s = Ok (true, s') /\ stepped s s' (fst (scan_step (fTimeStamp (fEventHeader e)) (Pulse data) sc)).
Proof.
  intros Hs (_ & _ & _ & b & Hb & hs & n & more & Edata & Hok & Hhs & Hn & Hch) T Hacc. unfold measurement. rewrite !(ST_bind_Ok _ _ _ _ _ (set_member_Ok _ _)).
  set (s0 := with_self _ _). assert (S0 : same_scan (self s) (self s0)).
  { unfold s0. cbn [self with_self]. repeat (eapply same_scan_trans; [|apply same_scan_var; cbn; intuition discriminate]). apply same_scan_refl. }
  assert (B0 : same_base s s0) by (unfold s0; repeat (eapply same_base_trans; [|apply same_base_self]); apply same_base_refl).
  assert (Hs0 : holding [] s0) by exact Hs. clearbody s0.
  destruct (GetBank_present e flags bs behind Hev Hne Hbehind Hdata TV1730Raw V730 [] s0 b Hs0 (fun F => F) Hb) as (pre & post & Em & G).
  assert (Hp : Forall (fun w => 0 <= w < 2 ^ 32) (hs ++ packed (present 0 data))).
  { apply Forall_app. split; [done|]. destruct Hok as (_ & _ & _ & _ & _ & _ & Hall). unfold packed. clear -Hall. induction (present 0 data) as [|[i a] l IH]; [constructor|].
    cbn [map concat snd]. destruct (Forall_inv Hall) as [Ha Hl]. cbn [snd] in Ha, Hl. apply Forall_app. split; [|apply IH, (Forall_inv_tail Hall)].
    apply (pack_words 14); [lia | exists n; lia | done]. }
  assert (Ed : TV1730RawData m (Z.of_nat (length pre)) = Ok (V1730 hs (map (fun x => ChannelMeasurement x.1 x.2) (present 0 data)))).
  { unfold m. rewrite Em, Edata, <- app_assoc. apply (v1730_decoded _ _ hs data n []); [done|]. rewrite app_nil_r. by apply words_at_bytes. }
  destruct (G _ ltac:(fold m; by rewrite Ed)) as (s1 & E1 & Hs1 & B1 & F1). rewrite (ST_bind_Ok _ _ _ _ _ E1).
  assert (T1 : tracks kk sc (self s1)) by (rewrite F1; by eapply same_scan_tracks).
  match goal with |- context [digitizer ?o0] => pose proof (digitizer_ok kk sc _ s1 o0 hs data n Hs1 eq_refl Hok Hn Hch T1 Hacc) as X end.
  destruct X as (s2 & E2 & B2 & T2 & Ft & Fr). rewrite (ST_bind_Ok _ _ _ _ _ E2).
  exists s2. split; [done|]. split; [repeat (eapply same_base_trans; [eassumption|]); apply same_base_refl|]. split; [by eapply tracks_more; [|exact T2]; lia|].
  rewrite Ft, F1. apply S0.
Qed.

Lemma reading_ok s k values t : holding [] s -> event_is bs (Reading k values) -> tracks kk sc (self s) -> sc_accept sc = true ->
  Z.of_nat (length (sc_readings sc (phidget_var k))) < num_phidg_max ->
  exists s', measurement s = Ok (true, s') /\ stepped s s' (fst (scan_step t (Reading k values) sc)).
Proof.
  intros Hs (_ & _ & _ & H7 & name & n & fields & b & more & Hk & Hbefore & Hb & Edata & Hvals & Hf) T Hacc Hfit. unfold measurement. rewrite !(ST_bind_Ok _ _ _ _ _ (set_member_Ok _ _)).
  set (s0 := with_self _ _). assert (S0 : same_scan (self s) (self s0)).
  { unfold s0. cbn [self with_self]. repeat (eapply same_scan_trans; [|apply same_scan_var; cbn; intuition discriminate]). apply same_scan_refl. }
  assert (B0 : same_base s s0) by (unfold s0; repeat (eapply same_base_trans; [|apply same_base_self]); apply same_base_refl).
  assert (Hs0 : holding [] s0) by exact Hs. clearbody s0.
  rewrite (ST_bind_Ok _ _ _ _ _ (GetBank_absent e flags bs behind Hev Hne Hbehind Hdata TV1730Raw V730 [] s0 Hs0 (fun F => F) H7)).
  pose proof (read_phidgets_skip (take k phidgets) (drop k phidgets) [] s0 Hs0) as Ep. rewrite take_drop in Ep.
  rewrite ST_bind_eq, Ep by (intros p Hp; split; [exact (fun F => F)|]; rewrite Forall_forall in Hbefore; by apply Hbefore, list_elem_of_In). rewrite (drop_S _ _ _ Hk). cbn [read_phidgets].
  destruct (GetBank_present e flags bs behind Hev Hne Hbehind Hdata TGenericData name [] s0 b Hs0 (fun F => F) Hb) as (pre & post & Em & G). destruct (G Generic eq_refl) as (s1 & E1 & Hs1 & B1 & F1).
  rewrite (ST_bind_Ok _ _ _ _ _ E1). assert (T1 : tracks kk sc (self s1)) by (rewrite F1; by eapply same_scan_tracks).
  assert (Hin : In (name, n, fields) phidgets) by (apply list_elem_of_In; by eapply list_elem_of_lookup_2).
  destruct (tr_readings _ _ _ T1 _ _ _ Hin) as (A & B & _). unfold phidget_var in Hfit. rewrite Hk in Hfit. unfold num_phidg_max in *.
  rewrite (ST_bind_Ok _ _ _ _ _ (try_member_Ok _ s1 _ (increment_Ok n (self s1) ltac:(lia)))). set (c1 := set_var n (vars (self s1) n + 1) (self s1)).
  destruct (phidget_fields_ok _ _ _ Hin) as [Hsize Hnd]. rewrite Edata in Em. assert (En : vars c1 n = vars (self s1) n + 1) by (cbn; by rewrite decide_True).
  destruct (store_reading_ok (BankObject name (elements b) (b_type b) (Z.of_nat (length pre)) Generic) n fields [name] values pre more post (with_self c1 s1)) as (c2 & E2 & Ev & Ew & Et & Eg & Er & Eo & Ec);
    [exact Hs1 | exact Em | done | exact Hvals | exact Hf | cbn [self with_self]; unfold num_phidg_max; lia | exact Hsize | exact Hnd |].
  rewrite (ST_bind_Ok _ _ _ _ _ E2). eexists. split; [reflexivity|]. split; [|split].
  - repeat (eapply same_base_trans; [eassumption|]). eapply same_base_trans; [apply (same_base_self s1 c1)|]. apply same_base_self.
  - cbn [self with_self] in *. rewrite En in Ec. replace (vars (self s1) n + 1 - 1) with (vars (self s1) n) in Ec by lia.
    eapply tracks_more; [|eapply (reading_tracks kk sc (self s1) c2 k name n fields values T1 Hk Hacc)]; try done; unfold num_phidg_max; lia.
  - cbn [self with_self] in *. rewrite Et. unfold c1. cbn. rewrite F1. apply S0.
Qed.

End event.

(** ** Rows *)

(** What a row shows of a scan. *)
Definition row_shows (t : Z) (sc : scan) (r : row) : Prop :=
  row_vars r timestamp = double_of_int t /\ row_vars r num_points = Z.of_nat (length (sc_points sc)) /\
  In (evt_timestamp, doubles (map pt_time (sc_points sc))) (row_arrays r) /\
  row_waves r = map (fun j => map (fun p => doubles (nth j (pt_windows p) [])) (sc_points sc)) [0%nat; 1%nat; 2%nat] /\
  forall name n fields, In (name, n, fields) phidgets -> row_vars r n = Z.of_nat (length (sc_readings sc n)) /\
    forall a i, In (a, i) fields -> In (a, map (fun l => l !! Z.to_nat i) (sc_readings sc n)) (row_arrays r).

Lemma phidget_branches name n fields a i : In (name, n, fields) phidgets -> In (a, i) fields -> In (a, n) branches.
Proof.
  assert (F : forallb (fun p : list Z * var * list (arr * Z) => forallb (fun f : arr * Z => bool_decide ((f.1, p.1.2) ∈ branches)) p.2) phidgets = true) by by vm_compute.
  rewrite forallb_forall in F. intros Hp Hf. specialize (F _ Hp). rewrite forallb_forall in F. specialize (F _ Hf). apply bool_decide_eq_true, list_elem_of_In in F. exact F.
Qed.

Lemma branch_in c a n : In (a, n) branches -> In (a, elements_of (arrays c a) (vars c n)) (row_arrays (snapshot c)).
Proof. intros H. unfold snapshot. cbn [row_arrays]. apply in_map_iff. by exists (a, n). Qed.

Lemma snapshot_shows k sc t c : tracks k sc c -> row_shows t sc (snapshot (set_var timestamp (double_of_int t) c)).
Proof.
  intros T. pose proof (same_scan_tracks k sc c (set_var timestamp (double_of_int t) c) ltac:(apply same_scan_var; cbn; intuition discriminate) T) as T'.
  set (c' := set_var timestamp (double_of_int t) c) in *. unfold row_shows. split_and!.
  - done.
  - apply T'.
  - rewrite <- (tr_times _ _ _ T'). apply (branch_in c'). cbn. tauto.
  - cbn [row_waves snapshot map]. by rewrite (tr_waves _ _ _ T' 0%nat _ eq_refl), (tr_waves _ _ _ T' 1%nat _ eq_refl), (tr_waves _ _ _ T' 2%nat _ eq_refl).
  - intros name n fields Hp. destruct (tr_readings _ _ _ T' _ _ _ Hp) as (A & _ & C). split; [done|]. intros a i Hf. rewrite <- (C a i Hf).
    apply (branch_in c'), (phidget_branches _ _ _ _ _ Hp Hf).
Qed.

Definition zero_counters (c : converter) : converter := foldl (fun c v => set_var v 0 c) c counters.

Lemma elements_of_0 m : elements_of m 0 = [].
Proof. done. Qed.

(** A new measurement: no points and no readings. *)
Lemma reset_tracks k c : 0 <= vars c ngoodTDCbanks < k -> 0 <= vars c nbadTDCbanks <= k ->
  tracks k (Scan false [] (fun _ => [])) (set_accept false (set_var ngoodTDCbanks (vars c ngoodTDCbanks + 1) (zero_counters c))).
Proof.
  intros Hg Hb. constructor; cbn [sc_accept sc_points sc_readings]; try done.
  - intros name n fields Hp. cbn in Hp. destruct Hp as [E|[E|[E|[E|[E|[]]]]]]; injection E as <- <- <-; (split; [reflexivity | split; [done | intros a i _; reflexivity]]).
  - change (0 <= vars c ngoodTDCbanks + 1 <= k). lia.
Qed.

(** ** One event is one step *)

Section handler.
Context {R V : Type} `{HR : Root row R} {HL : @RootLaws row R HR} `{HV : MidasIO V}.
Abbreviation L := (event_loop converter R V).
Implicit Types s : L.

(** The program and the scan: the tree is there, and these rows show these
    measurements. *)
Definition simulates (k : Z) (sc : scan) (done : list (Z * scan)) s : Prop :=
  tracks k sc (self s) /\ tree (self s) <> 0 /\ tree_alive (tree (self s)) (root s) = true /\
  Forall2 (fun d r => row_shows d.1 d.2 r) done (tree_rows (tree (self s)) (root s)).

Lemma stepped_simulates k sc sc' d s s' : simulates k sc d s -> stepped k s s' sc' -> simulates (k + 1) sc' d s' /\ same_loop s s'.
Proof.
  intros (T & Ht & Ha & Hr) (B & T' & E). destruct (same_base_root _ _ B) as (Er & _). unfold simulates. rewrite Er, E. split; [done|]. by apply same_base_loop.
Qed.

Variables (e : midas_event) (flags : Z) (bs : list bank) (behind : list Z).
Hypothesis Hev : event_ok flags bs.
Hypothesis Hne : bs <> [].
Hypothesis Hbehind : readable flags behind.
Hypothesis Hdata : fData e = Some (encode_event flags bs ++ behind).

Lemma end_of_measurement_ok names k sc d s : holding e names s -> simulates k sc d s -> k < 2 ^ 31 - 1 ->
  exists s', end_of_measurement s = Ok (true, s') /\ simulates (k + 1) (Scan false [] (fun _ => [])) (d ++ [(fTimeStamp (fEventHeader e), sc)]) s' /\ same_loop s s'.
Proof.
  intros Hs (T & Ht & Ha & Hr) Hk. unfold end_of_measurement. rewrite (ST_bind_Ok _ _ _ _ _ (the_event e names s Hs)), (ST_bind_Ok _ _ _ _ _ (set_member_Ok _ _)).
  set (c1 := set_var timestamp _ (self s)). destruct (fill_row (tree (self s)) (snapshot c1) (root s) Ha) as [Ha' Hr'].
  assert (Ef : Fill (with_self c1 s) = Ok (tt, with_root (tree_fill (tree (self s)) (snapshot c1) (root s)) (with_self c1 s))).
  { unfold Fill. rewrite !(ST_bind_Ok _ _ _ _ _ (member_Ok _ _)). unfold fill_tree. rewrite check_true; [done|]. apply andb_true_iff. split; [|done]. by apply negb_true_iff, Z.eqb_neq. }
  rewrite (ST_bind_Ok _ _ _ _ _ Ef), (ST_bind_Ok _ _ _ _ _ (set_member_Ok _ _)).
  change (foldl (fun c v => set_var v 0 c) ?c counters) with (zero_counters c).
  pose proof (tr_good _ _ _ T) as Hg. pose proof (tr_bad _ _ _ T) as Hb.
  set (s2 := with_self (zero_counters _) _). assert (E2 : vars (self s2) ngoodTDCbanks = vars (self s) ngoodTDCbanks) by reflexivity.
  rewrite (ST_bind_Ok _ _ _ _ _ (try_member_Ok _ s2 _ (increment_Ok ngoodTDCbanks (self s2) ltac:(rewrite E2; lia)))), (ST_bind_Ok _ _ _ _ _ (set_member_Ok _ _)).
  eexists. split; [reflexivity|]. split; [|by eexists _, (fDataContainer s), _; split; [by destruct s | done]]. split_and!.
  - cbn [self with_self]. apply (reset_tracks (k + 1) c1); [change (0 <= vars (self s) ngoodTDCbanks < k + 1) | change (0 <= vars (self s) nbadTDCbanks <= k + 1)]; lia.
  - exact Ht.
  - exact Ha'.
  - match goal with |- Forall2 _ _ ?l => change l with (tree_rows (tree (self s)) (tree_fill (tree (self s)) (snapshot c1) (root s))) end. rewrite Hr'. apply Forall2_app; [done|]. constructor; [|constructor]. by apply (snapshot_shows k).
Qed.

(** A reading of the event fits. *)
Definition fits (ev : scan_event) (sc : scan) : Prop :=
  match ev with Reading k _ => sc_accept sc = true -> Z.of_nat (length (sc_readings sc (phidget_var k))) < num_phidg_max | _ => True end.

Lemma measurement_ok k sc s ev : holding e [] s -> event_is bs ev -> (match ev with EndOfMove | NextMove => False | _ => True end) ->
  tracks k sc (self s) -> sc_accept sc = true -> fits ev sc -> k < 2 ^ 31 - 1 ->
  exists s', measurement s = Ok (true, s') /\ stepped k s s' (fst (scan_step (fTimeStamp (fEventHeader e)) ev sc)).
Proof.
  intros Hs Hev' Hm T Hacc Hfit Hk. destruct ev as [| |data|i values|]; try done.
  - by eapply pulse_ok.
  - eapply reading_ok; try done. by apply Hfit.
  - by eapply other_ok.
Qed.

(** Outside a measurement nothing but the beginning and the end of one matters. *)
Lemma step_idle t ev sc : (match ev with EndOfMove | NextMove => False | _ => True end) -> sc_accept sc = false -> scan_step t ev sc = (sc, None).
Proof. intros Hm Ha. destruct ev; try done; cbn; by rewrite ?Ha. Qed.

Lemma step_row t ev sc : (match ev with EndOfMove | NextMove => False | _ => True end) -> snd (scan_step t ev sc) = None.
Proof. by destruct ev. Qed.

Lemma handle_event k sc d s ev : carries e s -> simulates k sc d s -> event_is bs ev -> fits ev sc -> k < 2 ^ 31 - 1 ->
  exists s', event_banks s = Ok (true, s') /\ same_loop s s' /\
    simulates (k + 1) (fst (scan_step (fTimeStamp (fEventHeader e)) ev sc))
      (d ++ match snd (scan_step (fTimeStamp (fEventHeader e)) ev sc) with Some row => [row] | None => [] end) s'.
Proof.
  intros [Hc Hl] Hsim Hev' Hfit Hk. pose proof Hsim as (T & Ht & Ha & Hr). assert (Hs : holding e [] s) by (split; [done | by rewrite Hl]).
  unfold event_banks.
  assert (G1 : absent EOM bs \/ ~ absent EOM bs) by (unfold absent; destruct (first_named _ bs); [by right | by left]). destruct G1 as [G1|G1].
  - rewrite (ST_bind_Ok _ _ _ _ _ (GetBank_absent e flags bs behind Hev Hne Hbehind Hdata TGenericData EOM [] s Hs (fun F => F) G1)).
    assert (G2 : absent BONM bs \/ ~ absent BONM bs) by (unfold absent; destruct (first_named _ bs); [by right | by left]). destruct G2 as [G2|G2].
    + rewrite (ST_bind_Ok _ _ _ _ _ (GetBank_absent e flags bs behind Hev Hne Hbehind Hdata TGenericData BONM [] s Hs (fun F => F) G2)), (ST_bind_Ok _ _ _ _ _ (member_Ok _ s)).
      assert (Hm : match ev with EndOfMove | NextMove => False | _ => True end) by (destruct ev; try done; destruct Hev' as (_ & H'); tauto).
      rewrite (step_row _ _ _ Hm), app_nil_r, (tr_accept _ _ _ T). destruct (sc_accept sc) eqn:Hacc.
      * destruct (measurement_ok k sc s ev Hs Hev' Hm T Hacc Hfit Hk) as (s' & E & ST). exists s'. split; [done|]. apply and_comm. by eapply stepped_simulates.
      * rewrite (step_idle _ _ _ Hm Hacc). destruct (last_look_ok e flags bs behind Hev Hne Hbehind Hdata k Hk [] s sc Hs (fun F => F) (proj1 Hev') T) as (s' & E & ST).
        exists s'. split; [done|]. apply and_comm. by eapply stepped_simulates.
    + destruct ev; try (destruct Hev' as (_ & H'); tauto). destruct (first_named (BONM ++ [0]) bs) as [b|] eqn:Eb; [|done].
      destruct (GetBank_present e flags bs behind Hev Hne Hbehind Hdata TGenericData BONM [] s b Hs (fun F => F) Eb) as (pre & post & _ & G). destruct (G Generic eq_refl) as (s1 & E1 & Hs1 & B1 & F1).
      rewrite (ST_bind_Ok _ _ _ _ _ E1). destruct (same_base_root _ _ B1) as (Er & _).
      destruct (end_of_measurement_ok [BONM] k sc d s1 Hs1) as (s2 & E2 & S2 & B2); [unfold simulates; by rewrite F1, Er | done |].
      exists s2. split; [done|]. split; [|done]. eapply same_loop_trans; [by apply same_base_loop | exact B2].
  - destruct ev; try (destruct Hev' as (_ & H'); tauto). destruct (first_named (EOM ++ [0]) bs) as [b|] eqn:Eb; [|done].
    destruct (GetBank_present e flags bs behind Hev Hne Hbehind Hdata TGenericData EOM [] s b Hs (fun F => F) Eb) as (pre & post & _ & G). destruct (G Generic eq_refl) as (s1 & E1 & Hs1 & B1 & F1).
    rewrite (ST_bind_Ok _ _ _ _ _ E1), (ST_bind_Ok _ _ _ _ _ (set_member_Ok _ _)). eexists. split; [reflexivity|]. rewrite app_nil_r. apply and_comm.
    apply (stepped_simulates k sc); [done|]. split; [by eapply same_base_trans; [|apply same_base_self]|]. cbn [self with_self fst scan_step]. rewrite F1.
    split; [by apply set_accept_tracks | done].
Qed.
End handler.
