(* ===== verification/PtfRun.v ===== *)
(** * The converter of the PTF scans: from the bytes of a file to the rows of the tree

    The events of a run go through the reading loop, the container and the
    handler of [PtfConverter.v]; what becomes of them is the abstract scan of
    [PtfScan.v].  The end of the file says what happens outside the hypotheses. *)

From S2P Require Import Prelude CStr Utils MidasEvent MidasBanks MidasFile MidasStream Digitizer Waveforms DataContainer EventLoop FileLoop OneFile PtfConverter PtfScan.

(** ** Specification *)

Abbreviation entry := (file_entry scan_event).
Abbreviation entry_ok := (entry_good event_is).

(** The measurements that end in the run; what is behind the last of them is
    not in the tree. *)
Fixpoint scan_rows (l : list entry) (sc : scan) : list (Z * scan) :=
  match l with
  | [] => []
  | Physics h _ _ ev :: l' =>
      let '(sc', row) := scan_step (fTimeStamp h) ev sc in
      match row with Some r => [r] | None => [] end ++ scan_rows l' sc'
  | _ :: l' => scan_rows l' sc
  end.

Definition scan_next (x : entry) (sc : scan) : scan :=
  match x with Physics h _ _ ev => fst (scan_step (fTimeStamp h) ev sc) | _ => sc end.
Definition scan_out (x : entry) (sc : scan) : list (Z * scan) :=
  match x with Physics h _ _ ev => match snd (scan_step (fTimeStamp h) ev sc) with Some r => [r] | None => [] end | _ => [] end.

Lemma scan_rows_cons x l sc : scan_rows (x :: l) sc = scan_out x sc ++ scan_rows l (scan_next x sc).
Proof. destruct x as [|h flags bs ev| |]; cbn [scan_rows scan_out scan_next]; try done. by destruct (scan_step (fTimeStamp h) ev sc). Qed.

(** No Phidget has more readings in a measurement than its arrays hold. *)
Fixpoint scan_fits (l : list entry) (sc : scan) : Prop :=
  match l with
  | [] => True
  | x :: l' => (match x with Physics _ _ _ ev => fits ev sc | _ => True end) /\ scan_fits l' (scan_next x sc)
  end.

(** A run begins, if at all, with the first event of the file. *)
Definition begins_first (l : list entry) : Prop := Forall (fun x => is_begin x = false) (tail l).

Definition no_scan (accept : bool) : scan := Scan accept [] (fun _ => []).

Section run.
Context {R V : Type} `{HR : Root row R} {HRL : @RootLaws row R HR} `{HV : MidasIO V} {HVL : @MidasIOLaws V HV}.
Abbreviation L := (event_loop converter R V).
Implicit Types s : L.

(** ** The state between events *)

(** The members before the first event; memory must have been zero. *)
Record fresh (c : converter) : Prop := Fresh {
  fr_tree : tree c = 0;
  fr_counters : forall v, In v counters -> vars c v = 0
}.

(** [k] events have been handled; a tree is in a file that is open. *)
Definition at_scan (k : Z) (sc : scan) (d : list (Z * scan)) s : Prop :=
  (fresh (self s) /\ d = [] /\ sc = no_scan (gbl_accept_banks (self s)) /\ 0 <= k) \/ (simulates k sc d s /\ fOutputFile s = true).

(** The first event of data makes the tree. *)
Lemma initialize_ok s e : fresh (self s) -> carries e s -> ready s ->
  exists s', initialize_tree s = Ok (tt, s') /\ simulates 0 (no_scan (gbl_accept_banks (self s))) [] s' /\ fOutputFile s' = true /\ carries e s' /\ same_run s s'.
Proof.
  intros [Ft Fc] Hc Hr. unfold initialize_tree. rewrite (ST_bind_Ok _ _ _ _ _ (member_Ok _ s)).
  destruct (OpenRootFile_ok (run_numb (self s)) [] s (rd_enabled _ Hr) (rd_name _ Hr)) as [r E]. rewrite (ST_bind_Ok _ _ _ _ _ E).
  rewrite ST_bind_eq. cbn [root with_output with_root]. destruct (new_TTree r) as [t r'] eqn:Et. destruct (new_tree r) as (Ha & Hne & Hrows). rewrite Et in Ha, Hne, Hrows. cbn [fst snd] in Ha, Hne, Hrows.
  rewrite !(ST_bind_Ok _ _ _ _ _ (set_member_Ok _ _)). rewrite set_member_Ok. eexists. split; [reflexivity|]. split; [|split; [done | split]].
  - split; [|split; [exact Hne | split; [exact Ha|]]]; [|match goal with |- Forall2 _ _ ?l => change l with (tree_rows t r') end; by rewrite Hrows].
    assert (Z0 : forall v, In v counters -> vars (set_var nbadTDCbanks 0 (set_var ngoodTDCbanks 0 (set_tree t (self s)))) v = 0).
    { intros v Hv. cbn [vars set_var set_tree]. case_decide; [done|]. case_decide; [done|]. by apply Fc. }
    cbn [self with_self with_root with_output]. constructor; cbn [sc_accept sc_points sc_readings no_scan]; try done.
    + apply Z0. cbn. tauto.
    + rewrite Z0 by (cbn; tauto). done.
    + by rewrite Z0 by (cbn; tauto).
    + intros j w _. by rewrite Z0 by (cbn; tauto).
    + intros name n fields Hp. assert (Hn : In n counters) by (cbn in Hp; destruct Hp as [X|[X|[X|[X|[X|[]]]]]]; injection X as <- <- <-; cbn; tauto).
      rewrite (Z0 n Hn). split_and!; try done.
  - exact Hc.
  - exists true, (set_var nbadTDCbanks 0 (set_var ngoodTDCbanks 0 (set_tree t (self s)))), (fDataContainer s), r'. split; [|done]. by destruct s.
Qed.

(** ** One event *)

(** The handler, for the first event too. *)
Lemma handler_ok k sc d s e flags bs behind ev : event_ok flags bs -> bs <> [] -> readable flags behind -> fData e = Some (encode_event flags bs ++ behind) ->
  ready s -> carries e s -> at_scan k sc d s -> event_is bs ev -> fits ev sc -> k < 2 ^ 31 - 1 ->
  exists s', ptf_ProcessMidasEvent s = Ok (true, s') /\ same_run s s' /\ fOutputFile s' = true /\
    simulates (k + 1) (fst (scan_step (fTimeStamp (fEventHeader e)) ev sc))
      (d ++ match snd (scan_step (fTimeStamp (fEventHeader e)) ev sc) with Some row => [row] | None => [] end) s'.
Proof.
  intros Hev Hne Hb Hd Hr Hc Hat Hbs Hfit Hk. unfold ptf_ProcessMidasEvent. rewrite (ST_bind_Ok _ _ _ _ _ (member_Ok tree s)).
  destruct Hat as [(Hf & -> & -> & Hk0)|[Hsim Hout]].
  - rewrite (fr_tree _ Hf), Z.eqb_refl. destruct (initialize_ok s e Hf Hc Hr) as (s1 & E1 & (T1 & S1) & O1 & C1 & B1). rewrite (ST_bind_Ok _ _ _ _ _ E1).
    destruct (handle_event e flags bs behind Hev Hne Hb Hd k _ [] s1 ev C1 (conj (tracks_more 0 k _ _ Hk0 T1) S1) Hbs Hfit Hk) as (s2 & E2 & B2 & S2).
    destruct (same_loop_run _ _ B2) as [_ O2]. exists s2. split; [exact E2|]. split; [by eapply same_run_loop|]. split; [congruence | exact S2].
  - pose proof Hsim as (_ & Ht & _). rewrite (proj2 (Z.eqb_neq _ _) Ht). rewrite ST_bind_eq. cbn [mret ST_ret].
    destruct (handle_event e flags bs behind Hev Hne Hb Hd k _ d s ev Hc Hsim Hbs Hfit Hk) as (s2 & E2 & B2 & S2).
    destruct (same_loop_run _ _ B2) as [B O2]. exists s2. split; [exact E2|]. split; [done|]. split; [congruence | exact S2].
Qed.

(** ** The invariant *)

(** How many events there were, the scan, and the measurements that ended. *)
Abbreviation progress := (Z * scan * list (Z * scan))%type.

Definition invariant (y : progress) s : Prop :=
  let '(k, sc, d) := y in ready s /\ at_scan k sc d s /\ 0 <= k /\ (k = 0 -> fresh (self s) /\ d = [] /\ sc = no_scan (gbl_accept_banks (self s))).

Definition good (x : entry) (y : progress) : Prop :=
  let '(k, sc, d) := y in entry_ok x /\ k < 2 ^ 31 - 1 /\ (match x with Physics _ _ _ ev => fits ev sc | _ => True end) /\ (is_begin x = true -> k = 0).

Definition next (x : entry) (y : progress) : progress := let '(k, sc, d) := y in (k + 1, scan_next x sc, d ++ scan_out x sc).

Lemma at_scan_more k sc d s : at_scan k sc d s -> at_scan (k + 1) sc d s.
Proof.
  intros [(F & D & S1 & K)|((T & S1) & Ho)]; [left; split_and!; (done || lia) | right]. split; [split; [|done] | done]. eapply tracks_more; [|exact T]. lia.
Qed.

Lemma unchanged x k sc d s : scan_next x sc = sc -> scan_out x sc = [] -> invariant (k, sc, d) s -> invariant (next x (k, sc, d)) s.
Proof.
  intros En Eo (Hr & Hat & Hk & _). unfold next, invariant. rewrite En, Eo, app_nil_r. split; [done|]. split; [by apply at_scan_more|]. split; [lia|]. lia.
Qed.

Lemma data_event fname h flags bs ev b k sc d s : good (Physics h flags bs ev) (k, sc, d) -> from_malloc (V := V) (fDataSize h) b -> invariant (k, sc, d) s ->
  exists s', process_event (read_as (raw_of (Physics h flags bs ev)) b) fname s = Ok (tt, s') /\ invariant (next (Physics h flags bs ev) (k, sc, d)) s' /\ sys s' = sys s.
Proof.
  intros (Hok & Hmax & Hfit & _) Hb (Hr & Hat & Hk & _). pose proof Hok as (_ & _ & _ & _ & Hev & Hne & Hbs & _).
  set (P := fun s2 : L => fOutputFile s2 = true /\ simulates (k + 1) (scan_next (Physics h flags bs ev) sc) (d ++ scan_out (Physics h flags bs ev) sc) s2).
  destruct (process_physics (HA := ptf) event_is h flags bs ev b fname s P Hok Hb Hr (fun _ => eq_refl)) as (s2 & E2 & [O2 S2] & R2 & V2).
  - intros e behind cc Hbehind Hd He s1 C1 R1. destruct (handler_ok k sc d s1 e flags bs behind ev Hev Hne Hbehind Hd R1 C1 Hat Hbs Hfit Hmax) as (s2 & E2 & B2 & O2 & S2).
    rewrite He in S2. exists s2. split; [exact E2|]. split; [exact B2|]. by split.
  - eexists. split; [exact E2|]. split; [|exact V2]. split; [exact R2|]. split; [right; by split|]. split; lia.
Qed.

Lemma begin_event fname h l b sc d s : raw_ok (h, l) -> event_kind h = 0x8000 -> invariant (0, sc, d) s ->
  exists s', process_event (read_as (h, l) b) fname s = Ok (tt, s') /\ invariant (next (BeginOfRun h l) (0, sc, d)) s' /\ sys s' = sys s.
Proof.
  intros Hraw Hk (Hr & _ & _ & Hzero). destruct (Hzero eq_refl) as (Hf & -> & ->). rewrite (process_begin (h, l) b fname s Hraw Hk). cbn [fst snd].
  set (s1 := with_run (to_int (fSerialNumber h)) (with_root (new_XmlOdb l (root s)) s)).
  destruct (OpenRootFile_ok (to_int (fSerialNumber h)) fname s1) as [q Eq]; [exact (rd_enabled _ Hr) | exact (rd_name _ Hr) |]. cbn [SetFullOutputFileName ptf]. rewrite (ST_bind_Ok _ _ _ _ _ Eq).
  eexists. split; [reflexivity|]. split; [|done]. split; [by destruct Hr; constructor|]. split; [|lia]. left. split_and!; (done || lia).
Qed.

Lemma entry_event fname x b y s : good x y -> from_malloc (V := V) (fDataSize (raw_of x).1) b -> invariant y s ->
  exists s', process_event (read_as (raw_of x) b) fname s = Ok (tt, s') /\ invariant (next x y) s' /\ sys s' = sys s.
Proof.
  destruct y as [[k sc] d]. intros Hg Hb Hi. destruct x as [h l|h flags bs ev|h l|h l].
  - destruct Hg as ([Hraw Hk] & _ & _ & Hz). rewrite (Hz eq_refl) in *. by apply begin_event.
  - by apply data_event.
  - destruct Hg as ([_ Hk] & _). exists s. split; [by apply process_end|]. split; [by apply unchanged | done].
  - destruct Hg as ([_ [Hk Hz]] & _). exists s. split; [by apply process_message|]. split; [by apply unchanged | done].
Qed.

Lemma invariant_sys y v s : invariant y s -> invariant y (with_sys v s).
Proof. destruct y as [[k sc] d]. intros (Hr & H). split; [by destruct Hr; constructor | exact H]. Qed.

(** ** A file *)

Fixpoint scan_last (l : list entry) (sc : scan) : scan := match l with [] => sc | x :: l' => scan_last l' (scan_next x sc) end.

Lemma last_state_is l : forall k sc d, last_state next l (k, sc, d) = (k + Z.of_nat (length l), scan_last l sc, d ++ scan_rows l sc).
Proof.
  induction l as [|x l IH]; intros k sc d; [cbn; by rewrite Z.add_0_r, app_nil_r|]. cbn [last_state]. unfold next at 2. rewrite IH, scan_rows_cons, app_assoc. cbn [length scan_last].
  do 2 f_equal. lia.
Qed.

Lemma all_good_is l : forall k sc d, Forall entry_ok l -> scan_fits l sc -> 0 <= k -> k + Z.of_nat (length l) <= 2 ^ 31 - 1 ->
  (if k =? 0 then begins_first l else Forall (fun x => is_begin x = false) l) -> all_good good next l (k, sc, d).
Proof.
  induction l as [|x l IH]; intros k sc d Hl Hfit Hk Hmax Hb; [done|]. cbn [all_good]. cbn [length] in Hmax. destruct Hfit as [Hx Hfit].
  assert (Hb' : (is_begin x = true -> k = 0) /\ Forall (fun x => is_begin x = false) l).
  { destruct (Z.eqb_spec k 0); [by split|]. split; [rewrite (Forall_inv Hb); done | exact (Forall_inv_tail Hb)]. }
  destruct Hb' as [B1 B2]. split; [split_and!; try done; [exact (Forall_inv Hl) | lia]|]. apply IH; try done; [exact (Forall_inv_tail Hl) | lia | lia |]. by rewrite (proj2 (Z.eqb_neq _ _)) by lia.
Qed.

Lemma at_scan_rows k sc d s : at_scan k sc d s -> Forall2 (fun d r => row_shows d.1 d.2 r) d (rows_at (tree (self s)) (root s)) /\ gbl_accept_banks (self s) = sc_accept sc.
Proof.
  intros [(F & -> & -> & _)|((T & Ht & _ & H) & _)]; unfold rows_at.
  - by rewrite (fr_tree _ F), Z.eqb_refl.
  - rewrite (proj2 (Z.eqb_neq _ _) Ht). split; [done | apply T].
Qed.

(** A file of a run: its rows are in the file that is closed at the end. *)
Lemma ptf_file_ok fuel fname l cut s : ready s -> fresh (self s) -> opens fname (sys s) (file_bytes raw_of l cut) -> cut_event cut ->
  Forall entry_ok l -> begins_first l -> let sc := no_scan (gbl_accept_banks (self s)) in scan_fits l sc ->
  Z.of_nat (length l) <= 2 ^ 31 - 1 -> (length l < fuel)%nat ->
  exists s' r, ProcessMidasFile fuel fname s = Ok (0, s') /\ (tree (self s') <> 0 -> root s' = write_and_close r) /\
    Forall2 (fun d r => row_shows d.1 d.2 r) (scan_rows l sc) (rows_at (tree (self s')) r) /\ gbl_accept_banks (self s') = sc_accept (scan_last l sc).
Proof.
  intros Hst Hf Ho Hcut Hl Hb sc Hfit Hmax Hfuel.
  destruct (file_ok raw_of good next invariant entry_event (fun x y => match y with (k, sc, d) => fun H => proj1 (proj1 H) end) invariant_sys
    (fun y s => match y with (k, sc, d) => fun H => rd_max _ (proj1 H) end) (fun _ _ _ _ => eq_refl) fuel fname l cut (0, sc, []) s) as (s2 & v & v' & I2 & E); try done.
  - split; [done|]. split; [by left | split; [lia | done]].
  - apply all_good_is; (done || lia).
  - rewrite last_state_is in I2. destruct I2 as (_ & A2 & _). destruct (at_scan_rows _ _ _ _ A2) as [H1 H2].
    destruct (closed_self s2 v v') as [Es Er]. exists (with_sys v' (closed (with_sys v s2))), (root s2). rewrite Es. split; [exact E|]. split; [|done].
    intros Ht. apply Er. destruct A2 as [([Hz _] & _)|[_ Ho2]]; [by destruct Ht | done].
Qed.

(** ** The program on a file *)

Lemma main_ok fuel fname arg2 arg3 l cut memory r v : Forall no_option [fname; arg2; arg3] -> no_file (V := V) arg2 -> no_file (V := V) arg3 -> fresh memory ->
  opens fname v (file_bytes raw_of l cut) -> cut_event cut -> Forall entry_ok l -> begins_first l ->
  let sc := no_scan (to_int (fst (strtol arg2)) =? 1) in
  scan_fits l sc -> Z.of_nat (length l) <= 2 ^ 31 - 1 -> (length l < fuel)%nat ->
  exists s' r', ptf_main fuel [fname; arg2; arg3] memory r v = Ok (if sc_accept (scan_last l sc) then 1 else 0, s') /\
    (tree (self s') <> 0 -> root s' = write_and_close r') /\ Forall2 (fun d w => row_shows d.1 d.2 w) (scan_rows l sc) (rows_at (tree (self s')) r').
Proof.
  intros Hn Ha2 Ha3 Hf Ho Hcut Hl Hb sc Hfit Hmax Hfuel. unfold ptf_main. cbn zeta.
  set (globals := Converter _ _ _ _ _ _). set (s0 := ScanToTreeConverter globals r v).
  rewrite (ExecuteLoop_files (HA := ptf) fuel fname [arg2; arg3] s0 eq_refl eq_refl Hn).
  destruct (ptf_file_ok fuel fname l cut (with_offline true s0)) as (s1 & r1 & E1 & Hr & Hrows & Hacc); try done.
  - by constructor; cbn; lia || done.
  - destruct Hf as [Ft Fc]. constructor; [exact Ft|]. intros x Hx. cbn. case_decide; [done|]. by apply Fc.
  - destruct (file_missing fuel arg2 s1 Ha2) as [v2 E2]. destruct (file_missing fuel arg3 (with_sys v2 s1) Ha3) as [v3 E3].
    pose proof (Forall_inv Hn) as N1. pose proof (Forall_inv (Forall_inv_tail Hn)) as N2. pose proof (Forall_inv (Forall_inv_tail (Forall_inv_tail Hn))) as N3.
    assert (E : process_files fuel [fname; arg2; arg3] (with_offline true s0) = Ok (tt, with_sys v3 (with_sys v2 s1))).
    { by rewrite (process_files_cons _ _ _ _ _ _ N1 E1), (process_files_cons _ _ _ _ _ _ N2 E2), (process_files_cons _ _ _ _ _ _ N3 E3). }
    rewrite (ST_bind_Ok _ _ _ _ _ E : (process_files fuel [fname; arg2; arg3] ≫= λ _ : (), mret 0) (with_offline true s0) = Ok (0, with_sys v3 (with_sys v2 s1))), res_bind_Ok.
    exists (with_sys v3 (with_sys v2 s1)), r1. cbn [self with_sys root]. by rewrite Hacc.
Qed.

(** C1: The converter is called with a file of a run, the answer of its call for the file before
    (1 when a measurement was going on) and the number of the run.
    When no file has the name of a number, the memory was zero, and the
    file has data, messages and the end of the run, behind the event that begins
    a run if it is the first, whatever pieces the system delivers it in and whether or not it
    was cut in an event: the program ends, every measurement that ended in the file has
    one row in the tree that is written, in order, with the time, the points of the
    digitizer and the readings of the Phidgets of just this measurement, and
    the answer is 1 when a measurement is still going on. *)
Theorem ptf_rows fuel fname arg2 arg3 l cut memory r v : Forall no_option [fname; arg2; arg3] -> no_file (V := V) arg2 -> no_file (V := V) arg3 -> fresh memory ->
  opens fname v (file_bytes raw_of l cut) -> cut_event cut -> Forall entry_ok l -> begins_first l ->
  let sc := no_scan (to_int (fst (strtol arg2)) =? 1) in
  scan_fits l sc -> Z.of_nat (length l) <= 2 ^ 31 - 1 -> (length l < fuel)%nat ->
  exists s' r', ptf_main fuel [fname; arg2; arg3] memory r v = Ok (if sc_accept (scan_last l sc) then 1 else 0, s') /\
    (tree (self s') <> 0 -> root s' = write_and_close r') /\ Forall2 (fun d w => row_shows d.1 d.2 w) (scan_rows l sc) (rows_at (tree (self s')) r').
Proof. apply main_ok. Qed.
End run.

(** ** A run of one measurement *)

Definition demo_begin : entry := BeginOfRun (demo_header 0x8000 4711 100 demo_xml) demo_xml.
Definition demo_pulse : waveforms := replicate 3 (Some (replicate 70 5)) ++ replicate 13 None.
Definition demo_pulse_bank : list Z := concat (map (le_bytes 4) ([0xa000006d; 7; 1; 12345] ++ packed (present 0 demo_pulse))).
Definition demo_reading : list Z := map double_of_int [1; 2; 3; 4; 5; 6; 7; 8].
Definition demo_run : list entry :=
  [demo_begin;
   demo_physics 101 (bank_of EOM 4 [1; 0]) EndOfMove;
   demo_physics 102 (bank_of V730 6 demo_pulse_bank) (Pulse demo_pulse);
   demo_physics 103 (bank_of PH00 10 (concat (map (le_bytes 8) demo_reading))) (Reading 0 demo_reading);
   Message (demo_header 0x8002 0 103 demo_message) demo_message;
   demo_physics 104 (bank_of BONM 4 [2; 0]) NextMove;
   EndOfRun (demo_header 0x8001 0 105 demo_message) demo_message].

#[local] Existing Instance one_file.
#[local] Existing Instance one_file_laws.

Definition demo_disk : disk := Disk (file_bytes raw_of demo_run demo_cut) [] 6.
Definition demo_memory : converter := Converter (fun _ => 0) (fun _ => ∅) (fun _ => ∅) 0 true 0.
Definition demo_file : on_file disk := OnFile (set_in (str "run.mid") 3 false false TMidasFile) demo_disk.

Lemma demo_run_ok : Forall entry_ok demo_run.
Proof.
  unfold demo_run. repeat (apply Forall_cons; split); [..| by constructor].
  - by split; [apply xml_raw|].
  - apply demo_physics_ok; by vm_compute.
  - apply demo_physics_ok; [lia | by vm_compute | by vm_compute | by vm_compute |]. do 3 (split; [by vm_compute|]). eexists. split; [by vm_compute|].
    exists [0xa000006d; 7; 1; 12345], 35%nat, []. rewrite app_nil_r. split; [by vm_compute|]. split; [|split; [by_computation | split; [by vm_compute|]]].
    + unfold v1730_ok. split_and!; try by vm_compute. unfold samples_ok. by_computation.
    + intros [|[|[|i]]] Hi; [by eexists..| lia].
  - apply demo_physics_ok; [lia | by vm_compute | by vm_compute | by vm_compute |]. do 4 (split; [by vm_compute|]). exists PH00, num_phidg0_points, phidget0. eexists _, []. rewrite app_nil_r.
    split; [done|]. split; [constructor|]. split; [by vm_compute|]. split; [done|]. split; by_computation.
  - split; [apply text_raw; lia|]. split; [done|]. cbn. tauto.
  - apply demo_physics_ok; by vm_compute.
  - split; [apply text_raw; lia | done].
Qed.

Definition demo_scan : scan := Scan true [point_of 102 demo_pulse] (fun n => if decide (n = num_phidg0_points) then [demo_reading] else []).

Lemma ptf_rows_witness : exists s' r', ptf_main 8 [str "run.mid"; str "0"; str "4711"] demo_memory (SimRoot [] []) demo_disk = Ok (0, s') /\
  exists w, rows_at (tree (self s')) r' = [w] /\ row_shows 104 demo_scan w.
Proof.
  destruct (ptf_rows 8 (str "run.mid") (str "0") (str "4711") demo_run demo_cut demo_memory (SimRoot [] []) demo_disk) as (s' & r' & E & _ & H).
  - by repeat constructor.
  - intros v. eexists. reflexivity.
  - intros v. eexists. reflexivity.
  - by constructor.
  - by exists demo_file.
  - exact demo_cut_event.
  - apply demo_run_ok.
  - by_computation.
  - repeat (split; [first [exact I | intros _; reflexivity]|]). exact I.
  - cbn. lia.
  - cbn. lia.
  - exists s', r'. split; [exact E|]. change (scan_rows demo_run _) with [(104, demo_scan)] in H. apply Forall2_cons_inv_l in H as (w & ws & Hw & Hws & E2).
    apply Forall2_nil_inv_l in Hws. subst ws. exists w. split; [exact E2 | exact Hw].
Defined.

(** ** Outside the hypotheses *)

(** The constructor does not set [tree]: with another number in its memory the first
    measurement that ends is filled into no tree. *)
Example tree_not_initialized :
  match ptf_main 8 [str "run.mid"; str "0"; str "4711"] (Converter (fun _ => 0) (fun _ => ∅) (fun _ => ∅) 99 true 0) (SimRoot [] []) demo_disk with
  | Crash NullDeref => True | _ => False end.
Proof. by vm_compute. Qed.

(** Two files in one call: closing the first deletes the tree that the second one fills. *)
Definition demo_two_files : disk := Disk (file_bytes raw_of demo_run []) [] 6.
Example two_files :
  let file := fun s => ProcessMidasFile 8 (str "run.mid") (with_sys demo_two_files s) in
  match file (ScanToTreeConverter demo_memory (SimRoot [] []) demo_two_files) with
  | Ok (_, s) => match file s with Crash NullDeref => True | _ => False end
  | Crash _ => False end.
Proof. by vm_compute. Qed.

(** The reading of a Phidget behind its array, of 10000 elements. *)
Example too_many_readings :
  let memory := Converter (fun v => if decide (v = num_phidg0_points) then num_phidg_max else 0) (fun _ => ∅) (fun _ => ∅) 0 true 0 in
  match ptf_main 8 [str "run.mid"; str "1"; str "4711"] memory (SimRoot [] [])
    (Disk (file_bytes raw_of (take 1 (drop 3 demo_run)) []) [] 6) with
  | Crash OutOfBounds => True | _ => False end.
Proof. by vm_compute. Qed.

(** A measurement that goes on at the end of a file has no row: its points were in
    the members of an object that is gone. *)
Example measurement_over_two_files :
  match ptf_main 8 [str "run.mid"; str "0"; str "4711"] demo_memory (SimRoot [] [])
    (Disk (file_bytes raw_of (take 4 demo_run) []) [] 6) with
  | Ok (answer, s) => answer = 1 /\ map (fun t => length (t_rows t)) (sim_trees (root s)) = [0%nat] | Crash _ => False end.
Proof. by vm_compute. Qed.
