(* ===== verification/PtfScript.v ===== *)
(** * A run in several files ([midas2root/run_convert_to_root.sh])

    The data of a long run are in several files.  The script converts
    them one after the other, and gives each call the answer of the call before it: whether a
    measurement was going on.  Where the files are cut between two
    measurements, the trees together are those of the whole run. *)

From S2P Require Import Prelude CStr Utils MidasEvent MidasBanks MidasFile MidasStream DataContainer EventLoop FileLoop OneFile PtfConverter PtfScan PtfRun.

(** ** Scans that are the same

    A scan has a function in it, so that it is the same up to its values. *)

Definition scan_eq (sc sc' : scan) : Prop :=
  sc_accept sc = sc_accept sc' /\ sc_points sc = sc_points sc' /\ forall n, sc_readings sc n = sc_readings sc' n.

#[export] Instance scan_eq_equivalence : Equivalence scan_eq.
Proof.
  split.
  - intros sc. done.
  - intros a b (H1 & H2 & H3). by split_and!.
  - intros a b c (H1 & H2 & H3) (K1 & K2 & K3). split_and!; [congruence | congruence | intros n; by rewrite H3, K3].
Qed.

(** A measurement that ended: the time of its end, and what it was. *)
Definition ended_eq (d d' : Z * scan) : Prop := d.1 = d'.1 /\ scan_eq d.2 d'.2.

#[export] Instance scan_next_proper x : Proper (scan_eq ==> scan_eq) (scan_next x).
Proof.
  intros sc sc' (H1 & H2 & H3). destruct x as [h data|h flags bs ev|h data|h data]; cbn [scan_next]; try by split_and!.
  destruct ev; cbn [scan_step fst]; rewrite <- ?H1, <- ?H2; try by split_and!.
  - destruct (sc_accept sc && _); split_and!; (done || by rewrite H2).
  - destruct (sc_accept sc) eqn:E; split_and!; try done; try congruence. intros n. cbn. by rewrite H3.
Qed.

Lemma scan_out_proper x sc sc' : scan_eq sc sc' -> Forall2 ended_eq (scan_out x sc) (scan_out x sc').
Proof.
  intros E. destruct x as [h data|h flags bs ev|h data|h data]; cbn [scan_out]; try constructor. destruct ev; cbn; repeat constructor; apply E.
Qed.

Lemma scan_rows_proper l : forall sc sc', scan_eq sc sc' -> Forall2 ended_eq (scan_rows l sc) (scan_rows l sc').
Proof.
  induction l as [|x l IH]; intros sc sc' E; [constructor|]. rewrite !scan_rows_cons. apply Forall2_app; [by apply scan_out_proper|]. apply IH. by rewrite E.
Qed.

#[export] Instance scan_last_proper l : Proper (scan_eq ==> scan_eq) (scan_last l).
Proof. induction l as [|x l IH]; intros sc sc' E; [done|]. cbn [scan_last]. apply IH. by rewrite E. Qed.

Lemma scan_fits_proper l : forall sc sc', scan_eq sc sc' -> scan_fits l sc -> scan_fits l sc'.
Proof.
  induction l as [|x l IH]; intros sc sc' E; [done|]. cbn [scan_fits]. intros [Hx Hl]. split; [|eapply IH; [|exact Hl]; by rewrite E].
  destruct x as [h data|h flags bs ev|h data|h data]; try done. destruct ev; try done. cbn [fits] in *. destruct E as (E1 & _ & E3). by rewrite <- E1, <- E3.
Qed.

Lemma row_shows_proper d d' w : ended_eq d d' -> row_shows d.1 d.2 w -> row_shows d'.1 d'.2 w.
Proof.
  intros [Et (E1 & E2 & E3)] (A & B & C & D & F). unfold row_shows. rewrite <- Et, <- E2. split_and!; try done.
  intros name n fields Hp. rewrite <- E3. exact (F name n fields Hp).
Qed.

Lemma rows_shown_proper l l' : Forall2 ended_eq l l' -> forall rows, Forall2 (fun d w => row_shows d.1 d.2 w) l rows -> Forall2 (fun d w => row_shows d.1 d.2 w) l' rows.
Proof.
  induction 1 as [|d d' l l' Hd _ IH]; intros rows Hr; [by apply Forall2_nil_inv_l in Hr as ->|].
  apply Forall2_cons_inv_l in Hr as (w & ws & Hw & Hr & ->). constructor; [by eapply row_shows_proper | by apply IH].
Qed.

(** ** Streams in pieces *)

Lemma scan_rows_app l l' : forall sc, scan_rows (l ++ l') sc = scan_rows l sc ++ scan_rows l' (scan_last l sc).
Proof. induction l as [|x l IH]; intros sc; [done|]. cbn [app scan_last]. by rewrite !scan_rows_cons, IH, app_assoc. Qed.

Lemma scan_fits_app l l' : forall sc, scan_fits (l ++ l') sc <-> scan_fits l sc /\ scan_fits l' (scan_last l sc).
Proof. induction l as [|x l IH]; intros sc; [cbn; tauto|]. cbn [app scan_fits scan_last]. rewrite IH. tauto. Qed.

(** Nothing has been measured since the last row. *)
Definition between (sc : scan) : Prop := scan_eq sc (no_scan (sc_accept sc)).

(** The files are cut between measurements. *)
Fixpoint cut_between (ls : list (list entry)) (sc : scan) : Prop :=
  match ls with
  | [] => True
  | l :: ls' => (match ls' with [] => True | _ => between (scan_last l sc) end) /\ cut_between ls' (scan_last l sc)
  end.

Section script.
Context {R V : Type} `{HR : Root row R} {HRL : @RootLaws row R HR} `{HV : MidasIO V} {HVL : @MidasIOLaws V HV}.
Abbreviation L := (event_loop converter R V).

(** ** The script *)

(** [for ifile in ...; do $cmd $ifile $RETVAL $1; RETVAL="$?"; done]: every call is a
    process of its own. *)
Fixpoint convert_files (fuel : nat) (run : cstr) (memory : converter) (r : R) (files : list (cstr * V)) (retval : Z) : res (list L) :=
  match files with
  | [] => Ok []
  | (ifile, v) :: files' =>
      '(retval, s) ← ptf_main fuel [ifile; decimal retval; run] memory r v;
      l ← convert_files fuel run memory r files' retval;
      Ok (s :: l)
  end.

(** ** Specification *)

Record part := Part { p_name : cstr; p_sys : V; p_entries : list entry; p_cut : list Z }.

Definition part_ok (fuel : nat) (p : part) : Prop :=
  no_option (p_name p) /\ opens (p_name p) (p_sys p) (file_bytes raw_of (p_entries p) (p_cut p)) /\ cut_event (p_cut p) /\
  Forall (entry_good (V := V) event_is) (p_entries p) /\ begins_first (p_entries p) /\ Z.of_nat (length (p_entries p)) <= 2 ^ 31 - 1 /\ (length (p_entries p) < fuel)%nat.

(** The rows that a process has written. *)
Definition wrote (s : L) (rows : list row) : Prop := exists r, (tree (self s) <> 0 -> root s = write_and_close r) /\ rows = rows_at (tree (self s)) r.

Definition flag (accept : bool) : Z := if accept then 1 else 0.

Lemma flag_text accept : to_int (fst (strtol (decimal (flag accept)))) =? 1 = accept.
Proof. by destruct accept. Qed.

Lemma convert_files_ok fuel run memory r parts : no_option run -> no_file (V := V) run -> no_file (V := V) (str "0") -> no_file (V := V) (str "1") -> fresh memory ->
  Forall (part_ok fuel) parts -> forall sc, between sc -> scan_fits (concat (map p_entries parts)) sc -> cut_between (map p_entries parts) sc ->
  exists ss rows, convert_files fuel run memory r (map (fun p => (p_name p, p_sys p)) parts) (flag (sc_accept sc)) = Ok ss /\ Forall2 wrote ss rows /\
    Forall2 (fun d w => row_shows d.1 d.2 w) (scan_rows (concat (map p_entries parts)) sc) (concat rows).
Proof.
  intros Hn Hrun H0 H1 Hf. induction 1 as [|p parts (Hname & Hopens & Hcut & Hl & Hb & Hmax & Hfuel) _ IH]; intros sc Hsc Hfit Hbetween.
  - exists [], []. by repeat constructor.
  - cbn [map concat] in *. apply scan_fits_app in Hfit as [Hfit Hfits]. rewrite scan_rows_app. destruct Hbetween as [Hlast Hbetween].
    assert (Hflag : no_file (V := V) (decimal (flag (sc_accept sc))) /\ no_option (decimal (flag (sc_accept sc)))) by (by destruct (sc_accept sc)). destruct Hflag as [Hno Hopt].
    destruct (main_ok fuel (p_name p) (decimal (flag (sc_accept sc))) run (p_entries p) (p_cut p) memory r (p_sys p)) as (s & r' & E & Hw & Hrows);
      try done; [by repeat constructor | rewrite flag_text; by eapply scan_fits_proper|]. rewrite flag_text in E, Hrows.
    assert (Erows : Forall2 (fun d w => row_shows d.1 d.2 w) (scan_rows (p_entries p) sc) (rows_at (tree (self s)) r')).
    { eapply rows_shown_proper; [|exact Hrows]. apply scan_rows_proper. by symmetry. }
    assert (Ea : sc_accept (scan_last (p_entries p) (no_scan (sc_accept sc))) = sc_accept (scan_last (p_entries p) sc)).
    { destruct (scan_last_proper (p_entries p) _ _ Hsc) as [-> _]. done. }
    rewrite Ea in E. change (if sc_accept (scan_last (p_entries p) sc) then 1 else 0) with (flag (sc_accept (scan_last (p_entries p) sc))) in E.
    cbn [convert_files]. rewrite E, res_bind_Ok. destruct parts as [|q parts].
    + exists [s], [rows_at (tree (self s)) r']. cbn [map convert_files concat scan_rows]. rewrite !app_nil_r. split; [done|]. split; [|done]. constructor; [by exists r' | constructor].
    + destruct (IH _ Hlast Hfits Hbetween) as (ss & rows & E2 & Hss & Hr2). cbn [map] in *. rewrite E2. exists (s :: ss), (rows_at (tree (self s)) r' :: rows).
      split; [done|]. split; [constructor; [by exists r' | done]|]. cbn [concat]. by apply Forall2_app.
Qed.

(** C3: The script converts the files of a run one after the other and gives every call the
    answer of the one before.  When the files are cut between measurements (wherever in the
    moves of the gantry, and also inside an event), the trees together have exactly
    one row for every measurement of the run, in order, as if the run were in one file
    that begins with the gantry in motion. *)
Theorem ptf_script fuel run memory r parts : no_option run -> no_file (V := V) run -> no_file (V := V) (str "0") -> no_file (V := V) (str "1") -> fresh memory ->
  Forall (part_ok fuel) parts -> scan_fits (concat (map p_entries parts)) (no_scan false) -> cut_between (map p_entries parts) (no_scan false) ->
  exists ss rows, convert_files fuel run memory r (map (fun p => (p_name p, p_sys p)) parts) 0 = Ok ss /\ Forall2 wrote ss rows /\
    Forall2 (fun d w => row_shows d.1 d.2 w) (scan_rows (concat (map p_entries parts)) (no_scan false)) (concat rows).
Proof. intros Hn Hrun H0 H1 Hf Hp Hfit Hcut. by apply (convert_files_ok fuel run memory r parts Hn Hrun H0 H1 Hf Hp (no_scan false)). Qed.
End script.

(** ** A run in two files

    The first file ends when the gantry has just arrived, and the second has
    what is measured there. *)

#[local] Existing Instance one_file.
#[local] Existing Instance one_file_laws.

Definition part_of (l : list entry) : part (V := disk) := Part (str "run.mid") (Disk (file_bytes raw_of l demo_cut) [] 6) l demo_cut.
Definition first_part : part := part_of (take 6 demo_run ++ take 1 (drop 1 demo_run)).
Definition second_part : part := part_of (take 1 (drop 2 demo_run) ++ drop 5 demo_run).

Lemma part_of_ok l : Forall entry_ok l -> begins_first l -> (length l < 8)%nat -> part_ok 8 (part_of l).
Proof.
  intros Hl Hb Hn. split_and!; try done; cbn [part_of p_entries p_cut p_name p_sys].
  - exists (OnFile (set_in (str "run.mid") 3 false false TMidasFile) (Disk (file_bytes raw_of l demo_cut) [] 6)). done.
  - exact demo_cut_event.
  - lia.
Qed.

Lemma ptf_script_witness : exists ss rows, convert_files 8 (str "4711") demo_memory (SimRoot [] []) [(str "run.mid", p_sys first_part); (str "run.mid", p_sys second_part)] 0 = Ok ss /\
  Forall2 wrote ss rows /\ exists w1 w2, concat rows = [w1; w2] /\ row_shows 104 demo_scan w1 /\ row_shows 104 (Scan true [point_of 102 demo_pulse] (fun _ => [])) w2.
Proof.
  destruct (ptf_script 8 (str "4711") demo_memory (SimRoot [] []) [first_part; second_part]) as (ss & rows & E & Hw & H).
  - reflexivity.
  - intros v. eexists. reflexivity.
  - intros v. eexists. reflexivity.
  - intros v. eexists. reflexivity.
  - by constructor.
  - apply Forall_cons; split; [|apply Forall_cons; split; [|apply Forall_nil_2]]; (apply part_of_ok; [|by_computation | cbn; lia]).
    + apply Forall_app; split; [|apply Forall_take, Forall_drop]; [apply Forall_take|]; apply demo_run_ok.
    + apply Forall_app; split; [apply Forall_take|]; apply Forall_drop, demo_run_ok.
  - repeat (split; [first [exact I | intros _; reflexivity]|]). exact I.
  - split; [by split_and! | by split].
  - exists ss, rows. split; [exact E|]. split; [exact Hw|]. change (scan_rows _ _) with [(104, demo_scan); (104, Scan true [point_of 102 demo_pulse] (fun _ => []))] in H.
    apply Forall2_cons_inv_l in H as (w1 & ws & H1 & H & E2). apply Forall2_cons_inv_l in H as (w2 & ws2 & H2 & H & ->). apply Forall2_nil_inv_l in H. subst ws2.
    exists w1, w2. split; [exact E2 | split; [exact H1 | exact H2]].
Defined.

(** A cut inside a measurement: its row has only what the second file has, here
    nothing of the point that the first file has. *)
Example cut_inside_a_measurement :
  match convert_files 8 (str "4711") demo_memory (SimRoot [] []) [(str "run.mid", p_sys (part_of (take 3 demo_run))); (str "run.mid", p_sys (part_of (drop 5 demo_run)))] 0 with
  | Ok ss => map (fun s => map (fun t => map (fun w => row_vars w num_points) (t_rows t)) (sim_trees (root s))) ss = [[[]]; [[0]]]
  | Crash _ => False end /\
  map (fun d => length (sc_points d.2)) (scan_rows (take 3 demo_run ++ drop 5 demo_run) (no_scan false)) = [1%nat].
Proof. by vm_compute. Qed.
