(* ===== verification/MpmtConverter.v ===== *)
(** * The converter of the mPMT data ([midas2root/midas2root_mpmt.cxx])

    Every event with a bank of the BRB fills a row of the tree with the waveforms
    in it; banks with temperatures in between set what the next rows show. *)

From S2P Require Import Prelude CStr MidasEvent MidasFile Digitizer DataContainer EventLoop.

Definition nPoints_max : Z := 1.
Definition max_temp_sensor : Z := 20.
Definition num_v1730_max : Z := 1024.

(** ** Variables

    Those that the program sets or that are branches of the tree and do not begin as 0; the
    rest of the globals are 0 all the time. *)

Inductive var :=
  | start_val_stat | window_width | trigger | counter | num_points | num_points_dig0 | num_points_dig1
  | num_phidg0_points | num_phidg1_points | num_phidg3_points | num_phidg4_points | gbl_accept_banks
  | x0_pos | y0_pos | x1_pos | y1_pos | ngoodTDCbanks | nbadTDCbanks.

#[export] Instance var_dec : EqDecision var.
Proof. solve_decision. Defined.

(** An element of an array that is not in the map is 0, as globals are. *)
Record converter := Converter {
  vars : var -> Z;
  evt_timestamp : gmap Z Z;
  V1730_wave : Z -> gmap (Z * Z) Z;
  temperatures : gmap Z Z;
  tree : Z;
  fNChan : Z
}.

Definition set_var (v : var) (x : Z) (c : converter) : converter :=
  Converter (fun w => if decide (w = v) then x else vars c w) (evt_timestamp c) (V1730_wave c) (temperatures c) (tree c) (fNChan c).
Definition set_tree (t : Z) (c : converter) : converter := Converter (vars c) (evt_timestamp c) (V1730_wave c) (temperatures c) t (fNChan c).
Definition set_nchan (n : Z) (c : converter) : converter := Converter (vars c) (evt_timestamp c) (V1730_wave c) (temperatures c) (tree c) n.
Definition put_time (i x : Z) (c : converter) : res converter :=
  _ ← check ((0 <=? i) && (i <? nPoints_max)) OutOfBounds;
  Ok (Converter (vars c) (<[i := x]> (evt_timestamp c)) (V1730_wave c) (temperatures c) (tree c) (fNChan c)).
Definition put_temperature (i x : Z) (c : converter) : res converter :=
  _ ← check ((0 <=? i) && (i <? max_temp_sensor)) OutOfBounds;
  Ok (Converter (vars c) (evt_timestamp c) (V1730_wave c) (<[i := x]> (temperatures c)) (tree c) (fNChan c)).
Definition put_wave (chan i j x : Z) (c : converter) : res converter :=
  _ ← check ((0 <=? i) && (i <? nPoints_max) && (0 <=? j) && (j <? num_v1730_max)) OutOfBounds;
  Ok (Converter (vars c) (evt_timestamp c) (fun ch => if ch =? chan then <[(i, j) := x]> (V1730_wave c chan) else V1730_wave c ch) (temperatures c) (tree c) (fNChan c)).

(** ** The tree *)

(** What the branches hold: the variables, the times and the waveforms of the points, for
    the channels that are saved, of which there are 24 at most, and the temperatures. *)
Record row := Row { row_vars : var -> Z; row_times : list Z; row_waves : list (list (list Z)); row_temperatures : list Z }.

Definition saved_channels (c : converter) : list Z := channels (Z.to_nat (Z.min (fNChan c) 24)).
Definition snapshot (c : converter) : row :=
  let points := channels (Z.to_nat (vars c num_points)) in
  Row (vars c) (map (fun i => default 0 (evt_timestamp c !! i)) points)
    (map (fun ch => map (fun i => map (fun j => default 0 (V1730_wave c ch !! (i, j))) (channels (Z.to_nat num_v1730_max))) points) (saved_channels c))
    (map (fun i => default 0 (temperatures c !! i)) (channels (Z.to_nat max_temp_sensor))).

Section converter.
Context {R V : Type} `{Root row R} `{MidasIO V}.
Abbreviation P := (ST (event_loop converter R V)).

(** The globals, and the constructor, which does not set [tree]. *)
Definition initial_var (v : var) : Z :=
  match v with x0_pos | x1_pos => 0x3fdd70a3d70a3d71 | y0_pos | y1_pos => 0x3fd851eb851eb852 | gbl_accept_banks => 1 | _ => 0 end.
Definition ScanToTreeConverter (tree ngood nbad : Z) (r : R) (v : V) : event_loop converter R V :=
  UseBatchMode (TRootanaEventLoop (Converter (fun v => match v with ngoodTDCbanks => ngood | nbadTDCbanks => nbad | _ => initial_var v end) ∅ (fun _ => ∅) ∅ tree 20) r v).

(** The settings in a second tree are left out when the library [MVOdb] is. *)
Definition mpmt_BeginRun (transition run time : Z) : P unit :=
  t ← (fun s => let '(t, r) := new_TTree (root s) in Ok (t, with_root r s));
  _ ← set_member (set_tree t);
  _ ← set_member (set_var ngoodTDCbanks 0);
  set_member (set_var nbadTDCbanks 0).

Definition Fill : P unit := fun s =>
  let c := self s in
  _ ← check (negb (tree c =? 0) && tree_alive (tree c) (root s)) NullDeref;
  Ok (tt, with_root (tree_fill (tree c) (snapshot c) (root s)) s).

(** ** Waveforms *)

(** The channels have arrays of their own up to 19. *)
Fixpoint store_samples (i : Z) (meas : channel_measurement) (ibs : list Z) (c : converter) : res converter :=
  match ibs with
  | [] => Ok c
  | ib :: ibs' =>
      c ← (if (0 <=? fChan meas) && (fChan meas <? 20) then put_wave (fChan meas) i ib (double_of_int (GetSample meas ib)) c else Ok c);
      store_samples i meas ibs' c
  end.

Fixpoint store_channels (i : Z) (l : list channel_measurement) (c : converter) : res converter :=
  match l with [] => Ok c | meas :: l' => c ← store_samples i meas (channels (Z.to_nat (GetNSamples meas))) c; store_channels i l' c end.

Definition measurements_of (b : bank_object) : list channel_measurement := match contents b with RawBrb l => l | _ => [] end.

Definition counters : list var :=
  [counter; num_points; num_points_dig0; num_points_dig1; num_phidg0_points; num_phidg1_points; num_phidg3_points; num_phidg4_points; gbl_accept_banks].

Definition brb_event (b : bank_object) : P bool :=
  n ← member (fun c => vars c num_points);
  _ ← (if n <? nPoints_max then
         _ ← set_member (set_var num_points (n + 1));
         e ← in_container GetMidasData;
         _ ← try_member (put_time n (double_of_int (fTimeStamp (fEventHeader e))));
         try_member (store_channels n (measurements_of b))
       else mret tt);
  _ ← Fill;
  _ ← set_member (fun c => foldl (fun c v => set_var v 0 c) c counters);
  mret true.

(** ** Temperatures *)

Definition BRB0 : list Z := [0x42; 0x52; 0x42; 0x30].
Definition BRT0 : list Z := [0x42; 0x52; 0x54; 0x30].
Definition TMP0 : list Z := [0x54; 0x4d; 0x50; 0x30].

(** [from + i] is the place of number [i] of the bank. *)
Fixpoint store_temperatures (get : Z -> P Z) (from : Z) (l : list Z) : P unit :=
  match l with
  | [] => mret tt
  | i :: l' => x ← get i; _ ← try_member (put_temperature (i + from) x); store_temperatures get from l'
  end.

Definition mainboard : P unit :=
  b ← GetBank TGenericData BRT0;
  match b with
  | None => mret tt
  | Some b => store_temperatures (fun i => x ← in_container (bank_float b i); mret (double_of_float x)) 0 (channels 3)
  end.

Definition phidget_temperatures : P unit :=
  b ← GetBank TGenericData TMP0;
  match b with
  | None => mret tt
  | Some b => store_temperatures (fun i => in_container (bank_double b i)) 8 (channels 6)
  end.

(** ** The event *)

Definition mpmt_ProcessMidasEvent : P bool :=
  _ ← set_member (set_var start_val_stat 90);
  _ ← set_member (set_var window_width 45);
  _ ← set_member (set_var trigger 40);
  b ← GetBank TBRBRaw BRB0;
  match b with
  | Some b => brb_event b
  | None => _ ← mainboard; _ ← phidget_temperatures; mret true
  end.

(** The number is read from the seventh character on, but two are compared. *)
Definition mpmt_CheckOption (arg : cstr) : P bool :=
  if starts (str "-n") arg then
    _ ← lift_res (check (6 <=? length arg)%nat OutOfBounds);
    _ ← set_member (set_nchan (atoi_int (drop 6 arg)));
    mret true
  else mret false.

#[export] Instance mpmt : Analyzer := {
  Initialize := mret tt;
  BeginRun := mpmt_BeginRun;
  EndRun _ _ _ := mret tt;
  Finalize := mret tt;
  ProcessMidasEvent := mpmt_ProcessMidasEvent;
  PreFilter := mret true;
  CheckOption := mpmt_CheckOption;
  SetFullOutputFileName _ _ := []
}.

(** [main]: the members that the constructor leaves are arguments. *)
Definition mpmt_main (fuel : nat) (args : list cstr) (tree ngood nbad : Z) (r : R) (v : V) : res (Z * event_loop converter R V) :=
  ExecuteLoop fuel args (ScanToTreeConverter tree ngood nbad r v).
End converter.
