(* ===== verification/MpmtRun.v ===== *)
(** * The converter of the mPMT data: from the bytes of a file to the rows of the tree

    The abstract state of the program is what a row would show: the last waveform of each
    channel and the last temperatures.  An event of the BRB brings
    waveforms and makes a row; the others bring temperatures. *)

From S2P Require Import Prelude CStr MidasEvent MidasBanks MidasFile MidasStream Digitizer Waveforms DataContainer EventLoop FileLoop OneFile MpmtConverter.

(** ** Specification *)

Record view := View { v_waves : Z -> list Z; v_temperatures : list Z }.
Definition nothing_yet : view := View (fun _ => replicate 1024 0) (replicate 20 0).

(** What an event brings: the packets of the ADCs, or temperatures of the mainboard and of the
    Phidgets. *)
Inductive mpmt_event := Hit (adcs : list (list packet)) | Sensors (main phidgets : option (list Z)).

(** ADC number [k] has channels [4 k] to [4 k + 3]; 20 channels are kept. *)
Definition wave_after (adcs : list (list packet)) (ch : Z) (old : list Z) : list Z :=
  match (if ch <? 20 then adcs !! Z.to_nat (ch / 4) else None) with
  | Some ps => map double_of_int (nth (Z.to_nat (ch mod 4)) (quad_waveforms (adc_quads ps)) [])
  | None => old
  end.

(** Numbers put into a list, from a place on. *)
Definition overwrite (from : nat) (l : option (list Z)) (old : list Z) : list Z :=
  match l with Some l => take from old ++ l ++ drop (from + length l) old | None => old end.

Definition view_step (ev : mpmt_event) (v : view) : view :=
  match ev with
  | Hit adcs => View (fun ch => wave_after adcs ch (v_waves v ch)) (v_temperatures v)
  | Sensors main phidgets => View (v_waves v) (overwrite 8 phidgets (overwrite 0 (option_map (map double_of_float) main) (v_temperatures v)))
  end.
Definition view_row (t : Z) (ev : mpmt_event) (v : view) : list (Z * view) := match ev with Hit _ => [(t, view_step ev v)] | Sensors _ _ => [] end.

(** What a row shows: [n] channels are saved. *)
Definition row_shows (n t : Z) (v : view) (r : row) : Prop :=
  row_vars r num_points = 1 /\ row_times r = [double_of_int t] /\
  row_waves r = map (fun ch => [v_waves v ch]) (channels (Z.to_nat (Z.min n 24))) /\ row_temperatures r = v_temperatures v.

(** What the banks of an event say. *)
Definition numbers_bank (name : list Z) (n k : nat) (bs : list bank) (l : option (list Z)) : Prop :=
  match first_named (name ++ [0]) bs, l with
  | None, None => True
  | Some b, Some l => length l = k /\ Forall (fun w => 0 <= w < 256 ^ Z.of_nat n) l /\ exists more, b_data b = concat (map (le_bytes n) l) ++ more
  | _, _ => False
  end.

Definition brb_bank (b : bank) (adcs : list (list packet)) : Prop :=
  Forall adc_ok adcs /\ Forall (fun w => 0 <= w < 2 ^ 16) (brb_words adcs) /\
  BRB_PACKET * (8 * Z.of_nat (length adcs) + 1) <= elements b < BRB_PACKET * (8 * Z.of_nat (length adcs) + 9) /\
  exists more, b_data b = concat (map (le_bytes 2) (brb_words adcs)) ++ more.

Definition event_is (bs : list bank) (ev : mpmt_event) : Prop :=
  match ev with
  | Hit adcs => exists b, first_named (BRB0 ++ [0]) bs = Some b /\ brb_bank b adcs
  | Sensors main phidgets => absent BRB0 bs /\ numbers_bank BRT0 4 3 bs main /\ numbers_bank TMP0 8 6 bs phidgets
  end.

(** ** Arrays as lists *)

Definition wave_of (c : converter) (ch : Z) : list Z := map (fun j => default 0 (V1730_wave c ch !! (0, j))) (channels (Z.to_nat num_v1730_max)).
Definition temperatures_of (c : converter) : list Z := map (fun i => default 0 (temperatures c !! i)) (channels (Z.to_nat max_temp_sensor)).

Lemma channels_lookup n i : (i < n)%nat -> channels n !! i = Some (Z.of_nat i).
Proof. intros Hi. unfold channels. rewrite list_lookup_fmap. by rewrite lookup_seq_lt. Qed.

Lemma length_channels n : length (channels n) = n.
Proof. unfold channels. by rewrite length_map, length_seq. Qed.

(** A list that is read off a function. *)
Lemma map_channels (f : Z -> Z) (l : list Z) n : length l = n -> (forall i x, l !! i = Some x -> f (Z.of_nat i) = x) -> map f (channels n) = l.
Proof.
  intros Hl Hf. apply list_eq. intros i. rewrite list_lookup_fmap. destruct (l !! i) as [x|] eqn:Ei.
  - pose proof (lookup_lt_Some _ _ _ Ei). rewrite channels_lookup by lia. cbn. by rewrite (Hf i x Ei).
  - apply lookup_ge_None in Ei. rewrite (proj2 (lookup_ge_None _ _)); [done|]. rewrite length_channels. lia.
Qed.

(** ** Waveforms *)

(** All but the waveforms is the same. *)
Definition same_but_waves (c c' : converter) : Prop :=
  vars c' = vars c /\ evt_timestamp c' = evt_timestamp c /\ temperatures c' = temperatures c /\ tree c' = tree c /\ fNChan c' = fNChan c.

Lemma store_wave_ok meas ibs : 0 <= fChan meas < 20 -> forall c, Forall (fun ib => 0 <= ib < num_v1730_max) ibs ->
  exists c', store_samples 0 meas ibs c = Ok c' /\ same_but_waves c c' /\ (forall ch, ch <> fChan meas -> V1730_wave c' ch = V1730_wave c ch) /\
    forall j, V1730_wave c' (fChan meas) !! (0, j) = if decide (j ∈ ibs) then Some (double_of_int (GetSample meas j)) else V1730_wave c (fChan meas) !! (0, j).
Proof.
  intros Hch. induction ibs as [|ib ibs IH]; intros c Hb; cbn [store_samples].
  - exists c. split_and!; done.
  - pose proof (Forall_inv Hb) as H0. cbn beta in H0. assert (Ein : (0 <=? fChan meas) && (fChan meas <? 20) = true) by bsolve. rewrite Ein. unfold put_wave.
    rewrite check_true by (unfold nPoints_max; bsolve). rewrite !res_bind_Ok. set (c1 := Converter _ _ _ _ _ _).
    destruct (IH c1 (Forall_inv_tail Hb)) as (c' & E & S & Hother & Hval). exists c'. split; [exact E|]. split; [exact S|]. split.
    + intros ch Hne. rewrite Hother by done. cbn. by rewrite (proj2 (Z.eqb_neq _ _)).
    + intros j. rewrite Hval. cbn [V1730_wave c1]. rewrite Z.eqb_refl. destruct (decide (j ∈ ibs)) as [Hj|Hj]; [by rewrite decide_True by set_solver|].
      destruct (decide (j = ib)) as [->|Hne]; [by rewrite lookup_insert_eq, decide_True by set_solver|]. rewrite lookup_insert_ne by congruence.
      by rewrite decide_False by set_solver.
Qed.

(** The last of the waveforms of a channel. *)
Definition update (ch : Z) (l : list channel_measurement) (old : list Z) : list Z :=
  foldl (fun w meas => if (fChan meas =? ch) && (ch <? 20) then map double_of_int (fSamples meas) else w) old l.

Lemma store_waves_ok l : Forall (fun meas => 0 <= fChan meas /\ length (fSamples meas) = 1024%nat) l -> forall c,
  exists c', store_channels 0 l c = Ok c' /\ same_but_waves c c' /\ forall ch, wave_of c' ch = update ch l (wave_of c ch).
Proof.
  induction 1 as [|meas l [Hch Hlen] _ IH]; intros c; cbn [store_channels].
  - exists c. split_and!; done.
  - unfold GetNSamples. rewrite Hlen, Nat2Z.id.
    assert (Hall : Forall (fun ib => 0 <= ib < num_v1730_max) (channels 1024)) by (apply Forall_forall; intros ib Hib%list_elem_of_In%In_channels; exact Hib).
    assert (One : exists c1, store_samples 0 meas (channels 1024) c = Ok c1 /\ same_but_waves c c1 /\
      forall ch, wave_of c1 ch = if (fChan meas =? ch) && (ch <? 20) then map double_of_int (fSamples meas) else wave_of c ch).
    { destruct (Z.ltb_spec (fChan meas) 20) as [H20|H20].
      - destruct (store_wave_ok meas (channels 1024) (conj Hch H20) c Hall) as (c1 & E & S & Ho & Hv). exists c1. split; [done|]. split; [done|]. intros ch.
        destruct (Z.eqb_spec (fChan meas) ch) as [<-|Hne]; [|unfold wave_of; by rewrite Ho by done]. rewrite (proj2 (Z.ltb_lt _ _)) by done. cbn [andb].
        apply map_channels; [by rewrite length_map|]. intros i x Hx. rewrite Hv, decide_True; [|apply list_elem_of_In, In_channels; apply lookup_lt_Some in Hx; rewrite length_map in Hx; lia].
        rewrite list_lookup_fmap in Hx. destruct (fSamples meas !! i) as [y|] eqn:Ei; [|done]. injection Hx as <-. cbn. unfold GetSample, sample_at.
        pose proof (lookup_lt_Some _ _ _ Ei). rewrite (proj2 (Z.leb_le _ _)), (proj2 (Z.ltb_lt _ _)) by lia. cbn [andb]. rewrite Nat2Z.id. by rewrite (nth_lookup_Some _ _ _ _ Ei).
      - exists c. split; [|split; [done|]].
        + clear -H20. induction (channels 1024) as [|ib ibs IH]; [done|]. cbn [store_samples]. rewrite (proj2 (Z.ltb_ge (fChan meas) 20)) by done. rewrite andb_false_r. exact IH.
        + intros ch. destruct (Z.eqb_spec (fChan meas) ch) as [<-|]; [|done]. by rewrite (proj2 (Z.ltb_ge (fChan meas) 20)). }
    destruct One as (c1 & -> & (S1 & S2 & S3 & S4 & S5) & Hw). rewrite res_bind_Ok. destruct (IH c1) as (c' & E & (T1 & T2 & T3 & T4 & T5) & Hw'). exists c'.
    split; [exact E|]. split; [split_and!; congruence|]. intros ch. rewrite Hw', Hw. done.
Qed.

(** The waveforms of the decoded packets. *)
Lemma update_over ch l old : 20 <= ch -> update ch l old = old.
Proof. intros Hch. unfold update. induction l as [|meas l IH]; [done|]. cbn [foldl]. rewrite (proj2 (Z.ltb_ge ch 20) Hch), andb_false_r. rewrite (proj2 (Z.ltb_ge ch 20) Hch) in IH. exact IH. Qed.

Lemma update_adc k ps ch old : ch < 20 ->
  update ch (adc_channels k ps) old =
    if (4 * Z.of_nat k <=? ch) && (ch <? 4 * Z.of_nat k + 4) then map double_of_int (nth (Z.to_nat (ch - 4 * Z.of_nat k)) (quad_waveforms (adc_quads ps)) []) else old.
Proof.
  intros H20. unfold update, adc_channels, quad_waveforms. cbn [imap]. unfold compose. cbn [foldl fChan fSamples]. rewrite (proj2 (Z.ltb_lt ch 20) H20), !andb_true_r.
  assert (C : ch < 4 * Z.of_nat k \/ 4 * Z.of_nat k + 4 <= ch \/ exists r, (r < 4)%nat /\ ch = 4 * Z.of_nat k + Z.of_nat r).
  { destruct (Z.lt_ge_cases ch (4 * Z.of_nat k)); [by left|]. destruct (Z.le_gt_cases (4 * Z.of_nat k + 4) ch); [by right; left|]. right; right. exists (Z.to_nat (ch - 4 * Z.of_nat k)). lia. }
  destruct C as [C|[C|(r & Hr & ->)]].
  - rewrite (proj2 (Z.leb_gt _ _) C). rewrite !(proj2 (Z.eqb_neq _ _)) by lia. done.
  - rewrite (proj2 (Z.ltb_ge _ _) C), andb_false_r. rewrite !(proj2 (Z.eqb_neq _ _)) by lia. done.
  - rewrite (proj2 (Z.leb_le _ _)), (proj2 (Z.ltb_lt _ _)) by lia. replace (Z.to_nat _) with r by lia. cbn [andb].
    destruct r as [|[|[|[|]]]]; [..|lia]; repeat match goal with |- context [?a =? ?b] => destruct (Z.eqb_spec a b); try (exfalso; lia) end; done.
Qed.

Lemma update_adcs ch adcs : 0 <= ch < 20 -> forall k old,
  update ch (concat (imap (fun i => adc_channels (k + i)) adcs)) old =
    match (if 4 * Z.of_nat k <=? ch then adcs !! Z.to_nat (ch / 4 - Z.of_nat k) else None) with
    | Some ps => map double_of_int (nth (Z.to_nat (ch mod 4)) (quad_waveforms (adc_quads ps)) [])
    | None => old
    end.
Proof.
  intros Hch. pose proof (Z.div_mod ch 4 ltac:(lia)) as D. pose proof (Z.mod_pos_bound ch 4 ltac:(lia)) as M.
  induction adcs as [|ps adcs IH]; intros k old; [by destruct (_ <=? _)|]. rewrite imap_cons. cbn [concat]. unfold update. rewrite foldl_app. fold (update ch (adc_channels (k + 0) ps) old).
  rewrite Nat.add_0_r, update_adc by lia. rewrite (imap_ext _ (fun i => adc_channels (S k + i))) by (intros i x _; cbn; by rewrite Nat.add_succ_r).
  match goal with |- foldl ?f ?w ?l = _ => change (foldl f w l) with (update ch l w) end. rewrite IH.
  destruct (Z.leb_spec (4 * Z.of_nat k) ch) as [H1|H1]; cbn [andb].
  - destruct (Z.ltb_spec ch (4 * Z.of_nat k + 4)) as [H2|H2].
    + rewrite (proj2 (Z.leb_gt _ _)) by lia. replace (ch / 4 - Z.of_nat k) with 0 by lia. cbn [lookup list_lookup Z.to_nat]. do 3 f_equal. lia.
    + rewrite (proj2 (Z.leb_le _ _)) by lia. replace (Z.to_nat (ch / 4 - Z.of_nat k)) with (S (Z.to_nat (ch / 4 - Z.of_nat (S k)))) by lia. done.
  - by rewrite (proj2 (Z.leb_gt _ _)) by lia.
Qed.

Lemma update_wave ch adcs old : 0 <= ch -> update ch (concat (imap adc_channels adcs)) old = wave_after adcs ch old.
Proof.
  intros Hch. unfold wave_after. destruct (Z.ltb_spec ch 20) as [H|H]; [|by apply update_over].
  pose proof (update_adcs ch adcs ltac:(lia) 0 old) as U. cbn [Nat.add] in U. rewrite (proj2 (Z.leb_le _ _)) in U by lia. by rewrite Z.sub_0_r in U.
Qed.

Lemma measured_samples adcs : Forall adc_ok adcs -> Forall (fun meas => 0 <= fChan meas /\ length (fSamples meas) = 1024%nat) (concat (imap adc_channels adcs)).
Proof.
  intros Hall. apply Forall_concat, Forall_forall. intros l Hl. apply list_elem_of_lookup in Hl as [i Hi]. rewrite list_lookup_imap in Hi. destruct (adcs !! i) as [ps|] eqn:Ep; [|done].
  injection Hi as <-. pose proof (proj1 (Forall_lookup _ adcs) Hall i ps Ep) as [H8 Hp].
  assert (El : length (adc_quads ps) = 1024%nat).
  { unfold adc_quads. rewrite length_concat, map_map. assert (E : map (fun x => length x.2) ps = replicate (length ps) 128%nat); [|by rewrite E, H8].
    clear -Hp. induction Hp as [|x ps (_ & Hx & _) _ IH]; [done|]. cbn [map length replicate]. by rewrite Hx, IH. }
  unfold adc_channels, quad_waveforms. cbn [imap]. unfold compose. repeat (constructor; [cbn [fChan fSamples]; rewrite length_map; split; [lia | done]|]). constructor.
Qed.

(** ** Temperatures *)

(** All but the temperatures is the same. *)
Definition same_but_temperatures (c c' : converter) : Prop :=
  vars c' = vars c /\ V1730_wave c' = V1730_wave c /\ tree c' = tree c /\ fNChan c' = fNChan c.

Lemma overwrite_lookup from l old j : (from + length l <= length old)%nat ->
  overwrite from (Some l) old !! j = if decide (from <= j < from + length l)%nat then l !! (j - from)%nat else old !! j.
Proof.
  intros Hl. unfold overwrite. case_decide as D.
  - rewrite lookup_app_r by (rewrite length_take; lia). rewrite length_take, Nat.min_l by lia. apply lookup_app_l. lia.
  - destruct (Nat.lt_ge_cases j from).
    + rewrite lookup_app_l by (rewrite length_take; lia). by rewrite lookup_take_lt.
    + rewrite app_assoc, lookup_app_r by (rewrite length_app, length_take; lia). rewrite length_app, length_take, lookup_drop, Nat.min_l by lia. f_equal. lia.
Qed.

Section temperatures.
Context {R V : Type} `{HR : Root row R} `{HV : MidasIO V}.
Abbreviation L := (event_loop converter R V).
Implicit Types s : L.

Lemma store_temperatures_ok (get : Z -> ST L Z) from (val : Z -> Z) places : 0 <= from ->
  Forall (fun i => 0 <= i /\ i + from < max_temp_sensor) places -> forall s, (forall i c, In i places -> get i (with_self c s) = Ok (val i, with_self c s)) ->
  exists c', store_temperatures get from places s = Ok (tt, with_self c' s) /\ same_but_temperatures (self s) c' /\
    forall j, temperatures c' !! j = if decide (j - from ∈ places) then Some (val (j - from)) else temperatures (self s) !! j.
Proof.
  intros Hf. induction places as [|i places IH]; intros Hi s Hg; cbn [store_temperatures].
  - exists (self s). split; [by destruct s|]. split_and!; done.
  - pose proof (Forall_inv Hi) as [H0 H1]. pose proof (Hg i (self s) (or_introl eq_refl)) as E. assert (Es : with_self (self s) s = s) by (by destruct s). rewrite Es in E.
    rewrite (ST_bind_Ok _ _ _ _ _ E). set (c1 := Converter (vars (self s)) (evt_timestamp (self s)) (V1730_wave (self s)) (<[i + from := val i]> (temperatures (self s))) (tree (self s)) (fNChan (self s))).
    assert (Ep : try_member (put_temperature (i + from) (val i)) s = Ok (tt, with_self c1 s)).
    { apply try_member_Ok. unfold put_temperature. rewrite check_true by bsolve. done. }
    rewrite (ST_bind_Ok _ _ _ _ _ Ep). destruct (IH (Forall_inv_tail Hi) (with_self c1 s) ltac:(intros j c Hj; apply (Hg j c); by right)) as (c' & E' & (S1 & S2 & S3 & S4) & Hv).
    exists c'. rewrite E'. split; [by destruct s|]. split; [done|]. intros j. rewrite Hv. destruct (decide (j - from ∈ places)); [by rewrite decide_True by set_solver|].
    cbn [temperatures with_self self c1]. destruct (decide (j - from = i)) as [<-|Hne].
    + replace (j - from + from) with j by lia. by rewrite lookup_insert_eq, decide_True by set_solver.
    + rewrite lookup_insert_ne by lia. by rewrite decide_False by set_solver.
Qed.

(** The list of temperatures then. *)
Lemma temperatures_overwrite c c' from (val : Z -> Z) l : Z.of_nat (from + length l) <= max_temp_sensor ->
  (forall i x, l !! i = Some x -> val (Z.of_nat i) = x) ->
  (forall j, temperatures c' !! j = if decide (j - Z.of_nat from ∈ channels (length l)) then Some (val (j - Z.of_nat from)) else temperatures c !! j) ->
  temperatures_of c' = overwrite from (Some l) (temperatures_of c).
Proof.
  intros Hmax Hval Hv. assert (Hlen : length (temperatures_of c) = 20%nat) by (unfold temperatures_of; by rewrite length_map, length_channels). unfold max_temp_sensor in Hmax.
  unfold temperatures_of at 1. apply map_channels.
  - unfold overwrite. rewrite !length_app, length_take, length_drop. change (Z.to_nat max_temp_sensor) with 20%nat. lia.
  - intros i x Hx. rewrite overwrite_lookup in Hx by lia. rewrite Hv. case_decide as D.
    + rewrite decide_True by (apply list_elem_of_In, In_channels; lia). cbn [default from_option]. rewrite <- Nat2Z.inj_sub by lia. by apply Hval.
    + rewrite decide_False by (rewrite list_elem_of_In, In_channels; lia). pose proof (lookup_lt_Some _ _ _ Hx) as Hl.
      unfold temperatures_of in Hx. rewrite list_lookup_fmap, channels_lookup in Hx by (change (Z.to_nat max_temp_sensor) with 20%nat; lia). by injection Hx as <-.
Qed.

Variables (e : midas_event) (flags : Z) (bs : list bank) (behind : list Z).
Hypothesis Hev : event_ok flags bs.
Hypothesis Hne : bs <> [].
Hypothesis Hbehind : readable flags behind.
Hypothesis Hdata : fData e = Some (encode_event flags bs ++ behind).

(** A bank of numbers, if it is there. *)
Lemma bank_numbers_ok name n k (from : nat) (get : bank_object -> Z -> ST L Z) (f : Z -> Z) names l s :
  (forall b i s x, in_container (bank_word n b i) s = Ok (x, s) -> get b i s = Ok (f x, s)) -> Z.of_nat (from + k) <= max_temp_sensor ->
  holding e names s -> ~ In name names -> numbers_bank name n k bs l ->
  exists s' names', (b ← GetBank TGenericData name; match b with None => mret tt | Some b => store_temperatures (get b) (Z.of_nat from) (channels k) end) s = Ok (tt, s') /\
    same_base s s' /\ holding e names' s' /\ (forall x, In x names' -> In x names \/ x = name) /\ same_but_temperatures (self s) (self s') /\
    temperatures_of (self s') = overwrite from (option_map (map f) l) (temperatures_of (self s)).
Proof.
  intros Hget Hmax Hs Hin Hl. unfold numbers_bank in Hl. destruct (first_named (name ++ [0]) bs) as [b|] eqn:Eb; (destruct l as [l|]; [|try done]); try done.
  - destruct Hl as (Hlen & Hw & more & Ed). destruct (GetBank_present e flags bs behind Hev Hne Hbehind Hdata TGenericData name names s b Hs Hin Eb) as (pre & post & Em & G).
    destruct (G Generic eq_refl) as (s1 & E1 & Hs1 & B1 & F1). rewrite (ST_bind_Ok _ _ _ _ _ E1). rewrite Ed in Em. set (o := BankObject _ _ _ _ _).
    assert (Hg : forall i c, In i (channels k) -> get o i (with_self c s1) = Ok (f (nth (Z.to_nat i) l 0), with_self c s1)).
    { intros i c Hi%In_channels. destruct (lookup_lt_is_Some_2 l (Z.to_nat i) ltac:(lia)) as [x Hx]. rewrite (nth_lookup_Some _ _ _ _ Hx).
      apply Hget. apply (bank_word_value e flags bs behind Hdata (names ++ [name]) (with_self c s1) o pre l more post n i x); (done || lia). }
    destruct (store_temperatures_ok (get o) (Z.of_nat from) (fun i => f (nth (Z.to_nat i) l 0)) (channels k)) with (s := s1) as (c' & E & S & Hv); [lia | | done |].
    { apply Forall_forall. intros i Hi%list_elem_of_In%In_channels. lia. }
    exists (with_self c' s1), (names ++ [name]). split; [exact E|]. split; [eapply same_base_trans; [exact B1 | apply same_base_self]|]. split; [done|].
    split; [intros x [Hx|[<-|[]]]%in_app_or; [by left | by right]|]. split; [by rewrite <- F1|]. cbn [self with_self option_map]. rewrite <- F1.
    apply (temperatures_overwrite _ _ _ (fun i => f (nth (Z.to_nat i) l 0))); [rewrite length_map; lia | | rewrite length_map, Hlen; exact Hv].
    intros i x Hx. rewrite list_lookup_fmap in Hx. destruct (l !! i) as [y|] eqn:Ey; [|done]. injection Hx as <-. by rewrite Nat2Z.id, (nth_lookup_Some _ _ _ _ Ey).
  - rewrite (ST_bind_Ok _ _ _ _ _ (GetBank_absent e flags bs behind Hev Hne Hbehind Hdata TGenericData name names s Hs Hin Eb)). exists s, names.
    split; [done|]. split; [apply same_base_refl|]. split; [done|]. split; [by left|]. by split_and!.
Qed.
End temperatures.

(** ** One event *)

(** The members show the view; [n] channels are saved. *)
Record shows (n : Z) (v : view) (c : converter) : Prop := Shows {
  sh_saved : fNChan c = n;
  sh_points : vars c num_points = 0;
  sh_waves : forall ch, 0 <= ch -> wave_of c ch = v_waves v ch;
  sh_temperatures : temperatures_of c = v_temperatures v
}.

Lemma shows_vars n v c c' : shows n v c -> vars c' num_points = 0 -> V1730_wave c' = V1730_wave c -> temperatures c' = temperatures c -> fNChan c' = fNChan c -> shows n v c'.
Proof.
  intros [S1 S2 S3 S4] Hp Hw Ht Hn. constructor; [congruence | done | |].
  - intros ch Hch. unfold wave_of. rewrite Hw. by apply S3.
  - unfold temperatures_of. by rewrite Ht.
Qed.

Section handler.
Context {R V : Type} `{HR : Root row R} {HRL : @RootLaws row R HR} `{HV : MidasIO V}.
Abbreviation L := (event_loop converter R V).
Implicit Types s : L.

(** The tree is there, and its rows show these views. *)
Definition running (n : Z) (v : view) (d : list (Z * view)) s : Prop :=
  shows n v (self s) /\ tree (self s) <> 0 /\ tree_alive (tree (self s)) (root s) = true /\
  Forall2 (fun x r => row_shows n x.1 x.2 r) d (tree_rows (tree (self s)) (root s)).

Variables (e : midas_event) (flags : Z) (bs : list bank) (behind : list Z).
Hypothesis Hev : event_ok flags bs.
Hypothesis Hne : bs <> [].
Hypothesis Hbehind : readable flags behind.
Hypothesis Hdata : fData e = Some (encode_event flags bs ++ behind).

(** What the row of an event shows. *)
Lemma snapshot_view n t v c : fNChan c = n -> vars c num_points = 1 -> evt_timestamp c !! 0 = Some (double_of_int t) ->
  (forall ch, 0 <= ch -> wave_of c ch = v_waves v ch) -> temperatures_of c = v_temperatures v -> row_shows n t v (snapshot c).
Proof.
  intros Hn Hp Ht Hw Hc. unfold row_shows, snapshot. rewrite Hp. cbn [row_vars row_times row_waves row_temperatures]. change (channels (Z.to_nat 1)) with [0]. cbn [map]. rewrite Ht.
  split_and!; [done | done | | exact Hc]. unfold saved_channels. rewrite Hn. apply map_ext_in. intros ch Hch%In_channels. by rewrite <- Hw by lia.
Qed.

Lemma brb_event_ok n names b adcs v d s : contents b = RawBrb (concat (imap adc_channels adcs)) -> Forall adc_ok adcs -> holding e names s -> running n v d s ->
  exists s', brb_event b s = Ok (true, s') /\ same_loop s s' /\
    running n (view_step (Hit adcs) v) (d ++ view_row (fTimeStamp (fEventHeader e)) (Hit adcs) v) s'.
Proof.
  intros Hb Hok Hs ([S1 S2 S3 S4] & Ht & Ha & Hrows). unfold brb_event. rewrite (ST_bind_Ok _ _ _ _ _ (member_Ok _ s)), S2. change (0 <? nPoints_max) with true. cbv iota.
  set (t := fTimeStamp (fEventHeader e)). set (c1 := set_var num_points (0 + 1) (self s)).
  set (c2 := Converter (vars c1) (<[0 := double_of_int t]> (evt_timestamp c1)) (V1730_wave c1) (temperatures c1) (tree c1) (fNChan c1)).
  unfold measurements_of. rewrite Hb. destruct (store_waves_ok _ (measured_samples adcs Hok) c2) as (c3 & E3 & (V1 & V2 & V3 & V4 & V5) & Hw).
  assert (W3 : forall ch, 0 <= ch -> wave_of c3 ch = v_waves (view_step (Hit adcs) v) ch).
  { intros ch Hch. rewrite Hw, update_wave by done. cbn [view_step v_waves]. by rewrite <- S3. }
  assert (T3 : temperatures_of c3 = v_temperatures v) by (rewrite <- S4; unfold temperatures_of; by rewrite V3).
  assert (R3 : row_shows n t (view_step (Hit adcs) v) (snapshot c3)).
  { apply snapshot_view; [by rewrite V5 | by rewrite V1 | rewrite V2; apply lookup_insert_eq | exact W3 | exact T3]. }
  assert (E : (_ ← set_member (set_var num_points (0 + 1)); e ← in_container GetMidasData; _ ← try_member (put_time 0 (double_of_int (fTimeStamp (fEventHeader e))));
               try_member (store_channels 0 (concat (imap adc_channels adcs)))) s = Ok (tt, with_self c3 s)).
  { rewrite (ST_bind_Ok _ _ _ _ _ (set_member_Ok _ _)). fold c1. rewrite (ST_bind_Ok _ _ _ _ _ (the_event e names (with_self c1 s) Hs)). fold t.
    rewrite (ST_bind_Ok _ _ _ _ _ (try_member_Ok (put_time 0 (double_of_int t)) (with_self c1 s) c2 eq_refl)). exact (try_member_Ok _ (with_self c2 (with_self c1 s)) c3 E3). }
  rewrite (ST_bind_Ok _ _ _ _ _ E). assert (Et : tree c3 = tree (self s)) by (by rewrite V4).
  destruct (fill_row (tree c3) (snapshot c3) (root s) ltac:(by rewrite Et)) as [Ha' Hr'].
  assert (Ef : Fill (with_self c3 s) = Ok (tt, with_root (tree_fill (tree c3) (snapshot c3) (root s)) (with_self c3 s))).
  { unfold Fill. cbn [self with_self root]. rewrite check_true; [done|]. rewrite Et, Ha. by rewrite (proj2 (Z.eqb_neq _ _) Ht). }
  rewrite (ST_bind_Ok _ _ _ _ _ Ef), (ST_bind_Ok _ _ _ _ _ (set_member_Ok _ _)). eexists. split; [reflexivity|].
  split; [by eexists _, (fDataContainer s), _; split; [by destruct s | done]|].
  assert (Z3 : forall l c, V1730_wave (foldl (fun c v => set_var v 0 c) c l) = V1730_wave c /\ temperatures (foldl (fun c v => set_var v 0 c) c l) = temperatures c /\
    tree (foldl (fun c v => set_var v 0 c) c l) = tree c /\ fNChan (foldl (fun c v => set_var v 0 c) c l) = fNChan c).
  { induction l as [|x l IH]; intros c; [done|]. apply (IH (set_var x 0 c)). }
  destruct (Z3 counters c3) as (Z3w & Z3t & Z3r & Z3n). set (c4 := foldl _ c3 counters) in *.
  match goal with |- running ?a ?b ?c (with_self _ ?q) => change (running a b c (with_self c4 q)) end. assert (Z3p : vars c4 num_points = 0) by reflexivity. clearbody c4.
  unfold running. cbn [self with_self with_root root]. rewrite Z3r, Hr', Et.
  split; [|split; [done | split; [by rewrite <- Et|]]].
  - constructor; [by rewrite Z3n, V5 | done | |].
    + intros ch Hch. unfold wave_of. rewrite Z3w. by apply W3.
    + unfold temperatures_of. rewrite Z3t. exact T3.
  - apply Forall2_app; [done|]. by constructor.
Qed.

(** Handling an event is one step. *)
Lemma mpmt_handle n v d s ev : carries e s -> running n v d s -> event_is bs ev ->
  exists s', mpmt_ProcessMidasEvent s = Ok (true, s') /\ same_loop s s' /\
    running n (view_step ev v) (d ++ view_row (fTimeStamp (fEventHeader e)) ev v) s'.
Proof.
  intros [Hc Hl] Hrun Hbs. unfold mpmt_ProcessMidasEvent. rewrite !(ST_bind_Ok _ _ _ _ _ (set_member_Ok _ _)). set (s0 := with_self _ _).
  assert (Hs0 : holding e [] s0) by (split; [exact Hc | exact (f_equal (map fBankName) Hl)]).
  assert (B0 : same_base s s0) by (unfold s0; repeat (eapply same_base_trans; [|apply same_base_self]); apply same_base_refl).
  assert (R0 : running n v d s0).
  { destruct Hrun as (S & H). split; [|exact H]. by eapply (shows_vars n v (self s)); [|apply S|..]. }
  clearbody s0. destruct ev as [adcs|main phidgets].
  - destruct Hbs as (b & Eb & Hok & Hw & Hn & more & Ed).
    destruct (GetBank_present e flags bs behind Hev Hne Hbehind Hdata TBRBRaw BRB0 [] s0 b Hs0 (fun F => F) Eb) as (pre & post & Em & G).
    destruct (G (RawBrb (concat (imap adc_channels adcs)))) as (s1 & E1 & Hs1 & B1 & F1).
    { rewrite (brb_decoded _ _ _ adcs []); [done | done | | done]. rewrite app_nil_r, Em, Ed, <- app_assoc. by apply words16_at_bytes. }
    rewrite (ST_bind_Ok _ _ _ _ _ E1). destruct (same_base_root _ _ B1) as (Er & _).
    match goal with |- context [brb_event ?o] => pose proof (brb_event_ok n _ o adcs v d s1 eq_refl Hok Hs1) as X end.
    destruct X as (s2 & E2 & L2 & R2); [unfold running in *; by rewrite F1, Er|].
    exists s2. split; [exact E2|]. split; [|exact R2]. eapply same_loop_trans; [|exact L2]. by apply same_base_loop, (same_base_trans s s0).
  - destruct Hbs as (Ha & Hm & Hp). rewrite (ST_bind_Ok _ _ _ _ _ (GetBank_absent e flags bs behind Hev Hne Hbehind Hdata TBRBRaw BRB0 [] s0 Hs0 (fun F => F) Ha)).
    destruct (bank_numbers_ok e flags bs behind Hev Hne Hbehind Hdata BRT0 4 3 0 (fun b i => x ← in_container (bank_float b i); mret (double_of_float x)) double_of_float [] main s0)
      as (s1 & names & E1 & B1 & Hs1 & Hn & (P1 & P2 & P3 & P4) & T1); [by intros b i t x E; rewrite (ST_bind_Ok _ _ _ _ _ E) | done | done | exact (fun F => F) | done |].
    destruct (bank_numbers_ok e flags bs behind Hev Hne Hbehind Hdata TMP0 8 6 8 (fun b i => in_container (bank_double b i)) (fun x => x) names phidgets s1)
      as (s2 & names2 & E2 & B2 & _ & _ & (Q1 & Q2 & Q3 & Q4) & T2); [done | done | done | intros [[]|F]%Hn; discriminate F | done |].
    assert (Em : mainboard s0 = Ok (tt, s1)) by exact E1. assert (Ep : phidget_temperatures s1 = Ok (tt, s2)) by exact E2.
    rewrite (ST_bind_Ok _ _ _ _ _ Em), (ST_bind_Ok _ _ _ _ _ Ep). exists s2. split; [done|]. pose proof (same_base_trans _ _ _ B1 B2) as B.
    split; [by apply same_base_loop, (same_base_trans s s0)|]. destruct (same_base_root _ _ B) as (Er & _). rewrite app_nil_r.
    destruct R0 as ([S1 S2 S3 S4] & H). unfold running. rewrite Q3, P3, Er. split; [|exact H]. constructor; cbn [view_step v_waves v_temperatures].
    + by rewrite Q4, P4.
    + by rewrite Q1, P1.
    + intros ch Hch. unfold wave_of. rewrite Q2, P2. by apply S3.
    + rewrite T2, T1, S4. f_equal. by destruct phidgets; [cbn; rewrite map_id|].
Qed.
End handler.

(** ** The state between events *)

Abbreviation entry := (file_entry mpmt_event).
Abbreviation entry_ok := (entry_good event_is).

(** The rows of a run, and what was seen last. *)
Definition entry_step (x : entry) (v : view) : view := match x with Physics _ _ _ ev => view_step ev v | _ => v end.
Definition entry_row (x : entry) (v : view) : list (Z * view) := match x with Physics h _ _ ev => view_row (fTimeStamp h) ev v | _ => [] end.
Fixpoint view_rows (l : list entry) (v : view) : list (Z * view) := match l with [] => [] | x :: l' => entry_row x v ++ view_rows l' (entry_step x v) end.

Section run.
Context {R V : Type} `{HR : Root row R} {HRL : @RootLaws row R HR} `{HV : MidasIO V} {HVL : @MidasIOLaws V HV}.
Abbreviation L := (event_loop converter R V).
Implicit Types s : L.

(** Nothing before the beginning of the run; then the view and the rows. *)
Abbreviation progress := (option (view * list (Z * view))).

Definition invariant (n : Z) (y : progress) s : Prop :=
  ready s /\ match y with None => shows n nothing_yet (self s) | Some (v, d) => fOutputFile s = true /\ running n v d s end.

Definition good (x : entry) (y : progress) : Prop := entry_ok x /\ (is_begin x = true <-> y = None).

Definition next (x : entry) (y : progress) : progress :=
  match y with None => Some (nothing_yet, []) | Some (v, d) => Some (entry_step x v, d ++ entry_row x v) end.

(** The run begins with a tree. *)
Lemma mpmt_begin n fname h l b s : raw_ok (h, l) -> event_kind h = 0x8000 -> invariant n None s ->
  exists s', process_event (read_as (h, l) b) fname s = Ok (tt, s') /\ invariant n (Some (nothing_yet, [])) s' /\ sys s' = sys s.
Proof.
  intros Hraw Hk (Hr & Hv). rewrite (process_begin (h, l) b fname s Hraw Hk). cbn [fst snd].
  set (s1 := with_run (to_int (fSerialNumber h)) (with_root (new_XmlOdb l (root s)) s)).
  destruct (OpenRootFile_ok (to_int (fSerialNumber h)) fname s1 (rd_enabled _ Hr) (rd_name _ Hr)) as [q Eq].
  cbn [SetFullOutputFileName mpmt]. rewrite (ST_bind_Ok _ _ _ _ _ (Eq : OpenRootFile (fun _ _ => []) (to_int (fSerialNumber h)) fname s1 = Ok (tt, with_output true (with_root q s1)))). cbn [BeginRun mpmt]. unfold mpmt_BeginRun. rewrite ST_bind_eq. cbn [root with_output with_root]. destruct (new_TTree q) as [t q'] eqn:Et.
  destruct (new_tree q) as (Ha & Ht & Hrows). rewrite Et in Ha, Ht, Hrows. cbn [fst snd] in Ha, Ht, Hrows.
  rewrite !(ST_bind_Ok _ _ _ _ _ (set_member_Ok _ _)), set_member_Ok. eexists. split; [reflexivity|]. split; [|done]. split; [by destruct Hr; constructor|]. split; [done|].
  unfold running. cbn [self with_self root with_root tree set_var set_tree]. split; [|split; [exact Ht | split; [exact Ha | by rewrite Hrows]]].
  eapply (shows_vars n nothing_yet (self s)); [exact Hv | apply (sh_points _ _ _ Hv) | done..].
Qed.

Lemma mpmt_entry n fname x b y s : good x y -> from_malloc (V := V) (fDataSize (raw_of x).1) b -> invariant n y s ->
  exists s', process_event (read_as (raw_of x) b) fname s = Ok (tt, s') /\ invariant n (next x y) s' /\ sys s' = sys s.
Proof.
  intros [Hok Hbegin] Hb Hi. destruct x as [h l|h flags bs ev|h l|h l]; cbn [is_begin] in Hbegin.
  - rewrite (proj1 Hbegin eq_refl) in *. destruct Hok as [Hraw Hk]. exact (mpmt_begin n fname h l b s Hraw Hk Hi).
  - destruct y as [[v d]|]; [|by destruct Hbegin as [_ H]; specialize (H eq_refl)]. destruct Hi as (Hr & Ho & Hrun). pose proof Hok as (_ & _ & _ & _ & Hev & Hne & Hbs & _).
    set (P := fun s2 : L => fOutputFile s2 = true /\ running n (view_step ev v) (d ++ view_row (fTimeStamp h) ev v) s2).
    destruct (process_physics (HA := mpmt) event_is h flags bs ev b fname s P Hok Hb Hr (fun _ => eq_refl)) as (s2 & E2 & [O2 S2] & R2 & V2).
    + intros e behind cc Hbehind Hd He s1 C1 R1. destruct (mpmt_handle e flags bs behind Hev Hne Hbehind Hd n v d s1 ev C1 Hrun Hbs) as (s2 & E2 & B2 & S2).
      rewrite He in S2. destruct (same_loop_run _ _ B2) as [B3 O3]. exists s2. split; [exact E2|]. split; [exact B3|]. split; [by rewrite O3 | exact S2].
    + eexists. split; [exact E2|]. split; [|exact V2]. split; [exact R2|]. by split.
  - destruct y as [[v d]|]; [|by destruct Hbegin as [_ H]; specialize (H eq_refl)]. destruct Hok as [_ Hk]. exists s. split; [by apply process_end|]. split; [|done].
    cbn [next entry_step entry_row]. by rewrite app_nil_r.
  - destruct y as [[v d]|]; [|by destruct Hbegin as [_ H]; specialize (H eq_refl)]. destruct Hok as (_ & Hk & Hz). exists s. split; [by apply process_message|]. split; [|done].
    cbn [next entry_step entry_row]. by rewrite app_nil_r.
Qed.

Lemma mpmt_invariant_sys n y v s : invariant n y s -> invariant n y (with_sys v s).
Proof. intros (Hr & H). split; [by destruct Hr; constructor | exact H]. Qed.

Lemma mpmt_last_state l : forall v d, exists v', last_state next l (Some (v, d)) = Some (v', d ++ view_rows l v).
Proof.
  induction l as [|x l IH]; intros v d; [exists v; cbn; by rewrite app_nil_r|]. cbn [last_state next view_rows]. destruct (IH (entry_step x v) (d ++ entry_row x v)) as [v' ->].
  exists v'. by rewrite <- app_assoc.
Qed.

Lemma mpmt_all_good l : forall v d, Forall entry_ok l -> Forall (fun x => is_begin x = false) l -> all_good good next l (Some (v, d)).
Proof.
  induction l as [|x l IH]; intros v d Hl Hb; [done|]. split; [|apply IH; [exact (Forall_inv_tail Hl) | exact (Forall_inv_tail Hb)]].
  split; [exact (Forall_inv Hl)|]. by rewrite (Forall_inv Hb).
Qed.

(** C2: The converter is called with a file that has the beginning of a run and then data,
    messages and the end of the run, whatever pieces the system delivers it in and whether or not it
    was cut in an event.  The program ends, and the tree that is written has one row for every event
    of the BRB, in order, with the time of the event, the waveforms of the 20 channels (what the event brought
    for a channel, or else the last that was brought for it, or else zeros) and the last temperatures of each
    place. *)
Theorem mpmt_rows fuel fname h data l cut tree0 ngood nbad r v : no_option fname -> opens fname v (file_bytes raw_of (BeginOfRun h data :: l) cut) -> cut_event cut ->
  Forall entry_ok (BeginOfRun h data :: l) -> Forall (fun x => is_begin x = false) l ->
  Z.of_nat (length l) < 2 ^ 31 - 1 -> (length l + 1 < fuel)%nat ->
  exists s' r', mpmt_main fuel [fname] tree0 ngood nbad r v = Ok (0, s') /\ root s' = write_and_close r' /\
    Forall2 (fun x w => row_shows 20 x.1 x.2 w) (view_rows l nothing_yet) (tree_rows (tree (self s')) r').
Proof.
  intros Hn Ho Hcut Hl Hb Hmax Hfuel. unfold mpmt_main. set (s0 := ScanToTreeConverter tree0 ngood nbad r v).
  rewrite (ExecuteLoop_files (HA := mpmt) fuel fname [] s0 eq_refl eq_refl ltac:(by repeat constructor)).
  destruct (file_ok raw_of good next (invariant 20) (mpmt_entry 20) (fun x y H => proj1 (proj1 H)) (mpmt_invariant_sys 20)
    (fun y s H => rd_max _ (proj1 H)) (fun _ _ _ _ => eq_refl) fuel fname (BeginOfRun h data :: l) cut None (with_offline true s0)) as (s2 & v2 & v' & I2 & E); try done.
  - split; [by constructor; cbn; lia || done|]. constructor; [done | done | |]; by vm_compute.
  - split; [split; [exact (Forall_inv Hl) | done]|]. apply mpmt_all_good; [exact (Forall_inv_tail Hl) | exact Hb].
  - cbn [length]. lia.
  - cbn [length]. lia.
  - cbn [last_state next] in I2. destruct (mpmt_last_state l nothing_yet []) as [w Ew]. rewrite Ew in I2. destruct I2 as (_ & O2 & S2).
    destruct (closed_self s2 v2 v') as [Es Er]. rewrite ST_bind_eq. rewrite (process_files_cons _ _ _ _ _ _ Hn E). cbn [process_files].
    exists (with_sys v' (closed (with_sys v2 s2))), (root s2). split; [reflexivity|]. split; [by apply Er|]. rewrite Es. apply S2.
Qed.
End run.

(** ** A run *)

#[local] Existing Instance one_file.
#[local] Existing Instance one_file_laws.

Definition demo_main : list Z := [0x41c80000; 0x42280000; 0x41a00000].
Definition demo_phidgets : list Z := map double_of_int [21; 22; 23; 24; 25; 26].
Definition demo_brb : bank := bank_of BRB0 4 (concat (map (le_bytes 2) (brb_words [demo_adc] ++ replicate 533 0))).

Definition demo_run : list entry :=
  [demo_physics 101 (bank_of BRT0 9 (concat (map (le_bytes 4) demo_main))) (Sensors (Some demo_main) None);
   demo_physics 102 (bank_of TMP0 10 (concat (map (le_bytes 8) demo_phidgets))) (Sensors None (Some demo_phidgets));
   demo_physics 103 demo_brb (Hit [demo_adc]);
   EndOfRun (demo_header 0x8001 0 104 demo_message) demo_message].
Definition demo_begin : entry := BeginOfRun (demo_header 0x8000 4711 100 demo_xml) demo_xml.
Definition demo_disk : disk := Disk (file_bytes raw_of (demo_begin :: demo_run) demo_cut) [] 6.

Lemma mpmt_demo_ok : Forall entry_ok (demo_begin :: demo_run).
Proof.
  repeat (apply Forall_cons; split); [..| by constructor].
  - by split; [apply xml_raw|].
  - apply demo_physics_ok; [lia | by vm_compute | by vm_compute | by vm_compute |]. split; [by vm_compute|]. split; [|by vm_compute]. unfold numbers_bank.
    match goal with |- context [first_named ?n ?l] => let b := eval vm_compute in (first_named n l) in change (first_named n l) with b end. cbv iota.
    split; [done|]. split; [by_computation|]. exists []. by vm_compute.
  - apply demo_physics_ok; [lia | by vm_compute | by vm_compute | by vm_compute |]. split; [by vm_compute|]. split; [by vm_compute|]. unfold numbers_bank.
    match goal with |- context [first_named ?n ?l] => let b := eval vm_compute in (first_named n l) in change (first_named n l) with b end. cbv iota.
    split; [done|]. split; [by_computation|]. exists []. by vm_compute.
  - apply demo_physics_ok; [lia | by vm_compute | by vm_compute | by vm_compute |]. exists demo_brb. split; [by vm_compute|].
    split; [constructor; [exact demo_adc_ok | constructor]|]. split; [by_computation|]. split; [by vm_compute|]. exists (concat (map (le_bytes 2) (replicate 533 0))).
    unfold demo_brb, bank_of. cbn [b_data]. by rewrite map_app, concat_app.
  - split; [apply text_raw; lia | done].
Qed.

(** What the row shows: the first four channels, and the temperatures. *)
Definition demo_view : view := View (fun ch => wave_after [demo_adc] ch (replicate 1024 0))
  (map double_of_int [25; 42; 20; 0; 0; 0; 0; 0; 21; 22; 23; 24; 25; 26; 0; 0; 0; 0; 0; 0]).

Lemma mpmt_rows_witness : exists s' r', mpmt_main 8 [str "run.mid"] 77 0 0 (SimRoot [] []) demo_disk = Ok (0, s') /\ root s' = write_and_close r' /\
  exists w, tree_rows (tree (self s')) r' = [w] /\ row_shows 20 103 demo_view w.
Proof.
  destruct (mpmt_rows 8 (str "run.mid") (demo_header 0x8000 4711 100 demo_xml) demo_xml demo_run demo_cut 77 0 0 (SimRoot [] []) demo_disk) as (s' & r' & E & Er & H).
  - reflexivity.
  - exists (OnFile (set_in (str "run.mid") 3 false false TMidasFile) demo_disk). done.
  - exact demo_cut_event.
  - exact mpmt_demo_ok.
  - by repeat constructor.
  - cbn. lia.
  - cbn. lia.
  - exists s', r'. split; [exact E|]. split; [exact Er|]. assert (Ev : view_rows demo_run nothing_yet = [(103, View (fun ch => wave_after [demo_adc] ch (replicate 1024 0)) (v_temperatures demo_view))]).
    { unfold demo_run. cbn [view_rows entry_row entry_step demo_physics view_row app fTimeStamp demo_header]. by do 2 f_equal. }
    rewrite Ev in H. apply Forall2_cons_inv_l in H as (w & ws & Hw & Hws & E2). apply Forall2_nil_inv_l in Hws. subst ws. exists w. split; [exact E2 | exact Hw].
Defined.

(** ** Outside the hypotheses *)

(** A file that does not have the beginning of the run (one of the others of a long
    run): the tree is the number that the memory had. *)
Example no_begin_of_run :
  match mpmt_main 8 [str "run.mid"] 77 0 0 (SimRoot [] []) (Disk (file_bytes raw_of [demo_physics 103 (bank_of BRB0 4 (replicate 1066 0)) (Hit [])] []) [] 6) with Crash NullDeref => True | _ => False end.
Proof. by vm_compute. Qed.

(** Any option that begins with [-n] sets the number of channels; a short one makes the
    program read behind it. *)
Example short_option :
  (match mpmt_main 8 [str "-n"; str "run.mid"] 77 0 0 (SimRoot [] []) (Disk (file_bytes raw_of [demo_begin] []) [] 6) with Crash OutOfBounds => True | _ => False end) /\
  (match mpmt_main 8 [str "-nchan16"; str "run.mid"] 77 0 0 (SimRoot [] []) (Disk (file_bytes raw_of [demo_begin] []) [] 6) with Ok (_, s) => fNChan (self s) = 16 | _ => False end) /\
  (match mpmt_main 8 [str "-number7"; str "run.mid"] 77 0 0 (SimRoot [] []) (Disk (file_bytes raw_of [demo_begin] []) [] 6) with Ok (_, s) => fNChan (self s) = 0 | _ => False end).
Proof. by vm_compute. Qed.
